(* ===== verification/_CoqProject ===== *)
-Q . S2P
Prelude.v
GoStrings.v
FsPath.v
OsFs.v
PathOps.v
Database.v
DatabaseSpec.v
RenameTree.v
StoreTheorems.v
Leases.v
PathLocks.v
Hash.v
World.v
Mutations.v
Frames.v
Services.v
Containment.v
Writes.v
Conflicts.v
Ranges.v
Examples.v
Runner.v
Janitor.v
Recorder.v
BuildLog.v
BuildUnit.v
BuildService.v
BuildTheorems.v
JsonStrings.v
StringLists.v
Threads.v
DeviceRegistry.v
ControlPlane.v
RegistryEffects.v
RegistryInvariant.v
RegistryDelivery.v
RegistryContracts.v
ControlTheorems.v
GoTime.v
Security.v
Artifacts.v
TlsTheorems.v
Interceptors.v
TlsExamples.v
StrConv.v
AppConfig.v
ConfigTheorems.v
Sqlite.v
Restore.v
RestoreTheorems.v
Json.v
JsonTheorems.v
Net.v
Bundle.v
BundleTheorems.v
ServerConfig.v
ServerConfigTheorems.v
ExclFiles.v
Preflight.v
PreflightTheorems.v
Walks.v
Analyzer.v
Maintenance.v
MaintenanceTheorems.v
Runtime.v
RuntimeStart.v
RuntimeLife.v
RuntimeLifeTheorems.v
RuntimeShutdown.v
AdminRuntime.v
RuntimeExamples.v
ClientImport.v
ClientImportTheorems.v
Client.v
ClientTheorems.v
Commands.v
Windows.v
QaSuite.v
QaRuns.v
QaTheorems.v
