(* ===== verification/Prelude.v ===== *)
(** * Roodox server: a verification development

    Roodox is a file server over gRPC.  It serves one project directory: clients
    read and write files in it, every accepted write gets a version, writes
    based on a stale version are kept as conflict copies, leases tell clients
    who is editing, and the server builds units of the project on request.
    This library models the Go code of the repository - the server
    (src/internal), its commands, the client library, the import program and the
    QA suite (src/cmd, src/client) - and proves what makes it correct.

    ** Parts of the program and the files that model them

    Each file opens with what it holds.  A definition has the name of the Go
    function it translates wherever Rocq allows it.

    - Prelude (this file): results, the state monad [go] in which a state
      change made before an error is kept, as in Go; error values and
      [errors.Is]; gRPC status and internal/server/error.go; machine integers
      with their wrap-around; the interface [SortSlice] of [sort.Slice].
    - GoStrings: package [strings], byte for byte; the tables of Unicode are
      the interface [GoUnicode].
    - FsPath: path/filepath (Unix) and internal/fs/path.go, ignore.go,
      internal/conflict, internal/server/path_normalization.go.
    - OsFs, PathOps: a file tree with the calls of package [os] and
      path/filepath on it, every call with injected faults, and
      internal/fs/filesystem.go.
    - Database, DatabaseSpec, RenameTree, StoreTheorems: internal/db/version.go
      and meta.go.  The four tables are finite maps; an SQL statement is the
      function it computes on them; transactions run, fail and retry as in
      [withWriteTx], with faults at each statement, begin and commit.
    - Leases: internal/lock/manager.go and internal/server/lock_service.go.
    - PathLocks: internal/server/path_locker.go as interleaved threads.
    - Hash: SHA-256 and internal/fs/hash.go.
    - World, Mutations, Services: the state that requests share, the handlers of
      internal/server/core_service.go, sync_service.go, version_service.go and
      file_mutation_support.go, and one step that serves any request.
    - Frames, Containment, Writes, Conflicts, Ranges, Examples: reasoning about
      all handlers by the calls they make, and the theorems on them.
    - Runner, Janitor: internal/cleanup/runner.go as a state machine, and
      internal/serverapp/file_janitors.go and artifact_janitor.go.
    - Recorder: internal/observability/recorder.go.
    - BuildLog, BuildUnit, BuildService, BuildTheorems:
      internal/server/build_service.go.
    - JsonStrings, StringLists: the JSON text of a list of strings, as package
      encoding/json writes and reads it, and the lists of labels and paths that
      are stored in that form.
    - Threads: programs whose accesses to a shared store are atomic and may
      fail, their interleaving by a server, and the rely and guarantee rules
      the proofs about them use.
    - DeviceRegistry: internal/db/device_registry.go and
      device_registry_admin.go, the four device tables.
    - ControlPlane: internal/server/control_plane_service.go,
      control_plane_support.go, and the device requests of
      admin_console_service.go, on the registry and the leases.
    - RegistryEffects, RegistryInvariant, RegistryDelivery, RegistryContracts,
      ControlTheorems: what each handler may do to the tables, the newest-first
      order of the SQL queries, and the theorems and concrete runs of the device
      requests.
    - GoTime: calendar dates, as package time computes them.
    - Security, Artifacts, TlsTheorems, TlsExamples: the certificates of
      internal/server/security.go on the file tree; reasoning about a handful of
      files that are written side by side; the theorems, and runs of the code.
    - StrConv, AppConfig, ConfigTheorems: numbers and truth values as package
      strconv reads them, and internal/appconfig/config.go with the theorems on
      it.
    - Sqlite: the database file: internal/db/db.go and migrations.go, with the
      SQL driver as the interface [Engine].
    - Restore, RestoreTheorems: internal/db/restore.go and
      resource_lock_other.go on the file tree; reasoning about the names beside
      a database; the theorems and runs.
    - Maintenance, MaintenanceTheorems: internal/serverapp/
      database_maintenance.go, a job of a Runner.
    - Interceptors: internal/server/logging.go and the authentication of
      security.go, through which every RPC passes.
    - Json, JsonTheorems: JSON values, as package encoding/json reads, compacts
      and indents them; printing and parsing again.
    - Net: the addresses of package net that the code takes apart.
    - Bundle, BundleTheorems: internal/accessbundle/bundle.go, the request that
      issues a bundle and how cmd/roodox_client_import reads it.
    - ServerConfig, ServerConfigTheorems: internal/serverapp/
      control_plane_config.go, and how the commands of cmd/roodox_server reach
      the server.
    - ExclFiles: files that are made exclusively and removed, and what leaves
      them alone.
    - Preflight, PreflightTheorems: internal/server/preflight.go.
    - Walks, Analyzer: what filepath.WalkDir visits, and
      internal/analyze/analyzer.go with the RPC on it.
    - Runtime, RuntimeStart: [Start] of internal/serverapp/runtime.go with its
      locks and the writer of the log; what it acquires and gives back.
    - RuntimeLife, RuntimeLifeTheorems, RuntimeShutdown: a started server as a
      machine of requests, calls of [Stop] and the goroutine of Serve.
    - AdminRuntime: internal/serverapp/runtime_admin.go, the requests about the
      server and the commands that print the answers, with the theorems.
    - RuntimeExamples: a server that is started, asked, stopped and refused.
    - ClientImport, ClientImportTheorems: cmd/roodox_client_import/main.go with
      base64 and the queries of URIs; what a connection code carries, and
      imports that are repeated.
    - Client, ClientTheorems: client/roodox_client.go on the generated stubs,
      and the way from an issued bundle to an admitted call.
    - Commands: cmd/roodox_server/main.go: which command the flags ask for and
      what each does to the files and to the running server.
    - Windows: the locks, the service and the choice of it in the files that are
      built on Windows only.
    - QaSuite, QaRuns, QaTheorems: internal/qasuite, cmd/roodox_qa and
      cmd/testclient on a machine with files and a clock and any server, the
      soak run as interleaved goroutines; where the files of a run are, that
      the loops and goroutines end, and what a passed probe has seen.

    Where a file of theorems has a module of examples, it follows them.

    ** How the parts interact

    A handler normalises its paths, takes the path locks, and then changes the
    tree and the tables; a [World] holds both, with the calls of hooks and
    metrics and the locks held.  Handlers on different paths do interleave in
    the server; PathLocks proves that the locks exclude and cannot deadlock,
    and Mutations runs a handler as one step of the paths it has locked.  The
    file-system root and the clock of a request are in [Env], with its faults.
    The janitors and the build service run their cleanups as jobs of a Runner.
    The build service is a machine of goroutines of its own, one per job, with
    its map of jobs, its slots and its locks.

    The device requests share no lock.  A handler is cut where it uses the
    database: the server has one connection, so that a statement, or a
    transaction from its begin to its commit, is one atomic access, and a
    request that serves several of them can be overtaken in between.  Any access may fail
    and then leaves the tables as they were.  RegistryEffects reduces every
    handler to the effects it may have on the tables; the invariants are proved
    against that interface.

    The interceptors stand before all services, so they are proved for any
    handler on any state.  The server reads or makes its certificates at every
    start; the command that rotates them works on the same four files.

    [Start] calls the preflight checks, the locks, the database, the janitors
    and the maintenance manager in this order and keeps what it holds in a
    [Host]; the life machine begins in the state that [Start] answers, and the
    console asks that machine.  What others do to the file tree meanwhile is a
    step of the machine, restricted to leave the lock files alone.  A bundle
    goes from the configuration through the console into a connection code, from
    there through the import program to files, and through the client library
    to the metadata of a call; the theorem on it composes them with the
    interceptors of the server that issued it.

    ** What the theorems show

    - Paths: every client path is refused or resolves below the root, and has
      one canonical key; no request changes a node outside the root, whatever
      fails.  The exception that the code has is a theorem of its own.
    - Store: an invariant of the four tables in every reachable state; history
      is append-only; the contracts of a save and of a tree rename; exactly
      when and how long [withWriteTx] retries.
    - Files: an accepted write takes effect in the tree, the metadata, the
      history and the stored content together; a stale write changes nothing
      but conflict copies; range writes against an overlay; every request keeps
      the store invariant and gives its path locks back.  Two examples show
      what the code loses: the content of empty files, and the target of a
      rename onto a tracked file.
    - Locks: path locks exclude, cannot deadlock and every run of them ends; a
      lease excludes other clients while it is in force, through the manager and
      over the wire; sweeping expired leases is invisible.
    - Builds: mutual exclusion and the limit on workers; no build waits for
      ever; outcomes are final; what a cleanup may remove; the log keeps the end
      of what was written; the choice of a CMake target.
    - Housekeeping: the retention policy of the janitors, the runner's service
      of triggers, and the metrics against reference definitions on the history
      of calls.
    - Devices: the tables are well formed in every reachable state; an action
      is never stored as delivered unless a heartbeat carried it; a device whose
      policy changed is told so until it reads it; what an update of a policy
      answers and changes; how heartbeats drain the pending actions; the
      retention of diagnostics; requests about unknown devices; the round trip
      of the stored lists.  Examples show what the interleaving of requests
      costs: the expected revision of an update does not protect it, and a
      configuration can be served under the revision of its predecessor.
    - Security: the shared secret guards every handler; a start of the server
      makes a certificate that the root has signed and that later starts load;
      a usable root is never replaced by a start; what a rotation replaces and
      backs up; what is left of a write that fails; inspection and start agree
      on what is valid.  Examples show an expired root that signs on, a root
      that is replaced because it could not be examined, and a file lost by a
      rename that failed.

    - Configuration: whatever is loaded can be used, and what is saved is read
      back.
    - Database file: whatever a restore answers, the bytes of the old database
      are in its file or in the safety backup; one that succeeds has installed
      the backup, and one that fails is undone when the file system works; the
      clean-up of backups keeps the newest.  Maintenance never begins by
      itself: that is a theorem too.
      Examples show a rename that loses the database and a rollback that loses
      what only the write-ahead log held.
    - Life of the server: a start that fails gives back what it took; one
      server at a time holds a database and a state directory; one request to
      shut down is accepted; a server told to stop ends within a bounded number
      of its steps and has given back everything; the console reports the health
      of the machine, and of a backup what it answered.  Examples show a runner
      that a failed start forgets, and a lock that is given up while the
      database is still open.
    - Start-up and joining: what passed checks guarantee; a scan finds every
      unit once; the bundle that is issued is read back and leads to the
      address the server listens on; a connection code is decoded to what was
      put into it, however it was pasted; and the client that imports it is
      admitted by the server that issued it.
    - Windows: the locks exclude whatever is interleaved and are granted again
      after a process has died; what the service reports to its manager.
    - Commands and tests: what each command can change and print; a QA run
      leaves nothing behind and touches nothing outside its root; its waiting
      ends, the goroutines of a soak run wind down and the first failure is
      reported; the restart probe passes exactly on an outage that it saw.

    ** Bounds and fuel

    Recursion that is not structural has fuel that its caller computes: a walk
    of the tree gets its size plus one, which bounds its depth; a pattern match
    gets the length of the pattern; the search for a free conflict name stops
    where the code does.  The retry loop has the five attempts of the code.  A
    signed or unsigned integer of the code is a [Z], with [wrap_int64] and the
    like where it can overflow; times are nanoseconds since 1970.

    ** What is not modelled

    Logging; permission bits and symbolic links; the Windows side of
    path/filepath (paths are Unix paths); the SQL engine below the statements: what a
    statement of the store or the registry does is written out as a function on
    the tables, and the statements that make the tables are texts given to the
    driver; the tools that builds run and the JSON of their replies, which
    are parameters; gRPC transport.  How the SQL driver scans a NULL is the
    parameter [SqlDriver], and the text of the errors of encoding/json is left
    out.  RSA, X.509 and PEM are the interface [X509], with the laws that the
    proofs use, and the local time zone is a fixed offset.  The SQL driver, the
    network, the programs that are run and the random parts of names are
    classes ([Engine], [Network], [OsExec]); of grpc.Server the life machine
    has what its documentation says of Serve, GracefulStop and Stop.  A started
    service is in a list of the [Host] until it is closed; what it does is the
    subject of its own file.  Of Windows,
    the calls on file handles are the class [WinFiles] with laws, and the
    service manager is what it sends.  Package flag is left out: a program
    begins with the values of its flags.  Of
    grpc on the side of the client the development has the options of a
    connection and the metadata they make; a call of a generated stub is a
    field of the record [Stubs].  Deadlines of contexts are left out, a server
    may answer a call with any error at any time.  Of package net/url the query
    is written out and which texts are no URIs is the class [GoUrl]. *)

From stdpp Require Export base gmap list strings sorting.
From Stdlib Require Export ZArith Lia.
From Stdlib Require Strings.Byte.
#[global] Set Default Goal Selector "!".
#[global] Arguments String.append !s1%_string s2%_string / : simpl nomatch.

(** ** Results *)

(** A Go call that returns [(value, error)]. *)
Inductive result (E A : Type) :=
| Ok (a : A)
| Err (e : E).
Arguments Ok {E A} a.
Arguments Err {E A} e.

Definition is_ok {E A} (r : result E A) : bool :=
  match r with Ok _ => true | Err _ => false end.

Definition res_bind {E A B} (r : result E A) (k : A → result E B) : result E B :=
  match r with Ok a => k a | Err e => Err e end.

Definition map_err {E F A} (f : E → F) (r : result E A) : result F A :=
  match r with Ok a => Ok a | Err e => Err (f e) end.

Declare Scope go_scope.
Delimit Scope go_scope with go.

Notation "'try' x ':=' m 'in' k" := (res_bind m (λ x, k))
  (at level 10, x pattern, m at level 100, k at level 200,
   format "'try'  x  ':='  m  'in' '//' k") : go_scope.

(** ** Stateful computations

    A Go function body that reads and writes a shared state [W] and may
    return an error.  A state change made before an error is kept: Go has no
    rollback. *)
Definition go (W E A : Type) : Type := W → W * result E A.

Definition go_ret {W E A} (a : A) : go W E A := λ w, (w, Ok a).
Definition go_fail {W E A} (e : E) : go W E A := λ w, (w, Err e).
Definition go_bind {W E A B} (m : go W E A) (k : A → go W E B) : go W E B :=
  λ w, match m w with
       | (w', Ok a) => k a w'
       | (w', Err e) => (w', Err e)
       end.
(** [go_catch m k] hands the whole [(value, error)] pair to [k]: the shape of
    [v, err := f(); if err != nil { ... }] when the error is not returned. *)
Definition go_catch {W E F A B} (m : go W E A) (k : result E A → go W F B) : go W F B :=
  λ w, let '(w', r) := m w in k r w'.
Definition go_lift {W E A} (r : result E A) : go W E A := λ w, (w, r).
Definition go_read {W E A} (f : W → result E A) : go W E A := λ w, (w, f w).
Definition go_map_err {W E F A} (f : E → F) (m : go W E A) : go W F A :=
  λ w, let '(w', r) := m w in (w', map_err f r).
Definition go_get {W E A} (f : W → A) : go W E A := λ w, (w, Ok (f w)).
Definition go_modify {W E} (f : W → W) : go W E unit := λ w, (f w, Ok tt).

Notation "'let!' x ':=' m 'in' k" := (go_bind m (λ x, k))
  (at level 10, x pattern, m at level 100, k at level 200,
   format "'let!'  x  ':='  m  'in' '//' k") : go_scope.
Notation "'catch!' x ':=' m 'in' k" := (go_catch m (λ x, k))
  (at level 10, x pattern, m at level 100, k at level 200,
   format "'catch!'  x  ':='  m  'in' '//' k") : go_scope.
Notation "m ';;!' k" := (go_bind m (λ _, k))
  (at level 199, k at level 200, right associativity) : go_scope.
Open Scope go_scope.

(** ** Go error values *)

(** The sentinels of package [os] that the code tests with [errors.Is]. *)
Inductive sentinel := ErrNotExist | ErrPermission | ErrExist | ErrInvalid.

(** The [errno] values that the modelled system calls return. *)
Inductive errno :=
| ENOENT | EACCES | EPERM | EEXIST | ENOTEMPTY | ENOTDIR | EISDIR | EINVAL | EIO | ENOSPC.

#[global] Instance sentinel_eq_dec : EqDecision sentinel.
Proof. solve_decision. Defined.
#[global] Instance errno_eq_dec : EqDecision errno.
Proof. solve_decision. Defined.

Definition sentinel_text (s : sentinel) : string :=
  match s with
  | ErrNotExist => "file does not exist"
  | ErrPermission => "permission denied"
  | ErrExist => "file already exists"
  | ErrInvalid => "invalid argument"
  end.

Definition errno_text (e : errno) : string :=
  match e with
  | ENOENT => "no such file or directory"
  | EACCES => "permission denied"
  | EPERM => "operation not permitted"
  | EEXIST => "file exists"
  | ENOTEMPTY => "directory not empty"
  | ENOTDIR => "not a directory"
  | EISDIR => "is a directory"
  | EINVAL => "invalid argument"
  | EIO => "input/output error"
  | ENOSPC => "no space left on device"
  end.

(** [syscall.Errno.Is] of the Go runtime. *)
Definition errno_is (e : errno) (s : sentinel) : bool :=
  match s, e with
  | ErrPermission, (EACCES | EPERM) => true
  | ErrExist, (EEXIST | ENOTEMPTY) => true
  | ErrNotExist, ENOENT => true
  | _, _ => false
  end.

(** Go [error] values, as the code builds them. *)
Inductive goerr :=
| ErrSentinel (s : sentinel)                      (* os.ErrNotExist, ... *)
| ErrNew (text : string)                          (* errors.New, driver errors *)
| ErrPath (op path : string) (e : errno)          (* *fs.PathError *)
| ErrLink (op old new : string) (e : errno)       (* *os.LinkError *)
| ErrWrap (pre : string) (e : goerr)              (* fmt.Errorf(pre + ": %w", e) *)
| ErrWrapL (e : goerr) (post : string).           (* fmt.Errorf("%w: " + post, e) *)

(** [err.Error()]. *)
Fixpoint err_text (e : goerr) : string :=
  match e with
  | ErrSentinel s => sentinel_text s
  | ErrNew t => t
  | ErrPath op path n => op +:+ " " +:+ path +:+ ": " +:+ errno_text n
  | ErrLink op old new n => op +:+ " " +:+ old +:+ " " +:+ new +:+ ": " +:+ errno_text n
  | ErrWrap pre e => pre +:+ ": " +:+ err_text e
  | ErrWrapL e post => err_text e +:+ ": " +:+ post
  end.

(** [errors.Is(err, sentinel)]. *)
Fixpoint errors_Is (e : goerr) (s : sentinel) : bool :=
  match e with
  | ErrSentinel s' => bool_decide (s' = s)
  | ErrNew _ => false
  | ErrPath _ _ n | ErrLink _ _ _ n => errno_is n s
  | ErrWrap _ e | ErrWrapL e _ => errors_Is e s
  end.

(** ** gRPC status *)

Inductive Code :=
| OK | InvalidArgument | NotFound | AlreadyExists | PermissionDenied
| FailedPrecondition | Internal | Unauthenticated.
#[global] Instance Code_eq_dec : EqDecision Code.
Proof. solve_decision. Defined.

Record status := Status { st_code : Code; st_msg : string }.

(** [toGrpcError] (internal/server/error.go), on a non-nil error. *)
Definition toGrpcError (e : goerr) : status :=
  if errors_Is e ErrNotExist then Status NotFound (err_text e)
  else if errors_Is e ErrPermission then Status PermissionDenied (err_text e)
  else if errors_Is e ErrExist then Status AlreadyExists (err_text e)
  else if errors_Is e ErrInvalid then Status InvalidArgument (err_text e)
  else Status Internal (err_text e).

Definition invalidArgument (message : string) : status := Status InvalidArgument message.
Definition failedPrecondition (message : string) : status := Status FailedPrecondition message.

(** ** Machine integers *)

Open Scope Z_scope.

Definition two63 : Z := 9223372036854775808.
Definition two64 : Z := 18446744073709551616.
Definition two32 : Z := 4294967296.
Definition maxInt64 : Z := two63 - 1.

(** Wrap-around of Go's fixed-width arithmetic. *)
Definition wrap_int64 (z : Z) : Z := (z + two63) mod two64 - two63.
Definition wrap_uint64 (z : Z) : Z := z mod two64.
Definition wrap_uint32 (z : Z) : Z := z mod two32.

Definition is_int64 (z : Z) : Prop := - two63 ≤ z < two63.
Definition is_uint64 (z : Z) : Prop := 0 ≤ z < two64.
Definition is_uint32 (z : Z) : Prop := 0 ≤ z < two32.

Lemma wrap_int64_id z : is_int64 z → wrap_int64 z = z.
Proof.
  unfold is_int64, wrap_int64, two63, two64. intros H.
  rewrite Z.mod_small; lia.
Qed.

Lemma wrap_int64_range z : is_int64 (wrap_int64 z).
Proof.
  unfold is_int64, wrap_int64, two63, two64.
  pose proof (Z.mod_pos_bound (z + 9223372036854775808) 18446744073709551616).
  lia.
Qed.

Lemma wrap_int64_add_l a b : wrap_int64 (wrap_int64 a + b) = wrap_int64 (a + b).
Proof.
  unfold wrap_int64. f_equal.
  replace ((a + two63) mod two64 - two63 + b + two63) with ((a + two63) mod two64 + b) by lia.
  rewrite Zplus_mod_idemp_l. f_equal. lia.
Qed.

(** ** Go's sort.Slice

    [sort.Slice] promises a permutation of its input, sorted for a [less]
    that is a strict weak order; the order of elements that compare equal is
    unspecified.  The components that sort are proved against this
    interface; [merge_sort_slice] is one implementation of it. *)
Class StrictWeakOrder {A} (less : A → A → bool) : Prop := {
  less_asym x y : less x y = true → less y x = false;
  less_neg_trans x y z : less y x = false → less z y = false → less z x = false;
}.

(** The same for the elements of a list only. *)
Record weak_order_on {A} (less : A → A → bool) (l : list A) : Prop := {
  wo_asym x y : x ∈ l → y ∈ l → less x y = true → less y x = false;
  wo_neg_trans x y z :
    x ∈ l → y ∈ l → z ∈ l → less y x = false → less z y = false → less z x = false;
}.

Class SortSlice := {
  sort_slice {A} (less : A → A → bool) (l : list A) : list A;
  sort_slice_perm {A} (less : A → A → bool) (l : list A) : sort_slice less l ≡ₚ l;
  sort_slice_sorted_on {A} (less : A → A → bool) (l : list A) :
    weak_order_on less l → StronglySorted (λ x y, less y x = false) (sort_slice less l);
}.

Lemma sort_slice_sorted `{SortSlice} {A} (less : A → A → bool) (l : list A) :
  StrictWeakOrder less → StronglySorted (λ x y, less y x = false) (sort_slice less l).
Proof.
  intros Hless. apply sort_slice_sorted_on. split; intros *; intros.
  - by apply less_asym.
  - by eapply less_neg_trans.
Qed.

(** The number of elements of [l] before [x]: for a weak order on [l], the
    order of the ranks. *)
Definition rank {A} (less : A → A → bool) (l : list A) (x : A) : nat :=
  length (List.filter (λ z, less z x) l).

Lemma filter_length_lt {A} (f g : A → bool) l y :
  (∀ z, z ∈ l → f z = true → g z = true) → y ∈ l → f y = false → g y = true →
  (length (List.filter f l) < length (List.filter g l))%nat.
Proof.
  intros Himp Hy Hf Hg.
  assert (∀ l', (∀ z, z ∈ l' → z ∈ l) → (length (List.filter f l') ≤ length (List.filter g l'))%nat) as Hle.
  { intros l'. induction l' as [|z l' IH]; intros Hl; simpl; [lia|].
    specialize (IH ltac:(intros x Hx; apply Hl; by constructor)).
    destruct (f z) eqn:E; [rewrite (Himp z) by (done || apply Hl; constructor); simpl; lia|].
    destruct (g z); simpl; lia. }
  apply list_elem_of_split in Hy as (l1 & l2 & ->). rewrite !List.filter_app, !length_app. simpl. rewrite Hf, Hg.
  pose proof (Hle l1 ltac:(set_solver)). pose proof (Hle l2 ltac:(set_solver)). simpl. lia.
Qed.

Lemma rank_less {A} (less : A → A → bool) (l : list A) x y :
  weak_order_on less l → x ∈ l → y ∈ l → less y x = true → (rank less l y < rank less l x)%nat.
Proof.
  intros Hless Hx Hy Hyx. apply filter_length_lt with y; [|done| |done].
  - intros z Hz Hzy. destruct (less z x) eqn:E; [done|].
    rewrite (wo_neg_trans _ _ Hless y x z) in Hzy; [done..|by apply (wo_asym _ _ Hless)|done].
  - destruct (less y y) eqn:E; [|done]. by rewrite (wo_asym _ _ Hless y y) in E.
Qed.

Lemma StronglySorted_on {A} (R S : A → A → Prop) l :
  (∀ x y, x ∈ l → y ∈ l → R x y → S x y) → StronglySorted R l → StronglySorted S l.
Proof.
  intros Himp Hl. induction Hl as [|x l Hl IH Hx]; constructor.
  - apply IH. intros y z Hy Hz. by apply Himp; constructor.
  - rewrite Forall_forall in Hx |- *. intros y Hy. apply Himp; [constructor|by constructor|auto].
Qed.

#[export] Program Instance merge_sort_slice : SortSlice := {|
  sort_slice A less l :=
    @merge_sort A (λ x y, (rank less l x ≤ rank less l y)%nat) (λ x y, le_dec (rank less l x) (rank less l y)) l;
|}.
Next Obligation. intros A less l. apply merge_sort_Permutation. Qed.
Next Obligation.
  intros A less l Hless. eapply StronglySorted_on, StronglySorted_merge_sort.
  - intros x y. rewrite !merge_sort_Permutation. intros Hx Hy Hr.
    destruct (less y x) eqn:E; [|done]. apply (rank_less less l) in E; [lia|done..].
  - intros x y z. lia.
  - intros x y. lia.
Qed.

(** A concrete sort for orders without ties. *)
Definition sort_by {A} (leb : A → A → bool) (l : list A) : list A :=
  @merge_sort A (λ x y, leb x y = true) (λ x y, decide_rel eq (leb x y) true) l.

(** ** Bytes *)
Abbreviation bytes := (list Byte.byte).
#[global] Instance byte_eq_dec : EqDecision Byte.byte := Byte.byte_eq_dec.

(** ** Automation *)

(** Lemmas that simplify results and the state monad. *)
Create HintDb roodox.

Lemma res_bind_Ok {E A B} (r : result E A) (k : A → result E B) b :
  res_bind r k = Ok b ↔ ∃ a, r = Ok a ∧ k a = Ok b.
Proof. destruct r; simpl; naive_solver. Qed.

Lemma map_err_Ok {E F A} (f : E → F) (r : result E A) a :
  map_err f r = Ok a ↔ r = Ok a.
Proof. destruct r; simpl; naive_solver. Qed.

Lemma go_bind_Ok {W E A B} (m : go W E A) (k : A → go W E B) w w' b :
  go_bind m k w = (w', Ok b) ↔ ∃ w1 a, m w = (w1, Ok a) ∧ k a w1 = (w', Ok b).
Proof.
  unfold go_bind. destruct (m w) as [w1 [a|e]]; naive_solver.
Qed.

Lemma go_map_err_Ok {W E F A} (f : E → F) (m : go W E A) w w' a :
  go_map_err f m w = (w', Ok a) ↔ m w = (w', Ok a).
Proof. unfold go_map_err. destruct (m w) as [? []]; naive_solver. Qed.
