(* ===== verification/GoStrings.v ===== *)
(** * Go strings

    Go's [string] is a byte sequence; it is modelled by Rocq's [string], one
    [ascii] per byte.  This file holds the functions of package [strings] that
    the code uses, byte for byte, and the lemmas on them.  [TrimSpace] knows
    the UTF-8 encodings of every rune of [unicode.IsSpace].  Case mapping of
    non-ASCII text needs the Unicode tables, which are the interface
    [GoUnicode]; on ASCII text the functions here are exact. *)

From S2P Require Import Prelude.
From Stdlib Require Import Ascii.
Open Scope string_scope.

(** ** Bytes *)

Definition byte_val (c : ascii) : N := N_of_ascii c.
Definition byte_in (lo hi : N) (c : ascii) : bool :=
  (N.leb lo (byte_val c) && N.leb (byte_val c) hi)%bool.
Definition ch (n : N) : ascii := ascii_of_N n.

(** ASCII space bytes: tab, newline, vertical tab, form feed, return, space. *)
Definition space1 (a : ascii) : bool := byte_in 9 13 a || Ascii.eqb a " ".
(** U+0085, U+00A0. *)
Definition space2 (a b : ascii) : bool :=
  Ascii.eqb a (ch 194) && (Ascii.eqb b (ch 133) || Ascii.eqb b (ch 160)).
(** U+1680, U+2000..U+200A, U+2028, U+2029, U+202F, U+205F, U+3000. *)
Definition space3 (a b c : ascii) : bool :=
  (Ascii.eqb a (ch 225) && Ascii.eqb b (ch 154) && Ascii.eqb c (ch 128))
  || (Ascii.eqb a (ch 226) && Ascii.eqb b (ch 128)
      && (byte_in 128 138 c || byte_in 168 169 c || Ascii.eqb c (ch 175)))
  || (Ascii.eqb a (ch 226) && Ascii.eqb b (ch 129) && Ascii.eqb c (ch 159))
  || (Ascii.eqb a (ch 227) && Ascii.eqb b (ch 128) && Ascii.eqb c (ch 128)).

(** ** strings.TrimSpace *)

(** Strips leading spaces; [p2] and [p3] recognise the multi-byte ones. *)
Fixpoint trim_with (p2 : ascii → ascii → bool) (p3 : ascii → ascii → ascii → bool)
    (s : string) : string :=
  match s with
  | EmptyString => s
  | String a s1 =>
      if space1 a then trim_with p2 p3 s1 else
      match s1 with
      | EmptyString => s
      | String b s2 =>
          if p2 a b then trim_with p2 p3 s2 else
          match s2 with
          | EmptyString => s
          | String c s3 => if p3 a b c then trim_with p2 p3 s3 else s
          end
      end
  end.

Fixpoint string_rev_app (s acc : string) : string :=
  match s with
  | EmptyString => acc
  | String a s' => string_rev_app s' (String a acc)
  end.
Definition srev (s : string) : string := string_rev_app s "".

Definition TrimLeftSpace (s : string) : string := trim_with space2 space3 s.
Definition TrimRightSpace (s : string) : string :=
  srev (trim_with (λ a b, space2 b a) (λ a b c, space3 c b a) (srev s)).
Definition TrimSpace (s : string) : string := TrimRightSpace (TrimLeftSpace s).

(** ** Case *)

Definition lower_byte (c : ascii) : ascii :=
  if byte_in 65 90 c then ch (byte_val c + 32) else c.
Fixpoint lower_ascii (s : string) : string :=
  match s with
  | EmptyString => ""
  | String a s' => String (lower_byte a) (lower_ascii s')
  end.
Fixpoint is_ascii (s : string) : bool :=
  match s with
  | EmptyString => true
  | String a s' => (N.ltb (byte_val a) 128 && is_ascii s')%bool
  end.

(** Case mapping of text with non-ASCII runes ([strings.Map(unicode.ToLower)]). *)
Class GoUnicode := {
  map_ToLower : string → string;   (* strings.ToLower on text that is not ASCII *)
  map_ToUpper : string → string;   (* strings.ToUpper, likewise *)
  Quote : string → string;         (* strconv.Quote, the verb %q *)
  fold_equal : string → string → bool;   (* strings.EqualFold, one text not ASCII *)
}.

(** strings.ToLower: byte-wise on ASCII text, rune-wise otherwise. *)
Definition ToLower `{GoUnicode} (s : string) : string :=
  if is_ascii s then lower_ascii s else map_ToLower s.

Definition upper_byte (c : ascii) : ascii :=
  if byte_in 97 122 c then ch (byte_val c - 32) else c.
Fixpoint upper_ascii (s : string) : string :=
  match s with
  | EmptyString => ""
  | String a s' => String (upper_byte a) (upper_ascii s')
  end.
(** strings.ToUpper *)
Definition ToUpper `{GoUnicode} (s : string) : string :=
  if is_ascii s then upper_ascii s else map_ToUpper s.

(** strings.EqualFold: byte-wise on ASCII texts. *)
Definition EqualFold `{GoUnicode} (s t : string) : bool :=
  if is_ascii s && is_ascii t then bool_decide (lower_ascii s = lower_ascii t) else fold_equal s t.

(** A [GoUnicode] for closed examples: it leaves non-ASCII runes alone. *)
Definition ascii_only_unicode : GoUnicode := {|
  map_ToLower := lower_ascii;
  map_ToUpper := upper_ascii;
  Quote := λ s, String (ch 34) s +:+ String (ch 34) "";
  fold_equal := λ s t, bool_decide (lower_ascii s = lower_ascii t)
|}.

(** ** Prefixes, suffixes, searching *)

Definition HasPrefix (s p : string) : bool := String.prefix p s.
Definition HasSuffix (s p : string) : bool := String.prefix (srev p) (srev s).

(** strings.TrimSuffix *)
Definition TrimSuffix (s suffix : string) : string :=
  if HasSuffix s suffix then String.substring 0 (String.length s - String.length suffix) s else s.
Fixpoint Contains (s sub : string) : bool :=
  String.prefix sub s ||
  match s with EmptyString => false | String _ s' => Contains s' sub end.

(** [s[n:]] for [n ≤ len(s)]. *)
Fixpoint sdrop (n : nat) (s : string) : string :=
  match n, s with
  | S n', String _ s' => sdrop n' s'
  | _, _ => s
  end.

(** ** strings.Split on a one-byte separator, and strings.Join *)

Fixpoint Split (sep : ascii) (s : string) : list string :=
  match s with
  | EmptyString => [""]
  | String a s' =>
      if Ascii.eqb a sep then "" :: Split sep s'
      else match Split sep s' with
           | w :: ws => String a w :: ws
           | [] => [String a ""]
           end
  end.

Definition Join (sep : string) (ws : list string) : string := String.concat sep ws.

Fixpoint no_char (c : ascii) (s : string) : bool :=
  match s with
  | EmptyString => true
  | String a s' => (negb (Ascii.eqb a c) && no_char c s')%bool
  end.

(** ** Lemmas *)

Lemma append_nil_r s : s +:+ "" = s.
Proof. induction s; simpl; congruence. Qed.

Lemma append_assoc s1 s2 s3 : s1 +:+ (s2 +:+ s3) = (s1 +:+ s2) +:+ s3.
Proof. induction s1; simpl; congruence. Qed.

Lemma append_inj_r s1 s2 t : s1 +:+ t = s2 +:+ t → s1 = s2.
Proof.
  assert (Hlen : ∀ a b, String.length (a +:+ b) = (String.length a + String.length b)%nat).
  { intros a b. induction a; simpl; congruence. }
  revert s2. induction s1 as [|a s1 IH]; intros [|b s2] Heq; simpl in *; try done.
  - apply (f_equal String.length) in Heq. simpl in Heq. rewrite Hlen in Heq. lia.
  - apply (f_equal String.length) in Heq. simpl in Heq. rewrite Hlen in Heq. lia.
  - injection Heq as -> Heq. f_equal. by apply IH.
Qed.

Lemma append_inj_l s t1 t2 : s +:+ t1 = s +:+ t2 → t1 = t2.
Proof. induction s as [|a s IH]; simpl; [done|]. intros [= Heq]. by apply IH. Qed.

Lemma length_append s t :
  String.length (s +:+ t) = (String.length s + String.length t)%nat.
Proof. induction s; simpl; congruence. Qed.

Lemma append_eq_l s1 t1 s2 t2 :
  String.length s1 = String.length s2 → s1 +:+ t1 = s2 +:+ t2 → s1 = s2 ∧ t1 = t2.
Proof.
  revert s2. induction s1 as [|a s1 IH]; intros [|b s2] Hlen Heq; simpl in *; try done.
  injection Heq as -> Heq. injection Hlen as Hlen.
  destruct (IH s2 Hlen Heq) as [-> ->]. done.
Qed.

Lemma sdrop_append s t : sdrop (String.length s) (s +:+ t) = t.
Proof. induction s; simpl; done. Qed.

Lemma HasPrefix_spec s p : HasPrefix s p = true ↔ ∃ t, s = p +:+ t.
Proof.
  unfold HasPrefix. revert s. induction p as [|a p IH]; intros s.
  - split; [intros _; by exists s | by destruct s].
  - destruct s as [|b s]; simpl.
    + split; [done | by intros [t [=]]].
    + destruct (ascii_dec a b) as [->|Hne].
      * rewrite IH. split; intros [t Ht]; exists t; [by f_equal | by injection Ht].
      * split; [done | intros [t [=]]; congruence].
Qed.

Lemma HasPrefix_app p t : HasPrefix (p +:+ t) p = true.
Proof. apply HasPrefix_spec. by exists t. Qed.

Lemma Split_nonempty sep s : Split sep s ≠ [].
Proof.
  destruct s as [|a s]; simpl; [done|].
  destruct (Ascii.eqb a sep); [done|]. by destruct (Split sep s).
Qed.

(** Every piece that [Split] returns is free of the separator. *)
Lemma Split_no_char sep s : Forall (λ w, no_char sep w = true) (Split sep s).
Proof.
  induction s as [|a s IH]; simpl; [by repeat constructor|].
  destruct (Ascii.eqb a sep) eqn:Ha; [by constructor|].
  destruct (Split sep s) as [|w ws]; simpl.
  - repeat constructor. simpl. by rewrite Ha.
  - inversion IH; subst. constructor; [|done]. simpl. by rewrite Ha.
Qed.

Lemma Split_no_sep sep w : no_char sep w = true → Split sep w = [w].
Proof.
  induction w as [|a w IH]; simpl; [done|].
  intros [Ha Hw]%andb_true_iff. apply negb_true_iff in Ha.
  rewrite Ha, IH; done.
Qed.

Lemma Split_app sep w s :
  no_char sep w = true → Split sep (w +:+ String sep s) = w :: Split sep s.
Proof.
  induction w as [|a w IH]; simpl.
  - intros _. by rewrite Ascii.eqb_refl.
  - intros [Ha Hw]%andb_true_iff. apply negb_true_iff in Ha.
    by rewrite Ha, (IH Hw).
Qed.

(** Splitting what was joined gives the words back. *)
Lemma Split_Join (sep : ascii) (ws : list string) :
  ws ≠ [] → Forall (λ w, no_char sep w = true) ws →
  Split sep (Join (String sep "") ws) = ws.
Proof.
  induction ws as [|w ws IH]; [done|]. intros _ Hall.
  inversion Hall as [|? ? Hw Hws]; subst.
  destruct ws as [|w' ws]; [by apply Split_no_sep|].
  change (Split sep (w +:+ String sep (Join (String sep "") (w' :: ws))) = w :: w' :: ws).
  rewrite Split_app by done. f_equal. by apply IH.
Qed.

Lemma Join_cons sep w w' ws :
  Join sep (w :: w' :: ws) = w +:+ sep +:+ Join sep (w' :: ws).
Proof. done. Qed.

Lemma Join_app sep ws1 ws2 :
  ws1 ≠ [] → ws2 ≠ [] → Join sep (ws1 ++ ws2) = Join sep ws1 +:+ sep +:+ Join sep ws2.
Proof.
  induction ws1 as [|w ws1 IH]; [done|]. intros _ H2.
  destruct ws1 as [|w' ws1].
  - destruct ws2 as [|v ws2]; [done|]. exact (Join_cons sep w v ws2).
  - change ((w :: w' :: ws1) ++ ws2)%list with (w :: w' :: (ws1 ++ ws2))%list.
    rewrite !Join_cons, <- !append_assoc.
    change (w' :: ws1 ++ ws2)%list with ((w' :: ws1) ++ ws2)%list.
    by rewrite IH by done.
Qed.

(** Joining what was split gives the string back. *)
Lemma Join_Split (sep : ascii) s : Join (String sep "") (Split sep s) = s.
Proof.
  induction s as [|a s IH]; [done|]. simpl.
  pose proof (Split_nonempty sep s) as Hne.
  destruct (Ascii.eqb a sep) eqn:Ha.
  - apply Ascii.eqb_eq in Ha as ->. destruct (Split sep s) as [|w ws]; [done|].
    rewrite Join_cons, IH. done.
  - destruct (Split sep s) as [|w ws]; [done|].
    destruct ws as [|w' ws].
    + by rewrite <- IH.
    + rewrite Join_cons in IH |- *. by rewrite <- IH.
Qed.

Lemma no_char_append c s t :
  no_char c (s +:+ t) = (no_char c s && no_char c t)%bool.
Proof. induction s; simpl; [done|]. by rewrite IHs, andb_assoc. Qed.

Example TrimSpace_nbsp :
  TrimSpace (String (ch 194) (String (ch 160) (" a b " +:+ String (ch 9) ""))) = "a b".
Proof. reflexivity. Qed.
Example HasSuffix_tmp : HasSuffix "x.tmp" ".tmp" = true.
Proof. reflexivity. Qed.
Example Contains_mid : Contains "a.roodox-conflict-1" ".roodox-conflict-" = true.
Proof. reflexivity. Qed.
