(* ===== verification/FsPath.v ===== *)
(** * Paths

    [path/filepath] as the code uses it, and internal/fs/path.go,
    internal/fs/ignore.go, internal/conflict/conflict.go and
    internal/server/path_normalization.go on top of it.  Go's filepath depends
    on the platform; the development follows the slash-separated build (the
    one of the [_other.go] files), where [ToSlash] and [FromSlash] are the
    identity.  The working directory, which [filepath.Abs] reads, is the
    interface [WorkDir]. *)

From S2P Require Import Prelude GoStrings.
From Stdlib Require Import Ascii.
Open Scope string_scope.

(** os.Getwd. *)
Class WorkDir := Getwd : result goerr string.

Definition slash : ascii := "/".
Definition Separator : string := "/".

(** ** path/filepath *)

Definition IsAbs (p : string) : bool := HasPrefix p Separator.

(** One path element of [Clean]'s loop, on the reversed list of the elements
    kept so far. *)
Definition clean_step (rooted : bool) (stack : list string) (e : string) : list string :=
  if decide (e = "" ∨ e = ".") then stack
  else if decide (e = "..") then
    match stack with
    | [] => if rooted then [] else [".."]
    | top :: rest => if decide (top = "..") then ".." :: stack else rest
    end
  else e :: stack.

Definition clean_elems (rooted : bool) (ws : list string) : list string :=
  rev (fold_left (clean_step rooted) ws []).

Definition Clean (p : string) : string :=
  if decide (p = "") then "."
  else
    let elems := clean_elems (IsAbs p) (Split slash p) in
    if IsAbs p then Separator +:+ Join Separator elems
    else match elems with [] => "." | _ => Join Separator elems end.

(** filepath.Join of two elements. *)
Definition JoinPath (a b : string) : string :=
  if decide (a = "") then (if decide (b = "") then "" else Clean b)
  else Clean (a +:+ Separator +:+ b).

Definition Abs `{WorkDir} (p : string) : result goerr string :=
  if IsAbs p then Ok (Clean p)
  else try wd := Getwd in Ok (JoinPath wd p).

(** [path[:i+1]] up to the last separator, cleaned. *)
Definition Dir (p : string) : string :=
  Clean (Join Separator (removelast (Split slash p) ++ [""])).

(** The last non-empty element. *)
Definition Base (p : string) : string :=
  if decide (p = "") then "."
  else match last (filter (λ w, w ≠ "") (Split slash p)) with
       | Some w => w
       | None => Separator
       end.

Definition path_words (p : string) : list string :=
  match p with
  | "" => []
  | String c p' =>
      if Ascii.eqb c slash then match p' with "" => [] | _ => Split slash p' end
      else Split slash p
  end.

Fixpoint strip_common (b t : list string) : list string * list string :=
  match b, t with
  | x :: b', y :: t' => if decide (x = y) then strip_common b' t' else (b, t)
  | _, _ => (b, t)
  end.

Definition Rel (basepath targpath : string) : result goerr string :=
  let base := Clean basepath in
  let targ := Clean targpath in
  let fail := Err (ErrNew ("Rel: can't make " +:+ targpath +:+ " relative to " +:+ basepath)) in
  if decide (targ = base) then Ok "."
  else
    let base := if decide (base = ".") then "" else base in
    if negb (Bool.eqb (IsAbs base) (IsAbs targ)) then fail
    else
      match strip_common (path_words base) (path_words targ) with
      | ([], t) => Ok (Join Separator t)
      | (x :: b, t) =>
          if decide (x = "..") then fail
          else Ok (Join Separator (map (λ _, "..") (x :: b) ++ t))
      end.

Definition ToSlash (p : string) : string := p.
Definition FromSlash (p : string) : string := p.

(** ** internal/fs/path.go *)

Definition err_absolute : goerr := ErrWrapL (ErrSentinel ErrInvalid) "absolute path not allowed".
Definition err_escapes : goerr := ErrWrapL (ErrSentinel ErrInvalid) "path escapes root".

Definition NormalizeRelativePath (rel : string) : result goerr string :=
  if decide (rel = "" ∨ rel = "." ∨ rel = "/") then Ok "."
  else
    let cleanRel := Clean rel in
    if IsAbs cleanRel then Err err_absolute
    else if decide (cleanRel = "..") then Err err_escapes
    else if HasPrefix cleanRel (".." +:+ Separator) then Err err_escapes
    else if decide (cleanRel = ".") then Ok "."
    else Ok (ToSlash cleanRel).

Definition IsWithinRoot `{WorkDir} (root candidate : string) : bool :=
  match Abs root with
  | Err _ => false
  | Ok rootAbs =>
      match Abs candidate with
      | Err _ => false
      | Ok candidateAbs =>
          match Rel (Clean rootAbs) (Clean candidateAbs) with
          | Err _ => false
          | Ok rel =>
              if decide (rel = ".") then true
              else
                let rel := Clean rel in
                if decide (rel = "..") then false
                else negb (HasPrefix rel (".." +:+ Separator))
          end
      end
  end.

Definition ResolvePath `{WorkDir} (root rel : string) : result goerr string :=
  try rootAbs := Abs root in
  let rootAbs := Clean rootAbs in
  try cleanRel := NormalizeRelativePath rel in
  if decide (cleanRel = ".") then Ok rootAbs
  else
    let full := Clean (JoinPath rootAbs (FromSlash cleanRel)) in
    if IsWithinRoot rootAbs full then Ok full else Err err_escapes.

Definition NormalizeProjectPath `{WorkDir} (root rel : string) : result goerr string :=
  try full := ResolvePath root rel in
  try rootAbs := Abs root in
  let rootAbs := Clean rootAbs in
  try normalized := Rel rootAbs full in
  NormalizeRelativePath normalized.

(** ** internal/server/path_normalization.go *)

Definition normalizeProjectPath `{WorkDir} (root path : string) : result goerr string :=
  NormalizeProjectPath root path.
Definition normalizeRelativePath (path : string) : result goerr string :=
  NormalizeRelativePath path.

(** ** internal/fs/ignore.go *)

Definition ShouldIgnore (path : string) : bool :=
  let base := Base path in
  if HasPrefix base "." && bool_decide (base = ".git" ∨ base = ".svn" ∨ base = ".DS_Store")
  then true
  else HasSuffix base "~" || HasSuffix base ".tmp" || HasSuffix base ".swp".

Definition IsConflictPath `{GoUnicode} (path : string) : bool :=
  Contains (ToLower (Base path)) ".roodox-conflict-".

Definition ShouldIgnoreInProjectScan `{GoUnicode} (path : string) : bool :=
  ShouldIgnore path || IsConflictPath path.

(** ** internal/conflict/conflict.go

    [ts] is the formatted clock reading and [suffix] the random suffix. *)
Definition GenerateConflictPath (ts suffix path : string) : string :=
  let dir := Dir path in
  let base := Base path in
  let name := base +:+ ".roodox-conflict-" +:+ ts +:+ "-" +:+ suffix in
  if decide (dir = "." ∨ dir = Separator) then name else JoinPath dir name.

(** ** Plain elements

    An element that [Clean] keeps as it is and that names an entry of the
    directory it is resolved in. *)
Definition plain (w : string) : Prop :=
  w ≠ "" ∧ w ≠ "." ∧ w ≠ ".." ∧ no_char slash w = true.

#[export] Instance plain_dec w : Decision (plain w).
Proof. unfold plain. apply _. Defined.

(** The canonical absolute path with the given elements. *)
Definition abs_path (ws : list string) : string := Separator +:+ Join Separator ws.

(** A canonical project-relative path: the root itself, or plain elements. *)
Definition canonical_rel (p : string) : Prop :=
  p = "." ∨ ∃ ws, ws ≠ [] ∧ Forall plain ws ∧ p = Join Separator ws.

Lemma plain_no_char ws : Forall plain ws → Forall (λ w, no_char slash w = true) ws.
Proof. intros H. eapply Forall_impl; [exact H|]. by intros w (_ & _ & _ & Hw). Qed.
#[export] Hint Resolve plain_no_char : roodox.

Lemma Split_Join_sep ws :
  ws ≠ [] → Forall (λ w, no_char slash w = true) ws → Split slash (Join Separator ws) = ws.
Proof. exact (Split_Join slash ws). Qed.

Lemma clean_step_plain rooted stack w : plain w → clean_step rooted stack w = w :: stack.
Proof.
  intros (H1 & H2 & H3 & _). unfold clean_step.
  rewrite decide_False by naive_solver. by rewrite decide_False by done.
Qed.

Lemma clean_fold_plain rooted ws : ∀ stack,
  Forall plain ws → fold_left (clean_step rooted) ws stack = (rev ws ++ stack)%list.
Proof.
  induction ws as [|w ws IH]; intros stack Hws; [done|].
  apply Forall_cons in Hws as [Hw Hws]. simpl.
  rewrite clean_step_plain, IH by done. by rewrite <- app_assoc.
Qed.

Lemma clean_elems_plain rooted ws : Forall plain ws → clean_elems rooted ws = ws.
Proof.
  intros H. unfold clean_elems. rewrite clean_fold_plain by done.
  by rewrite app_nil_r, rev_involutive.
Qed.

(** What is on [Clean]'s stack: plain elements above leading [".."]s, and no
    [".."] at all for a rooted path. *)
Definition stack_ok (rooted : bool) (stack : list string) : Prop :=
  ∃ ws k, Forall plain ws ∧ stack = (ws ++ replicate k "..")%list ∧ (rooted = true → k = 0%nat).

Lemma clean_step_ok rooted stack w :
  no_char slash w = true → stack_ok rooted stack → stack_ok rooted (clean_step rooted stack w).
Proof.
  intros Hw (ws & k & Hws & -> & Hk). unfold clean_step.
  destruct (decide (w = "" ∨ w = ".")) as [_|Hne]; [by exists ws, k|].
  destruct (decide (w = "..")) as [->|Hdd].
  - destruct ws as [|x ws]; simpl.
    + destruct k as [|k]; simpl.
      * destruct rooted; [by exists [], 0%nat|]. exists [], 1%nat. by repeat split.
      * destruct rooted; [by specialize (Hk eq_refl)|].
        exists [], (S (S k)). by repeat split.
    + apply Forall_cons in Hws as [(_ & _ & Hx & _) Hws].
      rewrite decide_False by done. by exists ws, k.
  - exists (w :: ws), k. repeat split; [|done..].
    constructor; [|done]. unfold plain. naive_solver.
Qed.

Lemma clean_fold_ok rooted ws : ∀ stack,
  Forall (λ w, no_char slash w = true) ws → stack_ok rooted stack →
  stack_ok rooted (fold_left (clean_step rooted) ws stack).
Proof.
  induction ws as [|w ws IH]; intros stack Hws Hst; [done|].
  apply Forall_cons in Hws as [Hw Hws]. simpl. apply IH; [done|].
  by apply clean_step_ok.
Qed.

Lemma rev_replicate {A} (x : A) k : rev (replicate k x) = replicate k x.
Proof.
  induction k as [|k IH]; [done|]. simpl. rewrite IH.
  clear IH. induction k as [|k IH]; [done|]. simpl. by rewrite IH.
Qed.

Lemma clean_elems_shape rooted ws :
  Forall (λ w, no_char slash w = true) ws →
  ∃ k cs, clean_elems rooted ws = (replicate k ".." ++ cs)%list
    ∧ Forall plain cs ∧ (rooted = true → k = 0%nat).
Proof.
  intros H. destruct (clean_fold_ok rooted ws []) as (cs & k & Hcs & Heq & Hk).
  - done.
  - by exists [], 0%nat.
  - exists k, (rev cs). unfold clean_elems. rewrite Heq, rev_app_distr, rev_replicate.
    split_and!; [done| |done]. by apply Forall_rev.
Qed.

Lemma clean_fold_dotdots k : fold_left (clean_step false) (replicate k "..") [] = replicate k "..".
Proof.
  assert (H : ∀ j, fold_left (clean_step false) (replicate k "..") (replicate j "..")
              = replicate (k + j) "..").
  { induction k as [|k IH]; intros j; [done|]. simpl.
    replace (clean_step false (replicate j "..") "..") with (replicate (S j) "..").
    - rewrite IH. by rewrite Nat.add_succ_r.
    - by destruct j. }
  specialize (H 0%nat). by rewrite Nat.add_0_r in H.
Qed.

Lemma clean_elems_normal k ws :
  Forall plain ws →
  clean_elems false (replicate k ".." ++ ws) = (replicate k ".." ++ ws)%list.
Proof.
  intros Hws. unfold clean_elems.
  rewrite fold_left_app, clean_fold_dotdots, clean_fold_plain by done.
  by rewrite rev_app_distr, rev_involutive, rev_replicate.
Qed.

(** ** Clean *)

Lemma Join_plain_head ws :
  ws ≠ [] → Forall plain ws →
  ∃ a s, Join Separator ws = String a s ∧ Ascii.eqb a slash = false.
Proof.
  destruct ws as [|w ws]; [done|]. intros _ [(Hne & _ & _ & Hc) _]%Forall_cons.
  destruct w as [|a w]; [done|]. simpl in Hc. apply andb_true_iff in Hc as [Ha _].
  apply negb_true_iff in Ha. exists a. destruct ws as [|w' ws].
  - by exists w.
  - eexists. split; [|done]. by rewrite Join_cons.
Qed.

Lemma IsAbs_cons a s : IsAbs (String a s) = Ascii.eqb a slash.
Proof.
  destruct (Ascii.eqb_spec a slash) as [->|Hne]; [by destruct s|].
  apply not_true_iff_false. intros [t [=]]%HasPrefix_spec. by apply Hne.
Qed.

Lemma IsAbs_abs_path ws : IsAbs (abs_path ws) = true.
Proof. unfold abs_path, Separator. cbn [String.append]. by rewrite IsAbs_cons. Qed.

Lemma Split_abs_path ws :
  Split slash (abs_path ws) = "" :: Split slash (Join Separator ws).
Proof. done. Qed.

Lemma Split_Join_plain ws :
  Forall plain ws →
  clean_elems true (Split slash (Join Separator ws)) = ws.
Proof.
  intros Hws. destruct ws as [|w ws]; [done|].
  rewrite Split_Join_sep by (try done; by apply plain_no_char).
  by apply clean_elems_plain.
Qed.

(** [Clean] leaves a canonical absolute path as it is. *)
Lemma Clean_abs_path ws : Forall plain ws → Clean (abs_path ws) = abs_path ws.
Proof.
  intros Hws. unfold Clean. rewrite decide_False by done.
  rewrite IsAbs_abs_path, Split_abs_path.
  change (clean_elems true ("" :: Split slash (Join Separator ws)))
    with (clean_elems true (Split slash (Join Separator ws))).
  by rewrite Split_Join_plain.
Qed.

(** Cleaning an absolute path gives a canonical absolute path. *)
Lemma Clean_abs p : IsAbs p = true → ∃ ws, Forall plain ws ∧ Clean p = abs_path ws.
Proof.
  intros Hp. unfold Clean. rewrite decide_False by (by intros ->). rewrite Hp.
  destruct (clean_elems_shape true (Split slash p)) as (k & ws & Heq & Hws & Hk).
  - apply Split_no_char.
  - rewrite Hk in Heq by done. exists ws. by rewrite Heq.
Qed.

Lemma Clean_rel_plain ws :
  ws ≠ [] → Forall plain ws → Clean (Join Separator ws) = Join Separator ws.
Proof.
  intros Hne Hws. destruct (Join_plain_head ws) as (a & s & Heq & Ha); [done..|].
  unfold Clean. rewrite decide_False by (by rewrite Heq).
  assert (IsAbs (Join Separator ws) = false) as -> by (by rewrite Heq, IsAbs_cons).
  rewrite Split_Join_sep by (try done; by apply plain_no_char).
  rewrite clean_elems_plain by done. by destruct ws.
Qed.

(** The elements of a cleaned relative path. *)
Lemma Clean_rel p :
  p ≠ "" → IsAbs p = false →
  ∃ k ws, Forall plain ws ∧
    ((replicate k ".." ++ ws)%list = [] ∧ Clean p = "."
     ∨ (replicate k ".." ++ ws)%list ≠ [] ∧ Clean p = Join Separator (replicate k ".." ++ ws)).
Proof.
  intros Hne Hp. unfold Clean. rewrite decide_False by done. rewrite Hp.
  destruct (clean_elems_shape false (Split slash p)) as (k & ws & Heq & Hws & _).
  - apply Split_no_char.
  - exists k, ws. split; [done|]. rewrite Heq.
    destruct (replicate k ".." ++ ws)%list; [by left | by right].
Qed.

(** ** NormalizeRelativePath *)

(** The elements of a canonical project-relative path. *)
Definition rel_elems (p : string) : list string :=
  if decide (p = ".") then [] else Split slash p.

Lemma Join_plain_not_dot ws : ws ≠ [] → Forall plain ws → Join Separator ws ≠ ".".
Proof.
  intros Hne Hws Heq.
  assert (Hs : Split slash (Join Separator ws) = ws)
    by (apply Split_Join_sep; [done | by apply plain_no_char]).
  rewrite Heq in Hs. change (Split slash ".") with ["."] in Hs. subst ws.
  apply Forall_cons in Hws as [(_ & H & _) _]. done.
Qed.

Lemma rel_elems_Join ws :
  ws ≠ [] → Forall plain ws → rel_elems (Join Separator ws) = ws.
Proof.
  intros Hne Hws. unfold rel_elems.
  rewrite decide_False by (by apply Join_plain_not_dot).
  apply Split_Join_sep; [done | by apply plain_no_char].
Qed.

Lemma rel_elems_plain p : canonical_rel p → Forall plain (rel_elems p).
Proof.
  intros [->|(ws & Hne & Hws & ->)]; [constructor|]. by rewrite rel_elems_Join.
Qed.

Lemma rel_elems_nil p : canonical_rel p → rel_elems p = [] → p = ".".
Proof.
  intros [->|(ws & Hne & Hws & ->)]; [done|]. by rewrite rel_elems_Join.
Qed.

Lemma rel_elems_inj p q :
  canonical_rel p → canonical_rel q → rel_elems p = rel_elems q → p = q.
Proof.
  intros [->|(ws & Hne & Hws & ->)] [->|(vs & Hvne & Hvs & ->)];
    rewrite ?rel_elems_Join by done; try done.
  by intros ->.
Qed.

Lemma HasPrefix_dotdot ws :
  ws ≠ [] → Forall plain ws → HasPrefix (Join Separator ws) (".." +:+ Separator) = false.
Proof.
  intros Hne Hws. apply not_true_iff_false. intros [t Ht]%HasPrefix_spec.
  assert (Hs : Split slash (Join Separator ws) = ws)
    by (apply Split_Join_sep; [done | by apply plain_no_char]).
  rewrite Ht in Hs. change (Split slash ((".." +:+ Separator) +:+ t))
    with (".." :: Split slash t) in Hs. subst ws.
  apply Forall_cons in Hws as [(_ & _ & H & _) _]. done.
Qed.

Lemma Join_plain_not_dotdot ws : ws ≠ [] → Forall plain ws → Join Separator ws ≠ "..".
Proof.
  intros Hne Hws Heq.
  assert (Hs : Split slash (Join Separator ws) = ws)
    by (apply Split_Join_sep; [done | by apply plain_no_char]).
  rewrite Heq in Hs. change (Split slash "..") with [".."] in Hs. subst ws.
  apply Forall_cons in Hws as [(_ & _ & H & _) _]. done.
Qed.

Lemma IsAbs_Join_plain ws : ws ≠ [] → Forall plain ws → IsAbs (Join Separator ws) = false.
Proof.
  intros Hne Hws. destruct (Join_plain_head ws) as (a & s & -> & Ha); [done..|].
  by rewrite IsAbs_cons.
Qed.

(** A canonical path is a fixed point of the normalisation. *)
Lemma NormalizeRelativePath_canonical p :
  canonical_rel p → NormalizeRelativePath p = Ok p.
Proof.
  intros [->|(ws & Hne & Hws & ->)]; [done|]. unfold NormalizeRelativePath.
  rewrite decide_False.
  2:{ intros [H|[H|H]].
      - destruct (Join_plain_head ws) as (a & s & Heq & _); [done..|]. by rewrite H in Heq.
      - by apply (Join_plain_not_dot ws).
      - destruct (Join_plain_head ws) as (a & s & Heq & Ha); [done..|].
        rewrite H in Heq. injection Heq as <- <-. done. }
  rewrite Clean_rel_plain, IsAbs_Join_plain by done.
  rewrite decide_False by (by apply Join_plain_not_dotdot).
  rewrite HasPrefix_dotdot by done.
  by rewrite decide_False by (by apply Join_plain_not_dot).
Qed.

(** Whatever is accepted comes out canonical. *)
Lemma NormalizeRelativePath_Ok rel p :
  NormalizeRelativePath rel = Ok p → canonical_rel p.
Proof.
  unfold NormalizeRelativePath.
  destruct (decide _) as [_|Hne]; [intros [= <-]; by left|].
  destruct (IsAbs (Clean rel)) eqn:Habs; [done|].
  destruct (decide (Clean rel = "..")) as [_|Hdd]; [done|].
  destruct (HasPrefix (Clean rel) _) eqn:Hpre; [done|].
  destruct (decide (Clean rel = ".")) as [_|Hdot]; [intros [= <-]; by left|].
  intros [= <-]. unfold ToSlash.
  destruct (IsAbs rel) eqn:Hrel.
  { destruct (Clean_abs rel) as (ws & _ & Heq); [done|].
    by rewrite Heq, IsAbs_abs_path in Habs. }
  destruct (Clean_rel rel) as (k & ws & Hws & [[_ Heq]|[Hnn Heq]]); [naive_solver|done..|].
  destruct k as [|k].
  - right. exists ws. by rewrite Heq.
  - exfalso. rewrite Heq in Hpre, Hdd.
    change (replicate (S k) ".." ++ ws)%list with (".." :: (replicate k ".." ++ ws))%list in *.
    destruct (replicate k ".." ++ ws)%list as [|x l]; [done|].
    rewrite Join_cons, append_assoc, HasPrefix_app in Hpre. done.
Qed.

(** A refused path is refused as an invalid argument. *)
Lemma NormalizeRelativePath_Err rel e :
  NormalizeRelativePath rel = Err e → errors_Is e ErrInvalid = true.
Proof. unfold NormalizeRelativePath. repeat case_decide || case_match; naive_solver. Qed.

(** ** ResolvePath and NormalizeProjectPath *)

Section resolve.
Context `{WorkDir}.

(** [root] denotes the absolute directory with elements [rs]. *)
Definition root_at (root : string) (rs : list string) : Prop :=
  Abs root = Ok (abs_path rs) ∧ Forall plain rs.

Lemma root_at_abs root : IsAbs root = true → ∃ rs, root_at root rs.
Proof.
  intros Hr. destruct (Clean_abs root Hr) as (rs & Hrs & Heq).
  exists rs. unfold root_at, Abs. by rewrite Hr, Heq.
Qed.

Lemma root_at_abs_path rs : Forall plain rs → root_at (abs_path rs) rs.
Proof. intros Hrs. unfold root_at, Abs. by rewrite IsAbs_abs_path, Clean_abs_path. Qed.

Lemma Clean_JoinPath rs ws :
  ws ≠ [] → Forall plain rs → Forall plain ws →
  JoinPath (abs_path rs) (Join Separator ws) = abs_path (rs ++ ws).
Proof.
  intros Hne Hrs Hws. unfold JoinPath. rewrite decide_False by done.
  destruct rs as [|r rs].
  - change (Clean (String slash (String slash (Join Separator ws))) = abs_path ws).
    rewrite <- (Clean_abs_path ws) by done. unfold Clean.
    rewrite !decide_False by done. by rewrite IsAbs_abs_path.
  - rewrite <- (Clean_abs_path ((r :: rs) ++ ws)) by (by apply Forall_app).
    unfold abs_path. by rewrite Join_app, <- !append_assoc.
Qed.

Lemma path_words_abs_path ws : Forall plain ws → path_words (abs_path ws) = ws.
Proof.
  intros Hws. destruct ws as [|w ws]; [done|].
  destruct (Join_plain_head (w :: ws)) as (a & s & Heq & _); [done..|].
  transitivity (Split slash (Join Separator (w :: ws))).
  - unfold abs_path. rewrite Heq. done.
  - apply Split_Join_sep; [done | by apply plain_no_char].
Qed.

Lemma strip_common_prefix rs ws : strip_common rs (rs ++ ws) = ([], ws).
Proof. induction rs as [|r rs IH]; simpl; [by destruct ws|]. by rewrite decide_True. Qed.

Lemma abs_path_inj rs ws :
  Forall plain rs → Forall plain ws → abs_path rs = abs_path ws → rs = ws.
Proof.
  intros Hr Hw Heq. apply (f_equal path_words) in Heq.
  by rewrite !path_words_abs_path in Heq by done.
Qed.

(** The path of an entry below [rs], relative to [rs]. *)
Lemma Rel_below rs ws :
  Forall plain rs → Forall plain ws →
  Rel (abs_path rs) (abs_path (rs ++ ws)) =
    Ok (if decide (ws = []) then "." else Join Separator ws).
Proof.
  intros Hr Hw. unfold Rel.
  rewrite !Clean_abs_path by (rewrite ?Forall_app; done).
  destruct (decide (ws = [])) as [->|Hne].
  { by rewrite app_nil_r, decide_True. }
  rewrite decide_False.
  2:{ intros Heq. apply Hne. apply (app_inv_head rs). rewrite app_nil_r.
      apply abs_path_inj; [by apply Forall_app|done..]. }
  rewrite (decide_False (P := abs_path rs = ".")) by done.
  rewrite !IsAbs_abs_path. cbn [negb Bool.eqb].
  rewrite !path_words_abs_path by (rewrite ?Forall_app; done).
  by rewrite strip_common_prefix.
Qed.

Lemma IsWithinRoot_root root rs c :
  root_at root rs → IsWithinRoot root c = IsWithinRoot (abs_path rs) c.
Proof.
  intros Hroot. destruct (root_at_abs_path rs) as [Heq _]; [by destruct Hroot|].
  unfold IsWithinRoot. rewrite Heq. by destruct Hroot as [-> _].
Qed.

(** Entries below the root pass the containment test. *)
Lemma IsWithinRoot_below rs ws :
  Forall plain rs → Forall plain ws →
  IsWithinRoot (abs_path rs) (abs_path (rs ++ ws)) = true.
Proof.
  intros Hr Hw. unfold IsWithinRoot, Abs. rewrite !IsAbs_abs_path.
  rewrite !Clean_abs_path by (rewrite ?Forall_app; done).
  rewrite Rel_below by done.
  destruct (decide (ws = [])) as [->|Hne]; [done|].
  rewrite decide_False by (by apply Join_plain_not_dot).
  rewrite Clean_rel_plain by done.
  rewrite decide_False by (by apply Join_plain_not_dotdot).
  by rewrite HasPrefix_dotdot.
Qed.

(** What [ResolvePath] computes: the normalised elements below the root, or
    the error of the normalisation. *)
Lemma ResolvePath_eq root rs rel :
  root_at root rs →
  ResolvePath root rel =
    try p := NormalizeRelativePath rel in Ok (abs_path (rs ++ rel_elems p)).
Proof.
  intros [Habs Hrs]. unfold ResolvePath. rewrite Habs. cbn [res_bind].
  rewrite Clean_abs_path by done.
  destruct (NormalizeRelativePath rel) as [p|e] eqn:Hp; [|done]. cbn [res_bind].
  apply NormalizeRelativePath_Ok in Hp as [->|(ws & Hne & Hws & ->)].
  - by rewrite decide_True, app_nil_r.
  - rewrite decide_False by (by apply Join_plain_not_dot).
    unfold FromSlash. rewrite Clean_JoinPath by done.
    rewrite Clean_abs_path by (by apply Forall_app).
    by rewrite IsWithinRoot_below, rel_elems_Join.
Qed.

Lemma NormalizeProjectPath_eq root rs rel :
  root_at root rs → NormalizeProjectPath root rel = NormalizeRelativePath rel.
Proof.
  intros Hroot. unfold NormalizeProjectPath. rewrite (ResolvePath_eq root rs) by done.
  destruct (NormalizeRelativePath rel) as [p|e] eqn:Hp; [|done]. cbn [res_bind].
  destruct Hroot as [-> Hrs]. cbn [res_bind]. rewrite Clean_abs_path by done.
  apply NormalizeRelativePath_Ok in Hp as Hc.
  rewrite Rel_below by (try done; by apply rel_elems_plain). cbn [res_bind].
  destruct Hc as [->|(ws & Hne & Hws & ->)]; [done|].
  rewrite rel_elems_Join, decide_False by done.
  apply NormalizeRelativePath_canonical. right. by exists ws.
Qed.

(** Resolving a path that is already canonical cannot fail. *)
Lemma ResolvePath_canonical root rs p :
  root_at root rs → canonical_rel p →
  ResolvePath root p = Ok (abs_path (rs ++ rel_elems p)).
Proof.
  intros Hroot Hp. rewrite (ResolvePath_eq root rs) by done.
  by rewrite NormalizeRelativePath_canonical.
Qed.
End resolve.

#[export] Hint Resolve NormalizeRelativePath_Ok NormalizeRelativePath_canonical
  rel_elems_plain root_at_abs_path : roodox.

(** ** Properties *)

(** C1: path containment.  Under an absolute root, a client path is either
    refused as an invalid argument, or resolved to a path strictly made of
    the root's elements followed by plain elements (none empty, ["."], [".."]
    or with a slash): no client path, however it is written, leads outside
    the root, and the second containment test of [ResolvePath] never fires. *)
Theorem ResolvePath_contained `{WorkDir} (root rel : string) :
  IsAbs root = true →
  ∃ rs, Forall plain rs ∧ Clean root = abs_path rs ∧
    match ResolvePath root rel with
    | Ok full => ∃ ws, Forall plain ws ∧ full = abs_path (rs ++ ws)
        ∧ IsWithinRoot root full = true
    | Err e => errors_Is e ErrInvalid = true ∧ NormalizeRelativePath rel = Err e
    end.
Proof.
  intros Hr. destruct (Clean_abs root Hr) as (rs & Hrs & Heq).
  assert (Hroot : root_at root rs) by (unfold root_at, Abs; by rewrite Hr, Heq).
  exists rs. split_and!; [done..|]. rewrite (ResolvePath_eq root rs) by done.
  destruct (NormalizeRelativePath rel) as [p|e] eqn:Hp; simpl.
  - exists (rel_elems p). apply NormalizeRelativePath_Ok, rel_elems_plain in Hp as Hpl.
    split_and!; [done..|].
    by rewrite (IsWithinRoot_root root rs), IsWithinRoot_below by done.
  - split; [by eapply NormalizeRelativePath_Err | done].
Qed.

Lemma ResolvePath_contained_witness :
  IsAbs "/srv/share" = true ∧
  ∃ rs, Forall plain rs ∧ Clean "/srv/share" = abs_path rs ∧
    match @ResolvePath (Ok "/") "/srv/share" "a/../../etc/passwd" with
    | Ok full => ∃ ws, Forall plain ws ∧ full = abs_path (rs ++ ws)
        ∧ @IsWithinRoot (Ok "/") "/srv/share" full = true
    | Err e => errors_Is e ErrInvalid = true
        ∧ NormalizeRelativePath "a/../../etc/passwd" = Err e
    end.
Proof. split; [reflexivity|]. apply (ResolvePath_contained (H := Ok "/")). reflexivity. Defined.

(** one key per file.  The project-path normalisation that the file and
    sync services use (through the absolute path and back) and the relative
    one that the lock and version services use agree on every client path,
    on results and on errors; the key is canonical and normalising it again
    changes nothing. *)
Theorem NormalizeProjectPath_agrees `{WorkDir} (root rel : string) :
  IsAbs root = true →
  NormalizeProjectPath root rel = NormalizeRelativePath rel ∧
  (∀ p, NormalizeRelativePath rel = Ok p →
     canonical_rel p ∧ NormalizeRelativePath p = Ok p ∧ NormalizeProjectPath root p = Ok p).
Proof.
  intros [rs Hrs]%root_at_abs. split; [by eapply NormalizeProjectPath_eq|].
  intros p Hp%NormalizeRelativePath_Ok. rewrite (NormalizeProjectPath_eq root rs) by done.
  eauto with roodox.
Qed.

Lemma NormalizeProjectPath_agrees_witness :
  IsAbs "/srv" = true ∧
  @NormalizeProjectPath (Ok "/") "/srv" "./dir//x/../child.txt" = Ok "dir/child.txt" ∧
  NormalizeRelativePath "./dir//x/../child.txt" = Ok "dir/child.txt".
Proof.
  split; [reflexivity|].
  destruct (NormalizeProjectPath_agrees (H := Ok "/") "/srv" "./dir//x/../child.txt") as [-> _];
    [reflexivity|].
  split; vm_compute; reflexivity.
Defined.
