(* ===== verification/OsFs.v ===== *)
(** * The file system

    The part of package [os] that the code calls, on a tree of directories
    and regular files, and internal/fs/filesystem.go on top of it.  The state
    maps the elements of an absolute path to a node; the root of the tree
    always exists.  Modification times are nanoseconds since the epoch.  A
    system call can also fail for reasons outside the tree (permissions, disk
    errors, a full disk): [faults], an argument of every operation, says which
    call on which path does.  Symbolic links, permissions bits and directory
    modification times after creation are not modelled. *)

From S2P Require Import Prelude GoStrings FsPath.
Open Scope string_scope.
Open Scope Z_scope.
Open Scope list_scope.

(** ** The tree *)

Inductive node :=
| DirNode (mtime : Z)
| FileNode (content : bytes) (mtime : Z).

Abbreviation OsState := (gmap (list string) node).

(** [faults op path] is the error that call [op] on [path] fails with, if any. *)
Abbreviation Faults := (string → string → option errno).
Definition no_faults : Faults := λ _ _, None.

(** os.FileInfo; the size of a directory is the platform's. *)
Record FileInfo := { fi_name : string; fi_isdir : bool; fi_size : Z; fi_mtime : Z }.

(** [ModTime().Unix()]. *)
Definition unix_seconds (ns : Z) : Z := ns / 1000000000.

Definition path_key (p : string) : list string := path_words (Clean p).

Definition node_at (t : OsState) (k : list string) : option node :=
  match t !! k with
  | Some n => Some n
  | None => if decide (k = []) then Some (DirNode 0) else None
  end.

(** Path resolution from directory [pre]: a missing element is [ENOENT], a
    file used as a directory is [ENOTDIR]. *)
Fixpoint walk (t : OsState) (pre rest : list string) : result errno node :=
  match rest with
  | [] => match node_at t pre with Some n => Ok n | None => Err ENOENT end
  | c :: rest' =>
      match node_at t pre with
      | None => Err ENOENT
      | Some (FileNode _ _) => Err ENOTDIR
      | Some (DirNode _) => walk t (pre ++ [c]) rest'
      end
  end.
Definition os_lookup (t : OsState) (k : list string) : result errno node := walk t [] k.

Definition is_dir (n : node) : bool := match n with DirNode _ => true | _ => false end.

Section os.
Context (flt : Faults) (dir_size : Z).

Definition os_fault (op p : string) : result goerr unit :=
  match flt op p with Some e => Err (ErrPath op p e) | None => Ok tt end.

Definition node_info (name : string) (n : node) : FileInfo :=
  match n with
  | DirNode mt => {| fi_name := name; fi_isdir := true; fi_size := dir_size; fi_mtime := mt |}
  | FileNode c mt =>
      {| fi_name := name; fi_isdir := false; fi_size := Z.of_nat (length c); fi_mtime := mt |}
  end.

(** os.Stat *)
Definition os_Stat (p : string) (t : OsState) : result goerr FileInfo :=
  try _ := os_fault "stat" p in
  match os_lookup t (path_key p) with
  | Ok n => Ok (node_info (Base p) n)
  | Err e => Err (ErrPath "stat" p e)
  end.

(** os.ReadFile *)
Definition os_ReadFile (p : string) (t : OsState) : result goerr bytes :=
  try _ := os_fault "open" p in
  match os_lookup t (path_key p) with
  | Err e => Err (ErrPath "open" p e)
  | Ok (DirNode _) => Err (ErrPath "read" p EISDIR)
  | Ok (FileNode c _) => try _ := os_fault "read" p in Ok c
  end.

(** os.ReadDir: the entries sorted by name. *)
Definition child_of (k : list string) (e : list string * node) : option (string * node) :=
  match last e.1 with
  | Some name => if decide (e.1 = k ++ [name]) then Some (name, e.2) else None
  | None => None
  end.
Definition children (k : list string) (t : OsState) : list (string * node) :=
  sort_by (λ a b, String.leb a.1 b.1) (omap (child_of k) (map_to_list t)).
Definition os_ReadDir (p : string) (t : OsState) : result goerr (list (string * node)) :=
  try _ := os_fault "open" p in
  match os_lookup t (path_key p) with
  | Err e => Err (ErrPath "open" p e)
  | Ok (FileNode _ _) => Err (ErrPath "readdirent" p ENOTDIR)
  | Ok (DirNode _) => Ok (children (path_key p) t)
  end.

(** os.MkdirAll: the missing directories, from the top. *)
Fixpoint mkdirs (now : Z) (pre rest : list string) : go OsState goerr unit := λ t,
  match rest with
  | [] => (t, Ok tt)
  | c :: rest' =>
      let q := pre ++ [c] in
      match node_at t q with
      | Some (DirNode _) => mkdirs now q rest' t
      | Some (FileNode _ _) => (t, Err (ErrPath "mkdir" (abs_path q) ENOTDIR))
      | None =>
          match flt "mkdir" (abs_path q) with
          | Some e => (t, Err (ErrPath "mkdir" (abs_path q) e))
          | None => mkdirs now q rest' (<[q := DirNode now]> t)
          end
      end
  end.
Definition os_MkdirAll (now : Z) (p : string) : go OsState goerr unit :=
  mkdirs now [] (path_key p).

(** os.OpenFile with O_CREATE: the content of the regular file at [p], made
    empty first if it does not exist; [excl] is O_EXCL, [trunc] O_TRUNC. *)
Definition os_OpenCreate (excl trunc : bool) (now : Z) (p : string) : go OsState goerr bytes := λ t,
  let k := path_key p in
  match flt "open" p with
  | Some e => (t, Err (ErrPath "open" p e))
  | None =>
      match os_lookup t k with
      | Ok (DirNode _) => (t, Err (ErrPath "open" p (if excl then EEXIST else EISDIR)))
      | Ok (FileNode c mt) =>
          if excl then (t, Err (ErrPath "open" p EEXIST))
          else if trunc then (<[k := FileNode [] now]> t, Ok [])
          else (t, Ok c)
      | Err ENOENT =>
          match os_lookup t (removelast k) with
          | Ok _ => (<[k := FileNode [] now]> t, Ok [])
          | Err e => (t, Err (ErrPath "open" p e))
          end
      | Err e => (t, Err (ErrPath "open" p e))
      end
  end.

(** A write on an open file: sets the content of the file at [p]. *)
Definition os_write (op : string) (now : Z) (p : string) (c : bytes) : go OsState goerr unit := λ t,
  match flt op p with
  | Some e => (t, Err (ErrPath op p e))
  | None => (<[path_key p := FileNode c now]> t, Ok tt)
  end.

(** os.WriteFile *)
Definition os_WriteFile (now : Z) (p : string) (data : bytes) : go OsState goerr unit :=
  let! _ := os_OpenCreate false true now p in
  os_write "write" now p data.

(** [file.WriteAt]: the bytes between the end of the file and the offset
    read as zero; an empty write changes nothing. *)
Definition write_at (c : bytes) (off : nat) (data : bytes) : bytes :=
  match data with
  | [] => c
  | _ => take off c ++ replicate (off - length c) Byte.x00 ++ data
           ++ drop (off + length data) c
  end.

(** [file.Truncate]. *)
Definition truncate (c : bytes) (size : nat) : bytes :=
  take size c ++ replicate (size - length c) Byte.x00.

(** os.Remove: a file, or an empty directory. *)
Definition has_entries (k : list string) (t : OsState) : bool :=
  negb (bool_decide (children k t = [])).
Definition os_Remove (p : string) : go OsState goerr unit := λ t,
  let k := path_key p in
  match flt "remove" p with
  | Some e => (t, Err (ErrPath "remove" p e))
  | None =>
      match os_lookup t k with
      | Err e => (t, Err (ErrPath "remove" p e))
      | Ok (FileNode _ _) => (delete k t, Ok tt)
      | Ok (DirNode _) =>
          if has_entries k t then (t, Err (ErrPath "remove" p ENOTEMPTY))
          else (delete k t, Ok tt)
      end
  end.

(** os.Rename.  An existing directory is never replaced; a regular file is
    replaced by a file. *)
Definition moved_key (old new k : list string) : list string :=
  if decide (old `prefix_of` k) then new ++ drop (length old) k else k.
Definition move_tree (old new : list string) (t : OsState) : OsState :=
  list_to_map (map (λ e, (moved_key old new e.1, e.2)) (map_to_list t)).
Definition os_Rename (old new : string) : go OsState goerr unit := λ t,
  let ko := path_key old in
  let kn := path_key new in
  let fail e := (t, Err (ErrLink "rename" old new e)) in
  match flt "rename" old with
  | Some e => fail e
  | None =>
      match os_lookup t ko with
      | Err e => fail e
      | Ok n =>
          match os_lookup t kn with
          | Ok (DirNode _) => if decide (ko = kn) then (t, Ok tt) else fail EEXIST
          | found =>
              if is_dir n && bool_decide (ko `prefix_of` kn) then fail EINVAL else
              match os_lookup t (removelast kn) with
              | Err e => fail e
              | Ok (FileNode _ _) => fail ENOTDIR
              | Ok (DirNode _) =>
                  match n, found with
                  | DirNode _, Ok _ => fail ENOTDIR
                  | DirNode _, Err _ => (move_tree ko kn t, Ok tt)
                  | FileNode _ _, _ =>
                      if decide (ko = kn) then (t, Ok tt)
                      else (<[kn := n]> (delete ko t), Ok tt)
                  end
              end
          end
      end
  end.
End os.

(** os.Lstat, and the [Info] of a directory entry. *)
Definition os_Lstat (flt : Faults) (dir_size : Z) (p : string) (t : OsState) : result goerr FileInfo :=
  try _ := os_fault flt "lstat" p in
  match os_lookup t (path_key p) with
  | Ok n => Ok (node_info dir_size (Base p) n)
  | Err e => Err (ErrPath "lstat" p e)
  end.

(** ** filepath.WalkDir

    The callback sees a path, its entry and the error of reading it, and may
    change the state; [WalkSkipDir] is the error [filepath.SkipDir].  A
    callback that gets an error for the root sees no entry and must not use
    it.  [fuel] bounds the depth of the tree. *)
Record DirEntry := { de_name : string; de_isdir : bool }.
Definition entry_of (e : string * node) : DirEntry := {| de_name := e.1; de_isdir := is_dir e.2 |}.

Inductive walk_ctl := WalkNext | WalkSkipDir.

Section WalkDir.
Context (flt : Faults) (dir_size : Z) {W : Type} (get_os : W → OsState)
        (fn : string → DirEntry → option goerr → go W goerr walk_ctl).

Fixpoint walk_entries (rec : string → DirEntry → go W goerr walk_ctl) (path : string)
    (dirs : list DirEntry) : go W goerr walk_ctl :=
  match dirs with
  | [] => go_ret WalkNext
  | d1 :: dirs' =>
      let! ctl := rec (JoinPath path (de_name d1)) d1 in
      match ctl with
      | WalkSkipDir => go_ret WalkNext
      | WalkNext => walk_entries rec path dirs'
      end
  end.

Fixpoint walkDir (fuel : nat) (path : string) (d : DirEntry) : go W goerr walk_ctl :=
  match fuel with
  | O => go_ret WalkNext
  | S fuel' =>
      let! ctl := fn path d None in
      match ctl with
      | WalkSkipDir => go_ret (if de_isdir d then WalkNext else WalkSkipDir)
      | WalkNext =>
          if negb (de_isdir d) then go_ret WalkNext
          else
            catch! r := go_read (λ w, os_ReadDir flt path (get_os w)) in
            match r with
            | Err err =>
                let! ctl := fn path d (Some err) in go_ret WalkNext
            | Ok dirs => walk_entries (walkDir fuel') path (map entry_of dirs)
            end
      end
  end.

Definition WalkDir (root : string) : go W goerr unit := λ w,
  (catch! r := go_read (λ w, os_Lstat flt dir_size root (get_os w)) in
   let! _ := match r with
             | Err err => fn root {| de_name := ""; de_isdir := false |} (Some err)
             | Ok info => walkDir (S (size (get_os w))) root
                            {| de_name := fi_name info; de_isdir := fi_isdir info |}
             end in
   go_ret tt) w.
End WalkDir.

(** ** internal/fs/filesystem.go *)

Record FileSystem := { RootDir : string }.

Definition NewFileSystem `{WorkDir} (root : string) : FileSystem :=
  {| RootDir := match Abs root with Ok abs => abs | Err _ => root end |}.

Module FS.
Section fs.
Context `{WorkDir} (flt : Faults) (dir_size : Z) (f : FileSystem).

Definition resolvePath (rel : string) : result goerr string := ResolvePath (RootDir f) rel.

Definition ListDir (rel : string) : go OsState goerr (list (string * node)) :=
  let! dir := go_lift (resolvePath rel) in
  go_read (os_ReadDir flt dir).

Definition Stat (rel : string) : go OsState goerr FileInfo :=
  let! p := go_lift (resolvePath rel) in
  go_read (os_Stat flt dir_size p).

Definition ReadFile (rel : string) : go OsState goerr bytes :=
  let! p := go_lift (resolvePath rel) in
  go_read (os_ReadFile flt p).

Definition WriteFile (now : Z) (rel : string) (data : bytes) : go OsState goerr unit :=
  let! p := go_lift (resolvePath rel) in
  let! _ := os_MkdirAll flt now (Dir p) in
  os_WriteFile flt now p data.

(** The file at [p], opened for reading: its [os.FileInfo] and its node. *)
Definition os_Open (p : string) (t : OsState) : result goerr (FileInfo * node) :=
  try _ := os_fault flt "open" p in
  match os_lookup t (path_key p) with
  | Err e => Err (ErrPath "open" p e)
  | Ok n => Ok (node_info dir_size (Base p) n, n)
  end.

Definition ReadAt (rel : string) (offset length : Z) : go OsState goerr (bytes * Z) :=
  if offset <? 0 then go_fail (ErrNew "offset must be >= 0")
  else
    let! p := go_lift (resolvePath rel) in
    let! (st, n) := go_read (os_Open p) in
    let! _ := go_lift (os_fault flt "stat" p) in
    let size := fi_size st in
    if size <=? offset then go_ret ([], size)
    else
      let cnt := size - offset in
      let cnt := if (0 <? length) && (length <? cnt) then length else cnt in
      match n with
      | DirNode _ => go_fail (ErrPath "read" p EISDIR)
      | FileNode c _ =>
          let! _ := go_lift (os_fault flt "read" p) in
          go_ret (take (Z.to_nat cnt) (drop (Z.to_nat offset) c), size)
      end.

Definition WriteAt (now : Z) (rel : string) (offset : Z) (data : bytes)
  : go OsState goerr (Z * Z) :=
  if offset <? 0 then go_fail (ErrNew "offset must be >= 0")
  else
    let! p := go_lift (resolvePath rel) in
    let! _ := os_MkdirAll flt now (Dir p) in
    let! c := os_OpenCreate flt false false now p in
    let c' := write_at c (Z.to_nat offset) data in
    let! _ := (match data with
               | [] => go_ret tt
               | _ => os_write flt "write" now p c'
               end) in
    let! _ := go_lift (os_fault flt "stat" p) in
    go_ret (Z.of_nat (length data), Z.of_nat (length c')).

Definition SetFileSize (now : Z) (rel : string) (size : Z) : go OsState goerr Z :=
  if size <? 0 then go_fail (ErrNew "size must be >= 0")
  else
    let! p := go_lift (resolvePath rel) in
    let! _ := os_MkdirAll flt now (Dir p) in
    let! c := os_OpenCreate flt false false now p in
    let c' := truncate c (Z.to_nat size) in
    let! _ := os_write flt "truncate" now p c' in
    let! _ := go_lift (os_fault flt "stat" p) in
    go_ret (Z.of_nat (length c')).

Definition Remove (rel : string) : go OsState goerr unit :=
  let! p := go_lift (resolvePath rel) in
  os_Remove flt p.

Definition Mkdir (now : Z) (rel : string) : go OsState goerr unit :=
  let! p := go_lift (resolvePath rel) in
  os_MkdirAll flt now p.

Definition Rename (now : Z) (oldRel newRel : string) : go OsState goerr unit :=
  let! oldPath := go_lift (resolvePath oldRel) in
  let! newPath := go_lift (resolvePath newRel) in
  let! _ := os_MkdirAll flt now (Dir newPath) in
  os_Rename flt oldPath newPath.
End fs.
End FS.

(** ** Facts about the tree *)

Lemma path_key_abs_path ws : Forall plain ws → path_key (abs_path ws) = ws.
Proof.
  intros Hws. unfold path_key. rewrite Clean_abs_path by done.
  by apply path_words_abs_path.
Qed.

Lemma Join_root ws : ws ≠ [] → Join Separator ("" :: ws) = Separator +:+ Join Separator ws.
Proof. by destruct ws. Qed.

Lemma IsAbs_sep s : IsAbs (Separator +:+ s) = true.
Proof. apply HasPrefix_spec. by exists s. Qed.

Lemma Split_sep s : Split slash (Separator +:+ s) = "" :: Split slash s.
Proof. done. Qed.

(** The parent directory of an entry. *)
Lemma Dir_abs_path ws w :
  Forall plain ws → plain w → Dir (abs_path (ws ++ [w])) = abs_path ws.
Proof.
  intros Hws Hw. unfold Dir. rewrite Split_abs_path.
  rewrite Split_Join_sep.
  2:{ by destruct ws. }
  2:{ apply plain_no_char, Forall_app. split; [done | by constructor]. }
  assert (removelast ("" :: ws ++ [w]) = "" :: ws) as ->.
  { change (removelast (("" :: ws) ++ [w]) = "" :: ws). by rewrite removelast_last. }
  rewrite <- (Clean_abs_path ws) by done. unfold Clean.
  destruct ws as [|x ws]; [done|].
  change (("" :: x :: ws) ++ [""]) with ("" :: ((x :: ws) ++ [""])).
  rewrite (Join_root ((x :: ws) ++ [""])) by done.
  rewrite !decide_False by done.
  unfold abs_path. rewrite !IsAbs_sep, !Split_sep.
  rewrite (Split_Join_sep (x :: ws)) by (try done; by apply plain_no_char).
  rewrite (Split_Join_sep ((x :: ws) ++ [""])).
  2:{ done. }
  2:{ apply Forall_app. split; [by apply plain_no_char | by repeat constructor]. }
  do 2 f_equal. unfold clean_elems. simpl fold_left. rewrite fold_left_app. done.
Qed.

Lemma walk_app t pre ws1 ws2 :
  ws2 ≠ [] →
  walk t pre (ws1 ++ ws2) =
    match walk t pre ws1 with
    | Ok (DirNode _) => walk t (pre ++ ws1) ws2
    | Ok (FileNode _ _) => Err ENOTDIR
    | Err e => Err e
    end.
Proof.
  revert pre. induction ws1 as [|c ws1 IH]; intros pre Hne; simpl.
  - rewrite app_nil_r. destruct ws2 as [|c ws2]; [done|]. simpl.
    by destruct (node_at t pre) as [[]|].
  - destruct (node_at t pre) as [[]|]; [|done..].
    rewrite IH by done. by rewrite <- app_assoc.
Qed.

Lemma node_at_insert_eq t k n : node_at (<[k := n]> t) k = Some n.
Proof. unfold node_at. by rewrite lookup_insert_eq. Qed.

Lemma node_at_insert_ne t k k' n : k ≠ k' → node_at (<[k := n]> t) k' = node_at t k'.
Proof. intros Hne. unfold node_at. by rewrite lookup_insert_ne. Qed.

Lemma os_lookup_Ok_node t k n : os_lookup t k = Ok n → node_at t k = Some n.
Proof.
  unfold os_lookup. change k with ([] ++ k) at 2. generalize (@nil string) as pre.
  induction k as [|c k IH]; intros pre; simpl.
  - rewrite app_nil_r. by destruct (node_at t pre) as [m|]; [intros [= ->]|].
  - destruct (node_at t pre) as [[]|]; [|done..]. intros Hw%IH.
    by rewrite <- app_assoc in Hw.
Qed.

(** Changing a file at [k] (or creating one) does not disturb the resolution
    of the path leading to it. *)
Lemma walk_insert_below t pre rest k n :
  ¬ k `prefix_of` (pre ++ removelast rest) → rest ≠ [] →
  walk t pre (removelast rest) = walk (<[k := n]> t) pre (removelast rest).
Proof.
  revert pre. induction rest as [|c rest IH]; intros pre Hk Hne; [done|].
  destruct rest as [|d rest].
  - simpl in *. rewrite app_nil_r in Hk. rewrite node_at_insert_ne; [done|].
    intros ->. by apply Hk.
  - change (removelast (c :: d :: rest)) with (c :: removelast (d :: rest)) in *.
    cbn [walk]. rewrite node_at_insert_ne.
    2:{ intros ->. apply Hk. by apply prefix_app_r. }
    destruct (node_at t pre) as [[]|]; [|done..].
    apply IH; [|done]. by rewrite <- app_assoc.
Qed.

Lemma prefix_removelast_not {A} (k : list A) : k ≠ [] → ¬ k `prefix_of` removelast k.
Proof.
  intros Hne Hp%prefix_length. destruct (exists_last Hne) as (l & x & ->).
  rewrite removelast_last, length_app in Hp. simpl in Hp. lia.
Qed.

(** A file written at [k], whose parent directory resolves, is found there. *)
Lemma os_lookup_insert_file t k n mt :
  k ≠ [] → os_lookup t (removelast k) = Ok (DirNode mt) →
  os_lookup (<[k := n]> t) k = Ok n.
Proof.
  intros Hne Hparent. destruct (exists_last Hne) as (ks & c & Hk).
  unfold os_lookup in *.
  rewrite (walk_insert_below t [] k k n) in Hparent
    by (try done; by apply prefix_removelast_not).
  subst k. rewrite removelast_last in Hparent.
  rewrite walk_app by done. rewrite Hparent. simpl.
  assert (node_at (<[ks ++ [c]:=n]> t) ks = Some (DirNode mt)) as ->.
  { by apply (os_lookup_Ok_node _ ks). }
  by rewrite node_at_insert_eq.
Qed.

Lemma os_lookup_parent_dir t k n :
  k ≠ [] → os_lookup t k = Ok n → ∃ mt, os_lookup t (removelast k) = Ok (DirNode mt).
Proof.
  intros Hne Hk. destruct (exists_last Hne) as (ks & c & ->).
  unfold os_lookup in *. rewrite removelast_last. rewrite walk_app in Hk by done.
  destruct (walk t [] ks) as [[mt|]|]; [by exists mt|done..].
Qed.
