(* ===== verification/PathOps.v ===== *)
(** * More of packages os and path/filepath

    [filepath.Match] and [filepath.Glob], [filepath.Ext], [os.RemoveAll] and
    [filepath.Walk], for the janitors and the build service. *)

From S2P Require Import Prelude GoStrings FsPath OsFs.
From Stdlib Require Import Ascii.
Open Scope string_scope.
Open Scope Z_scope.
Open Scope list_scope.

(** ** filepath.Match (package path/filepath, Unix) *)

Module Glob.

(** A character of a string: its value and the rest; text is valid UTF-8, and
    characters are compared by their bytes. *)
Fixpoint cont_bytes (s : string) : string * string :=
  match s with
  | String a s' => if byte_in 128 191 a then let '(c, r) := cont_bytes s' in (String a c, r) else ("", s)
  | EmptyString => ("", "")
  end.
Definition next_char (s : string) : option (string * string) :=
  match s with
  | EmptyString => None
  | String a s' => let '(c, r) := cont_bytes s' in Some (String a c, r)
  end.
(** UTF-8 keeps the order of code points on bytes. *)
Definition char_le (a b : string) : bool := String.leb a b.

(** [getEsc]: a character of a class, possibly escaped. *)
Definition getEsc (chunk : string) : option (string * string) :=
  match chunk with
  | EmptyString => None
  | String a rest =>
      if Ascii.eqb a "-" || Ascii.eqb a "]" then None
      else
        let chunk := if Ascii.eqb a "\" then rest else chunk in
        match next_char chunk with
        | None => None
        | Some (c, rest) => match rest with EmptyString => None | _ => Some (c, rest) end
        end
  end.

(** The ranges of a class up to its [']'], on the character [r] ([None] when
    the match has failed before). *)
Fixpoint class_ranges (fuel : nat) (chunk : string) (r : option string) (nrange : nat) (found : bool) :
    option (bool * string) :=
  match fuel with
  | O => None
  | S fuel' =>
      match chunk, nrange with
      | String a rest, S _ =>
          if Ascii.eqb a "]" then Some (found, rest)
          else one_range fuel' chunk r nrange found
      | _, _ => one_range fuel' chunk r nrange found
      end
  end
with one_range (fuel : nat) (chunk : string) (r : option string) (nrange : nat) (found : bool) :
    option (bool * string) :=
  match fuel with
  | O => None
  | S fuel' =>
      match getEsc chunk with
      | None => None
      | Some (lo, chunk) =>
          let hit hi := match r with
                        | Some r => char_le lo r && char_le r hi
                        | None => false
                        end in
          match chunk with
          | String a rest =>
              if Ascii.eqb a "-" then
                match getEsc rest with
                | None => None
                | Some (hi, chunk) => class_ranges fuel' chunk r (S nrange) (found || hit hi)
                end
              else class_ranges fuel' chunk r (S nrange) (found || hit lo)
          | EmptyString => class_ranges fuel' chunk r (S nrange) (found || hit lo)
          end
      end
  end.

(** [matchChunk]: [None] for a bad pattern, [Some None] for no match. *)
Fixpoint matchChunk (fuel : nat) (chunk s : string) (failed : bool) : option (option string) :=
  match fuel with
  | O => None
  | S fuel' =>
      match chunk with
      | EmptyString => Some (if failed then None else Some s)
      | String a rest =>
          let failed := failed || bool_decide (s = "") in
          if Ascii.eqb a "[" then
            let '(r, s) := if failed then (None, s)
                           else match next_char s with Some (c, s') => (Some c, s') | None => (None, s) end in
            let '(negated, rest) := match rest with
                                    | String b rest' => if Ascii.eqb b "^" then (true, rest') else (false, rest)
                                    | EmptyString => (false, rest)
                                    end in
            match class_ranges (2 * String.length rest + 2) rest r 0 false with
            | None => None
            | Some (found, rest) => matchChunk fuel' rest s (failed || Bool.eqb found negated)
            end
          else if Ascii.eqb a "?" then
            match (if failed then None else next_char s) with
            | None => matchChunk fuel' rest s failed
            | Some (c, s') => matchChunk fuel' rest s' (failed || bool_decide (c = Separator))
            end
          else
            let literal c rest :=
              match (if failed then EmptyString else s) with
              | EmptyString => matchChunk fuel' rest s failed
              | String b s' => matchChunk fuel' rest s' (failed || negb (Ascii.eqb c b))
              end in
            if Ascii.eqb a "\" then
              match rest with EmptyString => None | String c rest => literal c rest end
            else literal a rest
      end
  end.
Definition match_chunk (chunk s : string) : option (option string) :=
  matchChunk (S (String.length chunk)) chunk s false.

(** [scanChunk]: whether stars come first, the text up to the next star, and
    the rest. *)
Fixpoint skip_stars (p : string) : bool * string :=
  match p with
  | String a p' => if Ascii.eqb a "*" then (true, snd (skip_stars p')) else (false, p)
  | EmptyString => (false, p)
  end.
Fixpoint scan_text (p : string) (inrange : bool) : string * string :=
  match p with
  | EmptyString => ("", "")
  | String a p' =>
      if Ascii.eqb a "\" then
        match p' with
        | EmptyString => (p, "")
        | String b p'' => let '(c, r) := scan_text p'' inrange in (String a (String b c), r)
        end
      else if Ascii.eqb a "*" && negb inrange then ("", p)
      else
        let inrange := if Ascii.eqb a "[" then true else if Ascii.eqb a "]" then false else inrange in
        let '(c, r) := scan_text p' inrange in (String a c, r)
  end.
Definition scanChunk (p : string) : bool * string * string :=
  let '(star, p) := skip_stars p in
  let '(chunk, rest) := scan_text p false in (star, chunk, rest).

(** The positions after a star: the first suffix at which the chunk matches. *)
Fixpoint match_star (chunk : string) (last : bool) (name : string) : option (option string) :=
  match name with
  | EmptyString => Some None
  | String a name' =>
      if Ascii.eqb a slash then Some None
      else match match_chunk chunk name' with
           | None => None
           | Some (Some t) =>
               if last && negb (bool_decide (t = "")) then match_star chunk last name'
               else Some (Some t)
           | Some None => match_star chunk last name'
           end
  end.

(** [Match]; an error is [None].  A pattern that fails early is still scanned
    for errors, which the caller treats like a failure. *)
Fixpoint Match_loop (fuel : nat) (pattern name : string) : option bool :=
  match fuel with
  | O => None
  | S fuel' =>
      match pattern with
      | EmptyString => Some (bool_decide (name = ""))
      | _ =>
          let '(star, chunk, pattern) := scanChunk pattern in
          if star && bool_decide (chunk = "") then Some (no_char slash name)
          else
            let last := bool_decide (pattern = "") in
            match match_chunk chunk name with
            | None => None
            | Some (Some t) =>
                if bool_decide (t = "") || negb last then Match_loop fuel' pattern t
                else if star then
                  match match_star chunk last name with
                  | Some (Some t) => Match_loop fuel' pattern t
                  | Some None => Some false
                  | None => None
                  end
                else Some false
            | Some None =>
                if star then
                  match match_star chunk last name with
                  | Some (Some t) => Match_loop fuel' pattern t
                  | Some None => Some false
                  | None => None
                  end
                else Some false
            end
      end
  end.
Definition Match (pattern name : string) : option bool :=
  Match_loop (S (String.length pattern)) pattern name.

Example Match_star : Match "*.log" "server.log" = Some true.
Proof. vm_compute. reflexivity. Qed.
Example Match_star_2 : Match "a*b?.[ch]" "axxbby.c" = Some true.
Proof. vm_compute. reflexivity. Qed.
Example Match_no : Match "*.log" "server.log.1" = Some false.
Proof. vm_compute. reflexivity. Qed.
Example Match_bad : Match "[a" "a" = None.
Proof. vm_compute. reflexivity. Qed.
Example Match_class : Match "x[^a-c]z" "xdz" = Some true.
Proof. vm_compute. reflexivity. Qed.
End Glob.

(** ** os.RemoveAll and filepath.Walk *)

(** [os.RemoveAll] tries [os.Remove] first; then it removes the entries it can
    from the leaves up, and reports an entry that could not be removed. *)
Definition unlink_stays (flt : Faults) (t : OsState) (k : list string) : bool :=
  existsb (λ e, bool_decide (k `prefix_of` e.1)
                && match flt "unlinkat" (abs_path e.1) with Some _ => true | None => false end)
    (map_to_list t).
Definition os_RemoveAll (flt : Faults) (p : string) : go OsState goerr unit := λ t,
  let k := path_key p in
  match os_Remove flt p t with
  | (t', Ok _) => (t', Ok tt)
  | (t', Err e) =>
      if errors_Is e ErrNotExist then (t', Ok tt)
      else
        let gone e := bool_decide (k `prefix_of` e) && negb (unlink_stays flt t e) in
        (filter (λ e, gone e.1 = false) t,
         match omap (λ e, if bool_decide (k `prefix_of` e.1)
                          then ErrPath "unlinkat" (abs_path e.1) <$> flt "unlinkat" (abs_path e.1)
                          else None) (map_to_list t) with
         | e :: _ => Err e
         | [] => Ok tt
         end)
  end.

(** [filepath.Walk] with a callback that folds over the entries and never
    returns [SkipDir]; [fuel] bounds the depth of the tree. *)
Section Walk.
Context (flt : Faults) (dir_size : Z) (t : OsState) {A : Type}
        (fn : string → option FileInfo → option goerr → A → result goerr A).

Fixpoint walk_names (rec : string → FileInfo → A → result goerr A) (path : string)
    (names : list string) (acc : A) : result goerr A :=
  match names with
  | [] => Ok acc
  | name :: names' =>
      let filename := JoinPath path name in
      match os_Lstat flt dir_size filename t with
      | Err err => try acc := fn filename None (Some err) acc in walk_names rec path names' acc
      | Ok info => try acc := rec filename info acc in walk_names rec path names' acc
      end
  end.

Fixpoint walk_info (fuel : nat) (path : string) (info : FileInfo) (acc : A) : result goerr A :=
  match fuel with
  | O => Ok acc
  | S fuel' =>
      if negb (fi_isdir info) then fn path (Some info) None acc
      else match os_ReadDir flt path t with
           | Err err => fn path (Some info) (Some err) acc
           | Ok entries =>
               try acc := fn path (Some info) None acc in
               walk_names (walk_info fuel') path (map fst entries) acc
           end
  end.

Definition filepath_Walk (root : string) (acc : A) : result goerr A :=
  match os_Lstat flt dir_size root t with
  | Err err => fn root None (Some err) acc
  | Ok info => walk_info (S (size t)) root info acc
  end.
End Walk.

(** ** filepath.Glob *)

Fixpoint has_char (f : ascii → bool) (s : string) : bool :=
  match s with EmptyString => false | String a s' => f a || has_char f s' end.
(** [hasMeta], Unix. *)
Definition hasMeta (path : string) : bool :=
  has_char (λ a, Ascii.eqb a "*" || Ascii.eqb a "?" || Ascii.eqb a "[" || Ascii.eqb a "\") path.

(** [filepath.Split]: up to and including the last separator, and the rest. *)
Fixpoint after_last_slash (s acc : string) : string :=
  match s with
  | EmptyString => acc
  | String a s' => if Ascii.eqb a slash then after_last_slash s' s' else after_last_slash s' acc
  end.
Definition split_path (path : string) : string * string :=
  let file := after_last_slash path path in
  (String.substring 0 (String.length path - String.length file) path, file).

Definition cleanGlobPath (path : string) : string :=
  if bool_decide (path = "") then "."
  else if bool_decide (path = Separator) then path
  else String.substring 0 (String.length path - 1) path.

Section Glob.
Context (flt : Faults) (dir_size : Z) (t : OsState).

(** [glob]: an unreadable directory has no matches; a bad pattern is [None]. *)
Fixpoint glob_names (dir pattern : string) (names matches : list string) : option (list string) :=
  match names with
  | [] => Some matches
  | n :: names' =>
      match Glob.Match pattern n with
      | None => None
      | Some matched => glob_names dir pattern names' (if matched then matches ++ [JoinPath dir n] else matches)
      end
  end.
Definition glob (dir pattern : string) (matches : list string) : option (list string) :=
  match os_Stat flt dir_size dir t with
  | Err _ => Some matches
  | Ok fi =>
      if negb (fi_isdir fi) then Some matches
      else match os_ReadDir flt dir t with
           | Err _ => Some matches
           | Ok entries => glob_names dir pattern (map fst entries) matches
           end
  end.
Fixpoint glob_all (dirs : list string) (file : string) (matches : list string) : option (list string) :=
  match dirs with
  | [] => Some matches
  | d :: dirs' => match glob d file matches with
                  | None => None
                  | Some matches => glob_all dirs' file matches
                  end
  end.
Fixpoint Glob_fuel (fuel : nat) (pattern : string) : option (list string) :=
  match fuel with
  | O => None
  | S fuel' =>
      match Glob.Match pattern "" with
      | None => None
      | Some _ =>
          if negb (hasMeta pattern) then
            match os_Lstat flt dir_size pattern t with Err _ => Some [] | Ok _ => Some [pattern] end
          else
            let '(dir, file) := split_path pattern in
            let dir := cleanGlobPath dir in
            if negb (hasMeta dir) then glob dir file []
            else if bool_decide (dir = pattern) then None
            else match Glob_fuel fuel' dir with
                 | None => None
                 | Some m => glob_all m file []
                 end
      end
  end.
(** The directory of a pattern is shorter than the pattern. *)
Definition filepath_Glob (pattern : string) : option (list string) :=
  Glob_fuel (S (String.length pattern)) pattern.
End Glob.

(** [filepath.Ext] *)
Fixpoint ext_of (s : string) (acc : string) : string :=
  match s with
  | EmptyString => acc
  | String a s' => if Ascii.eqb a "." then ext_of s' s else ext_of s' acc
  end.
Definition Ext (path : string) : string := ext_of (after_last_slash path path) "".

Example Ext_1 : Ext "a.b/lib.so.1" = ".1". Proof. reflexivity. Qed.
Example Ext_2 : Ext "a.b/c" = "". Proof. reflexivity. Qed.
