(* ===== verification/Database.v ===== *)
(** * The SQLite store

    internal/db/meta.go and internal/db/version.go on the tables of
    internal/db/migrations.go (schema version 1).  A table is a finite map from
    its primary key to the other columns.  A statement is a function on the
    tables that may fail; a transaction keeps its effect only when it commits.
    [DbFaults] says which statements, [Begin]s and [Commit]s fail for reasons
    outside the tables (a busy database, a disk error).  Foreign keys are not
    enforced: SQLite ignores them unless a pragma, which the code does not
    issue, turns them on. *)

From S2P Require Import Prelude GoStrings.
From Stdlib Require Import Ascii.
Open Scope string_scope.
Open Scope Z_scope.
Open Scope list_scope.

(** ** Rows *)

(** internal/fs/meta_store.go, [Meta]. *)
Record Meta := mkMeta {
  m_Path : string; m_IsDir : bool; m_Size : Z; m_MtimeUnix : Z; m_Hash : string; m_Version : Z
}.

(** internal/fs/version_store.go, [VersionRecord]. *)
Record VersionRecord := mkVersionRecord {
  v_Version : Z; v_MtimeUnix : Z; v_Hash : string; v_Size : Z;
  v_ClientID : string; v_ChangeType : string
}.

(** The columns of [meta] and [version] other than the primary key. *)
Record MetaRow := mkMetaRow {
  mr_is_dir : bool; mr_size : Z; mr_mtime_unix : Z; mr_hash : string; mr_version : Z
}.
Record VersionRow := mkVersionRow {
  vr_mtime_unix : Z; vr_hash : string; vr_size : Z; vr_client_id : string; vr_change_type : string
}.

Record DbState := mkDb {
  t_meta : gmap string MetaRow;
  t_version : gmap (string * Z) VersionRow;
  t_version_blob : gmap (string * Z) bytes;
  t_file_head : gmap string Z;
}.
Definition empty_db : DbState := mkDb ∅ ∅ ∅ ∅.

Definition set_meta (f : gmap string MetaRow → gmap string MetaRow) (db : DbState) : DbState :=
  mkDb (f (t_meta db)) (t_version db) (t_version_blob db) (t_file_head db).
Definition set_version f (db : DbState) : DbState :=
  mkDb (t_meta db) (f (t_version db)) (t_version_blob db) (t_file_head db).
Definition set_version_blob f (db : DbState) : DbState :=
  mkDb (t_meta db) (t_version db) (f (t_version_blob db)) (t_file_head db).
Definition set_file_head f (db : DbState) : DbState :=
  mkDb (t_meta db) (t_version db) (t_version_blob db) (f (t_file_head db)).

Definition meta_of_row (path : string) (r : MetaRow) : Meta :=
  mkMeta path (mr_is_dir r) (mr_size r) (mr_mtime_unix r) (mr_hash r) (mr_version r).
Definition record_of_row (version : Z) (r : VersionRow) : VersionRecord :=
  mkVersionRecord version (vr_mtime_unix r) (vr_hash r) (vr_size r) (vr_client_id r) (vr_change_type r).

(** ** Faults and conversions *)

(** A statement is named by the store operation and by what it does; a query
    outside a transaction is attempt 0. *)
Record DbFaults := {
  f_stmt : string → string → nat → option goerr;
  f_begin : string → nat → option goerr;         (* db.Begin *)
  f_commit : string → nat → option goerr;        (* tx.Commit *)
}.
Definition no_db_faults : DbFaults :=
  {| f_stmt := λ _ _ _, None; f_begin := λ _ _, None; f_commit := λ _ _, None |}.

(** database/sql refuses a uint64 argument with the high bit set, and to scan
    a negative integer into a uint64. *)
Definition sql_uint64_arg (v : Z) : result goerr Z :=
  if v <? two63 then Ok v
  else Err (ErrNew "sql: converting argument: uint64 values with high bit set are not supported").
Definition sql_scan_uint64 (v : Z) : result goerr Z :=
  if 0 <=? v then Ok v else Err (ErrNew "sql: Scan error: converting to uint64: invalid syntax").

Definition err_unique (columns : string) : goerr :=
  ErrNew ("constraint failed: UNIQUE constraint failed: " +:+ columns).

(** ** LIKE and substr *)

(** SQLite's [LIKE pattern ESCAPE '\']: [%] matches any text, [_] one
    character; other characters match themselves, ASCII letters in any case. *)
Definition is_cont_byte (a : ascii) : bool := byte_in 128 191 a.
Fixpoint skip_cont (s : string) : string :=
  match s with
  | String a s' => if is_cont_byte a then skip_cont s' else s
  | EmptyString => s
  end.
Definition same_letter (a b : ascii) : bool := Ascii.eqb (lower_byte a) (lower_byte b).

Fixpoint sql_like (p s : string) : bool :=
  match p with
  | EmptyString => bool_decide (s = "")
  | String a p' =>
      if Ascii.eqb a "\" then
        match p', s with
        | String c p'', String b s' => same_letter c b && sql_like p'' s'
        | _, _ => false
        end
      else if Ascii.eqb a "%" then
        (fix any (s : string) : bool :=
           sql_like p' s || match s with EmptyString => false | String _ s' => any s' end) s
      else if Ascii.eqb a "_" then
        match s with EmptyString => false | String _ s' => sql_like p' (skip_cont s') end
      else
        match s with EmptyString => false | String b s' => same_letter a b && sql_like p' s' end
  end.

(** [escapeSQLiteLikePattern] *)
Fixpoint escapeSQLiteLikePattern (value : string) : string :=
  match value with
  | EmptyString => ""
  | String a s =>
      if Ascii.eqb a "\" || Ascii.eqb a "%" || Ascii.eqb a "_"
      then String "\" (String a (escapeSQLiteLikePattern s))
      else String a (escapeSQLiteLikePattern s)
  end.

(** [utf8.RuneCountInString] and SQLite's [substr(s, start)] (from character
    [start], counted from 1) on valid UTF-8 text. *)
Fixpoint RuneCountInString (s : string) : nat :=
  match s with
  | EmptyString => 0
  | String a s' => if is_cont_byte a then RuneCountInString s' else S (RuneCountInString s')
  end.
Fixpoint drop_chars (n : nat) (s : string) : string :=
  match n with
  | O => s
  | S n' => match s with EmptyString => "" | String _ s' => drop_chars n' (skip_cont s') end
  end.
Definition sql_substr (s : string) (start : nat) : string := drop_chars (start - 1) s.

(** ** Scans and UPDATE of a primary key

    A statement without ORDER BY visits the rows of a table in an order that
    SQLite chooses. *)
Class RowOrder := {
  table_scan {K V} `{Countable K} (m : gmap K V) : list (K * V);
  table_scan_perm {K V} `{Countable K} (m : gmap K V) : table_scan m ≡ₚ map_to_list m;
}.

(** The selected rows are moved one by one; SQLite checks uniqueness at each
    row and fails the statement when the new key is taken. *)
Section update_keys.
Context {K V : Type} `{Countable K} (f : K → K).

Fixpoint update_keys (ks : list K) (m : gmap K V) : option (gmap K V) :=
  match ks with
  | [] => Some m
  | k :: ks' =>
      match m !! k with
      | None => update_keys ks' m
      | Some v =>
          if decide (f k = k) then update_keys ks' m
          else match m !! f k with
               | Some _ => None
               | None => update_keys ks' (<[f k := v]> (delete k m))
               end
      end
  end.
Definition update_where `{RowOrder} (sel : K → bool) (m : gmap K V) : option (gmap K V) :=
  update_keys (filter (λ k, sel k = true) (table_scan m).*1) m.
End update_keys.

(** ** Transactions *)

(** The body of a transaction, on the tables it sees. *)
Abbreviation Tx A := (go DbState goerr A).

Section Store.
Context {GU : GoUnicode} {RO : RowOrder} (flt : DbFaults).

(** A statement that may fail for an outside reason before it has an effect. *)
Definition exec {A} (op stmt : string) (n : nat) (m : Tx A) : Tx A :=
  λ db, match f_stmt flt op stmt n with Some e => (db, Err e) | None => m db end.

Definition isSQLiteBusy (err : goerr) : bool :=
  let msg := ToLower (err_text err) in
  Contains msg "sqlite_busy" || Contains msg "database is locked".

Definition maxAttempts : nat := 5.

(** One pass of the loop of [withWriteTx]: [Begin], the body, [Commit]; the
    tables change only when all three succeed. *)
Definition attemptTx {A} (op : string) (fn : nat → Tx A) (n : nat) : Tx A := λ db,
  match f_begin flt op n with
  | Some e => (db, Err e)
  | None =>
      match fn n db with
      | (db', Ok a) =>
          match f_commit flt op n with
          | Some e => (db, Err e)
          | None => (db', Ok a)
          end
      | (_, Err e) => (db, Err e)
      end
  end.

(** [withWriteTx], from attempt [maxAttempts - left]; the last component is
    the milliseconds slept before each retry. *)
Fixpoint withWriteTx_loop {A} (op : string) (fn : nat → Tx A) (left : nat) (lastErr : goerr)
    (db : DbState) : DbState * result goerr A * list Z :=
  match left with
  | O => (db, Err lastErr, [])
  | S left' =>
      let attempt := (maxAttempts - left)%nat in
      match attemptTx op fn attempt db with
      | (db', Ok a) => (db', Ok a, [])
      | (db', Err e) =>
          if negb (isSQLiteBusy e) || bool_decide (attempt = maxAttempts - 1)%nat then (db', Err e, [])
          else
            let wait := 25 * Z.shiftl 1 (Z.of_nat attempt) in
            let '(r, waits) := withWriteTx_loop op fn left' e db' in (r, wait :: waits)
      end
  end.
Definition withWriteTx {A} (op : string) (fn : nat → Tx A) : Tx A :=
  λ db, (withWriteTx_loop op fn maxAttempts (ErrNew "") db).1.

(** ** Statements of the version store *)

Definition versions_of (path : string) (db : DbState) : list Z :=
  omap (λ k : string * Z, if decide (k.1 = path) then Some k.2 else None)
       (table_scan (t_version db)).*1.

(** [COALESCE(MAX(version), 0)] *)
Definition max_version (path : string) (db : DbState) : Z :=
  match versions_of path db with [] => 0 | v :: vs => foldr Z.max v vs end.

Definition ensureFileHeadTx (op path : string) (n : nat) : Tx unit := λ db,
  match f_stmt flt op "select file_head" n with
  | Some e => (db, Err e)
  | None =>
      match t_file_head db !! path with
      | Some v => (db, try _ := sql_scan_uint64 v in Ok tt)
      | None =>
          (let! versionMax := exec op "select max version" n
               (go_read (λ db, sql_scan_uint64 (max_version path db))) in
           let! metaVersion := (λ db,
               match f_stmt flt op "select meta version" n with
               | Some e =>
                   if Contains (ToLower (err_text e)) "no such table: meta"
                   then (db, Ok 0) else (db, Err e)
               | None =>
                   match t_meta db !! path with
                   | None => (db, Ok 0)
                   | Some r => (db, sql_scan_uint64 (mr_version r))
                   end
               end) in
           let versionMax := if versionMax <? metaVersion then metaVersion else versionMax in
           exec op "insert file_head" n
             (let! v := go_lift (sql_uint64_arg versionMax) in
              go_modify (set_file_head (λ m, match m !! path with
                                             | Some _ => m
                                             | None => <[path := v]> m
                                             end)))) db
      end
  end.

(** The addition of [UPDATE file_head] leaves the integers at [maxInt64]:
    SQLite stores a float then, which the scan into a uint64 refuses. *)
Definition nextVersionTx (op path : string) (n : nat) : Tx Z :=
  ensureFileHeadTx op path n ;;!
  exec op "increment file_head" n
    (go_modify (set_file_head (λ m, alter (λ v, v + 1) path m))) ;;!
  exec op "select current_version" n
    (go_read (λ db, match t_file_head db !! path with
                    | None => Err (ErrNew "sql: no rows in result set")
                    | Some v => if maxInt64 <? v
                                then Err (ErrNew "sql: Scan error: converting to uint64: invalid syntax")
                                else sql_scan_uint64 v
                    end)).

Definition setCurrentVersionIfGreaterTx (op path : string) (version : Z) (n : nat) : Tx unit :=
  exec op "raise file_head" n
    (let! version := go_lift (sql_uint64_arg version) in
     go_modify (set_file_head (λ m, alter (λ v, if v <? version then version else v) path m))).

Definition upsertMetaTx (op : string) (meta : Meta) (n : nat) : Tx unit :=
  exec op "upsert meta" n
    (let! version := go_lift (sql_uint64_arg (m_Version meta)) in
     go_modify (set_meta (λ m, <[m_Path meta :=
       mkMetaRow (m_IsDir meta) (m_Size meta) (m_MtimeUnix meta) (m_Hash meta) version]> m))).

Definition deleteMetaTx (op path : string) (n : nat) : Tx unit :=
  exec op "delete meta" n (go_modify (set_meta (λ m, delete path m))).

(** [data] is a Go slice: [None] is the nil slice, which stores no blob. *)
Definition insertSnapshotTx (op path : string) (rec : VersionRecord) (data : option bytes)
    (n : nat) : Tx unit :=
  exec op "insert version" n
    (let! version := go_lift (sql_uint64_arg (v_Version rec)) in
     λ db, match t_version db !! (path, version) with
           | Some _ => (db, Err (err_unique "version.path, version.version"))
           | None =>
               (set_version (λ m, <[(path, version) :=
                  mkVersionRow (v_MtimeUnix rec) (v_Hash rec) (v_Size rec)
                    (v_ClientID rec) (v_ChangeType rec)]> m) db, Ok tt)
           end) ;;!
  match data with
  | None => go_ret tt
  | Some data =>
      exec op "insert version_blob" n
        (let! version := go_lift (sql_uint64_arg (v_Version rec)) in
         λ db, match t_version_blob db !! (path, version) with
               | Some _ => (db, Err (err_unique "version_blob.path, version_blob.version"))
               | None => (set_version_blob (λ m, <[(path, version) := data]> m) db, Ok tt)
               end)
  end.

(** ** Operations of the version store *)

Definition AppendSnapshot (path : string) (rec : VersionRecord) (data : option bytes) : Tx unit :=
  let op := "append_snapshot" in
  withWriteTx op (λ n,
    ensureFileHeadTx op path n ;;!
    setCurrentVersionIfGreaterTx op path (v_Version rec) n ;;!
    insertSnapshotTx op path rec data n).

Definition Append (path : string) (rec : VersionRecord) : Tx unit := AppendSnapshot path rec None.

Definition meta_with_version (meta : Meta) (version : Z) : Meta :=
  mkMeta (m_Path meta) (m_IsDir meta) (m_Size meta) (m_MtimeUnix meta) (m_Hash meta) version.

Definition SaveFileSnapshot (meta : Meta) (clientID changeType : string) (data : option bytes) : Tx Z :=
  let op := "save_file_snapshot" in
  withWriteTx op (λ n,
    let! version := nextVersionTx op (m_Path meta) n in
    upsertMetaTx op (meta_with_version meta version) n ;;!
    insertSnapshotTx op (m_Path meta)
      (mkVersionRecord version (m_MtimeUnix meta) (m_Hash meta) (m_Size meta) clientID changeType)
      data n ;;!
    go_ret version).

Definition AppendDeleteSnapshot (path : string) (size mtimeUnix : Z) (clientID : string) : Tx Z :=
  let op := "append_delete_snapshot" in
  withWriteTx op (λ n,
    let! version := nextVersionTx op path n in
    deleteMetaTx op path n ;;!
    insertSnapshotTx op path
      (mkVersionRecord version mtimeUnix "" size clientID "delete") None n ;;!
    go_ret version).

(** The rows [renamePathPrefixTx] selects and the path it gives them. *)
Definition in_tree (oldPath prefixPattern p : string) : bool :=
  bool_decide (p = oldPath) || sql_like prefixPattern p.
Definition moved_path (oldPath newPath : string) (childSuffixStart : nat) (p : string) : string :=
  if decide (p = oldPath) then newPath else newPath +:+ sql_substr p childSuffixStart.

Definition renamePathPrefixTx (op table oldPath newPath prefixPattern : string)
    (childSuffixStart n : nat) : Tx unit :=
  let sel := in_tree oldPath prefixPattern in
  let mv := moved_path oldPath newPath childSuffixStart in
  let fail (columns : string) : DbState → DbState * result goerr unit :=
    λ db, (db, Err (err_unique columns)) in
  exec op ("update " +:+ table) n (λ db,
    if bool_decide (table = "meta") then
      match update_where mv sel (t_meta db) with
      | Some m => (set_meta (λ _, m) db, Ok tt) | None => fail "meta.path" db end
    else if bool_decide (table = "file_head") then
      match update_where mv sel (t_file_head db) with
      | Some m => (set_file_head (λ _, m) db, Ok tt) | None => fail "file_head.path" db end
    else if bool_decide (table = "version") then
      match update_where (prod_map mv id) (sel ∘ fst) (t_version db) with
      | Some m => (set_version (λ _, m) db, Ok tt)
      | None => fail "version.path, version.version" db end
    else
      match update_where (prod_map mv id) (sel ∘ fst) (t_version_blob db) with
      | Some m => (set_version_blob (λ _, m) db, Ok tt)
      | None => fail "version_blob.path, version_blob.version" db end).

Fixpoint for_each {A} (l : list A) (body : A → Tx unit) : Tx unit :=
  match l with [] => go_ret tt | x :: l' => body x ;;! for_each l' body end.

Definition RenamePathTree (oldPath newPath : string) : Tx unit :=
  if bool_decide (oldPath = newPath) then go_ret tt else
  let prefixPattern := escapeSQLiteLikePattern oldPath +:+ "/%" in
  let childSuffixStart := (RuneCountInString oldPath + 1)%nat in
  let op := "rename_path_tree" in
  withWriteTx op (λ n,
    for_each ["meta"; "file_head"; "version"; "version_blob"] (λ table,
      renamePathPrefixTx op table oldPath newPath prefixPattern childSuffixStart n)).

(** Queries.  [GetHistory] skips a row it cannot scan. *)
Definition query {A} (op : string) (q : DbState → result goerr A) (db : DbState) : result goerr A :=
  match f_stmt flt op "query" 0 with Some e => Err e | None => q db end.

Definition record_at (path : string) (db : DbState) (version : Z) : option VersionRecord :=
  record_of_row version <$> t_version db !! (path, version).

Definition GetHistory (path : string) : DbState → result goerr (list VersionRecord) :=
  query "GetHistory" (λ db,
    Ok (omap (record_at path db)
          (filter (λ v, 0 ≤ v) (merge_sort Z.le (versions_of path db))))).

Definition GetRecord (path : string) (version : Z) : DbState → result goerr VersionRecord :=
  query "GetRecord" (λ db,
    try version := sql_uint64_arg version in
    match record_at path db version with
    | Some rec => Ok rec
    | None => Err (ErrWrap "version record not found" (ErrSentinel ErrNotExist))
    end).

Definition GetLatestRecord (path : string) : DbState → result goerr VersionRecord :=
  query "GetLatestRecord" (λ db,
    match versions_of path db with
    | [] => Err (ErrWrap "latest version record not found" (ErrSentinel ErrNotExist))
    | _ =>
        let v := max_version path db in
        try _ := sql_scan_uint64 v in
        match record_at path db v with
        | Some rec => Ok rec
        | None => Err (ErrWrap "latest version record not found" (ErrSentinel ErrNotExist))
        end
    end).

Definition GetVersionData (path : string) (version : Z) : DbState → result goerr bytes :=
  query "GetVersionData" (λ db,
    try version := sql_uint64_arg version in
    match t_version_blob db !! (path, version) with
    | Some data => Ok data
    | None => Err (ErrWrap "version data not found" (ErrSentinel ErrNotExist))
    end).

(** ** The metadata store (internal/db/meta.go) *)

Definition scan_meta (path : string) (r : MetaRow) : result goerr Meta :=
  try _ := sql_scan_uint64 (mr_version r) in Ok (meta_of_row path r).

Definition GetMeta (path : string) : DbState → result goerr Meta :=
  query "GetMeta" (λ db,
    match t_meta db !! path with
    | None => Err (ErrSentinel ErrNotExist)
    | Some r => scan_meta path r
    end).

Definition SetMeta (meta : Meta) : Tx unit := upsertMetaTx "SetMeta" meta 0.
Definition DeleteMeta (path : string) : Tx unit := deleteMetaTx "DeleteMeta" path 0.

Fixpoint scan_all (rows : list (string * MetaRow)) : result goerr (list Meta) :=
  match rows with
  | [] => Ok []
  | (path, r) :: rows' =>
      try meta := scan_meta path r in
      try l := scan_all rows' in Ok (meta :: l)
  end.
Definition AllMetas : DbState → result goerr (list Meta) :=
  query "AllMetas" (λ db, scan_all (table_scan (t_meta db))).

End Store.

#[export] Program Instance map_order : RowOrder := {| table_scan K V _ _ m := map_to_list m |}.
Next Obligation. done. Qed.
