(* ===== verification/DatabaseSpec.v ===== *)
(** * What the version store promises

    The invariant of the tables, the effect of each write as one function of
    the tables, and the theorems that the operations of Database.v implement
    them: version numbers grow by one per write and never repeat, history is
    only appended to, a write that fails leaves the tables alone, and
    [withWriteTx] makes a bounded number of attempts. *)

From S2P Require Import Prelude GoStrings Database.
Open Scope string_scope.
Open Scope Z_scope.
Open Scope list_scope.

(** ** The invariant *)

(** The version a path is at: its head, or what [ensureFileHeadTx] would
    install when it has none. *)
Definition head_for `{RowOrder} (path : string) (db : DbState) : Z :=
  match t_file_head db !! path with
  | Some h => h
  | None => Z.max (max_version path db) (default 0 (mr_version <$> t_meta db !! path))
  end.

(** Integers are in range, no recorded version exceeds the head, and each blob
    belongs to a version. *)
Record db_wf (db : DbState) : Prop := {
  wf_head p h : t_file_head db !! p = Some h → 0 ≤ h ≤ maxInt64;
  wf_version p v r : t_version db !! (p, v) = Some r → 0 ≤ v ≤ maxInt64;
  wf_version_head p v r h :
    t_version db !! (p, v) = Some r → t_file_head db !! p = Some h → v ≤ h;
  wf_meta p r : t_meta db !! p = Some r → 0 ≤ mr_version r ≤ maxInt64;
  wf_meta_head p r h :
    t_meta db !! p = Some r → t_file_head db !! p = Some h → mr_version r ≤ h;
  wf_blob k d : t_version_blob db !! k = Some d → is_Some (t_version db !! k);
}.

(** Every path with a version has a head: true of the tables this program
    fills, not of tables upgraded from a release without [file_head]. *)
Record db_headed (db : DbState) : Prop := {
  hd_version p v r : t_version db !! (p, v) = Some r → is_Some (t_file_head db !! p);
  hd_meta p r : t_meta db !! p = Some r → 0 < mr_version r → is_Some (t_file_head db !! p);
}.

Lemma empty_db_wf : db_wf empty_db.
Proof. split; simpl; intros *; rewrite ?lookup_empty; congruence. Qed.
Lemma empty_db_headed : db_headed empty_db.
Proof. split; simpl; intros *; rewrite ?lookup_empty; congruence. Qed.

(** ** Effects of the writes *)

Definition put_blob (k : string * Z) (data : option bytes) (m : gmap (string * Z) bytes) :
    gmap (string * Z) bytes :=
  match data with Some d => <[k := d]> m | None => m end.

(** A new version [v] of [path] with its row, its blob and its new metadata
    ([None]: the path is deleted). *)
Definition new_version (path : string) (v : Z) (row : VersionRow) (data : option bytes)
    (meta : option MetaRow) (db : DbState) : DbState :=
  mkDb (partial_alter (λ _, meta) path (t_meta db))
       (<[(path, v) := row]> (t_version db))
       (put_blob (path, v) data (t_version_blob db))
       (<[path := v]> (t_file_head db)).

Definition saved (meta : Meta) (clientID changeType : string) (data : option bytes) (v : Z) :
    DbState → DbState :=
  new_version (m_Path meta) v
    (mkVersionRow (m_MtimeUnix meta) (m_Hash meta) (m_Size meta) clientID changeType) data
    (Some (mkMetaRow (m_IsDir meta) (m_Size meta) (m_MtimeUnix meta) (m_Hash meta) v)).

Definition deleted (path : string) (size mtimeUnix : Z) (clientID : string) (v : Z) :
    DbState → DbState :=
  new_version path v (mkVersionRow mtimeUnix "" size clientID "delete") None None.

(** ** Versions of a path *)

Section Rows.
Context {RO : RowOrder}.

Lemma elem_of_versions_of path db v :
  v ∈ versions_of path db ↔ ∃ r, t_version db !! (path, v) = Some r.
Proof.
  unfold versions_of. rewrite list_elem_of_omap. split.
  - intros [[p w] [Hin Hp]]. simpl in Hp. case_decide; [|done]. simplify_eq.
    apply list_elem_of_fmap in Hin as [[k r] [-> Hin]].
    rewrite table_scan_perm in Hin. apply elem_of_map_to_list in Hin. eauto.
  - intros [r Hr]. exists (path, v). simpl. rewrite decide_True by done. split; [|done].
    apply list_elem_of_fmap. exists ((path, v), r). split; [done|].
    rewrite table_scan_perm. by apply elem_of_map_to_list.
Qed.

Lemma foldr_max_ge (l : list Z) (z v : Z) : v ∈ z :: l → v ≤ foldr Z.max z l.
Proof.
  induction l as [|w l IH]; simpl; intros H.
  - apply list_elem_of_singleton in H. lia.
  - rewrite !elem_of_cons in *. destruct H as [->|[->|H]]; [|lia|].
    + specialize (IH (or_introl eq_refl)). lia.
    + specialize (IH (or_intror H)). lia.
Qed.

Lemma foldr_max_in (l : list Z) (z : Z) : foldr Z.max z l ∈ z :: l.
Proof.
  induction l as [|w l IH]; simpl; [by left|].
  destruct (Z.max_spec w (foldr Z.max z l)) as [[_ ->]|[_ ->]].
  - apply elem_of_cons in IH as [->|IH]; [by left|]. by do 2 right.
  - right; left.
Qed.

Lemma max_version_ge path db v r :
  t_version db !! (path, v) = Some r → v ≤ max_version path db.
Proof.
  intros Hr. assert (v ∈ versions_of path db) as Hin by (apply elem_of_versions_of; eauto).
  unfold max_version. destruct (versions_of path db); [by apply not_elem_of_nil in Hin|].
  by apply foldr_max_ge.
Qed.

Lemma max_version_ext path db db' :
  (∀ v, v ∈ versions_of path db ↔ v ∈ versions_of path db') →
  max_version path db = max_version path db'.
Proof.
  unfold max_version. intros H.
  destruct (versions_of path db) as [|z l], (versions_of path db') as [|z' l']; [done|..].
  - destruct (not_elem_of_nil z'). apply H. left.
  - destruct (not_elem_of_nil z). apply H. left.
  - apply Z.le_antisymm; apply foldr_max_ge, H, foldr_max_in.
Qed.

Lemma max_version_range path db : db_wf db → 0 ≤ max_version path db ≤ maxInt64.
Proof.
  intros Hwf. unfold max_version. destruct (versions_of path db) as [|z l] eqn:E.
  { unfold maxInt64, two63. lia. }
  assert (foldr Z.max z l ∈ versions_of path db) as Hin by (rewrite E; apply foldr_max_in).
  apply elem_of_versions_of in Hin as [r Hr]. by apply (wf_version _ Hwf) in Hr.
Qed.

Lemma head_for_range path db : db_wf db → 0 ≤ head_for path db ≤ maxInt64.
Proof.
  intros Hwf. unfold head_for. destruct (t_file_head db !! path) eqn:E.
  { by apply (wf_head _ Hwf) in E. }
  pose proof (max_version_range path db Hwf).
  destruct (t_meta db !! path) as [r|] eqn:Em; simpl.
  - apply (wf_meta _ Hwf) in Em. lia.
  - lia.
Qed.

Lemma version_le_head path db v r :
  db_wf db → t_version db !! (path, v) = Some r → v ≤ head_for path db.
Proof.
  intros Hwf Hr. unfold head_for. destruct (t_file_head db !! path) eqn:E.
  - by eapply (wf_version_head _ Hwf).
  - apply max_version_ge in Hr. lia.
Qed.

Lemma meta_le_head path db r :
  db_wf db → t_meta db !! path = Some r → mr_version r ≤ head_for path db.
Proof.
  intros Hwf Hr. unfold head_for. destruct (t_file_head db !! path) eqn:E.
  - by eapply (wf_meta_head _ Hwf).
  - rewrite Hr. simpl. lia.
Qed.

Lemma new_version_wf path row data meta db :
  db_wf db → head_for path db < maxInt64 →
  (∀ r, meta = Some r → mr_version r = head_for path db + 1) →
  db_wf (new_version path (head_for path db + 1) row data meta db).
Proof.
  intros Hwf Hlt Hm. pose proof (head_for_range path db Hwf) as Hr.
  assert (∀ p v r, t_version db !! (p, v) = Some r → p = path → v ≤ head_for path db) as Hv.
  { intros p v r Hpr ->. by eapply version_le_head. }
  split; simpl.
  - intros p h. destruct (decide (p = path)) as [->|].
    + rewrite lookup_insert_eq. intros [= <-]. lia.
    + rewrite lookup_insert_ne by done. intros. by eapply wf_head.
  - intros p v r. destruct (decide ((path, head_for path db + 1) = (p, v))) as [[= -> <-]|].
    + intros _. lia.
    + rewrite lookup_insert_ne by done. intros. by eapply wf_version.
  - intros p v r h H1 H2. destruct (decide (p = path)) as [->|].
    + apply lookup_insert_Some in H2 as [[_ <-]|[]]; [|done]. destruct (decide (v = head_for path db + 1)) as [->|]; [lia|].
      rewrite lookup_insert_ne in H1 by congruence. specialize (Hv _ _ _ H1 eq_refl). lia.
    + rewrite lookup_insert_ne in H1 by congruence. rewrite lookup_insert_ne in H2 by congruence.
      by eapply wf_version_head.
  - intros p r. destruct (decide (p = path)) as [->|].
    + rewrite lookup_partial_alter_eq. intros E. specialize (Hm r E). lia.
    + rewrite lookup_partial_alter_ne by done. intros. by eapply wf_meta.
  - intros p r h. destruct (decide (p = path)) as [->|].
    + rewrite lookup_partial_alter_eq, lookup_insert_eq. intros E [= <-]. by rewrite (Hm r E).
    + rewrite lookup_partial_alter_ne, lookup_insert_ne by done. intros. by eapply wf_meta_head.
  - intros k d Hd. destruct (decide (k = (path, head_for path db + 1))) as [->|].
    { rewrite lookup_insert_eq. eauto. }
    rewrite lookup_insert_ne by congruence. destruct data; simpl in Hd.
    + rewrite lookup_insert_ne in Hd by congruence. by eapply wf_blob.
    + by eapply wf_blob.
Qed.

Lemma new_version_headed path v row data meta db :
  db_headed db → db_headed (new_version path v row data meta db).
Proof.
  intros H. split; simpl.
  - intros p w r. destruct (decide (p = path)) as [->|]; [rewrite lookup_insert_eq; eauto|].
    rewrite !lookup_insert_ne by congruence. apply (hd_version _ H).
  - intros p r. destruct (decide (p = path)) as [->|]; [rewrite lookup_insert_eq; eauto|].
    rewrite lookup_partial_alter_ne, lookup_insert_ne by done. apply (hd_meta _ H).
Qed.
End Rows.

(** ** Transactions *)

Section Transactions.
Context {GU : GoUnicode} {RO : RowOrder} (flt : DbFaults).

Lemma attemptTx_inv {A} op (fn : nat → Tx A) n db db' r :
  attemptTx flt op fn n db = (db', r) →
  (∃ e, r = Err e ∧ db' = db) ∨ (∃ a, r = Ok a ∧ fn n db = (db', Ok a)).
Proof.
  unfold attemptTx. destruct (f_begin flt op n); [naive_solver|].
  destruct (fn n db) as [db1 [a|e]]; [|naive_solver].
  destruct (f_commit flt op n); naive_solver.
Qed.

Lemma withWriteTx_loop_inv {A} op (fn : nat → Tx A) left e0 db db' r waits :
  withWriteTx_loop flt op fn left e0 db = (db', r, waits) →
  (∃ e, r = Err e ∧ db' = db) ∨ (∃ a n, r = Ok a ∧ fn n db = (db', Ok a)).
Proof.
  revert e0 db db' r waits. induction left as [|left IH]; simpl; intros e0 db db' r waits.
  { intros [= <- <- <-]. eauto. }
  destruct (attemptTx flt op fn _ db) as [db1 [a|e]] eqn:Ha.
  - intros [= <- <- <-]. apply attemptTx_inv in Ha as [(? & ? & ?)|(? & [= <-] & ?)]; [done|].
    right; eauto.
  - apply attemptTx_inv in Ha as [(e1 & [= <-] & ->)|(? & ? & ?)]; [|done].
    destruct (_ || _); [intros [= <- <- <-]; eauto|].
    destruct (withWriteTx_loop flt op fn left e db) as [[db2 r2] w2] eqn:Hl.
    intros [= <- <- <-]. eauto.
Qed.

(** Either nothing happened, or some attempt ran the body to its end. *)
Lemma withWriteTx_inv {A} op (fn : nat → Tx A) db db' r :
  withWriteTx flt op fn db = (db', r) →
  (∃ e, r = Err e ∧ db' = db) ∨ (∃ a n, r = Ok a ∧ fn n db = (db', Ok a)).
Proof.
  unfold withWriteTx. destruct (withWriteTx_loop _ _ _ _ _ _) as [[db1 r1] w1] eqn:E.
  simpl. intros [= <- <-]. by eapply withWriteTx_loop_inv.
Qed.

(** [Wait] is a quick first attempt: a body that ends well at attempt 0 is the
    result. *)
Lemma withWriteTx_first {A} op (fn : nat → Tx A) db db' a :
  f_begin flt op 0 = None → f_commit flt op 0 = None →
  fn 0%nat db = (db', Ok a) → withWriteTx flt op fn db = (db', Ok a).
Proof.
  intros Hb Hc Hf. unfold withWriteTx, maxAttempts. simpl.
  unfold attemptTx. by rewrite Hb, Hf, Hc.
Qed.

Lemma exec_Ok {A} op stmt n (m : Tx A) db db' a :
  exec flt op stmt n m db = (db', Ok a) → m db = (db', Ok a).
Proof. unfold exec. by destruct (f_stmt flt op stmt n). Qed.

Lemma exec_no_fault {A} op stmt n (m : Tx A) db :
  f_stmt flt op stmt n = None → exec flt op stmt n m db = m db.
Proof. unfold exec. by intros ->. Qed.

Lemma sql_uint64_arg_Ok v w : sql_uint64_arg v = Ok w ↔ w = v ∧ v < two63.
Proof.
  unfold sql_uint64_arg. destruct (v <? two63) eqn:E; [rewrite Z.ltb_lt in E|rewrite Z.ltb_ge in E].
  all: split; [intros [= ->]|intros [? ?]]; subst; auto; lia.
Qed.

Lemma sql_scan_uint64_Ok v w : sql_scan_uint64 v = Ok w ↔ w = v ∧ 0 ≤ v.
Proof.
  unfold sql_scan_uint64. destruct (0 <=? v) eqn:E; [rewrite Z.leb_le in E|rewrite Z.leb_gt in E].
  all: split; [intros [= ->]|intros [? ?]]; subst; auto; lia.
Qed.
End Transactions.

(** Inverts the successful runs of a transaction body, step by step. *)
Ltac tx_step :=
  match goal with
  | H : go_bind _ _ _ = (_, Ok _) |- _ =>
      let w := fresh "db" in let a := fresh "a" in let H1 := fresh H in
      apply go_bind_Ok in H as (w & a & H1 & H)
  | H : exec _ _ _ _ _ _ = (_, Ok _) |- _ => apply exec_Ok in H
  | H : go_lift (sql_uint64_arg _) _ = (_, Ok _) |- _ =>
      unfold go_lift in H; injection H as <- H; apply sql_uint64_arg_Ok in H as [-> H]
  | H : go_modify _ _ = (_, Ok _) |- _ => injection H as <-
  | H : go_ret _ _ = (_, Ok _) |- _ => injection H as <- <-
  end.
Ltac tx_inv := repeat tx_step; try subst.

(** The errors of the driver never claim that the table [meta] is missing:
    the migrations created it. *)
Definition meta_table_exists `{GoUnicode} (flt : DbFaults) : Prop :=
  ∀ op n e, f_stmt flt op "select meta version" n = Some e →
    Contains (ToLower (err_text e)) "no such table: meta" = false.

Lemma no_db_faults_meta_table `{GoUnicode} : meta_table_exists no_db_faults.
Proof. by intros op n e. Qed.

Section Operations.
Context {GU : GoUnicode} {RO : RowOrder} (flt : DbFaults) (Hflt : meta_table_exists flt).

(** [ensureFileHeadTx] leaves the head at [head_for]. *)
Lemma ensureFileHeadTx_Ok op path n db db' a :
  ensureFileHeadTx flt op path n db = (db', Ok a) →
  db' = set_file_head (λ m, <[path := head_for path db]> m) db.
Proof.
  unfold ensureFileHeadTx, head_for.
  destruct (f_stmt _ _ "select file_head" _); [done|].
  destruct (t_file_head db !! path) as [h|] eqn:Eh.
  { intros [= <- _]. unfold set_file_head. rewrite insert_id by done. by destruct db. }
  intros H. tx_inv. unfold go_read in H0. injection H0 as <- H0.
  apply sql_scan_uint64_Ok in H0 as [-> H0].
  assert (db1 = db ∧ a1 = default 0 (mr_version <$> t_meta db !! path)) as [-> ->].
  { destruct (f_stmt flt op "select meta version" n) eqn:Ef.
    { rewrite (Hflt _ _ _ Ef) in H1. done. }
    destruct (t_meta db !! path); simpl; [|by injection H1].
    injection H1 as <- H1. by apply sql_scan_uint64_Ok in H1 as [-> _]. }
  unfold set_file_head. simpl. rewrite Eh. do 2 f_equal.
  destruct (_ <? _) eqn:E; [apply Z.ltb_lt in E|apply Z.ltb_ge in E]; lia.
Qed.

Lemma nextVersionTx_Ok op path n db db' v :
  nextVersionTx flt op path n db = (db', Ok v) →
  v = head_for path db + 1 ∧ v ≤ maxInt64 ∧
  db' = set_file_head (λ m, <[path := v]> m) db.
Proof.
  unfold nextVersionTx. intros H. tx_inv.
  apply ensureFileHeadTx_Ok in H0. subst. unfold go_read in H. injection H as <- H.
  simpl in H. rewrite lookup_alter_eq, lookup_insert_eq in H. simpl in H.
  destruct (_ <? _) eqn:E; [done|]. apply Z.ltb_ge in E.
  apply sql_scan_uint64_Ok in H as [-> H]. split_and!; [done..|].
  unfold set_file_head. simpl. f_equal. by rewrite alter_insert_eq.
Qed.

Lemma insertSnapshotTx_Ok op path rec data n db db' a :
  insertSnapshotTx flt op path rec data n db = (db', Ok a) →
  db' = set_version (λ m, <[(path, v_Version rec) :=
          mkVersionRow (v_MtimeUnix rec) (v_Hash rec) (v_Size rec)
            (v_ClientID rec) (v_ChangeType rec)]> m)
        (set_version_blob (put_blob (path, v_Version rec) data) db)
  ∧ t_version db !! (path, v_Version rec) = None.
Proof.
  unfold insertSnapshotTx. intros H. tx_inv.
  destruct (t_version db !! _) eqn:Ev; [done|]. injection H0 as <-.
  destruct data as [d|]; tx_inv.
  - simpl in H. destruct (t_version_blob db !! _) eqn:Eb; [done|]. injection H as <-. done.
  - split; [by destruct db|done].
Qed.

Lemma SaveFileSnapshot_body meta clientID changeType data n db db' v :
  (let! version := nextVersionTx flt "save_file_snapshot" (m_Path meta) n in
   upsertMetaTx flt "save_file_snapshot" (meta_with_version meta version) n ;;!
   insertSnapshotTx flt "save_file_snapshot" (m_Path meta)
     (mkVersionRecord version (m_MtimeUnix meta) (m_Hash meta) (m_Size meta) clientID changeType)
     data n ;;!
   go_ret version) db = (db', Ok v) →
  v = head_for (m_Path meta) db + 1 ∧ v ≤ maxInt64 ∧
  db' = saved meta clientID changeType data v db.
Proof.
  unfold upsertMetaTx. intros H. tx_inv. apply nextVersionTx_Ok in H0 as (-> & Hv & ->).
  apply insertSnapshotTx_Ok in H2 as [-> _]. done.
Qed.

Lemma AppendDeleteSnapshot_body path size mtimeUnix clientID n db db' v :
  (let! version := nextVersionTx flt "append_delete_snapshot" path n in
   deleteMetaTx flt "append_delete_snapshot" path n ;;!
   insertSnapshotTx flt "append_delete_snapshot" path
     (mkVersionRecord version mtimeUnix "" size clientID "delete") None n ;;!
   go_ret version) db = (db', Ok v) →
  v = head_for path db + 1 ∧ v ≤ maxInt64 ∧ db' = deleted path size mtimeUnix clientID v db.
Proof.
  unfold deleteMetaTx. intros H. tx_inv. apply nextVersionTx_Ok in H0 as (-> & Hv & ->).
  apply insertSnapshotTx_Ok in H2 as [-> _]. split_and!; [done..|].
  unfold deleted, new_version, set_version, set_version_blob, set_meta. simpl. done.
Qed.

(** The two outcomes of a write: nothing, or the next version. *)
Lemma SaveFileSnapshot_outcome meta clientID changeType data db db' r :
  SaveFileSnapshot flt meta clientID changeType data db = (db', r) →
  (∃ e, r = Err e ∧ db' = db) ∨
  (head_for (m_Path meta) db < maxInt64 ∧ r = Ok (head_for (m_Path meta) db + 1) ∧
   db' = saved meta clientID changeType data (head_for (m_Path meta) db + 1) db).
Proof.
  intros H. apply withWriteTx_inv in H as [?|(v & n & -> & H)]; [by left|right].
  apply SaveFileSnapshot_body in H as (-> & ? & ->). split_and!; [lia|done..].
Qed.

Lemma AppendDeleteSnapshot_outcome path size mtimeUnix clientID db db' r :
  AppendDeleteSnapshot flt path size mtimeUnix clientID db = (db', r) →
  (∃ e, r = Err e ∧ db' = db) ∨
  (head_for path db < maxInt64 ∧ r = Ok (head_for path db + 1) ∧
   db' = deleted path size mtimeUnix clientID (head_for path db + 1) db).
Proof.
  intros H. apply withWriteTx_inv in H as [?|(v & n & -> & H)]; [by left|right].
  apply AppendDeleteSnapshot_body in H as (-> & ? & ->). split_and!; [lia|done..].
Qed.
End Operations.

(** ** Writes that no fault disturbs succeed *)

(** No statement, [Begin] or [Commit] of the operation's first attempt fails. *)
Definition quiet (flt : DbFaults) (op : string) : Prop :=
  (∀ stmt, f_stmt flt op stmt 0 = None) ∧ f_begin flt op 0 = None ∧ f_commit flt op 0 = None.

Lemma no_db_faults_quiet op : quiet no_db_faults op.
Proof. done. Qed.

Section Total.
Context {GU : GoUnicode} {RO : RowOrder} (flt : DbFaults) (op : string) (Hq : quiet flt op).

Lemma exec_quiet {A} stmt (m : Tx A) db : exec flt op stmt 0 m db = m db.
Proof. apply exec_no_fault, Hq. Qed.

Lemma sql_uint64_arg_in v : v ≤ maxInt64 → sql_uint64_arg v = Ok v.
Proof. intros. apply sql_uint64_arg_Ok. unfold maxInt64 in *. lia. Qed.
Lemma sql_scan_uint64_in v : 0 ≤ v → sql_scan_uint64 v = Ok v.
Proof. intros. by apply sql_scan_uint64_Ok. Qed.

Lemma ensureFileHeadTx_total path db :
  db_wf db →
  ensureFileHeadTx flt op path 0 db =
    (set_file_head (λ m, <[path := head_for path db]> m) db, Ok tt).
Proof.
  intros Hwf. pose proof (max_version_range path db Hwf) as Hmv.
  pose proof (head_for_range path db Hwf) as Hh.
  unfold ensureFileHeadTx. rewrite !(proj1 Hq). unfold head_for in *.
  destruct (t_file_head db !! path) as [h|] eqn:Eh.
  { rewrite sql_scan_uint64_in by lia. unfold set_file_head. rewrite insert_id by done.
    by destruct db. }
  assert ((match t_meta db !! path with
           | None => (db, Ok 0) | Some r => (db, sql_scan_uint64 (mr_version r)) end) =
          (db, Ok (E := goerr) (default 0 (mr_version <$> t_meta db !! path)))) as Hm.
  { destruct (t_meta db !! path) as [r|] eqn:Em; [|done]. simpl.
    rewrite sql_scan_uint64_in; [done|]. apply (wf_meta _ Hwf) in Em. lia. }
  unfold go_bind at 1. rewrite exec_quiet. unfold go_read at 1.
  rewrite (sql_scan_uint64_in (max_version path db)) by lia.
  unfold go_bind at 1. rewrite Hm, exec_quiet.
  replace (if _ <? _ then _ else _)
    with (Z.max (max_version path db) (default 0 (mr_version <$> t_meta db !! path))).
  2:{ destruct (_ <? _) eqn:E; [apply Z.ltb_lt in E|apply Z.ltb_ge in E]; lia. }
  unfold go_bind, go_lift. rewrite sql_uint64_arg_in by lia.
  unfold go_modify, set_file_head. simpl. by rewrite Eh.
Qed.

Lemma nextVersionTx_total path db :
  db_wf db → head_for path db < maxInt64 →
  nextVersionTx flt op path 0 db =
    (set_file_head (λ m, <[path := head_for path db + 1]> m) db, Ok (head_for path db + 1)).
Proof.
  intros Hwf Hlt. pose proof (head_for_range path db Hwf) as Hh.
  unfold nextVersionTx, go_bind. rewrite ensureFileHeadTx_total by done.
  rewrite !exec_quiet. unfold go_modify, go_read. rewrite exec_quiet. simpl. rewrite lookup_alter_eq, lookup_insert_eq.
  simpl. rewrite (proj2 (Z.ltb_ge _ _)) by lia. rewrite sql_scan_uint64_in by lia.
  unfold set_file_head. simpl. by rewrite alter_insert_eq.
Qed.

Lemma insertSnapshotTx_total path rec data db :
  v_Version rec ≤ maxInt64 → t_version db !! (path, v_Version rec) = None →
  t_version_blob db !! (path, v_Version rec) = None →
  insertSnapshotTx flt op path rec data 0 db =
    (set_version (λ m, <[(path, v_Version rec) :=
          mkVersionRow (v_MtimeUnix rec) (v_Hash rec) (v_Size rec)
            (v_ClientID rec) (v_ChangeType rec)]> m)
        (set_version_blob (put_blob (path, v_Version rec) data) db), Ok tt).
Proof.
  intros Hv Hn Hb. unfold insertSnapshotTx, go_bind, go_lift. rewrite exec_quiet.
  rewrite sql_uint64_arg_in by done. rewrite Hn. destruct data as [d|].
  - rewrite exec_quiet. simpl. by rewrite Hb.
  - by destruct db.
Qed.

Lemma no_version_above_head path v db :
  db_wf db → head_for path db < v →
  t_version db !! (path, v) = None ∧ t_version_blob db !! (path, v) = None.
Proof.
  intros Hwf Hv. assert (t_version db !! (path, v) = None) as Hn.
  { destruct (t_version db !! (path, v)) eqn:E; [|done].
    apply (version_le_head _ _ _ _ Hwf) in E. lia. }
  split; [done|]. destruct (t_version_blob db !! (path, v)) eqn:E; [|done].
  apply (wf_blob _ Hwf) in E as [? E]. congruence.
Qed.
End Total.

Section TotalWrites.
Context {GU : GoUnicode} {RO : RowOrder} (flt : DbFaults).

Lemma SaveFileSnapshot_total meta clientID changeType data db :
  quiet flt "save_file_snapshot" → db_wf db → head_for (m_Path meta) db < maxInt64 →
  SaveFileSnapshot flt meta clientID changeType data db =
    (saved meta clientID changeType data (head_for (m_Path meta) db + 1) db,
     Ok (head_for (m_Path meta) db + 1)).
Proof.
  intros Hq Hwf Hlt. apply withWriteTx_first; [apply Hq..|].
  destruct (no_version_above_head (m_Path meta) (head_for (m_Path meta) db + 1) db Hwf) as [Hn Hb];
    [lia|].
  unfold go_bind at 1. rewrite nextVersionTx_total by done.
  unfold upsertMetaTx, go_bind at 1. rewrite exec_quiet by done. simpl.
  unfold go_bind, go_lift. rewrite sql_uint64_arg_in by lia. unfold go_modify.
  rewrite insertSnapshotTx_total; simpl; [done..|lia|done|done].
Qed.

Lemma AppendDeleteSnapshot_total path size mtimeUnix clientID db :
  quiet flt "append_delete_snapshot" → db_wf db → head_for path db < maxInt64 →
  AppendDeleteSnapshot flt path size mtimeUnix clientID db =
    (deleted path size mtimeUnix clientID (head_for path db + 1) db, Ok (head_for path db + 1)).
Proof.
  intros Hq Hwf Hlt. apply withWriteTx_first; [apply Hq..|].
  destruct (no_version_above_head path (head_for path db + 1) db Hwf) as [Hn Hb]; [lia|].
  unfold go_bind at 1. rewrite nextVersionTx_total by done.
  unfold deleteMetaTx, go_bind at 1. rewrite exec_quiet by done. simpl.
  unfold go_bind, go_modify.
  rewrite insertSnapshotTx_total; simpl; [done..|lia|done|done].
Qed.
End TotalWrites.
