(* ===== verification/RenameTree.v ===== *)
(** * Renaming a tree of rows

    What [RenamePathTree] of Database.v does to the four tables: the rows of
    the old path and of the paths below it get the new prefix, in step in every
    table, or nothing changes. *)

From S2P Require Import Prelude GoStrings Database DatabaseSpec.
From Stdlib Require Import Ascii.
Open Scope string_scope.
Open Scope Z_scope.
Open Scope list_scope.

(** ** Which rows move, and where *)

(** [p] is [oldPath], or a path below it up to the case of ASCII letters (the
    case that LIKE ignores). *)
Definition below (oldPath p : string) : bool :=
  HasPrefix (lower_ascii p) (lower_ascii oldPath +:+ "/").

Definition tree_move (oldPath newPath p : string) : string :=
  if decide (p = oldPath) then newPath
  else if below oldPath p then newPath +:+ sdrop (String.length oldPath) p
  else p.

(** ** LIKE *)

Lemma lower_byte_sep b : lower_byte b = "/"%char → b = "/"%char.
Proof. destruct b as [[] [] [] [] [] [] [] []]; vm_compute; congruence. Qed.

Lemma same_letter_sep b : same_letter "/" b = true ↔ b = "/"%char.
Proof.
  unfold same_letter. rewrite Ascii.eqb_eq. split; [|by intros ->].
  intros H. by apply lower_byte_sep.
Qed.

Lemma lower_ascii_app s t : lower_ascii (s +:+ t) = lower_ascii s +:+ lower_ascii t.
Proof. induction s as [|a s IH]; simpl; [done|]. by rewrite IH. Qed.
Lemma lower_ascii_length s : String.length (lower_ascii s) = String.length s.
Proof. induction s; simpl; congruence. Qed.

(** An escaped prefix matches itself, up to case. *)
Lemma sql_like_escape o rest s :
  sql_like (escapeSQLiteLikePattern o +:+ rest) s = true ↔
  ∃ s1 s2, s = s1 +:+ s2 ∧ lower_ascii s1 = lower_ascii o ∧ sql_like rest s2 = true.
Proof.
  revert s. induction o as [|a o IH]; intros s.
  { simpl. split; [intros H; by exists "", s|].
    intros (s1 & s2 & -> & H & ?). by destruct s1. }
  assert (∀ p, sql_like (String a p) s = match s with
            | EmptyString => false | String b s' => same_letter a b && sql_like p s' end →
    sql_like (String a p) s = true ↔
    ∃ b s', s = String b s' ∧ lower_byte b = lower_byte a ∧ sql_like p s' = true) as Hplain.
  { intros p ->. destruct s as [|b s]; [naive_solver|]. rewrite andb_true_iff.
    unfold same_letter. rewrite Ascii.eqb_eq. naive_solver. }
  assert ((∃ b s', s = String b s' ∧ lower_byte b = lower_byte a ∧
             sql_like (escapeSQLiteLikePattern o +:+ rest) s' = true) ↔
    ∃ s1 s2, s = s1 +:+ s2 ∧ lower_ascii s1 = lower_ascii (String a o) ∧
             sql_like rest s2 = true) as Htail.
  { split.
    - intros (b & s' & -> & Hb & H). apply IH in H as (s1 & s2 & -> & H1 & H2).
      exists (String b s1), s2. simpl. by rewrite Hb, H1.
    - intros (s1 & s2 & -> & H1 & H2). destruct s1 as [|b s1]; [done|]. simpl in H1.
      injection H1 as Hb H1. exists b, (s1 +:+ s2). simpl. split_and!; [done..|].
      apply IH. eauto. }
  rewrite <- Htail. simpl.
  destruct (Ascii.eqb a "\") eqn:E1; [apply Ascii.eqb_eq in E1 as ->|
  destruct (Ascii.eqb a "%") eqn:E2; [apply Ascii.eqb_eq in E2 as ->|
  destruct (Ascii.eqb a "_") eqn:E3; [apply Ascii.eqb_eq in E3 as ->|]]].
  1,2,3: destruct s as [|b s]; simpl; [naive_solver|]; rewrite andb_true_iff;
    unfold same_letter; rewrite Ascii.eqb_eq; naive_solver.
  simpl orb. cbv iota. apply Hplain. simpl. by rewrite E1, E2, E3.
Qed.

Lemma sql_like_any s : sql_like "%" s = true.
Proof. induction s as [|b s IH]; [done|]. exact IH. Qed.

Lemma sql_like_sep_any s : sql_like "/%" s = true ↔ ∃ t, s = "/" +:+ t.
Proof.
  destruct s as [|b s]; [split; [done|by intros [? ?]]|].
  change (sql_like "/%" (String b s)) with (same_letter "/" b && sql_like "%" s).
  rewrite sql_like_any, andb_true_r, same_letter_sep. split.
  - intros ->. by exists s.
  - intros [t [= -> ->]]. done.
Qed.

Lemma like_tree o p :
  sql_like (escapeSQLiteLikePattern o +:+ "/%") p = true ↔
  ∃ s1 t, p = s1 +:+ "/" +:+ t ∧ lower_ascii s1 = lower_ascii o.
Proof.
  rewrite sql_like_escape. setoid_rewrite sql_like_sep_any. naive_solver.
Qed.

Lemma below_spec o p :
  below o p = true ↔ ∃ s1 t, p = s1 +:+ "/" +:+ t ∧ lower_ascii s1 = lower_ascii o.
Proof.
  unfold below. split.
  - revert p. induction o as [|a o IH]; intros p H.
    + destruct p as [|b p]; [done|]. apply HasPrefix_spec in H as [t H]. simpl in H.
      injection H as Hb _. apply lower_byte_sep in Hb as ->.
      by exists "", p.
    + destruct p as [|b p]; [done|]. apply HasPrefix_spec in H as [t H]. simpl in H.
      injection H as Hb H. destruct (IH p) as (s1 & t' & -> & H1).
      { apply HasPrefix_spec. eauto. }
      exists (String b s1), t'. simpl. by rewrite Hb, H1.
  - intros (s1 & t & -> & H). rewrite !lower_ascii_app, H, append_assoc. apply HasPrefix_app.
Qed.

(** ** substr *)

(** Text that does not start inside a character. *)
Definition starts_char (s : string) : bool :=
  match s with String a _ => negb (is_cont_byte a) | EmptyString => true end.

Lemma lower_byte_cont a : is_cont_byte (lower_byte a) = is_cont_byte a.
Proof. destruct a as [[] [] [] [] [] [] [] []]; reflexivity. Qed.

Lemma RuneCount_lower s : RuneCountInString (lower_ascii s) = RuneCountInString s.
Proof. induction s as [|a s IH]; simpl; [done|]. rewrite lower_byte_cont, IH. done. Qed.

Lemma starts_char_lower s : starts_char (lower_ascii s) = starts_char s.
Proof. destruct s; simpl; [done|]. by rewrite lower_byte_cont. Qed.

Lemma skip_cont_app s t : starts_char t = true → skip_cont (s +:+ t) = skip_cont s +:+ t.
Proof.
  intros Ht. induction s as [|a s IH]; simpl.
  - destruct t; simpl in *; [done|]. by destruct (is_cont_byte _).
  - by destruct (is_cont_byte a).
Qed.
Lemma RuneCount_skip s : RuneCountInString (skip_cont s) = RuneCountInString s.
Proof. induction s as [|a s IH]; simpl; [done|]. destruct (is_cont_byte a) eqn:E; simpl; by rewrite ?E. Qed.
Lemma starts_char_skip s : starts_char (skip_cont s) = true.
Proof. induction s as [|a s IH]; simpl; [done|]. destruct (is_cont_byte a) eqn:E; simpl; by rewrite ?E. Qed.
Lemma skip_cont_length s : (String.length (skip_cont s) ≤ String.length s)%nat.
Proof. induction s as [|a s IH]; simpl; [done|]. destruct (is_cont_byte a); simpl; lia. Qed.

(** Dropping as many characters as a prefix has leaves what follows it. *)
Lemma drop_chars_prefix s t :
  starts_char s = true → starts_char t = true → drop_chars (RuneCountInString s) (s +:+ t) = t.
Proof.
  intros Hs Ht. remember (String.length s) as n eqn:Hn. revert s Hs Hn.
  induction (lt_wf n) as [n _ IH]. intros [|a s] Hs Hn; simpl; [done|].
  simpl in Hs. apply negb_true_iff in Hs. rewrite Hs. simpl.
  rewrite skip_cont_app, <- RuneCount_skip by done.
  eapply IH; [|apply starts_char_skip|reflexivity].
  pose proof (skip_cont_length s). simpl in Hn. lia.
Qed.

Lemma moved_path_below o s1 t :
  starts_char o = true → lower_ascii s1 = lower_ascii o →
  sql_substr (s1 +:+ "/" +:+ t) (RuneCountInString o + 1) = "/" +:+ t.
Proof.
  intros Ho E. unfold sql_substr. rewrite Nat.add_sub.
  rewrite <- (RuneCount_lower o), <- E, RuneCount_lower. apply drop_chars_prefix; [|done].
  by rewrite <- starts_char_lower, E, starts_char_lower.
Qed.

(** The rows that the statements select and the new paths they compute. *)
Lemma tree_move_sql o new p :
  starts_char o = true →
  (if in_tree o (escapeSQLiteLikePattern o +:+ "/%") p
   then moved_path o new (RuneCountInString o + 1) p else p) = tree_move o new p.
Proof.
  intros Ho. unfold in_tree, moved_path, tree_move.
  destruct (decide (p = o)) as [->|Hne]; [by rewrite bool_decide_true|].
  rewrite bool_decide_false by done. simpl orb.
  destruct (below o p) eqn:Hb.
  - destruct (proj1 (below_spec o p) Hb) as (s1 & t & -> & Hl).
    rewrite (proj2 (like_tree _ _)) by eauto. rewrite moved_path_below by done.
    by rewrite <- (lower_ascii_length o), <- Hl, lower_ascii_length, sdrop_append.
  - destruct (sql_like _ p) eqn:E; [|done].
    apply like_tree, below_spec in E. congruence.
Qed.

(** ** UPDATE of a key *)

Section Update.
Context {K V : Type} `{Countable K} (f : K → K).

Lemma update_keys_spec (ks : list K) (m m' : gmap K V) :
  NoDup ks → (∀ k, k ∈ ks → is_Some (m !! k)) → update_keys f ks m = Some m' →
  ∀ q x, m' !! q = Some x ↔
    ∃ k, m !! k = Some x ∧ q = (if bool_decide (k ∈ ks) then f k else k).
Proof.
  revert m. induction ks as [|k ks IH]; simpl; intros m Hnd Hin Hup q x.
  { injection Hup as <-. split; [intros; exists q; split; [done|]|intros (k & Hk & ->)].
    all: done. }
  apply NoDup_cons in Hnd as [Hk Hnd].
  destruct (Hin k) as [v Hv]; [by left|]. rewrite Hv in Hup.
  assert (∀ k', k' ≠ k → bool_decide (k' ∈ k :: ks) = bool_decide (k' ∈ ks)) as Hbd.
  { intros k' Hne. apply bool_decide_ext. rewrite elem_of_cons. naive_solver. }
  destruct (decide (f k = k)) as [Hfk|Hfk].
  - rewrite (IH m Hnd) by (try done; intros; apply Hin; by right).
    split; intros (k0 & Hk0 & ->); exists k0; (split; [done|]);
      (destruct (decide (k0 = k)) as [->|]; [|by rewrite Hbd]);
      rewrite (bool_decide_true (k ∈ k :: ks)) by (by left);
      by rewrite bool_decide_false.
  - destruct (m !! f k) eqn:Hfree; [done|].
    assert (f k ∉ ks) as Hfks.
    { intros Hf. destruct (Hin (f k)) as [? ?]; [by right|congruence]. }
    assert (∀ k', k' ∈ ks → is_Some (<[f k:=v]> (delete k m) !! k')) as Hin'.
    { intros k' Hk'. rewrite lookup_insert_ne, lookup_delete_ne by (intros <-; done).
      apply Hin. by right. }
    rewrite (IH _ Hnd Hin' Hup).
    split.
    + intros (k0 & Hk0 & ->). destruct (decide (k0 = f k)) as [->|Hne].
      * rewrite lookup_insert_eq in Hk0. injection Hk0 as <-. exists k. split; [done|].
        rewrite (bool_decide_true (k ∈ k :: ks)) by (by left). by rewrite bool_decide_false.
      * rewrite lookup_insert_ne in Hk0 by done.
        apply lookup_delete_Some in Hk0 as [Hne' Hk0].
        exists k0. by rewrite Hbd.
    + intros (k0 & Hk0 & ->). destruct (decide (k0 = k)) as [->|Hne].
      * exists (f k). rewrite lookup_insert_eq. split; [congruence|].
        rewrite (bool_decide_true (k ∈ k :: ks)) by (by left). by rewrite bool_decide_false.
      * exists k0. rewrite Hbd by done. split; [|done].
        rewrite lookup_insert_ne by congruence. by rewrite lookup_delete_ne.
Qed.

(** A successful UPDATE is the image of the table under the move. *)
Lemma update_where_spec `{RowOrder} (sel : K → bool) (m m' : gmap K V) :
  update_where f sel m = Some m' →
  ∀ q x, m' !! q = Some x ↔ ∃ k, m !! k = Some x ∧ q = (if sel k then f k else k).
Proof.
  unfold update_where. intros Hup q x.
  assert (∀ k, k ∈ (table_scan m).*1 ↔ is_Some (m !! k)) as Hkeys.
  { intros k. rewrite table_scan_perm, list_elem_of_fmap. split.
    - intros ([k0 v] & -> & Hk). apply elem_of_map_to_list in Hk. eauto.
    - intros [v Hv]. exists (k, v). split; [done|]. by apply elem_of_map_to_list. }
  rewrite (update_keys_spec (filter (λ k : K, sel k = true) (table_scan m).*1) m m'); [| |  |done].
  - split; intros (k & Hk & ->); exists k; (split; [done|]);
      destruct (bool_decide _) eqn:E;
      [apply bool_decide_eq_true in E|apply bool_decide_eq_false in E
      |apply bool_decide_eq_true in E|apply bool_decide_eq_false in E];
      rewrite list_elem_of_filter, Hkeys in E;
      destruct (sel k) eqn:Es; try done; destruct E; eauto; congruence.
  - apply NoDup_filter. rewrite table_scan_perm. apply NoDup_fst_map_to_list.
  - intros k. rewrite list_elem_of_filter, Hkeys. by intros [_ ?].
Qed.
End Update.

(** ** The operation *)

(** [m'] is [m] with every key sent through [f]. *)
Definition image_of {K V} `{Countable K} (f : K → K) (m m' : gmap K V) : Prop :=
  ∀ q x, m' !! q = Some x ↔ ∃ k, m !! k = Some x ∧ q = f k.

(** The four tables moved in step. *)
Record tables_moved (f : string → string) (db db' : DbState) : Prop := {
  mv_meta : image_of f (t_meta db) (t_meta db');
  mv_head : image_of f (t_file_head db) (t_file_head db');
  mv_version : image_of (prod_map f id) (t_version db) (t_version db');
  mv_blob : image_of (prod_map f id) (t_version_blob db) (t_version_blob db');
}.

Section Rename.
Context {GU : GoUnicode} {RO : RowOrder} (flt : DbFaults).

Lemma update_where_tree {V} (o new : string) (m m' : gmap string V) :
  starts_char o = true →
  update_where (moved_path o new (RuneCountInString o + 1))
    (in_tree o (escapeSQLiteLikePattern o +:+ "/%")) m = Some m' →
  image_of (tree_move o new) m m'.
Proof.
  intros Ho Hup q x. rewrite (update_where_spec _ _ _ _ Hup).
  by setoid_rewrite (tree_move_sql o new _ Ho).
Qed.

Lemma update_where_tree_pair {V} (o new : string) (m m' : gmap (string * Z) V) :
  starts_char o = true →
  update_where (prod_map (moved_path o new (RuneCountInString o + 1)) id)
    (in_tree o (escapeSQLiteLikePattern o +:+ "/%") ∘ fst) m = Some m' →
  image_of (prod_map (tree_move o new) id) m m'.
Proof.
  intros Ho Hup q x. rewrite (update_where_spec _ _ _ _ Hup).
  assert (∀ k : string * Z,
    (if (in_tree o (escapeSQLiteLikePattern o +:+ "/%") ∘ fst) k
     then prod_map (moved_path o new (RuneCountInString o + 1)) id k else k) =
    prod_map (tree_move o new) id k) as Hk.
  { intros [p v]. unfold compose, prod_map. simpl. rewrite <- tree_move_sql by done.
    by destruct (in_tree _ _ _). }
  by setoid_rewrite Hk.
Qed.

Lemma RenamePathTree_body o new n db db' a :
  starts_char o = true →
  for_each ["meta"; "file_head"; "version"; "version_blob"] (λ table,
    renamePathPrefixTx flt "rename_path_tree" table o new
      (escapeSQLiteLikePattern o +:+ "/%") (RuneCountInString o + 1) n) db = (db', Ok a) →
  tables_moved (tree_move o new) db db'.
Proof.
  intros Ho H. simpl for_each in H. unfold renamePathPrefixTx in H. tx_inv.
  simpl in H0, H1, H2, H3.
  destruct (update_where _ _ (t_meta _)) eqn:E1; [injection H0 as <-|done].
  destruct (update_where _ _ (t_file_head _)) eqn:E2; [injection H1 as <-|done].
  destruct (update_where _ _ (t_version _)) eqn:E3; [injection H2 as <-|done].
  destruct (update_where _ _ (t_version_blob _)) eqn:E4; [injection H3 as <-|done].
  simpl in E1, E2, E3, E4. split; simpl.
  - by apply update_where_tree.
  - by apply update_where_tree.
  - by apply update_where_tree_pair.
  - by apply update_where_tree_pair.
Qed.

Lemma RenamePathTree_outcome o new db db' r :
  starts_char o = true →
  RenamePathTree flt o new db = (db', r) →
  (∃ e, r = Err e ∧ db' = db) ∨
  (r = Ok tt ∧ (o = new → db' = db) ∧ (o ≠ new → tables_moved (tree_move o new) db db')).
Proof.
  intros Ho. unfold RenamePathTree. destruct (bool_decide_reflect (o = new)) as [->|Hne].
  { intros [= <- <-]. right. split_and!; done. }
  intros H. apply withWriteTx_inv in H as [?|([] & n & -> & H)]; [by left|right].
  split_and!; [done..|]. intros _. by eapply RenamePathTree_body.
Qed.
End Rename.

Lemma tables_moved_wf f db db' : db_wf db → db_headed db → tables_moved f db db' → db_wf db'.
Proof.
  intros Hwf Hhd [Hm Hh Hv Hb].
  assert (∀ p v r h, t_version db !! (p, v) = Some r → t_file_head db' !! f p = Some h →
            v ≤ h) as Hvh.
  { intros p v r h Hr Hfh. destruct (hd_version _ Hhd _ _ _ Hr) as [h' Hh'].
    assert (t_file_head db' !! f p = Some h') as E by (apply Hh; eauto).
    rewrite E in Hfh. injection Hfh as <-. by eapply (wf_version_head _ Hwf). }
  split.
  - intros p h (q & Hq & ->)%Hh. by eapply (wf_head _ Hwf).
  - intros p v r ([q w] & Hq & [= -> ->])%Hv. by eapply (wf_version _ Hwf).
  - intros p v r h ([q w] & Hq & [= -> ->])%Hv Hh'. by eapply Hvh.
  - intros p r (q & Hq & ->)%Hm. by eapply (wf_meta _ Hwf).
  - intros p r h (q & Hq & ->)%Hm Hh'.
    destruct (decide (0 < mr_version r)) as [Hpos|Hz].
    + destruct (hd_meta _ Hhd _ _ Hq Hpos) as [h' Hqh].
      assert (t_file_head db' !! f q = Some h') as E by (apply Hh; eauto).
      rewrite E in Hh'. injection Hh' as <-. by eapply (wf_meta_head _ Hwf).
    + apply Hh in Hh' as (q' & Hq' & _). apply (wf_head _ Hwf) in Hq'. lia.
  - intros [p v] d ([q w] & Hq & [= -> ->])%Hb.
    apply (wf_blob _ Hwf) in Hq as [r Hr]. exists r. apply Hv. by exists (q, w).
Qed.

Lemma tables_moved_headed f db db' : db_headed db → tables_moved f db db' → db_headed db'.
Proof.
  intros Hhd [Hm Hh Hv Hb]. split.
  - intros p v r ([q w] & Hq & [= -> ->])%Hv. destruct (hd_version _ Hhd _ _ _ Hq) as [h Hh'].
    exists h. apply Hh. eauto.
  - intros p r (q & Hq & ->)%Hm Hpos. destruct (hd_meta _ Hhd _ _ Hq Hpos) as [h Hh'].
    exists h. apply Hh. eauto.
Qed.
