(* ===== verification/StoreTheorems.v ===== *)
(** * The version store is correct

    The operations of the store as steps on its tables, the invariant of every
    reachable table state, the append-only history, the contract of a single
    write, and the retry loop. *)

From S2P Require Import Prelude GoStrings Database DatabaseSpec RenameTree.
Open Scope string_scope.
Open Scope Z_scope.
Open Scope list_scope.

Section Steps.
Context {GU : GoUnicode} {RO : RowOrder}.

(** ** AppendSnapshot and SetMeta *)

Definition appended (path : string) (rec : VersionRecord) (data : option bytes) (db : DbState) : DbState :=
  mkDb (t_meta db)
       (<[(path, v_Version rec) := mkVersionRow (v_MtimeUnix rec) (v_Hash rec) (v_Size rec)
            (v_ClientID rec) (v_ChangeType rec)]> (t_version db))
       (put_blob (path, v_Version rec) data (t_version_blob db))
       (<[path := Z.max (head_for path db) (v_Version rec)]> (t_file_head db)).

Lemma AppendSnapshot_outcome flt path rec data db db' r :
  meta_table_exists flt →
  AppendSnapshot flt path rec data db = (db', r) →
  (∃ e, r = Err e ∧ db' = db) ∨
  (r = Ok tt ∧ v_Version rec < two63 ∧ t_version db !! (path, v_Version rec) = None ∧
   db' = appended path rec data db).
Proof.
  intros Hf H. apply withWriteTx_inv in H as [?|([] & n & -> & H)]; [by left|right].
  unfold setCurrentVersionIfGreaterTx in H. tx_inv.
  apply (ensureFileHeadTx_Ok _ Hf) in H0 as ->.
  apply insertSnapshotTx_Ok in H as [-> Hn]. split_and!; [done..|].
  unfold appended, set_version, set_version_blob, set_file_head. simpl. f_equal.
  rewrite alter_insert_eq. f_equal.
  destruct (_ <? _) eqn:E; [apply Z.ltb_lt in E|apply Z.ltb_ge in E]; lia.
Qed.

Lemma SetMeta_outcome flt meta db db' r :
  SetMeta flt meta db = (db', r) →
  (∃ e, r = Err e ∧ db' = db) ∨
  (r = Ok tt ∧ db' = set_meta (λ m, <[m_Path meta := mkMetaRow (m_IsDir meta) (m_Size meta)
     (m_MtimeUnix meta) (m_Hash meta) (m_Version meta)]> m) db).
Proof.
  unfold SetMeta, upsertMetaTx, exec. destruct (f_stmt _ _ _ _); [intros [= <- <-]; eauto|].
  unfold go_bind, go_lift, sql_uint64_arg. destruct (_ <? _); intros [= <- <-]; eauto.
Qed.

Lemma DeleteMeta_outcome flt path db db' r :
  DeleteMeta flt path db = (db', r) →
  (∃ e, r = Err e ∧ db' = db) ∨ (r = Ok tt ∧ db' = set_meta (delete path) db).
Proof.
  unfold DeleteMeta, deleteMetaTx, exec. destruct (f_stmt _ _ _ _); [intros [= <- <-]; eauto|].
  unfold go_modify. intros [= <- <-]. by right.
Qed.

(** ** The store as a transition system

    Every call of an operation, whatever fails in it.  [SetMeta] is called
    with version 0 only (Mkdir). *)
Inductive write_step (flt : DbFaults) (db : DbState) : DbState → Prop :=
| step_save meta clientID changeType data :
    write_step flt db (SaveFileSnapshot flt meta clientID changeType data db).1
| step_delete path size mtimeUnix clientID :
    write_step flt db (AppendDeleteSnapshot flt path size mtimeUnix clientID db).1
| step_append path rec data :
    0 ≤ v_Version rec → write_step flt db (AppendSnapshot flt path rec data db).1
| step_set_meta meta :
    m_Version meta = 0 → write_step flt db (SetMeta flt meta db).1
| step_delete_meta path :
    write_step flt db (DeleteMeta flt path db).1.

Inductive store_step (db db' : DbState) : Prop :=
| step_write flt : meta_table_exists flt → write_step flt db db' → store_step db db'
| step_rename flt oldPath newPath :
    starts_char oldPath = true →
    db' = (RenamePathTree flt oldPath newPath db).1 → store_step db db'.

(** The shapes of table states a write can lead to. *)
Lemma write_step_cases flt db db' :
  meta_table_exists flt → write_step flt db db' →
  db' = db ∨
  (∃ path row data meta, head_for path db < maxInt64 ∧
     (∀ r, meta = Some r → mr_version r = head_for path db + 1) ∧
     db' = new_version path (head_for path db + 1) row data meta db) ∨
  (∃ path rec data, 0 ≤ v_Version rec < two63 ∧
     t_version db !! (path, v_Version rec) = None ∧ db' = appended path rec data db) ∨
  (∃ path meta, (∀ r, meta = Some r → mr_version r = 0) ∧
     db' = set_meta (partial_alter (λ _, meta) path) db).
Proof.
  intros Hf [meta cid ct data|path sz mt cid|path rec data Hv|meta Hv|path].
  - destruct (SaveFileSnapshot _ _ _ _ _ _) as [db1 r] eqn:E.
    apply (SaveFileSnapshot_outcome _ Hf) in E as [(e & _ & ->)|(Hlt & _ & ->)]; [by left|].
    right; left. unfold saved. do 4 eexists. split_and!; [done| |done]. by intros ? [= <-].
  - destruct (AppendDeleteSnapshot _ _ _ _ _ _) as [db1 r] eqn:E.
    apply (AppendDeleteSnapshot_outcome _ Hf) in E as [(e & _ & ->)|(Hlt & _ & ->)]; [by left|].
    right; left. unfold deleted. do 4 eexists. split_and!; [done| |done]. done.
  - destruct (AppendSnapshot _ _ _ _ _) as [db1 r] eqn:E.
    apply (AppendSnapshot_outcome _ _ _ _ _ _ _ Hf) in E as [(e & _ & ->)|(_ & Hlt & Hn & ->)];
      [by left|].
    do 2 right; left. eauto 10.
  - destruct (SetMeta _ _ _) as [db1 r] eqn:E.
    apply SetMeta_outcome in E as [(e & _ & ->)|(_ & ->)]; [by left|].
    do 3 right. eexists _, (Some _). split; [|reflexivity]. by intros ? [= <-].
  - destruct (DeleteMeta _ _ _) as [db1 r] eqn:E.
    apply DeleteMeta_outcome in E as [(e & _ & ->)|(_ & ->)]; [by left|].
    do 3 right. exists path, None. split; [done|]. done.
Qed.

Lemma appended_wf path rec data db :
  db_wf db → 0 ≤ v_Version rec < two63 → db_wf (appended path rec data db).
Proof.
  intros Hwf Hv. pose proof (head_for_range path db Hwf) as Hr.
  assert (v_Version rec ≤ maxInt64) by (unfold maxInt64; lia). split; simpl.
  - intros p h. destruct (decide (path = p)) as [<-|].
    + rewrite lookup_insert_eq. intros [= <-]. lia.
    + rewrite lookup_insert_ne by done. by apply wf_head.
  - intros p v r. destruct (decide ((path, v_Version rec) = (p, v))) as [[= <- <-]|].
    + intros _. lia.
    + rewrite lookup_insert_ne by done. by apply wf_version.
  - intros p v r h. destruct (decide ((path, v_Version rec) = (p, v))) as [[= <- <-]|].
    + rewrite !lookup_insert_eq. intros _ [= <-]. lia.
    + rewrite lookup_insert_ne by done. intros H1. destruct (decide (path = p)) as [<-|].
      * rewrite lookup_insert_eq. intros [= <-]. apply (version_le_head _ _ _ _ Hwf) in H1. lia.
      * rewrite lookup_insert_ne by done. by eapply wf_version_head.
  - apply (wf_meta _ Hwf).
  - intros p r h H1. destruct (decide (path = p)) as [<-|].
    + rewrite lookup_insert_eq. intros [= <-]. apply (meta_le_head _ _ _ Hwf) in H1. lia.
    + rewrite lookup_insert_ne by done. by eapply wf_meta_head.
  - intros k d Hd. destruct (decide ((path, v_Version rec) = k)) as [<-|].
    { rewrite lookup_insert_eq. eauto. }
    rewrite lookup_insert_ne by done. destruct data; simpl in Hd.
    + rewrite lookup_insert_ne in Hd by done. by eapply wf_blob.
    + by eapply wf_blob.
Qed.

Lemma appended_headed path rec data db : db_headed db → db_headed (appended path rec data db).
Proof.
  intros H. split; simpl.
  - intros p v r. destruct (decide (path = p)) as [<-|]; [rewrite lookup_insert_eq; eauto|].
    rewrite !lookup_insert_ne by congruence. apply (hd_version _ H).
  - intros p r. destruct (decide (path = p)) as [<-|]; [rewrite lookup_insert_eq; eauto|].
    rewrite lookup_insert_ne by done. apply (hd_meta _ H).
Qed.

Lemma set_meta_wf path meta db :
  (∀ r, meta = Some r → mr_version r = 0) → db_wf db →
  db_wf (set_meta (partial_alter (λ _, meta) path) db).
Proof.
  intros Hm Hwf. split; simpl; try apply Hwf.
  - intros p r. destruct (decide (path = p)) as [<-|].
    + rewrite lookup_partial_alter_eq. intros E. rewrite (Hm r E). unfold maxInt64, two63. lia.
    + rewrite lookup_partial_alter_ne by done. by apply wf_meta.
  - intros p r h. destruct (decide (path = p)) as [<-|].
    + rewrite lookup_partial_alter_eq. intros E Hh. rewrite (Hm r E).
      by apply (wf_head _ Hwf) in Hh as [? _].
    + rewrite lookup_partial_alter_ne by done. by apply wf_meta_head.
Qed.

Lemma set_meta_headed path meta db :
  (∀ r, meta = Some r → mr_version r = 0) → db_headed db →
  db_headed (set_meta (partial_alter (λ _, meta) path) db).
Proof.
  intros Hm H. split; simpl; [apply H|].
  intros p r. destruct (decide (path = p)) as [<-|].
  - rewrite lookup_partial_alter_eq. intros E. rewrite (Hm r E). lia.
  - rewrite lookup_partial_alter_ne by done. apply (hd_meta _ H).
Qed.

Lemma store_step_wf db db' :
  store_step db db' → db_wf db → db_headed db → db_wf db' ∧ db_headed db'.
Proof.
  intros [flt Hf Hs|flt o new Ho ->] Hwf Hhd.
  - apply (write_step_cases _ _ _ Hf) in Hs as
      [->|[(path & row & data & meta & Hlt & Hm & ->)
          |[(path & rec & data & Hv & Hn & ->)|(path & meta & Hm & ->)]]].
    + done.
    + split; [by apply new_version_wf|by apply new_version_headed].
    + split; [by apply appended_wf|by apply appended_headed].
    + split; [by apply set_meta_wf|by apply set_meta_headed].
  - destruct (RenamePathTree flt o new db) as [db1 r] eqn:E. simpl.
    apply RenamePathTree_outcome in E as [(e & _ & ->)|(_ & Heq & Hmv)]; [done| |done].
    destruct (decide (o = new)) as [->|Hne]; [by rewrite Heq|].
    specialize (Hmv Hne). split; [by eapply tables_moved_wf|by eapply tables_moved_headed].
Qed.
End Steps.

(** C5: in every table state that the store can reach from an empty database,
    whatever statements, [Begin]s and [Commit]s fail on the way, no recorded
    version exceeds the head of its path, every version has a head, all
    integers fit SQLite's, and each blob belongs to a version. *)
Theorem reachable_store_wf `{GoUnicode} `{RowOrder} (db : DbState) :
  rtc store_step empty_db db → db_wf db ∧ db_headed db.
Proof.
  intros Hr. assert (∀ db0, rtc store_step db0 db → db_wf db0 → db_headed db0 →
    db_wf db ∧ db_headed db) as Hind.
  { clear Hr. intros db0 Hr. induction Hr as [|db0 db1 db2 Hs _ IH]; [done|].
    intros Hwf Hhd. destruct (store_step_wf _ _ Hs Hwf Hhd). by apply IH. }
  apply (Hind empty_db Hr); [apply empty_db_wf|apply empty_db_headed].
Qed.

Section Examples.
#[local] Existing Instance ascii_only_unicode.

Definition ex_meta : Meta := mkMeta "/srv/a.txt" false 3 1700000000 "ab" 0.
(** The tables after one upload of [/srv/a.txt]. *)
Definition ex_db : DbState :=
  (SaveFileSnapshot no_db_faults ex_meta "c1" "modify" (Some [Byte.x61]) empty_db).1.

Lemma ex_db_step : store_step empty_db ex_db.
Proof. eapply step_write; [apply no_db_faults_meta_table|apply step_save]. Qed.

Lemma reachable_store_wf_witness :
  rtc store_step empty_db ex_db ∧ (db_wf ex_db ∧ db_headed ex_db).
Proof.
  split; [apply rtc_once, ex_db_step|].
  apply reachable_store_wf, rtc_once, ex_db_step.
Defined.
End Examples.

(** ** History *)

(** Writes on a table state, whatever fails in them. *)
Definition any_write `{GoUnicode} `{RowOrder} (db db' : DbState) : Prop :=
  ∃ flt, meta_table_exists flt ∧ write_step flt db db'.

Section History.
Context {GU : GoUnicode} {RO : RowOrder}.

(** [db'] keeps the history of [db]: the same rows, and heads that only grow. *)
Definition extends (db db' : DbState) : Prop :=
  t_version db ⊆ t_version db' ∧ t_version_blob db ⊆ t_version_blob db' ∧
  ∀ p h, t_file_head db !! p = Some h → ∃ h', t_file_head db' !! p = Some h' ∧ h ≤ h'.

#[export] Instance extends_preorder : PreOrder extends.
Proof.
  split.
  - intros db. split_and!; [done..|]. intros p h Hh. exists h. split; [done|lia].
  - intros a b c (H1 & H2 & H3) (G1 & G2 & G3). split_and!; [by etrans..|].
    intros p h Hh. destruct (H3 p h Hh) as (h' & Hh' & ?).
    destruct (G3 p h' Hh') as (h'' & ? & ?). exists h''. split; [done|lia].
Qed.

Lemma put_blob_extends (k : string * Z) (data : option bytes) (m : gmap (string * Z) bytes) :
  m !! k = None → m ⊆ put_blob k data m.
Proof. intros. destruct data; simpl; [by apply insert_subseteq|done]. Qed.

Lemma write_step_extends flt db db' :
  meta_table_exists flt → write_step flt db db' → db_wf db → extends db db'.
Proof.
  intros Hf Hs Hwf.
  assert (∀ path v, t_version db !! (path, v) = None →
            t_version_blob db !! (path, v) = None) as Hb.
  { intros path v Hn. apply eq_None_not_Some. intros [d Hd]. apply (wf_blob _ Hwf) in Hd.
    rewrite Hn in Hd. by destruct Hd. }
  assert (∀ path v p h, head_for path db ≤ v → t_file_head db !! p = Some h →
    ∃ h', <[path := v]> (t_file_head db) !! p = Some h' ∧ h ≤ h') as Hh.
  { intros path v p h Hv Hp. unfold head_for in Hv. destruct (decide (path = p)) as [<-|].
    - rewrite Hp in Hv. exists v. by rewrite lookup_insert_eq.
    - exists h. rewrite lookup_insert_ne by done. split; [done|lia]. }
  apply (write_step_cases _ _ _ Hf) in Hs as
      [->|[(path & row & data & meta & Hlt & Hm & ->)
          |[(path & rec & data & Hv & Hn & ->)|(path & meta & Hm & ->)]]].
  - reflexivity.
  - destruct (no_version_above_head path (head_for path db + 1) db Hwf) as [Hn Hbn]; [lia|].
    split_and!; simpl; [by apply insert_subseteq|by apply put_blob_extends|].
    intros p h. apply Hh. lia.
  - split_and!; simpl; [by apply insert_subseteq|by apply put_blob_extends, Hb|].
    intros p h. apply Hh. lia.
  - split_and!; simpl; [done..|]. intros p h Hp. exists h. split; [done|lia].
Qed.

Lemma any_write_wf db db' : any_write db db' → db_wf db → db_wf db'.
Proof.
  intros (flt & Hf & Hs) Hwf. apply (write_step_cases _ _ _ Hf) in Hs as
      [->|[(path & row & data & meta & Hlt & Hm & ->)
          |[(path & rec & data & Hv & Hn & ->)|(path & meta & Hm & ->)]]];
    [done|by apply new_version_wf|by apply appended_wf|by apply set_meta_wf].
Qed.
End History.

(** C6: history is append-only.  No sequence of saves, deletes, appends and
    metadata updates, successful or failed, changes or removes a version row or
    a stored content, and the head of a path never goes back. *)
Theorem history_append_only `{GoUnicode} `{RowOrder} (db db' : DbState) :
  db_wf db → rtc any_write db db' → extends db db'.
Proof.
  intros Hwf Hr. induction Hr as [db|db db1 db2 Hs _ IH]; [reflexivity|].
  trans db1; [|by apply IH, (any_write_wf db)].
  destruct Hs as (flt & Hf & Hs). by eapply write_step_extends.
Qed.

Lemma ex_db_any_write :
  @any_write ascii_only_unicode map_order empty_db (@ex_db).
Proof. exists no_db_faults. split; [apply no_db_faults_meta_table|apply step_save]. Qed.

Lemma history_append_only_witness :
  db_wf empty_db ∧ extends empty_db ex_db.
Proof.
  split; [apply empty_db_wf|].
  apply (@history_append_only ascii_only_unicode map_order);
    [apply empty_db_wf|apply rtc_once, ex_db_any_write].
Defined.

(** ** One write *)

Section OneWrite.
Context {GU : GoUnicode} {RO : RowOrder}.

Lemma GetMeta_put flt path db r :
  f_stmt flt "GetMeta" "query" 0 = None → 0 ≤ mr_version r →
  t_meta db !! path = Some r → GetMeta flt path db = Ok (meta_of_row path r).
Proof.
  intros Hf Hv Hr. unfold GetMeta, query, scan_meta. rewrite Hf, Hr.
  by rewrite sql_scan_uint64_in.
Qed.
End OneWrite.

(** C7: a save that no fault disturbs gives the path the next version number,
    [head + 1], records it with its metadata and content, reads back the same,
    and touches no other version and no other path. *)
Theorem SaveFileSnapshot_contract `{GoUnicode} `{RowOrder} (flt : DbFaults) (meta : Meta)
    (clientID changeType : string) (data : option bytes) (db : DbState) :
  quiet flt "save_file_snapshot" → db_wf db → head_for (m_Path meta) db < maxInt64 →
  let path := m_Path meta in
  let v := head_for path db + 1 in
  ∃ db',
    SaveFileSnapshot flt meta clientID changeType data db = (db', Ok v) ∧
    db_wf db' ∧ head_for path db' = v ∧
    GetMeta no_db_faults path db' = Ok (meta_with_version meta v) ∧
    GetRecord no_db_faults path v db' =
      Ok (mkVersionRecord v (m_MtimeUnix meta) (m_Hash meta) (m_Size meta) clientID changeType) ∧
    t_version_blob db' !! (path, v) = data ∧
    (∀ k, k ≠ (path, v) → t_version db' !! k = t_version db !! k ∧
                          t_version_blob db' !! k = t_version_blob db !! k) ∧
    (∀ p, p ≠ path → t_meta db' !! p = t_meta db !! p ∧ head_for p db' = head_for p db).
Proof.
  intros Hq Hwf Hlt path v. pose proof (head_for_range path db Hwf) as Hr.
  destruct (no_version_above_head path v db Hwf) as [Hn Hb]; [lia|].
  exists (saved meta clientID changeType data v db). split_and!.
  - by apply SaveFileSnapshot_total.
  - apply new_version_wf; [done..|]. by intros ? [= <-].
  - unfold head_for, saved. simpl. by rewrite lookup_insert_eq.
  - rewrite (GetMeta_put no_db_faults path _ (mkMetaRow (m_IsDir meta) (m_Size meta)
      (m_MtimeUnix meta) (m_Hash meta) v)); [done|done|simpl; lia|].
    simpl. by rewrite lookup_partial_alter_eq.
  - unfold GetRecord, query. simpl. rewrite sql_uint64_arg_in by (unfold v, path; lia). simpl.
    unfold record_at. simpl. by rewrite lookup_insert_eq.
  - simpl. destruct data; simpl; [by rewrite lookup_insert_eq|done].
  - intros k Hk. simpl. rewrite lookup_insert_ne by done.
    destruct data; simpl; [by rewrite lookup_insert_ne|done].
  - intros p Hp. simpl. rewrite lookup_partial_alter_ne by done. split; [done|].
    unfold head_for. simpl. rewrite lookup_insert_ne, lookup_partial_alter_ne by done.
    destruct (t_file_head db !! p); [done|]. f_equal. 
    assert (∀ w, w ∈ versions_of p (saved meta clientID changeType data v db) ↔
                 w ∈ versions_of p db) as Hvs.
    { intros w. rewrite !elem_of_versions_of. simpl.
      split; intros [r' Hr']; exists r'; [|rewrite lookup_insert_ne by (unfold path in *; congruence); done].
      by rewrite lookup_insert_ne in Hr' by (unfold path in *; congruence). }
    by apply max_version_ext.
Qed.

Lemma SaveFileSnapshot_contract_witness :
  ∃ db', @SaveFileSnapshot ascii_only_unicode map_order no_db_faults ex_meta "c1" "modify"
           (Some [Byte.x61]) empty_db = (db', Ok 1) ∧ db_wf db'.
Proof.
  destruct (@SaveFileSnapshot_contract ascii_only_unicode map_order no_db_faults ex_meta "c1"
              "modify" (Some [Byte.x61]) empty_db) as (db' & H1 & H2 & _).
  - done.
  - apply empty_db_wf.
  - reflexivity.
  - exists db'. split; [exact H1|exact H2].
Defined.

(** ** Retries *)

Definition retry_waits : list Z := [25; 50; 100; 200].

Section Retries.
Context {GU : GoUnicode} {RO : RowOrder} (flt : DbFaults) {A : Type} (op : string)
        (fn : nat → Tx A).

(** Attempt [n] on [db] stops on a busy database. *)
Definition busy_attempt (db : DbState) (n : nat) : Prop :=
  ∃ e, attemptTx flt op fn n db = (db, Err e) ∧ isSQLiteBusy e = true.

(** The loop stops after this result of attempt [k]. *)
Definition final_attempt (k : nat) (r : result goerr A) : Prop :=
  match r with Ok _ => True | Err e => isSQLiteBusy e = false ∨ k = 4%nat end.

Lemma withWriteTx_loop_spec (d k : nat) e0 db db' r :
  (k + d < 5)%nat →
  (∀ n, (k ≤ n < k + d)%nat → busy_attempt db n) →
  attemptTx flt op fn (k + d)%nat db = (db', r) → final_attempt (k + d) r →
  withWriteTx_loop flt op fn (5 - k) e0 db = (db', r, take d (drop k retry_waits)).
Proof.
  revert k e0. induction d as [|d IH]; intros k e0 Hk Hbusy Ha Hfin.
  - rewrite Nat.add_0_r in *. replace (5 - k)%nat with (S (4 - k)) by lia. cbn [withWriteTx_loop].
    replace (maxAttempts - S (4 - k))%nat with k by (unfold maxAttempts; lia).
    rewrite Ha. destruct r as [a|e]; [done|].
    destruct Hfin as [-> | ->]; [done|]. simpl. by rewrite orb_true_r.
  - replace (5 - k)%nat with (S (5 - S k)) by lia. cbn [withWriteTx_loop].
    replace (maxAttempts - S (5 - S k))%nat with k by (unfold maxAttempts; lia).
    destruct (Hbusy k) as (e & He & Hb); [lia|]. rewrite He, Hb. simpl negb.
    rewrite bool_decide_false by (unfold maxAttempts; lia). simpl orb. cbv iota.
    rewrite (IH (S k)); [|lia|intros n ?; apply Hbusy; lia|by rewrite Nat.add_succ_comm|
      by rewrite Nat.add_succ_comm].
    do 4 (destruct k as [|k]; [reflexivity|]). lia.
Qed.
End Retries.

(** C15: [withWriteTx] retries exactly while the database is busy: when the
    first [k] attempts find it busy and attempt [k] ends otherwise (or is the
    fifth), the result is that attempt's, after sleeping the first [k] of 25,
    50, 100 and 200 ms; a transaction that fails leaves the tables alone. *)
Theorem withWriteTx_retries `{GoUnicode} `{RowOrder} (flt : DbFaults) {A} (op : string)
    (fn : nat → Tx A) (db db' : DbState) (k : nat) (r : result goerr A) :
  (k < 5)%nat → (∀ n, (n < k)%nat → busy_attempt flt op fn db n) →
  attemptTx flt op fn k db = (db', r) → final_attempt k r →
  withWriteTx_loop flt op fn maxAttempts (ErrNew "") db = (db', r, take k retry_waits) ∧
  withWriteTx flt op fn db = (db', r) ∧
  (∀ e, r = Err e → db' = db).
Proof.
  intros Hk Hbusy Ha Hfin.
  pose proof (withWriteTx_loop_spec flt op fn k 0 (ErrNew "") db db' r) as Hl.
  simpl in Hl.
  assert (withWriteTx_loop flt op fn maxAttempts (ErrNew "") db = (db', r, take k retry_waits))
    as HL by (apply Hl; auto; intros n ?; apply Hbusy; lia).
  split_and!; [done| |].
  - unfold withWriteTx. by rewrite HL.
  - intros e ->. apply attemptTx_inv in Ha as [(? & _ & ->)|(? & ? & _)]; done.
Qed.

(** A database that is busy at the first two attempts. *)
Definition busy_twice : DbFaults := {|
  f_stmt := λ _ _ _, None;
  f_begin := λ _ n, if (n <? 2)%nat then Some (ErrNew "database is locked (5) (SQLITE_BUSY)") else None;
  f_commit := λ _ _, None |}.

Lemma withWriteTx_retries_witness :
  @withWriteTx_loop ascii_only_unicode busy_twice unit "op" (λ _, go_ret tt) maxAttempts (ErrNew "")
    empty_db = (empty_db, Ok tt, [25; 50]).
Proof.
  apply (@withWriteTx_retries ascii_only_unicode map_order busy_twice unit "op"
           (λ _, go_ret tt) empty_db empty_db 2 (Ok tt)).
  - lia.
  - intros n Hn. exists (ErrNew "database is locked (5) (SQLITE_BUSY)").
    destruct n as [|[|n]]; [split; reflexivity..|lia].
  - reflexivity.
  - exact I.
Defined.

(** ** Renaming *)

(** C9: renaming a tree either fails and changes nothing, or moves every row of
    the old path and of the paths below it (up to the case of ASCII letters) to
    the new prefix, in the four tables at once, leaves the other rows, and
    keeps the invariant. *)
Theorem RenamePathTree_moves `{GoUnicode} `{RowOrder} (flt : DbFaults)
    (oldPath newPath : string) (db db' : DbState) (r : result goerr unit) :
  starts_char oldPath = true → oldPath ≠ newPath → db_wf db → db_headed db →
  RenamePathTree flt oldPath newPath db = (db', r) →
  (∃ e, r = Err e ∧ db' = db) ∨
  (r = Ok tt ∧ tables_moved (tree_move oldPath newPath) db db' ∧ db_wf db' ∧ db_headed db').
Proof.
  intros Ho Hne Hwf Hhd H1. apply RenamePathTree_outcome in H1 as [?|(-> & _ & Hmv)]; [by left| |done].
  right. specialize (Hmv Hne). split_and!; [done..| |].
  - by eapply tables_moved_wf.
  - by eapply tables_moved_headed.
Qed.

Lemma ex_db_wf : db_wf ex_db ∧ db_headed ex_db.
Proof. eapply store_step_wf; [apply ex_db_step|apply empty_db_wf|apply empty_db_headed]. Qed.

(** The tables of [ex_db] after renaming [/srv] to [/data]. *)
Definition ex_renamed : DbState :=
  (@RenamePathTree ascii_only_unicode map_order no_db_faults "/srv" "/data" ex_db).1.

Lemma RenamePathTree_moves_witness :
  t_version ex_renamed !! ("/data/a.txt", 1) = t_version ex_db !! ("/srv/a.txt", 1) ∧
  db_wf ex_renamed.
Proof.
  split; [vm_compute; reflexivity|].
  destruct (@RenamePathTree_moves ascii_only_unicode map_order no_db_faults "/srv" "/data"
              ex_db ex_renamed (Ok tt)) as [(e & He & _)|(_ & _ & Hwf' & _)].
  - reflexivity.
  - discriminate.
  - apply ex_db_wf.
  - apply ex_db_wf.
  - vm_compute. reflexivity.
  - discriminate He.
  - exact Hwf'.
Defined.
