(* ===== verification/Leases.v ===== *)
(** * Leases: the lock manager and the lock service

    internal/lock/manager.go and internal/server/lock_service.go.  A time is a
    number of nanoseconds; the time of each call is an argument.  Every method
    holds the manager's mutex from its first statement to its return, so a run
    is a sequence of whole calls. *)

From S2P Require Import Prelude GoStrings FsPath OsFs.
Open Scope string_scope.
Open Scope Z_scope.
Open Scope list_scope.

Module LockManager.

Record LockInfo := mkLockInfo { Owner : string; ExpireAt : Z }.
Record Manager := mkManager { locks : gmap string LockInfo; defaultTTL : Z }.

Definition NewManager (ttl : Z) : Manager := mkManager ∅ ttl.
Definition set_locks (f : gmap string LockInfo → gmap string LockInfo) (m : Manager) : Manager :=
  mkManager (f (locks m)) (defaultTTL m).

(** The zero [time.Time], as nanoseconds before 1970. *)
Definition zero_time : Z := - 62135596800 * 1000000000.

Definition Acquire (path clientID : string) (ttl now : Z) (m : Manager) : Manager * (bool * string * Z) :=
  let ttl := if ttl <=? 0 then defaultTTL m else ttl in
  match locks m !! path with
  | Some info =>
      if ExpireAt info <? now then
        let exp := now + ttl in
        (set_locks (λ l, <[path := mkLockInfo clientID exp]> l) m, (true, clientID, exp))
      else (m, (false, Owner info, ExpireAt info))
  | None =>
      let exp := now + ttl in
      (set_locks (λ l, <[path := mkLockInfo clientID exp]> l) m, (true, clientID, exp))
  end.

Definition Renew (path clientID : string) (ttl now : Z) (m : Manager) : Manager * (bool * Z) :=
  match locks m !! path with
  | None => (m, (false, zero_time))
  | Some info =>
      if negb (bool_decide (Owner info = clientID)) then (m, (false, ExpireAt info))
      else
        let ttl := if ttl <=? 0 then defaultTTL m else ttl in
        let exp := now + ttl in
        (set_locks (λ l, <[path := mkLockInfo (Owner info) exp]> l) m, (true, exp))
  end.

Definition Release (path clientID : string) (m : Manager) : Manager * bool :=
  match locks m !! path with
  | None => (m, false)
  | Some info =>
      if negb (bool_decide (Owner info = clientID)) then (m, false)
      else (set_locks (λ l, delete path l) m, true)
  end.

Definition CleanupExpired (now : Z) (m : Manager) : Manager :=
  set_locks (λ l, filter (λ kv : string * LockInfo, ¬ ExpireAt kv.2 < now) l) m.

(** ** Runs *)

Inductive Call :=
| CAcquire (path clientID : string) (ttl : Z)
| CRenew (path clientID : string) (ttl : Z)
| CRelease (path clientID : string)
| CCleanup.

(** A call at its time; the result of an Acquire is reported. *)
Definition call (c : Call) (now : Z) (m : Manager) : Manager * option (bool * string * Z) :=
  match c with
  | CAcquire p d ttl => let '(m', r) := Acquire p d ttl now m in (m', Some r)
  | CRenew p d ttl => ((Renew p d ttl now m).1, None)
  | CRelease p d => ((Release p d m).1, None)
  | CCleanup => (CleanupExpired now m, None)
  end.

Fixpoint run (cs : list (Call * Z)) (m : Manager) : Manager * list (option (bool * string * Z)) :=
  match cs with
  | [] => (m, [])
  | (c, now) :: cs' =>
      let '(m1, r) := call c now m in
      let '(m2, rs) := run cs' m1 in (m2, r :: rs)
  end.

(** The expiry of the lease of [holder] on [path] after the calls, while each
    call is made no later than the expiry in force and none of them releases
    it; [None] when one of them is late or releases. *)
Fixpoint lease_end (dttl : Z) (path holder : string) (cs : list (Call * Z)) (exp : Z) : option Z :=
  match cs with
  | [] => Some exp
  | (c, now) :: cs' =>
      if exp <? now then None else
      match c with
      | CRelease p d => if decide (p = path ∧ d = holder) then None
                        else lease_end dttl path holder cs' exp
      | CRenew p d ttl =>
          if decide (p = path ∧ d = holder)
          then lease_end dttl path holder cs' (now + (if ttl <=? 0 then dttl else ttl))
          else lease_end dttl path holder cs' exp
      | _ => lease_end dttl path holder cs' exp
      end
  end.

(** [holder] has the lease on [path] until [exp]. *)
Definition leased (m : Manager) (path holder : string) (exp : Z) : Prop :=
  locks m !! path = Some (mkLockInfo holder exp).

(** The Acquires on [path] in a run were all refused. *)
Definition refused (path : string) (c : Call * Z) (r : option (bool * string * Z)) : Prop :=
  match c.1 with
  | CAcquire p _ _ => p = path → ∃ owner e, r = Some (false, owner, e)
  | _ => True
  end.

(** ** Lemmas *)

Lemma Acquire_leased m path holder exp d ttl now :
  leased m path holder exp → now ≤ exp → Acquire path d ttl now m = (m, (false, holder, exp)).
Proof.
  unfold leased, Acquire. intros -> Hn. simpl. by rewrite (proj2 (Z.ltb_ge _ _)).
Qed.

Lemma Acquire_other m path holder exp p d ttl now :
  leased m path holder exp → p ≠ path → leased (Acquire p d ttl now m).1 path holder exp.
Proof.
  unfold leased, Acquire. intros Hl Hp.
  repeat case_match; simpl; rewrite ?lookup_insert_ne by done; done.
Qed.

Lemma Renew_leased m path holder exp p d ttl now :
  leased m path holder exp → ¬ (p = path ∧ d = holder) →
  leased (Renew p d ttl now m).1 path holder exp.
Proof.
  unfold leased, Renew. intros Hl Hp. destruct (decide (p = path)) as [->|Hne].
  - rewrite Hl. simpl. rewrite bool_decide_false by naive_solver. done.
  - repeat case_match; simpl; rewrite ?lookup_insert_ne by done; done.
Qed.

Lemma Release_leased m path holder exp p d :
  leased m path holder exp → ¬ (p = path ∧ d = holder) →
  leased (Release p d m).1 path holder exp.
Proof.
  unfold leased, Release. intros Hl Hp. destruct (decide (p = path)) as [->|Hne].
  - rewrite Hl. simpl. rewrite bool_decide_false by naive_solver. done.
  - repeat case_match; simpl; rewrite ?lookup_delete_ne by done; done.
Qed.

Lemma CleanupExpired_leased m path holder exp now :
  leased m path holder exp → now ≤ exp → leased (CleanupExpired now m) path holder exp.
Proof.
  unfold leased. intros Hl Hn. apply map_lookup_filter_Some. split; [done|]. simpl. lia.
Qed.

Lemma call_defaultTTL c now m : defaultTTL (call c now m).1 = defaultTTL m.
Proof.
  destruct c; simpl; unfold Acquire, Renew, Release; repeat case_match; simplify_eq; done.
Qed.

(** One call neither takes nor shortens another holder's lease. *)
Lemma call_leased m path holder exp c now exp' :
  leased m path holder exp → lease_end (defaultTTL m) path holder [(c, now)] exp = Some exp' →
  leased (call c now m).1 path holder exp' ∧ refused path (c, now) (call c now m).2.
Proof.
  intros Hl. cbn [lease_end]. destruct (exp <? now) eqn:Hn; [done|]. apply Z.ltb_ge in Hn.
  destruct c as [p d ttl|p d ttl|p d|]; unfold refused; simpl.
  - intros [= <-]. destruct (decide (p = path)) as [->|Hne].
    + rewrite (Acquire_leased _ _ _ _ _ _ _ Hl Hn). simpl. eauto.
    + pose proof (Acquire_other _ _ _ _ p d ttl now Hl Hne) as H.
      destruct (Acquire p d ttl now m). simpl in *. done.
  - destruct (decide _) as [[-> ->]|Hne]; intros [= <-]; (split; [|done]).
    + unfold leased, Renew. unfold leased in Hl. rewrite Hl. simpl.
      rewrite bool_decide_true by done. simpl. by rewrite lookup_insert_eq.
    + by apply Renew_leased.
  - destruct (decide _) as [|Hne]; [done|]. intros [= <-]. split; [|done].
    by apply Release_leased.
  - intros [= <-]. split; [|done]. by apply CleanupExpired_leased.
Qed.

Lemma lease_end_cons dttl path holder c now cs exp exp' :
  lease_end dttl path holder ((c, now) :: cs) exp = Some exp' →
  ∃ e1, lease_end dttl path holder [(c, now)] exp = Some e1 ∧
        lease_end dttl path holder cs e1 = Some exp'.
Proof. cbn [lease_end]. repeat case_match; naive_solver. Qed.

End LockManager.

Export LockManager.

(** ** The service (internal/server/lock_service.go) *)

Module LockService.

Record AcquireLockResponse := { acq_Ok : bool; acq_Owner : string; acq_ExpireAt : Z }.
Record RenewLockResponse := { ren_Ok : bool; ren_ExpireAt : Z }.

(** [time.Duration(req.TtlSeconds) * time.Second], on an int64. *)
Definition ttl_of (TtlSeconds : Z) : Z := wrap_int64 (TtlSeconds * 1000000000).

Definition AcquireLock (Path ClientId : string) (TtlSeconds now : Z) :
    go Manager status AcquireLockResponse := λ m,
  match NormalizeRelativePath Path with
  | Err err => (m, Err (toGrpcError err))
  | Ok path =>
      let '(m', (ok, owner, exp)) := Acquire path ClientId (ttl_of TtlSeconds) now m in
      (m', Ok {| acq_Ok := ok; acq_Owner := owner; acq_ExpireAt := unix_seconds exp |})
  end.

Definition RenewLock (Path ClientId : string) (TtlSeconds now : Z) :
    go Manager status RenewLockResponse := λ m,
  match NormalizeRelativePath Path with
  | Err err => (m, Err (toGrpcError err))
  | Ok path =>
      let '(m', (ok, exp)) := Renew path ClientId (ttl_of TtlSeconds) now m in
      (m', Ok {| ren_Ok := ok; ren_ExpireAt := unix_seconds exp |})
  end.

Definition ReleaseLock (Path ClientId : string) : go Manager status bool := λ m,
  match NormalizeRelativePath Path with
  | Err err => (m, Err (toGrpcError err))
  | Ok path => let '(m', ok) := Release path ClientId m in (m', Ok ok)
  end.

(** A uint32 number of seconds does not overflow. *)
Lemma ttl_of_exact s : is_uint32 s → ttl_of s = s * 1000000000.
Proof.
  unfold is_uint32, ttl_of. intros H. apply wrap_int64_id.
  unfold is_int64, two63, two32 in *. lia.
Qed.

(** The manager's call that a request makes. *)
Inductive Request :=
| AcquireReq (Path ClientId : string) (TtlSeconds : Z)
| RenewReq (Path ClientId : string) (TtlSeconds : Z)
| ReleaseReq (Path ClientId : string).

Definition serve (r : Request) (now : Z) (m : Manager) : Manager * option (result status bool) :=
  match r with
  | AcquireReq p c t => let '(m', r) := AcquireLock p c t now m in
                        (m', Some (try a := r in Ok (acq_Ok a)))
  | RenewReq p c t => ((RenewLock p c t now m).1, None)
  | ReleaseReq p c => ((ReleaseLock p c m).1, None)
  end.
Fixpoint serve_all (rs : list (Request * Z)) (m : Manager) : Manager * list (option (result status bool)) :=
  match rs with
  | [] => (m, [])
  | (r, now) :: rs' =>
      let '(m1, o) := serve r now m in
      let '(m2, os) := serve_all rs' m1 in (m2, o :: os)
  end.

Definition request_call (r : Request) : option Call :=
  match r with
  | AcquireReq p c t => match NormalizeRelativePath p with
                        | Ok p => Some (CAcquire p c (ttl_of t)) | Err _ => None end
  | RenewReq p c t => match NormalizeRelativePath p with
                      | Ok p => Some (CRenew p c (ttl_of t)) | Err _ => None end
  | ReleaseReq p c => match NormalizeRelativePath p with
                      | Ok p => Some (CRelease p c) | Err _ => None end
  end.

Lemma serve_call r now m :
  (serve r now m).1 = match request_call r with Some c => (call c now m).1 | None => m end.
Proof.
  destruct r; simpl; unfold AcquireLock, RenewLock, ReleaseLock;
    destruct (NormalizeRelativePath _); simpl; repeat case_match; simplify_eq; try done;
    naive_solver.
Qed.

End LockService.
Export LockService.

(** C34: a lease excludes.  While [holder] has the lease on [path], any sequence
    of calls by any clients leaves it with the lease, with the expiry its own
    renewals set, and refuses every Acquire on [path] (its own too), as long as
    it does not release the lease and no call is made after the expiry in
    force. *)
Theorem lease_exclusive (m : Manager) (path holder : string) (exp exp' : Z)
    (cs : list (Call * Z)) :
  leased m path holder exp →
  lease_end (defaultTTL m) path holder cs exp = Some exp' →
  leased (run cs m).1 path holder exp' ∧ Forall2 (refused path) cs (run cs m).2.
Proof.
  revert m exp. induction cs as [|[c now] cs IH]; intros m exp Hl He.
  { injection He as <-. done. }
  apply lease_end_cons in He as (e1 & He1 & He).
  destruct (call_leased _ _ _ _ _ _ _ Hl He1) as [Hl1 Hr].
  rewrite <- (call_defaultTTL c now) in He.
  destruct (IH _ _ Hl1 He) as [Hl2 Hrs].
  cbn [run]. destruct (call c now m) as [m1 r]. cbn [fst snd] in *.
  destruct (run cs m1) as [m2 rs]. cbn [fst snd] in *. split; [done|]. by constructor.
Qed.

Lemma lease_exclusive_witness :
  let m := (Acquire "a" "c1" 10 100 (NewManager 5)).1 in
  let cs := [(CAcquire "a" "c2" 10, 105); (CRenew "a" "c1" 0, 107); (CRelease "a" "c2", 108);
             (CAcquire "a" "c3" 1, 112)] in
  leased (run cs m).1 "a" "c1" 112 ∧ Forall2 (refused "a") cs (run cs m).2.
Proof.
  intros m cs. apply (lease_exclusive m "a" "c1" 110 112 cs); reflexivity.
Defined.

(** sweeping expired leases is invisible to Acquire: at any later time, an
    Acquire answers the same on the swept table, and leaves the same lease. *)
Theorem CleanupExpired_invisible (m : Manager) (t now : Z) (path clientID : string) (ttl : Z) :
  t ≤ now →
  let '(m1, r1) := Acquire path clientID ttl now (CleanupExpired t m) in
  let '(m2, r2) := Acquire path clientID ttl now m in
  r1 = r2 ∧ locks m1 !! path = locks m2 !! path.
Proof.
  intros Ht. unfold Acquire, CleanupExpired. cbn [locks set_locks defaultTTL].
  destruct (locks m !! path) as [info|] eqn:E.
  - destruct (decide (ExpireAt info < t)) as [Hlt|Hge].
    + rewrite (proj2 (map_lookup_filter_None _ _ _)).
      2:{ right. intros x. rewrite E. naive_solver. }
      rewrite (proj2 (Z.ltb_lt _ _)) by lia. simpl. by rewrite !lookup_insert_eq.
    + assert (filter (λ kv : string * LockInfo, ¬ ExpireAt kv.2 < t) (locks m) !! path =
              Some info) as Ef by (by apply map_lookup_filter_Some).
      rewrite Ef. destruct (_ <? _); simpl; [by rewrite !lookup_insert_eq|].
      by rewrite E, Ef.
  - rewrite (proj2 (map_lookup_filter_None _ _ _)) by (by left).
    simpl. by rewrite !lookup_insert_eq.
Qed.

Lemma CleanupExpired_invisible_witness :
  let m := (Acquire "a" "c1" 10 100 (NewManager 5)).1 in
  (Acquire "a" "c2" 7 130 (CleanupExpired 120 m)).2 = (Acquire "a" "c2" 7 130 m).2.
Proof.
  intros m. assert (120 ≤ 130) as H by lia.
  exact (proj1 (CleanupExpired_invisible m 120 130 "a" "c2" 7 H)).
Defined.

(** over the wire, a granted lease of [TtlSeconds] (any non-zero uint32)
    keeps every client from the path, however the path is spelled, until that
    many seconds after the grant, and tells them the holder and the expiry. *)
Theorem AcquireLock_excludes (m m1 : Manager) (P1 c1 : string) (t1 now1 : Z)
    (r1 : AcquireLockResponse) (P2 c2 : string) (t2 now2 : Z) :
  AcquireLock P1 c1 t1 now1 m = (m1, Ok r1) → acq_Ok r1 = true →
  is_uint32 t1 → 0 < t1 →
  NormalizeRelativePath P2 = NormalizeRelativePath P1 →
  now2 ≤ now1 + t1 * 1000000000 →
  acq_ExpireAt r1 = unix_seconds (now1 + t1 * 1000000000) ∧
  AcquireLock P2 c2 t2 now2 m1 =
    (m1, Ok {| acq_Ok := false; acq_Owner := c1; acq_ExpireAt := acq_ExpireAt r1 |}).
Proof.
  intros H1 Hok Ht Hpos Hn Hnow. unfold AcquireLock in *. rewrite Hn. rewrite ttl_of_exact in H1 by done.
  destruct (NormalizeRelativePath P1) as [path|e]; [|done].
  assert (leased m1 path c1 (now1 + t1 * 1000000000) ∧
          acq_ExpireAt r1 = unix_seconds (now1 + t1 * 1000000000)) as [Hl He].
  { unfold Acquire, leased in *. rewrite (proj2 (Z.leb_gt _ _)) in H1 by lia.
    destruct (locks m !! path) as [info|]; [destruct (_ <? _)|]; simplify_eq; simpl.
    all: try done. all: by rewrite lookup_insert_eq. }
  split; [done|]. by rewrite (Acquire_leased _ _ _ _ _ _ _ Hl Hnow), He.
Qed.

Lemma AcquireLock_excludes_witness :
  let m1 := (AcquireLock "a/b" "c1" 30 1000 (NewManager 5)).1 in
  AcquireLock "./a//b" "c2" 9 2000 m1 =
    (m1, Ok {| acq_Ok := false; acq_Owner := "c1"; acq_ExpireAt := 30 |}).
Proof.
  intros m1.
  apply (AcquireLock_excludes (NewManager 5) m1 "a/b" "c1" 30 1000
           {| acq_Ok := true; acq_Owner := "c1"; acq_ExpireAt := 30 |} "./a//b" "c2" 9 2000).
  - vm_compute. reflexivity.
  - reflexivity.
  - split; reflexivity || discriminate.
  - reflexivity.
  - vm_compute. reflexivity.
  - discriminate.
Defined.
