(* ===== verification/PathLocks.v ===== *)
(** * Per-path mutexes

    internal/server/path_locker.go.  The map of mutexes never loses an entry,
    so it is modelled by what the mutexes do: at most one holder per path.
    Threads take the locks of one [Lock] or [LockMany] call, run, and unlock;
    a scheduler interleaves them at each mutex operation. *)

From S2P Require Import Prelude.
From stdpp Require Import relations.
Open Scope string_scope.
Open Scope list_scope.

Module PathLocker.

(** [ordered] after the loop over [paths]. *)
Fixpoint dedupe (seen paths : list string) : list string :=
  match paths with
  | [] => []
  | path :: rest =>
      if decide (path ∈ seen) then dedupe seen rest
      else path :: dedupe (path :: seen) rest
  end.

(** The locks that [LockMany] takes, in order ([sort.Strings]). *)
Definition lock_order (paths : list string) : list string :=
  merge_sort String.le (dedupe [] paths).

(** A thread inside a locking handler: the mutexes it has yet to take, and
    those it holds, last taken first. *)
Record Thread := mkThread { todo : list string; held : list string }.

Definition Lock (path : string) : Thread := mkThread [path] [].
Definition LockMany (paths : list string) : Thread := mkThread (lock_order paths) [].
Definition finished (t : Thread) : bool := bool_decide (todo t = [] ∧ held t = []).

(** [mu.Lock()] returns when the mutex is free; it is not reentrant. *)
Definition free (ts : list Thread) (path : string) : Prop := Forall (λ t, path ∉ held t) ts.
#[export] Instance free_dec ts path : Decision (free ts path).
Proof. apply _. Defined.

(** One mutex operation of one thread. *)
Inductive step (ts : list Thread) : list Thread → Prop :=
| step_lock i p todo' held' :
    ts !! i = Some (mkThread (p :: todo') held') → free ts p →
    step ts (<[i := mkThread todo' (p :: held')]> ts)
| step_unlock i p held' :
    ts !! i = Some (mkThread [] (p :: held')) →
    step ts (<[i := mkThread [] held']> ts).

(** The executable scheduler: thread [i] tries its next operation. *)
Definition advance (i : nat) (ts : list Thread) : option (list Thread) :=
  match ts !! i with
  | Some (mkThread (p :: todo') held') =>
      if decide (free ts p) then Some (<[i := mkThread todo' (p :: held')]> ts) else None
  | Some (mkThread [] (p :: held')) => Some (<[i := mkThread [] held']> ts)
  | _ => None
  end.

Lemma advance_step i ts ts' : advance i ts = Some ts' → step ts ts'.
Proof.
  unfold advance. destruct (ts !! i) as [[[|p td] [|q hd]]|] eqn:E; try done;
    repeat case_decide; intros; simplify_eq; by econstructor.
Qed.

Lemma step_advance ts ts' : step ts ts' → ∃ i, advance i ts = Some ts'.
Proof.
  intros [i p td hd Hi Hf|i p hd Hi]; exists i; unfold advance; rewrite Hi; [|done].
  by rewrite decide_True.
Qed.

(** ** Lock order *)

Lemma elem_of_dedupe seen paths p : p ∈ dedupe seen paths ↔ p ∈ paths ∧ p ∉ seen.
Proof.
  revert seen. induction paths as [|q paths IH]; intros seen; simpl.
  { rewrite elem_of_nil. naive_solver. }
  destruct (decide (q ∈ seen)); rewrite ?elem_of_cons, IH, ?elem_of_cons;
    destruct (decide (p = q)) as [->|]; naive_solver.
Qed.

Lemma NoDup_dedupe seen paths : NoDup (dedupe seen paths).
Proof.
  revert seen. induction paths as [|q paths IH]; intros seen; simpl; [constructor|].
  case_decide; [done|]. constructor; [|done]. rewrite elem_of_dedupe, elem_of_cons. naive_solver.
Qed.

Definition slt (a b : string) : Prop := String.le a b ∧ a ≠ b.

#[export] Instance slt_trans : Transitive slt.
Proof.
  intros a b c [H1 N1] [H2 N2]. split; [by trans b|]. intros ->.
  apply N1. by apply (anti_symm String.le).
Qed.
Lemma slt_irrefl a : ¬ slt a a.
Proof. by intros []. Qed.

Lemma StronglySorted_le_lt l :
  NoDup l → StronglySorted String.le l → StronglySorted slt l.
Proof.
  intros Hnd Hs. induction Hs as [|a l Hs IH Hall]; [constructor|].
  apply NoDup_cons in Hnd as [Ha Hnd]. constructor; [auto|].
  rewrite Forall_forall in *. intros b Hb. split; [auto|]. by intros ->.
Qed.

Lemma lock_order_sorted paths : StronglySorted slt (lock_order paths).
Proof.
  apply StronglySorted_le_lt.
  - unfold lock_order. rewrite merge_sort_Permutation. apply NoDup_dedupe.
  - apply (StronglySorted_merge_sort _).
Qed.

Lemma elem_of_lock_order paths p : p ∈ lock_order paths ↔ p ∈ paths.
Proof.
  unfold lock_order. rewrite merge_sort_Permutation, elem_of_dedupe, elem_of_nil. naive_solver.
Qed.

(** ** Invariant *)

(** What a thread holds and will take is in lock order. *)
Definition ordered (t : Thread) : Prop := StronglySorted slt (reverse (held t) ++ todo t).

(** Different threads hold different paths. *)
Definition exclusive (ts : list Thread) : Prop :=
  ∀ i j t u p, ts !! i = Some t → ts !! j = Some u → p ∈ held t → p ∈ held u → i = j.

Definition inv (ts : list Thread) : Prop := Forall ordered ts ∧ exclusive ts.

(** The threads that enter: each comes from one [Lock] or [LockMany]. *)
Definition entering (t : Thread) : Prop :=
  (∃ path, t = Lock path) ∨ (∃ paths, t = LockMany paths).

Lemma entering_inv ts : Forall entering ts → inv ts.
Proof.
  intros He. split.
  - eapply Forall_impl; [exact He|]. intros t [[p ->]|[ps ->]]; unfold ordered; simpl.
    + repeat constructor.
    + apply lock_order_sorted.
  - intros i j t u p Hi _ Hp _. rewrite Forall_lookup in He.
    destruct (He _ _ Hi) as [[q ->]|[qs ->]]; simpl in Hp; by apply not_elem_of_nil in Hp.
Qed.

Lemma ordered_unlock p hd : ordered (mkThread [] (p :: hd)) → ordered (mkThread [] hd).
Proof.
  unfold ordered. simpl. rewrite !app_nil_r, reverse_cons. intros H.
  by apply StronglySorted_app_1_l in H.
Qed.

Lemma step_inv ts ts' : step ts ts' → inv ts → inv ts'.
Proof.
  intros Hs [Hord Hex]. destruct Hs as [i p td hd Hi Hfree|i p hd Hi]; split.
  - apply Forall_insert; [done|]. rewrite Forall_lookup in Hord. apply Hord in Hi.
    unfold ordered in *. simpl in *. by rewrite reverse_cons, <- app_assoc.
  - assert (∀ k u q, <[i:=mkThread td (p :: hd)]> ts !! k = Some u → q ∈ held u →
      (k = i ∧ q = p) ∨ (∃ t, ts !! k = Some t ∧ q ∈ held t)) as Hcase.
    { intros k u q Hk Hq. destruct (decide (i = k)) as [<-|Hne].
      - rewrite list_lookup_insert_eq in Hk by (by eapply lookup_lt_Some). injection Hk as <-.
        simpl in Hq. apply elem_of_cons in Hq as [->|Hq]; eauto.
      - rewrite list_lookup_insert_ne in Hk by done. eauto. }
    intros a b t u q Ha Hb Hqa Hqb. unfold free in Hfree. rewrite Forall_lookup in Hfree.
    destruct (Hcase _ _ _ Ha Hqa) as [[-> ->]|(t' & Ht' & Hq')],
             (Hcase _ _ _ Hb Hqb) as [[-> ?]|(u' & Hu' & Hqu)]; subst; try done.
    + by destruct (Hfree _ _ Hu').
    + by destruct (Hfree _ _ Ht').
    + by eapply Hex.
  - apply Forall_insert; [done|]. rewrite Forall_lookup in Hord. apply Hord in Hi.
    by eapply ordered_unlock.
  - assert (∀ k u q, <[i:=mkThread [] hd]> ts !! k = Some u → q ∈ held u →
      ∃ t, ts !! k = Some t ∧ q ∈ held t) as Hcase.
    { intros k u q Hk Hq. destruct (decide (i = k)) as [<-|Hne].
      - rewrite list_lookup_insert_eq in Hk by (by eapply lookup_lt_Some). injection Hk as <-.
        eexists. split; [done|]. simpl in *. by right.
      - rewrite list_lookup_insert_ne in Hk by done. eauto. }
    intros a b t u q Ha Hb Hqa Hqb.
    destruct (Hcase _ _ _ Ha Hqa) as (t' & Ht' & Hq'), (Hcase _ _ _ Hb Hqb) as (u' & Hu' & Hqu).
    by eapply Hex.
Qed.

Lemma steps_inv ts ts' : rtc step ts ts' → inv ts → inv ts'.
Proof. induction 1; eauto using step_inv. Qed.

(** ** Progress *)

Lemma ordered_head p td hd q : ordered (mkThread (p :: td) hd) → q ∈ hd → slt q p.
Proof.
  unfold ordered. simpl. intros H Hq. eapply StronglySorted_app_1_elem_of; [exact H| |by left].
  by rewrite elem_of_reverse.
Qed.

(** [t] waits for a path that no waiting thread's next path exceeds. *)
Lemma max_waiting (ts : list Thread) (i : nat) p td hd :
  ts !! i = Some (mkThread (p :: td) hd) →
  ∃ j q td' hd', ts !! j = Some (mkThread (q :: td') hd') ∧
    ∀ k r td'' hd'', ts !! k = Some (mkThread (r :: td'') hd'') → String.le r q.
Proof.
  revert i p td hd. induction ts as [|t ts IH] using rev_ind; intros i p td hd Hi; [done|].
  assert (∀ k u, (ts ++ [t]) !! k = Some u → ts !! k = Some u ∨ (k = length ts ∧ u = t)) as Hsnoc.
  { intros k u. rewrite lookup_app_Some, list_lookup_singleton_Some.
    intros [?|(? & ? & ?)]; [by left|right]. split; [lia|done]. }
  assert ((∃ i p td hd, ts !! i = Some (mkThread (p :: td) hd)) ∨
          (∀ i p td hd, ts !! i ≠ Some (mkThread (p :: td) hd))) as [(i' & p' & td' & hd' & Hi')|Hnone].
  { destruct (decide (Exists (λ t, todo t ≠ []) ts)) as [Hex|Hno].
    - left. apply Exists_exists in Hex as (u & Hu & Hne). apply list_elem_of_lookup in Hu as [k Hk].
      destruct u as [[|p' td'] hd']; [done|]. eauto.
    - right. intros k p' td' hd' Hk. apply Hno, Exists_exists. eexists. split; [|].
      + by eapply list_elem_of_lookup_2.
      + done. }
  - destruct (IH _ _ _ _ Hi') as (j & q & tdj & hdj & Hj & Hmax).
    destruct t as [[|r tdt] hdt].
    + exists j, q, tdj, hdj. split; [by apply lookup_app_l_Some|].
      intros k r' ? ? [Hk|[_ [=]]]%Hsnoc. by eapply Hmax.
    + destruct (total String.le r q) as [Hrq|Hqr].
      * exists j, q, tdj, hdj. split; [by apply lookup_app_l_Some|].
        intros k r' ? ? [Hk|[_ [= -> -> ->]]]%Hsnoc; [by eapply Hmax|done].
      * exists (length ts), r, tdt, hdt. split; [by rewrite lookup_app_r, Nat.sub_diag by lia|].
        intros k r' ? ? [Hk|[_ [= -> -> ->]]]%Hsnoc; [|done].
        trans q; [by eapply Hmax|done].
  - destruct (Hsnoc _ _ Hi) as [Hk|[-> <-]]; [by apply Hnone in Hk|].
    exists (length ts), p, td, hd. split; [by rewrite lookup_app_r, Nat.sub_diag by lia|].
    intros k r ? ? [Hk|[_ [= -> -> ->]]]%Hsnoc; [by apply Hnone in Hk|done].
Qed.

Lemma not_free ts p : ¬ free ts p → ∃ j t, ts !! j = Some t ∧ p ∈ held t.
Proof.
  intros Hp. destruct (decide (Exists (λ t, p ∈ held t) ts)) as [Hex|Hno].
  - apply Exists_exists in Hex as (t & Ht & Hp'). apply list_elem_of_lookup in Ht as [j Hj]. eauto.
  - destruct Hp. apply Forall_forall. intros t Ht Hp'. apply Hno, Exists_exists. eauto.
Qed.

Lemma can_step ts i t :
  inv ts → ts !! i = Some t → finished t = false → ∃ ts', step ts ts'.
Proof.
  intros [Hord Hex] Hi Hf. unfold finished in Hf. apply bool_decide_eq_false in Hf.
  rewrite Forall_lookup in Hord.
  destruct t as [[|p td] [|q hd]]; [by destruct Hf|eexists; by eapply step_unlock|..].
  all: destruct (max_waiting ts i _ _ _ Hi) as (j & r & tdj & hdj & Hj & Hmax);
       destruct (decide (free ts r)) as [Hfree|Hnf]; [eexists; by eapply step_lock|];
       destruct (not_free _ _ Hnf) as (k & [tdk hdk] & Hk & Hrk); simpl in Hrk;
       destruct tdk as [|s tdk];
       [destruct hdk as [|s hdk]; [by apply not_elem_of_nil in Hrk|eexists; by eapply step_unlock]|].
  all: pose proof (ordered_head _ _ _ _ (Hord _ _ Hk) Hrk) as Hlt;
       apply Hmax in Hk; destruct Hlt as [Hle Hne]; destruct Hne;
       by apply (anti_symm String.le).
Qed.

(** The mutex operations left. *)
Definition work (ts : list Thread) : nat :=
  sum_list_with (λ t, 2 * length (todo t) + length (held t))%nat ts.

Lemma sum_list_with_insert {A} (f : A → nat) (l : list A) i x y :
  l !! i = Some x → (sum_list_with f (<[i := y]> l) + f x = sum_list_with f l + f y)%nat.
Proof.
  revert i. induction l as [|z l IH]; intros [|i]; simpl; try done.
  - intros [= ->]. lia.
  - intros Hi. apply IH in Hi. lia.
Qed.

Lemma step_work ts ts' : step ts ts' → work ts = S (work ts').
Proof.
  unfold work. intros [i p td hd Hi _|i p hd Hi].
  - pose proof (sum_list_with_insert (λ t, 2 * length (todo t) + length (held t))%nat _ _ _
      (mkThread td (p :: hd)) Hi) as H. simpl in *. lia.
  - pose proof (sum_list_with_insert (λ t, 2 * length (todo t) + length (held t))%nat _ _ _
      (mkThread [] hd) Hi) as H. simpl in *. lia.
Qed.

Lemma work_finished ts : work ts = 0%nat → Forall (λ t, finished t = true) ts.
Proof.
  unfold work. induction ts as [|[td hd] ts IH]; cbn [sum_list_with]; intros H; [constructor|].
  constructor; [|apply IH; lia].
  unfold finished. apply bool_decide_eq_true. simpl in *.
  destruct td; simpl in H; [|lia]. destruct hd; simpl in H; [done|lia].
Qed.

Lemma can_finish ts :
  inv ts → ∃ ts', nsteps step (work ts) ts ts' ∧ Forall (λ t, finished t = true) ts'.
Proof.
  remember (work ts) as n eqn:Hn. revert ts Hn. induction n as [|n IH]; intros ts Hn Hinv.
  { exists ts. split; [constructor|]. by apply work_finished. }
  destruct (decide (Exists (λ t, finished t = false) ts)) as [Hex|Hno].
  - apply Exists_exists in Hex as (t & Ht & Hf). apply list_elem_of_lookup in Ht as [i Hi].
    destruct (can_step ts i t Hinv Hi Hf) as [ts1 Hs]. apply step_work in Hs as Hw.
    destruct (IH ts1) as (ts' & Hn' & Hall); [lia|by eapply step_inv|].
    exists ts'. split; [by econstructor|done].
  - exfalso. assert (work ts = 0)%nat; [|lia].
    assert (Forall (λ t, finished t = true) ts) as Hall.
    { apply Forall_forall. intros t Ht. destruct (finished t) eqn:Hf; [done|].
      destruct Hno. apply Exists_exists. eauto. }
    clear -Hall. induction Hall as [|[td hd] ts Ht _ IH]; [done|].
    unfold finished in Ht. apply bool_decide_eq_true in Ht as [Htd Hhd]. simpl in *. subst.
    unfold work in *. simpl. done.
Qed.

End PathLocker.

Export PathLocker.

(** C31: path locks exclude and never deadlock.  However [Lock] and [LockMany]
    calls are interleaved, no path is ever held twice; as long as some thread
    is not done, some thread can go on; and every run is finite, so every
    schedule that goes on ends with all threads done. *)
Theorem path_locks_safe_and_live (ts0 ts : list Thread) :
  Forall entering ts0 → rtc step ts0 ts →
  exclusive ts ∧
  ((∃ i t, ts !! i = Some t ∧ finished t = false) → ∃ ts', step ts ts') ∧
  (∀ n ts', nsteps step n ts ts' → (n ≤ work ts)%nat) ∧
  (∃ ts', nsteps step (work ts) ts ts' ∧ Forall (λ t, finished t = true) ts').
Proof.
  intros He Hr. pose proof (steps_inv _ _ Hr (entering_inv _ He)) as Hinv.
  split_and!.
  - apply Hinv.
  - intros (i & t & Hi & Hf). by eapply can_step.
  - clear. intros n ts'. induction 1 as [|n a b c Hs _ IH]; [lia|]. apply step_work in Hs. lia.
  - by apply can_finish.
Qed.

Lemma path_locks_safe_and_live_witness :
  let ts := [LockMany ["b"; "a"; "b"]; LockMany ["a"; "b"]; Lock "b"] in
  lock_order ["b"; "a"; "b"] = ["a"; "b"] ∧
  ∃ ts', nsteps step (work ts) ts ts' ∧ Forall (λ t, finished t = true) ts'.
Proof.
  intros ts. split; [reflexivity|].
  apply (path_locks_safe_and_live ts ts).
  - constructor; [right; eexists; reflexivity|].
    constructor; [right; eexists; reflexivity|].
    constructor; [left; eexists; reflexivity|constructor].
  - reflexivity.
Defined.
