(* ===== verification/Hash.v ===== *)
(** * SHA-256 and its text form

    internal/fs/hash.go: [sha256.Sum256] of package crypto/sha256 (FIPS 180-4)
    and [hex.EncodeToString].  Words are integers in [0, 2^32). *)

From S2P Require Import Prelude.
From Stdlib Require Import Ascii.
Open Scope Z_scope.
Open Scope list_scope.

(** ** Words *)

Definition add32 (a b : Z) : Z := wrap_uint32 (a + b).
Definition rotr (n x : Z) : Z := Z.lor (Z.shiftr x n) (wrap_uint32 (Z.shiftl x (32 - n))).
Definition not32 (x : Z) : Z := Z.lxor x (two32 - 1).

Definition Ch (x y z : Z) : Z := Z.lxor (Z.land x y) (Z.land (not32 x) z).
Definition Maj (x y z : Z) : Z := Z.lxor (Z.lxor (Z.land x y) (Z.land x z)) (Z.land y z).
Definition Sigma0 (x : Z) : Z := Z.lxor (Z.lxor (rotr 2 x) (rotr 13 x)) (rotr 22 x).
Definition Sigma1 (x : Z) : Z := Z.lxor (Z.lxor (rotr 6 x) (rotr 11 x)) (rotr 25 x).
Definition sigma0 (x : Z) : Z := Z.lxor (Z.lxor (rotr 7 x) (rotr 18 x)) (Z.shiftr x 3).
Definition sigma1 (x : Z) : Z := Z.lxor (Z.lxor (rotr 17 x) (rotr 19 x)) (Z.shiftr x 10).

(** The fractional parts of the cube roots of the first 64 primes, and of the
    square roots of the first 8. *)
Definition round_constants : list Z :=
  [1116352408; 1899447441; 3049323471; 3921009573; 961987163; 1508970993; 2453635748; 2870763221;
   3624381080; 310598401; 607225278; 1426881987; 1925078388; 2162078206; 2614888103; 3248222580;
   3835390401; 4022224774; 264347078; 604807628; 770255983; 1249150122; 1555081692; 1996064986;
   2554220882; 2821834349; 2952996808; 3210313671; 3336571891; 3584528711; 113926993; 338241895;
   666307205; 773529912; 1294757372; 1396182291; 1695183700; 1986661051; 2177026350; 2456956037;
   2730485921; 2820302411; 3259730800; 3345764771; 3516065817; 3600352804; 4094571909; 275423344;
   430227734; 506948616; 659060556; 883997877; 958139571; 1322822218; 1537002063; 1747873779;
   1955562222; 2024104815; 2227730452; 2361852424; 2428436474; 2756734187; 3204031479; 3329325298].
Definition initial_hash : list Z :=
  [1779033703; 3144134277; 1013904242; 2773480762; 1359893119; 2600822924; 528734635; 1541459225].

(** ** Message *)

Definition byte_Z (b : Byte.byte) : Z := Z.of_N (Byte.to_N b).
Definition Z_byte (z : Z) : Byte.byte := default Byte.x00 (Byte.of_N (Z.to_N (z mod 256))).

(** [n] bytes, most significant first. *)
Fixpoint be_bytes (n : nat) (z : Z) : bytes :=
  match n with
  | O => []
  | S n' => be_bytes n' (Z.shiftr z 8) ++ [Z_byte z]
  end.

(** A one bit, zeros, and the length in bits on 64 bits, up to a multiple of
    64 bytes. *)
Definition padding (len : nat) : bytes :=
  Byte.x80 :: replicate ((119 - len mod 64) mod 64) Byte.x00
    ++ be_bytes 8 (wrap_uint64 (8 * Z.of_nat len)).
Definition pad (data : bytes) : bytes := data ++ padding (length data).

Fixpoint words (data : bytes) : list Z :=
  match data with
  | a :: b :: c :: d :: rest =>
      (Z.shiftl (byte_Z a) 24 + Z.shiftl (byte_Z b) 16 + Z.shiftl (byte_Z c) 8 + byte_Z d)
        :: words rest
  | _ => []
  end.

(** ** Compression

    [sched] is the schedule so far, latest word first. *)
Fixpoint schedule (n : nat) (sched : list Z) : list Z :=
  match n with
  | O => sched
  | S n' =>
      let w i := nth (i - 1) sched 0 in
      schedule n' (add32 (add32 (add32 (sigma1 (w 2%nat)) (w 7%nat)) (sigma0 (w 15%nat))) (w 16%nat)
                     :: sched)
  end.

Definition round (s : list Z) (kw : Z * Z) : list Z :=
  match s with
  | [a; b; c; d; e; f; g; h] =>
      let t1 := add32 (add32 (add32 (add32 h (Sigma1 e)) (Ch e f g)) kw.1) kw.2 in
      let t2 := add32 (Sigma0 a) (Maj a b c) in
      [add32 t1 t2; a; b; c; add32 d t1; e; f; g]
  | _ => s
  end.

Definition compress (hash : list Z) (block : list Z) : list Z :=
  let sched := rev (schedule 48 (rev block)) in
  zip_with add32 hash (fold_left round (zip round_constants sched) hash).

(** The blocks of 16 words; [fuel] is at least the number of blocks. *)
Fixpoint blocks (fuel : nat) (ws : list Z) : list (list Z) :=
  match fuel, ws with
  | S fuel', _ :: _ => take 16 ws :: blocks fuel' (drop 16 ws)
  | _, _ => []
  end.

Definition Sum256 (data : bytes) : list Z :=
  let ws := words (pad data) in
  fold_left compress (blocks (length ws) ws) initial_hash.

(** ** Text *)

Definition hex_digit (d : Z) : ascii :=
  ascii_of_N (Z.to_N (if d <? 10 then 48 + d else 87 + d)).
Fixpoint hex_word (n : nat) (z : Z) : string :=
  match n with
  | O => ""
  | S n' => hex_word n' (Z.shiftr z 4) +:+ String (hex_digit (z mod 16)) ""
  end.

(** [ComputeHash] *)
Definition ComputeHash (data : bytes) : string :=
  String.concat "" (map (hex_word 8) (Sum256 data)).

(** ** Test vectors of FIPS 180-4 *)

Definition bytes_of_string (s : string) : bytes := String.list_byte_of_string s.

Example ComputeHash_empty :
  ComputeHash [] = "e3b0c44298fc1c149afbf4c8996fb92427ae41e4649b934ca495991b7852b855"%string.
Proof. vm_compute. reflexivity. Qed.
Example ComputeHash_abc :
  ComputeHash (bytes_of_string "abc") =
    "ba7816bf8f01cfea414140de5dae2223b00361a396177a9cb410ff61f20015ad"%string.
Proof. vm_compute. reflexivity. Qed.

(** ** Shape of the digest *)

Lemma string_length_app s t :
  String.length (s +:+ t) = (String.length s + String.length t)%nat.
Proof. induction s; simpl; congruence. Qed.

Lemma hex_word_length n z : String.length (hex_word n z) = n.
Proof.
  revert z. induction n as [|n IH]; intros z; [done|]. simpl.
  rewrite string_length_app, IH. simpl. lia.
Qed.

Lemma length_round s kw : length (round s kw) = length s.
Proof. do 9 (destruct s as [|? s]; [reflexivity|]). reflexivity. Qed.

Lemma length_compress hash block : length hash = 8%nat → length (compress hash block) = 8%nat.
Proof.
  intros Hh. unfold compress.
  assert (∀ kws s, length s = 8%nat → length (fold_left round kws s) = 8%nat) as Hf.
  { induction kws as [|kw kws IH]; intros s Hs; [done|]. apply IH. by rewrite length_round. }
  rewrite length_zip_with, Hf by done. lia.
Qed.

Lemma length_Sum256 data : length (Sum256 data) = 8%nat.
Proof.
  unfold Sum256. generalize (blocks (length (words (pad data))) (words (pad data))). intros bs.
  assert (length initial_hash = 8%nat) as Hi by done. revert Hi. generalize initial_hash.
  induction bs as [|b bs IH]; intros h Hh; [done|]. simpl. apply IH. by apply length_compress.
Qed.

Lemma concat_length (n : nat) (l : list Z) :
  String.length (String.concat "" (map (hex_word n) l)) = (n * length l)%nat.
Proof.
  induction l as [|z l IH]; [simpl; lia|]. destruct l as [|z' l].
  - simpl. rewrite hex_word_length. lia.
  - change (String.concat "" (map (hex_word n) (z :: z' :: l)))
      with (hex_word n z +:+ "" +:+ String.concat "" (map (hex_word n) (z' :: l))).
    rewrite !string_length_app, IH, hex_word_length. simpl. lia.
Qed.

(** A digest is 64 characters long, so never the empty text of a deletion. *)
Lemma ComputeHash_length data : String.length (ComputeHash data) = 64%nat.
Proof. unfold ComputeHash. by rewrite concat_length, length_Sum256. Qed.
Lemma ComputeHash_nonempty data : ComputeHash data ≠ "".
Proof. intros H. pose proof (ComputeHash_length data) as Hl. by rewrite H in Hl. Qed.
