(* ===== verification/World.v ===== *)
(** * The state that requests share

    The file tree, the tables, the hooks and metrics that handlers call, and
    the surroundings of one request: its clock readings, the random suffixes,
    and the faults of the system calls and statements it makes. *)

From S2P Require Import Prelude GoStrings FsPath OsFs Database PathLocks.
Open Scope string_scope.
Open Scope Z_scope.
Open Scope list_scope.

Record World := mkWorld {
  w_os : OsState;
  w_db : DbState;
  w_mutations : nat;                              (* OnMutation calls *)
  w_conflicts : nat;                              (* OnConflict calls *)
  w_range_writes : list (string * Z * bool);      (* RecordRangeWrite calls, latest first *)
  w_last_cleanup : option Z;                      (* SyncService.lastConflictCleanup *)
  w_held : list string;                           (* path locks held, last taken first *)
}.

Definition set_os (f : OsState → OsState) (w : World) : World :=
  mkWorld (f (w_os w)) (w_db w) (w_mutations w) (w_conflicts w) (w_range_writes w) (w_last_cleanup w) (w_held w).
Definition set_db (f : DbState → DbState) (w : World) : World :=
  mkWorld (w_os w) (f (w_db w)) (w_mutations w) (w_conflicts w) (w_range_writes w) (w_last_cleanup w) (w_held w).

(** What one request meets.  A clock reading is named by the place that takes
    it; [e_suffix] gives the timestamp text and the suffix of each generated
    conflict name. *)
Record Env := mkEnv {
  e_fs : FileSystem;
  e_flt : Faults;
  e_dir_size : Z;
  e_db : DbFaults;
  e_clock : string → Z;
  e_suffix : nat → string * string;
}.

(** Runs a file-system call or a transaction inside a handler. *)
Definition on_os {E A} (m : go OsState E A) : go World E A :=
  λ w, let '(t, r) := m (w_os w) in (set_os (λ _, t) w, r).
Definition on_db {E A} (m : go DbState E A) : go World E A :=
  λ w, let '(d, r) := m (w_db w) in (set_db (λ _, d) w, r).
Definition read_db {E A} (q : DbState → result E A) : go World E A :=
  go_read (λ w, q (w_db w)).

(** internal/server/cleanup_hooks.go *)
Definition TriggerMutation {E} : go World E unit := go_modify (λ w,
  mkWorld (w_os w) (w_db w) (S (w_mutations w)) (w_conflicts w) (w_range_writes w) (w_last_cleanup w) (w_held w)).
Definition TriggerConflict {E} : go World E unit := go_modify (λ w,
  mkWorld (w_os w) (w_db w) (w_mutations w) (S (w_conflicts w)) (w_range_writes w) (w_last_cleanup w) (w_held w)).
(** metrics.RecordRangeWrite *)
Definition RecordRangeWrite {E} (path : string) (bytes : Z) (conflicted : bool) : go World E unit :=
  go_modify (λ w,
  mkWorld (w_os w) (w_db w) (w_mutations w) (w_conflicts w)
    ((path, bytes, conflicted) :: w_range_writes w) (w_last_cleanup w) (w_held w)).
Definition set_last_cleanup {E} (now : Z) : go World E unit := go_modify (λ w,
  mkWorld (w_os w) (w_db w) (w_mutations w) (w_conflicts w) (w_range_writes w) (Some now) (w_held w)).

(** [defer]: runs whatever the result is, and keeps it. *)
Definition go_defer {W E A} (cleanup : go W E unit) (m : go W E A) : go W E A :=
  λ w, let '(w1, r) := m w in ((cleanup w1).1, r).

(** [unlock := l.Lock(path); defer unlock()] around the rest of a handler, and
    the same with [LockMany], which unlocks in reverse order. *)
Definition set_held (f : list string → list string) (w : World) : World :=
  mkWorld (w_os w) (w_db w) (w_mutations w) (w_conflicts w) (w_range_writes w) (w_last_cleanup w)
    (f (w_held w)).
Definition with_lock {E A} (path : string) (body : go World E A) : go World E A :=
  go_modify (set_held (cons path)) ;;! go_defer (go_modify (set_held tail)) body.
Definition with_locks {E A} (paths : list string) (body : go World E A) : go World E A :=
  let order := lock_order paths in
  go_modify (set_held (λ held, rev order ++ held)) ;;!
  go_defer (go_modify (set_held (drop (length order)))) body.

(** An error that is logged and dropped. *)
Definition go_ignore {W E F A} (m : go W E A) : go W F unit := λ w, ((m w).1, Ok tt).

(** [time.Time.Sub] on nanosecond times: the difference, saturated to int64. *)
Definition time_Sub (a b : Z) : Z := Z.max (- two63) (Z.min maxInt64 (a - b)).
