(* ===== verification/Mutations.v ===== *)
(** * Mutation support, and the core, sync and version services

    internal/server/file_mutation_support.go, core_service.go,
    sync_service.go and version_service.go.  A handler is a function of the
    world; it runs under its path locks, so it is one step of the system. *)

From S2P Require Import Prelude GoStrings FsPath OsFs Database Hash World.
From Stdlib Require Import Ascii.
Open Scope string_scope.
Open Scope Z_scope.
Open Scope list_scope.

(** A Go byte slice: [None] is nil. *)
Abbreviation slice := (option bytes).
Definition slice_bytes (s : slice) : bytes := default [] s.

Definition RootOf (env : Env) : string := RootDir (e_fs env).

Module Mutation.
Section mutation.
Context {WD : WorkDir} {GU : GoUnicode} {RO : RowOrder} (env : Env).

Record fileHeadState := mkHead {
  h_Exists : bool; h_Deleted : bool; h_Version : Z;
  h_Size : Z; h_MtimeUnix : Z; h_Hash : string
}.
Definition no_head : fileHeadState := mkHead false false 0 0 0 "".

Definition fs_Stat (path : string) : go World goerr FileInfo :=
  on_os (FS.Stat (e_flt env) (e_dir_size env) (e_fs env) path).
Definition fs_ReadFile (path : string) : go World goerr bytes :=
  on_os (FS.ReadFile (e_flt env) (e_fs env) path).

(** [ResolveFileHead] *)
Definition ResolveFileHead (path : string) : go World goerr fileHeadState :=
  catch! rec := read_db (GetLatestRecord (e_db env) path) in
  let! head := match rec with
    | Ok rec =>
        if bool_decide (v_ChangeType rec = "delete")
        then go_ret (mkHead false true (v_Version rec) 0 (v_MtimeUnix rec) (v_Hash rec))
        else go_ret (mkHead false false (v_Version rec) (v_Size rec) (v_MtimeUnix rec) (v_Hash rec))
    | Err err => if errors_Is err ErrNotExist then go_ret no_head else go_fail err
    end in
  catch! meta := read_db (GetMeta (e_db env) path) in
  match meta with
  | Ok meta =>
      go_ret (mkHead true false (m_Version meta) (m_Size meta) (m_MtimeUnix meta) (m_Hash meta))
  | Err err =>
      if negb (errors_Is err ErrNotExist) then go_fail err
      else if h_Deleted head then go_ret head
      else
        catch! info := fs_Stat path in
        match info with
        | Ok info =>
            go_ret (mkHead true (h_Deleted head) (h_Version head) (fi_size info)
                      (unix_seconds (fi_mtime info)) (h_Hash head))
        | Err err => if errors_Is err ErrNotExist then go_ret head else go_fail err
        end
  end.

(** [mutationSupport.SaveFileSnapshot] *)
Definition saveFileSnapshot (path : string) (existed : bool) (data : slice) : go World goerr Z :=
  let now := unix_seconds (e_clock env "SaveFileSnapshot") in
  let changeType := if existed then "modify" else "create" in
  let! newVersion := on_db (SaveFileSnapshot (e_db env)
    (mkMeta path false (Z.of_nat (length (slice_bytes data))) now (ComputeHash (slice_bytes data)) 0)
    "" changeType data) in
  TriggerMutation ;;!
  go_ret newVersion.

(** [writeFileExclusive]: the file is removed again when the write fails. *)
Definition writeFileExclusive (path : string) (data : bytes) : go World goerr unit :=
  let now := e_clock env "writeFileExclusive" in
  let flt := e_flt env in
  let! fullPath := go_lift (ResolvePath (RootOf env) path) in
  on_os (os_MkdirAll flt now (Dir fullPath)) ;;!
  on_os (os_OpenCreate flt true false now fullPath) ;;!
  catch! written := on_os (os_write flt "write" now fullPath data) in
  let closed := os_fault flt "close" fullPath in
  match written, closed with
  | Err writeErr, _ => go_ignore (on_os (os_Remove flt fullPath)) ;;! go_fail writeErr
  | Ok _, Err closeErr => go_ignore (on_os (os_Remove flt fullPath)) ;;! go_fail closeErr
  | Ok _, Ok _ => go_ret tt
  end.

(** [writeConflictFile]: attempts [n], [n+1], ... while names are taken. *)
Definition maxConflictWriteAttempts : nat := 32.
Fixpoint writeConflictFile_loop (left n : nat) (path : string) (data : bytes) : go World goerr string :=
  match left with
  | O => go_fail (ErrSentinel ErrExist)
  | S left' =>
      let '(ts, suffix) := e_suffix env n in
      let conflictPath := GenerateConflictPath ts suffix path in
      catch! r := writeFileExclusive conflictPath data in
      match r with
      | Err err =>
          if errors_Is err ErrExist then writeConflictFile_loop left' (S n) path data
          else go_fail err
      | Ok _ => TriggerConflict ;;! go_ret conflictPath
      end
  end.
Definition writeConflictFile (path : string) (data : bytes) : go World goerr string :=
  writeConflictFile_loop maxConflictWriteAttempts 0 path data.

(** [loadVersionSnapshot] *)
Definition loadVersionSnapshot (path : string) (version : Z) : go World goerr bytes :=
  if version =? 0 then go_ret []
  else
    let! rec := read_db (GetRecord (e_db env) path version) in
    if bool_decide (v_ChangeType rec = "delete") then go_ret []
    else read_db (GetVersionData (e_db env) path version).

End mutation.
End Mutation.
Import Mutation.

(** ** internal/server/core_service.go *)

Module Core.

Record FileInfoPb := {
  pi_Path : string; pi_Name : string; pi_IsDir : bool; pi_Size : Z; pi_MtimeUnix : Z;
  pi_Version : Z; pi_Hash : string
}.
Record WriteFileRangeResponse := {
  wr_BytesWritten : Z; wr_FileSize : Z; wr_NewVersion : Z;
  wr_Conflicted : bool; wr_ConflictPath : string
}.
Record SetFileSizeResponse := {
  ss_FileSize : Z; ss_NewVersion : Z; ss_Conflicted : bool; ss_ConflictPath : string
}.

Definition maxSliceLen : Z := maxInt64.

(** [applyRangeMutation]; the addition wraps on int64. *)
Definition applyRangeMutation (baseData : bytes) (offset : Z) (data : bytes) : result goerr bytes :=
  if offset <? 0 then Err (ErrNew "offset must be >= 0")
  else
    let end_ := wrap_int64 (offset + Z.of_nat (length data)) in
    if end_ <? offset then Err (ErrNew "offset overflow")
    else
      let size := Z.of_nat (length baseData) in
      let size := if size <? end_ then end_ else size in
      if maxSliceLen <? size then Err (ErrNew "resulting file is too large")
      else
        let out := replicate (Z.to_nat size) Byte.x00 in
        let out := baseData ++ drop (length baseData) out in
        Ok (take (Z.to_nat offset) out ++ data ++ drop (Z.to_nat offset + length data) out).

(** [resizeFileData] *)
Definition resizeFileData (baseData : bytes) (size : Z) : result goerr bytes :=
  if size <? 0 then Err (ErrNew "size must be >= 0")
  else if maxSliceLen <? size then Err (ErrNew "resulting file is too large")
  else
    let out := replicate (Z.to_nat size) Byte.x00 in
    Ok (take (Z.to_nat size) baseData ++ drop (length baseData) out).

Definition joinRelPath (dir name : string) : string :=
  if decide (dir = "" ∨ dir = ".") then name else ToSlash (JoinPath dir name).

Section core.
Context {WD : WorkDir} {GU : GoUnicode} {RO : RowOrder} (env : Env).

Definition normalized {A} (Path : string) (k : string → go World status A) : go World status A :=
  let! path := go_lift (map_err toGrpcError (normalizeProjectPath (RootOf env) Path)) in k path.
Definition grpc {A} (m : go World goerr A) : go World status A := go_map_err toGrpcError m.

(** [version, hash := 0, ""] or those of the metadata. *)
Definition meta_version_hash (path : string) : go World status (Z * string) :=
  catch! m := read_db (GetMeta (e_db env) path) in
  match m with
  | Ok m => go_ret (m_Version m, m_Hash m)
  | Err err => if errors_Is err ErrNotExist then go_ret (0, "") else go_fail (toGrpcError err)
  end.

(** The loop of [ListDir]. *)
Fixpoint list_entries (dir path : string) (entries : list (string * node)) :
    go World status (list FileInfoPb) :=
  match entries with
  | [] => go_ret []
  | (name, n) :: entries' =>
      catch! fi := go_read (E := goerr) (λ w, os_Lstat (e_flt env) (e_dir_size env) (JoinPath dir name) (w_os w)) in
      match fi with
      | Err _ => list_entries dir path entries'
      | Ok fi =>
          if ShouldIgnore name then list_entries dir path entries'
          else
            let relPath := joinRelPath path name in
            let! (version, hash) := meta_version_hash relPath in
            let! rest := list_entries dir path entries' in
            go_ret ({| pi_Path := relPath; pi_Name := name; pi_IsDir := is_dir n; pi_Size := fi_size fi;
                       pi_MtimeUnix := unix_seconds (fi_mtime fi);
                       pi_Version := version; pi_Hash := hash |} :: rest)
      end
  end.

Definition ListDir (Path : string) : go World status (list FileInfoPb) :=
  normalized Path (λ path,
    let! entries := grpc (on_os (FS.ListDir (e_flt env) (e_fs env) path)) in
    let! dir := grpc (go_lift (FS.resolvePath (e_fs env) path)) in
    list_entries dir path entries).

Definition Stat (Path : string) : go World status FileInfoPb :=
  normalized Path (λ path,
    let! fi := grpc (fs_Stat env path) in
    let! (version, hash) := meta_version_hash path in
    go_ret {| pi_Path := path; pi_Name := fi_name fi; pi_IsDir := fi_isdir fi; pi_Size := fi_size fi;
              pi_MtimeUnix := unix_seconds (fi_mtime fi); pi_Version := version; pi_Hash := hash |}).

Definition ReadFile (Path : string) : go World status bytes :=
  normalized Path (λ path, grpc (fs_ReadFile env path)).

Definition ReadFileRange (Path : string) (Offset Length : Z) : go World status (bytes * Z) :=
  normalized Path (λ path,
    grpc (on_os (FS.ReadAt (e_flt env) (e_dir_size env) (e_fs env) path Offset Length))).

Definition buildRangeConflictData (path : string) (baseVersion offset : Z) (data : bytes) :
    go World goerr bytes :=
  let! baseData := loadVersionSnapshot env path baseVersion in
  go_lift (applyRangeMutation baseData offset data).

Definition buildSetFileSizeConflictData (path : string) (baseVersion size : Z) : go World goerr bytes :=
  let! baseData := loadVersionSnapshot env path baseVersion in
  go_lift (resizeFileData baseData size).

(** A conflict copy, or the empty path when it cannot be built or written:
    both errors are only logged. *)
Definition conflict_copy (path : string) (build : go World goerr bytes) : go World status string :=
  catch! r := (let! conflictData := build in writeConflictFile env path conflictData) in
  match r with Ok conflictPath => go_ret conflictPath | Err _ => go_ret "" end.

Definition WriteFileRange (Path : string) (Offset : Z) (Data : bytes) (BaseVersion : Z) :
    go World status WriteFileRangeResponse :=
  if Offset <? 0 then go_fail (invalidArgument "offset must be >= 0")
  else normalized Path (λ path,
    with_lock path (
      let! head := grpc (ResolveFileHead env path) in
      let metric conflicted := RecordRangeWrite path (Z.of_nat (length Data)) conflicted in
      if negb (BaseVersion =? 0) && negb (h_Version head =? 0) && negb (BaseVersion =? h_Version head)
      then
        go_defer (metric true) (
          let! conflictPath := conflict_copy path (buildRangeConflictData path BaseVersion Offset Data) in
          go_ret {| wr_BytesWritten := 0; wr_FileSize := h_Size head; wr_NewVersion := h_Version head;
                    wr_Conflicted := true; wr_ConflictPath := conflictPath |})
      else
        go_defer (metric false) (
          let! (bytesWritten, fileSize) := grpc (on_os
            (FS.WriteAt (e_flt env) (e_fs env) (e_clock env "WriteAt") path Offset Data)) in
          let! fullData := grpc (fs_ReadFile env path) in
          let! newVersion := grpc (saveFileSnapshot env path (h_Exists head) (Some fullData)) in
          go_ret {| wr_BytesWritten := bytesWritten; wr_FileSize := fileSize;
                    wr_NewVersion := newVersion; wr_Conflicted := false; wr_ConflictPath := "" |}))).

Definition SetFileSize (Path : string) (Size BaseVersion : Z) : go World status SetFileSizeResponse :=
  if Size <? 0 then go_fail (invalidArgument "size must be >= 0")
  else normalized Path (λ path,
    with_lock path (
      let! head := grpc (ResolveFileHead env path) in
      if negb (BaseVersion =? 0) && negb (h_Version head =? 0) && negb (BaseVersion =? h_Version head)
      then
        let! conflictPath := conflict_copy path (buildSetFileSizeConflictData path BaseVersion Size) in
        go_ret {| ss_FileSize := h_Size head; ss_NewVersion := h_Version head;
                  ss_Conflicted := true; ss_ConflictPath := conflictPath |}
      else
        let resize :=
          let! fileSize := grpc (on_os
            (FS.SetFileSize (e_flt env) (e_fs env) (e_clock env "SetFileSize") path Size)) in
          let! fullData := grpc (fs_ReadFile env path) in
          let! newVersion := grpc (saveFileSnapshot env path (h_Exists head) (Some fullData)) in
          go_ret {| ss_FileSize := fileSize; ss_NewVersion := newVersion;
                    ss_Conflicted := false; ss_ConflictPath := "" |} in
        if h_Exists head && (h_Size head =? Size) then
          catch! st := fs_Stat env path in
          match st with
          | Ok _ => go_ret {| ss_FileSize := h_Size head; ss_NewVersion := h_Version head;
                              ss_Conflicted := false; ss_ConflictPath := "" |}
          | Err _ => resize
          end
        else resize)).

Definition Delete (Path : string) : go World status unit :=
  normalized Path (λ path,
    with_lock path (
      catch! m := read_db (GetMeta (e_db env) path) in
      let! size := match m with
                   | Ok m => go_ret (m_Size m)
                   | Err err => if errors_Is err ErrNotExist then go_ret 0
                                else go_fail (toGrpcError err)
                   end in
      grpc (on_os (FS.Remove (e_flt env) (e_fs env) path)) ;;!
      grpc (on_db (AppendDeleteSnapshot (e_db env) path size
                     (unix_seconds (e_clock env "Delete")) "")) ;;!
      TriggerMutation)).

Definition Rename (OldPath NewPath : string) : go World status unit :=
  normalized OldPath (λ oldPath,
  normalized NewPath (λ newPath,
    if bool_decide (oldPath = newPath) then go_ret tt
    else
      with_locks [oldPath; newPath] (
        let rename := FS.Rename (e_flt env) (e_fs env) (e_clock env "Rename") in
        grpc (on_os (rename oldPath newPath)) ;;!
        catch! r := on_db (RenamePathTree (e_db env) oldPath newPath) in
        match r with
        | Err err => go_ignore (on_os (rename newPath oldPath)) ;;! go_fail (toGrpcError err)
        | Ok _ => TriggerMutation
        end))).

Definition Mkdir (Path : string) : go World status unit :=
  normalized Path (λ path,
    with_lock path (
      grpc (on_os (FS.Mkdir (e_flt env) (e_fs env) (e_clock env "Mkdir") path)) ;;!
      grpc (on_db (SetMeta (e_db env) (mkMeta path true 0 0 "" 0))) ;;!
      TriggerMutation)).

End core.
End Core.

(** ** internal/server/sync_service.go *)

Module Sync.

Record ConflictCleanupPolicy := { FileTTL : Z; MaxCopiesPerPath : Z; CleanupInterval : Z }.
Definition default_policy : ConflictCleanupPolicy :=
  {| FileTTL := 7 * 24 * 3600 * 1000000000; MaxCopiesPerPath := 20;
     CleanupInterval := 3600 * 1000000000 |}.

Record FileMeta := {
  fm_Path : string; fm_Version : Z; fm_MtimeUnix : Z; fm_Hash : string; fm_Size : Z
}.
Definition file_meta (m : Meta) : FileMeta :=
  {| fm_Path := m_Path m; fm_Version := m_Version m; fm_MtimeUnix := m_MtimeUnix m;
     fm_Hash := m_Hash m; fm_Size := m_Size m |}.
Record WriteFileResponse := { wf_Conflicted : bool; wf_ConflictPath : string; wf_NewVersion : Z }.

Definition stringsHasConflictPrefix (name prefix : string) : bool :=
  (String.length prefix <? String.length name)%nat && HasPrefix name prefix.

Record conflictFileInfo := mkConflict { c_fullPath : string; c_name : string; c_modTime : Z }.

(** Newest first; equal times by descending name. *)
Definition conflict_less (a b : conflictFileInfo) : bool :=
  if c_modTime a =? c_modTime b then (c_name b <? c_name a)%string
  else c_modTime b <? c_modTime a.

Section sync.
Context {WD : WorkDir} {GU : GoUnicode} {RO : RowOrder} {SS : SortSlice}
        (env : Env) (policy : ConflictCleanupPolicy).

Definition GetFileMeta (Path : string) : go World status FileMeta :=
  Core.normalized env Path (λ path,
    catch! m := read_db (GetMeta (e_db env) path) in
    match m with
    | Ok m => go_ret (file_meta m)
    | Err err =>
        if negb (errors_Is err ErrNotExist) then go_fail (toGrpcError err)
        else
          catch! info := fs_Stat env path in
          match info with
          | Ok info => go_ret {| fm_Path := path; fm_Version := 0;
                                 fm_MtimeUnix := unix_seconds (fi_mtime info);
                                 fm_Hash := ""; fm_Size := fi_size info |}
          | Err statErr =>
              if negb (errors_Is statErr ErrNotExist) then go_fail (toGrpcError statErr)
              else go_ret {| fm_Path := path; fm_Version := 0; fm_MtimeUnix := 0;
                             fm_Hash := ""; fm_Size := 0 |}
          end
    end).

(** The loop over the directory entries. *)
Definition conflict_candidate (dir prefix : string) (t : OsState) (e : string * node) :
    option conflictFileInfo :=
  let '(name, n) := e in
  if is_dir n then None
  else if negb (stringsHasConflictPrefix name prefix) then None
  else match os_Lstat (e_flt env) (e_dir_size env) (JoinPath dir name) t with
       | Err _ => None
       | Ok info => Some (mkConflict (JoinPath dir name) name (fi_mtime info))
       end.

(** Whether the candidate of rank [idx] goes. *)
Definition conflict_excess (now : Z) (idx : nat) (c : conflictFileInfo) : bool :=
  (0 <? FileTTL policy) && (FileTTL policy <? time_Sub now (c_modTime c)) ||
  (0 <? MaxCopiesPerPath policy) && (MaxCopiesPerPath policy <=? Z.of_nat idx).

Fixpoint remove_excess (now : Z) (idx : nat) (candidates : list conflictFileInfo) : go World goerr unit :=
  match candidates with
  | [] => go_ret tt
  | c :: rest =>
      (if conflict_excess now idx c
       then go_ignore (on_os (os_Remove (e_flt env) (c_fullPath c)))
       else go_ret tt) ;;!
      remove_excess now (S idx) rest
  end.

Definition cleanupConflictCopiesForPath (path : string) (now : Z) : go World goerr unit :=
  let! fullPath := go_lift (ResolvePath (RootOf env) path) in
  let dir := Dir fullPath in
  catch! entries := go_read (λ w, os_ReadDir (e_flt env) dir (w_os w)) in
  match entries with
  | Err err => if errors_Is err ErrNotExist then go_ret tt else go_fail err
  | Ok entries =>
      let prefix := Base fullPath +:+ ".roodox-conflict-" in
      let! candidates := go_get (λ w, omap (conflict_candidate dir prefix (w_os w)) entries) in
      remove_excess now 0 (sort_slice conflict_less candidates)
  end.

(** The callback of the walk. *)
Definition expired_conflict_step (now : Z) (path : string) (d : DirEntry) (err : option goerr) :
    go World goerr walk_ctl :=
  match err with
  | Some _ => go_ret WalkNext
  | None =>
      if de_isdir d then
        go_ret (if negb (bool_decide (path = RootOf env)) && ShouldIgnore (de_name d)
                then WalkSkipDir else WalkNext)
      else if negb (IsConflictPath (de_name d)) then go_ret WalkNext
      else
        catch! info := go_read (E := goerr) (λ w, os_Lstat (e_flt env) (e_dir_size env) path (w_os w)) in
        match info with
        | Err _ => go_ret WalkNext
        | Ok info =>
            if time_Sub now (fi_mtime info) <=? FileTTL policy then go_ret WalkNext
            else go_ignore (E := goerr) (on_os (os_Remove (e_flt env) path)) ;;! go_ret WalkNext
        end
  end.

Definition cleanupExpiredConflictFiles (now : Z) : go World goerr unit :=
  if FileTTL policy <=? 0 then go_ret tt
  else WalkDir (e_flt env) (e_dir_size env) w_os (expired_conflict_step now) (RootOf env).

Definition maybeCleanupExpiredConflictFiles (now : Z) : go World goerr unit :=
  if (FileTTL policy <=? 0) || (CleanupInterval policy <=? 0) then go_ret tt
  else
    let! last := go_get w_last_cleanup in
    let recent := match last with
                  | Some last => time_Sub now last <? CleanupInterval policy
                  | None => false
                  end in
    if recent then go_ret tt
    else set_last_cleanup now ;;! go_ignore (E := goerr) (cleanupExpiredConflictFiles now).

Definition writeConflictFile (path : string) (data : bytes) : go World goerr string :=
  let! conflictPath :=
    go_map_err (ErrWrap ("generate unique conflict file for " +:+ Quote path))
      (Mutation.writeConflictFile env path data) in
  let now := e_clock env "writeConflictFile" in
  go_ignore (E := goerr) (cleanupConflictCopiesForPath path now) ;;!
  maybeCleanupExpiredConflictFiles now ;;!
  go_ret conflictPath.

Definition doWriteFile (Path : string) (data : slice) (baseVersion : Z) : go World status WriteFileResponse :=
  Core.normalized env Path (λ path,
    with_lock path (
      let! head := Core.grpc (ResolveFileHead env path) in
      if negb (baseVersion =? 0) && negb (h_Version head =? 0) && negb (baseVersion =? h_Version head)
      then
        let! conflictPath := Core.grpc (writeConflictFile path (slice_bytes data)) in
        go_ret {| wf_Conflicted := true; wf_ConflictPath := conflictPath;
                  wf_NewVersion := h_Version head |}
      else
        let newHash := ComputeHash (slice_bytes data) in
        let write :=
          Core.grpc (on_os (FS.WriteFile (e_flt env) (e_fs env) (e_clock env "WriteFile") path
                              (slice_bytes data))) ;;!
          let! newVersion := Core.grpc (saveFileSnapshot env path (h_Exists head) data) in
          go_ret {| wf_Conflicted := false; wf_ConflictPath := ""; wf_NewVersion := newVersion |} in
        if h_Exists head && negb (h_Version head =? 0) && bool_decide (newHash = h_Hash head) then
          catch! st := fs_Stat env path in
          match st with
          | Ok _ => go_ret {| wf_Conflicted := false; wf_ConflictPath := "";
                              wf_NewVersion := h_Version head |}
          | Err _ => write
          end
        else write)).

Definition WriteFile (Path : string) (Data : slice) (BaseVersion : Z) : go World status WriteFileResponse :=
  doWriteFile Path Data BaseVersion.

(** [WriteFileStream] on the chunks that [stream.Recv] returns before EOF, or
    before an error of the stream.  An empty buffer is nil. *)
Record WriteFileChunk := { ch_Path : string; ch_BaseVersion : Z; ch_Data : bytes }.
Definition buffer_slice (b : bytes) : slice := match b with [] => None | _ => Some b end.
Definition WriteFileStream (chunks : list WriteFileChunk) (broken : option status) :
    go World status WriteFileResponse :=
  match broken with
  | Some err => go_fail err
  | None =>
      match chunks with
      | [] => go_fail (invalidArgument "write stream missing first chunk")
      | first :: _ =>
          doWriteFile (ch_Path first) (buffer_slice (concat (map ch_Data chunks)))
            (ch_BaseVersion first)
      end
  end.

Definition ListChangedFiles (SinceVersion SinceMtimeUnix : Z) : go World status (list FileMeta) :=
  if negb (SinceVersion =? 0)
  then go_fail (invalidArgument
         "since_version is not supported; use since_mtime_unix for incremental scans")
  else
    let! metas := Core.grpc (read_db (AllMetas (e_db env))) in
    go_ret (map file_meta
      (filter (λ m, SinceMtimeUnix = 0 ∨ SinceMtimeUnix < m_MtimeUnix m) metas)).

End sync.
End Sync.

(** ** internal/server/version_service.go *)

Module VersionSvc.
Section version.
Context {RO : RowOrder} (env : Env).

Definition GetHistory (Path : string) : go World status (list VersionRecord) :=
  let! path := go_lift (map_err toGrpcError (NormalizeRelativePath Path)) in
  Core.grpc (read_db (Database.GetHistory (e_db env) path)).

Definition GetVersion (Path : string) (Version : Z) : go World status bytes :=
  let! path := go_lift (map_err toGrpcError (NormalizeRelativePath Path)) in
  let! rec := Core.grpc (read_db (GetRecord (e_db env) path Version)) in
  if bool_decide (v_ChangeType rec = "delete") then go_ret []
  else Core.grpc (read_db (GetVersionData (e_db env) path Version)).

End version.
End VersionSvc.
