(* ===== verification/Frames.v ===== *)
(** * Reasoning about handlers by frames

    [steps R m]: whatever its result, a run of [m] takes a world to one that
    [R] relates to it.  For a preorder [R] this passes through every
    construction of the state monad, so a property of all handlers follows from
    the calls they make. *)

From S2P Require Import Prelude GoStrings FsPath OsFs Database World.
Open Scope string_scope.
Open Scope Z_scope.
Open Scope list_scope.

Definition steps {W E A} (R : W → W → Prop) (m : go W E A) : Prop := ∀ w, R w (m w).1.

Create HintDb steps.

Section Frames.
Context {W : Type} (R : W → W → Prop) `{HR : !PreOrder R}.

Lemma steps_ret {E A} (a : A) : steps R (go_ret (E := E) a).
Proof. intros w. simpl. reflexivity. Qed.
Lemma steps_fail {E A} (e : E) : steps R (go_fail (A := A) e).
Proof. intros w. simpl. reflexivity. Qed.
Lemma steps_lift {E A} (r : result E A) : steps R (go_lift r).
Proof. intros w. simpl. reflexivity. Qed.
Lemma steps_read {E A} (f : W → result E A) : steps R (go_read f).
Proof. intros w. simpl. reflexivity. Qed.
Lemma steps_get {E A} (f : W → A) : steps R (go_get (E := E) f).
Proof. intros w. simpl. reflexivity. Qed.

Lemma steps_bind {E A B} (m : go W E A) (k : A → go W E B) :
  steps R m → (∀ a, steps R (k a)) → steps R (go_bind m k).
Proof.
  intros Hm Hk w. unfold go_bind. specialize (Hm w). destruct (m w) as [w1 [a|e]]; [|done].
  simpl in Hm. trans w1; [done|apply Hk].
Qed.
Lemma steps_catch {E F A B} (m : go W E A) (k : result E A → go W F B) :
  steps R m → (∀ r, steps R (k r)) → steps R (go_catch m k).
Proof.
  intros Hm Hk w. unfold go_catch. specialize (Hm w). destruct (m w) as [w1 r].
  simpl in Hm. trans w1; [done|apply Hk].
Qed.
Lemma steps_map_err {E F A} (f : E → F) (m : go W E A) : steps R m → steps R (go_map_err f m).
Proof. intros Hm w. unfold go_map_err. specialize (Hm w). by destruct (m w). Qed.
Lemma steps_defer {E A} (c : go W E unit) (m : go W E A) :
  steps R c → steps R m → steps R (go_defer c m).
Proof.
  intros Hc Hm w. unfold go_defer. specialize (Hm w). destruct (m w) as [w1 r].
  simpl in *. trans w1; [done|apply Hc].
Qed.
Lemma steps_ignore {E F A} (m : go W E A) : steps R m → steps R (go_ignore (F := F) m).
Proof. intros Hm w. apply Hm. Qed.

Lemma steps_match_result {E F A B} (r : result E A) (k : A → go W F B) (h : E → go W F B) :
  (∀ a, steps R (k a)) → (∀ e, steps R (h e)) →
  steps R (match r with Ok a => k a | Err e => h e end).
Proof. intros. destruct r; auto. Qed.
End Frames.

(** Decomposes [steps R m] down to the calls that [m] makes. *)
Ltac steps_step :=
  match goal with
  | |- ∀ _, _ => intro
  | |- steps _ (go_bind _ _) => apply steps_bind; [apply _| |]
  | |- steps _ (go_catch _ _) => apply steps_catch; [apply _| |]
  | |- steps _ (go_map_err _ _) => apply steps_map_err
  | |- steps _ (go_defer _ _) => apply steps_defer; [apply _| |]
  | |- steps _ (go_ignore _) => apply steps_ignore
  | |- steps _ (go_ret _) => apply steps_ret; apply _
  | |- steps _ (go_fail _) => apply steps_fail; apply _
  | |- steps _ (go_lift _) => apply steps_lift; apply _
  | |- steps _ (go_read _) => apply steps_read; apply _
  | |- steps _ (go_get _) => apply steps_get; apply _
  | |- steps _ (match ?x with _ => _ end) => destruct x
  end.
Ltac steps_tac := repeat first [ solve [eauto with steps] | steps_step ].

(** ** Frames of the world *)

(** A relation on one component of the world. *)
Definition on_field {X} (f : World → X) (S : X → X → Prop) (w w' : World) : Prop := S (f w) (f w').

#[export] Instance on_field_preorder {X} (f : World → X) (S : X → X → Prop) :
  PreOrder S → PreOrder (on_field f S).
Proof.
  intros HS. split.
  - intros w. unfold on_field. reflexivity.
  - intros a b c H1 H2. unfold on_field in *. by trans (f b).
Qed.

Section Fields.
Context {E A : Type}.

Lemma on_os_frame {X} (f : World → X) (S : X → X → Prop) (m : go OsState E A) :
  PreOrder S → (∀ w t, f (set_os (λ _, t) w) = f w) → steps (on_field f S) (on_os m).
Proof.
  intros HS Hf w. unfold on_os, on_field. destruct (m (w_os w)) as [t r]. simpl.
  rewrite Hf. reflexivity.
Qed.
Lemma on_db_frame {X} (f : World → X) (S : X → X → Prop) (m : go DbState E A) :
  PreOrder S → (∀ w t, f (set_db (λ _, t) w) = f w) → steps (on_field f S) (on_db m).
Proof.
  intros HS Hf w. unfold on_db, on_field. destruct (m (w_db w)) as [t r]. simpl.
  rewrite Hf. reflexivity.
Qed.

(** A call that respects [S] on the tables does so on the world. *)
Lemma on_db_steps (S : DbState → DbState → Prop) (m : go DbState E A) :
  steps S m → steps (on_field w_db S) (on_db m).
Proof.
  intros Hm w. unfold on_db, on_field. specialize (Hm (w_db w)).
  by destruct (m (w_db w)) as [t r].
Qed.
Lemma on_os_steps (S : OsState → OsState → Prop) (m : go OsState E A) :
  steps S m → steps (on_field w_os S) (on_os m).
Proof.
  intros Hm w. unfold on_os, on_field. specialize (Hm (w_os w)).
  by destruct (m (w_os w)) as [t r].
Qed.
End Fields.

(** [go_modify] that leaves the component alone. *)
Lemma modify_frame {X E} (f : World → X) (S : X → X → Prop) (g : World → World) :
  PreOrder S → (∀ w, f (g w) = f w) → steps (on_field f S) (go_modify (E := E) g).
Proof. intros HS Hf w. unfold on_field. simpl. rewrite Hf. reflexivity. Qed.

(** Walks keep a frame that their callback keeps. *)
Section WalkFrame.
Context (flt : Faults) (dir_size : Z) {W : Type} (get_os : W → OsState)
        (fn : string → DirEntry → option goerr → go W goerr walk_ctl)
        (R : W → W → Prop) `{HR : !PreOrder R} (Hfn : ∀ p d e, steps R (fn p d e)).

Lemma steps_walkDir fuel path d : steps R (walkDir flt get_os fn fuel path d).
Proof.
  revert path d. induction fuel as [|fuel IH]; intros path d; simpl.
  { apply steps_ret, _. }
  assert (∀ p ds, steps R (walk_entries (walkDir flt get_os fn fuel) p ds)) as Hes.
  { intros p ds. induction ds as [|d1 ds IHds]; simpl; steps_tac. }
  steps_tac.
Qed.

Lemma steps_WalkDir root : steps R (WalkDir flt dir_size get_os fn root).
Proof.
  intros w. unfold WalkDir.
  apply (steps_catch R (go_read _) (λ r, let! _ := match r with Ok _ => _ | Err _ => _ end in _));
    [apply steps_read, _|].
  intros r. apply steps_bind; [apply _| |intros; apply steps_ret, _].
  destruct r; [apply steps_walkDir|apply Hfn].
Qed.
End WalkFrame.

(** Walks whose callback is known to behave on the entries the walk visits:
    [visit] holds of the root and passes to the entries of a directory, in the
    worlds that satisfy [I], which the callback keeps. *)
Section WalkVisits.
Context (flt : Faults) (dir_size : Z) {W : Type} (get_os : W → OsState)
        (fn : string → DirEntry → option goerr → go W goerr walk_ctl)
        (I : W → Prop) (S : W → W → Prop) `{HS : !PreOrder S}
        (visit : string → DirEntry → Prop).

Definition guarded (w w' : W) : Prop := I w → I w' ∧ S w w'.
#[export] Instance guarded_preorder : PreOrder guarded.
Proof.
  split.
  - by intros w Hw.
  - intros a b c H1 H2 Ha. destruct (H1 Ha) as [Hb E1]. destruct (H2 Hb) as [Hc E2].
    split; [done|by trans b].
Qed.

Hypothesis Hfn : ∀ p d e, visit p d → steps guarded (fn p d e).
Hypothesis Hchild : ∀ w p d entries e, I w → visit p d →
  os_ReadDir flt p (get_os w) = Ok entries → e ∈ entries →
  visit (JoinPath p e.1) (entry_of e).

Lemma walk_entries_guarded (rec : string → DirEntry → go W goerr walk_ctl) path ds :
  (∀ p d, visit p d → steps guarded (rec p d)) →
  Forall (λ d, visit (JoinPath path (de_name d)) d) ds →
  steps guarded (walk_entries rec path ds).
Proof.
  intros Hrec Hds. induction Hds as [|d ds Hd _ IH]; simpl; [apply steps_ret, _|].
  pose proof (Hrec _ _ Hd). steps_tac.
Qed.

Lemma walkDir_guarded fuel path d :
  visit path d → steps guarded (walkDir flt get_os fn fuel path d).
Proof.
  revert path d. induction fuel as [|fuel IH]; intros path d Hp; simpl; [apply steps_ret, _|].
  pose proof (λ e, Hfn path d e Hp) as Hfp.
  apply steps_bind; [apply _|apply Hfp|]. intros [|]; [|apply steps_ret, _].
  destruct (negb _); [apply steps_ret, _|]. intros w. unfold go_catch, go_read.
  destruct (os_ReadDir flt path (get_os w)) as [entries|err] eqn:Er.
  - intros Ha. refine (walk_entries_guarded _ _ _ IH _ w Ha).
    apply Forall_forall. intros d' Hd'. apply list_elem_of_fmap in Hd' as (e & -> & Hin).
    by eapply Hchild.
  - apply (steps_bind guarded (fn path d (Some err)) (λ _, go_ret WalkNext)); [apply Hfp|].
    intros. apply steps_ret, _.
Qed.

Lemma WalkDir_guarded root :
  (∀ e, steps guarded (fn root {| de_name := ""; de_isdir := false |} (Some e))) →
  (∀ w info, os_Lstat flt dir_size root (get_os w) = Ok info →
     visit root {| de_name := fi_name info; de_isdir := fi_isdir info |}) →
  steps guarded (WalkDir flt dir_size get_os fn root).
Proof.
  intros He Hr w. unfold WalkDir, go_catch, go_read.
  destruct (os_Lstat flt dir_size root (get_os w)) as [info|err] eqn:El.
  - apply (steps_bind guarded (walkDir _ _ _ _ _ _) (λ _, go_ret tt)).
    + by eapply walkDir_guarded, Hr.
    + intros. apply steps_ret, _.
  - apply (steps_bind guarded (fn _ _ _) (λ _, go_ret tt)); [apply He|].
    intros. apply steps_ret, _.
Qed.
End WalkVisits.
