(* ===== verification/Services.v ===== *)
(** * The file services as a system

    The requests of the core, sync and version services, the step that serving
    one of them is, and what every step keeps: the tables move by operations of
    the store only, the locks taken are released, and nothing outside the
    project root changes. *)

From S2P Require Import Prelude GoStrings FsPath OsFs Database DatabaseSpec RenameTree StoreTheorems Hash World Mutations Frames.
Import Mutation.
Open Scope string_scope.
Open Scope Z_scope.
Open Scope list_scope.

Inductive Request :=
| RqListDir (Path : string)
| RqStat (Path : string)
| RqReadFile (Path : string)
| RqReadFileRange (Path : string) (Offset Length : Z)
| RqWriteFileRange (Path : string) (Offset : Z) (Data : bytes) (BaseVersion : Z)
| RqSetFileSize (Path : string) (Size BaseVersion : Z)
| RqDelete (Path : string)
| RqRename (OldPath NewPath : string)
| RqMkdir (Path : string)
| RqGetFileMeta (Path : string)
| RqWriteFile (Path : string) (Data : slice) (BaseVersion : Z)
| RqWriteFileStream (chunks : list Sync.WriteFileChunk) (broken : option status)
| RqListChangedFiles (SinceVersion SinceMtimeUnix : Z)
| RqGetHistory (Path : string)
| RqGetVersion (Path : string) (Version : Z).

(** A handler without its response. *)
Definition run_only {A} (m : go World status A) : go World status unit := let! _ := m in go_ret tt.

Section Serve.
Context {WD : WorkDir} {GU : GoUnicode} {RO : RowOrder} {SS : SortSlice}
        (env : Env) (policy : Sync.ConflictCleanupPolicy).

Definition serve_request (r : Request) : go World status unit :=
  match r with
  | RqListDir p => run_only (Core.ListDir env p)
  | RqStat p => run_only (Core.Stat env p)
  | RqReadFile p => run_only (Core.ReadFile env p)
  | RqReadFileRange p o l => run_only (Core.ReadFileRange env p o l)
  | RqWriteFileRange p o d b => run_only (Core.WriteFileRange env p o d b)
  | RqSetFileSize p s b => run_only (Core.SetFileSize env p s b)
  | RqDelete p => run_only (Core.Delete env p)
  | RqRename o n => run_only (Core.Rename env o n)
  | RqMkdir p => run_only (Core.Mkdir env p)
  | RqGetFileMeta p => run_only (Sync.GetFileMeta env p)
  | RqWriteFile p d b => run_only (Sync.WriteFile env policy p d b)
  | RqWriteFileStream cs e => run_only (Sync.WriteFileStream env policy cs e)
  | RqListChangedFiles v t => run_only (Sync.ListChangedFiles env v t)
  | RqGetHistory p => run_only (VersionSvc.GetHistory env p)
  | RqGetVersion p v => run_only (VersionSvc.GetVersion env p v)
  end.

(** Paths of requests are valid UTF-8 (proto3 strings are), so a normalised
    path does not start inside a character. *)
Definition valid_path (Path : string) : Prop :=
  ∀ p, normalizeProjectPath (RootOf env) Path = Ok p → starts_char p = true.
Definition valid_request (r : Request) : Prop :=
  match r with RqRename o n => valid_path o ∧ valid_path n | _ => True end.

(** The conflict copies of a written path are swept only for paths in [P]. *)
Definition sweeps (P : string → Prop) (r : Request) : Prop :=
  let ok Path := ∀ p, normalizeProjectPath (RootOf env) Path = Ok p → P p in
  match r with
  | RqWriteFile p _ _ => ok p
  | RqWriteFileStream (c :: _) _ => ok (Sync.ch_Path c)
  | _ => True
  end.

Lemma sweeps_any r : sweeps (λ _, True) r.
Proof. by destruct r as [| | | | | | | | | | |[|? ?]| | |]; simpl. Qed.

(** ** Generic decomposition of the handlers *)

Section AnyFrame.
Context (R : World → World → Prop) `{HR : !PreOrder R} (P : string → Prop).

(** The calls that can change the world. *)
Record frame_calls : Prop := {
  fc_trigger E : steps R (TriggerMutation (E := E));
  fc_conflict E : steps R (TriggerConflict (E := E));
  fc_range E p b c : steps R (RecordRangeWrite (E := E) p b c);
  fc_cleanup E t : steps R (set_last_cleanup (E := E) t);
  fc_lock E A p (m : go World E A) : steps R m → steps R (with_lock p m);
  fc_locks E A ps (m : go World E A) : steps R m → steps R (with_locks ps m);
  fc_mkdirs now p f : ResolvePath (RootOf env) p = Ok f →
    steps R (on_os (os_MkdirAll (e_flt env) now (Dir f)));
  fc_create excl trunc now p f : ResolvePath (RootOf env) p = Ok f →
    steps R (on_os (os_OpenCreate (e_flt env) excl trunc now f));
  fc_write op now p f d : ResolvePath (RootOf env) p = Ok f →
    steps R (on_os (os_write (e_flt env) op now f d));
  fc_remove p f : ResolvePath (RootOf env) p = Ok f → steps R (on_os (os_Remove (e_flt env) f));
  fc_Stat p : steps R (fs_Stat env p);
  fc_ReadFile p : steps R (fs_ReadFile env p);
  fc_ListDir p : steps R (on_os (FS.ListDir (e_flt env) (e_fs env) p));
  fc_ReadAt p o l : steps R (on_os (FS.ReadAt (e_flt env) (e_dir_size env) (e_fs env) p o l));
  fc_WriteAt now p o d : steps R (on_os (FS.WriteAt (e_flt env) (e_fs env) now p o d));
  fc_SetFileSize now p s : steps R (on_os (FS.SetFileSize (e_flt env) (e_fs env) now p s));
  fc_WriteFile now p d : steps R (on_os (FS.WriteFile (e_flt env) (e_fs env) now p d));
  fc_Remove p : steps R (on_os (FS.Remove (e_flt env) (e_fs env) p));
  fc_Mkdir now p : steps R (on_os (FS.Mkdir (e_flt env) (e_fs env) now p));
  fc_Rename now o n : steps R (on_os (FS.Rename (e_flt env) (e_fs env) now o n));
  fc_save m c t d : steps R (on_db (SaveFileSnapshot (e_db env) m c t d));
  fc_delete p s t c : steps R (on_db (AppendDeleteSnapshot (e_db env) p s t c));
  fc_set_meta m : m_Version m = 0 → steps R (on_db (SetMeta (e_db env) m));
  fc_rename o n : starts_char o = true → steps R (on_db (RenamePathTree (e_db env) o n));
  fc_copies p t : P p → steps R (Sync.cleanupConflictCopiesForPath env policy p t);
  fc_expired t : steps R (Sync.cleanupExpiredConflictFiles env policy t);
}.

Context (FC : frame_calls).

#[local] Hint Resolve fc_trigger fc_conflict fc_range fc_cleanup
  fc_Stat fc_ReadFile fc_ListDir fc_ReadAt fc_WriteAt
  fc_SetFileSize fc_WriteFile fc_Remove fc_Mkdir fc_Rename
  fc_save fc_delete fc_expired : steps.

Lemma steps_normalized {A} p (k : string → go World status A) :
  (∀ q, normalizeProjectPath (RootOf env) p = Ok q → steps R (k q)) →
  steps R (Core.normalized env p k).
Proof.
  intros Hk w. unfold Core.normalized, go_bind, go_lift.
  destruct (normalizeProjectPath (RootOf env) p) as [q|e]; [by apply Hk|]. simpl. reflexivity.
Qed.

Lemma steps_ResolveFileHead p : steps R (ResolveFileHead env p).
Proof. unfold ResolveFileHead, read_db. steps_tac. Qed.
Lemma steps_saveFileSnapshot p e d : steps R (saveFileSnapshot env p e d).
Proof. unfold saveFileSnapshot. steps_tac. Qed.

Lemma steps_writeFileExclusive p d : steps R (writeFileExclusive env p d).
Proof.
  unfold writeFileExclusive. intros w. unfold go_bind at 1, go_lift.
  destruct (ResolvePath (RootOf env) p) as [f|e] eqn:Hf; [|simpl; reflexivity].
  revert w. fold (steps R (on_os (os_MkdirAll (e_flt env) (e_clock env "writeFileExclusive") (Dir f)) ;;!
    on_os (os_OpenCreate (e_flt env) true false (e_clock env "writeFileExclusive") f) ;;!
    catch! written := on_os (os_write (e_flt env) "write" (e_clock env "writeFileExclusive") f d) in
    match written, os_fault (e_flt env) "close" f with
    | Err writeErr, _ => go_ignore (on_os (os_Remove (e_flt env) f)) ;;! go_fail writeErr
    | Ok _, Err closeErr => go_ignore (on_os (os_Remove (e_flt env) f)) ;;! go_fail closeErr
    | Ok _, Ok _ => go_ret tt
    end)).
  apply steps_bind; [apply _|by eapply fc_mkdirs|intros _].
  apply steps_bind; [apply _|by eapply fc_create|intros _].
  apply steps_catch; [apply _|by eapply fc_write|intros r].
  pose proof (fc_remove FC _ _ Hf). steps_tac.
Qed.
#[local] Hint Resolve steps_ResolveFileHead steps_saveFileSnapshot steps_writeFileExclusive : steps.

Lemma steps_conflict_loop left n p d : steps R (writeConflictFile_loop env left n p d).
Proof. revert n. induction left as [|left IH]; intros n; simpl; steps_tac. Qed.
Lemma steps_writeConflictFile p d : steps R (writeConflictFile env p d).
Proof. apply steps_conflict_loop. Qed.
#[local] Hint Resolve steps_writeConflictFile : steps.

Lemma steps_loadVersionSnapshot p v : steps R (loadVersionSnapshot env p v).
Proof. unfold loadVersionSnapshot, read_db. steps_tac. Qed.
#[local] Hint Resolve steps_loadVersionSnapshot : steps.

Lemma steps_meta_version_hash p : steps R (Core.meta_version_hash env p).
Proof. unfold Core.meta_version_hash, read_db. steps_tac. Qed.
#[local] Hint Resolve steps_meta_version_hash : steps.

Lemma steps_list_entries d p es : steps R (Core.list_entries env d p es).
Proof. induction es as [|[name n] es IH]; simpl; steps_tac. Qed.
#[local] Hint Resolve steps_list_entries : steps.

Lemma steps_conflict_copy p b : steps R b → steps R (Core.conflict_copy env p b).
Proof. intros Hb. unfold Core.conflict_copy. steps_tac. Qed.
Lemma steps_range_data p b o d : steps R (Core.buildRangeConflictData env p b o d).
Proof. unfold Core.buildRangeConflictData. steps_tac. Qed.
Lemma steps_size_data p b s : steps R (Core.buildSetFileSizeConflictData env p b s).
Proof. unfold Core.buildSetFileSizeConflictData. steps_tac. Qed.
#[local] Hint Resolve steps_conflict_copy steps_range_data steps_size_data : steps.

Lemma steps_maybe_cleanup t : steps R (Sync.maybeCleanupExpiredConflictFiles env policy t).
Proof. unfold Sync.maybeCleanupExpiredConflictFiles. steps_tac. Qed.
#[local] Hint Resolve steps_maybe_cleanup : steps.
Lemma steps_sync_conflict p d : P p → steps R (Sync.writeConflictFile env policy p d).
Proof. intros Hp. pose proof (fc_copies FC p). unfold Sync.writeConflictFile. steps_tac. Qed.
#[local] Hint Resolve steps_sync_conflict : steps.

Lemma steps_doWriteFile p d b :
  (∀ q, normalizeProjectPath (RootOf env) p = Ok q → P q) →
  steps R (Sync.doWriteFile env policy p d b).
Proof.
  intros HP. apply steps_normalized. intros q Hq%HP. apply fc_lock; [done|].
  unfold Core.grpc. steps_tac.
Qed.
Lemma steps_WriteFileRange p o d b : steps R (Core.WriteFileRange env p o d b).
Proof.
  unfold Core.WriteFileRange. destruct (o <? 0); [by apply steps_fail|].
  apply steps_normalized. intros q _. apply fc_lock; [done|]. unfold Core.grpc. steps_tac.
Qed.
Lemma steps_SetFileSize p s b : steps R (Core.SetFileSize env p s b).
Proof.
  unfold Core.SetFileSize. destruct (s <? 0); [by apply steps_fail|].
  apply steps_normalized. intros q _. apply fc_lock; [done|]. unfold Core.grpc. steps_tac.
Qed.
Lemma steps_Delete p : steps R (Core.Delete env p).
Proof.
  apply steps_normalized. intros q _. apply fc_lock; [done|]. unfold Core.grpc, read_db. steps_tac.
Qed.
Lemma steps_Rename o n : valid_path o → steps R (Core.Rename env o n).
Proof.
  intros Ho. apply steps_normalized. intros q Hq. apply steps_normalized. intros q' _.
  case_bool_decide; [by apply steps_ret|]. apply fc_locks; [done|].
  pose proof (fc_rename FC q q' (Ho _ Hq)). unfold Core.grpc. steps_tac.
Qed.
Lemma steps_Mkdir p : steps R (Core.Mkdir env p).
Proof.
  apply steps_normalized. intros q _. apply fc_lock; [done|].
  pose proof (fc_set_meta FC (mkMeta q true 0 0 "" 0) eq_refl). unfold Core.grpc. steps_tac.
Qed.

(** Every request keeps a frame that the calls keep. *)
Lemma steps_serve_request r : valid_request r → sweeps P r → steps R (serve_request r).
Proof.
  intros Hv HP. destruct r; simpl; unfold run_only; (apply steps_bind; [apply _| |intros; by apply steps_ret]).
  - unfold Core.ListDir, Core.grpc. apply steps_normalized. steps_tac.
  - unfold Core.Stat, Core.grpc. apply steps_normalized. steps_tac.
  - unfold Core.ReadFile, Core.grpc. apply steps_normalized. steps_tac.
  - unfold Core.ReadFileRange, Core.grpc. apply steps_normalized. steps_tac.
  - apply steps_WriteFileRange.
  - apply steps_SetFileSize.
  - apply steps_Delete.
  - apply steps_Rename, Hv.
  - apply steps_Mkdir.
  - unfold Sync.GetFileMeta, read_db. apply steps_normalized. steps_tac.
  - by apply steps_doWriteFile.
  - unfold Sync.WriteFileStream. destruct broken; [by apply steps_fail|].
    destruct chunks; [by apply steps_fail|by apply steps_doWriteFile].
  - unfold Sync.ListChangedFiles, Core.grpc, read_db. steps_tac.
  - unfold VersionSvc.GetHistory, Core.grpc, read_db. steps_tac.
  - unfold VersionSvc.GetVersion, Core.grpc, read_db. steps_tac.
Qed.
End AnyFrame.
End Serve.

(** ** Frames that the file tree does not matter to *)

Section OsIndependent.
Context {WD : WorkDir} {GU : GoUnicode} {RO : RowOrder} {SS : SortSlice}
        (env : Env) (policy : Sync.ConflictCleanupPolicy).
Context {X : Type} (f : World → X) (S : X → X → Prop) `{HS : !PreOrder S}.
Hypothesis Hos : ∀ w t, f (set_os (λ _, t) w) = f w.
Hypothesis Hrest : ∀ w m c rw lc,
  f (mkWorld (w_os w) (w_db w) m c rw lc (w_held w)) = f w.
Hypothesis Hlocked : ∀ E A ps qs (m : go World E A), length ps = qs →
  steps (on_field f S) m →
  steps (on_field f S) (go_modify (set_held (λ held, ps ++ held)) ;;!
                        go_defer (go_modify (set_held (drop qs))) m).
Hypothesis Hsave : ∀ m c t d, steps (on_field f S) (on_db (SaveFileSnapshot (e_db env) m c t d)).
Hypothesis Hdelete : ∀ p s t c, steps (on_field f S) (on_db (AppendDeleteSnapshot (e_db env) p s t c)).
Hypothesis Hset_meta : ∀ m, m_Version m = 0 → steps (on_field f S) (on_db (SetMeta (e_db env) m)).
Hypothesis Hrename : ∀ o n, starts_char o = true →
  steps (on_field f S) (on_db (RenamePathTree (e_db env) o n)).

Lemma os_frame {E A} (m : go OsState E A) : steps (on_field f S) (on_os m).
Proof. by apply on_os_frame. Qed.
#[local] Hint Resolve os_frame : steps.

Lemma os_independent_frame P : frame_calls env policy (on_field f S) P.
Proof.
  split; try (intros; apply os_frame).
  1-4: intros; apply modify_frame; [apply _|]; intros w; apply Hrest.
  - intros E A p m Hm. apply (Hlocked _ _ [p] 1); done.
  - intros E A ps m Hm. apply (Hlocked _ _ (rev _)); [by rewrite length_rev|done].
  - apply Hsave.
  - apply Hdelete.
  - apply Hset_meta.
  - apply Hrename.
  - intros p t _. unfold Sync.cleanupConflictCopiesForPath.
    assert (∀ now i cs, steps (on_field f S) (Sync.remove_excess env policy now i cs)) as He.
    { intros now i cs. revert i. induction cs as [|c cs IH]; intros i; simpl; steps_tac. }
    steps_tac.
  - intros t. unfold Sync.cleanupExpiredConflictFiles. destruct (_ <=? _); [by apply steps_ret, _|].
    apply steps_WalkDir; [apply _|]. intros p d e. unfold Sync.expired_conflict_step. steps_tac.
Qed.
End OsIndependent.

(** ** Requests move the tables by store operations *)

Section StoreRefinement.
Context {WD : WorkDir} {GU : GoUnicode} {RO : RowOrder} {SS : SortSlice}
        (env : Env) (policy : Sync.ConflictCleanupPolicy).
Hypothesis Hmeta : meta_table_exists (e_db env).

Lemma store_frame P : frame_calls env policy (on_field w_db (rtc store_step)) P.
Proof.
  assert (∀ E A (m : go DbState E A), (∀ db, store_step db (m db).1) →
    steps (on_field w_db (rtc store_step)) (on_db m)) as Hdb.
  { intros E A m Hm. apply on_db_steps. intros db. apply rtc_once, Hm. }
  apply os_independent_frame; try apply _; try done.
  - intros E A ps qs m _ Hm.
    apply steps_bind; [apply _|apply modify_frame; [apply _|done]|]. intros _.
    apply steps_defer; [apply _|apply modify_frame; [apply _|done]|done].
  - intros. apply Hdb. intros db. eapply step_write; [done|]. constructor.
  - intros. apply Hdb. intros db. eapply step_write; [done|]. constructor.
  - intros. apply Hdb. intros db. eapply step_write; [done|]. by constructor.
  - intros. apply Hdb. intros db. by eapply step_rename.
Qed.

(** A handler gives back the locks it takes. *)
Lemma held_frame P : frame_calls env policy (on_field w_held eq) P.
Proof.
  apply os_independent_frame; try apply _; try done.
  - intros E A ps qs m Hlen Hm w. unfold on_field, go_bind, go_modify, go_defer. simpl.
    specialize (Hm (set_held (λ held, ps ++ held) w)). unfold on_field in Hm.
    destruct (m _) as [w1 r]. simpl in *. rewrite <- Hm. subst qs. by rewrite drop_app_length.
  - intros. by apply on_db_frame; [apply _|].
  - intros. by apply on_db_frame; [apply _|].
  - intros. by apply on_db_frame; [apply _|].
  - intros. by apply on_db_frame; [apply _|].
Qed.
End StoreRefinement.

(** C8: serving any request of the core, sync and version services, whatever
    fails in it, changes the tables only by operations of the version store, so
    it keeps the store's invariant; and it releases every path lock it took. *)
Theorem serve_request_safe `{WorkDir} `{GoUnicode} `{RowOrder} `{SortSlice} (env : Env)
    (policy : Sync.ConflictCleanupPolicy) (r : Request) (w w' : World) (res : result status unit) :
  meta_table_exists (e_db env) → valid_request env r →
  serve_request env policy r w = (w', res) →
  rtc store_step (w_db w) (w_db w') ∧
  (db_wf (w_db w) → db_headed (w_db w) → db_wf (w_db w') ∧ db_headed (w_db w')) ∧
  w_held w' = w_held w.
Proof.
  intros Hm Hv Hs.
  pose proof (steps_serve_request env policy _ _ (store_frame env policy Hm _) r Hv
    (sweeps_any env r) w) as HS.
  pose proof (steps_serve_request env policy _ _ (held_frame env policy _) r Hv
    (sweeps_any env r) w) as HL.
  rewrite Hs in HS, HL. unfold on_field in *. simpl in *. split_and!; [done| |done].
  clear -HS. induction HS as [|db0 db1 db2 Hstep _ IH]; [done|].
  intros Hwf Hhd. destruct (store_step_wf _ _ Hstep Hwf Hhd). by apply IH.
Qed.

(** A world with an empty root directory, and an environment without faults. *)
#[local] Existing Instance ascii_only_unicode.
Definition ex_cwd : WorkDir := Ok "/".
#[local] Existing Instance ex_cwd.

Definition ex_os : OsState := {[ ["srv"] := DirNode 0 ]}.
Definition ex_world : World := mkWorld ex_os empty_db 0 0 [] None [].
Definition ex_env : Env := {|
  e_fs := {| RootDir := "/srv" |}; e_flt := no_faults; e_dir_size := 4096;
  e_db := no_db_faults; e_clock := λ _, 1700000000000000000;
  e_suffix := λ n, ("20231114-221320", "0a") |}.

(** The world after [Mkdir("a")]. *)
Definition ex_request : Request := RqMkdir "a".
Definition ex_after : World := (serve_request ex_env Sync.default_policy ex_request ex_world).1.

Lemma serve_request_safe_witness :
  t_meta (w_db ex_after) !! "a" = Some (mkMetaRow true 0 0 "" 0) ∧
  rtc store_step (w_db ex_world) (w_db ex_after).
Proof.
  split; [vm_compute; reflexivity|].
  apply (serve_request_safe ex_env Sync.default_policy ex_request ex_world ex_after (Ok tt)).
  - apply no_db_faults_meta_table.
  - exact I.
  - vm_compute. reflexivity.
Defined.
