(* ===== verification/Containment.v ===== *)
(** * Requests stay below the project root

    No request of the file services creates, changes or removes anything
    outside the directory it serves. *)

From S2P Require Import Prelude GoStrings FsPath OsFs Database DatabaseSpec World Mutations Frames Services.
Import Mutation.
Open Scope string_scope.
Open Scope Z_scope.
Open Scope list_scope.

(** The directories above the root exist, and names in the tree are plain. *)
Record anchored (rs : list string) (t : OsState) : Prop := {
  anc_dirs pre : pre `prefix_of` rs → pre ≠ rs → ∃ mt, node_at t pre = Some (DirNode mt);
  anc_plain k n : t !! k = Some n → Forall plain k;
}.

(** [t'] differs from [t] at and below the root only. *)
Definition contained (rs : list string) (t t' : OsState) : Prop :=
  anchored rs t → anchored rs t' ∧ ∀ k, ¬ rs `prefix_of` k → t' !! k = t !! k.

#[export] Instance contained_preorder rs : PreOrder (contained rs).
Proof.
  split.
  - by intros t Ht.
  - intros a b c H1 H2 Ha. destruct (H1 Ha) as [Hb E1]. destruct (H2 Hb) as [Hc E2].
    split; [done|]. intros k Hk. rewrite E2, E1; done.
Qed.

Section Contained.
Context (rs : list string).

(** A change of one entry at or below the root. *)
Lemma contained_alter t k (o : option node) :
  rs `prefix_of` k → Forall plain k → contained rs t (partial_alter (λ _, o) k t).
Proof.
  intros Hk Hpl [Hd Hp]. split.
  - split.
    + intros pre Hpre Hne. destruct (Hd pre Hpre Hne) as [mt Hmt]. exists mt.
      unfold node_at in *. rewrite lookup_partial_alter_ne; [done|].
      intros ->. apply Hne. by apply (anti_symm prefix).
    + intros k' n. destruct (decide (k = k')) as [<-|Hne]; [done|].
      rewrite lookup_partial_alter_ne by done. apply Hp.
  - intros k' Hk'. rewrite lookup_partial_alter_ne; [done|]. by intros ->.
Qed.

Lemma contained_insert t k n :
  rs `prefix_of` k → Forall plain k → contained rs t (<[k := n]> t).
Proof. apply (contained_alter t k (Some n)). Qed.
Lemma contained_delete t k :
  rs `prefix_of` k → Forall plain k → contained rs t (delete k t).
Proof. apply (contained_alter t k None). Qed.

Lemma moved_key_prefix old new k :
  rs `prefix_of` old → rs `prefix_of` new →
  rs `prefix_of` moved_key old new k ↔ rs `prefix_of` k.
Proof.
  intros Ho Hn. unfold moved_key. destruct (decide (old `prefix_of` k)) as [Hk|]; [|done].
  split; intros _; [by trans old|by apply prefix_app_r].
Qed.

Lemma lookup_list_to_map_map (g : list string → list string) (l : list (list string * node)) k :
  (∀ q, g q = k ↔ q = k) →
  (list_to_map (map (λ e, (g e.1, e.2)) l) : OsState) !! k = (list_to_map l : OsState) !! k.
Proof.
  intros Hg. induction l as [|[q n] l IH]; [done|]. simpl.
  destruct (decide (q = k)) as [->|Hne].
  - rewrite (proj2 (Hg k) eq_refl). by rewrite !lookup_insert_eq.
  - rewrite !lookup_insert_ne; [done|done|]. by rewrite Hg.
Qed.

Lemma contained_move t old new :
  rs `prefix_of` old → rs `prefix_of` new → Forall plain new →
  contained rs t (move_tree old new t).
Proof.
  intros Ho Hn Hpl [Hd Hp].
  assert (∀ k, ¬ rs `prefix_of` k → move_tree old new t !! k = t !! k) as Hout.
  { intros k Hk. unfold move_tree.
    rewrite (lookup_list_to_map_map (moved_key old new)); [by rewrite list_to_map_to_list|].
    intros q. split; [|intros ->].
    - intros E. destruct (decide (old `prefix_of` q)) as [Hq|Hq].
      + destruct Hk. rewrite <- E. apply moved_key_prefix; [done..|]. by trans old.
      + unfold moved_key in E. by rewrite decide_False in E.
    - unfold moved_key. rewrite decide_False; [done|]. intros Hq. apply Hk. by trans old. }
  split; [split|done].
  - intros pre Hpre Hne. destruct (Hd pre Hpre Hne) as [mt Hmt]. exists mt.
    unfold node_at in *. rewrite Hout; [done|]. intros Hq. apply Hne. by apply (anti_symm prefix).
  - intros k n Hk. unfold move_tree in Hk. apply elem_of_list_to_map_2 in Hk.
    apply list_elem_of_fmap in Hk as ([q m] & [= -> ->] & Hq).
    apply elem_of_map_to_list in Hq. apply Hp in Hq. unfold moved_key. simpl.
    destruct (decide (old `prefix_of` q)); [|done]. apply Forall_app. split; [done|].
    by apply Forall_drop.
Qed.

(** ** System calls on paths at or below the root *)

Context (flt : Faults).

Lemma mkdirs_contained now pre rest :
  Forall plain (pre ++ rest) →
  ((pre ++ rest) `prefix_of` rs ∧ pre ++ rest ≠ rs ∨ rs `prefix_of` (pre ++ rest)) →
  steps (contained rs) (mkdirs flt now pre rest).
Proof.
  revert pre. induction rest as [|c rest IH]; intros pre Hpl Hcmp t; simpl.
  { reflexivity. }
  assert (pre ++ c :: rest = (pre ++ [c]) ++ rest) as Hassoc by (by rewrite <- app_assoc).
  rewrite Hassoc in Hpl, Hcmp. specialize (IH _ Hpl Hcmp).
  destruct (node_at t (pre ++ [c])) as [[mt|]|] eqn:En; simpl; [apply IH|reflexivity|].
  destruct (flt _ _); simpl; [reflexivity|].
  destruct (decide (rs `prefix_of` (pre ++ [c]))) as [Hin|Hnin].
  - trans (<[pre ++ [c] := DirNode now]> t); [|apply IH].
    apply contained_insert; [done|]. by apply Forall_app in Hpl as [? _].
  - intros Ht. assert ((pre ++ [c]) `prefix_of` rs) as Hpre.
    { destruct Hcmp as [[Hcmp _]|Hcmp].
      - trans ((pre ++ [c]) ++ rest); [by eexists|done].
      - destruct (prefix_weak_total (pre ++ [c]) rs ((pre ++ [c]) ++ rest)); [by eexists|done..]. }
    destruct (anc_dirs _ _ Ht _ Hpre) as [mt Hmt].
    + intros E. apply Hnin. by rewrite E.
    + congruence.
Qed.

(** [f] is a resolved client path. *)
Definition resolved (f : string) : Prop := ∃ es, Forall plain (rs ++ es) ∧ f = abs_path (rs ++ es).

Lemma resolved_key f :
  resolved f → rs `prefix_of` path_key f ∧ Forall plain (path_key f).
Proof.
  intros (es & Hpl & ->). rewrite path_key_abs_path by done. split; [by eexists|done].
Qed.

Lemma MkdirAll_contained now f : resolved f → steps (contained rs) (os_MkdirAll flt now f).
Proof. intros [H1 H2]%resolved_key. apply mkdirs_contained; simpl; auto. Qed.

Lemma MkdirAll_Dir_contained now f : resolved f → steps (contained rs) (os_MkdirAll flt now (Dir f)).
Proof.
  intros (es & Hpl & ->). unfold os_MkdirAll.
  destruct (decide (rs ++ es = [])) as [E|Hne].
  { rewrite E in *. apply app_eq_nil in E as [-> ->]. change (path_key (Dir (abs_path []))) with (@nil string).
    intros t. simpl. reflexivity. }
  destruct (exists_last Hne) as (ks & c & E). rewrite E in *.
  apply Forall_app in Hpl as [Hks Hc]. apply Forall_cons in Hc as [Hc _].
  rewrite Dir_abs_path, path_key_abs_path by done.
  apply mkdirs_contained; simpl; [done|].
  destruct (decide (es = [])) as [->|Hes]; [|destruct (exists_last Hes) as (es' & x & ->)].
  - left. rewrite app_nil_r in E. rewrite E. split; [by eexists|].
    intros H. apply (f_equal length) in H. rewrite length_app in H. simpl in H. lia.
  - right. rewrite app_assoc in E. apply app_inj_tail in E as [<- _]. by eexists.
Qed.
End Contained.

Section Calls.
Context (rs : list string) (flt : Faults).

Lemma OpenCreate_contained excl trunc now f :
  resolved rs f → steps (contained rs) (os_OpenCreate flt excl trunc now f).
Proof.
  intros [H1 H2]%resolved_key t. unfold os_OpenCreate.
  repeat case_match; simpl; try reflexivity; by apply contained_insert.
Qed.
Lemma write_contained op now f d : resolved rs f → steps (contained rs) (os_write flt op now f d).
Proof.
  intros [H1 H2]%resolved_key t. unfold os_write.
  repeat case_match; simpl; try reflexivity; by apply contained_insert.
Qed.
Lemma Remove_contained f : resolved rs f → steps (contained rs) (os_Remove flt f).
Proof.
  intros [H1 H2]%resolved_key t. unfold os_Remove.
  repeat case_match; simpl; try reflexivity; by apply contained_delete.
Qed.
Lemma Rename_contained o n :
  resolved rs o → resolved rs n → steps (contained rs) (os_Rename flt o n).
Proof.
  intros [H1 H2]%resolved_key [H3 H4]%resolved_key t. unfold os_Rename.
  repeat case_match; simpl; try reflexivity;
    first [by apply contained_move |
           trans (delete (path_key o) t); [by apply contained_delete|by apply contained_insert]].
Qed.
End Calls.

(** ** The project file system *)

Section ProjectFs.
Context `{WorkDir} (rs : list string) (flt : Faults) (dir_size : Z) (f : FileSystem)
  (Hroot : root_at (RootDir f) rs).

Lemma ResolvePath_resolved rel p : ResolvePath (RootDir f) rel = Ok p → resolved rs p.
Proof.
  rewrite (ResolvePath_eq _ rs) by done.
  destruct (NormalizeRelativePath rel) as [q|e] eqn:E; [|done]. intros [= <-].
  exists (rel_elems q). split; [|done]. apply Forall_app. split; [apply Hroot|].
  by apply rel_elems_plain, (NormalizeRelativePath_Ok rel).
Qed.

(** A call on a path after it is resolved. *)
Lemma resolve_then {A} (rel : string) (k : string → go OsState goerr A) :
  (∀ p, resolved rs p → steps (contained rs) (k p)) →
  steps (contained rs) (let! p := go_lift (FS.resolvePath f rel) in k p).
Proof.
  intros Hk t. unfold go_bind, go_lift, FS.resolvePath.
  destruct (ResolvePath (RootDir f) rel) as [p|e] eqn:E; [|simpl; reflexivity].
  by apply Hk, (ResolvePath_resolved rel).
Qed.

#[local] Hint Resolve MkdirAll_contained MkdirAll_Dir_contained OpenCreate_contained write_contained
  Remove_contained Rename_contained : steps.

Lemma WriteFile_contained now rel d : steps (contained rs) (FS.WriteFile flt f now rel d).
Proof. apply resolve_then. intros p Hp. unfold os_WriteFile. steps_tac. Qed.
Lemma WriteAt_contained now rel o d : steps (contained rs) (FS.WriteAt flt f now rel o d).
Proof.
  unfold FS.WriteAt. destruct (o <? 0); [apply steps_fail, _|]. apply resolve_then.
  intros p Hp. steps_tac.
Qed.
Lemma SetFileSize_contained now rel s : steps (contained rs) (FS.SetFileSize flt f now rel s).
Proof.
  unfold FS.SetFileSize. destruct (s <? 0); [apply steps_fail, _|]. apply resolve_then.
  intros p Hp. steps_tac.
Qed.
Lemma FSRemove_contained rel : steps (contained rs) (FS.Remove flt f rel).
Proof. apply resolve_then. intros p Hp. steps_tac. Qed.
Lemma FSMkdir_contained now rel : steps (contained rs) (FS.Mkdir flt f now rel).
Proof. apply resolve_then. intros p Hp. steps_tac. Qed.
Lemma FSRename_contained now o n : steps (contained rs) (FS.Rename flt f now o n).
Proof. apply resolve_then. intros p Hp. apply resolve_then. intros q Hq. steps_tac. Qed.
Lemma ListDir_contained rel : steps (contained rs) (FS.ListDir flt f rel).
Proof. apply resolve_then. steps_tac. Qed.
Lemma Stat_contained rel : steps (contained rs) (FS.Stat flt dir_size f rel).
Proof. apply resolve_then. steps_tac. Qed.
Lemma ReadFile_contained rel : steps (contained rs) (FS.ReadFile flt f rel).
Proof. apply resolve_then. steps_tac. Qed.
Lemma ReadAt_contained rel o l : steps (contained rs) (FS.ReadAt flt dir_size f rel o l).
Proof.
  unfold FS.ReadAt. destruct (o <? 0); [apply steps_fail, _|]. apply resolve_then. steps_tac.
Qed.
End ProjectFs.

(** ** The conflict sweeps *)

Section Sweeps.
Context {WD : WorkDir} {GU : GoUnicode} {RO : RowOrder} {SS : SortSlice}
        (env : Env) (policy : Sync.ConflictCleanupPolicy) (rs : list string)
        (Hrs : Forall plain rs) (Hroot : RootOf env = abs_path rs).

Abbreviation R := (on_field w_os (contained rs)).

Lemma sweep_root_at : root_at (RootDir (e_fs env)) rs.
Proof. unfold RootOf in Hroot. rewrite Hroot. by apply root_at_abs_path. Qed.

Lemma on_Remove f : resolved rs f → steps R (on_os (os_Remove (e_flt env) f)).
Proof. intros. by apply on_os_steps, Remove_contained. Qed.

(** The entries of a directory of an anchored tree have plain names. *)
Lemma children_plain t k name n :
  anchored rs t → (name, n) ∈ children k t → plain name.
Proof.
  intros Ht Hin. unfold children, sort_by in Hin. rewrite merge_sort_Permutation in Hin.
  apply list_elem_of_omap in Hin as ([q m] & Hq & Hc). apply elem_of_map_to_list in Hq.
  unfold child_of in Hc. simpl in Hc. destruct (last q) as [x|] eqn:El; [|done].
  case_decide; [|done]. injection Hc as -> ->. apply (anc_plain _ _ Ht) in Hq. subst q.
  apply Forall_app in Hq as [_ Hq]. by apply Forall_cons in Hq as [? _].
Qed.

Lemma ReadDir_plain p t entries e :
  anchored rs t → os_ReadDir (e_flt env) p t = Ok entries → e ∈ entries → plain e.1.
Proof.
  intros Ha Er Hin. unfold os_ReadDir in Er. destruct (os_fault _ _ _); [|done]. simpl in Er.
  destruct (os_lookup _ _) as [[]|]; [|done..]. injection Er as <-. destruct e as [name n].
  by eapply children_plain.
Qed.

Lemma join_resolved f name :
  resolved rs f → plain name → resolved rs (JoinPath f name).
Proof.
  intros (es & Hpl & ->) Hn. exists (es ++ [name]). rewrite app_assoc. split.
  - apply Forall_app. split; [done|]. by constructor.
  - apply (Clean_JoinPath (rs ++ es) [name]); [done..|]. by constructor.
Qed.

Lemma remove_excess_contained now i cs :
  Forall (λ c, resolved rs (Sync.c_fullPath c)) cs →
  steps R (Sync.remove_excess env policy now i cs).
Proof.
  intros Hcs. revert i. induction Hcs as [|c cs Hc _ IH]; intros i; simpl; [apply steps_ret, _|].
  pose proof (on_Remove _ Hc). steps_tac.
Qed.

Lemma copies_contained p now :
  canonical_rel p → p ≠ "." → steps R (Sync.cleanupConflictCopiesForPath env policy p now).
Proof.
  intros Hp Hne w. unfold Sync.cleanupConflictCopiesForPath, go_bind at 1, go_lift.
  rewrite Hroot, (ResolvePath_canonical _ rs) by (try done; by apply root_at_abs_path).
  destruct Hp as [|(ws & Hws & Hpl & ->)]; [done|]. rewrite rel_elems_Join by done.
  destruct (exists_last Hws) as (ws' & x & ->).
  apply Forall_app in Hpl as [Hpl Hx]. apply Forall_cons in Hx as [Hx _].
  assert (Forall plain (rs ++ ws')) as Hd by (by apply Forall_app).
  rewrite app_assoc, Dir_abs_path by done. unfold go_catch, go_read.
  destruct (os_ReadDir _ _ _) as [entries|err] eqn:Er.
  2:{ destruct (errors_Is _ _); simpl; unfold on_field; reflexivity. }
  unfold go_bind, go_get. intros Ha.
  apply remove_excess_contained; [|done].
  rewrite sort_slice_perm. apply Forall_forall. intros c Hc.
  apply list_elem_of_omap in Hc as ([name n] & Hin & Hc).
  assert (plain name) as Hname.
  { exact (ReadDir_plain _ _ _ _ Ha Er Hin). }
  unfold Sync.conflict_candidate in Hc. destruct (is_dir n); [done|].
  destruct (negb _); [done|]. destruct (os_Lstat _ _ _ _); [|done]. injection Hc as <-.
  simpl. apply join_resolved; [|done]. by exists ws'.
Qed.

Lemma expired_contained now : steps R (Sync.cleanupExpiredConflictFiles env policy now).
Proof.
  unfold Sync.cleanupExpiredConflictFiles. destruct (_ <=? _); [apply steps_ret, _|].
  assert (∀ p d e, resolved rs p → steps R (Sync.expired_conflict_step env policy now p d e)) as Hfn.
  { intros p d e Hp. pose proof (on_Remove p Hp). unfold Sync.expired_conflict_step. steps_tac. }
  assert (resolved rs (RootOf env)) as Hr.
  { exists []. by rewrite app_nil_r. }
  assert (PreOrder (λ w w' : World, ∀ k, ¬ rs `prefix_of` k → w_os w' !! k = w_os w !! k)) as Hpre.
  { split; [done|]. intros a b c E1 E2 k Hk. by rewrite E2, E1. }
  apply (WalkDir_guarded _ _ _ _ (λ w, anchored rs (w_os w))
           (λ w w', ∀ k, ¬ rs `prefix_of` k → w_os w' !! k = w_os w !! k)
           (HS := Hpre) (λ p _, resolved rs p)); [done| |by intros; apply Hfn|done].
  - intros w p d entries e Ha Hp Er Hin. apply join_resolved; [done|]. by eapply ReadDir_plain.
Qed.

(** ** All requests *)

Lemma os_unrelated {E A} (m : go DbState E A) : steps R (on_db m).
Proof. by apply on_db_frame; [apply _|]. Qed.

Lemma containment_frame :
  frame_calls env policy R (λ p, canonical_rel p ∧ p ≠ ".").
Proof.
  pose proof sweep_root_at as Hr.
  split; try (intros; apply os_unrelated).
  1-4: intros; by apply modify_frame; [apply _|].
  - intros E A p m Hm.
    apply steps_bind; [apply _|by apply modify_frame; [apply _|]|]. intros _.
    apply steps_defer; [apply _|by apply modify_frame; [apply _|]|done].
  - intros E A ps m Hm.
    apply steps_bind; [apply _|by apply modify_frame; [apply _|]|]. intros _.
    apply steps_defer; [apply _|by apply modify_frame; [apply _|]|done].
  - intros. eapply on_os_steps, MkdirAll_Dir_contained, (ResolvePath_resolved rs (e_fs env)); eauto.
  - intros. eapply on_os_steps, OpenCreate_contained, (ResolvePath_resolved rs (e_fs env)); eauto.
  - intros. eapply on_os_steps, write_contained, (ResolvePath_resolved rs (e_fs env)); eauto.
  - intros. eapply on_Remove, (ResolvePath_resolved rs (e_fs env)); eauto.
  - intros. by apply on_os_steps, Stat_contained.
  - intros. by apply on_os_steps, ReadFile_contained.
  - intros. by apply on_os_steps, ListDir_contained.
  - intros. by apply on_os_steps, ReadAt_contained.
  - intros. by apply on_os_steps, WriteAt_contained.
  - intros. by apply on_os_steps, SetFileSize_contained.
  - intros. by apply on_os_steps, WriteFile_contained.
  - intros. by apply on_os_steps, FSRemove_contained.
  - intros. by apply on_os_steps, FSMkdir_contained.
  - intros. by apply on_os_steps, FSRename_contained.
  - intros p t [Hp Hne]. by apply copies_contained.
  - intros. apply expired_contained.
Qed.
End Sweeps.


Section Examples.
#[local] Existing Instance ascii_only_unicode.
#[local] Existing Instance ex_cwd.

Lemma ex_anchored : anchored ["srv"] ex_os.
Proof.
  split.
  - intros pre [l Hl] Hne. destruct pre as [|x pre]; [by exists 0|].
    destruct pre; simpl in Hl; [|done]. injection Hl as <- _. done.
  - intros k n. unfold ex_os. rewrite lookup_singleton_Some. intros [<- _].
    constructor; [by repeat split|constructor].
Qed.


(** A root directory without entries, next to a file of the parent directory
    whose name looks like a conflict copy of the root. *)
Definition sibling_world : World :=
  mkWorld {[ ["srv"] := DirNode 0; ["srv.roodox-conflict-notes"] := FileNode [Byte.x61] 0 ]}
    empty_db 0 0 [] None [].
Definition deleted_root : World := (Core.Delete ex_env "." sibling_world).1.
End Examples.

(** the exception is real.  [Delete(".")] removes an empty project root
    and records it as a deleted file; a later conflicting [WriteFile(".")] then
    sweeps the parent directory of the root for conflict copies of the root,
    and removes a file outside the project. *)
Theorem root_write_sweeps_siblings :
  let env := ex_env in
  let '(w1, deleted) := @Core.Delete ex_cwd ascii_only_unicode map_order env "." sibling_world in
  let '(w2, written) :=
    @Sync.WriteFile ex_cwd ascii_only_unicode map_order merge_sort_slice env Sync.default_policy
      "." (Some [Byte.x62]) 7 w1 in
  deleted = Ok tt ∧ w_os w1 !! ["srv"] = None ∧
  (∃ resp, written = Ok resp ∧ Sync.wf_Conflicted resp = true) ∧
  is_Some (w_os w1 !! ["srv.roodox-conflict-notes"]) ∧
  w_os w2 !! ["srv.roodox-conflict-notes"] = None.
Proof. vm_compute. split_and!; eauto. Qed.
