(* ===== verification/Writes.v ===== *)
(** * What writes, conflicts and ranges do

    The outcome of [WriteFile] on an accepted and on a stale write, the content
    that range writes and resizes produce, and the cases where the code loses
    data. *)

From S2P Require Import Prelude GoStrings FsPath OsFs Database DatabaseSpec StoreTheorems Hash World Mutations Frames Services Containment.
Import Mutation.
Open Scope string_scope.
Open Scope Z_scope.
Open Scope list_scope.

(** ** Writing a file on a tree without faults *)

(** [k] can be created or replaced as a file: no file on the way to it, and no
    directory at it. *)
Record writable (t : OsState) (k : list string) : Prop := {
  wr_dirs pre : pre `prefix_of` k → pre ≠ k → ∀ c mt, node_at t pre ≠ Some (FileNode c mt);
  wr_file mt : node_at t k ≠ Some (DirNode mt);
}.

Lemma mkdirs_ok now pre rest t mt0 :
  node_at t pre = Some (DirNode mt0) →
  (∀ q, q `prefix_of` rest → ∀ c mt, node_at t (pre ++ q) ≠ Some (FileNode c mt)) →
  ∃ t' mt, mkdirs no_faults now pre rest t = (t', Ok tt) ∧
    walk t' pre rest = Ok (DirNode mt) ∧
    (∀ k, is_Some (node_at t k) → node_at t' k = node_at t k) ∧
    (∀ k, ¬ k `prefix_of` (pre ++ rest) → t' !! k = t !! k).
Proof.
  revert pre t mt0. induction rest as [|c rest IH]; intros pre t mt0 Hpre Hno; simpl.
  { exists t, mt0. rewrite Hpre. done. }
  assert (pre ++ c :: rest = (pre ++ [c]) ++ rest) as Hassoc by (by rewrite <- app_assoc).
  assert (∀ q, q `prefix_of` rest → ∀ x mt, node_at t ((pre ++ [c]) ++ q) ≠ Some (FileNode x mt))
    as Hno'.
  { intros q [l Hq] x mt. rewrite <- app_assoc. apply (Hno (c :: q)). exists l. by rewrite Hq. }
  assert (pre ++ [c] ≠ []) as Hne by (by destruct pre).
  assert (pre ++ [c] ≠ pre) as Hne2.
  { intros E. apply (f_equal length) in E. rewrite length_app in E. simpl in E. lia. }
  destruct (node_at t (pre ++ [c])) as [[mt1|x mt1]|] eqn:En.
  - destruct (IH _ _ _ En Hno') as (t' & mt & Hm & Hw & Hkeep & Hout).
    exists t', mt. rewrite Hkeep by eauto. rewrite Hpre, Hassoc. split_and!; [done|done|done|done].
  - exfalso. by apply (Hno [c] ltac:(by eexists) x mt1).
  - simpl.
    assert (∀ k, k ≠ pre ++ [c] → node_at (<[pre ++ [c] := DirNode now]> t) k = node_at t k) as Hins.
    { intros k Hk. by apply node_at_insert_ne. }
    destruct (IH (pre ++ [c]) (<[pre ++ [c] := DirNode now]> t) now) as (t' & mt & Hm & Hw & Hkeep & Hout).
    + apply node_at_insert_eq.
    + intros q Hq x mt. destruct (decide (q = [])) as [->|Hqne].
      * rewrite app_nil_r, node_at_insert_eq. done.
      * rewrite Hins; [by apply Hno'|]. intros E. apply Hqne.
        apply (app_inv_head (pre ++ [c])). by rewrite app_nil_r.
    + assert (∀ k, is_Some (node_at t k) → node_at t' k = node_at t k) as Hkeep'.
      { intros k Hk. assert (k ≠ pre ++ [c]) by (intros ->; rewrite En in Hk; by destruct Hk).
        rewrite Hkeep; rewrite Hins by done; done. }
      exists t', mt. split_and!; [done| |done|].
      * rewrite Hkeep' by (rewrite Hpre; eauto). by rewrite Hpre.
      * intros k Hk. rewrite Hassoc in Hk. rewrite Hout by done.
        rewrite lookup_insert_ne; [done|]. intros <-. apply Hk. by eexists.
Qed.

(** The tree after a file is written: some directories may be new. *)
Record written (t t' : OsState) (k : list string) (d : bytes) (now : Z) : Prop := {
  wt_file : os_lookup t' k = Ok (FileNode d now);
  wt_keep q : q ≠ k → is_Some (node_at t q) → node_at t' q = node_at t q;
}.

Lemma prefix_removelast {A} (q k : list A) : k ≠ [] → q `prefix_of` removelast k → q `prefix_of` k ∧ q ≠ k.
Proof.
  intros Hne Hq. destruct (exists_last Hne) as (l & x & ->). rewrite removelast_last in Hq.
  split; [by apply prefix_app_r|]. intros ->. apply prefix_length in Hq.
  rewrite length_app in Hq. simpl in Hq. lia.
Qed.

Lemma mkdirs_parent now t k :
  k ≠ [] → writable t k →
  ∃ t' mt, mkdirs no_faults now [] (removelast k) t = (t', Ok tt) ∧
    os_lookup t' (removelast k) = Ok (DirNode mt) ∧ node_at t' k = node_at t k ∧
    (∀ q, is_Some (node_at t q) → node_at t' q = node_at t q).
Proof.
  intros Hne [Hd Hf]. destruct (mkdirs_ok now [] (removelast k) t) with (mt0 := 
      match node_at t [] with Some (DirNode mt) => mt | _ => 0 end) as (t' & mt & H1 & H2 & H3 & H4).
  - unfold node_at. destruct (t !! []) as [[]|] eqn:E; [done| |done].
    exfalso. eapply (Hd []); [by exists k|by intros <-|]. unfold node_at. by rewrite E.
  - intros q Hq c m. destruct (prefix_removelast q k Hne Hq). by apply Hd.
  - exists t', mt. split_and!; [done..| |done].
    unfold node_at. rewrite H4; [done|]. simpl. by apply prefix_removelast_not.
Qed.

Lemma os_lookup_None t k :
  k ≠ [] → (∃ mt, os_lookup t (removelast k) = Ok (DirNode mt)) →
  node_at t k = None → os_lookup t k = Err ENOENT.
Proof.
  intros Hne [mt Hp] Hn. destruct (exists_last Hne) as (l & x & ->).
  rewrite removelast_last in Hp. unfold os_lookup in *. rewrite walk_app by done.
  rewrite Hp. simpl. rewrite (os_lookup_Ok_node t l _ Hp), Hn. done.
Qed.

Lemma os_lookup_Some t k n :
  k ≠ [] → (∃ mt, os_lookup t (removelast k) = Ok (DirNode mt)) →
  node_at t k = Some n → os_lookup t k = Ok n.
Proof.
  intros Hne [mt Hp] Hn. destruct (exists_last Hne) as (l & x & ->).
  rewrite removelast_last in Hp. unfold os_lookup in *. rewrite walk_app by done.
  rewrite Hp. simpl. rewrite (os_lookup_Ok_node t l _ Hp), Hn. done.
Qed.

Lemma WriteFile_written now ks d t :
  Forall plain ks → ks ≠ [] → writable t ks →
  ∃ t', (let! _ := os_MkdirAll no_faults now (Dir (abs_path ks)) in
         os_WriteFile no_faults now (abs_path ks) d) t = (t', Ok tt) ∧ written t t' ks d now.
Proof.
  intros Hpl Hne Hw. destruct (mkdirs_parent now t ks Hne Hw) as (t1 & mt & H1 & H2 & H3 & H4).
  destruct (exists_last Hne) as (l & x & E). 
  assert (path_key (Dir (abs_path ks)) = removelast ks) as Hdir.
  { rewrite E in Hpl |- *. apply Forall_app in Hpl as [Hl Hx]. apply Forall_cons in Hx as [Hx _].
    by rewrite Dir_abs_path, path_key_abs_path, removelast_last. }
  unfold go_bind at 1, os_MkdirAll. rewrite Hdir, H1.
  assert (∀ c m, written t (<[ks := FileNode d now]> (<[ks := FileNode c m]> t1)) ks d now) as Hwr.
  { intros c m. rewrite insert_insert_eq. split.
    - by eapply os_lookup_insert_file.
    - intros q Hq Hs. rewrite node_at_insert_ne by done. by apply H4. }
  unfold os_WriteFile, os_OpenCreate, os_write, go_bind. simpl. rewrite path_key_abs_path by done.
  destruct (node_at t ks) as [[m|c m]|] eqn:En.
  - by destruct (wr_file _ _ Hw m).
  - rewrite (os_lookup_Some t1 ks (FileNode c m)) by eauto. eauto.
  - rewrite (os_lookup_None t1 ks) by eauto. rewrite H2. eauto.
Qed.

(** ** Reads leave the world alone *)

Lemma on_os_read {E A} (m : go OsState E A) : steps eq m → steps eq (on_os m).
Proof.
  intros Hm w. unfold on_os. specialize (Hm (w_os w)). destruct (m (w_os w)) as [t r].
  simpl in *. subst t. by destruct w.
Qed.

Section Reads.
Context {WD : WorkDir} {GU : GoUnicode} {RO : RowOrder} (env : Env).

Lemma fs_Stat_reads p : steps eq (fs_Stat env p).
Proof. apply on_os_read. unfold FS.Stat. steps_tac. Qed.
Lemma fs_ReadFile_reads p : steps eq (fs_ReadFile env p).
Proof. apply on_os_read. unfold FS.ReadFile. steps_tac. Qed.
#[local] Hint Resolve fs_Stat_reads fs_ReadFile_reads : steps.
Lemma ResolveFileHead_reads p : steps eq (ResolveFileHead env p).
Proof. unfold ResolveFileHead, read_db. steps_tac. Qed.

Lemma ResolveFileHead_run p w head :
  (ResolveFileHead env p w).2 = Ok head → ResolveFileHead env p w = (w, Ok head).
Proof.
  intros H. pose proof (ResolveFileHead_reads p w) as Hr.
  destruct (ResolveFileHead env p w) as [w1 r]. simpl in *. by subst.
Qed.
End Reads.

Lemma ResolveFileHead_held `{WorkDir} `{GoUnicode} `{RowOrder} env p f w :
  (ResolveFileHead env p (set_held f w)).2 = (ResolveFileHead env p w).2.
Proof.
  unfold ResolveFileHead, go_catch, go_bind, read_db, go_read, fs_Stat, on_os. simpl.
  destruct (GetLatestRecord _ _ _) as [rec|e]; simpl;
    [destruct (bool_decide _)|destruct (errors_Is _ _)]; simpl; try done.
  all: destruct (GetMeta _ _ _) as [m|e1]; simpl; [done|];
    destruct (negb _); simpl; [done|]; try done.
  all: destruct (FS.Stat _ _ _ _ _) as [t [i|e2]]; simpl; [done|]; by destruct (errors_Is _ _).
Qed.

(** ** Accepted writes *)

(** Where a canonical project path is in the tree of a root with elements [rs]. *)
Definition key_of (rs : list string) (p : string) : list string := rs ++ rel_elems p.

(** An environment in which nothing outside the state fails. *)
Record calm (env : Env) (rs : list string) : Prop := {
  calm_plain : Forall plain rs;
  calm_root : RootOf env = abs_path rs;
  calm_os : e_flt env = no_faults;
  calm_db : e_db env = no_db_faults;
}.

Section Accepted.
Context {WD : WorkDir} {GU : GoUnicode} {RO : RowOrder} {SS : SortSlice}
        (env : Env) (policy : Sync.ConflictCleanupPolicy) (rs : list string) (Hcalm : calm env rs).


Lemma calm_root_at : root_at (RootDir (e_fs env)) rs.
Proof.
  destruct Hcalm as [Hp Hr _ _]. unfold RootOf in Hr. rewrite Hr. by apply root_at_abs_path.
Qed.

Lemma calm_normalize P p :
  normalizeProjectPath (RootOf env) P = Ok p → canonical_rel p ∧ NormalizeRelativePath P = Ok p.
Proof.
  unfold normalizeProjectPath, RootOf. rewrite (NormalizeProjectPath_eq _ rs) by apply calm_root_at.
  intros H. split; [|done]. by eapply NormalizeRelativePath_Ok.
Qed.

Lemma calm_resolve p : canonical_rel p → FS.resolvePath (e_fs env) p = Ok (abs_path (key_of rs p)).
Proof. intros Hp. apply ResolvePath_canonical; [apply calm_root_at|done]. Qed.

Lemma key_plain p : canonical_rel p → Forall plain (key_of rs p).
Proof. intros. apply Forall_app. split; [apply Hcalm|by apply rel_elems_plain]. Qed.

Lemma key_nonempty p : canonical_rel p → p ≠ "." → key_of rs p ≠ [].
Proof. intros Hp Hne [_ E]%app_eq_nil. by apply Hne, rel_elems_nil. Qed.

Lemma fs_WriteFile_run now p d w :
  canonical_rel p → p ≠ "." → writable (w_os w) (key_of rs p) →
  ∃ t', on_os (FS.WriteFile (e_flt env) (e_fs env) now p d) w = (set_os (λ _, t') w, Ok tt) ∧
        written (w_os w) t' (key_of rs p) d now.
Proof.
  intros Hp Hne Hw.
  destruct (WriteFile_written now (key_of rs p) d (w_os w)) as (t' & H1 & H2);
    [by apply key_plain|by apply key_nonempty|done|].
  exists t'. split; [|done]. unfold on_os, FS.WriteFile. unfold go_bind at 1, go_lift.
  rewrite calm_resolve by done. rewrite (calm_os _ _ Hcalm). by rewrite H1.
Qed.

Lemma fs_ReadFile_run p c mt w :
  canonical_rel p → os_lookup (w_os w) (key_of rs p) = Ok (FileNode c mt) →
  fs_ReadFile env p w = (w, Ok c).
Proof.
  intros Hp Hl. unfold fs_ReadFile, on_os, FS.ReadFile, go_bind, go_lift.
  rewrite calm_resolve by done. unfold go_read, os_ReadFile, os_fault.
  rewrite (calm_os _ _ Hcalm). simpl.
  rewrite path_key_abs_path by (by apply key_plain). rewrite Hl. by destruct w.
Qed.

Lemma saveFileSnapshot_run (p : string) (existed : bool) (data : slice) (w : World) :
  db_wf (w_db w) → head_for p (w_db w) < maxInt64 →
  let v := head_for p (w_db w) + 1 in
  let meta := mkMeta p false (Z.of_nat (length (slice_bytes data)))
                (unix_seconds (e_clock env "SaveFileSnapshot")) (ComputeHash (slice_bytes data)) 0 in
  let db' := saved meta "" (if existed then "modify" else "create") data v (w_db w) in
  saveFileSnapshot env p existed data w =
    (mkWorld (w_os w) db' (S (w_mutations w)) (w_conflicts w) (w_range_writes w)
       (w_last_cleanup w) (w_held w), Ok v).
Proof.
  intros Hwf Hlt v meta db'. unfold saveFileSnapshot, go_bind at 1, on_db.
  rewrite (calm_db _ _ Hcalm), SaveFileSnapshot_total by done. reflexivity.
Qed.

(** What the store answers about a version it has just saved. *)
Lemma saved_reads (meta : Meta) (cid ct : string) (data : slice) (v : Z) (db : DbState) :
  0 ≤ v → v ≤ maxInt64 →
  Database.GetRecord no_db_faults (m_Path meta) v (saved meta cid ct data v db) =
    Ok (mkVersionRecord v (m_MtimeUnix meta) (m_Hash meta) (m_Size meta) cid ct) ∧
  GetMeta no_db_faults (m_Path meta) (saved meta cid ct data v db) = Ok (meta_with_version meta v) ∧
  ∀ d, data = Some d →
    Database.GetVersionData no_db_faults (m_Path meta) v (saved meta cid ct data v db) = Ok d.
Proof.
  intros H0 Hv. split_and!.
  - unfold GetRecord, query. simpl. rewrite sql_uint64_arg_in by done. simpl.
    unfold record_at. simpl. by rewrite lookup_insert_eq.
  - unfold GetMeta, query. simpl. rewrite lookup_partial_alter_eq.
    unfold scan_meta. simpl. by rewrite sql_scan_uint64_in.
  - intros d ->. unfold GetVersionData, query. simpl. rewrite sql_uint64_arg_in by done. simpl.
    by rewrite lookup_insert_eq.
Qed.
(** The check that makes a write stale. *)
Definition stale (base : Z) (head : fileHeadState) : bool :=
  negb (base =? 0) && negb (h_Version head =? 0) && negb (base =? h_Version head).
(** The check that makes it a repetition of the current content. *)
Definition unchanged (d : bytes) (head : fileHeadState) : bool :=
  h_Exists head && negb (h_Version head =? 0) && bool_decide (ComputeHash d = h_Hash head).

(** The world after a write of [data] to [p] that replaces [t'] for the tree. *)
Definition after_write (p : string) (existed : bool) (data : slice) (t' : OsState) (w : World) : World :=
  let v := head_for p (w_db w) + 1 in
  let meta := mkMeta p false (Z.of_nat (length (slice_bytes data)))
                (unix_seconds (e_clock env "SaveFileSnapshot")) (ComputeHash (slice_bytes data)) 0 in
  mkWorld t' (saved meta "" (if existed then "modify" else "create") data v (w_db w))
    (S (w_mutations w)) (w_conflicts w) (w_range_writes w) (w_last_cleanup w) (w_held w).

Lemma doWriteFile_run (P p : string) (data : slice) (base : Z) (head : fileHeadState) (w : World) :
  normalizeProjectPath (RootOf env) P = Ok p → p ≠ "." →
  writable (w_os w) (key_of rs p) → db_wf (w_db w) → head_for p (w_db w) < maxInt64 →
  (ResolveFileHead env p w).2 = Ok head →
  stale base head = false → unchanged (slice_bytes data) head = false →
  ∃ t', written (w_os w) t' (key_of rs p) (slice_bytes data) (e_clock env "WriteFile") ∧
    Sync.doWriteFile env policy P data base w =
      (after_write p (h_Exists head) data t' w,
       Ok {| Sync.wf_Conflicted := false; Sync.wf_ConflictPath := "";
             Sync.wf_NewVersion := head_for p (w_db w) + 1 |}).
Proof.
  intros HP Hne Hw Hwf Hlt Hhead Hst Hun.
  destruct (calm_normalize P p HP) as [Hp _]. set (w0 := set_held (cons p) w).
  assert (ResolveFileHead env p w0 = (w0, Ok head)) as Hh0.
  { apply ResolveFileHead_run. unfold w0. by rewrite ResolveFileHead_held. }
  destruct (fs_WriteFile_run (e_clock env "WriteFile") p (slice_bytes data) w0 Hp Hne Hw)
    as (t' & Ht' & Hwt).
  exists t'. split; [done|].
  unfold Sync.doWriteFile, Core.normalized, go_bind at 1, go_lift. rewrite HP.
  cbn [map_err]. unfold with_lock, go_bind at 1, go_modify, go_defer. fold w0.
  unfold go_bind at 1, Core.grpc at 1, go_map_err at 1. rewrite Hh0. cbn [map_err].
  fold (stale base head) (unchanged (slice_bytes data) head). rewrite Hst, Hun.
  unfold go_bind, Core.grpc, go_map_err. rewrite Ht'. cbn [map_err].
  rewrite saveFileSnapshot_run by done. reflexivity.
Qed.
End Accepted.

