(* ===== verification/Conflicts.v ===== *)
(** * Stale writes

    A write whose base version is not the current one creates a conflict copy
    and sweeps old ones; it leaves the file, every other ordinary file and the
    tables as they are. *)

From S2P Require Import Prelude GoStrings FsPath OsFs Database World Mutations Frames Containment Writes.
Import Mutation.
Open Scope string_scope.
Open Scope Z_scope.
Open Scope list_scope.

(** ** Conflict names *)

Definition conflict_mark : string := ".roodox-conflict-".

(** Names that the conflict sweeps may remove. *)
Definition conflict_named `{GoUnicode} (name : string) : bool :=
  Contains name conflict_mark || IsConflictPath name.

Lemma Contains_app a sub b : Contains (a +:+ sub +:+ b) sub = true.
Proof.
  induction a as [|c a IH].
  - change ("" +:+ sub +:+ b) with (sub +:+ b). assert (String.prefix sub (sub +:+ b) = true) as Hp.
    { apply (HasPrefix_app sub b). }
    destruct (sub +:+ b); cbn [Contains]; by rewrite Hp.
  - simpl. by rewrite IH, orb_true_r.
Qed.

Lemma plain_snoc ws x : Forall plain ws → plain x → Forall plain (ws ++ [x]).
Proof. intros Hws Hx. apply Forall_app. split; [done|]. constructor; [done|constructor]. Qed.

Lemma Base_rel ws x : Forall plain ws → plain x → Base (Join Separator (ws ++ [x])) = x.
Proof.
  intros Hws Hx. assert (Forall plain (ws ++ [x])) as Hall by (by apply plain_snoc).
  assert (ws ++ [x] ≠ []) as Hne by (by destruct ws).
  destruct (Join_plain_head (ws ++ [x])) as (a & s & Heq & _); [done..|].
  unfold Base. rewrite decide_False by (by rewrite Heq).
  rewrite Split_Join_sep by (try done; by apply plain_no_char).
  assert (∀ l, Forall plain l → filter (λ w, w ≠ "") l = l) as Hf.
  { intros l Hl. induction Hl as [|w l Hw _ IH]; [done|].
    rewrite filter_cons_True by apply Hw. by rewrite IH. }
  rewrite Hf by done. by rewrite last_snoc.
Qed.

Lemma Dir_rel ws x :
  Forall plain ws → plain x →
  Dir (Join Separator (ws ++ [x])) = match ws with [] => "." | _ => Join Separator ws end.
Proof.
  intros Hws Hx. assert (Forall plain (ws ++ [x])) as Hall by (by apply plain_snoc).
  assert (ws ++ [x] ≠ []) as Hne by (by destruct ws).
  unfold Dir. rewrite Split_Join_sep by (try done; by apply plain_no_char).
  rewrite removelast_last. destruct ws as [|w ws]; [reflexivity|].
  assert (Forall (λ w, no_char slash w = true) ((w :: ws) ++ [""])) as Hnc.
  { apply Forall_app. split; [by apply plain_no_char|repeat constructor]. }
  destruct (Join_plain_head (w :: ws)) as (a & s & Heq & Ha); [done..|].
  assert (Join Separator ((w :: ws) ++ [""]) = String a (s +:+ Separator)) as Heq'.
  { rewrite (Join_app Separator (w :: ws) [""]) by done. rewrite Heq. done. }
  unfold Clean. rewrite decide_False by (by rewrite Heq').
  assert (IsAbs (Join Separator ((w :: ws) ++ [""])) = false) as ->.
  { rewrite Heq'. rewrite IsAbs_cons. done. }
  rewrite Split_Join_sep by done.
  assert (clean_elems false ((w :: ws) ++ [""]) = w :: ws) as ->; [|done].
  rewrite <- (clean_elems_plain false (w :: ws)) at 2 by done.
  unfold clean_elems. rewrite fold_left_app. done.
Qed.

Lemma no_char_app3 a b c : no_char slash a = true → no_char slash b = true → no_char slash c = true →
  no_char slash (a +:+ b +:+ c) = true.
Proof. intros. rewrite !no_char_append. by rewrite H, H0, H1. Qed.

Definition conflict_name (base ts suffix : string) : string :=
  base +:+ conflict_mark +:+ (ts +:+ "-" +:+ suffix).

Lemma conflict_name_named `{GoUnicode} base ts suffix :
  conflict_named (conflict_name base ts suffix) = true.
Proof. unfold conflict_named, conflict_name. by rewrite Contains_app. Qed.

Lemma conflict_name_plain base ts suffix :
  no_char slash base = true → no_char slash ts = true → no_char slash suffix = true →
  plain (conflict_name base ts suffix).
Proof.
  intros Hb Ht Hs. unfold conflict_name. split_and!.
  - by destruct base.
  - destruct base as [|a [|b base]]; done.
  - destruct base as [|a [|b [|c base]]]; done.
  - apply no_char_app3; [done|done|]. by apply no_char_app3.
Qed.

(** A generated conflict path is a sibling of the file with a conflict name. *)
Lemma GenerateConflictPath_rel ts suffix p :
  canonical_rel p → no_char slash ts = true → no_char slash suffix = true →
  ∃ ws name, Forall plain (ws ++ [name]) ∧ (∃ base, name = conflict_name base ts suffix) ∧
    GenerateConflictPath ts suffix p = Join Separator (ws ++ [name]).
Proof.
  intros Hp Ht Hs. destruct Hp as [->|(ks & Hne & Hks & ->)].
  - exists [], (conflict_name "." ts suffix). split_and!; [|eauto|reflexivity].
    constructor; [by apply conflict_name_plain|constructor].
  - destruct (exists_last Hne) as (ws & x & ->). apply Forall_app in Hks as [Hws Hx].
    apply Forall_cons in Hx as [Hx _].
    assert (plain (conflict_name x ts suffix)) as Hn by (apply conflict_name_plain; [apply Hx|done..]).
    exists ws, (conflict_name x ts suffix). split_and!; [|eauto|].
    { by apply plain_snoc. }
    unfold GenerateConflictPath. rewrite Base_rel, Dir_rel by done.
    change (x +:+ ".roodox-conflict-" +:+ ts +:+ "-" +:+ suffix) with (conflict_name x ts suffix).
    destruct ws as [|w ws]; [by rewrite decide_True by (by left)|].
    rewrite decide_False.
    2:{ intros [E|E].
        - by apply Join_plain_not_dot in E.
        - destruct (Join_plain_head (w :: ws)) as (a & s & Heq & Ha); [done..|].
          rewrite Heq in E. by injection E as -> _. }
    destruct (Join_plain_head (w :: ws)) as (a & s & Heq & Ha); [done..|].
    unfold JoinPath. rewrite decide_False by (by rewrite Heq).
    change (Join Separator (w :: ws) +:+ Separator +:+ conflict_name x ts suffix)
      with (Join Separator (w :: ws) +:+ Separator +:+ Join Separator [conflict_name x ts suffix]).
    rewrite <- Join_app by done. apply Clean_rel_plain; [done|].
    by apply plain_snoc.
Qed.

(** ** Trees that keep their ordinary entries *)

Definition tree_plain (t : OsState) : Prop := ∀ k n, t !! k = Some n → Forall plain k.

Section Keeps.
Context {GU : GoUnicode}.

(** The entry at [k] has no conflict name. *)
Definition ordinary (k : list string) : Prop := ∀ name, last k = Some name → conflict_named name = false.

(** New entries may appear and conflict copies may go; the rest stays. *)
Definition keeps (t t' : OsState) : Prop :=
  tree_plain t → tree_plain t' ∧
  ∀ k, is_Some (node_at t k) → ordinary k → node_at t' k = node_at t k.

#[export] Instance keeps_preorder : PreOrder keeps.
Proof.
  split.
  - by intros t Ht.
  - intros a b c H1 H2 Ha. destruct (H1 Ha) as [Hb E1]. destruct (H2 Hb) as [Hc E2].
    split; [done|]. intros k Hk Ho. pose proof (E1 k Hk Ho) as E. rewrite <- E.
    apply E2; [by rewrite E|done].
Qed.

(** A path with a conflict name. *)
Definition marked (f : string) : Prop :=
  ∃ ks name, Forall plain (ks ++ [name]) ∧ conflict_named name = true ∧ f = abs_path (ks ++ [name]).

Lemma marked_key f : marked f → Forall plain (path_key f) ∧ ¬ ordinary (path_key f).
Proof.
  intros (ks & name & Hpl & Hn & ->). rewrite path_key_abs_path by done. split; [done|].
  intros Ho. rewrite (Ho name) in Hn; [done|]. by rewrite last_snoc.
Qed.

Lemma keeps_alter t k o :
  Forall plain k → (node_at t k = None ∨ ¬ ordinary k) → keeps t (partial_alter (λ _, o) k t).
Proof.
  intros Hpl Hk Ht. split.
  - intros k' n. destruct (decide (k = k')) as [<-|Hne]; [done|].
    rewrite lookup_partial_alter_ne by done. apply Ht.
  - intros k' Hk' Ho. unfold node_at. rewrite lookup_partial_alter_ne; [done|].
    intros <-. destruct Hk as [E|Hk]; [|by apply Hk]. rewrite E in Hk'. by destruct Hk'.
Qed.

Section Calls.
Context (flt : Faults).

Lemma mkdirs_keeps now pre rest : Forall plain (pre ++ rest) → steps keeps (mkdirs flt now pre rest).
Proof.
  revert pre. induction rest as [|c rest IH]; intros pre Hpl t; simpl; [reflexivity|].
  assert (pre ++ c :: rest = (pre ++ [c]) ++ rest) as Hassoc by (by rewrite <- app_assoc).
  rewrite Hassoc in Hpl. specialize (IH _ Hpl).
  destruct (node_at t (pre ++ [c])) as [[mt|]|] eqn:En; simpl; [apply IH|reflexivity|].
  destruct (flt _ _); simpl; [reflexivity|].
  trans (<[pre ++ [c] := DirNode now]> t); [|apply IH].
  apply (keeps_alter t _ (Some _)); [by apply Forall_app in Hpl as [? _]|by left].
Qed.

Lemma Remove_keeps f : marked f → steps keeps (os_Remove flt f).
Proof.
  intros [H1 H2]%marked_key t. unfold os_Remove.
  repeat case_match; simpl; try reflexivity; apply (keeps_alter t _ None); auto.
Qed.
Lemma OpenCreate_keeps trunc now f : marked f → steps keeps (os_OpenCreate flt true trunc now f).
Proof.
  intros [H1 H2]%marked_key t. unfold os_OpenCreate.
  repeat case_match; simpl; try reflexivity; apply (keeps_alter t _ (Some _)); auto.
Qed.
Lemma write_keeps op now f d : marked f → steps keeps (os_write flt op now f d).
Proof.
  intros [H1 H2]%marked_key t. unfold os_write.
  repeat case_match; simpl; try reflexivity; apply (keeps_alter t _ (Some _)); auto.
Qed.
End Calls.
End Keeps.

(** ** Conflict handling *)

(** The random part of conflict names has no separator. *)
Definition plain_suffixes (env : Env) : Prop :=
  ∀ n, no_char slash (e_suffix env n).1 = true ∧ no_char slash (e_suffix env n).2 = true.

Section ConflictFrame.
Context {WD : WorkDir} {GU : GoUnicode} {RO : RowOrder} {SS : SortSlice}
        (env : Env) (policy : Sync.ConflictCleanupPolicy) (rs : list string)
        (Hrs : Forall plain rs) (Hroot : RootOf env = abs_path rs) (Hsfx : plain_suffixes env).

(** The world keeps its tables and its ordinary entries. *)
Definition only_copies (w w' : World) : Prop :=
  keeps (w_os w) (w_os w') ∧ w_db w' = w_db w.
#[export] Instance only_copies_preorder : PreOrder only_copies.
Proof.
  split.
  - intros w. split; [reflexivity|done].
  - intros a b c [H1 E1] [H2 E2]. split; [by trans (w_os b)|congruence].
Qed.

Lemma on_os_copies {E A} (m : go OsState E A) : steps keeps m → steps only_copies (on_os m).
Proof.
  intros Hm w. unfold on_os, only_copies. specialize (Hm (w_os w)).
  by destruct (m (w_os w)) as [t r].
Qed.
Lemma modify_copies {E} (g : World → World) :
  (∀ w, w_os (g w) = w_os w ∧ w_db (g w) = w_db w) → steps only_copies (go_modify (E := E) g).
Proof. intros Hg w. destruct (Hg w) as [E1 E2]. split; simpl; [by rewrite E1|done]. Qed.

Lemma Trigger_copies {E} : steps only_copies (TriggerConflict (E := E)).
Proof. by apply modify_copies. Qed.
Lemma cleanup_copies {E} t : steps only_copies (set_last_cleanup (E := E) t).
Proof. by apply modify_copies. Qed.
#[local] Hint Resolve Trigger_copies cleanup_copies : steps.

Lemma conflict_path_marked n p f :
  canonical_rel p →
  ResolvePath (RootOf env) (GenerateConflictPath (e_suffix env n).1 (e_suffix env n).2 p) = Ok f →
  marked f ∧ Forall plain (path_key (Dir f)).
Proof.
  intros Hp. destruct (Hsfx n) as [H1 H2].
  destruct (GenerateConflictPath_rel _ _ p Hp H1 H2) as (ws & name & Hpl & (base & ->) & ->).
  rewrite Hroot, (ResolvePath_canonical _ rs).
  2:{ by apply root_at_abs_path. }
  2:{ right. eexists. split_and!; [|done|done]. by destruct ws. }
  rewrite rel_elems_Join by (try done; by destruct ws). intros [= <-].
  rewrite app_assoc. apply Forall_app in Hpl as [Hws Hn]. apply Forall_cons in Hn as [Hn _].
  assert (Forall plain (rs ++ ws)) as Hd by (by apply Forall_app). split.
  - eexists _, _. split_and!; [|apply conflict_name_named|done]. by apply plain_snoc.
  - by rewrite Dir_abs_path, path_key_abs_path.
Qed.

Lemma writeFileExclusive_copies n p d :
  canonical_rel p →
  steps only_copies (writeFileExclusive env
    (GenerateConflictPath (e_suffix env n).1 (e_suffix env n).2 p) d).
Proof.
  intros Hp w. unfold writeFileExclusive, go_bind at 1, go_lift.
  destruct (ResolvePath _ _) as [f|e] eqn:Hf; [|simpl; reflexivity].
  destruct (conflict_path_marked n p f Hp Hf) as [Hm Hd].
  pose proof (on_os_copies _ (Remove_keeps (e_flt env) f Hm)) as Hrem.
  revert w. apply (steps_bind only_copies).
  { apply on_os_copies, (mkdirs_keeps (e_flt env) _ []), Hd. }
  intros _. apply (steps_bind only_copies); [by apply on_os_copies, OpenCreate_keeps|].
  intros _. apply (steps_catch only_copies); [by apply on_os_copies, write_keeps|].
  intros r. steps_tac.
Qed.

Lemma conflict_loop_copies left n p d :
  canonical_rel p → steps only_copies (writeConflictFile_loop env left n p d).
Proof.
  intros Hp. revert n. induction left as [|left IH]; intros n; simpl; [apply steps_fail, _|].
  pose proof (writeFileExclusive_copies n p d Hp) as Hw.
  destruct (e_suffix env n) as [ts suffix]. steps_tac.
Qed.

Lemma remove_excess_copies now i cs :
  Forall (λ c, marked (Sync.c_fullPath c)) cs →
  steps only_copies (Sync.remove_excess env policy now i cs).
Proof.
  intros Hcs. revert i. induction Hcs as [|c cs Hc _ IH]; intros i; simpl; [apply steps_ret, _|].
  pose proof (on_os_copies _ (Remove_keeps (e_flt env) _ Hc)). steps_tac.
Qed.

(** *** Sweeping *)

Lemma Dir_abs ks : Forall plain ks → ∃ ks', Forall plain ks' ∧ Dir (abs_path ks) = abs_path ks'.
Proof.
  intros Hks. destruct (decide (ks = [])) as [->|Hne]; [by exists []|].
  destruct (exists_last Hne) as (l & x & ->). apply Forall_app in Hks as [Hl Hx].
  apply Forall_cons in Hx as [Hx _]. exists l. by rewrite Dir_abs_path.
Qed.

Lemma ReadDir_plain_name p t entries e :
  tree_plain t → os_ReadDir (e_flt env) p t = Ok entries → e ∈ entries → plain e.1.
Proof.
  intros Ht. apply (ReadDir_plain env []). split; [|exact Ht].
  intros pre Hpre Hne. by apply prefix_nil_inv in Hpre.
Qed.

Lemma join_abs ks name :
  Forall plain ks → plain name → JoinPath (abs_path ks) name = abs_path (ks ++ [name]).
Proof.
  intros Hks Hn. apply (Clean_JoinPath ks [name]); [done..|]. constructor; [done|constructor].
Qed.

Lemma copies_keep p now :
  canonical_rel p → steps (on_field w_os keeps) (Sync.cleanupConflictCopiesForPath env policy p now).
Proof.
  intros Hp w. unfold Sync.cleanupConflictCopiesForPath, go_bind at 1, go_lift.
  rewrite Hroot, (ResolvePath_canonical _ rs) by (try done; by apply root_at_abs_path).
  destruct (Dir_abs (rs ++ rel_elems p)) as (ks & Hks & ->).
  { apply Forall_app. split; [done|by apply rel_elems_plain]. }
  unfold go_catch, go_read. destruct (os_ReadDir _ _ _) as [entries|err] eqn:Er.
  2:{ destruct (errors_Is _ _); simpl; unfold on_field; reflexivity. }
  unfold go_bind, go_get. intros Ha.
  refine (proj1 (remove_excess_copies now 0 _ _ w) Ha).
  rewrite sort_slice_perm. apply Forall_forall. intros c Hc.
  apply list_elem_of_omap in Hc as ([name n] & Hin & Hc).
  assert (plain name) as Hname by (exact (ReadDir_plain_name _ _ _ _ Ha Er Hin)).
  unfold Sync.conflict_candidate in Hc. destruct (is_dir n); [done|].
  destruct (Sync.stringsHasConflictPrefix _ _) eqn:Epre; [|done]. simpl in Hc.
  destruct (os_Lstat _ _ _ _); [|done]. injection Hc as <-. simpl.
  exists ks, name. split_and!; [by apply plain_snoc| |by apply join_abs].
  unfold Sync.stringsHasConflictPrefix in Epre. apply andb_true_iff in Epre as [_ Epre].
  apply HasPrefix_spec in Epre as [t ->]. unfold conflict_named.
  rewrite <- append_assoc. change ".roodox-conflict-" with conflict_mark. by rewrite Contains_app.
Qed.

(** The entries a walk of the root visits. *)
Definition visited (path : string) (d : DirEntry) : Prop :=
  ∃ ks, Forall plain ks ∧ path = abs_path ks ∧
    (de_isdir d = true ∨ IsConflictPath (de_name d) = false ∨ last ks = Some (de_name d)).

Lemma expired_step_keep now p d e :
  visited p d → steps (on_field w_os keeps) (Sync.expired_conflict_step env policy now p d e).
Proof.
  intros (ks & Hks & -> & Hd). unfold Sync.expired_conflict_step.
  destruct e; [apply steps_ret, _|]. destruct (de_isdir d); [apply steps_ret, _|].
  destruct (IsConflictPath (de_name d)) eqn:Ec; simpl; [|apply steps_ret, _].
  destruct Hd as [|[|Hl]]; [done..|].
  assert (marked (abs_path ks)) as Hm.
  { apply last_Some in Hl as [l ->]. exists l, (de_name d). split_and!; [done| |done].
    unfold conflict_named. by rewrite Ec, orb_true_r. }
  pose proof (on_os_steps (E := goerr) keeps _ (Remove_keeps (e_flt env) _ Hm)). steps_tac.
Qed.

Lemma Base_abs ks x : Forall plain ks → plain x → Base (abs_path (ks ++ [x])) = x.
Proof.
  intros Hks Hx. unfold Base, abs_path. rewrite decide_False by done.
  rewrite Split_sep, Split_Join_sep.
  2:{ by destruct ks. }
  2:{ by apply plain_no_char, plain_snoc. }
  rewrite filter_cons_False by naive_solver.
  assert (∀ l, Forall plain l → filter (λ w, w ≠ "") l = l) as Hf.
  { intros l Hl. induction Hl as [|w l Hw _ IH]; [done|].
    rewrite filter_cons_True by apply Hw. by rewrite IH. }
  rewrite Hf by (by apply plain_snoc). by rewrite last_snoc.
Qed.

Lemma expired_keep now :
  steps (on_field w_os keeps) (Sync.cleanupExpiredConflictFiles env policy now).
Proof.
  unfold Sync.cleanupExpiredConflictFiles. destruct (_ <=? _); [apply steps_ret, _|].
  rewrite Hroot.
  set (S := λ w w' : World, ∀ k, is_Some (node_at (w_os w) k) → ordinary k →
              node_at (w_os w') k = node_at (w_os w) k).
  assert (PreOrder S) as Hpre.
  { split; [done|]. intros a b c E1 E2 k Hk Ho. rewrite <- (E1 k Hk Ho). apply E2; [|done].
    by rewrite (E1 k Hk Ho). }
  apply (WalkDir_guarded _ _ _ _ (λ w, tree_plain (w_os w)) S (HS := Hpre) visited).
  - intros p d e Hv. by apply expired_step_keep.
  - intros w p d entries e Ha (ks & Hks & -> & _) Er Hin.
    assert (plain e.1) as Hn by (by eapply ReadDir_plain_name).
    exists (ks ++ [e.1]). split_and!; [by apply plain_snoc|by apply join_abs|].
    right; right. by rewrite last_snoc.
  - intros e. apply steps_ret. change (PreOrder (on_field w_os keeps)). apply _.
  - intros w info Hl. exists rs. split_and!; [done..|].
    unfold os_Lstat in Hl. destruct (os_fault _ _ _); [|done]. simpl in Hl.
    destruct (os_lookup _ _) as [n|] eqn:El; [|done]. injection Hl as <-.
    destruct n as [mt|c mt]; [by left|right]. simpl.
    destruct (decide (rs = [])) as [->|Hne]; [left; reflexivity|right].
    destruct (exists_last Hne) as (l & x & ->). apply Forall_app in Hrs as [Hl Hx].
    apply Forall_cons in Hx as [Hx _]. by rewrite Base_abs, last_snoc.
Qed.

Lemma sweeps_db {E A} (m : go World E A) :
  steps (on_field w_os keeps) m → steps (on_field w_db eq) m → steps only_copies m.
Proof. intros H1 H2 w. split; [apply H1|]. symmetry. apply H2. Qed.

Lemma sync_conflict_copies p d :
  canonical_rel p → steps only_copies (Sync.writeConflictFile env policy p d).
Proof.
  intros Hp. unfold Sync.writeConflictFile, Sync.maybeCleanupExpiredConflictFiles.
  assert (∀ E A (m : go OsState E A), steps (on_field w_db eq) (on_os m)) as Hos.
  { intros. by apply on_os_frame; [apply _|]. }
  pose proof (conflict_loop_copies maxConflictWriteAttempts 0 p d Hp) as Hw.
  assert (∀ now, steps only_copies (Sync.cleanupConflictCopiesForPath env policy p now)) as Hc.
  { intros now. apply sweeps_db; [by apply copies_keep|].
    unfold Sync.cleanupConflictCopiesForPath.
    assert (∀ i cs, steps (on_field w_db eq) (Sync.remove_excess env policy now i cs)) as He.
    { intros i cs. revert i. induction cs as [|c cs IH]; intros i; simpl; steps_tac. }
    steps_tac. }
  assert (∀ now, steps only_copies (Sync.cleanupExpiredConflictFiles env policy now)) as Hx.
  { intros now. apply sweeps_db; [by apply expired_keep|].
    unfold Sync.cleanupExpiredConflictFiles. destruct (_ <=? _); [by apply steps_ret, _|].
    apply steps_WalkDir; [apply _|]. intros q e err. unfold Sync.expired_conflict_step. steps_tac. }
  unfold Mutation.writeConflictFile. steps_tac.
Qed.

Lemma conflict_copy_copies p b :
  canonical_rel p → steps only_copies b → steps only_copies (Core.conflict_copy env p b).
Proof.
  intros Hp Hb. unfold Core.conflict_copy, Mutation.writeConflictFile.
  pose proof (λ d, conflict_loop_copies maxConflictWriteAttempts 0 p d Hp) as Hw. steps_tac.
Qed.

Lemma lock_copies {E A} p (m : go World E A) : steps only_copies m → steps only_copies (with_lock p m).
Proof.
  intros Hm. unfold with_lock.
  apply steps_bind; [apply _|by apply modify_copies|]. intros _.
  apply steps_defer; [apply _|by apply modify_copies|done].
Qed.
End ConflictFrame.

Section Stale.
Context {WD : WorkDir} {GU : GoUnicode} {RO : RowOrder} {SS : SortSlice}
        (env : Env) (policy : Sync.ConflictCleanupPolicy) (rs : list string)
        (Hrs : Forall plain rs) (Hroot : RootOf env = abs_path rs) (Hsfx : plain_suffixes env).

Lemma normalize_canonical P p : normalizeProjectPath (RootOf env) P = Ok p → canonical_rel p.
Proof.
  unfold normalizeProjectPath. rewrite Hroot, (NormalizeProjectPath_eq _ rs) by (by apply root_at_abs_path).
  apply NormalizeRelativePath_Ok.
Qed.

(** The common frame of the three handlers: normalise, lock, resolve the head,
    then [body]. *)
Lemma headed_run {A} P p head (body : string → fileHeadState → go World status A) w :
  normalizeProjectPath (RootOf env) P = Ok p →
  (ResolveFileHead env p w).2 = Ok head →
  Core.normalized env P (λ path,
    with_lock path (let! head := Core.grpc (ResolveFileHead env path) in body path head)) w =
  let '(w1, r) := body p head (set_held (cons p) w) in (set_held tail w1, r).
Proof.
  intros HP Hh. unfold Core.normalized, go_bind at 1, go_lift. rewrite HP. cbn [map_err].
  unfold with_lock, go_bind at 1, go_modify, go_defer. unfold go_bind at 1, Core.grpc, go_map_err.
  rewrite (ResolveFileHead_run env p (set_held (cons p) w) head) by (by rewrite ResolveFileHead_held).
  reflexivity.
Qed.

(** Dropping the lock changes neither the tree nor the tables. *)
Lemma held_copies (f g : list string → list string) (w w1 : World) :
  only_copies (set_held f w) w1 → only_copies w (set_held g w1).
Proof. done. Qed.

Lemma stale_build_copies p b o d : steps only_copies (Core.buildRangeConflictData env p b o d).
Proof. unfold Core.buildRangeConflictData, loadVersionSnapshot, read_db. steps_tac. Qed.
Lemma stale_size_copies p b s : steps only_copies (Core.buildSetFileSizeConflictData env p b s).
Proof. unfold Core.buildSetFileSizeConflictData, loadVersionSnapshot, read_db. steps_tac. Qed.

(** A conflict copy that cannot be made is an empty path, not an error. *)
Lemma conflict_copy_ok p b w w' r :
  Core.conflict_copy env p b w = (w', r) → ∃ c, r = Ok c.
Proof.
  unfold Core.conflict_copy, go_catch. destruct (go_bind b _ w) as [w1 [c|e]];
    intros [= <- <-]; eauto.
Qed.

Lemma range_metric_copies {E} p n c : steps only_copies (RecordRangeWrite (E := E) p n c).
Proof. by apply modify_copies. Qed.
End Stale.

