(* ===== verification/Ranges.v ===== *)
(** * Ranges, empty files and renames

    The content that the range operations and the conflict copies produce, and
    two cases in which the services lose content. *)

From S2P Require Import Prelude GoStrings FsPath OsFs Database DatabaseSpec StoreTheorems Hash World Mutations Frames Services Writes.
Import Mutation.
Open Scope string_scope.
Open Scope Z_scope.
Open Scope list_scope.

(** The byte at [i] of [base] with [data] written at [off]; a gap reads as
    zero. *)
Definition overlay (base : bytes) (off : nat) (data : bytes) (i : nat) : option Byte.byte :=
  if decide (off ≤ i < off + length data)%nat then data !! (i - off)%nat
  else if decide (i < length base)%nat then base !! i
  else if decide (i < off)%nat then Some Byte.x00
  else None.

Lemma lookup_write_at c off data i :
  data ≠ [] → write_at c off data !! i = overlay c off data i.
Proof.
  intros Hne. unfold write_at, overlay. destruct data as [|b data]; [done|].
  set (d := b :: data). clearbody d. clear Hne b data.
  rewrite !lookup_app, !length_take, !length_replicate.
  repeat case_decide.
  - rewrite (lookup_ge_None_2 (take off c)) by (rewrite length_take; lia).
    rewrite (lookup_ge_None_2 (replicate _ _)) by (rewrite length_replicate; lia).
    replace (i - off `min` length c - (off - length c))%nat with (i - off)%nat by lia.
    destruct (d !! (i - off)%nat) eqn:E; [done|]. apply lookup_ge_None in E. lia.
  - destruct (decide (i < off)%nat).
    + rewrite lookup_take_lt by lia. destruct (c !! i) eqn:E; [done|].
      apply lookup_ge_None in E. lia.
    + rewrite (lookup_ge_None_2 (take off c)) by (rewrite length_take; lia).
      rewrite (lookup_ge_None_2 (replicate _ _)) by (rewrite length_replicate; lia).
      rewrite (lookup_ge_None_2 d) by lia. rewrite lookup_drop. f_equal. lia.
  - rewrite (lookup_ge_None_2 (take off c)) by (rewrite length_take; lia).
    rewrite lookup_replicate_2 by lia. done.
  - rewrite (lookup_ge_None_2 (take off c)) by (rewrite length_take; lia).
    rewrite (lookup_ge_None_2 (replicate _ _)) by (rewrite length_replicate; lia).
    rewrite (lookup_ge_None_2 d) by lia.
    rewrite lookup_drop. apply lookup_ge_None_2. lia.
Qed.

(** [copy(out, baseData); copy(out[offset:], data)] on a zeroed [out]. *)
Lemma lookup_patched base off data size i :
  size = (length base `max` (off + length data))%nat →
  let out := base ++ drop (length base) (replicate size Byte.x00) in
  (take off out ++ data ++ drop (off + length data) out) !! i = overlay base off data i.
Proof.
  intros Hs out. assert (length out = size) as Hlen.
  { unfold out. rewrite length_app, length_drop, length_replicate. lia. }
  assert (∀ j, out !! j = if decide (j < length base)%nat then base !! j
                          else if decide (j < size)%nat then Some Byte.x00 else None) as Hout.
  { intros j. unfold out. rewrite drop_replicate. case_decide.
    - by rewrite lookup_app_l.
    - rewrite lookup_app_r by lia. case_decide; [apply lookup_replicate_2; lia|].
      apply lookup_ge_None_2. rewrite length_replicate. lia. }
  unfold overlay. rewrite !lookup_app, length_take.
  destruct (decide (i < off)%nat).
  - rewrite lookup_take_lt by done. rewrite Hout.
    rewrite (decide_False (P := (off ≤ i < off + length data)%nat)) by lia.
    destruct (decide (i < length base)%nat).
    + destruct (base !! i) eqn:E; [done|]. apply lookup_ge_None in E. lia.
    + by rewrite decide_True by lia.
  - rewrite (lookup_ge_None_2 (take off out)) by (rewrite length_take; lia).
    destruct (decide (i < off + length data)%nat).
    + rewrite decide_True by lia.
      replace (i - off `min` length out)%nat with (i - off)%nat by lia.
      destruct (data !! (i - off)%nat) eqn:E; [done|]. apply lookup_ge_None in E. lia.
    + rewrite decide_False by lia. rewrite (lookup_ge_None_2 data) by lia.
      rewrite lookup_drop.
      replace (off + length data + (i - off `min` length out - length data))%nat with i by lia.
      rewrite Hout. repeat case_decide; try done; lia.
Qed.

(** A slice of the model has the length of a Go slice. *)
Definition slice_len (d : bytes) : Prop := Z.of_nat (length d) ≤ maxInt64.

(** C35: [applyRangeMutation] on an int64 offset.  Negative offsets and ranges
    that end beyond int64 are errors (the wrap-around test is exact);
    otherwise the result is as long as the longer of the base and the range,
    and holds the data in the range, the base elsewhere and zeros in a gap.
    For a non-empty range this is the very content that [FileSystem.WriteAt]
    leaves in a file that holds the base; an empty range pads the base to the
    offset, where [WriteAt] leaves the file alone. *)
Theorem applyRangeMutation_spec (base data : bytes) (offset : Z) :
  is_int64 offset → slice_len base → slice_len data →
  let off := Z.to_nat offset in
  match Core.applyRangeMutation base offset data with
  | Err e => (offset < 0 ∧ e = ErrNew "offset must be >= 0") ∨
             (0 ≤ offset ∧ maxInt64 < offset + Z.of_nat (length data) ∧ e = ErrNew "offset overflow")
  | Ok out =>
      0 ≤ offset ∧ offset + Z.of_nat (length data) ≤ maxInt64 ∧
      length out = (length base `max` (off + length data))%nat ∧
      (∀ i, out !! i = overlay base off data i) ∧
      (data ≠ [] → out = write_at base off data) ∧
      (data = [] → out = base ++ replicate (off - length base) Byte.x00 ∧ write_at base off data = base)
  end.
Proof.
  intros Hoff Hb Hd off. unfold Core.applyRangeMutation, slice_len, is_int64 in *.
  destruct (Z.ltb_spec offset 0); [by left|].
  assert (maxInt64 = two63 - 1) as Hmax by done.
  assert (wrap_int64 (offset + Z.of_nat (length data)) < offset ↔
          maxInt64 < offset + Z.of_nat (length data)) as Hwrap.
  { destruct (decide (offset + Z.of_nat (length data) < two63)) as [Hlt|Hge].
    - rewrite wrap_int64_id by (unfold is_int64; lia). lia.
    - unfold wrap_int64. rewrite <- (Z.mod_unique (offset + Z.of_nat (length data) + two63) two64 1
        (offset + Z.of_nat (length data) + two63 - two64)); unfold two63, two64 in *; lia. }
  destruct (Z.ltb_spec (wrap_int64 (offset + Z.of_nat (length data))) offset) as [Hov|Hov].
  { right. split_and!; [done|by apply Hwrap|done]. }
  assert (offset + Z.of_nat (length data) ≤ maxInt64) as Hle by lia.
  rewrite wrap_int64_id by (unfold is_int64; lia).
  set (size := if Z.of_nat (length base) <? _ then _ else Z.of_nat (length base)).
  assert (size = Z.of_nat (length base `max` (off + length data))) as Hsize.
  { unfold size, off. destruct (Z.ltb_spec (Z.of_nat (length base)) (offset + Z.of_nat (length data))); lia. }
  rewrite (proj2 (Z.ltb_ge Core.maxSliceLen size)) by (unfold Core.maxSliceLen; lia).
  rewrite Hsize, Nat2Z.id.
  pose proof (λ i, lookup_patched base off data _ i eq_refl) as Hl. cbv zeta in Hl.
  split_and!; [done|done| |done| |].
  - rewrite !length_app, length_take, length_drop, !length_app, length_drop, length_replicate. lia.
  - intros Hne. apply list_eq. intros i. rewrite Hl. by rewrite lookup_write_at.
  - intros ->. split; [|done]. apply list_eq. intros i. rewrite Hl. unfold overlay. simpl.
    rewrite (decide_False (P := (off ≤ i < off + 0)%nat)) by lia.
    repeat case_decide.
    + by rewrite lookup_app_l.
    + rewrite lookup_app_r, lookup_replicate_2 by lia. done.
    + symmetry. apply lookup_ge_None_2. rewrite length_app, length_replicate. lia.
Qed.

Lemma applyRangeMutation_spec_witness :
  Core.applyRangeMutation [Byte.x61] 3 [Byte.x62] = Ok [Byte.x61; Byte.x00; Byte.x00; Byte.x62] ∧
  write_at [Byte.x61] 3 [Byte.x62] = [Byte.x61; Byte.x00; Byte.x00; Byte.x62].
Proof.
  pose proof (applyRangeMutation_spec [Byte.x61] [Byte.x62] 3) as H.
  assert (Core.applyRangeMutation [Byte.x61] 3 [Byte.x62] =
    Ok [Byte.x61; Byte.x00; Byte.x00; Byte.x62]) as E by (vm_compute; reflexivity).
  rewrite E in H. split; [exact E|].
  destruct H as (_ & _ & _ & _ & Hw & _).
  - split; reflexivity || discriminate.
  - discriminate.
  - discriminate.
  - symmetry. apply Hw. discriminate.
Defined.

(** ** Files that become empty *)

(** an empty file has no stored content.  An accepted [WriteFile] of a nil
    slice (an empty request field, or an empty stream) records a version like
    any other, but asking for the content of that version answers NotFound. *)
Theorem empty_write_has_no_content `{WorkDir} `{GoUnicode} `{RowOrder} `{SortSlice} (env : Env)
    (policy : Sync.ConflictCleanupPolicy) (rs : list string) (P p : string) (base : Z)
    (head : fileHeadState) (w : World) :
  calm env rs → normalizeProjectPath (RootOf env) P = Ok p → p ≠ "." →
  writable (w_os w) (key_of rs p) → db_wf (w_db w) → head_for p (w_db w) < maxInt64 →
  (ResolveFileHead env p w).2 = Ok head →
  stale base head = false → unchanged [] head = false →
  let v := head_for p (w_db w) + 1 in
  let '(w', r) := Sync.WriteFile env policy P None base w in
  r = Ok {| Sync.wf_Conflicted := false; Sync.wf_ConflictPath := ""; Sync.wf_NewVersion := v |} ∧
  (Core.ReadFile env P w').2 = Ok [] ∧
  ∃ msg, (VersionSvc.GetVersion env P v w').2 = Err (Status NotFound msg).
Proof.
  intros Hcalm HP Hne Hw Hwf Hlt Hhead Hst Hun v.
  destruct (calm_normalize env rs Hcalm P p HP) as [Hp HPr].
  pose proof (head_for_range p (w_db w) Hwf) as Hrange.
  destruct (doWriteFile_run env policy rs Hcalm P p None base head w) as (t' & Hwt & Hrun); [done..|].
  unfold Sync.WriteFile. rewrite Hrun.
  set (ct := if h_Exists head then "modify" else "create").
  set (now := unix_seconds (e_clock env "SaveFileSnapshot")).
  set (meta := mkMeta p false 0 now (ComputeHash []) 0).
  set (w' := after_write env p (h_Exists head) None t' w).
  assert (w_db w' = saved meta "" ct None v (w_db w)) as Hdb by reflexivity.
  destruct (saved_reads meta "" ct None v (w_db w)) as (Hrec & _ & _); [lia..|].
  destruct (no_version_above_head p v (w_db w) Hwf) as [_ Hb]; [lia|].
  split_and!; [done| |].
  - unfold Core.ReadFile, Core.normalized, go_bind, go_lift. rewrite HP. cbn [map_err].
    unfold Core.grpc, go_map_err. erewrite fs_ReadFile_run; [reflexivity|done|done|].
    apply (wt_file _ _ _ _ _ Hwt).
  - eexists. unfold VersionSvc.GetVersion, go_bind, go_lift. rewrite HPr. cbn [map_err].
    unfold Core.grpc, go_map_err, read_db, go_read. rewrite (calm_db _ _ Hcalm), Hdb.
    change p with (m_Path meta) at 1. rewrite Hrec. cbn [map_err v_ChangeType].
    rewrite bool_decide_false by (unfold ct; by destruct (h_Exists head)).
    rewrite Hdb. unfold GetVersionData, query. cbn [f_stmt no_db_faults].
    rewrite sql_uint64_arg_in by lia. cbn [res_bind saved new_version t_version_blob put_blob].
    rewrite Hb. reflexivity.
Qed.
