(* ===== verification/Examples.v ===== *)
(** * The write theorems at concrete inputs

    Witnesses of the theorems of Writes.v, Conflicts.v and Ranges.v, and a
    rename that loses a file. *)

From S2P Require Import Prelude GoStrings FsPath OsFs Database DatabaseSpec Hash World Mutations Services Writes Conflicts Ranges.
Import Mutation.
Open Scope string_scope.
Open Scope Z_scope.
Open Scope list_scope.
#[local] Existing Instance ascii_only_unicode.
#[local] Existing Instance ex_cwd.

Lemma plain_srv : Forall plain ["srv"].
Proof. constructor; [by repeat split|constructor]. Qed.

Lemma ex_calm : calm ex_env ["srv"].
Proof. split; [apply plain_srv|reflexivity..]. Qed.

Lemma ex_writable : writable (w_os ex_world) (key_of ["srv"] "a/b.txt").
Proof.
  assert (∀ k n, node_at (w_os ex_world) k = Some n → k = [] ∨ k = ["srv"]) as Hk.
  { intros k n. unfold node_at. simpl. unfold ex_os.
    destruct (decide (["srv"] = k)) as [<-|Hne]; [by right|].
    rewrite lookup_singleton_ne by done. destruct (decide (k = [])) as [->|]; [by left|done]. }
  split.
  - intros pre _ _ c mt E. destruct (Hk _ _ E) as [->| ->]; vm_compute in E; discriminate E.
  - intros mt E. destruct (Hk _ _ E) as [E'|E']; discriminate E'.
Qed.


Lemma empty_write_has_no_content_witness :
  let '(w', r) := Sync.WriteFile ex_env Sync.default_policy "a/b.txt" None 0 ex_world in
  r = Ok {| Sync.wf_Conflicted := false; Sync.wf_ConflictPath := ""; Sync.wf_NewVersion := 1 |} ∧
  (Core.ReadFile ex_env "a/b.txt" w').2 = Ok [] ∧
  ∃ msg, (VersionSvc.GetVersion ex_env "a/b.txt" 1 w').2 = Err (Status NotFound msg).
Proof.
  pose proof (empty_write_has_no_content ex_env Sync.default_policy ["srv"] "a/b.txt" "a/b.txt" 0
    no_head ex_world) as H. cbv zeta in H.
  assert (head_for "a/b.txt" (w_db ex_world) = 0) as E by reflexivity. rewrite E in H.
  destruct (Sync.WriteFile ex_env Sync.default_policy "a/b.txt" None 0 ex_world) as [w' r].
  apply H.
  - apply ex_calm.
  - vm_compute. reflexivity.
  - discriminate.
  - apply ex_writable.
  - apply empty_db_wf.
  - reflexivity.
  - vm_compute. reflexivity.
  - reflexivity.
  - reflexivity.
Defined.

(** ** A stale write *)

(** [a.txt] at version 3. *)
Definition tracked_os : OsState :=
  <[ ["srv"; "a.txt"] := FileNode [Byte.x61] 5 ]> {[ ["srv"] := DirNode 0 ]}.
Definition tracked_world : World :=
  mkWorld tracked_os
    (mkDb {[ "a.txt" := mkMetaRow false 1 0 "h3" 3 ]} ∅ ∅ {[ "a.txt" := 3 ]}) 0 0 [] None [].
Definition tracked_head : fileHeadState := mkHead true false 3 1 0 "h3".

Lemma tracked_plain : tree_plain (w_os tracked_world).
Proof.
  intros k n. simpl. unfold tracked_os. rewrite lookup_insert_Some, lookup_singleton_Some.
  intros [[<- _]|[_ [<- _]]]; [|apply plain_srv].
  constructor; [by repeat split|constructor; [by repeat split|constructor]].
Qed.


(** ** A rename onto another tracked file *)

Definition two_files_world : World :=
  mkWorld
    (<[ ["srv"; "a.txt"] := FileNode [Byte.x61] 5 ]>
     (<[ ["srv"; "b.txt"] := FileNode [Byte.x62] 5 ]> {[ ["srv"] := DirNode 0 ]}))
    (mkDb {[ "a.txt" := mkMetaRow false 1 0 "ha" 1; "b.txt" := mkMetaRow false 1 0 "hb" 1 ]}
          {[ ("a.txt", 1) := mkVersionRow 0 "ha" 1 "" "create";
             ("b.txt", 1) := mkVersionRow 0 "hb" 1 "" "create" ]}
          {[ ("a.txt", 1) := [Byte.x61]; ("b.txt", 1) := [Byte.x62] ]}
          {[ "a.txt" := 1; "b.txt" := 1 ]}) 0 0 [] None [].

(** renaming a file onto another tracked file loses the other file.  The
    system's rename replaces it, the store then refuses to move the rows onto
    its rows, and the handler moves the file back: the request fails, the
    tables are as before and still list the target, but its file is gone. *)
Theorem rename_onto_tracked_loses_target :
  let '(w', r) := Core.Rename ex_env "a.txt" "b.txt" two_files_world in
  (∃ msg, r = Err (Status Internal msg)) ∧
  w_db w' = w_db two_files_world ∧
  is_Some (t_meta (w_db w') !! "b.txt") ∧
  node_at (w_os w') ["srv"; "a.txt"] = Some (FileNode [Byte.x61] 5) ∧
  node_at (w_os two_files_world) ["srv"; "b.txt"] = Some (FileNode [Byte.x62] 5) ∧
  node_at (w_os w') ["srv"; "b.txt"] = None.
Proof. vm_compute. split_and!; eauto. Qed.
