(* ===== verification/Runner.v ===== *)
(** * The cleanup runner

    internal/cleanup/runner.go.  The goroutine of [loop] is a state machine: its
    state is the local variables of [loop] and the buffered trigger; an event
    is one arm of its [select], with the time it happens at.  The job reads and
    changes a state [W] that the rest of the program shares with it; its result
    is the time of the next run it asks for, if any (the zero [time.Time] is
    [None]). *)

From S2P Require Import Prelude.
Open Scope Z_scope.
Open Scope list_scope.

Module Runner.

Record Runner (W : Type) := mkRunner { interval : Z; job : Z → W → W * option Z }.
Arguments mkRunner {W} _ _.
Arguments interval {W} _.
Arguments job {W} _ _ _.

Record State (W : Type) := mkState {
  shared : W;                   (* what the job works on *)
  lastRun : option Z;
  scheduledAt : option Z;       (* the timer is armed for this time *)
  triggered : bool;             (* a value is in [triggerCh] *)
  stopped : bool;
  runs : list Z;                (* the times the job ran at, latest first *)
}.
Arguments mkState {W} _ _ _ _ _ _.
Arguments shared {W} _.
Arguments lastRun {W} _.
Arguments scheduledAt {W} _.
Arguments triggered {W} _.
Arguments stopped {W} _.
Arguments runs {W} _.

Section runner.
Context {W : Type} (r : Runner W).
Implicit Types s : State W.

Definition stopTimer (s : State W) : State W :=
  mkState (shared s) (lastRun s) None (triggered s) (stopped s) (runs s).

(** [scheduleAt]: an armed timer only moves to an earlier time. *)
Definition scheduleAt (at_ : option Z) (s : State W) : State W :=
  match at_ with
  | None => stopTimer s
  | Some at_ =>
      match scheduledAt s with
      | Some cur => if cur <=? at_ then s
                    else mkState (shared s) (lastRun s) (Some at_) (triggered s) (stopped s) (runs s)
      | None => mkState (shared s) (lastRun s) (Some at_) (triggered s) (stopped s) (runs s)
      end
  end.

Definition runNow (now : Z) (s : State W) : State W :=
  let s := stopTimer s in
  let '(w, next) := job r now (shared s) in
  let s := mkState w (Some now) (scheduledAt s) (triggered s) (stopped s) (now :: runs s) in
  match next with
  | None => s
  | Some nextAt => scheduleAt (Some (if nextAt <? now then now else nextAt)) s
  end.

(** [NewRunner] at time [now]: [loop] runs the job before it first waits. *)
Definition NewRunner (now : Z) (w : W) : State W := runNow now (mkState w None None false false []).

(** [Trigger]: a second value does not fit the channel and is dropped. *)
Definition Trigger (s : State W) : State W :=
  mkState (shared s) (lastRun s) (scheduledAt s) true (stopped s) (runs s).

(** [case <-r.triggerCh] *)
Definition onTrigger (now : Z) (s : State W) : State W :=
  let s := mkState (shared s) (lastRun s) (scheduledAt s) false (stopped s) (runs s) in
  match lastRun s with
  | Some last =>
      if (0 <? interval r) && (now <? last + interval r)
      then scheduleAt (Some (last + interval r)) s
      else runNow now s
  | None => runNow now s
  end.

(** [case <-r.stopCh] *)
Definition onStop (s : State W) : State W :=
  let s := stopTimer s in mkState (shared s) (lastRun s) (scheduledAt s) (triggered s) true (runs s).

(** An event is enabled when its channel is ready; [EvWorld] is a change that
    the rest of the program makes. *)
Inductive event := EvTrigger | EvTriggerRead | EvTimer | EvStop | EvWorld (w : W).

Definition enabled (e : event) (now : Z) (s : State W) : bool :=
  match e with
  | EvTrigger | EvWorld _ => true
  | EvTriggerRead => negb (stopped s) && triggered s
  | EvTimer => negb (stopped s) && match scheduledAt s with Some at_ => at_ <=? now | None => false end
  | EvStop => negb (stopped s)
  end.

Definition handle (e : event) (now : Z) (s : State W) : State W :=
  match e with
  | EvTrigger => Trigger s
  | EvTriggerRead => onTrigger now s
  | EvTimer => runNow now s
  | EvStop => onStop s
  | EvWorld w => mkState w (lastRun s) (scheduledAt s) (triggered s) (stopped s) (runs s)
  end.

(** A run of the machine: enabled events at times that do not go back. *)
Inductive steps_from : Z → State W → list (event * Z) → State W → Prop :=
| steps_nil t s : steps_from t s [] s
| steps_cons t now e s es s' :
    t ≤ now → enabled e now s = true →
    steps_from now (handle e now s) es s' → steps_from t s ((e, now) :: es) s'.

(** The machine on given events, and whether they are a run. *)
Fixpoint play (s : State W) (es : list (event * Z)) : State W :=
  match es with
  | [] => s
  | (e, now) :: es' => play (handle e now s) es'
  end.
Fixpoint is_run (t : Z) (s : State W) (es : list (event * Z)) : bool :=
  match es with
  | [] => true
  | (e, now) :: es' => (t <=? now) && enabled e now s && is_run now (handle e now s) es'
  end.

Lemma play_steps t s es : is_run t s es = true → steps_from t s es (play s es).
Proof.
  revert t s. induction es as [|[e now] es IH]; intros t s; simpl; [constructor|].
  rewrite !andb_true_iff, Z.leb_le. intros [[Ht He] Hr]. constructor; auto.
Qed.

(** ** Facts *)

Lemma scheduleAt_runs at_ s : runs (scheduleAt at_ s) = runs s.
Proof. unfold scheduleAt, stopTimer. repeat case_match; done. Qed.

Lemma runNow_runs now s : runs (runNow now s) = now :: runs s.
Proof. unfold runNow. simpl. by destruct (job r now (shared s)) as [? []]. Qed.

Lemma runNow_scheduled now s at_ : scheduledAt (runNow now s) = Some at_ → now ≤ at_.
Proof.
  unfold runNow. simpl. destruct (job r now (shared s)) as [w [nextAt|]]; simpl; [|done].
  destruct (Z.ltb_spec nextAt now); intros [= <-]; lia.
Qed.

Lemma scheduleAt_le at_ s :
  ∃ at', scheduledAt (scheduleAt (Some at_) s) = Some at' ∧ at' ≤ at_.
Proof.
  unfold scheduleAt. destruct (scheduledAt s) as [cur|] eqn:E; [|by exists at_].
  destruct (Z.leb_spec cur at_); [by exists cur|by exists at_].
Qed.

(** A promise to run by [due]: kept already (a run after [n] of them), or the
    timer is armed for [due] at the latest. *)
Definition due_by (n : nat) (due : Z) (s : State W) : Prop :=
  (n < length (runs s))%nat ∨ (length (runs s) = n ∧ ∃ at_, scheduledAt s = Some at_ ∧ at_ ≤ due).

Lemma due_by_step n due e now s :
  due_by n due s → e ≠ EvStop → due_by n due (handle e now s).
Proof.
  intros Hd He. destruct e; simpl; [exact Hd| | |done|exact Hd].
  - unfold onTrigger. cbn [lastRun]. destruct (lastRun s) as [last|].
    2:{ left. rewrite runNow_runs. simpl. destruct Hd as [?|[? _]]; lia. }
    destruct (_ && _); [|left; rewrite runNow_runs; simpl; destruct Hd as [?|[? _]]; lia].
    unfold due_by. rewrite scheduleAt_runs. simpl.
    destruct Hd as [?|(Hn & at_ & Ha & Hle)]; [by left|right]. split; [done|].
    unfold scheduleAt. simpl. rewrite Ha. destruct (Z.leb_spec at_ (last + interval r)); simpl; eauto.
    exists (last + interval r). split; [done|lia].
  - left. rewrite runNow_runs. simpl. destruct Hd as [?|[? _]]; lia.
Qed.

Lemma stopped_runs t s es s' :
  steps_from t s es s' → stopped s = true → runs s' = runs s.
Proof.
  induction 1 as [|t now e s es s' _ Hen _ IH]; [done|]. intros Hs.
  destruct e; simpl in Hen; rewrite ?Hs in Hen; try done; by apply IH.
Qed.
End runner.
End Runner.
Export Runner.

(** The runner honours every trigger, its interval and [Close].  When
    [loop] reads a trigger at [now], either the job runs at once (and then at
    least [interval] has passed since the last run), or it is due [interval]
    after the last run: whatever happens next short of [Close], the job has run
    again or the timer is armed for that time at the latest.  Once [loop] has
    seen [Close] the job never runs again. *)
Theorem runner_serves_triggers {W} (r : Runner W) (now : Z) (s : State W) (last : Z) :
  lastRun s = Some last →
  (∀ es s', steps_from r now (handle r EvTriggerRead now s) es s' →
     Forall (λ e, e.1 ≠ EvStop) es →
     let s1 := handle r EvTriggerRead now s in
     (runs s1 = now :: runs s ∧ (0 < interval r → last + interval r ≤ now)) ∨
     (runs s1 = runs s ∧ now < last + interval r ∧
      due_by (length (runs s)) (last + interval r) s')) ∧
  (∀ es s', steps_from r now (handle r EvStop now s) es s' → runs s' = runs s).
Proof.
  intros Hlast. split.
  2:{ intros es s' Hrun. by rewrite (stopped_runs _ _ _ _ _ Hrun). }
  intros es s' Hrun Hns s1.
  assert (s1 = if (0 <? interval r) && (now <? last + interval r)
    then scheduleAt (Some (last + interval r)) (mkState (shared s) (Some last) (scheduledAt s) false (stopped s) (runs s))
    else runNow r now (mkState (shared s) (Some last) (scheduledAt s) false (stopped s) (runs s))) as Hs1.
  { unfold s1, handle, onTrigger. cbn [lastRun]. by rewrite Hlast. }
  change (steps_from r now s1 es s') in Hrun. clearbody s1.
  destruct (Z.ltb_spec 0 (interval r)) as [Hi|Hi]; simpl andb in Hs1.
  2:{ left. rewrite Hs1, runNow_runs. split; [done|lia]. }
  destruct (Z.ltb_spec now (last + interval r)) as [Hlt|Hge].
  2:{ left. rewrite Hs1, runNow_runs. split; [done|lia]. }
  right. rewrite Hs1, scheduleAt_runs. simpl. split_and!; [done|done|].
  set (s2 := scheduleAt _ _) in Hs1.
  assert (due_by (length (runs s)) (last + interval r) s2) as Hd.
  { right. unfold s2. rewrite scheduleAt_runs. split; [done|]. apply scheduleAt_le. }
  subst s1. clearbody s2. clear -Hrun Hns Hd. induction Hrun as [|t now e s2 es s' _ Hen _ IH]; [done|].
  apply Forall_cons in Hns as [He Hns]. apply IH; [done|]. by apply due_by_step.
Qed.

(** A runner with a 60 second interval whose job asks for nothing, triggered
    10 seconds after its first run. *)
Definition ex_runner : Runner unit := mkRunner 60 (λ _ w, (w, None)).
Definition ex_first : State unit := NewRunner ex_runner 100 tt.

Lemma runner_serves_triggers_witness :
  let s1 := handle ex_runner EvTriggerRead 110 (Trigger ex_first) in
  due_by 1 160 s1 ∧ handle ex_runner EvTimer 160 s1 = mkState tt (Some 160) None false false [160; 100].
Proof.
  intros s1. split; [|reflexivity].
  destruct (runner_serves_triggers ex_runner 110 (Trigger ex_first) 100) as [H _]; [reflexivity|].
  destruct (H [] s1) as [[H1 _]|(_ & _ & Hd)].
  - constructor.
  - constructor.
  - discriminate H1.
  - exact Hd.
Defined.
