(* ===== verification/Janitor.v ===== *)
(** * File janitors

    internal/serverapp/file_janitors.go and artifact_janitor.go: the retention
    policy, and the collection and removal of conflict files, log files and
    artifacts.  Times are nanoseconds; the next due time is [None] when the
    code returns the zero [time.Time]. *)

From S2P Require Import Prelude GoStrings FsPath OsFs PathOps World Runner.
Open Scope string_scope.
Open Scope Z_scope.
Open Scope list_scope.

(** ** The policy *)

Record artifactCleanupItem := mkItem {
  path : string;
  name : string;
  item_size : Z;
  modTime : Z;
}.

(** The order of the sort: oldest first, then by name. *)
Definition item_less (a b : artifactCleanupItem) : bool :=
  if modTime a =? modTime b then String.ltb (name a) (name b) else modTime a <? modTime b.

(** What the loops count, and the items they keep. *)
Record Tally := mkTally { removedCount : Z; removedBytes : Z; kept : list artifactCleanupItem }.

Section policy.
Context `{SortSlice} {W : Type} (remove : artifactCleanupItem → string → W → W * bool).

Definition keep (item : artifactCleanupItem) (s : Tally) : Tally :=
  mkTally (removedCount s) (removedBytes s) (kept s ++ [item]).
Definition count_removed (item : artifactCleanupItem) (s : Tally) : Tally :=
  mkTally (removedCount s + 1) (wrap_int64 (removedBytes s + item_size item)) (kept s).

Fixpoint retention_pass (now retention : Z) (items : list artifactCleanupItem) (s : Tally) (w : W) : W * Tally :=
  match items with
  | [] => (w, s)
  | item :: items' =>
      if (0 <? retention) && (retention <? time_Sub now (modTime item)) then
        let '(w, removed) := remove item "retention" w in
        retention_pass now retention items' (if removed then count_removed item s else s) w
      else retention_pass now retention items' (keep item s) w
  end.

Definition total_size (items : list artifactCleanupItem) : Z :=
  fold_left (λ totalBytes item, wrap_int64 (totalBytes + item_size item)) items 0.

Fixpoint max_bytes_pass (maxBytes totalBytes : Z) (items : list artifactCleanupItem) (s : Tally) (w : W) : W * Tally :=
  match items with
  | [] => (w, s)
  | item :: items' =>
      if totalBytes <=? maxBytes then max_bytes_pass maxBytes totalBytes items' (keep item s) w
      else
        let '(w, removed) := remove item "max_bytes" w in
        if removed
        then max_bytes_pass maxBytes (wrap_int64 (totalBytes - item_size item)) items' (count_removed item s) w
        else max_bytes_pass maxBytes totalBytes items' (keep item s) w
  end.

Definition next_due (retention : Z) (kept : list artifactCleanupItem) : option Z :=
  if 0 <? retention then
    fold_left (λ nextDue item,
      let expireAt := modTime item + retention in
      match nextDue with
      | None => Some expireAt
      | Some due => if expireAt <? due then Some expireAt else nextDue
      end) kept None
  else None.

Definition cleanupFilesByPolicy (items : list artifactCleanupItem) (now retention maxBytes : Z) (w : W) :
    W * (Z * Z * option Z) :=
  if (length items =? 0)%nat then (w, (0, 0, None))
  else
    let items := sort_slice item_less items in
    let '(w, s) := retention_pass now retention items (mkTally 0 0 []) w in
    let '(w, s) :=
      if 0 <? maxBytes
      then max_bytes_pass maxBytes (total_size (kept s)) (kept s)
             (mkTally (removedCount s) (removedBytes s) []) w
      else (w, s) in
    (w, (removedCount s, removedBytes s, next_due retention (kept s))).
End policy.

(** ** The three janitors *)

(** [os.Remove] or [os.RemoveAll] of an item: a missing file counts as removed. *)
Definition remove_with (rm : string → go OsState goerr unit) (item : artifactCleanupItem)
    (reason : string) (t : OsState) : OsState * bool :=
  match rm (path item) t with
  | (t', Ok _) => (t', true)
  | (t', Err err) => (t', errors_Is err ErrNotExist)
  end.

Section janitors.
Context `{GoUnicode} `{SortSlice} (flt : Faults) (dir_size : Z).

(** [entry.Info] of an entry of directory [dir]. *)
Definition entry_item (path name : string) (info : FileInfo) : artifactCleanupItem :=
  mkItem path name (fi_size info) (fi_mtime info).

Record ConflictFileCleanupRuntimeConfig := mkConflictCfg {
  cc_Enabled : bool; cc_Interval : Z; cc_Retention : Z; cc_MaxBytes : Z }.
Record conflictFileJanitor := mkConflictJanitor {
  cj_rootDir : string; cj_interval : Z; cj_retention : Z; cj_maxBytes : Z }.

Definition conflict_removeItem : artifactCleanupItem → string → OsState → OsState * bool :=
  remove_with (os_Remove flt).

Definition conflict_visit (rootDir path : string) (d : DirEntry) (err : option goerr) :
    go (OsState * list artifactCleanupItem) goerr walk_ctl := λ w,
  match err with
  | Some _ => (w, Ok WalkNext)
  | None =>
      if de_isdir d then
        (w, Ok (if negb (bool_decide (path = rootDir)) && ShouldIgnore (de_name d)
                then WalkSkipDir else WalkNext))
      else if negb (IsConflictPath (de_name d)) then (w, Ok WalkNext)
      else match os_Lstat flt dir_size path w.1 with
           | Err _ => (w, Ok WalkNext)
           | Ok info => ((w.1, w.2 ++ [entry_item path (de_name d) info]), Ok WalkNext)
           end
  end.
Definition conflict_collectItems (j : conflictFileJanitor) (t : OsState) :
    result goerr (list artifactCleanupItem) :=
  match WalkDir flt dir_size fst (conflict_visit (cj_rootDir j)) (cj_rootDir j) (t, []) with
  | ((_, items), Ok _) => Ok items
  | (_, Err err) => Err err
  end.
Definition conflict_cleanup (j : conflictFileJanitor) (now : Z) (t : OsState) : OsState * option Z :=
  match conflict_collectItems j t with
  | Err _ => (t, None)
  | Ok items =>
      let '(t, (removedCount, removedBytes, nextDue)) :=
        cleanupFilesByPolicy conflict_removeItem items now (cj_retention j) (cj_maxBytes j) t in
      (t, nextDue)
  end.
(** The runner of a janitor is part of its state in the code. *)
Definition conflict_runner (j : conflictFileJanitor) : Runner OsState :=
  mkRunner (cj_interval j) (conflict_cleanup j).
Definition newConflictFileJanitor (rootDir : string) (cfg : ConflictFileCleanupRuntimeConfig) :
    option conflictFileJanitor :=
  if bool_decide (TrimSpace rootDir = "") || negb (cc_Enabled cfg) then None
  else if (cc_Retention cfg <=? 0) && (cc_MaxBytes cfg <=? 0) then None
  else Some (mkConflictJanitor rootDir (if cc_Interval cfg <? 0 then 0 else cc_Interval cfg)
               (cc_Retention cfg) (cc_MaxBytes cfg)).

Record LogCleanupRuntimeConfig := mkLogCfg {
  lc_Enabled : bool; lc_Interval : Z; lc_Retention : Z; lc_MaxBytes : Z; lc_Patterns : list string }.
Record logFileJanitor := mkLogJanitor {
  lj_dir : string; lj_interval : Z; lj_retention : Z; lj_maxBytes : Z; lj_patterns : list string }.

Fixpoint matchesLogPattern (name : string) (patterns : list string) : bool :=
  match patterns with
  | [] => false
  | pattern :: patterns' =>
      match Glob.Match pattern name with
      | Some true => true
      | _ => if EqualFold pattern name then true else matchesLogPattern name patterns'
      end
  end.
Definition log_removeItem : artifactCleanupItem → string → OsState → OsState * bool :=
  remove_with (os_Remove flt).
Definition log_collectItems (j : logFileJanitor) (t : OsState) : result goerr (list artifactCleanupItem) :=
  match os_ReadDir flt (lj_dir j) t with
  | Err err => if errors_Is err ErrNotExist then Ok [] else Err err
  | Ok entries =>
      Ok (omap (λ e,
        let entry := entry_of e in
        if de_isdir entry then None
        else if negb (matchesLogPattern (de_name entry) (lj_patterns j)) then None
        else let path := JoinPath (lj_dir j) (de_name entry) in
             match os_Lstat flt dir_size path t with
             | Err _ => None
             | Ok info => Some (entry_item path (de_name entry) info)
             end) entries)
  end.
Definition log_cleanup (j : logFileJanitor) (now : Z) (t : OsState) : OsState * option Z :=
  match log_collectItems j t with
  | Err _ => (t, None)
  | Ok items =>
      let '(t, (removedCount, removedBytes, nextDue)) :=
        cleanupFilesByPolicy log_removeItem items now (lj_retention j) (lj_maxBytes j) t in
      (t, nextDue)
  end.
Definition log_runner (j : logFileJanitor) : Runner OsState := mkRunner (lj_interval j) (log_cleanup j).
Definition newLogFileJanitor (dir : string) (cfg : LogCleanupRuntimeConfig) : option logFileJanitor :=
  if bool_decide (TrimSpace dir = "") || negb (lc_Enabled cfg) then None
  else if (lc_Retention cfg <=? 0) && (lc_MaxBytes cfg <=? 0) then None
  else if (length (lc_Patterns cfg) =? 0)%nat then None
  else Some (mkLogJanitor dir (if lc_Interval cfg <? 0 then 0 else lc_Interval cfg)
               (lc_Retention cfg) (lc_MaxBytes cfg) (lc_Patterns cfg)).

Record ArtifactCleanupRuntimeConfig := mkArtifactCfg {
  ac_Enabled : bool; ac_Interval : Z; ac_Retention : Z; ac_MaxBytes : Z; ac_Prefixes : list string }.
Record artifactJanitor := mkArtifactJanitor {
  aj_rootDir : string; aj_interval : Z; aj_retention : Z; aj_maxBytes : Z; aj_prefixes : list string }.

Definition hasArtifactPrefix (name : string) (prefixes : list string) : bool :=
  existsb (HasPrefix name) prefixes.

Definition pathSize (path : string) (t : OsState) : result goerr Z :=
  try info := os_Lstat flt dir_size path t in
  if negb (fi_isdir info) then Ok (fi_size info)
  else
    filepath_Walk flt dir_size t (λ current currentInfo walkErr total,
      match walkErr, currentInfo with
      | Some err, _ => Err err
      | None, Some info => Ok (if fi_isdir info then total else wrap_int64 (total + fi_size info))
      | None, None => Ok total
      end) path 0.

Definition artifact_removeItem : artifactCleanupItem → string → OsState → OsState * bool :=
  remove_with (os_RemoveAll flt).
Definition artifact_collectItems (j : artifactJanitor) (t : OsState) :
    result goerr (list artifactCleanupItem) :=
  match os_ReadDir flt (aj_rootDir j) t with
  | Err err => if errors_Is err ErrNotExist then Ok [] else Err err
  | Ok entries =>
      Ok (omap (λ e,
        let name := de_name (entry_of e) in
        if negb (hasArtifactPrefix name (aj_prefixes j)) then None
        else
          let path := JoinPath (aj_rootDir j) name in
          match os_Lstat flt dir_size path t with
          | Err _ => None
          | Ok info =>
              match pathSize path t with
              | Err _ => None
              | Ok size => Some (mkItem path name size (fi_mtime info))
              end
          end) entries)
  end.
Definition artifact_cleanup (j : artifactJanitor) (now : Z) (t : OsState) : OsState * option Z :=
  match artifact_collectItems j t with
  | Err _ => (t, None)
  | Ok items =>
      if (length items =? 0)%nat then (t, None)
      else
        let '(t, (removedCount, removedBytes, nextDue)) :=
          cleanupFilesByPolicy artifact_removeItem items now (aj_retention j) (aj_maxBytes j) t in
        (t, nextDue)
  end.
Definition artifact_runner (j : artifactJanitor) : Runner OsState :=
  mkRunner (aj_interval j) (artifact_cleanup j).
Definition newArtifactJanitor (rootDir : string) (cfg : ArtifactCleanupRuntimeConfig) : option artifactJanitor :=
  if bool_decide (TrimSpace rootDir = "") || negb (ac_Enabled cfg) then None
  else if (length (ac_Prefixes cfg) =? 0)%nat then None
  else if (ac_Retention cfg <=? 0) && (ac_MaxBytes cfg <=? 0) then None
  else Some (mkArtifactJanitor rootDir (if ac_Interval cfg <? 0 then 0 else ac_Interval cfg)
               (ac_Retention cfg) (ac_MaxBytes cfg) (ac_Prefixes cfg)).
End janitors.

(** ** Facts about the policy *)

Definition sizes (items : list artifactCleanupItem) : Z :=
  foldr (λ item n, item_size item + n) 0 items.
Definition expired (now retention : Z) (item : artifactCleanupItem) : bool :=
  (0 <? retention) && (retention <? time_Sub now (modTime item)).
Definition live (now retention : Z) : list artifactCleanupItem → list artifactCleanupItem :=
  List.filter (λ item, negb (expired now retention item)).

Lemma sizes_app l1 l2 : sizes (l1 ++ l2) = sizes l1 + sizes l2.
Proof. induction l1 as [|i l1 IH]; simpl; lia. Qed.
Lemma sizes_nonneg l : Forall (λ i, 0 ≤ item_size i) l → 0 ≤ sizes l.
Proof. induction 1; simpl; lia. Qed.
Lemma sizes_perm l1 l2 : l1 ≡ₚ l2 → sizes l1 = sizes l2.
Proof. induction 1; simpl; lia. Qed.
Lemma sizes_filter f l : Forall (λ i, 0 ≤ item_size i) l → sizes (List.filter f l) ≤ sizes l.
Proof. induction 1 as [|i l Hi _ IH]; simpl; [lia|]. destruct (f i); simpl; lia. Qed.

Lemma sizes_split f l : sizes (List.filter f l) + sizes (List.filter (λ i, negb (f i)) l) = sizes l.
Proof. induction l as [|i l IH]; simpl; [lia|]. destruct (f i); simpl; lia. Qed.

Lemma total_size_sizes l :
  Forall (λ i, 0 ≤ item_size i) l → sizes l < two63 → total_size l = sizes l.
Proof.
  unfold total_size. intros Hl Hs.
  assert (∀ a, 0 ≤ a → a + sizes l < two63 →
    fold_left (λ n i, wrap_int64 (n + item_size i)) l a = a + sizes l) as Hf; [|by rewrite Hf].
  clear Hs. induction Hl as [|i l Hi Hl IH]; simpl; intros a Ha Hs; [lia|].
  pose proof (sizes_nonneg l Hl). rewrite wrap_int64_id by (unfold is_int64, two63 in *; lia).
  rewrite IH; lia.
Qed.

Lemma string_ltb_leb a b : String.ltb a b = negb (String.leb b a).
Proof. unfold String.ltb, String.leb. rewrite String.compare_antisym. by destruct (String.compare b a). Qed.
Lemma string_ltb_neg_trans x y z :
  String.ltb y x = false → String.ltb z y = false → String.ltb z x = false.
Proof.
  rewrite !string_ltb_leb, !negb_false_iff. intros H1 H2.
  assert (String.le x z) as Hle; [trans y; by apply Is_true_true|by apply Is_true_true].
Qed.

Lemma item_less_order : StrictWeakOrder item_less.
Proof.
  split; unfold item_less.
  - intros x y. rewrite (Z.eqb_sym (modTime y)). destruct (Z.eqb_spec (modTime x) (modTime y)).
    + unfold String.ltb. rewrite (String.compare_antisym (name y)). by destruct (String.compare _ _).
    + rewrite Z.ltb_lt, Z.ltb_ge. lia.
  - intros x y z.
    destruct (Z.eqb_spec (modTime y) (modTime x)), (Z.eqb_spec (modTime z) (modTime y)),
      (Z.eqb_spec (modTime z) (modTime x)); try lia;
      rewrite ?Z.ltb_ge; try lia. apply string_ltb_neg_trans.
Qed.

(** Removal that always does [eff] and succeeds on the [removable] items. *)
Section run_policy.
Context {W : Type} (eff : artifactCleanupItem → string → W → W) (removable : artifactCleanupItem → bool).

Definition remove_det (item : artifactCleanupItem) (reason : string) (w : W) : W * bool :=
  (eff item reason w, removable item).
Definition attempt (reason : string) (items : list artifactCleanupItem) (w : W) : W :=
  fold_left (λ w item, eff item reason w) items w.
Definition stuck : list artifactCleanupItem → list artifactCleanupItem :=
  List.filter (λ item, negb (removable item)).
(** A tally after [items] were attempted and [k] kept. *)
Definition tallied (attempted k : list artifactCleanupItem) (s : Tally) : Tally :=
  let gone := List.filter removable attempted in
  mkTally (removedCount s + Z.of_nat (length gone)) (removedBytes s + sizes gone) (kept s ++ k).

Lemma tallied_app a1 a2 k1 k2 s : tallied a2 k2 (tallied a1 k1 s) = tallied (a1 ++ a2) (k1 ++ k2) s.
Proof.
  unfold tallied. simpl. rewrite List.filter_app, length_app, sizes_app, app_assoc. f_equal; lia.
Qed.

Lemma keep_tallied item s : keep item s = tallied [] [item] s.
Proof. unfold keep, tallied. simpl. by rewrite !Z.add_0_r. Qed.
Lemma count_tallied item s :
  0 ≤ removedBytes s → 0 ≤ item_size item → removedBytes s + item_size item < two63 →
  (if removable item then count_removed item s else s) = tallied [item] [] s.
Proof.
  intros. unfold count_removed, tallied. simpl. destruct (removable item); simpl; rewrite app_nil_r.
  - rewrite wrap_int64_id by (unfold is_int64, two63 in *; lia). f_equal; lia.
  - rewrite !Z.add_0_r. by destruct s.
Qed.
Lemma tallied_bytes a k s :
  Forall (λ i, 0 ≤ item_size i) a → 0 ≤ removedBytes s →
  0 ≤ removedBytes (tallied a k s) ≤ removedBytes s + sizes a.
Proof.
  intros Ha Hs. simpl. pose proof (sizes_filter removable a Ha) as Hle.
  assert (0 ≤ sizes (List.filter removable a)); [|lia]. apply sizes_nonneg. clear Hle.
  induction Ha; simpl; [constructor|]. case_match; [by constructor|done].
Qed.

Lemma retention_pass_run now retention items : ∀ s w,
  Forall (λ i, 0 ≤ item_size i) items → 0 ≤ removedBytes s → removedBytes s + sizes items < two63 →
  let old := List.filter (expired now retention) items in
  retention_pass remove_det now retention items s w =
  (attempt "retention" old w, tallied old (live now retention items) s).
Proof.
  induction items as [|item items IH]; intros s w Hi Hs Hb old.
  { unfold tallied. simpl. rewrite !Z.add_0_r, app_nil_r. by destruct s. }
  apply Forall_cons in Hi as [Hi His]. pose proof (sizes_nonneg _ His). simpl in Hb.
  subst old. simpl. fold (expired now retention item). destruct (expired now retention item) eqn:E; simpl.
  - unfold remove_det. rewrite count_tallied by lia.
    destruct (tallied_bytes [item] [] s) as [? Hb']; [by constructor|done|]. simpl in Hb'.
    rewrite IH; [|done|done|simpl; lia]. by rewrite tallied_app.
  - rewrite keep_tallied, IH; [by rewrite tallied_app|done|simpl; lia|simpl; lia].
Qed.

Lemma max_bytes_pass_fits maxBytes t items : ∀ s w,
  t ≤ maxBytes → max_bytes_pass remove_det maxBytes t items s w = (w, tallied [] items s).
Proof.
  induction items as [|item items IH]; intros s w Ht; simpl.
  { unfold tallied. simpl. rewrite !Z.add_0_r, app_nil_r. by destruct s. }
  destruct (Z.leb_spec t maxBytes); [|lia]. rewrite keep_tallied, IH by done. by rewrite tallied_app.
Qed.

(** What is left when [i] items were attempted, [b] being kept before them. *)
Definition left_after (b : Z) (items : list artifactCleanupItem) (i : nat) : Z :=
  b + sizes (stuck (take i items)) + sizes (drop i items).

Lemma left_after_S b item items i :
  left_after b (item :: items) (S i)
  = left_after (b + if removable item then 0 else item_size item) items i.
Proof. unfold left_after, stuck. simpl. destruct (removable item); simpl; lia. Qed.

(** The size pass attempts a prefix: the first one after which the rest fits. *)
Lemma max_bytes_pass_run maxBytes items : ∀ b s w,
  Forall (λ i, 0 ≤ item_size i) items → 0 ≤ b → b + sizes items < two63 →
  0 ≤ removedBytes s → removedBytes s + sizes items < two63 →
  ∃ k, (k ≤ length items)%nat ∧
    max_bytes_pass remove_det maxBytes (b + sizes items) items s w =
      (attempt "max_bytes" (take k items) w,
       tallied (take k items) (stuck (take k items) ++ drop k items) s) ∧
    (k = length items ∨ left_after b items k ≤ maxBytes) ∧
    (∀ i, (i < k)%nat → maxBytes < left_after b items i).
Proof.
  induction items as [|item items IH]; intros b s w Hi Hb Hs Hr Hrs.
  { exists 0%nat. split_and!; [done| |by left|lia]. simpl.
    unfold tallied. simpl. rewrite !Z.add_0_r, app_nil_r. by destruct s. }
  pose proof Hi as Hi0. apply Forall_cons in Hi as [Hi His]. pose proof (sizes_nonneg _ His).
  cbn [sizes foldr] in *. fold (sizes items) in *.
  destruct (Z.leb_spec (b + (item_size item + sizes items)) maxBytes) as [Hle|Hgt].
  { exists 0%nat. rewrite (max_bytes_pass_fits _ _ (item :: items)) by done.
    split_and!; [lia|done| |lia]. right. unfold left_after. simpl. lia. }
  destruct (tallied_bytes [item] [] s) as [? Hb']; [by constructor|done|]. cbn [sizes foldr] in Hb'.
  destruct (IH (b + if removable item then 0 else item_size item)
               (tallied [item] (if removable item then [] else [item]) s)
               (eff item "max_bytes" w)) as (k & Hk & Hrun & Hfit & Hmin).
  1: done. 1: by case_match; lia. 1: by case_match; lia. 1: done. 1: simpl in *; lia.
  exists (S k). split_and!.
  - simpl. lia.
  - rewrite tallied_app in Hrun. simpl max_bytes_pass.
    destruct (Z.leb_spec (b + (item_size item + sizes items)) maxBytes); [lia|].
    unfold remove_det at 1. pose proof (count_tallied item s) as Hct.
    unfold stuck in *. simpl in *. destruct (removable item) eqn:E; simpl in *.
    + rewrite wrap_int64_id by (unfold is_int64, two63 in *; lia).
      rewrite Hct by lia. rewrite <- Hrun. f_equal. lia.
    + rewrite <- Hrun, keep_tallied. f_equal; [lia|]. unfold tallied. simpl. rewrite E.
      f_equal; simpl; lia.
  - rewrite left_after_S. destruct Hfit as [->|?]; [by left|by right].
  - intros [|i] Hlt; [|rewrite left_after_S; apply Hmin; lia].
    unfold left_after. simpl. lia.
Qed.
End run_policy.

Lemma next_due_spec retention l :
  0 < retention →
  (∀ i, i ∈ l → ∃ d, next_due retention l = Some d ∧ d ≤ modTime i + retention) ∧
  (∀ d, next_due retention l = Some d → ∃ i, i ∈ l ∧ d = modTime i + retention).
Proof.
  intros Hr. unfold next_due. destruct (Z.ltb_spec 0 retention); [|lia].
  induction l as [|i l IH] using rev_ind; [split; [intros i Hi; by apply not_elem_of_nil in Hi|done]|].
  rewrite fold_left_app. simpl. destruct IH as [IH1 IH2]. destruct (fold_left _ l None) as [d0|] eqn:E.
  - destruct (IH2 d0 eq_refl) as (i0 & Hi0 & Hd0). split.
    + intros j [Hj|Hj%list_elem_of_singleton]%elem_of_app.
      * destruct (IH1 j Hj) as (d & [= <-] & Hd).
        destruct (Z.ltb_spec (modTime i + retention) d0); eexists; split; [done|lia|done|lia].
      * subst j. destruct (Z.ltb_spec (modTime i + retention) d0); eexists; split; [done|lia|done|lia].
    + intros d Hd. destruct (Z.ltb_spec (modTime i + retention) d0); injection Hd as <-.
      * exists i. split; [set_solver|done].
      * exists i0. split; [set_solver|done].
  - split.
    + intros j [Hj|Hj%list_elem_of_singleton]%elem_of_app.
      * destruct (IH1 j Hj) as (d & ? & _). done.
      * subst j. eexists; split; [done|lia].
    + intros d [= <-]. exists i. split; [set_solver|done].
Qed.

Lemma Forall_lfilter {A} (P : A → Prop) f (l : list A) : Forall P l → Forall P (List.filter f l).
Proof. induction 1; simpl; [constructor|]. case_match; [by constructor|done]. Qed.

(** C36: the retention policy of every janitor.  Items older than [retention]
    are removed, oldest first; then, when a byte limit is set, the oldest of the
    rest, and no more of them than it takes to bring what is kept under the
    limit; an item that cannot be removed is kept and stays in the total, except
    that an expired one is neither counted nor kept.  The counters report
    exactly the removals that succeeded, and the next run is asked for at the
    earliest time a kept item expires. *)
Theorem cleanup_policy `{SortSlice} {W} (eff : artifactCleanupItem → string → W → W)
    (removable : artifactCleanupItem → bool) (items : list artifactCleanupItem)
    (now retention maxBytes : Z) (w : W) :
  Forall (λ i, 0 ≤ item_size i) items → sizes items < two63 →
  let '(w', (n, bytes, due)) :=
    cleanupFilesByPolicy (remove_det eff removable) items now retention maxBytes w in
  ∃ sorted k,
    sorted ≡ₚ items ∧ StronglySorted (λ x y, item_less y x = false) sorted ∧
    let old := List.filter (expired now retention) sorted in
    let fresh := live now retention sorted in
    let kept := λ i, stuck removable (take i fresh) ++ drop i fresh in
    let gone := List.filter removable (old ++ take k fresh) in
    w' = attempt eff "max_bytes" (take k fresh) (attempt eff "retention" old w) ∧
    n = Z.of_nat (length gone) ∧ bytes = sizes gone ∧
    (0 < maxBytes → (k = length fresh ∨ sizes (kept k) ≤ maxBytes) ∧
                    ∀ i, (i < k)%nat → maxBytes < sizes (kept i)) ∧
    (maxBytes ≤ 0 → k = 0%nat) ∧
    (0 < retention →
       (∀ i, i ∈ kept k → ∃ d, due = Some d ∧ d ≤ modTime i + retention) ∧
       (∀ d, due = Some d → ∃ i, i ∈ kept k ∧ d = modTime i + retention)) ∧
    (retention ≤ 0 → due = None).
Proof.
  intros Hi Hs. unfold cleanupFilesByPolicy.
  pose proof (sort_slice_perm item_less items) as Hp.
  pose proof (sort_slice_sorted item_less items item_less_order) as Hsorted.
  destruct (Nat.eqb_spec (length items) 0) as [Hn|Hn].
  { exists [], 0%nat. apply length_zero_iff_nil in Hn as ->. split_and!; try done; [constructor|..].
    - intros Hm. split; [by left|intros i Hlt; lia].
    - intros Hr. split; [intros i Hin; by apply not_elem_of_nil in Hin|done]. }
  set (l := sort_slice item_less items) in *. rewrite <- Hp in Hi. rewrite <- (sizes_perm _ _ Hp) in Hs.
  rewrite retention_pass_run by (simpl; done || lia). unfold tallied at 1. simpl.
  set (old := List.filter _ l). set (fresh := live now retention l).
  assert (Hof : sizes old + sizes fresh = sizes l).
  { apply sizes_split. }
  assert (Hold : Forall (λ i, 0 ≤ item_size i) old) by by apply Forall_lfilter.
  assert (Hfresh : Forall (λ i, 0 ≤ item_size i) fresh) by by apply Forall_lfilter.
  pose proof (sizes_nonneg _ Hold). pose proof (sizes_nonneg _ Hfresh).
  pose proof (sizes_filter removable _ Hold).
  pose proof (sizes_nonneg _ (Forall_lfilter _ removable _ Hold)).
  assert (Hdue : ∀ kept, (0 < retention →
       (∀ i, i ∈ kept → ∃ d, next_due retention kept = Some d ∧ d ≤ modTime i + retention) ∧
       (∀ d, next_due retention kept = Some d → ∃ i, i ∈ kept ∧ d = modTime i + retention)) ∧
    (retention ≤ 0 → next_due retention kept = None)).
  { intros kept. split; [apply next_due_spec|]. intros Hr. unfold next_due.
    destruct (Z.ltb_spec 0 retention); [lia|done]. }
  destruct (Z.ltb_spec 0 maxBytes) as [Hm|Hm].
  - rewrite total_size_sizes by (done || lia).
    destruct (max_bytes_pass_run eff removable maxBytes fresh 0
                (mkTally (Z.of_nat (length (List.filter removable old)))
                         (sizes (List.filter removable old)) [])
                (attempt eff "retention" old w)) as (k & Hk & Hrun & Hfit & Hmin); simpl; try done; try lia.
    change (0 + sizes fresh) with (sizes fresh) in Hrun.
    change (0 + Z.of_nat (length (List.filter removable old))) with (Z.of_nat (length (List.filter removable old))).
    change (0 + sizes (List.filter removable old)) with (sizes (List.filter removable old)).
    rewrite Hrun. exists l, k. fold old fresh. destruct (Hdue (stuck removable (take k fresh) ++ drop k fresh)).
    unfold left_after in *. rewrite List.filter_app, length_app, sizes_app, sizes_app. simpl.
    split_and!; try done; [lia| |lia].
    intros _. split; [destruct Hfit; [by left|right; lia]|]. intros i Hlt.
    rewrite sizes_app. specialize (Hmin i Hlt). lia.
  - exists l, 0%nat. fold old fresh. destruct (Hdue fresh).
    simpl. rewrite List.filter_app, app_nil_r. split_and!; done || lia.
Qed.

(** Four logs at time 1000 under a retention of 500 and a limit of 25 bytes:
    the oldest has expired, the next is removed for its size. *)
Definition ex_items : list artifactCleanupItem :=
  [mkItem "logs/c" "c" 20 900; mkItem "logs/a" "a" 10 400; mkItem "logs/b" "b" 10 700; mkItem "logs/d" "d" 5 950].
Definition ex_log (item : artifactCleanupItem) (reason : string) (w : list (string * string)) :
    list (string * string) := w ++ [(name item, reason)].

Lemma cleanup_policy_witness :
  let '(w', (n, bytes, due)) :=
    @cleanupFilesByPolicy merge_sort_slice _ (remove_det ex_log (λ _, true)) ex_items 1000 500 25 [] in
  w' = [("a", "retention"); ("b", "max_bytes")] ∧ n = 2 ∧ bytes = 20 ∧ due = Some 1400 ∧
  ∃ sorted, sorted ≡ₚ ex_items ∧ StronglySorted (λ x y, item_less y x = false) sorted.
Proof.
  assert (Forall (λ i, 0 ≤ item_size i) ex_items) as Hi.
  { repeat (apply Forall_cons; split; [vm_compute; discriminate|]). constructor. }
  assert (sizes ex_items < two63) as Hs by (vm_compute; reflexivity).
  pose proof (@cleanup_policy merge_sort_slice _ ex_log (λ _, true) ex_items 1000 500 25 [] Hi Hs) as H.
  assert (@cleanupFilesByPolicy merge_sort_slice _ (remove_det ex_log (λ _, true)) ex_items 1000 500 25 []
          = ([("a", "retention"); ("b", "max_bytes")], (2, 20, Some 1400))) as E by (vm_compute; reflexivity).
  rewrite E in H |- *. destruct H as (sorted & k & Hp & Hsorted & _).
  split_and!; [done..|by exists sorted].
Defined.
