(* ===== verification/Recorder.v ===== *)
(** * The observability recorder

    internal/observability/recorder.go: counters of range writes, builds and
    RPCs, small-write bursts, and latency percentiles over the last samples.
    Times are nanoseconds; [None] is the zero [time.Time].  The mutex makes
    every operation atomic; a nil [*Recorder] is [None]. *)

From S2P Require Import Prelude GoStrings World.
Open Scope string_scope.
Open Scope Z_scope.
Open Scope list_scope.

Module Recorder.

Record Config := mkConfig {
  RPCLatencySampleSize : Z;
  SmallWriteThreshold : Z;
  SmallWriteWindow : Z;
  SmallWriteBurstMinimum : Z;
}.

Definition DefaultConfig : Config := mkConfig 256 65536 1000000000 4.

(** ** Samples *)

Record durationSampler := mkSampler {
  values : list Z;
  limit : Z;
  next : Z;
  ds_count : Z;
}.

Record DurationStats := mkStats { Count : Z; P50Ms : Z; P95Ms : Z; P99Ms : Z }.

(** [duration.Milliseconds()] *)
Definition Milliseconds (d : Z) : Z := Z.quot d 1000000.

Definition sampler_Add (duration : Z) (s : durationSampler) : durationSampler :=
  let duration := if duration <? 0 then 0 else duration in
  let ms := Milliseconds duration in
  let s := mkSampler (values s) (limit s) (next s) (wrap_int64 (ds_count s + 1)) in
  if limit s <=? 0 then mkSampler (values s ++ [ms]) (limit s) (next s) (ds_count s)
  else if Z.of_nat (length (values s)) <? limit s
  then mkSampler (values s ++ [ms]) (limit s) (next s) (ds_count s)
  else mkSampler (<[Z.to_nat (next s) := ms]> (values s)) (limit s)
         (Z.rem (next s + 1) (limit s)) (ds_count s).

Definition percentile (values : list Z) (p : Z) : Z :=
  let at_ i := default 0 (values !! Z.to_nat i) in
  let len := Z.of_nat (length values) in
  if len =? 0 then 0
  else if p <=? 0 then at_ 0
  else if 100 <=? p then at_ (len - 1)
  else
    let index := Z.quot (len * p + 99) 100 in
    let index := if index <=? 0 then 1 else index in
    let index := if len <? index then len else index in
    at_ (index - 1).

Definition sampler_Snapshot `{SortSlice} (s : durationSampler) : DurationStats :=
  if Z.of_nat (length (values s)) =? 0 then mkStats (ds_count s) 0 0 0
  else
    let sorted := sort_slice Z.ltb (values s) in
    mkStats (ds_count s) (percentile sorted 50) (percentile sorted 95) (percentile sorted 99).

(** ** The recorder *)

Record rpcStats := mkRpcStats { rpc_count : Z; errorCount : Z; latency : durationSampler }.

Record smallWriteWindow := mkWindow { start : option Z; last_write : Z; sw_count : Z }.

Record Recorder := mkRecorder {
  cfg : Config;
  rangeWriteCalls : Z;
  rangeWriteBytes : Z;
  rangeWriteConflictCalls : Z;
  smallWriteBursts : Z;
  smallWriteState : gmap string smallWriteWindow;
  smallWritePathCounts : gmap string Z;
  buildSuccessCount : Z;
  buildFailureCount : Z;
  buildLogBytes : Z;
  buildQueueWait : durationSampler;
  buildDuration : durationSampler;
  rpc : gmap string rpcStats;
}.

Definition new_sampler (limit : Z) : durationSampler := mkSampler [] limit 0 0.

Definition NewRecorder (c : Config) : Recorder :=
  let size := if RPCLatencySampleSize c <=? 0 then 256 else RPCLatencySampleSize c in
  let threshold := if SmallWriteThreshold c <=? 0 then 65536 else SmallWriteThreshold c in
  let window := if SmallWriteWindow c <=? 0 then 1000000000 else SmallWriteWindow c in
  let burst := if SmallWriteBurstMinimum c <=? 1 then 4 else SmallWriteBurstMinimum c in
  mkRecorder (mkConfig size threshold window burst) 0 0 0 0 ∅ ∅ 0 0 0
    (new_sampler size) (new_sampler size) ∅.

(** The map entry of a method is created on its first call; the code updates
    it through the pointer in the map. *)
Definition RecordRPC (method : string) (code : Code) (duration : Z) (r : option Recorder) : option Recorder :=
  match r with
  | None => None
  | Some r =>
      if bool_decide (TrimSpace method = "") then Some r
      else
        let stats := default (mkRpcStats 0 0 (new_sampler (RPCLatencySampleSize (cfg r)))) (rpc r !! method) in
        let stats := mkRpcStats (wrap_int64 (rpc_count stats + 1))
                       (if bool_decide (code = OK) then errorCount stats else wrap_int64 (errorCount stats + 1))
                       (sampler_Add duration (latency stats)) in
        Some (mkRecorder (cfg r) (rangeWriteCalls r) (rangeWriteBytes r) (rangeWriteConflictCalls r)
          (smallWriteBursts r) (smallWriteState r) (smallWritePathCounts r)
          (buildSuccessCount r) (buildFailureCount r) (buildLogBytes r)
          (buildQueueWait r) (buildDuration r) (<[method := stats]> (rpc r)))
  end.

Definition RecordBuildQueueWait (wait : Z) (r : option Recorder) : option Recorder :=
  match r with
  | None => None
  | Some r =>
      Some (mkRecorder (cfg r) (rangeWriteCalls r) (rangeWriteBytes r) (rangeWriteConflictCalls r)
        (smallWriteBursts r) (smallWriteState r) (smallWritePathCounts r)
        (buildSuccessCount r) (buildFailureCount r) (buildLogBytes r)
        (sampler_Add wait (buildQueueWait r)) (buildDuration r) (rpc r))
  end.

Definition RecordBuildCompletion (success : bool) (duration logBytes : Z) (r : option Recorder) :
    option Recorder :=
  match r with
  | None => None
  | Some r =>
      let logBytes := if logBytes <? 0 then 0 else logBytes in
      Some (mkRecorder (cfg r) (rangeWriteCalls r) (rangeWriteBytes r) (rangeWriteConflictCalls r)
        (smallWriteBursts r) (smallWriteState r) (smallWritePathCounts r)
        (if success then wrap_int64 (buildSuccessCount r + 1) else buildSuccessCount r)
        (if success then buildFailureCount r else wrap_int64 (buildFailureCount r + 1))
        (wrap_int64 (buildLogBytes r + logBytes))
        (buildQueueWait r) (sampler_Add duration (buildDuration r)) (rpc r))
  end.

Definition set_small (bursts : Z) (state : gmap string smallWriteWindow) (counts : gmap string Z)
    (r : Recorder) : Recorder :=
  mkRecorder (cfg r) (rangeWriteCalls r) (rangeWriteBytes r) (rangeWriteConflictCalls r)
    bursts state counts
    (buildSuccessCount r) (buildFailureCount r) (buildLogBytes r)
    (buildQueueWait r) (buildDuration r) (rpc r).

Definition recordRangeWriteAt (path : string) (bytes : Z) (conflicted : bool) (now : Z)
    (r : option Recorder) : option Recorder :=
  match r with
  | None => None
  | Some r =>
      let bytes := if bytes <? 0 then 0 else bytes in
      let r := mkRecorder (cfg r) (wrap_int64 (rangeWriteCalls r + 1))
        (wrap_int64 (rangeWriteBytes r + bytes))
        (if conflicted then wrap_int64 (rangeWriteConflictCalls r + 1) else rangeWriteConflictCalls r)
        (smallWriteBursts r) (smallWriteState r) (smallWritePathCounts r)
        (buildSuccessCount r) (buildFailureCount r) (buildLogBytes r)
        (buildQueueWait r) (buildDuration r) (rpc r) in
      if bool_decide (TrimSpace path = "") || (bytes =? 0) || (SmallWriteThreshold (cfg r) <? bytes)
      then Some r
      else
        let window := default (mkWindow None 0 0) (smallWriteState r !! path) in
        if bool_decide (start window = None)
           || (SmallWriteWindow (cfg r) <? time_Sub now (last_write window))
        then Some (set_small (smallWriteBursts r)
                     (<[path := mkWindow (Some now) now 1]> (smallWriteState r))
                     (smallWritePathCounts r) r)
        else
          let window := mkWindow (start window) now (wrap_int64 (sw_count window + 1)) in
          let '(bursts, counts) :=
            if sw_count window =? SmallWriteBurstMinimum (cfg r)
            then (wrap_int64 (smallWriteBursts r + 1),
                  <[path := wrap_int64 (default 0 (smallWritePathCounts r !! path) + 1)]>
                    (smallWritePathCounts r))
            else (smallWriteBursts r, smallWritePathCounts r) in
          Some (set_small bursts (<[path := window]> (smallWriteState r)) counts r)
  end.

(** ** Snapshots *)

Record PathCount := mkPathCount { pc_Path : string; pc_Count : Z }.
Record RPCLatency := mkRPCLatency {
  Method : string; rl_Count : Z; ErrorCount : Z; rl_P50Ms : Z; rl_P95Ms : Z; rl_P99Ms : Z }.
Record Snapshot := mkSnapshot {
  RangeWriteCalls : Z;
  RangeWriteBytes : Z;
  RangeWriteConflictCalls : Z;
  SmallWriteBursts : Z;
  SmallWriteHotPaths : list PathCount;
  BuildSuccessCount : Z;
  BuildFailureCount : Z;
  BuildLogBytes : Z;
  BuildQueueWait : DurationStats;
  BuildDuration : DurationStats;
  RPCLatencies : list RPCLatency;
}.

Definition hotter (a b : PathCount) : bool :=
  if pc_Count a =? pc_Count b then String.ltb (pc_Path a) (pc_Path b) else pc_Count b <? pc_Count a.

Definition snapshot `{SortSlice} (r : option Recorder) : Snapshot :=
  match r with
  | None => mkSnapshot 0 0 0 0 [] 0 0 0 (mkStats 0 0 0 0) (mkStats 0 0 0 0) []
  | Some r =>
      mkSnapshot (rangeWriteCalls r) (rangeWriteBytes r) (rangeWriteConflictCalls r) (smallWriteBursts r)
        (sort_slice hotter (map (λ e, mkPathCount e.1 e.2) (map_to_list (smallWritePathCounts r))))
        (buildSuccessCount r) (buildFailureCount r) (buildLogBytes r)
        (sampler_Snapshot (buildQueueWait r)) (sampler_Snapshot (buildDuration r))
        (sort_slice (λ a b, String.ltb (Method a) (Method b))
           (map (λ e, let latency := sampler_Snapshot (latency e.2) in
                      mkRPCLatency e.1 (rpc_count e.2) (errorCount e.2)
                        (P50Ms latency) (P95Ms latency) (P99Ms latency))
                (map_to_list (rpc r))))
  end.

Definition isZero (s : Snapshot) : bool :=
  (RangeWriteCalls s =? 0) && (RangeWriteBytes s =? 0) && (RangeWriteConflictCalls s =? 0)
  && (SmallWriteBursts s =? 0) && (BuildSuccessCount s =? 0) && (BuildFailureCount s =? 0)
  && (BuildLogBytes s =? 0) && (Z.of_nat (length (RPCLatencies s)) =? 0).

(** Whether [LogSnapshot] logs. *)
Definition LogSnapshot `{SortSlice} (r : option Recorder) : bool := negb (isZero (snapshot r)).

Definition formatHotPaths (paths : list PathCount) (limit : Z) : string :=
  let len := Z.of_nat (length paths) in
  if (len =? 0) || (limit =? 0) then ""
  else
    let limit := if (limit <? 0) || (len <? limit) then len else limit in
    Join "," (map pc_Path (take (Z.to_nat limit) paths)).

End Recorder.
Export Recorder.

(** ** Percentiles *)

Definition count_if (f : Z → bool) (l : list Z) : Z := Z.of_nat (length (List.filter f l)).

(** [v] is the [p]-th percentile of [l] by the nearest-rank method. *)
Definition is_percentile (l : list Z) (p v : Z) : Prop :=
  v ∈ l ∧ p * Z.of_nat (length l) ≤ 100 * count_if (λ x, x <=? v) l ∧
  100 * count_if (λ x, x <? v) l < p * Z.of_nat (length l).

Lemma filter_perm {A} f (l1 l2 : list A) : l1 ≡ₚ l2 → List.filter f l1 ≡ₚ List.filter f l2.
Proof.
  induction 1; simpl; [done| | |by etrans].
  - case_match; [by constructor|done].
  - repeat case_match; try done. apply Permutation_swap.
Qed.
Lemma count_if_app f l1 l2 : count_if f (l1 ++ l2) = count_if f l1 + count_if f l2.
Proof. unfold count_if. rewrite List.filter_app, length_app. lia. Qed.
Lemma count_if_perm f l1 l2 : l1 ≡ₚ l2 → count_if f l1 = count_if f l2.
Proof. intros Hp. unfold count_if. by rewrite (filter_perm f _ _ Hp). Qed.
Lemma count_if_bounds f l : 0 ≤ count_if f l ≤ Z.of_nat (length l).
Proof. unfold count_if. pose proof (List.filter_length_le f l). lia. Qed.
Lemma count_if_all f l : Forall (λ x, f x = true) l → count_if f l = Z.of_nat (length l).
Proof. unfold count_if. induction 1 as [|x l Hx _ IH]; simpl; [done|]. rewrite Hx. simpl in *. lia. Qed.
Lemma count_if_none f l : Forall (λ x, f x = false) l → count_if f l = 0.
Proof. unfold count_if. induction 1 as [|x l Hx _ IH]; simpl; [done|]. by rewrite Hx. Qed.

Lemma is_percentile_perm l1 l2 p v : l1 ≡ₚ l2 → is_percentile l1 p v → is_percentile l2 p v.
Proof.
  intros Hp (H1 & H2 & H3). unfold is_percentile.
  rewrite <- !(count_if_perm _ l1 l2 Hp), <- Hp. done.
Qed.

Lemma sorted_split l1 v l2 :
  StronglySorted (λ x y, (y <? x) = false) (l1 ++ v :: l2) →
  Forall (λ x, x ≤ v) l1 ∧ Forall (λ x, v ≤ x) l2.
Proof.
  induction l1 as [|x l1 IH]; simpl; intros Hs; apply StronglySorted_inv in Hs as [Hs Hx].
  - split; [constructor|]. eapply Forall_impl; [exact Hx|]. simpl. intros y. rewrite Z.ltb_ge. done.
  - destruct (IH Hs) as [H1 H2]. split; [|done]. constructor; [|done].
    apply Forall_app in Hx as [_ Hx]. apply Forall_cons in Hx as [Hx _]. by apply Z.ltb_ge in Hx.
Qed.

Lemma percentile_rank l p :
  StronglySorted (λ x y, (y <? x) = false) l → l ≠ [] → 0 < p < 100 →
  is_percentile l p (percentile l p).
Proof.
  intros Hs Hl Hp. unfold percentile. set (len := Z.of_nat (length l)).
  assert (1 ≤ len) by (unfold len; destruct l; simpl; [done|lia]).
  rewrite Z.quot_div_nonneg by nia. set (index := (len * p + 99) / 100).
  assert (100 * index ≤ len * p + 99 < 100 * index + 100) as Hi.
  { unfold index. pose proof (Z.mul_div_le (len * p + 99) 100 ltac:(lia)).
    pose proof (Z.mul_succ_div_gt (len * p + 99) 100 ltac:(lia)). lia. }
  clearbody index. assert (1 ≤ index ≤ len) by nia.
  destruct (Z.eqb_spec len 0), (Z.leb_spec p 0), (Z.leb_spec 100 p), (Z.leb_spec index 0); try lia.
  destruct (Z.ltb_spec len index); [lia|].
  destruct (lookup_lt_is_Some_2 l (Z.to_nat (index - 1))) as [v Hv]; [unfold len in *; lia|].
  rewrite Hv. simpl. apply list_elem_of_split_length in Hv as (l1 & l2 & -> & Hl1).
  destruct (sorted_split l1 v l2 Hs) as [Hb Ha]. unfold is_percentile.
  fold len. clearbody len.
  replace (l1 ++ v :: l2) with ((l1 ++ [v]) ++ l2) by by rewrite <- app_assoc.
  split; [set_solver|]. split.
  - rewrite count_if_app, (count_if_all _ (l1 ++ [v])).
    + pose proof (count_if_bounds (λ x, x <=? v) l2). rewrite length_app. simpl length. lia.
    + apply Forall_app. split; [|by repeat constructor; apply Z.leb_le].
      eapply Forall_impl; [exact Hb|]. intros x. apply Z.leb_le.
  - rewrite count_if_app, (count_if_none _ l2), count_if_app, (count_if_none _ [v]).
    + pose proof (count_if_bounds (λ x, x <? v) l1). lia.
    + repeat constructor. apply Z.ltb_irrefl.
    + eapply Forall_impl; [exact Ha|]. simpl. intros x. rewrite Z.ltb_ge. done.
Qed.

(** ** The window of samples *)

Definition to_ms (d : Z) : Z := Milliseconds (if d <? 0 then 0 else d).
Definition sampled (n : Z) (ds : list Z) : durationSampler :=
  fold_left (λ s d, sampler_Add d s) ds (new_sampler n).
(** The last [n] samples, in milliseconds. *)
Definition recent (n : nat) (ds : list Z) : list Z :=
  let ms := map to_ms ds in drop (length ms - n) ms.

(** The slot [next] holds the oldest sample once the window is full. *)
Lemma sampled_window (n : nat) ds :
  (0 < n)%nat →
  let s := sampled (Z.of_nat n) ds in
  limit s = Z.of_nat n ∧ ds_count s = wrap_int64 (Z.of_nat (length ds)) ∧
  length (values s) = (n `min` length ds)%nat ∧ 0 ≤ next s < Z.of_nat n ∧
  ((length ds < n)%nat → next s = 0) ∧
  drop (Z.to_nat (next s)) (values s) ++ take (Z.to_nat (next s)) (values s) = recent n ds.
Proof.
  intros Hn. induction ds as [|d ds IH] using rev_ind.
  { split_and!; try done; simpl; lia. }
  unfold sampled in *. rewrite fold_left_app. simpl fold_left.
  set (s := fold_left _ ds _) in *. destruct IH as (Hlim & Hcount & Hlen & Hnext & Hz & Hrot).
  unfold sampler_Add. cbn [limit values next ds_count]. rewrite Hlim, Hcount, Hlen.
  rewrite wrap_int64_add_l, length_app. simpl.
  replace (Z.of_nat (length ds) + 1) with (Z.of_nat (length ds + 1)) by lia.
  fold (to_ms d). unfold recent in *. rewrite map_app, length_app, length_map in *. simpl.
  destruct (Z.leb_spec (Z.of_nat n) 0); [lia|].
  destruct (Z.ltb_spec (Z.of_nat (n `min` length ds)) (Z.of_nat n)) as [Hlt|Hge]; simpl.
  - split_and!; [done|done|rewrite length_app; simpl; lia|lia|lia|intros; apply Hz; lia|].
    assert (next s = 0) as Hz0 by (apply Hz; lia). rewrite Hz0 in *.
    simpl Z.to_nat in *. rewrite !drop_0, !take_0, app_nil_r in *. rewrite Hrot.
    by replace (length ds + 1 - n)%nat with 0%nat by lia; replace (length ds - n)%nat with 0%nat by lia.
  - set (i := Z.to_nat (next s)) in *. assert (i < n)%nat by lia.
    assert (length (values s) = n) as Hlen' by lia.
    replace (length ds + 1 - n)%nat with (S (length ds - n)) by lia.
    rewrite drop_app_le by (rewrite length_map; lia).
    replace (drop (S (length ds - n)) (map to_ms ds)) with (drop 1 (drop (length ds - n) (map to_ms ds)))
      by (rewrite drop_drop; f_equal; lia).
    rewrite <- Hrot.
    destruct (lookup_lt_is_Some_2 (values s) i) as [old Hold]; [lia|].
    rewrite (drop_S _ _ _ Hold). simpl. rewrite drop_0.
    pose proof (Z.rem_bound_pos (next s + 1) (Z.of_nat n) ltac:(lia) ltac:(lia)) as Hrem.
    split_and!; [done|done|rewrite length_insert; lia|apply Hrem|apply Hrem| |].
    + lia.
    + destruct (decide (S i = n)) as [He|Hne].
      * replace (next s + 1) with (Z.of_nat n) by lia. rewrite Z.rem_same by lia.
        simpl Z.to_nat. rewrite drop_0, take_0, app_nil_r, drop_ge by lia. simpl.
        rewrite insert_take_drop by lia. by rewrite (drop_ge (values s)) by lia.
      * rewrite Z.rem_small by lia. replace (Z.to_nat (next s + 1)) with (S i) by lia.
        rewrite drop_insert_lt by lia. rewrite <- app_assoc. f_equal.
        rewrite (take_S_r _ _ (to_ms d)) by (rewrite list_lookup_insert_eq; [done|lia]).
        by rewrite take_insert_ge by lia.
Qed.

(** ** Small-write bursts *)

(** One call of [recordRangeWriteAt]. *)
Record range_write := mkWrite { rw_path : string; rw_bytes : Z; rw_conflicted : bool; rw_at : Z }.

Definition record_all (es : list range_write) (r : option Recorder) : option Recorder :=
  fold_left (λ r e, recordRangeWriteAt (rw_path e) (rw_bytes e) (rw_conflicted e) (rw_at e) r) es r.

Definition is_small (c : Config) (e : range_write) : bool :=
  negb (bool_decide (TrimSpace (rw_path e) = "")) && (0 <? rw_bytes e)
  && (rw_bytes e <=? SmallWriteThreshold c).
(** The times of the small writes to [p], latest first. *)
Definition small_times (c : Config) (p : string) (es : list range_write) : list Z :=
  rev (map rw_at (List.filter (λ e, is_small c e && bool_decide (rw_path e = p)) es)).

(** The runs of writes no further apart than the window, latest first. *)
Fixpoint runs_of (window : Z) (times : list Z) : list (list Z) :=
  match times with
  | [] => []
  | t :: times' =>
      match runs_of window times' with
      | (t' :: run) :: runs =>
          if window <? time_Sub t t' then [t] :: (t' :: run) :: runs else (t :: t' :: run) :: runs
      | runs => [t] :: runs
      end
  end.
(** A burst is a run of at least [SmallWriteBurstMinimum] writes. *)
Definition bursts (c : Config) (times : list Z) : Z :=
  Z.of_nat (length (List.filter (λ run, SmallWriteBurstMinimum c <=? Z.of_nat (length run))
                      (runs_of (SmallWriteWindow c) times))).
Definition path_bursts (c : Config) (es : list range_write) (p : string) : Z :=
  bursts c (small_times c p es).

Lemma runs_of_head window t times : ∃ run runs, runs_of window (t :: times) = (t :: run) :: runs.
Proof.
  simpl. destruct (runs_of window times) as [|[|t' run] runs]; [by eexists _, _..|].
  destruct (_ <? _); by eexists _, _.
Qed.
Lemma runs_of_length window times run runs :
  runs_of window times = run :: runs → (length run ≤ length times)%nat.
Proof.
  revert run runs. induction times as [|t times IH]; simpl; [done|]. intros run runs.
  destruct (runs_of window times) as [|[|t' run'] runs'] eqn:E.
  - intros [= <- <-]. simpl. lia.
  - intros [= <- <-]. simpl. lia.
  - specialize (IH _ _ eq_refl). simpl in IH.
    destruct (_ <? _); intros [= <- <-]; simpl; lia.
Qed.

Lemma bursts_first c t : 1 < SmallWriteBurstMinimum c → bursts c [t] = 0.
Proof.
  intros Hm. unfold bursts. cbn [runs_of List.filter length].
  destruct (Z.leb_spec (SmallWriteBurstMinimum c) (Z.of_nat 1)); [lia|done].
Qed.
Lemma bursts_far c t times t' run runs :
  1 < SmallWriteBurstMinimum c →
  runs_of (SmallWriteWindow c) times = (t' :: run) :: runs →
  SmallWriteWindow c < time_Sub t t' → bursts c (t :: times) = bursts c times.
Proof.
  intros Hm Hr Hf. unfold bursts. cbn [runs_of]. rewrite Hr.
  destruct (Z.ltb_spec (SmallWriteWindow c) (time_Sub t t')); [|lia]. cbn [List.filter length].
  destruct (Z.leb_spec (SmallWriteBurstMinimum c) (Z.of_nat 1)); [lia|done].
Qed.
Lemma bursts_near c t times t' run runs :
  runs_of (SmallWriteWindow c) times = (t' :: run) :: runs →
  time_Sub t t' ≤ SmallWriteWindow c →
  bursts c (t :: times) =
  bursts c times + if Z.of_nat (length run) + 2 =? SmallWriteBurstMinimum c then 1 else 0.
Proof.
  intros Hr Hf. unfold bursts. cbn [runs_of]. rewrite Hr.
  destruct (Z.ltb_spec (SmallWriteWindow c) (time_Sub t t')); [lia|].
  set (m := SmallWriteBurstMinimum c). cbn [List.filter length].
  destruct (Z.leb_spec m (Z.of_nat (S (S (length run))))),
    (Z.leb_spec m (Z.of_nat (S (length run)))), (Z.eqb_spec (Z.of_nat (length run) + 2) m);
    simpl; lia.
Qed.

Definition sum_over (f : string → Z) (ps : list string) : Z := foldr (λ p n, f p + n) 0 ps.
Lemma sum_over_ext f g ps : (∀ p, p ∈ ps → f p = g p) → sum_over f ps = sum_over g ps.
Proof.
  induction ps as [|p ps IH]; [done|]. simpl. intros Hfg.
  rewrite Hfg, IH; [done| |]; set_solver.
Qed.
Lemma sum_over_one f g q d ps :
  NoDup ps → q ∈ ps → (∀ p, p ≠ q → g p = f p) → g q = f q + d → sum_over g ps = sum_over f ps + d.
Proof.
  intros Hnd Hq Hne He. induction Hnd as [|p ps Hp Hnd IH]; [by apply not_elem_of_nil in Hq|].
  simpl. apply elem_of_cons in Hq as [->|Hq].
  - rewrite (sum_over_ext g f ps); [lia|]. intros p' Hp'. apply Hne. set_solver.
  - rewrite IH by done. rewrite Hne; [lia|set_solver].
Qed.

(** What the recorder holds after [es]. *)
Record holds (c : Config) (es : list range_write) (r : Recorder) : Prop := {
  h_cfg : cfg r = c;
  h_calls : rangeWriteCalls r = wrap_int64 (Z.of_nat (length es));
  h_bytes : rangeWriteBytes r = wrap_int64 (foldr (λ e n, Z.max 0 (rw_bytes e) + n) 0 es);
  h_conflicts : rangeWriteConflictCalls r
                = wrap_int64 (Z.of_nat (length (List.filter rw_conflicted es)));
  h_window p : match runs_of (SmallWriteWindow c) (small_times c p es) with
               | (t :: run) :: _ => ∃ st, smallWriteState r !! p
                                     = Some (mkWindow (Some st) t (Z.of_nat (length (t :: run))))
               | _ => smallWriteState r !! p = None
               end;
  h_paths p : default 0 (smallWritePathCounts r !! p) = path_bursts c es p;
  h_bursts ps : NoDup ps → Forall (λ e, rw_path e ∈ ps) es →
                smallWriteBursts r = sum_over (path_bursts c es) ps;
  h_bound : 0 ≤ smallWriteBursts r ≤ Z.of_nat (length es);
}.

Lemma small_times_snoc c p es e :
  small_times c p (es ++ [e]) =
  if is_small c e && bool_decide (rw_path e = p) then rw_at e :: small_times c p es
  else small_times c p es.
Proof.
  unfold small_times. rewrite List.filter_app, map_app, rev_app_distr. simpl.
  by destruct (_ && _).
Qed.

Lemma bursts_bound c times : 0 ≤ bursts c times ≤ Z.of_nat (length times).
Proof.
  unfold bursts. split; [lia|].
  assert (length (runs_of (SmallWriteWindow c) times) ≤ length times)%nat.
  { induction times as [|t times IH]; simpl; [done|].
    destruct (runs_of _ times) as [|[|t' run] runs]; simpl in *; [lia|lia|].
    destruct (_ <? _); simpl; lia. }
  pose proof (List.filter_length_le (λ run : list Z, SmallWriteBurstMinimum c <=? Z.of_nat (length run))
    (runs_of (SmallWriteWindow c) times)). lia.
Qed.
Lemma small_times_length c p es : (length (small_times c p es) ≤ length es)%nat.
Proof.
  unfold small_times. rewrite length_rev, length_map. apply List.filter_length_le.
Qed.
Lemma path_bursts_bound c es p : 0 ≤ path_bursts c es p ≤ Z.of_nat (length es).
Proof.
  pose proof (bursts_bound c (small_times c p es)). pose proof (small_times_length c p es).
  unfold path_bursts. lia.
Qed.

Lemma not_small c e :
  let bytes := if rw_bytes e <? 0 then 0 else rw_bytes e in
  bool_decide (TrimSpace (rw_path e) = "") || (bytes =? 0) || (SmallWriteThreshold c <? bytes)
  = negb (is_small c e).
Proof.
  unfold is_small. simpl. destruct (bool_decide _); [done|]. simpl.
  destruct (Z.ltb_spec (rw_bytes e) 0), (Z.ltb_spec 0 (rw_bytes e)); lia.
Qed.

(** The two halves of [recordRangeWriteAt]. *)
Definition counted (e : range_write) (r : Recorder) : Recorder :=
  mkRecorder (cfg r) (wrap_int64 (rangeWriteCalls r + 1))
    (wrap_int64 (rangeWriteBytes r + Z.max 0 (rw_bytes e)))
    (if rw_conflicted e then wrap_int64 (rangeWriteConflictCalls r + 1) else rangeWriteConflictCalls r)
    (smallWriteBursts r) (smallWriteState r) (smallWritePathCounts r)
    (buildSuccessCount r) (buildFailureCount r) (buildLogBytes r)
    (buildQueueWait r) (buildDuration r) (rpc r).

Lemma record_not_small e r :
  is_small (cfg r) e = false →
  recordRangeWriteAt (rw_path e) (rw_bytes e) (rw_conflicted e) (rw_at e) (Some r) = Some (counted e r).
Proof.
  intros Hs. unfold recordRangeWriteAt. cbn [cfg]. rewrite (not_small (cfg r) e), Hs. simpl.
  unfold counted. do 3 f_equal. destruct (Z.ltb_spec (rw_bytes e) 0); lia.
Qed.

Lemma record_first e r :
  is_small (cfg r) e = true →
  match smallWriteState r !! rw_path e with
  | None => True
  | Some win => start win = None ∨ SmallWriteWindow (cfg r) < time_Sub (rw_at e) (last_write win)
  end →
  recordRangeWriteAt (rw_path e) (rw_bytes e) (rw_conflicted e) (rw_at e) (Some r) =
  Some (set_small (smallWriteBursts r)
          (<[rw_path e := mkWindow (Some (rw_at e)) (rw_at e) 1]> (smallWriteState r))
          (smallWritePathCounts r) (counted e r)).
Proof.
  intros Hs Hw. unfold recordRangeWriteAt. cbn [cfg]. rewrite (not_small (cfg r) e), Hs.
  cbn [negb smallWriteState].
  assert (bool_decide (start (default (mkWindow None 0 0) (smallWriteState r !! rw_path e)) = None)
    || (SmallWriteWindow (cfg r) <?
          time_Sub (rw_at e) (last_write (default (mkWindow None 0 0) (smallWriteState r !! rw_path e))))
    = true) as ->.
  { destruct (smallWriteState r !! rw_path e) as [win|]; [|done]. simpl.
    destruct Hw as [->|Hw]; [done|]. apply Z.ltb_lt in Hw as ->. apply orb_true_r. }
  unfold set_small, counted. simpl. do 3 f_equal.
  all: destruct (Z.ltb_spec (rw_bytes e) 0); lia.
Qed.

Lemma record_next e r st last n :
  is_small (cfg r) e = true →
  smallWriteState r !! rw_path e = Some (mkWindow (Some st) last n) →
  time_Sub (rw_at e) last ≤ SmallWriteWindow (cfg r) →
  let hit := wrap_int64 (n + 1) =? SmallWriteBurstMinimum (cfg r) in
  recordRangeWriteAt (rw_path e) (rw_bytes e) (rw_conflicted e) (rw_at e) (Some r) =
  Some (set_small (if hit then wrap_int64 (smallWriteBursts r + 1) else smallWriteBursts r)
          (<[rw_path e := mkWindow (Some st) (rw_at e) (wrap_int64 (n + 1))]> (smallWriteState r))
          (if hit then <[rw_path e := wrap_int64 (default 0 (smallWritePathCounts r !! rw_path e) + 1)]>
                        (smallWritePathCounts r)
           else smallWritePathCounts r) (counted e r)).
Proof.
  intros Hs Hw Ht hit. unfold recordRangeWriteAt. cbn [cfg]. rewrite (not_small (cfg r) e), Hs.
  cbn [negb smallWriteState]. rewrite Hw. cbn [default from_option id start last_write].
  destruct (Z.ltb_spec (SmallWriteWindow (cfg r)) (time_Sub (rw_at e) last)); [lia|]. simpl.
  fold hit. unfold set_small, counted. simpl.
  assert ((if rw_bytes e <? 0 then 0 else rw_bytes e) = Z.max 0 (rw_bytes e)) as ->.
  { destruct (Z.ltb_spec (rw_bytes e) 0); lia. }
  by destruct hit.
Qed.

Section step.
Context (c : Config) (es : list range_write) (e : range_write) (r : Recorder)
  (Hmin : 1 < SmallWriteBurstMinimum c) (Hlen : Z.of_nat (length es) + 1 < two63) (Hr : holds c es r).

Abbreviation q := (rw_path e).
Abbreviation es' := (es ++ [e]).

Lemma total_bytes_snoc l :
  foldr (λ e n, Z.max 0 (rw_bytes e) + n) 0 (l ++ [e])
  = foldr (λ e n, Z.max 0 (rw_bytes e) + n) 0 l + Z.max 0 (rw_bytes e).
Proof. induction l as [|e' l IH]; cbn [foldr app]; [lia|]. rewrite IH. lia. Qed.

Lemma holds_intro b st ct d :
  (∀ p, p ≠ q → st !! p = smallWriteState r !! p ∧
                default 0 (ct !! p) = default 0 (smallWritePathCounts r !! p)) →
  (∀ p, p ≠ q → small_times c p es' = small_times c p es) →
  match runs_of (SmallWriteWindow c) (small_times c q es') with
  | (t :: run) :: _ => ∃ s, st !! q = Some (mkWindow (Some s) t (Z.of_nat (length (t :: run))))
  | _ => st !! q = None
  end →
  default 0 (ct !! q) = path_bursts c es' q →
  path_bursts c es' q = path_bursts c es q + d →
  b = smallWriteBursts r + d → 0 ≤ d ≤ 1 →
  holds c es' (set_small b st ct (counted e r)).
Proof.
  intros Hne Htimes Hwin Hcount Hd -> Hd01. destruct Hr as [H1 H2 H3 H4 H5 H6 H7 H8].
  split; simpl.
  - done.
  - rewrite H2, wrap_int64_add_l, length_app. simpl. f_equal. lia.
  - rewrite H3, wrap_int64_add_l, total_bytes_snoc. done.
  - rewrite H4, List.filter_app, length_app. simpl. destruct (rw_conflicted e); simpl.
    + rewrite wrap_int64_add_l. f_equal. lia.
    + f_equal. lia.
  - intros p. destruct (decide (p = q)) as [->|Hp]; [done|].
    destruct (Hne p Hp) as [-> _]. rewrite Htimes by done. apply H5.
  - intros p. destruct (decide (p = q)) as [->|Hp]; [done|].
    destruct (Hne p Hp) as [_ ->]. unfold path_bursts. rewrite Htimes by done. apply H6.
  - intros ps Hnd [Hps Hq]%Forall_app. apply Forall_cons in Hq as [Hq _].
    rewrite (H7 ps) by done. symmetry. apply sum_over_one with q; [done..| |done].
    intros p Hp. unfold path_bursts. by rewrite Htimes.
  - rewrite length_app. simpl. lia.
Qed.

Lemma times_other p : p ≠ q → small_times c p es' = small_times c p es.
Proof.
  intros Hp. rewrite small_times_snoc. by rewrite (bool_decide_eq_false_2 (q = p)), andb_false_r.
Qed.
Lemma times_same :
  small_times c q es' = if is_small c e then rw_at e :: small_times c q es else small_times c q es.
Proof. rewrite small_times_snoc. by rewrite bool_decide_eq_true_2, andb_true_r. Qed.

(** A write that opens a window. *)
Lemma holds_first :
  is_small c e = true → runs_of (SmallWriteWindow c) (small_times c q es')
    = [rw_at e] :: runs_of (SmallWriteWindow c) (small_times c q es) →
  holds c es' (set_small (smallWriteBursts r)
          (<[q := mkWindow (Some (rw_at e)) (rw_at e) 1]> (smallWriteState r))
          (smallWritePathCounts r) (counted e r)).
Proof.
  intros Hs Hruns.
  assert (path_bursts c es' q = path_bursts c es q) as Hpb.
  { unfold path_bursts, bursts. rewrite Hruns. cbn [List.filter length].
    destruct (Z.leb_spec (SmallWriteBurstMinimum c) (Z.of_nat 1)); [lia|done]. }
  apply (holds_intro _ _ _ 0); [| apply times_other| | | |lia..].
  - intros p Hp. by rewrite lookup_insert_ne.
  - rewrite Hruns. exists (rw_at e). by rewrite lookup_insert_eq.
  - rewrite Hpb. apply (h_paths _ _ _ Hr).
  - lia.
Qed.

Lemma record_step :
  ∃ r', recordRangeWriteAt q (rw_bytes e) (rw_conflicted e) (rw_at e) (Some r) = Some r' ∧
        holds c es' r'.
Proof.
  pose proof (h_cfg _ _ _ Hr) as Hcfg. pose proof (h_window _ _ _ Hr q) as Hwin.
  pose proof (times_same) as Htimes. destruct (is_small c e) eqn:Hs.
  2:{ eexists. split; [by apply record_not_small; rewrite Hcfg|].
      change (counted e r) with (set_small (smallWriteBursts r) (smallWriteState r)
                                   (smallWritePathCounts r) (counted e r)).
      apply (holds_intro _ _ _ 0); [done|apply times_other| | | |lia..].
      - by rewrite Htimes.
      - unfold path_bursts. rewrite Htimes. apply (h_paths _ _ _ Hr).
      - unfold path_bursts. rewrite Htimes. lia. }
  destruct (small_times c q es) as [|t times] eqn:Hold.
  { simpl in Hwin. eexists. split; [apply record_first; [by rewrite Hcfg|by rewrite Hwin]|].
    apply holds_first; [done|]. by rewrite Htimes, Hold. }
  destruct (runs_of_head (SmallWriteWindow c) t times) as (run & runs & Hruns).
  rewrite Hruns in Hwin. destruct Hwin as [st Hst].
  pose proof (Z.ltb_spec (SmallWriteWindow c) (time_Sub (rw_at e) t)) as Hgap.
  assert (runs_of (SmallWriteWindow c) (small_times c q es')
    = if SmallWriteWindow c <? time_Sub (rw_at e) t then [rw_at e] :: (t :: run) :: runs
      else (rw_at e :: t :: run) :: runs) as Hruns'.
  { rewrite Htimes. cbn [runs_of]. cbn [runs_of] in Hruns. by rewrite Hruns. }
  destruct Hgap as [Hfar|Hnear].
  { eexists. split; [apply record_first; [by rewrite Hcfg|rewrite Hst, Hcfg; by right]|].
    apply holds_first; [done|]. by rewrite Hruns', Hold, Hruns. }
  assert (length (t :: run) ≤ length es)%nat as Hrl.
  { pose proof (runs_of_length _ _ _ _ Hruns). pose proof (small_times_length c q es) as Hl.
    rewrite Hold in Hl. lia. }
  assert (wrap_int64 (Z.of_nat (length (t :: run)) + 1) = Z.of_nat (length run) + 2) as Hwrap.
  { rewrite wrap_int64_id; simpl in *; unfold is_int64, two63 in *; lia. }
  eexists. split; [apply (record_next e r st t (Z.of_nat (length (t :: run)))); rewrite ?Hcfg; done|].
  rewrite Hwrap, Hcfg. set (hit := (Z.of_nat (length run) + 2 =? SmallWriteBurstMinimum c)).
  assert (path_bursts c es' q = path_bursts c es q + if hit then 1 else 0) as Hpb.
  { unfold path_bursts. rewrite Htimes, Hold. by eapply bursts_near. }
  pose proof (path_bursts_bound c es q). pose proof (h_bound _ _ _ Hr).
  apply (holds_intro _ _ _ (if hit then 1 else 0)); [| apply times_other| | |done| |destruct hit; lia].
  - intros p Hp. rewrite lookup_insert_ne by done. split; [done|].
    destruct hit; [|done]. by rewrite lookup_insert_ne.
  - rewrite Hruns'. exists st. rewrite lookup_insert_eq. do 2 f_equal. simpl. lia.
  - rewrite Hpb. pose proof (h_paths _ _ _ Hr q) as Hq. destruct hit; [|rewrite Hq; lia].
    rewrite lookup_insert_eq. simpl. rewrite Hq, wrap_int64_id; [done|].
    unfold is_int64, two63 in *. lia.
  - destruct hit; [|lia]. rewrite wrap_int64_id; [done|]. unfold is_int64, two63 in *. lia.
Qed.
End step.

Lemma NewRecorder_config c :
  let c' := cfg (NewRecorder c) in
  1 < SmallWriteBurstMinimum c' ∧ 0 < RPCLatencySampleSize c' ∧ 0 < SmallWriteWindow c' ∧ 0 < SmallWriteThreshold c'.
Proof.
  simpl. destruct (Z.leb_spec (SmallWriteBurstMinimum c) 1), (Z.leb_spec (RPCLatencySampleSize c) 0),
    (Z.leb_spec (SmallWriteWindow c) 0), (Z.leb_spec (SmallWriteThreshold c) 0); lia.
Qed.

Lemma record_all_holds c es :
  Z.of_nat (length es) < two63 →
  ∃ r, record_all es (Some (NewRecorder c)) = Some r ∧ holds (cfg (NewRecorder c)) es r.
Proof.
  intros Hlen. destruct (NewRecorder_config c) as (Hm & _).
  induction es as [|e es IH] using rev_ind.
  { exists (NewRecorder c). split; [done|]. split; try done.
    intros ps _ _. simpl. induction ps as [|p ps IHps]; [done|]. simpl. by rewrite <- IHps. }
  rewrite length_app in Hlen. simpl in Hlen. destruct IH as (r & Hrun & Hr); [lia|].
  unfold record_all in *. rewrite fold_left_app, Hrun. simpl. apply record_step; [done|lia|done].
Qed.

(** range-write metrics mean what they say.  After any calls of
    [RecordRangeWrite] on a new recorder, with any configuration, the counters
    are the number of calls, of bytes and of conflicts; the count of a path is
    the number of its bursts, that is, of its maximal runs of small writes no
    further apart than the window that reach the burst minimum; and
    [smallWriteBursts] is the sum of those counts. *)
Theorem range_writes_counted (c : Config) (es : list range_write) :
  Z.of_nat (length es) < two63 →
  ∃ r, record_all es (Some (NewRecorder c)) = Some r ∧
    rangeWriteCalls r = Z.of_nat (length es) ∧
    rangeWriteBytes r = wrap_int64 (foldr (λ e n, Z.max 0 (rw_bytes e) + n) 0 es) ∧
    rangeWriteConflictCalls r = Z.of_nat (length (List.filter rw_conflicted es)) ∧
    (∀ p, default 0 (smallWritePathCounts r !! p) = path_bursts (cfg (NewRecorder c)) es p) ∧
    (∀ ps, NoDup ps → Forall (λ e, rw_path e ∈ ps) es →
       smallWriteBursts r = sum_over (path_bursts (cfg (NewRecorder c)) es) ps).
Proof.
  intros Hlen. destruct (record_all_holds c es Hlen) as (r & Hrun & Hr).
  exists r. destruct Hr as [H1 H2 H3 H4 H5 H6 H7 H8]. split_and!; [done| |done| |done|done].
  - rewrite H2. apply wrap_int64_id. unfold is_int64, two63 in *. lia.
  - rewrite H4. apply wrap_int64_id. pose proof (List.filter_length_le rw_conflicted es).
    unfold is_int64, two63 in *. lia.
Qed.

(** Two bursts of two writes on one path, a large write and a lone write. *)
Definition ex_writes : list range_write :=
  [mkWrite "a" 10 false 100; mkWrite "a" 10 true 150; mkWrite "b" 5 false 160; mkWrite "a" 90 false 170;
   mkWrite "a" 10 false 180; mkWrite "a" 10 false 900; mkWrite "a" 10 false 950].
Definition ex_config : Config := mkConfig 3 64 100 2.

Lemma range_writes_counted_witness :
  path_bursts (cfg (NewRecorder ex_config)) ex_writes "a" = 2 ∧
  ∃ r, record_all ex_writes (Some (NewRecorder ex_config)) = Some r ∧
       rangeWriteCalls r = 7 ∧ default 0 (smallWritePathCounts r !! "a") = 2 ∧ smallWriteBursts r = 2.
Proof.
  split; [reflexivity|].
  destruct (range_writes_counted ex_config ex_writes) as (r & Hr & Hc & _ & _ & Hp & Hs).
  - vm_compute. reflexivity.
  - exists r. split_and!; [done|done| |].
    + rewrite Hp. reflexivity.
    + rewrite (Hs ["a"; "b"]); [reflexivity| |].
      * apply (bool_decide_unpack _). vm_compute. exact I.
      * apply (bool_decide_unpack _). vm_compute. exact I.
Defined.

(** ** RPC latencies *)

(** One call of [RecordRPC]. *)
Record rpc_call := mkCall { rc_method : string; rc_code : Code; rc_duration : Z }.
Definition rc_ok (e : rpc_call) : bool := bool_decide (rc_code e = OK).
Definition record_calls (cs : list rpc_call) (r : option Recorder) : option Recorder :=
  fold_left (λ r e, RecordRPC (rc_method e) (rc_code e) (rc_duration e) r) cs r.
Definition calls_of (m : string) : list rpc_call → list rpc_call :=
  List.filter (λ e, bool_decide (rc_method e = m)).
Definition failures : list rpc_call → list rpc_call := List.filter (λ e, negb (rc_ok e)).

Lemma record_calls_stats c cs :
  ∃ r, record_calls cs (Some (NewRecorder c)) = Some r ∧ cfg r = cfg (NewRecorder c) ∧
    ∀ m, rpc r !! m =
      if bool_decide (TrimSpace m = "") || bool_decide (calls_of m cs = []) then None
      else Some (mkRpcStats (wrap_int64 (Z.of_nat (length (calls_of m cs))))
                   (wrap_int64 (Z.of_nat (length (failures (calls_of m cs)))))
                   (sampled (RPCLatencySampleSize (cfg (NewRecorder c))) (map rc_duration (calls_of m cs)))).
Proof.
  induction cs as [|e cs IH] using rev_ind.
  { exists (NewRecorder c). split_and!; [done..|]. intros m. by rewrite orb_true_r. }
  destruct IH as (r & Hrun & Hcfg & Hm). unfold record_calls in *. rewrite fold_left_app, Hrun. simpl.
  assert (∀ m, rc_method e ≠ m → calls_of m (cs ++ [e]) = calls_of m cs) as Hother.
  { intros m Hne. unfold calls_of. rewrite List.filter_app. simpl.
    by rewrite bool_decide_eq_false_2, app_nil_r. }
  case_bool_decide as Ht.
  { exists r. split_and!; [done..|]. intros m. rewrite Hm. destruct (decide (rc_method e = m)) as [<-|Hne].
    - by rewrite bool_decide_eq_true_2.
    - by rewrite Hother. }
  fold (rc_ok e). eexists. split; [done|]. split; [done|]. intros m. simpl.
  destruct (decide (rc_method e = m)) as [<-|Hne].
  2:{ rewrite lookup_insert_ne, Hother by done. apply Hm. }
  rewrite lookup_insert_eq, Hm, Hcfg. rewrite (bool_decide_eq_false_2 (TrimSpace _ = "")) by done.
  assert (calls_of (rc_method e) (cs ++ [e]) = calls_of (rc_method e) cs ++ [e]) as Hs.
  { unfold calls_of. rewrite List.filter_app. simpl. by rewrite bool_decide_eq_true_2. }
  rewrite Hs. rewrite (bool_decide_eq_false_2 (_ ++ [e] = [])) by by destruct (calls_of _ cs).
  unfold failures, sampled. rewrite List.filter_app, map_app, fold_left_app, !length_app.
  set (l := calls_of (rc_method e) cs). simpl. f_equal.
  destruct (bool_decide (l = [])) eqn:El; simpl.
  { apply bool_decide_eq_true in El. rewrite El. simpl. by destruct (rc_ok e). }
  assert (∀ (x y : Z) s s', x = y → mkRpcStats x s s' = mkRpcStats y s s') by congruence.
  destruct (rc_ok e); simpl; rewrite ?wrap_int64_add_l; do 2 f_equal; lia.
Qed.

Lemma Zltb_order : StrictWeakOrder Z.ltb.
Proof. split; intros *; rewrite ?Z.ltb_lt, ?Z.ltb_ge; lia. Qed.

(** The snapshot of a sampler: percentiles of the last samples. *)
Lemma sampler_Snapshot_percentiles `{SortSlice} (n : nat) ds :
  (0 < n)%nat → ds ≠ [] →
  let s := sampler_Snapshot (sampled (Z.of_nat n) ds) in
  Count s = wrap_int64 (Z.of_nat (length ds)) ∧
  is_percentile (recent n ds) 50 (P50Ms s) ∧ is_percentile (recent n ds) 95 (P95Ms s) ∧
  is_percentile (recent n ds) 99 (P99Ms s).
Proof.
  intros Hn Hds. destruct (sampled_window n ds Hn) as (_ & Hcount & Hlen & _ & _ & Hrot).
  unfold sampler_Snapshot. set (s := sampled (Z.of_nat n) ds) in *.
  assert (length (values s) ≠ 0%nat) as Hne.
  { rewrite Hlen. destruct ds; [done|]. simpl. lia. }
  destruct (Z.eqb_spec (Z.of_nat (length (values s))) 0); [lia|]. simpl. split; [done|].
  pose proof (sort_slice_sorted Z.ltb (values s) Zltb_order) as Hs.
  pose proof (sort_slice_perm Z.ltb (values s)) as Hp.
  assert (sort_slice Z.ltb (values s) ≡ₚ recent n ds) as Hw.
  { rewrite Hp, <- Hrot, Permutation_app_comm. by rewrite take_drop. }
  assert (sort_slice Z.ltb (values s) ≠ []) as Hsn.
  { intros E. rewrite E in Hp. apply Permutation_nil in Hp. by rewrite Hp in Hne. }
  split_and!; apply (is_percentile_perm _ _ _ _ Hw), percentile_rank; done || lia.
Qed.

(** RPC latency reports.  After any calls of [RecordRPC] on a new
    recorder the snapshot has one line for each method that was called under a
    non-blank name, with its number of calls and of failures and with the 50th,
    95th and 99th percentile, by nearest rank, of its last
    [RPCLatencySampleSize] latencies. *)
Theorem rpc_latencies `{SortSlice} (c : Config) (cs : list rpc_call) :
  let n := Z.to_nat (RPCLatencySampleSize (cfg (NewRecorder c))) in
  let report := RPCLatencies (snapshot (record_calls cs (Some (NewRecorder c)))) in
  NoDup (map Method report) ∧
  (∀ m, m ∈ map Method report ↔ TrimSpace m ≠ "" ∧ calls_of m cs ≠ []) ∧
  Forall (λ l,
    let mine := calls_of (Method l) cs in
    let window := recent n (map rc_duration mine) in
    rl_Count l = wrap_int64 (Z.of_nat (length mine)) ∧
    ErrorCount l = wrap_int64 (Z.of_nat (length (failures mine))) ∧
    is_percentile window 50 (rl_P50Ms l) ∧ is_percentile window 95 (rl_P95Ms l) ∧
    is_percentile window 99 (rl_P99Ms l)) report.
Proof.
  intros n report. destruct (record_calls_stats c cs) as (r & Hrun & _ & Hm).
  set (line := λ e : string * rpcStats, let latency := sampler_Snapshot (latency e.2) in
                 mkRPCLatency e.1 (rpc_count e.2) (errorCount e.2)
                   (P50Ms latency) (P95Ms latency) (P99Ms latency)).
  assert (report ≡ₚ map line (map_to_list (rpc r))) as Hp.
  { unfold report. rewrite Hrun. apply sort_slice_perm. }
  clearbody report.
  assert (map Method report ≡ₚ (map_to_list (rpc r)).*1) as Hkeys.
  { rewrite Hp, map_map. unfold line. done. }
  split_and!.
  - rewrite Hkeys. apply NoDup_fst_map_to_list.
  - intros m. rewrite Hkeys, list_elem_of_fmap. split.
    + intros ([m' st] & -> & Hin%elem_of_map_to_list). simpl. rewrite Hm in Hin.
      destruct (bool_decide (TrimSpace m' = "")) eqn:E1; [done|].
      destruct (bool_decide (calls_of m' cs = [])) eqn:E2; [done|].
      by apply bool_decide_eq_false in E1, E2.
    + intros [H1 H2]. eexists (m, _). split; [done|]. apply elem_of_map_to_list.
      rewrite Hm, !bool_decide_eq_false_2 by done. done.
  - rewrite Hp. rewrite Forall_forall. intros l Hl.
    apply list_elem_of_fmap in Hl as ([m st] & -> & Hin%elem_of_map_to_list).
    rewrite Hm in Hin. simpl.
    destruct (bool_decide (TrimSpace m = "")) eqn:E1; [done|].
    destruct (bool_decide (calls_of m cs = [])) eqn:E2; [done|]. injection Hin as <-. simpl.
    apply bool_decide_eq_false in E2. split; [done|]. split; [done|].
    destruct (NewRecorder_config c) as (_ & Hn & _).
    destruct (sampler_Snapshot_percentiles n (map rc_duration (calls_of m cs))) as (_ & Hps).
    + unfold n. lia.
    + by destruct (calls_of m cs).
    + unfold n in Hps. rewrite Z2Nat.id in Hps by (simpl in *; lia). exact Hps.
Qed.
