(* ===== verification/BuildLog.v ===== *)
(** * Build logs

    The log buffer of internal/server/build_service.go ([appendLogWithLimit]),
    and the text of durations that the log lines hold. *)

From S2P Require Import Prelude GoStrings.
From Stdlib Require Import Ascii.
From Stdlib Require Strings.String.
From stdpp Require Import pretty.
Open Scope string_scope.
Open Scope Z_scope.
Open Scope list_scope.

(** ** time.Duration *)

(** [d.Round(m)] for [0 < m]: to the nearest multiple, halves away from zero;
    a result out of range saturates. *)
Definition duration_Round (d m : Z) : Z :=
  let r := Z.rem d m in
  if d <? 0 then
    let r := - r in
    if r + r <? m then d + r else Z.max (- two63) (d - m + r)
  else if r + r <? m then d - r else Z.min maxInt64 (d + m - r).

Definition digits (n : Z) : string := pretty (Z.to_N n).

(** The fraction [v / 10^prec] without trailing zeros, with its point. *)
Fixpoint fmtFrac (v : Z) (prec : nat) (tail : string) : string * Z :=
  match prec with
  | O => (if bool_decide (tail = "") then tail else "." +:+ tail, v)
  | S prec' =>
      let d := v mod 10 in
      let tail := if (d =? 0) && bool_decide (tail = "") then tail else digits d +:+ tail in
      fmtFrac (v / 10) prec' tail
  end.

Definition micro : string := String (ch 194) (String (ch 181) "").

(** [d.String()] *)
Definition duration_String (d : Z) : string :=
  let u := Z.abs d in
  let text :=
    if u =? 0 then "0s"
    else if u <? 1000 then digits u +:+ "ns"
    else if u <? 1000000 then
      let '(frac, u) := fmtFrac u 3 "" in digits u +:+ frac +:+ micro +:+ "s"
    else if u <? 1000000000 then
      let '(frac, u) := fmtFrac u 6 "" in digits u +:+ frac +:+ "ms"
    else
      let '(frac, u) := fmtFrac u 9 "" in
      let secs := digits (u mod 60) +:+ frac +:+ "s" in
      let u := u / 60 in
      if u =? 0 then secs
      else
        let mins := digits (u mod 60) +:+ "m" +:+ secs in
        let u := u / 60 in
        if u =? 0 then mins else digits u +:+ "h" +:+ mins in
  if d <? 0 then "-" +:+ text else text.

Example duration_String_1 : duration_String 1500000 = "1.5ms".
Proof. vm_compute. reflexivity. Qed.
Example duration_String_2 : duration_String 3723004000000 = "1h2m3.004s".
Proof. vm_compute. reflexivity. Qed.

(** ** The log buffer *)

Definition string_bytes (s : string) : bytes := map Ascii.byte_of_ascii (String.list_ascii_of_string s).

Definition newline : string := String (ch 10) "".
Definition logTruncationMarker : bytes := string_bytes ("[... build log truncated ...]" +:+ newline).

Definition appendLogWithLimit (existing entry : bytes) (limit : Z) : bytes :=
  if limit <=? 0 then existing ++ entry
  else
    let buf := existing ++ entry in
    let len := Z.of_nat (length buf) in
    if len <=? limit then buf
    else if limit <=? Z.of_nat (length logTruncationMarker) then drop (Z.to_nat (len - limit)) buf
    else
      let tailLen := limit - Z.of_nat (length logTruncationMarker) in
      let start := len - tailLen in
      let start := if start <? 0 then 0 else start in
      logTruncationMarker ++ drop (Z.to_nat start) buf.

(** ** Facts *)

Lemma appendLogWithLimit_length existing entry limit :
  0 < limit → Z.of_nat (length (appendLogWithLimit existing entry limit)) ≤ limit.
Proof.
  intros Hl. unfold appendLogWithLimit.
  destruct (Z.leb_spec limit 0); [lia|].
  destruct (Z.leb_spec (Z.of_nat (length (existing ++ entry))) limit); [done|].
  destruct (Z.leb_spec limit (Z.of_nat (length logTruncationMarker))); [rewrite length_drop; lia|].
  destruct (Z.ltb_spec (Z.of_nat (length (existing ++ entry)) - (limit - Z.of_nat (length logTruncationMarker))) 0); [lia|].
  rewrite length_app, length_drop. lia.
Qed.

(** Successive entries. *)
Definition append_all (limit : Z) (entries : list bytes) : bytes :=
  fold_left (λ buf entry, appendLogWithLimit buf entry limit) entries [].

Definition marker_for (limit : Z) : bytes :=
  if Z.of_nat (length logTruncationMarker) <? limit then logTruncationMarker else [].

(** A full buffer after [e] more bytes: the marker and the last bytes. *)
Lemma append_truncates existing entry limit :
  0 < limit → limit < Z.of_nat (length (existing ++ entry)) →
  appendLogWithLimit existing entry limit =
  marker_for limit ++ drop (Z.to_nat (Z.of_nat (length (existing ++ entry))
                                      - (limit - Z.of_nat (length (marker_for limit)))))
                        (existing ++ entry).
Proof.
  intros Hl Hlong. unfold appendLogWithLimit, marker_for.
  destruct (Z.leb_spec limit 0); [lia|].
  destruct (Z.leb_spec (Z.of_nat (length (existing ++ entry))) limit); [lia|].
  set (m := Z.of_nat (length logTruncationMarker)).
  destruct (Z.leb_spec limit m), (Z.ltb_spec m limit); try lia.
  - simpl. do 2 f_equal. lia.
  - fold m. destruct (Z.ltb_spec (Z.of_nat (length (existing ++ entry)) - (limit - m)) 0); [lia|done].
Qed.

Lemma marker_fits limit : 0 < limit → Z.of_nat (length (marker_for limit)) < limit.
Proof. unfold marker_for. destruct (Z.ltb_spec (Z.of_nat (length logTruncationMarker)) limit); [lia|simpl; lia]. Qed.

(** the build log keeps the end of what was written.  Whatever entries
    are appended, the buffer never exceeds a positive limit; while everything
    fits it is exactly the entries; and once something was dropped it is a
    suffix of them, of the full length the limit leaves, after the truncation
    marker when the limit has room for it.  Without a limit nothing is lost. *)
Theorem log_keeps_tail (limit : Z) (entries : list bytes) :
  let written := concat entries in
  let buf := append_all limit entries in
  (limit ≤ 0 → buf = written) ∧
  (0 < limit →
     (Z.of_nat (length written) ≤ limit → buf = written) ∧
     (limit < Z.of_nat (length written) →
        ∃ tail, buf = marker_for limit ++ tail ∧ tail `suffix_of` written ∧ Z.of_nat (length buf) = limit)).
Proof.
  unfold append_all. induction entries as [|entry entries IH] using rev_ind.
  { simpl. split; [done|]. intros. split; [done|]. simpl. lia. }
  rewrite fold_left_app, concat_app. simpl. rewrite app_nil_r.
  set (written := concat entries) in *. set (buf := fold_left _ entries []) in *.
  destruct IH as [IH0 IH]. split.
  { intros Hl. unfold appendLogWithLimit. destruct (Z.leb_spec limit 0); [|lia]. by rewrite IH0. }
  intros Hl. destruct (IH Hl) as [IHfit IHfull]. pose proof (marker_fits limit Hl) as Hm.
  destruct (Z.le_gt_cases (Z.of_nat (length written)) limit) as [Hfit|Hfull].
  - rewrite IHfit by done. split.
    + intros Hle. unfold appendLogWithLimit. destruct (Z.leb_spec limit 0); [done|].
      by destruct (Z.leb_spec (Z.of_nat (length (written ++ entry))) limit); [|lia].
    + intros Hlt. rewrite append_truncates by done. eexists. split; [done|]. split; [apply suffix_drop|].
      rewrite length_app, length_drop. lia.
  - destruct (IHfull Hfull) as (tail & Hbuf & Hsuf & Hlen).
    split; [rewrite length_app; lia|]. intros _.
    destruct (Z.le_gt_cases (Z.of_nat (length (buf ++ entry))) limit) as [Hs|Hs].
    + assert (entry = []) as ->.
      { rewrite length_app in Hs. destruct entry; [done|simpl in Hs; lia]. }
      unfold appendLogWithLimit. destruct (Z.leb_spec limit 0); [lia|].
      destruct (Z.leb_spec (Z.of_nat (length (buf ++ []))) limit); [|lia].
      rewrite !app_nil_r. by exists tail.
    + rewrite append_truncates by done. eexists. split; [done|]. split.
      * rewrite Hbuf at 2. rewrite <- app_assoc. rewrite drop_app_ge.
        2:{ rewrite length_app in *. rewrite Hbuf, length_app in *. lia. }
        trans (tail ++ entry); [apply suffix_drop|]. destruct Hsuf as [k ->].
        exists k. by rewrite app_assoc.
      * rewrite length_app, length_drop. lia.
Qed.

(** A 40-byte log of four entries. *)
Example log_keeps_tail_ex :
  append_all 35 [string_bytes "first "; string_bytes "second "; string_bytes "third "; string_bytes "fourth lines of it"]
  = marker_for 35 ++ string_bytes "of it".
Proof. vm_compute. reflexivity. Qed.
