(* ===== verification/BuildUnit.v ===== *)
(** * Building a unit

    The part of internal/server/build_service.go that recognises a build unit,
    prepares its workspace, runs the tool and finds the product, and the choice
    of a CMake target.  The tools themselves ([exec.Command]) and
    [json.Unmarshal] of the CMake file-API replies are parameters. *)

From S2P Require Import Prelude GoStrings FsPath OsFs PathOps.
From Stdlib Require Import Ascii.
From Stdlib Require Strings.String.
Open Scope string_scope.
Open Scope Z_scope.
Open Scope list_scope.

(** ** CMake targets *)

Section targets.
Context `{GoUnicode} `{SortSlice}.

Definition isCMakeDefaultTargetAlias (target : string) : bool :=
  let t := ToLower (TrimSpace target) in
  bool_decide (t = "") || bool_decide (t = "all") || bool_decide (t = "default").

Definition isHiddenCMakeMetaTarget (target : string) : bool :=
  bool_decide (ToUpper (TrimSpace target) ∈
    ["ZERO_CHECK"; "INSTALL"; "RUN_TESTS"; "PACKAGE"; "PACKAGE_SOURCE"; "EDIT_CACHE"; "REBUILD_CACHE"]).

(** The loop of [dedupeSortedTargets]. *)
Fixpoint dedupe_targets (seen : gset string) (targets : list string) : list string :=
  match targets with
  | [] => []
  | target :: rest =>
      let key := ToLower (TrimSpace target) in
      if bool_decide (key = "") then dedupe_targets seen rest
      else if bool_decide (key ∈ seen) then dedupe_targets seen rest
      else TrimSpace target :: dedupe_targets ({[key]} ∪ seen) rest
  end.
Definition target_less (a b : string) : bool := String.ltb (ToLower a) (ToLower b).
Definition dedupeSortedTargets (targets : list string) : list string :=
  sort_slice target_less (dedupe_targets ∅ targets).

Definition formatAvailableCMakeTargets (targets : list string) : string :=
  let display := List.filter (λ target, negb (isHiddenCMakeMetaTarget target)) (dedupeSortedTargets targets) in
  let display := if (length display =? 0)%nat then dedupeSortedTargets targets else display in
  if (length display =? 0)%nat then "(unavailable)"
  else if (12 <? length display)%nat then Join ", " (take 12 display) +:+ ", ..."
  else Join ", " display.

Definition resolveCMakeBuildTarget (requested : string) (available : list string) : result goerr string :=
  let requested := TrimSpace requested in
  if bool_decide (requested = "") || isCMakeDefaultTargetAlias requested then Ok ""
  else if (length available =? 0)%nat then Ok requested
  else
    match List.find (λ candidate, bool_decide (candidate = requested)) available with
    | Some candidate => Ok candidate
    | None =>
        match List.find (λ candidate, EqualFold candidate requested) available with
        | Some candidate => Ok candidate
        | None =>
            Err (ErrNew ("cmake target " +:+ Quote requested +:+ " not found; available targets: "
                         +:+ formatAvailableCMakeTargets available))
        end
    end.
End targets.

(** ** Replies of the CMake file API *)

Record cmakeFileAPIObject := mkObject { Kind : string; JsonFile : string }.
Record cmakeFileAPITarget := mkTarget { Name : string }.
Record cmakeFileAPIConfiguration := mkConfiguration { Targets : list cmakeFileAPITarget }.

Class CMakeReplies := {
  Unmarshal_index : bytes → result goerr (list cmakeFileAPIObject);
  Unmarshal_codemodel : bytes → result goerr (list cmakeFileAPIConfiguration);
}.

Definition flattenCMakeTargets (configurations : list cmakeFileAPIConfiguration) : list string :=
  flat_map (λ configuration,
    omap (λ target, let trimmed := TrimSpace (Name target) in
                    if bool_decide (trimmed = "") then None else Some trimmed)
         (Targets configuration)) configurations.

(** ** A build *)

(** The state a build works on: the tree, and the entries it logs. *)
Record BuildWorld := mkBW { bw_os : OsState; bw_log : list string }.
Definition bw_lift {A} (m : go OsState goerr A) : go BuildWorld goerr A :=
  λ w, let '(t, r) := m (bw_os w) in (mkBW t (bw_log w), r).
Definition appendLog (entry : string) : go BuildWorld goerr unit :=
  go_modify (λ w, mkBW (bw_os w) (bw_log w ++ [entry])).

Record fileWithTime := mkFile { f_path : string; mt : Z }.

Section build.
Context `{GoUnicode} `{SortSlice} `{CMakeReplies}
        (flt : Faults) (dir_size now : Z)
        (* exec.Command(name, args...) in [dir]: the new tree, the chunks the
           pipes deliver, and the error of Start or Wait *)
        (run_process : string → string → list string → OsState → OsState * list string * option goerr).

Definition exists_ (path : string) (t : OsState) : bool := is_ok (os_Stat flt dir_size path t).

Definition firstMatch (root pattern : string) (t : OsState) : string :=
  match filepath_Glob flt dir_size t (JoinPath root pattern) with
  | Some (m :: _) => m
  | _ => ""
  end.

Definition detectBuildKind (unitAbs : string) (t : OsState) : string :=
  if exists_ (JoinPath unitAbs "CMakeLists.txt") t then "cmake"
  else if exists_ (JoinPath unitAbs "Makefile") t then "make"
  else if negb (bool_decide (firstMatch unitAbs "*.sln" t = "")) then "msbuild"
  else "".

Definition copyFile (src dst : string) : go OsState goerr unit :=
  let! _ := os_MkdirAll flt now (Dir dst) in
  let! _ := go_read (FS.os_Open flt dir_size src) in
  let! _ := os_OpenCreate flt false true now dst in
  let! data := go_read (os_ReadFile flt src) in
  os_write flt "write" now dst data.

Definition copy_visit (src dst : string) (path : string) (d : DirEntry) (walkErr : option goerr) :
    go OsState goerr walk_ctl :=
  match walkErr with
  | Some err => go_fail err
  | None =>
      let! rel := go_lift (Rel src path) in
      if negb (bool_decide (rel = ".")) && ShouldIgnoreInProjectScan (de_name d)
      then go_ret (if de_isdir d then WalkSkipDir else WalkNext)
      else
        let targetPath := if bool_decide (rel = ".") then dst else JoinPath dst rel in
        let! _ := go_read (os_Lstat flt dir_size path) in
        if de_isdir d then os_MkdirAll flt now targetPath ;;! go_ret WalkNext
        else copyFile path targetPath ;;! go_ret WalkNext
  end.
Definition copyDir (src dst : string) : go OsState goerr unit :=
  WalkDir flt dir_size id (copy_visit src dst) src.

Definition prepareIsolatedBuildWorkspace (unitAbs buildRoot : string) : go OsState goerr string :=
  let workDir := JoinPath buildRoot "workspace" in
  copyDir unitAbs workDir ;;! go_ret workDir.

(** Not Windows. *)
Definition looksLikeProduct (path : string) : bool :=
  let base := ToLower (Base path) in
  if HasSuffix base ".obj" || HasSuffix base ".o" || HasSuffix base ".pdb" then false
  else bool_decide (ToLower (Ext path) ∈ [""; ".so"; ".a"; ".dylib"]).

Definition product_visit (path : string) (d : DirEntry) (err : option goerr) :
    go (OsState * list fileWithTime) goerr walk_ctl := λ w,
  match err with
  | Some _ => (w, Ok WalkNext)
  | None =>
      if de_isdir d then (w, Ok WalkNext)
      else if negb (looksLikeProduct path) then (w, Ok WalkNext)
      else match os_Lstat flt dir_size path w.1 with
           | Err _ => (w, Ok WalkNext)
           | Ok st => ((w.1, w.2 ++ [mkFile path (fi_mtime st)]), Ok WalkNext)
           end
  end.
Definition findLatestProduct (root : string) (t : OsState) : result goerr string :=
  match WalkDir flt dir_size fst product_visit root (t, []) with
  | (_, Err err) => Err err
  | ((_, candidates), Ok _) =>
      match sort_slice (λ a b, mt b <? mt a) candidates with
      | [] => Ok ""
      | latest :: _ => Ok (f_path latest)
      end
  end.

Definition runCmd (dir name : string) (args : list string) : go BuildWorld goerr unit :=
  appendLog ("run: " +:+ name +:+ " " +:+ Join " " args +:+ String (ch 10) "") ;;!
  (λ w, let '(t, chunks, err) := run_process dir name args (bw_os w) in
        (mkBW t (bw_log w ++ chunks), match err with Some e => Err e | None => Ok tt end)).

Definition ensureCMakeFileAPIQuery (buildDir : string) : go OsState goerr unit :=
  let queryFile := fold_left JoinPath [".cmake"; "api"; "v1"; "query"; "codemodel-v2"] buildDir in
  let! _ := os_MkdirAll flt now (Dir queryFile) in
  λ t, if exists_ queryFile t then (t, Ok tt) else os_WriteFile flt now queryFile [] t.

Definition index_less (t : OsState) (a b : string) : bool :=
  match os_Stat flt dir_size a t, os_Stat flt dir_size b t with
  | Ok leftInfo, Ok rightInfo =>
      if fi_mtime leftInfo =? fi_mtime rightInfo then String.ltb b a
      else fi_mtime rightInfo <? fi_mtime leftInfo
  | _, _ => String.ltb b a
  end.
Definition latestCMakeFileAPIIndex (replyDir : string) (t : OsState) : result goerr string :=
  match filepath_Glob flt dir_size t (JoinPath replyDir "index-*.json") with
  | None => Err (ErrNew "syntax error in pattern")
  | Some matches =>
      match sort_slice (index_less t) matches with
      | [] => Err (ErrSentinel ErrNotExist)
      | latest :: _ => Ok latest
      end
  end.

Definition listCMakeTargetsFromFileAPI (buildDir : string) (t : OsState) : result goerr (list string) :=
  let replyDir := fold_left JoinPath [".cmake"; "api"; "v1"; "reply"] buildDir in
  try indexPath := latestCMakeFileAPIIndex replyDir t in
  try indexData := os_ReadFile flt indexPath t in
  try objects := Unmarshal_index indexData in
  match List.find (λ object, bool_decide (Kind object = "codemodel")
                             && negb (bool_decide (TrimSpace (JsonFile object) = ""))) objects with
  | None => Err (ErrNew "cmake codemodel reply not found")
  | Some object =>
      try codemodelData := os_ReadFile flt (JoinPath replyDir (JsonFile object)) t in
      try configurations := Unmarshal_codemodel codemodelData in
      Ok (dedupeSortedTargets (flattenCMakeTargets configurations))
  end.

Definition listCMakeTargetsFromVisualStudioProjects (buildDir : string) (t : OsState) :
    result goerr (list string) :=
  match filepath_Glob flt dir_size t (JoinPath buildDir "*.vcxproj") with
  | None => Err (ErrNew "syntax error in pattern")
  | Some matches =>
      Ok (dedupeSortedTargets
            (omap (λ m, let target := TrimSpace (TrimSuffix (Base m) (Ext m)) in
                        if bool_decide (target = "") then None else Some target) matches))
  end.

Definition listCMakeTargets (buildDir : string) (t : OsState) : result goerr (list string) :=
  let api := listCMakeTargetsFromFileAPI buildDir t in
  let fallback := listCMakeTargetsFromVisualStudioProjects buildDir t in
  match api, fallback with
  | Ok (target :: targets), _ => Ok (target :: targets)
  | _, Ok (target :: targets) => Ok (target :: targets)
  | Err err, Err fallbackErr =>
      Err (ErrNew ("file_api=" +:+ err_text err +:+ "; vcxproj_scan=" +:+ err_text fallbackErr))
  | Err err, Ok _ => Err err
  | Ok _, _ => fallback
  end.

Definition runBuildCommands (unitAbs buildRoot target : string) : go BuildWorld goerr string :=
  let! t := go_get bw_os in
  let detected := detectBuildKind unitAbs t in
  if bool_decide (detected = "cmake") then
    let buildDir := JoinPath buildRoot "build" in
    let! _ := bw_lift (os_MkdirAll flt now buildDir) in
    let! _ := bw_lift (ensureCMakeFileAPIQuery buildDir) in
    let! _ := runCmd unitAbs "cmake" ["-S"; "."; "-B"; buildDir] in
    let! t := go_get bw_os in
    let targets := listCMakeTargets buildDir t in
    let! _ := match targets with
              | Err err => appendLog ("warn: list cmake targets failed: " +:+ err_text err +:+ String (ch 10) "")
              | Ok _ => go_ret tt
              end in
    let! resolvedTarget := go_lift (resolveCMakeBuildTarget target
                                     match targets with Ok l => l | Err _ => [] end) in
    let! buildArgs :=
      if negb (bool_decide (resolvedTarget = ""))
      then go_ret ["--build"; buildDir; "--target"; resolvedTarget]
      else if negb (bool_decide (TrimSpace target = ""))
      then appendLog ("info: normalize cmake target " +:+ Quote target +:+ " to default build"
                      +:+ String (ch 10) "") ;;!
           go_ret ["--build"; buildDir]
      else go_ret ["--build"; buildDir] in
    let! _ := runCmd unitAbs "cmake" buildArgs in
    bw_lift (go_read (findLatestProduct buildDir))
  else if bool_decide (detected = "make") then
    let! workDir := bw_lift (prepareIsolatedBuildWorkspace unitAbs buildRoot) in
    let args := if negb (bool_decide (target = "")) then [target] else [] in
    let! _ := runCmd workDir "make" args in
    bw_lift (go_read (findLatestProduct workDir))
  else if bool_decide (detected = "msbuild") then
    let! workDir := bw_lift (prepareIsolatedBuildWorkspace unitAbs buildRoot) in
    let args := if negb (bool_decide (target = "")) then ["/t:" +:+ target] else [] in
    let! t := go_get bw_os in
    let sln := firstMatch workDir "*.sln" t in
    if bool_decide (sln = "") then go_fail (ErrNew "no .sln found under unit_path")
    else
      let! _ := runCmd workDir "msbuild" (sln :: args) in
      bw_lift (go_read (findLatestProduct workDir))
  else go_fail (ErrNew "unsupported build unit: need CMakeLists.txt, Makefile, or .sln").
End build.

(** ** Facts *)

Lemma find_spec {A} (f : A → bool) l :
  match List.find f l with
  | Some x => x ∈ l ∧ f x = true
  | None => Forall (λ x, f x = false) l
  end.
Proof.
  induction l as [|x l IH]; simpl; [done|]. destruct (f x) eqn:E; [split; [by left|done]|].
  destruct (List.find f l) as [y|]; [destruct IH; split; [by right|done]|by constructor].
Qed.

(** the choice of a CMake target.  An alias of the default target gives
    the default build; otherwise the answer is one of the available targets, the
    requested one itself when it is there and else one equal to it up to case;
    with no list to choose from the request is passed on; and it is refused
    exactly when the list has no such target. *)
Theorem resolve_target `{GoUnicode} `{SortSlice} (requested : string) (available : list string) :
  let r := TrimSpace requested in
  let alias := r = "" ∨ isCMakeDefaultTargetAlias r = true in
  match resolveCMakeBuildTarget requested available with
  | Ok t =>
      (alias ∧ t = "") ∨
      (¬ alias ∧ ((available = [] ∧ t = r) ∨
                  (t ∈ available ∧ (t = r ∨ (r ∉ available ∧ EqualFold t r = true)))))
  | Err _ => ¬ alias ∧ available ≠ [] ∧ r ∉ available ∧ Forall (λ c, EqualFold c r = false) available
  end.
Proof.
  intros r alias. unfold resolveCMakeBuildTarget. fold r.
  destruct (bool_decide (r = "") || isCMakeDefaultTargetAlias r) eqn:Ea.
  { left. split; [|done]. apply orb_true_iff in Ea as [Ea|Ea]; [left|by right].
    by apply bool_decide_eq_true in Ea. }
  apply orb_false_iff in Ea as [E1 E2]. apply bool_decide_eq_false in E1.
  assert (¬ alias) as Hna by (intros [?|?]; congruence).
  destruct (Nat.eqb_spec (length available) 0) as [Hl|Hl].
  { right. split; [done|]. left. by apply length_zero_iff_nil in Hl. }
  assert (available ≠ []) as Hne by by intros ->.
  pose proof (find_spec (λ c, bool_decide (c = r)) available) as H1.
  destruct (List.find _ available) as [t|].
  { destruct H1 as [Hin ->%bool_decide_eq_true]. right. split; [done|]. right. split; [done|by left]. }
  assert (r ∉ available) as Hr.
  { rewrite Forall_forall in H1. intros Hin%H1. by rewrite bool_decide_eq_true_2 in Hin. }
  pose proof (find_spec (λ c, EqualFold c r) available) as H2.
  destruct (List.find (λ c, EqualFold c r) available) as [t|]; [|done].
  destruct H2 as [Hin He]. right. split; [done|]. right. split; [done|by right].
Qed.
