(* ===== verification/BuildService.v ===== *)
(** * The build service

    internal/server/build_service.go: jobs, the goroutine of each build, the
    RPCs and the cleanup of finished jobs.  A [*buildJob] is its index in the
    list of jobs ever made, so a goroutine keeps its job after [cleanupJobs]
    has taken it out of the map.  A step of the machine is what one goroutine
    does between two points where it can be made to wait. *)

From S2P Require Import Prelude GoStrings FsPath OsFs PathOps World Runner Recorder BuildLog BuildUnit.
From Stdlib Require Import Ascii.
Open Scope string_scope.
Open Scope Z_scope.
Open Scope list_scope.

Module Build.

(** ** Configuration *)

Record BuildConfig := mkBuildConfig {
  c_RootDir : string;
  c_RemoteEnabled : bool;
  c_MaxWorkers : Z;
  c_JobTTL : Z;
  c_MaxRetainedJobs : Z;
  c_MaxRetainedBytes : Z;
  c_MaxLogBytes : Z;
  c_TempRoot : string;
}.

Record BuildService := mkService {
  RootDir : string;
  RemoteEnabled : bool;
  workers : Z;                  (* the capacity of [slots] *)
  jobTTL : Z;
  maxRetainedJobs : Z;
  maxRetainedBytes : Z;
  maxLogBytes : Z;
  tempRoot : string;
}.

Definition defaultBuildWorkers (NumCPU : Z) : Z :=
  let workers := Z.quot NumCPU 2 in
  let workers := if workers <? 1 then 1 else workers in
  if 4 <? workers then 4 else workers.

Definition NewBuildService (NumCPU : Z) (TempDir : string) (cfg : BuildConfig) : BuildService :=
  let workers := if c_MaxWorkers cfg <=? 0 then defaultBuildWorkers NumCPU else c_MaxWorkers cfg in
  let jobTTL := if c_JobTTL cfg <=? 0 then 1800000000000 else c_JobTTL cfg in
  let maxRetainedJobs := if c_MaxRetainedJobs cfg <=? 0 then 200 else c_MaxRetainedJobs cfg in
  let maxLogBytes := if c_MaxLogBytes cfg <=? 0 then 2097152 else c_MaxLogBytes cfg in
  let tempRoot := TrimSpace (c_TempRoot cfg) in
  let tempRoot := if bool_decide (tempRoot = "") then JoinPath TempDir "roodox-builds" else tempRoot in
  mkService (c_RootDir cfg) (c_RemoteEnabled cfg) workers jobTTL maxRetainedJobs
    (c_MaxRetainedBytes cfg) maxLogBytes tempRoot.

(** ** Jobs *)

Record buildJob := mkJob {
  id : string;
  unitPath : string;
  target : string;
  status : string;
  createdAt : Z;
  queuedAt : Z;
  startedAt : option Z;
  finishedAt : option Z;
  logBuf : bytes;
  maxLog : Z;
  productPath : string;
  workDir : string;
  err : option goerr;
}.

Definition isTerminalBuildStatus (status : string) : bool :=
  bool_decide (status = "success") || bool_decide (status = "failed").

(** [job.appendLog] of formatted text. *)
Definition job_appendLog (entry : string) (j : buildJob) : buildJob :=
  mkJob (id j) (unitPath j) (target j) (status j) (createdAt j) (queuedAt j) (startedAt j) (finishedAt j)
    (appendLogWithLimit (logBuf j) (string_bytes entry) (maxLog j))
    (maxLog j) (productPath j) (workDir j) (err j).
Definition logSize (j : buildJob) : Z := Z.of_nat (length (logBuf j)).

(** ** Retention *)

Record buildJobSnapshot := mkSnap {
  s_id : string;
  s_status : string;
  s_createdAt : Z;
  s_finishedAt : option Z;
  s_workDir : string;
  sizeBytes : Z;
}.

Definition snapshotBuildJob (j : buildJob) : buildJobSnapshot :=
  mkSnap (id j) (status j) (createdAt j) (finishedAt j) (workDir j) 0.

(** [time.Time.Before] and [Equal]; the zero time is before all others. *)
Definition time_before (a b : option Z) : bool :=
  match a, b with
  | Some a, Some b => a <? b
  | None, Some _ => true
  | _, None => false
  end.
Definition snap_older (a b : buildJobSnapshot) : bool :=
  if bool_decide (s_finishedAt a = s_finishedAt b) then s_createdAt a <? s_createdAt b
  else time_before (s_finishedAt a) (s_finishedAt b).

Definition buildPathSize (flt : Faults) (dir_size : Z) (path : string) (t : OsState) : Z :=
  if bool_decide (TrimSpace path = "") then 0
  else match os_Lstat flt dir_size path t with
       | Err _ => 0
       | Ok info =>
           if negb (fi_isdir info) then fi_size info
           else match filepath_Walk flt dir_size t (λ current currentInfo walkErr total,
                  match walkErr, currentInfo with
                  | None, Some info => Ok (if fi_isdir info then total else wrap_int64 (total + fi_size info))
                  | _, _ => Ok total
                  end) path 0 with
                | Ok total => total
                | Err _ => 0     (* the callback never fails *)
                end
       end.

Definition total_bytes (snaps : list buildJobSnapshot) : Z :=
  fold_left (λ totalBytes snap, wrap_int64 (totalBytes + sizeBytes snap)) snaps 0.
Fixpoint over_limit (maxRetainedBytes totalBytes : Z) (snaps : list buildJobSnapshot) : list buildJobSnapshot :=
  match snaps with
  | [] => []
  | snap :: snaps' =>
      if totalBytes <=? maxRetainedBytes then []
      else snap :: over_limit maxRetainedBytes (wrap_int64 (totalBytes - sizeBytes snap)) snaps'
  end.
Definition buildRemovalsForByteLimit `{SortSlice} (size_of : string → Z)
    (snapshots : list buildJobSnapshot) (maxRetainedBytes : Z) : list buildJobSnapshot :=
  if (maxRetainedBytes <=? 0) || (length snapshots =? 0)%nat then []
  else
    let withSizes := map (λ s, mkSnap (s_id s) (s_status s) (s_createdAt s) (s_finishedAt s)
                                 (s_workDir s) (size_of (s_workDir s))) snapshots in
    let totalBytes := total_bytes withSizes in
    if totalBytes <=? maxRetainedBytes then []
    else over_limit maxRetainedBytes totalBytes (sort_slice snap_older withSizes).

Definition nextBuildCleanupDue (snapshots : list buildJobSnapshot) (jobTTL : Z) : option Z :=
  if (jobTTL <=? 0) || (length snapshots =? 0)%nat then None
  else fold_left (λ nextDue snap,
         match s_finishedAt snap with
         | None => nextDue
         | Some finishedAt =>
             let expireAt := finishedAt + jobTTL in
             match nextDue with
             | None => Some expireAt
             | Some due => if expireAt <? due then Some expireAt else nextDue
             end
         end) snapshots None.

(** The order in which [range] visits a map is not specified. *)
Class MapRange := {
  map_range {V} (m : gmap string V) : list (string * V);
  map_range_perm {V} (m : gmap string V) : map_range m ≡ₚ map_to_list m;
}.

Section cleanup.
Context `{SortSlice} (s : BuildService) (size_of : string → Z).

Definition job_expired (now : Z) (snap : buildJobSnapshot) : bool :=
  (0 <? jobTTL s) && match s_finishedAt snap with
                     | Some finishedAt => jobTTL s <? time_Sub now finishedAt
                     | None => false
                     end.

(** The jobs of [cleanupJobs], by the id they are in the map under: the work
    directories to remove, by id, and the next due time. *)
Fixpoint collect_jobs (now : Z) (jobs : list (string * buildJob)) (removals : gmap string string)
    (terminalJobs : list buildJobSnapshot) : gmap string string * list buildJobSnapshot :=
  match jobs with
  | [] => (removals, terminalJobs)
  | (i, job) :: jobs' =>
      let snap := snapshotBuildJob job in
      if negb (isTerminalBuildStatus (s_status snap)) then collect_jobs now jobs' removals terminalJobs
      else if job_expired now snap
      then collect_jobs now jobs' (<[i := s_workDir snap]> removals) terminalJobs
      else collect_jobs now jobs' removals (terminalJobs ++ [snap])
  end.

Fixpoint remove_extra (extra : Z) (snaps : list buildJobSnapshot) (removals : gmap string string) :
    gmap string string :=
  match snaps with
  | [] => removals
  | snap :: snaps' =>
      if extra =? 0 then removals
      else match removals !! s_id snap with
           | Some _ => remove_extra extra snaps' removals
           | None => remove_extra (extra - 1) snaps' (<[s_id snap := s_workDir snap]> removals)
           end
  end.

Definition not_removed (removals : gmap string string) : list buildJobSnapshot → list buildJobSnapshot :=
  List.filter (λ snap, match removals !! s_id snap with Some _ => false | None => true end).

Definition plan_cleanup (now : Z) (jobs : list (string * buildJob)) : gmap string string * option Z :=
  let '(removals, terminalJobs) := collect_jobs now jobs ∅ [] in
  let remainingJobs := Z.of_nat (length jobs) - Z.of_nat (size removals) in
  let '(removals, terminalJobs) :=
    if (0 <? maxRetainedJobs s) && (maxRetainedJobs s <? remainingJobs)
    then let terminalJobs := sort_slice snap_older terminalJobs in
         (remove_extra (remainingJobs - maxRetainedJobs s) terminalJobs removals, terminalJobs)
    else (removals, terminalJobs) in
  let terminalCandidates := not_removed removals terminalJobs in
  let removals :=
    if 0 <? maxRetainedBytes s
    then fold_left (λ removals candidate, <[s_id candidate := s_workDir candidate]> removals)
           (buildRemovalsForByteLimit size_of terminalCandidates (maxRetainedBytes s)) removals
    else removals in
  let retainedTerminalJobs := not_removed removals terminalCandidates in
  (removals, nextBuildCleanupDue retainedTerminalJobs (jobTTL s)).
End cleanup.

(** ** The service *)

(** Where the goroutine [runBuild] of a job is; what it has measured so far. *)
Inductive pc :=
| PLock                                       (* s.locks.Lock(unitAbs) *)
| PSlot                                       (* s.slots <- struct{}{} *)
| PStart
| PMkdir (startedAt : Z)
| PBuild (startedAt : Z)                      (* inside s.runBuildFn *)
| PFinish (startedAt : Z) (r : result goerr string)
| PReport (startedAt finishedAt : Z) (r : result goerr string)
| PUnslot                                     (* the deferred calls *)
| PUnlock
| PDone.

Record thread := mkThread { t_pc : pc; unitAbs : string }.

Record Svc := mkSvc {
  heap : list buildJob;             (* every job made, oldest first *)
  threads : list thread;            (* the goroutine of each *)
  jobs : gmap string nat;           (* s.jobs *)
  slots : Z;                        (* len(s.slots) *)
  held : gset string;               (* the locked paths of s.locks *)
  triggers : nat;                   (* calls of s.cleanupRunner.Trigger *)
  metrics : option Recorder;
  os : OsState;
}.

Section service.
Context `{WorkDir} `{SortSlice} `{MapRange} (flt : Faults) (dir_size : Z) (s : BuildService).

Definition set_job (p : nat) (f : buildJob → buildJob) (st : Svc) : Svc :=
  mkSvc (alter f p (heap st)) (threads st) (jobs st) (slots st) (held st) (triggers st) (metrics st) (os st).
Definition set_pc (p : nat) (next : pc) (st : Svc) : Svc :=
  mkSvc (heap st) (alter (λ t, mkThread next (unitAbs t)) p (threads st)) (jobs st) (slots st) (held st)
    (triggers st) (metrics st) (os st).
Definition set_locks (slots : Z) (held : gset string) (st : Svc) : Svc :=
  mkSvc (heap st) (threads st) (jobs st) slots held (triggers st) (metrics st) (os st).
Definition set_metrics (f : option Recorder → option Recorder) (st : Svc) : Svc :=
  mkSvc (heap st) (threads st) (jobs st) (slots st) (held st) (triggers st) (f (metrics st)) (os st).
Definition set_tree (t : OsState) (st : Svc) : Svc :=
  mkSvc (heap st) (threads st) (jobs st) (slots st) (held st) (triggers st) (metrics st) t.
Definition triggerCleanup (st : Svc) : Svc :=
  mkSvc (heap st) (threads st) (jobs st) (slots st) (held st) (S (triggers st)) (metrics st) (os st).

(** *** StartBuild *)

Definition resolveUnitPath (unitPath : string) : result goerr string :=
  try path := normalizeProjectPath (RootDir s) unitPath in
  ResolvePath (RootDir s) path.

(** [newBuildID] is the result of the random source, the text of 8 bytes. *)
Definition StartBuild (UnitPath Target : string) (newBuildID : result goerr string) (now : Z) (st : Svc) :
    Svc * result Prelude.status string :=
  if negb (RemoteEnabled s) then
    (st, Err (Status FailedPrecondition "remote build is disabled by server configuration"))
  else if bool_decide (UnitPath = "") then (st, Err (Status InvalidArgument "unit_path is required"))
  else
    match normalizeProjectPath (RootDir s) UnitPath with
    | Err e => (st, Err (Status InvalidArgument (err_text e)))
    | Ok unitPath =>
        match resolveUnitPath unitPath with
        | Err e => (st, Err (Status InvalidArgument (err_text e)))
        | Ok unitAbs =>
            match newBuildID with
            | Err e => (st, Err (Status Internal (err_text e)))
            | Ok id =>
                let job := mkJob id unitPath Target "queued" now now None None [] (maxLogBytes s) "" "" None in
                (triggerCleanup
                   (mkSvc (heap st ++ [job]) (threads st ++ [mkThread PLock unitAbs])
                      (<[id := length (heap st)]> (jobs st)) (slots st) (held st) (triggers st) (metrics st)
                      (os st)),
                 Ok id)
            end
        end
    end.

(** *** The goroutine *)

Definition set_running (startedAt : Z) (workDir : string) (j : buildJob) : buildJob :=
  mkJob (id j) (unitPath j) (target j) "running" (createdAt j) (queuedAt j) (Some startedAt) (finishedAt j)
    (logBuf j) (maxLog j) (productPath j) workDir (err j).
Definition set_success (finishedAt : Z) (productPath : string) (j : buildJob) : buildJob :=
  mkJob (id j) (unitPath j) (target j) "success" (createdAt j) (queuedAt j) (startedAt j) (Some finishedAt)
    (logBuf j) (maxLog j) productPath (workDir j) (err j).
Definition set_failed (finishedAt : Z) (e : goerr) (j : buildJob) : buildJob :=
  mkJob (id j) (unitPath j) (target j) "failed" (createdAt j) (queuedAt j) (startedAt j) (Some finishedAt)
    (logBuf j) (maxLog j) (productPath j) (workDir j) (Some e).

Definition millisecond : Z := 1000000.

(** [runBuild] from the slot on: status, log lines, queue metric. *)
Definition start_job (p : nat) (now : Z) (j : buildJob) (st : Svc) : Svc :=
  let queueWait := duration_Round (time_Sub now (queuedAt j)) millisecond in
  let waited := "queued for " +:+ duration_String queueWait +:+ " before starting" +:+ newline in
  let begun := "start build: unit=" +:+ unitPath j +:+ " target=" +:+ target j +:+ newline in
  set_metrics (RecordBuildQueueWait queueWait)
    (set_job p (λ j, job_appendLog begun
                       ((if 0 <? queueWait then job_appendLog waited else Datatypes.id)
                          (set_running now (JoinPath (tempRoot s) (id j)) j))) st).

(** The first half of [completeJob] and [failJob], under the job's mutex. *)
Definition finish_job (p : nat) (now : Z) (r : result goerr string) (st : Svc) : Svc :=
  match r with
  | Ok productPath => set_job p (set_success now productPath) st
  | Err e => set_job p (set_failed now e) st
  end.
(** The second half: log lines, metrics, the cleanup trigger. *)
Definition report_job (p : nat) (startedAt finishedAt : Z) (r : result goerr string) (st : Svc) : Svc :=
  let duration := time_Sub finishedAt startedAt in
  let st :=
    match r with
    | Ok productPath =>
        set_job p (λ j,
          (if negb (bool_decide (productPath = ""))
           then job_appendLog ("product: " +:+ productPath +:+ newline) else Datatypes.id)
            (job_appendLog ("build success in " +:+ duration_String (duration_Round duration millisecond)
                            +:+ newline) j)) st
    | Err e => set_job p (job_appendLog ("build failed: " +:+ err_text e +:+ newline)) st
    end in
  let size := match heap st !! p with Some j => logSize j | None => 0 end in
  triggerCleanup (set_metrics (RecordBuildCompletion (is_ok r) duration size) st).

(** One step of goroutine [p] at time [now]; [None] while it has to wait, or
    when it is inside the build or done. *)
Definition advance (p : nat) (now : Z) (st : Svc) : option Svc :=
  match threads st !! p, heap st !! p with
  | Some t, Some j =>
      match t_pc t with
      | PLock =>
          if decide (unitAbs t ∈ held st) then None
          else Some (set_pc p PSlot (set_locks (slots st) ({[unitAbs t]} ∪ held st) st))
      | PSlot =>
          if slots st <? workers s
          then Some (set_pc p PStart (set_locks (slots st + 1) (held st) st)) else None
      | PStart => Some (set_pc p (PMkdir now) (start_job p now j st))
      | PMkdir startedAt =>
          match os_MkdirAll flt now (workDir j) (os st) with
          | (t', Ok _) => Some (set_pc p (PBuild startedAt) (set_tree t' st))
          | (t', Err e) => Some (set_pc p (PFinish startedAt (Err e)) (set_tree t' st))
          end
      | PFinish startedAt r => Some (set_pc p (PReport startedAt now r) (finish_job p now r st))
      | PReport startedAt finishedAt r => Some (set_pc p PUnslot (report_job p startedAt finishedAt r st))
      | PUnslot => Some (set_pc p PUnlock (set_locks (slots st - 1) (held st) st))
      | PUnlock => Some (set_pc p PDone (set_locks (slots st) (held st ∖ {[unitAbs t]}) st))
      | PBuild _ | PDone => None
      end
  | _, _ => None
  end.

(** What the build function of goroutine [p] does: it logs, and it returns. *)
Definition build_log (p : nat) (entry : string) (st : Svc) : option Svc :=
  match t_pc <$> threads st !! p with
  | Some (PBuild _) => Some (set_job p (job_appendLog entry) st)
  | _ => None
  end.
Definition build_return (p : nat) (r : result goerr string) (st : Svc) : option Svc :=
  match t_pc <$> threads st !! p with
  | Some (PBuild startedAt) => Some (set_pc p (PFinish startedAt r) st)
  | _ => None
  end.

(** *** cleanupJobs *)

(** The jobs of the map, in the order [range] visits them. *)
Definition listed (st : Svc) : list (string * buildJob) :=
  omap (λ e, match heap st !! e.2 with Some j => Some (e.1, j) | None => None end) (map_range (jobs st)).

Definition cleanup_dirs (dirs : list string) (t : OsState) : OsState :=
  fold_left (λ t dir, if bool_decide (dir = "") then t else (os_RemoveAll flt dir t).1) dirs t.

(** Only the cleanup runner deletes from the map and terminal jobs do not
    change, so the phases of [cleanupJobs] are one step. *)
Definition cleanupJobs (now : Z) (st : Svc) : Svc * option Z :=
  if (size (jobs st) =? 0)%nat then (st, None)
  else
    let '(removals, nextDue) :=
      plan_cleanup s (λ dir, buildPathSize flt dir_size dir (os st)) now (listed st) in
    (mkSvc (heap st) (threads st) (filter (λ e, removals !! e.1 = None) (jobs st)) (slots st) (held st)
       (triggers st) (metrics st) (cleanup_dirs (map_range removals).*2 (os st)),
     nextDue).
Definition cleanupRunner : Runner Svc := mkRunner 0 cleanupJobs.

(** *** The other RPCs *)

Definition getJob (buildID : string) (st : Svc) : result Prelude.status buildJob :=
  if bool_decide (buildID = "") then Err (Status InvalidArgument "build_id is required")
  else match jobs st !! buildID ≫= λ p, heap st !! p with
       | None => Err (Status NotFound "build_id not found")
       | Some job => Ok job
       end.

Record StatusResponse := mkStatus {
  r_Status : string; r_Error : string; StartedAtUnix : Z; FinishedAtUnix : Z; ProductName : string }.

Definition GetBuildStatus (buildID : string) (st : Svc) : result Prelude.status StatusResponse :=
  try job := getJob buildID st in
  Ok (mkStatus (status job)
        (match err job with Some e => err_text e | None => "" end)
        (match startedAt job with Some t => unix_seconds t | None => 0 end)
        (match finishedAt job with Some t => unix_seconds t | None => 0 end)
        (if bool_decide (productPath job = "") then "" else Base (productPath job))).

Definition FetchBuildLog (buildID : string) (st : Svc) : result Prelude.status bytes :=
  try job := getJob buildID st in
  Ok (string_bytes ("[status=" +:+ status job +:+ "]" +:+ newline) ++ logBuf job
      ++ match err job with
         | Some e => string_bytes (newline +:+ "[error] " +:+ err_text e)
         | None => []
         end).

Definition GetBuildProduct (buildID : string) (st : Svc) : result Prelude.status (string * bytes) :=
  try job := getJob buildID st in
  if bool_decide (status job = "queued") || bool_decide (status job = "running")
  then Err (Status FailedPrecondition "build is still running")
  else if bool_decide (status job = "failed") then
    match err job with
    | Some e => Err (Status FailedPrecondition ("build failed: " +:+ err_text e))
    | None => Err (Status FailedPrecondition "build failed")
    end
  else if bool_decide (productPath job = "")
  then Err (Status NotFound "build finished but no product found")
  else match os_ReadFile flt (productPath job) (os st) with
       | Err e => Err (toGrpcError e)
       | Ok data => Ok (Base (productPath job), data)
       end.

(** *** Runs *)

(** [AWorld] is any change of the tree by the rest of the system, the build
    tools among it. *)
Inductive action :=
| AStart (unit target : string) (rnd : result goerr string) (now : Z)
| AThread (p : nat) (now : Z)
| ALog (p : nat) (entry : string)
| AReturn (p : nat) (r : result goerr string)
| ACleanup (now : Z)
| AWorld (t : OsState).

Definition step (a : action) (st : Svc) : option Svc :=
  match a with
  | AStart unit target rnd now => Some (StartBuild unit target rnd now st).1
  | AThread p now => advance p now st
  | ALog p entry => build_log p entry st
  | AReturn p r => build_return p r st
  | ACleanup now => Some (cleanupJobs now st).1
  | AWorld t => Some (set_tree t st)
  end.

Fixpoint run (acts : list action) (st : Svc) : option Svc :=
  match acts with
  | [] => Some st
  | a :: acts' => step a st ≫= run acts'
  end.

Definition init (m : option Recorder) (t : OsState) : Svc := mkSvc [] [] ∅ 0 ∅ 0 m t.
End service.
End Build.
