(* ===== verification/BuildTheorems.v ===== *)
(** * The build service: what its runs keep

    The invariant of the jobs and their goroutines, mutual exclusion and
    progress of builds, and the retention of finished jobs. *)

From S2P Require Import Prelude GoStrings FsPath OsFs PathOps World Runner Recorder BuildLog BuildUnit BuildService.
Open Scope string_scope.
Open Scope Z_scope.
Open Scope list_scope.
Import Build.

(** ** Tallies over goroutines *)

Definition tally (w : thread → Z) (ts : list thread) : Z := foldr (λ t n, w t + n) 0 ts.

Lemma tally_app w ts1 ts2 : tally w (ts1 ++ ts2) = tally w ts1 + tally w ts2.
Proof. induction ts1 as [|t ts1 IH]; simpl; [done|]. rewrite IH. lia. Qed.
Lemma tally_nonneg w ts : (∀ t, 0 ≤ w t) → 0 ≤ tally w ts.
Proof. intros Hw. induction ts as [|t ts IH]; simpl; [done|]. specialize (Hw t). lia. Qed.
Lemma tally_alter w f p ts t :
  ts !! p = Some t → tally w (alter f p ts) = tally w ts - w t + w (f t).
Proof.
  revert p. induction ts as [|t0 ts IH]; intros [|p]; simpl; [done|done| |].
  - intros [= ->]. change (tally w (f t :: ts) = w t + tally w ts - w t + w (f t)). simpl. lia.
  - intros Hp. change (w t0 + tally w (alter f p ts) = w t0 + tally w ts - w t + w (f t)).
    rewrite (IH p) by done. lia.
Qed.
Lemma tally_ge w ts p t : (∀ t, 0 ≤ w t) → ts !! p = Some t → w t ≤ tally w ts.
Proof.
  intros Hw. revert p. induction ts as [|t0 ts IH]; intros [|p]; simpl; [done|done| |].
  - intros [= ->]. pose proof (tally_nonneg w ts Hw). lia.
  - intros Hp. specialize (IH p Hp). specialize (Hw t0). lia.
Qed.
Lemma tally_ge_two w ts p q t t' :
  (∀ t, 0 ≤ w t) → p ≠ q → ts !! p = Some t → ts !! q = Some t' → w t + w t' ≤ tally w ts.
Proof.
  intros Hw. revert p q. induction ts as [|t0 ts IH]; intros [|p] [|q] Hne; simpl; try done.
  - intros [= ->] Hq. pose proof (tally_ge w ts q t' Hw Hq). lia.
  - intros Hp [= ->]. pose proof (tally_ge w ts p t Hw Hp). lia.
  - intros Hp Hq. specialize (Hw t0). specialize (IH p q ltac:(lia) Hp Hq). lia.
Qed.

(** Goroutines past [s.locks.Lock], and those that own a slot. *)
Definition locked (c : pc) : bool := match c with PLock | PDone => false | _ => true end.
Definition in_slot (c : pc) : bool := match c with PLock | PSlot | PUnlock | PDone => false | _ => true end.
Definition slot_weight (t : thread) : Z := if in_slot (t_pc t) then 1 else 0.
Definition lock_weight (u : string) (t : thread) : Z :=
  if locked (t_pc t) && bool_decide (unitAbs t = u) then 1 else 0.
(** The steps a goroutine still has to take. *)
Definition work_left (t : thread) : Z :=
  match t_pc t with
  | PLock => 9 | PSlot => 8 | PStart => 7 | PMkdir _ => 6 | PBuild _ => 5 | PFinish _ _ => 4
  | PReport _ _ _ => 3 | PUnslot => 2 | PUnlock => 1 | PDone => 0
  end.

Section build.
Context `{WorkDir} `{SortSlice} `{MapRange} (flt : Faults) (dir_size : Z) (s : BuildService).

Abbreviation advance := (advance flt s).
Abbreviation step := (step flt dir_size s).
Abbreviation run := (run flt dir_size s).

(** ** The invariant *)

(** What the goroutine of a job says of the job. *)
Definition job_at (c : pc) (j : buildJob) : Prop :=
  maxLog j = maxLogBytes s ∧
  (0 < maxLogBytes s → logSize j ≤ maxLogBytes s) ∧
  match c with
  | PLock | PSlot | PStart =>
      status j = "queued" ∧ startedAt j = None ∧ finishedAt j = None ∧ err j = None ∧
      productPath j = "" ∧ workDir j = ""
  | PMkdir t0 | PBuild t0 | PFinish t0 _ =>
      status j = "running" ∧ startedAt j = Some t0 ∧ finishedAt j = None ∧ err j = None ∧
      productPath j = "" ∧ workDir j = JoinPath (tempRoot s) (id j)
  | PReport _ _ _ | PUnslot | PUnlock | PDone =>
      (∃ t0, startedAt j = Some t0) ∧ (∃ t1, finishedAt j = Some t1) ∧
      workDir j = JoinPath (tempRoot s) (id j) ∧
      ((status j = "success" ∧ err j = None) ∨
       (status j = "failed" ∧ productPath j = "" ∧ ∃ e, err j = Some e))
  end.

Record svc_ok (st : Svc) : Prop := {
  ok_len : length (threads st) = length (heap st);
  ok_job p t j : threads st !! p = Some t → heap st !! p = Some j → job_at (t_pc t) j;
  ok_slots : slots st = tally slot_weight (threads st);
  ok_slots_le : slots st ≤ workers s;
  ok_held u : tally (lock_weight u) (threads st) = if decide (u ∈ held st) then 1 else 0;
  ok_ptr i p : jobs st !! i = Some p → ∃ j, heap st !! p = Some j ∧ id j = i;
}.

Lemma slot_weight_nonneg t : 0 ≤ slot_weight t.
Proof. unfold slot_weight. by destruct (in_slot _). Qed.
Lemma lock_weight_nonneg u t : 0 ≤ lock_weight u t.
Proof. unfold lock_weight. by destruct (_ && _). Qed.

(** A step that moves goroutine [p], and changes its job by [g] only. *)
Lemma moves_keep_ok st st' p t j c' (g : buildJob → buildJob) :
  svc_ok st → threads st !! p = Some t → heap st !! p = Some j →
  threads st' = alter (λ t, mkThread c' (unitAbs t)) p (threads st) →
  heap st' = alter g p (heap st) → jobs st' = jobs st →
  (∀ j, id (g j) = id j) → (job_at (t_pc t) j → job_at c' (g j)) →
  slots st' = slots st - slot_weight t + slot_weight (mkThread c' (unitAbs t)) →
  slots st' ≤ workers s →
  (∀ u, lock_weight u (mkThread c' (unitAbs t)) - lock_weight u t
        = (if decide (u ∈ held st') then 1 else 0) - (if decide (u ∈ held st) then 1 else 0)) →
  svc_ok st'.
Proof.
  intros Hok Ht Hj Et Eh Ej Hid Hg Hs Hsl Hl. destruct Hok as [H1' H2' H3 H4 H5 H6]. split.
  - by rewrite Et, Eh, !length_alter.
  - intros q t' j'. rewrite Et, Eh. destruct (decide (q = p)) as [->|Hq].
    + rewrite !list_lookup_alter_eq, Ht, Hj. simpl. intros [= <-] [= <-]. by apply Hg, H2' with p.
    + rewrite !list_lookup_alter_ne by done. apply H2'.
  - rewrite Et, (tally_alter _ _ _ _ t) by done. by rewrite <- H3.
  - done.
  - intros u. rewrite Et, (tally_alter _ _ _ _ t), H5 by done. specialize (Hl u). lia.
  - intros i q. rewrite Ej, Eh. intros Hi. destruct (H6 i q Hi) as (j' & Hj' & Hi').
    destruct (decide (q = p)) as [->|Hq].
    + rewrite list_lookup_alter_eq, Hj'. simpl. eexists. split; [done|]. by rewrite Hid.
    + rewrite list_lookup_alter_ne by done. eauto.
Qed.

Lemma alter_same {A} (f : A → A) p (l : list A) x : l !! p = Some x → f x = x → alter f p l = l.
Proof.
  intros Hx Hf. apply list_eq. intros q. destruct (decide (p = q)) as [<-|Hq].
  - rewrite list_lookup_alter_eq, Hx. simpl. by rewrite Hf.
  - by rewrite list_lookup_alter_ne.
Qed.

Lemma job_appendLog_at c j entry : job_at c j → job_at c (job_appendLog entry j).
Proof.
  intros (Hm & Hl & Hc). split; [done|]. split.
  - intros Hpos. unfold logSize, job_appendLog. simpl. rewrite Hm. by apply appendLogWithLimit_length.
  - unfold job_appendLog. by destruct c.
Qed.

(** [start_job] and [report_job] only append to the log otherwise. *)
Definition started (now : Z) (j : buildJob) : buildJob → buildJob := λ j',
  let queueWait := duration_Round (time_Sub now (queuedAt j)) millisecond in
  job_appendLog ("start build: unit=" +:+ unitPath j +:+ " target=" +:+ target j +:+ newline)
    ((if 0 <? queueWait
      then job_appendLog ("queued for " +:+ duration_String queueWait +:+ " before starting" +:+ newline)
      else Datatypes.id) (set_running now (JoinPath (tempRoot s) (id j')) j')).

Lemma start_job_eq p now j st :
  start_job s p now j st =
  set_metrics (RecordBuildQueueWait (duration_Round (time_Sub now (queuedAt j)) millisecond))
    (set_job p (started now j) st).
Proof. done. Qed.

Lemma report_job_eq p t0 t1 r st :
  ∃ g, (∀ j, id (g j) = id j) ∧ (∀ c j, job_at c j → job_at c (g j)) ∧
       (∀ j, status (g j) = status j ∧ err (g j) = err j ∧ productPath (g j) = productPath j ∧
             startedAt (g j) = startedAt j ∧ finishedAt (g j) = finishedAt j ∧ workDir (g j) = workDir j) ∧
       heap (report_job p t0 t1 r st) = alter g p (heap st) ∧
       threads (report_job p t0 t1 r st) = threads st ∧ jobs (report_job p t0 t1 r st) = jobs st ∧
       slots (report_job p t0 t1 r st) = slots st ∧ held (report_job p t0 t1 r st) = held st.
Proof.
  unfold report_job. destruct r as [path|e].
  - eexists. split_and!; [| | |done..].
    + intros j. by destruct (negb _).
    + intros c j Hj. destruct (negb _); unfold Datatypes.id; repeat apply job_appendLog_at; done.
    + intros j. by destruct (negb _).
  - eexists. split_and!; [| | |done..]; [done| |done].
    intros c j Hj. by apply job_appendLog_at.
Qed.

Lemma job_at_len c j : job_at c j → maxLog j = maxLogBytes s ∧ (0 < maxLogBytes s → logSize j ≤ maxLogBytes s).
Proof. intros (? & ? & _). done. Qed.

Lemma lock_weight_same u t c' :
  locked c' = locked (t_pc t) → lock_weight u (mkThread c' (unitAbs t)) = lock_weight u t.
Proof. unfold lock_weight. simpl. by intros ->. Qed.
Lemma lock_weight_other u t c' :
  u ≠ unitAbs t → lock_weight u (mkThread c' (unitAbs t)) = 0 ∧ lock_weight u t = 0.
Proof.
  intros Hu. unfold lock_weight. simpl.
  by rewrite !(bool_decide_eq_false_2 (unitAbs t = u)), !andb_false_r by done.
Qed.

(** A step that leaves the locks alone. *)
Lemma inside_keeps_ok st st' p t j c' (g : buildJob → buildJob) :
  svc_ok st → threads st !! p = Some t → heap st !! p = Some j →
  threads st' = alter (λ t, mkThread c' (unitAbs t)) p (threads st) →
  heap st' = alter g p (heap st) → jobs st' = jobs st → slots st' = slots st → held st' = held st →
  (∀ j, id (g j) = id j) → (job_at (t_pc t) j → job_at c' (g j)) →
  locked c' = locked (t_pc t) → in_slot c' = in_slot (t_pc t) → svc_ok st'.
Proof.
  intros Hok Ht Hj Et Eh Ej Es Ehd Hid Hg Hl Hs.
  eapply (moves_keep_ok st st' p t j c' g); try done.
  - rewrite Es. unfold slot_weight. simpl. rewrite Hs. lia.
  - rewrite Es. apply (ok_slots_le _ Hok).
  - intros u. rewrite lock_weight_same, Ehd by done. lia.
Qed.

Lemma advance_ok p now st st' : svc_ok st → advance p now st = Some st' → svc_ok st'.
Proof.
  intros Hok. unfold BuildService.Build.advance.
  destruct (threads st !! p) as [t|] eqn:Ht; [|done]. destruct (heap st !! p) as [j|] eqn:Hj; [|done].
  pose proof (ok_slots_le _ Hok) as Hle. pose proof (alter_same (λ j : buildJob, j) p (heap st) j Hj eq_refl) as Hid.
  destruct (t_pc t) as [| | |t0|t0|t0 r|t0 t1 r| | |] eqn:Hc; try done.
  - case_decide as Hu; [done|]. intros [= <-].
    eapply (moves_keep_ok st _ p t j PSlot (λ j, j)); try done; simpl.
    + by rewrite Hc.
    + unfold slot_weight. rewrite Hc. simpl. lia.
    + intros u. destruct (decide (u = unitAbs t)) as [->|Hne].
      * rewrite (decide_True (P := _ ∈ {[_]} ∪ _)) by set_solver. rewrite decide_False by done.
        unfold lock_weight. rewrite Hc. simpl. by rewrite bool_decide_eq_true_2.
      * destruct (lock_weight_other u t PSlot Hne) as [-> ->].
        rewrite (decide_ext (u ∈ {[unitAbs t]} ∪ held st) (u ∈ held st)) by set_solver. lia.
  - destruct (Z.ltb_spec (slots st) (workers s)); [|done]. intros [= <-].
    eapply (moves_keep_ok st _ p t j PStart (λ j, j)); try done; simpl.
    + by rewrite Hc.
    + unfold slot_weight. rewrite Hc. simpl. lia.
    + lia.
    + intros u. rewrite lock_weight_same by by rewrite Hc. lia.
  - intros [= <-]. rewrite start_job_eq.
    eapply (inside_keeps_ok st _ p t j (PMkdir now) (started now j)); try done; try by rewrite Hc.
    + intros j'. unfold started. by destruct (0 <? _).
    + rewrite Hc. intros Hat. unfold started. apply job_appendLog_at.
      assert (job_at (PMkdir now) (set_running now (JoinPath (tempRoot s) (id j)) j)).
      { destruct Hat as (H1' & H2' & H3). split; [done|]. split; [done|]. simpl. naive_solver. }
      destruct (0 <? _); [by apply job_appendLog_at|done].
  - destruct (os_MkdirAll _ _ _ _) as [t' [[]|e]]; intros [= <-];
      eapply (inside_keeps_ok st _ p t j _ (λ j, j)); try done; by rewrite Hc.
  - intros [= <-]. destruct r as [path|e].
    + eapply (inside_keeps_ok st _ p t j _ (set_success now path)); try done; try by rewrite Hc.
      rewrite Hc. intros (H1' & H2' & H3). split; [done|]. split; [done|]. simpl. naive_solver.
    + eapply (inside_keeps_ok st _ p t j _ (set_failed now e)); try done; try by rewrite Hc.
      rewrite Hc. intros (H1' & H2' & H3). split; [done|]. split; [done|]. simpl. naive_solver.
  - intros [= <-]. destruct (report_job_eq p t0 t1 r st) as (g & Hg1 & Hg2 & _ & Eh & Et & Ej & Es & Ehd).
    eapply (inside_keeps_ok st _ p t j PUnslot g); try done; try by rewrite Hc.
    + cbn [threads set_pc]. by rewrite Et.
    + rewrite Hc. intros Hat. apply Hg2. exact Hat.
  - intros [= <-].
    eapply (moves_keep_ok st _ p t j PUnlock (λ j, j)); try done; simpl.
    + by rewrite Hc.
    + unfold slot_weight. rewrite Hc. simpl. lia.
    + lia.
    + intros u. rewrite lock_weight_same by by rewrite Hc. lia.
  - intros [= <-].
    pose proof (ok_held _ Hok (unitAbs t)) as Hh.
    pose proof (tally_ge (lock_weight (unitAbs t)) _ p t (lock_weight_nonneg _) Ht) as Hge.
    assert (lock_weight (unitAbs t) t = 1) as Hw.
    { unfold lock_weight. rewrite Hc. simpl. by rewrite bool_decide_eq_true_2. }
    eapply (moves_keep_ok st _ p t j PDone (λ j, j)); try done; simpl.
    + by rewrite Hc.
    + unfold slot_weight. rewrite Hc. simpl. lia.
    + intros u. destruct (decide (u = unitAbs t)) as [->|Hne].
      * rewrite (decide_False (P := _ ∈ _ ∖ _)) by set_solver.
        assert (lock_weight (unitAbs t) (mkThread PDone (unitAbs t)) = 0) as -> by done.
        destruct (decide (unitAbs t ∈ held st)); lia.
      * destruct (lock_weight_other u t PDone Hne) as [-> ->].
        rewrite (decide_ext (u ∈ held st ∖ {[unitAbs t]}) (u ∈ held st)) by set_solver. lia.
Qed.

Lemma build_log_ok p entry st st' : svc_ok st → build_log p entry st = Some st' → svc_ok st'.
Proof.
  intros Hok. unfold build_log. destruct (threads st !! p) as [t|] eqn:Ht; [|done]. simpl.
  destruct (t_pc t) as [| | | |t0| | | | |] eqn:Hc; try done. intros [= <-].
  destruct (lookup_lt_is_Some_2 (heap st) p) as [j Hj].
  { rewrite <- (ok_len _ Hok). by eapply lookup_lt_Some. }
  eapply (inside_keeps_ok st _ p t j (PBuild t0) (job_appendLog entry)); try done; try by rewrite Hc.
  - simpl. symmetry. eapply alter_same; [done|]. destruct t. simpl in *. by subst.
  - rewrite Hc. apply job_appendLog_at.
Qed.

Lemma build_return_ok p r st st' : svc_ok st → build_return p r st = Some st' → svc_ok st'.
Proof.
  intros Hok. unfold build_return. destruct (threads st !! p) as [t|] eqn:Ht; [|done]. simpl.
  destruct (t_pc t) as [| | | |t0| | | | |] eqn:Hc; try done. intros [= <-].
  destruct (lookup_lt_is_Some_2 (heap st) p) as [j Hj].
  { rewrite <- (ok_len _ Hok). by eapply lookup_lt_Some. }
  eapply (inside_keeps_ok st _ p t j (PFinish t0 r) (λ j, j)); try done; try by rewrite Hc.
  simpl. symmetry. by eapply alter_same.
Qed.

Lemma StartBuild_ok unit tgt rnd now st : svc_ok st → svc_ok (StartBuild s unit tgt rnd now st).1.
Proof.
  intros Hok. unfold StartBuild. destruct (negb _); [done|]. case_bool_decide; [done|].
  destruct (normalizeProjectPath _ _) as [path|]; [|done]. destruct (resolveUnitPath _ _) as [abs|]; [|done].
  destruct rnd as [i|]; [|done]. destruct Hok as [H1' H2' H3' H4' H5' H6']. split; simpl.
  - rewrite !length_app. simpl. by rewrite H1'.
  - intros p t j [Hp|[Hp Hq]]%lookup_app_Some [Hp'|[Hp'' Hq']]%lookup_app_Some.
    + by apply H2' with p.
    + apply lookup_lt_Some in Hp. lia.
    + apply lookup_lt_Some in Hp'. lia.
    + rewrite H1' in Hq. destruct (p - length (heap st))%nat; [|done]. simpl in *.
      injection Hq as <-. injection Hq' as <-. simpl. split; [done|]. split; [|done].
      intros Hm. unfold logSize. simpl. lia.
  - rewrite tally_app, <- H3'. unfold slot_weight. simpl. lia.
  - done.
  - intros u. rewrite tally_app, H5'. unfold lock_weight. simpl. lia.
  - intros k p. destruct (decide (k = i)) as [->|Hk].
    + rewrite lookup_insert_eq. intros [= <-]. exists (mkJob i path tgt "queued" now now None None []
        (maxLogBytes s) "" "" None). split; [|done]. by rewrite lookup_app_r, Nat.sub_diag by lia.
    + rewrite lookup_insert_ne by done. intros Hp. destruct (H6' k p Hp) as (j & Hj & Hi).
      exists j. split; [|done]. by apply lookup_app_l_Some.
Qed.

(** A step that touches the map of jobs and the tree only. *)
Lemma forget_ok st st' :
  svc_ok st → heap st' = heap st → threads st' = threads st → slots st' = slots st → held st' = held st →
  jobs st' ⊆ jobs st → svc_ok st'.
Proof.
  intros [H1' H2' H3' H4' H5' H6'] Eh Et Es Ehd Hsub.
  split; rewrite ?Eh, ?Et, ?Es, ?Ehd; [done..|].
  intros i p Hi. apply H6'. by eapply lookup_weaken.
Qed.

Lemma cleanupJobs_frame now st :
  let st' := (cleanupJobs flt dir_size s now st).1 in
  heap st' = heap st ∧ threads st' = threads st ∧ slots st' = slots st ∧ held st' = held st ∧
  jobs st' ⊆ jobs st.
Proof.
  unfold cleanupJobs. destruct (_ =? _)%nat; [done|]. destruct (plan_cleanup _ _ _ _) as [removals due].
  simpl. split_and!; [done..|]. apply map_filter_subseteq.
Qed.

Lemma step_ok a st st' : svc_ok st → step a st = Some st' → svc_ok st'.
Proof.
  intros Hok. destruct a as [unit tgt rnd now|p now|p entry|p r|now|t]; simpl.
  - intros [= <-]. by apply StartBuild_ok.
  - by apply advance_ok.
  - by apply build_log_ok.
  - by apply build_return_ok.
  - intros [= <-]. destruct (cleanupJobs_frame now st) as (? & ? & ? & ? & ?). by eapply forget_ok.
  - intros [= <-]. by eapply forget_ok.
Qed.

Lemma run_ok acts st st' : svc_ok st → run acts st = Some st' → svc_ok st'.
Proof.
  revert st. induction acts as [|a acts IH]; intros st Hok; simpl.
  - by intros [= <-].
  - intros (st1 & Ha & Hr)%bind_Some. eapply IH; [|done]. by eapply step_ok.
Qed.

Lemma init_ok m t : 0 ≤ workers s → svc_ok (init m t).
Proof.
  intros Hw. by split.
Qed.

Lemma reachable_ok m t acts st : 0 ≤ workers s → run acts (init m t) = Some st → svc_ok st.
Proof. intros Hw. apply run_ok. by apply init_ok. Qed.

(** ** Progress *)

Definition work (st : Svc) : Z := tally work_left (threads st).

Lemma work_set_pc p c st t :
  threads st !! p = Some t → work (set_pc p c st) = work st - work_left t + work_left (mkThread c (unitAbs t)).
Proof. intros Ht. unfold work. simpl. by rewrite (tally_alter _ _ _ _ t). Qed.

Lemma advance_work p now st st' : advance p now st = Some st' → work st' < work st.
Proof.
  unfold BuildService.Build.advance.
  destruct (threads st !! p) as [t|] eqn:Ht; [|done]. destruct (heap st !! p) as [j|] eqn:Hj; [|done].
  assert (∀ st1 c, threads st1 = threads st → work_left (mkThread c (unitAbs t)) < work_left t →
    work (set_pc p c st1) < work st) as Hs.
  { intros st1 c E Hlt. rewrite (work_set_pc p c st1 t) by by rewrite E. unfold work. rewrite E. lia. }
  destruct (t_pc t) as [| | |t0|t0|t0 r|t0 t1 r| | |] eqn:Hc; try done; repeat case_match; try done;
    intros [= <-]; apply Hs; try (unfold work_left; rewrite Hc; simpl; lia); try done.
  - destruct r; done.
  - by destruct (report_job_eq p t0 t1 r st) as (g & _ & _ & _ & _ & -> & _).
Qed.

Lemma build_return_work p r st st' : build_return p r st = Some st' → work st' < work st.
Proof.
  unfold build_return. destruct (threads st !! p) as [t|] eqn:Ht; [|done]. simpl.
  destruct (t_pc t) as [| | | |t0| | | | |] eqn:Hc; try done. intros [= <-].
  rewrite (work_set_pc p _ st t) by done. unfold work_left. rewrite Hc. simpl. lia.
Qed.

(** A goroutine past its locks can always move. *)
Lemma in_slot_moves st p t now :
  svc_ok st → threads st !! p = Some t → locked (t_pc t) = true → t_pc t ≠ PSlot →
  (∃ t0, t_pc t = PBuild t0) ∨ ∃ st', advance p now st = Some st'.
Proof.
  intros Hok Ht Hl Hs. unfold BuildService.Build.advance. rewrite Ht.
  destruct (lookup_lt_is_Some_2 (heap st) p) as [j Hj].
  { rewrite <- (ok_len _ Hok). by eapply lookup_lt_Some. }
  rewrite Hj. destruct (t_pc t) as [| | |t0|t0|t0 r|t0 t1 r| | |]; try done; eauto.
  right. destruct (os_MkdirAll _ _ _ _) as [? [|]]; eauto.
Qed.

Lemma tally_pos w ts : 0 < tally w ts → ∃ p t, ts !! p = Some t ∧ 0 < w t.
Proof.
  induction ts as [|t ts IH]; simpl; [lia|]. intros Hp.
  destruct (Z.lt_ge_cases 0 (w t)); [by exists 0%nat, t|].
  destruct IH as (p & t' & Hp' & Hw); [lia|]. by exists (S p), t'.
Qed.

(** Some goroutine can move, or is inside its build. *)
Lemma some_moves st now :
  svc_ok st → 0 < workers s →
  (∃ p t, threads st !! p = Some t ∧ t_pc t ≠ PDone) →
  ∃ p t, threads st !! p = Some t ∧ ((∃ t0, t_pc t = PBuild t0) ∨ ∃ st', advance p now st = Some st').
Proof.
  intros Hok Hw (p & t & Ht & Hnd).
  (* a goroutine with a lock: it moves, or waits for a slot that another one has *)
  assert (∀ p t, threads st !! p = Some t → locked (t_pc t) = true →
    ∃ p t, threads st !! p = Some t ∧ ((∃ t0, t_pc t = PBuild t0) ∨ ∃ st', advance p now st = Some st'))
    as Hlocked.
  { intros q tq Hq Hl. destruct (decide (slots st < workers s)) as [Hlt|Hge].
    - exists q, tq. split; [done|].
      destruct (in_slot (t_pc tq)) eqn:Hin.
      { eapply in_slot_moves; eauto. by intros E; rewrite E in Hin. }
      right. unfold BuildService.Build.advance. rewrite Hq.
      destruct (lookup_lt_is_Some_2 (heap st) q) as [j ->].
      { rewrite <- (ok_len _ Hok). by eapply lookup_lt_Some. }
      destruct (t_pc tq); try done; eauto. apply Z.ltb_lt in Hlt as ->. eauto.
    - destruct (tally_pos slot_weight (threads st)) as (q' & t' & Hq' & Hpos).
      { rewrite <- (ok_slots _ Hok). lia. }
      exists q', t'. split; [done|]. unfold slot_weight in Hpos.
      destruct (in_slot (t_pc t')) eqn:Hin; [|lia].
      eapply in_slot_moves; eauto; [by destruct (t_pc t')|by intros E; rewrite E in Hin]. }
  destruct (locked (t_pc t)) eqn:Hl; [by eapply Hlocked|].
  destruct (decide (unitAbs t ∈ held st)) as [Hin|Hout].
  - pose proof (ok_held _ Hok (unitAbs t)) as Hh. rewrite decide_True in Hh by done.
    destruct (tally_pos (lock_weight (unitAbs t)) (threads st)) as (q & tq & Hq & Hpos); [lia|].
    eapply Hlocked; [done|]. unfold lock_weight in Hpos. by destruct (locked (t_pc tq)).
  - exists p, t. split; [done|]. right. unfold BuildService.Build.advance. rewrite Ht.
    destruct (lookup_lt_is_Some_2 (heap st) p) as [j ->].
    { rewrite <- (ok_len _ Hok). by eapply lookup_lt_Some. }
    destruct (t_pc t); try done. rewrite decide_False by done. eauto.
Qed.
End build.

(** ** What [cleanupJobs] plans *)

Section plan.
Context `{SortSlice} (s : BuildService) (size_of : string → Z).

Definition fresh_terminal (now : Z) (e : string * buildJob) : bool :=
  isTerminalBuildStatus (status e.2) && negb (job_expired s now (snapshotBuildJob e.2)).


Lemma collect_jobs_terminal now jobs R T :
  (collect_jobs s now jobs R T).2 = T ++ map (λ e, snapshotBuildJob e.2) (List.filter (fresh_terminal now) jobs).
Proof.
  revert R T. induction jobs as [|[i j] jobs IH]; intros R T; simpl; [by rewrite app_nil_r|].
  unfold fresh_terminal at 1. simpl. destruct (isTerminalBuildStatus (status j)); simpl; [|apply IH].
  destruct (job_expired s now (snapshotBuildJob j)); simpl; [apply IH|].
  by rewrite IH, <- app_assoc.
Qed.

Lemma ex_cons {A B} (i i0 : A) (x0 : B) l (P : B → Prop) :
  (∃ x, (i, x) ∈ (i0, x0) :: l ∧ P x) ↔ (i0 = i ∧ P x0) ∨ ∃ x, (i, x) ∈ l ∧ P x.
Proof.
  split.
  - intros (x & [[= -> ->]|Hx]%elem_of_cons & HP); [by left|right; by exists x].
  - intros [[-> HP]|(x & Hx & HP)]; [exists x0; split; [by left|done]|exists x; split; [by right|done]].
Qed.

(** The keys that are removed because their jobs have expired. *)
Definition expired_job (now : Z) (j : buildJob) : Prop :=
  isTerminalBuildStatus (status j) = true ∧ job_expired s now (snapshotBuildJob j) = true.
Lemma collect_jobs_removals now jobs R T i :
  is_Some ((collect_jobs s now jobs R T).1 !! i) ↔
  is_Some (R !! i) ∨ ∃ j, (i, j) ∈ jobs ∧ expired_job now j.
Proof.
  revert R T. induction jobs as [|[i' j] jobs IH]; intros R T; simpl.
  { split; [by left|]. intros [?|(j & Hj & _)]; [done|by apply not_elem_of_nil in Hj]. }
  rewrite ex_cons. unfold expired_job at 1.
  destruct (isTerminalBuildStatus (status j)) eqn:Et; simpl; [|rewrite IH; naive_solver].
  destruct (job_expired s now (snapshotBuildJob j)) eqn:Ee; simpl; rewrite IH; [|naive_solver].
  rewrite lookup_insert_is_Some'. tauto.
Qed.

Lemma remove_extra_grows extra snaps R i :
  is_Some (R !! i) → is_Some (remove_extra extra snaps R !! i).
Proof.
  revert extra R. induction snaps as [|snap snaps IH]; intros extra R Hi; simpl; [done|].
  destruct (extra =? 0); [done|]. destruct (R !! s_id snap); [by apply IH|].
  apply IH. rewrite lookup_insert_is_Some'. by right.
Qed.
Lemma remove_extra_from extra snaps R i :
  is_Some (remove_extra extra snaps R !! i) → is_Some (R !! i) ∨ ∃ snap, snap ∈ snaps ∧ s_id snap = i.
Proof.
  revert extra R. induction snaps as [|snap snaps IH]; intros extra R; simpl; [by left|].
  destruct (extra =? 0); [by left|]. destruct (R !! s_id snap).
  - intros [?|(x & ? & ?)]%IH; [by left|right; exists x]. split; [by right|done].
  - intros [Hi|(x & ? & ?)]%IH; [|right; exists x; split; [by right|done]].
    apply lookup_insert_is_Some' in Hi as [<-|Hi]; [right; exists snap; split; [by left|done]|by left].
Qed.

(** Enough jobs are removed, or all there are. *)
Lemma remove_extra_size extra snaps R :
  0 ≤ extra →
  Z.of_nat (size (remove_extra extra snaps R)) = Z.of_nat (size R) + extra ∨
  (∀ snap, snap ∈ snaps → is_Some (remove_extra extra snaps R !! s_id snap)).
Proof.
  revert extra R. induction snaps as [|snap snaps IH]; intros extra R He; simpl.
  { right. intros x Hx. by apply not_elem_of_nil in Hx. }
  destruct (Z.eqb_spec extra 0) as [->|Hne]; [left; lia|]. destruct (R !! s_id snap) eqn:E.
  - destruct (IH extra R He) as [?|Hall]; [by left|right].
    intros x [->|Hx]%elem_of_cons; [apply remove_extra_grows; by rewrite E|by apply Hall].
  - destruct (IH (extra - 1) (<[s_id snap := s_workDir snap]> R)) as [Hs|Hall]; [lia| |].
    + left. rewrite Hs, map_size_insert_None by done. lia.
    + right. intros x [->|Hx]%elem_of_cons; [|by apply Hall].
      apply remove_extra_grows. rewrite lookup_insert_is_Some'. by left.
Qed.

Lemma over_limit_prefix m total snaps : over_limit m total snaps `prefix_of` snaps.
Proof.
  revert total. induction snaps as [|snap snaps IH]; intros total; simpl; [done|].
  destruct (_ <=? _); [apply prefix_nil|]. apply prefix_cons, IH.
Qed.

(** What the byte limit removes, by id. *)
Definition bytes_removed (R : gmap string string) (candidates : list buildJobSnapshot) : gmap string string :=
  if 0 <? maxRetainedBytes s
  then fold_left (λ removals candidate, <[s_id candidate := s_workDir candidate]> removals)
         (buildRemovalsForByteLimit size_of candidates (maxRetainedBytes s)) R
  else R.

Lemma insert_all_lookup (l : list buildJobSnapshot) (R : gmap string string) i :
  is_Some (fold_left (λ removals c, <[s_id c := s_workDir c]> removals) l R !! i) ↔
  is_Some (R !! i) ∨ i ∈ map s_id l.
Proof.
  revert R. induction l as [|c l IH]; intros R; simpl.
  - rewrite elem_of_nil. naive_solver.
  - rewrite IH, lookup_insert_is_Some', elem_of_cons. naive_solver.
Qed.

Lemma byte_removals_from candidates m i :
  i ∈ map s_id (buildRemovalsForByteLimit size_of candidates m) → i ∈ map s_id candidates.
Proof.
  unfold buildRemovalsForByteLimit. destruct (_ || _); [simpl; intros Hi; by apply not_elem_of_nil in Hi|].
  set (sized := map _ candidates). destruct (_ <=? _); [simpl; intros Hi; by apply not_elem_of_nil in Hi|].
  intros Hi. apply list_elem_of_fmap in Hi as (c & -> & Hc).
  destruct (over_limit_prefix m (total_bytes sized) (sort_slice snap_older sized)) as [tl Htl].
  assert (c ∈ sort_slice snap_older sized) as Hin by (rewrite Htl; set_solver).
  rewrite sort_slice_perm in Hin. unfold sized in Hin.
  apply list_elem_of_fmap in Hin as (c' & -> & Hc'). simpl. apply list_elem_of_fmap. by exists c'.
Qed.

Lemma snap_older_order : StrictWeakOrder snap_older.
Proof.
  split; unfold snap_older, time_before.
  - intros x y. rewrite (bool_decide_ext (s_finishedAt y = s_finishedAt x) (s_finishedAt x = s_finishedAt y)) by done.
    case_bool_decide; [rewrite Z.ltb_lt, Z.ltb_ge; lia|].
    destruct (s_finishedAt x), (s_finishedAt y); try done. rewrite Z.ltb_lt, Z.ltb_ge. lia.
  - intros x y z. repeat case_bool_decide; try congruence.
    all: destruct (s_finishedAt x), (s_finishedAt y), (s_finishedAt z); simplify_eq; try done.
    all: repeat match goal with Hn : Some ?a ≠ Some ?b |- _ => assert (a ≠ b) by congruence; clear Hn end.
    all: rewrite ?Z.ltb_ge; lia.
Qed.

(** Jobs leave in the order of their age. *)
Lemma remove_extra_order extra snaps R x y :
  StronglySorted (λ a b, snap_older b a = false) snaps → NoDup (map s_id snaps) →
  x ∈ snaps → y ∈ snaps → R !! s_id x = None → is_Some (remove_extra extra snaps R !! s_id x) →
  remove_extra extra snaps R !! s_id y = None → snap_older y x = false.
Proof.
  revert extra R. induction snaps as [|h snaps IH]; intros extra R Hs Hnd Hx Hy HR Hrx Hry.
  { by apply not_elem_of_nil in Hx. }
  apply StronglySorted_inv in Hs as [Hs Hall]. simpl in Hnd. apply NoDup_cons in Hnd as [Hh Hnd].
  simpl in Hrx, Hry. destruct (extra =? 0); [rewrite HR in Hrx; by destruct Hrx|].
  apply elem_of_cons in Hx as [->|Hx].
  - rewrite HR in Hrx, Hry. apply elem_of_cons in Hy as [->|Hy].
    + exfalso. rewrite Hry in Hrx. by destruct Hrx.
    + rewrite Forall_forall in Hall. by apply Hall.
  - apply elem_of_cons in Hy as [->|Hy].
    + exfalso. destruct (R !! s_id h) eqn:E.
      * destruct (remove_extra_grows extra snaps R (s_id h)) as [d Hd]; [by rewrite E|].
        by rewrite Hry in Hd.
      * destruct (remove_extra_grows (extra - 1) snaps (<[s_id h := s_workDir h]> R) (s_id h)) as [d Hd].
        { by rewrite lookup_insert_eq. }
        by rewrite Hry in Hd.
    + destruct (R !! s_id h) eqn:E; [by eapply IH|].
      eapply IH; [done..| |done|done]. rewrite lookup_insert_ne; [done|]. intros Heq. apply Hh. rewrite Heq.
      apply list_elem_of_fmap. by exists x.
Qed.

Lemma sorted_prefix_order (snaps p : list buildJobSnapshot) x y :
  StronglySorted (λ a b, snap_older b a = false) snaps → p `prefix_of` snaps →
  x ∈ p → y ∈ snaps → y ∉ p → snap_older y x = false.
Proof.
  intros Hs [tl ->] Hx Hy Hny. apply elem_of_app in Hy as [Hy|Hy]; [done|].
  clear Hny. induction p as [|h p IH]; [by apply not_elem_of_nil in Hx|].
  simpl in Hs. apply StronglySorted_inv in Hs as [Hs Hall].
  apply elem_of_cons in Hx as [->|Hx]; [|by apply IH].
  rewrite Forall_forall in Hall. apply Hall. set_solver.
Qed.

(** The plan for the jobs [l] of the map, each under its own id. *)
Context (now : Z) (l : list (string * buildJob)).
Hypothesis Hnd : NoDup l.*1.
Hypothesis Hid : ∀ i j, (i, j) ∈ l → id j = i.

Abbreviation plan := (plan_cleanup s size_of now l).
Abbreviation terminals := (map (λ e, snapshotBuildJob e.2) (List.filter (fresh_terminal now) l)).

Lemma terminals_in snap :
  snap ∈ terminals ↔ ∃ i j, (i, j) ∈ l ∧ snap = snapshotBuildJob j ∧
                            isTerminalBuildStatus (status j) = true ∧
                            job_expired s now (snapshotBuildJob j) = false.
Proof.
  rewrite list_elem_of_fmap. split.
  - intros ([i j] & -> & Hin). rewrite list_elem_of_In, filter_In in Hin. destruct Hin as [Hin Hf].
    unfold fresh_terminal in Hf. simpl in Hf. apply andb_true_iff in Hf as [Ht He].
    apply negb_true_iff in He. exists i, j. by rewrite list_elem_of_In.
  - intros (i & j & Hin & -> & Ht & He). exists (i, j). split; [done|].
    rewrite list_elem_of_In, filter_In. rewrite list_elem_of_In in Hin. split; [done|].
    unfold fresh_terminal. simpl. by rewrite Ht, He.
Qed.

Lemma terminals_nodup : NoDup (map s_id terminals).
Proof.
  clear size_of. revert Hnd Hid. induction l as [|[i j] l' IH]; intros Hn Hi; simpl; [constructor|].
  simpl in Hn. apply NoDup_cons in Hn as [Hi' Hn].
  assert (NoDup (map s_id (map (λ e : string * buildJob, snapshotBuildJob e.2)
            (List.filter (fresh_terminal now) l')))) as Hrec.
  { apply IH; [done|]. intros. apply Hi. by right. }
  destruct (fresh_terminal now (i, j)); [|done]. simpl. constructor; [|done].
  rewrite (Hi i j) by by left. intros Hin. apply Hi'.
  apply list_elem_of_fmap in Hin as (snap & -> & Hin). apply list_elem_of_fmap in Hin as ([i2 j2] & -> & Hin).
  rewrite list_elem_of_In, filter_In in Hin. destruct Hin as [Hin _]. rewrite <- list_elem_of_In in Hin.
  simpl. rewrite (Hi i2 j2) by by right. apply list_elem_of_fmap. by exists (i2, j2).
Qed.

Lemma plan_shape :
  ∃ R1 R2 T,
    (∀ i, is_Some (R1 !! i) ↔ ∃ j, (i, j) ∈ l ∧ expired_job now j) ∧
    T ≡ₚ terminals ∧
    plan.1 = bytes_removed R2 (not_removed R2 T) ∧
    let remaining := Z.of_nat (length l) - Z.of_nat (size R1) in
    ((R2 = R1 ∧ (0 < maxRetainedJobs s → remaining ≤ maxRetainedJobs s)) ∨
     (StronglySorted (λ a b, snap_older b a = false) T ∧ maxRetainedJobs s < remaining ∧
      R2 = remove_extra (remaining - maxRetainedJobs s) T R1)).
Proof.
  pose proof (collect_jobs_removals now l ∅ []) as HR.
  pose proof (collect_jobs_terminal now l ∅ []) as HT. simpl in HT.
  unfold plan_cleanup. destruct (collect_jobs s now l ∅ []) as [R1 T0]. simpl in *. subst T0.
  set (remaining := Z.of_nat (length l) - Z.of_nat (size R1)).
  assert (∀ i, is_Some (R1 !! i) ↔ ∃ j, (i, j) ∈ l ∧ expired_job now j) as HR1.
  { intros i. rewrite HR, lookup_empty. split; [intros [[? ?]|?]; [done|done]|by right]. }
  destruct (Z.ltb_spec 0 (maxRetainedJobs s)), (Z.ltb_spec (maxRetainedJobs s) remaining); simpl.
  2-4: exists R1, R1, terminals; split_and!; [done..|left; split; [done|lia]].
  exists R1, (remove_extra (remaining - maxRetainedJobs s) (sort_slice snap_older terminals) R1),
    (sort_slice snap_older terminals).
  split_and!; [done|apply sort_slice_perm|done|right]. split_and!; [|done|done].
  apply sort_slice_sorted, snap_older_order.
Qed.

Lemma bytes_removed_lookup R C i :
  is_Some (bytes_removed R C !! i) →
  is_Some (R !! i) ∨ i ∈ map s_id (buildRemovalsForByteLimit size_of C (maxRetainedBytes s)).
Proof.
  unfold bytes_removed. destruct (0 <? maxRetainedBytes s); [|by left]. apply insert_all_lookup.
Qed.
Lemma bytes_removed_grows R C i : is_Some (R !! i) → is_Some (bytes_removed R C !! i).
Proof.
  unfold bytes_removed. destruct (0 <? maxRetainedBytes s); [|done].
  intros Hi. apply insert_all_lookup. by left.
Qed.
Lemma not_removed_in R C snap : snap ∈ not_removed R C ↔ snap ∈ C ∧ R !! s_id snap = None.
Proof.
  unfold not_removed. rewrite !list_elem_of_In, filter_In. destruct (R !! s_id snap); naive_solver.
Qed.

(** Everything that leaves is finished. *)
Lemma plan_terminal i :
  is_Some (plan.1 !! i) → ∃ j, (i, j) ∈ l ∧ isTerminalBuildStatus (status j) = true.
Proof.
  destruct plan_shape as (R1 & R2 & T & HR1 & HT & -> & Hcase). intros Hi.
  assert (∀ k, is_Some (R2 !! k) → ∃ j, (k, j) ∈ l ∧ isTerminalBuildStatus (status j) = true) as HR2.
  { intros k Hk. assert (is_Some (R1 !! k) ∨ ∃ snap, snap ∈ T ∧ s_id snap = k) as [Hk'|(snap & Hs & <-)].
    { destruct Hcase as [[-> _]|(_ & _ & ->)]; [by left|by eapply remove_extra_from]. }
    - apply HR1 in Hk' as (j & Hj & Ht & _). eauto.
    - rewrite HT in Hs. apply terminals_in in Hs as (i' & j & Hj & -> & Ht & _).
      exists j. simpl. by rewrite (Hid i' j Hj). }
  destruct (bytes_removed_lookup _ _ _ Hi) as [Hk|Hk]; [by apply HR2|].
  apply byte_removals_from in Hk. apply list_elem_of_fmap in Hk as (snap & -> & Hs).
  apply not_removed_in in Hs as [Hs _]. rewrite HT in Hs.
  apply terminals_in in Hs as (i' & j & Hj & -> & Ht & _). exists j. simpl. by rewrite (Hid i' j Hj).
Qed.

Lemma plan_expired i j : (i, j) ∈ l → expired_job now j → is_Some (plan.1 !! i).
Proof.
  destruct plan_shape as (R1 & R2 & T & HR1 & HT & -> & Hcase). intros Hj He.
  apply bytes_removed_grows. assert (is_Some (R1 !! i)) as Hi by (apply HR1; eauto).
  destruct Hcase as [[-> _]|(_ & _ & ->)]; [done|by apply remove_extra_grows].
Qed.

(** Fewer than the maximum are left, or no finished job is. *)
Lemma plan_count :
  0 < maxRetainedJobs s →
  Z.of_nat (length l) - Z.of_nat (size plan.1) ≤ maxRetainedJobs s ∨
  (∀ i j, (i, j) ∈ l → isTerminalBuildStatus (status j) = true → is_Some (plan.1 !! i)).
Proof.
  intros Hm. pose proof plan_expired as Hexp.
  destruct plan_shape as (R1 & R2 & T & HR1 & HT & Hplan & Hcase). rewrite Hplan in *.
  assert (size R2 ≤ size (bytes_removed R2 (not_removed R2 T)))%nat as Hle.
  { rewrite <- !(size_dom (D := gset string)). apply subseteq_size. intros k. rewrite !elem_of_dom.
    apply bytes_removed_grows. }
  destruct Hcase as [[-> Hr]|(_ & Hr & ->)]; [left; specialize (Hr Hm); lia|].
  set (extra := _ - maxRetainedJobs s) in *.
  destruct (remove_extra_size extra T R1) as [Hs|Hall]; [lia|left; lia|right].
  intros i j Hj Ht. destruct (job_expired s now (snapshotBuildJob j)) eqn:He; [by apply (Hexp i j)|].
  apply bytes_removed_grows. rewrite <- (Hid i j Hj). change (id j) with (s_id (snapshotBuildJob j)).
  apply Hall. rewrite HT. apply terminals_in. by exists i, j.
Qed.

(** A finished job leaves before its time only when every older one does. *)
Lemma l_inj i j j' : (i, j) ∈ l → (i, j') ∈ l → j = j'.
Proof.
  intros H1'%(elem_of_list_to_map (M := gmap string)) H2'%(elem_of_list_to_map (M := gmap string)); [|done..].
  by simplify_eq.
Qed.

Lemma sized_in C m x :
  x ∈ map s_id (buildRemovalsForByteLimit size_of C m) →
  ∀ y, y ∈ C → y.(s_id) ∉ map s_id (buildRemovalsForByteLimit size_of C m) →
  ∃ x', x' ∈ C ∧ s_id x' = x ∧ snap_older y x' = false.
Proof.
  unfold buildRemovalsForByteLimit. destruct (_ || _); [simpl; intros Hi; by apply not_elem_of_nil in Hi|].
  set (resize := λ s0, mkSnap (s_id s0) (s_status s0) (s_createdAt s0) (s_finishedAt s0) (s_workDir s0)
                         (size_of (s_workDir s0))).
  destruct (_ <=? _); [simpl; intros Hi; by apply not_elem_of_nil in Hi|].
  set (sized := sort_slice snap_older (map resize C)).
  set (p := over_limit _ _ sized). intros Hx y Hy Hny.
  apply list_elem_of_fmap in Hx as (c & -> & Hc).
  assert (p `prefix_of` sized) as Hp by apply over_limit_prefix.
  assert (c ∈ sized) as Hcs.
  { destruct Hp as [tl Htl]. rewrite Htl. apply elem_of_app. by left. }
  unfold sized in Hcs. rewrite sort_slice_perm in Hcs. apply list_elem_of_fmap in Hcs as (x' & -> & Hx').
  exists x'. split_and!; [done|done|].
  change (snap_older y x') with (snap_older (resize y) (resize x')).
  apply (sorted_prefix_order sized p); [|done|done| |].
  - apply sort_slice_sorted, snap_older_order.
  - unfold sized. rewrite sort_slice_perm. apply list_elem_of_fmap. by exists y.
  - intros Hin. apply Hny. apply list_elem_of_fmap. by exists (resize y).
Qed.

(** A finished job leaves before its time only when every older one does. *)
Lemma plan_order i j i' j' :
  (i, j) ∈ l → (i', j') ∈ l → ¬ expired_job now j → is_Some (plan.1 !! i) →
  isTerminalBuildStatus (status j') = true → plan.1 !! i' = None →
  snap_older (snapshotBuildJob j') (snapshotBuildJob j) = false.
Proof.
  intros Hj Hj' Hne Hi Ht' Hi'. destruct (plan_terminal i Hi) as (j0 & Hj0 & Ht).
  pose proof (l_inj _ _ _ Hj0 Hj) as ->. pose proof (plan_expired i' j' Hj') as Hexp'.
  destruct plan_shape as (R1 & R2 & T & HR1 & HT & Hplan & Hcase). rewrite Hplan in *.
  assert (R2 !! i' = None) as Hi2'.
  { apply eq_None_not_Some. intros Hs. apply (bytes_removed_grows _ (not_removed R2 T)) in Hs.
    rewrite Hi' in Hs. by destruct Hs. }
  assert (∀ k jk, (k, jk) ∈ l → isTerminalBuildStatus (status jk) = true → ¬ expired_job now jk →
            snapshotBuildJob jk ∈ T) as Hin.
  { intros k jk Hk Htk Hnk. rewrite HT. apply terminals_in. exists k, jk. split_and!; [done..|].
    destruct (job_expired s now (snapshotBuildJob jk)) eqn:E; [by destruct Hnk|done]. }
  assert (¬ expired_job now j') as Hne'.
  { intros He. destruct (Hexp' He) as [d Hd]. by rewrite Hi' in Hd. }
  pose proof (Hid i j Hj) as Ei. pose proof (Hid i' j' Hj') as Ei'.
  destruct (R2 !! i) as [d|] eqn:E2.
  - destruct Hcase as [[-> _]|(Hs & _ & ->)].
    { assert (is_Some (R1 !! i)) as He by (by rewrite E2). apply HR1 in He as (j1 & Hj1 & He).
      rewrite (l_inj _ _ _ Hj1 Hj) in He. done. }
    eapply (remove_extra_order _ T R1 _ _ Hs).
    + rewrite HT. apply terminals_nodup.
    + by eapply Hin.
    + by eapply Hin.
    + simpl. rewrite Ei. apply eq_None_not_Some. intros He. apply HR1 in He as (j1 & Hj1 & He).
      by rewrite (l_inj _ _ _ Hj1 Hj) in He.
    + simpl. by rewrite Ei, E2.
    + simpl. by rewrite Ei'.
  - destruct (bytes_removed_lookup _ _ _ Hi) as [[? He]|Hb]; [by rewrite E2 in He|].
    destruct (sized_in _ _ _ Hb (snapshotBuildJob j')) as (x & Hx & Exid & Hord).
    + apply not_removed_in. split; [by eapply Hin|]. simpl. by rewrite Ei'.
    + simpl. rewrite Ei'. intros Hb'. revert Hi'. unfold bytes_removed.
      destruct (Z.ltb_spec 0 (maxRetainedBytes s)).
      * intros Hnone. destruct (proj2 (insert_all_lookup (buildRemovalsForByteLimit size_of
          (not_removed R2 T) (maxRetainedBytes s)) R2 i')) as [d Hd]; [by right|]. by rewrite Hnone in Hd.
      * intros _. unfold buildRemovalsForByteLimit in Hb'.
        destruct (Z.leb_spec (maxRetainedBytes s) 0); [|lia]. by apply not_elem_of_nil in Hb'.
    + apply not_removed_in in Hx as [Hx _]. rewrite HT in Hx. apply terminals_in in Hx as (k & jk & Hk & -> & _).
      simpl in Exid. rewrite (Hid k jk Hk) in Exid. subst k. by rewrite (l_inj _ _ _ Hj Hk).
Qed.

(** The directories that are removed are those of the jobs that leave. *)
Definition dirs_of (R : gmap string string) : Prop :=
  ∀ i d, R !! i = Some d → ∃ j, (i, j) ∈ l ∧ d = workDir j.

Lemma dirs_of_insert R i j : dirs_of R → (i, j) ∈ l → dirs_of (<[i := workDir j]> R).
Proof.
  intros HR Hj k d. destruct (decide (k = i)) as [->|Hk].
  - rewrite lookup_insert_eq. intros [= <-]. eauto.
  - rewrite lookup_insert_ne by done. apply HR.
Qed.
Definition of_job (snap : buildJobSnapshot) : Prop :=
  ∃ j, (s_id snap, j) ∈ l ∧ s_workDir snap = workDir j.
Lemma dirs_of_snap R snap : dirs_of R → of_job snap → dirs_of (<[s_id snap := s_workDir snap]> R).
Proof. intros HR (j & Hj & ->). by apply dirs_of_insert. Qed.
Lemma terminal_of_job snap : snap ∈ terminals → of_job snap.
Proof.
  intros (i & j & Hj & -> & _)%terminals_in. exists j. simpl. by rewrite (Hid i j Hj).
Qed.

Lemma collect_dirs jobs R T :
  (∀ e, e ∈ jobs → e ∈ l) → dirs_of R → dirs_of (collect_jobs s now jobs R T).1.
Proof.
  revert R T. induction jobs as [|[i j] jobs IH]; intros R T Hsub HR; simpl; [done|].
  assert (∀ e, e ∈ jobs → e ∈ l) by (intros; apply Hsub; by right).
  destruct (negb _); [by apply IH|]. destruct (job_expired _ _ _); [|by apply IH].
  apply IH; [done|]. apply dirs_of_insert; [done|]. apply Hsub. by left.
Qed.
Lemma remove_extra_dirs extra snaps R : Forall of_job snaps → dirs_of R → dirs_of (remove_extra extra snaps R).
Proof.
  intros Hs. revert extra R. induction Hs as [|snap snaps Hsnap _ IH]; intros extra R HR; simpl; [done|].
  destruct (extra =? 0); [done|]. destruct (R !! s_id snap); [by apply IH|]. by apply IH, dirs_of_snap.
Qed.
Lemma bytes_removed_dirs R C : Forall of_job C → dirs_of R → dirs_of (bytes_removed R C).
Proof.
  intros HC HR. unfold bytes_removed. destruct (0 <? _); [|done].
  assert (Forall of_job (buildRemovalsForByteLimit size_of C (maxRetainedBytes s))) as Hb.
  { unfold buildRemovalsForByteLimit. destruct (_ || _); [constructor|]. set (sized := map _ C).
    destruct (_ <=? _); [constructor|].
    destruct (over_limit_prefix (maxRetainedBytes s) (total_bytes sized) (sort_slice snap_older sized)) as [tl Htl].
    assert (Forall of_job (sort_slice snap_older sized)) as Hall.
    { rewrite sort_slice_perm. unfold sized. apply Forall_fmap. exact HC. }
    rewrite Htl in Hall. by apply Forall_app in Hall as [Hall _]. }
  revert R HR. induction Hb as [|c cs Hc _ IH]; intros R HR; simpl; [done|]. by apply IH, dirs_of_snap.
Qed.

Lemma plan_dirs : dirs_of plan.1.
Proof.
  assert (dirs_of (collect_jobs s now l ∅ []).1) as HR.
  { apply collect_dirs; [done|]. intros i d. by rewrite lookup_empty. }
  pose proof (collect_jobs_terminal now l ∅ []) as HT. simpl in HT.
  unfold plan_cleanup. destruct (collect_jobs s now l ∅ []) as [R1 T0]. simpl in *. subst T0.
  assert (Forall of_job terminals) as Ht by (apply Forall_forall; apply terminal_of_job).
  assert (∀ R T, Forall of_job T → Forall of_job (not_removed R T)) as Hnr.
  { intros R T HT. apply Forall_forall. intros snap [Hs _]%not_removed_in.
    rewrite Forall_forall in HT. by apply HT. }
  destruct (_ && _); apply bytes_removed_dirs; try apply Hnr; try done.
  - by rewrite sort_slice_perm.
  - apply remove_extra_dirs; [by rewrite sort_slice_perm|done].
Qed.
End plan.

(** ** The cleanup step *)

Lemma RemoveAll_frame flt p t k : ¬ path_key p `prefix_of` k → (os_RemoveAll flt p t).1 !! k = t !! k.
Proof.
  intros Hk. assert (k ≠ path_key p) as Hne by (intros ->; by apply Hk).
  assert ((os_Remove flt p t).1 !! k = t !! k) as Hr.
  { unfold os_Remove. repeat case_match; simpl; rewrite ?lookup_delete_ne by done; done. }
  unfold os_RemoveAll. destruct (os_Remove flt p t) as [t' [|e]]; simpl in *; [done|].
  destruct (errors_Is e ErrNotExist); [done|]. simpl.
  destruct (t !! k) as [n|] eqn:E.
  - apply map_lookup_filter_Some. split; [done|]. simpl. by rewrite bool_decide_eq_false_2.
  - apply map_lookup_filter_None. by left.
Qed.

Lemma cleanup_dirs_frame flt dirs t k :
  Forall (λ d, d = "" ∨ ¬ path_key d `prefix_of` k) dirs → cleanup_dirs flt dirs t !! k = t !! k.
Proof.
  unfold cleanup_dirs. intros Hd. revert t. induction Hd as [|d dirs Hd _ IH]; intros t; simpl; [done|].
  rewrite IH. case_bool_decide as He; [done|]. destruct Hd as [?|Hd]; [done|]. by apply RemoveAll_frame.
Qed.

Section cleanup.
Context `{WorkDir} `{SortSlice} `{MapRange} (flt : Faults) (dir_size : Z) (s : BuildService)
  (st : Svc) (Hok : svc_ok s st).

Lemma listed_in i j : (i, j) ∈ listed st ↔ ∃ p, jobs st !! i = Some p ∧ heap st !! p = Some j.
Proof.
  unfold listed. rewrite list_elem_of_omap. split.
  - intros ([k p] & Hin & Hj). simpl in Hj. rewrite map_range_perm in Hin.
    apply elem_of_map_to_list in Hin. destruct (heap st !! p) eqn:E; [|done]. injection Hj as <- <-. eauto.
  - intros (p & Hi & Hj). exists (i, p). rewrite map_range_perm, elem_of_map_to_list. simpl. by rewrite Hj.
Qed.

Lemma listed_keys : (listed st).*1 = (map_range (jobs st)).*1.
Proof.
  unfold listed. assert (∀ e, e ∈ map_range (jobs st) → is_Some (heap st !! e.2)) as Hall.
  { intros [i p] Hin. rewrite map_range_perm in Hin. apply elem_of_map_to_list in Hin.
    destruct (ok_ptr _ _ Hok _ _ Hin) as (j & Hj & _). by exists j. }
  induction (map_range (jobs st)) as [|[i p] es IH]; simpl; [done|].
  destruct (Hall (i, p)) as [j Hj]; [by left|]. simpl in Hj. rewrite Hj. simpl. f_equal. apply IH.
  intros e He. apply Hall. by right.
Qed.
Lemma listed_nodup : NoDup (listed st).*1.
Proof. rewrite listed_keys, map_range_perm. apply NoDup_fst_map_to_list. Qed.
Lemma listed_length : length (listed st) = size (jobs st).
Proof.
  rewrite <- (length_fmap fst), listed_keys, length_fmap, map_range_perm. apply length_map_to_list.
Qed.
Lemma listed_id i j : (i, j) ∈ listed st → id j = i.
Proof.
  intros (p & Hi & Hj)%listed_in. destruct (ok_ptr _ _ Hok _ _ Hi) as (j' & Hj' & Hid'). by simplify_eq.
Qed.

Abbreviation size_of := (λ dir, buildPathSize flt dir_size dir (os st)).
Abbreviation plan now := (plan_cleanup s size_of now (listed st)).

Lemma cleanupJobs_eq now :
  jobs (cleanupJobs flt dir_size s now st).1 = filter (λ e, (plan now).1 !! e.1 = None) (jobs st) ∧
  os (cleanupJobs flt dir_size s now st).1 = cleanup_dirs flt (map_range (plan now).1).*2 (os st).
Proof.
  unfold cleanupJobs. destruct (Nat.eqb_spec (size (jobs st)) 0) as [Hz|Hz].
  - apply map_size_empty_inv in Hz. assert ((plan now).1 = ∅) as ->.
    { apply map_empty. intros i. apply eq_None_not_Some. intros Hs.
      destruct (plan_terminal s size_of now (listed st) listed_id i Hs) as (j & Hj & _).
      apply listed_in in Hj as (p & Hp & _). by rewrite Hz, lookup_empty in Hp. }
    assert (map_range (∅ : gmap string string) = []) as ->.
    { apply Permutation_nil. by rewrite map_range_perm, map_to_list_empty. }
    rewrite Hz. simpl. by rewrite map_filter_empty.
  - by destruct (plan now) as [removals due].
Qed.

Lemma gone_iff now i p :
  jobs st !! i = Some p →
  (jobs (cleanupJobs flt dir_size s now st).1 !! i = None ↔ is_Some ((plan now).1 !! i)) ∧
  (jobs (cleanupJobs flt dir_size s now st).1 !! i = Some p ↔ (plan now).1 !! i = None).
Proof.
  intros Hi. destruct (cleanupJobs_eq now) as [-> _].
  rewrite map_lookup_filter_None, map_lookup_filter_Some. split.
  - split.
    + intros [?|Hn]; [by simplify_eq|]. apply not_eq_None_Some. by apply (Hn p).
    + intros Hs. right. intros p' _. simpl. by apply not_eq_None_Some.
  - split; [by intros [_ ?]|by split].
Qed.

Lemma cleanup_size now :
  Z.of_nat (size (jobs (cleanupJobs flt dir_size s now st).1))
  = Z.of_nat (length (listed st)) - Z.of_nat (size (plan now).1).
Proof.
  destruct (cleanupJobs_eq now) as [-> _]. rewrite listed_length.
  assert (dom (filter (λ e : string * nat, (plan now).1 !! e.1 = None) (jobs st))
          = dom (jobs st) ∖ dom (plan now).1) as Hd.
  { apply set_eq. intros i. rewrite elem_of_difference, !elem_of_dom, <- eq_None_not_Some. split.
    - intros [p [Hp Hn]%map_lookup_filter_Some]. split; [by exists p|done].
    - intros [[p Hp] Hn]. exists p. by apply map_lookup_filter_Some. }
  rewrite <- !(size_dom (D := gset string)), Hd, size_difference.
  - assert (size (dom (D := gset string) (plan now).1) ≤ size (dom (D := gset string) (jobs st)))%nat; [|lia].
    apply subseteq_size. intros i [d Hd']%elem_of_dom.
    destruct (plan_terminal s size_of now (listed st) listed_id i) as (j & Hj & _); [by exists d|].
    apply listed_in in Hj as (p & Hp & _). apply elem_of_dom. by exists p.
  - intros i [d Hd']%elem_of_dom.
    destruct (plan_terminal s size_of now (listed st) listed_id i) as (j & Hj & _); [by exists d|].
    apply listed_in in Hj as (p & Hp & _). apply elem_of_dom. by exists p.
Qed.
End cleanup.

(** ** Theorems *)

Lemma NewBuildService_sane NumCPU TempDir cfg :
  let s := NewBuildService NumCPU TempDir cfg in
  0 < workers s ∧ 0 < jobTTL s ∧ 0 < maxRetainedJobs s ∧ 0 < maxLogBytes s.
Proof.
  simpl. unfold defaultBuildWorkers.
  destruct (Z.leb_spec (c_MaxWorkers cfg) 0), (Z.leb_spec (c_JobTTL cfg) 0),
    (Z.leb_spec (c_MaxRetainedJobs cfg) 0), (Z.leb_spec (c_MaxLogBytes cfg) 0);
    repeat case_match; lia.
Qed.

(** Inside its unit's lock and its slot. *)
Definition building (t : thread) : Prop := in_slot (t_pc t) = true.

(** C32: builds exclude each other.  Whatever requests, builds and cleanups
    run, at most [MaxWorkers] builds (at least one worker, whatever is
    configured) run at a time, no two of them on the same unit, and the record
    of each job agrees with what its goroutine is doing: queued until it has a
    slot, then running in its own work directory, then success without an error
    or failed with one; and its log never exceeds its limit. *)
Theorem builds_exclude `{WorkDir} `{SortSlice} `{MapRange} (flt : Faults) (dir_size NumCPU : Z)
    (TempDir : string) (cfg : BuildConfig) (m : option Recorder) (t : OsState) (acts : list action) (st : Svc) :
  let s := NewBuildService NumCPU TempDir cfg in
  run flt dir_size s acts (init m t) = Some st →
  Z.of_nat (length (List.filter (λ t, in_slot (t_pc t)) (threads st))) ≤ workers s ∧
  (∀ p q tp tq, threads st !! p = Some tp → threads st !! q = Some tq → building tp → building tq →
     unitAbs tp = unitAbs tq → p = q) ∧
  (∀ p t j, threads st !! p = Some t → heap st !! p = Some j → job_at s (t_pc t) j).
Proof.
  intros s Hrun. destruct (NewBuildService_sane NumCPU TempDir cfg) as (Hw & _).
  assert (svc_ok s st) as Hok by (eapply reachable_ok; [|exact Hrun]; unfold s; lia).
  assert (∀ ts, tally slot_weight ts = Z.of_nat (length (List.filter (λ t, in_slot (t_pc t)) ts))) as Hcount.
  { induction ts as [|t0 ts IH]; simpl; [done|]. rewrite IH. unfold slot_weight.
    destruct (in_slot (t_pc t0)); simpl; lia. }
  split_and!.
  - rewrite <- Hcount, <- (ok_slots _ _ Hok). apply (ok_slots_le _ _ Hok).
  - intros p q tp tq Hp Hq Hbp Hbq Hu. destruct (decide (p = q)) as [?|Hne]; [done|exfalso].
    pose proof (tally_ge_two (lock_weight (unitAbs tp)) _ p q tp tq (lock_weight_nonneg _) Hne Hp Hq) as H2'.
    rewrite (ok_held _ _ Hok) in H2'. unfold building in *.
    assert (∀ c, in_slot c = true → locked c = true) as Hl by by intros [].
    unfold lock_weight in H2'. rewrite !Hl, !bool_decide_eq_true_2 in H2' by done. simpl in H2'.
    destruct (decide (unitAbs tp ∈ held st)); lia.
  - apply (ok_job _ _ Hok).
Qed.

(** C33: builds make progress.  In every reachable state in which some build
    is not finished, some goroutine either can take its next step at once or is
    inside the build tool; every step of a goroutine uses up work, of which
    [StartBuild] adds nine units and nothing else adds any.  So no build waits
    for ever, once the tools return. *)
Theorem builds_progress `{WorkDir} `{SortSlice} `{MapRange} (flt : Faults) (dir_size NumCPU : Z)
    (TempDir : string) (cfg : BuildConfig) (m : option Recorder) (t : OsState) (acts : list action) (st : Svc) :
  let s := NewBuildService NumCPU TempDir cfg in
  run flt dir_size s acts (init m t) = Some st →
  ((∃ p t, threads st !! p = Some t ∧ t_pc t ≠ PDone) →
   ∀ now, ∃ p t, threads st !! p = Some t ∧
     ((∃ t0, t_pc t = PBuild t0) ∨ ∃ st', advance flt s p now st = Some st')) ∧
  0 ≤ work st ∧
  (∀ a st', step flt dir_size s a st = Some st' →
     match a with
     | AThread _ _ | AReturn _ _ => work st' < work st
     | AStart _ _ _ _ => work st' ≤ work st + 9
     | _ => work st' = work st
     end).
Proof.
  intros s Hrun. destruct (NewBuildService_sane NumCPU TempDir cfg) as (Hw & _).
  assert (svc_ok s st) as Hok by (eapply reachable_ok; [|exact Hrun]; unfold s; lia).
  split_and!.
  - intros Hex now. by apply some_moves.
  - apply tally_nonneg. intros t0. unfold work_left. destruct (t_pc t0); lia.
  - intros a st'. destruct a as [unit tgt rnd now|p now|p entry|p r|now|t']; simpl.
    + intros [= <-]. unfold StartBuild. repeat case_match; simpl; try lia.
      unfold work. simpl. rewrite tally_app. simpl. unfold work_left at 2. simpl. lia.
    + apply advance_work.
    + unfold build_log. repeat case_match; try done. by intros [= <-].
    + apply build_return_work.
    + intros [= <-]. destruct (cleanupJobs_frame flt dir_size s now st) as (_ & E & _).
      unfold work. by rewrite E.
    + by intros [= <-].
Qed.

(** the retention of builds.  In every reachable state a cleanup removes
    finished jobs only: all that finished longer ago than [JobTTL], and others
    only oldest first; at most [MaxRetainedJobs] jobs stay, or none of them is
    finished; and nothing in the tree changes outside the work directories of
    the jobs it removes. *)
Theorem cleanup_retention `{WorkDir} `{SortSlice} `{MapRange} (flt : Faults) (dir_size NumCPU : Z)
    (TempDir : string) (cfg : BuildConfig) (m : option Recorder) (t : OsState) (acts : list action) (st : Svc)
    (now : Z) :
  let s := NewBuildService NumCPU TempDir cfg in
  let st' := (cleanupJobs flt dir_size s now st).1 in
  let old j := ∃ f, finishedAt j = Some f ∧ jobTTL s < time_Sub now f in
  run flt dir_size s acts (init m t) = Some st →
  (∀ i p j, jobs st !! i = Some p → heap st !! p = Some j → jobs st' !! i = None →
     isTerminalBuildStatus (status j) = true ∧
     (old j ∨ ∀ i' p' j', jobs st' !! i' = Some p' → heap st !! p' = Some j' →
                isTerminalBuildStatus (status j') = true →
                snap_older (snapshotBuildJob j') (snapshotBuildJob j) = false)) ∧
  (∀ i p j, jobs st' !! i = Some p → heap st !! p = Some j →
     isTerminalBuildStatus (status j) = true → ¬ old j) ∧
  (Z.of_nat (size (jobs st')) ≤ maxRetainedJobs s ∨
   ∀ i p j, jobs st' !! i = Some p → heap st !! p = Some j → isTerminalBuildStatus (status j) = false) ∧
  (∀ k, os st' !! k ≠ os st !! k →
     ∃ i p j, jobs st !! i = Some p ∧ heap st !! p = Some j ∧ jobs st' !! i = None ∧
              path_key (workDir j) `prefix_of` k).
Proof.
  intros s st' old Hrun. destruct (NewBuildService_sane NumCPU TempDir cfg) as (Hw & Httl & Hmax & _).
  fold s in Hw, Httl, Hmax.
  assert (svc_ok s st) as Hok by (eapply reachable_ok; [|exact Hrun]; lia).
  clear Hrun. clearbody s.
  set (size_of := λ dir, buildPathSize flt dir_size dir (os st)).
  set (removed := (plan_cleanup s size_of now (listed st)).1).
  assert (∀ i p, jobs st !! i = Some p → (jobs st' !! i = None ↔ is_Some (removed !! i)) ∧
                  (jobs st' !! i = Some p ↔ removed !! i = None)) as Hgone
    by (intros; by apply gone_iff).
  assert (jobs st' ⊆ jobs st) as Hsub by apply (cleanupJobs_frame flt dir_size s now st).
  assert (∀ j, isTerminalBuildStatus (status j) = true → expired_job s now j ↔ old j) as Hold.
  { intros j Ht. unfold expired_job, job_expired, old. simpl. rewrite Ht.
    destruct (Z.ltb_spec 0 (jobTTL s)); [|lia].
    destruct (finishedAt j) as [f|]; simpl; [rewrite Z.ltb_lt|]; naive_solver. }
  pose proof (listed_nodup s st Hok) as Hnd. pose proof (listed_id s st Hok) as Hid.
  split_and!.
  - intros i p j Hi Hj Hn. apply (Hgone i p Hi) in Hn.
    assert ((i, j) ∈ listed st) as Hin by (apply listed_in; eauto).
    destruct (plan_terminal s size_of now (listed st) Hid i Hn) as (j0 & Hj0 & Ht).
    pose proof (l_inj (listed st) Hnd _ _ _ Hj0 Hin) as ->. split; [done|].
    destruct (job_expired s now (snapshotBuildJob j)) eqn:He.
    + left. apply Hold; [done|]. by split.
    + right. intros i' p' j' Hi' Hj' Ht'. pose proof (lookup_weaken _ _ _ _ Hi' Hsub) as Hi0'.
      apply (Hgone i' p' Hi0') in Hi'.
      apply (plan_order s size_of now (listed st) Hnd Hid i j i' j'); try done.
      * apply listed_in. eauto.
      * intros [_ He']. by rewrite He in He'.
  - intros i p j Hi Hj Ht Ho. pose proof (lookup_weaken _ _ _ _ Hi Hsub) as Hi0.
    apply (Hgone i p Hi0) in Hi. apply Hold in Ho; [|done].
    destruct (plan_expired s size_of now (listed st) i j) as [d Hd]; [apply listed_in; eauto|done|].
    unfold removed in Hi. by rewrite Hi in Hd.
  - unfold st' at 1. rewrite (cleanup_size flt dir_size s st Hok).
    destruct (plan_count s size_of now (listed st) Hid Hmax) as [Hc|Hall]; [by left|right].
    intros i p j Hi Hj. pose proof (lookup_weaken _ _ _ _ Hi Hsub) as Hi0. apply (Hgone i p Hi0) in Hi.
    destruct (isTerminalBuildStatus (status j)) eqn:Ht; [|done].
    destruct (Hall i j) as [d Hd]; [apply listed_in; eauto|done|]. unfold removed in Hi. by rewrite Hi in Hd.
  - intros k Hk. destruct (cleanupJobs_eq flt dir_size s st Hok now) as [_ Hos].
    destruct (decide (Exists (λ e, e.2 ≠ "" ∧ path_key e.2 `prefix_of` k) (map_range removed))) as [He|Hne].
    + apply Exists_exists in He as ([i d] & Hin & Hd & Hpre). rewrite map_range_perm in Hin.
      apply elem_of_map_to_list in Hin.
      destruct (plan_dirs s size_of now (listed st) Hid i d Hin) as (j & Hj & ->).
      apply listed_in in Hj as (p & Hp & Hj). exists i, p, j. split_and!; [done..| |done].
      apply (Hgone i p Hp). by exists (workDir j).
    + exfalso. apply Hk. unfold st'. rewrite Hos. apply cleanup_dirs_frame. apply Forall_fmap.
      apply not_Exists_Forall in Hne; [|intros ?; apply _]. eapply Forall_impl; [exact Hne|].
      intros [i d]. simpl. intros Hn. destruct (decide (d = "")); [by left|right]. intros Hp. by apply Hn.
Qed.

(** ** Finished builds stay as they are *)

Definition same_outcome (j j' : buildJob) : Prop :=
  id j' = id j ∧ status j' = status j ∧ err j' = err j ∧ productPath j' = productPath j ∧
  startedAt j' = startedAt j ∧ finishedAt j' = finishedAt j ∧ workDir j' = workDir j.

Lemma step_outcome `{WorkDir} `{SortSlice} `{MapRange} flt dir_size s a st st' p j :
  svc_ok s st → step flt dir_size s a st = Some st' → heap st !! p = Some j →
  isTerminalBuildStatus (status j) = true → ∃ j', heap st' !! p = Some j' ∧ same_outcome j j'.
Proof.
  intros Hok Hstep Hj Ht.
  assert (same_outcome j j) as Hsame by by split_and!.
  assert (∀ q g st1, heap st1 = alter g q (heap st) → (p = q → same_outcome j (g j)) →
            ∃ j', heap st1 !! p = Some j' ∧ same_outcome j j') as Halter.
  { intros q g st1 -> Hg. destruct (decide (p = q)) as [->|Hq].
    - rewrite list_lookup_alter_eq, Hj. simpl. eauto.
    - rewrite list_lookup_alter_ne by done. eauto. }
  (* the goroutine of a finished job is past its report, or about to make it *)
  assert (∀ t, threads st !! p = Some t →
            match t_pc t with PReport _ _ _ | PUnslot | PUnlock | PDone => True | _ => False end) as Hpc.
  { intros t Htp. destruct (ok_job _ _ Hok p t j Htp Hj) as (_ & _ & Hat).
    destruct (t_pc t); try done; destruct Hat as [Hs _]; by rewrite Hs in Ht. }
  destruct a as [unit tgt rnd now|q now|q entry|q r|now|t']; simpl in Hstep.
  - injection Hstep as <-. unfold StartBuild. repeat case_match; simpl; eauto.
    exists j. split; [by apply lookup_app_l_Some|done].
  - unfold advance in Hstep. destruct (threads st !! q) as [t|] eqn:Htq; [|done].
    destruct (heap st !! q) as [jq|]; [|done]. specialize (Hpc t).
    destruct (t_pc t) as [| | |t0|t0|t0 r|t0 t1 r| | |] eqn:Hc; try done; repeat case_match; try done;
      injection Hstep as <-; try (exists j; split; [exact Hj|exact Hsame]).
    + eapply (Halter q (started s now jq)); [reflexivity|]. intros ->. by destruct (Hpc Htq).
    + destruct r as [path|e].
      * eapply (Halter q (set_success now path)); [reflexivity|]. intros ->. by destruct (Hpc Htq).
      * eapply (Halter q (set_failed now e)); [reflexivity|]. intros ->. by destruct (Hpc Htq).
    + destruct (report_job_eq s q t0 t1 r st) as (g & Hg1 & _ & Hg3 & E & _).
      eapply Halter; [exact E|]. intros _. destruct (Hg3 j) as (? & ? & ? & ? & ? & ?). unfold same_outcome. by rewrite Hg1.
  - unfold build_log in Hstep. case_match; [|done]. case_match; try done. injection Hstep as <-.
    eapply (Halter q (job_appendLog entry)); [reflexivity|]. intros _. by split_and!.
  - unfold build_return in Hstep. case_match; [|done]. case_match; try done. injection Hstep as <-. eauto.
  - injection Hstep as <-. destruct (cleanupJobs_frame flt dir_size s now st) as (-> & _). eauto.
  - injection Hstep as <-. eauto.
Qed.

(** the outcome of a build is final.  Once a job is finished, nothing
    that happens later, its removal from the map included, changes its status,
    error, product, times or work directory. *)
Theorem outcome_final `{WorkDir} `{SortSlice} `{MapRange} (flt : Faults) (dir_size NumCPU : Z)
    (TempDir : string) (cfg : BuildConfig) (m : option Recorder) (t : OsState) (before after : list action)
    (st st' : Svc) (p : nat) (j : buildJob) :
  let s := NewBuildService NumCPU TempDir cfg in
  run flt dir_size s before (init m t) = Some st → run flt dir_size s after st = Some st' →
  heap st !! p = Some j → isTerminalBuildStatus (status j) = true →
  ∃ j', heap st' !! p = Some j' ∧ same_outcome j j'.
Proof.
  intros s Hrun Hafter. destruct (NewBuildService_sane NumCPU TempDir cfg) as (Hw & _). fold s in Hw.
  assert (svc_ok s st) as Hok by (eapply reachable_ok; [|exact Hrun]; lia).
  clear Hrun. clearbody s. revert st j Hok Hafter.
  induction after as [|a after IH]; intros st j Hok Hafter Hj Ht; simpl in Hafter.
  { injection Hafter as <-. exists j. split; [done|by split_and!]. }
  apply bind_Some in Hafter as (st1 & Ha & Hr).
  destruct (step_outcome _ _ _ _ _ _ _ _ Hok Ha Hj Ht) as (j1 & Hj1 & Hs1).
  pose proof Hs1 as (_ & Hst1 & _). destruct (IH st1 j1) as (j2 & Hj2 & Hs2); [|done|done| |].
  - eapply step_ok; [|exact Ha]. done.
  - by rewrite Hst1.
  - exists j2. split; [done|]. unfold same_outcome in *. naive_solver congruence.
Qed.

(** ** A run of two builds of one unit *)

#[export] Program Instance list_range : MapRange := {| map_range V m := map_to_list m |}.
Next Obligation. done. Qed.

Definition ex_dir : WorkDir := Ok "/".
Definition ex_cfg : BuildConfig := mkBuildConfig "/srv" true 2 1000 1 0 4096 "/tmp/builds".
Definition ex_tree : OsState :=
  <[["srv"] := DirNode 1]> (<[["srv"; "app"] := DirNode 1]> (<[["tmp"] := DirNode 1]> ∅)).
Definition ex_service : BuildService := NewBuildService 8 "/tmp" ex_cfg.
(** The first build succeeds, the second is inside its tool. *)
Definition ex_acts : list action :=
  [AStart "app" "all" (Ok "b1") 100; AStart "./app" "" (Ok "b2") 150;
   AThread 0 110; AThread 0 110; AThread 0 120; AThread 0 120; ALog 0 "compiling"; AReturn 0 (Ok "/tmp/builds/b1/app");
   AThread 0 200; AThread 0 200; AThread 0 200; AThread 0 200;
   AThread 1 210; AThread 1 210; AThread 1 220; AThread 1 220].
Definition ex_run : option Svc :=
  @run ex_dir merge_sort_slice list_range no_faults 4096 ex_service ex_acts (init None ex_tree).

Definition ex_threads (st : option Svc) : list (bool * string) :=
  match st with Some st => map (λ t, (in_slot (t_pc t), unitAbs t)) (threads st) | None => [] end.
Example ex_run_threads : ex_threads ex_run = [(false, "/srv/app"); (true, "/srv/app")].
Proof. vm_compute. reflexivity. Qed.

Lemma builds_exclude_witness :
  ∃ st, ex_run = Some st ∧
    (∀ p q tp tq, threads st !! p = Some tp → threads st !! q = Some tq → building tp → building tq →
       unitAbs tp = unitAbs tq → p = q).
Proof.
  destruct ex_run as [st|] eqn:E; [|by vm_compute in E]. exists st. split; [done|].
  exact (proj1 (proj2 (@builds_exclude ex_dir merge_sort_slice list_range
    no_faults 4096 8 "/tmp" ex_cfg None ex_tree ex_acts st E))).
Defined.

Lemma builds_progress_witness : ∃ st, ex_run = Some st ∧ 0 ≤ work st.
Proof.
  destruct ex_run as [st|] eqn:E; [|by vm_compute in E]. exists st. split; [done|].
  exact (proj1 (proj2 (@builds_progress ex_dir merge_sort_slice list_range
    no_faults 4096 8 "/tmp" ex_cfg None ex_tree ex_acts st E))).
Defined.

Lemma cleanup_retention_witness :
  ∃ st, ex_run = Some st ∧
    let st' := (@cleanupJobs merge_sort_slice list_range no_faults 4096 ex_service 2000 st).1 in
    (Z.of_nat (size (jobs st')) ≤ 1 ∨
     ∀ i p j, jobs st' !! i = Some p → heap st !! p = Some j → isTerminalBuildStatus (status j) = false).
Proof.
  destruct ex_run as [st|] eqn:E; [|by vm_compute in E]. exists st. split; [done|].
  exact (proj1 (proj2 (proj2 (@cleanup_retention ex_dir merge_sort_slice list_range
    no_faults 4096 8 "/tmp" ex_cfg None ex_tree ex_acts st 2000 E)))).
Defined.

Lemma outcome_final_witness :
  ∃ st st' j j', ex_run = Some st ∧
    @run ex_dir merge_sort_slice list_range no_faults 4096 ex_service [ACleanup 5000] st
      = Some st' ∧
    heap st !! 0%nat = Some j ∧ heap st' !! 0%nat = Some j' ∧ same_outcome j j'.
Proof.
  destruct ex_run as [st|] eqn:E; [|by vm_compute in E].
  destruct (@run ex_dir merge_sort_slice list_range no_faults 4096 ex_service
              [ACleanup 5000] st) as [st'|] eqn:E'; [|discriminate E'].
  destruct (heap st !! 0%nat) as [j|] eqn:Ej.
  2:{ exfalso. assert (match ex_run with Some st => bool_decide (is_Some (heap st !! 0%nat)) | None => false end = true)
        as Hx by (vm_compute; reflexivity). rewrite E, Ej in Hx. discriminate Hx. }
  assert (isTerminalBuildStatus (status j) = true) as Ht.
  { assert (match ex_run with
            | Some st => match heap st !! 0%nat with Some j => isTerminalBuildStatus (status j) | None => false end
            | None => false end = true) as Hx by (vm_compute; reflexivity). by rewrite E, Ej in Hx. }
  destruct (@outcome_final ex_dir merge_sort_slice list_range no_faults 4096 8 "/tmp" ex_cfg
    None ex_tree ex_acts [ACleanup 5000] st st' 0%nat j E E' Ej Ht) as (j' & Hj' & Hs).
  exists st, st', j, j'. split; [reflexivity|]. exact (conj E' (conj Ej (conj Hj' Hs))).
Defined.
