(* ===== verification/JsonStrings.v ===== *)
(** * JSON text of a list of strings

    What encoding/json does with a [[]string]: [json.Marshal] and
    [json.Unmarshal] byte for byte, and the round trip between them.  Go
    strings are bytes, so the text is recognised as UTF-8 the way package
    unicode/utf8 does it, and what is not UTF-8 becomes U+FFFD.  A text that is
    not a JSON list of strings is an error, whose message is not modelled. *)

From S2P Require Import Prelude GoStrings.
From Stdlib Require Import Ascii.
Open Scope string_scope.

(** ** UTF-8 (unicode/utf8) *)

Definition cont (c : ascii) : bool := byte_in 128 191 c.
(** The encodings of two, three and four bytes. *)
Definition utf8_2 (a b : ascii) : bool := byte_in 194 223 a && cont b.
Definition utf8_3 (a b c : ascii) : bool :=
  ((byte_in 224 224 a && byte_in 160 191 b) || (byte_in 225 236 a && cont b)
   || (byte_in 237 237 a && byte_in 128 159 b) || (byte_in 238 239 a && cont b)) && cont c.
Definition utf8_4 (a b c d : ascii) : bool :=
  ((byte_in 240 240 a && byte_in 144 191 b) || (byte_in 241 243 a && cont b)
   || (byte_in 244 244 a && byte_in 128 143 b)) && cont c && cont d.
Definition ascii7 (a : ascii) : bool := N.ltb (byte_val a) 128.

(** U+FFFD, [utf8.RuneError]. *)
Definition rune_error : string := String (ch 239) (String (ch 191) (String (ch 189) "")).

(** Each byte that starts no encoding becomes U+FFFD. *)
Fixpoint coerce_utf8 (s : string) : string :=
  match s with
  | EmptyString => ""
  | String a s1 =>
      if ascii7 a then String a (coerce_utf8 s1) else
      match s1 with
      | EmptyString => rune_error
      | String b s2 =>
          if utf8_2 a b then String a (String b (coerce_utf8 s2)) else
          match s2 with
          | EmptyString => rune_error +:+ coerce_utf8 s1
          | String c s3 =>
              if utf8_3 a b c then String a (String b (String c (coerce_utf8 s3))) else
              match s3 with
              | EmptyString => rune_error +:+ coerce_utf8 s1
              | String d s4 =>
                  if utf8_4 a b c d then String a (String b (String c (String d (coerce_utf8 s4))))
                  else rune_error +:+ coerce_utf8 s1
              end
          end
      end
  end.

(** [utf8.AppendRune] for a valid code point. *)
Definition encode_rune (r : N) : string :=
  (if N.ltb r 128 then String (ch r) ""
   else if N.ltb r 2048 then
     String (ch (192 + r / 64)) (String (ch (128 + r mod 64)) "")
   else if N.ltb r 65536 then
     String (ch (224 + r / 4096)) (String (ch (128 + r / 64 mod 64)) (String (ch (128 + r mod 64)) ""))
   else
     String (ch (240 + r / 262144)) (String (ch (128 + r / 4096 mod 64))
       (String (ch (128 + r / 64 mod 64)) (String (ch (128 + r mod 64)) ""))))%N.

(** ** json.Marshal *)

Definition hex_char (d : N) : ascii :=
  (if N.ltb d 10 then ch (48 + d) else ch (87 + d))%N.
Definition backslash : ascii := ch 92.
Definition dquote : ascii := ch 34.

(** One ASCII byte, with the escapes for HTML that [json.Marshal] makes. *)
Definition escape_byte (a : ascii) : string :=
  let v := byte_val a in
  (if N.eqb v 92 || N.eqb v 34 then String backslash (String a "")
   else if N.eqb v 8 then String backslash "b"
   else if N.eqb v 12 then String backslash "f"
   else if N.eqb v 10 then String backslash "n"
   else if N.eqb v 13 then String backslash "r"
   else if N.eqb v 9 then String backslash "t"
   else if N.ltb v 32 || N.eqb v 60 || N.eqb v 62 || N.eqb v 38 then
     String backslash (String "u" (String "0" (String "0"
       (String (hex_char (v / 16)) (String (hex_char (v mod 16)) "")))))
   else String a "")%N.

(** U+2028 and U+2029 are escaped too. *)
Definition line_separator (a b c : ascii) : bool :=
  N.eqb (byte_val a) 226 && N.eqb (byte_val b) 128 && byte_in 168 169 c.
Definition escaped_error : string := String backslash "ufffd".

Fixpoint escape (s : string) : string :=
  match s with
  | EmptyString => ""
  | String a s1 =>
      if ascii7 a then escape_byte a +:+ escape s1 else
      match s1 with
      | EmptyString => escaped_error
      | String b s2 =>
          if utf8_2 a b then String a (String b (escape s2)) else
          match s2 with
          | EmptyString => escaped_error +:+ escape s1
          | String c s3 =>
              if utf8_3 a b c then
                if line_separator a b c
                then String backslash ("u202" +:+ String (hex_char (byte_val c mod 16)) (escape s3))
                else String a (String b (String c (escape s3)))
              else
              match s3 with
              | EmptyString => escaped_error +:+ escape s1
              | String d s4 =>
                  if utf8_4 a b c d then String a (String b (String c (String d (escape s4))))
                  else escaped_error +:+ escape s1
              end
          end
      end
  end.

Definition json_string (s : string) : string :=
  String dquote (escape s +:+ String dquote "").

(** [json.Marshal] of a non-nil [[]string]; it cannot fail. *)
Definition json_Marshal (values : list string) : string :=
  "[" +:+ Join "," (map json_string values) +:+ "]".

(** ** json.Unmarshal *)

Definition hex_value (a : ascii) : option N :=
  if byte_in 48 57 a then Some (byte_val a - 48)%N
  else if byte_in 97 102 a then Some (byte_val a - 87)%N
  else if byte_in 65 70 a then Some (byte_val a - 55)%N
  else None.
Definition hex4 (a b c d : ascii) : option N :=
  w ← hex_value a; x ← hex_value b; y ← hex_value c; z ← hex_value d;
  Some (w * 4096 + x * 256 + y * 16 + z)%N.

Definition simple_escape (a : ascii) : option ascii :=
  let v := byte_val a in
  (if N.eqb v 34 || N.eqb v 92 || N.eqb v 47 then Some a
   else if N.eqb v 98 then Some (ch 8)
   else if N.eqb v 102 then Some (ch 12)
   else if N.eqb v 110 then Some (ch 10)
   else if N.eqb v 114 then Some (ch 13)
   else if N.eqb v 116 then Some (ch 9)
   else None)%N.

Definition high_surrogate (r : N) : bool := (N.leb 55296 r && N.ltb r 56320)%N.
Definition low_surrogate (r : N) : bool := (N.leb 56320 r && N.ltb r 57344)%N.

Definition push (p : string) (r : option (string * string)) : option (string * string) :=
  match r with Some (s, rest) => Some (p +:+ s, rest) | None => None end.

(** The rest of a string literal: its value and what follows the quote. *)
Fixpoint unquote (s : string) : option (string * string) :=
  match s with
  | EmptyString => None
  | String a s1 =>
      if Ascii.eqb a dquote then Some ("", s1)
      else if Ascii.eqb a backslash then
        match s1 with
        | EmptyString => None
        | String u s2 =>
            if N.eqb (byte_val u) 117 then
              match s2 with
              | String h1 (String h2 (String h3 (String h4 s6))) =>
                  match hex4 h1 h2 h3 h4 with
                  | None => None
                  | Some r =>
                      if high_surrogate r then
                        match s6 with
                        | String b1 (String u1 (String g1 (String g2 (String g3 (String g4 s12))))) =>
                            match (if Ascii.eqb b1 backslash && N.eqb (byte_val u1) 117
                                   then hex4 g1 g2 g3 g4 else None) with
                            | Some r1 =>
                                if low_surrogate r1 then
                                  push (encode_rune ((r - 55296) * 1024 + (r1 - 56320) + 65536))
                                    (unquote s12)
                                else push rune_error (unquote s6)
                            | None => push rune_error (unquote s6)
                            end
                        | _ => push rune_error (unquote s6)
                        end
                      else if low_surrogate r then push rune_error (unquote s6)
                      else push (encode_rune r) (unquote s6)
                  end
              | _ => None
              end
            else
              match simple_escape u with
              | Some c => push (String c "") (unquote s2)
              | None => None
              end
        end
      else if N.ltb (byte_val a) 32 then None
      else if ascii7 a then push (String a "") (unquote s1)
      else
      match s1 with
      | EmptyString => None
      | String b s2 =>
          if utf8_2 a b then push (String a (String b "")) (unquote s2) else
          match s2 with
          | EmptyString => push rune_error (unquote s1)
          | String c s3 =>
              if utf8_3 a b c then push (String a (String b (String c ""))) (unquote s3) else
              match s3 with
              | EmptyString => push rune_error (unquote s1)
              | String d s4 =>
                  if utf8_4 a b c d then push (String a (String b (String c (String d "")))) (unquote s4)
                  else push rune_error (unquote s1)
              end
          end
      end
  end.

(** The space of JSON. *)
Fixpoint skip_space (s : string) : string :=
  match s with
  | String a s1 =>
      let v := byte_val a in
      (if N.eqb v 32 || N.eqb v 9 || N.eqb v 13 || N.eqb v 10 then skip_space s1 else s)%N
  | EmptyString => ""
  end.

(** An element that a string can hold: a string, or [null] for the zero value. *)
Definition json_element (s : string) : option (string * string) :=
  match s with
  | String a s1 =>
      if Ascii.eqb a dquote then unquote s1
      else if HasPrefix s "null" then Some ("", sdrop 4 s) else None
  | EmptyString => None
  end.

(** The elements after [\[], with [fuel] for the length of the text. *)
Fixpoint json_elements (fuel : nat) (s : string) : option (list string * string) :=
  match fuel with
  | O => None
  | S fuel' =>
      '(v, s1) ← json_element (skip_space s);
      match skip_space s1 with
      | String a s2 =>
          if Ascii.eqb a "," then '(vs, s3) ← json_elements fuel' s2; Some (v :: vs, s3)
          else if Ascii.eqb a "]" then Some ([v], s2)
          else None
      | EmptyString => None
      end
  end.

Definition json_list (s : string) : option (list string * string) :=
  match skip_space s with
  | String a s1 =>
      if Ascii.eqb a "[" then
        match skip_space s1 with
        | String b s2 => if Ascii.eqb b "]" then Some ([], s2) else json_elements (String.length s) s1
        | EmptyString => None
        end
      else if HasPrefix (String a s1) "null" then Some ([], sdrop 4 (String a s1)) else None
  | EmptyString => None
  end.

(** [json.Unmarshal] into an empty [[]string]. *)
Definition json_Unmarshal (raw : string) : result goerr (list string) :=
  match json_list raw with
  | Some (values, rest) =>
      if bool_decide (skip_space rest = "") then Ok values else Err (ErrNew "json: not a list of strings")
  | None => Err (ErrNew "json: not a list of strings")
  end.

(** ** The round trip *)

Lemma ascii7_false a :
  ascii7 a = false → Ascii.eqb a dquote = false ∧ Ascii.eqb a backslash = false ∧ N.ltb (byte_val a) 32 = false.
Proof. destruct a as [[] [] [] [] [] [] [] []]; vm_compute; intros; try discriminate; auto. Qed.

Lemma unquote_escape_byte a r :
  ascii7 a = true → unquote (escape_byte a +:+ r) = push (String a "") (unquote r).
Proof. destruct a as [[] [] [] [] [] [] [] []]; intros H; try discriminate H; reflexivity. Qed.

Lemma unquote_escaped_error r : unquote (escaped_error +:+ r) = push rune_error (unquote r).
Proof. reflexivity. Qed.

Lemma unquote_line_separator a b c r :
  line_separator a b c = true →
  unquote (String backslash ("u202" +:+ String (hex_char (byte_val c mod 16)) r))
  = push (String a (String b (String c ""))) (unquote r).
Proof.
  unfold line_separator. intros [[Ha Hb]%andb_prop Hc]%andb_prop.
  apply N.eqb_eq in Ha, Hb. 
  rewrite <- (ascii_N_embedding a), <- (ascii_N_embedding b).
  unfold byte_val in Ha, Hb. rewrite Ha, Hb. clear Ha Hb.
  destruct c as [[] [] [] [] [] [] [] []]; try discriminate Hc; reflexivity.
Qed.

Lemma push_push p q r : push p (push q r) = push (p +:+ q) r.
Proof. destruct r as [[s rest]|]; simpl; [|done]. by rewrite append_assoc. Qed.

(** Bytes that [unquote] takes over unchanged. *)
Lemma unquote_2 a b r :
  ascii7 a = false → utf8_2 a b = true →
  unquote (String a (String b r)) = push (String a (String b "")) (unquote r).
Proof.
  intros Ha H2. destruct (ascii7_false _ Ha) as (Hq & Hb & Hc). cbn [unquote].
  rewrite Hq, Hb, Hc, Ha, H2. reflexivity.
Qed.

Lemma unquote_3 a b c r :
  ascii7 a = false → utf8_2 a b = false → utf8_3 a b c = true →
  unquote (String a (String b (String c r))) = push (String a (String b (String c ""))) (unquote r).
Proof.
  intros Ha H2 H3. destruct (ascii7_false _ Ha) as (Hq & Hb & Hc). cbn [unquote].
  rewrite Hq, Hb, Hc, Ha, H2, H3. reflexivity.
Qed.

Lemma unquote_4 a b c d r :
  ascii7 a = false → utf8_2 a b = false → utf8_3 a b c = false → utf8_4 a b c d = true →
  unquote (String a (String b (String c (String d r))))
  = push (String a (String b (String c (String d "")))) (unquote r).
Proof.
  intros Ha H2 H3 H4. destruct (ascii7_false _ Ha) as (Hq & Hb & Hc). cbn [unquote].
  rewrite Hq, Hb, Hc, Ha, H2, H3, H4. reflexivity.
Qed.

(** Reading back what was written of a string. *)
Lemma unquote_escape s t :
  unquote (escape s +:+ String dquote t) = Some (coerce_utf8 s, t).
Proof.
  assert (∀ n s, (String.length s ≤ n)%nat →
    unquote (escape s +:+ String dquote t) = Some (coerce_utf8 s, t)) as H; [|by eapply H].
  clear s. intros n. induction n as [|n IH]; intros s Hs.
  { destruct s; [reflexivity|simpl in Hs; lia]. }
  destruct s as [|a s1]; [reflexivity|]. cbn [String.length] in Hs.
  assert (escaped_error +:+ escape s1 +:+ String dquote t = 
          (escaped_error +:+ escape s1) +:+ String dquote t) as Hassoc by by rewrite append_assoc.
  assert (unquote ((escaped_error +:+ escape s1) +:+ String dquote t)
          = Some (rune_error +:+ coerce_utf8 s1, t)) as Hbad.
  { rewrite <- Hassoc, unquote_escaped_error, IH by lia. reflexivity. }
  cbn [escape coerce_utf8]. destruct (ascii7 a) eqn:Ha.
  { rewrite <- append_assoc, unquote_escape_byte, IH by (done || lia). reflexivity. }
  destruct s1 as [|b s2]; [exact Hbad|]. cbn [String.length] in Hs.
  destruct (utf8_2 a b) eqn:H2.
  { change (String a (String b (escape s2)) +:+ String dquote t)
      with (String a (String b (escape s2 +:+ String dquote t))).
    rewrite unquote_2, IH by (done || lia). reflexivity. }
  destruct s2 as [|c s3]; [exact Hbad|]. cbn [String.length] in Hs.
  destruct (utf8_3 a b c) eqn:H3.
  { destruct (line_separator a b c) eqn:Hl.
    - change (String backslash ("u202" +:+ String (hex_char (byte_val c mod 16)) (escape s3))
        +:+ String dquote t)
        with (String backslash ("u202" +:+ String (hex_char (byte_val c mod 16))
          (escape s3 +:+ String dquote t))).
      rewrite (unquote_line_separator a b), IH by (done || lia). reflexivity.
    - change (String a (String b (String c (escape s3))) +:+ String dquote t)
        with (String a (String b (String c (escape s3 +:+ String dquote t)))).
      rewrite unquote_3, IH by (done || lia). reflexivity. }
  destruct s3 as [|d s4]; [exact Hbad|]. cbn [String.length] in Hs.
  destruct (utf8_4 a b c d) eqn:H4; [|exact Hbad].
  change (String a (String b (String c (String d (escape s4)))) +:+ String dquote t)
    with (String a (String b (String c (String d (escape s4 +:+ String dquote t))))).
  rewrite unquote_4, IH by (done || lia). reflexivity.
Qed.

Lemma json_elements_Marshal v vs fuel t :
  (length vs < fuel)%nat →
  json_elements fuel (Join "," (map json_string (v :: vs)) +:+ String "]" t)
  = Some (map coerce_utf8 (v :: vs), t).
Proof.
  revert v fuel. induction vs as [|v' vs IH]; intros v [|fuel] Hf; [lia| |lia|].
  - change (Join "," (map json_string [v]) +:+ String "]" t)
      with (String dquote ((escape v +:+ String dquote "") +:+ String "]" t)).
    rewrite <- append_assoc. cbn [json_elements].
    change (json_element (skip_space (String dquote (escape v +:+ (String dquote "" +:+ String "]" t)))))
      with (unquote (escape v +:+ String dquote (String "]" t))).
    rewrite unquote_escape. reflexivity.
  - change (map json_string (v :: v' :: vs))
      with (json_string v :: json_string v' :: map json_string vs).
    rewrite Join_cons, <- !append_assoc.
    change (json_string v' :: map json_string vs) with (map json_string (v' :: vs)).
    set (tail := Join "," (map json_string (v' :: vs)) +:+ String "]" t).
    change (json_string v +:+ "," +:+ tail)
      with (String dquote ((escape v +:+ String dquote "") +:+ String "," tail)).
    rewrite <- append_assoc. cbn [json_elements].
    change (json_element (skip_space (String dquote (escape v +:+ (String dquote "" +:+ String "," tail)))))
      with (unquote (escape v +:+ String dquote (String "," tail))).
    rewrite unquote_escape. cbn [mbind option_bind].
    change (skip_space (String "," tail)) with (String "," tail).
    cbn [Ascii.eqb]. simpl Ascii.eqb. cbn iota. unfold tail. rewrite IH by (simpl in Hf; lia). reflexivity.
Qed.

Lemma Join_length v l : (length l < String.length (Join "," (map json_string (v :: l))))%nat.
Proof.
  revert v. induction l as [|v' l IH]; intros v; [simpl; lia|].
  change (map json_string (v :: v' :: l)) with (json_string v :: json_string v' :: map json_string l).
  rewrite Join_cons, !length_append.
  change (json_string v' :: map json_string l) with (map json_string (v' :: l)).
  specialize (IH v'). simpl (String.length ","). simpl (length _). lia.
Qed.

Lemma json_roundtrip l : json_Unmarshal (json_Marshal l) = Ok (map coerce_utf8 l).
Proof.
  destruct l as [|v l]; [reflexivity|].
  assert (∃ r, Join "," (map json_string (v :: l)) = String dquote r) as [r Hr].
  { destruct l as [|v' l]; [by eexists|].
    change (map json_string (v :: v' :: l)) with (json_string v :: json_string v' :: map json_string l).
    rewrite Join_cons. by eexists. }
  unfold json_Unmarshal, json_Marshal. rewrite Hr.
  change (json_list ("[" +:+ String dquote r +:+ "]"))
    with (json_elements (String.length ("[" +:+ String dquote r +:+ "]")) (String dquote r +:+ "]")).
  rewrite <- Hr. rewrite (json_elements_Marshal v l _ ""); [reflexivity|].
  rewrite !length_append. pose proof (Join_length v l). simpl (String.length "["). lia.
Qed.

Example json_Unmarshal_ex :
  json_Unmarshal (json_Marshal ["a<b"; String (ch 9) "x"; String (ch 255) "y"; ""])
  = Ok ["a<b"; String (ch 9) "x"; rune_error +:+ "y"; ""].
Proof. vm_compute. reflexivity. Qed.
