(* ===== verification/StringLists.v ===== *)
(** * Lists of strings in requests, configuration and tables

    [normalizeStringList] (internal/server/control_plane_service.go) and
    [marshalStringList], [unmarshalStringList] (internal/db/device_registry.go),
    which drop blanks and repetitions up to case, and the facts on
    [strings.TrimSpace] that they need. *)

From S2P Require Import Prelude GoStrings JsonStrings.
From Stdlib Require Import Ascii.
Open Scope string_scope.

(** ** Reversal *)

Lemma srev_app_acc s acc : string_rev_app s acc = srev s +:+ acc.
Proof.
  unfold srev. revert acc. induction s as [|a s IH]; intros acc; [done|]. simpl.
  rewrite IH, (IH (String a "")), <- append_assoc. done.
Qed.
Lemma srev_app s t : srev (s +:+ t) = srev t +:+ srev s.
Proof.
  induction s as [|a s IH]; [by rewrite append_nil_r|]. unfold srev at 1 3. simpl.
  rewrite !srev_app_acc, IH, <- append_assoc. done.
Qed.
Lemma srev_involutive s : srev (srev s) = s.
Proof.
  induction s as [|a s IH]; [done|]. unfold srev at 2. simpl.
  by rewrite srev_app_acc, srev_app, IH.
Qed.

Lemma snoc_inj y z a b : y +:+ String a "" = z +:+ String b "" → y = z ∧ a = b.
Proof.
  intros H. apply (f_equal srev) in H. rewrite !srev_app in H.
  change (String a (srev y) = String b (srev z)) in H. injection H as -> H.
  split; [|done]. apply (f_equal srev) in H. by rewrite !srev_involutive in H.
Qed.

Lemma last_byte s : s = "" ∨ ∃ t a, s = t +:+ String a "".
Proof.
  induction s as [|a s [->|(t & b & ->)]]; [by left|right..].
  - by exists "", a.
  - by exists (String a t), b.
Qed.

(** ** strings.TrimSpace is idempotent *)

(** Whether [trim_with] strips something. *)
Definition starts_space (p2 : ascii → ascii → bool) (p3 : ascii → ascii → ascii → bool) (s : string) : bool :=
  match s with
  | EmptyString => false
  | String a s1 => space1 a || match s1 with
      | EmptyString => false
      | String b s2 => p2 a b || match s2 with EmptyString => false | String c _ => p3 a b c end
      end
  end.

Section trim.
Context (p2 : ascii → ascii → bool) (p3 : ascii → ascii → ascii → bool).

(** Induction with one, two or three bytes at a time. *)
Lemma string_ind3 (P : string → Prop) :
  (∀ s, (∀ t, (String.length t < String.length s)%nat → P t) → P s) → ∀ s, P s.
Proof.
  intros H s. assert (∀ n s, (String.length s < n)%nat → P s) as Hn; [|apply (Hn (S (String.length s))); lia].
  clear s. intros n. induction n; intros s Hs; [lia|]. apply H. intros t Ht. apply IHn. lia.
Qed.

Lemma trim_with_cases s :
  (starts_space p2 p3 s = false ∧ trim_with p2 p3 s = s) ∨
  (∃ p t, p ≠ "" ∧ s = p +:+ t ∧ trim_with p2 p3 s = trim_with p2 p3 t ∧
    ∀ a, t = "" → (∃ q, p = q +:+ String a "") → space1 a = true ∨ (∃ x, p2 x a = true) ∨ ∃ x y, p3 x y a = true).
Proof.
  destruct s as [|a [|b [|c s3]]]; simpl.
  - by left.
  - destruct (space1 a) eqn:Ha; simpl; [|by left]. right. exists (String a ""), "".
    split_and!; try done. intros x _ [q Hq]. apply (snoc_inj "") in Hq as [_ ->]. by left.
  - destruct (space1 a) eqn:Ha; simpl.
    { right. exists (String a ""), (String b ""). by split_and!. }
    destruct (p2 a b) eqn:Hab; simpl; [|by left].
    right. exists (String a (String b "")), "". split_and!; try done.
    intros x _ [q Hq]. apply (snoc_inj (String a "")) in Hq as [_ ->]. right. left. by eexists.
  - destruct (space1 a) eqn:Ha; simpl.
    { right. exists (String a ""), (String b (String c s3)). by split_and!. }
    destruct (p2 a b) eqn:Hab; simpl.
    { right. exists (String a (String b "")), (String c s3). by split_and!. }
    destruct (p3 a b c) eqn:Habc; [|by left].
    right. exists (String a (String b (String c ""))), s3. split_and!; try done.
    intros x _ [q Hq]. apply (snoc_inj (String a (String b ""))) in Hq as [_ ->].
    right. right. by do 2 eexists.
Qed.

Lemma trim_with_spec s :
  starts_space p2 p3 (trim_with p2 p3 s) = false ∧ ∃ p, s = p +:+ trim_with p2 p3 s.
Proof.
  induction s as [s IH] using string_ind3.
  destruct (trim_with_cases s) as [[Hs ->]|(p & t & Hp & -> & -> & _)].
  - split; [done|]. by exists "".
  - assert (String.length t < String.length (p +:+ t))%nat as Hlt.
    { rewrite length_append. destruct p; [done|]. simpl. lia. }
    destruct (IH t Hlt) as [Hs [q Hq]]. split; [done|].
    exists (p +:+ q). by rewrite <- append_assoc, <- Hq.
Qed.

Lemma trim_with_id s : starts_space p2 p3 s = false → trim_with p2 p3 s = s.
Proof.
  destruct s as [|a [|b [|c s]]]; simpl; rewrite ?orb_false_iff; intros H; destruct_and?; [done|..];
    by repeat match goal with H : _ = false |- _ => rewrite H end.
Qed.

Lemma starts_space_prefix p q : starts_space p2 p3 (p +:+ q) = false → starts_space p2 p3 p = false.
Proof.
  destruct p as [|a [|b [|c p]]]; simpl; rewrite ?orb_false_iff; intros H; destruct_and?; by split_and?.
Qed.

(** A last byte that ends no space stays. *)
Lemma trim_with_keeps_end a y :
  space1 a = false → (∀ x, p2 x a = false) → (∀ x y, p3 x y a = false) →
  trim_with p2 p3 (y +:+ String a "") ≠ "".
Proof.
  intros H1 H2 H3. induction y as [y IH] using string_ind3.
  destruct (trim_with_cases (y +:+ String a "")) as [[_ ->]|(p & t & Hp & Heq & -> & Hend)].
  - by destruct y.
  - destruct (decide (t = "")) as [->|Ht].
    + rewrite append_nil_r in Heq. destruct (Hend a eq_refl) as [?|[[x ?]|(x & z & ?)]]; [by exists y| | |].
      * congruence.
      * by rewrite H2 in *.
      * by rewrite H3 in *.
    + destruct (last_byte t) as [->|(t' & b & ->)]; [done|].
      rewrite append_assoc in Heq. apply snoc_inj in Heq as [-> ->]. apply IH.
      rewrite length_append. destruct p; [done|]. simpl. lia.
Qed.
End trim.

Lemma TrimRightSpace_spec s :
  (∃ q, s = TrimRightSpace s +:+ q) ∧ TrimRightSpace (TrimRightSpace s) = TrimRightSpace s.
Proof.
  unfold TrimRightSpace. 
  destruct (trim_with_spec (λ a b, space2 b a) (λ a b c, space3 c b a) (srev s)) as [Hs [p Hp]].
  split.
  - exists (srev p). rewrite <- srev_app, <- Hp. by rewrite srev_involutive.
  - rewrite srev_involutive. f_equal. by apply trim_with_id.
Qed.

Lemma TrimSpace_idem s : TrimSpace (TrimSpace s) = TrimSpace s.
Proof.
  unfold TrimSpace. destruct (trim_with_spec space2 space3 s) as [Hs _]. fold (TrimLeftSpace s) in Hs.
  destruct (TrimRightSpace_spec (TrimLeftSpace s)) as [[q Hq] Hidem].
  rewrite Hq in Hs. apply starts_space_prefix in Hs.
  unfold TrimLeftSpace at 1. by rewrite trim_with_id.
Qed.
#[export] Hint Rewrite TrimSpace_idem : roodox.

Lemma TrimSpace_empty : TrimSpace "" = "".
Proof. done. Qed.

(** Printable ASCII without the space. *)
Fixpoint plain (s : string) : bool :=
  match s with
  | EmptyString => true
  | String a s' => byte_in 33 126 a && plain s'
  end.

Lemma plain_not_space a :
  byte_in 33 126 a = true →
  space1 a = false ∧ byte_in 128 138 a = false ∧ byte_in 168 169 a = false ∧
  forallb (λ n, negb (Ascii.eqb a (ch n))) [194; 133; 160; 225; 226; 227; 128; 154; 175; 159]%N = true.
Proof. destruct a as [[] [] [] [] [] [] [] []]; intros Ha; try discriminate Ha; vm_compute; auto. Qed.

Lemma plain_byte a b c :
  byte_in 33 126 a = true →
  space1 a = false ∧ space2 a b = false ∧ space2 b a = false ∧ space3 a b c = false ∧ space3 c b a = false.
Proof.
  intros (Hs & H1 & H2 & Hall)%plain_not_space. unfold space2, space3.
  cbn [forallb] in Hall. rewrite !andb_true_iff, !negb_true_iff in Hall. destruct_and? Hall.
  rewrite Hs, H1, H2. repeat match goal with H : _ = false |- _ => rewrite H end.
  by rewrite ?andb_false_r.
Qed.

Lemma plain_app s t : plain (s +:+ t) = plain s && plain t.
Proof. induction s as [|a s IH]; [done|]. simpl. by rewrite IH, andb_assoc. Qed.
Lemma plain_srev s : plain (srev s) = plain s.
Proof.
  induction s as [|a s IH]; [done|]. change (String a s) with (String a "" +:+ s).
  rewrite srev_app, !plain_app, IH. simpl. by rewrite andb_true_r, andb_comm.
Qed.

Lemma TrimSpace_plain s : plain s = true → TrimSpace s = s.
Proof.
  assert (∀ s, plain s = true → starts_space space2 space3 s = false ∧
    starts_space (λ a b, space2 b a) (λ a b c, space3 c b a) s = false) as Hstart.
  { intros [|a t] Hp; [done|]. cbn [plain] in Hp. apply andb_prop in Hp as [Ha _]. cbn [starts_space].
    destruct (plain_byte a a a Ha) as (-> & _). destruct t as [|b t]; [done|].
    destruct (plain_byte a b b Ha) as (_ & -> & -> & _). destruct t as [|c t]; [done|].
    by destruct (plain_byte a b c Ha) as (_ & _ & _ & -> & ->). }
  intros Hs. unfold TrimSpace, TrimLeftSpace, TrimRightSpace.
  rewrite (trim_with_id space2) by by apply Hstart.
  rewrite trim_with_id; [apply srev_involutive|]. apply Hstart. by rewrite plain_srev.
Qed.

(** A text that begins with a printable byte is not blank. *)
Lemma TrimSpace_first a s : byte_in 33 126 a = true → TrimSpace (String a s) ≠ "".
Proof.
  intros Ha. unfold TrimSpace, TrimLeftSpace. rewrite trim_with_id.
  - unfold TrimRightSpace. change (String a s) with (String a "" +:+ s). rewrite srev_app.
    intros H. apply (f_equal srev) in H. rewrite srev_involutive in H. revert H.
    apply trim_with_keeps_end; [|intros x|intros x y].
    1: apply (plain_byte a a a Ha). 1: apply (plain_byte a x x Ha). apply (plain_byte a y x Ha).
  - cbn [starts_space]. destruct (plain_byte a a a Ha) as (-> & _). destruct s as [|b s]; [done|].
    destruct (plain_byte a b b Ha) as (_ & -> & _). destruct s as [|c s]; [done|].
    by destruct (plain_byte a b c Ha) as (_ & _ & _ & -> & _).
Qed.

Section lists.
Context `{GoUnicode}.

(** ** normalizeStringList *)

(** The loop over the values, with the map [seen] of lower-case keys. *)
Fixpoint normalize_loop (seen : gset string) (values : list string) : list string :=
  match values with
  | [] => []
  | value :: values' =>
      let trimmed := TrimSpace value in
      if bool_decide (trimmed = "") then normalize_loop seen values'
      else
        let key := ToLower trimmed in
        if bool_decide (key ∈ seen) then normalize_loop seen values'
        else trimmed :: normalize_loop ({[key]} ∪ seen) values'
  end.
Definition normalizeStringList (values : list string) : list string := normalize_loop ∅ values.

(** ** The JSON column *)

(** The same loop, and [json.Marshal], which cannot fail on strings. *)
Definition marshalStringList (values : list string) : string :=
  json_Marshal (normalizeStringList values).
Definition unmarshalStringList (raw : string) : result goerr (list string) :=
  if bool_decide (TrimSpace raw = "") then Ok [] else json_Unmarshal raw.

(** ** Facts *)

Record normal_list (l : list string) : Prop := {
  nl_trimmed : Forall (λ v, v ≠ "" ∧ TrimSpace v = v) l;
  nl_distinct : NoDup (map ToLower l);
}.

Lemma normalize_loop_spec seen values :
  let out := normalize_loop seen values in
  normal_list out ∧ Forall (λ v, ToLower v ∉ seen) out ∧
  out `sublist_of` map TrimSpace values ∧
  ∀ v, v ∈ values → TrimSpace v ≠ "" → ToLower (TrimSpace v) ∈ seen ∨ ToLower (TrimSpace v) ∈ map ToLower out.
Proof.
  revert seen. induction values as [|value values IH]; intros seen; simpl.
  { split_and!; [split; constructor|done..|]. by intros v ?%not_elem_of_nil. }
  case_bool_decide as Hblank.
  { destruct (IH seen) as (Hn & Hs & Hsub & Hall). split_and!; try done; [by constructor|].
    intros v [->|Hv]%elem_of_cons ?; [done|by apply Hall]. }
  case_bool_decide as Hseen.
  { destruct (IH seen) as (Hn & Hs & Hsub & Hall). split_and!; try done; [by constructor|].
    intros v [->|Hv]%elem_of_cons ?; [by left|by apply Hall]. }
  destruct (IH ({[ToLower (TrimSpace value)]} ∪ seen)) as ([Ht Hd] & Hs & Hsub & Hall).
  rewrite Forall_forall in Hs. split_and!.
  - split; [by constructor; rewrite ?TrimSpace_idem|]. simpl. constructor; [|done].
    intros Hin. apply list_elem_of_fmap in Hin as (w & Hw & Hwin). specialize (Hs w Hwin). set_solver.
  - constructor; [done|]. apply Forall_forall. intros w Hw. specialize (Hs w Hw). set_solver.
  - by constructor.
  - intros v [->|Hv]%elem_of_cons ?; [right; left|].
    destruct (Hall v Hv) as [Hin|Hin]; [done| |by right; right].
    apply elem_of_union in Hin as [->%elem_of_singleton|Hin]; [right; left|by left].
Qed.

(** A normal list is left as it is. *)
Lemma normalize_loop_id seen l :
  normal_list l → Forall (λ v, ToLower v ∉ seen) l → normalize_loop seen l = l.
Proof.
  intros [Ht Hd]. revert seen Ht Hd. induction l as [|v l IH]; intros seen Ht Hd Hs; [done|]. simpl.
  apply Forall_cons in Ht as [[Hne Htrim] Ht], Hs as [Hv Hs]. simpl in Hd. apply NoDup_cons in Hd as [Hnew Hd].
  rewrite Htrim, bool_decide_false, bool_decide_false by done. f_equal. apply IH; [done..|].
  rewrite Forall_forall in Hs |- *. intros w Hw. specialize (Hs w Hw).
  assert (ToLower w ≠ ToLower v); [|set_solver].
  intros Heq. apply Hnew. rewrite <- Heq. by apply list_elem_of_fmap_2.
Qed.

Lemma normalizeStringList_normal l : normal_list (normalizeStringList l).
Proof. apply (normalize_loop_spec ∅ l). Qed.

Lemma normalizeStringList_idem l : normalizeStringList (normalizeStringList l) = normalizeStringList l.
Proof.
  apply normalize_loop_id; [apply normalizeStringList_normal|]. apply Forall_forall. set_solver.
Qed.

(** Reading the column back gives the normal list, as UTF-8. *)
Lemma unmarshal_marshal l :
  unmarshalStringList (marshalStringList l) = Ok (map coerce_utf8 (normalizeStringList l)).
Proof.
  unfold unmarshalStringList, marshalStringList. rewrite bool_decide_false; [apply json_roundtrip|].
  by apply TrimSpace_first.
Qed.

(** A list of strings that goes through its JSON column comes back as the
    normal list, as UTF-8: the trimmed values in their order, without blanks,
    the first of those that agree up to case; a normal list is stored as it is. *)
Theorem string_list_roundtrip l :
  unmarshalStringList (marshalStringList l) = Ok (map coerce_utf8 (normalizeStringList l)) ∧
  normal_list (normalizeStringList l) ∧
  normalizeStringList l `sublist_of` map TrimSpace l ∧
  (∀ v, v ∈ l → TrimSpace v ≠ "" → ToLower (TrimSpace v) ∈ map ToLower (normalizeStringList l)) ∧
  normalizeStringList (normalizeStringList l) = normalizeStringList l.
Proof.
  destruct (normalize_loop_spec ∅ l) as (Hn & _ & Hsub & Hall).
  split_and!; [apply unmarshal_marshal|done|done| |apply normalizeStringList_idem].
  intros v Hv Hne. destruct (Hall v Hv Hne) as [?%not_elem_of_empty|?]; done.
Qed.
End lists.
