(* ===== verification/Threads.v ===== *)
(** * Programs over a shared store

    Handlers of the server run at the same time and share the database.  A
    [prog] is a handler cut at its accesses to the outside: each [Act] is one
    atomic access, a function of the outside input it meets (clock, random
    bytes, a failure) and of the store.  The same program can be run alone
    ([run]) or interleaved with any others ([trans]). *)

From S2P Require Import Prelude.

Section programs.
Context {W I : Type}.

Inductive prog (A : Type) : Type :=
| Ret (a : A)
| Act {B : Type} (f : I → W → W * B) (k : B → prog A).
Arguments Ret {A} a.
Arguments Act {A B} f k.

Fixpoint bind {A B} (p : prog A) (k : A → prog B) : prog B :=
  match p with
  | Ret a => k a
  | Act f g => Act f (λ b, bind (g b) k)
  end.
(** The statement [v, err := p; if err != nil { return err }]. *)
Definition bind_ok {E A B} (p : prog (result E A)) (k : A → prog (result E B)) : prog (result E B) :=
  bind p (λ r, match r with Ok a => k a | Err e => Ret (Err e) end).

Definition access {A} (f : I → W → W * A) : prog A := Act f Ret.

(** [for _, x := range l { out = append(out, f(x)) }] *)
Fixpoint for_each {A B} (f : A → prog B) (l : list A) : prog (list B) :=
  match l with
  | [] => Ret []
  | x :: l' => bind (f x) (λ y, bind (for_each f l') (λ ys, Ret (y :: ys)))
  end.

(** ** Alone *)

(** [run e n p w] meets the inputs [e n], [e (S n)], ... *)
Fixpoint run {A} (e : nat → I) (n : nat) (p : prog A) (w : W) : nat * W * A :=
  match p with
  | Ret a => (n, w, a)
  | Act f k => let '(w', b) := f (e n) w in run e (S n) (k b) w'
  end.

Lemma run_bind {A B} e n (p : prog A) (k : A → prog B) w :
  run e n (bind p k) w = let '(n', w', a) := run e n p w in run e n' (k a) w'.
Proof.
  revert n w. induction p as [a|C f g IH]; intros n w; simpl; [done|].
  destruct (f (e n) w) as [w' b]. apply IH.
Qed.

(** ** Interleaved *)

(** One access. *)
Definition step {A} (i : I) (w : W) (p : prog A) : option (W * prog A) :=
  match p with
  | Ret _ => None
  | Act f k => let '(w', b) := f i w in Some (w', k b)
  end.
End programs.
Arguments prog : clear implicits.
Arguments Ret {W I A} a.
Arguments Act {W I A B} f k.

Notation "'do!' x ':=' p 'in' k" := (bind p (λ x, k))
  (at level 10, x pattern, p at level 100, k at level 200) : go_scope.
Notation "'ok!' x ':=' p 'in' k" := (bind_ok p (λ x, k))
  (at level 10, x pattern, p at level 100, k at level 200) : go_scope.

(** ** A program among others

    [wp Φ Q w p]: when the store was [w] at the last access, and others move it
    only by [R] in between, every access of [p] that meets an allowed input
    satisfies [Φ] of the input, the store before and after it and the rest of
    the program, and an answer satisfies [Q] of the store at the last access.
    With [eq] for [R] it is about [p] alone. *)
Section wp.
Context {W I : Type} (allowed : I → Prop) (R : W → W → Prop).

Fixpoint wp {A} (Φ : I → W → W → prog W I A → Prop) (Q : W → A → Prop) (w : W) (p : prog W I A) : Prop :=
  match p with
  | Ret a => Q w a
  | Act f k => ∀ i w1, allowed i → R w w1 →
      let '(w', b) := f i w1 in Φ i w1 w' (k b) ∧ wp Φ Q w' (k b)
  end.

Lemma wp_bind {A B} (Φ : I → W → W → prog W I B → Prop) Q w (p : prog W I A) (k : A → prog W I B) :
  wp (λ i w w' r, Φ i w w' (bind r k)) (λ w' a, wp Φ Q w' (k a)) w p → wp Φ Q w (bind p k).
Proof.
  revert w. induction p as [a|C f g IH]; intros w; simpl; [done|].
  intros Hp i w1 Hi HR. specialize (Hp i w1 Hi HR). destruct (f i w1) as [w' b]. naive_solver.
Qed.

Lemma wp_bind_ok {E A B} (Φ : I → W → W → prog W I (result E B) → Prop) Q w
    (p : prog W I (result E A)) (k : A → prog W I (result E B)) :
  wp (λ i w w' r, Φ i w w' (bind_ok r k))
     (λ w' r, match r with Ok a => wp Φ Q w' (k a) | Err e => Q w' (Err e) end) w p →
  wp Φ Q w (bind_ok p k).
Proof.
  intros Hp. apply wp_bind. revert w Hp. induction p as [a|C f g IH]; intros w; simpl.
  - by destruct a.
  - intros Hp i w1 Hi HR. specialize (Hp i w1 Hi HR). destruct (f i w1) as [w' b].
    destruct Hp as [HΦ Hp]. split; [exact HΦ|by apply IH].
Qed.

Lemma wp_mono {A} (Φ Ψ : I → W → W → prog W I A → Prop) (Q Q' : W → A → Prop) w (p : prog W I A) :
  (∀ i w w' r, allowed i → Φ i w w' r → Ψ i w w' r) → (∀ w a, Q w a → Q' w a) →
  wp Φ Q w p → wp Ψ Q' w p.
Proof.
  intros HΦ HQ. revert w. induction p as [a|C f g IH]; intros w; simpl; [apply HQ|].
  intros Hp i w1 Hi HR. specialize (Hp i w1 Hi HR). destruct (f i w1) as [w' b]. naive_solver.
Qed.

Lemma wp_access {A B} (Φ : I → W → W → prog W I B → Prop) (Q : W → B → Prop) w
    (f : I → W → W * A) (k : A → prog W I B) :
  (∀ i w1, allowed i → R w w1 → let '(w', b) := f i w1 in Φ i w1 w' (k b) ∧ wp Φ Q w' (k b)) →
  wp Φ Q w (bind (access f) k).
Proof. done. Qed.

(** The store at the last access may be an earlier one. *)
Lemma wp_earlier `{!Transitive R} {A} Φ (Q : W → A → Prop) w w1 (p : prog W I A) :
  (∀ w w1 a, R w w1 → Q w a → Q w1 a) → R w w1 → wp Φ Q w p → wp Φ Q w1 p.
Proof.
  intros HQ HR. destruct p as [a|B f k]; simpl; [by apply HQ|].
  intros Hp i w2 Hi HR2. apply Hp; [done|]. by etrans.
Qed.

Lemma wp_step {A} Φ (Q : W → A → Prop) i w (p : prog W I A) w' p' :
  allowed i → R w w → wp Φ Q w p → step i w p = Some (w', p') → Φ i w w' p' ∧ wp Φ Q w' p'.
Proof.
  destruct p as [a|B f k]; simpl; [done|]. intros Hi HR Hp.
  specialize (Hp i w Hi HR). destruct (f i w) as [w1 b]. by intros [= -> <-].
Qed.

Lemma wp_run `{!Reflexive R} {A} Φ (Q : W → A → Prop) (p : prog W I A) e n w n' w' a :
  (∀ n, allowed (e n)) → wp Φ Q w p → run e n p w = (n', w', a) → Q w' a.
Proof.
  intros He. revert n w. induction p as [x|C f g IH]; intros n w Hp; simpl.
  - by intros [= _ <- <-].
  - specialize (Hp (e n) w (He n) (reflexivity w)). destruct (f (e n) w) as [w1 b].
    intros Hrun. by eapply IH; [apply Hp|].
Qed.

(** Every access satisfies a relation of the stores, whatever happened before. *)
Definition guarantees {A} (G : W → W → Prop) (p : prog W I A) : Prop :=
  ∀ w, wp (λ _ w w' _, G w w') (λ _ _, True) w p.

Lemma guarantees_bind {A B} G (p : prog W I A) (k : A → prog W I B) :
  guarantees G p → (∀ a, guarantees G (k a)) → guarantees G (bind p k).
Proof.
  intros Hp Hk w. apply wp_bind. eapply wp_mono; [| |apply Hp]; [done|]. intros w' a _. apply Hk.
Qed.
Lemma guarantees_bind_ok {E A B} G (p : prog W I (result E A)) (k : A → prog W I (result E B)) :
  guarantees G p → (∀ a, guarantees G (k a)) → guarantees G (bind_ok p k).
Proof. intros Hp Hk. apply guarantees_bind; [done|]. intros [a|e]; [apply Hk|done]. Qed.
Lemma guarantees_access {A} (G : W → W → Prop) (f : I → W → W * A) :
  (∀ i w, allowed i → G w (f i w).1) → guarantees G (access f).
Proof. intros HG w i w1 Hi _. specialize (HG i w1 Hi). by destruct (f i w1). Qed.
Lemma guarantees_for_each {A B} G (f : A → prog W I B) l :
  (∀ x, guarantees G (f x)) → guarantees G (for_each f l).
Proof.
  intros Hf. induction l as [|x l IH]; [done|].
  apply guarantees_bind; [apply Hf|]. intros y. by apply guarantees_bind.
Qed.
Lemma guarantees_mono {A} (G G' : W → W → Prop) (p : prog W I A) :
  (∀ w w', G w w' → G' w w') → guarantees G p → guarantees G' p.
Proof. intros HG Hp w. eapply wp_mono; [| |apply Hp]; [|done]. intros i w1 w' r _. apply HG. Qed.

(** From what all accesses guarantee to what is left after them. *)
Lemma wp_guaranteed {A} (G : W → W → Prop) Φ (Q : W → A → Prop) w (p : prog W I A) :
  guarantees G p → (∀ i w w' r, allowed i → G w w' → Φ i w w' r) → (∀ w a, Q w a) → wp Φ Q w p.
Proof. intros Hp HΦ HQ. eapply wp_mono; [| |apply Hp]; [done|]. intros w' a _. apply HQ. Qed.

(** A program that only reads: what others did meanwhile is in [R]. *)
Definition reads {A} (Q : A → Prop) (p : prog W I A) : Prop :=
  ∀ w, wp (λ _ w w' _, w' = w) (λ _ a, Q a) w p.

Lemma wp_reads `{!PreOrder R} {A} Φ (Q : A → Prop) (Q' : W → A → Prop) w (p : prog W I A) :
  reads Q p → (∀ i w r, Φ i w w r) → (∀ w' a, R w w' → Q a → Q' w' a) → wp Φ Q' w p.
Proof.
  intros Hp HΦ HQ. specialize (Hp w). revert w Hp HQ. induction p as [a|C f g IH]; intros w Hp HQ; simpl in *.
  - by apply HQ.
  - intros i w1 Hi HR. specialize (Hp i w1 Hi HR). destruct (f i w1) as [w' b]. destruct Hp as [-> Hp].
    split; [apply HΦ|]. apply IH; [done|]. intros w' a HR'. apply HQ. by etrans.
Qed.

Lemma reads_bind {A B} (Q : A → Prop) (Q' : B → Prop) (p : prog W I A) (k : A → prog W I B) :
  reads Q p → (∀ a, Q a → reads Q' (k a)) → reads Q' (bind p k).
Proof.
  intros Hp Hk w. apply wp_bind. eapply wp_mono; [| |apply Hp]; [done|].
  intros w' a Ha. by apply Hk.
Qed.

(** A loop whose body relates each element to its result. *)
Lemma reads_for_each {A B} (T : A → B → Prop) (f : A → prog W I B) l :
  (∀ x, x ∈ l → reads (T x) (f x)) → reads (Forall2 T l) (for_each f l).
Proof.
  induction l as [|x l IH]; intros Hf; [by constructor|].
  apply reads_bind with (T x); [apply Hf, list_elem_of_here|]. intros y Hy.
  apply reads_bind with (Forall2 T l).
  - apply IH. intros z Hz. by apply Hf, list_elem_of_further.
  - intros ys Hys w. by constructor.
Qed.

Lemma guarantees_run `{!Reflexive R} {A} (G : W → W → Prop) `{!PreOrder G} (p : prog W I A) e n w n' w' a :
  (∀ n, allowed (e n)) → guarantees G p → run e n p w = (n', w', a) → G w w'.
Proof.
  intros He Hp. specialize (Hp w). revert n w Hp. induction p as [x|C f g IH]; intros n w Hp; simpl.
  - by intros [= _ <- _].
  - specialize (Hp (e n) w (He n) (reflexivity w)). destruct (f (e n) w) as [w1 b].
    destruct Hp as [HG Hg]. intros Hrun. etrans; [exact HG|]. by eapply IH.
Qed.
End wp.
Arguments wp {W I} allowed R {A}.
Arguments guarantees {W I} allowed R {A}.

(** ** A server of requests *)

Section server.
Context {W I Req Out : Type} (handler : Req → prog W I Out) (allowed : I → Prop) (w0 : W).

(** The store and the requests received so far, each with what is left of its
    handler; a finished one is [Ret] of its answer. *)
Record server := mkServer { store : W; requests : list (Req * prog W I Out) }.

Inductive trans : server → server → Prop :=
| T_receive w ts req : trans (mkServer w ts) (mkServer w (ts ++ [(req, handler req)]))
| T_access w ts n req p i w' p' :
    ts !! n = Some (req, p) → allowed i → step i w p = Some (w', p') →
    trans (mkServer w ts) (mkServer w' (<[n := (req, p')]> ts)).

Definition reachable (σ : server) : Prop := rtc trans (mkServer w0 []) σ.

(** The moves of a scheduler, to run a concrete interleaving. *)
Inductive move := Receive (req : Req) | Access (n : nat) (i : I).
Definition play1 (m : move) (σ : server) : option server :=
  match m with
  | Receive req => Some (mkServer (store σ) (requests σ ++ [(req, handler req)]))
  | Access n i =>
      '(req, p) ← requests σ !! n;
      '(w', p') ← step i (store σ) p;
      Some (mkServer w' (<[n := (req, p')]> (requests σ)))
  end.
Fixpoint play (ms : list move) (σ : server) : option server :=
  match ms with
  | [] => Some σ
  | m :: ms' => σ' ← play1 m σ; play ms' σ'
  end.

Lemma play_reachable ms σ σ' :
  Forall (λ m, match m with Access _ i => allowed i | Receive _ => True end) ms →
  play ms σ = Some σ' → rtc trans σ σ'.
Proof.
  revert σ. induction ms as [|m ms IH]; intros σ Hms; simpl; [by intros [= ->]|].
  apply Forall_cons in Hms as [Hm Hms]. intros Hplay.
  destruct (play1 m σ) as [σ1|] eqn:H1; [|done]. simpl in Hplay.
  eapply rtc_l; [|by apply IH]. destruct σ as [w ts], m as [req|n i]; simpl in H1.
  - injection H1 as <-. constructor.
  - destruct (ts !! n) as [[req p]|] eqn:Hn; [|done]. simpl in H1.
    destruct (step i w p) as [[w' p']|] eqn:Hp; [|done]. injection H1 as <-. by econstructor.
Qed.

(** The state after the moves, or the first one when they are not possible. *)
Definition played (ms : list move) (σ : server) : server := default σ (play ms σ).
Lemma played_reachable ms :
  Forall (λ m, match m with Access _ i => allowed i | Receive _ => True end) ms →
  reachable (played ms (mkServer w0 [])).
Proof.
  intros Hms. unfold reachable, played. destruct (play ms _) as [σ|] eqn:Hp; [by eapply play_reachable|done].
Qed.

(** Rely and guarantee: the accesses of every handler satisfy [Φ], which implies
    the relation [R] that every handler relies on; then what is left of every
    request of a reachable server satisfies [Φ] too. *)
Section rely.
Context (R : W → W → Prop) `{!PreOrder R} (Φ : Req → I → W → W → prog W I Out → Prop).
Hypothesis Φ_R : ∀ req i w w' r, allowed i → Φ req i w w' r → R w w'.
Hypothesis handler_ok : ∀ req w, wp allowed R (Φ req) (λ _ _, True) w (handler req).

Definition covered (w : W) (ts : list (Req * prog W I Out)) : Prop :=
  ∀ n req p, ts !! n = Some (req, p) → wp allowed R (Φ req) (λ _ _, True) w p.

Lemma covered_step w ts n req p i w' p' :
  covered w ts → ts !! n = Some (req, p) → allowed i → step i w p = Some (w', p') →
  Φ req i w w' p' ∧ covered w' (<[n := (req, p')]> ts).
Proof using Φ_R PreOrder0.
  intros Hc Hn Hi Hp.
  destruct (wp_step allowed R (Φ req) (λ _ _, True) i w p w' p') as [HΦ Hw]; [done..|by eapply Hc|done|].
  split; [done|]. intros m req' q Hm.
  apply list_lookup_insert_Some in Hm as [(-> & [= <- <-] & _)|[_ Hm]]; [done|].
  apply (wp_earlier allowed R) with w; [done| |by eapply Hc]. by eapply Φ_R.
Qed.

(** An invariant of the whole server: it holds at the start, a received request
    keeps it, and so does an access that satisfies [Φ]. *)
Lemma reachable_invariant (P : server → Prop) :
  P (mkServer w0 []) →
  (∀ w ts req, P (mkServer w ts) → P (mkServer w (ts ++ [(req, handler req)]))) →
  (∀ w ts n req p i w' p', P (mkServer w ts) → ts !! n = Some (req, p) → allowed i →
     step i w p = Some (w', p') → Φ req i w w' p' → P (mkServer w' (<[n := (req, p')]> ts))) →
  ∀ σ, reachable σ → P σ.
Proof using Φ_R PreOrder0 handler_ok.
  intros H0 Hnew Hacc.
  assert (∀ σ, reachable σ → covered (store σ) (requests σ) ∧ P σ) as H; [|by intros σ []%H].
  unfold reachable. refine (rtc_ind_r _ _ _ _); [done|].
  intros σ σ' _ Hstep [Hc HP]. destruct Hstep as [w ts req|w ts n req p i w' p' Hn Hi Hp]; simpl in *.
  - split; [|by apply Hnew]. intros m req' q Hm.
    apply lookup_app_Some in Hm as [Hm|[_ Hm]]; [by eapply Hc|].
    apply list_lookup_singleton_Some in Hm as [_ [= <- <-]]. apply handler_ok.
  - destruct (covered_step w ts n req p i w' p') as [HΦ Hc']; [done..|]. split; [done|by eapply Hacc].
Qed.
End rely.
End server.
Arguments mkServer {W I Req Out}.
Arguments store {W I Req Out}.
Arguments requests {W I Req Out}.
Arguments played {W I Req Out}.
Arguments play {W I Req Out}.
Arguments Receive {I Req}.
Arguments Access {I Req}.
