(* ===== verification/DeviceRegistry.v ===== *)
(** * The device registry

    internal/db/device_registry.go and device_registry_admin.go.  The four
    tables are finite maps by primary key, with the columns and defaults of
    internal/db/migrations.go; an SQL statement is the function it computes.
    The pool has one connection (internal/db/db.go), so a statement, or a
    transaction from Begin to Commit, is one access of a program; it fails for
    an outside reason ([fault]) or by its own, and then changes nothing. *)

From S2P Require Import Prelude GoStrings JsonStrings StringLists Hash Threads.
Open Scope string_scope.
Open Scope Z_scope.
Open Scope list_scope.

Module Registry.

(** ** Rows *)

(** Table [device_registry]; the key is [device_id]. *)
Record DeviceRow := mkDeviceRow {
  device_name : string;
  device_role : string;
  assigned_device_label : string;
  client_version : string;
  platform : string;
  overlay_provider : string;
  overlay_address : string;
  capabilities_json : string;
  server_id : string;
  device_group : string;
  last_session_id : string;
  heartbeat_interval_seconds : Z;
  policy_revision : Z;
  requires_policy_pull : Z;
  overlay_connected : Z;
  grpc_connected : Z;
  last_sync_time_unix : Z;
  last_error : string;
  mount_state : string;
  mounted : Z;
  mount_path : string;
  last_mount_time_unix : Z;
  mount_last_error : string;
  sync_state_summary : string;
  current_task_count : Z;
  sync_last_success_time : Z;
  sync_last_error : string;
  conflict_count : Z;
  queue_depth : Z;
  sync_summary : string;
  created_at_unix : Z;
  updated_at_unix : Z;
  last_registered_at_unix : Z;
  last_heartbeat_at_unix : Z;
  last_sync_report_at_unix : Z;
  last_mount_report_at_unix : Z;
  last_seen_at_unix : Z;
}.

(** Table [device_policy]; the key is [device_id]. *)
Record PolicyRow := mkPolicyRow {
  p_mount_path : string;
  p_sync_roots_json : string;
  p_conflict_policy : string;
  p_read_only : Z;
  p_auto_connect : Z;
  p_bandwidth_limit : Z;
  p_log_level : string;
  p_large_file_threshold : Z;
  p_policy_revision : Z;
  p_updated_at_unix : Z;
}.

(** Table [device_actions]; the key is [action_id]. *)
Record ActionRow := mkActionRow {
  a_device_id : string;
  a_action_type : string;
  a_payload_json : string;
  a_status : string;
  a_requested_at_unix : Z;
  a_delivered_at_unix : Z;
  a_completed_at_unix : Z;
}.

(** Table [device_diagnostics]; the key is [diagnostics_id]. *)
Record DiagnosticRow := mkDiagnosticRow {
  g_device_id : string;
  g_category : string;
  g_content_type : string;
  g_summary : string;
  g_payload : bytes;
  g_size_bytes : Z;
  g_uploaded_at_unix : Z;
}.

Record RegistryDb := mkRegistryDb {
  t_device : gmap string DeviceRow;
  t_policy : gmap string PolicyRow;
  t_action : gmap string ActionRow;
  t_diagnostic : gmap string DiagnosticRow;
}.

Definition set_device (f : gmap string DeviceRow → gmap string DeviceRow) (db : RegistryDb) : RegistryDb :=
  mkRegistryDb (f (t_device db)) (t_policy db) (t_action db) (t_diagnostic db).
Definition set_policy (f : gmap string PolicyRow → gmap string PolicyRow) (db : RegistryDb) : RegistryDb :=
  mkRegistryDb (t_device db) (f (t_policy db)) (t_action db) (t_diagnostic db).
Definition set_action (f : gmap string ActionRow → gmap string ActionRow) (db : RegistryDb) : RegistryDb :=
  mkRegistryDb (t_device db) (t_policy db) (f (t_action db)) (t_diagnostic db).
Definition set_diagnostic (f : gmap string DiagnosticRow → gmap string DiagnosticRow) (db : RegistryDb) :
    RegistryDb :=
  mkRegistryDb (t_device db) (t_policy db) (t_action db) (f (t_diagnostic db)).

(** ** The Go records *)

Record DeviceRecord := mkDeviceRecord {
  DeviceID : string;
  DeviceName : string;
  DeviceRole : string;
  AssignedDeviceLabel : string;
  ClientVersion : string;
  Platform : string;
  OverlayProvider : string;
  OverlayAddress : string;
  Capabilities : list string;
  ServerID : string;
  DeviceGroup : string;
  LastSessionID : string;
  HeartbeatIntervalSeconds : Z;
  PolicyRevision : Z;
  RequiresPolicyPull : bool;
  OverlayConnected : bool;
  GRPCConnected : bool;
  LastSyncTimeUnix : Z;
  LastError : string;
  MountState : string;
  Mounted : bool;
  MountPath : string;
  LastMountTimeUnix : Z;
  MountLastError : string;
  SyncStateSummary : string;
  CurrentTaskCount : Z;
  SyncLastSuccessTime : Z;
  SyncLastError : string;
  ConflictCount : Z;
  QueueDepth : Z;
  SyncSummary : string;
  CreatedAtUnix : Z;
  UpdatedAtUnix : Z;
  LastRegisteredAtUnix : Z;
  LastHeartbeatAtUnix : Z;
  LastSyncReportAtUnix : Z;
  LastMountReportAtUnix : Z;
  LastSeenAtUnix : Z;
}.

Record DeviceRegistration := mkRegistration {
  i_DeviceID : string;
  i_DeviceName : string;
  i_DeviceRole : string;
  i_AssignedDeviceLabel : string;
  i_ClientVersion : string;
  i_Platform : string;
  i_OverlayProvider : string;
  i_OverlayAddress : string;
  i_Capabilities : list string;
  i_ServerID : string;
  i_DeviceGroup : string;
  i_HeartbeatIntervalSeconds : Z;
  i_PolicyRevision : Z;
  i_RequiresPolicyPull : bool;
  i_OverlayConnected : bool;
}.

Record DeviceHeartbeat := mkHeartbeat {
  hb_DeviceID : string;
  hb_SessionID : string;
  hb_TimestampUnix : Z;
  hb_OverlayConnected : bool;
  hb_GRPCConnected : bool;
  hb_LastSyncTimeUnix : Z;
  hb_LastError : string;
  hb_MountState : string;
  hb_SyncStateSummary : string;
}.

Record DeviceSyncStateReport := mkSyncReport {
  sr_DeviceID : string;
  sr_CurrentTaskCount : Z;
  sr_LastSuccessTime : Z;
  sr_LastError : string;
  sr_ConflictCount : Z;
  sr_QueueDepth : Z;
  sr_Summary : string;
}.

Record DeviceMountStateReport := mkMountReport {
  mr_DeviceID : string;
  mr_Mounted : bool;
  mr_MountPath : string;
  mr_LastMountTime : Z;
  mr_LastError : string;
}.

Record DevicePolicyRecord := mkPolicy {
  pr_DeviceID : string;
  pr_MountPath : string;
  pr_SyncRoots : list string;
  pr_ConflictPolicy : string;
  pr_ReadOnly : bool;
  pr_AutoConnect : bool;
  pr_BandwidthLimit : Z;
  pr_LogLevel : string;
  pr_LargeFileThreshold : Z;
  pr_PolicyRevision : Z;
  pr_UpdatedAtUnix : Z;
}.

Record DeviceActionRecord := mkAction {
  ar_ActionID : string;
  ar_DeviceID : string;
  ar_ActionType : string;
  ar_PayloadJSON : string;
  ar_Status : string;
  ar_RequestedAtUnix : Z;
  ar_DeliveredAtUnix : Z;
  ar_CompletedAtUnix : Z;
}.

Record DeviceActionRequest := mkActionRequest {
  aq_DeviceID : string;
  aq_ActionType : string;
  aq_PayloadJSON : string;
  aq_ReplaceSimilarPending : bool;
}.

Record DeviceDiagnosticRecord := mkDiagnostic {
  dr_DiagnosticsID : string;
  dr_DeviceID : string;
  dr_Category : string;
  dr_ContentType : string;
  dr_Summary : string;
  dr_Payload : bytes;
  dr_SizeBytes : Z;
  dr_UploadedAtUnix : Z;
}.

Definition boolToInt (v : bool) : Z := if v then 1 else 0.
(** [int64(x)] of an unsigned value. *)
Definition to_int64 (z : Z) : Z := wrap_int64 z.
Definition flag (v : Z) : bool := negb (v =? 0).

(** ** Accesses to the database and to the system *)

(** What an access meets: the clock in seconds, eight random bytes as a number,
    and a failure of the database. *)
Record Outside := mkOutside {
  now : Z;
  entropy : result goerr Z;
  fault : option goerr;
}.

(** What the SQL driver does with a [[]byte] argument: [None] is NULL.  This is
    code of the driver. *)
Class SqlDriver := { bind_blob : bytes → option bytes }.
(** A driver for closed examples. *)
Definition blob_driver : SqlDriver := {| bind_blob := Some |}.

Abbreviation program := (prog RegistryDb Outside).
Abbreviation attempt A := (prog RegistryDb Outside (result goerr A)).
Abbreviation sql A := (go RegistryDb goerr A).

Definition time_Now : program Z := access (λ i db, (db, now i)).
Definition newRandomID : attempt string :=
  access (λ i db, (db, match entropy i with Ok z => Ok (hex_word 16 z) | Err e => Err e end)).

(** One statement, or one transaction: all or nothing. *)
Definition atomically {A} (m : sql A) : attempt A :=
  access (λ i db,
    match fault i with
    | Some e => (db, Err e)
    | None => match m db with
              | (db', Ok a) => (db', Ok a)
              | (_, Err e) => (db, Err e)
              end
    end).

Definition ensureRowsAffected (rowsAffected : Z) : result goerr unit :=
  if rowsAffected =? 0 then Err (ErrSentinel ErrNotExist) else Ok tt.

(** [UPDATE device_registry SET ... WHERE device_id = ?]: the number of rows. *)
Definition update_device (id : string) (f : DeviceRow → DeviceRow) : sql Z := λ db,
  match t_device db !! id with
  | Some r => (set_device <[id := f r]> db, Ok 1)
  | None => (db, Ok 0)
  end.

(** [SET policy_revision, requires_policy_pull, updated_at_unix]. *)
Definition with_policy_state (revision pull updated : Z) (r : DeviceRow) : DeviceRow :=
  mkDeviceRow (device_name r) (device_role r) (assigned_device_label r) (client_version r) (platform r)
    (overlay_provider r) (overlay_address r) (capabilities_json r) (server_id r) (device_group r)
    (last_session_id r) (heartbeat_interval_seconds r) revision pull (overlay_connected r)
    (grpc_connected r) (last_sync_time_unix r) (last_error r) (mount_state r) (mounted r) (mount_path r)
    (last_mount_time_unix r) (mount_last_error r) (sync_state_summary r) (current_task_count r)
    (sync_last_success_time r) (sync_last_error r) (conflict_count r) (queue_depth r) (sync_summary r)
    (created_at_unix r) updated (last_registered_at_unix r) (last_heartbeat_at_unix r)
    (last_sync_report_at_unix r) (last_mount_report_at_unix r) (last_seen_at_unix r).
(** [SET updated_at_unix]. *)
Definition touch (updated : Z) (r : DeviceRow) : DeviceRow :=
  with_policy_state (policy_revision r) (requires_policy_pull r) updated r.

Section operations.
Context `{GoUnicode} `{SqlDriver}.

(** ** Devices *)

Definition scanDeviceRecord (id : string) (r : DeviceRow) : result goerr DeviceRecord :=
  try capabilities := unmarshalStringList (capabilities_json r) in
  Ok {|
    DeviceID := id;
    DeviceName := device_name r;
    DeviceRole := device_role r;
    AssignedDeviceLabel := assigned_device_label r;
    ClientVersion := client_version r;
    Platform := platform r;
    OverlayProvider := overlay_provider r;
    OverlayAddress := overlay_address r;
    Capabilities := capabilities;
    ServerID := server_id r;
    DeviceGroup := device_group r;
    LastSessionID := last_session_id r;
    HeartbeatIntervalSeconds := wrap_uint32 (heartbeat_interval_seconds r);
    PolicyRevision := wrap_uint64 (policy_revision r);
    RequiresPolicyPull := flag (requires_policy_pull r);
    OverlayConnected := flag (overlay_connected r);
    GRPCConnected := flag (grpc_connected r);
    LastSyncTimeUnix := last_sync_time_unix r;
    LastError := last_error r;
    MountState := mount_state r;
    Mounted := flag (mounted r);
    MountPath := mount_path r;
    LastMountTimeUnix := last_mount_time_unix r;
    MountLastError := mount_last_error r;
    SyncStateSummary := sync_state_summary r;
    CurrentTaskCount := wrap_uint32 (current_task_count r);
    SyncLastSuccessTime := sync_last_success_time r;
    SyncLastError := sync_last_error r;
    ConflictCount := wrap_uint64 (conflict_count r);
    QueueDepth := wrap_uint32 (queue_depth r);
    SyncSummary := sync_summary r;
    CreatedAtUnix := created_at_unix r;
    UpdatedAtUnix := updated_at_unix r;
    LastRegisteredAtUnix := last_registered_at_unix r;
    LastHeartbeatAtUnix := last_heartbeat_at_unix r;
    LastSyncReportAtUnix := last_sync_report_at_unix r;
    LastMountReportAtUnix := last_mount_report_at_unix r;
    LastSeenAtUnix := last_seen_at_unix r;
  |}.

Definition Get (deviceID : string) : attempt DeviceRecord :=
  atomically (go_read (λ db,
    match t_device db !! TrimSpace deviceID with
    | None => Err (ErrSentinel ErrNotExist)
    | Some r => scanDeviceRecord (TrimSpace deviceID) r
    end)).

Definition fallbackDeviceLabel (deviceName deviceID : string) : string :=
  let trimmed := TrimSpace deviceName in
  if bool_decide (trimmed = "") then TrimSpace deviceID else trimmed.

(** The row that the INSERT of [Register] makes, the other columns with their
    defaults. *)
Definition registered_row (input : DeviceRegistration) (label : string) (overlayConnected : bool)
    (nowUnix : Z) : DeviceRow := {|
  device_name := TrimSpace (i_DeviceName input);
  device_role := TrimSpace (i_DeviceRole input);
  assigned_device_label := label;
  client_version := TrimSpace (i_ClientVersion input);
  platform := TrimSpace (i_Platform input);
  overlay_provider := TrimSpace (i_OverlayProvider input);
  overlay_address := TrimSpace (i_OverlayAddress input);
  capabilities_json := marshalStringList (i_Capabilities input);
  server_id := TrimSpace (i_ServerID input);
  device_group := TrimSpace (i_DeviceGroup input);
  last_session_id := "";
  heartbeat_interval_seconds := to_int64 (i_HeartbeatIntervalSeconds input);
  policy_revision := to_int64 (i_PolicyRevision input);
  requires_policy_pull := boolToInt (i_RequiresPolicyPull input);
  overlay_connected := boolToInt overlayConnected;
  grpc_connected := 1;
  last_sync_time_unix := 0; last_error := ""; mount_state := "";
  mounted := 0; mount_path := ""; last_mount_time_unix := 0; mount_last_error := "";
  sync_state_summary := ""; current_task_count := 0; sync_last_success_time := 0;
  sync_last_error := ""; conflict_count := 0; queue_depth := 0; sync_summary := "";
  created_at_unix := nowUnix;
  updated_at_unix := nowUnix;
  last_registered_at_unix := nowUnix;
  last_heartbeat_at_unix := 0; last_sync_report_at_unix := 0; last_mount_report_at_unix := 0;
  last_seen_at_unix := nowUnix;
|}.

(** [ON CONFLICT(device_id) DO UPDATE SET ...]: [x] is [excluded]. *)
Definition reregistered_row (x r : DeviceRow) : DeviceRow := {|
  device_name := device_name x;
  device_role := device_role x;
  assigned_device_label := assigned_device_label x;
  client_version := client_version x;
  platform := platform x;
  overlay_provider := overlay_provider x;
  overlay_address := overlay_address x;
  capabilities_json := capabilities_json x;
  server_id := server_id x;
  device_group := device_group x;
  last_session_id := last_session_id r;
  heartbeat_interval_seconds := heartbeat_interval_seconds x;
  policy_revision := policy_revision r;
  requires_policy_pull := requires_policy_pull r;
  overlay_connected := overlay_connected x;
  grpc_connected := grpc_connected x;
  last_sync_time_unix := last_sync_time_unix r; last_error := last_error r; mount_state := mount_state r;
  mounted := mounted r; mount_path := mount_path r; last_mount_time_unix := last_mount_time_unix r;
  mount_last_error := mount_last_error r; sync_state_summary := sync_state_summary r;
  current_task_count := current_task_count r; sync_last_success_time := sync_last_success_time r;
  sync_last_error := sync_last_error r; conflict_count := conflict_count r; queue_depth := queue_depth r;
  sync_summary := sync_summary r; created_at_unix := created_at_unix r;
  updated_at_unix := updated_at_unix x;
  last_registered_at_unix := last_registered_at_unix x;
  last_heartbeat_at_unix := last_heartbeat_at_unix r; last_sync_report_at_unix := last_sync_report_at_unix r;
  last_mount_report_at_unix := last_mount_report_at_unix r;
  last_seen_at_unix := last_seen_at_unix x;
|}.

Definition upsert_device (id : string) (x : DeviceRow) : sql unit := λ db,
  match t_device db !! id with
  | None => (set_device <[id := x]> db, Ok tt)
  | Some r => (set_device <[id := reregistered_row x r]> db, Ok tt)
  end.

Definition Register (input : DeviceRegistration) : attempt DeviceRecord :=
  do! nowUnix := time_Now in
  let deviceID := TrimSpace (i_DeviceID input) in
  if bool_decide (deviceID = "") then Ret (Err (ErrSentinel ErrInvalid)) else
  let label := TrimSpace (i_AssignedDeviceLabel input) in
  let label := if bool_decide (label = "") then fallbackDeviceLabel (i_DeviceName input) deviceID else label in
  let overlayConnected :=
    i_OverlayConnected input || bool_decide (TrimSpace (i_OverlayProvider input) = "") in
  ok! _ := atomically (upsert_device deviceID (registered_row input label overlayConnected nowUnix)) in
  Get deviceID.

(** [UPDATE ...; ensureRowsAffected; Get]: the shape of the three reports.  It
    is one statement, then one read. *)
Definition update_and_get (deviceID : string) (f : DeviceRow → DeviceRow) : attempt DeviceRecord :=
  ok! result := atomically (update_device deviceID f) in
  ok! _ := Ret (ensureRowsAffected result) in
  Get deviceID.

(** [CASE WHEN v != 0 THEN v ELSE old END], and for texts. *)
Definition unless_zero (v old : Z) : Z := if v =? 0 then old else v.
Definition unless_empty (v old : string) : string := if bool_decide (v = "") then old else v.

Definition heartbeat_row (input : DeviceHeartbeat) (timestampUnix : Z) (r : DeviceRow) : DeviceRow := {|
  device_name := device_name r; device_role := device_role r;
  assigned_device_label := assigned_device_label r; client_version := client_version r;
  platform := platform r; overlay_provider := overlay_provider r; overlay_address := overlay_address r;
  capabilities_json := capabilities_json r; server_id := server_id r; device_group := device_group r;
  last_session_id := TrimSpace (hb_SessionID input);
  heartbeat_interval_seconds := heartbeat_interval_seconds r;
  policy_revision := policy_revision r; requires_policy_pull := requires_policy_pull r;
  overlay_connected := boolToInt (hb_OverlayConnected input);
  grpc_connected := boolToInt (hb_GRPCConnected input);
  last_sync_time_unix := unless_zero (hb_LastSyncTimeUnix input) (last_sync_time_unix r);
  last_error := TrimSpace (hb_LastError input);
  mount_state := TrimSpace (hb_MountState input);
  mounted := mounted r; mount_path := mount_path r; last_mount_time_unix := last_mount_time_unix r;
  mount_last_error := mount_last_error r;
  sync_state_summary := TrimSpace (hb_SyncStateSummary input);
  current_task_count := current_task_count r; sync_last_success_time := sync_last_success_time r;
  sync_last_error := sync_last_error r; conflict_count := conflict_count r; queue_depth := queue_depth r;
  sync_summary := sync_summary r; created_at_unix := created_at_unix r;
  updated_at_unix := timestampUnix;
  last_registered_at_unix := last_registered_at_unix r;
  last_heartbeat_at_unix := timestampUnix;
  last_sync_report_at_unix := last_sync_report_at_unix r;
  last_mount_report_at_unix := last_mount_report_at_unix r;
  last_seen_at_unix := timestampUnix;
|}.

Definition UpdateHeartbeat (input : DeviceHeartbeat) : attempt DeviceRecord :=
  let deviceID := TrimSpace (hb_DeviceID input) in
  if bool_decide (deviceID = "") then Ret (Err (ErrSentinel ErrInvalid)) else
  do! timestampUnix :=
    (if hb_TimestampUnix input =? 0 then time_Now else Ret (hb_TimestampUnix input)) in
  update_and_get deviceID (heartbeat_row input timestampUnix).

Definition sync_row (input : DeviceSyncStateReport) (nowUnix : Z) (r : DeviceRow) : DeviceRow := {|
  device_name := device_name r; device_role := device_role r;
  assigned_device_label := assigned_device_label r; client_version := client_version r;
  platform := platform r; overlay_provider := overlay_provider r; overlay_address := overlay_address r;
  capabilities_json := capabilities_json r; server_id := server_id r; device_group := device_group r;
  last_session_id := last_session_id r; heartbeat_interval_seconds := heartbeat_interval_seconds r;
  policy_revision := policy_revision r; requires_policy_pull := requires_policy_pull r;
  overlay_connected := overlay_connected r;
  grpc_connected := 1;
  last_sync_time_unix := unless_zero (sr_LastSuccessTime input) (last_sync_time_unix r);
  last_error := unless_empty (TrimSpace (sr_LastError input)) (last_error r);
  mount_state := mount_state r; mounted := mounted r; mount_path := mount_path r;
  last_mount_time_unix := last_mount_time_unix r; mount_last_error := mount_last_error r;
  sync_state_summary := TrimSpace (sr_Summary input);
  current_task_count := to_int64 (sr_CurrentTaskCount input);
  sync_last_success_time := unless_zero (sr_LastSuccessTime input) (sync_last_success_time r);
  sync_last_error := TrimSpace (sr_LastError input);
  conflict_count := to_int64 (sr_ConflictCount input);
  queue_depth := to_int64 (sr_QueueDepth input);
  sync_summary := TrimSpace (sr_Summary input);
  created_at_unix := created_at_unix r;
  updated_at_unix := nowUnix;
  last_registered_at_unix := last_registered_at_unix r; last_heartbeat_at_unix := last_heartbeat_at_unix r;
  last_sync_report_at_unix := nowUnix;
  last_mount_report_at_unix := last_mount_report_at_unix r;
  last_seen_at_unix := nowUnix;
|}.

Definition UpdateSyncState (input : DeviceSyncStateReport) : attempt DeviceRecord :=
  let deviceID := TrimSpace (sr_DeviceID input) in
  if bool_decide (deviceID = "") then Ret (Err (ErrSentinel ErrInvalid)) else
  do! nowUnix := time_Now in
  update_and_get deviceID (sync_row input nowUnix).

Definition mount_row (input : DeviceMountStateReport) (nowUnix : Z) (r : DeviceRow) : DeviceRow := {|
  device_name := device_name r; device_role := device_role r;
  assigned_device_label := assigned_device_label r; client_version := client_version r;
  platform := platform r; overlay_provider := overlay_provider r; overlay_address := overlay_address r;
  capabilities_json := capabilities_json r; server_id := server_id r; device_group := device_group r;
  last_session_id := last_session_id r; heartbeat_interval_seconds := heartbeat_interval_seconds r;
  policy_revision := policy_revision r; requires_policy_pull := requires_policy_pull r;
  overlay_connected := overlay_connected r; grpc_connected := grpc_connected r;
  last_sync_time_unix := last_sync_time_unix r;
  last_error := unless_empty (TrimSpace (mr_LastError input)) (last_error r);
  mount_state :=
    if mr_Mounted input then "mounted"
    else if bool_decide (TrimSpace (mr_LastError input) = "") then "unmounted" else "error";
  mounted := boolToInt (mr_Mounted input);
  mount_path := TrimSpace (mr_MountPath input);
  last_mount_time_unix := unless_zero (mr_LastMountTime input) (last_mount_time_unix r);
  mount_last_error := TrimSpace (mr_LastError input);
  sync_state_summary := sync_state_summary r;
  current_task_count := current_task_count r; sync_last_success_time := sync_last_success_time r;
  sync_last_error := sync_last_error r; conflict_count := conflict_count r; queue_depth := queue_depth r;
  sync_summary := sync_summary r; created_at_unix := created_at_unix r;
  updated_at_unix := nowUnix;
  last_registered_at_unix := last_registered_at_unix r; last_heartbeat_at_unix := last_heartbeat_at_unix r;
  last_sync_report_at_unix := last_sync_report_at_unix r;
  last_mount_report_at_unix := nowUnix;
  last_seen_at_unix := nowUnix;
|}.

Definition UpdateMountState (input : DeviceMountStateReport) : attempt DeviceRecord :=
  let deviceID := TrimSpace (mr_DeviceID input) in
  if bool_decide (deviceID = "") then Ret (Err (ErrSentinel ErrInvalid)) else
  do! nowUnix := time_Now in
  update_and_get deviceID (mount_row input nowUnix).

Definition MarkPolicyPulled (deviceID : string) : attempt unit :=
  do! nowUnix := time_Now in
  ok! result := atomically (update_device (TrimSpace deviceID)
    (λ r, with_policy_state (policy_revision r) 0 nowUnix r)) in
  Ret (ensureRowsAffected result).

(** [ORDER BY last_seen_at_unix DESC, updated_at_unix DESC, device_id ASC]. *)
Definition device_leb (a b : string * DeviceRow) : bool :=
  let '(i, r) := a in let '(j, q) := b in
  if last_seen_at_unix r =? last_seen_at_unix q then
    if updated_at_unix r =? updated_at_unix q then String.leb i j
    else updated_at_unix q <? updated_at_unix r
  else last_seen_at_unix q <? last_seen_at_unix r.

Fixpoint scan_all (rows : list (string * DeviceRow)) : result goerr (list DeviceRecord) :=
  match rows with
  | [] => Ok []
  | (i, r) :: rows' =>
      try record := scanDeviceRecord i r in
      try records := scan_all rows' in
      Ok (record :: records)
  end.

Definition List : attempt (list DeviceRecord) :=
  atomically (go_read (λ db, scan_all (sort_by device_leb (map_to_list (t_device db))))).

(** ** Policies *)

Definition scanPolicy (id : string) (r : PolicyRow) : result goerr DevicePolicyRecord :=
  try syncRoots := unmarshalStringList (p_sync_roots_json r) in
  Ok {|
    pr_DeviceID := id;
    pr_MountPath := p_mount_path r;
    pr_SyncRoots := syncRoots;
    pr_ConflictPolicy := p_conflict_policy r;
    pr_ReadOnly := flag (p_read_only r);
    pr_AutoConnect := flag (p_auto_connect r);
    pr_BandwidthLimit := p_bandwidth_limit r;
    pr_LogLevel := p_log_level r;
    pr_LargeFileThreshold := p_large_file_threshold r;
    pr_PolicyRevision := wrap_uint64 (p_policy_revision r);
    pr_UpdatedAtUnix := p_updated_at_unix r;
  |}.

Definition GetPolicy (deviceID : string) : attempt DevicePolicyRecord :=
  atomically (go_read (λ db,
    match t_policy db !! TrimSpace deviceID with
    | None => Err (ErrSentinel ErrNotExist)
    | Some r => scanPolicy (TrimSpace deviceID) r
    end)).

Definition policy_row (input : DevicePolicyRecord) (nowUnix : Z) : PolicyRow := {|
  p_mount_path := TrimSpace (pr_MountPath input);
  p_sync_roots_json := marshalStringList (pr_SyncRoots input);
  p_conflict_policy := TrimSpace (pr_ConflictPolicy input);
  p_read_only := boolToInt (pr_ReadOnly input);
  p_auto_connect := boolToInt (pr_AutoConnect input);
  p_bandwidth_limit := pr_BandwidthLimit input;
  p_log_level := TrimSpace (pr_LogLevel input);
  p_large_file_threshold := pr_LargeFileThreshold input;
  p_policy_revision := to_int64 (pr_PolicyRevision input);
  p_updated_at_unix := nowUnix;
|}.

(** The second statement of both transactions on a policy. *)
Definition require_pull_tx (deviceID : string) (revision nowUnix : Z) : sql unit :=
  let! result := update_device deviceID (with_policy_state (to_int64 revision) 1 nowUnix) in
  go_lift (ensureRowsAffected result).

(** Every column but the key is replaced on a conflict. *)
Definition UpsertPolicy (input : DevicePolicyRecord) : attempt DevicePolicyRecord :=
  let deviceID := TrimSpace (pr_DeviceID input) in
  if bool_decide (deviceID = "") then Ret (Err (ErrSentinel ErrInvalid)) else
  do! nowUnix := time_Now in
  ok! _ := atomically (
    go_modify (set_policy <[deviceID := policy_row input nowUnix]>) ;;!
    require_pull_tx deviceID (pr_PolicyRevision input) nowUnix) in
  GetPolicy deviceID.

Definition ResetPolicy (deviceID : string) (policyRevision : Z) : attempt unit :=
  let deviceID := TrimSpace deviceID in
  if bool_decide (deviceID = "") then Ret (Err (ErrSentinel ErrInvalid)) else
  do! nowUnix := time_Now in
  atomically (
    go_modify (set_policy (delete deviceID)) ;;!
    require_pull_tx deviceID policyRevision nowUnix).

(** ** Actions *)

Definition defaultDiagnosticsKeepLatestPerDevice : Z := 20.

(** [UPDATE device_actions SET ... WHERE ...]. *)
Definition update_actions (cond : string → ActionRow → bool) (f : ActionRow → ActionRow)
    (t : gmap string ActionRow) : gmap string ActionRow :=
  map_imap (λ id a, Some (if cond id a then f a else a)) t.

Definition cancelled (nowUnix : Z) (a : ActionRow) : ActionRow :=
  mkActionRow (a_device_id a) (a_action_type a) (a_payload_json a) "cancelled" (a_requested_at_unix a)
    (a_delivered_at_unix a) nowUnix.
Definition delivered (nowUnix : Z) (a : ActionRow) : ActionRow :=
  mkActionRow (a_device_id a) (a_action_type a) (a_payload_json a) "delivered" (a_requested_at_unix a)
    (if a_delivered_at_unix a =? 0 then nowUnix else a_delivered_at_unix a) (a_completed_at_unix a).
Definition similar_pending (deviceID actionType : string) (_ : string) (a : ActionRow) : bool :=
  bool_decide (a_device_id a = deviceID) && bool_decide (a_action_type a = actionType)
  && bool_decide (a_status a = "pending").

(** [INSERT INTO] a table with a primary key. *)
Definition insert_action (id : string) (a : ActionRow) : sql unit := λ db,
  match t_action db !! id with
  | Some _ => (db, Err (ErrNew "UNIQUE constraint failed: device_actions.action_id"))
  | None => (set_action <[id := a]> db, Ok tt)
  end.

Definition EnqueueAction (input : DeviceActionRequest) : attempt DeviceActionRecord :=
  let deviceID := TrimSpace (aq_DeviceID input) in
  let actionType := TrimSpace (aq_ActionType input) in
  if bool_decide (deviceID = "") || bool_decide (actionType = "")
  then Ret (Err (ErrSentinel ErrInvalid)) else
  ok! actionID := newRandomID in
  do! nowUnix := time_Now in
  let payload := TrimSpace (aq_PayloadJSON input) in
  ok! _ := atomically (
    (if aq_ReplaceSimilarPending input
     then go_modify (set_action (update_actions (similar_pending deviceID actionType) (cancelled nowUnix)))
     else go_ret tt) ;;!
    insert_action actionID (mkActionRow deviceID actionType payload "pending" nowUnix 0 0) ;;!
    update_device deviceID (touch nowUnix)) in
  Ret (Ok {|
    ar_ActionID := actionID; ar_DeviceID := deviceID; ar_ActionType := actionType;
    ar_PayloadJSON := payload; ar_Status := "pending"; ar_RequestedAtUnix := nowUnix;
    ar_DeliveredAtUnix := 0; ar_CompletedAtUnix := 0
  |}).

Definition scan_action (p : string * ActionRow) : DeviceActionRecord :=
  let '(id, a) := p in {|
    ar_ActionID := id; ar_DeviceID := a_device_id a; ar_ActionType := a_action_type a;
    ar_PayloadJSON := a_payload_json a; ar_Status := a_status a;
    ar_RequestedAtUnix := a_requested_at_unix a; ar_DeliveredAtUnix := a_delivered_at_unix a;
    ar_CompletedAtUnix := a_completed_at_unix a
  |}.

(** [ORDER BY requested_at_unix DESC, action_id DESC]. *)
Definition action_leb (a b : string * ActionRow) : bool :=
  if a_requested_at_unix a.2 =? a_requested_at_unix b.2 then String.leb b.1 a.1
  else a_requested_at_unix b.2 <? a_requested_at_unix a.2.

Definition has_status (deviceID : string) (statuses : list string) (p : string * ActionRow) : bool :=
  bool_decide (a_device_id p.2 = deviceID) && bool_decide (a_status p.2 ∈ statuses).

(** The rows of the query, before LIMIT. *)
Definition actions_of (deviceID : string) (statuses : list string) (db : RegistryDb) : list (string * ActionRow) :=
  sort_by action_leb (List.filter (has_status deviceID statuses) (map_to_list (t_action db))).

Definition listActionsByStatus (deviceID : string) (statuses : list string) (limit : Z) :
    attempt (list DeviceActionRecord) :=
  let limit := if limit <=? 0 then 16 else limit in
  let deviceID := TrimSpace deviceID in
  if bool_decide (deviceID = "") then Ret (Err (ErrSentinel ErrInvalid)) else
  atomically (go_read (λ db,
    Ok (map scan_action (take (Z.to_nat limit) (actions_of deviceID statuses db))))).

Definition ListPendingActions (deviceID : string) (limit : Z) : attempt (list DeviceActionRecord) :=
  listActionsByStatus deviceID ["pending"] limit.
Definition ListActiveActions (deviceID : string) (limit : Z) : attempt (list DeviceActionRecord) :=
  listActionsByStatus deviceID ["pending"; "delivered"] limit.

Definition listed_pending (actionIDs : list string) (id : string) (a : ActionRow) : bool :=
  bool_decide (id ∈ map TrimSpace actionIDs) && bool_decide (a_status a = "pending").

Definition MarkActionsDelivered (actionIDs : list string) : attempt unit :=
  if bool_decide (actionIDs = []) then Ret (Ok tt) else
  do! nowUnix := time_Now in
  atomically (go_modify (set_action (update_actions (listed_pending actionIDs) (delivered nowUnix)))).

(** ** Diagnostics *)

(** [ORDER BY uploaded_at_unix DESC, diagnostics_id DESC]. *)
Definition diagnostic_leb (a b : string * DiagnosticRow) : bool :=
  if g_uploaded_at_unix a.2 =? g_uploaded_at_unix b.2 then String.leb b.1 a.1
  else g_uploaded_at_unix b.2 <? g_uploaded_at_unix a.2.
Definition diagnostics_of (deviceID : string) (t : gmap string DiagnosticRow) : list (string * DiagnosticRow) :=
  sort_by diagnostic_leb (List.filter (λ p, bool_decide (g_device_id p.2 = deviceID)) (map_to_list t)).

(** [INSERT INTO device_diagnostics]; the column [payload] is NOT NULL. *)
Definition insert_diagnostic (id : string) (g : DiagnosticRow) : sql unit := λ db,
  match bind_blob (g_payload g), t_diagnostic db !! id with
  | None, _ => (db, Err (ErrNew "NOT NULL constraint failed: device_diagnostics.payload"))
  | _, Some _ => (db, Err (ErrNew "UNIQUE constraint failed: device_diagnostics.diagnostics_id"))
  | Some _, None => (set_diagnostic <[id := g]> db, Ok tt)
  end.

(** [DELETE ... WHERE device_id = ? AND diagnostics_id NOT IN (SELECT ... LIMIT ?)]. *)
Definition prune_diagnostics (deviceID : string) (keepLatest : Z) (t : gmap string DiagnosticRow) :
    gmap string DiagnosticRow :=
  let kept := map fst (take (Z.to_nat keepLatest) (diagnostics_of deviceID t)) in
  filter (λ p, g_device_id p.2 ≠ deviceID ∨ p.1 ∈ kept) t.

Definition InsertDiagnostic (input : DeviceDiagnosticRecord) (keepLatest : Z) :
    attempt DeviceDiagnosticRecord :=
  let deviceID := TrimSpace (dr_DeviceID input) in
  if bool_decide (deviceID = "") then Ret (Err (ErrSentinel ErrInvalid)) else
  let diagnosticsID := TrimSpace (dr_DiagnosticsID input) in
  ok! diagnosticsID := (if bool_decide (diagnosticsID = "") then newRandomID else Ret (Ok diagnosticsID)) in
  do! nowUnix := time_Now in
  let payload := dr_Payload input in
  let sizeBytes := if dr_SizeBytes input =? 0 then Z.of_nat (length payload) else dr_SizeBytes input in
  let keepLatest := if keepLatest <=? 0 then defaultDiagnosticsKeepLatestPerDevice else keepLatest in
  let row := mkDiagnosticRow deviceID (TrimSpace (dr_Category input)) (TrimSpace (dr_ContentType input))
    (TrimSpace (dr_Summary input)) payload sizeBytes nowUnix in
  ok! _ := atomically (
    insert_diagnostic diagnosticsID row ;;!
    go_modify (set_diagnostic (prune_diagnostics deviceID keepLatest)) ;;!
    update_device deviceID (touch nowUnix)) in
  Ret (Ok {|
    dr_DiagnosticsID := diagnosticsID; dr_DeviceID := deviceID;
    dr_Category := TrimSpace (dr_Category input); dr_ContentType := TrimSpace (dr_ContentType input);
    dr_Summary := TrimSpace (dr_Summary input); dr_Payload := payload;
    dr_SizeBytes := sizeBytes; dr_UploadedAtUnix := nowUnix
  |}).

Definition scan_diagnostic (p : string * DiagnosticRow) : DeviceDiagnosticRecord :=
  let '(id, g) := p in {|
    dr_DiagnosticsID := id; dr_DeviceID := g_device_id g; dr_Category := g_category g;
    dr_ContentType := g_content_type g; dr_Summary := g_summary g; dr_Payload := g_payload g;
    dr_SizeBytes := g_size_bytes g; dr_UploadedAtUnix := g_uploaded_at_unix g
  |}.

Definition ListDiagnostics (deviceID : string) (limit : Z) : attempt (list DeviceDiagnosticRecord) :=
  let limit := if limit <=? 0 then defaultDiagnosticsKeepLatestPerDevice else limit in
  atomically (go_read (λ db,
    Ok (map scan_diagnostic (take (Z.to_nat limit) (diagnostics_of (TrimSpace deviceID) (t_diagnostic db)))))).

End operations.
End Registry.
