(* ===== verification/ControlPlane.v ===== *)
(** * The control plane and the admin console

    internal/server/control_plane_service.go, control_plane_support.go and the
    device part of admin_console_service.go.  A handler is a program over the
    registry's tables, so that handlers interleave at their accesses; [serve]
    is the handler of any request of both services.  A message of the protocol
    is a record with the message's fields; [AssignedConfig] stands for the
    message AssignedConfigPolicy too, whose fields are the same. *)

From S2P Require Import Prelude GoStrings JsonStrings StringLists Threads DeviceRegistry.
Open Scope string_scope.
Open Scope Z_scope.
Open Scope list_scope.

Module Control.
Import Registry.

(** ** Configuration *)

Record AssignedConfig := mkAssigned {
  ac_MountPath : string;
  ac_SyncRoots : list string;
  ac_ConflictPolicy : string;
  ac_ReadOnly : bool;
  ac_AutoConnect : bool;
  ac_BandwidthLimit : Z;
  ac_LogLevel : string;
  ac_LargeFileThreshold : Z;
}.

Record ServiceDiscoveryConfig := mkDiscovery {
  sd_Mode : string;
  sd_Host : string;
  sd_Port : Z;
  sd_UseTLS : bool;
  sd_TLSServerName : string;
}.

Record JoinBundleConfig := mkJoinBundle {
  jb_OverlayProvider : string;
  jb_OverlayJoinConfigJSON : string;
  jb_ServiceDiscovery : ServiceDiscoveryConfig;
  jb_SharedSecret : string;
}.

Record ControlPlaneConfig := mkControlConfig {
  cc_ServerID : string;
  cc_DefaultDeviceGroup : string;
  cc_HeartbeatIntervalSeconds : Z;
  cc_DefaultPolicyRevision : Z;
  cc_DefaultAssignedConfig : AssignedConfig;
  cc_JoinBundle : JoinBundleConfig;
  cc_AvailableActions : list string;
  cc_DiagnosticsKeepLatest : Z;
}.

Definition defaultHeartbeatIntervalSeconds : Z := 15.
Definition defaultPolicyRevision : Z := 1.
Definition defaultConflictPolicy : string := "manual".
Definition defaultLogLevel : string := "info".
Definition defaultLargeFileThreshold : Z := Z.shiftl 64 20.

(** [if v == "" { v = d }] *)
Definition or_default (v d : string) : string := if bool_decide (v = "") then d else v.

Fixpoint coalesceNonEmpty (values : list string) : string :=
  match values with
  | [] => ""
  | value :: values' =>
      let trimmed := TrimSpace value in
      if bool_decide (trimmed = "") then coalesceNonEmpty values' else trimmed
  end.

Definition fallbackDisplayName (deviceName deviceID : string) : string :=
  let trimmed := TrimSpace deviceName in
  if bool_decide (trimmed = "") then TrimSpace deviceID else trimmed.

Abbreviation handler A := (prog RegistryDb Outside (result status A)).

Section services.
Context `{GoUnicode} `{SqlDriver}.

Definition normalizeAssigned (config : AssignedConfig) : AssignedConfig :=
  let roots := normalizeStringList (ac_SyncRoots config) in {|
  ac_MountPath := TrimSpace (ac_MountPath config);
  ac_SyncRoots := if bool_decide (roots = []) then ["."] else roots;
  ac_ConflictPolicy := or_default (TrimSpace (ac_ConflictPolicy config)) defaultConflictPolicy;
  ac_ReadOnly := ac_ReadOnly config;
  ac_AutoConnect := ac_AutoConnect config;
  ac_BandwidthLimit := ac_BandwidthLimit config;
  ac_LogLevel := or_default (TrimSpace (ac_LogLevel config)) defaultLogLevel;
  ac_LargeFileThreshold :=
    if ac_LargeFileThreshold config <=? 0 then defaultLargeFileThreshold else ac_LargeFileThreshold config;
|}.

Definition normalizeJoinBundle (config : JoinBundleConfig) : JoinBundleConfig := {|
  jb_OverlayProvider := TrimSpace (jb_OverlayProvider config);
  jb_OverlayJoinConfigJSON := TrimSpace (jb_OverlayJoinConfigJSON config);
  jb_ServiceDiscovery := {|
    sd_Mode := or_default (TrimSpace (sd_Mode (jb_ServiceDiscovery config))) "static";
    sd_Host := TrimSpace (sd_Host (jb_ServiceDiscovery config));
    sd_Port := sd_Port (jb_ServiceDiscovery config);
    sd_UseTLS := sd_UseTLS (jb_ServiceDiscovery config);
    sd_TLSServerName := TrimSpace (sd_TLSServerName (jb_ServiceDiscovery config));
  |};
  jb_SharedSecret := TrimSpace (jb_SharedSecret config);
|}.

Definition normalizeControlPlaneConfig (config : ControlPlaneConfig) : ControlPlaneConfig :=
  let actions := normalizeStringList (cc_AvailableActions config) in {|
  cc_ServerID := TrimSpace (cc_ServerID config);
  cc_DefaultDeviceGroup := or_default (TrimSpace (cc_DefaultDeviceGroup config)) "default";
  cc_HeartbeatIntervalSeconds :=
    if cc_HeartbeatIntervalSeconds config =? 0 then defaultHeartbeatIntervalSeconds
    else cc_HeartbeatIntervalSeconds config;
  cc_DefaultPolicyRevision :=
    if cc_DefaultPolicyRevision config =? 0 then defaultPolicyRevision else cc_DefaultPolicyRevision config;
  cc_DefaultAssignedConfig := normalizeAssigned (cc_DefaultAssignedConfig config);
  cc_JoinBundle := normalizeJoinBundle (cc_JoinBundle config);
  cc_AvailableActions :=
    if bool_decide (actions = [])
    then ["reconnect_overlay"; "resync"; "remount"; "collect_diagnostics"] else actions;
  cc_DiagnosticsKeepLatest :=
    if cc_DiagnosticsKeepLatest config <=? 0 then defaultDiagnosticsKeepLatestPerDevice
    else cc_DiagnosticsKeepLatest config;
|}.

(** ** Messages *)

Record RegisterDeviceRequest := mkRegisterRequest {
  rq_device_id : string; rq_device_name : string; rq_device_role : string; rq_client_version : string;
  rq_platform : string; rq_overlay_provider : string; rq_overlay_address : string;
  rq_capabilities : list string; rq_server_id : string; rq_device_group : string;
}.
Record RegisterDeviceResponse := mkRegisterResponse {
  rs_accepted : bool; rs_assigned_device_label : string; rs_heartbeat_interval_seconds : Z;
  rs_policy_revision : Z; rs_requires_policy_pull : bool;
}.
Record ClientAction := mkClientAction {
  ca_action_id : string; ca_action_type : string; ca_payload_json : string; ca_status : string;
  ca_requested_at_unix : Z; ca_delivered_at_unix : Z; ca_completed_at_unix : Z;
}.
Record HeartbeatResponse := mkHeartbeatResponse {
  hs_next_heartbeat_seconds : Z; hs_policy_revision : Z; hs_pending_actions : list string;
  hs_pending_action_details : list ClientAction;
}.
Record GetAssignedConfigResponse := mkAssignedResponse { as_config : AssignedConfig; as_policy_revision : Z }.
Record UploadDiagnosticsRequest := mkUploadRequest {
  ud_device_id : string; ud_category : string; ud_content_type : string; ud_summary : string; ud_data : bytes;
}.
Record UploadDiagnosticsResponse := mkUploadResponse {
  us_diagnostics_id : string; us_uploaded_at_unix : Z; us_size_bytes : Z;
}.
Record DeviceSummary := mkDeviceSummary {
  sm_device_id : string; sm_display_name : string; sm_role : string; sm_overlay_provider : string;
  sm_overlay_address : string; sm_online_state : string; sm_last_seen_at : Z; sm_sync_state : string;
  sm_mount_state : string; sm_client_version : string; sm_policy_revision : Z;
}.
Record DiagnosticSummary := mkDiagnosticSummary {
  ds_diagnostics_id : string; ds_category : string; ds_content_type : string; ds_summary : string;
  ds_size_bytes : Z; ds_uploaded_at_unix : Z;
}.
Record GetDeviceDetailResponse := mkDetail {
  dd_summary : DeviceSummary; dd_device_name : string; dd_platform : string; dd_capabilities : list string;
  dd_server_id : string; dd_device_group : string; dd_session_id : string; dd_overlay_connected : bool;
  dd_grpc_connected : bool; dd_last_error : string; dd_last_sync_time_unix : Z; dd_current_task_count : Z;
  dd_sync_last_success_time : Z; dd_sync_last_error : string; dd_conflict_count : Z; dd_queue_depth : Z;
  dd_sync_summary : string; dd_mounted : bool; dd_mount_path : string; dd_last_mount_time_unix : Z;
  dd_mount_last_error : string; dd_assigned_config : AssignedConfig; dd_pending_actions : list ClientAction;
  dd_recent_diagnostics : list DiagnosticSummary; dd_available_actions : list string;
  dd_requires_policy_pull : bool; dd_last_registered_at : Z; dd_last_heartbeat_at : Z;
  dd_last_sync_report_at : Z; dd_last_mount_report_at : Z;
}.
Record UpdateDevicePolicyRequest := mkUpdateRequest {
  up_device_id : string; up_policy : option AssignedConfig; up_expected_policy_revision : Z;
  up_reset_to_default : bool;
}.
Record UpdateDevicePolicyResponse := mkUpdateResponse {
  ur_policy_revision : Z; ur_requires_policy_pull : bool; ur_effective_policy : AssignedConfig;
}.
Record RequestClientActionRequest := mkActionReq {
  ra_device_id : string; ra_action_type : string; ra_payload_json : string; ra_replace_similar_pending : bool;
}.

(** ** Conversions (control_plane_support.go) *)

Definition assignedConfigFromPolicyRecord (record : DevicePolicyRecord) : AssignedConfig := {|
  ac_MountPath := pr_MountPath record;
  ac_SyncRoots := pr_SyncRoots record;
  ac_ConflictPolicy := pr_ConflictPolicy record;
  ac_ReadOnly := pr_ReadOnly record;
  ac_AutoConnect := pr_AutoConnect record;
  ac_BandwidthLimit := pr_BandwidthLimit record;
  ac_LogLevel := pr_LogLevel record;
  ac_LargeFileThreshold := pr_LargeFileThreshold record;
|}.

Definition assignedConfigFromProto (policy : AssignedConfig) : AssignedConfig := {|
  ac_MountPath := TrimSpace (ac_MountPath policy);
  ac_SyncRoots := normalizeStringList (ac_SyncRoots policy);
  ac_ConflictPolicy := TrimSpace (ac_ConflictPolicy policy);
  ac_ReadOnly := ac_ReadOnly policy;
  ac_AutoConnect := ac_AutoConnect policy;
  ac_BandwidthLimit := ac_BandwidthLimit policy;
  ac_LogLevel := TrimSpace (ac_LogLevel policy);
  ac_LargeFileThreshold := ac_LargeFileThreshold policy;
|}.

(** [clientActionToProto]: the clock is read only for a fresh delivery. *)
Definition clientActionToProto (record : DeviceActionRecord) (is_delivered : bool) : program ClientAction :=
  let proto status deliveredAt :=
    mkClientAction (ar_ActionID record) (ar_ActionType record) (ar_PayloadJSON record) status
      (ar_RequestedAtUnix record) deliveredAt (ar_CompletedAtUnix record) in
  if is_delivered then
    if ar_DeliveredAtUnix record =? 0 then do! t := time_Now in Ret (proto "delivered" t)
    else Ret (proto "delivered" (ar_DeliveredAtUnix record))
  else Ret (proto (ar_Status record) (ar_DeliveredAtUnix record)).

Definition diagnosticSummaryToProto (record : DeviceDiagnosticRecord) : DiagnosticSummary :=
  mkDiagnosticSummary (dr_DiagnosticsID record) (dr_Category record) (dr_ContentType record)
    (dr_Summary record) (dr_SizeBytes record) (dr_UploadedAtUnix record).

(** ** What the console shows of a device *)

Definition deviceDisplayName (record : DeviceRecord) : string :=
  let label := TrimSpace (AssignedDeviceLabel record) in
  if negb (bool_decide (label = "")) then label
  else
    let name := TrimSpace (DeviceName record) in
    if negb (bool_decide (name = "")) then name else DeviceID record.

Definition blank (s : string) : bool := bool_decide (TrimSpace s = "").

Definition deviceOnlineState (record : DeviceRecord) (now_unix : Z) : string :=
  let lastSeenUnix := LastSeenAtUnix record in
  if lastSeenUnix =? 0 then "unknown" else
  let interval := HeartbeatIntervalSeconds record in
  let interval := if interval <=? 0 then defaultHeartbeatIntervalSeconds else interval in
  let offlineAfter := wrap_int64 (interval * 3) in
  let offlineAfter := if offlineAfter <? 45 then 45 else offlineAfter in
  if offlineAfter <? wrap_int64 (now_unix - lastSeenUnix) then "offline"
  else if negb (GRPCConnected record) then "degraded"
  else if negb (blank (OverlayProvider record)) && negb (OverlayConnected record) then "degraded"
  else if negb (blank (LastError record)) || negb (blank (SyncLastError record)) then "degraded"
  else "online".

Definition deviceSyncState (record : DeviceRecord) : string :=
  if negb (blank (SyncSummary record)) then TrimSpace (SyncSummary record)
  else if negb (blank (SyncStateSummary record)) then TrimSpace (SyncStateSummary record)
  else if negb (blank (SyncLastError record)) then "error"
  else if 0 <? CurrentTaskCount record then "running"
  else "idle".

Definition deviceMountState (record : DeviceRecord) : string :=
  if negb (blank (MountState record)) then TrimSpace (MountState record) else "unknown".

Definition buildDeviceSummary (record : DeviceRecord) (now_unix : Z) : DeviceSummary := {|
  sm_device_id := DeviceID record;
  sm_display_name := deviceDisplayName record;
  sm_role := DeviceRole record;
  sm_overlay_provider := OverlayProvider record;
  sm_overlay_address := OverlayAddress record;
  sm_online_state := deviceOnlineState record now_unix;
  sm_last_seen_at := LastSeenAtUnix record;
  sm_sync_state := deviceSyncState record;
  sm_mount_state := deviceMountState record;
  sm_client_version := ClientVersion record;
  sm_policy_revision := PolicyRevision record;
|}.

(** ** Control plane handlers *)

(** [if err != nil { return nil, toGrpcError(err) }]. *)
Definition grpc {A} (p : attempt A) : handler A := bind p (λ r, Ret (map_err toGrpcError r)).

(** The check that each request begins with. *)
Definition with_device {A} (id : string) (k : string → handler A) : handler A :=
  let deviceID := TrimSpace id in
  if bool_decide (deviceID = "") then Ret (Err (invalidArgument "device_id is required")) else k deviceID.

Context (config : ControlPlaneConfig).

Definition RegisterDevice (req : RegisterDeviceRequest) : handler RegisterDeviceResponse :=
  with_device (rq_device_id req) (λ deviceID,
  ok! record := grpc (Register {|
    i_DeviceID := deviceID;
    i_DeviceName := rq_device_name req;
    i_DeviceRole := rq_device_role req;
    i_AssignedDeviceLabel := fallbackDisplayName (rq_device_name req) deviceID;
    i_ClientVersion := rq_client_version req;
    i_Platform := rq_platform req;
    i_OverlayProvider := rq_overlay_provider req;
    i_OverlayAddress := rq_overlay_address req;
    i_Capabilities := rq_capabilities req;
    i_ServerID := coalesceNonEmpty [cc_ServerID config; rq_server_id req];
    i_DeviceGroup := coalesceNonEmpty [rq_device_group req; cc_DefaultDeviceGroup config];
    i_HeartbeatIntervalSeconds := cc_HeartbeatIntervalSeconds config;
    i_PolicyRevision := cc_DefaultPolicyRevision config;
    i_RequiresPolicyPull := true;
    i_OverlayConnected := true;
  |}) in
  Ret (Ok {|
    rs_accepted := true;
    rs_assigned_device_label := AssignedDeviceLabel record;
    rs_heartbeat_interval_seconds := HeartbeatIntervalSeconds record;
    rs_policy_revision := PolicyRevision record;
    rs_requires_policy_pull := RequiresPolicyPull record;
  |})).

(** The request carries the fields of [DeviceHeartbeat]. *)
Definition Heartbeat (req : DeviceHeartbeat) : handler HeartbeatResponse :=
  with_device (hb_DeviceID req) (λ deviceID,
  ok! record := grpc (UpdateHeartbeat {|
    hb_DeviceID := deviceID;
    hb_SessionID := hb_SessionID req;
    hb_TimestampUnix := hb_TimestampUnix req;
    hb_OverlayConnected := hb_OverlayConnected req;
    hb_GRPCConnected := hb_GRPCConnected req;
    hb_LastSyncTimeUnix := hb_LastSyncTimeUnix req;
    hb_LastError := hb_LastError req;
    hb_MountState := hb_MountState req;
    hb_SyncStateSummary := hb_SyncStateSummary req;
  |}) in
  ok! actions := grpc (ListPendingActions deviceID 16) in
  let actionIDs := map ar_ActionID actions in
  let actionNames := map ar_ActionType actions in
  do! actionDetails := for_each (λ action, clientActionToProto action true) actions in
  ok! _ := grpc (MarkActionsDelivered actionIDs) in
  Ret (Ok {|
    hs_next_heartbeat_seconds := HeartbeatIntervalSeconds record;
    hs_policy_revision := PolicyRevision record;
    hs_pending_actions := actionNames;
    hs_pending_action_details := actionDetails;
  |})).

(** The override of the device, or the default for a device without one. *)
Definition effective_config (deviceID : string) : handler AssignedConfig :=
  do! override := GetPolicy deviceID in
  Ret (match override with
       | Ok p => Ok (assignedConfigFromPolicyRecord p)
       | Err e => if errors_Is e ErrNotExist then Ok (cc_DefaultAssignedConfig config)
                  else Err (toGrpcError e)
       end).

Definition GetAssignedConfig (device_id : string) : handler GetAssignedConfigResponse :=
  with_device device_id (λ deviceID,
  ok! record := grpc (Get deviceID) in
  ok! _ := grpc (MarkPolicyPulled deviceID) in
  ok! assigned := effective_config deviceID in
  Ret (Ok (mkAssignedResponse assigned (PolicyRevision record)))).

(** [ReportSyncState]: the request carries the fields of [DeviceSyncStateReport]. *)
Definition ReportSyncState (req : DeviceSyncStateReport) : handler unit :=
  with_device (sr_DeviceID req) (λ deviceID,
  ok! record := grpc (UpdateSyncState {|
    sr_DeviceID := deviceID;
    sr_CurrentTaskCount := wrap_uint32 (sr_CurrentTaskCount req);
    sr_LastSuccessTime := sr_LastSuccessTime req;
    sr_LastError := sr_LastError req;
    sr_ConflictCount := sr_ConflictCount req;
    sr_QueueDepth := wrap_uint32 (sr_QueueDepth req);
    sr_Summary := sr_Summary req;
  |}) in
  Ret (Ok tt)).

Definition ReportMountState (req : DeviceMountStateReport) : handler unit :=
  with_device (mr_DeviceID req) (λ deviceID,
  ok! record := grpc (UpdateMountState {|
    mr_DeviceID := deviceID;
    mr_Mounted := mr_Mounted req;
    mr_MountPath := mr_MountPath req;
    mr_LastMountTime := mr_LastMountTime req;
    mr_LastError := mr_LastError req;
  |}) in
  Ret (Ok tt)).

Definition UploadDiagnostics (req : UploadDiagnosticsRequest) : handler UploadDiagnosticsResponse :=
  with_device (ud_device_id req) (λ deviceID,
  ok! _ := grpc (Get deviceID) in
  ok! record := grpc (InsertDiagnostic {|
    dr_DiagnosticsID := "";
    dr_DeviceID := deviceID;
    dr_Category := ud_category req;
    dr_ContentType := ud_content_type req;
    dr_Summary := ud_summary req;
    dr_Payload := ud_data req;
    dr_SizeBytes := Z.of_nat (length (ud_data req));
    dr_UploadedAtUnix := 0;
  |} (cc_DiagnosticsKeepLatest config)) in
  Ret (Ok (mkUploadResponse (dr_DiagnosticsID record) (dr_UploadedAtUnix record) (dr_SizeBytes record)))).

(** ** Admin console handlers *)

Definition ListDevices : handler (list DeviceSummary) :=
  ok! records := grpc List in
  do! now_unix := time_Now in
  Ret (Ok (map (λ record, buildDeviceSummary record now_unix) records)).

Definition GetDeviceDetail (device_id : string) : handler GetDeviceDetailResponse :=
  with_device device_id (λ deviceID,
  ok! record := grpc (Get deviceID) in
  ok! assignedConfig := effective_config deviceID in
  ok! actions := grpc (ListActiveActions deviceID 16) in
  ok! diagnostics := grpc (ListDiagnostics deviceID (cc_DiagnosticsKeepLatest config)) in
  do! actionDetails := for_each (λ action, clientActionToProto action false) actions in
  let diagnosticSummaries := map diagnosticSummaryToProto diagnostics in
  do! now_unix := time_Now in
  Ret (Ok {|
    dd_summary := buildDeviceSummary record now_unix;
    dd_device_name := DeviceName record;
    dd_platform := Platform record;
    dd_capabilities := Capabilities record;
    dd_server_id := ServerID record;
    dd_device_group := DeviceGroup record;
    dd_session_id := LastSessionID record;
    dd_overlay_connected := OverlayConnected record;
    dd_grpc_connected := GRPCConnected record;
    dd_last_error := LastError record;
    dd_last_sync_time_unix := LastSyncTimeUnix record;
    dd_current_task_count := CurrentTaskCount record;
    dd_sync_last_success_time := SyncLastSuccessTime record;
    dd_sync_last_error := SyncLastError record;
    dd_conflict_count := ConflictCount record;
    dd_queue_depth := QueueDepth record;
    dd_sync_summary := SyncSummary record;
    dd_mounted := Mounted record;
    dd_mount_path := MountPath record;
    dd_last_mount_time_unix := LastMountTimeUnix record;
    dd_mount_last_error := MountLastError record;
    dd_assigned_config := assignedConfig;
    dd_pending_actions := actionDetails;
    dd_recent_diagnostics := diagnosticSummaries;
    dd_available_actions := cc_AvailableActions config;
    dd_requires_policy_pull := RequiresPolicyPull record;
    dd_last_registered_at := LastRegisteredAtUnix record;
    dd_last_heartbeat_at := LastHeartbeatAtUnix record;
    dd_last_sync_report_at := LastSyncReportAtUnix record;
    dd_last_mount_report_at := LastMountReportAtUnix record;
  |})).

Definition UpdateDevicePolicy (req : UpdateDevicePolicyRequest) : handler UpdateDevicePolicyResponse :=
  with_device (up_device_id req) (λ deviceID,
  ok! record := grpc (Get deviceID) in
  let expected := up_expected_policy_revision req in
  if negb (expected =? 0) && negb (expected =? PolicyRevision record) then
    Ret (Err (failedPrecondition "expected_policy_revision does not match current policy_revision"))
  else
  let nextRevision := wrap_uint64 (PolicyRevision record + 1) in
  let nextRevision := if nextRevision =? 0 then 1 else nextRevision in
  if up_reset_to_default req then
    ok! _ := grpc (ResetPolicy deviceID nextRevision) in
    Ret (Ok (mkUpdateResponse nextRevision true (cc_DefaultAssignedConfig config)))
  else
  match up_policy req with
  | None => Ret (Err (invalidArgument "policy is required unless reset_to_default is true"))
  | Some policy =>
      let effectiveConfig := assignedConfigFromProto policy in
      ok! _ := grpc (UpsertPolicy {|
        pr_DeviceID := deviceID;
        pr_MountPath := ac_MountPath effectiveConfig;
        pr_SyncRoots := ac_SyncRoots effectiveConfig;
        pr_ConflictPolicy := ac_ConflictPolicy effectiveConfig;
        pr_ReadOnly := ac_ReadOnly effectiveConfig;
        pr_AutoConnect := ac_AutoConnect effectiveConfig;
        pr_BandwidthLimit := ac_BandwidthLimit effectiveConfig;
        pr_LogLevel := ac_LogLevel effectiveConfig;
        pr_LargeFileThreshold := ac_LargeFileThreshold effectiveConfig;
        pr_PolicyRevision := nextRevision;
        pr_UpdatedAtUnix := 0;
      |}) in
      Ret (Ok (mkUpdateResponse nextRevision true effectiveConfig))
  end).

Definition RequestClientAction (req : RequestClientActionRequest) : handler ClientAction :=
  with_device (ra_device_id req) (λ deviceID,
  if bool_decide (TrimSpace (ra_action_type req) = "")
  then Ret (Err (invalidArgument "action_type is required")) else
  ok! _ := grpc (Get deviceID) in
  ok! action := grpc (EnqueueAction {|
    aq_DeviceID := deviceID;
    aq_ActionType := ra_action_type req;
    aq_PayloadJSON := ra_payload_json req;
    aq_ReplaceSimilarPending := ra_replace_similar_pending req;
  |}) in
  do! proto := clientActionToProto action false in
  Ret (Ok proto)).

(** ** Any request *)

Inductive Request :=
| RqRegister (req : RegisterDeviceRequest)
| RqHeartbeat (req : DeviceHeartbeat)
| RqConfig (device_id : string)
| RqSync (req : DeviceSyncStateReport)
| RqMount (req : DeviceMountStateReport)
| RqUpload (req : UploadDiagnosticsRequest)
| RqList
| RqDetail (device_id : string)
| RqPolicy (req : UpdateDevicePolicyRequest)
| RqAction (req : RequestClientActionRequest).

Inductive Response :=
| RsRegister (r : RegisterDeviceResponse)
| RsHeartbeat (r : HeartbeatResponse)
| RsConfig (r : GetAssignedConfigResponse)
| RsEmpty
| RsUpload (r : UploadDiagnosticsResponse)
| RsList (r : list DeviceSummary)
| RsDetail (r : GetDeviceDetailResponse)
| RsPolicy (r : UpdateDevicePolicyResponse)
| RsAction (r : ClientAction).

Definition answer {A} (wrap : A → Response) (p : handler A) : handler Response :=
  ok! a := p in Ret (Ok (wrap a)).

Definition serve (req : Request) : handler Response :=
  match req with
  | RqRegister r => answer RsRegister (RegisterDevice r)
  | RqHeartbeat r => answer RsHeartbeat (Heartbeat r)
  | RqConfig id => answer RsConfig (GetAssignedConfig id)
  | RqSync r => answer (λ _, RsEmpty) (ReportSyncState r)
  | RqMount r => answer (λ _, RsEmpty) (ReportMountState r)
  | RqUpload r => answer RsUpload (UploadDiagnostics r)
  | RqList => answer RsList ListDevices
  | RqDetail id => answer RsDetail (GetDeviceDetail id)
  | RqPolicy r => answer RsPolicy (UpdateDevicePolicy r)
  | RqAction r => answer RsAction (RequestClientAction r)
  end.

(** The device that a request is about. *)
Definition request_device (req : Request) : option string :=
  match req with
  | RqRegister r => Some (TrimSpace (rq_device_id r))
  | RqHeartbeat r => Some (TrimSpace (hb_DeviceID r))
  | RqConfig id | RqDetail id => Some (TrimSpace id)
  | RqSync r => Some (TrimSpace (sr_DeviceID r))
  | RqMount r => Some (TrimSpace (mr_DeviceID r))
  | RqUpload r => Some (TrimSpace (ud_device_id r))
  | RqList => None
  | RqPolicy r => Some (TrimSpace (up_device_id r))
  | RqAction r => Some (TrimSpace (ra_device_id r))
  end.

(** The configuration that a device of the tables is given. *)
Definition current_config (deviceID : string) (db : RegistryDb) : result goerr AssignedConfig :=
  match t_policy db !! deviceID with
  | Some p => map_err id (try r := scanPolicy deviceID p in Ok (assignedConfigFromPolicyRecord r))
  | None => Ok (cc_DefaultAssignedConfig config)
  end.
End services.
End Control.
