(* ===== verification/RegistryEffects.v ===== *)
(** * What an access to the registry may do

    The abstract specification of the tables of the device registry: the ten
    effects that an access of a handler may have.  Every access of every
    handler of ControlPlane, whatever it meets, has one of them
    ([serve_effects]); the invariants of the tables follow from the effects
    alone. *)

From S2P Require Import Prelude GoStrings JsonStrings StringLists Hash Threads DeviceRegistry ControlPlane.
Open Scope string_scope.
Open Scope Z_scope.
Open Scope list_scope.

Create HintDb effects.

Module Effects.
Import Registry Control.

Section effects.
Context `{GoUnicode} `{SqlDriver} (keep : Z).

(** A change of a device row that concerns neither its policy nor what
    registration sets. *)
Definition keeps_policy (f : DeviceRow → DeviceRow) : Prop := ∀ r,
  policy_revision (f r) = policy_revision r ∧ requires_policy_pull (f r) = requires_policy_pull r ∧
  capabilities_json (f r) = capabilities_json r.

Definition good_key (id : string) : Prop := TrimSpace id = id ∧ id ≠ "".
Definition marshalled (json : string) : Prop := ∃ l, json = marshalStringList l.

(** The row of a new device. *)
Definition fresh_device (x : DeviceRow) : Prop :=
  requires_policy_pull x = 1 ∧ marshalled (capabilities_json x) ∧ is_int64 (policy_revision x).
(** What a device has after its policy was set: no row means the default. *)
Definition policy_for (revision : Z) (o : option PolicyRow) : Prop :=
  is_int64 revision ∧
  ∀ p, o = Some p → p_policy_revision p = revision ∧ marshalled (p_sync_roots_json p).

(** [pulls] and [delivers] allow the two effects that only one handler has. *)
Inductive effect (pulls delivers : bool) (db : RegistryDb) : RegistryDb → Prop :=
| E_none : effect pulls delivers db db
| E_report id f : keeps_policy f → effect pulls delivers db (set_device (alter f id) db)
| E_register id x :
    good_key id → fresh_device x → t_device db !! id = None →
    effect pulls delivers db (set_device <[id := x]> db)
| E_reregister id x r :
    marshalled (capabilities_json x) → t_device db !! id = Some r →
    effect pulls delivers db (set_device <[id := reregistered_row x r]> db)
| E_pulled id t :
    pulls = true →
    effect pulls delivers db (set_device (alter (λ r, with_policy_state (policy_revision r) 0 t r) id) db)
| E_policy id o revision t :
    policy_for revision o → is_Some (t_device db !! id) →
    effect pulls delivers db
      (set_device (alter (with_policy_state revision 1 t) id) (set_policy (partial_alter (λ _, o) id) db))
| E_enqueue id dev ty payload t (replace : bool) :
    good_key id → good_key dev → good_key ty → t_action db !! id = None →
    effect pulls delivers db
      (set_device (alter (touch t) dev)
        (set_action (λ m, <[id := mkActionRow dev ty payload "pending" t 0 0]>
          (if replace then update_actions (similar_pending dev ty) (cancelled t) m else m)) db))
| E_deliver ids t :
    delivers = true →
    effect pulls delivers db (set_action (update_actions (listed_pending ids) (delivered t)) db)
| E_diagnostic id g t :
    good_key (g_device_id g) → t_diagnostic db !! id = None →
    effect pulls delivers db
      (set_device (alter (touch t) (g_device_id g))
        (set_diagnostic (λ m, prune_diagnostics (g_device_id g) keep (<[id := g]> m)) db)).

Lemma effect_weaken p d db db' : effect false false db db' → effect p d db db'.
Proof.
  destruct 1; try discriminate;
    [apply E_none|by apply E_report|by apply E_register|by apply E_reregister|by apply E_policy
    |by apply E_enqueue|by apply E_diagnostic].
Qed.

(** ** The statements *)

Lemma update_device_alter id f db :
  update_device id f db =
    (set_device (alter f id) db, Ok (if bool_decide (is_Some (t_device db !! id)) then 1 else 0)).
Proof.
  unfold update_device. destruct db as [dt pt at_ gt]. unfold set_device. simpl.
  destruct (dt !! id) as [r|] eqn:Hr.
  - rewrite bool_decide_true by eauto. do 2 f_equal. apply map_eq. intros j.
    destruct (decide (j = id)) as [->|Hj].
    + by rewrite lookup_insert_eq, lookup_alter_eq, Hr.
    + by rewrite lookup_insert_ne, lookup_alter_ne by done.
  - rewrite bool_decide_false by (by intros []). do 2 f_equal. apply map_eq. intros j.
    destruct (decide (j = id)) as [->|Hj].
    + by rewrite lookup_alter_eq, Hr.
    + by rewrite lookup_alter_ne by done.
Qed.

Lemma keeps_heartbeat input t : keeps_policy (heartbeat_row input t).
Proof. by intros r. Qed.
Lemma keeps_sync input t : keeps_policy (sync_row input t).
Proof. by intros r. Qed.
Lemma keeps_mount input t : keeps_policy (mount_row input t).
Proof. by intros r. Qed.

Lemma trimmed_key id : TrimSpace id ≠ "" → good_key (TrimSpace id).
Proof. intros Hne. by split; [apply TrimSpace_idem|]. Qed.

(** An identifier of random bytes is a key. *)
Lemma hex_word_plain n z : plain (hex_word n z) = true.
Proof.
  revert z. induction n as [|n IH]; intros z; [done|]. simpl. rewrite plain_app, IH. simpl.
  assert (byte_in 33 126 (hex_digit (z mod 16)) = true) as ->; [|done].
  pose proof (Z.mod_pos_bound z 16 ltac:(lia)) as Hz. revert Hz. generalize (z mod 16). intros d Hd.
  assert (d = 0 ∨ d = 1 ∨ d = 2 ∨ d = 3 ∨ d = 4 ∨ d = 5 ∨ d = 6 ∨ d = 7 ∨ d = 8 ∨ d = 9 ∨ d = 10 ∨ d = 11
    ∨ d = 12 ∨ d = 13 ∨ d = 14 ∨ d = 15) as Hcases by lia.
  by repeat destruct Hcases as [->|Hcases]; [reflexivity..|subst].
Qed.
Lemma hex_key z : good_key (hex_word 16 z).
Proof.
  split; [apply TrimSpace_plain, hex_word_plain|]. intros Heq. apply (f_equal String.length) in Heq.
  by rewrite hex_word_length in Heq.
Qed.

Lemma require_pull_tx_Ok id revision t db db' u :
  require_pull_tx id revision t db = (db', Ok u) →
  is_Some (t_device db !! id) ∧ db' = set_device (alter (with_policy_state (to_int64 revision) 1 t) id) db.
Proof.
  unfold require_pull_tx, go_bind. rewrite update_device_alter. cbn [go_lift].
  case_bool_decide as Hd; cbn; by intros [= <-].
Qed.

Lemma upsert_device_Ok id x db db' u :
  upsert_device id x db = (db', Ok u) →
  (t_device db !! id = None ∧ db' = set_device <[id := x]> db) ∨
  ∃ r, t_device db !! id = Some r ∧ db' = set_device <[id := reregistered_row x r]> db.
Proof. unfold upsert_device. destruct (t_device db !! id) as [r|]; intros [= <-]; eauto. Qed.

(** ** The operations *)

Context (allowed : Outside → Prop) (R : RegistryDb → RegistryDb → Prop).

Lemma guarantees_atomically {A} (G : RegistryDb → RegistryDb → Prop) (m : sql A) :
  (∀ db, G db db) → (∀ db db' a, m db = (db', Ok a) → G db db') →
  guarantees allowed R G (atomically m).
Proof.
  intros HG Hm. apply guarantees_access. intros i db _.
  destruct (fault i); [apply HG|]. destruct (m db) as [db' [a|e]] eqn:Hdb; [by eapply Hm|apply HG].
Qed.

Lemma guarantees_time_Now (G : RegistryDb → RegistryDb → Prop) :
  (∀ db, G db db) → guarantees allowed R G time_Now.
Proof. intros HG. by apply guarantees_access. Qed.
Lemma guarantees_newRandomID (G : RegistryDb → RegistryDb → Prop) :
  (∀ db, G db db) → guarantees allowed R G newRandomID.
Proof. intros HG. by apply guarantees_access. Qed.
Lemma guarantees_read {A} (G : RegistryDb → RegistryDb → Prop) (f : RegistryDb → result goerr A) :
  (∀ db, G db db) → guarantees allowed R G (atomically (go_read f)).
Proof. intros HG. apply guarantees_atomically; [done|]. intros db db' a [= <- _]. done. Qed.
Lemma guarantees_ret {A} (G : RegistryDb → RegistryDb → Prop) (a : A) : guarantees allowed R G (Ret a).
Proof. done. Qed.
Lemma guarantees_grpc {A} G (p : attempt A) : guarantees allowed R G p → guarantees allowed R G (grpc p).
Proof. intros Hp. by apply guarantees_bind. Qed.

Notation ok p d := (guarantees allowed R (effect p d)).

(** Splits a program into its accesses, and closes those that only read. *)
Ltac accesses :=
  cbn zeta;
  lazymatch goal with
  | |- guarantees _ _ _ (Ret _) => apply guarantees_ret
  | |- guarantees _ _ _ (bind_ok _ _) => apply guarantees_bind_ok; [accesses|intros ?; accesses]
  | |- guarantees _ _ _ (bind _ _) => apply guarantees_bind; [accesses|intros ?; accesses]
  | |- guarantees _ _ _ (grpc _) => apply guarantees_grpc; accesses
  | |- guarantees _ _ _ (for_each _ _) => apply guarantees_for_each; intros ?; accesses
  | |- guarantees _ _ _ (if ?b then _ else _) => destruct b eqn:?; accesses
  | |- guarantees _ _ _ (match ?o with Some _ => _ | None => _ end) => destruct o eqn:?; accesses
  | |- guarantees _ _ _ ((λ _, _) _) => cbv beta; accesses
  | |- _ => try first
      [ apply guarantees_time_Now; by constructor | apply guarantees_newRandomID; by constructor
      | apply guarantees_read; by constructor | solve [eauto with effects] ]
  end.

Lemma update_and_get_ok p d id f : keeps_policy f → ok p d (update_and_get id f).
Proof.
  intros Hf. unfold update_and_get. accesses.
  apply guarantees_atomically; [constructor|]. intros db db' n. rewrite update_device_alter.
  intros [= <- _]. by constructor.
Qed.

Lemma UpdateHeartbeat_ok p d input : ok p d (UpdateHeartbeat input).
Proof. unfold UpdateHeartbeat. accesses; apply update_and_get_ok, keeps_heartbeat. Qed.
Lemma UpdateSyncState_ok p d input : ok p d (UpdateSyncState input).
Proof. unfold UpdateSyncState. accesses; apply update_and_get_ok, keeps_sync. Qed.
Lemma UpdateMountState_ok p d input : ok p d (UpdateMountState input).
Proof. unfold UpdateMountState. accesses; apply update_and_get_ok, keeps_mount. Qed.

Lemma MarkPolicyPulled_ok d id : ok true d (MarkPolicyPulled id).
Proof.
  unfold MarkPolicyPulled. accesses. apply guarantees_atomically; [constructor|].
  intros db db' n. rewrite update_device_alter. intros [= <- _]. by constructor.
Qed.

Lemma Register_ok p d input : i_RequiresPolicyPull input = true → ok p d (Register input).
Proof.
  intros Hpull. unfold Register. accesses. apply bool_decide_eq_false in Heqb.
  apply guarantees_atomically; [constructor|].
  intros db db' u [[Hn ->]|(r & Hr & ->)]%upsert_device_Ok.
  - constructor; [by apply trimmed_key| |done]. split_and!; simpl.
    + by rewrite Hpull.
    + by eexists.
    + apply wrap_int64_range.
  - econstructor; [by eexists|done].
Qed.

Lemma UpsertPolicy_ok p d input : ok p d (UpsertPolicy input).
Proof.
  unfold UpsertPolicy. accesses. apply guarantees_atomically; [constructor|]. intros db db' u.
  intros (db1 & u1 & [= <- _] & [Hd ->]%require_pull_tx_Ok)%go_bind_Ok.
  apply (E_policy _ _ db _ (Some _)); [|done]. split; [apply wrap_int64_range|].
  intros q [= <-]. split; [done|by eexists].
Qed.

Lemma ResetPolicy_ok p d id revision : ok p d (ResetPolicy id revision).
Proof.
  unfold ResetPolicy. accesses. apply guarantees_atomically; [constructor|]. intros db db' u.
  intros (db1 & u1 & [= <- _] & [Hd ->]%require_pull_tx_Ok)%go_bind_Ok.
  apply (E_policy _ _ db _ None); [|done]. by split; [apply wrap_int64_range|].
Qed.

Lemma guarantees_random {A} (G : RegistryDb → RegistryDb → Prop) (k : string → attempt A) :
  (∀ db, G db db) → (∀ z, guarantees allowed R G (k (hex_word 16 z))) →
  guarantees allowed R G (ok! id := newRandomID in k id).
Proof.
  intros HG Hk w i w1 _ _. cbn -[hex_word]. split; [apply HG|].
  destruct (entropy i) as [z|e]; [apply Hk|done].
Qed.

Lemma EnqueueAction_ok p d input : ok p d (EnqueueAction input).
Proof.
  unfold EnqueueAction. cbn zeta. destruct (_ || _) eqn:Heqb; [done|].
  apply guarantees_random; [constructor|]. intros z. pose proof (hex_key z) as Hkey.
  revert Hkey. generalize (hex_word 16 z). intros a Hkey. accesses.
  apply orb_false_elim in Heqb as [Hd Ht].
  apply bool_decide_eq_false in Hd, Ht. apply guarantees_atomically; [constructor|]. intros db db' n.
  intros (db1 & u1 & Hrep & Hins)%go_bind_Ok. 
  apply go_bind_Ok in Hins as (db2 & u2 & Hins & Hupd).
  rewrite update_device_alter in Hupd. injection Hupd as <- _.
  assert (t_action db !! a = None ∧ db2 = set_action (λ m, <[a := mkActionRow (TrimSpace (aq_DeviceID input))
     (TrimSpace (aq_ActionType input)) (TrimSpace (aq_PayloadJSON input)) "pending" a0 0 0]>
          (if aq_ReplaceSimilarPending input
           then update_actions (similar_pending (TrimSpace (aq_DeviceID input)) (TrimSpace (aq_ActionType input)))
             (cancelled a0) m else m)) db) as [Hnone ->]; [|apply E_enqueue; [exact Hkey|by apply trimmed_key|by apply trimmed_key|exact Hnone]].
  unfold insert_action in Hins. destruct (aq_ReplaceSimilarPending input); injection Hrep as <- _; simpl in Hins.
  - unfold update_actions at 1 in Hins. rewrite map_lookup_imap in Hins.
    destruct (t_action db !! a); simpl in Hins; [done|]. by injection Hins as <-.
  - destruct (t_action db !! a); [done|]. by injection Hins as <-.
Qed.

Lemma MarkActionsDelivered_ok p ids : ok p true (MarkActionsDelivered ids).
Proof.
  unfold MarkActionsDelivered. accesses. apply guarantees_atomically; [constructor|].
  intros db db' u [= <- _]. by constructor.
Qed.

Lemma InsertDiagnostic_ok p d input :
  0 < keep → ok p d (InsertDiagnostic input keep).
Proof.
  intros Hk. unfold InsertDiagnostic. accesses; apply bool_decide_eq_false in Heqb;
    (apply guarantees_atomically; [constructor|]); intros db db' n;
    intros (db1 & u1 & Hins & (db2 & u2 & [= <- _] & Hupd)%go_bind_Ok)%go_bind_Ok;
    rewrite update_device_alter in Hupd; injection Hupd as <- _;
    unfold insert_diagnostic in Hins; destruct (bind_blob _); try done;
    destruct (t_diagnostic db !! a) eqn:Ha; try done; injection Hins as <-;
    rewrite (proj2 (Z.leb_gt _ _)) by lia;
    match goal with |- effect _ _ _ (set_device _ (set_diagnostic _ (set_diagnostic <[_ := ?g]> _))) =>
      apply (E_diagnostic _ _ db a g) end; try done; by apply trimmed_key.
Qed.

Lemma GetPolicy_ok p d id : ok p d (GetPolicy id).
Proof. unfold GetPolicy. accesses. Qed.
Lemma Get_ok p d id : ok p d (Get id).
Proof. unfold Get. accesses. Qed.
Lemma clientActionToProto_ok p d a b : ok p d (clientActionToProto a b).
Proof. unfold clientActionToProto. accesses. Qed.
Lemma listActionsByStatus_ok p d id sts limit : ok p d (listActionsByStatus id sts limit).
Proof. unfold listActionsByStatus. accesses. Qed.
Lemma ListDiagnostics_ok p d id limit : ok p d (ListDiagnostics id limit).
Proof. unfold ListDiagnostics. accesses. Qed.

Lemma List_ok p d : ok p d List.
Proof. unfold List. accesses. Qed.

#[local] Hint Resolve UpdateHeartbeat_ok UpdateSyncState_ok UpdateMountState_ok MarkPolicyPulled_ok
  UpsertPolicy_ok ResetPolicy_ok EnqueueAction_ok MarkActionsDelivered_ok GetPolicy_ok Get_ok
  clientActionToProto_ok listActionsByStatus_ok ListDiagnostics_ok List_ok : effects.

(** ** The handlers *)

Context (config : ControlPlaneConfig).

Lemma effective_config_ok p d id : ok p d (effective_config config id).
Proof. unfold effective_config. accesses. Qed.
#[local] Hint Resolve effective_config_ok : effects.

Definition is_config (req : Request) : bool := match req with RqConfig _ => true | _ => false end.
Definition is_heartbeat (req : Request) : bool := match req with RqHeartbeat _ => true | _ => false end.

(** Every access of every request has an effect that its handler may have. *)
Lemma serve_effects req :
  0 < keep → keep = cc_DiagnosticsKeepLatest config →
  ok (is_config req) (is_heartbeat req) (serve config req).
Proof.
  intros Hk Hkeep. destruct req as [r|r|id|r|r|r| |id|r|r]; unfold serve, answer, is_config, is_heartbeat;
    (apply guarantees_bind_ok; [|done]).
  - unfold RegisterDevice, with_device. accesses. by apply Register_ok.
  - unfold Heartbeat, with_device, ListPendingActions. accesses.
  - unfold GetAssignedConfig, with_device. accesses.
  - unfold ReportSyncState, with_device. accesses.
  - unfold ReportMountState, with_device. accesses.
  - unfold UploadDiagnostics, with_device. rewrite <- Hkeep. accesses. by apply InsertDiagnostic_ok.
  - unfold ListDevices. accesses.
  - unfold GetDeviceDetail, with_device, ListActiveActions. accesses.
  - unfold UpdateDevicePolicy, with_device. accesses.
  - unfold RequestClientAction, with_device. accesses.
Qed.

End effects.
End Effects.
