(* ===== verification/RegistryDelivery.v ===== *)
(** * What reaches the devices

    Two promises of the control plane, for any interleaving of requests.  A
    policy that the tables no longer mark for pulling has been, or is being,
    answered to its device in its current form; an action that the tables hold
    as delivered was answered to its device by a heartbeat. *)

From S2P Require Import Prelude GoStrings JsonStrings StringLists Threads DeviceRegistry ControlPlane RegistryEffects RegistryInvariant.
Open Scope string_scope.
Open Scope Z_scope.
Open Scope list_scope.

Module Delivery.
Import Registry Control Effects Invariant.

(** ** Rules for the operations *)

Section rules.
Context (allowed : Outside → Prop) (R : RegistryDb → RegistryDb → Prop).

(** What an atomic access may come to. *)
Definition outcome {A} (i : Outside) (m : sql A) (db db' : RegistryDb) (r : result goerr A) : Prop :=
  match fault i with
  | Some e => db' = db ∧ r = Err e
  | None => match m db with
            | (db1, Ok a) => db' = db1 ∧ r = Ok a
            | (_, Err e) => db' = db ∧ r = Err e
            end
  end.

Lemma wp_atomically {A B} (Φ : Outside → RegistryDb → RegistryDb → program B → Prop) Q w (m : sql A)
    (k : result goerr A → program B) :
  (∀ i w1 w' r, allowed i → R w w1 → outcome i m w1 w' r → Φ i w1 w' (k r) ∧ wp allowed R Φ Q w' (k r)) →
  wp allowed R Φ Q w (bind (atomically m) k).
Proof.
  intros Hm i w1 Hi HR. specialize (Hm i w1). unfold outcome in Hm. cbn.
  destruct (fault i); [by apply Hm|]. destruct (m w1) as [db' [a|e]]; by apply Hm.
Qed.

Lemma wp_grpc {A B} (Φ : Outside → RegistryDb → RegistryDb → handler B → Prop) Q w (p : attempt A)
    (k : A → handler B) :
  wp allowed R (λ i w w' r, Φ i w w' (bind_ok (grpc r) k))
    (λ w' r, match r with Ok a => wp allowed R Φ Q w' (k a) | Err e => Q w' (Err (toGrpcError e)) end) w p →
  wp allowed R Φ Q w (bind_ok (grpc p) k).
Proof.
  intros Hp. apply wp_bind_ok, wp_bind. eapply wp_mono; [| |exact Hp]; [done|].
  intros w' [a|e] Ha; exact Ha.
Qed.
End rules.

Section delivery.
Context `{GoUnicode} `{SqlDriver} (config : ControlPlaneConfig).
Hypothesis keep_pos : 0 < cc_DiagnosticsKeepLatest config.
Notation keep := (cc_DiagnosticsKeepLatest config).

Lemma serve_ok (allowed : Outside → Prop) R req :
  guarantees allowed R (effect keep (is_config req) (is_heartbeat req)) (serve config req).
Proof using keep_pos. by apply serve_effects. Qed.

(** ** Actions *)

(** A heartbeat of the action's device has answered with it. *)
Definition answered (req : Request) (id : string) (a : ActionRow) (p : handler Response) : Prop :=
  ∃ hb resp ca, req = RqHeartbeat hb ∧ TrimSpace (hb_DeviceID hb) = a_device_id a ∧
    p = Ret (Ok (RsHeartbeat resp)) ∧ ca ∈ hs_pending_action_details resp ∧
    ca_action_id ca = id ∧ ca_action_type ca = a_action_type a ∧ ca_payload_json ca = a_payload_json a ∧
    ca_status ca = "delivered".

Definition deliver_step (req : Request) (i : Outside) (w w' : RegistryDb) (p : handler Response) : Prop :=
  effect keep (is_config req) (is_heartbeat req) w w' ∧
  ∀ id a, registry_wf config w → t_action w' !! id = Some a → a_status a = "delivered" →
    t_action w !! id = Some a ∨ answered req id a p.

Lemma effect_no_deliver p db db' id a :
  effect keep p false db db' → t_action db' !! id = Some a → a_status a = "delivered" →
  t_action db !! id = Some a.
Proof.
  destruct 1; try done; intros Ha Hs; simpl in Ha.
  apply lookup_insert_Some in Ha as [(_ & <-)|[_ Ha]]; [done|]. destruct replace; [|done].
  rewrite lookup_update_actions in Ha. apply fmap_Some in Ha as (b & Hb & ->).
  by destruct (similar_pending _ _ _ _).
Qed.

Lemma elem_of_actions d sts limit db x :
  x ∈ take limit (actions_of d sts db) →
  t_action db !! x.1 = Some x.2 ∧ a_device_id x.2 = d ∧ a_status x.2 ∈ sts.
Proof.
  intros Hx%elem_of_take. destruct Hx as (n & Hx & _). apply list_elem_of_lookup_2 in Hx.
  unfold actions_of, sort_by in Hx. rewrite merge_sort_Permutation in Hx.
  apply list_elem_of_In, filter_In in Hx as [Hx Hs]. apply list_elem_of_In in Hx.
  destruct x as [id a]. apply elem_of_map_to_list in Hx. unfold has_status in Hs.
  apply andb_prop in Hs as [Hd Hs]. by apply bool_decide_eq_true in Hd, Hs.
Qed.

(** What a heartbeat answers of an action that it listed. *)
Definition details_of (action : DeviceActionRecord) (ca : ClientAction) : Prop :=
  ca_action_id ca = ar_ActionID action ∧ ca_action_type ca = ar_ActionType action ∧
  ca_payload_json ca = ar_PayloadJSON action ∧ ca_status ca = "delivered".

Lemma clientActionToProto_delivered allowed R action :
  reads allowed R (details_of action) (clientActionToProto action true).
Proof.
  unfold clientActionToProto. destruct (ar_DeliveredAtUnix action =? 0); intros w.
  - intros i w1 _ _. by split.
  - done.
Qed.

(** The handler after it has listed [actions]. *)
Lemma mark_answers hb w0 w next revision rows :
  (∀ x, x ∈ rows → t_action w0 !! x.1 = Some x.2 ∧ a_device_id x.2 = TrimSpace (hb_DeviceID hb)) →
  later w0 w → 
  wp (λ _, True) later (λ i w w' r, deliver_step (RqHeartbeat hb) i w w' (answer RsHeartbeat r))
    (λ _ _, True) w
    (let actions := map scan_action rows in
     do! actionDetails := for_each (λ action, clientActionToProto action true) actions in
     ok! _ := grpc (MarkActionsDelivered (map ar_ActionID actions)) in
     Ret (Ok {| hs_next_heartbeat_seconds := next; hs_policy_revision := revision;
                hs_pending_actions := map ar_ActionType actions;
                hs_pending_action_details := actionDetails |})).
Proof.
  intros Hrows Hlater. apply wp_bind.
  eapply (wp_reads _ _ _ (Forall2 details_of (map scan_action rows))).
  - apply reads_for_each. intros x _. apply clientActionToProto_delivered.
  - intros i w1 r. split; [constructor|]. by left.
  - intros w1 details Hw1 Hdet. apply wp_grpc. unfold MarkActionsDelivered.
    case_bool_decide as Hempty; [done|]. intros i w2 _ Hw2. cbn. split; [split; [constructor|by left]|].
    intros j w3 _ Hw3. destruct (fault j); (split; [|done]).
    { split; [constructor|by left]. }
    split; [by constructor|]. intros id a Hwf Ha Hs. simpl in Ha. rewrite lookup_update_actions in Ha.
    apply fmap_Some in Ha as (b & Hb & ->). destruct (listed_pending _ id b) eqn:Hl; [right|by left].
    apply listed_pending_true in Hl as [Hin Hp].
    apply list_elem_of_fmap in Hin as (id0 & -> & Hin). rewrite map_map in Hin.
    apply list_elem_of_fmap in Hin as ([id1 a0] & -> & Hin). simpl in *.
    destruct (Hrows _ Hin) as [Ha0 Hdev]. simpl in *.
    assert (later w0 w3) as Hl3 by (by do 3 (etrans; [eassumption|])).
    destruct (Hl3 _ _ Ha0) as (a1 & Ha1 & Hmoves).
    destruct (wf_action _ _ Hwf _ _ Ha1) as ([Hkey _] & _). rewrite Hkey in Hb |- *. simplify_eq.
    destruct (list_elem_of_lookup_1 rows _ Hin) as [k Hk].
    destruct (Forall2_lookup_l details_of (map scan_action rows) details k (scan_action (id1, a0)))
      as (ca & Hca & Hid & Hty & Hpay & Hst); [done|by rewrite list_lookup_fmap, Hk|].
    exists hb. eexists. exists ca. split_and!; [done| |done|by eapply list_elem_of_lookup_2|done|..].
    all: destruct Hmoves as [->|(_ & t & [-> | ->])]; done.
Qed.

Lemma no_deliver_ok req i w w' p :
  effect keep (is_config req) false w w' → deliver_step req i w w' p.
Proof.
  intros He. split.
  - destruct (is_heartbeat req); [|done]. destruct He; try discriminate; 
      [apply E_none|by apply E_report|by apply E_register|by apply E_reregister|by apply E_pulled
      |by apply E_policy|by apply E_enqueue|by apply E_diagnostic].
  - intros id a _ Ha Hs. left. by eapply effect_no_deliver.
Qed.

Lemma heartbeat_delivers hb w :
  wp (λ _, True) later (deliver_step (RqHeartbeat hb)) (λ _ _, True) w (serve config (RqHeartbeat hb)).
Proof.
  apply wp_bind_ok. eapply wp_mono with (Q := λ _ _, True); [intros i w1 w2 r _ HΦ; exact HΦ|intros w' [] _; exact I|].
  unfold Heartbeat, with_device. cbn zeta. case_bool_decide as Hblank; [done|].
  apply wp_grpc. eapply wp_guaranteed; [apply (UpdateHeartbeat_ok keep _ _ false false)|..].
  - intros i w1 w2 r _ He. by apply no_deliver_ok.
  - clear w. intros w [record|e]; [|done]. unfold ListPendingActions, listActionsByStatus. cbn zeta.
    rewrite TrimSpace_idem, bool_decide_false by done.
    apply wp_grpc. intros i w1 _ Hw1. cbn -[actions_of take].
    destruct (fault i); (split; [apply no_deliver_ok; constructor|]); [done|].
    apply (mark_answers hb w1 w1); [|done]. intros x Hx. by destruct (elem_of_actions _ _ _ _ _ Hx) as (? & ? & _).
Qed.

Lemma serve_delivers req w : wp (λ _, True) later (deliver_step req) (λ _ _, True) w (serve config req).
Proof using keep_pos.
  destruct req as [r|hb|id|r|r|r| |id|r|r]; [|apply heartbeat_delivers|..];
    (eapply wp_guaranteed; [apply serve_ok| |done]); intros i w1 w2 p _ He; by apply no_deliver_ok.
Qed.

(** C11: In every reachable state of the control plane, whatever requests
    interleave and whatever fails, an action that the tables hold as delivered
    has been answered, as delivered and with its type and payload, by a
    heartbeat of its device. *)
Theorem delivered_action_answered σ id a :
  reachable (serve config) (λ _, True) empty_db σ →
  t_action (store σ) !! id = Some a → a_status a = "delivered" →
  ∃ n req p, requests σ !! n = Some (req, p) ∧ answered req id a p.
Proof using keep_pos.
  intros Hσ. revert id a. cut (registry_wf config (store σ) ∧ ∀ id a,
    t_action (store σ) !! id = Some a → a_status a = "delivered" →
    ∃ n req p, requests σ !! n = Some (req, p) ∧ answered req id a p); [by intros [_ ?]|].
  revert σ Hσ. refine (reachable_invariant (serve config) (λ _, True) empty_db later deliver_step _ _
    (λ σ, registry_wf config (store σ) ∧ _) _ _ _).
  - intros req i w w' r _ [He _]. by eapply effect_later.
  - apply serve_delivers.
  - split; [by apply empty_registry_wf|]. intros id a Ha. cbn in Ha. by apply lookup_empty_Some in Ha.
  - simpl. intros w ts req [Hwf IH]. split; [done|]. intros id a Ha Hs.
    destruct (IH id a Ha Hs) as (n & req' & p & Hn & Hans). exists n, req', p.
    split; [by apply lookup_app_l_Some|done].
  - simpl. intros w ts n req p i w' p' [Hwf IH] Hn _ Hstep [He Hd].
    split; [by eapply effect_wf|]. intros id a Ha Hs.
    destruct (Hd id a Hwf Ha Hs) as [Hold|Hans].
    + destruct (IH id a Hold Hs) as (m & req' & q & Hm & Hans).
      destruct (decide (m = n)) as [->|Hne].
      * simplify_eq. by destruct Hans as (? & ? & ? & _ & _ & -> & _).
      * exists m, req', q. by rewrite list_lookup_insert_ne.
    + exists n, req, p'. split; [|done]. rewrite list_lookup_insert_eq; [done|]. by eapply lookup_lt_Some.
Qed.

(** ** Policies *)

(** A GetAssignedConfig request that has cleared the mark and reads the policy. *)
Definition reading (id : string) (revision : Z) : handler Response :=
  answer RsConfig (
    ok! assigned := effective_config config (TrimSpace id) in
    Ret (Ok (mkAssignedResponse assigned revision))).

(** It is about to read the policy, or has answered with the current one. *)
Definition policy_served (db : RegistryDb) (d : string) (req : Request) (p : handler Response) : Prop :=
  ∃ id revision, req = RqConfig id ∧ TrimSpace id = d ∧
    (p = reading id revision ∨
     ∃ c, p = Ret (Ok (RsConfig (mkAssignedResponse c revision))) ∧ current_config config d db = Ok c).

Definition pull_step (req : Request) (i : Outside) (w w' : RegistryDb) (p : handler Response) : Prop :=
  effect keep (is_config req) (is_heartbeat req) w w' ∧
  ∀ d r, t_device w' !! d = Some r → requires_policy_pull r = 0 →
    (∃ r0, t_device w !! d = Some r0 ∧ requires_policy_pull r0 = 0 ∧ t_policy w' !! d = t_policy w !! d) ∨
    ∃ id revision, req = RqConfig id ∧ TrimSpace id = d ∧ p = reading id revision.

(** Only the effect of MarkPolicyPulled clears a mark, and a change of the
    policy sets it. *)
Lemma effect_no_pull p db db' d r :
  effect keep false p db db' → t_device db' !! d = Some r → requires_policy_pull r = 0 →
  ∃ r0, t_device db !! d = Some r0 ∧ requires_policy_pull r0 = 0 ∧ t_policy db' !! d = t_policy db !! d.
Proof.
  destruct 1 as [|id f Hf|id x Hk (Hpull & Hm & Hi) Hn|id x r0 Hm Hr|id t [=]|id o rev t Ho [r0 Hr]
    |id dev ty payload t replace Hid Hdev Hty Hn|ids t _|id g t Hk Hn]; simpl; intros Hd Hz; [by eauto| | | | | | |].
  - apply lookup_alter_Some in Hd as [(<- & r0 & Hr0 & ->)|[_ Hd]]; [|by eauto].
    destruct (Hf r0) as (_ & Hp & _). rewrite Hp in Hz. eauto.
  - apply lookup_insert_Some in Hd as [(<- & <-)|[_ Hd]]; [congruence|by eauto].
  - apply lookup_insert_Some in Hd as [(<- & <-)|[_ Hd]]; by eauto.
  - apply lookup_alter_Some in Hd as [(<- & r1 & Hr1 & ->)|[Hne Hd]]; [done|].
    rewrite lookup_partial_alter_ne by done. eauto.
  - apply lookup_alter_Some in Hd as [(<- & r1 & Hr1 & ->)|[_ Hd]]; by eauto.
  - eauto.
  - apply lookup_alter_Some in Hd as [(<- & r1 & Hr1 & ->)|[_ Hd]]; by eauto.
Qed.

Lemma no_pull_ok req i w w' p :
  effect keep false (is_heartbeat req) w w' → pull_step req i w w' p.
Proof.
  intros He. split.
  - destruct (is_config req); [|done]. destruct He; try discriminate;
      [apply E_none|by apply E_report|by apply E_register|by apply E_reregister
      |by apply E_policy|by apply E_enqueue|by apply E_deliver|by apply E_diagnostic].
  - intros d r Hd Hz. left. by eapply effect_no_pull.
Qed.

Lemma config_pulls allowed id w :
  wp allowed (λ _ _, True) (pull_step (RqConfig id)) (λ _ _, True) w (serve config (RqConfig id)).
Proof.
  apply wp_bind_ok. eapply wp_mono with (Q := λ _ _, True);
    [intros i w1 w2 r _ HΦ; exact HΦ|intros w' [] _; exact I|].
  unfold GetAssignedConfig, with_device. cbn zeta. case_bool_decide as Hblank; [done|].
  apply wp_grpc. eapply wp_guaranteed; [apply (Get_ok keep _ _ false false)|..].
  { intros i w1 w2 r _ He. by apply no_pull_ok. }
  clear w. intros w [record|e]; [|done]. apply wp_grpc.
  intros i w1 _ _. cbn -[reading update_device]. split; [apply no_pull_ok; constructor|].
  intros j w2 _ _. destruct (fault j); [by split; [apply no_pull_ok; constructor|]|].
  rewrite update_device_alter. case_bool_decide as Hd; cbn -[reading].
  2:{ split; [|done]. split; [by constructor|]. intros d r Hr Hz. left. cbn [set_device t_device] in Hr; rewrite TrimSpace_idem in Hr.
      apply lookup_alter_Some in Hr as [(<- & r0 & Hr0 & _)|[_ Hr]]; [|by eauto].
      destruct Hd. rewrite TrimSpace_idem. eauto. }
  split.
  - split; [by constructor|]. intros d r Hr Hz. cbn [set_device t_device] in Hr; rewrite TrimSpace_idem in Hr.
    apply lookup_alter_Some in Hr as [(<- & r0 & Hr0 & _)|[_ Hr]]; [right|left; by eauto].
    by exists id, (PolicyRevision record).
  - change (wp allowed (λ _ _, True) (λ i w w' r, pull_step (RqConfig id) i w w' (answer RsConfig r))
      (λ _ _, True) (set_device (alter (λ r, with_policy_state (policy_revision r) 0 (now i) r) (TrimSpace (TrimSpace id))) w2)
      (ok! assigned := effective_config config (TrimSpace id) in
       Ret (Ok (mkAssignedResponse assigned (PolicyRevision record))))).
    eapply wp_guaranteed; [apply guarantees_bind_ok; [apply (effective_config_ok keep _ _ config false false)|done]|..|done].
    intros k w3 w4 r _ He. by apply no_pull_ok.
Qed.

Lemma serve_pulls allowed req w :
  wp allowed (λ _ _, True) (pull_step req) (λ _ _, True) w (serve config req).
Proof using keep_pos.
  destruct req as [r|hb|id|r|r|r| |id|r|r]; [| |apply config_pulls|..];
    (eapply wp_guaranteed; [apply serve_ok| |done]); intros i w1 w2 p _ He; by apply no_pull_ok.
Qed.

(** The read that ends the request, when the database does not fail. *)
Lemma reading_step id revision i w w' p :
  fault i = None → registry_wf config w → step i w (reading id revision) = Some (w', p) →
  w' = w ∧ ∃ c, p = Ret (Ok (RsConfig (mkAssignedResponse c revision))) ∧
    current_config config (TrimSpace id) w = Ok c.
Proof.
  intros Hi Hwf. unfold reading. cbn. rewrite Hi, TrimSpace_idem. unfold current_config.
  destruct (t_policy w !! TrimSpace id) as [row|] eqn:Hrow.
  - destruct (wf_policy _ _ Hwf _ _ Hrow) as (_ & _ & _ & l & Hl).
    unfold scanPolicy. rewrite Hl, unmarshal_marshal. cbn. intros [= <- <-]. eauto.
  - cbn. intros [= <- <-]. eauto.
Qed.

(** C10: In every reachable state of the control plane, whatever requests
    interleave, as long as the database does not fail: a device that is not
    marked for pulling its policy has been answered its current configuration
    by GetAssignedConfig, or a request is about to read it. *)
Theorem policy_change_served σ d r :
  reachable (serve config) (λ i, fault i = None) empty_db σ →
  t_device (store σ) !! d = Some r → requires_policy_pull r = 0 →
  ∃ n req p, requests σ !! n = Some (req, p) ∧ policy_served (store σ) d req p.
Proof using keep_pos.
  intros Hσ. revert d r. cut (registry_wf config (store σ) ∧ ∀ d r,
    t_device (store σ) !! d = Some r → requires_policy_pull r = 0 →
    ∃ n req p, requests σ !! n = Some (req, p) ∧ policy_served (store σ) d req p); [by intros [_ ?]|].
  revert σ Hσ. refine (reachable_invariant (serve config) (λ i, fault i = None) empty_db (λ _ _, True) pull_step
    _ _ (λ σ, registry_wf config (store σ) ∧ _) _ _ _).
  - by split.
  - done.
  - apply serve_pulls.
  - split; [by apply empty_registry_wf|]. intros d r Hd. cbn in Hd. by apply lookup_empty_Some in Hd.
  - simpl. intros w ts req [Hwf IH]. split; [done|]. intros d r Hd Hz.
    destruct (IH d r Hd Hz) as (n & req' & p & Hn & Hs). exists n, req', p.
    split; [by apply lookup_app_l_Some|done].
  - simpl. intros w ts n req p i w' p' [Hwf IH] Hn Hi Hstep [He Hd].
    split; [by eapply effect_wf|]. intros d r Hr Hz.
    destruct (Hd d r Hr Hz) as [(r0 & Hr0 & Hz0 & Hpol)|(id & rev & -> & Hid & ->)].
    + destruct (IH d r0 Hr0 Hz0) as (m & req' & q & Hm & id & rev & -> & Hid & Hq).
      destruct (decide (m = n)) as [->|Hne].
      * simplify_eq. destruct Hq as [->|(c & -> & _)]; [|done].
        destruct (reading_step id rev i w w' p') as (-> & c & -> & Hc); [done..|].
        exists n, (RqConfig id). eexists. rewrite list_lookup_insert_eq by by eapply lookup_lt_Some.
        split; [done|]. exists id, rev. split_and!; [done..|right]. by exists c.
      * exists m, (RqConfig id), q. rewrite list_lookup_insert_ne by done. split; [done|].
        exists id, rev. split_and!; [done..|]. destruct Hq as [->|(c & -> & Hc)]; [by left|right].
        exists c. split; [done|]. unfold current_config in *. by rewrite Hpol.
    + exists n, (RqConfig id), (reading id rev).
      rewrite list_lookup_insert_eq by by eapply lookup_lt_Some. split; [done|].
      exists id, rev. split_and!; [done..|by left].
Qed.
End delivery.
End Delivery.
