(* ===== verification/RegistryContracts.v ===== *)
(** * Contracts of the control plane

    What a request does when it runs alone and the database does not fail:
    exactly the change of the tables and the answer, on every branch. *)

From S2P Require Import Prelude GoStrings JsonStrings StringLists Threads DeviceRegistry ControlPlane RegistryEffects RegistryInvariant.
From Stdlib Require Import Ascii.
Open Scope string_scope.
Open Scope Z_scope.
Open Scope list_scope.

(** * Orders of query results

    Byte order of strings (the collation BINARY of SQLite), the order
    "newest first, then by descending key" of two queries of the device
    registry, and what LIMIT takes of a sorted result. *)

(** ** Strings *)

Lemma string_compare_trans s t u :
  String.compare s t ≠ Gt → String.compare t u ≠ Gt → String.compare s u ≠ Gt.
Proof.
  revert t u. induction s as [|a s IH]; intros [|b t] [|c u]; simpl; try done.
  unfold Ascii.compare.
  destruct (N.compare_spec (N_of_ascii a) (N_of_ascii b)) as [Hab|Hab|Hab];
    destruct (N.compare_spec (N_of_ascii b) (N_of_ascii c)) as [Hbc|Hbc|Hbc];
    destruct (N.compare_spec (N_of_ascii a) (N_of_ascii c)) as [Hac|Hac|Hac];
    try done; try (exfalso; lia). apply IH.
Qed.

Lemma string_leb_spec s t : String.leb s t = true ↔ String.compare s t ≠ Gt.
Proof. unfold String.leb. by destruct (String.compare s t). Qed.

Lemma string_leb_trans s t u : String.leb s t = true → String.leb t u = true → String.leb s u = true.
Proof. rewrite !string_leb_spec. apply string_compare_trans. Qed.

(** ** Sorted results *)

Lemma sort_by_sorted {A} (leb : A → A → bool) (l : list A) :
  (∀ x y z, leb x y = true → leb y z = true → leb x z = true) →
  (∀ x y, leb x y = true ∨ leb y x = true) →
  StronglySorted (λ x y, leb x y = true) (sort_by leb l).
Proof.
  intros Ht Ho. unfold sort_by. apply StronglySorted_merge_sort; [intros x y z; apply Ht|intros x y; apply Ho].
Qed.

Lemma sort_by_perm {A} (leb : A → A → bool) (l : list A) : sort_by leb l ≡ₚ l.
Proof. unfold sort_by. apply merge_sort_Permutation. Qed.

(** An order that tells the elements apart has one sorted list of them. *)
Lemma sort_by_unique {A} (leb : A → A → bool) (l1 l2 : list A) :
  (∀ x y z, leb x y = true → leb y z = true → leb x z = true) →
  (∀ x y, leb x y = true ∨ leb y x = true) →
  (∀ x y, x ∈ l1 → y ∈ l1 → leb x y = true → leb y x = true → x = y) →
  l1 ≡ₚ l2 → StronglySorted (λ x y, leb x y = true) l2 → sort_by leb l1 = l2.
Proof.
  intros Htrans Htotal Hanti Hperm Hsorted. pose proof (sort_by_perm leb l1) as Hm.
  eapply (StronglySorted_unique_strong (λ x y, leb x y = true)).
  - intros x y Hx Hy. rewrite Hm in Hx. rewrite <- Hperm in Hy. by apply Hanti.
  - by apply sort_by_sorted.
  - done.
  - by rewrite Hm.
Qed.

Lemma StronglySorted_drop {A} (R : A → A → Prop) n l : StronglySorted R l → StronglySorted R (drop n l).
Proof.
  revert l. induction n as [|n IH]; intros [|x l]; simpl; try done.
  intros Hs. apply IH. by inversion Hs.
Qed.

(** An element is among the first [k] of a sorted list iff fewer than [k] others
    come before it. *)
Lemma take_rank {A} `{EqDecision A} (leb : A → A → bool) (l : list A) k x :
  NoDup l → StronglySorted (λ x y, leb x y = true) l →
  (∀ x y, x ∈ l → y ∈ l → leb x y = true → leb y x = true → x = y) →
  x ∈ take k l ↔ x ∈ l ∧ (length (filter (λ y, y ≠ x ∧ leb y x = true) l) < k)%nat.
Proof.
  revert k. induction l as [|y l IH]; intros k Hnd Hs Hanti.
  { rewrite take_nil. split; [by intros ?%not_elem_of_nil|by intros [?%not_elem_of_nil _]]. }
  apply NoDup_cons in Hnd as [Hy Hnd]. apply StronglySorted_inv in Hs as [Hs Hall].
  rewrite Forall_forall in Hall. specialize (IH (pred k) Hnd Hs).
  assert (∀ x0 y0, x0 ∈ l → y0 ∈ l → leb x0 y0 = true → leb y0 x0 = true → x0 = y0) as Hanti'.
  { intros a b Ha Hb. apply Hanti; by apply list_elem_of_further. }
  specialize (IH Hanti').
  destruct k as [|k]; simpl in *.
  { split; [by intros ?%not_elem_of_nil|]. intros [_ ?]. lia. }
  rewrite filter_cons, elem_of_cons, elem_of_cons. destruct (decide (x = y)) as [->|Hxy].
  - split; [intros _|by left]. split; [by left|]. rewrite decide_False by naive_solver.
    assert (filter (λ z, z ≠ y ∧ leb z y = true) l = []) as ->; [|simpl; lia].
    destruct (filter _ l) as [|z fl] eqn:Hf; [done|]. exfalso.
    assert (z ∈ z :: fl) as Hz by apply list_elem_of_here. rewrite <- Hf in Hz.
    apply list_elem_of_filter in Hz as [[Hne Hzy] Hz]. apply Hne.
    apply Hanti; [by apply list_elem_of_further|apply list_elem_of_here|done|by apply Hall].
  - split.
    + intros [?|Hin]; [done|]. apply IH in Hin as [Hin Hlen]. split; [by right|].
      rewrite decide_True by (split; [done|by apply Hall]). simpl. lia.
    + intros [[?|Hin] Hlen]; [done|]. right. apply IH. split; [done|].
      rewrite decide_True in Hlen by (split; [done|by apply Hall]). simpl in Hlen. lia.
Qed.

(** ** Newest first *)

Section newest.
Context {A : Type} (time : A → Z).

Definition newest_leb (a b : string * A) : bool :=
  if time a.2 =? time b.2 then String.leb b.1 a.1 else time b.2 <? time a.2.

Lemma newest_leb_spec a b :
  newest_leb a b = true ↔ time b.2 < time a.2 ∨ (time a.2 = time b.2 ∧ String.leb b.1 a.1 = true).
Proof. unfold newest_leb. destruct (Z.eqb_spec (time a.2) (time b.2)); rewrite ?Z.ltb_lt; lia || naive_solver lia. Qed.

Lemma newest_trans a b c : newest_leb a b = true → newest_leb b c = true → newest_leb a c = true.
Proof.
  rewrite !newest_leb_spec. intros [H1|[H1 H1']] [H2|[H2 H2']]; [left; lia..|].
  right. split; [lia|by eapply string_leb_trans].
Qed.

Lemma newest_total a b : newest_leb a b = true ∨ newest_leb b a = true.
Proof.
  rewrite !newest_leb_spec. destruct (Z.lt_trichotomy (time a.2) (time b.2)) as [?|[?|?]]; [auto| |auto].
  destruct (String.leb_total b.1 a.1); auto.
Qed.

Lemma newest_antisym (m : gmap string A) a b :
  m !! a.1 = Some a.2 → m !! b.1 = Some b.2 → newest_leb a b = true → newest_leb b a = true → a = b.
Proof.
  rewrite !newest_leb_spec. intros Ha Hb [H1|[H1 H1']] [H2|[H2 H2']]; [lia..|].
  destruct a as [i x], b as [j y]; simpl in *.
  assert (i = j) as -> by by apply String.leb_antisym. congruence.
Qed.
End newest.

Module Contracts.
Import Registry Control Effects Invariant.

(** ** Running the accesses *)

Section running.
Context (e : nat → Outside) (no_fault : ∀ n, fault (e n) = None).

Lemma run_atomically {A B} n (m : sql A) (k : result goerr A → program B) db :
  run e n (bind (atomically m) k) db =
    match m db with
    | (db', Ok a) => run e (S n) (k (Ok a)) db'
    | (_, Err er) => run e (S n) (k (Err er)) db
    end.
Proof using no_fault. cbn. rewrite no_fault. by destruct (m db) as [db' [a|er]]. Qed.

Lemma run_grpc {A B} n (p : attempt A) (k : A → handler B) db :
  run e n (bind_ok (grpc p) k) db =
    let '(n', db', r) := run e n p db in
    match r with
    | Ok a => run e n' (k a) db'
    | Err er => (n', db', Err (toGrpcError er))
    end.
Proof. unfold bind_ok, grpc. rewrite !run_bind. by destruct (run e n p db) as [[n' db'] [a|er]]. Qed.

Lemma run_read {A} n (f : RegistryDb → result goerr A) db :
  run e n (atomically (go_read f)) db = (S n, db, f db).
Proof using no_fault. cbn. rewrite no_fault. by destruct (f db). Qed.

Lemma run_sql {A} n (m : sql A) db :
  run e n (atomically m) db = match m db with (db', Ok a) => (S n, db', Ok a) | (_, Err er) => (S n, db, Err er) end.
Proof using no_fault. cbn. rewrite no_fault. by destruct (m db) as [db' [a|er]]. Qed.
End running.

Section contracts.
Context `{GoUnicode} `{SqlDriver} (config : ControlPlaneConfig).
Context (e : nat → Outside) (no_fault : ∀ n, fault (e n) = None).

Lemma scan_wf db d r : registry_wf config db → t_device db !! d = Some r →
  ∃ record, scanDeviceRecord d r = Ok record ∧ PolicyRevision record = wrap_uint64 (policy_revision r) ∧
    HeartbeatIntervalSeconds record = wrap_uint32 (heartbeat_interval_seconds r) ∧
    RequiresPolicyPull record = flag (requires_policy_pull r) ∧
    AssignedDeviceLabel record = assigned_device_label r.
Proof.
  intros Hwf Hr. destruct (wf_device _ _ Hwf _ _ Hr) as (_ & _ & (l & Hl) & _).
  unfold scanDeviceRecord. rewrite Hl, unmarshal_marshal. by eexists.
Qed.

Lemma run_Get n d db : registry_wf config db → TrimSpace d = d →
  run e n (Get d) db = (S n, db,
    match t_device db !! d with
    | Some r => scanDeviceRecord d r
    | None => Err (ErrSentinel ErrNotExist)
    end).
Proof using no_fault. intros Hwf Hd. unfold Get. rewrite run_read by done. by rewrite Hd. Qed.

(** ** UpdateDevicePolicy *)

Definition utf8_roots (c : AssignedConfig) : AssignedConfig :=
  mkAssigned (ac_MountPath c) (map coerce_utf8 (ac_SyncRoots c)) (ac_ConflictPolicy c) (ac_ReadOnly c)
    (ac_AutoConnect c) (ac_BandwidthLimit c) (ac_LogLevel c) (ac_LargeFileThreshold c).

Definition next_revision (current : Z) : Z := if current + 1 =? two64 then 1 else current + 1.

Lemma next_revision_wrap v :
  (if wrap_uint64 (wrap_uint64 v + 1) =? 0 then 1 else wrap_uint64 (wrap_uint64 v + 1)) = next_revision (wrap_uint64 v).
Proof.
  unfold next_revision, wrap_uint64, two64. pose proof (Z.mod_pos_bound v 18446744073709551616 ltac:(lia)).
  destruct (Z.eqb_spec (v mod 18446744073709551616 + 1) 18446744073709551616) as [->|Hne]; [done|].
  rewrite Z.mod_small by lia. destruct (Z.eqb_spec (v mod 18446744073709551616 + 1) 0); lia.
Qed.

(** The answer and the change of a policy update that is accepted. *)
Definition policy_updated (d : string) (r : DeviceRow)
    (chosen stored : AssignedConfig) (db db' : RegistryDb) (ans : result status UpdateDevicePolicyResponse) : Prop :=
  let next := next_revision (wrap_uint64 (policy_revision r)) in
  ans = Ok (mkUpdateResponse next true chosen) ∧
  current_config config d db' = Ok stored ∧
  (∃ t, t_device db' = <[d := with_policy_state (to_int64 next) 1 t r]> (t_device db)) ∧
  (∀ d', d' ≠ d → t_policy db' !! d' = t_policy db !! d') ∧
  t_action db' = t_action db ∧ t_diagnostic db' = t_diagnostic db.

Lemma set_device_alter_eq db d f r :
  t_device db !! d = Some r → t_device (set_device (alter f d) db) = <[d := f r]> (t_device db).
Proof.
  intros Hr. cbn [set_device t_device]. apply map_eq. intros j. destruct (decide (j = d)) as [->|Hj].
  - by rewrite lookup_alter_eq, lookup_insert_eq, Hr.
  - by rewrite lookup_alter_ne, lookup_insert_ne.
Qed.

Lemma run_require_pull d revision t db r :
  t_device db !! d = Some r →
  require_pull_tx d revision t db = (set_device (alter (with_policy_state (to_int64 revision) 1 t) d) db, Ok tt).
Proof.
  intros Hr. unfold require_pull_tx, go_bind. rewrite update_device_alter, bool_decide_true by eauto. done.
Qed.

Lemma run_ResetPolicy n d revision db r :
  TrimSpace d = d → d ≠ "" → t_device db !! d = Some r →
  run e n (ResetPolicy d revision) db =
    (S (S n), set_device (alter (with_policy_state (to_int64 revision) 1 (now (e n))) d)
       (set_policy (delete d) db), Ok tt).
Proof using no_fault.
  intros Hd Hne Hr. unfold ResetPolicy. rewrite Hd, bool_decide_false by done.
  cbn [bind run time_Now access]. rewrite run_sql by done. cbn [go_bind go_modify].
  rewrite (run_require_pull _ _ _ _ r) by done. done.
Qed.

Lemma run_UpsertPolicy n input db r :
  TrimSpace (pr_DeviceID input) = pr_DeviceID input → pr_DeviceID input ≠ "" →
  t_device db !! pr_DeviceID input = Some r →
  run e n (UpsertPolicy input) db =
    (S (S (S n)), set_device (alter (with_policy_state (to_int64 (pr_PolicyRevision input)) 1 (now (e n))) (pr_DeviceID input))
       (set_policy <[pr_DeviceID input := policy_row input (now (e n))]> db),
     scanPolicy (pr_DeviceID input) (policy_row input (now (e n)))).
Proof using no_fault.
  intros Hd Hne Hr. unfold UpsertPolicy. rewrite Hd, bool_decide_false by done.
  cbn [bind run time_Now access]. unfold bind_ok. rewrite run_atomically by done. cbn [go_bind go_modify].
  rewrite (run_require_pull _ _ _ _ r) by done. unfold GetPolicy. rewrite run_read, Hd by done.
  cbn [set_device set_policy t_policy]. by rewrite lookup_insert_eq.
Qed.

Lemma policy_row_config input t p :
  assignedConfigFromProto (assignedConfigFromPolicyRecord input) = assignedConfigFromPolicyRecord input →
  scanPolicy (pr_DeviceID input) (policy_row input t) = Ok p →
  assignedConfigFromPolicyRecord p = utf8_roots (assignedConfigFromPolicyRecord input).
Proof.
  intros Hnorm. unfold scanPolicy, policy_row. cbn [p_sync_roots_json]. rewrite unmarshal_marshal.
  cbn -[TrimSpace normalizeStringList flag]. intros [= <-].
  unfold assignedConfigFromProto, assignedConfigFromPolicyRecord, utf8_roots in *.
  cbn -[TrimSpace normalizeStringList flag] in *. injection Hnorm as H1 H2 H3 H4.
  rewrite H1, H2, H3, H4. f_equal; by destruct (pr_ReadOnly input), (pr_AutoConnect input).
Qed.

Lemma assignedConfigFromProto_idem c : assignedConfigFromProto (assignedConfigFromProto c) = assignedConfigFromProto c.
Proof.
  unfold assignedConfigFromProto. cbn -[TrimSpace normalizeStringList].
  by rewrite !TrimSpace_idem, normalizeStringList_idem.
Qed.

(** C13: A policy update, alone and without failures, is refused for a blank or
    unknown device, for an expected revision that is not the device's, and for
    a missing policy, and then changes nothing.  Otherwise the device gets the
    next revision (never 0) and the mark to pull it, GetAssignedConfig will
    answer the new configuration, or the default after a reset, and nothing
    else changes. *)
Theorem update_policy_contract req n db n' db' ans :
  registry_wf config db →
  run e n (UpdateDevicePolicy config req) db = (n', db', ans) →
  let d := TrimSpace (up_device_id req) in
  if bool_decide (d = "") then db' = db ∧ ans = Err (invalidArgument "device_id is required") else
  match t_device db !! d with
  | None => db' = db ∧ ∃ msg, ans = Err (Status NotFound msg)
  | Some r =>
      if negb (up_expected_policy_revision req =? 0)
         && negb (up_expected_policy_revision req =? wrap_uint64 (policy_revision r))
      then db' = db ∧ ∃ msg, ans = Err (Status FailedPrecondition msg) else
      match up_reset_to_default req, up_policy req with
      | true, _ => let c := cc_DefaultAssignedConfig config in policy_updated d r c c db db' ans
      | false, None => db' = db ∧ ∃ msg, ans = Err (Status InvalidArgument msg)
      | false, Some policy =>
          let c := assignedConfigFromProto policy in policy_updated d r c (utf8_roots c) db db' ans
      end
  end.
Proof using no_fault.
  intros Hwf Hrun. cbn zeta. unfold UpdateDevicePolicy, with_device in Hrun. cbn zeta in Hrun.
  case_bool_decide as Hne; [by injection Hrun as _ <- <-|].
  pose proof (TrimSpace_idem (up_device_id req)) as Hd. revert Hrun Hne Hd.
  generalize (TrimSpace (up_device_id req)). intros d Hrun Hne Hd.
  rewrite run_grpc, run_Get in Hrun by done. destruct (t_device db !! d) as [r|] eqn:Hr.
  2:{ injection Hrun as _ <- <-. by split; [|eexists]. }
  destruct (scan_wf db d r) as (record & Hscan & Hrev & _); [done..|]. rewrite Hscan, Hrev in Hrun.
  destruct (_ && _) eqn:Hexp in Hrun; rewrite Hexp.
  { injection Hrun as _ <- <-. by split; [|eexists]. }
  rewrite next_revision_wrap in Hrun. unfold policy_updated.
  destruct (up_reset_to_default req).
  - rewrite run_grpc, (run_ResetPolicy _ _ _ _ r) in Hrun by done. injection Hrun as _ <- <-.
    split_and!; [done| | |intros d' Hd'|done..].
    + unfold current_config. cbn [set_device set_policy t_policy]. by rewrite lookup_delete_eq.
    + eexists. rewrite (set_device_alter_eq _ _ _ r); done.
    + cbn [set_device set_policy t_policy]. by rewrite lookup_delete_ne.
  - destruct (up_policy req) as [policy|]; [|injection Hrun as _ <- <-; by split; [|eexists]].
    rewrite run_grpc, (run_UpsertPolicy _ _ _ r) in Hrun by done.
    match goal with H : context [scanPolicy _ (policy_row ?i ?t)] |- _ => set (input := i) in *; set (t0 := t) in * end.
    destruct (scanPolicy (pr_DeviceID input) (policy_row input t0)) as [p|] eqn:Hp.
    2:{ exfalso. revert Hp. unfold scanPolicy, policy_row. cbn [p_sync_roots_json]. by rewrite unmarshal_marshal. }
    injection Hrun as _ <- <-. split_and!; [done| | |intros d' Hd'|done..].
    + unfold current_config. cbn [set_device set_policy t_policy]. change (pr_DeviceID input) with d in *.
      rewrite lookup_insert_eq, Hp. cbn [res_bind map_err]. unfold id. do 1 f_equal.
      apply (policy_row_config input t0); [|done]. apply assignedConfigFromProto_idem.
    + eexists. rewrite (set_device_alter_eq _ _ _ r); done.
    + cbn [set_device set_policy t_policy]. by rewrite lookup_insert_ne.
Qed.

(** ** Heartbeats *)

Notation pending d db := (actions_of d ["pending"] db).

Lemma action_leb_newest : action_leb = newest_leb a_requested_at_unix.
Proof. done. Qed.

Lemma elem_of_pending d db x :
  x ∈ pending d db ↔ t_action db !! x.1 = Some x.2 ∧ a_device_id x.2 = d ∧ a_status x.2 = "pending".
Proof.
  unfold actions_of. rewrite sort_by_perm, list_elem_of_In, filter_In, <- list_elem_of_In.
  destruct x as [id a]. rewrite elem_of_map_to_list. unfold has_status. cbn [fst snd].
  rewrite andb_true_iff, !bool_decide_eq_true, list_elem_of_singleton. done.
Qed.

Lemma NoDup_fst_pending d db : NoDup (map fst (pending d db)).
Proof.
  unfold actions_of. rewrite sort_by_perm. generalize (NoDup_fst_map_to_list (t_action db)).
  change (map fst (List.filter (has_status d ["pending"]) (map_to_list (t_action db))))
    with ((List.filter (has_status d ["pending"]) (map_to_list (t_action db))).*1).
  generalize (map_to_list (t_action db)). intros l. induction l as [|x l IH]; [done|].
  cbn. rewrite NoDup_cons. intros [Hx Hl]. destruct (has_status d _ x); [|by apply IH].
  cbn. rewrite NoDup_cons. split; [|by apply IH]. intros Hin. apply Hx.
  apply list_elem_of_fmap in Hin as (y & -> & Hy). apply list_elem_of_fmap_2.
  apply list_elem_of_In, filter_In in Hy as [Hy _]. by apply list_elem_of_In.
Qed.

Lemma pending_sorted d db : StronglySorted (λ x y, action_leb x y = true) (pending d db).
Proof.
  unfold actions_of. rewrite action_leb_newest. apply sort_by_sorted; [apply newest_trans|apply newest_total].
Qed.

Lemma pending_antisym d db x y :
  x ∈ pending d db → y ∈ pending d db → action_leb x y = true → action_leb y x = true → x = y.
Proof.
  intros [Hx _]%elem_of_pending [Hy _]%elem_of_pending. rewrite action_leb_newest. by apply newest_antisym with (t_action db).
Qed.

(** Marking the first [k] pending actions leaves the others, in their order. *)
Lemma pending_after_mark d k t db :
  (∀ id a, t_action db !! id = Some a → TrimSpace id = id) →
  pending d (set_action (update_actions (listed_pending (map fst (take k (pending d db)))) (delivered t)) db)
  = drop k (pending d db).
Proof.
  intros Hkeys. set (l := pending d db). set (db' := set_action _ db).
  assert (∀ x, x ∈ pending d db' ↔ x ∈ drop k l) as Hmem.
  { intros [id a]. rewrite elem_of_pending. cbn [fst snd]. subst db'. cbn [set_action t_action].
    rewrite lookup_update_actions, fmap_Some. split.
    - intros ((b & Hb & ->) & Hd & Hs). destruct (listed_pending _ id b) eqn:Hl; [done|].
      assert ((id, b) ∈ l) as Hin by (apply elem_of_pending; done).
      rewrite <- (take_drop k l) in Hin. apply elem_of_app in Hin as [Hin|Hin]; [|done]. exfalso.
      unfold listed_pending in Hl. rewrite (bool_decide_true (a_status b = _)), andb_true_r in Hl by done.
      apply bool_decide_eq_false in Hl. apply Hl. rewrite <- (Hkeys id b Hb).
      apply (list_elem_of_fmap_2 TrimSpace). by apply (list_elem_of_fmap_2 fst _ (id, b)).
    - intros Hin. assert ((id, a) ∈ l) as Hl.
      { rewrite <- (take_drop k l). apply elem_of_app. by right. }
      apply elem_of_pending in Hl as (Ha & Hd & Hs). cbn [fst snd] in *. split; [|done]. exists a. split; [done|].
      destruct (listed_pending _ id a) eqn:Hl; [|done]. exfalso. apply listed_pending_true in Hl as [Hl _].
      apply list_elem_of_fmap in Hl as (id0 & -> & Hl).
      apply list_elem_of_fmap in Hl as ([id1 a1] & -> & Hl). cbn [fst] in *.
      pose proof (NoDup_fst_pending d db) as Hnd. fold l in Hnd. 
      assert (t_action db !! id1 = Some a1) as H1.
      { assert ((id1, a1) ∈ l) as Hin1; [|by apply elem_of_pending in Hin1 as [? _]].
        rewrite <- (take_drop k l). apply elem_of_app. by left. }
      rewrite (Hkeys _ _ H1) in *. rewrite <- (take_drop k l), map_app in Hnd. apply NoDup_app in Hnd as (_ & Hnd & _).
      apply (Hnd id1); [by apply (list_elem_of_fmap_2 fst _ (id1, a1))|by apply (list_elem_of_fmap_2 fst _ (id1, a))]. }
  unfold actions_of at 1. apply sort_by_unique.
  - rewrite action_leb_newest. apply newest_trans.
  - rewrite action_leb_newest. apply newest_total.
  - intros x y Hx Hy. rewrite <- (sort_by_perm action_leb) in Hx, Hy.
    by apply (pending_antisym d db').
  - rewrite <- (sort_by_perm action_leb). apply NoDup_Permutation.
    + apply NoDup_fmap_1 with fst. apply (NoDup_fst_pending d db').
    + assert (NoDup l) as Hl by apply (NoDup_fmap_1 fst), NoDup_fst_pending.
      rewrite <- (take_drop k l) in Hl. by apply NoDup_app in Hl as (_ & _ & ?).
    + intros x. apply Hmem.
  - apply StronglySorted_drop, pending_sorted.
Qed.

Lemma run_details n actions db :
  ∃ n' details, run e n (for_each (λ action, clientActionToProto action true) actions) db = (n', db, details) ∧
    map ca_action_id details = map ar_ActionID actions.
Proof.
  revert n. induction actions as [|x l IH]; intros n; [by eexists _, _|]. cbn [for_each]. rewrite run_bind.
  assert (∃ n1 ca, run e n (clientActionToProto x true) db = (n1, db, ca) ∧ ca_action_id ca = ar_ActionID x)
    as (n1 & ca & -> & Hca).
  { unfold clientActionToProto. destruct (ar_DeliveredAtUnix x =? 0); by eexists _, _. }
  rewrite run_bind. destruct (IH n1) as (n2 & details & -> & Hd). eexists _, _. split; [done|].
  cbn [map]. by rewrite Hca, Hd.
Qed.

(** What a heartbeat needs of the tables. *)
Definition can_beat (d : string) (db : RegistryDb) : Prop :=
  d ≠ "" ∧ TrimSpace d = d ∧ (∃ r, t_device db !! d = Some r ∧ marshalled (capabilities_json r)) ∧
  ∀ id a, t_action db !! id = Some a → TrimSpace id = id.

Lemma wf_can_beat d db r : registry_wf config db → t_device db !! d = Some r → can_beat d db.
Proof.
  intros Hwf Hr. destruct (wf_device _ _ Hwf _ _ Hr) as ([Htrim Hne] & _ & Hcaps & _).
  split_and!; [done..|by eauto|]. intros id a Ha. by destruct (wf_action _ _ Hwf _ _ Ha) as ([? _] & _).
Qed.

Lemma run_update_and_get n d f db r :
  TrimSpace d = d → t_device db !! d = Some r → keeps_policy f → marshalled (capabilities_json r) →
  ∃ record, run e n (update_and_get d f) db = (S (S n), set_device (alter f d) db, Ok record).
Proof using no_fault.
  intros Hd Hr Hf [l Hl]. unfold update_and_get. unfold bind_ok at 1. rewrite run_atomically by done.
  rewrite update_device_alter, bool_decide_true by eauto. cbn [bind bind_ok ensureRowsAffected Z.eqb].
  unfold Get. rewrite run_read by done. rewrite Hd.
  cbn [set_device t_device]. rewrite lookup_alter_eq, Hr. cbn [fmap option_fmap option_map].
  unfold scanDeviceRecord. destruct (Hf r) as (_ & _ & ->). rewrite Hl, unmarshal_marshal. by eexists.
Qed.

(** A heartbeat of a registered device, alone. *)
Lemma run_Heartbeat hb n db :
  can_beat (TrimSpace (hb_DeviceID hb)) db →
  let d := TrimSpace (hb_DeviceID hb) in
  ∃ n' db' resp, run e n (Heartbeat hb) db = (n', db', Ok resp) ∧
    map ca_action_id (hs_pending_action_details resp) = map fst (take 16 (pending d db)) ∧
    pending d db' = drop 16 (pending d db) ∧ can_beat d db'.
Proof using no_fault.
  unfold Heartbeat, with_device. cbn zeta. generalize (TrimSpace (hb_DeviceID hb)).
  intros d (Hne & Hd & (r & Hr & Hcaps) & Hkeys). rewrite bool_decide_false by done.
  rewrite run_grpc. unfold UpdateHeartbeat. cbn [hb_DeviceID]. cbn zeta. rewrite Hd, bool_decide_false by done.
  rewrite run_bind. destruct (run e n (if hb_TimestampUnix _ =? 0 then _ else _) db) as [[n1 db1] t] eqn:Ht.
  assert (db1 = db) as ->. { cbn [hb_TimestampUnix] in Ht. destruct (hb_TimestampUnix hb =? 0); by injection Ht. }
  clear Ht. match goal with |- context [heartbeat_row ?i t] => set (input := i) end.
  destruct (run_update_and_get n1 d (heartbeat_row input t) db r) as [record ->]; [done..|apply keeps_heartbeat|done|].
  set (db1 := set_device _ db). rewrite run_grpc. unfold ListPendingActions, listActionsByStatus. cbn zeta.
  rewrite Hd, bool_decide_false, run_read by done. change (Z.to_nat (if 16 <=? 0 then 16 else 16)) with 16%nat.
  change (pending d db1) with (pending d db). rewrite run_bind.
  set (rows := take 16 (pending d db)).
  destruct (run_details (S (S (S n1))) (map scan_action rows) db1) as (n2 & details & -> & Hids).
  assert (map ar_ActionID (map scan_action rows) = map fst rows) as Hmap.
  { rewrite map_map. apply map_ext. by intros []. }
  rewrite Hmap in *. rewrite run_grpc. unfold MarkActionsDelivered. case_bool_decide as Hempty.
  - eexists _, _, _. split; [reflexivity|]. cbn [hs_pending_action_details]. split; [done|].
    assert (pending d db = []) as Hnil.
    { subst rows. by destruct (pending d db). }
    change (pending d db1) with (pending d db). rewrite Hnil. split; [done|].
    split_and!; [done..| |done]. exists (heartbeat_row input t r). split; [|done].
    subst db1. by rewrite (set_device_alter_eq _ _ _ r), lookup_insert_eq.
  - cbn [bind run time_Now access]. rewrite run_sql by done. cbn [go_modify].
    eexists _, _, _. split; [reflexivity|]. cbn [hs_pending_action_details]. split; [done|]. split.
    + change (pending d db) with (pending d db1) in rows |- *. subst rows. by apply pending_after_mark.
    + split_and!; [done..| |].
      * exists (heartbeat_row input t r). split; [|done]. cbn [set_action t_device].
        subst db1. by rewrite (set_device_alter_eq _ _ _ r), lookup_insert_eq.
      * intros id a. cbn [set_action t_action]. rewrite lookup_update_actions.
        intros (b & Hb & _)%fmap_Some. by eapply Hkeys.
Qed.

(** Heartbeats one after another. *)
Fixpoint run_heartbeats (n : nat) (hbs : list DeviceHeartbeat) (db : RegistryDb) :
    RegistryDb * list (result status HeartbeatResponse) :=
  match hbs with
  | [] => (db, [])
  | hb :: hbs' =>
      let '(n', db', ans) := run e n (Heartbeat hb) db in
      let '(db'', answers) := run_heartbeats n' hbs' db' in (db'', ans :: answers)
  end.

(** C14: Heartbeats of a registered device, one after another and without
    failures, answer its pending actions newest first, sixteen at a time and
    each exactly once, and leave the others pending in their order: enough
    heartbeats deliver every action. *)
Theorem heartbeats_deliver hbs n d r db db' answers :
  registry_wf config db → t_device db !! d = Some r →
  Forall (λ hb, TrimSpace (hb_DeviceID hb) = d) hbs →
  run_heartbeats n hbs db = (db', answers) →
  ∃ resps, answers = map Ok resps ∧
    concat (map (λ resp, map ca_action_id (hs_pending_action_details resp)) resps)
      = map fst (take (16 * length hbs) (pending d db)) ∧
    pending d db' = drop (16 * length hbs) (pending d db) ∧
    NoDup (map fst (pending d db)) ∧
    ((length (pending d db) ≤ 16 * length hbs)%nat → pending d db' = []).
Proof using no_fault.
  intros Hwf Hr. pose proof (wf_can_beat d db r Hwf Hr) as Hbeat. clear Hwf Hr.
  cut (Forall (λ hb, TrimSpace (hb_DeviceID hb) = d) hbs → run_heartbeats n hbs db = (db', answers) →
    ∃ resps, answers = map Ok resps ∧
    concat (map (λ resp, map ca_action_id (hs_pending_action_details resp)) resps)
      = map fst (take (16 * length hbs) (pending d db)) ∧
    pending d db' = drop (16 * length hbs) (pending d db)).
  { intros Hcut Hhbs Hrun. destruct (Hcut Hhbs Hrun) as (resps & Hans & Hids & Hdrop). exists resps.
    split_and!; [done..|apply NoDup_fst_pending|]. intros Hlen. rewrite Hdrop. by apply drop_ge. }
  revert n db answers Hbeat. induction hbs as [|hb hbs IH]; intros n db answers Hbeat Hhbs Hrun; cbn in Hrun.
  { injection Hrun as <- <-. by exists []. }
  apply Forall_cons in Hhbs as [Hd Hhbs]. destruct (run_Heartbeat hb n db) as (n1 & db1 & resp & Hrun1 & Hids & Hdrop & Hbeat1).
  { by rewrite Hd. }
  rewrite Hrun1 in Hrun. rewrite Hd in *. destruct (run_heartbeats n1 hbs db1) as [db2 answers'] eqn:Hrest.
  injection Hrun as <- <-. destruct (IH n1 db1 answers' Hbeat1 Hhbs Hrest) as (resps & -> & Hids' & Hdrop').
  exists (resp :: resps). split_and!; [done| |].
  - cbn [map concat]. rewrite Hids, Hids', Hdrop, <- map_app. f_equal.
    replace (16 * length (hb :: hbs))%nat with (16 + 16 * length hbs)%nat by (cbn [length]; lia).
    by rewrite take_take_drop.
  - rewrite Hdrop', Hdrop, drop_drop. f_equal. cbn [length]. lia.
Qed.
End contracts.
End Contracts.
