(* ===== verification/ControlTheorems.v ===== *)
(** * More theorems on the control plane

    Requests for unknown devices, the retention of diagnostics, the
    normalisation of the configuration, and four concrete interleavings that
    show what the handlers do not promise. *)

From S2P Require Import Prelude GoStrings Hash JsonStrings StringLists Threads DeviceRegistry ControlPlane RegistryEffects RegistryInvariant RegistryDelivery RegistryContracts.
Open Scope string_scope.
Open Scope Z_scope.
Open Scope list_scope.

Module ControlTheorems.
Import Registry Control Effects Invariant Delivery Contracts.

Section theorems.
Context `{GoUnicode} `{SqlDriver} (config : ControlPlaneConfig).

(** ** Unknown devices *)

Section unknown.
Context (calm : Prop) (d : string) (db : RegistryDb).
Hypothesis trimmed : TrimSpace d = d.
Hypothesis missing : t_device db !! d = None.

(** Inputs that do not fail when the database is [calm]. *)
Definition calm_input (i : Outside) : Prop := calm → fault i = None.
Notation alone Q w p := (wp calm_input eq (λ _ _ _ _, True) Q w p).

Definition missing_error {A} (w : RegistryDb) (r : result goerr A) : Prop :=
  w = db ∧ ∃ er, r = Err er ∧ (calm → er = ErrSentinel ErrNotExist).

Lemma missing_Get : alone missing_error db (Get d).
Proof using trimmed missing.
  intros i w1 Hi <-. cbn. destruct (fault i) as [er|] eqn:Hf.
  - split; [done|]. split; [done|]. exists er. split; [done|]. intros Hc. by rewrite Hi in Hf.
  - rewrite trimmed, missing. split; [done|]. split; [done|]. by eexists.
Qed.

Lemma missing_update f : alone missing_error db (update_and_get d f).
Proof using missing.
  unfold update_and_get. intros i w1 Hi <-. cbn. destruct (fault i) as [er|] eqn:Hf.
  - split; [done|]. split; [done|]. exists er. split; [done|]. intros Hc. by rewrite Hi in Hf.
  - unfold update_device. rewrite missing. cbn. split; [done|]. split; [done|]. by eexists.
Qed.

Lemma missing_after_clock {A} (p : Z → attempt A) :
  (∀ t, alone missing_error db (p t)) → alone missing_error db (do! t := time_Now in p t).
Proof. intros Hp i w1 _ <-. cbn. by split. Qed.

(** The answer to a request for an unknown device. *)
Definition refused (code : Code) (w : RegistryDb) (ans : result status Response) : Prop :=
  w = db ∧ ∃ st, ans = Err st ∧ (calm → st_code st = code).

Lemma refuse {A B} (p : attempt A) (k : A → handler B) wrap :
  alone missing_error db p → alone (refused NotFound) db (answer wrap (bind_ok (grpc p) k)).
Proof.
  intros Hp. apply wp_bind_ok, wp_grpc. eapply wp_mono; [| |exact Hp]; [done|].
  intros w r [-> (er & -> & Her)]. split; [done|]. eexists. split; [done|]. intros Hc. by rewrite (Her Hc).
Qed.
End unknown.

(** What the code is of the answer to a request for an unknown device. *)
Definition refusal (req : Request) (d : string) : Code :=
  if bool_decide (d = "") then InvalidArgument else
  match req with
  | RqAction r => if bool_decide (TrimSpace (ra_action_type r) = "") then InvalidArgument else NotFound
  | _ => NotFound
  end.

Lemma serve_unknown calm req d db :
  request_device req = Some d → (∀ r, req ≠ RqRegister r) → t_device db !! d = None →
  wp (calm_input calm) eq (λ _ _ _ _, True) (refused calm db (refusal req d)) db (serve config req).
Proof.
  intros Hreq Hnot Hmiss. unfold refusal.
  destruct req as [r|r|id|r|r|r| |id|r|r]; try (by destruct (Hnot r)); try discriminate Hreq;
    injection Hreq as <-; unfold serve;
    unfold Heartbeat, GetAssignedConfig, ReportSyncState, ReportMountState, UploadDiagnostics, GetDeviceDetail,
      UpdateDevicePolicy, RequestClientAction, with_device; cbn zeta;
    (case_bool_decide as Hne; [split; [done|]; by eexists|]).
  - apply refuse. unfold UpdateHeartbeat. cbn [hb_DeviceID]. cbn zeta.
    rewrite TrimSpace_idem, bool_decide_false by done. destruct (_ =? 0).
    + apply missing_after_clock. intros t. by apply missing_update.
    + by apply missing_update.
  - apply refuse, missing_Get; [apply TrimSpace_idem|done].
  - apply refuse. unfold UpdateSyncState. cbn [sr_DeviceID]. cbn zeta.
    rewrite TrimSpace_idem, bool_decide_false by done.
    apply missing_after_clock. intros t. by apply missing_update.
  - apply refuse. unfold UpdateMountState. cbn [mr_DeviceID]. cbn zeta.
    rewrite TrimSpace_idem, bool_decide_false by done.
    apply missing_after_clock. intros t. by apply missing_update.
  - apply refuse, missing_Get; [apply TrimSpace_idem|done].
  - apply refuse, missing_Get; [apply TrimSpace_idem|done].
  - apply refuse, missing_Get; [apply TrimSpace_idem|done].
  - case_bool_decide; [split; [done|]; by eexists|]. apply refuse, missing_Get; [apply TrimSpace_idem|done].
Qed.

(** A request about a device that is not registered, whatever fails, changes
    no table and answers an error; without failures it is NotFound, or
    InvalidArgument for a blank device or action type.  (Registering is the
    exception.) *)
Theorem unregistered_refused req d e n db n' db' ans :
  request_device req = Some d → (∀ r, req ≠ RqRegister r) → t_device db !! d = None →
  run e n (serve config req) db = (n', db', ans) →
  db' = db ∧ ∃ st, ans = Err st ∧ ((∀ n, fault (e n) = None) → st_code st = refusal req d).
Proof.
  intros Hreq Hnot Hmiss Hrun.
  apply (wp_run (calm_input (∀ n, fault (e n) = None)) eq _ _ _ _ _ _ _ _ _
    (λ n calm, calm n) (serve_unknown (∀ n, fault (e n) = None) req d db Hreq Hnot Hmiss) Hrun).
Qed.

(** ** Configuration *)

Lemma or_default_idem v d : TrimSpace d = d → d ≠ "" →
  or_default (TrimSpace (or_default (TrimSpace v) d)) d = or_default (TrimSpace v) d.
Proof.
  intros Hd Hne. unfold or_default at 2 3. case_bool_decide as Hv.
  - rewrite Hd. unfold or_default. by rewrite bool_decide_false.
  - rewrite TrimSpace_idem. unfold or_default. by rewrite bool_decide_false.
Qed.

Definition list_or_default (l d : list string) : list string :=
  if bool_decide (normalizeStringList l = []) then d else normalizeStringList l.
Lemma list_or_default_idem l d :
  normalizeStringList d = d → d ≠ [] → list_or_default (list_or_default l d) d = list_or_default l d.
Proof.
  intros Hd Hne. unfold list_or_default at 2 3. case_bool_decide as Hl; unfold list_or_default.
  - by rewrite Hd, bool_decide_false.
  - by rewrite normalizeStringList_idem, bool_decide_false.
Qed.
Lemma list_or_default_nonempty l d : d ≠ [] → list_or_default l d ≠ [].
Proof. intros Hne. unfold list_or_default. by case_bool_decide. Qed.

Lemma normalizeAssigned_idem c : normalizeAssigned (normalizeAssigned c) = normalizeAssigned c.
Proof.
  unfold normalizeAssigned.
  cbn [ac_MountPath ac_SyncRoots ac_ConflictPolicy ac_ReadOnly ac_AutoConnect ac_BandwidthLimit ac_LogLevel
    ac_LargeFileThreshold].
  rewrite TrimSpace_idem, !or_default_idem by done. f_equal.
  - by apply (list_or_default_idem _ ["."]).
  - destruct (Z.leb_spec (ac_LargeFileThreshold c) 0); [done|].
    destruct (Z.leb_spec (ac_LargeFileThreshold c) 0); [lia|done].
Qed.

Lemma normalizeJoinBundle_idem c : normalizeJoinBundle (normalizeJoinBundle c) = normalizeJoinBundle c.
Proof.
  unfold normalizeJoinBundle.
  cbn [jb_OverlayProvider jb_OverlayJoinConfigJSON jb_ServiceDiscovery jb_SharedSecret sd_Mode sd_Host sd_Port
    sd_UseTLS sd_TLSServerName].
  by rewrite !TrimSpace_idem, or_default_idem.
Qed.

(** Normalising the configuration of the control plane is idempotent, so
    both services have the same one whether or not it was normalised before,
    and leaves no setting without a usable value. *)
Theorem normalize_config :
  normalizeControlPlaneConfig (normalizeControlPlaneConfig config) = normalizeControlPlaneConfig config ∧
  let c := normalizeControlPlaneConfig config in
  cc_DefaultDeviceGroup c ≠ "" ∧ cc_HeartbeatIntervalSeconds c ≠ 0 ∧ cc_DefaultPolicyRevision c ≠ 0 ∧
  0 < cc_DiagnosticsKeepLatest c ∧ cc_AvailableActions c ≠ [] ∧
  ac_SyncRoots (cc_DefaultAssignedConfig c) ≠ [] ∧ ac_ConflictPolicy (cc_DefaultAssignedConfig c) ≠ "" ∧
  ac_LogLevel (cc_DefaultAssignedConfig c) ≠ "" ∧ 0 < ac_LargeFileThreshold (cc_DefaultAssignedConfig c) ∧
  sd_Mode (jb_ServiceDiscovery (cc_JoinBundle c)) ≠ "".
Proof.
  assert (∀ v d : string, d ≠ "" → or_default v d ≠ "") as Hor.
  { intros v d Hd. unfold or_default. by case_bool_decide. }
  split.
  - unfold normalizeControlPlaneConfig.
    cbn [cc_ServerID cc_DefaultDeviceGroup cc_HeartbeatIntervalSeconds cc_DefaultPolicyRevision
      cc_DefaultAssignedConfig cc_JoinBundle cc_AvailableActions cc_DiagnosticsKeepLatest].
    rewrite TrimSpace_idem, or_default_idem, normalizeAssigned_idem, normalizeJoinBundle_idem by done. f_equal.
    + destruct (Z.eqb_spec (cc_HeartbeatIntervalSeconds config) 0); [done|].
      by destruct (Z.eqb_spec (cc_HeartbeatIntervalSeconds config) 0).
    + destruct (Z.eqb_spec (cc_DefaultPolicyRevision config) 0); [done|].
      by destruct (Z.eqb_spec (cc_DefaultPolicyRevision config) 0).
    + apply (list_or_default_idem _ ["reconnect_overlay"; "resync"; "remount"; "collect_diagnostics"]); [|done].
      unfold normalizeStringList. vm_compute. reflexivity.
    + destruct (Z.leb_spec (cc_DiagnosticsKeepLatest config) 0); [done|].
      destruct (Z.leb_spec (cc_DiagnosticsKeepLatest config) 0); [lia|done].
  - cbn -[or_default normalizeStringList TrimSpace Z.eqb Z.leb Z.lt bool_decide].
    split_and!; try (by apply Hor); try (by apply list_or_default_nonempty).
    + destruct (Z.eqb_spec (cc_HeartbeatIntervalSeconds config) 0); done.
    + destruct (Z.eqb_spec (cc_DefaultPolicyRevision config) 0); done.
    + destruct (Z.leb_spec (cc_DiagnosticsKeepLatest config) 0); [done|lia].
    + destruct (Z.leb_spec (ac_LargeFileThreshold (cc_DefaultAssignedConfig config)) 0); [done|lia].
Qed.

(** ** Diagnostics *)

#[local] Instance diagnostic_eq_dec : EqDecision DiagnosticRow.
Proof. solve_decision. Defined.

(** The diagnostics of a device that the query puts before [p]. *)
Definition newer (d : string) (t : gmap string DiagnosticRow) (p : string * DiagnosticRow) :
    list (string * DiagnosticRow) :=
  filter (λ q, q ≠ p ∧ diagnostic_leb q p = true) (diagnostics_of d t).

Lemma elem_of_diagnostics d t x : x ∈ diagnostics_of d t ↔ t !! x.1 = Some x.2 ∧ g_device_id x.2 = d.
Proof.
  unfold diagnostics_of. rewrite sort_by_perm, list_elem_of_In, filter_In, <- list_elem_of_In.
  destruct x as [id g]. by rewrite elem_of_map_to_list, bool_decide_eq_true.
Qed.

Lemma NoDup_diagnostics d t : NoDup (diagnostics_of d t).
Proof.
  unfold diagnostics_of. rewrite sort_by_perm. apply NoDup_ListNoDup, List.NoDup_filter, NoDup_ListNoDup.
  apply NoDup_map_to_list.
Qed.

Lemma take_diagnostics d k t x :
  x ∈ take k (diagnostics_of d t) ↔ x ∈ diagnostics_of d t ∧ (length (newer d t x) < k)%nat.
Proof.
  apply (take_rank diagnostic_leb).
  - apply NoDup_diagnostics.
  - apply sort_by_sorted; [apply newest_trans|apply newest_total].
  - intros a b [Ha _]%elem_of_diagnostics [Hb _]%elem_of_diagnostics. by apply (newest_antisym g_uploaded_at_unix t).
Qed.

Lemma prune_spec d k t i x :
  prune_diagnostics d k t !! i = Some x ↔
  t !! i = Some x ∧ (g_device_id x = d → (length (newer d t (i, x)) < Z.to_nat k)%nat).
Proof.
  rewrite lookup_prune. split.
  - intros [Hx Hkept]. split; [done|]. intros Hd. destruct Hkept as [?|Hkept]; [done|].
    apply list_elem_of_fmap in Hkept as ([j y] & -> & Hy). cbn [fst] in *.
    apply take_diagnostics in Hy as [[Hj _]%elem_of_diagnostics Hy]. cbn [fst snd] in *. by simplify_eq.
  - intros [Hx Hlen]. split; [done|]. destruct (decide (g_device_id x = d)) as [Hd|Hd]; [right|by left].
    apply (list_elem_of_fmap_2 fst _ (i, x)), take_diagnostics. split; [by apply elem_of_diagnostics|by apply Hlen].
Qed.

Lemma insert_diagnostic_Ok id g db db' u :
  insert_diagnostic id g db = (db', Ok u) → t_diagnostic db !! id = None ∧ db' = set_diagnostic <[id := g]> db.
Proof.
  unfold insert_diagnostic. destruct (bind_blob _); [|done]. destruct (t_diagnostic db !! id); [done|].
  by intros [= <-].
Qed.

Lemma run_InsertDiagnostic e n input k db n' db' record :
  0 < k → dr_DiagnosticsID input = "" →
  run e n (InsertDiagnostic input k) db = (n', db', Ok record) →
  let d := TrimSpace (dr_DeviceID input) in
  ∃ g t, t_diagnostic db !! dr_DiagnosticsID record = None ∧ g_device_id g = d ∧
    g_payload g = dr_Payload input ∧ g_uploaded_at_unix g = dr_UploadedAtUnix record ∧
    dr_UploadedAtUnix record = t ∧
    db' = set_device (alter (touch t) d)
      (set_diagnostic (λ m, prune_diagnostics d k (<[dr_DiagnosticsID record := g]> m)) db).
Proof.
  intros Hk Hid. unfold InsertDiagnostic. cbn zeta. case_bool_decide as Hne; [done|].
  rewrite Hid. rewrite bool_decide_true by done. cbn -[hex_word insert_diagnostic update_device bool_decide].
  destruct (entropy (e n)) as [z|er]; [|done]. cbn -[hex_word insert_diagnostic update_device].
  rewrite (proj2 (Z.leb_gt k 0)) by done. destruct (fault _); [done|].
  destruct (go_bind _ _ db) as [db1 [u|er]] eqn:Htx; [|done]. cbn. intros [= <- <- <-].
  apply go_bind_Ok in Htx as (db2 & u1 & [Hnone ->]%insert_diagnostic_Ok & Htx).
  apply go_bind_Ok in Htx as (db3 & u2 & [= <- _] & Hupd). rewrite update_device_alter in Hupd.
  injection Hupd as <- _. cbn [dr_DiagnosticsID dr_UploadedAtUnix].
  eexists (mkDiagnosticRow _ _ _ _ _ _ _), _. split_and!; [exact Hnone|reflexivity..].
Qed.

(** An accepted upload of diagnostics stores them under a new identifier and
    then keeps, of the device's diagnostics, exactly those that have fewer than
    the limit before them in the order newest first, later identifier first;
    diagnostics of other devices stay. *)
Theorem diagnostics_retention e n req db n' db' resp :
  0 < cc_DiagnosticsKeepLatest config →
  run e n (UploadDiagnostics config req) db = (n', db', Ok resp) →
  let d := TrimSpace (ud_device_id req) in
  ∃ g, t_diagnostic db !! us_diagnostics_id resp = None ∧ g_device_id g = d ∧ g_payload g = ud_data req ∧
    g_uploaded_at_unix g = us_uploaded_at_unix resp ∧
    let all := <[us_diagnostics_id resp := g]> (t_diagnostic db) in
    ∀ i x, t_diagnostic db' !! i = Some x ↔
      all !! i = Some x ∧
      (g_device_id x = d → Z.of_nat (length (newer d all (i, x))) < cc_DiagnosticsKeepLatest config).
Proof.
  intros Hk Hrun. cbn zeta. unfold UploadDiagnostics, with_device in Hrun. cbn zeta in Hrun.
  case_bool_decide as Hne; [done|]. rewrite run_grpc in Hrun.
  destruct (run e n (Get _) db) as [[n1 db1] [r|er]] eqn:Hget; [|done].
  assert (db1 = db) as ->.
  { revert Hget. cbn. destruct (fault (e n)); [done|]. destruct (match _ with Some _ => _ | None => _ end); by intros [=]. }
  rewrite run_grpc in Hrun. destruct (run e n1 (InsertDiagnostic _ _) db) as [[n2 db2] [record|er]] eqn:Hins; [|done].
  apply run_InsertDiagnostic in Hins as (g & t & Hnone & Hd & Hpay & Ht & _ & ->); [|done..].
  cbn [dr_DeviceID dr_Payload] in *. rewrite TrimSpace_idem in *. injection Hrun as _ <- <-.
  exists g. split_and!; [done..|]. intros i x. cbn [set_device set_diagnostic t_diagnostic us_diagnostics_id].
  rewrite prune_spec. cbn. split; intros [Hx Hl]; (split; [done|]); intros Hdx; specialize (Hl Hdx); lia.
Qed.
End theorems.
End ControlTheorems.

(** * Concrete runs of the control plane

    Closed instances of the theorems, and interleavings in which the control
    plane does less than one might expect of it. *)

Module ControlExamples.
Import Registry Control Effects Invariant Delivery Contracts ControlTheorems.

#[local] Existing Instance ascii_only_unicode.
#[local] Existing Instance blob_driver.

Definition policy (root : string) : AssignedConfig :=
  mkAssigned "" [root] "manual" false true 0 "info" 1.
Definition cfg : ControlPlaneConfig := normalizeControlPlaneConfig {|
  cc_ServerID := "srv"; cc_DefaultDeviceGroup := ""; cc_HeartbeatIntervalSeconds := 20;
  cc_DefaultPolicyRevision := 7; cc_DefaultAssignedConfig := policy ".";
  cc_JoinBundle := mkJoinBundle "" "" (mkDiscovery "" "" 0 false "") "";
  cc_AvailableActions := []; cc_DiagnosticsKeepLatest := 1
|}.

(** At second [t], with [t] for the random bytes too. *)
Definition at_ (t : Z) : Outside := mkOutside t (Ok t) None.
Definition fails (t : Z) : Outside := mkOutside t (Ok t) (Some (ErrNew "database is locked")).

Definition register : Request := RqRegister
  (mkRegisterRequest "dev" "Laptop" "" "" "" "" "" ["sync"; "mount"] "" "").
Definition heartbeat_of : DeviceHeartbeat := mkHeartbeat " dev" "s" 0 true true 0 "" "mounted" "".
Definition update (root : string) (expected : Z) : UpdateDevicePolicyRequest :=
  mkUpdateRequest "dev" (Some (policy root)) expected false.
Definition request_action : RequestClientActionRequest := mkActionReq "dev" "resync" "{}" true.
Definition upload : UploadDiagnosticsRequest := mkUploadRequest "dev" "sync" "" "" [Byte.x01].

Abbreviation moves := (list (@move Outside Request)).
Abbreviation state := (@server RegistryDb Outside Request (result status Response)).
Abbreviation start := (mkServer empty_db []).
Definition play_all (ms : moves) : state :=
  played (serve cfg) ms start.
(** [n] accesses of request [k] at second [t]. *)
Definition accesses (k n : nat) (t : Z) : moves := replicate n (Access k (at_ t)).

Lemma keep_pos : 0 < cc_DiagnosticsKeepLatest cfg.
Proof. done. Qed.

(** The first device registers, gets an action, and beats. *)
Definition day : moves :=
  Receive register :: accesses 0 3 100 ++
  Receive (RqAction request_action) :: accesses 1 4 101 ++
  Receive (RqHeartbeat heartbeat_of) :: accesses 2 7 102.

Definition answer_of (k : nat) (σ : state) : option (result status Response) :=
  match requests σ !! k with
  | Some (_, Ret a) => Some a
  | _ => None
  end.

Definition calm_moves (ms : moves) : Prop :=
  Forall (λ m, match m with Access _ i => fault i = None | Receive _ => True end) ms.
Lemma calm_reachable ms : calm_moves ms → reachable (serve cfg) (λ i, fault i = None) empty_db (play_all ms).
Proof. intros Hms. by apply played_reachable. Qed.
Lemma all_reachable ms : reachable (serve cfg) (λ _, True) empty_db (play_all ms).
Proof.
  apply played_reachable. apply Forall_forall. by intros [] _.
Qed.

Definition row (k : string) (σ : state) : option (Z * Z) :=
  (λ r, (policy_revision r, requires_policy_pull r)) <$> t_device (store σ) !! k.

(** ** What the handlers do not promise *)

(** Two updates that both read the device before either writes. *)
Definition two_updates : moves :=
  Receive register :: accesses 0 3 100 ++
  Receive (RqPolicy (update "a" 7)) :: Receive (RqPolicy (update "b" 7)) ::
  accesses 1 1 101 ++ accesses 2 1 101 ++ accesses 1 3 102 ++ accesses 2 3 103.

(** The check of the expected revision is not atomic with the update: two
    updates that expect the same revision can both be accepted, with the same
    new revision and different policies, and the first is lost. *)
Theorem expected_revision_race :
  ∃ σ, reachable (serve cfg) (λ i, fault i = None) empty_db σ ∧
    answer_of 1 σ = Some (Ok (RsPolicy (mkUpdateResponse 8 true (policy "a")))) ∧
    answer_of 2 σ = Some (Ok (RsPolicy (mkUpdateResponse 8 true (policy "b")))) ∧
    up_expected_policy_revision (update "a" 7) = 7 ∧ up_expected_policy_revision (update "b" 7) = 7 ∧
    row "dev" σ = Some (8, 1) ∧ current_config cfg "dev" (store σ) = Ok (policy "b").
Proof.
  exists (play_all two_updates). split; [apply calm_reachable; by repeat constructor|].
  vm_compute. by split_and!.
Qed.

(** A policy update between the two reads of GetAssignedConfig: the answer has
    the new configuration under the old revision. *)
Definition update_between : moves :=
  Receive register :: accesses 0 3 100 ++
  Receive (RqConfig "dev") :: accesses 1 1 101 ++
  Receive (RqPolicy (update "b" 7)) :: accesses 2 4 102 ++ accesses 1 3 103.
Theorem config_under_old_revision :
  ∃ σ, reachable (serve cfg) (λ i, fault i = None) empty_db σ ∧
    answer_of 1 σ = Some (Ok (RsConfig (mkAssignedResponse (policy "b") 7))) ∧ row "dev" σ = Some (8, 0).
Proof.
  exists (play_all update_between). split; [apply calm_reachable; by repeat constructor|].
  vm_compute. by split_and!.
Qed.

(** The mark is cleared before the policy is read: when that read fails, the
    device is answered an error and the mark is gone. *)
Definition failed_read : moves :=
  Receive register :: accesses 0 3 100 ++ Receive (RqPolicy (update "b" 0)) :: accesses 1 4 101 ++
  Receive (RqConfig "dev") :: accesses 2 3 102 ++ [Access 2 (fails 102)].
Theorem pull_mark_lost :
  ∃ σ, reachable (serve cfg) (λ _, True) empty_db σ ∧
    answer_of 2 σ = Some (Err (Status Internal "database is locked")) ∧ row "dev" σ = Some (8, 0).
Proof.
  exists (play_all failed_read). split; [apply all_reachable|]. vm_compute. by split_and!.
Qed.

(** An action that is cancelled after a heartbeat has listed it is answered as
    delivered all the same. *)
Definition cancelled_meanwhile : moves :=
  Receive register :: accesses 0 3 100 ++ Receive (RqAction request_action) :: accesses 1 4 101 ++
  Receive (RqHeartbeat heartbeat_of) :: accesses 2 4 102 ++
  Receive (RqAction request_action) :: accesses 3 4 103 ++ accesses 2 3 104.
Theorem cancelled_action_answered :
  ∃ σ, reachable (serve cfg) (λ i, fault i = None) empty_db σ ∧
    (∃ resp, answer_of 2 σ = Some (Ok (RsHeartbeat resp)) ∧
      map (λ ca, (ca_action_id ca, ca_status ca)) (hs_pending_action_details resp)
        = [("0000000000000065", "delivered")]) ∧
    (a_status <$> t_action (store σ) !! "0000000000000065") = Some "cancelled".
Proof.
  exists (play_all cancelled_meanwhile). split; [apply calm_reachable; by repeat constructor|].
  split; [eexists; by split; vm_compute|by vm_compute].
Qed.

(** Two uploads in one second with a limit of one: the second is accepted and
    pruned at once when its random identifier is the smaller one. *)
Definition two_uploads : moves :=
  Receive register :: accesses 0 3 100 ++ Receive (RqUpload upload) :: Receive (RqUpload upload) ::
  accesses 1 1 200 ++ Access 1 (at_ 9) :: accesses 1 2 200 ++
  accesses 2 1 200 ++ Access 2 (at_ 5) :: accesses 2 2 200.
Theorem upload_pruned_at_once :
  ∃ σ, reachable (serve cfg) (λ i, fault i = None) empty_db σ ∧
    answer_of 2 σ = Some (Ok (RsUpload (mkUploadResponse "0000000000000005" 200 1))) ∧
    t_diagnostic (store σ) !! "0000000000000005" = None.
Proof.
  exists (play_all two_uploads). split; [apply calm_reachable; by repeat constructor|].
  vm_compute. by split_and!.
Qed.

(** ** Instances of the theorems *)

Lemma reachable_registry_wf_witness : registry_wf cfg (store (play_all day)).
Proof. exact (reachable_registry_wf cfg keep_pos (play_all day) (all_reachable day)). Defined.

Definition delivered_row : ActionRow := mkActionRow "dev" "resync" "{}" "delivered" 101 102 0.
Lemma delivered_action_answered_witness :
  ∃ n req p, requests (play_all day) !! n = Some (req, p) ∧ answered req "0000000000000065" delivered_row p.
Proof.
  apply (delivered_action_answered cfg keep_pos (play_all day) "0000000000000065" delivered_row);
    [apply all_reachable|vm_compute; reflexivity|reflexivity].
Defined.

(** The device pulls its policy, and another update follows a second pull. *)
Definition pulled : moves :=
  Receive register :: accesses 0 3 100 ++ Receive (RqPolicy (update "a" 7)) :: accesses 1 4 101 ++
  Receive (RqConfig "dev") :: accesses 2 4 102.
Lemma policy_change_served_witness :
  ∃ n req p, requests (play_all pulled) !! n = Some (req, p) ∧
    policy_served cfg (store (play_all pulled)) "dev" req p.
Proof.
  destruct (t_device (store (play_all pulled)) !! "dev") as [r|] eqn:Hr; [|vm_compute in Hr; discriminate Hr].
  apply (policy_change_served cfg keep_pos (play_all pulled) "dev" r);
    [apply calm_reachable; repeat constructor|exact Hr|vm_compute in Hr; injection Hr as <-; reflexivity].
Defined.

Definition calm : nat → Outside := λ n, at_ (1000 + Z.of_nat n).
Lemma calm_no_fault n : fault (calm n) = None.
Proof. done. Qed.

Definition after (ms : moves) : RegistryDb := store (play_all ms).
Lemma after_wf ms : registry_wf cfg (after ms).
Proof. apply (reachable_wf cfg keep_pos), all_reachable. Qed.

Lemma update_policy_contract_witness :
  ∃ r n' db' ans, t_device (after day) !! "dev" = Some r ∧
    run calm 0 (UpdateDevicePolicy cfg (update "a" 7)) (after day) = (n', db', ans) ∧
    policy_updated cfg "dev" r (policy "a") (policy "a") (after day) db' ans.
Proof.
  destruct (run calm 0 (UpdateDevicePolicy cfg (update "a" 7)) (after day)) as [[n' db'] ans] eqn:Hrun.
  pose proof (update_policy_contract cfg calm calm_no_fault (update "a" 7) 0 (after day) n' db' ans
    (after_wf day) Hrun) as Hc. cbv zeta in Hc. change (TrimSpace (up_device_id (update "a" 7))) with "dev" in Hc.
  rewrite bool_decide_false in Hc by discriminate.
  destruct (t_device (after day) !! "dev") as [r|] eqn:Hr; [|vm_compute in Hr; discriminate Hr].
  exists r, n', db', ans. split; [reflexivity|]. split; [reflexivity|].
  assert (wrap_uint64 (policy_revision r) = 7) as Hrev by (vm_compute in Hr; injection Hr as <-; reflexivity).
  rewrite Hrev in Hc. exact Hc.
Defined.

Definition many_actions : moves :=
  Receive register :: accesses 0 3 100 ++
  concat (map (λ k, Receive (RqAction (mkActionReq "dev" "resync" "{}" false)) ::
    accesses (S k) 4 (101 + Z.of_nat k)) (seq 0 17)).

Lemma heartbeats_deliver_witness :
  ∃ r db' resps, t_device (after many_actions) !! "dev" = Some r ∧
    run_heartbeats calm 0 [heartbeat_of; heartbeat_of] (after many_actions) = (db', map Ok resps) ∧
    length (concat (map (λ resp, map ca_action_id (hs_pending_action_details resp)) resps)) = 17%nat ∧
    actions_of "dev" ["pending"] db' = [].
Proof.
  destruct (t_device (after many_actions) !! "dev") as [r|] eqn:Hr; [|vm_compute in Hr; discriminate Hr].
  destruct (run_heartbeats calm 0 [heartbeat_of; heartbeat_of] (after many_actions)) as [db' answers] eqn:Hrun.
  assert (Forall (λ hb, TrimSpace (hb_DeviceID hb) = "dev") [heartbeat_of; heartbeat_of]) as Hbeats
    by (repeat constructor).
  destruct (heartbeats_deliver cfg calm calm_no_fault [heartbeat_of; heartbeat_of] 0 "dev" r (after many_actions)
    db' answers (after_wf many_actions) Hr Hbeats Hrun) as (resps & Hans & Hids & Hdrop & _ & Hall).
  assert (length (actions_of "dev" ["pending"] (after many_actions)) = 17%nat) as Hlen by (vm_compute; reflexivity).
  exists r, db', resps. split; [reflexivity|]. split; [rewrite Hans; reflexivity|]. split.
  - rewrite Hids, length_map, length_take, Hlen. reflexivity.
  - apply Hall. rewrite Hlen. cbn [length]. lia.
Defined.

Lemma unregistered_refused_witness :
  ∃ n' st, run calm 0 (serve cfg (RqHeartbeat heartbeat_of)) empty_db = (n', empty_db, Err st) ∧ st_code st = NotFound.
Proof.
  destruct (run calm 0 (serve cfg (RqHeartbeat heartbeat_of)) empty_db) as [[n' db'] ans] eqn:Hrun.
  destruct (unregistered_refused cfg (RqHeartbeat heartbeat_of) "dev" calm 0 empty_db n' db' ans) as [-> (st & -> & Hst)];
    [reflexivity|intros r; discriminate|reflexivity|exact Hrun|].
  exists n', st. split; [reflexivity|]. exact (Hst calm_no_fault).
Defined.

Lemma diagnostics_retention_witness :
  ∃ n' db' resp g, run calm 0 (UploadDiagnostics cfg upload) (after two_uploads) = (n', db', Ok resp) ∧
    ∀ i x, t_diagnostic db' !! i = Some x ↔
      <[us_diagnostics_id resp := g]> (t_diagnostic (after two_uploads)) !! i = Some x ∧
      (g_device_id x = "dev" →
       Z.of_nat (length (newer "dev" (<[us_diagnostics_id resp := g]> (t_diagnostic (after two_uploads))) (i, x))) < 1).
Proof.
  destruct (run calm 0 (UploadDiagnostics cfg upload) (after two_uploads)) as [[n' db'] [resp|st]] eqn:Hrun;
    [|vm_compute in Hrun; discriminate Hrun].
  destruct (diagnostics_retention cfg calm 0 upload (after two_uploads) n' db' resp keep_pos Hrun)
    as (g & _ & _ & _ & _ & Hall).
  exists n', db', resp, g. split; [reflexivity|exact Hall].
Defined.
End ControlExamples.
