(* ===== verification/GoTime.v ===== *)
(** * Dates

    The part of package [time] that works on calendar dates, in the
    proleptic Gregorian calendar, as the code uses it: [Time.AddDate] for
    years, and the layout "20060102-150405" of [Time.Format].  An instant is a
    number of nanoseconds since 1970; the local zone is the interface
    [LocalZone], an offset that does not change over the year. *)

From S2P Require Import Prelude.
From stdpp Require Import pretty.
Open Scope Z_scope.

(** The seconds that local time is ahead of UTC. *)
Class LocalZone := zone_offset : Z.

(** ** Days and years *)

Definition leap (y : Z) : bool :=
  (y mod 4 =? 0) && (negb (y mod 100 =? 0) || (y mod 400 =? 0)).

(** The days from 1 January of year 1 to 1 January of year [y]. *)
Definition days_before_year (y : Z) : Z :=
  let p := y - 1 in 365 * p + p / 4 - p / 100 + p / 400.

Definition year_length (y : Z) : Z := if leap y then 366 else 365.

(** [time.daysBefore]: the days of a year that is not a leap year before
    each month, with the length of the year at the end. *)
Definition daysBefore : list Z := [0; 31; 59; 90; 120; 151; 181; 212; 243; 273; 304; 334; 365].
Definition days_before_month (y m : Z) : Z :=
  nth (Z.to_nat (m - 1)) daysBefore 0 + (if leap y && (3 <=? m) then 1 else 0).

(** 1 January 1970. *)
Definition epoch_day : Z := 719162.

(** [time.Date] without the time of day, for a month in range; a day past
    the end of the month counts on into the next. *)
Definition day_of (y m d : Z) : Z := days_before_year y + days_before_month y m + (d - 1).

(** The year and the day of the year of a day: cycles of 400, 100, 4 and 1
    years; the last day of a cycle of 400 years or of 4 belongs to its last
    century or year. *)
Definition year_of (day : Z) : Z * Z :=
  let n400 := day / 146097 in let r := day mod 146097 in
  let n100 := Z.min 3 (r / 36524) in let r := r - 36524 * n100 in
  let n4 := r / 1461 in let r := r mod 1461 in
  let n1 := Z.min 3 (r / 365) in let r := r - 365 * n1 in
  (400 * n400 + 100 * n100 + 4 * n4 + n1 + 1, r).

Definition month_of (y yday : Z) : Z :=
  Z.of_nat (length (filter (λ m, days_before_month y m ≤ yday) (seqZ 1 12))).

(** [Time.Date] *)
Definition civil (day : Z) : Z * Z * Z :=
  let '(y, yday) := year_of day in
  let m := month_of y yday in
  (y, m, yday - days_before_month y m + 1).

(** ** Instants *)

Section local.
Context `{LocalZone}.

Definition second_ns : Z := 1000000000.
Definition day_ns : Z := 86400 * second_ns.
Definition hour_ns : Z := 3600 * second_ns.

Definition local_ns (t : Z) : Z := t + zone_offset * second_ns.
Definition local_day (t : Z) : Z := local_ns t / day_ns + epoch_day.

(** [t.AddDate(years, 0, 0)] *)
Definition AddYears (years t : Z) : Z :=
  let '(y, m, d) := civil (local_day t) in
  (day_of (y + years) m d - epoch_day) * day_ns + local_ns t mod day_ns - zone_offset * second_ns.

Definition pad (width : nat) (n : Z) : string :=
  let s := pretty n in
  String.concat "" (replicate (width - String.length s) "0"%string) +:+ s.

(** [t.Format("20060102-150405")] *)
Definition format_stamp (t : Z) : string :=
  let '(y, m, d) := civil (local_day t) in
  let s := local_ns t mod day_ns / second_ns in
  pad 4 y +:+ pad 2 m +:+ pad 2 d +:+ "-" +:+
  pad 2 (s / 3600) +:+ pad 2 (s / 60 mod 60) +:+ pad 2 (s mod 60).
End local.

(** ** Facts *)

Lemma days_before_year_succ y : days_before_year (y + 1) = days_before_year y + year_length y.
Proof.
  unfold days_before_year, year_length, leap.
  destruct (Z.eqb_spec (y mod 4) 0), (Z.eqb_spec (y mod 100) 0), (Z.eqb_spec (y mod 400) 0);
    cbn; Z.to_euclidean_division_equations; lia.
Qed.

Lemma year_of_spec day y r :
  year_of day = (y, r) → days_before_year y + r = day ∧ 0 ≤ r < year_length y.
Proof.
  unfold year_of. set (a := day / 146097). set (r4 := day mod 146097).
  assert (day = 146097 * a + r4 ∧ 0 ≤ r4 < 146097) as [Hd Hr4] by (subst a r4; Z.to_euclidean_division_equations; lia).
  set (b := Z.min 3 (r4 / 36524)). set (r1 := r4 - 36524 * b).
  assert (0 ≤ b ≤ 3 ∧ 0 ≤ r1 ∧ (b < 3 → r1 < 36524) ∧ r1 < 36525) as (Hb & Hr1 & Hb3 & Hr1').
  { subst b r1. Z.to_euclidean_division_equations. lia. }
  set (c := r1 / 1461). set (r0 := r1 mod 1461).
  assert (r1 = 1461 * c + r0 ∧ 0 ≤ r0 < 1461 ∧ 0 ≤ c ≤ 24) as (Hc & Hr0 & Hc24).
  { subst c r0. Z.to_euclidean_division_equations. lia. }
  set (e := Z.min 3 (r0 / 365)). set (q := r0 - 365 * e).
  assert (0 ≤ e ≤ 3 ∧ 0 ≤ q ∧ (e < 3 → q < 365) ∧ q < 366) as (He & Hq & He3 & Hq').
  { subst e q. Z.to_euclidean_division_equations. lia. }
  intros [= <- <-].
  set (y := 400 * a + 100 * b + 4 * c + e + 1).
  assert ((y - 1) / 4 = 100 * a + 25 * b + c) as E4.
  { symmetry. apply Z.div_unique with e; subst y; lia. }
  assert ((y - 1) / 100 = 4 * a + b) as E100.
  { symmetry. apply Z.div_unique with (4 * c + e); subst y; lia. }
  assert ((y - 1) / 400 = a) as E400.
  { symmetry. apply Z.div_unique with (100 * b + 4 * c + e); subst y; lia. }
  assert (days_before_year y + q = day) as Hday.
  { unfold days_before_year. rewrite E4, E100, E400. subst y q r1. lia. }
  split; [done|]. split; [done|].
  destruct (decide (q < 365)) as [|Hlong]; [unfold year_length; destruct (leap y); lia|].
  assert (e = 3) as Ee by lia. assert (q = 365) as Eq by lia.
  assert (b < 3 → c < 24) as Hbc by lia.
  enough (leap y = true) as Hl by (unfold year_length; rewrite Hl; lia).
  unfold leap. apply andb_true_iff. split.
  { apply Z.eqb_eq. symmetry. apply Z.mod_unique with (100 * a + 25 * b + c + 1); subst y; lia. }
  apply orb_true_iff. destruct (decide (c = 24)) as [-> | Hc24'].
  - right. assert (b = 3) as Eb by lia.
    apply Z.eqb_eq. symmetry. apply Z.mod_unique with (a + 1); subst y; lia.
  - left. apply negb_true_iff, Z.eqb_neq.
    rewrite <- (Z.mod_unique y 100 (4 * a + b) (4 * c + e + 1)); subst y; lia.
Qed.

(** Converting a day to a date and back. *)
Lemma day_of_civil day y m d : civil day = (y, m, d) → day_of y m d = day.
Proof.
  unfold civil. destruct (year_of day) as [y' r] eqn:E. apply year_of_spec in E as [E _].
  intros [= <- <- <-]. unfold day_of. lia.
Qed.

(** Years added to a date are at least 365 days each, even from 29 February. *)
Lemma days_before_year_add y (n : nat) :
  365 * Z.of_nat n + (if leap y && (0 <? Z.of_nat n) then 1 else 0) + days_before_year y
  ≤ days_before_year (y + Z.of_nat n).
Proof.
  induction n as [|n IH].
  - rewrite Z.add_0_r, andb_false_r. lia.
  - replace (y + Z.of_nat (S n)) with (y + Z.of_nat n + 1) by lia.
    rewrite days_before_year_succ. unfold year_length.
    assert (0 <? Z.of_nat (S n) = true) as -> by (apply Z.ltb_lt; lia). rewrite andb_true_r.
    destruct n as [|n].
    + rewrite Z.add_0_r. destruct (leap y); cbn in *; lia.
    + assert (0 <? Z.of_nat (S n) = true) as Hn by (apply Z.ltb_lt; lia).
      rewrite Hn, andb_true_r in IH.
      destruct (leap (y + Z.of_nat (S n))), (leap y); lia.
Qed.

Lemma AddYears_bound `{LocalZone} (n : nat) t :
  t + 365 * Z.of_nat n * day_ns ≤ AddYears (Z.of_nat n) t.
Proof.
  unfold AddYears. destruct (civil (local_day t)) as [[y m] d] eqn:E.
  apply day_of_civil in E. unfold local_day in E.
  assert (local_ns t = day_ns * (local_ns t / day_ns) + local_ns t mod day_ns) as Hl.
  { apply Z.div_mod. done. }
  unfold local_ns at 1 in Hl.
  enough (day_of y m d + 365 * Z.of_nat n ≤ day_of (y + Z.of_nat n) m d) by (unfold day_ns, second_ns in *; lia).
  unfold day_of. pose proof (days_before_year_add y n) as Hy.
  assert (∀ z, days_before_month z m = nth (Z.to_nat (m - 1)) daysBefore 0
                 + (if leap z && (3 <=? m) then 1 else 0)) as Hm by done.
  rewrite !Hm. destruct n as [|n].
  { replace (y + Z.of_nat 0) with y by lia. lia. }
  assert (0 <? Z.of_nat (S n) = true) as Hn by (apply Z.ltb_lt; lia). rewrite Hn, andb_true_r in Hy.
  destruct (leap y), (leap (y + Z.of_nat (S n))), (3 <=? m); cbn [andb] in *; lia.
Qed.

(** A leap day, a date beside its text, and the date ten years after it. *)
Example civil_leap_day : civil (1582934400 / 86400 + epoch_day) = (2020, 2, 29).
Proof. reflexivity. Qed.
Example format_leap_day :
  format_stamp (H := 3600) (1582934400 * second_ns) = "20200229-010000"%string.
Proof. reflexivity. Qed.
Example leap_day_later :
  AddYears (H := 0) 3 (1582934400 * second_ns) = 1677628800 * second_ns.
Proof. reflexivity. Qed.
