(* ===== verification/Security.v ===== *)
(** * TLS artifacts

    internal/server/security.go, its certificates and keys: four files, a root
    certificate and key and a server certificate and key that the root has
    signed, on the file tree of [OsFs].  The cryptography (RSA, X.509, PEM) is
    the interface [X509]: certificates have the fields that the code sets or
    reads, and [X509Laws] is what the packages document of them.  A call of
    [rand] or [os.Hostname] is an answer in [TLSEnv], and so is its clock,
    which stands still during a call. *)

From stdpp Require Import pretty.
From S2P Require Import Prelude GoStrings FsPath OsFs GoTime.
Open Scope string_scope.
Open Scope Z_scope.
Open Scope list_scope.

Module TLS.

(** ** crypto/rsa, crypto/x509 and encoding/pem *)

(** rsa.PrivateKey, up to its primes. *)
Record PrivateKey := { key_N : Z; key_E : Z; key_D : Z }.

(** The [PublicKey] of a certificate: none in a template. *)
Inductive PublicKey := NoPublicKey | RSAPublicKey (N E : Z) | OtherPublicKey.

Definition public (k : PrivateKey) : PublicKey := RSAPublicKey (key_N k) (key_E k).

Inductive ExtKeyUsage := ExtKeyUsageServerAuth | OtherExtKeyUsage (n : Z).

Definition KeyUsageDigitalSignature : Z := Z.shiftl 1 0.
Definition KeyUsageKeyEncipherment : Z := Z.shiftl 1 2.
Definition KeyUsageCertSign : Z := Z.shiftl 1 5.
Definition KeyUsageCRLSign : Z := Z.shiftl 1 6.

(** x509.Certificate; times in nanoseconds since 1970. *)
Record Certificate := mkCertificate {
  Raw : bytes;
  SerialNumber : Z;
  CommonName : string;
  Organization : list string;
  NotBefore : Z;
  NotAfter : Z;
  KeyUsage : Z;
  ExtKeyUsages : list ExtKeyUsage;
  BasicConstraintsValid : bool;
  IsCA : bool;
  MaxPathLen : Z;
  MaxPathLenZero : bool;
  DNSNames : list string;
  IPAddresses : list (list Z);
  CertPublicKey : PublicKey;
}.

Class X509 := {
  pem_Encode (type : string) (der : bytes) : bytes;       (* pem.EncodeToMemory *)
  pem_Decode (data : bytes) : option bytes;               (* the bytes of the first block *)
  ParseCertificate (der : bytes) : result goerr Certificate;
  ParsePKCS1PrivateKey (der : bytes) : result goerr PrivateKey;
  (* [None]: a key that is not RSA *)
  ParsePKCS8PrivateKey (der : bytes) : result goerr (option PrivateKey);
  MarshalPKCS1PrivateKey (k : PrivateKey) : bytes;
  CreateCertificate (template parent : Certificate) (pub : PublicKey) (signer : PrivateKey)
    : result goerr bytes;
  Verify (now : Z) (roots : list Certificate) (usages : list ExtKeyUsage) (c : Certificate)
    : result goerr unit;
  Subject_String (c : Certificate) : string;              (* c.Subject.String() *)
  X509KeyPair (cert key : bytes) : result goerr unit;     (* tls.X509KeyPair *)
}.

(** A certificate holds whole seconds. *)
Definition to_second (t : Z) : Z := unix_seconds t * second_ns.

(** The fields of a certificate made from a template that its readers use. *)
Record made_from (template : Certificate) (pub : PublicKey) (c : Certificate) : Prop := {
  mf_before : NotBefore c = to_second (NotBefore template);
  mf_after : NotAfter c = to_second (NotAfter template);
  mf_ca : IsCA c = IsCA template;
  mf_names : DNSNames c = DNSNames template;
  mf_public : CertPublicKey c = pub;
}.

Definition in_force (now : Z) (c : Certificate) : Prop := NotBefore c ≤ now ≤ NotAfter c.

(** [c] is what a self-signed [CreateCertificate] made for [k], as a root that
    may sign certificates. *)
Definition own_root `{X509} (k : PrivateKey) (c : Certificate) : Prop :=
  ∃ template der,
    CreateCertificate template template (public k) k = Ok der ∧ ParseCertificate der = Ok c ∧
    IsCA template = true ∧ BasicConstraintsValid template = true ∧
    Z.testbit (KeyUsage template) 5 = true ∧ MaxPathLenZero template = true.

Class X509Laws `{X509} : Prop := {
  pem_round ty der : pem_Decode (pem_Encode ty der) = Some der;
  key_round k : ParsePKCS1PrivateKey (MarshalPKCS1PrivateKey k) = Ok k;
  create_parses template parent pub k der :
    CreateCertificate template parent pub k = Ok der →
    ∃ c, ParseCertificate der = Ok c ∧ made_from template pub c;
  verify_issued now root rk template pub der c :
    own_root rk root → CreateCertificate template root pub rk = Ok der →
    ParseCertificate der = Ok c → IsCA template = false →
    ExtKeyUsages template = [ExtKeyUsageServerAuth] →
    in_force now c → in_force now root →
    Verify now [root] [ExtKeyUsageServerAuth] c = Ok tt;
  keypair_made template parent k signer der ty1 ty2 :
    CreateCertificate template parent (public k) signer = Ok der →
    X509KeyPair (pem_Encode ty1 der) (pem_Encode ty2 (MarshalPKCS1PrivateKey k)) = Ok tt;
  verify_in_force now root usages c :
    Verify now [root] usages c = Ok tt → in_force now c ∧ in_force now root;
}.

(** ** Names and readers *)

Record TLSArtifactsStatus := {
  st_CertPath : string;
  st_KeyPath : string;
  st_RootCertPath : string;
  st_RootKeyPath : string;
  ServerCertExists : bool;
  ServerKeyExists : bool;
  RootCertExists : bool;
  RootKeyExists : bool;
  ServerSubject : string;
  RootSubject : string;
  ServerDNSNames : list string;
  ServerNotBeforeUnix : Z;
  ServerNotAfterUnix : Z;
  RootNotBeforeUnix : Z;
  RootNotAfterUnix : Z;
  RootIsCA : bool;
  ServerValid : bool;
  RootValid : bool;
  OverallValid : bool;
}.

Record TLSRotateOptions := { RotateRootCA : bool; opt_BackupDir : string }.
Record TLSRotateResult := { RotatedRootCA : bool; res_BackupDir : string; res_Status : TLSArtifactsStatus }.

Definition defaultTLSRootCertFileName : string := "roodox-ca-cert.pem".
Definition defaultTLSRootKeyFileName : string := "roodox-ca-key.pem".

Definition tlsRootCertPath (certPath : string) : string :=
  JoinPath (Dir certPath) defaultTLSRootCertFileName.
Definition tlsRootKeyPath (certPath : string) : string :=
  JoinPath (Dir certPath) defaultTLSRootKeyFileName.
Definition tlsRootCertPathForClient (certPath : string) : string := tlsRootCertPath certPath.

Fixpoint containsString `{GoUnicode} (values : list string) (target : string) : bool :=
  match values with
  | [] => false
  | value :: values' => if EqualFold value target then true else containsString values' target
  end.

Section readers.
Context `{X509} (flt : Faults) (dir_size : Z).

Definition parsePEMCertificate (pemData : bytes) : result goerr Certificate :=
  match pem_Decode pemData with
  | None => Err (ErrNew "missing pem certificate block")
  | Some block => ParseCertificate block
  end.

Definition parsePEMRSAPrivateKey (pemData : bytes) : result goerr PrivateKey :=
  match pem_Decode pemData with
  | None => Err (ErrNew "missing pem private key block")
  | Some block =>
      match ParsePKCS1PrivateKey block with
      | Ok key => Ok key
      | Err _ =>
          try privateKey := ParsePKCS8PrivateKey block in
          match privateKey with
          | None => Err (ErrNew "private key is not rsa")
          | Some rsaKey => Ok rsaKey
          end
      end
  end.

Definition readCertificateFile (path : string) (t : OsState) : result goerr Certificate :=
  try pemData := os_ReadFile flt path t in parsePEMCertificate pemData.

Definition readRSAPrivateKeyFile (path : string) (t : OsState) : result goerr PrivateKey :=
  try pemData := os_ReadFile flt path t in parsePEMRSAPrivateKey pemData.

Definition verifyPrivateKeyMatchesCertificate (privateKey : PrivateKey) (cert : Certificate)
  : result goerr unit :=
  match CertPublicKey cert with
  | RSAPublicKey N E =>
      if negb (N =? key_N privateKey) || negb (E =? key_E privateKey)
      then Err (ErrNew "certificate and private key do not match")
      else Ok tt
  | _ => Err (ErrNew "certificate public key is not rsa")
  end.

(** A failure of [os.Stat] counts as absence. *)
Definition fileExists (path : string) (t : OsState) : bool :=
  if bool_decide (TrimSpace path = "") then false
  else is_ok (os_Stat flt dir_size path t).

Definition hasValidTLSArtifacts (now : Z) (certPath keyPath rootCertPath : string) (t : OsState)
  : result goerr bool :=
  if negb (fileExists certPath t) || negb (fileExists keyPath t) || negb (fileExists rootCertPath t)
  then Ok false
  else
    try serverCert := map_err (ErrWrap "read existing tls certificate failed")
                        (readCertificateFile certPath t) in
    try rootCert := map_err (ErrWrap "read existing tls root certificate failed")
                      (readCertificateFile rootCertPath t) in
    try serverKey := map_err (ErrWrap "read existing tls key failed")
                       (readRSAPrivateKeyFile keyPath t) in
    if negb (IsCA rootCert) then Ok false
    else if IsCA serverCert then Ok false
    else
      match verifyPrivateKeyMatchesCertificate serverKey serverCert with
      | Err _ => Ok false
      | Ok _ =>
          match Verify now [rootCert] [ExtKeyUsageServerAuth] serverCert with
          | Err _ => Ok false
          | Ok _ => Ok true
          end
      end.
End readers.

(** [InspectTLSArtifacts]: the status, and the errors met on the way.  The Go
    code declares the certificates it could read as pointers, [nil] at first. *)
Section inspect.
Context `{X509} (flt : Faults) (dir_size : Z) (now : Z).

(** [TLSArtifactsStatus{}] *)
Definition zero_status : TLSArtifactsStatus := {|
  st_CertPath := ""; st_KeyPath := ""; st_RootCertPath := ""; st_RootKeyPath := "";
  ServerCertExists := false; ServerKeyExists := false;
  RootCertExists := false; RootKeyExists := false;
  ServerSubject := ""; RootSubject := ""; ServerDNSNames := [];
  ServerNotBeforeUnix := 0; ServerNotAfterUnix := 0;
  RootNotBeforeUnix := 0; RootNotAfterUnix := 0;
  RootIsCA := false; ServerValid := false; RootValid := false; OverallValid := false;
|}.

Definition empty_status (certPath keyPath : string) (t : OsState) : TLSArtifactsStatus := {|
  st_CertPath := certPath;
  st_KeyPath := keyPath;
  st_RootCertPath := tlsRootCertPath certPath;
  st_RootKeyPath := tlsRootKeyPath certPath;
  ServerCertExists := fileExists flt dir_size certPath t;
  ServerKeyExists := fileExists flt dir_size keyPath t;
  RootCertExists := fileExists flt dir_size (tlsRootCertPath certPath) t;
  RootKeyExists := fileExists flt dir_size (tlsRootKeyPath certPath) t;
  ServerSubject := ""; RootSubject := ""; ServerDNSNames := [];
  ServerNotBeforeUnix := 0; ServerNotAfterUnix := 0;
  RootNotBeforeUnix := 0; RootNotAfterUnix := 0;
  RootIsCA := false; ServerValid := false; RootValid := false; OverallValid := false;
|}.

Definition with_server_cert (c : Certificate) (s : TLSArtifactsStatus) : TLSArtifactsStatus := {|
  st_CertPath := st_CertPath s; st_KeyPath := st_KeyPath s;
  st_RootCertPath := st_RootCertPath s; st_RootKeyPath := st_RootKeyPath s;
  ServerCertExists := ServerCertExists s; ServerKeyExists := ServerKeyExists s;
  RootCertExists := RootCertExists s; RootKeyExists := RootKeyExists s;
  ServerSubject := Subject_String c; RootSubject := RootSubject s;
  ServerDNSNames := DNSNames c;
  ServerNotBeforeUnix := unix_seconds (NotBefore c);
  ServerNotAfterUnix := unix_seconds (NotAfter c);
  RootNotBeforeUnix := RootNotBeforeUnix s; RootNotAfterUnix := RootNotAfterUnix s;
  RootIsCA := RootIsCA s; ServerValid := ServerValid s; RootValid := RootValid s;
  OverallValid := OverallValid s;
|}.

Definition with_root_cert (c : Certificate) (s : TLSArtifactsStatus) : TLSArtifactsStatus := {|
  st_CertPath := st_CertPath s; st_KeyPath := st_KeyPath s;
  st_RootCertPath := st_RootCertPath s; st_RootKeyPath := st_RootKeyPath s;
  ServerCertExists := ServerCertExists s; ServerKeyExists := ServerKeyExists s;
  RootCertExists := RootCertExists s; RootKeyExists := RootKeyExists s;
  ServerSubject := ServerSubject s; RootSubject := Subject_String c;
  ServerDNSNames := ServerDNSNames s;
  ServerNotBeforeUnix := ServerNotBeforeUnix s; ServerNotAfterUnix := ServerNotAfterUnix s;
  RootNotBeforeUnix := unix_seconds (NotBefore c);
  RootNotAfterUnix := unix_seconds (NotAfter c);
  RootIsCA := IsCA c; ServerValid := ServerValid s; RootValid := IsCA c;
  OverallValid := OverallValid s;
|}.

(** The last two fields, set at the end. *)
Definition with_valid (server overall : bool) (s : TLSArtifactsStatus) : TLSArtifactsStatus := {|
  st_CertPath := st_CertPath s; st_KeyPath := st_KeyPath s;
  st_RootCertPath := st_RootCertPath s; st_RootKeyPath := st_RootKeyPath s;
  ServerCertExists := ServerCertExists s; ServerKeyExists := ServerKeyExists s;
  RootCertExists := RootCertExists s; RootKeyExists := RootKeyExists s;
  ServerSubject := ServerSubject s; RootSubject := RootSubject s;
  ServerDNSNames := ServerDNSNames s;
  ServerNotBeforeUnix := ServerNotBeforeUnix s; ServerNotAfterUnix := ServerNotAfterUnix s;
  RootNotBeforeUnix := RootNotBeforeUnix s; RootNotAfterUnix := RootNotAfterUnix s;
  RootIsCA := RootIsCA s; ServerValid := server; RootValid := RootValid s;
  OverallValid := overall;
|}.

(** Reading one artifact that exists: what was read, and the message of the
    error. *)
Definition read_artifact {A} (exists_ : bool) (what : string) (r : result goerr A)
  : option A * list string :=
  if exists_ then
    match r with
    | Err err => (None, [what +:+ ": " +:+ err_text err])
    | Ok a => (Some a, [])
    end
  else (None, []).

Definition check_server (serverCert rootCert : option Certificate) (serverKey : option PrivateKey)
  : bool * list string :=
  match serverCert, serverKey, rootCert with
  | Some serverCert, Some serverKey, Some rootCert =>
      if IsCA rootCert then
        match verifyPrivateKeyMatchesCertificate serverKey serverCert with
        | Ok _ =>
            if negb (IsCA serverCert) then
              match Verify now [rootCert] [ExtKeyUsageServerAuth] serverCert with
              | Ok _ => (true, [])
              | Err err => (false, ["verify server cert: " +:+ err_text err])
              end
            else (false, [])
        | Err err => (false, ["match server cert/key: " +:+ err_text err])
        end
      else (false, [])
  | _, _, _ => (false, [])
  end.

(** The status is returned together with the error. *)
Definition InspectTLSArtifacts (certPath keyPath : string) (t : OsState)
  : TLSArtifactsStatus * option goerr :=
  let certPath := TrimSpace certPath in
  let keyPath := TrimSpace keyPath in
  if bool_decide (certPath = "") || bool_decide (keyPath = "")
  then (zero_status, Some (ErrNew "tls cert/key path is empty"))
  else
    let status := empty_status certPath keyPath t in
    let (serverCert, errs1) := read_artifact (ServerCertExists status) "read server cert"
                                 (readCertificateFile flt certPath t) in
    let status := match serverCert with Some c => with_server_cert c status | None => status end in
    let (rootCert, errs2) := read_artifact (RootCertExists status) "read root cert"
                               (readCertificateFile flt (st_RootCertPath status) t) in
    let status := match rootCert with Some c => with_root_cert c status | None => status end in
    let (serverKey, errs3) := read_artifact (ServerKeyExists status) "read server key"
                                (readRSAPrivateKeyFile flt keyPath t) in
    let (server_valid, errs4) := check_server serverCert rootCert serverKey in
    let status := with_valid server_valid
                    (server_valid && RootValid status && ServerKeyExists status) status in
    let errs := errs1 ++ errs2 ++ errs3 ++ errs4 in
    if 0 <? Z.of_nat (length errs) then (status, Some (ErrNew (Join "; " errs)))
    else (status, None).
End inspect.

(** ** Making certificates *)

(** What the calls of [rand] and the host answer; a key and a serial number
    for the root certificate, and for the server's. *)
Inductive artifact := RootArtifact | ServerArtifact.

Record TLSEnv := {
  te_now : Z;
  te_hostname : result goerr string;              (* os.Hostname *)
  te_key : artifact → result goerr PrivateKey;    (* rsa.GenerateKey *)
  te_serial : artifact → result goerr Z;          (* rand.Int, below 2^128 *)
}.

Section generate.
Context `{X509} `{LocalZone} `{GoUnicode} (env : TLSEnv).

Definition newCertificateSerialNumber (a : artifact) : result goerr Z := te_serial env a.

Definition rootCATemplate : result goerr Certificate :=
  try serialNumber := map_err (ErrWrap "generate tls root serial failed")
                        (newCertificateSerialNumber RootArtifact) in
  Ok {|
    Raw := [];
    SerialNumber := serialNumber;
    CommonName := "Roodox Root CA";
    Organization := ["Roodox"];
    NotBefore := te_now env - hour_ns;
    NotAfter := AddYears 10 (te_now env);
    KeyUsage := Z.lor (Z.lor KeyUsageCertSign KeyUsageCRLSign) KeyUsageDigitalSignature;
    ExtKeyUsages := [];
    BasicConstraintsValid := true;
    IsCA := true;
    MaxPathLen := 0;
    MaxPathLenZero := true;
    DNSNames := [];
    IPAddresses := [];
    CertPublicKey := NoPublicKey;
  |}.

Definition server_names : list string :=
  let dnsNames := ["localhost"] in
  match te_hostname env with
  | Err _ => dnsNames
  | Ok host =>
      let host := TrimSpace host in
      if negb (bool_decide (host = "")) && negb (containsString dnsNames host)
      then dnsNames ++ [host] else dnsNames
  end.

(** net.ParseIP: sixteen bytes. *)
Definition ip_loopback4 : list Z := replicate 10 0 ++ [255; 255; 127; 0; 0; 1].
Definition ip_loopback6 : list Z := replicate 15 0 ++ [1].

Definition serverCertificateTemplate : result goerr Certificate :=
  try serialNumber := map_err (ErrWrap "generate tls serial failed")
                        (newCertificateSerialNumber ServerArtifact) in
  Ok {|
    Raw := [];
    SerialNumber := serialNumber;
    CommonName := "Roodox Server";
    Organization := ["Roodox"];
    NotBefore := te_now env - hour_ns;
    NotAfter := AddYears 3 (te_now env);
    KeyUsage := Z.lor KeyUsageDigitalSignature KeyUsageKeyEncipherment;
    ExtKeyUsages := [ExtKeyUsageServerAuth];
    BasicConstraintsValid := true;
    IsCA := false;
    MaxPathLen := 0;
    MaxPathLenZero := false;
    DNSNames := server_names;
    IPAddresses := [ip_loopback4; ip_loopback6];
    CertPublicKey := NoPublicKey;
  |}.

Definition generateRootCA : result goerr (bytes * bytes) :=
  try privateKey := map_err (ErrWrap "generate tls root key failed") (te_key env RootArtifact) in
  try template := rootCATemplate in
  try certDER := map_err (ErrWrap "create tls root certificate failed")
                   (CreateCertificate template template (public privateKey) privateKey) in
  Ok (pem_Encode "CERTIFICATE" certDER,
      pem_Encode "RSA PRIVATE KEY" (MarshalPKCS1PrivateKey privateKey)).

Definition generateServerCertificate (rootCert : Certificate) (rootKey : PrivateKey)
  : result goerr (bytes * bytes) :=
  try privateKey := map_err (ErrWrap "generate tls key failed") (te_key env ServerArtifact) in
  try template := serverCertificateTemplate in
  try certDER := map_err (ErrWrap "create tls certificate failed")
                   (CreateCertificate template rootCert (public privateKey) rootKey) in
  Ok (pem_Encode "CERTIFICATE" certDER,
      pem_Encode "RSA PRIVATE KEY" (MarshalPKCS1PrivateKey privateKey)).
End generate.

(** ** Writing artifacts *)

Section writers.
Context `{X509} `{LocalZone} `{GoUnicode} (flt : Faults) (dir_size : Z) (env : TLSEnv).
Abbreviation now := (te_now env).

Definition temp_name (path : string) : string :=
  "." +:+ Base path +:+ ".tmp-" +:+ pretty now.

Definition writeFileAtomically (path : string) (data : bytes) : go OsState goerr unit :=
  let! _ := os_MkdirAll flt now (Dir path) in
  let tempPath := JoinPath (Dir path) (temp_name path) in
  let! _ := os_WriteFile flt now tempPath data in
  catch! removed := os_Remove flt path in
  let renamed : go OsState goerr unit :=
    catch! moved := os_Rename flt tempPath path in
    match moved with
    | Err err => catch! _ := os_Remove flt tempPath in go_fail err
    | Ok _ => go_ret tt
    end in
  match removed with
  | Err err =>
      if negb (errors_Is err ErrNotExist)
      then catch! _ := os_Remove flt tempPath in go_fail err
      else renamed
  | Ok _ => renamed
  end.

Definition copySmallFile (src dst : string) : go OsState goerr unit :=
  let! data := go_read (os_ReadFile flt src) in
  let! _ := go_read (os_Stat flt dir_size src) in
  writeFileAtomically dst data.

Fixpoint backup_files (backupDir : string) (paths : list string) : go OsState goerr unit :=
  match paths with
  | [] => go_ret tt
  | path :: paths' =>
      let! present := go_get (fileExists flt dir_size path) in
      if negb present then backup_files backupDir paths'
      else
        let! _ := copySmallFile path (JoinPath backupDir (Base path)) in
        backup_files backupDir paths'
  end.

Definition backupTLSArtifacts (certPath keyPath rootCertPath rootKeyPath backupDir : string)
  : go OsState goerr string :=
  let paths := [certPath; keyPath; rootCertPath; rootKeyPath] in
  let! hasAny := go_get (λ t, existsb (λ path, fileExists flt dir_size path t) paths) in
  if negb hasAny then go_ret ""
  else
    let backupDir := TrimSpace backupDir in
    let backupDir :=
      if bool_decide (backupDir = "")
      then JoinPath (JoinPath (Dir certPath) "archive") ("tls-rotation-" +:+ format_stamp now)
      else backupDir in
    let! _ := os_MkdirAll flt now backupDir in
    let! _ := backup_files backupDir paths in
    go_ret backupDir.

Definition makeDirs (certPath keyPath rootCertPath rootKeyPath : string) : go OsState goerr unit :=
  let! _ := go_map_err (ErrWrap "create cert dir failed") (os_MkdirAll flt now (Dir certPath)) in
  let! _ := go_map_err (ErrWrap "create key dir failed") (os_MkdirAll flt now (Dir keyPath)) in
  let! _ := go_map_err (ErrWrap "create root cert dir failed") (os_MkdirAll flt now (Dir rootCertPath)) in
  go_map_err (ErrWrap "create root key dir failed") (os_MkdirAll flt now (Dir rootKeyPath)).

(** A usable root on disk is kept; anything else is replaced. *)
Definition existing_root (certPath keyPath : string)
  : go OsState goerr (option (Certificate * PrivateKey)) :=
  let! present := go_get (λ t, fileExists flt dir_size certPath t && fileExists flt dir_size keyPath t) in
  if present then
    let! cert := go_map_err (ErrWrap "read tls root certificate failed")
                   (go_read (readCertificateFile flt certPath)) in
    let! key := go_map_err (ErrWrap "read tls root key failed")
                  (go_read (readRSAPrivateKeyFile flt keyPath)) in
    go_ret (if IsCA cert then Some (cert, key) else None)
  else go_ret None.

Definition loadOrCreateRootCA (certPath keyPath : string)
  : go OsState goerr (Certificate * PrivateKey) :=
  let! existing := existing_root certPath keyPath in
  match existing with
  | Some root => go_ret root
  | None =>
      let! (rootCertPEM, rootKeyPEM) := go_lift (generateRootCA env) in
      let! _ := go_map_err (ErrWrap "write tls root certificate failed")
                  (os_WriteFile flt now certPath rootCertPEM) in
      let! _ := go_map_err (ErrWrap "write tls root key failed")
                  (os_WriteFile flt now keyPath rootKeyPEM) in
      let! cert := go_lift (map_err (ErrWrap "parse generated tls root certificate failed")
                              (parsePEMCertificate rootCertPEM)) in
      let! key := go_lift (map_err (ErrWrap "parse generated tls root key failed")
                             (parsePEMRSAPrivateKey rootKeyPEM)) in
      go_ret (cert, key)
  end.

Definition ensureServerCertificate (certPath keyPath : string) : go OsState goerr unit :=
  let rootCertPath := tlsRootCertPath certPath in
  let rootKeyPath := tlsRootKeyPath certPath in
  let! valid := go_read (hasValidTLSArtifacts flt dir_size now certPath keyPath rootCertPath) in
  if valid then go_ret tt
  else
    let! _ := makeDirs certPath keyPath rootCertPath rootKeyPath in
    let! (rootCert, rootKey) := loadOrCreateRootCA rootCertPath rootKeyPath in
    let! (serverCertPEM, serverKeyPEM) := go_lift (generateServerCertificate env rootCert rootKey) in
    let! _ := go_map_err (ErrWrap "write tls certificate failed")
                (os_WriteFile flt now certPath serverCertPEM) in
    go_map_err (ErrWrap "write tls key failed") (os_WriteFile flt now keyPath serverKeyPEM).

(** [credentials.NewServerTLSFromFile]: the two files, as a key pair. *)
Definition NewServerTLSFromFile (certPath keyPath : string) : go OsState goerr (bytes * bytes) :=
  let! cert := go_read (os_ReadFile flt certPath) in
  let! key := go_read (os_ReadFile flt keyPath) in
  let! _ := go_lift (X509KeyPair cert key) in
  go_ret (cert, key).

Definition loadServerTLSCredentials (certPath keyPath : string) : go OsState goerr (bytes * bytes) :=
  let certPath := TrimSpace certPath in
  let keyPath := TrimSpace keyPath in
  if bool_decide (certPath = "") || bool_decide (keyPath = "")
  then go_fail (ErrNew "tls is enabled but cert/key path is empty")
  else
    let! _ := ensureServerCertificate certPath keyPath in
    go_map_err (ErrWrap "load tls certificate failed") (NewServerTLSFromFile certPath keyPath).

Definition rotation_root (rotate : bool) (rootCertPath rootKeyPath : string)
  : go OsState goerr (Certificate * PrivateKey * bytes * bytes) :=
  if rotate then
    let! (rootCertPEM, rootKeyPEM) := go_lift (generateRootCA env) in
    let! rootCert := go_lift (map_err (ErrWrap "parse generated tls root certificate failed")
                                (parsePEMCertificate rootCertPEM)) in
    let! rootKey := go_lift (map_err (ErrWrap "parse generated tls root key failed")
                               (parsePEMRSAPrivateKey rootKeyPEM)) in
    go_ret (rootCert, rootKey, rootCertPEM, rootKeyPEM)
  else
    let! present := go_get (λ t, fileExists flt dir_size rootCertPath t
                                 && fileExists flt dir_size rootKeyPath t) in
    if negb present
    then go_fail (ErrNew "existing root ca artifacts are missing; rotate root ca instead")
    else
      let! rootCert := go_map_err (ErrWrap "read tls root certificate failed")
                         (go_read (readCertificateFile flt rootCertPath)) in
      let! rootKey := go_map_err (ErrWrap "read tls root key failed")
                        (go_read (readRSAPrivateKeyFile flt rootKeyPath)) in
      if negb (IsCA rootCert)
      then go_fail (ErrNew "existing root certificate is not a ca; rotate root ca instead")
      else go_ret (rootCert, rootKey, [], []).

Definition RotateTLSArtifacts (certPath keyPath : string) (options : TLSRotateOptions)
  : go OsState goerr TLSRotateResult :=
  let certPath := TrimSpace certPath in
  let keyPath := TrimSpace keyPath in
  if bool_decide (certPath = "") || bool_decide (keyPath = "")
  then go_fail (ErrNew "tls cert/key path is empty")
  else
    let rootCertPath := tlsRootCertPath certPath in
    let rootKeyPath := tlsRootKeyPath certPath in
    let! _ := makeDirs certPath keyPath rootCertPath rootKeyPath in
    let! backupDir := backupTLSArtifacts certPath keyPath rootCertPath rootKeyPath
                        (opt_BackupDir options) in
    let! (rootCert, rootKey, rootCertPEM, rootKeyPEM) :=
      rotation_root (RotateRootCA options) rootCertPath rootKeyPath in
    let! (serverCertPEM, serverKeyPEM) := go_lift (generateServerCertificate env rootCert rootKey) in
    let! _ :=
      (if RotateRootCA options then
         let! _ := go_map_err (ErrWrap "write tls root certificate failed")
                     (writeFileAtomically rootCertPath rootCertPEM) in
         go_map_err (ErrWrap "write tls root key failed") (writeFileAtomically rootKeyPath rootKeyPEM)
       else go_ret tt) in
    let! _ := go_map_err (ErrWrap "write tls certificate failed")
                (writeFileAtomically certPath serverCertPEM) in
    let! _ := go_map_err (ErrWrap "write tls key failed") (writeFileAtomically keyPath serverKeyPEM) in
    let! inspected := go_get (InspectTLSArtifacts flt dir_size now certPath keyPath) in
    match inspected with
    | (status, Some err) => go_fail err
    | (status, None) =>
        go_ret {| RotatedRootCA := RotateRootCA options; res_BackupDir := backupDir; res_Status := status |}
    end.

Definition ExportTLSRootCertificate (certPath destPath : string) : go OsState goerr unit :=
  let certPath := TrimSpace certPath in
  let destPath := TrimSpace destPath in
  if bool_decide (certPath = "") || bool_decide (destPath = "")
  then go_fail (ErrNew "tls cert path and destination path are required")
  else
    let rootCertPath := tlsRootCertPath certPath in
    let! rootPEM := go_map_err (ErrWrap "read tls root certificate failed")
                      (go_read (os_ReadFile flt rootCertPath)) in
    writeFileAtomically destPath rootPEM.
End writers.
End TLS.
