(* ===== verification/Artifacts.v ===== *)
(** * Files on the tree

    Reasoning about a handful of files that are written side by side, whatever
    fails.  [frame] bounds what a call changes; a [site] is a set of paths
    that can hold files, and on a site the contents of the files ([content])
    say all that the readers see.  [writeFileAtomically] of
    internal/server/security.go gets its contract here: what it leaves
    behind when it succeeds and when it fails. *)

From stdpp Require Import pretty.
From S2P Require Import Prelude GoStrings StringLists FsPath OsFs Writes GoTime Security.
Open Scope string_scope.
Open Scope Z_scope.
Open Scope list_scope.

(** ** Paths and lookups *)

Lemma Base_abs_path ws w :
  Forall plain ws → plain w → Base (abs_path (ws ++ [w])) = w.
Proof.
  intros Hws Hw. unfold Base. rewrite decide_False by done.
  rewrite Split_abs_path, Split_Join_sep.
  2:{ by destruct ws. }
  2:{ apply plain_no_char, Forall_app. split; [done | by constructor]. }
  assert (∀ l : list string, filter (λ x, x ≠ "") (l ++ [w]) = filter (λ x, x ≠ "") l ++ [w]) as Hf.
  { intros l. rewrite filter_app. f_equal. rewrite filter_cons_True; [done|]. by destruct Hw. }
  change ("" :: ws ++ [w]) with (("" :: ws) ++ [w]). by rewrite Hf, last_snoc.
Qed.

Lemma pretty_N_go_no_slash x s : no_char slash s = true → no_char slash (pretty_N_go x s) = true.
Proof.
  revert s. induction (N.lt_wf_0 x) as [x _ IH]; intros s Hs.
  assert (x = 0 ∨ 0 < x)%N as [-> | Hx] by lia; [by rewrite pretty_N_go_0|].
  rewrite pretty_N_go_step by done. apply IH; [by apply N.div_lt|].
  simpl. rewrite Hs, andb_true_r. unfold pretty_N_char. by repeat case_match.
Qed.

Lemma pretty_no_slash (z : Z) : no_char slash (pretty z) = true.
Proof.
  assert (∀ n : N, no_char slash (pretty n) = true) as Hn.
  { intros n. unfold pretty, pretty_N. case_decide; [done|]. by apply pretty_N_go_no_slash. }
  destruct z as [|p|p]; [done|apply (Hn (N.pos p))|].
  change (no_char slash ("-" +:+ pretty (N.pos p)) = true).
  by rewrite no_char_append, Hn.
Qed.

(** A lookup succeeds where the node is there and directories lead to it. *)
Definition linked (t : OsState) (k : list string) : Prop :=
  ∀ pre, pre `prefix_of` k → pre ≠ k → ∃ mt, node_at t pre = Some (DirNode mt).

Lemma prefix_snoc {A} (pre k : list A) x :
  pre `prefix_of` (k ++ [x]) → pre ≠ k ++ [x] → pre `prefix_of` k.
Proof.
  intros [l Hl] Hne. destruct l as [|y l _] using rev_ind.
  - rewrite app_nil_r in Hl. congruence.
  - rewrite app_assoc in Hl. apply app_inj_tail in Hl as [-> _]. by eexists.
Qed.

Lemma os_lookup_linked t k n : os_lookup t k = Ok n ↔ node_at t k = Some n ∧ linked t k.
Proof.
  revert n. induction k as [|c k IH] using rev_ind; intros n.
  - unfold os_lookup. simpl. destruct (node_at t []) eqn:E.
    + split; [|naive_solver]. intros [= ->]. split; [done|].
      intros pre Hp Hne. by apply prefix_nil_inv in Hp.
    + naive_solver.
  - unfold os_lookup. rewrite walk_app by done. fold (os_lookup t k). simpl. split.
    + destruct (os_lookup t k) as [[mt|]|] eqn:E; [|done..].
      destruct (proj1 (IH _) eq_refl) as [En Hl]. rewrite En.
      destruct (node_at t (k ++ [c])) eqn:Ec; [|done]. intros [= ->]. split; [done|].
      intros pre Hp Hne. apply prefix_snoc in Hp; [|done].
      destruct (decide (pre = k)) as [-> | Hk]; [eauto|by apply Hl].
    + intros [En Hl].
      assert (∃ mt, node_at t k = Some (DirNode mt)) as [mt Hk].
      { apply Hl; [by eexists|]. intros E%(f_equal length). rewrite length_app in E. simpl in E. lia. }
      assert (os_lookup t k = Ok (DirNode mt)) as ->.
      { apply IH. split; [done|]. intros pre Hp Hne. apply Hl; [by apply prefix_app_r|].
        intros ->. apply prefix_length in Hp. rewrite length_app in Hp. simpl in Hp. lia. }
      by rewrite Hk, En.
Qed.

Lemma os_lookup_Err_node t k e : linked t k → os_lookup t k = Err e → node_at t k = None.
Proof.
  intros Hl He. destruct (node_at t k) as [n|] eqn:En; [|done].
  assert (os_lookup t k = Ok n) as E by (by apply os_lookup_linked). congruence.
Qed.

Lemma linked_parent t k : k ≠ [] →
  linked t k ↔ ∃ mt, os_lookup t (removelast k) = Ok (DirNode mt).
Proof.
  intros Hne. destruct (exists_last Hne) as (ks & c & ->). rewrite removelast_last. split.
  - intros Hl. destruct (Hl ks) as [mt Hmt]; [by eexists| |].
    { intros E%(f_equal length). rewrite length_app in E. simpl in E. lia. }
    exists mt. apply os_lookup_linked. split; [done|]. intros pre Hp Hn.
    apply Hl; [by apply prefix_app_r|]. intros ->. apply prefix_length in Hp.
    rewrite length_app in Hp. simpl in Hp. lia.
  - intros [mt [Hn Hl]%os_lookup_linked] pre Hp Hne'. apply prefix_snoc in Hp; [|done].
    destruct (decide (pre = ks)) as [-> | Hk]; [eauto|by apply Hl].
Qed.

(** ** What a call may change

    At most the keys of [ks]; beyond them only new directories on the way to
    [dir]. *)
Record frame (ks : list (list string)) (dir : list string) (t t' : OsState) : Prop := {
  fr_keep q : q ∉ ks → is_Some (node_at t q) → node_at t' q = node_at t q;
  fr_new q : q ∉ ks → node_at t q = None → node_at t' q ≠ None →
    q `prefix_of` dir ∧ ∃ mt, node_at t' q = Some (DirNode mt);
}.

#[export] Instance frame_preorder ks dir : PreOrder (frame ks dir).
Proof.
  split.
  - intros t. split; [done|]. intros q _ Hn Hs. congruence.
  - intros t1 t2 t3 [K1 N1] [K2 N2]. split.
    + intros q Hq Hs. specialize (K1 q Hq Hs). rewrite K2; [done|done|by rewrite K1].
    + intros q Hq Hn Hs. destruct (node_at t2 q) as [n|] eqn:E.
      * destruct (N1 q Hq Hn) as [Hp [mt Hmt]]; [by rewrite E|].
        split; [done|]. exists mt. rewrite K2; [congruence|done|by rewrite E].
      * by apply N2.
Qed.

Lemma frame_mono ks ks' dir t t' : ks ⊆ ks' → frame ks dir t t' → frame ks' dir t t'.
Proof. intros Hs [K N]. split; intros q Hq; [apply K|apply N]; set_solver. Qed.

(** A key off the way to the directory is left alone. *)
Lemma frame_other ks dir t t' q :
  frame ks dir t t' → q ∉ ks → ¬ q `prefix_of` dir → node_at t' q = node_at t q.
Proof.
  intros [K N] Hq Hd. destruct (node_at t q) as [n|] eqn:E.
  - rewrite <- E. apply K; [done|by rewrite E].
  - destruct (node_at t' q) eqn:E'; [|done]. destruct (N q) as [Hp _]; [done|done|congruence|done].
Qed.

Lemma frame_linked ks dir t t' q :
  frame ks dir t t' → (∀ x, x ∈ ks → x `prefix_of` q → x = q) → linked t q → linked t' q.
Proof.
  intros [K _] Hks Hl pre Hp Hne. destruct (Hl pre Hp Hne) as [mt Hmt]. exists mt.
  rewrite K; [done| |by rewrite Hmt]. intros Hin. by apply Hne, Hks.
Qed.

Lemma frame_insert k dir t n : frame [k] dir t (<[k := n]> t).
Proof.
  split; intros q Hq.
  - intros _. apply node_at_insert_ne. set_solver.
  - intros Hn Hs. rewrite node_at_insert_ne in Hs; [congruence|set_solver].
Qed.

Lemma node_at_delete_ne t k q : k ≠ q → node_at (delete k t) q = node_at t q.
Proof. intros Hne. unfold node_at. by rewrite lookup_delete_ne. Qed.
Lemma node_at_delete_eq t k : k ≠ [] → node_at (delete k t) k = None.
Proof. intros Hne. unfold node_at. by rewrite lookup_delete_eq, decide_False. Qed.

Lemma frame_delete k dir t : frame [k] dir t (delete k t).
Proof.
  split; intros q Hq.
  - intros _. apply node_at_delete_ne. set_solver.
  - intros Hn Hs. rewrite node_at_delete_ne in Hs; [congruence|set_solver].
Qed.

(** ** Calls of package [os] *)

Lemma linked_snoc t k c :
  linked t (k ++ [c]) ↔ linked t k ∧ ∃ mt, node_at t k = Some (DirNode mt).
Proof.
  rewrite linked_parent by (by destruct k). rewrite removelast_last.
  setoid_rewrite os_lookup_linked. naive_solver.
Qed.

Lemma snoc_ne {A} (k : list A) c : k ++ [c] ≠ k.
Proof. intros E%(f_equal length). rewrite length_app in E. simpl in E. lia. Qed.

Lemma linked_insert t k n : linked t k → linked (<[k := n]> t) k.
Proof. intros Hl. apply (frame_linked [k] [] t); [apply frame_insert|set_solver|done]. Qed.

Section calls.
Context (flt : Faults) (now : Z).

Lemma mkdirs_frame pre rest t : frame [] (pre ++ rest) t (mkdirs flt now pre rest t).1.
Proof.
  revert pre t. induction rest as [|c rest IH]; intros pre t; simpl; [reflexivity|].
  assert (pre ++ c :: rest = (pre ++ [c]) ++ rest) as -> by (by rewrite <- app_assoc).
  destruct (node_at t (pre ++ [c])) as [[mt|]|] eqn:En; simpl; [apply IH|reflexivity|].
  destruct (flt _ _); simpl; [reflexivity|].
  etrans; [|apply IH]. split; intros q _.
  - intros Hs. apply node_at_insert_ne. intros <-. rewrite En in Hs. by destruct Hs.
  - intros Hn Hs. destruct (decide (pre ++ [c] = q)) as [<- | Hne].
    + split; [by eexists|]. rewrite node_at_insert_eq. eauto.
    + by rewrite node_at_insert_ne in Hs.
Qed.

Lemma mkdirs_lookup pre rest t t' mt0 :
  os_lookup t pre = Ok (DirNode mt0) → mkdirs flt now pre rest t = (t', Ok tt) →
  ∃ mt, os_lookup t' (pre ++ rest) = Ok (DirNode mt).
Proof.
  revert pre t mt0. induction rest as [|c rest IH]; intros pre t mt0 Hpre Hm; simpl in Hm.
  { injection Hm as <-. rewrite app_nil_r. eauto. }
  assert (pre ++ c :: rest = (pre ++ [c]) ++ rest) as -> by (by rewrite <- app_assoc).
  assert (linked t (pre ++ [c])) as Hl.
  { apply linked_snoc. apply os_lookup_linked in Hpre as []. eauto. }
  destruct (node_at t (pre ++ [c])) as [[mt|]|] eqn:En; [|done|].
  - eapply IH; [|done]. by apply os_lookup_linked.
  - destruct (flt _ _); [done|]. eapply IH; [|done]. apply os_lookup_linked.
    split; [apply node_at_insert_eq|by apply linked_insert].
Qed.

Section on_path.
Context (k : list string) (Hpl : Forall plain k) (Hne : k ≠ []).
Abbreviation path := (abs_path k).

Lemma MkdirAll_Dir_frame t : frame [] (removelast k) t (os_MkdirAll flt now (Dir path) t).1.
Proof.
  destruct (exists_last Hne) as (ks & c & E). unfold os_MkdirAll.
  assert (path_key (Dir path) = removelast k) as ->.
  { rewrite E in Hpl |- *. apply Forall_app in Hpl as [Hks Hc]. apply Forall_cons in Hc as [Hc _].
    by rewrite Dir_abs_path, path_key_abs_path, removelast_last. }
  apply (mkdirs_frame []).
Qed.

Lemma MkdirAll_Dir_linked t t' mt0 :
  node_at t [] = Some (DirNode mt0) → os_MkdirAll flt now (Dir path) t = (t', Ok tt) → linked t' k.
Proof.
  destruct (exists_last Hne) as (ks & c & E). unfold os_MkdirAll.
  assert (path_key (Dir path) = ks) as ->.
  { rewrite E in Hpl |- *. apply Forall_app in Hpl as [Hks Hc]. apply Forall_cons in Hc as [Hc _].
    by rewrite Dir_abs_path, path_key_abs_path. }
  intros H0 Hm. eapply (mkdirs_lookup []) in Hm.
  - rewrite E. apply linked_snoc. by setoid_rewrite os_lookup_linked in Hm; naive_solver.
  - unfold os_lookup. simpl. by rewrite H0.
Qed.

Lemma WriteFile_frame d dir t : frame [k] dir t (os_WriteFile flt now path d t).1.
Proof.
  unfold os_WriteFile, os_OpenCreate, go_bind. rewrite path_key_abs_path by done.
  assert (∀ c, frame [k] dir t (os_write flt "write" now path d (<[k := FileNode c now]> t)).1) as Hw.
  { intros c. unfold os_write. rewrite path_key_abs_path by done.
    destruct (flt "write" path); simpl; [apply frame_insert|].
    rewrite insert_insert_eq. apply frame_insert. }
  destruct (flt "open" path); [reflexivity|].
  destruct (os_lookup t k) as [[|c m]|[]]; simpl; try reflexivity; [apply Hw|].
  destruct (os_lookup t (removelast k)); [apply Hw|reflexivity].
Qed.

Lemma WriteFile_Ok d t t' :
  os_WriteFile flt now path d t = (t', Ok tt) →
  node_at t' k = Some (FileNode d now) ∧ linked t' k.
Proof.
  unfold os_WriteFile, os_OpenCreate, go_bind, os_write. rewrite !path_key_abs_path by done.
  destruct (flt "open" path); [done|].
  assert (∀ c, linked t k →
    match flt "write" path with
    | Some e => (<[k := FileNode c now]> t, Err (ErrPath "write" path e))
    | None => (<[k := FileNode d now]> (<[k := FileNode c now]> t), Ok tt)
    end = (t', Ok tt) → node_at t' k = Some (FileNode d now) ∧ linked t' k) as Hw.
  { intros c Hl. destruct (flt "write" path); [done|]. intros [= <-].
    rewrite node_at_insert_eq. split; [done|]. by apply linked_insert, linked_insert. }
  destruct (os_lookup t k) as [[|c m]|[]] eqn:E; try done; simpl.
  - apply Hw. by apply os_lookup_linked in E as [].
  - destruct (os_lookup t (removelast k)) as [[mt|c m]|] eqn:Ep; [| |done].
    + apply Hw. apply linked_parent; [done|eauto].
    + exfalso. destruct (exists_last Hne) as (ks & x & Hk). rewrite Hk, removelast_last in Ep.
      unfold os_lookup in E, Ep. rewrite Hk, walk_app in E by done. by rewrite Ep in E.
Qed.

Lemma WriteFile_file d t mt :
  (∀ mt, node_at t k ≠ Some (DirNode mt)) →
  node_at (os_WriteFile flt now path d t).1 k ≠ Some (DirNode mt).
Proof.
  intros Hnd. unfold os_WriteFile, os_OpenCreate, go_bind, os_write.
  rewrite !path_key_abs_path by done.
  destruct (flt "open" path); [apply Hnd|].
  destruct (os_lookup t k) as [[|c m]|[]]; simpl; try apply Hnd.
  2: destruct (os_lookup t (removelast k)); [|apply Hnd].
  all: simpl; destruct (flt "write" path); simpl; by rewrite node_at_insert_eq.
Qed.

Lemma Remove_file t :
  linked t k → (∀ mt, node_at t k ≠ Some (DirNode mt)) →
  os_Remove flt path t =
    match flt "remove" path, node_at t k with
    | Some e, _ => (t, Err (ErrPath "remove" path e))
    | None, None => (t, Err (ErrPath "remove" path ENOENT))
    | None, Some _ => (delete k t, Ok tt)
    end.
Proof.
  intros Hl Hnd. unfold os_Remove. rewrite path_key_abs_path by done.
  destruct (flt "remove" path); [done|].
  destruct (node_at t k) as [[mt|c m]|] eqn:En.
  - by destruct (Hnd mt).
  - assert (os_lookup t k = Ok (FileNode c m)) as -> by (by apply os_lookup_linked). done.
  - rewrite os_lookup_None; [done|done| |done]. by apply linked_parent.
Qed.
End on_path.

Lemma Rename_file old new t n :
  Forall plain old → Forall plain new → new ≠ [] → old ≠ new →
  os_lookup t old = Ok n → is_dir n = false →
  linked t new → (∀ mt, node_at t new ≠ Some (DirNode mt)) →
  os_Rename flt (abs_path old) (abs_path new) t =
    match flt "rename" (abs_path old) with
    | Some e => (t, Err (ErrLink "rename" (abs_path old) (abs_path new) e))
    | None => (<[new := n]> (delete old t), Ok tt)
    end.
Proof.
  intros Ho Hn Hne Hon Hold Hfile Hl Hnd. unfold os_Rename.
  rewrite !path_key_abs_path by done. destruct (flt _ _); [done|]. rewrite Hold.
  destruct n as [|c m]; [done|].
  destruct (proj1 (linked_parent t new Hne) Hl) as [mt Hp].
  assert (os_lookup t new = Err ENOENT ∨ ∃ c' m', os_lookup t new = Ok (FileNode c' m')) as Hnew.
  { destruct (node_at t new) as [[mt'|c' m']|] eqn:En.
    - by destruct (Hnd mt').
    - right. exists c', m'. by apply os_lookup_linked.
    - left. apply os_lookup_None; eauto. }
  destruct Hnew as [-> | (c' & m' & ->)]; simpl; rewrite Hp; by rewrite decide_False.
Qed.
End calls.

(** ** Sites *)

Definition content (t : OsState) (k : list string) : option bytes :=
  match node_at t k with Some (FileNode c _) => Some c | _ => None end.

Section site.
Context (env : TLS.TLSEnv).
Abbreviation now := (TLS.te_now env).

(** The temporary file beside [k]. *)
Definition temp_key (k : list string) : list string :=
  removelast k ++ [TLS.temp_name env (abs_path k)].

Definition no_temp (w : string) : Prop := ∀ b, w ≠ "." +:+ b +:+ ".tmp-" +:+ pretty now.

(** Paths of which none leads through another, or through a temporary file. *)
Record layout (ks : list (list string)) : Prop := {
  ly_plain k : k ∈ ks → Forall plain k;
  ly_nonempty k : k ∈ ks → k ≠ [];
  ly_apart k q : k ∈ ks → q ∈ ks → k `prefix_of` q → k = q;
  ly_temps k : k ∈ ks → Forall no_temp k;
}.

(** A tree that has or can have a file at each of the paths. *)
Record site (ks : list (list string)) (t : OsState) : Prop := {
  si_way k pre c mt : k ∈ ks → pre `prefix_of` k → pre ≠ k → node_at t pre ≠ Some (FileNode c mt);
  si_file k mt : k ∈ ks → node_at t k ≠ Some (DirNode mt);
  si_temp k mt : k ∈ ks → node_at t (temp_key k) ≠ Some (DirNode mt);
  si_linked k : k ∈ ks → is_Some (node_at t k) → linked t k;
}.

Lemma temp_key_ends k pre : temp_key k `prefix_of` pre → ¬ Forall no_temp pre.
Proof.
  intros [l ->] Hf. apply Forall_app in Hf as [Hf _]. apply Forall_app in Hf as [_ Hf].
  apply Forall_cons in Hf as [Hf _]. by eapply Hf.
Qed.

Lemma prefix_Forall {A} (P : A → Prop) pre k : pre `prefix_of` k → Forall P k → Forall P pre.
Proof. intros [l ->] Hf. by apply Forall_app in Hf as []. Qed.

Lemma removelast_prefix {A} (k : list A) : removelast k `prefix_of` k.
Proof.
  destruct k as [|x k _] using rev_ind; [done|]. rewrite removelast_last. by eexists.
Qed.

Section layout.
Context (ks : list (list string)) (HL : layout ks).

(** A call that works on [k] and its temporary file leaves the rest of the site
    as it is. *)
Lemma site_step k t t' :
  k ∈ ks → site ks t → frame [k; temp_key k] (removelast k) t t' →
  (∀ mt, node_at t' k ≠ Some (DirNode mt)) → (∀ mt, node_at t' (temp_key k) ≠ Some (DirNode mt)) →
  (is_Some (node_at t' k) → linked t' k) →
  site ks t' ∧ ∀ q, q ∈ ks → q ≠ k → content t' q = content t q.
Proof.
  intros Hk Hs Hf Hkd Htd Hkl.
  assert (∀ q, Forall no_temp q → q ≠ temp_key k) as Htemp.
  { intros q Hq ->. by eapply (temp_key_ends k). }
  assert (∀ q pre, q ∈ ks → pre `prefix_of` q → pre ≠ q → pre ∉ [k; temp_key k]) as Hway.
  { intros q pre Hq Hp Hne [-> | ->%list_elem_of_singleton]%elem_of_cons.
    - by apply Hne, (ly_apart ks).
    - eapply temp_key_ends; [done|by eapply ly_temps]. }
  assert (∀ q, q ∈ ks → q ≠ k → node_at t' q = node_at t q) as Hother.
  { intros q Hq Hne. eapply frame_other; [done| |].
    - intros [-> | ->%list_elem_of_singleton]%elem_of_cons; [done|].
      eapply (temp_key_ends k); [done|by eapply ly_temps].
    - intros Hp. apply Hne, (ly_apart ks); [done|done|done|].
      trans (removelast k); [done|apply removelast_prefix]. }
  split; [split|].
  - intros q pre c mt Hq Hp Hne E. destruct (node_at t pre) as [n|] eqn:En.
    + rewrite (fr_keep _ _ _ _ Hf) in E; [|by eapply Hway|by rewrite En].
      by eapply (si_way ks t).
    + destruct (fr_new _ _ _ _ Hf pre) as [_ [m Hm]]; [by eapply Hway|done|congruence|congruence].
  - intros q mt Hq. destruct (decide (q = k)) as [-> | Hne]; [done|].
    rewrite Hother by done. by apply (si_file ks t).
  - intros q mt Hq E. destruct (decide (temp_key q = temp_key k)) as [Eq | Hne].
    { rewrite Eq in E. by eapply Htd. }
    assert (temp_key q ∉ [k; temp_key k]) as Hni.
    { intros [<- | Hq'%list_elem_of_singleton]%elem_of_cons; [|done].
      eapply (temp_key_ends q); [done|by eapply ly_temps]. }
    destruct (node_at t (temp_key q)) as [n|] eqn:En.
    + rewrite (fr_keep _ _ _ _ Hf) in E; [|done|by rewrite En]. by eapply (si_temp ks t Hs q).
    + destruct (fr_new _ _ _ _ Hf (temp_key q)) as [Hp _]; [done|done|congruence|].
      eapply (temp_key_ends q); [reflexivity|].
      eapply prefix_Forall; [|by eapply (ly_temps ks HL k)].
      trans (removelast k); [done|apply removelast_prefix].
  - intros q Hq. destruct (decide (q = k)) as [-> | Hne]; [done|]. rewrite Hother by done.
    intros Hq'. eapply frame_linked; [done| |by apply (si_linked ks t)].
    intros x Hx Hp. destruct (decide (x = q)) as [|Hxq]; [done|]. by destruct (Hway q x).
  - intros q Hq Hne. unfold content. by rewrite Hother.
Qed.

Lemma site_root k t : k ∈ ks → site ks t → ∃ mt, node_at t [] = Some (DirNode mt).
Proof.
  intros Hk Hs. pose proof (ly_nonempty ks HL k Hk) as Hne.
  destruct (node_at t []) as [[mt|c m]|] eqn:E; [eauto| |].
  - exfalso. eapply (si_way ks t Hs k []); [done|by exists k|done|done].
  - unfold node_at in E. by destruct (t !! []).
Qed.

Lemma temp_key_plain k : k ∈ ks → Forall plain (temp_key k) ∧ temp_key k ≠ [] ∧ temp_key k ≠ k.
Proof.
  intros Hk. pose proof (ly_plain ks HL k Hk) as Hpl. pose proof (ly_nonempty ks HL k Hk) as Hne.
  split_and!.
  - apply Forall_app. split; [by eapply prefix_Forall; [apply removelast_prefix|]|].
    apply Forall_singleton. destruct (exists_last Hne) as (l & w & ->).
    apply Forall_app in Hpl as [Hl Hw]. apply Forall_cons in Hw as [Hw _].
    unfold TLS.temp_name. rewrite Base_abs_path by done.
    destruct Hw as (_ & _ & _ & Hw).
    repeat split; try done.
    + by destruct w.
    + destruct w as [|a w]; [done|]. simpl. intros [= -> E]. by destruct w.
    + rewrite !no_char_append, Hw, pretty_no_slash. done.
  - unfold temp_key. by destruct (removelast k).
  - intros E. eapply (temp_key_ends k); [by rewrite E|by eapply ly_temps].
Qed.

(** ** Writing one file of the site *)

Section write.
Context (flt : Faults) (k : list string) (Hk : k ∈ ks).
Abbreviation path := (abs_path k).
Abbreviation tmp := (temp_key k).

Lemma temp_path_eq : JoinPath (Dir path) (TLS.temp_name env path) = abs_path tmp.
Proof.
  destruct (temp_key_plain k Hk) as (Hpl & _ & _).
  pose proof (ly_plain ks HL k Hk) as Hplk. pose proof (ly_nonempty ks HL k Hk) as Hne.
  unfold temp_key in Hpl |- *. apply Forall_app in Hpl as [Hl Hw].
  destruct (exists_last Hne) as (l & w & E).
  assert (Dir path = abs_path (removelast k)) as ->.
  { rewrite E in Hplk |- *. apply Forall_app in Hplk as [Hl' Hw']. apply Forall_cons in Hw' as [Hw' _].
    by rewrite Dir_abs_path, removelast_last. }
  by apply (Clean_JoinPath (removelast k) [TLS.temp_name env path]).
Qed.

(** What is left of a write that went through [r]. *)
Record written_or_not (d : bytes) (t t' : OsState) (r : result goerr unit) : Prop := {
  wn_site : site ks t';
  wn_others q : q ∈ ks → q ≠ k → content t' q = content t q;
  wn_target : match r with
              | Ok _ => content t' k = Some d
              | Err _ => content t' k = content t k ∨
                         content t' k = None ∧ is_Some (flt "rename" (abs_path tmp))
              end;
}.

(** Before the old file is removed: only the temporary file has changed. *)
Record prepared (t t' : OsState) : Prop := {
  pr_frame : frame [tmp] (removelast k) t t';
  pr_temp mt : node_at t' tmp ≠ Some (DirNode mt);
}.

Lemma prepared_mkdirs t t' : site ks t → frame [] (removelast k) t t' → prepared t t'.
Proof.
  intros Hs Hf. split; [eapply frame_mono; [|done]; set_solver|]. intros mt E.
  destruct (node_at t tmp) as [n|] eqn:En.
  - rewrite (fr_keep _ _ _ _ Hf) in E; [|set_solver|by rewrite En].
    by eapply (si_temp ks t Hs k).
  - destruct (fr_new _ _ _ _ Hf tmp) as [Hp _]; [set_solver|done|congruence|].
    eapply (temp_key_ends k); [done|]. eapply prefix_Forall; [apply removelast_prefix|].
    by apply (ly_temps ks).
Qed.

Lemma prepared_write d t t' :
  prepared t t' → prepared t (os_WriteFile flt now (abs_path tmp) d t').1.
Proof.
  intros [Hf Hd]. destruct (temp_key_plain k Hk) as (Htpl & Htne & _). split.
  - trans t'; [done|]. by apply WriteFile_frame.
  - intros mt. by apply WriteFile_file.
Qed.

Lemma prepared_target t t' : prepared t t' → node_at t' k = node_at t k.
Proof.
  intros [Hf _]. eapply frame_other; [done| |].
  - intros E%list_elem_of_singleton. by apply (temp_key_plain k Hk).
  - apply prefix_removelast_not. by apply (ly_nonempty ks).
Qed.

Lemma prepared_linked t t' : prepared t t' → linked t k → linked t' k.
Proof.
  intros [Hf _] Hl. eapply frame_linked; [done| |done].
  intros x ->%list_elem_of_singleton Hp. exfalso.
  eapply (temp_key_ends k); [done|by eapply ly_temps].
Qed.

Lemma prepared_outcome d e t t' :
  site ks t → prepared t t' → (is_Some (node_at t k) → linked t' k) →
  written_or_not d t t' (Err e).
Proof.
  intros Hs Hp Hl. pose proof (prepared_target _ _ Hp) as Ht. destruct Hp as [Hf Htmp].
  destruct (site_step k t t') as [Hs' Ho]; [done|done| |by intros mt; rewrite Ht; apply (si_file ks t)|done|by rewrite Ht|].
  { eapply frame_mono; [|done]. set_solver. }
  split; [done|done|]. left. unfold content. by rewrite Ht.
Qed.

(** Removing the temporary file, whether or not that works. *)
Lemma remove_temp d dir t :
  linked t tmp → node_at t tmp = Some (FileNode d now) →
  frame [tmp] dir t (os_Remove flt (abs_path tmp) t).1 ∧
  ∀ mt, node_at (os_Remove flt (abs_path tmp) t).1 tmp ≠ Some (DirNode mt).
Proof.
  intros Hl Hn. destruct (temp_key_plain k Hk) as (Hpl & Hne & _).
  rewrite Remove_file by (done || (intros mt; by rewrite Hn)). rewrite Hn.
  destruct (flt _ _); simpl; (split; [|intros mt]).
  - reflexivity.
  - by rewrite Hn.
  - apply frame_delete.
  - by rewrite node_at_delete_eq.
Qed.

(** The rename at the end, from a tree [t] in which the file at [k] is as
    before or gone. *)
Definition finish (d : bytes) : go OsState goerr unit :=
  catch! moved := os_Rename flt (abs_path tmp) path in
  match moved with
  | Err err => catch! _ := os_Remove flt (abs_path tmp) in go_fail err
  | Ok _ => go_ret tt
  end.

Lemma finish_outcome d t0 t t' r :
  site ks t0 → frame [k; tmp] (removelast k) t0 t →
  linked t k → linked t tmp → node_at t tmp = Some (FileNode d now) →
  node_at t k = node_at t0 k ∨ node_at t k = None →
  finish d t = (t', r) → written_or_not d t0 t' r ∧ (flt "rename" (abs_path tmp) = None → r = Ok tt).
Proof.
  intros Hs Hf Hl Htl Ht Hkt Hr.
  destruct (temp_key_plain k Hk) as (Htpl & Htne & Htk).
  pose proof (ly_plain ks HL k Hk) as Hpl. pose proof (ly_nonempty ks HL k Hk) as Hne.
  assert (∀ mt, node_at t k ≠ Some (DirNode mt)) as Hkd.
  { intros mt. destruct Hkt as [-> | ->]; [by apply (si_file ks t0)|done]. }
  unfold finish, go_catch in Hr.
  rewrite (Rename_file flt tmp k t (FileNode d now)) in Hr
    by (try done; by apply os_lookup_linked).
  destruct (flt "rename" (abs_path tmp)) as [e|] eqn:Efl.
  - destruct (remove_temp d (removelast k) t) as [Hrf Hrd]; [done..|].
    destruct (os_Remove flt (abs_path tmp) t) as [t1 r1]. injection Hr as <- <-. cbn [fst] in *.
    assert (node_at t1 k = node_at t k) as Hk1 by (by apply prepared_target).
    split; [|done].
    destruct (site_step k t0 t1) as [Hs' Ho]; [done|done| |by intros mt; rewrite Hk1|done| |].
    { trans t; [done|]. eapply frame_mono; [|done]. set_solver. }
    { intros _. eapply prepared_linked; [by split|done]. }
    split; [done|done|]. unfold content. rewrite Hk1, Efl.
    destruct Hkt as [-> | ->]; [by left|right; eauto].
  - injection Hr as <- <-. split; [|done].
    set (t1 := <[k := FileNode d now]> (delete tmp t)).
    assert (node_at t1 k = Some (FileNode d now)) as Hk1 by apply node_at_insert_eq.
    assert (frame [k; tmp] (removelast k) t t1) as Hf1.
    { trans (delete tmp t).
      - eapply frame_mono; [|apply frame_delete]. set_solver.
      - eapply frame_mono; [|apply frame_insert]. set_solver. }
    destruct (site_step k t0 t1) as [Hs' Ho]; [done|done|by trans t|by rewrite Hk1| | |].
    { intros mt. unfold t1. rewrite node_at_insert_ne by done. by rewrite node_at_delete_eq. }
    { intros _. unfold t1. apply linked_insert. eapply prepared_linked; [|done].
      split; [apply frame_delete|]. intros mt. by rewrite node_at_delete_eq. }
    split; [done|done|]. unfold content. by rewrite Hk1.
Qed.

Lemma temp_apart : ¬ k `prefix_of` tmp.
Proof.
  intros Hp. pose proof (ly_nonempty ks HL k Hk) as Hne.
  destruct (decide (k = tmp)) as [E | Hn]; [by apply (temp_key_plain k Hk)|].
  apply prefix_snoc in Hp; [|done]. by apply (prefix_removelast_not k).
Qed.

(** What follows the writing of the temporary file. *)
Definition replace (d : bytes) : go OsState goerr unit :=
  catch! removed := os_Remove flt path in
  match removed with
  | Err err =>
      if negb (errors_Is err ErrNotExist)
      then catch! _ := os_Remove flt (abs_path tmp) in go_fail err
      else finish d
  | Ok _ => finish d
  end.

Lemma replace_outcome d t0 t t' r :
  site ks t0 → prepared t0 t → linked t k → linked t tmp → node_at t tmp = Some (FileNode d now) →
  replace d t = (t', r) →
  written_or_not d t0 t' r ∧
  (flt "remove" path = None → flt "rename" (abs_path tmp) = None → r = Ok tt).
Proof.
  intros Hs Hp Hl Hlt Ht. pose proof (ly_plain ks HL k Hk) as Hpl.
  pose proof (ly_nonempty ks HL k Hk) as Hne. destruct (temp_key_plain k Hk) as (_ & _ & Htk).
  pose proof (prepared_target _ _ Hp) as Hkt.
  assert (∀ mt, node_at t k ≠ Some (DirNode mt)) as Hkd
    by (intros mt; rewrite Hkt; by apply (si_file ks t0)).
  assert (frame [k; tmp] (removelast k) t0 t) as Hf by (eapply frame_mono; [|apply Hp]; set_solver).
  unfold replace, go_catch at 1. rewrite Remove_file by done.
  destruct (flt "remove" path) as [e|].
  - cbv beta iota. destruct (errors_Is _ _); cbn [negb]; cbv iota.
    { intros Hr. split; [|done]. by apply (finish_outcome d t0 t t' r); auto. }
    unfold go_catch, go_fail. destruct (remove_temp d (removelast k) t Hlt Ht) as [Hrf Hrd].
    destruct (os_Remove flt (abs_path tmp) t) as [t3 r3]. cbn [fst] in *. intros [= <- <-].
    split; [|done]. apply prepared_outcome; [done| |].
    + split; [trans t; [apply Hp|done]|done].
    + intros _. eapply prepared_linked; [|exact Hl]. by split.
  - destruct (node_at t k) as [n|] eqn:En; intros Hr.
    2:{ destruct (finish_outcome d t0 t t' r) as [Ho Hok]; try done; auto. }
    destruct (finish_outcome d t0 (delete k t) t' r) as [Ho Hok]; try done; auto.
    + trans t; [done|]. eapply frame_mono; [|apply frame_delete]. set_solver.
    + eapply (frame_linked [k] []); [apply frame_delete|set_solver|done].
    + eapply (frame_linked [k] []); [apply frame_delete| |done].
      intros x ->%list_elem_of_singleton Hpre. by destruct temp_apart.
    + by rewrite node_at_delete_ne.
    + right. by apply node_at_delete_eq.
Qed.

Lemma write_atomically d t t' r :
  site ks t → TLS.writeFileAtomically flt env path d t = (t', r) → written_or_not d t t' r.
Proof.
  intros Hs. pose proof (ly_plain ks HL k Hk) as Hpl. pose proof (ly_nonempty ks HL k Hk) as Hne.
  destruct (temp_key_plain k Hk) as (Htpl & Htne & Htk). destruct (site_root k t Hk Hs) as [mt0 H0].
  unfold TLS.writeFileAtomically, go_bind at 1.
  pose proof (prepared_mkdirs _ _ Hs (MkdirAll_Dir_frame flt now k Hpl Hne t)) as Hp.
  destruct (os_MkdirAll flt now (Dir path) t) as [t1 [[]|e]] eqn:Em; simpl in Hp.
  2:{ intros [= <- <-]. apply prepared_outcome; [done..|]. intros Hkl.
      eapply prepared_linked; [done|by apply (si_linked ks t)]. }
  assert (linked t1 k) as Hl1 by (by eapply MkdirAll_Dir_linked).
  cbv zeta. rewrite temp_path_eq. unfold go_bind.
  pose proof (WriteFile_frame flt now tmp Htpl d (removelast k) t1) as Hwf.
  pose proof (prepared_write d _ _ Hp) as Hp2.
  destruct (os_WriteFile flt now (abs_path tmp) d t1) as [t2 r2] eqn:Ew. cbn [fst] in *.
  assert (linked t2 k) as Hl2 by (eapply prepared_linked; [split; [done|apply Hp2]|done]).
  destruct r2 as [[]|e]; [|intros [= <- <-]; by apply prepared_outcome].
  apply WriteFile_Ok in Ew as [Ht2 Hlt2]; [|done..].
  intros Hr. by apply (replace_outcome d t t2 t' r).
Qed.
End write.

(** ** Without faults *)

Definition same (t t' : OsState) : Prop := ∀ q, q ∈ ks → content t' q = content t q.
Definition updated (k : list string) (d : bytes) (t t' : OsState) : Prop :=
  content t' k = Some d ∧ ∀ q, q ∈ ks → q ≠ k → content t' q = content t q.

(** The paths whose directory is there. *)
Definition kept_links (t t' : OsState) : Prop := ∀ q, q ∈ ks → linked t q → linked t' q.

Lemma step_links k t t' :
  k ∈ ks → frame [k; temp_key k] (removelast k) t t' → kept_links t t'.
Proof.
  intros Hk Hf q Hq Hl. eapply frame_linked; [done| |done].
  intros x [-> | ->%list_elem_of_singleton]%elem_of_cons Hp; [by apply (ly_apart ks)|].
  exfalso. eapply temp_key_ends; [done|by eapply ly_temps].
Qed.

Lemma calm_MkdirAll k t :
  k ∈ ks → site ks t →
  ∃ t', os_MkdirAll no_faults now (Dir (abs_path k)) t = (t', Ok tt) ∧
    site ks t' ∧ same t t' ∧ kept_links t t' ∧ linked t' k.
Proof.
  intros Hk Hs. pose proof (ly_plain ks HL k Hk) as Hpl. pose proof (ly_nonempty ks HL k Hk) as Hne.
  destruct (site_root k t Hk Hs) as [mt0 H0].
  pose proof (MkdirAll_Dir_frame no_faults now k Hpl Hne t) as Hmf.
  assert (∃ t', os_MkdirAll no_faults now (Dir (abs_path k)) t = (t', Ok tt)) as [t' Em].
  { destruct (mkdirs_parent now t k Hne) as (t' & mt & Hm & _).
    { split; [intros; by eapply (si_way ks t)|intros; by apply (si_file ks t)]. }
    exists t'. unfold os_MkdirAll. destruct (exists_last Hne) as (l & w & E).
    rewrite E in Hpl |- *. rewrite E, removelast_last in Hm.
    apply Forall_app in Hpl as [Hl Hw]. apply Forall_cons in Hw as [Hw _].
    by rewrite Dir_abs_path, path_key_abs_path. }
  exists t'. rewrite Em in Hmf. simpl in Hmf.
  pose proof (prepared_mkdirs k Hk _ _ Hs Hmf) as Hp.
  pose proof (prepared_target k Hk _ _ Hp) as Hkt.
  assert (linked t' k) as Hl by (by eapply MkdirAll_Dir_linked).
  assert (frame [k; temp_key k] (removelast k) t t') as Hf by (eapply frame_mono; [|apply Hp]; set_solver).
  destruct (site_step k t t') as [Hs' Ho]; [done|done|done| |apply Hp|done|].
  { intros mt. rewrite Hkt. by apply (si_file ks t). }
  split_and!; [done|done| |by eapply step_links|done].
  intros q Hq. destruct (decide (q = k)) as [-> | Hqk]; [by unfold content; rewrite Hkt|by apply Ho].
Qed.

Lemma calm_WriteFile_Ok k d t :
  Forall plain k → k ≠ [] → linked t k → (∀ mt, node_at t k ≠ Some (DirNode mt)) →
  (os_WriteFile no_faults now (abs_path k) d t).2 = Ok tt.
Proof.
  intros Hpl Hne Hl Hnd. unfold os_WriteFile, os_OpenCreate, os_write, go_bind.
  rewrite path_key_abs_path by done. cbn [no_faults].
  destruct (node_at t k) as [[mt|c mt]|] eqn:En.
  - by destruct (Hnd mt).
  - assert (os_lookup t k = Ok (FileNode c mt)) as -> by (by apply os_lookup_linked). done.
  - apply linked_parent in Hl as [mt Hp]; [|done].
    rewrite os_lookup_None by eauto. by rewrite Hp.
Qed.

Lemma calm_WriteFile k d t :
  k ∈ ks → site ks t → linked t k →
  ∃ t', os_WriteFile no_faults now (abs_path k) d t = (t', Ok tt) ∧
    site ks t' ∧ updated k d t t' ∧ kept_links t t'.
Proof.
  intros Hk Hs Hl. pose proof (ly_plain ks HL k Hk) as Hpl. pose proof (ly_nonempty ks HL k Hk) as Hne.
  pose proof (calm_WriteFile_Ok k d t Hpl Hne Hl ltac:(intros; by apply (si_file ks t))) as Hok.
  pose proof (WriteFile_frame no_faults now k Hpl d (removelast k) t) as Hwf.
  destruct (os_WriteFile no_faults now (abs_path k) d t) as [t' r] eqn:Ew. simpl in Hok, Hwf. subst r.
  apply WriteFile_Ok in Ew as [Hn Hl']; [|done..].
  assert (frame [k; temp_key k] (removelast k) t t') as Hf by (eapply frame_mono; [|done]; set_solver).
  destruct (site_step k t t') as [Hs' Ho]; [done|done|done|by rewrite Hn| |done|].
  { intros mt E. rewrite (frame_other _ _ _ _ _ Hwf) in E.
    - by eapply (si_temp ks t Hs k).
    - intros E'%list_elem_of_singleton. by apply (temp_key_plain k Hk).
    - intros Hp. eapply (temp_key_ends k); [done|]. eapply prefix_Forall; [apply removelast_prefix|].
      by apply (ly_temps ks). }
  exists t'. split_and!; [done|done| |by eapply step_links].
  split; [by unfold content; rewrite Hn|done].
Qed.

Lemma calm_write_atomically k d t :
  k ∈ ks → site ks t →
  ∃ t', TLS.writeFileAtomically no_faults env (abs_path k) d t = (t', Ok tt) ∧
    site ks t' ∧ updated k d t t'.
Proof.
  intros Hk Hs. destruct (TLS.writeFileAtomically no_faults env (abs_path k) d t) as [t' r] eqn:Ew.
  assert (r = Ok tt) as ->.
  { unfold TLS.writeFileAtomically, go_bind at 1 in Ew. cbv zeta in Ew.
    rewrite temp_path_eq in Ew by done.
    destruct (temp_key_plain k Hk) as (Htpl & Htne & Htk).
    pose proof (ly_plain ks HL k Hk) as Hpl. pose proof (ly_nonempty ks HL k Hk) as Hne.
    pose proof (MkdirAll_Dir_frame no_faults now k Hpl Hne t) as Hmf.
    destruct (calm_MkdirAll k t Hk Hs) as (t1 & Em & Hs1 & _ & _ & Hl1).
    rewrite Em in Ew, Hmf. simpl in Hmf. pose proof (prepared_mkdirs k Hk _ _ Hs Hmf) as Hp1.
    assert (linked t1 (temp_key k)) as Hlt.
    { apply linked_parent; [done|]. unfold temp_key. rewrite removelast_last.
      by apply linked_parent. }
    change (match os_WriteFile no_faults now (abs_path (temp_key k)) d t1 with
            | (w', Ok _) => replace no_faults k d w'
            | (w', Err e) => (w', Err e) end = (t', r)) in Ew.
    pose proof (calm_WriteFile_Ok (temp_key k) d t1 Htpl Htne Hlt (pr_temp _ _ _ Hp1)) as Hok.
    pose proof (prepared_write no_faults k Hk d _ _ Hp1) as Hp2.
    pose proof (WriteFile_frame no_faults now _ Htpl d (removelast k) t1) as Hwf.
    destruct (os_WriteFile no_faults now (abs_path (temp_key k)) d t1) as [t2 r2] eqn:Ewf.
    cbn [snd fst] in *. subst r2. apply WriteFile_Ok in Ewf as [Ht2 Hlt2]; [|done..].
    eapply (replace_outcome no_faults k Hk d t t2); eauto.
    eapply prepared_linked; [done| |done]. split; [done|apply Hp2]. }
  apply write_atomically in Ew as [Hs' Ho Ht]; [|done..]. exists t'. by split_and!; [..|split].
Qed.

(** What the readers see on a site. *)
Lemma abs_path_not_blank k : TrimSpace (abs_path k) ≠ "".
Proof. by apply TrimSpace_first. Qed.

Lemma calm_fileExists dir_size k t :
  k ∈ ks → site ks t →
  TLS.fileExists no_faults dir_size (abs_path k) t = bool_decide (is_Some (content t k)).
Proof.
  intros Hk Hs. unfold TLS.fileExists, os_Stat. rewrite bool_decide_eq_false_2 by apply abs_path_not_blank.
  simpl. rewrite path_key_abs_path by (by apply (ly_plain ks)). unfold content.
  destruct (node_at t k) as [[mt|c mt]|] eqn:En.
  - by destruct (si_file ks t Hs k mt Hk).
  - assert (os_lookup t k = Ok (FileNode c mt)) as ->; [|done].
    apply os_lookup_linked. split; [done|]. apply (si_linked ks t); [done|done|by rewrite En].
  - destruct (os_lookup t k) as [n|] eqn:E; [|done].
    apply os_lookup_linked in E as [E _]. congruence.
Qed.

Lemma calm_ReadFile k d t :
  k ∈ ks → site ks t → content t k = Some d → os_ReadFile no_faults (abs_path k) t = Ok d.
Proof.
  intros Hk Hs Hc. unfold os_ReadFile. simpl.
  rewrite path_key_abs_path by (by apply (ly_plain ks)). unfold content in Hc.
  destruct (node_at t k) as [[mt|c mt]|] eqn:En; [done| |done]. injection Hc as ->.
  assert (os_lookup t k = Ok (FileNode d mt)) as ->; [|done].
  apply os_lookup_linked. split; [done|]. apply (si_linked ks t); [done|done|by rewrite En].
Qed.
End layout.
End site.
