(* ===== verification/TlsTheorems.v ===== *)
(** * Theorems on the TLS artifacts

    What [ensureServerCertificate], [InspectTLSArtifacts] and
    [RotateTLSArtifacts] of internal/server/security.go promise, from the laws
    of the cryptography and the contents of the files on a site. *)

From stdpp Require Import pretty.
From S2P Require Import Prelude GoStrings StringLists FsPath OsFs Frames Writes GoTime Security Artifacts.
Open Scope string_scope.
Open Scope Z_scope.
Open Scope list_scope.

Module TlsTheorems.
Import TLS.

(** ** Inspection *)

Lemma inspect_cases `{X509} flt dir_size now certPath keyPath t :
  let cp := TrimSpace certPath in
  let kp := TrimSpace keyPath in
  let inspected := InspectTLSArtifacts flt dir_size now certPath keyPath t in
  (OverallValid inspected.1 = true ↔
     cp ≠ "" ∧ kp ≠ "" ∧
     hasValidTLSArtifacts flt dir_size now cp kp (tlsRootCertPath cp) t = Ok true) ∧
  (OverallValid inspected.1 = true → inspected.2 = None).
Proof.
  cbv zeta. unfold InspectTLSArtifacts.
  set (cp := TrimSpace certPath). set (kp := TrimSpace keyPath).
  destruct (bool_decide_reflect (cp = "")) as [Ec|Ec]; [split; naive_solver|].
  destruct (bool_decide_reflect (kp = "")) as [Ek|Ek]; [split; naive_solver|].
  cbn [orb]. cbv zeta. unfold hasValidTLSArtifacts, read_artifact.
  cbn [ServerCertExists ServerKeyExists RootCertExists st_RootCertPath empty_status].
  destruct (fileExists flt dir_size cp t) eqn:Ex1; [destruct (readCertificateFile flt cp t) as [sc|]|];
    destruct (fileExists flt dir_size (tlsRootCertPath cp) t) eqn:Ex2;
    cbn [RootCertExists st_RootCertPath with_server_cert empty_status];
    rewrite ?Ex2; try destruct (readCertificateFile flt (tlsRootCertPath cp) t) as [rc|];
    destruct (fileExists flt dir_size kp t) eqn:Ex3;
    cbn [ServerKeyExists with_root_cert with_server_cert empty_status];
    rewrite ?Ex3; try destruct (readRSAPrivateKeyFile flt kp t) as [key|].
  all: unfold check_server; cbn; try (split; naive_solver).
  all: try (destruct (IsCA rc) eqn:Ei; cbn; [|split; naive_solver]).
  all: try destruct (verifyPrivateKeyMatchesCertificate key sc); try (destruct (IsCA sc)); cbn;
    try destruct (Verify now [rc] [ExtKeyUsageServerAuth] sc); cbn; rewrite ?andb_false_r;
    try (split; naive_solver).
Qed.

(** The status command and the server agree on what a usable set of
    artifacts is.  Whatever is on disk and whatever fails,
    [InspectTLSArtifacts] reports [OverallValid] exactly when
    [hasValidTLSArtifacts], by which the server decides whether to make a new
    certificate, accepts the same files; and then there is no error. *)
Theorem inspect_agrees `{X509} flt dir_size now certPath keyPath t :
  let cp := TrimSpace certPath in
  let kp := TrimSpace keyPath in
  let inspected := InspectTLSArtifacts flt dir_size now certPath keyPath t in
  (OverallValid inspected.1 = true ↔
     cp ≠ "" ∧ kp ≠ "" ∧
     hasValidTLSArtifacts flt dir_size now cp kp (tlsRootCertPath cp) t = Ok true) ∧
  (OverallValid inspected.1 = true → inspected.2 = None).
Proof. apply inspect_cases. Qed.

(** ** The four artifacts *)

Section artifacts.
Context `{!X509} `{!LocalZone} `{!GoUnicode} (dir_size : Z).

Definition root_cert_key (ck : list string) : list string := removelast ck ++ [defaultTLSRootCertFileName].
Definition root_key_key (ck : list string) : list string := removelast ck ++ [defaultTLSRootKeyFileName].

Lemma beside_path ck name :
  Forall plain ck → ck ≠ [] → plain name →
  JoinPath (Dir (abs_path ck)) name = abs_path (removelast ck ++ [name]).
Proof.
  intros Hpl Hne Hn. destruct (exists_last Hne) as (l & w & ->).
  apply Forall_app in Hpl as [Hl Hw]. apply Forall_cons in Hw as [Hw _].
  rewrite Dir_abs_path, removelast_last by done.
  apply (Clean_JoinPath l [name]); [done|done|by constructor].
Qed.

Section paths.
Context (ck kk : list string).
Abbreviation rc := (root_cert_key ck).
Abbreviation rk := (root_key_key ck).

Definition artifacts : list (list string) := [ck; kk; rc; rk].

Section on_layout.
Context (Hpl : Forall plain ck) (Hne : ck ≠ []).

Lemma root_cert_path : tlsRootCertPath (abs_path ck) = abs_path rc.
Proof. by apply beside_path. Qed.
Lemma root_key_path : tlsRootKeyPath (abs_path ck) = abs_path rk.
Proof. by apply beside_path. Qed.

(** ** The root is kept *)

(** The writes of [ensureServerCertificate] on a root that is kept: the
    certificate and the key of the server, and directories. *)
Record server_only (t t' : OsState) : Prop := {
  so_keep q : q ≠ ck → q ≠ kk → is_Some (node_at t q) → node_at t' q = node_at t q;
}.

#[local] Instance server_only_preorder : PreOrder server_only.
Proof.
  split; [by split|]. intros t1 t2 t3 [K1] [K2]. split. intros q Hc Hk Hs.
  rewrite K2; [by apply K1|done|done|by rewrite K1].
Qed.

Lemma server_only_frame ks dir t t' : frame ks dir t t' → ks ⊆ [ck; kk] → server_only t t'.
Proof. intros [K _] Hs. split. intros q Hc Hk. apply K. set_solver. Qed.

Lemma MkdirAll_server_only flt now p : steps server_only (os_MkdirAll flt now p).
Proof. intros t. eapply server_only_frame; [apply (mkdirs_frame flt now [])|set_solver]. Qed.

Lemma WriteFile_server_only flt now k d :
  Forall plain k → k ∈ [ck; kk] → steps server_only (os_WriteFile flt now (abs_path k) d).
Proof.
  intros Hk Hin t. eapply server_only_frame; [by apply (WriteFile_frame flt now k Hk d [])|set_solver].
Qed.

Hint Resolve MkdirAll_server_only WriteFile_server_only : steps.
Hint Constructors list_elem_of : steps.

Lemma server_only_lookup t t' k n :
  server_only t t' → (∀ q, q ∈ [ck; kk] → ¬ q `prefix_of` k) → os_lookup t k = Ok n → os_lookup t' k = Ok n.
Proof.
  intros [K] Hp [Hn Hl]%os_lookup_linked. apply os_lookup_linked. split.
  - rewrite K; [done| | |by rewrite Hn]; intros ->; eapply (Hp _); [|reflexivity|..|reflexivity]; set_solver.
  - intros pre Hpre Hne'. destruct (Hl pre Hpre Hne') as [mt Hmt]. exists mt.
    rewrite K; [done| | |by rewrite Hmt]; intros ->; eapply Hp; [|done| |done]; set_solver.
Qed.

Lemma makeDirs_server_only flt env a b c d : steps server_only (makeDirs flt env a b c d).
Proof. unfold makeDirs. steps_tac. Qed.

(** A file that can be examined, whatever else fails. *)
Lemma fileExists_there flt k n t :
  Forall plain k → flt "stat" (abs_path k) = None → os_lookup t k = Ok n →
  fileExists flt dir_size (abs_path k) t = true.
Proof.
  intros Hk Hs Hl. unfold fileExists, os_Stat, os_fault.
  rewrite bool_decide_eq_false_2 by (by apply TrimSpace_first). rewrite Hs. cbn [res_bind].
  by rewrite path_key_abs_path, Hl.
Qed.

Lemma readCertificateFile_there flt k pem mt t c cert :
  Forall plain k → os_lookup t k = Ok (FileNode pem mt) → parsePEMCertificate pem = Ok cert →
  readCertificateFile flt (abs_path k) t = Ok c → c = cert.
Proof.
  intros Hk Hl Hc. unfold readCertificateFile, os_ReadFile, os_fault.
  destruct (flt "open" (abs_path k)); [done|]. cbn [res_bind]. rewrite path_key_abs_path, Hl by done.
  destruct (flt "read" (abs_path k)); [done|]. cbn [res_bind]. congruence.
Qed.

(** A root that every start of the server finds in place. *)
Record kept_root (root : Certificate) (nc nk : node) (t : OsState) : Prop := {
  kr_cert : os_lookup t rc = Ok nc;
  kr_key : os_lookup t rk = Ok nk;
  kr_reads pem mt : nc = FileNode pem mt → parsePEMCertificate pem = Ok root;
  kr_file : is_dir nc = false;
  kr_ca : IsCA root = true;
}.

Section starts.
Context (Hlc : ∀ q, q ∈ [ck; kk] → ¬ q `prefix_of` rc) (Hlk : ∀ q, q ∈ [ck; kk] → ¬ q `prefix_of` rk)
        (Hkpl : Forall plain kk).

Lemma root_plain name : plain name → Forall plain (removelast ck ++ [name]).
Proof.
  intros Hn. apply Forall_app. split; [|by constructor].
  eapply prefix_Forall; [apply removelast_prefix|done].
Qed.

Lemma kept_root_server_only root nc nk t t' :
  server_only t t' → kept_root root nc nk t → kept_root root nc nk t'.
Proof. intros Hs []. split; try done; by eapply server_only_lookup. Qed.

Lemma existing_root_reads flt cp kp : steps eq (existing_root flt dir_size cp kp).
Proof. unfold existing_root. steps_tac. Qed.

Lemma existing_root_kept flt root nc nk t t' r :
  flt "stat" (abs_path rc) = None → flt "stat" (abs_path rk) = None → kept_root root nc nk t →
  existing_root flt dir_size (abs_path rc) (abs_path rk) t = (t', Ok r) → is_Some r.
Proof.
  intros Hfc Hfk [Hc Hk Hr Hd Hca]. destruct nc as [|pem mt]; [done|].
  assert (Forall plain rc) as Hrc by by apply root_plain.
  assert (Forall plain rk) as Hrk by by apply root_plain.
  unfold existing_root. intros (t1 & b & [= <- <-] & Hx)%go_bind_Ok.
  rewrite (fileExists_there flt rc _ t Hrc Hfc Hc), (fileExists_there flt rk _ t Hrk Hfk Hk) in Hx.
  cbn [andb] in Hx. apply go_bind_Ok in Hx as (t2 & c & Hcert & Hx).
  apply go_map_err_Ok in Hcert. injection Hcert as <- Hcert.
  apply (readCertificateFile_there flt rc pem mt t c root) in Hcert; [|by eauto..]. subst c.
  apply go_bind_Ok in Hx as (t3 & key & Hkey & Hx). rewrite Hca in Hx. injection Hx as <- <-. eauto.
Qed.

Lemma ensure_kept flt env root nc nk t :
  flt "stat" (abs_path rc) = None → flt "stat" (abs_path rk) = None → kept_root root nc nk t →
  kept_root root nc nk (ensureServerCertificate flt dir_size env (abs_path ck) (abs_path kk) t).1.
Proof.
  intros Hfc Hfk Hr. eapply kept_root_server_only; [|exact Hr].
  unfold ensureServerCertificate. cbv zeta.
  rewrite root_cert_path, root_key_path.
  unfold go_bind at 1. destruct (go_read _ t) as [t0 [valid|e]] eqn:Ev; injection Ev as <- _; [|reflexivity].
  destruct valid; [reflexivity|].
  unfold go_bind at 1.
  pose proof (makeDirs_server_only flt env (abs_path ck) (abs_path kk) (abs_path rc) (abs_path rk) t) as Hm.
  destruct (makeDirs _ _ _ _ _ _ t) as [t1 [[]|e]]; [|done]. cbn [fst] in Hm.
  eapply kept_root_server_only in Hr; [|exact Hm]. trans t1; [done|].
  unfold go_bind at 1, loadOrCreateRootCA, go_bind at 1.
  pose proof (existing_root_reads flt (abs_path rc) (abs_path rk) t1) as Hrd.
  destruct (existing_root flt dir_size (abs_path rc) (abs_path rk) t1) as [t2 [r|e]] eqn:Ex;
    cbn [fst] in Hrd; subst t2; [|reflexivity].
  apply (existing_root_kept flt root nc nk) in Ex as [[c key] ->]; [|done..]. cbn [go_ret].
  match goal with |- server_only t1 (?m t1).1 => assert (steps server_only m) as Hst; [|apply Hst] end.
  steps_tac; apply WriteFile_server_only; set_solver.
Qed.

(** The tree after a number of starts of the server, each with its own faults
    and its own time. *)
Definition after_starts (starts : list (Faults * TLSEnv)) (t : OsState) : OsState :=
  fold_left (λ t s, (ensureServerCertificate s.1 dir_size s.2 (abs_path ck) (abs_path kk) t).1) starts t.

Lemma starts_keep starts root nc nk t :
  Forall (λ s : Faults * TLSEnv,
    s.1 "stat" (abs_path rc) = None ∧ s.1 "stat" (abs_path rk) = None) starts →
  kept_root root nc nk t → kept_root root nc nk (after_starts starts t).
Proof.
  intros Hs. revert t. induction Hs as [|[flt env] starts [Hc Hk] _ IH]; intros t Hr; [done|].
  cbn [after_starts fold_left]. apply IH. by apply ensure_kept.
Qed.
End starts.
End on_layout.
End paths.

(** ** What was generated *)

Context `{!X509Laws}.

Lemma parse_pem_cert ty der : parsePEMCertificate (pem_Encode ty der) = ParseCertificate der.
Proof. unfold parsePEMCertificate. by rewrite pem_round. Qed.

Lemma parse_pem_key ty k : parsePEMRSAPrivateKey (pem_Encode ty (MarshalPKCS1PrivateKey k)) = Ok k.
Proof. unfold parsePEMRSAPrivateKey. by rewrite pem_round, key_round. Qed.

Lemma generated_root env cert_pem key_pem :
  generateRootCA env = Ok (cert_pem, key_pem) →
  ∃ root key, parsePEMCertificate cert_pem = Ok root ∧ parsePEMRSAPrivateKey key_pem = Ok key ∧
    own_root key root ∧ IsCA root = true ∧ NotBefore root = to_second (te_now env - hour_ns) ∧
    NotAfter root = to_second (AddYears 10 (te_now env)).
Proof.
  unfold generateRootCA. intros (k & _ & Hx)%res_bind_Ok.
  apply res_bind_Ok in Hx as (template & Ht & Hx). apply res_bind_Ok in Hx as (der & Hc & [= <- <-]).
  apply map_err_Ok in Hc. destruct (create_parses _ _ _ _ _ Hc) as (root & Hp & Hm).
  apply res_bind_Ok in Ht as (serial & _ & [= Ht]).
  exists root, k. rewrite parse_pem_cert, parse_pem_key. split_and!; [done|done| |..].
  - exists template, der. by subst template.
  - rewrite (mf_ca _ _ _ Hm). by subst template.
  - rewrite (mf_before _ _ _ Hm). by subst template.
  - rewrite (mf_after _ _ _ Hm). by subst template.
Qed.

Lemma generated_server env root rkey cert_pem key_pem :
  generateServerCertificate env root rkey = Ok (cert_pem, key_pem) →
  ∃ cert key, parsePEMCertificate cert_pem = Ok cert ∧ parsePEMRSAPrivateKey key_pem = Ok key ∧
    CertPublicKey cert = public key ∧ IsCA cert = false ∧
    NotBefore cert = to_second (te_now env - hour_ns) ∧
    NotAfter cert = to_second (AddYears 3 (te_now env)) ∧
    X509KeyPair cert_pem key_pem = Ok tt ∧
    ∀ now, own_root rkey root → in_force now cert → in_force now root →
      Verify now [root] [ExtKeyUsageServerAuth] cert = Ok tt.
Proof.
  unfold generateServerCertificate. intros (k & _ & Hx)%res_bind_Ok.
  apply res_bind_Ok in Hx as (template & Ht & Hx). apply res_bind_Ok in Hx as (der & Hc & [= <- <-]).
  apply map_err_Ok in Hc. destruct (create_parses _ _ _ _ _ Hc) as (cert & Hp & Hm).
  apply res_bind_Ok in Ht as (serial & _ & [= Ht]).
  exists cert, k. rewrite parse_pem_cert, parse_pem_key.
  split_and!; [done|done|by apply (mf_public _ _ _ Hm)|..].
  - rewrite (mf_ca _ _ _ Hm). by subst template.
  - rewrite (mf_before _ _ _ Hm). by subst template.
  - rewrite (mf_after _ _ _ Hm). by subst template.
  - by eapply keypair_made.
  - intros now Hr Hi1 Hi2. eapply verify_issued; try done; by subst template.
Qed.

(** A fresh certificate is in force for the next 1094 days, and a fresh root
    even longer. *)
Lemma to_second_bounds t : t - second_ns < to_second t ≤ t.
Proof.
  unfold to_second, unix_seconds, second_ns. pose proof (Z.mod_pos_bound t 1000000000 eq_refl).
  pose proof (Z.div_mod t 1000000000). lia.
Qed.

Lemma fresh_in_force (years : nat) now now' c :
  (3 ≤ years)%nat → NotBefore c = to_second (now - hour_ns) →
  NotAfter c = to_second (AddYears (Z.of_nat years) now) →
  now ≤ now' ≤ now + 1094 * day_ns → in_force now' c.
Proof.
  intros Hy Hb Ha Hn. unfold in_force. rewrite Hb, Ha.
  pose proof (to_second_bounds (now - hour_ns)). pose proof (AddYears_bound years now) as Hadd.
  pose proof (to_second_bounds (AddYears (Z.of_nat years) now)).
  unfold hour_ns, day_ns, second_ns in *. lia.
Qed.

(** ** Readers on the contents of a site *)

Section readers.
Context (env : TLSEnv) (ks : list (list string)) (HL : layout env ks) (t : OsState) (Hs : site env ks t).

Lemma calm_readCertificate k d :
  k ∈ ks → content t k = Some d →
  readCertificateFile no_faults (abs_path k) t = parsePEMCertificate d.
Proof. intros Hk Hc. unfold readCertificateFile. by rewrite (calm_ReadFile env ks HL k d t). Qed.

Lemma calm_readKey k d :
  k ∈ ks → content t k = Some d →
  readRSAPrivateKeyFile no_faults (abs_path k) t = parsePEMRSAPrivateKey d.
Proof. intros Hk Hc. unfold readRSAPrivateKeyFile. by rewrite (calm_ReadFile env ks HL k d t). Qed.

(** A certificate that fits its key and that the root has signed is
    accepted. *)
Lemma calm_hasValid now ck kk rc sc sk rp cert key root :
  ck ∈ ks → kk ∈ ks → rc ∈ ks →
  content t ck = Some sc → content t kk = Some sk → content t rc = Some rp →
  parsePEMCertificate sc = Ok cert → parsePEMRSAPrivateKey sk = Ok key → parsePEMCertificate rp = Ok root →
  CertPublicKey cert = public key → IsCA cert = false → IsCA root = true →
  Verify now [root] [ExtKeyUsageServerAuth] cert = Ok tt →
  hasValidTLSArtifacts no_faults dir_size now (abs_path ck) (abs_path kk) (abs_path rc) t = Ok true.
Proof.
  intros Hck Hkk Hrc Cc Ck Cr Pc Pk Pr Hpub Hca Hroot Hv. unfold hasValidTLSArtifacts.
  rewrite !(calm_fileExists env ks HL) by done. rewrite Cc, Ck, Cr. cbn [negb orb].
  rewrite (calm_readCertificate ck sc), (calm_readCertificate rc rp), (calm_readKey kk sk) by done.
  rewrite Pc, Pk, Pr. cbn [map_err res_bind]. rewrite Hca, Hroot. cbn [negb].
  unfold verifyPrivateKeyMatchesCertificate. rewrite Hpub. cbn [public]. rewrite !Z.eqb_refl. cbn [negb orb].
  by rewrite Hv.
Qed.
End readers.

(** ** Making a server certificate *)

Section ensure.
Context (env : TLSEnv) (ck kk : list string).
Abbreviation now := (te_now env).
Abbreviation rc := (root_cert_key ck).
Abbreviation rk := (root_key_key ck).
Abbreviation ks := (artifacts ck kk).

(** The root that will sign, with its two files: the one on disk where there
    is a certificate of a CA and a key, else a new one. *)
Definition fresh_root : result goerr (Certificate * PrivateKey * bytes * bytes) :=
  try (cp, kp) := generateRootCA env in
  try root := parsePEMCertificate cp in
  try key := parsePEMRSAPrivateKey kp in
  Ok (root, key, cp, kp).

Definition disk_root (t : OsState) : result goerr (option (Certificate * PrivateKey * bytes * bytes)) :=
  match content t rc, content t rk with
  | Some cp, Some kp =>
      try root := parsePEMCertificate cp in
      try key := parsePEMRSAPrivateKey kp in
      Ok (if IsCA root then Some (root, key, cp, kp) else None)
  | _, _ => Ok None
  end.

Definition signing_root (t : OsState) : result goerr (Certificate * PrivateKey * bytes * bytes) :=
  try found := disk_root t in
  match found with Some r => Ok r | None => fresh_root end.

Lemma calm_makeDirs keys t :
  layout env keys → ks ⊆ keys → site env keys t →
  ∃ t', makeDirs no_faults env (abs_path ck) (abs_path kk) (abs_path rc) (abs_path rk) t = (t', Ok tt) ∧
    site env keys t' ∧ same keys t t' ∧ ∀ k, k ∈ ks → linked t' k.
Proof.
  intros HL Hsub Hs. unfold makeDirs.
  assert (ck ∈ keys ∧ kk ∈ keys ∧ rc ∈ keys ∧ rk ∈ keys) as (I1 & I2 & I3 & I4).
  { split_and!; apply Hsub; set_solver. }
  destruct (calm_MkdirAll env keys HL ck t I1 Hs) as (t1 & E1 & S1 & C1 & L1 & P1).
  destruct (calm_MkdirAll env keys HL kk t1 I2 S1) as (t2 & E2 & S2 & C2 & L2 & P2).
  destruct (calm_MkdirAll env keys HL rc t2 I3 S2) as (t3 & E3 & S3 & C3 & L3 & P3).
  destruct (calm_MkdirAll env keys HL rk t3 I4 S3) as (t4 & E4 & S4 & C4 & L4 & P4).
  exists t4. unfold go_bind, go_map_err. rewrite E1. cbn [map_err]. rewrite E2. cbn [map_err].
  rewrite E3. cbn [map_err]. rewrite E4. split_and!; [done|done| |].
  - intros q Hq. rewrite C4, C3, C2, C1; done.
  - intros k Hk. repeat (apply elem_of_cons in Hk as [-> | Hk]); try by apply elem_of_nil in Hk.
    all: auto 8.
Qed.

Section on_layout.
Context (HL : layout env ks) (Hnd : NoDup ks).

Lemma in_artifacts k : k ∈ ks → Forall plain k ∧ k ≠ [].
Proof. intros Hk. split; [by eapply ly_plain|by eapply ly_nonempty]. Qed.

Lemma ck_in : ck ∈ ks. Proof. set_solver. Qed.
Lemma kk_in : kk ∈ ks. Proof. set_solver. Qed.
Lemma rc_in : rc ∈ ks. Proof. set_solver. Qed.
Lemma rk_in : rk ∈ ks. Proof. set_solver. Qed.
Hint Resolve ck_in kk_in rc_in rk_in : core.

Lemma calm_existing_root t :
  site env ks t →
  existing_root no_faults dir_size (abs_path rc) (abs_path rk) t =
    (t, match disk_root t with
        | Ok found => Ok ((λ r, (r.1.1.1, r.1.1.2)) <$> found)
        | Err e => (existing_root no_faults dir_size (abs_path rc) (abs_path rk) t).2
        end).
Proof.
  intros Hs. unfold existing_root, disk_root, go_bind, go_get, go_read, go_map_err.
  rewrite !(calm_fileExists env ks HL) by done.
  destruct (content t rc) as [cp|] eqn:Cc, (content t rk) as [kp|] eqn:Ck; cbn -[abs_path rc rk]; try done.
  rewrite (calm_readCertificate env ks HL t Hs rc cp), (calm_readKey env ks HL t Hs rk kp) by done.
  destruct (parsePEMCertificate cp) as [root|]; cbn; [|done].
  destruct (parsePEMRSAPrivateKey kp) as [key|]; cbn; [|done]. by destruct (IsCA root).
Qed.

Lemma disk_root_Some t root key cp kp :
  disk_root t = Ok (Some (root, key, cp, kp)) →
  content t rc = Some cp ∧ content t rk = Some kp ∧ parsePEMCertificate cp = Ok root ∧ IsCA root = true.
Proof.
  unfold disk_root. destruct (content t rc) as [cp'|], (content t rk) as [kp'|]; try done.
  intros (root' & Hp & Hf)%res_bind_Ok. apply res_bind_Ok in Hf as (key' & _ & Hf).
  destruct (IsCA root') eqn:Hca; [|done]. injection Hf as -> -> -> ->. done.
Qed.

(** The root that signs parses, and is a CA; a new one is in force for long. *)
Lemma signing_root_cases t root key cp kp :
  signing_root t = Ok (root, key, cp, kp) →
  parsePEMCertificate cp = Ok root ∧ IsCA root = true ∧
  (disk_root t ≠ Ok None ∨
   disk_root t = Ok None ∧ own_root key root ∧
   ∀ now', now ≤ now' ≤ now + 1094 * day_ns → in_force now' root).
Proof.
  unfold signing_root. intros (found & Hf & Hr)%res_bind_Ok. rewrite Hf. destruct found as [r|].
  - injection Hr as ->. apply disk_root_Some in Hf as (_ & _ & Hp & Hca). by split_and!; [..|left].
  - unfold fresh_root in Hr. apply res_bind_Ok in Hr as ([cp' kp'] & Hg & Hr).
    apply res_bind_Ok in Hr as (root' & Hpc & Hr). apply res_bind_Ok in Hr as (key' & Hpk & [= -> -> -> ->]).
    destruct (generated_root _ _ _ Hg) as (root' & key' & P1 & P2 & Ho & Hca & Hb & Ha).
    rewrite Hpc in P1. rewrite Hpk in P2. injection P1 as <-. injection P2 as <-.
    split_and!; [done|done|]. right. split_and!; [done|done|]. intros now' Hn.
    eapply (fresh_in_force 10); [lia|done|done|done].
Qed.

Lemma artifacts_ne : rk ≠ rc ∧ ck ≠ rc ∧ ck ≠ rk ∧ kk ≠ rc ∧ kk ≠ rk ∧ ck ≠ kk.
Proof.
  unfold artifacts in Hnd. rewrite !NoDup_cons in Hnd. destruct Hnd as (N1 & N2 & N3 & _).
  split_and!; intros E; set_solver.
Qed.

Lemma calm_loadOrCreate t root key cp kp :
  site env ks t → (∀ k, k ∈ ks → linked t k) → signing_root t = Ok (root, key, cp, kp) →
  ∃ t', loadOrCreateRootCA no_faults dir_size env (abs_path rc) (abs_path rk) t = (t', Ok (root, key)) ∧
    site env ks t' ∧ content t' rc = Some cp ∧ content t' rk = Some kp ∧
    (∀ q, q ∈ ks → q ≠ rc → q ≠ rk → content t' q = content t q) ∧
    (∀ k, k ∈ ks → linked t' k).
Proof.
  intros Hs Hl. destruct artifacts_ne as (Hne & _).
  unfold signing_root. intros (found & Hf & Hr)%res_bind_Ok.
  unfold loadOrCreateRootCA, go_bind at 1. rewrite calm_existing_root, Hf by done. cbn [fmap option_fmap option_map].
  destruct found as [r|].
  { injection Hr as ->. apply disk_root_Some in Hf as (Hc & Hk & _). exists t. cbn. by split_and!. }
  unfold fresh_root in Hr. apply res_bind_Ok in Hr as ([cp' kp'] & Hg & Hr).
  apply res_bind_Ok in Hr as (root' & Hpc & Hr). apply res_bind_Ok in Hr as (key' & Hpk & [= -> -> -> ->]).
  cbn [fmap option_fmap option_map]. unfold go_bind, go_lift, go_map_err. rewrite Hg. cbv beta iota.
  destruct (calm_WriteFile env ks HL rc cp t rc_in Hs (Hl _ rc_in)) as (t1 & E1 & S1 & [C1 O1] & L1).
  rewrite E1. cbn [map_err].
  destruct (calm_WriteFile env ks HL rk kp t1 rk_in S1) as (t2 & E2 & S2 & [C2 O2] & L2); [by auto|].
  rewrite E2. cbn [map_err]. rewrite Hpc, Hpk. cbn [map_err].
  exists t2. split_and!; [done|done|by rewrite O2|done| |by auto].
  intros q Hq Hq1 Hq2. by rewrite O2, O1.
Qed.

Lemma ensure_outcome t root key cp kp sc sk :
  site env ks t → signing_root t = Ok (root, key, cp, kp) →
  generateServerCertificate env root key = Ok (sc, sk) →
  hasValidTLSArtifacts no_faults dir_size now (abs_path ck) (abs_path kk) (abs_path rc) t = Ok false →
  ∃ t', ensureServerCertificate no_faults dir_size env (abs_path ck) (abs_path kk) t = (t', Ok tt) ∧
    site env ks t' ∧ content t' ck = Some sc ∧ content t' kk = Some sk ∧
    content t' rc = Some cp ∧ content t' rk = Some kp.
Proof.
  intros Hs Hr Hg Hv. destruct artifacts_ne as (_ & N1 & N2 & N3 & N4 & N5).
  destruct (in_artifacts ck ck_in) as [Hpl Hne].
  unfold ensureServerCertificate. rewrite root_cert_path, root_key_path by done.
  unfold go_bind at 1, go_read at 1. rewrite Hv.
  destruct (calm_makeDirs ks t HL ltac:(done) Hs) as (t1 & E1 & S1 & C1 & L1).
  unfold go_bind at 1. rewrite E1.
  assert (signing_root t1 = Ok (root, key, cp, kp)) as Hr1.
  { unfold signing_root, disk_root. by rewrite !C1. }
  destruct (calm_loadOrCreate t1 _ _ _ _ S1 L1 Hr1) as (t2 & E2 & S2 & Cc & Ck & _ & L2).
  unfold go_bind at 1. rewrite E2. unfold go_bind at 1, go_lift. rewrite Hg.
  destruct (calm_WriteFile env ks HL ck sc t2 ck_in S2 (L2 _ ck_in)) as (t3 & E3 & S3 & [C3 O3] & L3).
  unfold go_bind, go_map_err. rewrite E3. cbn [map_err].
  destruct (calm_WriteFile env ks HL kk sk t3 kk_in S3) as (t4 & E4 & S4 & [C4 O4] & _); [by auto|].
  exists t4. rewrite E4. split_and!; [done|done|by rewrite O4|done| |]; by rewrite O4, O3.
Qed.

(** A start after that one. *)
Lemma restart_outcome t env' certPath keyPath root key cp sc sk :
  TrimSpace certPath = abs_path ck → TrimSpace keyPath = abs_path kk →
  site env ks t → content t ck = Some sc → content t kk = Some sk → content t rc = Some cp →
  parsePEMCertificate cp = Ok root → generateServerCertificate env root key = Ok (sc, sk) →
  own_root key root → IsCA root = true → in_force (te_now env') root →
  now ≤ te_now env' ≤ now + 1094 * day_ns →
  loadServerTLSCredentials no_faults dir_size env' certPath keyPath t = (t, Ok (sc, sk)).
Proof.
  intros Ec Ek Hs Cc Ck Cr Hp Hg Ho Hca Hi Hn. destruct (in_artifacts ck ck_in) as [Hpl Hne].
  destruct (generated_server _ _ _ _ _ Hg) as (cert & skey & Pc & Pk & Hpub & Hnca & Hb & Ha & Hpair & Hv).
  unfold loadServerTLSCredentials. cbv zeta. rewrite Ec, Ek.
  rewrite !bool_decide_eq_false_2 by done. cbn [orb]. unfold go_bind at 1, ensureServerCertificate.
  rewrite root_cert_path, root_key_path by done. unfold go_bind at 1, go_read at 1.
  rewrite (calm_hasValid env ks HL t Hs (te_now env') ck kk rc sc sk cp cert skey root); try done; auto.
  2:{ apply Hv; [done| |done]. by apply (fresh_in_force 3 now). }
  unfold NewServerTLSFromFile, go_map_err, go_bind, go_read, go_lift, go_ret.
  rewrite (calm_ReadFile env ks HL ck sc), (calm_ReadFile env ks HL kk sk) by done.
  by rewrite Hpair.
Qed.
End on_layout.

(** ** Rotation *)

Section rotate.
Context (bd : list string).

(** The copy of an artifact in the backup directory. *)
Definition backup_key (k : list string) : list string := bd ++ [default "" (last k)].
Definition rotation_keys : list (list string) := ks ++ map backup_key ks.

Context (HL : layout env rotation_keys) (Hnd : NoDup rotation_keys).

Lemma rotation_split : NoDup ks ∧ NoDup (map backup_key ks) ∧ ∀ k, k ∈ ks → k ∉ map backup_key ks.
Proof. unfold rotation_keys in Hnd. apply NoDup_app in Hnd as (N1 & N2 & N3). done. Qed.

Lemma artifact_in k : k ∈ ks → k ∈ rotation_keys.
Proof. unfold rotation_keys. set_solver. Qed.
Lemma backup_in k : k ∈ ks → backup_key k ∈ rotation_keys.
Proof. intros Hk. apply elem_of_app. right. by apply list_elem_of_fmap_2. Qed.

Lemma layout_artifacts : layout env ks.
Proof.
  destruct HL as [P N A T]. split; intros; [apply P|apply N|apply A|apply T]; try done; by apply artifact_in.
Qed.

Lemma site_artifacts t : site env rotation_keys t → site env ks t.
Proof.
  intros [W F T L]. split; intros; [eapply W|apply F|apply T|apply L]; try done; by apply artifact_in.
Qed.

Lemma backup_path k :
  k ∈ ks → JoinPath (abs_path bd) (Base (abs_path k)) = abs_path (backup_key k).
Proof.
  intros Hk. pose proof (ly_plain _ _ HL k (artifact_in k Hk)) as Hpl.
  pose proof (ly_nonempty _ _ HL k (artifact_in k Hk)) as Hne.
  pose proof (ly_plain _ _ HL _ (backup_in k Hk)) as Hbd. unfold backup_key in Hbd |- *.
  apply Forall_app in Hbd as [Hbd _]. destruct (exists_last Hne) as (l & w & ->).
  apply Forall_app in Hpl as [Hl Hw]. pose proof Hw as Hw'. apply Forall_cons in Hw' as [Hw' _].
  rewrite Base_abs_path, last_snoc by done. by apply (Clean_JoinPath bd [w]).
Qed.

Lemma calm_copySmallFile k d t :
  k ∈ ks → site env rotation_keys t → content t k = Some d →
  ∃ t', copySmallFile no_faults dir_size env (abs_path k) (abs_path (backup_key k)) t = (t', Ok tt) ∧
    site env rotation_keys t' ∧ updated rotation_keys (backup_key k) d t t'.
Proof.
  intros Hk Hs Hc. unfold copySmallFile, go_bind, go_read.
  rewrite (calm_ReadFile env rotation_keys HL k d) by (try done; by apply artifact_in).
  pose proof (calm_fileExists env rotation_keys HL dir_size k t (artifact_in k Hk) Hs) as Hx.
  unfold fileExists in Hx. rewrite bool_decide_eq_false_2 in Hx by (by apply TrimSpace_first).
  rewrite Hc in Hx. destruct (os_Stat no_faults dir_size (abs_path k) t); [|done].
  apply calm_write_atomically; [done|by apply backup_in|done].
Qed.

Lemma calm_backup_files ps t :
  ps ⊆ ks → NoDup (map backup_key ps) → site env rotation_keys t →
  ∃ t', backup_files no_faults dir_size env (abs_path bd) (map abs_path ps) t = (t', Ok tt) ∧
    site env rotation_keys t' ∧
    (∀ q, q ∈ rotation_keys → q ∉ map backup_key ps → content t' q = content t q) ∧
    ∀ k d, k ∈ ps → content t k = Some d → content t' (backup_key k) = Some d.
Proof.
  destruct rotation_split as (_ & _ & Hdis).
  revert t. induction ps as [|k ps IH]; intros t Hsub Hn Hs.
  { exists t. split_and!; [done..|]. intros k d Hk. by apply elem_of_nil in Hk. }
  assert (k ∈ ks) as Hk by set_solver. assert (ps ⊆ ks) as Hps by set_solver.
  cbn [map] in Hn. apply NoDup_cons in Hn as [Hnk Hn].
  cbn [backup_files map]. unfold go_bind at 1, go_get.
  rewrite (calm_fileExists env rotation_keys HL) by (try done; by apply artifact_in).
  destruct (content t k) as [c|] eqn:Ec; cbn [negb bool_decide].
  - rewrite bool_decide_eq_true_2 by done. cbn [negb]. rewrite backup_path by done.
    destruct (calm_copySmallFile k c t Hk Hs Ec) as (t1 & E1 & S1 & C1 & O1).
    unfold go_bind. rewrite E1. destruct (IH t1 Hps Hn S1) as (t2 & E2 & S2 & O2 & B2).
    exists t2. split_and!; [done|done| |].
    + intros q Hq Hqn. cbn [map] in Hqn. apply not_elem_of_cons in Hqn as [Hq1 Hq2].
      by rewrite O2, O1.
    + intros q d Hq Hd. apply elem_of_cons in Hq as [-> | Hq].
      * rewrite O2; [congruence|by apply backup_in|done].
      * apply B2; [done|]. rewrite O1; [done|apply artifact_in; set_solver|].
        intros ->. apply (Hdis (backup_key k)); [set_solver|]. by apply list_elem_of_fmap_2.
  - rewrite bool_decide_eq_false_2 by (by intros []). cbn [negb].
    destruct (IH t Hps Hn Hs) as (t2 & E2 & S2 & O2 & B2). exists t2. split_and!; [done|done| |].
    + intros q Hq Hqn. cbn [map] in Hqn. apply not_elem_of_cons in Hqn as [Hq1 Hq2]. by apply O2.
    + intros q d [-> | Hq]%elem_of_cons Hd; [congruence|by apply B2].
Qed.

(** Where the copies go. *)
Definition backup_dir_of (opt : string) : string :=
  let d := TrimSpace opt in
  if bool_decide (d = "")
  then JoinPath (JoinPath (Dir (abs_path ck)) "archive") ("tls-rotation-" +:+ format_stamp now)
  else d.

Definition has_artifact (t : OsState) : bool := existsb (λ k, bool_decide (is_Some (content t k))) ks.

Lemma calm_backup opt t :
  backup_dir_of opt = abs_path bd → site env rotation_keys t →
  ∃ t', backupTLSArtifacts no_faults dir_size env (abs_path ck) (abs_path kk) (abs_path rc) (abs_path rk) opt t
      = (t', Ok (if has_artifact t then abs_path bd else "")) ∧
    site env rotation_keys t' ∧ (∀ k, k ∈ ks → content t' k = content t k) ∧
    ∀ k d, k ∈ ks → content t k = Some d → content t' (backup_key k) = Some d.
Proof.
  intros Hbd Hs. destruct rotation_split as (_ & N2 & Hdis).
  unfold backupTLSArtifacts, go_bind at 1, go_get.
  assert (existsb (λ p, fileExists no_faults dir_size p t) [abs_path ck; abs_path kk; abs_path rc; abs_path rk]
          = has_artifact t) as ->.
  { unfold has_artifact, artifacts. cbn [existsb].
    by rewrite !(calm_fileExists env rotation_keys HL) by (try done; apply artifact_in; set_solver). }
  destruct (has_artifact t) eqn:Hh; cbn [negb].
  2:{ exists t. split_and!; [done..|]. intros k d Hk Hd. exfalso. revert Hh. unfold has_artifact.
      apply not_false_iff_true, existsb_exists. exists k. split; [by apply list_elem_of_In|].
      apply bool_decide_eq_true_2. by rewrite Hd. }
  cbv zeta. fold (backup_dir_of opt). rewrite Hbd. unfold go_bind at 1.
  assert (ck ∈ ks) as Hck by set_solver.
  destruct (calm_MkdirAll env rotation_keys HL (backup_key ck) t (backup_in ck Hck) Hs)
    as (t1 & E1 & S1 & C1 & _).
  pose proof (ly_plain _ _ HL _ (backup_in ck Hck)) as Hbpl. unfold backup_key in Hbpl.
  apply Forall_app in Hbpl as [Hb1 Hb2]. apply Forall_cons in Hb2 as [Hb2 _].
  unfold backup_key in E1. rewrite Dir_abs_path in E1 by done. rewrite E1.
  destruct (calm_backup_files ks t1) as (t2 & E2 & S2 & O2 & B2); [done|done|done|].
  unfold go_bind. change [abs_path ck; abs_path kk; abs_path rc; abs_path rk] with (map abs_path ks).
  rewrite E2. exists t2. split_and!; [done|done| |].
  - intros k Hk. rewrite O2; [|by apply artifact_in|by apply Hdis]. apply C1. by apply artifact_in.
  - intros k d Hk Hd. apply B2; [done|]. rewrite C1; [done|by apply artifact_in].
Qed.

(** The root that a rotation signs with. *)
Definition rotation_signer (o : TLSRotateOptions) (t : OsState)
  : result goerr (option (Certificate * PrivateKey * bytes * bytes)) :=
  if RotateRootCA o then try r := fresh_root in Ok (Some r) else disk_root t.

Lemma calm_rotation_root o t root key cp kp :
  site env rotation_keys t → rotation_signer o t = Ok (Some (root, key, cp, kp)) →
  ∃ pem kpem,
    rotation_root no_faults dir_size env (RotateRootCA o) (abs_path rc) (abs_path rk) t
      = (t, Ok (root, key, pem, kpem)) ∧
    (RotateRootCA o = true → pem = cp ∧ kpem = kp) ∧
    (RotateRootCA o = false → content t rc = Some cp ∧ content t rk = Some kp).
Proof.
  intros Hs. unfold rotation_signer, rotation_root. destruct (RotateRootCA o).
  - intros (r & Hr & [= ->])%res_bind_Ok. exists cp, kp. split; [|done].
    unfold fresh_root in Hr. apply res_bind_Ok in Hr as ([cp' kp'] & Hg & Hr).
    apply res_bind_Ok in Hr as (root' & Hpc & Hr). apply res_bind_Ok in Hr as (key' & Hpk & [= -> -> -> ->]).
    unfold go_bind, go_lift. rewrite Hg, Hpc. cbn [map_err]. by rewrite Hpk.
  - intros Hd. exists [], []. split; [|split; [done|]]; [|by apply disk_root_Some in Hd as (? & ? & _)].
    unfold go_bind, go_get, go_read, go_map_err, disk_root in *.
    rewrite !(calm_fileExists env rotation_keys HL) by (try done; apply artifact_in; set_solver).
    destruct (content t rc) as [cp'|] eqn:Cc; [|done]. destruct (content t rk) as [kp'|] eqn:Ck; [|done].
    rewrite !bool_decide_eq_true_2 by done. cbn [andb negb].
    rewrite (calm_readCertificate env rotation_keys HL t Hs rc cp'),
      (calm_readKey env rotation_keys HL t Hs rk kp') by (try done; apply artifact_in; set_solver).
    destruct (parsePEMCertificate cp') as [root'|]; [|done]. cbn [map_err res_bind] in *.
    destruct (parsePEMRSAPrivateKey kp') as [key'|]; [|done]. cbn [map_err res_bind] in *.
    destruct (IsCA root'); [|done]. by injection Hd as -> -> -> ->.
Qed.

(** The new files of a rotation, written one after the other. *)
Lemma calm_write_artifact wrap k d t :
  k ∈ ks → site env rotation_keys t →
  ∃ t', go_map_err (ErrWrap wrap) (writeFileAtomically no_faults env (abs_path k) d) t = (t', Ok tt) ∧
    site env rotation_keys t' ∧ updated rotation_keys k d t t'.
Proof.
  intros Hk Hs. destruct (calm_write_atomically env rotation_keys HL k d t) as (t' & E & S & U);
    [by apply artifact_in|done|].
  exists t'. unfold go_map_err. by rewrite E.
Qed.

Lemma calm_write_roots (rotate : bool) pem kpem t :
  site env rotation_keys t →
  ∃ t', (if rotate then
           let! _ := go_map_err (ErrWrap "write tls root certificate failed")
                       (writeFileAtomically no_faults env (abs_path rc) pem) in
           go_map_err (ErrWrap "write tls root key failed")
             (writeFileAtomically no_faults env (abs_path rk) kpem)
         else go_ret tt) t = (t', Ok tt) ∧
    site env rotation_keys t' ∧
    content t' rc = (if rotate then Some pem else content t rc) ∧
    content t' rk = (if rotate then Some kpem else content t rk) ∧
    ∀ q, q ∈ rotation_keys → q ≠ rc → q ≠ rk → content t' q = content t q.
Proof.
  intros Hs. destruct rotate; [|exists t; by split_and!].
  destruct (artifacts_ne layout_artifacts (proj1 rotation_split)) as (Hne & _).
  destruct (calm_write_artifact "write tls root certificate failed" rc pem t)
    as (t1 & E1 & S1 & [C1 O1]); [set_solver|done|].
  destruct (calm_write_artifact "write tls root key failed" rk kpem t1)
    as (t2 & E2 & S2 & [C2 O2]); [set_solver|done|].
  exists t2. unfold go_bind. rewrite E1, E2. split_and!; [done|done| |done|].
  - rewrite O2; [done|apply artifact_in; set_solver|done].
  - intros q Hq Hq1 Hq2. by rewrite O2, O1.
Qed.

Lemma rotation_signer_same o t t' :
  (∀ k, k ∈ ks → content t' k = content t k) → rotation_signer o t' = rotation_signer o t.
Proof.
  intros Hc. unfold rotation_signer, disk_root. destruct (RotateRootCA o); [done|].
  by rewrite !Hc by set_solver.
Qed.

Lemma has_artifact_same t t' : (∀ k, k ∈ ks → content t' k = content t k) → has_artifact t' = has_artifact t.
Proof. intros Hc. unfold has_artifact, artifacts. cbn [existsb]. by rewrite !Hc by set_solver. Qed.

(** The signer of a rotation can sign now. *)
Lemma rotation_signer_cases o t root key cp kp :
  rotation_signer o t = Ok (Some (root, key, cp, kp)) →
  (RotateRootCA o = false → own_root key root ∧ in_force now root) →
  parsePEMCertificate cp = Ok root ∧ IsCA root = true ∧ own_root key root ∧ in_force now root.
Proof.
  unfold rotation_signer. destruct (RotateRootCA o).
  - intros (r & Hr & [= ->])%res_bind_Ok _. unfold fresh_root in Hr.
    apply res_bind_Ok in Hr as ([cp' kp'] & Hg & Hr).
    apply res_bind_Ok in Hr as (root' & Hpc & Hr). apply res_bind_Ok in Hr as (key' & Hpk & [= -> -> -> ->]).
    destruct (generated_root _ _ _ Hg) as (root' & key' & P1 & P2 & Ho & Hca & Hb & Ha).
    rewrite Hpc in P1. rewrite Hpk in P2. injection P1 as <-. injection P2 as <-.
    split_and!; [done|done|done|]. eapply (fresh_in_force 10); [lia|done|done|]. unfold day_ns, second_ns. lia.
  - intros (_ & _ & Hp & Hca)%disk_root_Some Hr. by destruct (Hr eq_refl).
Qed.

(** The artifacts of the outcome, inspected. *)
Lemma rotated_inspected certPath keyPath t root key cp sc sk :
  TrimSpace certPath = abs_path ck → TrimSpace keyPath = abs_path kk → site env rotation_keys t →
  generateServerCertificate env root key = Ok (sc, sk) →
  parsePEMCertificate cp = Ok root → IsCA root = true → own_root key root → in_force now root →
  content t ck = Some sc → content t kk = Some sk → content t rc = Some cp →
  ∃ status, InspectTLSArtifacts no_faults dir_size now certPath keyPath t = (status, None) ∧
    OverallValid status = true.
Proof.
  intros Ec Ek Hs Hg Hp Hca Ho Hi Cc Ck Cr.
  destruct (generated_server _ _ _ _ _ Hg) as (cert & skey & Pc & Pk & Hpub & Hnca & Hb & Ha & _ & Hv).
  destruct (inspect_cases no_faults dir_size now certPath keyPath t) as [Hiff Hnone].
  destruct (in_artifacts layout_artifacts ck) as [Hpl Hne]; [set_solver|].
  destruct (InspectTLSArtifacts no_faults dir_size now certPath keyPath t) as [status err]. cbn [fst snd] in *.
  assert (OverallValid status = true) as Hov.
  { apply Hiff. rewrite Ec, Ek, root_cert_path by done. split_and!; [done|done|].
    eapply (calm_hasValid env rotation_keys HL t Hs now ck kk rc sc sk cp cert skey root);
      try done; try (apply artifact_in; set_solver).
    apply Hv; [done| |done]. eapply (fresh_in_force 3 now); [lia|done|done|]. unfold day_ns, second_ns. lia. }
  rewrite (Hnone Hov). eauto.
Qed.

Lemma rotate_outcome certPath keyPath o t root key cp kp sc sk :
  site env rotation_keys t →
  TrimSpace certPath = abs_path ck → TrimSpace keyPath = abs_path kk →
  backup_dir_of (opt_BackupDir o) = abs_path bd →
  rotation_signer o t = Ok (Some (root, key, cp, kp)) →
  (RotateRootCA o = false → own_root key root ∧ in_force now root) →
  generateServerCertificate env root key = Ok (sc, sk) →
  ∃ t' res,
    RotateTLSArtifacts no_faults dir_size env certPath keyPath o t = (t', Ok res) ∧
    OverallValid (res_Status res) = true ∧ RotatedRootCA res = RotateRootCA o ∧
    res_BackupDir res = (if has_artifact t then abs_path bd else "") ∧
    content t' ck = Some sc ∧ content t' kk = Some sk ∧ content t' rc = Some cp ∧ content t' rk = Some kp ∧
    ∀ k d, k ∈ ks → content t k = Some d → content t' (backup_key k) = Some d.
Proof.
  intros Hs Ec Ek Hbd Hsign Hroot Hg.
  destruct (in_artifacts layout_artifacts ck) as [Hpl Hne]; [set_solver|].
  destruct (artifacts_ne layout_artifacts (proj1 rotation_split)) as (_ & N1 & N2 & N3 & N4 & N5).
  destruct rotation_split as (_ & _ & Hdis).
  destruct (rotation_signer_cases _ _ _ _ _ _ Hsign Hroot) as (Hp & Hca & Ho & Hi).
  unfold RotateTLSArtifacts. cbv zeta. rewrite Ec, Ek, !bool_decide_eq_false_2 by done. cbn [orb].
  rewrite root_cert_path, root_key_path by done. unfold go_bind at 1.
  destruct (calm_makeDirs rotation_keys t HL) as (t1 & E1 & S1 & C1 & _); [intros k; apply artifact_in|done|].
  assert (∀ k, k ∈ ks → content t1 k = content t k) as C1' by (intros k Hk; by apply C1, artifact_in).
  rewrite E1. unfold go_bind at 1.
  destruct (calm_backup (opt_BackupDir o) t1 Hbd S1) as (t2 & E2 & S2 & C2 & B2).
  rewrite E2, (has_artifact_same t t1) by done. unfold go_bind at 1.
  destruct (calm_rotation_root o t2 root key cp kp) as (pem & kpem & E3 & R1 & R2); [done| |].
  { rewrite (rotation_signer_same o t t2); [done|]. intros k Hk. by rewrite C2, C1'. }
  rewrite E3. unfold go_bind at 1, go_lift. rewrite Hg. unfold go_bind at 1.
  destruct (calm_write_roots (RotateRootCA o) pem kpem t2 S2) as (t3 & E4 & S3 & Cc & Ck & O3).
  rewrite E4. unfold go_bind at 1.
  destruct (calm_write_artifact "write tls certificate failed" ck sc t3) as (t4 & E5 & S4 & [C4 O4]);
    [set_solver|done|].
  rewrite E5. unfold go_bind at 1.
  destruct (calm_write_artifact "write tls key failed" kk sk t4) as (t5 & E6 & S5 & [C5 O5]);
    [set_solver|done|].
  rewrite E6.
  assert (content t5 rc = Some cp ∧ content t5 rk = Some kp) as [Crc Crk].
  { rewrite !O5, !O4, Cc, Ck by (try done; apply artifact_in; set_solver).
    destruct (RotateRootCA o); [by destruct R1 as [-> ->]|by apply R2]. }
  assert (content t5 ck = Some sc) as Cck by (rewrite O5; [done|apply artifact_in; set_solver|done]).
  destruct (rotated_inspected (abs_path ck) (abs_path kk) t5 root key cp sc sk) as (status & Est & Hov);
    try done.
  { by rewrite <- Ec, TrimSpace_idem. }
  { by rewrite <- Ek, TrimSpace_idem. }
  unfold go_bind, go_get. rewrite Est. eexists t5, _. split; [reflexivity|].
  split_and!; try done. intros k d Hk Hd.
  assert (∀ x, x ∈ ks → backup_key k ≠ x) as Hx.
  { intros x Hx <-. apply (Hdis _ Hx). by apply list_elem_of_fmap_2. }
  rewrite O5, O4, O3; try (by apply backup_in); try (apply Hx; set_solver).
  apply B2; [done|]. by rewrite C1'.
Qed.
End rotate.
End ensure.
End artifacts.

(** What [writeFileAtomically] leaves behind.  On a site of files, with any
    failures: the other files keep their contents; on success the file has the
    new content; on an error it has its old content, or, only when the last
    step, the rename, has failed, it is gone.  It never has part of the new
    content.  Where nothing fails it succeeds. *)
Theorem atomic_write_outcomes (env : TLSEnv) (ks : list (list string)) flt k d t t' r :
  layout env ks → site env ks t → k ∈ ks →
  writeFileAtomically flt env (abs_path k) d t = (t', r) →
  (∀ q, q ∈ ks → q ≠ k → content t' q = content t q) ∧
  match r with
  | Ok _ => content t' k = Some d
  | Err _ => content t' k = content t k ∨
             content t' k = None ∧ is_Some (flt "rename" (abs_path (temp_key env k)))
  end ∧
  (flt = no_faults → r = Ok tt).
Proof.
  intros HL Hs Hk Hw. pose proof Hw as Hw'. apply (write_atomically env ks HL) in Hw' as [_ Ho Ht]; [|done..].
  split_and!; [done|done|]. intros ->.
  destruct (calm_write_atomically env ks HL k d t Hk Hs) as (t1 & E & _). congruence.
Qed.

(** C22: The root certificate survives.  Through any number of starts of the
    server, at any times and with any failures but of [os.Stat] on the two root
    files, a root certificate that parses as a CA and has a key beside it stays
    as it is, and so does the key: clients that trust the root keep their
    trust. *)
Theorem root_kept `{!X509} `{!LocalZone} `{!GoUnicode} dir_size (ck kk : list string)
    (starts : list (Faults * TLSEnv)) root cert_pem key_pem mc mk t :
  Forall plain ck → Forall plain kk → ck ≠ [] →
  (∀ q, q ∈ [ck; kk] → ¬ q `prefix_of` root_cert_key ck ∧ ¬ q `prefix_of` root_key_key ck) →
  os_lookup t (root_cert_key ck) = Ok (FileNode cert_pem mc) →
  os_lookup t (root_key_key ck) = Ok (FileNode key_pem mk) →
  parsePEMCertificate cert_pem = Ok root → IsCA root = true →
  Forall (λ s : Faults * TLSEnv, s.1 "stat" (abs_path (root_cert_key ck)) = None ∧
                                 s.1 "stat" (abs_path (root_key_key ck)) = None) starts →
  let t' := after_starts dir_size ck kk starts t in
  os_lookup t' (root_cert_key ck) = Ok (FileNode cert_pem mc) ∧
  os_lookup t' (root_key_key ck) = Ok (FileNode key_pem mk).
Proof.
  intros Hc Hk Hne Hp Lc Lk Hparse Hca Hs.
  assert (kept_root ck root (FileNode cert_pem mc) (FileNode key_pem mk) t) as Hr.
  { split; try done. by intros pem mt [= <- _]. }
  apply (starts_keep dir_size ck kk) with (starts := starts) in Hr as []; try done.
  all: intros q Hq; by apply Hp.
Qed.


(** Rotation replaces what it says, and keeps a copy of what was there.
    Where nothing fails, [RotateTLSArtifacts] with a root that is in force
    (the one on disk, or a new one when [RotateRootCA] is set) succeeds and
    reports valid artifacts: the server has the new certificate and key, the
    root files are the new ones or untouched as asked for, and every artifact
    that was there is in the backup directory under its own name. *)
Theorem rotate_contract `{!X509} `{!X509Laws} `{!LocalZone} `{!GoUnicode} dir_size
    (env : TLSEnv) (ck kk bd : list string) certPath keyPath o t root key cp kp sc sk :
  NoDup (rotation_keys ck kk bd) → layout env (rotation_keys ck kk bd) →
  site env (rotation_keys ck kk bd) t →
  TrimSpace certPath = abs_path ck → TrimSpace keyPath = abs_path kk →
  backup_dir_of env ck (opt_BackupDir o) = abs_path bd →
  rotation_signer env ck o t = Ok (Some (root, key, cp, kp)) →
  (RotateRootCA o = false → own_root key root ∧ in_force (te_now env) root) →
  generateServerCertificate env root key = Ok (sc, sk) →
  ∃ t' res,
    RotateTLSArtifacts no_faults dir_size env certPath keyPath o t = (t', Ok res) ∧
    OverallValid (res_Status res) = true ∧ RotatedRootCA res = RotateRootCA o ∧
    res_BackupDir res = (if has_artifact ck kk t then abs_path bd else "") ∧
    content t' ck = Some sc ∧ content t' kk = Some sk ∧
    content t' (root_cert_key ck) = Some cp ∧ content t' (root_key_key ck) = Some kp ∧
    ∀ k d, k ∈ artifacts ck kk → content t k = Some d → content t' (backup_key bd k) = Some d.
Proof. intros Hnd HL Hs. by apply rotate_outcome. Qed.
End TlsTheorems.
