(* ===== verification/Interceptors.v ===== *)
(** * Interceptors

    What every RPC passes through before its handler: internal/server/logging.go
    and the authentication of internal/server/security.go, and how
    [BuildGRPCServerOptions] puts them together.  A handler works on the state
    of the application; the interceptors add the recorder of the metrics and the
    lines of the log.  The calls of [rand] and the clock are answers in
    [CallEnv]. *)

From stdpp Require Import pretty.
From S2P Require Import Prelude GoStrings StringLists FsPath OsFs GoTime Hash Recorder Security.
From Stdlib Require Import Ascii.
Open Scope string_scope.
Open Scope Z_scope.
Open Scope list_scope.

Module Interceptors.
Import Recorder.

(** ** Requests *)

(** metadata.MD, with keys in lower case, and the values that the code puts
    into a [context.Context]. *)
Abbreviation MD := (gmap string (list string)).
Record Ctx := {
  ctx_md : option MD;                  (* metadata.FromIncomingContext *)
  ctx_request_id : option string;
  ctx_method : option string;
}.

Definition requestIDHeader : string := "x-request-id".
Definition sharedSecretHeader : string := "x-roodox-secret".

(** [md.Get], for a key in lower case. *)
Definition md_Get (k : string) (md : MD) : list string := default [] (md !! k).

(** The getters that a message may have. *)
Record Message := {
  GetPath : option string;
  GetBuildId : option string;
  GetUnitPath : option string;
}.
Definition nil_message : Message := {| GetPath := None; GetBuildId := None; GetUnitPath := None |}.

Definition extractPath (v : Message) : string := default "" (GetPath v).
Definition extractBuildID (v : Message) : string := default "" (GetBuildId v).
Definition extractUnitPath (v : Message) : string := default "" (GetUnitPath v).

Definition RequestIDFromContext (ctx : Ctx) : string := default "" (ctx_request_id ctx).
Definition MethodFromContext (ctx : Ctx) : string := default "" (ctx_method ctx).

(** What a call meets: eight random bytes, the fallback for them, and how long
    the handler takes. *)
Record CallEnv := {
  ce_random : option bytes;
  ce_stamp : string;
  ce_elapsed : Z;
}.

(** hex.EncodeToString *)
Definition hex_byte (b : Byte.byte) : string := hex_word 2 (Z.of_N (Byte.to_N b)).
Definition newRequestID (env : CallEnv) : string :=
  match ce_random env with
  | None => ce_stamp env
  | Some buf => String.concat "" (map hex_byte buf)
  end.

Definition requestIDFromMetadata (ctx : Ctx) : string :=
  match ctx_md ctx with
  | None => ""
  | Some md =>
      match md_Get requestIDHeader md with
      | [] => ""
      | v :: _ => v
      end
  end.

Definition injectRequestContext (env : CallEnv) (ctx : Ctx) (method : string) : Ctx :=
  let requestID := requestIDFromMetadata ctx in
  let requestID := if bool_decide (requestID = "") then newRequestID env else requestID in
  {| ctx_md := ctx_md ctx; ctx_request_id := Some requestID; ctx_method := Some method |}.

(** ** The log *)

Inductive LogLine :=
| RPCLine (request_id method path build_id : string) (code : Code) (duration_ms : Z)
| EventLine (request_id method text : string).

Definition logRPCResult (ctx : Ctx) (method : string) (req resp : Message) (code : Code) (duration : Z)
  : LogLine :=
  let path := extractPath req in
  let path := if bool_decide (path = "") then extractPath resp else path in
  let buildID := extractBuildID req in
  let buildID := if bool_decide (buildID = "") then extractBuildID resp else buildID in
  let buildID := if bool_decide (buildID = "") then extractUnitPath req else buildID in
  RPCLine (RequestIDFromContext ctx) method path buildID code (Milliseconds duration).

Definition LogRequestEvent (ctx : Ctx) (text : string) : LogLine :=
  EventLine (RequestIDFromContext ctx) (MethodFromContext ctx) text.

(** ** The state of the server *)

Section server.
Context {App Req Resp : Type} (req_msg : Req → Message) (resp_msg : Resp → Message).

Record Server := { sv_app : App; sv_metrics : option Recorder; sv_log : list LogLine }.

Definition log (l : LogLine) : go Server status unit :=
  go_modify (λ s, {| sv_app := sv_app s; sv_metrics := sv_metrics s; sv_log := sv_log s ++ [l] |}).

(** A nil [RuntimeMetrics] records nothing. *)
Definition record (method : string) (code : Code) (duration : Z) : go Server status unit :=
  go_modify (λ s, {| sv_app := sv_app s; sv_metrics := RecordRPC method code duration (sv_metrics s);
                     sv_log := sv_log s |}).

Abbreviation UnaryHandler := (Ctx → Req → go Server status Resp).
Abbreviation StreamHandler := (Ctx → go Server status unit).

(** status.Code *)
Definition status_Code {A} (r : result status A) : Code :=
  match r with Ok _ => OK | Err e => st_code e end.

Definition loggingUnaryInterceptor (env : CallEnv) (method : string) (ctx : Ctx) (req : Req)
    (handler : UnaryHandler) : go Server status Resp :=
  let ctx := injectRequestContext env ctx method in
  catch! r := handler ctx req in
  let resp := match r with Ok resp => resp_msg resp | Err _ => nil_message end in
  let! _ := log (logRPCResult ctx method (req_msg req) resp (status_Code r) (ce_elapsed env)) in
  let! _ := record method (status_Code r) (ce_elapsed env) in
  go_lift r.

Definition loggingStreamInterceptor (env : CallEnv) (method : string) (ctx : Ctx)
    (handler : StreamHandler) : go Server status unit :=
  let ctx := injectRequestContext env ctx method in
  catch! r := handler ctx in
  let! _ := log (logRPCResult ctx method nil_message nil_message (status_Code r) (ce_elapsed env)) in
  let! _ := record method (status_Code r) (ce_elapsed env) in
  go_lift r.

(** ** The shared secret *)

(** subtle.ConstantTimeByteEq and subtle.ConstantTimeCompare. *)
Definition ConstantTimeByteEq (x y : Z) : Z := Z.shiftr ((Z.lxor x y - 1) mod two32) 31.
Definition ConstantTimeCompare (x y : list Z) : Z :=
  if negb (Z.of_nat (length x) =? Z.of_nat (length y)) then 0
  else ConstantTimeByteEq (foldr Z.lor 0 (zip_with Z.lxor x y)) 0.

Definition byte_values (s : string) : list Z :=
  map (λ a, Z.of_N (N_of_ascii a)) (String.list_ascii_of_string s).

Definition validateSharedSecret (ctx : Ctx) (expected : string) : go Server status unit :=
  match ctx_md ctx with
  | None =>
      let! _ := log (LogRequestEvent ctx "component=auth secret_check_result=missing_metadata") in
      go_fail (Status Unauthenticated "missing metadata")
  | Some md =>
      match md_Get sharedSecretHeader md with
      | [] =>
          let! _ := log (LogRequestEvent ctx "component=auth secret_check_result=missing_secret") in
          go_fail (Status Unauthenticated "missing shared secret")
      | value :: _ =>
          if negb (ConstantTimeCompare (byte_values value) (byte_values expected) =? 1)
          then
            let! _ := log (LogRequestEvent ctx "component=auth secret_check_result=invalid") in
            go_fail (Status Unauthenticated "invalid shared secret")
          else
            let! _ := log (LogRequestEvent ctx "component=auth secret_check_result=ok") in
            go_ret tt
      end
  end.

Definition authUnaryInterceptor (expected : string) (ctx : Ctx) (req : Req) (handler : UnaryHandler)
  : go Server status Resp :=
  let! _ := validateSharedSecret ctx expected in
  handler ctx req.

Definition authStreamInterceptor (expected : string) (ctx : Ctx) (handler : StreamHandler)
  : go Server status unit :=
  let! _ := validateSharedSecret ctx expected in
  handler ctx.

(** ** The options of the server *)

Inductive Interceptor := LoggingInterceptor | AuthInterceptor (expected : string).

(** The first interceptor of a chain is the outermost. *)
Fixpoint chain_unary (env : CallEnv) (method : string) (ics : list Interceptor) (handler : UnaryHandler)
  : UnaryHandler :=
  match ics with
  | [] => handler
  | LoggingInterceptor :: ics' =>
      λ ctx req, loggingUnaryInterceptor env method ctx req (chain_unary env method ics' handler)
  | AuthInterceptor secret :: ics' =>
      λ ctx req, authUnaryInterceptor secret ctx req (chain_unary env method ics' handler)
  end.

Fixpoint chain_stream (env : CallEnv) (method : string) (ics : list Interceptor) (handler : StreamHandler)
  : StreamHandler :=
  match ics with
  | [] => handler
  | LoggingInterceptor :: ics' =>
      λ ctx, loggingStreamInterceptor env method ctx (chain_stream env method ics' handler)
  | AuthInterceptor secret :: ics' =>
      λ ctx, authStreamInterceptor secret ctx (chain_stream env method ics' handler)
  end.
End server.

Record SecurityConfig := {
  AuthEnabled : bool;
  SharedSecret : string;
  TLSEnabled : bool;
  TLSCertPath : string;
  TLSKeyPath : string;
}.

Record ServerOptions := {
  so_unary : list Interceptor;
  so_stream : list Interceptor;
  so_creds : option (bytes * bytes);
}.

Section options.
Context `{TLS.X509} `{LocalZone} `{GoUnicode}.

Definition BuildGRPCServerOptions (flt : Faults) (dir_size : Z) (env : TLS.TLSEnv) (cfg : SecurityConfig)
  : go OsState goerr ServerOptions :=
  let! auth :=
    (if AuthEnabled cfg then
       let secret := TrimSpace (SharedSecret cfg) in
       if bool_decide (secret = "") then go_fail (ErrNew "auth is enabled but shared_secret is empty")
       else go_ret [AuthInterceptor secret]
     else go_ret []) in
  let! creds :=
    (if TLSEnabled cfg
     then let! c := TLS.loadServerTLSCredentials flt dir_size env (TLSCertPath cfg) (TLSKeyPath cfg) in go_ret (Some c)
     else go_ret None) in
  go_ret {| so_unary := LoggingInterceptor :: auth; so_stream := LoggingInterceptor :: auth; so_creds := creds |}.
End options.

(** ** The comparison of secrets *)

Definition is_byte (z : Z) : Prop := 0 ≤ z < 256.

Lemma byte_bits f a b :
  (∀ x y n, Z.land (f x y) (Z.ones n) = f (Z.land x (Z.ones n)) (Z.land y (Z.ones n))) →
  is_byte a → is_byte b → is_byte (f a b).
Proof.
  intros Hf Ha Hb. unfold is_byte in *.
  assert (f a b = Z.land (f a b) (Z.ones 8)) as ->.
  { rewrite Hf, !Z.land_ones, !Z.mod_small by (done || lia). done. }
  rewrite Z.land_ones by done. by apply Z.mod_pos_bound.
Qed.

Lemma lor_byte a b : is_byte a → is_byte b → is_byte (Z.lor a b).
Proof. apply byte_bits. intros x y n. by rewrite Z.land_lor_distr_l. Qed.
Lemma lxor_byte a b : is_byte a → is_byte b → is_byte (Z.lxor a b).
Proof.
  apply byte_bits. intros x y n. apply Z.bits_inj'. intros i Hi.
  rewrite !Z.land_spec, !Z.lxor_spec, !Z.land_spec. by destruct (Z.testbit x i), (Z.testbit y i), (Z.testbit _ i).
Qed.

Lemma difference_byte x y :
  Forall is_byte x → Forall is_byte y → is_byte (foldr Z.lor 0 (zip_with Z.lxor x y)).
Proof.
  intros Hx. revert y. induction Hx as [|a x Ha Hx IH]; intros y Hy; [done|].
  destruct Hy as [|b y Hb Hy]; [done|]. simpl. apply lor_byte; [by apply lxor_byte|by apply IH].
Qed.

Lemma difference_zero x y :
  length x = length y → foldr Z.lor 0 (zip_with Z.lxor x y) = 0 ↔ x = y.
Proof.
  revert y. induction x as [|a x IH]; intros [|b y] Hl; simpl in *; try done.
  rewrite Z.lor_eq_0_iff, Z.lxor_eq_0_iff, IH by lia. split; [by intros [-> ->]|by intros [= -> ->]].
Qed.

(** The constant-time comparison is equality of bytes. *)
Lemma ConstantTimeCompare_spec x y :
  Forall is_byte x → Forall is_byte y →
  ConstantTimeCompare x y = if bool_decide (x = y) then 1 else 0.
Proof.
  intros Hx Hy. unfold ConstantTimeCompare. destruct (Z.eqb_spec (Z.of_nat (length x)) (Z.of_nat (length y))) as [El|El].
  - apply Nat2Z.inj in El. cbn [negb]. unfold ConstantTimeByteEq. rewrite Z.lxor_0_r.
    pose proof (difference_byte x y Hx Hy) as Hb. pose proof (difference_zero x y El) as H0.
    set (v := foldr Z.lor 0 (zip_with Z.lxor x y)) in *. unfold is_byte, two32 in *.
    rewrite Z.shiftr_div_pow2 by done. change (2 ^ 31) with 2147483648.
    destruct (bool_decide_reflect (x = y)) as [Exy|Exy].
    + apply H0 in Exy. rewrite Exy. reflexivity.
    + assert (v ≠ 0) by (by intros E; apply Exy, H0).
      rewrite Z.mod_small by lia. apply Z.div_small. lia.
  - cbn [negb]. rewrite bool_decide_eq_false_2; [done|]. intros ->. done.
Qed.

Lemma byte_values_byte s : Forall is_byte (byte_values s).
Proof.
  apply Forall_forall. intros z (a & -> & _)%list_elem_of_fmap. unfold is_byte.
  pose proof (N_ascii_bounded a). lia.
Qed.
Lemma byte_values_inj s t : byte_values s = byte_values t → s = t.
Proof.
  revert t. induction s as [|a s IH]; intros [|b t]; try done. unfold byte_values. simpl. intros [= Ha Ht].
  apply N2Z.inj, (f_equal ascii_of_N) in Ha. rewrite !ascii_N_embedding in Ha. subst b. f_equal. by apply IH.
Qed.

Lemma secrets_equal v w :
  ConstantTimeCompare (byte_values v) (byte_values w) =? 1 = bool_decide (v = w).
Proof.
  rewrite ConstantTimeCompare_spec by apply byte_values_byte.
  destruct (bool_decide_reflect (byte_values v = byte_values w)) as [E|E].
  - apply byte_values_inj in E as ->. by rewrite bool_decide_eq_true_2.
  - rewrite bool_decide_eq_false_2; [done|]. by intros ->.
Qed.

(** ** Authentication *)

(** The secret that a request presents: its first value. *)
Definition presented (ctx : Ctx) : option string :=
  match ctx_md ctx with Some md => head (md_Get sharedSecretHeader md) | None => None end.

Section guards.
Context {App : Type}.

(** A server with one more line in its log. *)
Definition logged (l : LogLine) (s : Server (App := App)) : Server :=
  {| sv_app := sv_app s; sv_metrics := sv_metrics s; sv_log := sv_log s ++ [l] |}.

Lemma validate_outcome ctx expected (s : Server (App := App)) :
  ∃ l, validateSharedSecret ctx expected s =
    (logged l s,
     if bool_decide (presented ctx = Some expected) then Ok tt
     else Err (Status Unauthenticated
       match presented ctx with
       | Some _ => "invalid shared secret"
       | None => if ctx_md ctx then "missing shared secret" else "missing metadata"
       end)).
Proof.
  unfold validateSharedSecret, presented. destruct (ctx_md ctx) as [md|]; [|by eexists].
  destruct (md_Get sharedSecretHeader md) as [|v vs]; [by eexists|]. cbn [head]. rewrite secrets_equal.
  destruct (bool_decide_reflect (v = expected)) as [-> | Hne]; cbn [negb].
  - rewrite bool_decide_eq_true_2 by done. by eexists.
  - rewrite bool_decide_eq_false_2 by congruence. by eexists.
Qed.

Context {Req Resp : Type} (req_msg : Req → Message) (resp_msg : Resp → Message).

(** What a guarded call does, for a handler [h] run in the server's own
    context: nothing but answering [Unauthenticated], or what [h] does; and one
    record of the call. *)
Definition guarded {A} (secret : string) (env : CallEnv) (method : string) (ctx : Ctx)
    (h : Ctx → go (Server (App := App)) status A) (s : Server) (out : Server * result status A) : Prop :=
  let '(s', r) := out in
  if decide (presented ctx = Some secret) then
    ∃ l, let '(s1, r1) := h (injectRequestContext env ctx method) (logged l s) in
      r = r1 ∧ sv_app s' = sv_app s1 ∧
      sv_metrics s' = RecordRPC method (status_Code r) (ce_elapsed env) (sv_metrics s1)
  else
    sv_app s' = sv_app s ∧ (∃ msg, r = Err (Status Unauthenticated msg)) ∧
    sv_metrics s' = RecordRPC method Unauthenticated (ce_elapsed env) (sv_metrics s).

Lemma unary_guarded secret env method ctx req handler s :
  guarded secret env method ctx (λ ctx, handler ctx req) s
    (chain_unary req_msg resp_msg env method [LoggingInterceptor; AuthInterceptor secret] handler ctx req s).
Proof.
  unfold guarded. cbn [chain_unary]. unfold loggingUnaryInterceptor, authUnaryInterceptor, go_catch, go_bind at 1.
  destruct (validate_outcome (injectRequestContext env ctx method) secret s) as [l ->].
  change (presented (injectRequestContext env ctx method)) with (presented ctx).
  destruct (decide (presented ctx = Some secret)) as [E|E].
  - rewrite bool_decide_eq_true_2 by done. cbv beta iota.
    destruct (handler (injectRequestContext env ctx method) req (logged l s)) as [s1 [a|e]] eqn:Eh;
      exists l; by rewrite Eh.
  - rewrite bool_decide_eq_false_2 by done. split_and!; [done|by eexists|done].
Qed.

Lemma stream_guarded secret env method ctx handler s :
  guarded secret env method ctx handler s
    (chain_stream env method [LoggingInterceptor; AuthInterceptor secret] handler ctx s).
Proof.
  unfold guarded. cbn [chain_stream]. unfold loggingStreamInterceptor, authStreamInterceptor, go_catch, go_bind at 1.
  destruct (validate_outcome (injectRequestContext env ctx method) secret s) as [l ->].
  change (presented (injectRequestContext env ctx method)) with (presented ctx).
  destruct (decide (presented ctx = Some secret)) as [E|E].
  - rewrite bool_decide_eq_true_2 by done. cbv beta iota.
    destruct (handler (injectRequestContext env ctx method) (logged l s)) as [s1 [a|e]] eqn:Eh;
      exists l; by rewrite Eh.
  - rewrite bool_decide_eq_false_2 by done. split_and!; [done|by eexists|done].
Qed.

(** C20: The shared secret guards the server.  When [BuildGRPCServerOptions]
    accepts a configuration with authentication, the secret it trims from the
    configuration is not empty, and every RPC, unary or streaming, behaves as
    follows, whatever its handler does.  If the first value of its
    x-roodox-secret header is that secret, byte for byte, it does and answers
    what the handler does, in a context with its request id; otherwise the
    state of the application is untouched and the answer is [Unauthenticated].
    In both cases the metrics record the call once, with its code. *)
Theorem shared_secret_guards `{TLS.X509} `{LocalZone} `{GoUnicode} flt dir_size tls_env cfg t t' opts :
  AuthEnabled cfg = true →
  BuildGRPCServerOptions flt dir_size tls_env cfg t = (t', Ok opts) →
  let secret := TrimSpace (SharedSecret cfg) in
  secret ≠ "" ∧
  (∀ env method ctx req handler s,
    guarded secret env method ctx (λ ctx, handler ctx req) s
      (chain_unary req_msg resp_msg env method (so_unary opts) handler ctx req s)) ∧
  (∀ env method ctx handler s,
    guarded secret env method ctx handler s (chain_stream env method (so_stream opts) handler ctx s)).
Proof.
  intros Hauth. unfold BuildGRPCServerOptions. rewrite Hauth. cbv zeta.
  destruct (bool_decide_reflect (TrimSpace (SharedSecret cfg) = "")) as [E|E]; [done|].
  intros (t1 & auth & [= <- <-] & Hx)%go_bind_Ok. apply go_bind_Ok in Hx as (t2 & creds & _ & [= _ <-]).
  split; [done|]. split; intros; [apply unary_guarded|apply stream_guarded].
Qed.
End guards.

(** A configuration, a request with its secret, and one without. *)
Definition ex_cfg : SecurityConfig := {|
  AuthEnabled := true; SharedSecret := " s3cret "; TLSEnabled := false; TLSCertPath := ""; TLSKeyPath := "" |}.
Definition ex_call : CallEnv := {| ce_random := Some [Byte.x0f; Byte.xa0]; ce_stamp := ""; ce_elapsed := 2500000 |}.
Definition ex_ctx (md : MD) : Ctx := {| ctx_md := Some md; ctx_request_id := None; ctx_method := None |}.
Definition ex_server : Server (App := Z) := {| sv_app := 0; sv_metrics := None; sv_log := [] |}.
Definition ex_handler : Ctx → Z → go (Server (App := Z)) status Z := λ _ n s,
  ({| sv_app := n; sv_metrics := sv_metrics s; sv_log := sv_log s |}, Ok n).
Definition ex_options : ServerOptions := {|
  so_unary := [LoggingInterceptor; AuthInterceptor "s3cret"];
  so_stream := [LoggingInterceptor; AuthInterceptor "s3cret"]; so_creds := None |}.

Example secret_accepted :
  chain_unary (λ _, nil_message) (λ _, nil_message) ex_call "/m" (so_unary ex_options) ex_handler
    (ex_ctx {[sharedSecretHeader := ["s3cret"; "x"]]}) 7 ex_server =
  ({| sv_app := 7; sv_metrics := None;
      sv_log := [EventLine "0fa0" "/m" "component=auth secret_check_result=ok"; RPCLine "0fa0" "/m" "" "" OK 2] |},
   Ok 7).
Proof. vm_compute. reflexivity. Qed.
End Interceptors.
