(* ===== verification/TlsExamples.v ===== *)
(** * TLS artifacts on concrete trees

    An [X509] that satisfies its laws, in which a certificate is the encoding
    of its fields and of the public key that signed it, and runs of the code
    with it: the theorems of [TlsTheorems] at concrete inputs, and three
    things that go wrong. *)

From stdpp Require Import pretty countable.
From S2P Require Import Prelude GoStrings StringLists FsPath OsFs Writes GoTime Security Artifacts TlsTheorems Interceptors.
Open Scope string_scope.
Open Scope Z_scope.
Open Scope list_scope.

Module TlsExamples.
Import TLS TlsTheorems.

(** ** A certificate format *)

Fixpoint bits (p : positive) : bytes :=
  match p with
  | xH => []
  | xO p' => Byte.x00 :: bits p'
  | xI p' => Byte.x01 :: bits p'
  end.
Fixpoint unbits (b : bytes) : option positive :=
  match b with
  | [] => Some xH
  | Byte.x00 :: b' => xO <$> unbits b'
  | Byte.x01 :: b' => xI <$> unbits b'
  | _ => None
  end.
Lemma unbits_bits p : unbits (bits p) = Some p.
Proof. induction p as [p IH|p IH|]; simpl; by rewrite ?IH. Qed.

Definition enc {A} `{Countable A} (a : A) : bytes := bits (encode a).
Definition dec {A} `{Countable A} (b : bytes) : option A := unbits b ≫= decode.
Lemma dec_enc {A} `{Countable A} (a : A) : dec (enc a) = Some a.
Proof. unfold dec, enc. rewrite unbits_bits. apply decode_encode. Qed.

#[local] Arguments enc : simpl never.
#[local] Arguments dec : simpl never.

(** Validity, whether it is a CA, names, public key, and the key that signed. *)
Abbreviation fields := (Z * Z * bool * list string * (Z * Z) * (Z * Z))%type.

Definition cert_of (f : fields) (raw : bytes) : Certificate :=
  let '(nb, na, ca, names, (N, E), _) := f in
  mkCertificate raw 0 "" [] nb na 0 [] true ca 0 false names [] (RSAPublicKey N E).

Definition signer_of (c : Certificate) : option (Z * Z) :=
  (λ f : fields, f.2) <$> dec (Raw c).

Definition in_force_b (now : Z) (c : Certificate) : bool := (NotBefore c <=? now) && (now <=? NotAfter c).

Definition signed_by (root c : Certificate) : bool :=
  match CertPublicKey root, signer_of c with
  | RSAPublicKey N E, Some s => bool_decide ((N, E) = s)
  | _, _ => false
  end.

#[local] Instance plain_x509 : X509 := {
  pem_Encode _ der := Byte.x2d :: der;
  pem_Decode data := match data with Byte.x2d :: der => Some der | _ => None end;
  ParseCertificate der :=
    match dec (A := fields) der with
    | Some f => Ok (cert_of f der)
    | None => Err (ErrNew "x509: malformed certificate")
    end;
  ParsePKCS1PrivateKey der :=
    match dec (A := Z * Z * Z) der with
    | Some (N, E, D) => Ok {| key_N := N; key_E := E; key_D := D |}
    | None => Err (ErrNew "x509: failed to parse private key")
    end;
  ParsePKCS8PrivateKey _ := Err (ErrNew "x509: failed to parse private key");
  MarshalPKCS1PrivateKey k := enc (key_N k, key_E k, key_D k);
  CreateCertificate template parent pub k :=
    match pub with
    | RSAPublicKey N E =>
        Ok (enc (to_second (NotBefore template), to_second (NotAfter template), IsCA template,
                 DNSNames template, (N, E), (key_N k, key_E k)))
    | _ => Err (ErrNew "x509: unsupported public key type")
    end;
  Verify now roots _ c :=
    if existsb (λ root, signed_by root c && in_force_b now root) roots && in_force_b now c
    then Ok tt else Err (ErrNew "x509: certificate has expired or is not yet valid");
  Subject_String _ := "";
  X509KeyPair cert key :=
    match cert, key with
    | Byte.x2d :: c, Byte.x2d :: k =>
        match dec (A := fields) c, dec (A := Z * Z * Z) k with
        | Some f, Some (N, E, _) =>
            if bool_decide (f.1.2 = (N, E)) then Ok tt
            else Err (ErrNew "tls: private key does not match public key")
        | _, _ => Err (ErrNew "tls: failed to parse")
        end
    | _, _ => Err (ErrNew "tls: failed to find any PEM data")
    end;
}.

Lemma in_force_b_spec now c : in_force_b now c = true ↔ in_force now c.
Proof. unfold in_force_b, in_force. rewrite andb_true_iff, !Z.leb_le. done. Qed.

#[local] Instance plain_x509_laws : X509Laws.
Proof.
  split.
  - done.
  - intros k. cbn. rewrite dec_enc. by destruct k.
  - intros template parent pub k der. cbn [CreateCertificate plain_x509]. destruct pub as [|N E|]; try done.
    intros [= <-]. cbn [ParseCertificate plain_x509]. rewrite dec_enc. eexists. split; [reflexivity|]. by split.
  - intros now root rk template pub der c (rt & rder & Hc & Hp & Hca & _) Hcr Hpc _ _ Hi Hr.
    cbn [Verify plain_x509 existsb].
    rewrite (proj2 (in_force_b_spec now c) Hi), (proj2 (in_force_b_spec now root) Hr).
    enough (signed_by root c = true) as -> by done.
    cbn [CreateCertificate ParseCertificate plain_x509 public] in *.
    injection Hc as <-. rewrite dec_enc in Hp. injection Hp as <-.
    destruct pub as [|N E|]; try done. injection Hcr as <-. rewrite dec_enc in Hpc. injection Hpc as <-.
    unfold signed_by, signer_of. cbn [cert_of CertPublicKey Raw]. rewrite dec_enc. cbn.
    by apply bool_decide_eq_true_2.
  - intros template parent k signer der ty1 ty2. cbn [CreateCertificate plain_x509 public].
    intros [= <-]. cbn [X509KeyPair pem_Encode MarshalPKCS1PrivateKey plain_x509]. rewrite !dec_enc.
    cbn [fst snd]. by rewrite bool_decide_eq_true_2.
  - intros now root usages c. cbn [Verify plain_x509 existsb]. rewrite orb_false_r.
    destruct (signed_by root c), (in_force_b now root) eqn:Er, (in_force_b now c) eqn:Ec; try done.
    intros _. by split; apply in_force_b_spec.
Qed.

(** ** Checking a site *)

Definition no_dot (w : string) : bool := negb (HasPrefix w ".").
Lemma no_dot_no_temp env w : no_dot w = true → no_temp env w.
Proof. intros Hw b ->. unfold no_dot in Hw. by rewrite HasPrefix_app in Hw. Qed.

Definition layout_b (ks : list (list string)) : bool :=
  forallb (λ k, bool_decide (Forall plain k) && bool_decide (k ≠ []) && forallb no_dot k) ks &&
  forallb (λ k, forallb (λ q, bool_decide (k `prefix_of` q → k = q)) ks) ks.

Lemma layout_b_spec env ks : layout_b ks = true → layout env ks.
Proof.
  unfold layout_b. rewrite andb_true_iff, !forallb_forall. intros [Hk Hq].
  assert (∀ k, k ∈ ks → Forall plain k ∧ k ≠ [] ∧ Forall (no_temp env) k) as Hk'.
  { intros k Hin. specialize (Hk k). rewrite <- list_elem_of_In, !andb_true_iff, !bool_decide_eq_true in Hk.
    destruct (Hk Hin) as [[Hp Hn] Hd]. split_and!; [done|done|]. apply Forall_forall. intros w Hw.
    apply no_dot_no_temp. by apply (proj1 (forallb_forall no_dot k) Hd), list_elem_of_In. }
  split; [naive_solver..| |naive_solver].
  intros k q Hin Hin' Hp. specialize (Hq k). rewrite <- list_elem_of_In, forallb_forall in Hq.
  specialize (Hq Hin q). rewrite <- list_elem_of_In, bool_decide_eq_true in Hq. auto.
Qed.

Definition proper_prefixes (k : list string) : list (list string) := map (λ n, take n k) (seq 0 (length k)).
Lemma proper_prefixes_spec (k pre : list string) : pre `prefix_of` k → pre ≠ k → pre ∈ proper_prefixes k.
Proof.
  intros [l ->] Hne. apply list_elem_of_fmap. exists (length pre). rewrite take_app_length. split; [done|].
  apply elem_of_seq. rewrite length_app. destruct l; [by rewrite app_nil_r in Hne|]. simpl. lia.
Qed.

Definition site_b (env : TLSEnv) (ks : list (list string)) (t : OsState) : bool :=
  forallb (λ k,
    match node_at t k with
    | Some (DirNode _) => false
    | Some (FileNode _ _) => forallb (λ pre, match node_at t pre with Some (DirNode _) => true | _ => false end)
                               (proper_prefixes k)
    | None => forallb (λ pre, match node_at t pre with Some (FileNode _ _) => false | _ => true end)
                (proper_prefixes k)
    end &&
    match node_at t (temp_key env k) with Some (DirNode _) => false | _ => true end) ks.

Lemma site_b_spec env ks t : site_b env ks t = true → site env ks t.
Proof.
  unfold site_b. rewrite forallb_forall. intros Hall.
  split; intros k.
  - intros pre c mt Hk Hp Hne E. apply list_elem_of_In, Hall, andb_true_iff in Hk as [Hk _].
    pose proof (proper_prefixes_spec k pre Hp Hne) as Hin. apply list_elem_of_In in Hin.
    destruct (node_at t k) as [[]|]; [done| |]; rewrite forallb_forall in Hk; specialize (Hk pre Hin);
      by rewrite E in Hk.
  - intros mt Hk E. apply list_elem_of_In, Hall, andb_true_iff in Hk as [Hk _]. by rewrite E in Hk.
  - intros mt Hk E. apply list_elem_of_In, Hall, andb_true_iff in Hk as [_ Hk]. by rewrite E in Hk.
  - intros Hk Hs pre Hp Hne. apply list_elem_of_In, Hall, andb_true_iff in Hk as [Hk _].
    pose proof (proper_prefixes_spec k pre Hp Hne) as Hin. apply list_elem_of_In in Hin.
    destruct (node_at t k) as [[]|]; [done| |by destruct Hs]. rewrite forallb_forall in Hk.
    specialize (Hk pre Hin). destruct (node_at t pre) as [[mt|]|]; [by exists mt|done..].
Qed.

(** ** Runs *)

#[local] Existing Instance ascii_only_unicode.
#[local] Instance utc : LocalZone := 0.

(** A host that answers every call, with keys that tell when they were made. *)
Definition host (now : Z) : TLSEnv := {|
  te_now := now;
  te_hostname := Ok "build-1";
  te_key a := Ok {| key_N := now + (if a is RootArtifact then 1 else 2); key_E := 65537; key_D := 7 |};
  te_serial _ := Ok 5;
|}.
Definition day (d : Z) : Z := d * day_ns.
Definition ck : list string := ["etc"; "server.pem"].
Definition kk : list string := ["etc"; "server-key.pem"].
Definition bd : list string := ["etc"; "old"].
Definition new_tree : OsState := {[ ["etc"] := DirNode 0 ]}.

(** The tree after the first start, on day 1. *)
Definition started : OsState :=
  (ensureServerCertificate no_faults 4096 (host (day 1)) (abs_path ck) (abs_path kk) new_tree).1.

Definition or_else {A} (d : A) (r : result goerr A) : A := match r with Ok a => a | Err _ => d end.

(** What was made on day 1. *)
Definition root_made : Certificate * PrivateKey * bytes * bytes :=
  or_else (cert_of (0, 0, false, [], (0, 0), (0, 0)) [], Build_PrivateKey 0 0 0, [], [])
    (fresh_root (host (day 1))).
Definition server_made (now : Z) : bytes * bytes :=
  or_else ([], []) (generateServerCertificate (host now) root_made.1.1.1 root_made.1.1.2).


(** A disk that cannot write the server's certificate. *)
Definition bad_cert : Faults := λ op p,
  if bool_decide (op = "open") && bool_decide (p = abs_path ck) then Some EIO else None.

Lemma root_kept_witness :
  let t' := after_starts 4096 ck kk [(bad_cert, host (day 1500)); (no_faults, host (day 5000))] started in
  os_lookup t' (root_cert_key ck) = Ok (FileNode root_made.1.2 (day 1)).
Proof.
  pose proof (root_kept 4096 ck kk [(bad_cert, host (day 1500)); (no_faults, host (day 5000))] root_made.1.1.1
    root_made.1.2 root_made.2 (day 1) (day 1) started) as Hrun.
  destruct Hrun as [Hc _].
  - apply (bool_decide_unpack _). vm_compute. exact I.
  - apply (bool_decide_unpack _). vm_compute. exact I.
  - discriminate.
  - intros q [-> | ->%list_elem_of_singleton]%elem_of_cons; split; apply (bool_decide_unpack _); vm_compute; exact I.
  - vm_compute. reflexivity.
  - vm_compute. reflexivity.
  - vm_compute. reflexivity.
  - vm_compute. reflexivity.
  - repeat constructor.
  - exact Hc.
Defined.

Definition leaf_only : TLSRotateOptions := {| RotateRootCA := false; opt_BackupDir := " /etc/old" |}.

Lemma root_made_own : own_root root_made.1.1.2 root_made.1.1.1.
Proof.
  exists (or_else root_made.1.1.1 (rootCATemplate (host (day 1)))).
  eexists. split; [vm_compute; reflexivity|]. split; [vm_compute; reflexivity|]. repeat split.
Qed.

Lemma rotate_contract_witness :
  ∃ t' res,
    RotateTLSArtifacts no_faults 4096 (host (day 30)) "/etc/server.pem" "/etc/server-key.pem" leaf_only started
      = (t', Ok res) ∧
    OverallValid (res_Status res) = true ∧
    content t' ck = Some (server_made (day 30)).1 ∧
    content t' (backup_key bd ck) = Some (server_made (day 1)).1.
Proof.
  pose proof (rotate_contract 4096 (host (day 30)) ck kk bd "/etc/server.pem" "/etc/server-key.pem" leaf_only
    started root_made.1.1.1 root_made.1.1.2 root_made.1.2 root_made.2 (server_made (day 30)).1
    (server_made (day 30)).2) as Hrun.
  destruct Hrun as (t' & res & E & Hv & _ & _ & Hc & _ & _ & _ & Hb).
  - apply (bool_decide_unpack _). vm_compute. exact I.
  - apply layout_b_spec. vm_compute. reflexivity.
  - apply site_b_spec. vm_compute. reflexivity.
  - reflexivity.
  - reflexivity.
  - reflexivity.
  - vm_compute. reflexivity.
  - intros _. split; [exact root_made_own|]. split; vm_compute; discriminate.
  - vm_compute. reflexivity.
  - exists t', res. split; [exact E|]. split; [exact Hv|]. split; [exact Hc|].
    apply Hb; [apply list_elem_of_here|]. vm_compute. reflexivity.
Defined.

Definition bad_rename : Faults := λ op _, if bool_decide (op = "rename") then Some EIO else None.

Lemma atomic_write_outcomes_witness :
  let run := writeFileAtomically bad_rename (host (day 2)) (abs_path ck) [Byte.x61] started in
  content run.1 kk = content started kk ∧ content run.1 ck ≠ Some [Byte.x61].
Proof.
  pose proof (atomic_write_outcomes (host (day 2)) (artifacts ck kk) bad_rename ck [Byte.x61] started
    (writeFileAtomically bad_rename (host (day 2)) (abs_path ck) [Byte.x61] started).1
    (writeFileAtomically bad_rename (host (day 2)) (abs_path ck) [Byte.x61] started).2) as Hrun.
  destruct Hrun as (Ho & _ & _).
  - apply layout_b_spec. vm_compute. reflexivity.
  - apply site_b_spec. vm_compute. reflexivity.
  - apply list_elem_of_here.
  - apply surjective_pairing.
  - split; [apply Ho; [|discriminate]|vm_compute; discriminate].
    apply (bool_decide_unpack _). vm_compute. exact I.
Defined.

(** ** What goes wrong *)

(** The write is not atomic: when the rename fails, the file it was to replace
    has been removed. *)
Example failed_rename_loses_target :
  let run := writeFileAtomically bad_rename (host (day 2)) (abs_path ck) [Byte.x61] started in
  is_ok run.2 = false ∧ is_Some (content started ck) ∧ content run.1 ck = None.
Proof. split_and!; vm_compute; [done|by eexists|done]. Qed.

(** A root that has expired is kept and signs on: the start succeeds, and leaves
    a certificate that nobody accepts, at this start and at any later one. *)
Example expired_root_signs_on :
  let run := ensureServerCertificate no_faults 4096 (host (day 4000)) (abs_path ck) (abs_path kk) started in
  run.2 = Ok tt ∧ content run.1 (root_cert_key ck) = content started (root_cert_key ck) ∧
  hasValidTLSArtifacts no_faults 4096 (day 4000) (abs_path ck) (abs_path kk)
    (abs_path (root_cert_key ck)) run.1 = Ok false.
Proof. split_and!; vm_compute; reflexivity. Qed.

(** A root certificate that cannot be examined for a moment counts as absent and
    is replaced, although it is there. *)
Definition bad_stat : Faults := λ op p,
  if bool_decide (op = "stat") && bool_decide (p = abs_path (root_cert_key ck)) then Some EACCES else None.
Example failed_stat_replaces_root :
  let run := ensureServerCertificate bad_stat 4096 (host (day 2)) (abs_path ck) (abs_path kk) started in
  run.2 = Ok tt ∧ content run.1 (root_cert_key ck) ≠ content started (root_cert_key ck).
Proof. split; vm_compute; [reflexivity|discriminate]. Qed.

(** ** A guarded call *)

Lemma shared_secret_guards_witness :
  let run := Interceptors.chain_unary (λ _ : Z, Interceptors.nil_message) (λ _ : Z, Interceptors.nil_message)
               Interceptors.ex_call "/m" (Interceptors.so_unary Interceptors.ex_options) Interceptors.ex_handler
               (Interceptors.ex_ctx {[Interceptors.sharedSecretHeader := ["S3cret"; "s3cret"]]}) 7
               Interceptors.ex_server in
  Interceptors.sv_app run.1 = 0 ∧ ∃ msg, run.2 = Err (Prelude.Status Unauthenticated msg).
Proof.
  pose proof (Interceptors.shared_secret_guards (App := Z) (λ _ : Z, Interceptors.nil_message)
    (λ _ : Z, Interceptors.nil_message) no_faults 4096 (host (day 1)) Interceptors.ex_cfg new_tree new_tree
    Interceptors.ex_options) as Hrun.
  destruct Hrun as (_ & Hu & _); [reflexivity|reflexivity|].
  specialize (Hu Interceptors.ex_call "/m"
    (Interceptors.ex_ctx {[Interceptors.sharedSecretHeader := ["S3cret"; "s3cret"]]}) 7
    Interceptors.ex_handler Interceptors.ex_server).
  vm_compute in Hu. vm_compute. destruct Hu as (Happ & Hmsg & _). split; [exact Happ|exact Hmsg].
Defined.
End TlsExamples.
