(* ===== verification/StrConv.v ===== *)
(** * Numbers and switches from text

    Package [strconv] as the configuration uses it: [ParseUint], [ParseInt] and
    [Atoi] in base 10, and [ParseBool]; and the functions of package [strings]
    that only the configuration calls. *)

From S2P Require Import Prelude GoStrings.
From Stdlib Require Import Ascii.
Open Scope string_scope.
Open Scope Z_scope.

Definition is_digit (a : ascii) : bool := byte_in 48 57 a.
Definition digit (a : ascii) : Z := Z.of_N (byte_val a) - 48.

(** The value of a text of digits, from [acc] on. *)
Fixpoint digits (acc : Z) (s : string) : option Z :=
  match s with
  | EmptyString => Some acc
  | String a s' => if is_digit a then digits (10 * acc + digit a) s' else None
  end.

(** strconv.ParseUint(s, 10, bits); the error says nothing to the code. *)
Definition ParseUint (bits : Z) (s : string) : option Z :=
  match s with
  | "" => None
  | _ => match digits 0 s with
         | Some n => if n <? 2 ^ bits then Some n else None
         | None => None
         end
  end.

(** strconv.ParseInt(s, 10, 64) *)
Definition ParseInt64 (s : string) : option Z :=
  let (neg, s) :=
    match s with
    | String a s' => if Ascii.eqb a "-" then (true, s') else if Ascii.eqb a "+" then (false, s') else (false, s)
    | "" => (false, "")
    end in
  match s with
  | "" => None
  | _ => match digits 0 s with
         | Some n =>
             if neg then (if n <=? two63 then Some (- n) else None)
             else (if n <? two63 then Some n else None)
         | None => None
         end
  end.
(** strconv.Atoi, for an int of 64 bits. *)
Definition Atoi (s : string) : option Z := ParseInt64 s.

(** strconv.ParseBool *)
Definition ParseBool (s : string) : option bool :=
  if bool_decide (s ∈ ["1"; "t"; "T"; "true"; "TRUE"; "True"]) then Some true
  else if bool_decide (s ∈ ["0"; "f"; "F"; "false"; "FALSE"; "False"]) then Some false
  else None.

(** strings.ReplaceAll of one byte by another. *)
Fixpoint ReplaceByte (old new : ascii) (s : string) : string :=
  match s with
  | EmptyString => ""
  | String a s' => String (if Ascii.eqb a old then new else a) (ReplaceByte old new s')
  end.

(** strings.TrimPrefix *)
Definition TrimPrefix (s prefix : string) : string :=
  if HasPrefix s prefix then sdrop (String.length prefix) s else s.

Lemma ParseInt64_range s z : ParseInt64 s = Some z → is_int64 z.
Proof.
  unfold ParseInt64, is_int64.
  assert (∀ s n m, 0 ≤ n → digits n s = Some m → 0 ≤ m) as Hd.
  { intros t. induction t as [|a t IH]; intros n m Hn; simpl; [by intros [= <-]|].
    destruct (is_digit a) eqn:Ea; [|done]. apply IH.
    apply andb_true_iff in Ea as [Ea _]. apply N.leb_le in Ea. unfold digit. lia. }
  destruct (match s with "" => _ | _ => _ end) as [neg [|a s']]; [done|].
  destruct (digits 0 (String a s')) as [n|] eqn:En; [|done]. apply Hd in En; [|done].
  destruct neg.
  - destruct (Z.leb_spec n two63); [|done]. intros [= <-]. unfold two63, maxInt64 in *. lia.
  - destruct (Z.ltb_spec n two63); [|done]. intros [= <-]. unfold two63, maxInt64 in *. lia.
Qed.

Example parse_examples :
  (ParseInt64 "-9223372036854775808", ParseInt64 "9223372036854775808", Atoi "+12", ParseUint 32 "4294967296",
   ParseUint 64 "", ParseBool "True", ParseBool "yes")
  = (Some (-9223372036854775808), None, Some 12, None, None, Some true, None).
Proof. vm_compute. reflexivity. Qed.
