(* ===== verification/AppConfig.v ===== *)
(** * Configuration

    internal/appconfig/config.go: the configuration file, its defaults, the
    overrides from the environment, and the normalisation of the result.  The
    code normalises and overrides one field after the other, and no field is
    read after a later one has changed it but the data root, the state and log
    directories: a section of the configuration is a record that is rebuilt.
    How encoding/json reads and writes a [Config] is the interface
    [ConfigJson]. *)

From Stdlib Require Import Ascii.
From S2P Require Import Prelude GoStrings StringLists StrConv FsPath OsFs.
Open Scope string_scope.
Open Scope Z_scope.
Open Scope list_scope.

Module AppConfig.

(** ** Defaults *)

Definition defaultAddr : string := ":50051".
Definition defaultRootDir : string := "D:/RoodoxShare".
Definition defaultDBPath : string := "roodox.db".
Definition defaultTLSCertPath : string := "certs/roodox-server-cert.pem".
Definition defaultTLSKeyPath : string := "certs/roodox-server-key.pem".
Definition defaultRuntimeBinaryPath : string := "roodox_server.exe".
Definition defaultRuntimeStateDir : string := "runtime".
Definition defaultRuntimePIDFile : string := "runtime/roodox_server.pid".
Definition defaultRuntimeLogDir : string := "runtime/logs".
Definition defaultRuntimeStdoutLogName : string := "server.stdout.log".
Definition defaultRuntimeStderrLogName : string := "server.stderr.log".
Definition defaultRuntimeStopTimeoutSeconds : Z := 10.
Definition defaultWindowsServiceName : string := "RoodoxServer".
Definition defaultWindowsServiceDisplayName : string := "Roodox Server".
Definition defaultWindowsServiceDescription : string := "Roodox gRPC server".
Definition defaultWindowsServiceStartType : string := "auto".
Definition defaultDBCheckpointIntervalSeconds : Z := 300.
Definition defaultDBCheckpointMode : string := "truncate".
Definition defaultDBBackupDir : string := "backups".
Definition defaultDBBackupIntervalSeconds : Z := 24 * 60 * 60.
Definition defaultDBBackupKeepLatest : Z := 7.
Definition defaultArtifactCleanupIntervalSeconds : Z := 300.
Definition defaultArtifactRetentionSeconds : Z := 24 * 60 * 60.
Definition defaultArtifactMaxBytes : Z := Z.shiftl 512 20.
Definition defaultBuildCleanupIntervalSeconds : Z := 60.
Definition defaultBuildRetentionSeconds : Z := 30 * 60.
Definition defaultBuildMaxBytes : Z := Z.shiftl 2 30.
Definition defaultConflictCleanupIntervalSeconds : Z := 3600.
Definition defaultConflictRetentionSeconds : Z := 7 * 24 * 60 * 60.
Definition defaultConflictMaxBytes : Z := Z.shiftl 256 20.
Definition defaultConflictMaxCopiesPerPath : Z := 20.
Definition defaultLogCleanupIntervalSeconds : Z := 900.
Definition defaultLogRetentionSeconds : Z := 7 * 24 * 60 * 60.
Definition defaultLogMaxBytes : Z := Z.shiftl 256 20.
Definition defaultLogDir : string := defaultRuntimeLogDir.

Definition DefaultServiceDiscoveryMode : string := "static".
Definition default_tools : list string := ["cmake"; "make"; "build-essential"].
Definition default_actions : list string := ["reconnect_overlay"; "resync"; "remount"; "collect_diagnostics"].
Definition default_prefixes : list string := ["roodox-suite-"; "roodox-suite-build-"; "roodox-stress-"].

(** ** The configuration *)

Record DatabaseConfig := {
  db_CheckpointIntervalSeconds : Z;
  db_CheckpointMode : string;
  db_BackupDir : string;
  db_BackupIntervalSeconds : Z;
  db_BackupKeepLatest : Z;
}.

Record WindowsServiceConfig := {
  ws_Name : string;
  ws_DisplayName : string;
  ws_Description : string;
  ws_StartType : string;
}.

Record ClientAssignedConfig := {
  aa_MountPath : string;
  aa_SyncRoots : list string;
  aa_ConflictPolicy : string;
  aa_ReadOnly : bool;
  aa_AutoConnect : bool;
  aa_BandwidthLimit : Z;
  aa_LogLevel : string;
  aa_LargeFileThreshold : Z;
}.

Record ServiceDiscoveryConfig := {
  sd_Mode : string;
  sd_Host : string;
  sd_Port : Z;
  sd_UseTLS : bool;
  sd_TLSServerName : string;
}.

Record JoinBundleControlConfig := {
  jb_OverlayProvider : string;
  jb_OverlayJoinConfigJSON : string;
  jb_ServiceDiscovery : ServiceDiscoveryConfig;
}.

Record ControlPlaneConfig := {
  cp_ServerID : string;
  cp_DefaultDeviceGroup : string;
  cp_HeartbeatIntervalSeconds : Z;
  cp_DefaultPolicyRevision : Z;
  cp_AvailableActions : list string;
  cp_DiagnosticsKeepLatest : Z;
  cp_AssignedConfig : ClientAssignedConfig;
  cp_JoinBundle : JoinBundleControlConfig;
}.

Record ArtifactCleanupConfig := {
  ta_Enabled : bool;
  ta_IntervalSeconds : Z;
  ta_RetentionSeconds : Z;
  ta_MaxBytes : Z;
  ta_Prefixes : list string;
}.

Record BuildCleanupConfig := {
  bw_IntervalSeconds : Z;
  bw_RetentionSeconds : Z;
  bw_MaxBytes : Z;
}.

Record ConflictCleanupConfig := {
  cf_Enabled : bool;
  cf_IntervalSeconds : Z;
  cf_RetentionSeconds : Z;
  cf_MaxBytes : Z;
  cf_MaxCopiesPerPath : Z;
}.

Record LogCleanupConfig := {
  lf_Enabled : bool;
  lf_Dir : string;
  lf_Patterns : list string;
  lf_IntervalSeconds : Z;
  lf_RetentionSeconds : Z;
  lf_MaxBytes : Z;
}.

Record CleanupConfig := {
  cl_TempArtifacts : ArtifactCleanupConfig;
  cl_BuildWorkdirs : BuildCleanupConfig;
  cl_ConflictFiles : ConflictCleanupConfig;
  cl_LogFiles : LogCleanupConfig;
}.

Record RuntimeConfig := {
  rt_BinaryPath : string;
  rt_StateDir : string;
  rt_PIDFile : string;
  rt_LogDir : string;
  rt_StdoutLogName : string;
  rt_StderrLogName : string;
  rt_GracefulStopTimeoutSeconds : Z;
  rt_WindowsService : WindowsServiceConfig;
}.

Record Config := {
  Addr : string;
  DataRoot : string;
  RootDir : string;
  DBPath : string;
  Runtime : RuntimeConfig;
  RemoteBuildEnabled : bool;
  BuildToolDirs : list string;
  RequiredBuildTools : list string;
  AuthEnabled : bool;
  SharedSecret : string;
  TLSEnabled : bool;
  TLSCertPath : string;
  TLSKeyPath : string;
  Database : DatabaseConfig;
  ControlPlane : ControlPlaneConfig;
  Cleanup : CleanupConfig;
}.

Definition default_DatabaseConfig : DatabaseConfig := {|
  db_CheckpointIntervalSeconds := defaultDBCheckpointIntervalSeconds;
  db_CheckpointMode := defaultDBCheckpointMode;
  db_BackupDir := defaultDBBackupDir;
  db_BackupIntervalSeconds := defaultDBBackupIntervalSeconds;
  db_BackupKeepLatest := defaultDBBackupKeepLatest;
|}.

Definition default_WindowsServiceConfig : WindowsServiceConfig := {|
  ws_Name := defaultWindowsServiceName;
  ws_DisplayName := defaultWindowsServiceDisplayName;
  ws_Description := defaultWindowsServiceDescription;
  ws_StartType := defaultWindowsServiceStartType;
|}.

Definition default_ClientAssignedConfig : ClientAssignedConfig := {|
  aa_MountPath := "";
  aa_SyncRoots := ["."];
  aa_ConflictPolicy := "manual";
  aa_ReadOnly := false;
  aa_AutoConnect := true;
  aa_BandwidthLimit := 0;
  aa_LogLevel := "info";
  aa_LargeFileThreshold := Z.shiftl 64 20;
|}.

Definition default_ServiceDiscoveryConfig : ServiceDiscoveryConfig := {|
  sd_Mode := DefaultServiceDiscoveryMode;
  sd_Host := "";
  sd_Port := 0;
  sd_UseTLS := false;
  sd_TLSServerName := "";
|}.

Definition default_JoinBundleControlConfig : JoinBundleControlConfig := {|
  jb_OverlayProvider := "";
  jb_OverlayJoinConfigJSON := "";
  jb_ServiceDiscovery := default_ServiceDiscoveryConfig;
|}.

Definition default_ControlPlaneConfig : ControlPlaneConfig := {|
  cp_ServerID := "";
  cp_DefaultDeviceGroup := "default";
  cp_HeartbeatIntervalSeconds := 15;
  cp_DefaultPolicyRevision := 1;
  cp_AvailableActions := default_actions;
  cp_DiagnosticsKeepLatest := 20;
  cp_AssignedConfig := default_ClientAssignedConfig;
  cp_JoinBundle := default_JoinBundleControlConfig;
|}.

Definition default_ArtifactCleanupConfig : ArtifactCleanupConfig := {|
  ta_Enabled := true;
  ta_IntervalSeconds := defaultArtifactCleanupIntervalSeconds;
  ta_RetentionSeconds := defaultArtifactRetentionSeconds;
  ta_MaxBytes := defaultArtifactMaxBytes;
  ta_Prefixes := default_prefixes;
|}.

Definition default_BuildCleanupConfig : BuildCleanupConfig := {|
  bw_IntervalSeconds := defaultBuildCleanupIntervalSeconds;
  bw_RetentionSeconds := defaultBuildRetentionSeconds;
  bw_MaxBytes := defaultBuildMaxBytes;
|}.

Definition default_ConflictCleanupConfig : ConflictCleanupConfig := {|
  cf_Enabled := true;
  cf_IntervalSeconds := defaultConflictCleanupIntervalSeconds;
  cf_RetentionSeconds := defaultConflictRetentionSeconds;
  cf_MaxBytes := defaultConflictMaxBytes;
  cf_MaxCopiesPerPath := defaultConflictMaxCopiesPerPath;
|}.

Definition default_LogCleanupConfig : LogCleanupConfig := {|
  lf_Enabled := true;
  lf_Dir := defaultLogDir;
  lf_Patterns := ["server*.log"];
  lf_IntervalSeconds := defaultLogCleanupIntervalSeconds;
  lf_RetentionSeconds := defaultLogRetentionSeconds;
  lf_MaxBytes := defaultLogMaxBytes;
|}.

Definition default_CleanupConfig : CleanupConfig := {|
  cl_TempArtifacts := default_ArtifactCleanupConfig;
  cl_BuildWorkdirs := default_BuildCleanupConfig;
  cl_ConflictFiles := default_ConflictCleanupConfig;
  cl_LogFiles := default_LogCleanupConfig;
|}.

Definition default_RuntimeConfig : RuntimeConfig := {|
  rt_BinaryPath := defaultRuntimeBinaryPath;
  rt_StateDir := defaultRuntimeStateDir;
  rt_PIDFile := defaultRuntimePIDFile;
  rt_LogDir := defaultRuntimeLogDir;
  rt_StdoutLogName := defaultRuntimeStdoutLogName;
  rt_StderrLogName := defaultRuntimeStderrLogName;
  rt_GracefulStopTimeoutSeconds := defaultRuntimeStopTimeoutSeconds;
  rt_WindowsService := default_WindowsServiceConfig;
|}.

Definition Default : Config := {|
  Addr := defaultAddr;
  DataRoot := "";
  RootDir := defaultRootDir;
  DBPath := defaultDBPath;
  Runtime := default_RuntimeConfig;
  RemoteBuildEnabled := false;
  BuildToolDirs := [];
  RequiredBuildTools := default_tools;
  AuthEnabled := false;
  SharedSecret := "";
  TLSEnabled := false;
  TLSCertPath := defaultTLSCertPath;
  TLSKeyPath := defaultTLSKeyPath;
  Database := default_DatabaseConfig;
  ControlPlane := default_ControlPlaneConfig;
  Cleanup := default_CleanupConfig;
|}.

(** ** Normalisation *)

Section normalize.
Context `{GoUnicode}.

Definition normalizeList (values : list string) : list string := normalizeStringList values.

Definition or_default (v d : string) : string := if bool_decide (v = "") then d else v.
Definition unless_blank (v d : string) : string := if bool_decide (TrimSpace v = "") then d else v.
Definition positive (z d : Z) : Z := if z <=? 0 then d else z.
Definition list_or (l d : list string) : list string := if Z.of_nat (length l) =? 0 then d else l.

Definition backslash_to_slash (s : string) : string := ReplaceByte (ch 92) slash s.

Definition joinConfigPath (base rel : string) : string :=
  let base := TrimSpace (backslash_to_slash base) in
  let rel := TrimSpace (backslash_to_slash rel) in
  if bool_decide (base = "") then rel
  else if bool_decide (rel = "") then base
  else Clean (TrimPrefix base "./" +:+ "/" +:+ TrimPrefix rel "./").

Definition cleanConfigPath (v : string) : string :=
  let v := TrimSpace (backslash_to_slash v) in
  if bool_decide (v = "") then "" else Clean v.
Definition sameConfigPath (a b : string) : bool := EqualFold (cleanConfigPath a) (cleanConfigPath b).

Definition deriveDataPath (dataRoot fallback : string) : string :=
  let dataRoot := TrimSpace dataRoot in
  if bool_decide (dataRoot = "") then fallback else joinConfigPath dataRoot fallback.

(** A path below the data root that is left empty or at its default. *)
Definition storage_path (data_root p fallback : string) : string :=
  let p := TrimSpace p in
  if bool_decide (p = "") || (negb (bool_decide (data_root = "")) && sameConfigPath p fallback)
  then deriveDataPath data_root fallback else p.

(** A path below the state directory, likewise. *)
Definition state_path (state_dir p fallback name : string) : string :=
  let p := TrimSpace p in
  if bool_decide (p = "") || sameConfigPath p fallback then joinConfigPath state_dir name else p.

Definition log_cleanup_dir (log_dir p : string) : string :=
  let p := TrimSpace p in
  let p := if bool_decide (p = "") || sameConfigPath p defaultLogDir then log_dir else p in
  if bool_decide (TrimSpace p = "") then log_dir else p.

Definition checkpoint_mode (mode : string) : string :=
  let mode := ToLower (TrimSpace mode) in
  if bool_decide (mode ∈ ["passive"; "full"; "restart"; "truncate"]) then mode else defaultDBCheckpointMode.
Definition start_type (t : string) : string :=
  let t := ToLower (TrimSpace t) in
  if bool_decide (t ∈ ["auto"; "manual"; "disabled"]) then t else defaultWindowsServiceStartType.
Definition max_copies (enabled : bool) (n : Z) : Z :=
  let n := if n <? 0 then 0 else n in
  if enabled && (n =? 0) then defaultConflictMaxCopiesPerPath else n.

Definition normalize_DatabaseConfig (data_root : string) (c : DatabaseConfig) : DatabaseConfig := {|
  db_CheckpointIntervalSeconds := positive (db_CheckpointIntervalSeconds c) defaultDBCheckpointIntervalSeconds;
  db_CheckpointMode := checkpoint_mode (db_CheckpointMode c);
  db_BackupDir := storage_path data_root (db_BackupDir c) defaultDBBackupDir;
  db_BackupIntervalSeconds := positive (db_BackupIntervalSeconds c) defaultDBBackupIntervalSeconds;
  db_BackupKeepLatest := positive (db_BackupKeepLatest c) defaultDBBackupKeepLatest;
|}.

Definition normalize_WindowsServiceConfig (c : WindowsServiceConfig) : WindowsServiceConfig := {|
  ws_Name := or_default (TrimSpace (ws_Name c)) defaultWindowsServiceName;
  ws_DisplayName := or_default (TrimSpace (ws_DisplayName c)) defaultWindowsServiceDisplayName;
  ws_Description := or_default (TrimSpace (ws_Description c)) defaultWindowsServiceDescription;
  ws_StartType := start_type (ws_StartType c);
|}.

Definition normalize_ClientAssignedConfig (c : ClientAssignedConfig) : ClientAssignedConfig := {|
  aa_MountPath := TrimSpace (aa_MountPath c);
  aa_SyncRoots := list_or (normalizeList (aa_SyncRoots c)) ["."];
  aa_ConflictPolicy := or_default (TrimSpace (aa_ConflictPolicy c)) "manual";
  aa_ReadOnly := aa_ReadOnly c;
  aa_AutoConnect := aa_AutoConnect c;
  aa_BandwidthLimit := aa_BandwidthLimit c;
  aa_LogLevel := or_default (TrimSpace (aa_LogLevel c)) "info";
  aa_LargeFileThreshold := positive (aa_LargeFileThreshold c) (Z.shiftl 64 20);
|}.

Definition normalize_ServiceDiscoveryConfig (c : ServiceDiscoveryConfig) : ServiceDiscoveryConfig := {|
  sd_Mode := or_default (TrimSpace (sd_Mode c)) DefaultServiceDiscoveryMode;
  sd_Host := TrimSpace (sd_Host c);
  sd_Port := sd_Port c;
  sd_UseTLS := sd_UseTLS c;
  sd_TLSServerName := TrimSpace (sd_TLSServerName c);
|}.

Definition normalize_JoinBundleControlConfig (c : JoinBundleControlConfig) : JoinBundleControlConfig := {|
  jb_OverlayProvider := TrimSpace (jb_OverlayProvider c);
  jb_OverlayJoinConfigJSON := TrimSpace (jb_OverlayJoinConfigJSON c);
  jb_ServiceDiscovery := normalize_ServiceDiscoveryConfig (jb_ServiceDiscovery c);
|}.

Definition normalize_ControlPlaneConfig (c : ControlPlaneConfig) : ControlPlaneConfig := {|
  cp_ServerID := TrimSpace (cp_ServerID c);
  cp_DefaultDeviceGroup := or_default (TrimSpace (cp_DefaultDeviceGroup c)) "default";
  cp_HeartbeatIntervalSeconds := positive (cp_HeartbeatIntervalSeconds c) 15;
  cp_DefaultPolicyRevision := if cp_DefaultPolicyRevision c =? 0 then 1 else cp_DefaultPolicyRevision c;
  cp_AvailableActions := list_or (normalizeList (cp_AvailableActions c)) default_actions;
  cp_DiagnosticsKeepLatest := positive (cp_DiagnosticsKeepLatest c) 20;
  cp_AssignedConfig := normalize_ClientAssignedConfig (cp_AssignedConfig c);
  cp_JoinBundle := normalize_JoinBundleControlConfig (cp_JoinBundle c);
|}.

Definition normalize_ArtifactCleanupConfig (c : ArtifactCleanupConfig) : ArtifactCleanupConfig := {|
  ta_Enabled := ta_Enabled c;
  ta_IntervalSeconds := positive (ta_IntervalSeconds c) defaultArtifactCleanupIntervalSeconds;
  ta_RetentionSeconds := positive (ta_RetentionSeconds c) defaultArtifactRetentionSeconds;
  ta_MaxBytes := Z.max 0 (ta_MaxBytes c);
  ta_Prefixes := list_or (normalizeList (ta_Prefixes c)) default_prefixes;
|}.

Definition normalize_BuildCleanupConfig (c : BuildCleanupConfig) : BuildCleanupConfig := {|
  bw_IntervalSeconds := positive (bw_IntervalSeconds c) defaultBuildCleanupIntervalSeconds;
  bw_RetentionSeconds := positive (bw_RetentionSeconds c) defaultBuildRetentionSeconds;
  bw_MaxBytes := Z.max 0 (bw_MaxBytes c);
|}.

Definition normalize_ConflictCleanupConfig (c : ConflictCleanupConfig) : ConflictCleanupConfig := {|
  cf_Enabled := cf_Enabled c;
  cf_IntervalSeconds := positive (cf_IntervalSeconds c) defaultConflictCleanupIntervalSeconds;
  cf_RetentionSeconds := positive (cf_RetentionSeconds c) defaultConflictRetentionSeconds;
  cf_MaxBytes := Z.max 0 (cf_MaxBytes c);
  cf_MaxCopiesPerPath := max_copies (cf_Enabled c) (cf_MaxCopiesPerPath c);
|}.

Definition normalize_LogCleanupConfig (log_dir : string) (c : LogCleanupConfig) : LogCleanupConfig := {|
  lf_Enabled := lf_Enabled c;
  lf_Dir := log_cleanup_dir log_dir (lf_Dir c);
  lf_Patterns := list_or (normalizeList (lf_Patterns c)) ["server*.log"];
  lf_IntervalSeconds := positive (lf_IntervalSeconds c) defaultLogCleanupIntervalSeconds;
  lf_RetentionSeconds := positive (lf_RetentionSeconds c) defaultLogRetentionSeconds;
  lf_MaxBytes := Z.max 0 (lf_MaxBytes c);
|}.

Definition normalize_CleanupConfig (log_dir : string) (c : CleanupConfig) : CleanupConfig := {|
  cl_TempArtifacts := normalize_ArtifactCleanupConfig (cl_TempArtifacts c);
  cl_BuildWorkdirs := normalize_BuildCleanupConfig (cl_BuildWorkdirs c);
  cl_ConflictFiles := normalize_ConflictCleanupConfig (cl_ConflictFiles c);
  cl_LogFiles := normalize_LogCleanupConfig log_dir (cl_LogFiles c);
|}.

Definition normalizeRuntime (data_root : string) (c : RuntimeConfig) : RuntimeConfig :=
  let state_dir := storage_path data_root (rt_StateDir c) defaultRuntimeStateDir in {|
  rt_BinaryPath := or_default (TrimSpace (rt_BinaryPath c)) defaultRuntimeBinaryPath;
  rt_StateDir := state_dir;
  rt_PIDFile := state_path state_dir (rt_PIDFile c) defaultRuntimePIDFile "roodox_server.pid";
  rt_LogDir := state_path state_dir (rt_LogDir c) defaultRuntimeLogDir "logs";
  rt_StdoutLogName := or_default (TrimSpace (rt_StdoutLogName c)) defaultRuntimeStdoutLogName;
  rt_StderrLogName := or_default (TrimSpace (rt_StderrLogName c)) defaultRuntimeStderrLogName;
  rt_GracefulStopTimeoutSeconds := positive (rt_GracefulStopTimeoutSeconds c) defaultRuntimeStopTimeoutSeconds;
  rt_WindowsService := normalize_WindowsServiceConfig (rt_WindowsService c);
|}.

Definition normalize (c : Config) : Config :=
  let data_root := TrimSpace (DataRoot c) in
  let runtime := normalizeRuntime data_root (Runtime c) in {|
  Addr := unless_blank (Addr c) defaultAddr;
  DataRoot := TrimSpace (DataRoot c);
  RootDir := unless_blank (RootDir c) defaultRootDir;
  DBPath := storage_path data_root (DBPath c) defaultDBPath;
  Runtime := runtime;
  RemoteBuildEnabled := RemoteBuildEnabled c;
  BuildToolDirs := normalizeList (BuildToolDirs c);
  RequiredBuildTools := list_or (normalizeList (RequiredBuildTools c)) default_tools;
  AuthEnabled := AuthEnabled c;
  SharedSecret := TrimSpace (SharedSecret c);
  TLSEnabled := TLSEnabled c;
  TLSCertPath := storage_path data_root (TLSCertPath c) defaultTLSCertPath;
  TLSKeyPath := storage_path data_root (TLSKeyPath c) defaultTLSKeyPath;
  Database := normalize_DatabaseConfig data_root (Database c);
  ControlPlane := normalize_ControlPlaneConfig (ControlPlane c);
  Cleanup := normalize_CleanupConfig (rt_LogDir runtime) (Cleanup c);
|}.

(** ** The environment *)

Section env.
Context (getenv : string → string).

Definition PathListSeparator : ascii := ":".

(** [if v := strings.TrimSpace(os.Getenv(name)); v != "" { ... }]; a value that
    does not parse is passed over. *)
Definition env_string (name old : string) : string := or_default (TrimSpace (getenv name)) old.
Definition env_parsed {A} (parse : string → option A) (name : string) (old : A) : A :=
  let v := TrimSpace (getenv name) in
  if bool_decide (v = "") then old else default old (parse v).
Definition env_int (name : string) (old : Z) : Z := env_parsed Atoi name old.
Definition env_uint (bits : Z) (name : string) (old : Z) : Z := env_parsed (ParseUint bits) name old.
Definition env_bool (name : string) (old : bool) : bool := env_parsed ParseBool name old.
Definition env_list (sep : ascii) (name : string) (old : list string) : list string :=
  env_parsed (λ v, Some (normalizeList (Split sep v))) name old.

Definition env_DatabaseConfig (c : DatabaseConfig) : DatabaseConfig := {|
  db_CheckpointIntervalSeconds := env_int "ROODOX_DB_CHECKPOINT_INTERVAL_SECONDS" (db_CheckpointIntervalSeconds c);
  db_CheckpointMode := env_string "ROODOX_DB_CHECKPOINT_MODE" (db_CheckpointMode c);
  db_BackupDir := env_string "ROODOX_DB_BACKUP_DIR" (db_BackupDir c);
  db_BackupIntervalSeconds := env_int "ROODOX_DB_BACKUP_INTERVAL_SECONDS" (db_BackupIntervalSeconds c);
  db_BackupKeepLatest := env_int "ROODOX_DB_BACKUP_KEEP_LATEST" (db_BackupKeepLatest c);
|}.

Definition env_WindowsServiceConfig (c : WindowsServiceConfig) : WindowsServiceConfig := {|
  ws_Name := env_string "ROODOX_WINDOWS_SERVICE_NAME" (ws_Name c);
  ws_DisplayName := env_string "ROODOX_WINDOWS_SERVICE_DISPLAY_NAME" (ws_DisplayName c);
  ws_Description := env_string "ROODOX_WINDOWS_SERVICE_DESCRIPTION" (ws_Description c);
  ws_StartType := env_string "ROODOX_WINDOWS_SERVICE_START_TYPE" (ws_StartType c);
|}.

Definition env_ClientAssignedConfig (c : ClientAssignedConfig) : ClientAssignedConfig := {|
  aa_MountPath := env_string "ROODOX_CLIENT_MOUNT_PATH" (aa_MountPath c);
  aa_SyncRoots := env_list "," "ROODOX_SYNC_ROOTS" (aa_SyncRoots c);
  aa_ConflictPolicy := env_string "ROODOX_CONFLICT_POLICY" (aa_ConflictPolicy c);
  aa_ReadOnly := env_bool "ROODOX_READ_ONLY" (aa_ReadOnly c);
  aa_AutoConnect := env_bool "ROODOX_AUTO_CONNECT" (aa_AutoConnect c);
  aa_BandwidthLimit := env_int "ROODOX_BANDWIDTH_LIMIT" (aa_BandwidthLimit c);
  aa_LogLevel := env_string "ROODOX_LOG_LEVEL" (aa_LogLevel c);
  aa_LargeFileThreshold := env_int "ROODOX_LARGE_FILE_THRESHOLD" (aa_LargeFileThreshold c);
|}.

Definition env_ServiceDiscoveryConfig (c : ServiceDiscoveryConfig) : ServiceDiscoveryConfig := {|
  sd_Mode := env_string "ROODOX_BUNDLE_SERVICE_DISCOVERY_MODE" (sd_Mode c);
  sd_Host := env_string "ROODOX_BUNDLE_SERVICE_HOST" (sd_Host c);
  sd_Port := env_uint 32 "ROODOX_BUNDLE_SERVICE_PORT" (sd_Port c);
  sd_UseTLS := env_bool "ROODOX_BUNDLE_USE_TLS" (sd_UseTLS c);
  sd_TLSServerName := env_string "ROODOX_BUNDLE_TLS_SERVER_NAME" (sd_TLSServerName c);
|}.

Definition env_JoinBundleControlConfig (c : JoinBundleControlConfig) : JoinBundleControlConfig := {|
  jb_OverlayProvider := env_string "ROODOX_BUNDLE_OVERLAY_PROVIDER" (jb_OverlayProvider c);
  jb_OverlayJoinConfigJSON := env_string "ROODOX_BUNDLE_OVERLAY_JOIN_CONFIG_JSON" (jb_OverlayJoinConfigJSON c);
  jb_ServiceDiscovery := env_ServiceDiscoveryConfig (jb_ServiceDiscovery c);
|}.

Definition env_ControlPlaneConfig (c : ControlPlaneConfig) : ControlPlaneConfig := {|
  cp_ServerID := env_string "ROODOX_SERVER_ID" (cp_ServerID c);
  cp_DefaultDeviceGroup := env_string "ROODOX_DEVICE_GROUP" (cp_DefaultDeviceGroup c);
  cp_HeartbeatIntervalSeconds := env_int "ROODOX_HEARTBEAT_INTERVAL_SECONDS" (cp_HeartbeatIntervalSeconds c);
  cp_DefaultPolicyRevision := env_uint 64 "ROODOX_POLICY_REVISION" (cp_DefaultPolicyRevision c);
  cp_AvailableActions := env_list "," "ROODOX_AVAILABLE_ACTIONS" (cp_AvailableActions c);
  cp_DiagnosticsKeepLatest := env_int "ROODOX_DIAGNOSTICS_KEEP_LATEST" (cp_DiagnosticsKeepLatest c);
  cp_AssignedConfig := env_ClientAssignedConfig (cp_AssignedConfig c);
  cp_JoinBundle := env_JoinBundleControlConfig (cp_JoinBundle c);
|}.

Definition env_ArtifactCleanupConfig (c : ArtifactCleanupConfig) : ArtifactCleanupConfig := {|
  ta_Enabled := env_bool "ROODOX_ARTIFACT_CLEANUP_ENABLED" (ta_Enabled c);
  ta_IntervalSeconds := env_int "ROODOX_ARTIFACT_CLEANUP_INTERVAL_SECONDS" (ta_IntervalSeconds c);
  ta_RetentionSeconds := env_int "ROODOX_ARTIFACT_RETENTION_SECONDS" (ta_RetentionSeconds c);
  ta_MaxBytes := env_int "ROODOX_ARTIFACT_MAX_BYTES" (ta_MaxBytes c);
  ta_Prefixes := env_list "," "ROODOX_ARTIFACT_PREFIXES" (ta_Prefixes c);
|}.

Definition env_BuildCleanupConfig (c : BuildCleanupConfig) : BuildCleanupConfig := {|
  bw_IntervalSeconds := env_int "ROODOX_BUILD_CLEANUP_INTERVAL_SECONDS" (bw_IntervalSeconds c);
  bw_RetentionSeconds := env_int "ROODOX_BUILD_RETENTION_SECONDS" (bw_RetentionSeconds c);
  bw_MaxBytes := env_int "ROODOX_BUILD_MAX_BYTES" (bw_MaxBytes c);
|}.

Definition env_ConflictCleanupConfig (c : ConflictCleanupConfig) : ConflictCleanupConfig := {|
  cf_Enabled := env_bool "ROODOX_CONFLICT_CLEANUP_ENABLED" (cf_Enabled c);
  cf_IntervalSeconds := env_int "ROODOX_CONFLICT_CLEANUP_INTERVAL_SECONDS" (cf_IntervalSeconds c);
  cf_RetentionSeconds := env_int "ROODOX_CONFLICT_RETENTION_SECONDS" (cf_RetentionSeconds c);
  cf_MaxBytes := env_int "ROODOX_CONFLICT_MAX_BYTES" (cf_MaxBytes c);
  cf_MaxCopiesPerPath := env_int "ROODOX_CONFLICT_MAX_COPIES_PER_PATH" (cf_MaxCopiesPerPath c);
|}.

Definition env_LogCleanupConfig (c : LogCleanupConfig) : LogCleanupConfig := {|
  lf_Enabled := env_bool "ROODOX_LOG_CLEANUP_ENABLED" (lf_Enabled c);
  lf_Dir := env_string "ROODOX_LOG_CLEANUP_DIR" (lf_Dir c);
  lf_Patterns := env_list "," "ROODOX_LOG_CLEANUP_PATTERNS" (lf_Patterns c);
  lf_IntervalSeconds := env_int "ROODOX_LOG_CLEANUP_INTERVAL_SECONDS" (lf_IntervalSeconds c);
  lf_RetentionSeconds := env_int "ROODOX_LOG_RETENTION_SECONDS" (lf_RetentionSeconds c);
  lf_MaxBytes := env_int "ROODOX_LOG_MAX_BYTES" (lf_MaxBytes c);
|}.

Definition env_CleanupConfig (c : CleanupConfig) : CleanupConfig := {|
  cl_TempArtifacts := env_ArtifactCleanupConfig (cl_TempArtifacts c);
  cl_BuildWorkdirs := env_BuildCleanupConfig (cl_BuildWorkdirs c);
  cl_ConflictFiles := env_ConflictCleanupConfig (cl_ConflictFiles c);
  cl_LogFiles := env_LogCleanupConfig (cl_LogFiles c);
|}.

Definition env_RuntimeConfig (c : RuntimeConfig) : RuntimeConfig := {|
  rt_BinaryPath := env_string "ROODOX_RUNTIME_BINARY_PATH" (rt_BinaryPath c);
  rt_StateDir := env_string "ROODOX_RUNTIME_STATE_DIR" (rt_StateDir c);
  rt_PIDFile := env_string "ROODOX_RUNTIME_PID_FILE" (rt_PIDFile c);
  rt_LogDir := env_string "ROODOX_RUNTIME_LOG_DIR" (rt_LogDir c);
  rt_StdoutLogName := env_string "ROODOX_RUNTIME_STDOUT_LOG_NAME" (rt_StdoutLogName c);
  rt_StderrLogName := env_string "ROODOX_RUNTIME_STDERR_LOG_NAME" (rt_StderrLogName c);
  rt_GracefulStopTimeoutSeconds := env_int "ROODOX_RUNTIME_GRACEFUL_STOP_TIMEOUT_SECONDS" (rt_GracefulStopTimeoutSeconds c);
  rt_WindowsService := env_WindowsServiceConfig (rt_WindowsService c);
|}.

Definition env_overrides (c : Config) : Config := {|
  Addr := env_string "ROODOX_ADDR" (Addr c);
  DataRoot := env_string "ROODOX_DATA_ROOT" (DataRoot c);
  RootDir := env_string "ROODOX_ROOT_DIR" (RootDir c);
  DBPath := env_string "ROODOX_DB_PATH" (DBPath c);
  Runtime := env_RuntimeConfig (Runtime c);
  RemoteBuildEnabled := env_bool "ROODOX_REMOTE_BUILD_ENABLED" (RemoteBuildEnabled c);
  BuildToolDirs := env_list PathListSeparator "ROODOX_BUILD_TOOL_DIRS" (BuildToolDirs c);
  RequiredBuildTools := env_list "," "ROODOX_BUILD_REQUIRED_TOOLS" (RequiredBuildTools c);
  AuthEnabled := env_bool "ROODOX_AUTH_ENABLED" (AuthEnabled c);
  SharedSecret := env_string "ROODOX_SHARED_SECRET" (SharedSecret c);
  TLSEnabled := env_bool "ROODOX_TLS_ENABLED" (TLSEnabled c);
  TLSCertPath := env_string "ROODOX_TLS_CERT_PATH" (TLSCertPath c);
  TLSKeyPath := env_string "ROODOX_TLS_KEY_PATH" (TLSKeyPath c);
  Database := env_DatabaseConfig (Database c);
  ControlPlane := env_ControlPlaneConfig (ControlPlane c);
  Cleanup := env_CleanupConfig (Cleanup c);
|}.

Definition applyEnvOverrides (c : Config) : Config := normalize (env_overrides c).
End env.

(** ** The file *)

Class ConfigJson := {
  json_UnmarshalConfig (data : bytes) (into : Config) : result goerr Config;
  json_MarshalConfig (c : Config) : bytes;      (* json.MarshalIndent *)
}.

Context `{ConfigJson} (flt : Faults) (getenv : string → string).

Definition Load (path : string) (t : OsState) : result goerr Config :=
  let cfg := Default in
  match os_ReadFile flt path t with
  | Ok b => try cfg := json_UnmarshalConfig b cfg in Ok (applyEnvOverrides getenv cfg)
  | Err err => if negb (errors_Is err ErrNotExist) then Err err else Ok (applyEnvOverrides getenv cfg)
  end.

Definition Save (now : Z) (path : string) (cfg : Config) : go OsState goerr unit :=
  let normalized := normalize cfg in
  os_WriteFile flt now path (json_MarshalConfig normalized).
End normalize.
End AppConfig.
