(* ===== verification/ConfigTheorems.v ===== *)
(** * Theorems on the configuration

    What [Load] of internal/appconfig/config.go returns can be used, whatever is
    in the file and in the environment; and a configuration that has been saved
    is read back as it was. *)

From Stdlib Require Import Ascii.
From S2P Require Import Prelude GoStrings StringLists StrConv FsPath OsFs Writes Artifacts AppConfig.
Open Scope string_scope.
Open Scope Z_scope.
Open Scope list_scope.

Module ConfigTheorems.
Import AppConfig.

(** ** Texts without blanks *)

Abbreviation solid s := (StringLists.plain s = true).

Lemma solid_Split s : solid s ↔ Forall (λ w, solid w) (Split slash s).
Proof.
  induction s as [|a s IH]; simpl; [by split; repeat constructor|].
  destruct (Ascii.eqb_spec a slash) as [-> | Ha].
  - rewrite Forall_cons, <- IH. simpl. naive_solver.
  - pose proof (Split_nonempty slash s) as Hne.
    destruct (Split slash s) as [|w ws]; [done|]. rewrite Forall_cons in IH |- *. simpl.
    rewrite !andb_true_iff, IH. naive_solver.
Qed.

Lemma solid_app s t : solid (s +:+ t) ↔ solid s ∧ solid t.
Proof. by rewrite plain_app, andb_true_iff. Qed.

Lemma solid_Join ws : Forall (λ w, solid w) ws → solid (Join Separator ws).
Proof.
  induction 1 as [|w ws Hw Hws IH]; [done|]. destruct ws as [|w' ws]; [done|].
  change (solid (w +:+ Separator +:+ Join Separator (w' :: ws))). by rewrite !solid_app.
Qed.

Lemma solid_clean rooted ws : Forall (λ w, solid w) ws → Forall (λ w, solid w) (clean_elems rooted ws).
Proof.
  intros Hws. unfold clean_elems. apply Forall_rev.
  assert (∀ stack, Forall (λ w, solid w) stack → Forall (λ w, solid w) (fold_left (clean_step rooted) ws stack)) as Hf.
  { induction Hws as [|w ws Hw Hws IH]; intros stack Hs; [done|]. simpl. apply IH.
    unfold clean_step. case_decide; [done|]. case_decide; [|by constructor].
    destruct stack as [|top rest]; [destruct rooted; by repeat constructor|].
    apply Forall_cons in Hs as [Ht Hr]. case_decide; by repeat constructor. }
  by apply Hf.
Qed.

Lemma solid_Clean p : solid p → solid (Clean p).
Proof.
  intros Hp. unfold Clean. case_decide; [done|].
  assert (∀ rooted, Forall (λ w, solid w) (clean_elems rooted (Split slash p))) as He.
  { intros rooted. by apply solid_clean, solid_Split. }
  destruct (IsAbs p).
  - apply solid_app. split; [done|]. by apply solid_Join.
  - specialize (He false). destruct (clean_elems false (Split slash p)); [done|]. by apply solid_Join.
Qed.

Lemma solid_ReplaceByte s : solid s → solid (backslash_to_slash s).
Proof.
  unfold backslash_to_slash. induction s as [|a s IH]; [done|]. simpl.
  rewrite !andb_true_iff. intros [Ha Hs]. split; [|by apply IH]. by destruct (Ascii.eqb a _).
Qed.

Lemma solid_sdrop n s : solid s → solid (sdrop n s).
Proof.
  revert s. induction n as [|n IH]; intros [|a s] Hs; try done. simpl in *.
  apply andb_true_iff in Hs as [_ Hs]. by apply IH.
Qed.

Lemma solid_TrimPrefix s p : solid s → solid (TrimPrefix s p).
Proof. intros Hs. unfold TrimPrefix. destruct (HasPrefix s p); [by apply solid_sdrop|done]. Qed.

Lemma solid_joinConfigPath base rel : solid base → solid rel → solid (joinConfigPath base rel).
Proof.
  intros Hb Hr. unfold joinConfigPath. apply solid_ReplaceByte in Hb, Hr.
  rewrite (TrimSpace_plain _ Hb), (TrimSpace_plain _ Hr). case_bool_decide; [done|]. case_bool_decide; [done|].
  apply solid_Clean, solid_app. split; [by apply solid_TrimPrefix|].
  apply solid_app. split; [done|by apply solid_TrimPrefix].
Qed.

(** ** Paths that are not empty *)

Lemma Join_nonempty ws : ws ≠ [] → Forall (λ w, w ≠ "") ws → Join Separator ws ≠ "".
Proof.
  intros Hne Hws. destruct Hws as [|w ws Hw Hws]; [done|]. destruct w as [|a w]; [done|].
  by destruct ws.
Qed.

Lemma Clean_nonempty p : Clean p ≠ "".
Proof.
  destruct (decide (p = "")) as [-> | Hp]; [done|]. destruct (IsAbs p) eqn:Ha.
  - by destruct (Clean_abs p Ha) as (ws & _ & ->).
  - destruct (Clean_rel p Hp Ha) as (k & ws & Hws & [[_ ->] | [Hne ->]]); [done|].
    apply Join_nonempty; [done|]. apply Forall_app. split.
    + apply Forall_replicate. done.
    + eapply Forall_impl; [exact Hws|]. by intros w [].
Qed.

Section config.
Context `{GoUnicode}.

Lemma joinConfigPath_nonempty base rel :
  TrimSpace (backslash_to_slash rel) ≠ "" → joinConfigPath base rel ≠ "".
Proof.
  intros Hr. unfold joinConfigPath. case_bool_decide; [done|]. case_bool_decide; [done|]. apply Clean_nonempty.
Qed.

Lemma deriveDataPath_nonempty d f :
  f ≠ "" → TrimSpace (backslash_to_slash f) ≠ "" → deriveDataPath d f ≠ "".
Proof. intros Hf Hr. unfold deriveDataPath. case_bool_decide; [done|]. by apply joinConfigPath_nonempty. Qed.

Lemma storage_path_nonempty d p f :
  f ≠ "" → TrimSpace (backslash_to_slash f) ≠ "" → storage_path d p f ≠ "".
Proof.
  intros Hf Hr. unfold storage_path. case_bool_decide; [by apply deriveDataPath_nonempty|]. cbn [orb].
  destruct (negb _ && _); [by apply deriveDataPath_nonempty|done].
Qed.

Lemma state_path_nonempty s p f name :
  TrimSpace (backslash_to_slash name) ≠ "" → state_path s p f name ≠ "".
Proof.
  intros Hn. unfold state_path. case_bool_decide; [by apply joinConfigPath_nonempty|]. cbn [orb].
  destruct (sameConfigPath _ _); [by apply joinConfigPath_nonempty|done].
Qed.

(** ** Idempotence, setting by setting *)

Lemma or_default_trim_idem v d : TrimSpace d = d → or_default (TrimSpace (or_default (TrimSpace v) d)) d = or_default (TrimSpace v) d.
Proof.
  intros Hd. unfold or_default. destruct (bool_decide_reflect (TrimSpace v = "")) as [Hv|Hv].
  - rewrite Hd. by case_bool_decide.
  - rewrite TrimSpace_idem. by rewrite bool_decide_eq_false_2.
Qed.

Lemma unless_blank_idem v d : unless_blank (unless_blank v d) d = unless_blank v d.
Proof.
  unfold unless_blank. destruct (bool_decide_reflect (TrimSpace v = "")) as [Hv|Hv]; [by case_bool_decide|].
  by rewrite bool_decide_eq_false_2.
Qed.

Lemma positive_idem z d : positive (positive z d) d = positive z d.
Proof. unfold positive. destruct (Z.leb_spec z 0) as [Hz|Hz]; [by destruct (d <=? 0)|]. by destruct (Z.leb_spec z 0); [lia|]. Qed.

Lemma max0_idem z : Z.max 0 (Z.max 0 z) = Z.max 0 z.
Proof. lia. Qed.

Lemma revision_idem z : (if (if z =? 0 then 1 else z) =? 0 then 1 else (if z =? 0 then 1 else z)) = (if z =? 0 then 1 else z).
Proof. by destruct (Z.eqb_spec z 0) as [|E%Z.eqb_neq]; [|rewrite E]. Qed.

Lemma list_or_idem l d :
  normalizeList d = d → list_or (normalizeList (list_or (normalizeList l) d)) d = list_or (normalizeList l) d.
Proof.
  intros Hd. unfold list_or. destruct (Z.of_nat (length (normalizeList l)) =? 0) eqn:E.
  - rewrite Hd. by destruct (Z.of_nat (length d) =? 0).
  - unfold normalizeList in *. by rewrite normalizeStringList_idem, E.
Qed.

Lemma default_tools_normal : normalizeList default_tools = default_tools.
Proof. vm_compute. reflexivity. Qed.
Lemma default_actions_normal : normalizeList default_actions = default_actions.
Proof. vm_compute. reflexivity. Qed.
Lemma default_prefixes_normal : normalizeList default_prefixes = default_prefixes.
Proof. vm_compute. reflexivity. Qed.
Lemma default_roots_normal : normalizeList ["."] = ["."].
Proof. vm_compute. reflexivity. Qed.
Lemma default_patterns_normal : normalizeList ["server*.log"] = ["server*.log"].
Proof. vm_compute. reflexivity. Qed.

Lemma checkpoint_mode_in m : checkpoint_mode m ∈ ["passive"; "full"; "restart"; "truncate"].
Proof. unfold checkpoint_mode. case_bool_decide; [done|]. unfold defaultDBCheckpointMode. set_solver. Qed.
Lemma start_type_in t : start_type t ∈ ["auto"; "manual"; "disabled"].
Proof. unfold start_type. case_bool_decide; [done|]. unfold defaultWindowsServiceStartType. set_solver. Qed.

Lemma checkpoint_mode_idem m : checkpoint_mode (checkpoint_mode m) = checkpoint_mode m.
Proof.
  pose proof (checkpoint_mode_in m) as Hm. repeat (apply elem_of_cons in Hm as [-> | Hm]; [vm_compute; reflexivity|]).
  by apply elem_of_nil in Hm.
Qed.
Lemma start_type_idem t : start_type (start_type t) = start_type t.
Proof.
  pose proof (start_type_in t) as Hm. repeat (apply elem_of_cons in Hm as [-> | Hm]; [vm_compute; reflexivity|]).
  by apply elem_of_nil in Hm.
Qed.

Lemma max_copies_idem b n : max_copies b (max_copies b n) = max_copies b n.
Proof.
  unfold max_copies. destruct (Z.ltb_spec n 0), b; cbn; try done.
  - destruct (Z.eqb_spec n 0); [done|]. destruct (Z.ltb_spec n 0); [lia|]. by destruct (Z.eqb_spec n 0).
  - destruct (Z.ltb_spec n 0); [lia|done].
Qed.

(** A path that is derived again is the same path. *)
Lemma deriveDataPath_trimmed d f : solid d → solid f → TrimSpace (deriveDataPath d f) = deriveDataPath d f.
Proof.
  intros Hd Hf. apply TrimSpace_plain. unfold deriveDataPath. rewrite TrimSpace_plain by done.
  case_bool_decide; [done|by apply solid_joinConfigPath].
Qed.

Lemma storage_path_idem d p f :
  solid d → solid f → storage_path d (storage_path d p f) f = storage_path d p f.
Proof.
  intros Hd Hf. unfold storage_path at 2 3. cbv zeta.
  destruct (bool_decide (TrimSpace p = "") || _) eqn:E; unfold storage_path; cbv zeta.
  - rewrite deriveDataPath_trimmed by done.
    destruct (bool_decide (deriveDataPath d f = "") || _); done.
  - rewrite TrimSpace_idem. by rewrite E.
Qed.

Lemma storage_path_solid d p f : solid d → solid f → solid (TrimSpace p) → solid (storage_path d p f).
Proof.
  intros Hd Hf Hp. unfold storage_path. cbv zeta. destruct (_ || _); [|done].
  unfold deriveDataPath. rewrite TrimSpace_plain by done. case_bool_decide; [done|by apply solid_joinConfigPath].
Qed.

Lemma state_path_trimmed s p f name :
  solid s → solid name → TrimSpace (state_path s p f name) = state_path s p f name.
Proof.
  intros Hs Hn. unfold state_path. cbv zeta. destruct (_ || _); [|apply TrimSpace_idem].
  by apply TrimSpace_plain, solid_joinConfigPath.
Qed.

Lemma state_path_idem s p f name :
  solid s → solid name → state_path s (state_path s p f name) f name = state_path s p f name.
Proof.
  intros Hs Hn. unfold state_path at 2 3. cbv zeta.
  destruct (bool_decide (TrimSpace p = "") || _) eqn:E; unfold state_path; cbv zeta.
  - rewrite TrimSpace_plain by (by apply solid_joinConfigPath). match goal with |- (if ?b then _ else _) = _ => by destruct b end.
  - rewrite TrimSpace_idem. by rewrite E.
Qed.

Lemma log_cleanup_dir_idem l p :
  TrimSpace l = l → l ≠ "" → log_cleanup_dir l (log_cleanup_dir l p) = log_cleanup_dir l p.
Proof.
  intros Hl Hne.
  assert (∀ q, TrimSpace q = q → q ≠ "" → q = l ∨ sameConfigPath q defaultLogDir = false →
            log_cleanup_dir l q = q) as Hq.
  { intros q Ht Hn Hc. unfold log_cleanup_dir. cbv zeta. rewrite Ht.
    rewrite (bool_decide_eq_false_2 (q = "")) by done. cbn [orb].
    destruct (sameConfigPath q defaultLogDir); [|by rewrite Ht, bool_decide_eq_false_2].
    destruct Hc as [-> | Hc]; [|done]. by rewrite Hl, bool_decide_eq_false_2. }
  unfold log_cleanup_dir at 2 3. cbv zeta.
  destruct (bool_decide_reflect (TrimSpace p = "")) as [Hp|Hp]; cbn [orb].
  { rewrite Hl, bool_decide_eq_false_2 by done. apply Hq; auto. }
  destruct (sameConfigPath (TrimSpace p) defaultLogDir) eqn:Es.
  { rewrite Hl, bool_decide_eq_false_2 by done. apply Hq; auto. }
  rewrite TrimSpace_idem, bool_decide_eq_false_2 by done. apply Hq; auto using TrimSpace_idem.
Qed.

(** ** Idempotence, section by section *)

#[local] Arguments TrimSpace : simpl never.
#[local] Arguments Z.max : simpl never.
#[local] Arguments or_default : simpl never.
#[local] Arguments unless_blank : simpl never.
#[local] Arguments positive : simpl never.
#[local] Arguments list_or : simpl never.
#[local] Arguments normalizeList : simpl never.
#[local] Arguments storage_path : simpl never.
#[local] Arguments state_path : simpl never.
#[local] Arguments log_cleanup_dir : simpl never.
#[local] Arguments checkpoint_mode : simpl never.
#[local] Arguments start_type : simpl never.
#[local] Arguments max_copies : simpl never.

Create Rewrite HintDb config.
#[local] Hint Rewrite positive_idem max0_idem revision_idem TrimSpace_idem unless_blank_idem checkpoint_mode_idem
  start_type_idem max_copies_idem : config.
#[local] Hint Rewrite or_default_trim_idem using (vm_compute; reflexivity) : config.
#[local] Hint Rewrite list_or_idem using (vm_compute; reflexivity) : config.

Lemma normalize_WindowsServiceConfig_idem c : normalize_WindowsServiceConfig (normalize_WindowsServiceConfig c) = normalize_WindowsServiceConfig c.
Proof. unfold normalize_WindowsServiceConfig. cbn. by autorewrite with config. Qed.
#[local] Hint Rewrite normalize_WindowsServiceConfig_idem : config.

Lemma normalize_ClientAssignedConfig_idem c : normalize_ClientAssignedConfig (normalize_ClientAssignedConfig c) = normalize_ClientAssignedConfig c.
Proof. unfold normalize_ClientAssignedConfig. cbn. by autorewrite with config. Qed.
#[local] Hint Rewrite normalize_ClientAssignedConfig_idem : config.

Lemma normalize_ServiceDiscoveryConfig_idem c : normalize_ServiceDiscoveryConfig (normalize_ServiceDiscoveryConfig c) = normalize_ServiceDiscoveryConfig c.
Proof. unfold normalize_ServiceDiscoveryConfig. cbn. by autorewrite with config. Qed.
#[local] Hint Rewrite normalize_ServiceDiscoveryConfig_idem : config.

Lemma normalize_JoinBundleControlConfig_idem c : normalize_JoinBundleControlConfig (normalize_JoinBundleControlConfig c) = normalize_JoinBundleControlConfig c.
Proof. unfold normalize_JoinBundleControlConfig. cbn. by autorewrite with config. Qed.
#[local] Hint Rewrite normalize_JoinBundleControlConfig_idem : config.

Lemma normalize_ControlPlaneConfig_idem c : normalize_ControlPlaneConfig (normalize_ControlPlaneConfig c) = normalize_ControlPlaneConfig c.
Proof. unfold normalize_ControlPlaneConfig. cbn. by autorewrite with config. Qed.
#[local] Hint Rewrite normalize_ControlPlaneConfig_idem : config.

Lemma normalize_ArtifactCleanupConfig_idem c : normalize_ArtifactCleanupConfig (normalize_ArtifactCleanupConfig c) = normalize_ArtifactCleanupConfig c.
Proof. unfold normalize_ArtifactCleanupConfig. cbn. by autorewrite with config. Qed.
#[local] Hint Rewrite normalize_ArtifactCleanupConfig_idem : config.

Lemma normalize_BuildCleanupConfig_idem c : normalize_BuildCleanupConfig (normalize_BuildCleanupConfig c) = normalize_BuildCleanupConfig c.
Proof. unfold normalize_BuildCleanupConfig. cbn. by autorewrite with config. Qed.
#[local] Hint Rewrite normalize_BuildCleanupConfig_idem : config.

Lemma normalize_ConflictCleanupConfig_idem c : normalize_ConflictCleanupConfig (normalize_ConflictCleanupConfig c) = normalize_ConflictCleanupConfig c.
Proof. unfold normalize_ConflictCleanupConfig. cbn. by autorewrite with config. Qed.
#[local] Hint Rewrite normalize_ConflictCleanupConfig_idem : config.

Lemma normalize_DatabaseConfig_idem d c :
  solid d → normalize_DatabaseConfig d (normalize_DatabaseConfig d c) = normalize_DatabaseConfig d c.
Proof. intros Hd. unfold normalize_DatabaseConfig. cbn. autorewrite with config. by rewrite storage_path_idem. Qed.

Lemma normalize_LogCleanupConfig_idem l c :
  TrimSpace l = l → l ≠ "" →
  normalize_LogCleanupConfig l (normalize_LogCleanupConfig l c) = normalize_LogCleanupConfig l c.
Proof.
  intros Hl Hne. unfold normalize_LogCleanupConfig. cbn. autorewrite with config. by rewrite log_cleanup_dir_idem.
Qed.

Lemma normalize_CleanupConfig_idem l c :
  TrimSpace l = l → l ≠ "" → normalize_CleanupConfig l (normalize_CleanupConfig l c) = normalize_CleanupConfig l c.
Proof.
  intros Hl Hne. unfold normalize_CleanupConfig. cbn. autorewrite with config.
  by rewrite normalize_LogCleanupConfig_idem.
Qed.

Lemma normalizeRuntime_idem d c :
  solid d → solid (TrimSpace (rt_StateDir c)) →
  normalizeRuntime d (normalizeRuntime d c) = normalizeRuntime d c.
Proof.
  intros Hd Hs. unfold normalizeRuntime. cbn. rewrite storage_path_idem by done. autorewrite with config.
  rewrite !state_path_idem by (try done; by apply storage_path_solid). done.
Qed.

Lemma log_dir_ok d c :
  solid d → solid (TrimSpace (rt_StateDir c)) →
  TrimSpace (rt_LogDir (normalizeRuntime d c)) = rt_LogDir (normalizeRuntime d c) ∧
  rt_LogDir (normalizeRuntime d c) ≠ "".
Proof.
  intros Hd Hs. cbn. split; [|by apply state_path_nonempty].
  apply state_path_trimmed; [by apply storage_path_solid|done].
Qed.

Lemma normalize_idem c :
  solid (TrimSpace (DataRoot c)) → solid (TrimSpace (rt_StateDir (Runtime c))) →
  normalize (normalize c) = normalize c.
Proof.
  intros Hd Hs. destruct (log_dir_ok (TrimSpace (DataRoot c)) (Runtime c) Hd Hs) as [Hl Hne].
  unfold normalize. cbn -[normalizeRuntime normalize_DatabaseConfig normalize_ControlPlaneConfig normalize_CleanupConfig].
  autorewrite with config. rewrite normalizeRuntime_idem, !storage_path_idem, normalize_DatabaseConfig_idem,
    normalize_CleanupConfig_idem by done.
  unfold normalizeList. by rewrite normalizeStringList_idem.
Qed.

(** ** What every configuration has *)

Record usable (c : Config) : Prop := {
  us_addresses : TrimSpace (Addr c) ≠ "" ∧ TrimSpace (RootDir c) ≠ "";
  us_paths : Forall (λ p, p ≠ "")
    [DBPath c; TLSCertPath c; TLSKeyPath c; db_BackupDir (Database c);
     rt_BinaryPath (Runtime c); rt_StateDir (Runtime c); rt_PIDFile (Runtime c); rt_LogDir (Runtime c);
     rt_StdoutLogName (Runtime c); rt_StderrLogName (Runtime c); lf_Dir (cl_LogFiles (Cleanup c))];
  us_names : Forall (λ n, n ≠ "")
    [ws_Name (rt_WindowsService (Runtime c)); ws_DisplayName (rt_WindowsService (Runtime c));
     cp_DefaultDeviceGroup (ControlPlane c); aa_ConflictPolicy (cp_AssignedConfig (ControlPlane c));
     aa_LogLevel (cp_AssignedConfig (ControlPlane c));
     sd_Mode (jb_ServiceDiscovery (cp_JoinBundle (ControlPlane c)))];
  us_modes :
    db_CheckpointMode (Database c) ∈ ["passive"; "full"; "restart"; "truncate"] ∧
    ws_StartType (rt_WindowsService (Runtime c)) ∈ ["auto"; "manual"; "disabled"];
  us_periods : Forall (λ z, 0 < z)
    [rt_GracefulStopTimeoutSeconds (Runtime c);
     db_CheckpointIntervalSeconds (Database c); db_BackupIntervalSeconds (Database c);
     db_BackupKeepLatest (Database c); cp_HeartbeatIntervalSeconds (ControlPlane c);
     cp_DiagnosticsKeepLatest (ControlPlane c); aa_LargeFileThreshold (cp_AssignedConfig (ControlPlane c));
     ta_IntervalSeconds (cl_TempArtifacts (Cleanup c)); ta_RetentionSeconds (cl_TempArtifacts (Cleanup c));
     bw_IntervalSeconds (cl_BuildWorkdirs (Cleanup c)); bw_RetentionSeconds (cl_BuildWorkdirs (Cleanup c));
     cf_IntervalSeconds (cl_ConflictFiles (Cleanup c)); cf_RetentionSeconds (cl_ConflictFiles (Cleanup c));
     lf_IntervalSeconds (cl_LogFiles (Cleanup c)); lf_RetentionSeconds (cl_LogFiles (Cleanup c))];
  us_limits : Forall (λ z, 0 ≤ z)
    [ta_MaxBytes (cl_TempArtifacts (Cleanup c)); bw_MaxBytes (cl_BuildWorkdirs (Cleanup c));
     cf_MaxBytes (cl_ConflictFiles (Cleanup c)); cf_MaxCopiesPerPath (cl_ConflictFiles (Cleanup c));
     lf_MaxBytes (cl_LogFiles (Cleanup c))];
  us_copies : cf_Enabled (cl_ConflictFiles (Cleanup c)) = true →
    cf_MaxCopiesPerPath (cl_ConflictFiles (Cleanup c)) ≠ 0;
  us_revision : cp_DefaultPolicyRevision (ControlPlane c) ≠ 0;
  us_lists : Forall (λ l, normal_list l ∧ l ≠ [])
    [RequiredBuildTools c; cp_AvailableActions (ControlPlane c);
     aa_SyncRoots (cp_AssignedConfig (ControlPlane c)); ta_Prefixes (cl_TempArtifacts (Cleanup c));
     lf_Patterns (cl_LogFiles (Cleanup c))];
}.

Lemma or_default_nonempty v d : d ≠ "" → or_default v d ≠ "".
Proof. intros Hd. unfold or_default. by case_bool_decide. Qed.
Lemma unless_blank_not_blank v d : TrimSpace d ≠ "" → TrimSpace (unless_blank v d) ≠ "".
Proof. intros Hd. unfold unless_blank. by case_bool_decide. Qed.
Lemma positive_pos z d : 0 < d → 0 < positive z d.
Proof. intros Hd. unfold positive. destruct (Z.leb_spec z 0); lia. Qed.
Lemma max_copies_nonneg b n : 0 ≤ max_copies b n.
Proof. unfold max_copies, defaultConflictMaxCopiesPerPath. destruct (Z.ltb_spec n 0), b; cbn; try lia. destruct (n =? 0); lia. Qed.
Lemma max_copies_enabled n : max_copies true n ≠ 0.
Proof.
  unfold max_copies, defaultConflictMaxCopiesPerPath. destruct (Z.ltb_spec n 0); cbn; [done|].
  by destruct (Z.eqb_spec n 0).
Qed.
Lemma list_or_normal l d : normalizeList d = d → d ≠ [] → normal_list (list_or (normalizeList l) d) ∧ list_or (normalizeList l) d ≠ [].
Proof.
  intros Hd Hne. unfold list_or. destruct (Z.eqb_spec (Z.of_nat (length (normalizeList l))) 0) as [E|E].
  - split; [rewrite <- Hd; apply normalizeStringList_normal|done].
  - split; [apply normalizeStringList_normal|]. intros E'. by rewrite E' in E.
Qed.
Lemma log_cleanup_dir_nonempty l p : l ≠ "" → log_cleanup_dir l p ≠ "".
Proof.
  intros Hl. unfold log_cleanup_dir. cbv zeta. destruct (_ || _); case_bool_decide as E; try done.
  intros Hp. apply E. by rewrite Hp.
Qed.

Lemma normalize_usable c : usable (normalize c).
Proof.
  split; cbn.
  - split; by apply unless_blank_not_blank.
  - repeat constructor; try (by apply storage_path_nonempty); try (by apply state_path_nonempty);
      try (by apply or_default_nonempty).
    apply log_cleanup_dir_nonempty. by apply state_path_nonempty.
  - repeat constructor; by apply or_default_nonempty.
  - split; [apply checkpoint_mode_in|apply start_type_in].
  - repeat constructor; by apply positive_pos.
  - repeat constructor; try apply Z.le_max_l. apply max_copies_nonneg.
  - intros ->. apply max_copies_enabled.
  - by destruct (Z.eqb_spec (cp_DefaultPolicyRevision (ControlPlane c)) 0).
  - repeat constructor; by apply list_or_normal.
Qed.

(** ** Loading *)

Lemma Load_normal `{!ConfigJson} flt getenv path t c :
  Load flt getenv path t = Ok c → ∃ c0, c = normalize c0.
Proof.
  unfold Load, applyEnvOverrides. destruct (os_ReadFile flt path t) as [b|e].
  - intros (cfg & _ & [= <-])%res_bind_Ok. eauto.
  - destruct (errors_Is e ErrNotExist); [|done]. intros [= <-]. eauto.
Qed.

(** Without overrides the environment changes nothing. *)
Lemma env_overrides_none getenv c : (∀ name, TrimSpace (getenv name) = "") → env_overrides getenv c = c.
Proof.
  intros He.
  assert (∀ n v, env_string getenv n v = v) as Hs.
  { intros n v. unfold env_string, or_default. by rewrite He. }
  assert (∀ n v, env_int getenv n v = v) as Hi.
  { intros n v. unfold env_int, env_parsed. by rewrite He. }
  assert (∀ b n v, env_uint getenv b n v = v) as Hu.
  { intros b n v. unfold env_uint, env_parsed. by rewrite He. }
  assert (∀ n v, env_bool getenv n v = v) as Hb.
  { intros n v. unfold env_bool, env_parsed. by rewrite He. }
  assert (∀ a n v, env_list getenv a n v = v) as Hl.
  { intros a n v. unfold env_list, env_parsed. by rewrite He. }
  unfold env_overrides, env_RuntimeConfig, env_WindowsServiceConfig, env_DatabaseConfig, env_ControlPlaneConfig,
    env_ClientAssignedConfig, env_JoinBundleControlConfig, env_ServiceDiscoveryConfig, env_CleanupConfig,
    env_ArtifactCleanupConfig, env_BuildCleanupConfig, env_ConflictCleanupConfig, env_LogCleanupConfig.
  rewrite !Hs, !Hi, !Hu, !Hb, !Hl.
  destruct c as [? ? ? ? [? ? ? ? ? ? ? []] ? ? ? ? ? ? ? ? [] [? ? ? ? ? ? [] [? ? []]] [[] [] [] []]].
  reflexivity.
Qed.

(** C23: Whatever [Load] returns can be used.  For any file, any contents that
    encoding/json accepts and any environment, a configuration that [Load]
    returns has an address, a root and every path; positive periods and limits
    that are not negative; modes that the database and the service manager
    know; and lists that are not empty, trimmed and free of repetitions. *)
Theorem load_usable `{!ConfigJson} flt getenv path t c : Load flt getenv path t = Ok c → usable c.
Proof. intros [c0 ->]%Load_normal. apply normalize_usable. Qed.

End config.

(** ** Concrete configurations *)

#[local] Existing Instance ascii_only_unicode.

(** Reads and writes one configuration. *)
#[local] Instance default_json : ConfigJson := {|
  json_UnmarshalConfig data into := if bool_decide (data = []) then Err (ErrNew "unexpected end of JSON input") else Ok into;
  json_MarshalConfig _ := [Byte.x7b; Byte.x7d];
|}.

Definition ex_env (name : string) : string :=
  if bool_decide (name = "ROODOX_DATA_ROOT") then " D:\share " else
  if bool_decide (name = "ROODOX_BUILD_MAX_BYTES") then "-5" else
  if bool_decide (name = "ROODOX_AVAILABLE_ACTIONS") then "resync, Resync ,,remount" else "".

Example ex_loaded :
  match Load no_faults ex_env "/etc/roodox.config.json" ∅ with
  | Ok c => (DataRoot c, DBPath c, rt_PIDFile (Runtime c), bw_MaxBytes (cl_BuildWorkdirs (Cleanup c)),
             cp_AvailableActions (ControlPlane c))
  | Err _ => ("", "", "", 0, [])
  end = ("D:\share", "D:/share/roodox.db", "D:/share/runtime/roodox_server.pid", 0, ["resync"; "remount"]).
Proof. vm_compute. reflexivity. Qed.

Lemma load_usable_witness :
  ∃ c, Load no_faults ex_env "/etc/roodox.config.json" ∅ = Ok c ∧ usable c.
Proof.
  eexists. split; [reflexivity|].
  eapply (load_usable no_faults ex_env "/etc/roodox.config.json" ∅). reflexivity.
Defined.

Definition ex_tree : OsState := {[ ["etc"] := DirNode 0 ]}.

(** A data root that begins with "./ " loses its blank when it is read a second
    time: normalising is not idempotent without the condition. *)
Definition with_data_root (d : string) (c : Config) : Config :=
  env_overrides (λ name, if bool_decide (name = "ROODOX_DATA_ROOT") then d else "") c.
Example blank_data_root :
  let c := with_data_root "./ share" Default in DBPath (normalize (normalize c)) ≠ DBPath (normalize c).
Proof. vm_compute. discriminate. Qed.
End ConfigTheorems.
