(* ===== verification/Sqlite.v ===== *)
(** * The database file

    internal/db/db.go and internal/db/migrations.go: the file that holds the
    tables, as the driver opens, migrates, checks and copies it.  The driver
    (modernc.org/sqlite behind database/sql) is the interface [Engine]: its
    calls read and change the file tree, and [EngineLaws] says which files.
    What the statements do to the tables of the running server is the subject
    of [Database] and [DeviceRegistry]; here a statement is its text. *)

From stdpp Require Import pretty.
From Stdlib Require Import Ascii.
From S2P Require Import Prelude GoStrings FsPath OsFs World Artifacts.
Open Scope string_scope.
Open Scope Z_scope.
Open Scope list_scope.

Module Sqlite.

(** ** The driver *)

Class Engine := {
  handle : Type;                                              (* *sql.DB, *sql.Tx *)
  handle_path : handle → string;
  sql_Open (path : string) : go OsState goerr handle;
  sql_Close (d : handle) : go OsState goerr unit;
  sql_Ping (d : handle) : go OsState goerr unit;
  sql_Exec (d : handle) (query : string) : go OsState goerr unit;
  sql_QueryString (d : handle) (query : string) : go OsState goerr string;
  sql_QueryInts (d : handle) (query : string) : go OsState goerr (list Z);
  (** The names that PRAGMA table_info lists. *)
  sql_QueryNames (d : handle) (query : string) : go OsState goerr (list string);
  sql_Begin (d : handle) : go OsState goerr handle;
  sql_Commit (tx : handle) : go OsState goerr unit;
  sql_Rollback (tx : handle) : go OsState goerr unit;
}.

Definition sidecar_suffixes : list string := ["-wal"; "-shm"; "-journal"].

(** The files of the database at [path]: SQLite keeps a write-ahead log, its
    index and a rollback journal beside the file. *)
Definition db_files (path : string) : list (list string) :=
  path_key path :: map (λ suffix, path_key (path +:+ suffix)) sidecar_suffixes.

(** A statement that names no other file. *)
Definition local_statement (query : string) : bool :=
  negb (HasPrefix query "VACUUM" || HasPrefix query "ATTACH").

(** A call changes nothing but the files of its database, and makes files, not
    directories. *)
Record touches (ks : list (list string)) (t t' : OsState) : Prop := {
  tc_frame : frame ks [] t t';
  tc_files k mt : k ∈ ks → node_at t' k = Some (DirNode mt) → ∃ mt', node_at t k = Some (DirNode mt');
}.

Class EngineLaws `{Engine} : Prop := {
  open_path path t t' d : sql_Open path t = (t', Ok d) → handle_path d = path;
  begin_path d t t' tx : sql_Begin d t = (t', Ok tx) → handle_path tx = handle_path d;
  open_touches path t : touches (db_files path) t (sql_Open path t).1;
  close_touches d t : touches (db_files (handle_path d)) t (sql_Close d t).1;
  exec_touches d query t :
    local_statement query = true → touches (db_files (handle_path d)) t (sql_Exec d query t).1;
  string_touches d query t : touches (db_files (handle_path d)) t (sql_QueryString d query t).1;
  ints_touches d query t : touches (db_files (handle_path d)) t (sql_QueryInts d query t).1;
  names_touches d query t : touches (db_files (handle_path d)) t (sql_QueryNames d query t).1;
  begin_touches d t : touches (db_files (handle_path d)) t (sql_Begin d t).1;
  commit_touches tx t : touches (db_files (handle_path tx)) t (sql_Commit tx t).1;
  rollback_touches tx t : touches (db_files (handle_path tx)) t (sql_Rollback tx t).1;
}.

(** ** internal/db/migrations.go *)

Definition CurrentSchemaVersion : Z := 2.

Section migrations.
Context `{Engine} `{GoUnicode}.

Fixpoint execStatements (tx : handle) (statements : list string) : go OsState goerr unit :=
  match statements with
  | [] => go_ret tt
  | statement :: statements' =>
      let! _ := sql_Exec tx statement in
      execStatements tx statements'
  end.

Definition create_meta : string := "
CREATE TABLE IF NOT EXISTS meta (
    path       TEXT PRIMARY KEY,
    is_dir     INTEGER,
    size       INTEGER,
    mtime_unix INTEGER,
    hash       TEXT,
    version    INTEGER
);
".

Definition create_version : string := "
CREATE TABLE IF NOT EXISTS version (
    path        TEXT,
    version     INTEGER,
    mtime_unix  INTEGER,
    hash        TEXT,
    size        INTEGER,
    client_id   TEXT,
    change_type TEXT,
    PRIMARY KEY(path, version)
);
".

Definition create_version_blob : string := "
CREATE TABLE IF NOT EXISTS version_blob (
    path    TEXT,
    version INTEGER,
    data    BLOB,
    PRIMARY KEY(path, version),
    FOREIGN KEY(path, version) REFERENCES version(path, version) ON DELETE CASCADE
);
".

Definition create_file_head : string := "
CREATE TABLE IF NOT EXISTS file_head (
    path            TEXT PRIMARY KEY,
    current_version INTEGER NOT NULL
);
".

Definition create_device_registry : string := "
CREATE TABLE IF NOT EXISTS device_registry (
    device_id TEXT PRIMARY KEY,
    device_name TEXT NOT NULL DEFAULT '',
    device_role TEXT NOT NULL DEFAULT '',
    assigned_device_label TEXT NOT NULL DEFAULT '',
    client_version TEXT NOT NULL DEFAULT '',
    platform TEXT NOT NULL DEFAULT '',
    overlay_provider TEXT NOT NULL DEFAULT '',
    overlay_address TEXT NOT NULL DEFAULT '',
    capabilities_json TEXT NOT NULL DEFAULT '[]',
    server_id TEXT NOT NULL DEFAULT '',
    device_group TEXT NOT NULL DEFAULT '',
    last_session_id TEXT NOT NULL DEFAULT '',
    heartbeat_interval_seconds INTEGER NOT NULL DEFAULT 15,
    policy_revision INTEGER NOT NULL DEFAULT 1,
    requires_policy_pull INTEGER NOT NULL DEFAULT 1,
    overlay_connected INTEGER NOT NULL DEFAULT 0,
    grpc_connected INTEGER NOT NULL DEFAULT 0,
    last_sync_time_unix INTEGER NOT NULL DEFAULT 0,
    last_error TEXT NOT NULL DEFAULT '',
    mount_state TEXT NOT NULL DEFAULT '',
    mounted INTEGER NOT NULL DEFAULT 0,
    mount_path TEXT NOT NULL DEFAULT '',
    last_mount_time_unix INTEGER NOT NULL DEFAULT 0,
    mount_last_error TEXT NOT NULL DEFAULT '',
    sync_state_summary TEXT NOT NULL DEFAULT '',
    current_task_count INTEGER NOT NULL DEFAULT 0,
    sync_last_success_time INTEGER NOT NULL DEFAULT 0,
    sync_last_error TEXT NOT NULL DEFAULT '',
    conflict_count INTEGER NOT NULL DEFAULT 0,
    queue_depth INTEGER NOT NULL DEFAULT 0,
    sync_summary TEXT NOT NULL DEFAULT '',
    created_at_unix INTEGER NOT NULL DEFAULT 0,
    updated_at_unix INTEGER NOT NULL DEFAULT 0,
    last_registered_at_unix INTEGER NOT NULL DEFAULT 0,
    last_heartbeat_at_unix INTEGER NOT NULL DEFAULT 0,
    last_sync_report_at_unix INTEGER NOT NULL DEFAULT 0,
    last_mount_report_at_unix INTEGER NOT NULL DEFAULT 0,
    last_seen_at_unix INTEGER NOT NULL DEFAULT 0
);
".

Definition index_device_registry : string := "
CREATE INDEX IF NOT EXISTS idx_device_registry_last_seen
ON device_registry(last_seen_at_unix DESC, updated_at_unix DESC);
".

Definition create_device_policy : string := "
CREATE TABLE IF NOT EXISTS device_policy (
    device_id TEXT PRIMARY KEY,
    mount_path TEXT NOT NULL DEFAULT '',
    sync_roots_json TEXT NOT NULL DEFAULT '[]',
    conflict_policy TEXT NOT NULL DEFAULT '',
    read_only INTEGER NOT NULL DEFAULT 0,
    auto_connect INTEGER NOT NULL DEFAULT 1,
    bandwidth_limit INTEGER NOT NULL DEFAULT 0,
    log_level TEXT NOT NULL DEFAULT '',
    large_file_threshold INTEGER NOT NULL DEFAULT 0,
    policy_revision INTEGER NOT NULL DEFAULT 1,
    updated_at_unix INTEGER NOT NULL DEFAULT 0
);
".

Definition create_device_actions : string := "
CREATE TABLE IF NOT EXISTS device_actions (
    action_id TEXT PRIMARY KEY,
    device_id TEXT NOT NULL,
    action_type TEXT NOT NULL,
    payload_json TEXT NOT NULL DEFAULT '',
    status TEXT NOT NULL DEFAULT 'pending',
    requested_at_unix INTEGER NOT NULL DEFAULT 0,
    delivered_at_unix INTEGER NOT NULL DEFAULT 0,
    completed_at_unix INTEGER NOT NULL DEFAULT 0
);
".

Definition index_device_actions : string := "
CREATE INDEX IF NOT EXISTS idx_device_actions_pending
ON device_actions(device_id, status, requested_at_unix DESC);
".

Definition create_device_diagnostics : string := "
CREATE TABLE IF NOT EXISTS device_diagnostics (
    diagnostics_id TEXT PRIMARY KEY,
    device_id TEXT NOT NULL,
    category TEXT NOT NULL DEFAULT '',
    content_type TEXT NOT NULL DEFAULT '',
    summary TEXT NOT NULL DEFAULT '',
    payload BLOB NOT NULL,
    size_bytes INTEGER NOT NULL DEFAULT 0,
    uploaded_at_unix INTEGER NOT NULL DEFAULT 0
);
".

Definition index_device_diagnostics : string := "
CREATE INDEX IF NOT EXISTS idx_device_diagnostics_recent
ON device_diagnostics(device_id, uploaded_at_unix DESC, diagnostics_id DESC);
".

Definition migrateToSchemaV1 (tx : handle) : go OsState goerr unit :=
  execStatements tx [create_meta; create_version; create_version_blob; create_file_head].

Record columnDefinition := { cd_Name : string; cd_Definition : string }.

(** [QueryRow(...).Scan] of [n] columns. *)
Definition scan_ints (n : nat) (d : handle) (query : string) : go OsState goerr (list Z) :=
  let! row := sql_QueryInts d query in
  if bool_decide (length row = n) then go_ret row else go_fail (ErrNew "sql: unexpected number of columns").

Fixpoint add_columns (database : handle) (table : string) (existing : list string)
    (columns : list columnDefinition) : go OsState goerr unit :=
  match columns with
  | [] => go_ret tt
  | column :: columns' =>
      if bool_decide (ToLower (cd_Name column) ∈ existing)
      then add_columns database table existing columns'
      else
        let! _ := sql_Exec database ("ALTER TABLE " +:+ table +:+ " ADD COLUMN " +:+ cd_Definition column +:+ ";") in
        add_columns database table existing columns'
  end.

Definition ensureTableColumns (database : handle) (table : string) (columns : list columnDefinition) :
    go OsState goerr unit :=
  let! names := sql_QueryNames database ("PRAGMA table_info(" +:+ table +:+ ");") in
  add_columns database table (map (λ name, ToLower (TrimSpace name)) names) columns.

Definition registry_columns : list columnDefinition :=
  [{| cd_Name := "mounted"; cd_Definition := "mounted INTEGER NOT NULL DEFAULT 0" |};
   {| cd_Name := "mount_path"; cd_Definition := "mount_path TEXT NOT NULL DEFAULT ''" |};
   {| cd_Name := "last_mount_time_unix"; cd_Definition := "last_mount_time_unix INTEGER NOT NULL DEFAULT 0" |};
   {| cd_Name := "mount_last_error"; cd_Definition := "mount_last_error TEXT NOT NULL DEFAULT ''" |};
   {| cd_Name := "last_mount_report_at_unix"; cd_Definition := "last_mount_report_at_unix INTEGER NOT NULL DEFAULT 0" |}].

Definition migrateToSchemaV2 (tx : handle) : go OsState goerr unit :=
  let! _ := execStatements tx
    [create_device_registry; index_device_registry; create_device_policy; create_device_actions;
     index_device_actions; create_device_diagnostics; index_device_diagnostics] in
  ensureTableColumns tx "device_registry" registry_columns.

Record schemaMigration := {
  sm_version : Z;
  sm_name : string;
  sm_apply : handle → go OsState goerr unit;
}.

Definition schemaMigrations : list schemaMigration :=
  [{| sm_version := 1; sm_name := "core_file_tables"; sm_apply := migrateToSchemaV1 |};
   {| sm_version := 2; sm_name := "control_plane_tables"; sm_apply := migrateToSchemaV2 |}].

Definition currentSchemaVersion (database : handle) : go OsState goerr Z :=
  let! row := scan_ints 1 database "PRAGMA user_version;" in
  go_ret (default 0 (head row)).

(** The deferred rollback runs after the commit too, and then does nothing. *)
Definition runMigration (database : handle) (migration : schemaMigration) : go OsState goerr unit :=
  let! tx := sql_Begin database in
  go_defer (catch! _ := sql_Rollback tx in go_ret tt)
    (let! _ := sm_apply migration tx in
     let! _ := sql_Exec tx ("PRAGMA user_version = " +:+ pretty (sm_version migration) +:+ ";") in
     sql_Commit tx).

Fixpoint run_migrations (database : handle) (version : Z) (migrations : list schemaMigration) :
    go OsState goerr unit :=
  match migrations with
  | [] => go_ret tt
  | migration :: migrations' =>
      if sm_version migration <=? version then run_migrations database version migrations'
      else
        let! _ := go_map_err
          (ErrWrap ("apply schema migration v" +:+ pretty (sm_version migration) +:+ " (" +:+ sm_name migration +:+ ")"))
          (runMigration database migration) in
        run_migrations database (sm_version migration) migrations'
  end.

Definition applyMigrations (database : handle) : go OsState goerr unit :=
  let! version := currentSchemaVersion database in
  run_migrations database version schemaMigrations.
End migrations.

(** ** internal/db/db.go *)

Record FileStat := { fs_Path : string; fs_Exists : bool; fs_SizeBytes : Z; fs_ModifiedAtUnix : Z }.
Record Stats := { DBFile : FileStat; WALFile : FileStat; SHMFile : FileStat }.
Record CheckpointResult := {
  cr_Mode : string;
  cr_BusyReaders : Z;
  cr_LogFrames : Z;
  cr_CheckpointedFrames : Z;
  cr_CompletedAtUnix : Z;
}.

Section db.
Context `{Engine} `{GoUnicode} (flt : Faults) (dir_size now : Z).

Record DB := { Sql : handle; path : string }.

Definition Open (path : string) : go OsState goerr DB :=
  let! db := sql_Open path in
  let! _ := sql_Exec db "PRAGMA journal_mode = WAL;" in
  let! _ := sql_Exec db "PRAGMA synchronous = NORMAL;" in
  let! _ := sql_Exec db "PRAGMA busy_timeout = 5000;" in
  catch! migrated := applyMigrations db in
  match migrated with
  | Err err => catch! _ := sql_Close db in go_fail err
  | Ok _ => go_ret {| Sql := db; path := path |}
  end.

Definition Ping (d : DB) : go OsState goerr unit :=
  let! _ := sql_Ping (Sql d) in
  let! _ := scan_ints 1 (Sql d) "SELECT 1;" in
  go_ret tt.

Definition SchemaVersion (d : DB) : go OsState goerr Z := currentSchemaVersion (Sql d).

(** [QueryRow(`PRAGMA quick_check(1);`)] and the check of its answer. *)
Definition quick_check (d : handle) : go OsState goerr unit :=
  let! result := sql_QueryString d "PRAGMA quick_check(1);" in
  if negb (bool_decide (ToLower (TrimSpace result) = "ok"))
  then go_fail (ErrNew ("sqlite quick_check failed: " +:+ result))
  else go_ret tt.
Definition QuickCheck (d : DB) : go OsState goerr unit := quick_check (Sql d).

Definition fileStat (path : string) (t : OsState) : FileStat :=
  match os_Stat flt dir_size path t with
  | Err _ => {| fs_Path := path; fs_Exists := false; fs_SizeBytes := 0; fs_ModifiedAtUnix := 0 |}
  | Ok info =>
      {| fs_Path := path; fs_Exists := true; fs_SizeBytes := fi_size info;
         fs_ModifiedAtUnix := unix_seconds (fi_mtime info) |}
  end.

Definition DB_Stats (d : DB) (t : OsState) : Stats :=
  {| DBFile := fileStat (path d) t;
     WALFile := fileStat (path d +:+ "-wal") t;
     SHMFile := fileStat (path d +:+ "-shm") t |}.

Definition normalizeCheckpointMode (mode : string) : string :=
  let mode := ToLower (TrimSpace mode) in
  if bool_decide (mode ∈ ["full"; "restart"; "truncate"]) then mode else "passive".

Definition Checkpoint (d : DB) (mode : string) : go OsState goerr CheckpointResult :=
  let mode := normalizeCheckpointMode mode in
  let! row := scan_ints 3 (Sql d) ("PRAGMA wal_checkpoint(" +:+ ToUpper mode +:+ ");") in
  go_ret {| cr_Mode := mode;
            cr_BusyReaders := default 0 (row !! 0%nat);
            cr_LogFrames := default 0 (row !! 1%nat);
            cr_CheckpointedFrames := default 0 (row !! 2%nat);
            cr_CompletedAtUnix := unix_seconds now |}.

Fixpoint sqliteQuote (value : string) : string :=
  match value with
  | "" => ""
  | String c value' =>
      if Ascii.eqb c "'" then String "'" (String "'" (sqliteQuote value')) else String c (sqliteQuote value')
  end.

Definition BackupInto (d : DB) (destPath : string) : go OsState goerr unit :=
  if bool_decide (TrimSpace destPath = "") then go_fail (ErrNew "backup destination path is empty")
  else
    let! _ := os_MkdirAll flt now (Dir destPath) in
    catch! found := go_read (os_Stat flt dir_size destPath) in
    match found with
    | Ok _ => go_fail (ErrNew ("backup destination already exists: " +:+ destPath))
    | Err err =>
        if negb (errors_Is err ErrNotExist) then go_fail err
        else sql_Exec (Sql d) ("VACUUM INTO '" +:+ sqliteQuote destPath +:+ "';")
    end.
End db.
Arguments DB {_}.
Arguments Sql {_} d.
Arguments path {_} d.
End Sqlite.
