(* ===== verification/Restore.v ===== *)
(** * Restoring the database

    internal/db/restore.go and internal/db/resource_lock_other.go: a backup is
    checked, copied beside the database, and put in its place, the old database
    being kept as a safety backup.  The clock stands still during a call, and
    permission bits are left out. *)

From stdpp Require Import pretty.
From S2P Require Import Prelude GoStrings FsPath OsFs PathOps World GoTime Sqlite.
Open Scope string_scope.
Open Scope Z_scope.
Open Scope list_scope.

Module Restore.
Import Sqlite.

Section restore.
Context `{WorkDir} `{LocalZone} `{GoUnicode} `{!Engine} (flt : Faults) (dir_size now : Z).

(** ** internal/db/resource_lock_other.go *)

Record fileResourceLock := { lock_path : string }.

Definition acquireResourceLock (resourcePath : string) : go OsState goerr fileResourceLock :=
  let! absPath := go_lift (Abs resourcePath) in
  let lockPath := absPath +:+ ".lock" in
  let! _ := go_map_err (ErrWrap ("resource lock already held for " +:+ absPath))
              (os_OpenCreate flt true false now lockPath) in
  go_ret {| lock_path := lockPath |}.

(** An error of [os.Remove], unless the file is not there. *)
Definition removeIfExists (path : string) : go OsState goerr unit :=
  catch! removed := os_Remove flt path in
  match removed with
  | Err err => if errors_Is err ErrNotExist then go_ret tt else go_fail err
  | Ok _ => go_ret tt
  end.

(** The lock forgets its path here, so that a second call does nothing; every
    lock is released once. *)
Definition Release (l : fileResourceLock) : go OsState goerr unit :=
  if bool_decide (lock_path l = "") then go_ret tt else removeIfExists (lock_path l).

(** ** internal/db/restore.go *)

Record RestoreOptions := { CreateSafetyBackup : bool }.
Record RestoreResult := {
  SourcePath : string;
  TargetPath : string;
  SafetyBackupPath : string;
  rr_SchemaVersion : Z;
}.

Definition samePath (left right : string) : bool := EqualFold (Clean left) (Clean right).

Definition nextSafetyBackupPath (targetPath : string) : string :=
  let dir := Dir targetPath in
  let base := TrimSuffix (Base targetPath) (Ext targetPath) in
  let base := if bool_decide (base = "") then "roodox" else base in
  JoinPath dir (base +:+ "-pre-restore-" +:+ format_stamp now +:+ ".db").

Definition nextRestoreTempPath (targetPath : string) : string :=
  JoinPath (Dir targetPath) ("." +:+ Base targetPath +:+ ".restore-" +:+ pretty now +:+ ".tmp").

Definition statIfExists (path : string) (t : OsState) : result goerr (option FileInfo) :=
  match os_Stat flt dir_size path t with
  | Ok info => Ok (Some info)
  | Err err => if errors_Is err ErrNotExist then Ok None else Err err
  end.

Fixpoint remove_all_existing (paths : list string) : go OsState goerr unit :=
  match paths with
  | [] => go_ret tt
  | path :: paths' =>
      let! _ := removeIfExists path in
      remove_all_existing paths'
  end.
Definition removeSQLiteSidecars (targetPath : string) : go OsState goerr unit :=
  remove_all_existing (map (λ suffix, targetPath +:+ suffix) sidecar_suffixes).

(** io.Copy between two open files, of which the second is new: what is read
    is written, unless there is nothing to write. *)
Definition io_Copy (dst src : string) : go OsState goerr unit :=
  let! c := go_read (λ t,
    match flt "read" src with
    | Some e => Err (ErrPath "read" src e)
    | None =>
        match node_at t (path_key src) with
        | Some (FileNode c _) => Ok c
        | _ => Err (ErrPath "read" src EISDIR)
        end
    end) in
  if bool_decide (c = []) then go_ret tt else os_write flt "write" now dst c.

Definition copyFile (src dst : string) : go OsState goerr unit :=
  let! _ := os_MkdirAll flt now (Dir dst) in
  let! _ := go_read (FS.os_Open flt dir_size src) in
  let! _ := os_OpenCreate flt false true now dst in
  io_Copy dst src.

Definition validateSQLiteFile (path : string) : go OsState goerr unit :=
  let! info := go_read (os_Stat flt dir_size path) in
  if fi_isdir info then go_fail (ErrNew ("sqlite file path is a directory: " +:+ path))
  else
    let! database := sql_Open path in
    go_defer (sql_Close database) (quick_check database).

(** The version of the schema of the restored database. *)
Definition finalizeRestoredDatabase (targetPath : string) : go OsState goerr Z :=
  let! restoredDB := Open targetPath in
  go_defer (sql_Close (Sql restoredDB))
    (let! _ := QuickCheck restoredDB in
     SchemaVersion restoredDB).

Definition rollbackRestore (targetPath safetyBackupPath : string) : go OsState goerr unit :=
  if bool_decide (TrimSpace safetyBackupPath = "") then go_ret tt
  else
    let! _ := go_read (os_Stat flt dir_size safetyBackupPath) in
    let! _ := removeSQLiteSidecars targetPath in
    let! _ := removeIfExists targetPath in
    copyFile safetyBackupPath targetPath.

(** From the staged copy at [tmpPath] on. *)
Definition swap_in (targetAbs tmpPath : string) : go OsState goerr unit :=
  let! _ := removeSQLiteSidecars targetAbs in
  let! _ := removeIfExists targetAbs in
  os_Rename flt tmpPath targetAbs.

Definition finalize_or_rollback (targetAbs safetyPath : string) : go OsState goerr Z :=
  catch! finalized := finalizeRestoredDatabase targetAbs in
  match finalized with
  | Ok version => go_ret version
  | Err err =>
      catch! rolled := rollbackRestore targetAbs safetyPath in
      match rolled with
      | Err rollbackErr =>
          go_fail (ErrNew ("finalize restored database: " +:+ err_text err +:+ "; rollback failed: "
                           +:+ err_text rollbackErr))
      | Ok _ => go_fail (ErrWrap "finalize restored database" err)
      end
  end.

(** The safety backup, or [""] when there is none to make. *)
Definition safety_backup (targetAbs : string) (options : RestoreOptions) : go OsState goerr string :=
  let! targetInfo := go_read (statIfExists targetAbs) in
  let! _ := os_MkdirAll flt now (Dir targetAbs) in
  match targetInfo with
  | Some _ =>
      if CreateSafetyBackup options then
        let safetyPath := nextSafetyBackupPath targetAbs in
        let! _ := go_map_err (ErrWrap "create safety backup") (copyFile targetAbs safetyPath) in
        go_ret safetyPath
      else go_ret ""
  | None => go_ret ""
  end.

Definition stage_and_swap (targetAbs backupAbs safetyPath : string) : go OsState goerr Z :=
  let tmpPath := nextRestoreTempPath targetAbs in
  go_defer (os_Remove flt tmpPath)
    (let! _ := go_read (os_Stat flt dir_size backupAbs) in
     let! _ := go_map_err (ErrWrap "stage restore file") (copyFile backupAbs tmpPath) in
     let! _ := swap_in targetAbs tmpPath in
     finalize_or_rollback targetAbs safetyPath).

Definition restore_locked (targetAbs backupAbs : string) (options : RestoreOptions) :
    go OsState goerr RestoreResult :=
  let! _ := go_map_err (ErrWrap "validate backup") (validateSQLiteFile backupAbs) in
  let! safetyPath := safety_backup targetAbs options in
  let! version := stage_and_swap targetAbs backupAbs safetyPath in
  go_ret {| SourcePath := backupAbs; TargetPath := targetAbs; SafetyBackupPath := safetyPath;
            rr_SchemaVersion := version |}.

Definition RestoreFromBackup (targetPath backupPath : string) (options : RestoreOptions) :
    go OsState goerr RestoreResult :=
  let! targetAbs := go_lift (Abs (TrimSpace targetPath)) in
  let! backupAbs := go_lift (Abs (TrimSpace backupPath)) in
  if bool_decide (targetAbs = "") || bool_decide (backupAbs = "")
  then go_fail (ErrNew "target and backup paths are required")
  else if samePath targetAbs backupAbs then go_fail (ErrNew "backup path must differ from target path")
  else
    let! lock := acquireResourceLock targetAbs in
    go_defer (Release lock) (restore_locked targetAbs backupAbs options).
End restore.
End Restore.
