(* ===== verification/RestoreTheorems.v ===== *)
(** * Theorems on restoring the database

    What [RestoreFromBackup] of internal/db/restore.go leaves of the old
    database and of the backup, whatever fails on the way. *)

From stdpp Require Import pretty.
From S2P Require Import Prelude GoStrings StringLists FsPath OsFs PathOps World Frames Writes GoTime Artifacts Sqlite Restore.
From Stdlib Require Import Ascii.
Open Scope string_scope.
Open Scope Z_scope.
Open Scope list_scope.

(** * The files of a restore

    What the driver and the calls of internal/db/restore.go do to single files,
    and the names of the files beside the database: the sidecars, the lock, the
    safety backup and the staged copy are all different. *)

Module RestoreFiles.
Import Sqlite Restore.

Lemma steps_bind_Ok {W E A B} (R : W → W → Prop) `{!PreOrder R} (m : go W E A) (k : A → go W E B) :
  steps R m → (∀ w w' a, m w = (w', Ok a) → steps R (k a)) → steps R (go_bind m k).
Proof.
  intros Hm Hk w. unfold go_bind. pose proof (Hm w) as Hw. destruct (m w) as [w1 [a|e]] eqn:Em; [|done].
  simpl in Hw. trans w1; [done|by eapply Hk].
Qed.

(** ** The driver *)

#[local] Instance touches_preorder ks : PreOrder (touches ks).
Proof.
  split; [by split; [reflexivity|eauto]|].
  intros t1 t2 t3 [F1 D1] [F2 D2]. split; [by trans t2|].
  intros k mt Hk (mt2 & H2)%D2; [|done]. by apply (D1 k mt2).
Qed.

Section driver.
Context `{EngineLaws} `{GoUnicode}.

Lemma scan_touches n d query : steps (touches (db_files (handle_path d))) (scan_ints n d query).
Proof. unfold scan_ints. steps_tac. intros t. apply ints_touches. Qed.

Lemma exec_all_touches tx statements :
  forallb local_statement statements = true →
  steps (touches (db_files (handle_path tx))) (execStatements tx statements).
Proof.
  induction statements as [|s statements IH]; simpl; [intros _; apply steps_ret; apply _|].
  intros [Hs Hr]%andb_true_iff. apply steps_bind; [apply _|intros t; by apply exec_touches|].
  intros _. by apply IH.
Qed.

Lemma add_columns_touches d table existing columns :
  steps (touches (db_files (handle_path d))) (add_columns d table existing columns).
Proof.
  induction columns as [|c columns IH]; simpl; [apply steps_ret; apply _|].
  case_bool_decide; [done|]. apply steps_bind; [apply _| |by intros _].
  intros t. by apply exec_touches.
Qed.

Definition applies_locally (migration : schemaMigration) : Prop :=
  ∀ tx, steps (touches (db_files (handle_path tx))) (sm_apply migration tx).

Lemma migrations_local : Forall applies_locally schemaMigrations.
Proof.
  constructor; [|constructor; [|constructor]]; intros tx; cbn [sm_apply].
  - by apply exec_all_touches.
  - unfold migrateToSchemaV2, ensureTableColumns. apply steps_bind; [apply _|by apply exec_all_touches|].
    intros _. apply steps_bind; [apply _|intros t; apply names_touches|]. intros names. apply add_columns_touches.
Qed.

Lemma runMigration_touches d migration :
  applies_locally migration → steps (touches (db_files (handle_path d))) (runMigration d migration).
Proof.
  intros Hm. unfold runMigration. apply steps_bind_Ok; [apply _|intros t; apply begin_touches|].
  intros t t' tx Hb. rewrite <- (begin_path _ _ _ _ Hb). specialize (Hm tx). steps_tac; intros t0.
  - apply rollback_touches.
  - by apply exec_touches.
  - apply commit_touches.
Qed.

Lemma applyMigrations_touches d : steps (touches (db_files (handle_path d))) (applyMigrations d).
Proof.
  unfold applyMigrations, currentSchemaVersion. steps_tac; [apply scan_touches|].
  rename a into version. generalize migrations_local. generalize schemaMigrations as ms. revert version.
  intros version ms Hms. revert version. induction Hms as [|m ms Hm Hms IH]; intros version; simpl; [steps_tac|].
  destruct (_ <=? _); [apply IH|]. apply steps_bind; [apply _| |by intros _].
  apply steps_map_err. by apply runMigration_touches.
Qed.

Lemma Open_touches p : steps (touches (db_files p)) (Open p).
Proof.
  unfold Open. apply steps_bind_Ok; [apply _|intros t; apply open_touches|].
  intros t t' d Hd%open_path. subst p. steps_tac; try (intros t0; by apply exec_touches).
  - apply applyMigrations_touches.
  - intros t0. apply close_touches.
Qed.

Lemma Open_path p t t' d : Open p t = (t', Ok d) → handle_path (Sql d) = p.
Proof.
  unfold Open. intros (t1 & h & Hh%open_path & Hx)%go_bind_Ok.
  repeat apply go_bind_Ok in Hx as (? & [] & _ & Hx).
  unfold go_catch in Hx. destruct (applyMigrations h _) as [t2 [[]|e]].
  - by injection Hx as _ <-.
  - by destruct (sql_Close h t2).
Qed.

Lemma quick_check_touches d : steps (touches (db_files (handle_path d))) (quick_check d).
Proof. unfold quick_check. steps_tac. intros t. apply string_touches. Qed.

Lemma finalize_touches p : steps (touches (db_files p)) (finalizeRestoredDatabase p).
Proof.
  unfold finalizeRestoredDatabase. apply steps_bind_Ok; [apply _|apply Open_touches|].
  intros t t' d Hd%Open_path. subst p. unfold SchemaVersion, currentSchemaVersion, QuickCheck.
  steps_tac; [intros t0; apply close_touches|apply quick_check_touches|apply scan_touches].
Qed.

Lemma validate_touches flt dir_size p : steps (touches (db_files p)) (validateSQLiteFile flt dir_size p).
Proof.
  unfold validateSQLiteFile. apply steps_bind; [apply _|steps_tac|]. intros info.
  destruct (fi_isdir info); [steps_tac|]. apply steps_bind_Ok; [apply _|intros t; apply open_touches|].
  intros t t' d Hd%open_path. subst p. steps_tac; [intros t0; apply close_touches|apply quick_check_touches].
Qed.
End driver.

(** ** The names of the files *)

Lemma substring_prefix a b : String.substring 0 (String.length a) (a +:+ b) = a.
Proof. induction a as [|c a IH]; simpl; [by destruct b|by rewrite IH]. Qed.

Lemma TrimSuffix_split s x : TrimSuffix s x = s ∨ s = TrimSuffix s x +:+ x.
Proof.
  unfold TrimSuffix. destruct (HasSuffix s x) eqn:Hs; [|by left]. right.
  apply HasPrefix_spec in Hs as [t Ht]. apply (f_equal srev) in Ht.
  rewrite srev_app, !srev_involutive in Ht. subst s.
  rewrite length_append, Nat.add_sub. by rewrite substring_prefix.
Qed.

Lemma ext_of_shape s acc : (acc = "" ∨ ∃ t, acc = String "." t) →
  ext_of s acc = "" ∨ ∃ t, ext_of s acc = String "." t.
Proof.
  revert acc. induction s as [|a s IH]; intros acc Hacc; [done|]. simpl.
  destruct (Ascii.eqb_spec a ".") as [-> | ?]; apply IH; [right; eauto|done].
Qed.

(** Texts that end in different characters. *)
Definition last_differs (x y : string) : bool :=
  match srev x, srev y with
  | String c _, String d _ => negb (Ascii.eqb c d)
  | _, _ => false
  end.
Lemma ends_differ a b x y : last_differs x y = true → a +:+ x ≠ b +:+ y.
Proof.
  unfold last_differs. intros Hd E. apply (f_equal srev) in E. rewrite !srev_app in E.
  destruct (srev x) as [|c x'], (srev y) as [|d y']; try done. injection E as -> _.
  by rewrite Ascii.eqb_refl in Hd.
Qed.

Lemma longer_differs s t : t ≠ "" → s ≠ s +:+ t.
Proof.
  intros Ht E. apply (f_equal String.length) in E. rewrite length_append in E.
  destruct t; [done|]. simpl in E. lia.
Qed.

Lemma plain_suffix w s : FsPath.plain w → no_char slash s = true → FsPath.plain (w +:+ s).
Proof.
  intros (H1 & H2 & H3 & H4) Hs. repeat split.
  - by destruct w.
  - destruct w as [|a w]; [done|]. simpl. intros [= -> E]. by destruct w.
  - destruct w as [|a [|b w]]; [done| |]; simpl; [by intros [= -> ->]|]. intros [= -> -> E]. by destruct w.
  - by rewrite no_char_append, H4, Hs.
Qed.

Lemma abs_path_suffix dir w s : abs_path (dir ++ [w]) +:+ s = abs_path (dir ++ [w +:+ s]).
Proof.
  unfold abs_path. rewrite <- append_assoc. f_equal. destruct dir as [|d dir]; [done|].
  rewrite !Join_app by done. by rewrite <- !append_assoc.
Qed.

Lemma concat_no_slash n : no_char slash (String.concat "" (replicate n "0")) = true.
Proof. induction n as [|[|n] IH]; [done..|]. simpl. apply IH. Qed.
Lemma stamp_no_slash `{LocalZone} now : no_char slash (format_stamp now) = true.
Proof.
  unfold format_stamp, pad. destruct (civil _) as [[y m] d].
  by rewrite !no_char_append, !concat_no_slash, !pretty_no_slash.
Qed.

Section names.
Context `{LocalZone} (now : Z) (dir : list string) (w : string) (Hdir : Forall FsPath.plain dir) (Hw : FsPath.plain w).

Abbreviation T := (abs_path (dir ++ [w])).
Definition safety_base : string :=
  let base := TrimSuffix w (Ext T) in if bool_decide (base = "") then "roodox" else base.
Definition safety_name : string := safety_base +:+ "-pre-restore-" +:+ format_stamp now +:+ ".db".
Definition temp_name : string := "." +:+ w +:+ ".restore-" +:+ pretty now +:+ ".tmp".
Definition family : list (list string) :=
  [dir ++ [w]; dir ++ [w +:+ "-wal"]; dir ++ [w +:+ "-shm"]; dir ++ [w +:+ "-journal"]].
Definition lock_key : list string := dir ++ [w +:+ ".lock"].
Definition safe_key : list string := dir ++ [safety_name].
Definition temp_key : list string := dir ++ [temp_name].

Lemma plain_beside n : FsPath.plain n → Forall FsPath.plain (dir ++ [n]).
Proof. intros Hn. apply Forall_app. by split; [|constructor]. Qed.

Lemma safety_base_no_slash : no_char slash safety_base = true.
Proof.
  unfold safety_base. cbv zeta. case_bool_decide; [done|]. destruct Hw as (_ & _ & _ & Hs).
  destruct (TrimSuffix_split w (Ext T)) as [-> | E]; [done|]. rewrite E, no_char_append in Hs.
  by apply andb_true_iff in Hs as [].
Qed.

Lemma safety_plain : FsPath.plain safety_name.
Proof.
  assert (safety_base ≠ "") as Hne by (unfold safety_base; cbv zeta; by case_bool_decide).
  unfold safety_name. repeat split.
  - by destruct safety_base.
  - destruct safety_base as [|a s]; [done|]. simpl. intros [= -> E]. by destruct s.
  - destruct safety_base as [|a [|b s]]; [done|done|]. simpl. intros [= -> -> E]. by destruct s.
  - by rewrite !no_char_append, safety_base_no_slash, stamp_no_slash.
Qed.

Lemma temp_plain : FsPath.plain temp_name.
Proof.
  destruct Hw as (H1 & _ & _ & Hs). unfold temp_name. repeat split; [done|by destruct w| |].
  - destruct w as [|a s]; [done|]. simpl. intros [= -> E]. by destruct s.
  - by rewrite !no_char_append, Hs, pretty_no_slash.
Qed.

Lemma db_files_family : db_files T = family.
Proof.
  unfold db_files, family, sidecar_suffixes. cbn [map]. rewrite !abs_path_suffix, !path_key_abs_path; [done|..];
    apply plain_beside; try done; by apply plain_suffix.
Qed.

Lemma safety_path : nextSafetyBackupPath now T = abs_path safe_key.
Proof.
  unfold nextSafetyBackupPath, safe_key. cbv zeta. rewrite Base_abs_path, Dir_abs_path by done.
  change (JoinPath (abs_path dir) safety_name = abs_path (dir ++ [safety_name])).
  apply (Clean_JoinPath dir [safety_name]); [done|done|]. constructor; [apply safety_plain|done].
Qed.

Lemma temp_path : nextRestoreTempPath now T = abs_path temp_key.
Proof.
  unfold nextRestoreTempPath, temp_key. rewrite Base_abs_path, Dir_abs_path by done.
  apply (Clean_JoinPath dir [temp_name]); [done|done|]. constructor; [apply temp_plain|done].
Qed.

Lemma safety_not_target : safety_name ≠ w.
Proof.
  unfold safety_name, safety_base. cbv zeta. intros E.
  destruct (ext_of_shape (after_last_slash T T) "" ltac:(by left)) as [Hx|[y Hx]]; fold (Ext T) in Hx;
    destruct (TrimSuffix_split w (Ext T)) as [Ht|Ht]; revert E; case_bool_decide as Hb; intros E.
  all: try (rewrite Hb in Ht; subst w; try by destruct Hw).
  all: try (rewrite Hx in *; simpl in *; try done).
  all: try (rewrite Ht in E; symmetry in E; by apply longer_differs in E).
  - rewrite Ht in E at 2. apply append_inj_l in E. done.
  - rewrite Ht in E at 2. apply append_inj_l in E. done.
Qed.

Lemma same_dir (a b : string) : dir ++ [a] = dir ++ [b] → a = b.
Proof. by intros [= E]%app_inv_head. Qed.

Ltac other_ending :=
  match goal with
  | |- ?x ≠ ?y => first
      [ apply (ends_differ w w); reflexivity
      | apply not_eq_sym; by apply longer_differs
      | by apply longer_differs ]
  end.

Lemma not_in_family n :
  n ≠ w → n ≠ w +:+ "-wal" → n ≠ w +:+ "-shm" → n ≠ w +:+ "-journal" → dir ++ [n] ∉ family.
Proof.
  intros H1 H2 H3 H4 Hin. unfold family in Hin.
  repeat (apply elem_of_cons in Hin as [Hin%same_dir | Hin]; [done|]). by apply elem_of_nil in Hin.
Qed.

Lemma safety_ends : ∃ s, safety_name = s +:+ ".db".
Proof. eexists (safety_base +:+ "-pre-restore-" +:+ format_stamp now). unfold safety_name. by rewrite <- !append_assoc. Qed.
Lemma temp_ends : ∃ s, temp_name = s +:+ ".tmp".
Proof. eexists ("." +:+ w +:+ ".restore-" +:+ pretty now). unfold temp_name. by rewrite <- !append_assoc. Qed.

Lemma lock_apart : lock_key ∉ family.
Proof. apply not_in_family; other_ending. Qed.

Lemma safe_apart : safe_key ∉ family.
Proof.
  destruct safety_ends as [s E]. apply not_in_family; [apply safety_not_target|..]; rewrite E; by apply ends_differ.
Qed.

Lemma staged_apart : temp_key ∉ family.
Proof.
  destruct temp_ends as [s E].
  apply not_in_family; [|rewrite E; by apply ends_differ..]. unfold temp_name. intros Eq.
  apply (f_equal String.length) in Eq. rewrite !length_append in Eq. simpl in Eq. lia.
Qed.

Lemma safe_not_temp : safe_key ≠ temp_key.
Proof.
  destruct safety_ends as [s E], temp_ends as [s' E']. intros Eq%same_dir. revert Eq. rewrite E, E'.
  by apply ends_differ.
Qed.
Lemma safe_not_lock : safe_key ≠ lock_key.
Proof. destruct safety_ends as [s E]. intros Eq%same_dir. revert Eq. rewrite E. by apply ends_differ. Qed.
Lemma temp_not_lock : temp_key ≠ lock_key.
Proof. destruct temp_ends as [s E]. intros Eq%same_dir. revert Eq. rewrite E. by apply ends_differ. Qed.
End names.

(** ** The calls on files *)

Section files.
Context (flt : Faults) (dir_size now : Z).

Lemma OpenCreate_frame excl trunc k dir t :
  Forall FsPath.plain k → frame [k] dir t (os_OpenCreate flt excl trunc now (abs_path k) t).1.
Proof.
  intros Hk. unfold os_OpenCreate. rewrite path_key_abs_path by done.
  repeat case_match; simpl; first [reflexivity|apply frame_insert].
Qed.

Lemma OpenCreate_Ok excl k t t' c :
  Forall FsPath.plain k → k ≠ [] → os_OpenCreate flt excl true now (abs_path k) t = (t', Ok c) →
  node_at t' k = Some (FileNode [] now) ∧ linked t' k.
Proof.
  intros Hk Hne. unfold os_OpenCreate. rewrite path_key_abs_path by done.
  destruct (flt "open" (abs_path k)); [done|].
  destruct (os_lookup t k) as [[|c' m]|e] eqn:El.
  - done.
  - destruct excl; [done|]. intros [= <- <-]. rewrite node_at_insert_eq.
    apply os_lookup_linked in El as []. by split; [|apply linked_insert].
  - destruct e; try done. destruct (os_lookup t (removelast k)) as [[mt|c' m]|] eqn:Ep; [| |done].
    + intros [= <- <-]. rewrite node_at_insert_eq. split; [done|]. apply linked_insert.
      apply linked_parent; [done|eauto].
    + exfalso. destruct (exists_last Hne) as (ks & x & E). rewrite E, removelast_last in Ep.
      unfold os_lookup in El, Ep. rewrite E, walk_app in El by done. by rewrite Ep in El.
Qed.

Lemma io_Copy_frame dst src dir t :
  Forall FsPath.plain dst → frame [dst] dir t (io_Copy flt now (abs_path dst) src t).1.
Proof.
  intros Hd. unfold io_Copy, go_bind, go_read, os_write. repeat (case_match; simplify_eq); simpl; try reflexivity.
  rewrite path_key_abs_path by done. apply frame_insert.
Qed.

Lemma Remove_frame k dir t : Forall FsPath.plain k → frame [k] dir t (os_Remove flt (abs_path k) t).1.
Proof.
  intros Hk. unfold os_Remove. rewrite path_key_abs_path by done.
  repeat case_match; simpl; first [reflexivity|apply frame_delete].
Qed.

Lemma removeIfExists_frame k dir t :
  Forall FsPath.plain k → frame [k] dir t (removeIfExists flt (abs_path k) t).1.
Proof.
  intros Hk. pose proof (Remove_frame k dir t Hk) as Hf. unfold removeIfExists, go_catch.
  destruct (os_Remove flt (abs_path k) t) as [t' [[]|e]]; [done|]. by case_match.
Qed.

(** A removal that has succeeded, unless the system takes a file that is there
    for missing. *)
Lemma removeIfExists_Ok k t t' :
  Forall FsPath.plain k → k ≠ [] → flt "remove" (abs_path k) ≠ Some ENOENT → linked t k →
  removeIfExists flt (abs_path k) t = (t', Ok tt) → node_at t' k = None.
Proof.
  intros Hk Hne Hflt Hl. unfold removeIfExists, go_catch, os_Remove. rewrite path_key_abs_path by done.
  destruct (flt "remove" (abs_path k)) as [e|]; [by destruct e|].
  destruct (node_at t k) as [n|] eqn:En.
  - assert (os_lookup t k = Ok n) as -> by by apply os_lookup_linked.
    destruct n; [destruct (has_entries k t); [done|]|]; intros [= <-]; by apply node_at_delete_eq.
  - destruct (os_lookup t k) as [n|e] eqn:El; [apply os_lookup_linked in El as []; congruence|].
    destruct (errors_Is _ _); [|done]. by intros [= <-].
Qed.

Lemma Rename_frame old new dir t c mt :
  Forall FsPath.plain old → Forall FsPath.plain new → node_at t old = Some (FileNode c mt) →
  frame [old; new] dir t (os_Rename flt (abs_path old) (abs_path new) t).1.
Proof.
  intros Ho Hn Hf. unfold os_Rename. rewrite !path_key_abs_path by done.
  destruct (flt _ _); [reflexivity|]. destruct (os_lookup t old) as [n|] eqn:El; [|reflexivity].
  apply os_lookup_linked in El as [El _]. assert (n = FileNode c mt) as -> by congruence. cbn [is_dir andb].
  assert (frame [old; new] dir t (<[new := FileNode c mt]> (delete old t))) as Hmove.
  { trans (delete old t); [eapply frame_mono; [|apply frame_delete]|eapply frame_mono; [|apply frame_insert]]; set_solver. }
  destruct (os_lookup t new) as [[|]|], (os_lookup t (removelast new)) as [[|]|];
    try case_decide; first [reflexivity|exact Hmove].
Qed.

Lemma copyFile_frame dst src t :
  Forall FsPath.plain dst → dst ≠ [] →
  frame [dst] (removelast dst) t (copyFile flt dir_size now src (abs_path dst) t).1.
Proof.
  intros Hd Hne. revert t. change (steps (frame [dst] (removelast dst)) (copyFile flt dir_size now src (abs_path dst))).
  unfold copyFile. steps_tac.
  - intros t. eapply frame_mono; [|by apply MkdirAll_Dir_frame]. set_solver.
  - intros t. by apply OpenCreate_frame.
  - intros t. by apply io_Copy_frame.
Qed.

(** A copy that succeeds has made a file. *)
Lemma copyFile_file src dst t t' :
  Forall FsPath.plain dst → dst ≠ [] →
  copyFile flt dir_size now src (abs_path dst) t = (t', Ok tt) →
  ∃ c mt, node_at t' dst = Some (FileNode c mt).
Proof.
  intros Hd Hne. unfold copyFile. intros (t1 & [] & _ & Hx)%go_bind_Ok.
  apply go_bind_Ok in Hx as (t2 & io & _ & Hx). apply go_bind_Ok in Hx as (t3 & c0 & Ho & Hx).
  apply OpenCreate_Ok in Ho as [Hn _]; [|done..]. unfold io_Copy in Hx.
  apply go_bind_Ok in Hx as (t4 & c & [= <- _] & Hx). case_bool_decide.
  - injection Hx as <-. eauto.
  - unfold os_write in Hx. destruct (flt "write" _); [done|]. injection Hx as <-.
    rewrite path_key_abs_path by done. rewrite node_at_insert_eq. eauto.
Qed.

(** What a copy that succeeds has copied. *)
Lemma copyFile_Ok src dst t t' :
  Forall FsPath.plain src → Forall FsPath.plain dst → dst ≠ [] → src ≠ dst →
  copyFile flt dir_size now (abs_path src) (abs_path dst) t = (t', Ok tt) →
  ∃ c mt, content t src = Some c ∧ node_at t' dst = Some (FileNode c mt) ∧ linked t' dst.
Proof.
  intros Hs Hd Hne Hsd. unfold copyFile. intros (t1 & [] & Hm & Hx)%go_bind_Ok.
  apply go_bind_Ok in Hx as (t2 & io & [= <- _] & Hx). apply go_bind_Ok in Hx as (t3 & c0 & Ho & Hx).
  pose proof (OpenCreate_frame false true dst [] t1 Hd) as Hf. rewrite Ho in Hf. cbn [fst] in Hf.
  pose proof (MkdirAll_Dir_frame flt now dst Hd Hne t) as Hmf. rewrite Hm in Hmf. cbn [fst] in Hmf.
  apply OpenCreate_Ok in Ho as [Hn Hl]; [|done..].
  unfold io_Copy in Hx. apply go_bind_Ok in Hx as (t4 & c & [= <- Hr] & Hx).
  destruct (flt "read" _); [done|]. rewrite path_key_abs_path in Hr by done.
  destruct (node_at t3 src) as [[|c' mt]|] eqn:Esrc; [done| |done]. injection Hr as ->.
  assert (node_at t1 src = Some (FileNode c mt)) as E1.
  { destruct (node_at t1 src) as [n|] eqn:E1.
    - rewrite <- E1, <- Esrc. symmetry. apply (fr_keep _ _ _ _ Hf); [set_solver|by rewrite E1].
    - destruct (fr_new _ _ _ _ Hf src) as [_ [m Hm']]; [set_solver|done|by rewrite Esrc|congruence]. }
  assert (content t src = Some c) as Hc.
  { unfold content. destruct (node_at t src) as [n|] eqn:E0.
    - rewrite <- (fr_keep _ _ _ _ Hmf src) in E0; [|set_solver|by rewrite E0]. by rewrite E1 in E0; injection E0 as <-.
    - destruct (fr_new _ _ _ _ Hmf src) as [_ [m Hm']]; [set_solver|done|by rewrite E1|congruence]. }
  case_bool_decide as Hnil.
  - injection Hx as <-. subst c. eauto.
  - unfold os_write in Hx. destruct (flt "write" _); [done|]. injection Hx as <-.
    rewrite path_key_abs_path by done. exists c, now. rewrite node_at_insert_eq.
    split_and!; [done|done|by apply linked_insert].
Qed.
End files.
End RestoreFiles.

(** ** The theorems *)

Module RestoreTheorems.
Import Sqlite Restore RestoreFiles.
#[local] Existing Instance touches_preorder.

(** ** The steps of a restore *)

Section restore.
Context `{EngineLaws} `{WorkDir} `{LocalZone} `{GoUnicode} (flt : Faults) (dir_size now : Z).
Context (dir : list string) (w : string) (Hdir : Forall FsPath.plain dir) (Hw : FsPath.plain w).

Abbreviation tk := (dir ++ [w]).
Abbreviation T := (abs_path tk).
Abbreviation family := (family dir w).
Abbreviation safe_key := (safe_key now dir w).
Abbreviation temp_key := (temp_key now dir w).
Abbreviation lock_key := (lock_key dir w).

Lemma tk_plain : Forall FsPath.plain tk.
Proof. by apply plain_beside. Qed.
Lemma safe_plain : Forall FsPath.plain safe_key.
Proof. by apply plain_beside, safety_plain. Qed.
Lemma tmp_plain : Forall FsPath.plain temp_key.
Proof. by apply plain_beside, temp_plain. Qed.
Lemma lock_plain : Forall FsPath.plain lock_key.
Proof. by apply plain_beside, plain_suffix. Qed.
Lemma snoc_not_nil (n : string) : dir ++ [n] ≠ [].
Proof. by destruct dir. Qed.
Hint Resolve tk_plain safe_plain tmp_plain lock_plain snoc_not_nil : core.

Lemma steps_frame_mono {A} (ks ks' : list (list string)) (d : list string) (m : go OsState goerr A) :
  ks ⊆ ks' → steps (frame ks d) m → steps (frame ks' d) m.
Proof. intros Hs Hm t. by eapply frame_mono, Hm. Qed.

Lemma steps_touches {A} (ks : list (list string)) (m : go OsState goerr A) : steps (touches ks) m → steps (frame ks []) m.
Proof. intros Hm t. apply Hm. Qed.

Lemma frame_wider ks (d d' : list string) t t' : (∀ q, q `prefix_of` d → q `prefix_of` d') → frame ks d t t' → frame ks d' t t'.
Proof. intros Hd [K N]. split; [done|]. intros q Hq Hn Hs. destruct (N q Hq Hn Hs). auto. Qed.

Lemma frame_nil ks d t t' : frame ks [] t t' → frame ks d t t'.
Proof. apply frame_wider. intros q ->%prefix_nil_inv. by apply prefix_nil. Qed.

Lemma sidecars_frame_only d : steps (frame (tail family) d) (removeSQLiteSidecars flt T).
Proof.
  unfold removeSQLiteSidecars. assert (∀ ks, Forall (λ k, Forall FsPath.plain k ∧ k ∈ tail family) ks →
    steps (frame (tail family) d) (remove_all_existing flt (map abs_path ks))) as Hall.
  { intros ks Hks. induction Hks as [|k ks [Hp Hk] _ IH]; simpl; steps_tac. intros t.
    eapply frame_mono; [|by apply removeIfExists_frame]. set_solver. }
  assert (map (λ suffix, T +:+ suffix) sidecar_suffixes = map abs_path (tail family)) as ->.
  { unfold sidecar_suffixes. cbn [map]. by rewrite !abs_path_suffix. }
  apply Hall. unfold RestoreFiles.family. cbn [tail].
  repeat constructor; try (apply plain_beside; [done|by apply plain_suffix]); set_solver.
Qed.

Lemma sidecars_frame d : steps (frame family d) (removeSQLiteSidecars flt T).
Proof. eapply steps_frame_mono, sidecars_frame_only. unfold RestoreFiles.family. cbn [tail]. set_solver. Qed.

Lemma target_in : tk ∈ family.
Proof. unfold RestoreFiles.family. set_solver. Qed.
Hint Resolve target_in : core.

Lemma remove_target_frame d : steps (frame family d) (removeIfExists flt T).
Proof. intros t. eapply frame_mono; [|apply removeIfExists_frame; auto]. set_solver. Qed.

Lemma copy_beside_frame n src : Forall FsPath.plain (dir ++ [n]) →
  steps (frame [dir ++ [n]] dir) (copyFile flt dir_size now src (abs_path (dir ++ [n]))).
Proof.
  intros Hn t. pose proof (copyFile_frame flt dir_size now (dir ++ [n]) src t Hn) as Hf.
  rewrite removelast_last in Hf. auto.
Qed.

Lemma swap_in_frame t c mt :
  node_at t temp_key = Some (FileNode c mt) →
  frame (temp_key :: family) dir t (swap_in flt T (abs_path temp_key) t).1.
Proof.
  intros Hn. unfold swap_in, go_bind at 1. pose proof (sidecars_frame dir t) as Hf1.
  pose proof (staged_apart now dir w) as Ht.
  destruct (removeSQLiteSidecars flt T t) as [t1 [[]|e]]; cbn [fst] in Hf1;
    [|eapply frame_mono; [|done]; set_solver].
  trans t1; [eapply frame_mono; [|done]; set_solver|].
  unfold go_bind. pose proof (remove_target_frame dir t1) as Hf2.
  destruct (removeIfExists flt T t1) as [t2 [[]|e]]; cbn [fst] in Hf2;
    [|eapply frame_mono; [|done]; set_solver].
  trans t2; [eapply frame_mono; [|done]; set_solver|].
  assert (node_at t2 temp_key = Some (FileNode c mt)) as Hn2.
  { rewrite (fr_keep _ _ _ _ Hf2), (fr_keep _ _ _ _ Hf1); [done|done| |done|]; rewrite ?Hn; [done|].
    rewrite (fr_keep _ _ _ _ Hf1); rewrite ?Hn; done. }
  eapply frame_mono; [|eapply Rename_frame; eauto]. pose proof target_in. set_solver.
Qed.

Lemma finalize_frame d : steps (frame family d) (finalizeRestoredDatabase T).
Proof.
  intros t. apply frame_nil. rewrite <- db_files_family by done. apply finalize_touches.
Qed.

Lemma rollback_frame S : steps (frame family dir) (rollbackRestore flt dir_size now T S).
Proof.
  unfold rollbackRestore. case_bool_decide; steps_tac; [apply sidecars_frame|apply remove_target_frame|].
  eapply steps_frame_mono; [|apply copy_beside_frame; auto]. pose proof target_in. set_solver.
Qed.

Lemma finalize_or_rollback_frame S : steps (frame family dir) (finalize_or_rollback flt dir_size now T S).
Proof. unfold finalize_or_rollback. steps_tac; [apply finalize_frame|apply rollback_frame]. Qed.

(** From the staging on, only the database, its sidecars and the staged copy
    change. *)
Lemma stage_and_swap_frame B S : steps (frame (temp_key :: family) dir) (stage_and_swap flt dir_size now T B S).
Proof.
  unfold stage_and_swap. rewrite temp_path by done. apply steps_defer; [apply _|intros t|].
  { eapply frame_mono; [|apply Remove_frame; auto]. set_solver. }
  apply steps_bind; [apply _|steps_tac|]. intros _ t. unfold go_bind at 1, go_map_err.
  pose proof (copy_beside_frame _ B tmp_plain t
    : frame [temp_key] dir t (copyFile flt dir_size now B (abs_path temp_key) t).1) as Hf.
  destruct (copyFile flt dir_size now B (abs_path temp_key) t) as [t1 [[]|e]] eqn:Ec; cbn [fst map_err] in *;
    [|eapply frame_mono; [|done]; set_solver].
  trans t1; [eapply frame_mono; [|done]; set_solver|]. unfold go_bind.
  apply copyFile_file in Ec as (c & mt & Hn); [|auto|apply snoc_not_nil].
  pose proof (swap_in_frame t1 c mt Hn) as Hs.
  destruct (swap_in flt T (abs_path temp_key) t1) as [t2 [[]|e]]; [|done]. trans t2; [done|].
  eapply frame_mono; [|apply finalize_or_rollback_frame]. set_solver.
Qed.

Lemma mkdirs_target_frame : steps (frame [] dir) (os_MkdirAll flt now (Dir T)).
Proof.
  intros t. pose proof (MkdirAll_Dir_frame flt now tk tk_plain (snoc_not_nil w) t) as Hf.
  by rewrite removelast_last in Hf.
Qed.

Lemma safety_backup_frame options : steps (frame [safe_key] dir) (safety_backup flt dir_size now T options).
Proof.
  unfold safety_backup. rewrite safety_path by done.
  apply steps_bind; [apply _|steps_tac|]. intros info.
  apply steps_bind; [apply _|intros t|].
  { eapply frame_mono; [|apply mkdirs_target_frame]. set_solver. }
  intros _. destruct info; steps_tac. apply copy_beside_frame, safe_plain.
Qed.

Lemma frame_content ks d t t' k c :
  frame ks d t t' → k ∉ ks → content t k = Some c → content t' k = Some c.
Proof.
  intros Hf Hk Hc. unfold content in *. rewrite (fr_keep _ _ _ _ Hf); [done|done|].
  by destruct (node_at t k).
Qed.

Lemma content_node t k c : content t k = Some c ↔ ∃ mt, node_at t k = Some (FileNode c mt).
Proof. unfold content. destruct (node_at t k) as [[]|]; naive_solver. Qed.

(** A database that is there is kept as a safety backup before anything else
    is done to it. *)
Lemma safety_backup_made options d t t' s :
  linked t tk → content t tk = Some d → flt "stat" T ≠ Some ENOENT → CreateSafetyBackup options = true →
  safety_backup flt dir_size now T options t = (t', Ok s) →
  s = abs_path safe_key ∧ content t' safe_key = Some d ∧ linked t' safe_key.
Proof.
  intros Hl [mt Hc]%content_node Hflt Ho. unfold safety_backup, statIfExists. rewrite safety_path, Ho by done.
  intros (t1 & info & [= <- Hi] & Hx)%go_bind_Ok. revert Hi. unfold os_Stat, os_fault.
  destruct (flt "stat" T) as [e|]; [cbn; by destruct e|]. cbn [res_bind]. rewrite path_key_abs_path by auto.
  rewrite (proj2 (os_lookup_linked t tk (FileNode d mt))) by done. intros [= <-].
  apply go_bind_Ok in Hx as (t2 & [] & Hm & Hx). apply go_bind_Ok in Hx as (t3 & [] & Hcp & [= <- <-]).
  apply go_map_err_Ok in Hcp. pose proof (mkdirs_target_frame t) as Hmf.
  rewrite Hm in Hmf. cbn [fst] in Hmf.
  apply copyFile_Ok in Hcp as (c & mt' & Hct & Hn & Hls); [|auto|auto|apply snoc_not_nil|].
  2:{ intros E%same_dir. by apply (safety_not_target now dir w Hw). }
  split_and!; [done| |done]. apply content_node. exists mt'. rewrite Hn. repeat f_equal.
  assert (content t2 tk = Some d) as E; [|congruence].
  eapply frame_content; [exact Hmf|set_solver|]. apply content_node. eauto.
Qed.

(** ** The old database survives *)

Lemma away_linked ks d t t' : frame ks d t t' → (∀ k, k ∈ ks → ¬ k `prefix_of` tk) → linked t tk → linked t' tk.
Proof. intros Hf Hks. eapply frame_linked; [exact Hf|]. intros x Hx Hp. by destruct (Hks x Hx). Qed.

Lemma away_content ks d t t' c :
  frame ks d t t' → (∀ k, k ∈ ks → ¬ k `prefix_of` tk) → content t tk = Some c → content t' tk = Some c.
Proof. intros Hf Hks. apply (frame_content ks d); [done|]. intros Hin. by destruct (Hks tk Hin). Qed.

Lemma sibling_away n : n ≠ w → ¬ dir ++ [n] `prefix_of` tk.
Proof.
  intros Hne [l E]. rewrite <- app_assoc in E. apply app_inv_head in E. by injection E as ->.
Qed.

Section keeps.
Context (B : string) (HB : ∀ k, k ∈ db_files B → ¬ k `prefix_of` tk).

Lemma restore_locked_keeps options d t t' r :
  linked t tk → content t tk = Some d → flt "stat" T ≠ Some ENOENT → CreateSafetyBackup options = true →
  restore_locked flt dir_size now T B options t = (t', r) →
  content t' tk = Some d ∨ content t' safe_key = Some d.
Proof.
  intros Hl Hc Hflt Ho. unfold restore_locked, go_bind at 1, go_map_err.
  pose proof (steps_touches _ _ (validate_touches flt dir_size B) t) as Hv.
  destruct (validateSQLiteFile flt dir_size B t) as [t1 [[]|e]]; cbn [fst map_err] in *.
  2:{ intros [= <- _]. left. by eapply away_content. }
  eapply away_linked in Hl; [|done..]. eapply away_content in Hc; [|done..].
  unfold go_bind at 1. pose proof (safety_backup_frame options t1) as Hs.
  destruct (safety_backup flt dir_size now T options t1) as [t2 [s|e]] eqn:Es; cbn [fst] in Hs.
  2:{ intros [= <- _]. left. eapply away_content; [exact Hs| |done].
      intros k ->%list_elem_of_singleton. apply sibling_away, safety_not_target, Hw. }
  apply (safety_backup_made options d) in Es as (-> & Hsafe & _); [|done..].
  intros Hr. right. pose proof (stage_and_swap_frame B (abs_path safe_key) t2) as Hf.
  unfold go_bind in Hr. destruct (stage_and_swap _ _ _ _ _ _ t2) as [t3 r3]. cbn [fst] in Hf.
  assert (t' = t3) as -> by by destruct r3; injection Hr as <- _.
  eapply frame_content; [exact Hf| |done]. intros [E|Hin]%elem_of_cons.
  - by apply (safe_not_temp now dir w).
  - by apply (safe_apart now dir w Hw).
Qed.
End keeps.

(** ** What takes the place of the old database *)

Lemma linked_beside t n n' : linked t (dir ++ [n]) → linked t (dir ++ [n']).
Proof. intros [Hl Hm]%linked_snoc. by apply linked_snoc. Qed.

Lemma beside_linked ks d t t' n :
  frame ks d t t' → (∀ k, k ∈ ks → k ∈ temp_key :: family ∨ k = safe_key) →
  linked t (dir ++ [n]) → linked t' (dir ++ [n]).
Proof.
  intros Hf Hks. apply frame_linked with ks d; [done|]. intros x Hx Hp.
  assert (∃ m, x = dir ++ [m]) as [m ->].
  { destruct (Hks x Hx) as [Hin| ->]; [|by eexists]. unfold RestoreFiles.family in Hin.
    repeat (apply elem_of_cons in Hin as [-> |Hin]; [by eexists|]). by apply elem_of_nil in Hin. }
  destruct Hp as [l E]. rewrite <- app_assoc in E. apply app_inv_head in E. by injection E as ->.
Qed.

Definition honest_remove : Prop := ∀ p, flt "remove" p ≠ Some ENOENT.

Lemma remove_all_Ok ks t t' :
  honest_remove → Forall (λ k, ∃ n, k = dir ++ [n] ∧ k ∈ family ∧ Forall FsPath.plain k) ks →
  linked t tk → remove_all_existing flt (map abs_path ks) t = (t', Ok tt) →
  ∀ k, k ∈ ks ∨ (k ≠ [] ∧ node_at t k = None) → node_at t' k = None.
Proof.
  intros Hh Hks. revert t. induction Hks as [|k ks (n & -> & Hin & Hp) _ IH]; intros t Hl; simpl.
  - intros [= <-] k [Hk|[_ Hk]]; [by apply elem_of_nil in Hk|done].
  - intros (t1 & [] & Hr & Hx)%go_bind_Ok k Hk.
    pose proof (removeIfExists_frame flt (dir ++ [n]) [] t Hp) as Hf. rewrite Hr in Hf. cbn [fst] in Hf.
    apply removeIfExists_Ok in Hr; [|done|apply snoc_not_nil|apply Hh|by eapply linked_beside].
    eapply (IH t1); [|exact Hx|].
    { eapply beside_linked; [exact Hf| |done]. intros x ->%list_elem_of_singleton. set_solver. }
    destruct (decide (k = dir ++ [n])) as [-> | Hne]; [right; split; [apply snoc_not_nil|done]|].
    destruct Hk as [[->|Hk]%elem_of_cons|[Hk0 Hk]]; [done|by left|right]. split; [done|].
    rewrite (frame_other _ _ _ _ k Hf); [done|set_solver|]. by intros ->%prefix_nil_inv.
Qed.

Lemma sidecars_Ok t t' :
  honest_remove → linked t tk → removeSQLiteSidecars flt T t = (t', Ok tt) →
  ∀ k, k ∈ tail family → node_at t' k = None.
Proof.
  intros Hh Hl. unfold removeSQLiteSidecars.
  assert (map (λ suffix, T +:+ suffix) sidecar_suffixes = map abs_path (tail family)) as ->.
  { unfold sidecar_suffixes. cbn [map]. by rewrite !abs_path_suffix. }
  intros Hr k Hk. eapply remove_all_Ok; [done| |done|done|by left].
  unfold RestoreFiles.family. cbn [tail].
  repeat constructor; (eexists; split_and!; [done|set_solver|by apply plain_beside, plain_suffix]).
Qed.

Lemma sidecar_other k : k ∈ tail family → k ≠ [] ∧ k ≠ tk ∧ k ≠ temp_key.
Proof.
  unfold RestoreFiles.family. cbn [tail]. intros Hk.
  assert (k ∈ family ∧ ∃ s, s ≠ "" ∧ k = dir ++ [w +:+ s]) as (Hf & s & Hs & ->).
  { unfold RestoreFiles.family. split; [set_solver|].
    apply elem_of_cons in Hk as [-> |Hk]; [by exists "-wal"|].
    apply elem_of_cons in Hk as [-> |Hk]; [by exists "-shm"|].
    apply list_elem_of_singleton in Hk as ->. by exists "-journal". }
  split_and!; [apply snoc_not_nil| |].
  - intros E%same_dir. symmetry in E. by apply longer_differs in E.
  - intros E. rewrite E in Hf. by apply (staged_apart now dir w).
Qed.

(** The staged copy in place: its bytes are the database, and no sidecar of the
    old one is left. *)
Lemma swap_in_Ok t t' c mt :
  honest_remove → linked t temp_key → node_at t temp_key = Some (FileNode c mt) →
  swap_in flt T (abs_path temp_key) t = (t', Ok tt) →
  node_at t' tk = Some (FileNode c mt) ∧ (∀ k, k ∈ tail family → node_at t' k = None) ∧ linked t' tk.
Proof.
  intros Hh Hl Hn. unfold swap_in. intros (t1 & [] & Hs & Hx)%go_bind_Ok.
  apply go_bind_Ok in Hx as (t2 & [] & Hr & Hx).
  pose proof (sidecars_frame [] t) as Hf1. rewrite Hs in Hf1. cbn [fst] in Hf1.
  pose proof (remove_target_frame [] t1) as Hf2. rewrite Hr in Hf2. cbn [fst] in Hf2.
  assert (∀ k, k ∈ family → k ∈ temp_key :: family ∨ k = safe_key) as Hfam by set_solver.
  pose proof (staged_apart now dir w) as Hta. apply (linked_beside _ _ w) in Hl.
  pose proof (sidecars_Ok _ _ Hh Hl Hs) as Hside.
  assert (linked t1 tk) as Hl1 by by eapply beside_linked.
  assert (linked t2 tk) as Hl2 by by eapply beside_linked.
  assert (node_at t1 temp_key = Some (FileNode c mt)) as Hn1
    by (rewrite (fr_keep _ _ _ _ Hf1); rewrite ?Hn; done).
  assert (node_at t2 temp_key = Some (FileNode c mt)) as Hn2
    by (rewrite (fr_keep _ _ _ _ Hf2); rewrite ?Hn1; done).
  pose proof (removeIfExists_frame flt tk [] t1 tk_plain) as Hf3. rewrite Hr in Hf3. cbn [fst] in Hf3.
  apply removeIfExists_Ok in Hr; [|auto|apply snoc_not_nil|apply Hh|done].
  rewrite (Rename_file flt temp_key tk t2 (FileNode c mt)) in Hx;
    [|auto|auto|apply snoc_not_nil| | |done|done|by rewrite Hr].
  2:{ intros E. apply Hta. rewrite E. apply target_in. }
  2:{ apply os_lookup_linked. split; [done|by eapply linked_beside]. }
  destruct (flt "rename" _); [done|]. injection Hx as <-. rewrite node_at_insert_eq.
  split_and!; [done| |].
  - intros k Hk. destruct (sidecar_other k Hk) as (N1 & N2 & N3).
    rewrite node_at_insert_ne, node_at_delete_ne by done.
    rewrite (frame_other _ _ _ _ k Hf3); [by apply Hside|set_solver|by intros ->%prefix_nil_inv].
  - apply linked_insert. eapply (beside_linked [temp_key]); [apply (frame_delete _ [])|set_solver|done].
Qed.

Lemma stage_and_swap_Ok bk S t t' v :
  honest_remove → Forall FsPath.plain bk → bk ∉ temp_key :: family →
  stage_and_swap flt dir_size now T (abs_path bk) S t = (t', Ok v) →
  ∃ t1 t2 c, content t bk = Some c ∧ content t1 bk = Some c ∧ content t1 tk = Some c ∧
    (∀ k, k ∈ tail family → node_at t1 k = None) ∧
    finalizeRestoredDatabase T t1 = (t2, Ok v) ∧ frame [temp_key] [] t2 t'.
Proof.
  intros Hh Hbk Hapart. unfold stage_and_swap, go_defer. rewrite temp_path by done.
  destruct (go_bind _ _ t) as [t3 r] eqn:Hr. intros [= <- ->].
  apply go_bind_Ok in Hr as (t0 & info & [= <- _] & Hr). apply go_bind_Ok in Hr as (t4 & [] & Hc & Hr).
  apply go_map_err_Ok in Hc. apply go_bind_Ok in Hr as (t1 & [] & Hs & Hf).
  pose proof (copy_beside_frame _ (abs_path bk) tmp_plain t
    : frame [temp_key] dir t (copyFile flt dir_size now (abs_path bk) (abs_path temp_key) t).1) as Hcf.
  rewrite Hc in Hcf. cbn [fst] in Hcf.
  apply copyFile_Ok in Hc as (c & mt & Hcb & Hn & Hl); [|done|auto|apply snoc_not_nil|set_solver].
  pose proof (swap_in_frame t4 c mt Hn) as Hsf. rewrite Hs in Hsf. cbn [fst] in Hsf.
  apply (swap_in_Ok t4 t1 c mt) in Hs as (Htk & Hside & _); [|done..].
  unfold finalize_or_rollback, go_catch in Hf.
  destruct (finalizeRestoredDatabase T t1) as [t2 [v'|e]] eqn:Ef;
    [|destruct (rollbackRestore _ _ _ _ _ t2) as [? []]; done].
  injection Hf as -> ->. exists t1, t3, c. split_and!; try done.
  - eapply frame_content; [exact Hsf|done|]. eapply frame_content; [exact Hcf|set_solver|done].
  - apply content_node. eauto.
  - apply Remove_frame. auto.
Qed.

(** ** Rolling back *)

Section calm.
Context (Hcalm : ∀ op p, flt op p = None).

Lemma calm_honest : honest_remove.
Proof. intros p. by rewrite Hcalm. Qed.

Lemma mkdirs_there pre rest t :
  (∀ q, pre `prefix_of` q → q `prefix_of` (pre ++ rest) → q ≠ pre → ∃ mt, node_at t q = Some (DirNode mt)) →
  mkdirs flt now pre rest t = (t, Ok tt).
Proof.
  revert pre. induction rest as [|c rest IH]; intros pre Hd; [done|]. simpl.
  destruct (Hd (pre ++ [c])) as [mt ->]; [by eexists|exists rest; by rewrite <- app_assoc|apply snoc_ne|].
  apply IH. intros q [l ->] Hq Hne. apply Hd; [exists (c :: l); by rewrite <- app_assoc| |].
  - by rewrite <- (app_assoc pre [c] rest) in Hq.
  - intros E%(f_equal length). rewrite !length_app in E. simpl in E. lia.
Qed.

Lemma mkdirs_target_there n t :
  FsPath.plain n → linked t (dir ++ [n]) → os_MkdirAll flt now (Dir (abs_path (dir ++ [n]))) t = (t, Ok tt).
Proof.
  intros Hn Hl. unfold os_MkdirAll. rewrite Dir_abs_path, path_key_abs_path by done. apply mkdirs_there.
  intros q _ Hq Hne. apply Hl; [by apply prefix_app_r|].
  intros ->. apply prefix_length in Hq. rewrite length_app in Hq. simpl in Hq. lia.
Qed.

Lemma calm_copy m n c mt t :
  FsPath.plain m → FsPath.plain n → m ≠ n → linked t (dir ++ [n]) →
  node_at t (dir ++ [m]) = Some (FileNode c mt) → (∀ mt', node_at t (dir ++ [n]) ≠ Some (DirNode mt')) →
  ∃ t', copyFile flt dir_size now (abs_path (dir ++ [m])) (abs_path (dir ++ [n])) t = (t', Ok tt) ∧
    content t' (dir ++ [n]) = Some c.
Proof.
  intros Hm Hn Hmn Hl Hc Hnd.
  destruct (copyFile flt dir_size now (abs_path (dir ++ [m])) (abs_path (dir ++ [n])) t) as [t' r] eqn:Ecp.
  assert (r = Ok tt) as ->.
  { revert Ecp. unfold copyFile. unfold go_bind at 1. rewrite mkdirs_target_there by done.
    unfold go_bind at 1, go_read at 1, FS.os_Open, os_fault. rewrite Hcalm, path_key_abs_path by by apply plain_beside.
    rewrite (proj2 (os_lookup_linked t (dir ++ [m]) (FileNode c mt))) by (split; [done|by eapply linked_beside]).
    cbn [res_bind]. unfold go_bind at 1, os_OpenCreate. rewrite Hcalm, path_key_abs_path by by apply plain_beside.
    assert (∀ t1, node_at t1 (dir ++ [m]) = Some (FileNode c mt) →
      io_Copy flt now (abs_path (dir ++ [n])) (abs_path (dir ++ [m])) t1 = (t', r) → r = Ok tt) as Hcopy.
    { intros t1 Hc1. unfold io_Copy, go_bind, go_read, os_write.
      rewrite !Hcalm, path_key_abs_path, Hc1 by by apply plain_beside. case_bool_decide; by intros [= _ <-]. }
    assert (∀ x, node_at (<[dir ++ [n] := x]> t) (dir ++ [m]) = Some (FileNode c mt)) as Hins.
    { intros x. rewrite node_at_insert_ne; [done|]. by intros ?%same_dir. }
    destruct (os_lookup t (dir ++ [n])) as [[mt'|c' mt']|e] eqn:El.
    - apply os_lookup_linked in El as [El _]. by destruct (Hnd mt').
    - apply Hcopy, Hins.
    - pose proof (os_lookup_Err_node _ _ _ Hl El) as Hnone.
      apply linked_parent in Hl as [mt' Hp]; [|apply snoc_not_nil].
      rewrite os_lookup_None in El by (eauto using snoc_not_nil). injection El as <-. rewrite Hp. apply Hcopy, Hins. }
  exists t'. split; [done|].
  apply copyFile_Ok in Ecp as (c' & mt' & Hcs & Hn' & _);
    [|by apply plain_beside|by apply plain_beside|apply snoc_not_nil|by intros ?%same_dir].
  apply content_node. exists mt'. rewrite Hn'. apply content_node in Hcs as [mt'' Hcs]. congruence.
Qed.

Lemma calm_removeIfExists n t :
  FsPath.plain n → linked t (dir ++ [n]) → (∀ mt, node_at t (dir ++ [n]) ≠ Some (DirNode mt)) →
  (removeIfExists flt (abs_path (dir ++ [n])) t).2 = Ok tt.
Proof.
  intros Hn Hl Hnd. unfold removeIfExists, go_catch.
  rewrite Remove_file by (done || by apply plain_beside). rewrite Hcalm.
  by destruct (node_at t (dir ++ [n])).
Qed.
Definition no_dirs (t : OsState) : Prop := ∀ k mt, k ∈ family → node_at t k ≠ Some (DirNode mt).

Lemma Remove_no_dirs k t : Forall FsPath.plain k → k ≠ [] → no_dirs t → no_dirs (removeIfExists flt (abs_path k) t).1.
Proof.
  intros Hk Hne Hnd q mt Hq. pose proof (removeIfExists_frame flt k [] t Hk) as Hf.
  destruct (decide (q = k)) as [-> | Hqk].
  - unfold removeIfExists, go_catch, os_Remove. rewrite Hcalm, path_key_abs_path by done.
    destruct (os_lookup t k) as [[m|]|e] eqn:El; [|simpl; by rewrite node_at_delete_eq|].
    + apply os_lookup_linked in El as [El _]. by destruct (Hnd k m).
    + case_match; by apply Hnd.
  - destruct (node_at t q) as [n|] eqn:En.
    + rewrite (fr_keep _ _ _ _ Hf) by (set_solver || by rewrite En). by apply Hnd.
    + destruct (node_at (removeIfExists flt (abs_path k) t).1 q) as [n|] eqn:En'; [|done].
      destruct (fr_new _ _ _ _ Hf q) as [E%prefix_nil_inv _]; [set_solver|done|by rewrite En'|].
      subst q. unfold RestoreFiles.family in Hq.
      repeat (apply elem_of_cons in Hq as [Hq|Hq]; [by destruct dir|]). by apply elem_of_nil in Hq.
Qed.

Lemma calm_remove_all ks t :
  Forall (λ n, FsPath.plain n ∧ dir ++ [n] ∈ family) ks → linked t tk → no_dirs t →
  (remove_all_existing flt (map (λ n, abs_path (dir ++ [n])) ks) t).2 = Ok tt.
Proof.
  intros Hks. revert t. induction Hks as [|n ks [Hn Hin] _ IH]; intros t Hl Hnd; simpl; [done|].
  pose proof (calm_removeIfExists n t Hn ltac:(by eapply linked_beside) ltac:(intros mt; by apply Hnd)) as Hok.
  pose proof (Remove_no_dirs (dir ++ [n]) t ltac:(by apply plain_beside) (snoc_not_nil n) Hnd) as Hnd'.
  pose proof (removeIfExists_frame flt (dir ++ [n]) [] t ltac:(by apply plain_beside)) as Hf.
  unfold go_bind. destruct (removeIfExists flt _ t) as [t1 r]. cbn [fst snd] in *. subst r.
  apply IH; [|done]. eapply beside_linked; [exact Hf| |done]. intros x ->%list_elem_of_singleton. set_solver.
Qed.

Lemma calm_sidecars t : linked t tk → no_dirs t → (removeSQLiteSidecars flt T t).2 = Ok tt.
Proof.
  unfold removeSQLiteSidecars. intros Hl Hnd.
  assert (map (λ suffix, T +:+ suffix) sidecar_suffixes =
    map (λ n, abs_path (dir ++ [n])) (map (λ suffix, w +:+ suffix) sidecar_suffixes)) as ->.
  { unfold sidecar_suffixes. cbn [map]. by rewrite !abs_path_suffix. }
  apply calm_remove_all; [|done|done]. unfold sidecar_suffixes, RestoreFiles.family. cbn [map].
  repeat constructor; try (by apply plain_suffix); set_solver.
Qed.

Lemma tail_family k : k ∈ tail family → k ∈ family.
Proof. unfold RestoreFiles.family. cbn [tail]. set_solver. Qed.

Lemma target_not_sidecar : tk ∉ tail family.
Proof. intros Htk. by destruct (sidecar_other tk Htk) as (_ & ? & _). Qed.

(** The way is free: no sidecar and no database is left. *)
Lemma calm_clear t :
  linked t tk → no_dirs t →
  ∃ t1 t2, removeSQLiteSidecars flt T t = (t1, Ok tt) ∧ removeIfExists flt T t1 = (t2, Ok tt) ∧
    linked t2 tk ∧ node_at t2 tk = None ∧ frame family [] t t2.
Proof.
  intros Hl Hnd. pose proof (calm_sidecars t Hl Hnd) as Hok. pose proof (sidecars_frame_only [] t) as Hf1.
  assert (∀ mt, node_at (removeSQLiteSidecars flt T t).1 tk ≠ Some (DirNode mt)) as Hnd1.
  { intros m. rewrite (frame_other _ _ _ _ tk Hf1); [by apply Hnd, target_in|apply target_not_sidecar|].
    intros E%prefix_nil_inv. by destruct dir. }
  destruct (removeSQLiteSidecars flt T t) as [t1 r] eqn:Es. cbn [fst snd] in *. subst r.
  assert (linked t1 tk) as Hl1 by (eapply beside_linked; [exact Hf1| |done]; intros k Hk%tail_family; set_solver).
  pose proof (calm_removeIfExists w t1 Hw Hl1 Hnd1) as Hok.
  pose proof (removeIfExists_frame flt tk [] t1 tk_plain) as Hf2.
  destruct (removeIfExists flt T t1) as [t2 r] eqn:Er. cbn [fst snd] in *. subst r.
  exists t1, t2. split_and!; [done|done| | |].
  - eapply beside_linked; [exact Hf2| |done]. intros k ->%list_elem_of_singleton. pose proof target_in. set_solver.
  - eapply removeIfExists_Ok; [..|exact Er]; auto using snoc_not_nil. apply calm_honest.
  - trans t1; (eapply frame_mono; [|eassumption]); pose proof target_in; pose proof tail_family; set_solver.
Qed.

Lemma rollback_restores d t :
  linked t tk → no_dirs t → content t safe_key = Some d →
  ∃ t', rollbackRestore flt dir_size now T (abs_path safe_key) t = (t', Ok tt) ∧ content t' tk = Some d.
Proof.
  intros Hl Hnd Hc. unfold rollbackRestore. rewrite bool_decide_eq_false_2 by apply abs_path_not_blank.
  pose proof Hc as [mt Hn]%content_node.
  unfold go_bind at 1, go_read, os_Stat, os_fault. rewrite Hcalm. cbn [res_bind].
  rewrite path_key_abs_path by auto.
  rewrite (proj2 (os_lookup_linked t safe_key (FileNode d mt))) by (split; [done|by eapply linked_beside]).
  destruct (calm_clear t Hl Hnd) as (t1 & t2 & E1 & E2 & Hl2 & Hn2 & Hf).
  unfold go_bind. rewrite E1, E2.
  eapply frame_content in Hc as [mt2 Hc2]%content_node; [|exact Hf|by apply safe_apart].
  apply (calm_copy (safety_name now dir w) w d mt2 t2); try done.
  - by apply safety_plain.
  - by apply safety_not_target.
  - by rewrite Hn2.
Qed.

(** With a file system that works, a swap that fails has not touched the
    database. *)
Lemma calm_swap_in t t' c mt d e :
  linked t temp_key → node_at t temp_key = Some (FileNode c mt) → content t tk = Some d →
  swap_in flt T (abs_path temp_key) t = (t', Err e) → content t' tk = Some d.
Proof.
  intros Hl Hn Hc Hx. unfold swap_in in Hx. unfold go_bind at 1 in Hx.
  pose proof (sidecars_frame_only [] t) as Hf1. pose proof (staged_apart now dir w) as Hta.
  assert (tk ≠ temp_key) as Hne by (intros E; apply Hta; rewrite <- E; apply target_in).
  eapply frame_content in Hc; [|exact Hf1|apply target_not_sidecar].
  destruct (removeSQLiteSidecars flt T t) as [t1 [[]|e1]]; cbn [fst] in Hf1, Hc; [|by injection Hx as <- _]. exfalso.
  assert (linked t1 tk) as Hl1.
  { eapply beside_linked; [exact Hf1| |by eapply linked_beside]. intros k Hk%tail_family. set_solver. }
  assert (∀ mt, node_at t1 tk ≠ Some (DirNode mt)) as Hnd1 by (intros m E; unfold content in Hc; by rewrite E in Hc).
  assert (node_at t1 temp_key = Some (FileNode c mt)) as Hn1.
  { rewrite (fr_keep _ _ _ _ Hf1); rewrite ?Hn; [done| |done]. by intros E%tail_family. }
  pose proof (calm_removeIfExists w t1 Hw Hl1 Hnd1) as Hok.
  pose proof (removeIfExists_frame flt tk [] t1 tk_plain) as Hf2. unfold go_bind in Hx.
  destruct (removeIfExists flt T t1) as [t2 r] eqn:Er. cbn [fst snd] in *. subst r.
  assert (linked t2 tk) as Hl2.
  { eapply beside_linked; [exact Hf2| |done]. intros k ->%list_elem_of_singleton. pose proof target_in. set_solver. }
  apply removeIfExists_Ok in Er; [|auto|apply snoc_not_nil|apply calm_honest|done].
  assert (node_at t2 temp_key = Some (FileNode c mt)) as Hn2.
  { rewrite (fr_keep _ _ _ _ Hf2); rewrite ?Hn1; [done|set_solver|done]. }
  rewrite (Rename_file flt temp_key tk t2 (FileNode c mt)) in Hx;
    [|auto|auto|apply snoc_not_nil|done| |done|done|by rewrite Er].
  - by rewrite Hcalm in Hx.
  - apply os_lookup_linked. split; [done|by eapply linked_beside].
Qed.

Lemma finalized_no_dirs t :
  (∀ k, k ∈ tail family → node_at t k = None) → (∀ mt, node_at t tk ≠ Some (DirNode mt)) →
  no_dirs (finalizeRestoredDatabase T t).1.
Proof.
  intros Hside Hnd k mt Hk Hdir'. pose proof (finalize_touches T t) as [_ Hd].
  rewrite db_files_family in Hd by done. destruct (Hd k mt Hk Hdir') as [mt' E].
  unfold RestoreFiles.family in Hk. apply elem_of_cons in Hk as [-> |Hk]; [by eapply Hnd|].
  rewrite Hside in E; [done|exact Hk].
Qed.

Lemma stage_and_swap_Err bk d t t' e :
  content t tk = Some d → content t safe_key = Some d → linked t tk →
  stage_and_swap flt dir_size now T bk (abs_path safe_key) t = (t', Err e) → content t' tk = Some d.
Proof.
  intros Hc Hsafe Hl. unfold stage_and_swap, go_defer. rewrite temp_path by done.
  pose proof (staged_apart now dir w) as Hta.
  assert (∀ t0, content t0 tk = Some d → content (os_Remove flt (abs_path temp_key) t0).1 tk = Some d) as Hrm.
  { intros t0. apply (frame_content [temp_key] []); [by apply Remove_frame|].
    intros E%list_elem_of_singleton. apply Hta. rewrite <- E. apply target_in. }
  unfold go_bind at 1, go_read at 1. destruct (os_Stat _ _ _ _); [|intros [= <- _]; by apply Hrm].
  pose proof (copy_beside_frame _ bk tmp_plain t
    : frame [temp_key] dir t (copyFile flt dir_size now bk (abs_path temp_key) t).1) as Hcf.
  assert (content (copyFile flt dir_size now bk (abs_path temp_key) t).1 tk = Some d) as Hc1.
  { eapply frame_content; [exact Hcf| |done].
    intros E%list_elem_of_singleton. apply Hta. rewrite <- E. apply target_in. }
  unfold go_bind at 1, go_map_err.
  destruct (copyFile flt dir_size now bk (abs_path temp_key) t) as [t1 [[]|e1]] eqn:Ec; cbn [fst map_err] in *;
    [|intros [= <- _]; by apply Hrm].
  apply copyFile_file in Ec as (c & mt & Hn); [|auto|apply snoc_not_nil].
  assert (linked t1 temp_key) as Hl1.
  { eapply (beside_linked [temp_key]); [exact Hcf|set_solver|by eapply linked_beside]. }
  eapply frame_content in Hsafe; [|exact Hcf|pose proof (safe_not_temp now dir w); set_solver].
  unfold go_bind at 1. pose proof (swap_in_frame t1 c mt Hn) as Hsf.
  destruct (swap_in flt T (abs_path temp_key) t1) as [t2 [[]|e2]] eqn:Es; cbn [fst] in Hsf.
  2:{ intros [= <- _]. apply Hrm. by eapply calm_swap_in. }
  apply (swap_in_Ok t1 t2 c mt) in Es as (Htk & Hside & Hl2); [|apply calm_honest|done|done].
  eapply frame_content in Hsafe; [|exact Hsf|].
  2:{ pose proof (safe_not_temp now dir w). pose proof (safe_apart now dir w Hw). set_solver. }
  unfold finalize_or_rollback, go_catch.
  pose proof (finalized_no_dirs t2 Hside ltac:(intros m; by rewrite Htk)) as Hnd.
  pose proof (finalize_frame [] t2) as Hff.
  destruct (finalizeRestoredDatabase T t2) as [t3 [v|ef]]; [done|]. cbn [fst] in *.
  assert (linked t3 tk) as Hl3 by (eapply beside_linked; [exact Hff|set_solver|done]).
  eapply frame_content in Hsafe; [|exact Hff|by apply safe_apart].
  destruct (rollback_restores d t3 Hl3 Hnd Hsafe) as (t4 & -> & Hc4).
  intros [= <- _]. by apply Hrm.
Qed.
End calm.

(** ** The whole call *)

Lemma lock_away k : k ∈ [lock_key] → ¬ k `prefix_of` tk.
Proof. intros ->%list_elem_of_singleton. apply sibling_away. intros E. symmetry in E. by apply longer_differs in E. Qed.

(** Around the lock, the call is [restore_locked]; without it, an error that
    leaves everything as it was. *)
Lemma restore_cases targetPath backupPath bk options t t' r :
  TrimSpace targetPath = T → TrimSpace backupPath = abs_path bk → Forall FsPath.plain bk →
  RestoreFromBackup flt dir_size now targetPath backupPath options t = (t', r) →
  (∃ e, r = Err e ∧ frame [lock_key] [] t t') ∨
  ∃ t1 t2, frame [lock_key] [] t t1 ∧ frame [lock_key] [] t2 t' ∧
    restore_locked flt dir_size now T (abs_path bk) options t1 = (t2, r).
Proof.
  intros HT HBk Hbk. unfold RestoreFromBackup. rewrite HT, HBk.
  unfold Abs. rewrite !IsAbs_abs_path, !Clean_abs_path by auto. unfold go_bind at 1 2, go_lift.
  rewrite !bool_decide_eq_false_2 by done. cbn [orb].
  destruct (samePath _ _); [intros [= <- <-]; left; eexists; split; [done|reflexivity]|].
  unfold go_bind, acquireResourceLock, go_lift, go_map_err. unfold Abs. rewrite IsAbs_abs_path, Clean_abs_path by auto.
  cbv beta iota zeta. unfold go_bind. rewrite abs_path_suffix. fold lock_key.
  pose proof (OpenCreate_frame flt now true false lock_key [] t lock_plain) as Hf.
  destruct (os_OpenCreate flt true false now (abs_path lock_key) t) as [t1 [c|e]]; cbn [fst map_err go_ret] in *.
  2:{ intros [= <- <-]. left. eauto. }
  unfold go_defer. destruct (restore_locked flt dir_size now T (abs_path bk) options t1) as [t2 r2] eqn:Er.
  intros [= <- <-]. right. exists t1, t2. split_and!; [done| |done].
  unfold Release. cbn [lock_path]. rewrite bool_decide_eq_false_2 by done. by apply removeIfExists_frame.
Qed.

Section theorems.
Context (targetPath backupPath : string) (bk : list string) (options : RestoreOptions).
Context (HT : TrimSpace targetPath = T) (HB : TrimSpace backupPath = abs_path bk) (Hbk : Forall FsPath.plain bk).

(** C27: Restoring a backup loses nothing.  When the database is there and a
    safety backup is asked for, then whatever fails in the file system or in
    SQLite, and whatever the call answers, the bytes of the old database are
    afterwards in its file or in the safety backup beside it.  Of SQLite it is
    used that it changes only the files of the database it works on. *)
Theorem restore_keeps_database d t t' r :
  (∀ k, k ∈ db_files (abs_path bk) → ¬ k `prefix_of` tk) →
  linked t tk → content t tk = Some d → flt "stat" T ≠ Some ENOENT → CreateSafetyBackup options = true →
  RestoreFromBackup flt dir_size now targetPath backupPath options t = (t', r) →
  content t' tk = Some d ∨ content t' safe_key = Some d.
Proof.
  intros HBf Hl Hc Hflt Ho Hr.
  apply (restore_cases _ _ bk) in Hr as [(e & _ & Hf)|(t1 & t2 & Hf1 & Hf2 & Hr)]; [| |done..].
  { left. eapply away_content; [exact Hf|apply lock_away|done]. }
  eapply away_linked in Hl; [|exact Hf1|apply lock_away]. eapply away_content in Hc; [|exact Hf1|apply lock_away].
  eapply restore_locked_keeps in Hr as [E|E]; [left|right|done..].
  - eapply away_content; [exact Hf2|apply lock_away|done].
  - eapply frame_content; [exact Hf2| |done]. intros Eq%list_elem_of_singleton. by apply (safe_not_lock now dir w).
Qed.

(** A restore that succeeds has installed the backup.  SQLite has checked
    the backup and found it sound; the database file then got exactly its
    bytes, with no log or journal of the old database left beside it; opening
    and checking it succeeded, with the schema version that is answered; and
    after that only the staged copy and the lock file change.  The condition
    on [os.Remove] is that it does not call a file missing that is there. *)
Theorem restore_installs_backup t t' res :
  bk ∉ safe_key :: temp_key :: family → honest_remove →
  RestoreFromBackup flt dir_size now targetPath backupPath options t = (t', Ok res) →
  ∃ ta tb t1 t2 c,
    validateSQLiteFile flt dir_size (abs_path bk) ta = (tb, Ok tt) ∧ content tb bk = Some c ∧
    content t1 bk = Some c ∧ content t1 tk = Some c ∧
    (∀ k, k ∈ tail family → node_at t1 k = None) ∧
    finalizeRestoredDatabase T t1 = (t2, Ok (rr_SchemaVersion res)) ∧
    frame [temp_key; lock_key] [] t2 t'.
Proof.
  intros Hapart Hh Hr.
  apply (restore_cases _ _ bk) in Hr as [(e & [=] & _)|(ta & t3 & _ & Hf3 & Hr)]; [|done..].
  unfold restore_locked in Hr. apply go_bind_Ok in Hr as (tb & [] & Hv & Hr). apply go_map_err_Ok in Hv.
  apply go_bind_Ok in Hr as (tc & s & Hs & Hr). apply go_bind_Ok in Hr as (t4 & v & Hst & [= <- <-]).
  pose proof (safety_backup_frame options tb) as Hsf. rewrite Hs in Hsf. cbn [fst] in Hsf.
  apply (stage_and_swap_Ok bk) in Hst as (t1 & t2 & c & C1 & C2 & C3 & Hside & Hf & Hfr); [|done|done|set_solver].
  exists ta, tb, t1, t2, c. split_and!; try done.
  - apply content_node in C1 as [mt C1]. destruct (node_at tb bk) as [n|] eqn:En.
    + rewrite (fr_keep _ _ _ _ Hsf) in C1; [|set_solver|by rewrite En]. apply content_node. eauto.
    + destruct (fr_new _ _ _ _ Hsf bk) as [_ [m Hm]]; [set_solver|done|by rewrite C1|congruence].
  - trans t4; (eapply frame_mono; [|eassumption]); set_solver.
Qed.

End theorems.
End restore.
End RestoreTheorems.

(** * Restores, run

    A small engine in place of SQLite - a database is a file that begins with
    an S, followed by the version of its schema - on which the theorems on
    restores apply, and three runs that show what a restore can still lose. *)

Module RestoreExamples.
Import Sqlite Restore RestoreFiles RestoreTheorems.

#[local] Existing Instance touches_preorder.
#[local] Existing Instance ascii_only_unicode.
#[local] Instance ex_cwd : WorkDir := Ok "/".
#[local] Instance ex_zone : LocalZone := 0.

(** ** The engine *)

Definition db_content (p : string) (t : OsState) : option bytes := content t (path_key p).

Definition byte_S : Byte.byte := Byte.x53.
Definition broken : Byte.byte := Byte.xff.

Definition small_version (p : string) (t : OsState) : result goerr Z :=
  match db_content p t with
  | Some (S' :: v :: _) => if bool_decide (S' = byte_S) then Ok (Z.of_N (Byte.to_N v)) else Err (ErrNew "file is not a database")
  | _ => Err (ErrNew "file is not a database")
  end.

(** A statement sets the version or leaves a log; on a broken schema all but
    the pragmas fail. *)
Definition small_exec (p query : string) : go OsState goerr unit := λ t,
  match db_content p t with
  | Some (S' :: v :: rest) =>
      if bool_decide (query = "PRAGMA journal_mode = WAL;") then
        match node_at t (path_key (p +:+ "-wal")) with
        | Some _ => (t, Ok tt)
        | None => (<[path_key (p +:+ "-wal") := FileNode [] 0]> t, Ok tt)
        end
      else if HasPrefix (TrimSpace query) "CREATE" && bool_decide (head rest = Some broken) then (t, Err (ErrNew "malformed database schema"))
      else if bool_decide (query = "PRAGMA user_version = 1;") then (<[path_key p := FileNode (S' :: Byte.x01 :: rest) 0]> t, Ok tt)
      else if bool_decide (query = "PRAGMA user_version = 2;") then (<[path_key p := FileNode (S' :: Byte.x02 :: rest) 0]> t, Ok tt)
      else (t, Ok tt)
  | _ => (t, Err (ErrNew "file is not a database"))
  end.

#[local] Instance small_engine : Engine := {|
  handle := string;
  handle_path d := d;
  sql_Open p := go_ret p;
  sql_Close _ := go_ret tt;
  sql_Ping _ := go_ret tt;
  sql_Exec := small_exec;
  sql_QueryString p _ := go_read (λ t, try _ := small_version p t in Ok "ok");
  sql_QueryInts p _ := go_read (λ t, try v := small_version p t in Ok [v]);
  sql_QueryNames p _ := go_ret [];
  sql_Begin p := go_ret p;
  sql_Commit _ := go_ret tt;
  sql_Rollback _ := go_ret tt;
|}.

Lemma insert_touches ks t k c : k ∈ ks → touches ks t (<[k := FileNode c 0]> t).
Proof.
  intros Hk. split; [eapply frame_mono; [|apply frame_insert]; set_solver|].
  intros q mt Hq. destruct (decide (q = k)) as [-> | Hne]; [by rewrite node_at_insert_eq|].
  rewrite node_at_insert_ne by done. eauto.
Qed.

#[local] Instance small_laws : EngineLaws.
Proof.
  split; try (intros; simpl; reflexivity); try by intros * [= <- <-].
  intros p query t _. simpl. unfold small_exec.
  assert (path_key p ∈ db_files p ∧ path_key (p +:+ "-wal") ∈ db_files p) as [H1 H2].
  { unfold db_files, sidecar_suffixes. cbn [map]. set_solver. }
  repeat case_match; simpl; first [reflexivity|by apply insert_touches].
Qed.

(** ** A server's directory *)

Definition srv (name : string) : list string := ["srv"; name].
Definition ex_tree : OsState := list_to_map
  [(["srv"], DirNode 0);
   (srv "roodox.db", FileNode [byte_S; Byte.x02; Byte.x41] 1);
   (srv "roodox.db-wal", FileNode [Byte.x42] 2);
   (srv "good.db", FileNode [byte_S; Byte.x01; Byte.x43] 3);
   (srv "broken.db", FileNode [byte_S; Byte.x00; broken] 4)].

Definition ex_now : Z := 1700000000 * second_ns.
Definition with_safety : RestoreOptions := {| CreateSafetyBackup := true |}.
Definition ex_restore (flt : Faults) (backup : string) : OsState * result goerr RestoreResult :=
  RestoreFromBackup flt 0 ex_now " /srv/roodox.db" ("/srv/" +:+ backup) with_safety ex_tree.

Definition ex_safe : list string := srv "roodox-pre-restore-20231114-221320.db".
Lemma ex_safe_key : safe_key ex_now ["srv"] "roodox.db" = ex_safe.
Proof. vm_compute. reflexivity. Qed.

Definition files (t : OsState) : list (option bytes) :=
  map (content t) [srv "roodox.db"; srv "roodox.db-wal"; ex_safe; srv "roodox.db.lock"].

Example ex_restored :
  (files (ex_restore no_faults "good.db").1, rr_SchemaVersion <$> (match (ex_restore no_faults "good.db").2 with Ok r => Some r | Err _ => None end)) =
  ([Some [byte_S; Byte.x02; Byte.x43]; Some []; Some [byte_S; Byte.x02; Byte.x41]; None], Some 2).
Proof. vm_compute. reflexivity. Qed.

(** A backup that cannot be migrated is undone - but the log of the old
    database, which was not part of the safety backup, is gone, and with it
    what only the log held. *)
Example rolled_back_without_log :
  (files ex_tree, files (ex_restore no_faults "broken.db").1, is_ok (ex_restore no_faults "broken.db").2) =
  ([Some [byte_S; Byte.x02; Byte.x41]; Some [Byte.x42]; None; None],
   [Some [byte_S; Byte.x02; Byte.x41]; None; Some [byte_S; Byte.x02; Byte.x41]; None], false).
Proof. vm_compute. reflexivity. Qed.

(** When the rename fails, the database has been removed already and nobody
    puts it back: the safety backup is not used, and not named in the answer. *)
Definition no_rename : Faults := λ op _, if bool_decide (op = "rename") then Some EACCES else None.
Example failed_rename_leaves_no_database :
  (files (ex_restore no_rename "good.db").1, is_ok (ex_restore no_rename "good.db").2) =
  ([None; None; Some [byte_S; Byte.x02; Byte.x41]; None], false).
Proof. vm_compute. reflexivity. Qed.

(** ** The theorems at these inputs *)

Lemma ex_linked : linked ex_tree (srv "roodox.db").
Proof.
  apply (linked_parent ex_tree (srv "roodox.db")); [discriminate|]. exists 0. vm_compute. reflexivity.
Qed.

Lemma ex_backup_apart name : Forall FsPath.plain (srv name) → no_char slash name = true →
  name ≠ "" → Forall (λ s, name +:+ s ≠ "roodox.db") ("" :: sidecar_suffixes) →
  ∀ k, k ∈ db_files (abs_path (srv name)) → ¬ k `prefix_of` (srv "roodox.db").
Proof.
  intros Hp Hs Hne Hd k. change (srv name) with (["srv"] ++ [name]) in *.
  apply Forall_app in Hp as [Hd0 Hn]. apply Forall_cons in Hn as [Hn _].
  rewrite db_files_family by done. unfold family, sidecar_suffixes in *.
  repeat (apply Forall_cons in Hd as [? Hd]). rewrite append_nil_r in *.
  intros Hk [l E]. repeat (apply elem_of_cons in Hk as [-> |Hk]; [by injection E|]). by apply elem_of_nil in Hk.
Qed.

#[local] Ltac decided := apply (bool_decide_unpack _); vm_compute; exact I.
Lemma ex_dir_plain : Forall FsPath.plain ["srv"].
Proof. decided. Qed.
Lemma ex_db_plain : FsPath.plain "roodox.db".
Proof. decided. Qed.
Lemma ex_good_plain : Forall FsPath.plain (srv "good.db").
Proof. decided. Qed.
Lemma ex_broken_plain : Forall FsPath.plain (srv "broken.db").
Proof. decided. Qed.

Lemma restore_keeps_database_witness :
  content (ex_restore no_rename "good.db").1 (srv "roodox.db") = Some [byte_S; Byte.x02; Byte.x41] ∨
  content (ex_restore no_rename "good.db").1 ex_safe = Some [byte_S; Byte.x02; Byte.x41].
Proof.
  rewrite <- ex_safe_key.
  apply (restore_keeps_database no_rename 0 ex_now ["srv"] "roodox.db" ex_dir_plain ex_db_plain
    " /srv/roodox.db" "/srv/good.db" (srv "good.db") with_safety eq_refl eq_refl ex_good_plain
    [byte_S; Byte.x02; Byte.x41] ex_tree
    (ex_restore no_rename "good.db").1 (ex_restore no_rename "good.db").2).
  - apply ex_backup_apart; [apply ex_good_plain|done|done|repeat constructor; discriminate].
  - apply ex_linked.
  - reflexivity.
  - discriminate.
  - reflexivity.
  - apply surjective_pairing.
Defined.

Lemma restore_installs_backup_witness :
  ∃ ta tb t1 t2 c res, (ex_restore no_faults "good.db").2 = Ok res ∧
      validateSQLiteFile no_faults 0 "/srv/good.db" ta = (tb, Ok tt) ∧ content tb (srv "good.db") = Some c ∧
      content t1 (srv "good.db") = Some c ∧ content t1 (srv "roodox.db") = Some c ∧
      (∀ k, k ∈ tail (family ["srv"] "roodox.db") → node_at t1 k = None) ∧
      finalizeRestoredDatabase "/srv/roodox.db" t1 = (t2, Ok (rr_SchemaVersion res)) ∧
      frame [temp_key ex_now ["srv"] "roodox.db"; lock_key ["srv"] "roodox.db"] [] t2
        (ex_restore no_faults "good.db").1.
Proof.
  destruct (ex_restore no_faults "good.db").2 as [res|] eqn:E; [|vm_compute in E; discriminate].
  pose proof (restore_installs_backup no_faults 0 ex_now ["srv"] "roodox.db" ex_dir_plain ex_db_plain
    " /srv/roodox.db" "/srv/good.db" (srv "good.db") with_safety eq_refl eq_refl ex_good_plain
    ex_tree (ex_restore no_faults "good.db").1 res) as Hw.
  destruct Hw as (ta & tb & t1 & t2 & c & Hw).
  - apply (bool_decide_unpack _). vm_compute. exact I.
  - discriminate.
  - rewrite <- E. apply surjective_pairing.
  - exists ta, tb, t1, t2, c, res. split; [reflexivity|exact Hw].
Defined.

End RestoreExamples.
