(* ===== verification/Json.v ===== *)
(** * JSON text

    What encoding/json does with any JSON value: which texts are values
    ([json.Valid]), how a value is written without space ([json.Compact]) and
    with it ([json.Indent]), and how the members of an object are decoded into
    fields.  Literals are kept as they are written. *)

From stdpp Require Import pretty.
From S2P Require Import Prelude GoStrings JsonStrings StrConv.
From Stdlib Require Import Ascii.
Open Scope string_scope.
Open Scope Z_scope.
Open Scope list_scope.

Module Json.

(** ** Values *)

(** A number, a string with its quotes or a keyword is its text, and so is the
    key of a member. *)
Inductive json :=
| JLit (text : string)
| JArr (items : list json)
| JObj (members : list (string * json)).

Lemma json_rec' (P : json → Prop) :
  (∀ text, P (JLit text)) → (∀ l, Forall P l → P (JArr l)) →
  (∀ l, Forall (λ m : string * json, P m.2) l → P (JObj l)) → ∀ v, P v.
Proof.
  intros Hl Ha Ho. fix IH 1. intros [text|l|l]; [apply Hl|apply Ha|apply Ho].
  - induction l as [|v l IHl]; constructor; [apply IH|apply IHl].
  - induction l as [|[k v] l IHl]; constructor; [apply IH|apply IHl].
Qed.

(** ** Literals *)

Definition is_char (n : N) (a : ascii) : bool := N.eqb (byte_val a) n.
Definition is_hex (a : ascii) : bool := bool_decide (is_Some (hex_value a)).

(** The rest of a string literal after a quote, with the closing one, and what
    follows it. *)
Fixpoint string_rest (s : string) : option (string * string) :=
  match s with
  | EmptyString => None
  | String a s1 =>
      if Ascii.eqb a dquote then Some (String a "", s1)
      else if Ascii.eqb a backslash then
        match s1 with
        | EmptyString => None
        | String u s2 =>
            if is_char 117 u then
              match s2 with
              | String h1 (String h2 (String h3 (String h4 s6))) =>
                  if is_hex h1 && is_hex h2 && is_hex h3 && is_hex h4 then
                    push (String a (String u (String h1 (String h2 (String h3 (String h4 "")))))) (string_rest s6)
                  else None
              | _ => None
              end
            else
              match simple_escape u with
              | Some _ => push (String a (String u "")) (string_rest s2)
              | None => None
              end
        end
      else if N.ltb (byte_val a) 32 then None
      else push (String a "") (string_rest s1)
  end.

Fixpoint digit_span (s : string) : string * string :=
  match s with
  | String a s1 => if is_digit a then let '(d, r) := digit_span s1 in (String a d, r) else ("", s)
  | EmptyString => ("", "")
  end.

Definition sign_part (plus : bool) (s : string) : string * string :=
  match s with
  | String a s1 => if is_char 45 a || (plus && is_char 43 a) then (String a "", s1) else ("", s)
  | EmptyString => ("", "")
  end.
Definition int_part (s : string) : option (string * string) :=
  match s with
  | String a s1 =>
      if is_char 48 a then Some (String a "", s1)
      else if is_digit a then Some (digit_span s) else None
  | EmptyString => None
  end.
Definition frac_part (s : string) : option (string * string) :=
  match s with
  | String a s1 =>
      if is_char 46 a then
        let '(d, r) := digit_span s1 in if bool_decide (d = "") then None else Some (String a d, r)
      else Some ("", s)
  | EmptyString => Some ("", s)
  end.
Definition exp_part (s : string) : option (string * string) :=
  match s with
  | String a s1 =>
      if is_char 101 a || is_char 69 a then
        let '(sg, s2) := sign_part true s1 in
        let '(d, r) := digit_span s2 in
        if bool_decide (d = "") then None else Some (String a (sg +:+ d), r)
      else Some ("", s)
  | EmptyString => Some ("", s)
  end.
Definition number (s : string) : option (string * string) :=
  let '(sg, s1) := sign_part false s in
  '(i, s2) ← int_part s1;
  '(f, s3) ← frac_part s2;
  '(e, s4) ← exp_part s3;
  Some (sg +:+ i +:+ f +:+ e, s4).

Definition keyword (s : string) : option (string * string) :=
  if HasPrefix s "true" then Some ("true", sdrop 4 s)
  else if HasPrefix s "false" then Some ("false", sdrop 5 s)
  else if HasPrefix s "null" then Some ("null", sdrop 4 s)
  else None.

Definition literal (s : string) : option (string * string) :=
  match s with
  | String a s1 =>
      if Ascii.eqb a dquote then push (String a "") (string_rest s1)
      else if is_char 45 a || is_digit a then number s
      else keyword s
  | EmptyString => None
  end.

(** ** The parser *)

(** [maxNestingDepth] *)
Definition max_depth : Z := 10000.

(** The part of [s] before its rest [r]. *)
Definition consumed (s r : string) : string := String.substring 0 (String.length s - String.length r) s.

(** The items of an array, and the members of an object with the texts of
    their values, after the bracket.
    [fuel] is for the length of the text, [depth] for the brackets that may
    still be opened. *)
Fixpoint value (fuel : nat) (depth : Z) (s : string) : option (json * string) :=
  match fuel with
  | O => None
  | S fuel =>
      match s with
      | String a s1 =>
          if is_char 91 a || is_char 123 a then
            if depth <=? 0 then None
            else match skip_space s1 with
                 | String b s2 =>
                     if is_char 91 a then
                       if is_char 93 b then Some (JArr [], s2)
                       else '(vs, r) ← items fuel (depth - 1) s1; Some (JArr vs, r)
                     else
                       if is_char 125 b then Some (JObj [], s2)
                       else '(ms, r) ← members fuel (depth - 1) s1; Some (JObj (map fst ms), r)
                 | EmptyString => None
                 end
          else '(t, r) ← literal s; Some (JLit t, r)
      | EmptyString => None
      end
  end
with items (fuel : nat) (depth : Z) (s : string) : option (list json * string) :=
  match fuel with
  | O => None
  | S fuel =>
      '(v, s1) ← value fuel depth (skip_space s);
      match skip_space s1 with
      | String a s2 =>
          if is_char 44 a then '(vs, r) ← items fuel depth s2; Some (v :: vs, r)
          else if is_char 93 a then Some ([v], s2) else None
      | EmptyString => None
      end
  end
with members (fuel : nat) (depth : Z) (s : string) : option (list (string * json * string) * string) :=
  match fuel with
  | O => None
  | S fuel =>
      match skip_space s with
      | String q s1 =>
          if negb (Ascii.eqb q dquote) then None else
          '(key, s2) ← push (String q "") (string_rest s1);
          match skip_space s2 with
          | String c s3 =>
              if negb (is_char 58 c) then None else
              let s3 := skip_space s3 in
              '(v, s4) ← value fuel depth s3;
              let m := (key, v, consumed s3 s4) in
              match skip_space s4 with
              | String a s5 =>
                  if is_char 44 a then '(ms, r) ← members fuel depth s5; Some (m :: ms, r)
                  else if is_char 125 a then Some ([m], s5) else None
              | EmptyString => None
              end
          | EmptyString => None
          end
      | EmptyString => None
      end
  end.

(** The value of a whole text, and the text of the value alone. *)
Definition top (s : string) : option (json * string) :=
  let s := skip_space s in
  '(v, r) ← value (S (String.length s)) max_depth s;
  if bool_decide (skip_space r = "") then Some (v, consumed s r) else None.
Definition parse (s : string) : option json := fst <$> top s.

(** json.Valid *)
Definition Valid (s : string) : bool := bool_decide (is_Some (parse s)).

(** ** Writing values *)

Definition html_char (a : ascii) : bool := is_char 60 a || is_char 62 a || is_char 38 a.
Definition u_escape (a : ascii) : string :=
  String backslash (String "u" (String "0" (String "0"
    (String (hex_char (byte_val a / 16)) (String (hex_char (byte_val a mod 16)) ""))))).

(** What [appendCompact] does to the bytes of a literal. *)
Fixpoint html_escape (s : string) : string :=
  match s with
  | EmptyString => ""
  | String a s1 =>
      if html_char a then u_escape a +:+ html_escape s1
      else
        match s1 with
        | String b (String c s3) =>
            if line_separator a b c
            then String backslash ("u202" +:+ String (hex_char (byte_val c mod 16)) (html_escape s3))
            else String a (html_escape s1)
        | _ => String a (html_escape s1)
        end
  end.

Fixpoint escape_html (v : json) : json :=
  match v with
  | JLit t => JLit (html_escape t)
  | JArr l => JArr (map escape_html l)
  | JObj l => JObj (map (λ m, (html_escape m.1, escape_html m.2)) l)
  end.

Section render.
Context (indent : bool).

Definition margin (d : nat) : string :=
  if indent then String (ch 10) (String.concat "" (replicate d "  ")) else "".
Definition colon : string := if indent then ": " else ":".

(** The text of a value in [d] brackets, in the style of [json.Compact] or of
    [json.Indent] with two spaces. *)
Fixpoint render (d : nat) (v : json) : string :=
  match v with
  | JLit t => t
  | JArr [] => "[]"
  | JArr l =>
      "[" +:+ margin (S d) +:+ Join ("," +:+ margin (S d)) (map (render (S d)) l) +:+ margin d +:+ "]"
  | JObj [] => "{}"
  | JObj l =>
      "{" +:+ margin (S d) +:+
      Join ("," +:+ margin (S d)) (map (λ m, m.1 +:+ colon +:+ render (S d) m.2) l) +:+ margin d +:+ "}"
  end.
End render.

(** json.Compact, with the escapes that json.Marshal makes, and json.Indent. *)
Definition Compact (s : string) : option string := render false 0 ∘ escape_html <$> parse s.
Definition Indent (s : string) : option string := render true 0 <$> parse s.

(** json.MarshalIndent(v, "", "  ") of a value whose members encode as [v]. *)
Definition MarshalIndent (v : json) : option string := Indent (render false 0 v).

Definition JString (s : string) : json := JLit (json_string s).
Definition JUint (n : Z) : json := JLit (pretty n).
Definition JBool (b : bool) : json := JLit (if b then "true" else "false").

(** ** Decoding *)

(** The members of the text of a value that is an object. *)
Definition object_members (s : string) : option (list (string * string)) :=
  match skip_space s with
  | String a s1 =>
      if negb (is_char 123 a) then None
      else match skip_space s1 with
           | String b _ =>
               if is_char 125 b then Some []
               else '(ms, _) ← members (S (String.length s)) (max_depth - 1) s1; Some (map (λ m, (m.1.1, m.2)) ms)
           | EmptyString => None
           end
  | EmptyString => None
  end.

Section decode.
Context `{GoUnicode}.

(** The field that a key is for, exactly or up to case. *)
Definition key_matches (key name : string) : bool :=
  match unquote (sdrop 1 key) with
  | Some (k, _) => EqualFold k name
  | None => false
  end.

(** The value of the field [name] after all members, from [zero] on; [None] is
    an error of types, after which no caller looks at the value. *)
Definition field {A} (dec : string → A → option A) (name : string) (ms : list (string * string)) (zero : A) : option A :=
  foldl (λ acc m, a ← acc; if key_matches m.1 name then dec m.2 a else Some a) (Some zero) ms.

Definition dec_string (raw old : string) : option string :=
  match raw with
  | String a s => if Ascii.eqb a dquote then fst <$> unquote s else if bool_decide (raw = "null") then Some old else None
  | EmptyString => None
  end.
Definition dec_uint32 (raw : string) (old : Z) : option Z :=
  if bool_decide (raw = "null") then Some old else ParseUint 32 raw.
Definition dec_bool (raw : string) (old : bool) : option bool :=
  if bool_decide (raw = "null") then Some old
  else if bool_decide (raw = "true") then Some true
  else if bool_decide (raw = "false") then Some false else None.
(** json.RawMessage *)
Definition dec_raw (raw old : string) : option string := Some raw.
Definition dec_struct {A} (fields : list (string * string) → A → option A) (raw : string) (old : A) : option A :=
  if bool_decide (raw = "null") then Some old
  else ms ← object_members raw; fields ms old.

(** json.Unmarshal of a text into a struct. *)
Definition Unmarshal {A} (fields : list (string * string) → A → option A) (s : string) (zero : A) : option A :=
  '(_, raw) ← top s; dec_struct fields raw zero.
End decode.
End Json.
