(* ===== verification/JsonTheorems.v ===== *)
(** * Reading JSON back

    Every value that is read is well formed, and a well-formed value that is
    rendered, with space or without, is read back as it was.  The escapes that
    json.Marshal makes for HTML change nothing when they are made twice. *)

From stdpp Require Import pretty.
From S2P Require Import Prelude GoStrings JsonStrings StrConv Json.
From Stdlib Require Import Ascii.
Open Scope string_scope.
Open Scope Z_scope.
Open Scope list_scope.

Module JsonTheorems.
Import Json.

(** ** Literals that are read back *)

Lemma push_Some p o t r : push p o = Some (t, r) → ∃ t', o = Some (t', r) ∧ t = p +:+ t'.
Proof. destruct o as [[t' r']|]; [|done]. intros [= <- <-]. eauto. Qed.

Lemma string_rest_app s t r :
  string_rest s = Some (t, r) → s = t +:+ r ∧ ∀ r', string_rest (t +:+ r') = Some (t, r').
Proof.
  remember (String.length s) as n eqn:Hn. revert s t r Hn.
  induction (lt_wf n) as [n _ IH]. intros s t r -> Hs.
  assert (∀ s1 p t r, (String.length s1 < String.length s)%nat → push p (string_rest s1) = Some (t, r) →
    ∃ t', t = p +:+ t' ∧ s1 = t' +:+ r ∧ ∀ r', string_rest (t' +:+ r') = Some (t', r')) as Hgo.
  { intros s1 p t0 r0 Hlt (t' & Ht' & ->)%push_Some. destruct (IH _ Hlt _ _ _ eq_refl Ht') as [E1 E2]. eauto. }
  clear IH. destruct s as [|a s1]; [done|]. cbn [string_rest String.length] in *.
  destruct (Ascii.eqb a dquote) eqn:Eq.
  { injection Hs as <- <-. split; [done|]. intros r'. cbn [string_rest String.append]. by rewrite Eq. }
  destruct (Ascii.eqb a backslash) eqn:Eb.
  - destruct s1 as [|u s2]; [done|]. cbn [String.length] in Hgo. destruct (is_char 117 u) eqn:Eu.
    + destruct s2 as [|h1 [|h2 [|h3 [|h4 s6]]]]; try done. cbn [String.length] in Hgo.
      destruct (is_hex h1 && is_hex h2 && is_hex h3 && is_hex h4) eqn:Eh; [|done].
      apply Hgo in Hs as (t' & -> & -> & Hr); [|lia]. split; [done|]. intros r'.
      cbn [string_rest String.append]. by rewrite Eq, Eb, Eu, Eh, Hr.
    + destruct (simple_escape u) eqn:Es; [|done]. apply Hgo in Hs as (t' & -> & -> & Hr); [|lia].
      split; [done|]. intros r'. cbn [string_rest String.append]. by rewrite Eq, Eb, Eu, Es, Hr.
  - destruct (N.ltb (byte_val a) 32) eqn:Ec; [done|]. apply Hgo in Hs as (t' & -> & -> & Hr); [|lia].
    split; [done|]. intros r'. cbn [string_rest String.append]. by rewrite Eq, Eb, Ec, Hr.
Qed.

(** *** The escapes for HTML *)

Lemma html_escape_cons a s :
  html_char a = false → (∀ b c s3, s = String b (String c s3) → line_separator a b c = false) →
  html_escape (String a s) = String a (html_escape s).
Proof.
  intros Ha Hl. cbn [html_escape]. rewrite Ha. destruct s as [|b [|c s3]]; [done..|]. by rewrite (Hl _ _ _ eq_refl).
Qed.

(** A byte that the escapes leave alone whatever follows it. *)
Definition neutral (a : ascii) : bool := ascii7 a && negb (html_char a).

Lemma neutral_escape a s : neutral a = true → html_escape (String a s) = String a (html_escape s).
Proof.
  intros [Ha Hh]%andb_true_iff. apply html_escape_cons; [by apply negb_true_iff|].
  intros b c s3 _. unfold line_separator. destruct (N.eqb_spec (byte_val a) 226) as [E|E]; [|done].
  unfold ascii7 in Ha. rewrite E in Ha. done.
Qed.

Lemma hex_neutral a : is_hex a = true → neutral a = true.
Proof. destruct a as [[] [] [] [] [] [] [] []]; vm_compute; congruence. Qed.
Lemma escape_neutral a : is_Some (simple_escape a) → neutral a = true.
Proof. destruct a as [[] [] [] [] [] [] [] []]; vm_compute; try done; intros [? [=]]. Qed.

Lemma string_rest_html a s :
  html_char a = true → string_rest (u_escape a +:+ s) = push (u_escape a) (string_rest s).
Proof.
  destruct a as [[] [] [] [] [] [] [] []]; intros H; try discriminate H; reflexivity.
Qed.

Lemma string_rest_separator c s :
  byte_in 168 169 c = true →
  let t := String backslash ("u202" +:+ String (hex_char (byte_val c mod 16)) "") in
  string_rest (t +:+ s) = push t (string_rest s).
Proof.
  destruct c as [[] [] [] [] [] [] [] []]; intros H; try discriminate H; reflexivity.
Qed.

Lemma string_rest_high a s : byte_in 128 255 a = true → string_rest (String a s) = push (String a "") (string_rest s).
Proof. destruct a as [[] [] [] [] [] [] [] []]; intros H; try discriminate H; reflexivity. Qed.

Lemma separator_high a b c :
  line_separator a b c = true → byte_in 128 255 b = true ∧ byte_in 128 255 c = true ∧ byte_in 168 169 c = true.
Proof.
  unfold line_separator. intros [[_ Hb%N.eqb_eq]%andb_true_iff Hc]%andb_true_iff.
  unfold byte_in in *. rewrite Hb. apply andb_true_iff in Hc as [H1%N.leb_le H2%N.leb_le].
  rewrite !andb_true_iff, !N.leb_le. split_and!; try lia; by vm_compute.
Qed.

Lemma string_rest_escape s t r :
  string_rest s = Some (t, r) → ∀ r', string_rest (html_escape t +:+ r') = Some (html_escape t, r').
Proof.
  remember (String.length t) as n eqn:Hn. revert s t r Hn.
  induction (lt_wf n) as [n _ IH]. intros s t r -> Hs r'.
  assert (∀ s1 p t' r, string_rest s1 = Some (t', r) → (String.length t' < String.length t)%nat →
    push p (string_rest (html_escape t' +:+ r')) = Some (p +:+ html_escape t', r')) as Hgo.
  { intros s1 p t' r0 Hs1 Hlt. by rewrite (IH _ Hlt _ _ _ eq_refl Hs1). }
  clear IH. destruct s as [|a s1]; [done|]. cbn [string_rest] in Hs.
  destruct (Ascii.eqb a dquote) eqn:Eq.
  { injection Hs as <- <-. apply Ascii.eqb_eq in Eq as ->. done. }
  destruct (Ascii.eqb a backslash) eqn:Eb.
  - apply Ascii.eqb_eq in Eb as ->. destruct s1 as [|u s2]; [done|]. destruct (is_char 117 u) eqn:Eu.
    + destruct s2 as [|h1 [|h2 [|h3 [|h4 s6]]]]; try done.
      destruct (is_hex h1 && is_hex h2 && is_hex h3 && is_hex h4) eqn:Eh; [|done].
      apply push_Some in Hs as (t' & Ht' & ->).
      assert (neutral u = true) as Hu.
      { apply N.eqb_eq in Eu. rewrite <- (ascii_N_embedding u). unfold byte_val in Eu. by rewrite Eu. }
      pose proof Eh as [[[H1 H2]%andb_true_iff H3]%andb_true_iff H4]%andb_true_iff.
      cbn [String.append] in *. rewrite !neutral_escape by (done || by apply hex_neutral).
      cbn [string_rest String.append]. change (Ascii.eqb backslash dquote) with false. change (Ascii.eqb backslash backslash) with true. cbn iota. rewrite Eu, Eh. apply (Hgo _ (String backslash (String u (String h1 (String h2 (String h3 (String h4 ""))))))
        _ _ Ht'). cbn. lia.
    + destruct (simple_escape u) eqn:Es; [|done]. apply push_Some in Hs as (t' & Ht' & ->).
      cbn [String.append] in *. rewrite !neutral_escape by (done || by apply escape_neutral; eauto).
      cbn [string_rest String.append]. change (Ascii.eqb backslash dquote) with false. change (Ascii.eqb backslash backslash) with true. cbn iota. rewrite Eu, Es. apply (Hgo _ (String backslash (String u "")) _ _ Ht'). cbn. lia.
  - destruct (N.ltb (byte_val a) 32) eqn:Ec; [done|]. apply push_Some in Hs as (t1 & Ht1 & ->).
    cbn [String.append] in *. destruct (html_char a) eqn:Eh.
    { cbn [html_escape]. rewrite Eh, <- append_assoc, string_rest_html by done. apply (Hgo _ _ _ _ Ht1). cbn. lia. }
    destruct (string_rest_app _ _ _ Ht1) as [-> Happ].
    destruct (match t1 with String b (String c _) => line_separator a b c | _ => false end) eqn:El.
    + destruct t1 as [|b [|c t3]]; try done. cbn [html_escape]. rewrite Eh, El.
      destruct (separator_high _ _ _ El) as (Hb & Hc & Hc').
      pose proof (Happ r) as H3. cbn [String.append] in H3.
      rewrite string_rest_high in H3 by done. apply push_Some in H3 as (t' & H3 & [= <-]).
      rewrite string_rest_high in H3 by done. apply push_Some in H3 as (t'' & H3 & [= <-]).
      pose proof (string_rest_separator c (html_escape t3 +:+ r') Hc') as E. cbn zeta in E.
      refine (eq_trans E _).
      apply (Hgo _ (String backslash ("u202" +:+ String (hex_char (byte_val c mod 16)) "")) _ _ H3). cbn. lia.
    + rewrite html_escape_cons; [|done|by intros b c t3 ->].
      cbn [string_rest String.append]. rewrite Eq, Eb, Ec. apply (Hgo _ (String a "") _ _ Ht1). cbn. lia.
Qed.

(** *** Numbers *)

(** What can follow a number does not belong to it. *)
Definition number_char (a : ascii) : bool :=
  is_digit a || is_char 43 a || is_char 45 a || is_char 46 a || is_char 69 a || is_char 101 a.
Definition stops (s : string) : Prop := match s with String a _ => number_char a = false | EmptyString => True end.
Fixpoint all_number (s : string) : bool :=
  match s with String a s1 => number_char a && all_number s1 | EmptyString => true end.

(** [part] reads a text of number characters, the same whatever follows that
    satisfies [ok]. *)
Definition reads (part : string → option (string * string)) (ok : string → Prop) : Prop := ∀ s t r,
  part s = Some (t, r) → s = t +:+ r ∧ all_number t = true ∧ ∀ r', ok r' → part (t +:+ r') = Some (t, r').

Definition no_digit (s : string) : Prop := match s with String a _ => is_digit a = false | EmptyString => True end.
Definition no_frac (s : string) : Prop :=
  match s with String a _ => is_digit a = false ∧ is_char 46 a = false | EmptyString => True end.

Lemma stops_no_frac s : stops s → no_frac s.
Proof.
  destruct s as [|a s]; [done|]. cbn. unfold number_char.
  intros [[[[[? _]%orb_false_iff _]%orb_false_iff ?]%orb_false_iff _]%orb_false_iff _]%orb_false_iff. done.
Qed.
Lemma no_frac_no_digit s : no_frac s → no_digit s.
Proof. destruct s; [done|]. by intros [? _]. Qed.

Lemma all_number_app s t : all_number (s +:+ t) = all_number s && all_number t.
Proof. induction s as [|a s IH]; [done|]. cbn. by rewrite IH, andb_assoc. Qed.

Lemma digit_span_reads s d r :
  digit_span s = (d, r) → s = d +:+ r ∧ all_number d = true ∧ no_digit r ∧
    ∀ r', no_digit r' → digit_span (d +:+ r') = (d, r').
Proof.
  revert d r. induction s as [|a s IH]; intros d r; cbn [digit_span].
  { intros [= <- <-]. split_and!; try done. intros [|b r'] Hr; [done|]. cbn in *. by rewrite Hr. }
  destruct (is_digit a) eqn:Ea.
  - destruct (digit_span s) as [d' r0]. intros [= <- <-]. destruct (IH _ _ eq_refl) as (-> & Hd & Hr & Hgo).
    split_and!; [done| |done|].
    + cbn [all_number]. unfold number_char. by rewrite Ea, Hd.
    + intros r' Hr'. cbn [String.append digit_span]. by rewrite Ea, Hgo.
  - intros [= <- <-]. split_and!; try done. intros [|b r'] Hr'; [done|]. cbn in *. by rewrite Hr'.
Qed.

Lemma sign_part_reads plus s t r :
  sign_part plus s = (t, r) → s = t +:+ r ∧ all_number t = true ∧
    (t = "" → match r with String a _ => is_char 45 a || (plus && is_char 43 a) = false | "" => True end) ∧
    (t ≠ "" → ∀ r', sign_part plus (t +:+ r') = (t, r')).
Proof.
  destruct s as [|a s]; cbn [sign_part]; [intros [= <- <-]; done|].
  destruct (is_char 45 a || (plus && is_char 43 a)) eqn:E; intros [= <- <-].
  - split_and!; [done| |done|].
    + cbn [all_number]. unfold number_char.
      apply orb_true_iff in E as [->|[_ ->]%andb_true_iff]; by rewrite ?orb_true_r, ?orb_true_l.
    + intros _ r'. cbn [String.append sign_part]. by rewrite E.
  - done.
Qed.

Lemma int_part_reads : reads int_part no_digit.
Proof.
  intros [|a s] t r; [done|]. cbn [int_part]. destruct (is_char 48 a) eqn:E0.
  - intros [= <- <-]. split_and!; [done| |].
    + cbn [all_number]. unfold number_char. apply N.eqb_eq in E0. unfold is_digit, byte_in. by rewrite E0.
    + intros r' _. cbn. by rewrite E0.
  - destruct (is_digit a) eqn:Ea; [|done]. cbn [digit_span]. rewrite Ea.
    destruct (digit_span s) as [d r0] eqn:Hs. intros [= <- <-].
    destruct (digit_span_reads _ _ _ Hs) as (-> & Ht & _ & Hgo). split_and!; [done| |].
    + cbn [all_number]. unfold number_char. by rewrite Ea, Ht.
    + intros r' Hr'. cbn [String.append int_part digit_span]. by rewrite E0, Ea, (Hgo r' Hr').
Qed.

Lemma frac_part_reads : reads frac_part no_frac.
Proof.
  intros s t r. assert (∀ r', no_frac r' → frac_part r' = Some ("", r')) as Hempty.
  { intros [|a r']; [done|]. cbn [no_frac frac_part]. by intros [_ ->]. }
  destruct s as [|a s]; cbn [frac_part]; [intros [= <- <-]; split_and!; auto|].
  destruct (is_char 46 a) eqn:Ea; [|intros [= <- <-]; split_and!; auto].
  destruct (digit_span s) as [d r0] eqn:Hd. destruct (bool_decide (d = "")) eqn:Ed; [done|].
  intros [= <- <-]. destruct (digit_span_reads _ _ _ Hd) as (-> & Hn & _ & Hgo). split_and!; [done| |].
  - cbn [all_number]. unfold number_char. by rewrite Ea, Hn, !orb_true_r.
  - intros r' Hr'. cbn [String.append frac_part]. by rewrite Ea, Hgo, Ed by by apply no_frac_no_digit.
Qed.

(** An exponent starts with its letter. *)
Definition exp_start (e : string) : Prop := match e with String a _ => is_char 101 a || is_char 69 a = true | "" => True end.

Lemma exp_part_reads : reads exp_part stops.
Proof.
  intros s t r. assert (∀ r', stops r' → exp_part r' = Some ("", r')) as Hempty.
  { intros [|a r']; [done|]. cbn [stops exp_part]. unfold number_char.
    intros [[_ ->]%orb_false_iff ->]%orb_false_iff. done. }
  destruct s as [|a s]; cbn [exp_part]; [intros [= <- <-]; split_and!; auto|].
  destruct (is_char 101 a || is_char 69 a) eqn:Ea; [|intros [= <- <-]; split_and!; auto].
  destruct (sign_part true s) as [sg s2] eqn:Hsg. destruct (digit_span s2) as [d r0] eqn:Hd.
  destruct (bool_decide (d = "")) eqn:Ed; [done|]. intros [= <- <-].
  destruct (digit_span_reads _ _ _ Hd) as (-> & Hn & _ & Hgo).
  destruct (sign_part_reads _ _ _ _ Hsg) as (-> & Hn' & Hs1 & Hs2). split_and!.
  - cbn. by rewrite append_assoc.
  - cbn [all_number]. rewrite all_number_app, Hn, Hn'. unfold number_char.
    apply orb_true_iff in Ea as [-> | ->]; by rewrite ?orb_true_r.
  - intros r' Hr'. cbn [String.append exp_part]. rewrite Ea, <- append_assoc.
    assert (sign_part true (sg +:+ d +:+ r') = (sg, d +:+ r')) as ->.
    { destruct (decide (sg = "")) as [-> | Hne]; [|by apply Hs2]. specialize (Hs1 eq_refl).
      apply bool_decide_eq_false in Ed. destruct d as [|b d]; [done|]. cbn [String.append sign_part] in *. by rewrite Hs1. }
    by rewrite Hgo, Ed by by apply no_frac_no_digit, stops_no_frac.
Qed.

Lemma exp_part_start s e r : exp_part s = Some (e, r) → exp_start e.
Proof.
  destruct s as [|a s]; cbn [exp_part]; [by intros [= <- <-]|].
  destruct (is_char 101 a || is_char 69 a) eqn:Ea; [|by intros [= <- <-]].
  destruct (sign_part true s) as [sg s2], (digit_span s2) as [d r0]. destruct (bool_decide _); [done|].
  by intros [= <- <-].
Qed.

Lemma exp_no_frac e r : exp_start e → stops r → no_frac (e +:+ r).
Proof.
  intros He Hr. destruct e as [|a e]; [by apply stops_no_frac|]. cbn in *.
  unfold is_digit, byte_in, is_char in *. by apply orb_true_iff in He as [->%N.eqb_eq| ->%N.eqb_eq].
Qed.

Lemma frac_no_digit s f r r' : frac_part s = Some (f, r) → no_frac r' → no_digit (f +:+ r').
Proof.
  intros Hf Hr'. destruct f as [|a f]; [by apply no_frac_no_digit|].
  destruct s as [|b s]; [by injection Hf|]. cbn [frac_part] in Hf.
  destruct (is_char 46 b) eqn:Eb; [|by injection Hf]. destruct (digit_span s). destruct (bool_decide _); [done|].
  injection Hf as <- _ _. cbn. apply N.eqb_eq in Eb. unfold is_digit, byte_in. by rewrite Eb.
Qed.

Lemma number_reads : reads number stops.
Proof.
  intros s t r Hs. unfold number in Hs. destruct (sign_part false s) as [sg s1] eqn:Hsg.
  apply bind_Some in Hs as ([i s2] & Hi & Hs). apply bind_Some in Hs as ([f s3] & Hf & Hs).
  apply bind_Some in Hs as ([e s4] & He & Hs). injection Hs as <- <-.
  destruct (sign_part_reads _ _ _ _ Hsg) as (-> & N0 & Hs1 & Hs2).
  destruct (int_part_reads _ _ _ Hi) as (-> & N1 & G1).
  destruct (frac_part_reads _ _ _ Hf) as (-> & N2 & G2).
  destruct (exp_part_reads _ _ _ He) as (-> & N3 & G3). apply exp_part_start in He as He'.
  split_and!; [by rewrite !append_assoc|by rewrite !all_number_app, N0, N1, N2, N3|].
  intros r' Hr'. unfold number. rewrite <- !append_assoc.
  assert (sign_part false (sg +:+ i +:+ f +:+ e +:+ r') = (sg, i +:+ f +:+ e +:+ r')) as ->.
  { destruct (decide (sg = "")) as [-> | Hne]; [|by apply Hs2]. specialize (Hs1 eq_refl).
    destruct i as [|b i]; [|cbn [String.append sign_part] in *; by rewrite Hs1].
    exfalso. by specialize (G1 "x" eq_refl). }
  pose proof (exp_no_frac e r' He' Hr') as Hex. pose proof (frac_no_digit _ _ _ _ Hf Hex) as Hfr.
  rewrite G1 by done. cbn [mbind option_bind]. rewrite G2 by done. cbn [mbind option_bind]. by rewrite G3.
Qed.

Lemma number_char_neutral a : number_char a = true → neutral a = true.
Proof. destruct a as [[] [] [] [] [] [] [] []]; vm_compute; congruence. Qed.

Lemma all_number_escape s : all_number s = true → html_escape s = s.
Proof.
  induction s as [|a s IH]; [done|]. intros [Ha Hs]%andb_true_iff.
  by rewrite neutral_escape, IH by auto using number_char_neutral.
Qed.

(** *** Any literal *)

(** A text that is read as one literal. *)
Definition is_literal (t : string) : Prop := ∀ r, stops r → literal (t +:+ r) = Some (t, r).
Definition is_key (t : string) : Prop := ∃ t', t = String dquote t' ∧ ∀ r, string_rest (t' +:+ r) = Some (t', r).

Lemma literal_reads s t r :
  literal s = Some (t, r) → s = t +:+ r ∧ t ≠ "" ∧ is_literal t ∧ is_literal (html_escape t).
Proof.
  destruct s as [|a s]; [done|]. cbn [literal]. destruct (Ascii.eqb a dquote) eqn:Eq.
  - intros (t' & Ht' & ->)%push_Some. destruct (string_rest_app _ _ _ Ht') as [-> Happ].
    apply Ascii.eqb_eq in Eq as ->. split_and!; [done..|intros r' _|intros r' _].
    + cbn [String.append literal]. change (Ascii.eqb dquote dquote) with true. cbn iota. by rewrite Happ.
    + cbn [String.append]. rewrite neutral_escape by done. cbn [String.append literal].
      change (Ascii.eqb dquote dquote) with true. cbn iota. by rewrite (string_rest_escape _ _ _ Ht').
  - destruct (is_char 45 a || is_digit a) eqn:En.
    + intros Hn. destruct (number_reads _ _ _ Hn) as (Hs & Hall & Hgo).
      assert (t ≠ "") as Hne. { intros ->. by specialize (Hgo "" I). }
      assert (is_literal t) as Hl; [|by rewrite all_number_escape by done].
      destruct t as [|b t]; [done|]. injection Hs as <- ->. intros r' Hr'. cbn [String.append literal]. rewrite Eq, En.
      by apply Hgo.
    + unfold keyword. assert (∀ w, w ∈ ["true"; "false"; "null"] → is_literal w ∧ html_escape w = w) as Hw.
      { intros w [->|[->|[->|[]%not_elem_of_nil]%elem_of_cons]%elem_of_cons]%elem_of_cons; split; try done; intros r' _; cbn; by destruct r'. }
      assert (∀ w, HasPrefix (String a s) w = true → String a s = w +:+ sdrop (String.length w) (String a s)) as Hp.
      { intros w (t' & ->)%HasPrefix_spec. by rewrite sdrop_append. }
      destruct (HasPrefix _ "true") eqn:E1; [|destruct (HasPrefix _ "false") eqn:E2; [|destruct (HasPrefix _ "null") eqn:E3; [|done]]];
        intros [= <- <-]; (split_and!; [by apply Hp|done| |]);
        match goal with |- is_literal ?w => destruct (Hw "true"), (Hw "false"), (Hw "null") end;
        rewrite ?elem_of_cons; auto; congruence.
Qed.

(** ** Reading back what was rendered *)

Inductive wf : json → Prop :=
| wf_lit t : t ≠ "" → is_literal t → wf (JLit t)
| wf_arr l : Forall wf l → wf (JArr l)
| wf_obj l : Forall (λ m, is_key m.1 ∧ wf m.2) l → wf (JObj l).

(** The number of brackets around the innermost value. *)
Fixpoint height (v : json) : Z :=
  match v with
  | JLit _ => 0
  | JArr l => 1 + foldr (λ v h, Z.max (height v) h) 0 l
  | JObj l => 1 + foldr (λ m h, Z.max (height m.2) h) 0 l
  end.

Definition blank (a : ascii) : bool := is_char 32 a || is_char 9 a || is_char 13 a || is_char 10 a.

(** A text that starts a value or a key. *)
Definition starts (s : string) : Prop :=
  match s with String a _ => blank a = false ∧ is_char 93 a = false ∧ is_char 125 a = false | "" => False end.

Lemma skip_space_cons a s : skip_space (String a s) = if blank a then skip_space s else String a s.
Proof. done. Qed.

Lemma starts_skip s r : starts s → skip_space (s +:+ r) = s +:+ r.
Proof.
  destruct s as [|a s]; [done|]. intros [Ha _]. cbn [String.append]. by rewrite skip_space_cons, Ha.
Qed.

Lemma literal_first a t :
  is_literal (String a t) →
  starts (String a t) ∧ is_char 91 a = false ∧ is_char 123 a = false.
Proof.
  intros Hl. specialize (Hl "" I). destruct a as [[] [] [] [] [] [] [] []]; try discriminate Hl; vm_compute; auto.
Qed.

Lemma skip_margin ind d s : skip_space (margin ind d +:+ s) = skip_space s.
Proof.
  unfold margin. destruct ind; [|done]. cbn [String.append]. rewrite skip_space_cons.
  change (blank (ch 10)) with true. cbn iota. induction d as [|d IH]; [done|].
  assert (String.concat "" (replicate (S d) "  ") +:+ s = String " " (String " " (String.concat "" (replicate d "  ") +:+ s))) as ->.
  { destruct d; [done|]. done. }
  by rewrite !skip_space_cons.
Qed.

Lemma stops_margin ind d s : stops s → stops (margin ind d +:+ s).
Proof. by destruct ind. Qed.

Lemma consumed_app t r : consumed (t +:+ r) r = t.
Proof.
  unfold consumed. rewrite length_append, Nat.add_sub. induction t as [|a t IH]; [by destruct r|]. cbn. by rewrite IH.
Qed.

Lemma is_key_starts k : is_key k → ∃ t, k = String dquote t ∧ starts k ∧
  ∀ r, push (String dquote "") (string_rest (t +:+ r)) = Some (k, r).
Proof. intros (t & -> & Ht). exists t. split_and!; [done|by vm_compute|]. intros r. by rewrite Ht. Qed.

Lemma render_starts ind d v : wf v → starts (render ind d v).
Proof.
  intros [t Hne Hl|l _|l _].
  - destruct t as [|a t]; [done|]. by apply literal_first in Hl as (? & _).
  - by destruct l.
  - by destruct l.
Qed.

Lemma starts_length s : starts s → (1 ≤ String.length s)%nat.
Proof. destruct s; [done|]. cbn. lia. Qed.

Section read_back.
Context (ind : bool).

Definition read_back (v : json) : Prop := ∀ d fuel depth r,
  stops r → height v ≤ depth → (String.length (render ind d v) ≤ fuel)%nat →
  value fuel depth (render ind d v +:+ r) = Some (v, r).

Definition sep (d : nat) : string := "," +:+ margin ind d.

Lemma sep_length d : String.length (sep d) = S (String.length (margin ind d)).
Proof. done. Qed.

Lemma items_render l d d' fuel depth r :
  l ≠ [] → Forall (λ v, wf v ∧ read_back v) l → foldr (λ v h, Z.max (height v) h) 0 l ≤ depth →
  (String.length (margin ind d +:+ Join (sep d) (map (render ind d) l)) < fuel)%nat →
  items fuel depth (margin ind d +:+ Join (sep d) (map (render ind d) l) +:+ margin ind d' +:+ String "]" r) =
    Some (l, r).
Proof.
  revert fuel. induction l as [|v l IH]; intros fuel Hne Hl Hd Hf; [done|].
  apply Forall_cons in Hl as [[Hwf Hv] Hl]. destruct fuel as [|fuel]; [lia|].
  cbn [items foldr] in *. rewrite skip_margin. pose proof (render_starts ind d v Hwf) as Hst.
  pose proof (starts_length _ Hst). destruct l as [|v' l].
  - cbn [map Join String.concat] in *. rewrite length_append in Hf.
    rewrite (starts_skip _ _ Hst), Hv by (lia || by apply stops_margin).
    cbn [mbind option_bind]. rewrite skip_margin. done.
  - cbn [map] in *. rewrite Join_cons in *. rewrite <- !append_assoc.
    rewrite !length_append in Hf. pose proof (sep_length d).
    rewrite (starts_skip _ _ Hst), Hv by (done || lia).
    cbn [mbind option_bind]. unfold sep at 1. rewrite <- append_assoc. cbn [String.append].
    rewrite skip_space_cons. change (blank ",") with false. cbn iota. change (is_char 44 ",") with true. cbn iota.
    rewrite IH; [done|done|done|etrans; [apply Z.le_max_r|exact Hd]|]. rewrite length_append. cbn [map]. lia.
Qed.

Definition member (d : nat) (m : string * json) : string := m.1 +:+ colon ind +:+ render ind d m.2.

Lemma skip_colon s : skip_space (colon ind +:+ s) = String ":" (sdrop 1 (colon ind) +:+ s).
Proof. by destruct ind. Qed.
Lemma skip_after_colon s : skip_space (sdrop 1 (colon ind) +:+ s) = skip_space s.
Proof. by destruct ind. Qed.

Lemma members_render l d d' fuel depth r :
  l ≠ [] → Forall (λ m : string * json, is_key m.1 ∧ wf m.2 ∧ read_back m.2) l →
  foldr (λ m h, Z.max (height m.2) h) 0 l ≤ depth →
  (String.length (margin ind d +:+ Join (sep d) (map (member d) l)) < fuel)%nat →
  members fuel depth (margin ind d +:+ Join (sep d) (map (member d) l) +:+ margin ind d' +:+ String "}" r) =
    Some (map (λ m, (m, render ind d m.2)) l, r).
Proof.
  revert fuel. induction l as [|[k v] l IH]; intros fuel Hne Hl Hd Hf; [done|].
  apply Forall_cons in Hl as [(Hk & Hwf & Hv) Hl]. destruct fuel as [|fuel]; [lia|]. cbn [fst snd] in *.
  cbn [members foldr] in *. rewrite skip_margin.
  apply is_key_starts in Hk as (t & -> & _ & Hkey). pose proof (render_starts ind d v Hwf) as Hst.
  pose proof (starts_length _ Hst).
  assert (∀ rest, Join (sep d) (map (member d) ((String dquote t, v) :: l)) +:+ rest =
    String dquote (t +:+ colon ind +:+ render ind d v +:+
      match l with [] => rest | _ => sep d +:+ Join (sep d) (map (member d) l) +:+ rest end)) as ->.
  { intros rest. destruct l as [|m l].
    - cbn [map Join String.concat]. unfold member. cbn [fst snd]. rewrite <- !append_assoc. done.
    - cbn [map]. rewrite Join_cons. unfold member at 1. cbn [fst snd]. rewrite <- !append_assoc. done. }
  rewrite skip_space_cons. change (blank dquote) with false. cbn iota.
  change (negb (Ascii.eqb dquote dquote)) with false. cbn iota. rewrite Hkey. cbn [mbind option_bind].
  rewrite skip_colon. change (negb (is_char 58 ":")) with false. cbn iota. rewrite skip_after_colon, starts_skip by done.
  assert (String.length (render ind d v) ≤ fuel ∧
    (l ≠ [] → String.length (margin ind d +:+ Join (sep d) (map (member d) l)) < fuel))%nat as [Hf1 Hf2].
  { destruct l as [|m l]; cbn [map] in Hf.
    - cbn [Join String.concat] in Hf. unfold member in Hf. rewrite !length_append in Hf. cbn [snd] in Hf. split; [lia|done].
    - rewrite Join_cons in Hf. unfold member at 1 in Hf. rewrite !length_append in Hf.
      cbn [snd] in Hf. pose proof (sep_length d).
      split; [lia|]. intros _. rewrite length_append. cbn [map]. lia. }
  rewrite Hv; [|by destruct l; [apply stops_margin|]|etrans; [apply Z.le_max_l|exact Hd]|done].
  cbn [mbind option_bind]. rewrite consumed_app. destruct l as [|m l].
  - by rewrite skip_margin.
  - unfold sep at 1. rewrite <- append_assoc. cbn [String.append]. rewrite skip_space_cons.
    change (blank ",") with false. cbn iota. change (is_char 44 ",") with true. cbn iota.
    rewrite IH; [done|done|done|etrans; [apply Z.le_max_r|exact Hd]|by apply Hf2].
Qed.

Lemma render_read_back v : wf v → read_back v.
Proof.
  induction v as [t|l IH|l IH] using json_rec'; intros Hwf d fuel depth r Hr Hd Hf;
    pose proof (starts_length _ (render_starts ind d _ Hwf)) as Hpos; (destruct fuel as [|fuel]; [lia|]).
  - inversion Hwf as [? Hne Hl| |]; subst. cbn [render value]. destruct t as [|a t]; [done|].
    pose proof (literal_first _ _ Hl) as (_ & E1 & E2). cbn [String.append].
    rewrite E1, E2. cbn [orb]. specialize (Hl r Hr). cbn [String.append] in Hl. by rewrite Hl.
  - inversion Hwf as [|? Hl|]; subst. cbn [height] in Hd.
    assert (Forall (λ v, wf v ∧ read_back v) l) as Hall.
    { rewrite Forall_forall in *. intros v Hv. split; auto. }
    assert (0 ≤ foldr (λ v h, Z.max (height v) h) 0 l) as Hpos' by (clear; induction l; cbn; lia).
    assert (depth <=? 0 = false) as Ed by lia. destruct l as [|v l].
    { cbn [render value String.append]. cbn. by rewrite Ed. }
    cbn [render value] in *. cbn [String.append]. change (String "," (margin ind (S d))) with (sep (S d)).
    change (is_char 91 "[" || is_char 123 "[") with true. cbn iota.
    rewrite Ed, <- !append_assoc, skip_margin.
    assert (∃ b s2, skip_space (Join (sep (S d)) (map (render ind (S d)) (v :: l)) +:+ margin ind d +:+ "]" +:+ r) =
      String b s2 ∧ is_char 93 b = false) as (b & s2 & E & Eb).
    { apply Forall_cons in Hall as [[Hv _] _]. pose proof (render_starts ind (S d) v Hv) as Hst.
      destruct l; cbn [map]; rewrite ?Join_cons; cbn [map Join String.concat]; rewrite <- ?append_assoc, starts_skip by done;
        (destruct (render ind (S d) v) as [|b s2]; [done|]; exists b; eexists; split; [done|by destruct Hst as (_ & ? & _)]). }
    rewrite E. change (is_char 91 "[") with true. cbn iota. rewrite Eb.
    change ("]" +:+ r) with (String "]" r). rewrite (items_render (v :: l)); [done|done|done|lia|].
    cbn [String.length] in Hf. change ("," +:+ margin ind (S d)) with (sep (S d)) in Hf. rewrite !length_append in *.
      change (String.length "[") with 1%nat in Hf. change (String.length "{") with 1%nat in Hf.
      change (String.length "]") with 1%nat in Hf. change (String.length "}") with 1%nat in Hf. lia.
  - inversion Hwf as [| |? Hl]; subst. cbn [height] in Hd.
    assert (Forall (λ m : string * json, is_key m.1 ∧ wf m.2 ∧ read_back m.2) l) as Hall.
    { rewrite Forall_forall in *. intros m Hm. destruct (Hl m Hm). auto. }
    assert (0 ≤ foldr (λ m h, Z.max (height m.2) h) 0 l) as Hpos' by (clear; induction l; cbn; lia).
    assert (depth <=? 0 = false) as Ed by lia. destruct l as [|m l].
    { cbn [render value String.append]. cbn. by rewrite Ed. }
    cbn [render value] in *. fold (member (S d)) in *. cbn [String.append]. change (String "," (margin ind (S d))) with (sep (S d)).
    change (is_char 91 "{" || is_char 123 "{") with true. cbn iota.
    rewrite Ed, <- !append_assoc, skip_margin.
    assert (∃ s2, skip_space (Join (sep (S d)) (map (member (S d)) (m :: l)) +:+ margin ind d +:+ "}" +:+ r) =
      String dquote s2) as (s2 & E).
    { apply Forall_cons in Hall as [[(t & Ht & _) _] _]. destruct l; cbn [map]; rewrite ?Join_cons; unfold member at 1;
        rewrite Ht; by eexists. }
    rewrite E. change (is_char 91 "{") with false. change (is_char 125 dquote) with false. cbn iota.
    change ("}" +:+ r) with (String "}" r). rewrite (members_render (m :: l)); [|done|done|lia|].
    + cbn [mbind option_bind]. by rewrite map_map, map_id.
    + cbn [String.length] in Hf. change ("," +:+ margin ind (S d)) with (sep (S d)) in Hf. rewrite !length_append in *.
      change (String.length "[") with 1%nat in Hf. change (String.length "{") with 1%nat in Hf.
      change (String.length "]") with 1%nat in Hf. change (String.length "}") with 1%nat in Hf. lia.
Qed.
End read_back.

Lemma top_render ind d v :
  wf v → height v ≤ max_depth → top (render ind d v) = Some (v, render ind d v).
Proof.
  intros Hwf Hh. unfold top. pose proof (render_starts ind d v Hwf) as Hst.
  pose proof (render_read_back ind v Hwf d (S (String.length (render ind d v))) max_depth "" I Hh ltac:(lia)) as Hr.
  pose proof (starts_skip (render ind d v) "" Hst) as Hsk. rewrite append_nil_r in Hr, Hsk. cbn zeta. rewrite Hsk, Hr.
  cbn [mbind option_bind]. rewrite bool_decide_eq_true_2 by done. do 2 f_equal.
  rewrite <- (append_nil_r (render ind d v)) at 1. apply consumed_app.
Qed.

Lemma parse_render ind d v : wf v → height v ≤ max_depth → parse (render ind d v) = Some v.
Proof. intros Hwf Hh. unfold parse. by rewrite top_render. Qed.

(** The members of a rendered object. *)
Lemma object_members_render ind d l :
  wf (JObj l) → height (JObj l) ≤ max_depth →
  object_members (render ind d (JObj l)) = Some (map (λ m, (m.1, render ind (S d) m.2)) l).
Proof.
  intros Hwf Hh. unfold object_members. inversion Hwf as [| |? Hl]; subst. cbn [height] in Hh.
  destruct l as [|m l]; [done|]. cbn [render]. fold (member ind (S d)).
  rewrite (starts_skip "{" _ (conj eq_refl (conj eq_refl eq_refl))). cbn [String.append].
  change (String "," (margin ind (S d))) with (sep ind (S d)).
  change (negb (is_char 123 "{")) with false. cbn iota. rewrite skip_margin.
  assert (∃ s2, skip_space (Join (sep ind (S d)) (map (member ind (S d)) (m :: l)) +:+ margin ind d +:+ "}") =
    String dquote s2) as (s2 & E).
  { apply Forall_cons in Hl as [[(t & Ht & _) _] _]. destruct l; cbn [map]; rewrite ?Join_cons; unfold member at 1;
      rewrite Ht; by eexists. }
  rewrite E. change (is_char 125 dquote) with false. cbn iota.
  rewrite (members_render ind (m :: l) (S d) d _ _ ""); [|done| |lia|].
  - cbn [mbind option_bind]. by rewrite map_map.
  - rewrite Forall_forall in *. intros m' Hm'. destruct (Hl m' Hm'). split_and!; [done..|]. by apply render_read_back.
  - rewrite !length_append. cbn [String.length]. rewrite !length_append. lia.
Qed.

(** ** What is read is well formed *)

Definition sound (v : json) : Prop := wf v ∧ wf (escape_html v).

Lemma is_key_reads s key r :
  push (String dquote "") (string_rest s) = Some (key, r) → is_key key ∧ is_key (html_escape key).
Proof.
  intros (t & Ht & ->)%push_Some. split; [exists t; split; [done|]; by destruct (string_rest_app _ _ _ Ht)|].
  exists (html_escape t). split; [by rewrite <- neutral_escape|]. by eapply string_rest_escape.
Qed.

Lemma sound_arr l : Forall sound l → sound (JArr l).
Proof.
  intros Hl. rewrite Forall_forall in Hl. split; constructor; [|apply Forall_map]; rewrite Forall_forall; intros v Hv; by apply Hl.
Qed.

Lemma sound_obj l :
  Forall (λ m : string * json, (is_key m.1 ∧ is_key (html_escape m.1)) ∧ sound m.2) l → sound (JObj l).
Proof.
  intros Hl. rewrite Forall_forall in Hl.
  split; constructor; [|apply Forall_map]; rewrite Forall_forall; intros m Hm; destruct (Hl m Hm) as [[? ?] [? ?]]; done.
Qed.

Lemma value_sound fuel : ∀ depth s,
  (∀ v r, value fuel depth s = Some (v, r) → 0 ≤ depth → sound v ∧ height v ≤ depth) ∧
  (∀ l r, items fuel depth s = Some (l, r) → 0 ≤ depth →
     Forall sound l ∧ foldr (λ v h, Z.max (height v) h) 0 l ≤ depth) ∧
  (∀ l r, members fuel depth s = Some (l, r) → 0 ≤ depth →
     Forall (λ m : string * json, (is_key m.1 ∧ is_key (html_escape m.1)) ∧ sound m.2) (map fst l) ∧
     foldr (λ m h, Z.max (height m.2) h) 0 (map fst l) ≤ depth).
Proof.
  induction fuel as [|fuel IH]; intros depth s; [done|]. split_and!.
  - intros v r Hv Hd. cbn [value] in Hv. destruct s as [|a s1]; [done|].
    destruct (is_char 91 a || is_char 123 a).
    2:{ apply bind_Some in Hv as ([t r'] & Hl & [= <- <-]).
        apply literal_reads in Hl as (_ & Hne & H1 & H2). split; [|cbn; lia]. split; constructor; try done.
        specialize (H2 "" I). intros Hnil. by rewrite Hnil in H2. }
    destruct (Z.leb_spec depth 0); [done|]. destruct (skip_space s1) as [|b s2]; [done|]. destruct (is_char 91 a).
    + destruct (is_char 93 b); [injection Hv as <- _; split; [by apply sound_arr|cbn; lia]|].
      apply bind_Some in Hv as ([vs r'] & Hv & [= <- _]). apply IH in Hv as [H1 H2]; [|lia].
      split; [by apply sound_arr|]. cbn. lia.
    + destruct (is_char 125 b); [injection Hv as <- _; split; [by apply sound_obj|cbn; lia]|].
      apply bind_Some in Hv as ([vs r'] & Hv & [= <- _]). apply IH in Hv as [H1 H2]; [|lia].
      split; [by apply sound_obj|]. cbn. lia.
  - intros l r Hl Hd. cbn [items] in Hl. apply bind_Some in Hl as ([v s1] & Hv & Hl).
    apply IH in Hv as [Hv Hh]; [|done]. destruct (skip_space s1) as [|a s2]; [done|]. destruct (is_char 44 a).
    + apply bind_Some in Hl as ([vs r'] & Hl & [= <- _]). apply IH in Hl as [Hl Hh']; [|done].
      split; [by constructor|]. cbn. lia.
    + destruct (is_char 93 a); [|done]. injection Hl as <- _. split; [by apply Forall_singleton|]. cbn. lia.
  - intros l r Hl Hd. cbn [members] in Hl. destruct (skip_space s) as [|q s1]; [done|].
    destruct (Ascii.eqb q dquote) eqn:Eq; [|done]. apply Ascii.eqb_eq in Eq as ->. cbn [negb] in Hl.
    apply bind_Some in Hl as ([key s2] & Hk & Hl). apply is_key_reads in Hk.
    destruct (skip_space s2) as [|c s3]; [done|]. destruct (negb _); [done|]. cbn zeta in Hl.
    apply bind_Some in Hl as ([v s4] & Hv & Hl). apply IH in Hv as [Hv Hh]; [|done].
    destruct (skip_space s4) as [|a s5]; [done|]. destruct (is_char 44 a).
    + apply bind_Some in Hl as ([ms r'] & Hl & [= <- _]). apply IH in Hl as [Hl Hh']; [|done].
      split; [by constructor|]. cbn. lia.
    + destruct (is_char 125 a); [|done]. injection Hl as <- _. split; [by apply Forall_singleton|]. cbn. lia.
Qed.

Lemma parse_sound s v : parse s = Some v → sound v ∧ height v ≤ max_depth.
Proof.
  unfold parse, top. cbn zeta. intros ([v' raw] & Ht & Ev)%fmap_Some. cbn [fst] in Ev. subst v'.
  apply bind_Some in Ht as ([v0 r] & Hv & Hr). destruct (bool_decide _); [|done]. injection Hr as -> _.
  by apply value_sound in Hv.
Qed.

Lemma height_escape v : height (escape_html v) = height v.
Proof.
  induction v as [t|l IH|l IH] using json_rec'; [done|..]; cbn [escape_html height]; f_equal;
    induction IH as [|x l Hx _ IH]; cbn; congruence.
Qed.

(** ** The escapes are idempotent *)

Fixpoint no_html (s : string) : bool :=
  match s with
  | EmptyString => true
  | String a s1 =>
      negb (html_char a) &&
      match s1 with String b (String c _) => negb (line_separator a b c) | _ => true end && no_html s1
  end.

Lemma no_html_escape s : no_html s = true → html_escape s = s.
Proof.
  induction s as [|a s IH]; [done|]. cbn [no_html].
  intros [[Ha%negb_true_iff Hl]%andb_true_iff Hs]%andb_true_iff.
  rewrite html_escape_cons, IH; [done..|]. intros b c s3 ->. by apply negb_true_iff.
Qed.

Lemma no_html_neutral a s : neutral a = true → no_html (String a s) = no_html s.
Proof.
  intros [Ha Hh]%andb_true_iff. cbn [no_html]. rewrite Hh. cbn [andb].
  destruct s as [|b [|c s3]]; [done..|]. unfold line_separator.
  destruct (N.eqb_spec (byte_val a) 226) as [E|E]; [|done]. unfold ascii7 in Ha. by rewrite E in Ha.
Qed.

Lemma hex_char_neutral n : (n < 16)%N → neutral (hex_char n) = true.
Proof.
  intros Hn. assert (∀ m, m ∈ seq 0 16 → neutral (hex_char (N.of_nat m)) = true) as Hall.
  { apply Forall_forall. by apply (bool_decide_unpack _). }
  rewrite <- (N2Nat.id n). apply Hall, elem_of_seq. lia.
Qed.

Lemma html_escape_String a s1 :
  html_escape (String a s1) =
    if html_char a then u_escape a +:+ html_escape s1
    else
      match s1 with
      | String b (String c s3) =>
          if line_separator a b c
          then String backslash ("u202" +:+ String (hex_char (byte_val c mod 16)) (html_escape s3))
          else String a (html_escape s1)
      | _ => String a (html_escape s1)
      end.
Proof. done. Qed.

(** The first two bytes of an escaped text are those of the text, unless there
    is an escape. *)
Lemma html_escape_first a s b c r :
  html_escape s = String b (String c r) → html_char a = false → line_separator a b c = true →
  ∃ r', s = String b (String c r').
Proof.
  intros Hs Ha (Hb & Hc & _)%separator_high. destruct s as [|x s]; [done|]. rewrite html_escape_String in Hs.
  assert (byte_in 128 255 backslash = false) as Hbs by done.
  destruct (html_char x). { injection Hs as <- _. congruence. }
  assert (∀ s1, html_escape s1 = String c r → ∃ r', s1 = String c r') as Hnext.
  { intros [|y s1]; [done|]. rewrite html_escape_String. destruct (html_char y); [intros [= <- _]; congruence|].
    destruct s1 as [|z [|w s1]]; [intros [= <- _]; eauto..|].
    destruct (line_separator y z w); intros [= <- _]; [congruence|eauto]. }
  destruct s as [|y [|z s]].
  - by injection Hs as <-.
  - assert (x = b) as -> by congruence.
    destruct (Hnext (String y "")) as [r' E]; [congruence|]. rewrite E. eauto.
  - destruct (line_separator x y z).
    + exfalso. assert (backslash = b) by congruence. congruence.
    + assert (x = b) as -> by congruence. destruct (Hnext (String y (String z s))) as [r' E]; [congruence|]. rewrite E. eauto.
Qed.

Lemma html_escape_no_html s : no_html (html_escape s) = true.
Proof.
  remember (String.length s) as n eqn:Hn. revert s Hn. induction (lt_wf n) as [n _ IH]. intros s ->.
  destruct s as [|a s1]; [done|]. cbn [String.length] in IH.
  assert (no_html (html_escape s1) = true) as H1 by (eapply IH; [|reflexivity]; lia).
  destruct (html_char a) eqn:Ea.
  { cbn [html_escape]. rewrite Ea. unfold u_escape. cbn [String.append].
    rewrite !no_html_neutral; try done; [by apply hex_char_neutral, N.mod_lt|].
    destruct a as [[] [] [] [] [] [] [] []]; try discriminate Ea; reflexivity. }
  destruct (match s1 with String b (String c _) => line_separator a b c | _ => false end) eqn:El.
  - destruct s1 as [|b [|c s3]]; try done. cbn [html_escape]. rewrite Ea, El. cbn [String.append].
    rewrite !no_html_neutral; try done; [|by apply hex_char_neutral, N.mod_lt].
    eapply IH; [|reflexivity]. cbn. lia.
  - rewrite html_escape_cons; [|done|by intros b c s3 ->]. cbn [no_html]. rewrite Ea, H1, andb_true_r. cbn [negb andb].
    destruct (html_escape s1) as [|b [|c r]] eqn:E; [done..|]. apply negb_true_iff.
    destruct (line_separator a b c) eqn:El'; [|done].
    destruct (html_escape_first a _ _ _ _ E Ea El') as [r' ->]. congruence.
Qed.

Lemma escape_html_idemp v : escape_html (escape_html v) = escape_html v.
Proof.
  induction v as [t|l IH|l IH] using json_rec'; cbn [escape_html].
  - by rewrite (no_html_escape _ (html_escape_no_html t)).
  - f_equal. rewrite map_map. induction IH as [|x l Hx _ IH]; cbn; congruence.
  - f_equal. rewrite map_map. induction IH as [|x l Hx _ IH]; [done|]. cbn [map]. f_equal; [|exact IH].
    cbn [fst snd]. by rewrite (no_html_escape _ (html_escape_no_html x.1)), Hx.
Qed.

(** ** Depth *)

(** What is read with few brackets is read with more. *)
Lemma value_depth fuel : ∀ depth depth' s, depth ≤ depth' →
  (∀ x, value fuel depth s = Some x → value fuel depth' s = Some x) ∧
  (∀ x, items fuel depth s = Some x → items fuel depth' s = Some x) ∧
  (∀ x, members fuel depth s = Some x → members fuel depth' s = Some x).
Proof.
  induction fuel as [|fuel IH]; intros depth depth' s Hd; [done|]. split_and!; intros x.
  - cbn [value]. destruct s as [|a s1]; [done|]. destruct (is_char 91 a || is_char 123 a); [|done].
    destruct (Z.leb_spec depth 0), (Z.leb_spec depth' 0); [done|done|lia|].
    destruct (skip_space s1) as [|b s2]; [done|].
    destruct (is_char 91 a); [destruct (is_char 93 b)|destruct (is_char 125 b)]; try done;
      intros (y & Hy & Hx)%bind_Some; eapply IH in Hy; [rewrite Hy; exact Hx|lia|rewrite Hy; exact Hx|lia].
  - cbn [items]. intros ([v s1] & Hv & Hx)%bind_Some. eapply IH in Hv; [rewrite Hv|done]. cbn [mbind option_bind].
    destruct (skip_space s1) as [|a s2]; [done|]. destruct (is_char 44 a); [|done].
    apply bind_Some in Hx as (y & Hy & Hx). eapply IH in Hy; [rewrite Hy; exact Hx|done].
  - cbn [members]. destruct (skip_space s) as [|q s1]; [done|]. destruct (negb _); [done|].
    intros ([key s2] & -> & Hx)%bind_Some. cbn [mbind option_bind]. destruct (skip_space s2) as [|c s3]; [done|].
    destruct (negb _); [done|]. cbn zeta in *. apply bind_Some in Hx as ([v s4] & Hv & Hx).
    eapply IH in Hv; [rewrite Hv|done]. cbn [mbind option_bind]. destruct (skip_space s4) as [|a s5]; [done|].
    destruct (is_char 44 a); [|done]. apply bind_Some in Hx as (y & Hy & Hx). eapply IH in Hy; [rewrite Hy; exact Hx|done].
Qed.

(** What a rendered value can be read as. *)
Lemma parse_render_inv ind d v w :
  wf v → parse (render ind d v) = Some w → w = v ∧ height v ≤ max_depth.
Proof.
  intros Hwf Hp. apply parse_sound in Hp as Hs. destruct Hs as [_ Hh].
  pose proof (render_starts ind d v Hwf) as Hst.
  unfold parse, top in Hp. apply fmap_Some in Hp as ([w' raw] & Hp & ->). cbn zeta in Hp.
  apply bind_Some in Hp as ([w0 r] & Hv & Hr). destruct (bool_decide _); [|done]. injection Hr as -> _. cbn [fst] in *.
  pose proof (starts_skip _ "" Hst) as Hsk. rewrite append_nil_r in Hsk. rewrite Hsk in Hv.
  set (depth := Z.max (height v) max_depth).
  assert (value (S (String.length (render ind d v))) depth (render ind d v) = Some (w', r)) as Hv'.
  { eapply value_depth; [|exact Hv]. lia. }
  pose proof (render_read_back ind v Hwf d (S (String.length (render ind d v))) depth "" I ltac:(lia) ltac:(lia)) as Hb.
  rewrite append_nil_r in Hb. rewrite Hb in Hv'. by injection Hv' as <- _.
Qed.

(** ** Strings and numbers of json.Marshal *)

Lemma string_rest_escape_byte a s :
  ascii7 a = true → string_rest (escape_byte a +:+ s) = push (escape_byte a) (string_rest s).
Proof. destruct a as [[] [] [] [] [] [] [] []]; intros H; try discriminate H; reflexivity. Qed.

Lemma high_of_ascii7 a : ascii7 a = false → byte_in 128 255 a = true.
Proof. destruct a as [[] [] [] [] [] [] [] []]; vm_compute; congruence. Qed.
Lemma cont_high a : cont a = true → byte_in 128 255 a = true.
Proof. destruct a as [[] [] [] [] [] [] [] []]; vm_compute; congruence. Qed.

Lemma utf8_2_high a b : utf8_2 a b = true → byte_in 128 255 b = true.
Proof. intros [_ H]%andb_true_iff. by apply cont_high. Qed.
Lemma utf8_3_high a b c : utf8_3 a b c = true → byte_in 128 255 b = true ∧ byte_in 128 255 c = true.
Proof.
  unfold utf8_3. intros [H Hc]%andb_true_iff. split; [|by apply cont_high].
  assert (byte_in 160 191 b || cont b || byte_in 128 159 b = true) as Hb.
  { rewrite !orb_true_iff, !andb_true_iff in *. tauto. }
  clear H Hc. destruct b as [[] [] [] [] [] [] [] []]; vm_compute in *; congruence.
Qed.
Lemma utf8_4_high a b c d :
  utf8_4 a b c d = true → byte_in 128 255 b = true ∧ byte_in 128 255 c = true ∧ byte_in 128 255 d = true.
Proof.
  unfold utf8_4. intros [[H Hc]%andb_true_iff Hd]%andb_true_iff. split_and!; [|by apply cont_high..].
  assert (byte_in 144 191 b || cont b || byte_in 128 143 b = true) as Hb.
  { rewrite !orb_true_iff, !andb_true_iff in *. tauto. }
  clear H Hc Hd. destruct b as [[] [] [] [] [] [] [] []]; vm_compute in *; congruence.
Qed.

Lemma string_rest_json s t : string_rest (escape s +:+ String dquote t) = Some (escape s +:+ String dquote "", t).
Proof.
  remember (String.length s) as n eqn:Hn. revert s Hn. induction (lt_wf n) as [n _ IH]. intros s ->.
  assert (∀ s1 p, (String.length s1 < String.length s)%nat →
    push p (string_rest (escape s1 +:+ String dquote t)) = Some ((p +:+ escape s1) +:+ String dquote "", t)) as Hgo.
  { intros s1 p Hlt. rewrite (IH _ Hlt _ eq_refl). cbn [push]. by rewrite append_assoc. }
  clear IH. destruct s as [|a s1]; [done|]. cbn [String.length] in Hgo.
  assert (string_rest ((escaped_error +:+ escape s1) +:+ String dquote t) =
    Some ((escaped_error +:+ escape s1) +:+ String dquote "", t)) as Hbad.
  { rewrite <- append_assoc. refine (eq_trans _ (Hgo s1 escaped_error ltac:(lia))). reflexivity. }
  cbn [escape]. destruct (ascii7 a) eqn:Ha.
  { rewrite <- append_assoc, string_rest_escape_byte by done. apply Hgo. lia. }
  apply high_of_ascii7 in Ha as Hah. destruct s1 as [|b s2]; [exact Hbad|]. cbn [String.length] in Hgo.
  destruct (utf8_2 a b) eqn:H2.
  { apply utf8_2_high in H2. cbn [String.append]. rewrite !string_rest_high, push_push by done. apply Hgo. lia. }
  destruct s2 as [|c s3]; [exact Hbad|]. cbn [String.length] in Hgo. destruct (utf8_3 a b c) eqn:H3.
  { destruct (line_separator a b c) eqn:El.
    - apply separator_high in El as (_ & _ & Hc).
      pose proof (string_rest_separator c (escape s3 +:+ String dquote t) Hc) as E. cbn zeta in E.
      refine (eq_trans E _). apply Hgo. lia.
    - apply utf8_3_high in H3 as [Hb Hc]. cbn [String.append]. rewrite !string_rest_high, !push_push by done. apply Hgo. lia. }
  destruct s3 as [|d s4]; [exact Hbad|]. cbn [String.length] in Hgo. destruct (utf8_4 a b c d) eqn:H4; [|exact Hbad].
  apply utf8_4_high in H4 as (Hb & Hc & Hd). cbn [String.append]. rewrite !string_rest_high, !push_push by done. apply Hgo. lia.
Qed.

Lemma json_string_key s : is_key (json_string s).
Proof.
  exists (escape s +:+ String dquote ""). split; [done|]. intros r. rewrite <- append_assoc. apply string_rest_json.
Qed.

Lemma JString_wf s : wf (JString s).
Proof.
  constructor; [done|]. intros r _. unfold json_string. cbn [String.append literal].
  change (Ascii.eqb dquote dquote) with true. cbn iota. rewrite <- append_assoc. cbn [String.append].
  by rewrite string_rest_json.
Qed.

Lemma JBool_wf b : wf (JBool b).
Proof. destruct b; (constructor; [done|]; intros r _; cbn; by destruct r). Qed.

Fixpoint all_digits (s : string) : bool :=
  match s with String a s1 => is_digit a && all_digits s1 | EmptyString => true end.

Lemma digit_span_all d r : all_digits d = true → no_digit r → digit_span (d +:+ r) = (d, r).
Proof.
  intros Hd Hr. induction d as [|a d IH].
  - destruct r as [|b r]; [done|]. cbn in *. by rewrite Hr.
  - cbn [all_digits] in Hd. apply andb_true_iff in Hd as [Ha Hd]. cbn [String.append digit_span]. by rewrite Ha, IH.
Qed.

Lemma pretty_char n :
  (n < 10)%N → is_digit (pretty_N_char n) = true ∧ digit (pretty_N_char n) = Z.of_N n ∧
    (is_char 48 (pretty_N_char n) = true → n = 0%N).
Proof.
  intros Hn. assert (∀ m, m ∈ seq 0 10 → let n := N.of_nat m in
    is_digit (pretty_N_char n) = true ∧ digit (pretty_N_char n) = Z.of_N n ∧
      (is_char 48 (pretty_N_char n) = true → n = 0%N)) as Hall.
  { apply Forall_forall. repeat (constructor; [vm_compute; split_and!; congruence|]). constructor. }
  rewrite <- (N2Nat.id n). apply Hall, elem_of_seq. lia.
Qed.

Lemma pretty_N_go_digits x :
  ∃ d, (∀ s, pretty_N_go x s = d +:+ s) ∧ all_digits d = true ∧
    (∀ s, digits 0 (d +:+ s) = digits (Z.of_N x) s) ∧
    ((0 < x)%N → ∃ a d', d = String a d' ∧ is_digit a = true ∧ is_char 48 a = false).
Proof.
  induction (N.lt_wf_0 x) as [x _ IH].
  assert (x = 0 ∨ 0 < x)%N as [-> | Hx] by lia.
  { exists "". split_and!; [|done..|lia]. intros s. by rewrite pretty_N_go_0. }
  destruct (IH (x / 10)%N) as (d & Hgo & Hd & Hv & Hf); [by apply N.div_lt|].
  destruct (pretty_char (x mod 10)%N) as (Hc & Hcv & Hc0); [by apply N.mod_lt|].
  exists (d +:+ String (pretty_N_char (x mod 10)) ""). split_and!.
  - intros s. rewrite pretty_N_go_step, Hgo by done. by rewrite <- append_assoc.
  - clear -Hd Hc. induction d as [|a d IH]; cbn in *; [by rewrite Hc|].
    apply andb_true_iff in Hd as [-> Hd]. by apply IH.
  - intros s. rewrite <- append_assoc, Hv. cbn [String.append digits]. rewrite Hc, Hcv. f_equal.
    pose proof (N.div_mod' x 10) as E. set (q := (x / 10)%N) in *. set (m := (x mod 10)%N) in *. lia.
  - intros _. destruct (N.eq_0_gt_0_cases (x / 10)) as [E|E].
    + destruct d as [|a d].
      * exists (pretty_N_char (x mod 10)), "". split_and!; [done..|]. destruct (is_char 48 _) eqn:E0; [|done].
        specialize (Hc0 eq_refl). pose proof (N.div_mod' x 10) as Ex. rewrite E, Hc0 in Ex. lia.
      * exfalso. specialize (Hgo ""). rewrite E, pretty_N_go_0 in Hgo. done.
    + destruct (Hf E) as (a & d' & -> & ? & ?). by exists a, (d' +:+ String (pretty_N_char (x mod 10)) "").
Qed.

(** The digits of a number. *)
Lemma pretty_digits z :
  0 ≤ z → all_digits (pretty z) = true ∧ digits 0 (pretty z) = Some z ∧
    ∃ a d, pretty z = String a d ∧ is_digit a = true ∧ (is_char 48 a = true → d = "").
Proof.
  intros Hz. destruct z as [|p|p]; [|clear Hz|lia].
  { split_and!; [done..|]. by exists "0"%char, "". }
  destruct (pretty_N_go_digits (N.pos p)) as (d & Hgo & Hd & Hv & Hf).
  assert (pretty (Z.pos p) = d) as ->.
  { change (pretty (Z.pos p)) with (pretty_N_go (N.pos p) ""). by rewrite Hgo, append_nil_r. }
  split_and!; [done| |].
  - specialize (Hv ""). rewrite append_nil_r in Hv. by rewrite Hv.
  - destruct Hf as (a & d' & -> & Ha & H0); [lia|]. exists a, d'. split_and!; [done..|]. congruence.
Qed.

Lemma stops_frac_exp r : stops r → frac_part r = Some ("", r) ∧ exp_part r = Some ("", r).
Proof.
  destruct r as [|a r]; [done|]. cbn [stops frac_part exp_part]. unfold number_char.
  intros [[[_ ->]%orb_false_iff ->]%orb_false_iff ->]%orb_false_iff. done.
Qed.

Lemma JUint_wf n : 0 ≤ n → wf (JUint n).
Proof.
  intros Hn. destruct (pretty_digits n Hn) as (Hd & _ & a & d & E & Ha & H0).
  constructor; [by rewrite E|]. intros r Hr. destruct (stops_frac_exp r Hr) as [Hf He].
  rewrite E. cbn [String.append literal].
  assert (Ascii.eqb a dquote = false ∧ is_char 45 a = false) as [-> E45].
  { clear -Ha. destruct a as [[] [] [] [] [] [] [] []]; vm_compute in *; try done; discriminate. }
  rewrite E45, Ha. cbn [orb]. unfold number. cbn [sign_part]. rewrite E45. cbn [orb andb].
  assert (int_part (String a (d +:+ r)) = Some (String a d, r)) as ->.
  { cbn [int_part]. destruct (is_char 48 a) eqn:E0; [by rewrite H0|]. rewrite Ha.
    change (String a (d +:+ r)) with (String a d +:+ r). rewrite <- E, digit_span_all; [done|done|].
    by apply no_frac_no_digit, stops_no_frac. }
  cbn [mbind option_bind]. rewrite Hf. cbn [mbind option_bind]. rewrite He. cbn [mbind option_bind String.append].
  by rewrite append_nil_r.
Qed.

(** ** Decoding what was encoded *)

Section decode.
Context `{GoUnicode}.

Lemma dec_string_json (s old : string) : dec_string (json_string s) old = Some (coerce_utf8 s).
Proof.
  unfold dec_string, json_string. change (Ascii.eqb dquote dquote) with true. cbn iota.
  by rewrite unquote_escape.
Qed.

Lemma dec_uint32_pretty (n old : Z) : 0 ≤ n < two32 → dec_uint32 (pretty n) old = Some n.
Proof.
  intros Hn. destruct (pretty_digits n) as (Hd & Hv & a & d & E & Ha & _); [lia|].
  unfold dec_uint32. rewrite bool_decide_eq_false_2.
  2:{ rewrite E. intros [= -> _]. done. }
  unfold ParseUint. rewrite Hv, E. change (2 ^ 32) with two32. by destruct (Z.ltb_spec n two32); [|lia].
Qed.

Lemma dec_bool_json (b : bool) (old : bool) : dec_bool (if b then "true" else "false") old = Some b.
Proof. by destruct b. Qed.
End decode.
End JsonTheorems.
