(* ===== verification/Net.v ===== *)
(** * Addresses

    The part of package net that the code uses, on texts: [SplitHostPort],
    [JoinHostPort], and [ParseIP] with [IP.IsLoopback]; and strings.Trim for
    sets of ASCII bytes.  No caller looks at the text of an error, so that a
    failure is [None]. *)

From S2P Require Import Prelude GoStrings JsonStrings StringLists StrConv.
From Stdlib Require Import Ascii.
Open Scope string_scope.
Open Scope Z_scope.
Open Scope list_scope.

Module Net.

(** ** strings.Trim *)

Fixpoint trim_left (cut : ascii → bool) (s : string) : string :=
  match s with
  | String a s1 => if cut a then trim_left cut s1 else s
  | EmptyString => ""
  end.
Definition trim_right (cut : ascii → bool) (s : string) : string := srev (trim_left cut (srev s)).
(** strings.Trim(s, cutset) *)
Definition Trim (s : string) (cutset : string) : string :=
  let cut := λ a, negb (no_char a cutset) in trim_right cut (trim_left cut s).

(** ** Hosts and ports *)

(** The parts of [s] before and after the first [c]. *)
Fixpoint cut_at (c : ascii) (s : string) : option (string * string) :=
  match s with
  | EmptyString => None
  | String a s1 => if Ascii.eqb a c then Some ("", s1) else push (String a "") (cut_at c s1)
  end.
(** The parts before and after the last colon. *)
Definition cut_last (c : ascii) (s : string) : option (string * string) :=
  '(a, b) ← cut_at c (srev s); Some (srev b, srev a).

Definition SplitHostPort (hostport : string) : option (string * string) :=
  '(before, port) ← cut_last ":" hostport;
  match hostport with
  | String "[" inner =>
      '(host, after) ← cut_at "]" inner;
      match after with
      | String ":" port =>
          if no_char ":" port && no_char "[" inner && no_char "]" after then Some (host, port) else None
      | _ => None
      end
  | _ =>
      if no_char ":" before && no_char "[" hostport && no_char "]" hostport then Some (before, port) else None
  end.

Definition JoinHostPort (host port : string) : string :=
  if no_char ":" host then host +:+ ":" +:+ port else "[" +:+ host +:+ "]:" +:+ port.

(** ** Addresses *)

(** A decimal byte without leading zeros. *)
Definition octet (s : string) : option Z :=
  match s with
  | String "0" (String _ _) => None
  | _ => ParseUint 8 s
  end.
Definition parseIPv4 (s : string) : option (list Z) :=
  match map octet (Split "." s) with
  | [Some a; Some b; Some c; Some d] => Some [a; b; c; d]
  | _ => None
  end.

(** The leading hexadecimal digits, their number and their value. *)
Fixpoint hex_span (s : string) (count : nat) (acc : N) : nat * N * string :=
  match s with
  | String a s1 => match hex_value a with Some v => hex_span s1 (S count) (16 * acc + v)%N | None => (count, acc, s) end
  | EmptyString => (count, acc, "")
  end.

(** The groups of an IPv6 address: the bytes [ip] read so far, and where the
    ellipsis is; at most eight groups are read. *)
Fixpoint groups (fuel : nat) (ip : list Z) (ellipsis : option nat) (s : string) : option (list Z * option nat * string) :=
  match fuel with
  | O => Some (ip, ellipsis, s)
  | S fuel =>
      let '(count, acc, rest) := hex_span s 0 0 in
      if (count =? 0)%nat || (4 <? count)%nat then None else
      match rest with
      | String "." _ =>
          if (bool_decide (ellipsis = None) && negb (length ip =? 12)%nat) || (12 <? length ip)%nat then None
          else v4 ← parseIPv4 s; Some (ip ++ v4, ellipsis, "")
      | _ =>
          let ip := ip ++ [Z.of_N (acc / 256); Z.of_N (acc mod 256)] in
          match rest with
          | EmptyString => Some (ip, ellipsis, "")
          | String ":" (String b s1) =>
              if Ascii.eqb b ":" then
                if bool_decide (ellipsis ≠ None) then None
                else match s1 with
                     | EmptyString => Some (ip, Some (length ip), "")
                     | _ => groups fuel ip (Some (length ip)) s1
                     end
              else groups fuel ip ellipsis (String b s1)
          | _ => None
          end
      end
  end.

(** An address without a zone: package net refuses the others. *)
Definition parseIPv6 (s : string) : option (list Z) :=
  if negb (no_char "%" s) then None
  else if bool_decide (s = "::") then Some (replicate 16 0)
  else
    '(ip, ellipsis, rest) ←
      match s with
      | String ":" (String ":" s1) => groups 8 [] (Some 0%nat) s1
      | _ => groups 8 [] None s
      end;
    if negb (bool_decide (rest = "")) then None
    else match ellipsis with
         | Some e => if (length ip <? 16)%nat then Some (take e ip ++ replicate (16 - length ip) 0 ++ drop e ip) else None
         | None => if (length ip <? 16)%nat then None else Some ip
         end.

(** The first byte of [s] among [cs]. *)
Fixpoint first_of (cs : list ascii) (s : string) : option ascii :=
  match s with
  | String a s1 => if existsb (Ascii.eqb a) cs then Some a else first_of cs s1
  | EmptyString => None
  end.

(** net.ParseIP: sixteen bytes, an IPv4 address in its IPv6 form. *)
Definition ParseIP (s : string) : option (list Z) :=
  match first_of ["."%char; ":"%char; "%"%char] s with
  | Some "."%char => v4 ← parseIPv4 s; Some (replicate 10 0 ++ [255; 255] ++ v4)
  | Some ":"%char => parseIPv6 s
  | _ => None
  end.

(** [IP.IsLoopback] of sixteen bytes. *)
Definition IsLoopback (ip : list Z) : bool :=
  if bool_decide (take 12 ip = replicate 10 0 ++ [255; 255]) then nth 12 ip 0 =? 127
  else bool_decide (ip = replicate 15 0 ++ [1]).

Example ex_split :
  (SplitHostPort "0.0.0.0:50051", SplitHostPort "[::1]:80", SplitHostPort ":80", SplitHostPort "::1:80",
   SplitHostPort "host", SplitHostPort "[::1]", SplitHostPort "[a]b:1") =
  (Some ("0.0.0.0", "50051"), Some ("::1", "80"), Some ("", "80"), None, None, None, None).
Proof. vm_compute. reflexivity. Qed.

Example ex_loopback :
  map (λ s, IsLoopback <$> ParseIP s)
    ["127.0.0.1"; "::1"; "::ffff:127.1.2.3"; "0:0:0:0:0:0:0:1"; "127.0.0.01"; "10.0.0.1"; "1::"; "::"; "::1%lo"; "1:2:3"; "localhost"] =
  [Some true; Some true; Some true; Some true; None; Some false; Some false; Some false; None; None; None].
Proof. vm_compute. reflexivity. Qed.

(** ** Facts *)

Lemma cut_at_app c a b : no_char c a = true → cut_at c (a +:+ String c b) = Some (a, b).
Proof.
  induction a as [|x a IH]; intros Ha; cbn [String.append cut_at]; [by rewrite Ascii.eqb_refl|].
  cbn [no_char] in Ha. apply andb_true_iff in Ha as [Hx Ha]. apply negb_true_iff in Hx. by rewrite Hx, IH.
Qed.

Lemma no_char_srev c s : no_char c (srev s) = no_char c s.
Proof.
  induction s as [|a s IH]; [done|]. change (String a s) with (String a "" +:+ s).
  rewrite srev_app, !no_char_append, IH. apply andb_comm.
Qed.

Lemma cut_last_app c a b : no_char c b = true → cut_last c (a +:+ String c b) = Some (a, b).
Proof.
  intros Hb. unfold cut_last. change (String c b) with (String c "" +:+ b). rewrite append_assoc, !srev_app.
  change (srev b +:+ srev (String c "") +:+ srev a) with (srev b +:+ String c (srev a)).
  rewrite cut_at_app by (by rewrite no_char_srev). cbn [mbind option_bind]. by rewrite !srev_involutive.
Qed.

(** The parts of an address come back, if they are a host and a port. *)
Definition host_ok (host : string) : Prop := no_char "[" host = true ∧ no_char "]" host = true.
Definition port_ok (port : string) : Prop :=
  no_char ":" port = true ∧ no_char "[" port = true ∧ no_char "]" port = true.

Lemma SplitHostPort_Join host port :
  host_ok host → port_ok port → SplitHostPort (JoinHostPort host port) = Some (host, port).
Proof.
  intros [Ho Hc] (Pc & Po & Pb). unfold JoinHostPort. destruct (no_char ":" host) eqn:Hcol.
  - unfold SplitHostPort. change (host +:+ ":" +:+ port) with (host +:+ String ":" port).
    rewrite cut_last_app by done. cbn [mbind option_bind].
    assert (no_char "[" (host +:+ String ":" port) && no_char "]" (host +:+ String ":" port) = true) as Hall.
    { rewrite !no_char_append. cbn [no_char]. by rewrite Ho, Hc, Po, Pb. }
    destruct host as [|a host].
    { cbn [String.append] in *. by rewrite Hcol, <- andb_assoc, Hall. }
    cbn [String.append] in *. assert (Ascii.eqb a "[" = false) as Ha.
    { cbn [no_char] in Ho. apply andb_true_iff in Ho as [Ho _]. by apply negb_true_iff. }
    rewrite Hcol, <- andb_assoc, Hall. destruct a as [[] [] [] [] [] [] [] []]; try reflexivity. discriminate Ha.
  - unfold SplitHostPort. change ("[" +:+ host +:+ "]:" +:+ port) with (String "[" (host +:+ String "]" (String ":" port))).
    replace (String "[" (host +:+ String "]" (String ":" port))) with ((String "[" (host +:+ "]")) +:+ String ":" port) at 1
      by (cbn [String.append]; by rewrite <- append_assoc).
    rewrite cut_last_app by done. cbn [mbind option_bind]. rewrite cut_at_app by done. cbn [mbind option_bind].
    rewrite Pc, no_char_append, Ho. cbn [no_char]. by rewrite Po, Pb.
Qed.
End Net.
