(* ===== verification/Bundle.v ===== *)
(** * Access bundles

    internal/accessbundle/bundle.go; IssueJoinBundle of
    internal/server/admin_console_service.go, which makes a bundle for a new
    client; and parseBundleJSON of cmd/roodox_client_import/main.go, which
    reads one.  JSON text is [Json]; a raw message is its text. *)

From stdpp Require Import pretty.
From S2P Require Import Prelude GoStrings JsonStrings StringLists StrConv Json Net ControlPlane.
From Stdlib Require Import Ascii.
Open Scope string_scope.
Open Scope Z_scope.
Open Scope list_scope.

Module AccessBundle.
Import Json Net.

(** ** internal/accessbundle/bundle.go *)

Definition DefaultVersion : Z := 1.
Definition DefaultServiceDiscoveryMode : string := "static".

Record Overlay := mkOverlay { ov_Provider : string; ov_JoinConfig : string }.
Record ServiceDiscovery := mkServiceDiscovery {
  Mode : string; Host : string; Port : Z; UseTLS : bool; TLSServerName : string;
}.
Record Roodox := mkRoodox {
  ServerID : string; DeviceGroup : string; SharedSecret : string;
  DeviceID : string; DeviceName : string; DeviceRole : string;
}.
Record Bundle := mkBundle {
  Version : Z; b_Overlay : Overlay; b_ServiceDiscovery : ServiceDiscovery; b_Roodox : Roodox;
}.

(** The loop of [normalizeSlug]: a run of other bytes becomes one dash.  A rune
    that is not ASCII is such a run. *)
Fixpoint slug (lastDash : bool) (s : string) : string :=
  match s with
  | EmptyString => ""
  | String r s' =>
      if byte_in 97 122 r || byte_in 48 57 r then String r (slug false s')
      else if negb lastDash then String "-" (slug true s')
      else slug true s'
  end.

Section bundle.
Context `{GoUnicode}.

Definition normalizeSlug (value : string) : string :=
  let value := ToLower (TrimSpace value) in
  if bool_decide (value = "") then "" else Trim (slug false value) "-".

Definition normalizeSlugWithDefault (value fallback : string) : string :=
  let value := normalizeSlug value in
  if bool_decide (value = "") then normalizeSlug fallback else value.

Definition nonZeroUint32 (value fallback : Z) : Z := if value =? 0 then fallback else value.

Definition Normalize (b : Bundle) : Bundle := {|
  Version := nonZeroUint32 (Version b) DefaultVersion;
  b_Overlay := {|
    ov_Provider := normalizeSlug (ov_Provider (b_Overlay b));
    ov_JoinConfig :=
      if bool_decide (ov_JoinConfig (b_Overlay b) = "") then "{}" else ov_JoinConfig (b_Overlay b);
  |};
  b_ServiceDiscovery := {|
    Mode := normalizeSlugWithDefault (Mode (b_ServiceDiscovery b)) DefaultServiceDiscoveryMode;
    Host := TrimSpace (Host (b_ServiceDiscovery b));
    Port := Port (b_ServiceDiscovery b);
    UseTLS := UseTLS (b_ServiceDiscovery b);
    TLSServerName := TrimSpace (TLSServerName (b_ServiceDiscovery b));
  |};
  b_Roodox := {|
    ServerID := TrimSpace (ServerID (b_Roodox b));
    DeviceGroup := TrimSpace (DeviceGroup (b_Roodox b));
    SharedSecret := TrimSpace (SharedSecret (b_Roodox b));
    DeviceID := TrimSpace (DeviceID (b_Roodox b));
    DeviceName := TrimSpace (DeviceName (b_Roodox b));
    DeviceRole := TrimSpace (DeviceRole (b_Roodox b));
  |};
|}.

Definition Validate (b : Bundle) : result goerr unit :=
  let b := Normalize b in
  let sd := b_ServiceDiscovery b in
  if bool_decide (ov_Provider (b_Overlay b) = "") then Err (ErrNew "overlay provider is required")
  else if negb (Valid (ov_JoinConfig (b_Overlay b))) then Err (ErrNew "overlay join config must be valid JSON")
  else if bool_decide (Mode sd = "") then Err (ErrNew "service discovery mode is required")
  else if bool_decide (Mode sd = "static") && bool_decide (Host sd = "")
  then Err (ErrNew "service discovery host is required for static mode")
  else if bool_decide (Mode sd = "static") && (Port sd =? 0)
  then Err (ErrNew "service discovery port is required for static mode")
  else if bool_decide (ServerID (b_Roodox b) = "") then Err (ErrNew "roodox server id is required")
  else if bool_decide (DeviceGroup (b_Roodox b) = "") then Err (ErrNew "roodox device group is required")
  else Ok tt.

(** A field with the option omitempty. *)
Definition omitempty (name value : string) : list (string * json) :=
  if bool_decide (value = "") then [] else [(json_string name, JString value)].

(** [fileBundle] as json.Marshal writes it, [joinConfig] being the value of the
    raw message. *)
Definition file_json (b : Bundle) (joinConfig : json) : json :=
  let sd := b_ServiceDiscovery b in
  let rx := b_Roodox b in
  JObj [
    (json_string "version", JUint (Version b));
    (json_string "overlayProvider", JString (ov_Provider (b_Overlay b)));
    (json_string "overlayJoinConfig", joinConfig);
    (json_string "serviceDiscovery", JObj [
      (json_string "mode", JString (Mode sd));
      (json_string "host", JString (Host sd));
      (json_string "port", JUint (Port sd));
      (json_string "useTLS", JBool (UseTLS sd));
      (json_string "tlsServerName", JString (TLSServerName sd))]);
    (json_string "roodox", JObj ([
      (json_string "serverID", JString (ServerID rx));
      (json_string "deviceGroup", JString (DeviceGroup rx));
      (json_string "sharedSecret", JString (SharedSecret rx))] ++
      omitempty "deviceID" (DeviceID rx) ++
      omitempty "deviceName" (DeviceName rx) ++
      omitempty "deviceRole" (DeviceRole rx)))].

Definition err_json : goerr := ErrNew "json: error".

(** json.MarshalIndent of a [fileBundle]. *)
Definition marshal_file (b : Bundle) : result goerr string :=
  match parse (ov_JoinConfig (b_Overlay b)) with
  | None => Err err_json
  | Some v => match MarshalIndent (file_json b (escape_html v)) with Some text => Ok text | None => Err err_json end
  end.

Definition MarshalJSONFile (b : Bundle) : result goerr string :=
  let b := Normalize b in
  try _ := Validate b in
  marshal_file b.

(** ** IssueJoinBundle *)

Record IssueJoinBundleRequest := mkIssueRequest {
  rq_OverlayProvider : string; rq_OverlayJoinConfigJson : string; rq_DeviceGroup : string;
  rq_DeviceId : string; rq_DeviceName : string; rq_DeviceRole : string;
}.

Record JoinBundle := mkJoin {
  pb_Version : Z; pb_OverlayProvider : string; pb_OverlayJoinConfigJson : string;
  pb_ServiceDiscoveryMode : string; pb_ServiceHost : string; pb_ServicePort : Z; pb_UseTls : bool;
  pb_TlsServerName : string; pb_ServerId : string; pb_DeviceGroup : string; pb_SharedSecret : string;
  pb_DeviceId : string; pb_DeviceName : string; pb_DeviceRole : string;
}.

(** [coalesceNonEmpty] and the configuration of the service are those of the
    control plane; [config] is what [NewAdminConsoleService] normalised. *)
Definition IssueJoinBundle (config : Control.ControlPlaneConfig) (req : IssueJoinBundleRequest) :
    result status (string * JoinBundle) :=
  let jb := Control.cc_JoinBundle config in
  let overlayProvider := Control.coalesceNonEmpty [rq_OverlayProvider req; Control.jb_OverlayProvider jb] in
  if bool_decide (overlayProvider = "")
  then Err (failedPrecondition "join bundle overlay provider is not configured")
  else
    let serviceDiscovery := Control.jb_ServiceDiscovery jb in
    if bool_decide (TrimSpace (Control.sd_Host serviceDiscovery) = "") || (Control.sd_Port serviceDiscovery =? 0)
    then Err (failedPrecondition "join bundle service discovery host/port is not configured")
    else
      let overlayJoinConfigJSON := TrimSpace (rq_OverlayJoinConfigJson req) in
      let overlayJoinConfigJSON :=
        if bool_decide (overlayJoinConfigJSON = "") then Control.jb_OverlayJoinConfigJSON jb else overlayJoinConfigJSON in
      let overlayJoinConfigJSON := if bool_decide (overlayJoinConfigJSON = "") then "{}" else overlayJoinConfigJSON in
      let deviceGroup := Control.coalesceNonEmpty [rq_DeviceGroup req; Control.cc_DefaultDeviceGroup config] in
      let bundleModel := {|
        Version := DefaultVersion;
        b_Overlay := {| ov_Provider := overlayProvider; ov_JoinConfig := overlayJoinConfigJSON |};
        b_ServiceDiscovery := {|
          Mode := Control.sd_Mode serviceDiscovery;
          Host := Control.sd_Host serviceDiscovery;
          Port := Control.sd_Port serviceDiscovery;
          UseTLS := Control.sd_UseTLS serviceDiscovery;
          TLSServerName := Control.sd_TLSServerName serviceDiscovery;
        |};
        b_Roodox := {|
          ServerID := Control.cc_ServerID config;
          DeviceGroup := deviceGroup;
          SharedSecret := Control.jb_SharedSecret jb;
          DeviceID := TrimSpace (rq_DeviceId req);
          DeviceName := TrimSpace (rq_DeviceName req);
          DeviceRole := TrimSpace (rq_DeviceRole req);
        |};
      |} in
      let normalizedBundle := Normalize bundleModel in
      try bundleJSON := map_err (λ err, invalidArgument (err_text err)) (MarshalJSONFile normalizedBundle) in
      Ok (bundleJSON, {|
        pb_Version := Version normalizedBundle;
        pb_OverlayProvider := ov_Provider (b_Overlay normalizedBundle);
        pb_OverlayJoinConfigJson := ov_JoinConfig (b_Overlay normalizedBundle);
        pb_ServiceDiscoveryMode := Mode (b_ServiceDiscovery normalizedBundle);
        pb_ServiceHost := Host (b_ServiceDiscovery normalizedBundle);
        pb_ServicePort := Port (b_ServiceDiscovery normalizedBundle);
        pb_UseTls := UseTLS (b_ServiceDiscovery normalizedBundle);
        pb_TlsServerName := TLSServerName (b_ServiceDiscovery normalizedBundle);
        pb_ServerId := Control.cc_ServerID config;
        pb_DeviceGroup := deviceGroup;
        pb_SharedSecret := Control.jb_SharedSecret jb;
        pb_DeviceId := TrimSpace (rq_DeviceId req);
        pb_DeviceName := TrimSpace (rq_DeviceName req);
        pb_DeviceRole := TrimSpace (rq_DeviceRole req);
      |}).

(** ** cmd/roodox_client_import/main.go *)

Definition discovery_fields (ms : list (string * string)) (old : ServiceDiscovery) : option ServiceDiscovery :=
  mode ← field dec_string "mode" ms (Mode old);
  host ← field dec_string "host" ms (Host old);
  port ← field dec_uint32 "port" ms (Port old);
  useTLS ← field dec_bool "useTLS" ms (UseTLS old);
  tlsServerName ← field dec_string "tlsServerName" ms (TLSServerName old);
  Some (mkServiceDiscovery mode host port useTLS tlsServerName).

Definition roodox_fields (ms : list (string * string)) (old : Roodox) : option Roodox :=
  serverID ← field dec_string "serverID" ms (ServerID old);
  deviceGroup ← field dec_string "deviceGroup" ms (DeviceGroup old);
  sharedSecret ← field dec_string "sharedSecret" ms (SharedSecret old);
  deviceID ← field dec_string "deviceID" ms (DeviceID old);
  deviceName ← field dec_string "deviceName" ms (DeviceName old);
  deviceRole ← field dec_string "deviceRole" ms (DeviceRole old);
  Some (mkRoodox serverID deviceGroup sharedSecret deviceID deviceName deviceRole).

(** The fields of a [bundleFile], as a bundle. *)
Definition bundle_fields (ms : list (string * string)) (old : Bundle) : option Bundle :=
  version ← field dec_uint32 "version" ms (Version old);
  provider ← field dec_string "overlayProvider" ms (ov_Provider (b_Overlay old));
  joinConfig ← field dec_raw "overlayJoinConfig" ms (ov_JoinConfig (b_Overlay old));
  discovery ← field (dec_struct discovery_fields) "serviceDiscovery" ms (b_ServiceDiscovery old);
  roodox ← field (dec_struct roodox_fields) "roodox" ms (b_Roodox old);
  Some (mkBundle version (mkOverlay provider joinConfig) discovery roodox).

Definition zero_bundle : Bundle :=
  mkBundle 0 (mkOverlay "" "") (mkServiceDiscovery "" "" 0 false "") (mkRoodox "" "" "" "" "" "").

Definition parseBundleJSON (raw : string) : result goerr (Bundle * string) :=
  if bool_decide (raw = "") then Err (ErrNew "connection code bundle is empty")
  else match Unmarshal bundle_fields raw zero_bundle with
       | None => Err (ErrWrap "parse join bundle failed" err_json)
       | Some payload =>
           let bundle := Normalize payload in
           try _ := map_err (ErrWrap "validate join bundle failed") (Validate bundle) in
           try prettyBundle := map_err (ErrWrap "encode join bundle failed") (MarshalJSONFile bundle) in
           Ok (bundle, prettyBundle)
       end.

Definition bundleServiceAddr (bundle : Bundle) : string :=
  let host := TrimSpace (Host (b_ServiceDiscovery bundle)) in
  JoinHostPort (Trim host "[]") (pretty (Port (b_ServiceDiscovery bundle))).
End bundle.
End AccessBundle.
