(* ===== verification/BundleTheorems.v ===== *)
(** * Theorems on access bundles

    Normalisation is idempotent, and what the server issues the client reads
    back. *)

From stdpp Require Import pretty.
From S2P Require Import Prelude GoStrings JsonStrings StringLists StrConv Json JsonTheorems Net ControlPlane Bundle.
From Stdlib Require Import Ascii.
Open Scope string_scope.
Open Scope Z_scope.
Open Scope list_scope.

Module BundleTheorems.
Import Json JsonTheorems Net AccessBundle.

(** ** Slugs *)

Definition slug_char (a : ascii) : bool := byte_in 97 122 a || byte_in 48 57 a.

(** Letters and digits, with single dashes between them: [dash] says that the
    text before ended so that no dash may follow. *)
Fixpoint slug_text (dash : bool) (s : string) : bool :=
  match s with
  | EmptyString => negb dash
  | String a s' => if slug_char a then slug_text false s' else Ascii.eqb a "-" && negb dash && slug_text true s'
  end.

Definition is_slug (s : string) : Prop := s = "" ∨ (slug_text false s = true ∧ match s with String a _ => slug_char a = true | "" => True end).

Lemma slug_char_spec a :
  slug_char a = true → byte_in 33 126 a = true ∧ lower_byte a = a ∧ ascii7 a = true ∧ Ascii.eqb a "-" = false.
Proof. destruct a as [[] [] [] [] [] [] [] []]; vm_compute; intros H; try discriminate H; auto. Qed.

Lemma slug_text_plain dash s : slug_text dash s = true → plain s = true ∧ lower_ascii s = s ∧ is_ascii s = true.
Proof.
  revert dash. induction s as [|a s IH]; intros dash; [done|]. cbn [slug_text]. destruct (slug_char a) eqn:Ea.
  - intros (Hp & Hl & Ha)%IH. apply slug_char_spec in Ea as (E1 & E2 & E3 & _). cbn.
    rewrite E1, E2, Hp, Hl, Ha. unfold ascii7 in E3. by rewrite E3.
  - intros [[Hd _]%andb_true_iff (Hp & Hl & Ha)%IH]%andb_true_iff. apply Ascii.eqb_eq in Hd as ->.
    cbn. by rewrite Hp, Hl, Ha.
Qed.

Lemma slug_text_fix dash s : slug_text dash s = true → slug dash s = s.
Proof.
  revert dash. induction s as [|a s IH]; intros dash; [done|]. cbn [slug_text slug].
  change (byte_in 97 122 a || byte_in 48 57 a) with (slug_char a). destruct (slug_char a).
  - intros H. by rewrite IH.
  - intros [[Hd%Ascii.eqb_eq Hn]%andb_true_iff H]%andb_true_iff. rewrite Hn. subst a. by rewrite IH.
Qed.

(** *** Trimming dashes *)

Lemma slug_text_end dash s : slug_text dash s = true → s ≠ "" → ∃ s' a, s = s' +:+ String a "" ∧ slug_char a = true.
Proof.
  revert dash. induction s as [|a s IH]; intros dash Hs Hne; [done|]. cbn [slug_text] in Hs.
  destruct s as [|b s].
  - exists "", a. split; [done|]. destruct (slug_char a); [done|]. cbn in Hs. by rewrite andb_false_r in Hs.
  - assert (∃ d, slug_text d (String b s) = true) as [d Hd].
    { destruct (slug_char a); [by exists false|]. apply andb_true_iff in Hs as [_ Hs]. by exists true. }
    destruct (IH d Hd) as (s' & c & E & Hc); [done|]. exists (String a s'), c. by rewrite E.
Qed.

Definition is_dash (a : ascii) : bool := negb (no_char a "-").

Lemma is_dash_eqb a : is_dash a = Ascii.eqb a "-".
Proof. by destruct a as [[] [] [] [] [] [] [] []]. Qed.

Lemma slug_char_dash a : slug_char a = true → is_dash a = false.
Proof. rewrite is_dash_eqb. by intros (_ & _ & _ & ?)%slug_char_spec. Qed.

Lemma srev_snoc s b : srev (s +:+ String b "") = String b (srev s).
Proof. by rewrite srev_app. Qed.

Lemma trim_right_slug dash s : slug_text dash s = true → trim_right is_dash s = s.
Proof.
  intros Ht. destruct (decide (s = "")) as [-> | Hne]; [done|].
  destruct (slug_text_end _ _ Ht Hne) as (s' & b & -> & Hb). unfold trim_right.
  rewrite srev_snoc. cbn [trim_left]. rewrite slug_char_dash by done. by rewrite <- srev_snoc, srev_involutive.
Qed.

Lemma Trim_slug s : is_slug s → Trim s "-" = s.
Proof.
  intros [-> | [Ht Hf]]; [done|]. unfold Trim. fold is_dash.
  destruct s as [|a s]; [done|]. cbn [trim_left]. rewrite slug_char_dash by done. by eapply trim_right_slug.
Qed.

Lemma slug_shape dash s : ∃ p q, slug dash s = p +:+ q ∧
  (dash = true → match p with String a _ => slug_char a = true | "" => True end) ∧
  (p = "" ∨ slug_text dash p = true) ∧ (q = "" ∨ q = "-" ∧ (p = "" → dash = false)).
Proof.
  revert dash. induction s as [|a s IH]; intros dash; [exists "", ""; split_and!; auto|].
  cbn [slug]. change (byte_in 97 122 a || byte_in 48 57 a) with (slug_char a). destruct (slug_char a) eqn:Ea.
  - destruct (IH false) as (p & q & -> & _ & Hp & Hq). exists (String a p), q. split_and!; [done|done| |].
    + right. cbn [slug_text]. rewrite Ea. by destruct Hp as [-> | ?].
    + destruct Hq as [? | [? _]]; [by left|by right].
  - destruct dash; cbn [negb].
    + destruct (IH true) as (p & q & -> & H1 & H2 & H3). by exists p, q.
    + destruct (IH true) as (p & q & -> & H1 & H2 & H3). destruct p as [|b p].
      * exists "", "-". split_and!; [|done|by left|by right].
        destruct H3 as [-> | [-> H3]]; [done|]. by specialize (H3 eq_refl).
      * exists (String "-" (String b p)), q. split_and!; [done|done| |].
        -- right. change (slug_text false (String "-" (String b p))) with (slug_text true (String b p)).
           by destruct H2 as [|H2].
        -- destruct H3 as [? | [? _]]; [by left|by right].
Qed.

Lemma trim_left_app f p q : trim_left f p ≠ "" → trim_left f (p +:+ q) = trim_left f p +:+ q.
Proof.
  induction p as [|a p IH]; [done|]. cbn [String.append trim_left]. destruct (f a); [done|]. done.
Qed.

Lemma slug_trimmed s : is_slug (Trim (slug false s) "-").
Proof.
  destruct (slug_shape false s) as (p & q & -> & _ & Hp & Hq). unfold Trim, trim_right. fold is_dash.
  assert (is_slug (trim_left is_dash p)) as Hs.
  { destruct Hp as [-> | Hp]; [by left|]. destruct p as [|a p]; [by left|]. cbn [trim_left].
    rewrite is_dash_eqb. cbn [slug_text] in Hp. destruct (slug_char a) eqn:Ea.
    - assert (Ascii.eqb a "-" = false) as -> by (by apply slug_char_spec in Ea as (_ & _ & _ & ?)).
      right. split; [cbn [slug_text]; by rewrite Ea|done].
    - apply andb_true_iff in Hp as [[-> _]%andb_true_iff Hp]. destruct p as [|b p]; [by left|].
      cbn [slug_text] in Hp. cbn [trim_left]. rewrite is_dash_eqb. destruct (slug_char b) eqn:Eb.
      + assert (Ascii.eqb b "-" = false) as -> by (by apply slug_char_spec in Eb as (_ & _ & _ & ?)).
        right. split; [cbn [slug_text]; by rewrite Eb|done].
      + by rewrite andb_false_r in Hp. }
  assert (trim_left is_dash q = "") as Hq' by (by destruct Hq as [-> | [-> _]]).
  assert (∀ x, trim_left is_dash (srev (x +:+ q)) = trim_left is_dash (srev x)) as Hr.
  { intros x. rewrite srev_app. by destruct Hq as [-> | [-> _]]. }
  destruct (decide (trim_left is_dash p = "")) as [E|E].
  - assert (trim_left is_dash (p +:+ q) = "") as ->; [|by left].
    clear -E Hq'. induction p as [|a p IH]; [done|]. cbn [String.append trim_left] in *. destruct (is_dash a); [by apply IH|done].
  - rewrite trim_left_app, Hr by done.
    destruct Hs as [?|[Ht Hf]]; [done|]. pose proof (trim_right_slug _ _ Ht) as E'. unfold trim_right in E'.
    rewrite E'. by right.
Qed.

(** Which field a key is for. *)
Ltac decide_keys :=
  match goal with |- context [key_matches ?k ?n] => let b := eval vm_compute in (key_matches k n) in change (key_matches k n) with b end;
  cbn iota.

Section theorems.
Context `{GoUnicode}.

Lemma normalizeSlug_slug value : is_slug (normalizeSlug value).
Proof. unfold normalizeSlug. case_bool_decide; [by left|]. apply slug_trimmed. Qed.

Lemma normalizeSlug_fix s : is_slug s → normalizeSlug s = s.
Proof.
  intros Hs. unfold normalizeSlug. destruct Hs as [-> | [Ht Hf]]; [done|].
  destruct (slug_text_plain _ _ Ht) as (Hp & Hl & Ha).
  rewrite (TrimSpace_plain _ Hp). unfold ToLower. rewrite Ha, Hl.
  case_bool_decide; [done|]. rewrite (slug_text_fix _ _ Ht). apply Trim_slug. by right.
Qed.

Lemma normalizeSlugWithDefault_fix value fallback :
  let s := normalizeSlugWithDefault value fallback in normalizeSlugWithDefault s fallback = s.
Proof.
  unfold normalizeSlugWithDefault. cbn zeta. destruct (bool_decide (normalizeSlug value = "")) eqn:E.
  - rewrite (normalizeSlug_fix (normalizeSlug fallback)) by apply normalizeSlug_slug.
    by destruct (bool_decide (normalizeSlug fallback = "")).
  - rewrite (normalizeSlug_fix (normalizeSlug value)) by apply normalizeSlug_slug. by rewrite E.
Qed.

Lemma Normalize_idem b : Normalize (Normalize b) = Normalize b.
Proof.
  unfold Normalize.
  cbn [Version b_Overlay b_ServiceDiscovery b_Roodox ov_Provider ov_JoinConfig Mode Host Port UseTLS TLSServerName
    ServerID DeviceGroup SharedSecret DeviceID DeviceName DeviceRole].
  rewrite !TrimSpace_idem, normalizeSlugWithDefault_fix.
  rewrite (normalizeSlug_fix (normalizeSlug _)) by apply normalizeSlug_slug.
  f_equal.
  - unfold nonZeroUint32. destruct (Version b =? 0) eqn:E; [done|]. by rewrite E.
  - f_equal. destruct (bool_decide (ov_JoinConfig (b_Overlay b) = "")) eqn:E; [done|]. by rewrite E.
Qed.

(** ** Reading what was written *)

Lemma field_cons {A} (dec : string → A → option A) name m ms zero :
  field dec name (m :: ms) zero =
    (a ← (if key_matches m.1 name then dec m.2 zero else Some zero); field dec name ms a).
Proof.
  unfold field. cbn [foldl mbind option_bind].
  destruct (if key_matches m.1 name then dec m.2 zero else Some zero) as [a|]; [done|].
  induction ms as [|m' ms IH]; [done|exact IH].
Qed.

Lemma field_nil {A} (dec : string → A → option A) name zero : field dec name [] zero = Some zero.
Proof. done. Qed.

Definition rendered (ind : bool) (l : list (string * json)) (d : nat) : list (string * string) :=
  map (λ m, (m.1, render ind d m.2)) l.

Lemma field_omitempty ind name n v d ms zero :
  field dec_string name (rendered ind (omitempty n v) d ++ ms) zero =
    field dec_string name ms
      (if key_matches (json_string n) name then if bool_decide (v = "") then zero else coerce_utf8 v else zero).
Proof.
  unfold omitempty. case_bool_decide; cbn [rendered map app].
  - by destruct (key_matches _ _).
  - rewrite field_cons. cbn [fst snd render JString]. rewrite dec_string_json. by destruct (key_matches _ _).
Qed.

(** A valid UTF-8 text. *)
Definition utf8 (s : string) : Prop := coerce_utf8 s = s.

Definition utf8_discovery (sd : ServiceDiscovery) : Prop := utf8 (Mode sd) ∧ utf8 (Host sd) ∧ utf8 (TLSServerName sd).
Definition utf8_roodox (rx : Roodox) : Prop :=
  utf8 (ServerID rx) ∧ utf8 (DeviceGroup rx) ∧ utf8 (SharedSecret rx) ∧
  utf8 (DeviceID rx) ∧ utf8 (DeviceName rx) ∧ utf8 (DeviceRole rx).

Definition discovery_members (sd : ServiceDiscovery) : list (string * json) := [
  (json_string "mode", JString (Mode sd));
  (json_string "host", JString (Host sd));
  (json_string "port", JUint (Port sd));
  (json_string "useTLS", JBool (UseTLS sd));
  (json_string "tlsServerName", JString (TLSServerName sd))].
Definition roodox_members (rx : Roodox) : list (string * json) := [
  (json_string "serverID", JString (ServerID rx));
  (json_string "deviceGroup", JString (DeviceGroup rx));
  (json_string "sharedSecret", JString (SharedSecret rx))] ++
  omitempty "deviceID" (DeviceID rx) ++ omitempty "deviceName" (DeviceName rx) ++ omitempty "deviceRole" (DeviceRole rx).

Ltac each_field :=
  cbn [rendered map fst snd render JString JUint JBool app];
  repeat ((rewrite field_cons; cbn [fst snd]; decide_keys;
    rewrite ?dec_string_json, ?dec_bool_json, ?dec_uint32_pretty by done; cbn [mbind option_bind])
    || (rewrite field_omitempty; decide_keys));
  rewrite ?field_nil; cbn [mbind option_bind].

Lemma discovery_decode ind sd d old :
  utf8_discovery sd → 0 ≤ Port sd < two32 → discovery_fields (rendered ind (discovery_members sd) d) old = Some sd.
Proof.
  intros (U1 & U2 & U3) Hp. unfold discovery_fields, discovery_members.
  each_field. rewrite U1, U2, U3. by destruct sd.
Qed.

Lemma roodox_decode ind rx d :
  utf8_roodox rx → roodox_fields (rendered ind (roodox_members rx) d) (mkRoodox "" "" "" "" "" "") = Some rx.
Proof.
  intros (U1 & U2 & U3 & U4 & U5 & U6). unfold roodox_fields, roodox_members.
  assert (∀ v, utf8 v → (if bool_decide (v = "") then "" else coerce_utf8 v) = v) as Homit.
  { intros v Hv. by case_bool_decide. }
  assert (rendered ind ([(json_string "serverID", JString (ServerID rx)); (json_string "deviceGroup", JString (DeviceGroup rx));
      (json_string "sharedSecret", JString (SharedSecret rx))] ++ omitempty "deviceID" (DeviceID rx) ++
      omitempty "deviceName" (DeviceName rx) ++ omitempty "deviceRole" (DeviceRole rx)) d =
    rendered ind [(json_string "serverID", JString (ServerID rx)); (json_string "deviceGroup", JString (DeviceGroup rx));
      (json_string "sharedSecret", JString (SharedSecret rx))] d ++ rendered ind (omitempty "deviceID" (DeviceID rx)) d ++
      rendered ind (omitempty "deviceName" (DeviceName rx)) d ++ rendered ind (omitempty "deviceRole" (DeviceRole rx)) d ++ []) as ->.
  { unfold rendered. by rewrite !map_app, app_nil_r. }
  set (o1 := rendered ind (omitempty "deviceID" _) d). set (o2 := rendered ind (omitempty "deviceName" _) d).
  set (o3 := rendered ind (omitempty "deviceRole" _) d). cbn [rendered map app]. unfold o1, o2, o3.
  each_field. rewrite !Homit, U1, U2, U3 by done. by destruct rx.
Qed.

(** ** The file of a bundle *)

Definition numbers_ok (b : Bundle) : Prop := 0 ≤ Version b < two32 ∧ 0 ≤ Port (b_ServiceDiscovery b) < two32.
Definition utf8_bundle (b : Bundle) : Prop :=
  utf8 (ov_Provider (b_Overlay b)) ∧ utf8_discovery (b_ServiceDiscovery b) ∧ utf8_roodox (b_Roodox b).
Definition with_join (b : Bundle) (j : string) : Bundle :=
  mkBundle (Version b) (mkOverlay (ov_Provider (b_Overlay b)) j) (b_ServiceDiscovery b) (b_Roodox b).

Lemma string_member_wf n s : is_key (json_string n, JString s).1 ∧ wf (json_string n, JString s).2.
Proof. split; [apply json_string_key|apply JString_wf]. Qed.

Lemma discovery_wf sd : 0 ≤ Port sd → wf (JObj (discovery_members sd)).
Proof.
  intros Hp. constructor. repeat (apply Forall_cons; split; [split; [apply json_string_key|]|]); [..|constructor];
    first [apply JString_wf|by apply JUint_wf|apply JBool_wf].
Qed.

Lemma roodox_wf rx : wf (JObj (roodox_members rx)).
Proof.
  assert (∀ n v, Forall (λ m, is_key m.1 ∧ wf m.2) (omitempty n v)) as Ho.
  { intros n v. unfold omitempty. case_bool_decide; [constructor|]. apply Forall_singleton, string_member_wf. }
  constructor. unfold roodox_members. rewrite !Forall_app. split_and!; [|by apply Ho..].
  repeat (apply Forall_cons; split; [apply string_member_wf|]). constructor.
Qed.

Lemma file_json_wf b v : numbers_ok b → wf v → wf (file_json b v).
Proof.
  intros [Hv Hp] Hwf. constructor.
  repeat (apply Forall_cons; split; [split; [apply json_string_key|]|]); [| | | | |constructor].
  - apply JUint_wf. lia.
  - apply JString_wf.
  - done.
  - apply discovery_wf. lia.
  - apply roodox_wf.
Qed.

Lemma marshal_file_Ok b text :
  numbers_ok b → marshal_file b = Ok text →
  ∃ v, parse (ov_JoinConfig (b_Overlay b)) = Some v ∧ wf (escape_html v) ∧
    text = render true 0 (file_json b (escape_html v)) ∧ height (file_json b (escape_html v)) ≤ max_depth.
Proof.
  intros Hn. unfold marshal_file. destruct (parse _) as [v|] eqn:Ev; [|done].
  apply parse_sound in Ev as [[_ Hwf] _]. unfold MarshalIndent, Indent.
  destruct (parse (render false 0 _)) as [w|] eqn:Ep; [|done]. intros [= <-].
  apply parse_render_inv in Ep as [-> Hh]; [|by apply file_json_wf]. by exists v.
Qed.

Lemma marshal_file_text b v :
  numbers_ok b → parse (ov_JoinConfig (b_Overlay b)) = Some v → height (file_json b (escape_html v)) ≤ max_depth →
  marshal_file b = Ok (render true 0 (file_json b (escape_html v))).
Proof.
  intros Hn Hv Hh. unfold marshal_file. rewrite Hv. apply parse_sound in Hv as [[_ Hwf] _].
  unfold MarshalIndent, Indent. by rewrite parse_render by auto using file_json_wf.
Qed.

Lemma dec_struct_object {A} ind (fields : list (string * string) → A → option A) d l old :
  wf (JObj l) → height (JObj l) ≤ max_depth →
  dec_struct fields (render ind d (JObj l)) old = fields (rendered ind l (S d)) old.
Proof.
  intros Hwf Hh. unfold dec_struct. rewrite bool_decide_eq_false_2 by (by destruct l).
  by rewrite object_members_render.
Qed.

Lemma height_members l m h : m ∈ l → height (JObj l) ≤ h → height m.2 ≤ h - 1.
Proof.
  intros Hm. cbn [height]. assert (height m.2 ≤ foldr (λ (m : string * json) h, Z.max (height m.2) h) 0 l); [|lia].
  induction Hm as [m l|m m' l _ IH]; cbn; lia.
Qed.

Lemma Unmarshal_file ind d b v :
  numbers_ok b → utf8_bundle b → wf v → height (file_json b v) ≤ max_depth →
  Unmarshal bundle_fields (render ind d (file_json b v)) zero_bundle = Some (with_join b (render ind (S d) v)).
Proof.
  intros Hn (U1 & U2 & U3) Hwf Hh. unfold Unmarshal. rewrite top_render by auto using file_json_wf.
  cbn [mbind option_bind]. pose proof (file_json_wf b v Hn Hwf) as Hw. unfold file_json in *.
  rewrite dec_struct_object by done. destruct Hn as [Hv Hp].
  assert (∀ old, dec_struct discovery_fields (render ind (S d) (JObj (discovery_members (b_ServiceDiscovery b)))) old =
    Some (b_ServiceDiscovery b)) as Hd.
  { intros old. rewrite dec_struct_object; [by apply discovery_decode|apply discovery_wf; lia|by vm_compute]. }
  assert (dec_struct roodox_fields (render ind (S d) (JObj (roodox_members (b_Roodox b)))) (b_Roodox zero_bundle) =
    Some (b_Roodox b)) as Hr.
  { rewrite dec_struct_object; [by apply roodox_decode|apply roodox_wf|].
    unfold roodox_members, omitempty. by do 3 case_bool_decide. }
  unfold bundle_fields. fold (discovery_members (b_ServiceDiscovery b)). fold (roodox_members (b_Roodox b)).
  cbn [rendered map fst snd].
  change (render ind (S d) (JUint (Version b))) with (pretty (Version b)).
  change (render ind (S d) (JString (ov_Provider (b_Overlay b)))) with (json_string (ov_Provider (b_Overlay b))).
  repeat (rewrite field_cons; cbn [fst snd]; decide_keys;
    rewrite ?dec_string_json, ?dec_uint32_pretty, ?Hd, ?Hr by done; cbn [mbind option_bind dec_raw]).
  rewrite !field_nil. cbn [mbind option_bind]. by rewrite U1.
Qed.

Lemma file_json_with_join b j v : file_json (with_join b j) v = file_json b v.
Proof. done. Qed.

(** What the client makes of the value of a normalised, valid bundle, however it
    is written and with whatever configuration of the overlay. *)
Lemma import_bundle b w raw old :
  numbers_ok b → Normalize b = b → Validate b = Ok tt → wf w → height (file_json b (escape_html w)) ≤ max_depth →
  parse raw = Some w → raw ≠ "" → old ≠ "" → Unmarshal bundle_fields old zero_bundle = Some (with_join b raw) →
  parseBundleJSON old = Ok (with_join b raw, render true 0 (file_json b (escape_html w))).
Proof.
  intros Hn Hb Hval Hwf Hh Hp Hne Hold Hun. set (b' := with_join b raw) in *.
  assert (Normalize b' = b') as Hb'.
  { unfold Normalize in *. destruct b as [vv [pr jc] sd rx]. cbn in Hb |- *. injection Hb as E1 E2 _ E4 E5.
    unfold b', with_join. cbn. by rewrite (bool_decide_eq_false_2 _ Hne), E1, E2, E4, E5. }
  assert (Validate b' = Ok tt) as Hval'.
  { unfold Validate in *. rewrite Hb in Hval. rewrite Hb'. unfold Valid in *. unfold b', with_join.
    cbn [b_Overlay b_ServiceDiscovery b_Roodox ov_Provider ov_JoinConfig]. rewrite Hp.
    repeat case_match; try done. }
  unfold parseBundleJSON. rewrite bool_decide_eq_false_2 by done.
  rewrite Hun, Hb', Hval'. cbn [map_err res_bind]. unfold MarshalJSONFile. rewrite Hb', Hval'. cbn [res_bind].
  by rewrite (marshal_file_text b' w).
Qed.

(** The file itself is read back. *)
Lemma parse_marshalled b text :
  numbers_ok b → utf8_bundle b → Normalize b = b → MarshalJSONFile b = Ok text →
  ∃ v, parse (ov_JoinConfig (b_Overlay b)) = Some v ∧
    parseBundleJSON text = Ok (with_join b (render true 1 (escape_html v)), text).
Proof.
  intros Hn Hu Hb. unfold MarshalJSONFile. rewrite Hb.
  destruct (Validate b) as [[]|e] eqn:Hval; [|done]. cbn [res_bind].
  intros (v & Hv & Hwf & -> & Hh)%marshal_file_Ok; [|done]. exists v. split; [done|].
  set (w := escape_html v) in *.
  assert (height w ≤ max_depth) as Hw.
  { pose proof (height_members _ (json_string "overlayJoinConfig", w) _ ltac:(right; right; left) Hh). cbn in *. lia. }
  assert (escape_html w = w) as Ew by apply escape_html_idemp. rewrite <- Ew at 3.
  apply import_bundle; [done..|by rewrite Ew|by apply parse_render| |done|by apply Unmarshal_file].
  intros E. pose proof (render_starts true 1 w Hwf) as Hst. by rewrite E in Hst.
Qed.

(** ** From the server to the client *)

Lemma ascii_utf8 s : is_ascii s = true → utf8 s.
Proof.
  unfold utf8. induction s as [|a s IH]; [done|]. cbn [is_ascii coerce_utf8]. intros [Ha Hs]%andb_true_iff.
  unfold ascii7. by rewrite Ha, IH.
Qed.

Lemma slug_utf8 s : is_slug s → utf8 s.
Proof. intros [-> | [Ht _]]; [done|]. apply ascii_utf8. by apply slug_text_plain in Ht as (_ & _ & ?). Qed.

Lemma all_digits_no_char c s : all_digits s = true → is_digit c = false → no_char c s = true.
Proof.
  intros Hs Hc. induction s as [|a s IH]; [done|]. cbn in *. apply andb_true_iff in Hs as [Ha Hs]. rewrite IH by done.
  destruct (Ascii.eqb_spec a c) as [-> |]; [congruence|done].
Qed.

Lemma trim_left_none cut s : match s with String a _ => cut a = false | "" => True end → trim_left cut s = s.
Proof. destruct s; [done|]. cbn. by intros ->. Qed.

Lemma Trim_host host : host_ok host → Trim host "[]" = host.
Proof.
  intros [Ho Hc]. unfold Trim, trim_right. set (cut := λ a, negb (no_char a "[]")).
  assert (∀ s, no_char "[" s = true → no_char "]" s = true → trim_left cut s = s) as Hl.
  { intros [|a s] H1 H2; [done|]. apply trim_left_none. cbn in H1, H2.
    apply andb_true_iff in H1 as [H1 _], H2 as [H2 _]. unfold cut.
    destruct a as [[] [] [] [] [] [] [] []]; vm_compute in *; congruence. }
  rewrite (Hl host), Hl by (done || by rewrite no_char_srev). apply srev_involutive.
Qed.

(** The address of a bundle leads to its host and port. *)
Lemma bundleServiceAddr_parts b :
  host_ok (TrimSpace (Host (b_ServiceDiscovery b))) → 0 ≤ Port (b_ServiceDiscovery b) →
  SplitHostPort (bundleServiceAddr b) =
    Some (TrimSpace (Host (b_ServiceDiscovery b)), pretty (Port (b_ServiceDiscovery b))).
Proof.
  intros Hh Hp. unfold bundleServiceAddr. rewrite Trim_host by done. apply SplitHostPort_Join; [done|].
  destruct (pretty_digits _ Hp) as (Hd & _). repeat split; by apply all_digits_no_char.
Qed.

(** The message that a bundle stands for. *)
Definition message_of (b : Bundle) : JoinBundle :=
  let sd := b_ServiceDiscovery b in
  let rx := b_Roodox b in
  mkJoin (Version b) (ov_Provider (b_Overlay b)) (ov_JoinConfig (b_Overlay b)) (Mode sd) (Host sd) (Port sd) (UseTLS sd)
    (TLSServerName sd) (ServerID rx) (DeviceGroup rx) (SharedSecret rx) (DeviceID rx) (DeviceName rx) (DeviceRole rx).

Definition texts_of (m : JoinBundle) : list string :=
  [pb_ServiceHost m; pb_TlsServerName m; pb_ServerId m; pb_DeviceGroup m; pb_SharedSecret m;
   pb_DeviceId m; pb_DeviceName m; pb_DeviceRole m].

Lemma coalesce_trimmed l : TrimSpace (Control.coalesceNonEmpty l) = Control.coalesceNonEmpty l.
Proof. induction l as [|v l IH]; [done|]. cbn [Control.coalesceNonEmpty]. case_bool_decide; [done|]. apply TrimSpace_idem. Qed.

Lemma issued config req text m :
  IssueJoinBundle (Control.normalizeControlPlaneConfig config) req = Ok (text, m) →
  ∃ b, Normalize b = b ∧ message_of b = m ∧ MarshalJSONFile b = Ok text ∧ Version b = DefaultVersion.
Proof.
  unfold IssueJoinBundle. cbn zeta. destruct (bool_decide _); [done|]. destruct (_ || _); [done|].
  match goal with |- context [MarshalJSONFile ?b] => set (b0 := b) end.
  destruct (MarshalJSONFile b0) as [text'|] eqn:Em; [|done]. cbn [map_err res_bind]. intros [= -> <-].
  exists b0. split_and!; [apply Normalize_idem| |done|done].
  unfold message_of. f_equal.
  - cbn [b0 Normalize b_Roodox ServerID Control.normalizeControlPlaneConfig Control.cc_ServerID]. apply TrimSpace_idem.
  - apply coalesce_trimmed.
  - cbn [b0 Normalize b_Roodox SharedSecret Control.normalizeControlPlaneConfig Control.cc_JoinBundle
      Control.normalizeJoinBundle Control.jb_SharedSecret]. apply TrimSpace_idem.
  - apply TrimSpace_idem.
  - apply TrimSpace_idem.
  - apply TrimSpace_idem.
Qed.

(** The bundle behind an issued one. *)
Record issued_as (b : Bundle) (v : json) (text : string) (m : JoinBundle) : Prop := {
  ia_normal : Normalize b = b;
  ia_message : message_of b = m;
  ia_numbers : numbers_ok b;
  ia_utf8 : utf8_bundle b;
  ia_valid : Validate b = Ok tt;
  ia_join : parse (ov_JoinConfig (b_Overlay b)) = Some v;
  ia_wf : wf (escape_html v);
  ia_text : text = render true 0 (file_json b (escape_html v));
  ia_height : height (file_json b (escape_html v)) ≤ max_depth;
}.

Lemma issued_bundle config req text m :
  IssueJoinBundle (Control.normalizeControlPlaneConfig config) req = Ok (text, m) →
  Forall utf8 (texts_of m) → 0 ≤ pb_ServicePort m < two32 → ∃ b v, issued_as b v text m.
Proof.
  intros (b0 & Hb0 & Hm & Htext & Hver)%issued Hu Hp.
  assert (is_slug (ov_Provider (b_Overlay b0)) ∧ is_slug (Mode (b_ServiceDiscovery b0))) as [S1 S2].
  { rewrite <- Hb0. split; [apply normalizeSlug_slug|]. cbn [Normalize b_ServiceDiscovery Mode].
    unfold normalizeSlugWithDefault. cbn zeta. case_bool_decide; apply normalizeSlug_slug. }
  pose proof Hm as Hm'. subst m. cbn [texts_of message_of pb_ServiceHost pb_TlsServerName pb_ServerId pb_DeviceGroup pb_SharedSecret
    pb_DeviceId pb_DeviceName pb_DeviceRole pb_ServicePort pb_OverlayJoinConfigJson] in *.
  unfold texts_of in Hu. rewrite !Forall_cons in Hu. destruct Hu as (U1 & U2 & U3 & U4 & U5 & U6 & U7 & U8 & _).
  assert (numbers_ok b0) as Hn by (split; [by rewrite Hver|done]).
  assert (utf8_bundle b0) as Hutf.
  { unfold utf8_bundle, utf8_discovery, utf8_roodox. split_and!; first [done|by apply slug_utf8]. }
  unfold MarshalJSONFile in Htext. rewrite Hb0 in Htext.
  destruct (Validate b0) as [[]|] eqn:Hval; [|done]. cbn [res_bind] in Htext.
  apply marshal_file_Ok in Htext as (v & Hv & Hwf & Ht & Hh); [|done]. exists b0, v. by split.
Qed.

(** What the import program makes of an issued bundle. *)
Lemma issued_reads config req text m :
  IssueJoinBundle (Control.normalizeControlPlaneConfig config) req = Ok (text, m) →
  Forall utf8 (texts_of m) → 0 ≤ pb_ServicePort m < two32 →
  ∃ b v, Normalize b = b ∧ message_of b = m ∧ parse (ov_JoinConfig (b_Overlay b)) = Some v ∧
    parse (render true 1 (escape_html v)) = Some (escape_html v) ∧
    parseBundleJSON text = Ok (with_join b (render true 1 (escape_html v)), text).
Proof.
  intros Hi Hu Hp. destruct (issued_bundle _ _ _ _ Hi Hu Hp) as (b & v & [Hb Hm Hn Hutf Hval Hv Hwf Ht Hh]).
  exists b, v. split_and!; [done|done|done|..].
  - apply parse_render; [done|].
    pose proof (height_members _ (json_string "overlayJoinConfig", escape_html v) _ ltac:(right; right; left) Hh) as Hj.
    clear -Hj. cbn in *. lia.
  - destruct (parse_marshalled b text Hn Hutf Hb) as (v' & Hv' & Hr).
    + rewrite Ht. unfold MarshalJSONFile. rewrite Hb, Hval. cbn [res_bind]. by apply marshal_file_text.
    + assert (v' = v) as -> by congruence. exact Hr.
Qed.

Lemma normal_host b : Normalize b = b → TrimSpace (Host (b_ServiceDiscovery b)) = Host (b_ServiceDiscovery b).
Proof.
  intros Hb. rewrite <- Hb at 1. cbn [Normalize b_ServiceDiscovery Host]. rewrite TrimSpace_idem. by rewrite <- Hb at 2.
Qed.

(** A client reads back what the server issues.  When IssueJoinBundle
    answers a bundle whose texts are UTF-8, the import program accepts its
    JSON, writes exactly that JSON to its own bundle file, and works with the
    same version, provider, address, server, group, secret and device as the
    message beside it says; the configuration of the overlay is the same JSON
    value; and the address that it connects to has the host and the port of the
    message. *)
Theorem issued_bundle_imported config req text m :
  IssueJoinBundle (Control.normalizeControlPlaneConfig config) req = Ok (text, m) →
  Forall utf8 (texts_of m) → 0 ≤ pb_ServicePort m < two32 →
  ∃ b v, parseBundleJSON text = Ok (b, text) ∧
    message_of (with_join b (pb_OverlayJoinConfigJson m)) = m ∧
    parse (pb_OverlayJoinConfigJson m) = Some v ∧ parse (ov_JoinConfig (b_Overlay b)) = Some (escape_html v) ∧
    (host_ok (pb_ServiceHost m) →
     SplitHostPort (bundleServiceAddr b) = Some (pb_ServiceHost m, pretty (pb_ServicePort m))).
Proof.
  intros Hi Hu Hp. destruct (issued_reads config req text m Hi Hu Hp) as (b & v & Hb & <- & Hv & Hw & Hr).
  exists (with_join b (render true 1 (escape_html v))), v.
  split_and!; [done|by destruct b as [? [] [] []]|done|done|].
  intros Hhost. pose proof (normal_host b Hb) as Ht. cbn [message_of pb_ServiceHost pb_ServicePort] in Hhost, Hp |- *.
  rewrite (bundleServiceAddr_parts (with_join b _)); cbn [with_join b_ServiceDiscovery]; [by rewrite Ht|by rewrite Ht|lia].
Qed.
End theorems.

(** ** A bundle, issued and imported *)

#[local] Existing Instance ascii_only_unicode.

(** [{ "tag" : ["<a>", -1.5e3, {}] }] *)
Definition ex_join : string :=
  let q := String dquote "" in "{ " +:+ q +:+ "tag" +:+ q +:+ " : [" +:+ q +:+ "<a>" +:+ q +:+ ", -1.5e3, {}] }".
Definition ex_assigned : Control.AssignedConfig := Control.mkAssigned "" [] "" false false 0 "" 0.
Definition ex_config : Control.ControlPlaneConfig :=
  Control.mkControlConfig " srv-main " "" 0 0 ex_assigned
    (Control.mkJoinBundle "Tail Scale" ex_join
       (Control.mkDiscovery "" "roodox.local" 50051 true "localhost") "s3cret") [] 0.
Definition ex_request : IssueJoinBundleRequest := mkIssueRequest "" "" " lab " "dev-1" "" "".
Definition ex_issued : result status (string * JoinBundle) :=
  IssueJoinBundle (Control.normalizeControlPlaneConfig ex_config) ex_request.
Definition ex_text : string := match ex_issued with Ok (t, _) => t | Err _ => "" end.
Definition ex_message : JoinBundle :=
  match ex_issued with Ok (_, m) => m | Err _ => mkJoin 0 "" "" "" "" 0 false "" "" "" "" "" "" "" end.

Example ex_imported :
  match parseBundleJSON ex_text with
  | Ok (b, text) => bool_decide (text = ex_text) && bool_decide (bundleServiceAddr b = "roodox.local:50051")
                    && bool_decide (ov_Provider (b_Overlay b) = "tail-scale") && bool_decide (DeviceGroup (b_Roodox b) = "lab")
  | Err _ => false
  end = true.
Proof. vm_compute. reflexivity. Qed.

(** Without a join configuration that is JSON nothing is issued. *)
Example ex_refused :
  IssueJoinBundle (Control.normalizeControlPlaneConfig ex_config) (mkIssueRequest "" "{]" "" "" "" "") =
    Err (invalidArgument "overlay join config must be valid JSON").
Proof. vm_compute. reflexivity. Qed.

Lemma ex_issued_eq :
  IssueJoinBundle (Control.normalizeControlPlaneConfig ex_config) ex_request = Ok (ex_text, ex_message).
Proof. by vm_compute. Qed.

Lemma ex_utf8 : Forall utf8 (texts_of ex_message).
Proof. apply (bool_decide_unpack _). by vm_compute. Qed.

Lemma ex_port : 0 ≤ pb_ServicePort ex_message < two32.
Proof. apply (bool_decide_unpack _). by vm_compute. Qed.

Lemma ex_host : host_ok (pb_ServiceHost ex_message).
Proof. by vm_compute. Qed.

Lemma issued_bundle_imported_witness :
  ∃ b v, parseBundleJSON ex_text = Ok (b, ex_text) ∧
    message_of (with_join b (pb_OverlayJoinConfigJson ex_message)) = ex_message ∧
    parse (pb_OverlayJoinConfigJson ex_message) = Some v ∧
    parse (ov_JoinConfig (b_Overlay b)) = Some (escape_html v) ∧
    SplitHostPort (bundleServiceAddr b) = Some (pb_ServiceHost ex_message, pretty (pb_ServicePort ex_message)).
Proof.
  destruct (issued_bundle_imported _ _ _ _ ex_issued_eq ex_utf8 ex_port) as (b & v & H1 & H2 & H3 & H4 & H5).
  exists b, v. split_and!; [exact H1|exact H2|exact H3|exact H4|exact (H5 ex_host)].
Defined.
End BundleTheorems.
