(* ===== verification/ServerConfig.v ===== *)
(** * From the configuration to the services

    internal/serverapp/control_plane_config.go; the checks of addresses of
    internal/serverapp/runtime.go; and of cmd/roodox_server/main.go how the
    commands reach the server ([normalizeLocalDialAddr] and what follows it)
    and the command that issues a join bundle.  The environment and the name of
    the host are arguments. *)

From stdpp Require Import pretty.
From S2P Require Import Prelude GoStrings JsonStrings StringLists StrConv FsPath OsFs Json Net ControlPlane AppConfig Security Bundle.
From Stdlib Require Import Ascii.
Open Scope string_scope.
Open Scope Z_scope.
Open Scope list_scope.

(** ** Runes *)

(** [unicode.IsLetter || unicode.IsDigit] of a rune that is not ASCII, the rune
    as its UTF-8 text. *)
Class GoLetters := { unicode_letter_digit : string → bool }.

(** The runes of a text, each as its UTF-8 text: a byte that is not part of one
    is the replacement rune. *)
Fixpoint runes (s : string) : list string :=
  match s with
  | EmptyString => []
  | String a s1 =>
      if ascii7 a then String a "" :: runes s1 else
      match s1 with
      | String b s2 =>
          if utf8_2 a b then String a (String b "") :: runes s2 else
          match s2 with
          | String c s3 =>
              if utf8_3 a b c then String a (String b (String c "")) :: runes s3 else
              match s3 with
              | String d s4 =>
                  if utf8_4 a b c d then String a (String b (String c (String d ""))) :: runes s4
                  else rune_error :: runes s1
              | EmptyString => rune_error :: runes s1
              end
          | EmptyString => rune_error :: runes s1
          end
      | EmptyString => rune_error :: runes s1
      end
  end.

Definition letter_or_digit `{GoLetters} (r : string) : bool :=
  match r with
  | String a "" => byte_in 65 90 a || byte_in 97 122 a || byte_in 48 57 a
  | _ => unicode_letter_digit r
  end.

Module ServerConfig.
Import Net.

Section config.
Context `{GoUnicode} `{GoLetters} (getenv : string → string) (hostname : result goerr string).

(** ** internal/serverapp/control_plane_config.go *)

Fixpoint server_id_runes (lastDash : bool) (rs : list string) : string :=
  match rs with
  | [] => ""
  | r :: rs' =>
      if letter_or_digit r then r +:+ server_id_runes false rs'
      else if negb lastDash then "-" +:+ server_id_runes true rs'
      else server_id_runes true rs'
  end.

Definition resolveServerID : string :=
  let value := TrimSpace (getenv "ROODOX_SERVER_ID") in
  if negb (bool_decide (value = "")) then value
  else match hostname with
       | Err _ => "srv-main"
       | Ok host =>
           let host := TrimSpace host in
           if bool_decide (host = "") then "srv-main"
           else
             let value := Trim (server_id_runes false (runes (ToLower host))) "-" in
             if bool_decide (value = "") then "srv-main" else value
       end.

(** The digits of a port, in 32 bits. *)
Fixpoint port_digits (port : Z) (s : string) : option Z :=
  match s with
  | EmptyString => Some port
  | String r s' =>
      if negb (is_digit r) then None
      else port_digits (wrap_uint32 (wrap_uint32 (port * 10) + digit r)) s'
  end.

Definition parseServiceDiscoveryAddress (addr : string) : string * Z :=
  match SplitHostPort (TrimSpace addr) with
  | None => ("", 0)
  | Some (host, portText) =>
      let host := Trim (TrimSpace host) "[]" in
      let host := if bool_decide (host ∈ ["0.0.0.0"; "::"]) then "" else host in
      if bool_decide (TrimSpace portText = "") then (host, 0)
      else match port_digits 0 portText with
           | None => (host, 0)
           | Some port => (host, port)
           end
  end.

Definition BuildControlPlaneConfig (cfg : AppConfig.Config) : Control.ControlPlaneConfig :=
  let '(serviceHost, servicePort) := parseServiceDiscoveryAddress (AppConfig.Addr cfg) in
  let sharedSecret := if AppConfig.AuthEnabled cfg then TrimSpace (AppConfig.SharedSecret cfg) else "" in
  let cp := AppConfig.ControlPlane cfg in
  let serverID := TrimSpace (AppConfig.cp_ServerID cp) in
  let serverID := if bool_decide (serverID = "") then resolveServerID else serverID in
  let defaultDeviceGroup := TrimSpace (AppConfig.cp_DefaultDeviceGroup cp) in
  let defaultDeviceGroup := if bool_decide (defaultDeviceGroup = "") then "default" else defaultDeviceGroup in
  let assigned := AppConfig.cp_AssignedConfig cp in
  let joinBundle := AppConfig.cp_JoinBundle cp in
  let discovery := AppConfig.jb_ServiceDiscovery joinBundle in
  {| Control.cc_ServerID := serverID;
     Control.cc_DefaultDeviceGroup := defaultDeviceGroup;
     Control.cc_HeartbeatIntervalSeconds := wrap_uint32 (AppConfig.cp_HeartbeatIntervalSeconds cp);
     Control.cc_DefaultPolicyRevision := AppConfig.cp_DefaultPolicyRevision cp;
     Control.cc_DefaultAssignedConfig := {|
       Control.ac_MountPath := AppConfig.aa_MountPath assigned;
       Control.ac_SyncRoots := AppConfig.aa_SyncRoots assigned;
       Control.ac_ConflictPolicy := AppConfig.aa_ConflictPolicy assigned;
       Control.ac_ReadOnly := AppConfig.aa_ReadOnly assigned;
       Control.ac_AutoConnect := AppConfig.aa_AutoConnect assigned;
       Control.ac_BandwidthLimit := AppConfig.aa_BandwidthLimit assigned;
       Control.ac_LogLevel := AppConfig.aa_LogLevel assigned;
       Control.ac_LargeFileThreshold := AppConfig.aa_LargeFileThreshold assigned;
     |};
     Control.cc_JoinBundle := {|
       Control.jb_OverlayProvider := AppConfig.jb_OverlayProvider joinBundle;
       Control.jb_OverlayJoinConfigJSON := AppConfig.jb_OverlayJoinConfigJSON joinBundle;
       Control.jb_ServiceDiscovery := {|
         Control.sd_Mode := AppConfig.sd_Mode discovery;
         Control.sd_Host :=
           if bool_decide (TrimSpace (AppConfig.sd_Host discovery) = "") then serviceHost else AppConfig.sd_Host discovery;
         Control.sd_Port := if AppConfig.sd_Port discovery =? 0 then servicePort else AppConfig.sd_Port discovery;
         Control.sd_UseTLS := if negb (AppConfig.sd_UseTLS discovery) then AppConfig.TLSEnabled cfg else true;
         Control.sd_TLSServerName := AppConfig.sd_TLSServerName discovery;
       |};
       Control.jb_SharedSecret := sharedSecret;
     |};
     Control.cc_AvailableActions := AppConfig.cp_AvailableActions cp;
     Control.cc_DiagnosticsKeepLatest := AppConfig.cp_DiagnosticsKeepLatest cp;
  |}.

(** ** internal/serverapp/runtime.go *)

Definition isLoopbackListenAddress (addr : string) : bool :=
  match SplitHostPort (TrimSpace addr) with
  | None => false
  | Some (host, _) =>
      let host := Trim host "[]" in
      if bool_decide (host = "") then false
      else if EqualFold host "localhost" then true
      else match ParseIP host with Some ip => IsLoopback ip | None => false end
  end.

Definition validateInsecureAuthBinding (cfg : AppConfig.Config) : result goerr unit :=
  if negb (AppConfig.AuthEnabled cfg) || AppConfig.TLSEnabled cfg then Ok tt
  else if isLoopbackListenAddress (AppConfig.Addr cfg) then Ok tt
  else Err (ErrNew "auth without tls is only allowed on loopback addresses; enable tls or bind addr to 127.0.0.1/::1").

(** ** cmd/roodox_server/main.go *)

Definition normalizeLocalDialAddr (addr : string) : string :=
  let addr := TrimSpace addr in
  if bool_decide (addr = "") then "127.0.0.1:50051"
  else match SplitHostPort addr with
       | None => if HasPrefix addr ":" then "127.0.0.1" +:+ addr else addr
       | Some (host, port) =>
           let host := Trim host "[]" in
           if bool_decide (host ∈ [""; "0.0.0.0"; "::"]) then JoinHostPort "127.0.0.1" port
           else JoinHostPort host port
       end.

Definition defaultLocalTLSRootCertPath (certPath : string) : string :=
  let certPath := TrimSpace certPath in
  if bool_decide (certPath = "") then "" else JoinPath (Dir certPath) "roodox-ca-cert.pem".

Section commands.
Context `{TLS.X509} (flt : Faults).

Definition suggestedServerNameFromCertificate (certPath : string) (t : OsState) : string :=
  let certPath := TrimSpace certPath in
  if bool_decide (certPath = "") then ""
  else match TLS.readCertificateFile flt certPath t with
       | Err _ => ""
       | Ok cert =>
           match filter (λ dns, negb (bool_decide (dns = "")) && negb (EqualFold dns "localhost"))
                   (map TrimSpace (TLS.DNSNames cert)) with
           | dns :: _ => dns
           | [] => TrimSpace (TLS.CommonName cert)
           end
       end.

Definition defaultLocalTLSServerName (cfg : AppConfig.Config) (dialAddr : string) (t : OsState) : string :=
  let from_certificate :=
    let v := suggestedServerNameFromCertificate (AppConfig.TLSCertPath cfg) t in
    if negb (bool_decide (v = "")) then v else "localhost" in
  match SplitHostPort dialAddr with
  | None => from_certificate
  | Some (host, _) =>
      let host := Trim host "[]" in
      if bool_decide (host = "") then from_certificate
      else if bool_decide (ParseIP host = None) then host
      else if bool_decide (host ∈ ["127.0.0.1"; "::1"]) then "localhost"
      else from_certificate
  end.

(** client.ConnectionOptions *)
Record ConnectionOptions := mkConnection {
  co_SharedSecret : string; co_TLSEnabled : bool; co_TLSRootCertPath : string; co_TLSServerName : string;
}.

(** The address and the options that the commands dial the server with
    ([newLocalAdminClient], and the same lines of [requestServerShutdown]). *)
Definition newLocalAdminClient (cfg : AppConfig.Config) (t : OsState) : result goerr (string * ConnectionOptions) :=
  let dialAddr := normalizeLocalDialAddr (AppConfig.Addr cfg) in
  if bool_decide (TrimSpace dialAddr = "") then Err (ErrNew "dial address is empty")
  else Ok (dialAddr, {|
    co_SharedSecret := TrimSpace (AppConfig.SharedSecret cfg);
    co_TLSEnabled := AppConfig.TLSEnabled cfg;
    co_TLSRootCertPath :=
      if AppConfig.TLSEnabled cfg then defaultLocalTLSRootCertPath (AppConfig.TLSCertPath cfg) else "";
    co_TLSServerName := if AppConfig.TLSEnabled cfg then defaultLocalTLSServerName cfg dialAddr t else "";
  |}).

Record issueJoinBundleOptions := mkIssueOptions { io_DeviceID : string; io_DeviceName : string; io_DeviceRole : string; io_DeviceGroup : string }.

Definition set_TLSServerName (name : string) (c : Control.ControlPlaneConfig) : Control.ControlPlaneConfig :=
  let jb := Control.cc_JoinBundle c in
  let sd := Control.jb_ServiceDiscovery jb in
  Control.mkControlConfig (Control.cc_ServerID c) (Control.cc_DefaultDeviceGroup c)
    (Control.cc_HeartbeatIntervalSeconds c) (Control.cc_DefaultPolicyRevision c) (Control.cc_DefaultAssignedConfig c)
    (Control.mkJoinBundle (Control.jb_OverlayProvider jb) (Control.jb_OverlayJoinConfigJSON jb)
       (Control.mkDiscovery (Control.sd_Mode sd) (Control.sd_Host sd) (Control.sd_Port sd) (Control.sd_UseTLS sd) name)
       (Control.jb_SharedSecret jb))
    (Control.cc_AvailableActions c) (Control.cc_DiagnosticsKeepLatest c).

Definition issueJoinBundle (cfg : AppConfig.Config) (opts : issueJoinBundleOptions) (t : OsState) :
    result status (string * AccessBundle.JoinBundle) :=
  let controlPlane := BuildControlPlaneConfig cfg in
  let sd := Control.jb_ServiceDiscovery (Control.cc_JoinBundle controlPlane) in
  let controlPlane :=
    if Control.sd_UseTLS sd && bool_decide (TrimSpace (Control.sd_TLSServerName sd) = "")
    then set_TLSServerName (defaultLocalTLSServerName cfg (normalizeLocalDialAddr (AppConfig.Addr cfg)) t) controlPlane
    else controlPlane in
  AccessBundle.IssueJoinBundle (Control.normalizeControlPlaneConfig controlPlane)
    (AccessBundle.mkIssueRequest "" "" (TrimSpace (io_DeviceGroup opts)) (TrimSpace (io_DeviceID opts))
       (TrimSpace (io_DeviceName opts)) (TrimSpace (io_DeviceRole opts))).
End commands.
End config.
End ServerConfig.
