(* ===== verification/ServerConfigTheorems.v ===== *)
(** * From the configuration to the services: theorems

    A bundle that the server's command issues leads the client to the address
    that the server listens on, with the secret that the server checks. *)

From stdpp Require Import pretty.
From S2P Require Import Prelude GoStrings JsonStrings StringLists StrConv FsPath OsFs Json JsonTheorems Net ControlPlane AppConfig Security TlsExamples Bundle BundleTheorems ServerConfig.
From Stdlib Require Import Ascii.
Open Scope string_scope.
Open Scope Z_scope.
Open Scope list_scope.

Module ServerConfigTheorems.
Import Net ServerConfig JsonTheorems BundleTheorems.

(** ** Ports *)

Lemma digits_ge acc s n : 0 ≤ acc → digits acc s = Some n → acc ≤ n.
Proof.
  revert acc. induction s as [|a s IH]; intros acc Ha; cbn [digits]; [by intros [= ->]|].
  destruct (is_digit a) eqn:E; [|done]. intros Hd.
  assert (0 ≤ digit a) as Hg.
  { unfold is_digit, byte_in in E. apply andb_true_iff in E as [E _]. apply N.leb_le in E. unfold digit. lia. }
  specialize (IH (10 * acc + digit a) ltac:(lia) Hd). lia.
Qed.

(** A port of 32 bits is read as it is written. *)
Lemma port_digits_exact acc s n :
  0 ≤ acc → digits acc s = Some n → n < two32 → port_digits acc s = Some n.
Proof.
  revert acc. induction s as [|a s IH]; intros acc Ha; cbn [digits port_digits]; [done|].
  destruct (is_digit a) eqn:E; [|done]. cbn [negb]. intros Hd Hn.
  assert (0 ≤ digit a) as Hg.
  { unfold is_digit, byte_in in E. apply andb_true_iff in E as [E _]. apply N.leb_le in E. unfold digit. lia. }
  assert (0 ≤ 10 * acc + digit a) as H0 by lia. pose proof (digits_ge _ _ _ H0 Hd) as Hle.
  unfold wrap_uint32. rewrite (Z.mod_small (acc * 10)), Z.mod_small by lia.
  apply IH; [lia| |done]. by rewrite (Z.mul_comm acc 10).
Qed.

Lemma pretty_not_blank z : 0 ≤ z → TrimSpace (pretty z) ≠ "".
Proof.
  intros Hz. destruct (pretty_digits z Hz) as (_ & _ & a & d & -> & Ha & _).
  apply TrimSpace_first. unfold is_digit, byte_in in *. apply andb_true_iff in Ha as [H1 H2].
  apply andb_true_iff. apply N.leb_le in H1, H2. split; apply N.leb_le; lia.
Qed.

Lemma pretty_port_ok z : 0 ≤ z → port_ok (pretty z).
Proof. intros Hz. destruct (pretty_digits z Hz) as (Hd & _). repeat split; by apply all_digits_no_char. Qed.

Section theorems.
Context `{GoUnicode} `{GoLetters} (getenv : string → string) (hostname : result goerr string).

Definition wildcard (host : string) : Prop := host = "0.0.0.0" ∨ host = "::".

(** An address with a host of its own. *)
Record listens (addr host : string) (port : Z) : Prop := {
  ls_addr : TrimSpace addr = JoinHostPort host (pretty port);
  ls_host : host_ok host;
  ls_trim : TrimSpace host = host;
  ls_named : host ≠ "";
  ls_own : ¬ wildcard host;
  ls_port : 0 < port < two32;
}.

Lemma listens_split addr host port :
  listens addr host port → SplitHostPort (TrimSpace addr) = Some (host, pretty port).
Proof. intros [-> Hh _ _ _ Hp]. apply SplitHostPort_Join; [done|]. apply pretty_port_ok. lia. Qed.

Lemma parse_listens addr host port :
  listens addr host port → parseServiceDiscoveryAddress addr = (host, port).
Proof.
  intros Hl. unfold parseServiceDiscoveryAddress. rewrite (listens_split _ _ _ Hl). destruct Hl as [_ Hh Ht Hn Ho Hp].
  rewrite Ht, Trim_host by done.
  rewrite (bool_decide_eq_false_2 (host ∈ _)) by (rewrite !elem_of_cons, elem_of_nil; unfold wildcard in Ho; naive_solver).
  rewrite (bool_decide_eq_false_2 (TrimSpace _ = "")) by (apply pretty_not_blank; lia).
  destruct (pretty_digits port) as (_ & Hv & _); [lia|]. by rewrite (port_digits_exact 0 _ port) by (done || lia).
Qed.

Lemma dial_listens addr host port :
  listens addr host port → normalizeLocalDialAddr addr = JoinHostPort host (pretty port).
Proof.
  intros Hl. unfold normalizeLocalDialAddr. cbn zeta. rewrite (listens_split _ _ _ Hl). destruct Hl as [Ha Hh Ht Hn Ho Hp].
  rewrite bool_decide_eq_false_2.
  2:{ rewrite Ha. unfold JoinHostPort. destruct host; [done|]. by destruct (no_char ":" _). }
  rewrite Trim_host by done.
  by rewrite (bool_decide_eq_false_2 (host ∈ _)) by (rewrite !elem_of_cons, elem_of_nil; unfold wildcard in Ho; naive_solver).
Qed.

Context `{TLS.X509} (flt : Faults).

Lemma suggested_trimmed certPath t :
  TrimSpace (suggestedServerNameFromCertificate flt certPath t) = suggestedServerNameFromCertificate flt certPath t.
Proof.
  unfold suggestedServerNameFromCertificate. cbn zeta. case_bool_decide; [done|].
  destruct (TLS.readCertificateFile _ _ _) as [cert|]; [|done].
  destruct (filter _ _) as [|dns l] eqn:E; [apply TrimSpace_idem|].
  assert (dns ∈ map TrimSpace (TLS.DNSNames cert)) as (dns' & -> & _)%list_elem_of_fmap; [|apply TrimSpace_idem].
  assert (dns ∈ dns :: l) as Hin by left. rewrite <- E in Hin. by apply list_elem_of_filter in Hin as [_ Hin].
Qed.

(** The name that a client checks the certificate against is never empty. *)
Lemma server_name_not_blank cfg host port t :
  host_ok host → TrimSpace host = host → 0 ≤ port →
  TrimSpace (defaultLocalTLSServerName flt cfg (JoinHostPort host (pretty port)) t) ≠ "".
Proof.
  intros Hh Ht Hp. unfold defaultLocalTLSServerName. cbn zeta.
  rewrite SplitHostPort_Join by (done || by apply pretty_port_ok). rewrite Trim_host by done.
  assert (TrimSpace (if negb (bool_decide (suggestedServerNameFromCertificate flt (AppConfig.TLSCertPath cfg) t = ""))
    then suggestedServerNameFromCertificate flt (AppConfig.TLSCertPath cfg) t else "localhost") ≠ "") as Hc.
  { destruct (bool_decide _) eqn:E; cbn [negb]; [by vm_compute|]. rewrite suggested_trimmed. by apply bool_decide_eq_false in E. }
  destruct (bool_decide (host = "")) eqn:He; [exact Hc|]. apply bool_decide_eq_false in He.
  destruct (bool_decide (ParseIP host = None)); [by rewrite Ht|].
  destruct (bool_decide (host ∈ _)); [by vm_compute|exact Hc].
Qed.

(** The message of an issued bundle has the address and the secret of the
    configuration. *)
Lemma issued_fields config req text m :
  AccessBundle.IssueJoinBundle (Control.normalizeControlPlaneConfig config) req = Ok (text, m) →
  let sd := Control.jb_ServiceDiscovery (Control.cc_JoinBundle config) in
  AccessBundle.pb_ServiceHost m = TrimSpace (Control.sd_Host sd) ∧
  AccessBundle.pb_ServicePort m = Control.sd_Port sd ∧
  AccessBundle.pb_UseTls m = Control.sd_UseTLS sd ∧
  AccessBundle.pb_TlsServerName m = TrimSpace (Control.sd_TLSServerName sd) ∧
  AccessBundle.pb_SharedSecret m = TrimSpace (Control.jb_SharedSecret (Control.cc_JoinBundle config)).
Proof.
  unfold AccessBundle.IssueJoinBundle. cbn zeta. destruct (bool_decide _); [done|]. destruct (_ || _); [done|].
  destruct (AccessBundle.MarshalJSONFile _) as [text'|]; [|done]. cbn [map_err res_bind]. intros [= -> <-].
  cbn [AccessBundle.pb_ServiceHost AccessBundle.pb_ServicePort AccessBundle.pb_UseTls AccessBundle.pb_TlsServerName
    AccessBundle.pb_SharedSecret AccessBundle.Normalize AccessBundle.b_ServiceDiscovery AccessBundle.Host AccessBundle.Port
    AccessBundle.UseTLS AccessBundle.TLSServerName Control.normalizeControlPlaneConfig Control.cc_JoinBundle
    Control.normalizeJoinBundle Control.jb_ServiceDiscovery Control.sd_Host Control.sd_Port Control.sd_UseTLS
    Control.sd_TLSServerName Control.jb_SharedSecret].
  by rewrite !TrimSpace_idem.
Qed.

Lemma issued_server_name cfg opts t text m host port :
  listens (AppConfig.Addr cfg) host port →
  issueJoinBundle getenv hostname flt cfg opts t = Ok (text, m) →
  AccessBundle.pb_UseTls m = true → AccessBundle.pb_TlsServerName m ≠ "".
Proof.
  intros Hl. unfold issueJoinBundle. cbn zeta. intros (_ & _ & -> & -> & _)%issued_fields.
  destruct (Control.sd_UseTLS _ && _) eqn:E; cbn [set_TLSServerName Control.cc_JoinBundle Control.jb_ServiceDiscovery
    Control.sd_UseTLS Control.sd_TLSServerName].
  - intros _. rewrite (dial_listens _ _ _ Hl). destruct Hl. apply server_name_not_blank; [done..|lia].
  - intros Htls. rewrite Htls in E. by apply bool_decide_eq_false in E.
Qed.

(** The message that the command issues, where the server listens on a host of
    its own and the configuration names no other for its clients. *)
Record leads (cfg : AppConfig.Config) (host : string) (port : Z) (m : AccessBundle.JoinBundle) : Prop := {
  ld_host : AccessBundle.pb_ServiceHost m = host;
  ld_port : AccessBundle.pb_ServicePort m = port;
  ld_tls : AppConfig.TLSEnabled cfg = true → AccessBundle.pb_UseTls m = true;
  ld_secret : AppConfig.AuthEnabled cfg = true → AccessBundle.pb_SharedSecret m = TrimSpace (AppConfig.SharedSecret cfg);
  ld_name : AccessBundle.pb_UseTls m = true → AccessBundle.pb_TlsServerName m ≠ "";
}.

Lemma issued_leads cfg opts t host port text m :
  listens (AppConfig.Addr cfg) host port →
  let discovery := AppConfig.jb_ServiceDiscovery (AppConfig.cp_JoinBundle (AppConfig.ControlPlane cfg)) in
  TrimSpace (AppConfig.sd_Host discovery) = "" → AppConfig.sd_Port discovery = 0 →
  issueJoinBundle getenv hostname flt cfg opts t = Ok (text, m) → leads cfg host port m.
Proof.
  intros Hl discovery Hh0 Hp0 Hi. pose proof (issued_server_name _ _ _ _ _ _ _ Hl Hi) as Hname.
  unfold issueJoinBundle in Hi. cbn zeta in Hi. pose proof (issued_fields _ _ _ _ Hi) as (Fh & Fp & Ft & _ & Fs).
  pose proof (parse_listens _ _ _ Hl) as Hparse. unfold BuildControlPlaneConfig in *. rewrite Hparse in *.
  fold discovery in Fh, Fp, Ft, Fs, Hi.
  rewrite (bool_decide_eq_true_2 (TrimSpace (AppConfig.sd_Host discovery) = "")) in * by done. rewrite Hp0 in *.
  assert (AccessBundle.pb_ServiceHost m = host ∧ AccessBundle.pb_ServicePort m = port ∧
    AccessBundle.pb_UseTls m = (if negb (AppConfig.sd_UseTLS discovery) then AppConfig.TLSEnabled cfg else true) ∧
    AccessBundle.pb_SharedSecret m =
      TrimSpace (if AppConfig.AuthEnabled cfg then TrimSpace (AppConfig.SharedSecret cfg) else "")) as (Eh & Ep & Et & Es).
  { rewrite Fh, Fp, Ft, Fs. destruct (_ && _);
      cbn [set_TLSServerName Control.cc_JoinBundle Control.jb_ServiceDiscovery Control.sd_Host Control.sd_Port
        Control.sd_UseTLS Control.jb_SharedSecret Z.eqb]; by rewrite (ls_trim _ _ _ Hl). }
  split; [done|done| | |exact Hname].
  - intros Htls. rewrite Et, Htls. by destruct (negb _).
  - intros Hauth. by rewrite Es, Hauth, TrimSpace_idem.
Qed.

(** The address of a bundle with such a message. *)
Lemma leads_addr cfg host port b :
  listens (AppConfig.Addr cfg) host port → leads cfg host port (message_of b) →
  AccessBundle.bundleServiceAddr b = TrimSpace (AppConfig.Addr cfg).
Proof.
  intros [Ha Hok Htr Hn Ho Hpt] Hm. pose proof (ld_host _ _ _ _ Hm) as Eh. pose proof (ld_port _ _ _ _ Hm) as Ep.
  cbn [message_of AccessBundle.pb_ServiceHost AccessBundle.pb_ServicePort] in Eh, Ep.
  unfold AccessBundle.bundleServiceAddr. by rewrite Eh, Ep, Htr, Trim_host, Ha.
Qed.

(** A bundle leads the client to the server.  Where the server listens on an
    address with a host of its own, and the configuration names no other for
    its clients, the bundle that the command issues from the same configuration
    is accepted by the import program, which then connects to exactly the
    listening address - the one the administration commands dial - and presents
    the secret that the server is configured to check; it uses TLS if the
    server does, and then it has a name to check the certificate against. *)
Theorem issued_bundle_leads_to_server cfg opts t host port text m :
  listens (AppConfig.Addr cfg) host port →
  let discovery := AppConfig.jb_ServiceDiscovery (AppConfig.cp_JoinBundle (AppConfig.ControlPlane cfg)) in
  TrimSpace (AppConfig.sd_Host discovery) = "" → AppConfig.sd_Port discovery = 0 →
  issueJoinBundle getenv hostname flt cfg opts t = Ok (text, m) → Forall utf8 (texts_of m) →
  ∃ b, AccessBundle.parseBundleJSON text = Ok (b, text) ∧
    AccessBundle.bundleServiceAddr b = TrimSpace (AppConfig.Addr cfg) ∧
    normalizeLocalDialAddr (AppConfig.Addr cfg) = AccessBundle.bundleServiceAddr b ∧
    (AppConfig.AuthEnabled cfg = true → AccessBundle.SharedSecret (AccessBundle.b_Roodox b) = TrimSpace (AppConfig.SharedSecret cfg)) ∧
    (AppConfig.TLSEnabled cfg = true → AccessBundle.UseTLS (AccessBundle.b_ServiceDiscovery b) = true) ∧
    (AccessBundle.UseTLS (AccessBundle.b_ServiceDiscovery b) = true →
     AccessBundle.TLSServerName (AccessBundle.b_ServiceDiscovery b) ≠ "").
Proof.
  intros Hl discovery Hh0 Hp0 Hi Hu. pose proof (issued_leads _ _ _ _ _ _ _ Hl Hh0 Hp0 Hi) as Hm.
  unfold issueJoinBundle in Hi. cbn zeta in Hi.
  destruct (issued_reads _ _ _ _ Hi Hu) as (b & v & Hb & Em & _ & _ & Hr).
  { rewrite (ld_port _ _ _ _ Hm). destruct Hl. lia. }
  exists (with_join b (Json.render true 1 (Json.escape_html v))). subst m.
  pose proof (leads_addr _ _ _ _ Hl Hm) as Haddr. split_and!; [exact Hr|exact Haddr| | | |].
  - change (AccessBundle.bundleServiceAddr (with_join b _)) with (AccessBundle.bundleServiceAddr b).
    rewrite Haddr, (dial_listens _ _ _ Hl). by destruct Hl.
  - exact (ld_secret _ _ _ _ Hm).
  - exact (ld_tls _ _ _ _ Hm).
  - exact (ld_name _ _ _ _ Hm).
Qed.
End theorems.

(** ** A bundle from a configuration *)

#[local] Existing Instance ascii_only_unicode.
#[local] Existing Instance TlsExamples.plain_x509.
#[local] Instance ascii_letters : GoLetters := {| unicode_letter_digit _ := false |}.

Definition ex_cfg : AppConfig.Config :=
  let d := AppConfig.Default in
  let cp := AppConfig.ControlPlane d in
  {| AppConfig.Addr := " [fd00::7]:50051 "; AppConfig.DataRoot := ""; AppConfig.RootDir := "/srv"; AppConfig.DBPath := "/db";
     AppConfig.Runtime := AppConfig.Runtime d; AppConfig.RemoteBuildEnabled := false; AppConfig.BuildToolDirs := [];
     AppConfig.RequiredBuildTools := []; AppConfig.AuthEnabled := true; AppConfig.SharedSecret := "s3cret ";
     AppConfig.TLSEnabled := true; AppConfig.TLSCertPath := "/c/cert.pem"; AppConfig.TLSKeyPath := "/c/key.pem";
     AppConfig.Database := AppConfig.Database d;
     AppConfig.ControlPlane := {|
       AppConfig.cp_ServerID := ""; AppConfig.cp_DefaultDeviceGroup := ""; AppConfig.cp_HeartbeatIntervalSeconds := 15;
       AppConfig.cp_DefaultPolicyRevision := 1; AppConfig.cp_AvailableActions := []; AppConfig.cp_DiagnosticsKeepLatest := 20;
       AppConfig.cp_AssignedConfig := AppConfig.cp_AssignedConfig cp;
       AppConfig.cp_JoinBundle := {|
         AppConfig.jb_OverlayProvider := "direct"; AppConfig.jb_OverlayJoinConfigJSON := "";
         AppConfig.jb_ServiceDiscovery := AppConfig.jb_ServiceDiscovery (AppConfig.cp_JoinBundle cp) |} |};
     AppConfig.Cleanup := AppConfig.Cleanup d |}.
Definition ex_getenv (name : string) : string := "".
Definition ex_host : result goerr string := Ok "File Server (2)".
Definition ex_opts : issueJoinBundleOptions := mkIssueOptions "" "laptop" "" "lab".
Definition ex_out : result status (string * AccessBundle.JoinBundle) :=
  issueJoinBundle ex_getenv ex_host no_faults ex_cfg ex_opts ∅.
Definition ex_text : string := match ex_out with Ok (t, _) => t | Err _ => "" end.
Definition ex_message : AccessBundle.JoinBundle :=
  match ex_out with Ok (_, m) => m | Err _ => AccessBundle.mkJoin 0 "" "" "" "" 0 false "" "" "" "" "" "" "" end.

Example ex_fields :
  (AccessBundle.pb_ServerId ex_message, AccessBundle.pb_ServiceHost ex_message, AccessBundle.pb_TlsServerName ex_message) =
  ("file-server-2", "fd00::7", "localhost").
Proof. vm_compute. reflexivity. Qed.

Lemma ex_listens : listens (AppConfig.Addr ex_cfg) "fd00::7" 50051.
Proof. split; [by vm_compute|done|by vm_compute|done|by intros [|]|done]. Qed.

Lemma ex_out_eq : issueJoinBundle ex_getenv ex_host no_faults ex_cfg ex_opts ∅ = Ok (ex_text, ex_message).
Proof. by vm_compute. Qed.

Lemma ex_out_utf8 : Forall utf8 (texts_of ex_message).
Proof. apply (bool_decide_unpack _). by vm_compute. Qed.

Lemma issued_bundle_leads_to_server_witness :
  ∃ b, AccessBundle.parseBundleJSON ex_text = Ok (b, ex_text) ∧
    AccessBundle.bundleServiceAddr b = TrimSpace (AppConfig.Addr ex_cfg) ∧
    normalizeLocalDialAddr (AppConfig.Addr ex_cfg) = AccessBundle.bundleServiceAddr b ∧
    (AppConfig.AuthEnabled ex_cfg = true →
     AccessBundle.SharedSecret (AccessBundle.b_Roodox b) = TrimSpace (AppConfig.SharedSecret ex_cfg)) ∧
    (AppConfig.TLSEnabled ex_cfg = true → AccessBundle.UseTLS (AccessBundle.b_ServiceDiscovery b) = true) ∧
    (AccessBundle.UseTLS (AccessBundle.b_ServiceDiscovery b) = true →
     AccessBundle.TLSServerName (AccessBundle.b_ServiceDiscovery b) ≠ "").
Proof.
  exact (issued_bundle_leads_to_server ex_getenv ex_host no_faults ex_cfg ex_opts ∅ "fd00::7" 50051 ex_text ex_message
    ex_listens eq_refl eq_refl ex_out_eq ex_out_utf8).
Defined.
End ServerConfigTheorems.
