(* ===== verification/ExclFiles.v ===== *)
(** * Files made by one process

    Reasoning about os.OpenFile with O_EXCL: who makes the file at a name has
    it until the file is removed.  Probes and lock files are such files.
    [undisturbed K] relates trees between which the files at the keys of [K],
    and the directories that lead to them, stay. *)

From S2P Require Import Prelude GoStrings FsPath OsFs World Frames Artifacts Sqlite.
Open Scope string_scope.
Open Scope Z_scope.
Open Scope list_scope.

Section excl.
Context (flt : Faults) (now : Z).

Lemma lookup_root t : ∃ n, os_lookup t [] = Ok n.
Proof. unfold os_lookup. cbn [walk]. unfold node_at. destruct (t !! []); [by eexists|]. by eexists. Qed.

(** The file is new, and it is all that is new. *)
Lemma open_excl p t t' c :
  os_OpenCreate flt true false now p t = (t', Ok c) →
  path_key p ≠ [] ∧ t !! path_key p = None ∧ t' = <[path_key p := FileNode [] now]> t ∧
  os_lookup t' (path_key p) = Ok (FileNode [] now).
Proof.
  unfold os_OpenCreate. set (k := path_key p). destruct (flt "open" p); [done|].
  destruct (os_lookup t k) as [[|]|e] eqn:E; [done..|]. destruct e; try done.
  destruct (os_lookup t (removelast k)) as [n|] eqn:Ep; [|done]. intros [= <- <-].
  assert (k ≠ []) as Hne.
  { intros Hk. rewrite Hk in E. destruct (lookup_root t) as [? Hr]. congruence. }
  assert (∃ mt, n = DirNode mt) as [mt ->].
  { destruct n as [mt|? ?]; [by exists mt|exfalso]. unfold os_lookup in *. destruct (exists_last Hne) as (ks & x & Hk).
    rewrite Hk, removelast_last in Ep. rewrite Hk, walk_app, Ep in E by done. done. }
  split_and!; [done| |done|by eapply os_lookup_insert_file].
  assert (node_at t k = None) as Hn.
  { apply (os_lookup_Err_node t k ENOENT); [|done]. apply linked_parent; [done|]. by exists mt. }
  unfold node_at in Hn. by destruct (t !! k).
Qed.

Lemma open_excl_err p t t' e : os_OpenCreate flt true false now p t = (t', Err e) → t' = t.
Proof.
  unfold os_OpenCreate. destruct (flt "open" p); [by intros [= <- _]|].
  destruct (os_lookup t _) as [[|]|[]]; try by intros [= <- _].
  destruct (os_lookup t (removelast _)); [done|by intros [= <- _]].
Qed.

(** Nobody else makes it. *)
Lemma open_excl_held p t n :
  os_lookup t (path_key p) = Ok n → ∃ e, os_OpenCreate flt true false now p t = (t, Err e).
Proof.
  intros Hn. unfold os_OpenCreate. destruct (flt "open" p); [by eexists|]. rewrite Hn. destruct n; by eexists.
Qed.

(** What [os.Remove] does to a file. *)
Lemma remove_file p t c mt :
  os_lookup t (path_key p) = Ok (FileNode c mt) → flt "remove" p = None →
  os_Remove flt p t = (delete (path_key p) t, Ok tt).
Proof. intros Hl Hf. unfold os_Remove. by rewrite Hf, Hl. Qed.

Lemma remove_Ok p t t' c mt :
  os_lookup t (path_key p) = Ok (FileNode c mt) → os_Remove flt p t = (t', Ok tt) → t' = delete (path_key p) t.
Proof. intros Hl. unfold os_Remove. destruct (flt "remove" p); [done|]. rewrite Hl. by intros [= <-]. Qed.

Lemma made_and_removed (t : OsState) k n : t !! k = None → delete k (<[k := n]> t) = t.
Proof. intros Hk. by rewrite delete_insert_eq, delete_id. Qed.
End excl.

(** ** Leaving files alone *)

Definition is_file (t : OsState) (k : list string) : Prop := ∃ c mt, node_at t k = Some (FileNode c mt).
Definition is_directory (t : OsState) (k : list string) : Prop := ∃ mt, node_at t k = Some (DirNode mt).

(** A change at the keys [ks] does not reach the keys [K]. *)
Definition apart (ks K : list (list string)) : Prop := ∀ f k, f ∈ ks → k ∈ K → ¬ f `prefix_of` k.

Record undisturbed (K : list (list string)) (t t' : OsState) : Prop := {
  un_file k : k ∈ K → is_file t' k ↔ is_file t k;
  un_dirs k q : k ∈ K → q `prefix_of` k → q ≠ k → is_directory t q → is_directory t' q;
}.

#[export] Instance undisturbed_preorder K : PreOrder (undisturbed K).
Proof.
  split; [by split|]. intros t1 t2 t3 [F1 D1] [F2 D2]. split.
  - intros k Hk. by rewrite F2, F1.
  - intros k q Hk Hp Hne Hd. eapply D2, D1; eauto.
Qed.

Lemma undisturbed_linked K t t' k :
  undisturbed K t t' → k ∈ K → linked t k → linked t' k.
Proof. intros [_ Hd] Hk Hl pre Hp Hne. apply (Hd k pre Hk Hp Hne). by apply Hl. Qed.

(** A file of [K] that resolves still does. *)
Lemma undisturbed_lookup K t t' k c mt :
  undisturbed K t t' → k ∈ K → os_lookup t k = Ok (FileNode c mt) →
  ∃ c' mt', os_lookup t' k = Ok (FileNode c' mt').
Proof.
  intros Hu Hk [Hn Hl]%os_lookup_linked. assert (is_file t' k) as (c' & mt' & Hn').
  { apply (un_file _ _ _ Hu k Hk). by exists c, mt. }
  exists c', mt'. apply os_lookup_linked. split; [done|]. by eapply undisturbed_linked.
Qed.

Lemma undisturbed_weaken K K' t t' : K' ⊆ K → undisturbed K t t' → undisturbed K' t t'.
Proof. intros HK [Hf Hd]. split; [intros k Hk; apply Hf; set_solver|intros k q Hk; apply (Hd k q); set_solver]. Qed.

Lemma frame_undisturbed ks dir K t t' : apart ks K → frame ks dir t t' → undisturbed K t t'.
Proof.
  intros Ha [Fk Fn]. assert (∀ k q, k ∈ K → q `prefix_of` k → q ∉ ks) as Hq.
  { intros k q Hk Hp Hin. by apply (Ha q k). }
  split.
  - intros k Hk. specialize (Hq k k Hk ltac:(reflexivity)). unfold is_file. destruct (node_at t k) as [n|] eqn:E.
    + rewrite (Fk k Hq); [by rewrite E|by rewrite E].
    + split; [|naive_solver]. intros (c & mt & Hn). destruct (Fn k Hq E) as [_ [mt' Hd]]; congruence.
  - intros k q Hk Hp _ [mt Hd]. exists mt. rewrite (Fk q (Hq k q Hk Hp)); [done|by rewrite Hd].
Qed.

Lemma apart_mono ks ks' K : ks ⊆ ks' → apart ks' K → apart ks K.
Proof. intros Hs Ha f k Hf. apply Ha. set_solver. Qed.

Section calls.
Context (flt : Faults) (now : Z) (K : list (list string)).

Lemma MkdirAll_undisturbed p : steps (undisturbed K) (os_MkdirAll flt now p).
Proof. intros t. eapply frame_undisturbed; [|apply (mkdirs_frame flt now [])]. by intros f k ?%elem_of_nil. Qed.

Lemma OpenCreate_undisturbed excl trunc p :
  apart [path_key p] K → steps (undisturbed K) (os_OpenCreate flt excl trunc now p).
Proof.
  intros Ha t. apply (frame_undisturbed [path_key p] [] K); [done|]. unfold os_OpenCreate.
  repeat case_match; simpl; first [reflexivity|apply frame_insert].
Qed.

Lemma write_undisturbed op p d : apart [path_key p] K → steps (undisturbed K) (os_write flt op now p d).
Proof.
  intros Ha t. apply (frame_undisturbed [path_key p] [] K); [done|]. unfold os_write.
  destruct (flt op p); simpl; [reflexivity|apply frame_insert].
Qed.

Lemma WriteFile_undisturbed p d : apart [path_key p] K → steps (undisturbed K) (os_WriteFile flt now p d).
Proof. intros Ha. unfold os_WriteFile. steps_tac; [by apply OpenCreate_undisturbed|by apply write_undisturbed]. Qed.

Lemma Remove_undisturbed p : apart [path_key p] K → steps (undisturbed K) (os_Remove flt p).
Proof.
  intros Ha t. apply (frame_undisturbed [path_key p] [] K); [done|]. unfold os_Remove.
  repeat case_match; simpl; first [reflexivity|apply frame_delete].
Qed.

Lemma touches_undisturbed ks t t' : apart ks K → Sqlite.touches ks t t' → undisturbed K t t'.
Proof. intros Ha [Hf _]. by eapply frame_undisturbed. Qed.
End calls.
