(* ===== verification/Preflight.v ===== *)
(** * Startup checks

    internal/server/preflight.go: what is checked before the server starts.  A
    process is its file tree and its environment; the programs that the checks
    run, the user database and the permission bits are the interface [OsExec].
    Package path/filepath is that of Unix, as everywhere; the operating system
    is an argument because the code asks for it. *)

From stdpp Require Import strings.
From S2P Require Import Prelude GoStrings StringLists StrConv FsPath OsFs.
From Stdlib Require Import Ascii.
Open Scope string_scope.
Open Scope Z_scope.
Open Scope list_scope.

Module Preflight.

(** ** The process *)

Record Proc := mkProc { pr_tree : OsState; pr_env : gmap string string }.

Definition on_tree {A} (m : go OsState goerr A) : go Proc goerr A := λ p,
  let '(t, r) := m (pr_tree p) in (mkProc t (pr_env p), r).
(** os.Getenv, os.Setenv *)
Definition Getenv (name : string) (p : Proc) : string := default "" (pr_env p !! name).
Definition Setenv (name value : string) : go Proc goerr unit :=
  go_modify (λ p, mkProc (pr_tree p) (<[name := value]> (pr_env p))).

Class OsExec := {
  GOOS : string;
  user_Current : result goerr string;                      (* the name of os/user.Current *)
  executable (path : string) : bool;                       (* the permission bits *)
  CombinedOutput (argv : list string) (p : Proc) : result goerr string;
  temp_name : nat → string;                                (* the random parts of os.CreateTemp *)
}.

Definition PathListSeparator : ascii := ":".
(** filepath.SplitList *)
Definition SplitList (path : string) : list string :=
  if bool_decide (path = "") then [] else Split PathListSeparator path.

Section preflight.
Context `{WorkDir} `{GoUnicode} `{OsExec} (flt : Faults) (dir_size now : Z).

(** os/exec.LookPath; a result below the working directory is an error. *)
Definition findExecutable (file : string) (t : OsState) : bool :=
  match os_Stat flt dir_size file t with
  | Err _ => false
  | Ok info => negb (fi_isdir info) && executable file
  end.
Fixpoint look_in (dirs : list string) (file : string) (t : OsState) : option string :=
  match dirs with
  | [] => None
  | dir :: dirs' =>
      let path := JoinPath (if bool_decide (dir = "") then "." else dir) file in
      if findExecutable path t then (if IsAbs path then Some path else None)
      else look_in dirs' file t
  end.
Definition LookPath (file : string) (p : Proc) : option string :=
  if Contains file Separator then (if findExecutable file (pr_tree p) then Some file else None)
  else look_in (SplitList (Getenv "PATH" p)) file (pr_tree p).

(** os.CreateTemp(dir, prefix*suffix): a name that nothing has; the file is
    left empty, and its name is the answer. *)
Fixpoint create_temp (tries attempt : nat) (dir prefix suffix : string) : go OsState goerr string :=
  match tries with
  | O => go_fail (ErrPath "createtemp" (dir +:+ "/" +:+ prefix +:+ "*" +:+ suffix) EEXIST)
  | S tries =>
      let name := (if HasSuffix dir Separator then dir else dir +:+ Separator) +:+ prefix +:+ temp_name attempt +:+ suffix in
      catch! opened := os_OpenCreate flt true false now name in
      match opened with
      | Ok _ => go_ret name
      | Err err => if errors_Is err ErrExist then create_temp tries (S attempt) dir prefix suffix else go_fail err
      end
  end.
Definition CreateTemp (dir prefix suffix : string) : go OsState goerr string := create_temp 10000 0 dir prefix suffix.

(** ** internal/server/preflight.go *)

Definition envBuildToolDirs : string := "ROODOX_BUILD_TOOL_DIRS".
Definition envRequiredBuildTools : string := "ROODOX_BUILD_REQUIRED_TOOLS".

Record StartupCheckResult := mkStartup { CurrentUser : string; Effective : gmap string string }.

Definition ensureRootDirWritable (rootDir : string) : go OsState goerr unit :=
  if bool_decide (rootDir = "") then go_fail (ErrNew "root dir is empty")
  else
    let! _ := os_MkdirAll flt now rootDir in
    let! tmp := CreateTemp rootDir ".roodox-write-check-" ".tmp" in
    let! _ := go_lift (os_fault flt "close" tmp) in
    os_Remove flt tmp.

Definition recommendedBuildToolDirs (t : OsState) : list string :=
  if negb (bool_decide (GOOS = "windows")) then []
  else filter (λ dir, match os_Stat flt dir_size dir t with Ok stat => fi_isdir stat | Err _ => false end = true)
         ["C:\Program Files\CMake\bin"; "C:\Program Files (x86)\GnuWin32\bin"].

(** The loop over the directories of the environment variable. *)
Fixpoint merge_configured (dirs : list string) (seen : gset string) (merged : list string) (t : OsState) :
    result goerr (gset string * list string) :=
  match dirs with
  | [] => Ok (seen, merged)
  | dir :: dirs' =>
      let trimmed := TrimSpace dir in
      if bool_decide (trimmed = "") then merge_configured dirs' seen merged t
      else
        try absDir :=
          map_err (ErrWrap ("startup check failed: resolve " +:+ envBuildToolDirs +:+ " entry " +:+ Quote trimmed)) (Abs trimmed) in
        match os_Stat flt dir_size absDir t with
        | Ok st =>
            if negb (fi_isdir st) then Err (ErrNew ("startup check failed: build tool directory " +:+ Quote absDir +:+ " is invalid"))
            else
              let key := ToLower (Clean absDir) in
              if bool_decide (key ∈ seen) then merge_configured dirs' seen merged t
              else merge_configured dirs' ({[key]} ∪ seen) (absDir :: merged) t
        | Err _ => Err (ErrNew ("startup check failed: build tool directory " +:+ Quote absDir +:+ " is invalid"))
        end
  end.
Fixpoint merge_recommended (dirs : list string) (seen : gset string) (merged : list string) : list string :=
  match dirs with
  | [] => merged
  | dir :: dirs' =>
      let key := ToLower (Clean dir) in
      if bool_decide (key ∈ seen) then merge_recommended dirs' seen merged
      else merge_recommended dirs' ({[key]} ∪ seen) (dir :: merged)
  end.

Definition path_key_of (p : string) : string := ToLower (Clean (TrimSpace p)).

Definition ensureBuildToolPath : go Proc goerr unit :=
  let! raw := go_get (λ p, TrimSpace (Getenv envBuildToolDirs p)) in
  let! recommended := go_get (λ p, recommendedBuildToolDirs (pr_tree p)) in
  if bool_decide (raw = "") && bool_decide (recommended = []) then go_ret tt
  else
    let! current := go_get (Getenv "PATH") in
    let seen := list_to_set (map path_key_of (SplitList current)) in
    let! (seen, merged) :=
      go_read (λ p, merge_configured (SplitList raw) seen (SplitList current) (pr_tree p)) in
    Setenv "PATH" (Join (String PathListSeparator "") (merge_recommended recommended seen merged)).

Fixpoint comma_loop (seen : gset string) (parts : list string) : list string :=
  match parts with
  | [] => []
  | p :: parts' =>
      let name := TrimSpace (ToLower p) in
      if bool_decide (name = "") then comma_loop seen parts'
      else if bool_decide (name ∈ seen) then comma_loop seen parts'
      else name :: comma_loop ({[name]} ∪ seen) parts'
  end.
Definition parseCommaList (v : string) : list string := comma_loop ∅ (Split "," v).

Definition requiredBuildTools (p : Proc) : list string :=
  let raw := TrimSpace (Getenv envRequiredBuildTools p) in
  if negb (bool_decide (raw = "")) then parseCommaList raw else ["cmake"; "make"; "build-essential"].

Definition is_found (tool : string) (p : Proc) : bool := bool_decide (LookPath tool p ≠ None).

Fixpoint all_found (tools : list string) (p : Proc) : result goerr unit :=
  match tools with
  | [] => Ok tt
  | tool :: tools' =>
      if is_found tool p then all_found tools' p
      else Err (ErrNew ("startup check failed: " +:+ Quote tool +:+ " not found; install build-essential/toolchain first"))
  end.

Definition verifyBuildEssential (p : Proc) : result goerr unit :=
  if negb (bool_decide (GOOS = "linux")) then Ok tt
  else if is_found "dpkg-query" p &&
          match CombinedOutput ["dpkg-query"; "-W"; "-f=${Status}"; "build-essential"] p with
          | Ok out => Contains (ToLower out) "install ok installed"
          | Err _ => false
          end then Ok tt
  else all_found ["gcc"; "g++"; "make"] p.

Definition detectExecUser (p : Proc) : result goerr string :=
  let out := CombinedOutput (if bool_decide (GOOS = "windows") then ["whoami"] else ["id"; "-un"]) p in
  try out := out in Ok (TrimSpace out).

(** What follows the last slash. *)
Definition normalizeUser (v : string) : string :=
  let name := TrimSpace (ToLower v) in
  let name := ReplaceByte (ch 92) slash name in
  default name (last (Split slash name)).

Definition isWindowsLocalSystemIdentity (userName computerName : string) : bool :=
  let name := normalizeUser userName in
  if bool_decide (name ∈ ["system"; "localsystem"]) then true
  else
    let host := normalizeUser computerName in
    negb (bool_decide (host = "")) && bool_decide (name = host +:+ "$").

Definition sameNormalizedUser (expected actual goos computerName : string) : bool :=
  if bool_decide (expected = actual) then true
  else if negb (bool_decide (goos = "windows")) then false
  else isWindowsLocalSystemIdentity expected computerName && isWindowsLocalSystemIdentity actual computerName.

Definition verifySameUser (expected : string) (p : Proc) : result goerr unit :=
  try name := map_err (ErrWrap "startup check failed: detect exec user") (detectExecUser p) in
  let actual := normalizeUser name in
  if negb (sameNormalizedUser expected actual GOOS (Getenv "COMPUTERNAME" p))
  then Err (ErrNew ("startup check failed: process user mismatch, expected=" +:+ Quote expected +:+ " actual=" +:+ Quote actual))
  else Ok tt.

(** The loop over the required tools. *)
Fixpoint check_tools (tools : list string) (effective : gmap string string) (p : Proc) : result goerr (gmap string string) :=
  match tools with
  | [] => Ok effective
  | tool :: tools' =>
      if bool_decide (tool = "build-essential") then
        try _ := verifyBuildEssential p in check_tools tools' (<[tool := "ok"]> effective) p
      else
        match LookPath tool p with
        | None => Err (ErrNew ("startup check failed: required tool " +:+ Quote tool +:+ " not found in PATH"))
        | Some path => check_tools tools' (<[tool := path]> effective) p
        end
  end.

Definition RunStartupChecks (rootDir : string) (remoteBuildEnabled : bool) : go Proc goerr StartupCheckResult :=
  let! _ := on_tree (go_map_err (ErrWrap "startup check failed: root dir is not writable") (ensureRootDirWritable rootDir)) in
  let! cur := go_lift (map_err (ErrWrap "startup check failed: resolve current user") user_Current) in
  let user := normalizeUser cur in
  if negb remoteBuildEnabled then go_ret (mkStartup user ∅)
  else
    let! _ := ensureBuildToolPath in
    let! _ := go_read (verifySameUser user) in
    let! effective := go_read (λ p, check_tools (requiredBuildTools p) ∅ p) in
    go_ret (mkStartup user effective).
End preflight.
End Preflight.
