(* ===== verification/PreflightTheorems.v ===== *)
(** * Startup checks: theorems

    What holds after the checks have passed: the probe is gone, PATH has grown
    by the configured directories and nothing else, and every required tool is
    where the answer says. *)

From stdpp Require Import strings.
From S2P Require Import Prelude GoStrings StringLists StrConv FsPath OsFs Artifacts ConfigTheorems ExclFiles Preflight.
From Stdlib Require Import Ascii.
Open Scope string_scope.
Open Scope Z_scope.
Open Scope list_scope.

Module PreflightTheorems.
Import ConfigTheorems Preflight.

(** ** Paths without a colon *)

Definition no_colon (w : string) : Prop := no_char PathListSeparator w = true.

Lemma no_colon_app s t : no_colon (s +:+ t) ↔ no_colon s ∧ no_colon t.
Proof. unfold no_colon. by rewrite no_char_append, andb_true_iff. Qed.

Lemma no_colon_Join ws : Forall no_colon ws → no_colon (Join Separator ws).
Proof.
  induction 1 as [|w ws Hw Hws IH]; [done|]. destruct ws as [|w' ws]; [done|].
  change (no_colon (w +:+ Separator +:+ Join Separator (w' :: ws))). by rewrite !no_colon_app.
Qed.

Lemma no_colon_Split s : no_colon s → Forall no_colon (Split slash s).
Proof.
  induction s as [|a s IH]; cbn [Split]; [by repeat constructor|]. unfold no_colon at 1. cbn [no_char].
  intros [Ha Hs]%andb_true_iff. specialize (IH Hs). destruct (Ascii.eqb a slash); [by constructor|].
  destruct (Split slash s) as [|w ws].
  { constructor; [|constructor]. unfold no_colon. cbn [no_char]. by rewrite Ha. }
  apply Forall_cons in IH as [Hw Hws]. constructor; [|done]. unfold no_colon. cbn [no_char]. by rewrite Ha.
Qed.

Lemma no_colon_clean rooted ws : Forall no_colon ws → Forall no_colon (clean_elems rooted ws).
Proof.
  intros Hws. unfold clean_elems. apply Forall_rev.
  assert (∀ stack, Forall no_colon stack → Forall no_colon (fold_left (clean_step rooted) ws stack)) as Hf.
  { induction Hws as [|w ws Hw Hws IH]; intros stack Hs; [done|]. cbn [fold_left]. apply IH.
    unfold clean_step. case_decide; [done|]. case_decide; [|by constructor].
    destruct stack as [|top rest]; [destruct rooted; by repeat constructor|].
    apply Forall_cons in Hs as [Ht Hr]. case_decide; by repeat constructor. }
  by apply Hf.
Qed.

Lemma no_colon_Clean p : no_colon p → no_colon (Clean p).
Proof.
  intros Hp. unfold Clean. case_decide; [done|].
  assert (∀ rooted, Forall no_colon (clean_elems rooted (Split slash p))) as He.
  { intros rooted. by apply no_colon_clean, no_colon_Split. }
  destruct (IsAbs p).
  - apply no_colon_app. split; [done|]. by apply no_colon_Join.
  - specialize (He false). destruct (clean_elems false (Split slash p)); [done|]. by apply no_colon_Join.
Qed.

Lemma no_colon_TrimSpace s : no_colon s → no_colon (TrimSpace s).
Proof.
  unfold TrimSpace. destruct (trim_with_spec space2 space3 s) as [_ [p Hp]].
  destruct (TrimRightSpace_spec (TrimLeftSpace s)) as [[q Hq] _]. fold (TrimLeftSpace s) in Hp.
  rewrite Hp, no_colon_app at 1. intros [_ Hl]. rewrite Hq, no_colon_app in Hl. by destruct Hl.
Qed.

Section theorems.
Context `{WorkDir} `{GoUnicode} `{OsExec} (flt : Faults) (dir_size now : Z).

(** ** The root directory *)

Lemma create_temp_Ok tries attempt dir prefix suffix t t' name :
  create_temp flt now tries attempt dir prefix suffix t = (t', Ok name) →
  t !! path_key name = None ∧ t' = <[path_key name := FileNode [] now]> t ∧
  os_lookup t' (path_key name) = Ok (FileNode [] now).
Proof.
  revert attempt. induction tries as [|tries IH]; intros attempt; cbn [create_temp]; [done|].
  cbn zeta. unfold go_catch at 1. set (p := (if HasSuffix dir Separator then _ else _) +:+ _).
  destruct (os_OpenCreate flt true false now p t) as [t1 [c|e]] eqn:Eo.
  - intros [= <- <-]. by apply open_excl in Eo as (_ & ? & ? & ?).
  - apply open_excl_err in Eo as ->. destruct (errors_Is e ErrExist); [apply IH|done].
Qed.

(** A check that passes leaves the tree as [os.MkdirAll] makes it. *)
Lemma writable_tree rootDir t t' :
  ensureRootDirWritable flt now rootDir t = (t', Ok tt) →
  os_MkdirAll flt now rootDir t = (t', Ok tt).
Proof.
  unfold ensureRootDirWritable. case_bool_decide; [done|]. unfold go_bind at 1.
  destruct (os_MkdirAll flt now rootDir t) as [t1 [[]|e]]; [|done]. unfold go_bind at 1.
  destruct (CreateTemp _ _ _ _ _ _) as [t2 [name|e]] eqn:Ec; [|done].
  apply create_temp_Ok in Ec as (Hn & -> & Hl). unfold go_bind, go_lift.
  destruct (os_fault flt "close" name) as [[]|e]; [|done].
  intros ->%(remove_Ok _ _ _ _ _ _ Hl). by rewrite made_and_removed.
Qed.

(** ** PATH *)

Lemma SplitList_no_colon path : Forall no_colon (SplitList path).
Proof. unfold SplitList. case_bool_decide; [constructor|]. apply Split_no_char. Qed.

Lemma SplitList_Join l : Forall no_colon l → l ≠ [""] → SplitList (Join (String PathListSeparator "") l) = l.
Proof.
  intros Hl Hne. unfold SplitList. destruct l as [|w l]; [by rewrite bool_decide_eq_true_2|].
  rewrite bool_decide_eq_false_2; [by apply Split_Join|].
  destruct l as [|w' l]; cbn [Join String.concat]; [congruence|].
  intros E. by destruct w.
Qed.

(** What [merge_configured] adds: directories that exist, in front. *)
Record merged_ok (dirs : list string) (seen : gset string) (merged : list string) (t : OsState)
    (seen' : gset string) (merged' : list string) : Prop := {
  mg_added : ∃ added, merged' = added ++ merged ∧
    Forall (λ d, ∃ dir st, dir ∈ dirs ∧ TrimSpace dir ≠ "" ∧ Abs (TrimSpace dir) = Ok d ∧
                   os_Stat flt dir_size d t = Ok st ∧ fi_isdir st = true ∧ ToLower (Clean d) ∉ seen) added ∧
    NoDup (map (λ d, ToLower (Clean d)) added) ∧
    seen' = list_to_set (map (λ d, ToLower (Clean d)) added) ∪ seen;
  mg_all dir : dir ∈ dirs → TrimSpace dir ≠ "" →
    ∃ d, Abs (TrimSpace dir) = Ok d ∧ ToLower (Clean d) ∈ seen';
}.

Lemma merge_configured_ok dirs seen merged t seen' merged' :
  merge_configured flt dir_size dirs seen merged t = Ok (seen', merged') →
  merged_ok dirs seen merged t seen' merged'.
Proof.
  revert seen merged. induction dirs as [|dir dirs IH]; intros seen merged; cbn [merge_configured].
  { intros [= -> ->]. split; [|by intros ? ?%elem_of_nil]. exists []. split_and!; [done|constructor..|set_solver]. }
  cbn zeta. case_bool_decide as Hb.
  { intros [(added & -> & Ha & Hd & Hs) Hall]%IH. split.
    - exists added. split_and!; [done| |done|done]. eapply Forall_impl; [exact Ha|]. cbn beta.
      intros d (dir' & st & Hin & Hr). exists dir', st. split; [by right|done].
    - intros dir' [-> | Hin]%elem_of_cons Hne; [done|by apply Hall]. }
  destruct (Abs (TrimSpace dir)) as [d|] eqn:Ed; [|done]. cbn [map_err res_bind].
  destruct (os_Stat flt dir_size d t) as [st|] eqn:Est; [|done].
  destruct (fi_isdir st) eqn:Edir; [|done]. cbn [negb]. set (key := ToLower (Clean d)).
  case_bool_decide as Hk.
  - intros [(added & -> & Ha & Hd & Hs) Hall]%IH. split.
    + exists added. split_and!; [done| |done|done]. eapply Forall_impl; [exact Ha|]. cbn beta.
      intros d' (dir' & st' & Hin & Hr). exists dir', st'. split; [by right|done].
    + intros dir' [-> | Hin]%elem_of_cons Hne; [|by apply Hall]. exists d. split; [done|]. subst seen'. set_solver.
  - intros [(added & -> & Ha & Hd & Hs) Hall]%IH. split.
    + exists (added ++ [d]). split_and!.
      * by rewrite <- app_assoc.
      * apply Forall_app. split.
        -- eapply Forall_impl; [exact Ha|]. cbn beta. intros d' (dir' & st' & Hin & HN & HA & HS & HD & HK).
           exists dir', st'. split_and!; [by right|done..|set_solver].
        -- apply Forall_singleton. exists dir, st. split_and!; [by left|done..].
      * rewrite map_app. apply NoDup_app. split_and!; [done| |apply NoDup_singleton].
        intros k (d' & -> & Hd')%list_elem_of_fmap [Hk'|[]%elem_of_nil]%elem_of_cons.
        rewrite Forall_forall in Ha. destruct (Ha d' Hd') as (? & ? & _ & _ & _ & _ & _ & HK). fold key in Hk'. set_solver.
      * rewrite map_app, list_to_set_app_L. cbn [map list_to_set]. fold key. set_solver.
    + intros dir' [-> | Hin]%elem_of_cons Hne; [|by apply Hall]. exists d. split; [done|]. fold key. set_solver.
Qed.

(** ** The tools *)

Lemma check_tools_ok tools eff p eff' :
  check_tools flt dir_size tools eff p = Ok eff' →
  (∀ tool, tool ∉ tools → eff' !! tool = eff !! tool) ∧
  (∀ tool, tool ∈ tools → tool ≠ "build-essential" →
     ∃ path, LookPath flt dir_size tool p = Some path ∧ eff' !! tool = Some path) ∧
  ("build-essential" ∈ tools → verifyBuildEssential flt dir_size p = Ok tt).
Proof.
  revert eff. induction tools as [|tool tools IH]; intros eff; cbn [check_tools].
  { intros [= ->]. split_and!; [done|by intros ? ?%elem_of_nil|by intros ?%elem_of_nil]. }
  case_bool_decide as Hb.
  - subst. destruct (verifyBuildEssential _ _ _) as [[]|] eqn:Ev; [|done]. cbn [res_bind].
    intros (Hout & Hin & Hbe)%IH. split_and!; [|by intros tool [-> | ?]%elem_of_cons ?; auto|done].
    intros tool [Hne Hn]%not_elem_of_cons. rewrite Hout by done. by rewrite lookup_insert_ne.
  - destruct (LookPath _ _ _ _) as [path|] eqn:El; [|done].
    intros (Hout & Hin & Hbe)%IH. split_and!.
    + intros tool' [Hne Hn]%not_elem_of_cons. rewrite Hout by done. by rewrite lookup_insert_ne.
    + intros tool' [-> | Hin']%elem_of_cons Hne; [|by apply Hin]. exists path. split; [done|].
      destruct (decide (tool ∈ tools)) as [Hin'|Hn].
      * destruct (Hin tool Hin' Hne) as (path' & Hp & ?). congruence.
      * rewrite Hout by done. apply lookup_insert_eq.
    + intros [?|?]%elem_of_cons; [congruence|by apply Hbe].
Qed.

(** A tool that is found is a file that can be run. *)
Lemma LookPath_found tool p path :
  LookPath flt dir_size tool p = Some path → findExecutable flt dir_size path (pr_tree p) = true.
Proof.
  unfold LookPath. destruct (Contains tool Separator).
  - by destruct (findExecutable _ _ _ _) eqn:E; [intros [= <-]|].
  - generalize (SplitList (Getenv "PATH" p)) as dirs. induction dirs as [|dir dirs IH]; cbn [look_in]; [done|].
    cbn zeta. destruct (findExecutable _ _ (JoinPath _ _) _) eqn:E; [|exact IH]. by destruct (IsAbs _); [intros [= <-]|].
Qed.

(** ** The checks *)

(** The working directory can be in a list of directories. *)
Definition plain_wd : Prop := ∀ wd, Getwd = Ok wd → no_colon wd.

Lemma Abs_no_colon p d : plain_wd → no_colon p → Abs p = Ok d → no_colon d.
Proof.
  intros Hwd Hp. unfold Abs. destruct (IsAbs p); [intros [= <-]; by apply no_colon_Clean|].
  destruct Getwd as [wd|] eqn:E; [|done]. intros [= <-]. specialize (Hwd wd E). unfold JoinPath.
  case_decide; [case_decide; [done|by apply no_colon_Clean]|]. apply no_colon_Clean. by rewrite !no_colon_app.
Qed.

Lemma Abs_nonempty p d : p ≠ "" → Abs p = Ok d → d ≠ "".
Proof.
  intros Hp. unfold Abs. destruct (IsAbs p); [intros [= <-]; apply Clean_nonempty|].
  destruct Getwd; [|done]. intros [= <-]. unfold JoinPath. case_decide; [case_decide; [done|]|]; apply Clean_nonempty.
Qed.

(** [PATH] of [p'] is that of [p] behind directories of the environment. *)
Record path_grown (p p' : Proc) (added : list string) : Prop := {
  gr_path : SplitList (Getenv "PATH" p') = added ++ SplitList (Getenv "PATH" p);
  gr_dirs : Forall (λ d, ∃ dir st, dir ∈ SplitList (TrimSpace (Getenv envBuildToolDirs p)) ∧ Abs (TrimSpace dir) = Ok d ∧
              os_Stat flt dir_size d (pr_tree p) = Ok st ∧ fi_isdir st = true) added;
  gr_once : NoDup (map (λ d, ToLower (Clean d)) added);
  gr_all dir : dir ∈ SplitList (TrimSpace (Getenv envBuildToolDirs p)) → TrimSpace dir ≠ "" →
    ∃ d, Abs (TrimSpace dir) = Ok d ∧
      ((∃ e, e ∈ added ∧ ToLower (Clean e) = ToLower (Clean d)) ∨
       (∃ e, e ∈ SplitList (Getenv "PATH" p) ∧ path_key_of e = ToLower (Clean d)));
}.

Lemma build_path p p' :
  GOOS ≠ "windows" → plain_wd → ensureBuildToolPath flt dir_size p = (p', Ok tt) →
  pr_tree p' = pr_tree p ∧ (∀ name, name ≠ "PATH" → Getenv name p' = Getenv name p) ∧ ∃ added, path_grown p p' added.
Proof.
  intros Hos Hwd. unfold ensureBuildToolPath, go_bind, go_get, go_read, recommendedBuildToolDirs.
  rewrite (bool_decide_eq_false_2 (GOOS = "windows")) by done. cbn [negb].
  rewrite (bool_decide_eq_true_2 ([] = [])) by done. rewrite andb_true_r.
  set (raw := TrimSpace (Getenv envBuildToolDirs p)). case_bool_decide as Hraw.
  { intros [= <-]. split_and!; [done..|]. exists []. split; [done|constructor|constructor|].
    fold raw. rewrite Hraw. by intros dir ?%elem_of_nil. }
  destruct (merge_configured _ _ _ _ _ _) as [[seen merged]|] eqn:Em; [|done].
  apply merge_configured_ok in Em as [(added & -> & Ha & Hd & Hs) Hall]. cbn [merge_recommended].
  set (cur := SplitList (Getenv "PATH" p)) in *. intros [= <-]. split_and!; [done| |exists added; split].
  - intros name Hn. unfold Getenv. cbn [pr_env]. by rewrite lookup_insert_ne.
  - unfold Getenv at 1. cbn [pr_env]. rewrite lookup_insert_eq. cbn [default]. apply SplitList_Join.
    + apply Forall_app. split; [|apply SplitList_no_colon]. eapply Forall_impl; [exact Ha|].
      intros d (dir & st & Hin & _ & HA & _). eapply Abs_no_colon; [done| |exact HA]. apply no_colon_TrimSpace.
      pose proof (SplitList_no_colon raw) as Hr. rewrite Forall_forall in Hr. by apply Hr.
    + destruct added as [|d added]; cbn [app].
      * unfold cur, SplitList. case_bool_decide as E; [done|]. intros E'. apply E.
        by rewrite <- (Join_Split PathListSeparator (Getenv "PATH" p)), E'.
      * intros [= -> _]. apply Forall_cons in Ha as [(dir & st & _ & HN & HA & _) _].
        by apply (Abs_nonempty _ _ HN) in HA.
  - eapply Forall_impl; [exact Ha|]. intros d (dir & st & ? & _ & ? & ? & ? & _). by exists dir, st.
  - done.
  - intros dir Hin Hne. destruct (Hall dir Hin Hne) as (d & HA & Hk). exists d. split; [done|]. subst seen.
    apply elem_of_union in Hk as [Hk|Hk]; apply elem_of_list_to_set, list_elem_of_fmap in Hk as (e & He & Hin').
    + left. by exists e.
    + right. by exists e.
Qed.

(** What the startup checks guarantee.  When they pass on a server that
    builds, nothing is left of the probe - the tree is the old one with the
    root directory made; the PATH of the process is the old one behind existing
    directories of the configured list, each once, and a configured directory
    is missing only if one with the same letters is there; and every required
    tool other than the toolchain itself was found on that PATH as a file that
    can be run, at the path that is reported. *)
Theorem startup_checks_passed rootDir p p' r :
  GOOS ≠ "windows" → plain_wd →
  RunStartupChecks flt dir_size now rootDir true p = (p', Ok r) →
  os_MkdirAll flt now rootDir (pr_tree p) = (pr_tree p', Ok tt) ∧
  (∃ added, path_grown (mkProc (pr_tree p') (pr_env p)) p' added) ∧
  ∀ tool, tool ∈ requiredBuildTools p' → tool ≠ "build-essential" →
    ∃ path, Effective r !! tool = Some path ∧ LookPath flt dir_size tool p' = Some path ∧
      findExecutable flt dir_size path (pr_tree p') = true.
Proof.
  intros Hos Hwd. unfold RunStartupChecks, go_bind, on_tree, go_map_err, go_lift, go_read.
  destruct (ensureRootDirWritable flt now rootDir (pr_tree p)) as [t1 [[]|e]] eqn:Ew; [|done]. cbn [map_err].
  apply writable_tree in Ew. destruct user_Current as [cur|]; [|done]. cbn [map_err negb].
  destruct (ensureBuildToolPath _ _ _) as [p1 [[]|e]] eqn:Ep; [|done].
  apply build_path in Ep as (Ht & _ & added & Hg); [|done..]. cbn [pr_tree] in Ht.
  destruct (verifySameUser _ p1) as [[]|]; [|done].
  destruct (check_tools _ _ _ _ p1) as [eff|] eqn:Ec; [|done]. intros [= <- <-].
  apply check_tools_ok in Ec as (_ & Hin & _). rewrite Ht in *. split_and!; [done|by exists added|].
  intros tool Htool Hne. destruct (Hin tool Htool Hne) as (path & Hl & He). exists path.
  split_and!; [done|done|]. rewrite <- Ht. by eapply LookPath_found.
Qed.
End theorems.

(** ** Concrete checks *)

#[local] Existing Instance ascii_only_unicode.
#[local] Instance linux_wd : WorkDir := Ok "/work".
#[local] Instance linux : OsExec := {|
  GOOS := "linux"; user_Current := Ok "DOMAIN\Alice"; executable _ := true;
  CombinedOutput argv _ := if bool_decide (argv = ["id"; "-un"]) then Ok "alice" else Err (ErrNew "exit status 1");
  temp_name k := "123"
|}.

Definition ex_tree : OsState := list_to_map [
  ([], DirNode 0); (["work"], DirNode 0); (["work"; "Tools"], DirNode 0); (["work"; "Tools"; "cmake"], FileNode [] 0);
  (["bin"], DirNode 0); (["bin"; "make"], FileNode [] 0); (["tools"], DirNode 0); (["Tools"], DirNode 0);
  (["Tools"; "cmake"], FileNode [] 0)].
Definition ex_proc (path dirs tools : string) : Proc :=
  mkProc ex_tree (list_to_map [("PATH", path); (envBuildToolDirs, dirs); (envRequiredBuildTools, tools)]).
Definition ex_start : Proc := ex_proc "/bin" " Tools :/Tools::/bin" " CMake, make,,cmake".
Definition ex_checked := RunStartupChecks no_faults 0 7 "/srv/share" true ex_start.
Definition ex_result : StartupCheckResult := match ex_checked.2 with Ok r => r | Err _ => mkStartup "" ∅ end.

Example ex_values :
  (CurrentUser ex_result, map_to_list (Effective ex_result), Getenv "PATH" ex_checked.1,
   requiredBuildTools ex_checked.1, match pr_tree ex_checked.1 !! ["srv"; "share"] with Some (DirNode 7) => true | _ => false end) =
  ("alice", [("cmake", "/Tools/cmake"); ("make", "/bin/make")], "/Tools:/work/Tools:/bin", ["cmake"; "make"], true).
Proof. vm_compute. reflexivity. Qed.

Lemma ex_checked_eq : RunStartupChecks no_faults 0 7 "/srv/share" true ex_start = (ex_checked.1, Ok ex_result).
Proof. by vm_compute. Qed.

(** A configured directory is left out when PATH has one that differs from it in
    the case of letters, although the file system tells them apart: the tool in
    it is not found. *)
Example other_case_hides :
  let out := λ path, (RunStartupChecks no_faults 0 7 "/srv" true (ex_proc path "/Tools" "cmake")).2 in
  (match out "/bin" with Ok r => Effective r !! "cmake" | Err _ => None end,
   match out "/bin:/tools" with Ok _ => "" | Err e => err_text e end) =
  (Some "/Tools/cmake", "startup check failed: required tool " +:+ Quote "cmake" +:+ " not found in PATH").
Proof. vm_compute. reflexivity. Qed.

Lemma startup_checks_passed_witness :
  os_MkdirAll no_faults 7 "/srv/share" ex_tree = (pr_tree ex_checked.1, Ok tt) ∧
  (∃ added, path_grown no_faults 0 (mkProc (pr_tree ex_checked.1) (pr_env ex_start)) ex_checked.1 added) ∧
  ∀ tool, tool ∈ requiredBuildTools ex_checked.1 → tool ≠ "build-essential" →
    ∃ path, Effective ex_result !! tool = Some path ∧ LookPath no_faults 0 tool ex_checked.1 = Some path ∧
      findExecutable no_faults 0 path (pr_tree ex_checked.1) = true.
Proof.
  apply (startup_checks_passed no_faults 0 7 "/srv/share" ex_start ex_checked.1 ex_result).
  - discriminate.
  - intros wd [= <-]. reflexivity.
  - exact ex_checked_eq.
Defined.
End PreflightTheorems.
