(* ===== verification/Walks.v ===== *)
(** * Walks that read

    What [filepath.WalkDir] visits when its callback leaves the tree alone and
    nothing fails: every node below the root that no pruned directory hides,
    once.  In particular the fuel of the model is enough for every tree. *)

From S2P Require Import Prelude GoStrings FsPath OsFs Conflicts Artifacts.
Open Scope string_scope.
Open Scope Z_scope.
Open Scope list_scope.

Lemma list_snoc_cases {A : Type} (l : list A) : l = [] ∨ ∃ l' x, l = l' ++ [x].
Proof. destruct l as [|x l _] using rev_ind; [by left|]. right. eauto. Qed.

(** ** The nodes to visit *)

Section visited.
Context (t : OsState) (prune : list string → node → bool).

(** [node_reached k n k' n']: a walk from the node [n] at [k] gets to [n'] at [k']. *)
Inductive node_reached : list string → node → list string → node → Prop :=
| reached_here k n : node_reached k n k n
| reached_below k mt x m k' n' :
    prune k (DirNode mt) = false → node_at t (k ++ [x]) = Some m →
    node_reached (k ++ [x]) m k' n' → node_reached k (DirNode mt) k' n'.

Lemma node_reached_prefix k n k' n' : node_reached k n k' n' → k `prefix_of` k'.
Proof.
  induction 1 as [|k mt x m k' n' _ _ _ IH]; [done|]. trans (k ++ [x]); [by apply prefix_app_r|done].
Qed.

Lemma node_reached_inv k n k' n' :
  node_reached k n k' n' →
  (k' = k ∧ n' = n) ∨
  ∃ mt x m, n = DirNode mt ∧ prune k n = false ∧ node_at t (k ++ [x]) = Some m ∧ node_reached (k ++ [x]) m k' n'.
Proof. inversion 1; subst; [by left|]. right. eauto 10. Qed.

Lemma node_reached_same k n n' : node_reached k n k n' → n' = n.
Proof.
  intros [[_ ?]|(mt & x & m & _ & _ & _ & Hr%node_reached_prefix%prefix_length)]%node_reached_inv; [done|].
  rewrite length_app in Hr. simpl in Hr. lia.
Qed.

Lemma reached_plain k n k' n' : tree_plain t → Forall plain k → node_reached k n k' n' → Forall plain k'.
Proof.
  intros Ht Hk. induction 1 as [|k mt x m k' n' _ Hm _ IH]; [done|]. apply IH.
  unfold node_at in Hm. rewrite decide_False in Hm by (by destruct k).
  destruct (t !! (k ++ [x])) eqn:E; [|done]. by eapply Ht.
Qed.

(** ** The children of a directory *)

Lemma elem_of_children k x m : (x, m) ∈ children k t ↔ node_at t (k ++ [x]) = Some m.
Proof.
  unfold children, sort_by. rewrite merge_sort_Permutation, list_elem_of_omap.
  unfold node_at. rewrite (decide_False (P := k ++ [x] = [])) by (by destruct k). split.
  - intros ([q n] & Hq%elem_of_map_to_list & Hc). unfold child_of in Hc. simpl in Hc.
    destruct (last q); [|done]. case_decide as E; [|done]. injection Hc as -> ->. subst q. by rewrite Hq.
  - intros Hm. exists (k ++ [x], m). split.
    + apply elem_of_map_to_list. by destruct (t !! (k ++ [x])).
    + unfold child_of. cbn [fst snd]. by rewrite last_snoc, decide_True.
Qed.

Lemma children_nodup k : NoDup ((children k t).*1).
Proof.
  unfold children, sort_by. rewrite merge_sort_Permutation.
  assert (∀ l : list (list string * node), NoDup (l.*1) → NoDup ((omap (child_of k) l).*1)) as Ha;
    [|apply Ha, NoDup_fst_map_to_list].
  intros l. induction l as [|[q n] l IH]; [intros; constructor|].
  intros [Hq Hl]%NoDup_cons. cbn [omap list_omap].
  destruct (child_of k (q, n)) as [[x m]|] eqn:E; [|by apply IH]. cbn. constructor; [|by apply IH].
  intros ([x' m'] & -> & ([q' n'] & Hin & E')%list_elem_of_omap)%list_elem_of_fmap. apply Hq.
  unfold child_of in E, E'. cbn [fst snd] in E, E'.
  destruct (last q); [|done]. case_decide as D; [|done]. injection E as <- _.
  destruct (last q'); [|done]. case_decide as D'; [|done]. injection E' as <- _.
  apply list_elem_of_fmap. exists (q', n'). split; [|done]. cbn. by rewrite D, D'.
Qed.

(** ** A measure of what is below a node *)

Definition strictly_below (k q : list string) : bool := bool_decide (k `prefix_of` q) && negb (bool_decide (q = k)).
Definition nodes_below (k : list string) : nat := length (List.filter (strictly_below k) (map_to_list t).*1).

Lemma nodes_below_child k x m : node_at t (k ++ [x]) = Some m → (nodes_below (k ++ [x]) < nodes_below k)%nat.
Proof.
  intros Hm. apply filter_length_lt with (k ++ [x]).
  - intros q _. unfold strictly_below. rewrite !andb_true_iff, !negb_true_iff, !bool_decide_eq_true, !bool_decide_eq_false.
    intros [Hp Hne]. split.
    + trans (k ++ [x]); [by apply prefix_app_r|done].
    + intros ->. apply prefix_length in Hp. rewrite length_app in Hp. simpl in Hp. lia.
  - apply list_elem_of_fmap. exists (k ++ [x], m). split; [done|]. apply elem_of_map_to_list.
    unfold node_at in Hm. rewrite decide_False in Hm by (by destruct k). by destruct (t !! (k ++ [x])).
  - unfold strictly_below. by rewrite (bool_decide_eq_true_2 (k ++ [x] = _)), andb_false_r.
  - unfold strictly_below. rewrite bool_decide_eq_true_2 by (by apply prefix_app_r).
    rewrite bool_decide_eq_false_2; [done|]. intros E%(f_equal length). rewrite length_app in E. simpl in E. lia.
Qed.

Lemma nodes_below_size k : (nodes_below k ≤ size t)%nat.
Proof.
  unfold nodes_below. etrans; [apply List.filter_length_le|].
  rewrite length_fmap. by rewrite length_map_to_list.
Qed.
End visited.

(** ** What the walk does *)

Section walk.
Context (flt : Faults) (dir_size : Z) {U : Type} (t : OsState) (prune : list string → node → bool)
        (emit : list string → node → list U)
        (fn : string → DirEntry → option goerr → go (OsState * list U) goerr walk_ctl).
Hypothesis Hcalm : ∀ op p, flt op p = None.
Hypothesis Ht : tree_plain t.

Definition entry (k : list string) (n : node) : DirEntry := {| de_name := Base (abs_path k); de_isdir := is_dir n |}.

(** The callback adds what it emits for the node, and prunes. *)
Definition collects (k : list string) (n : node) : Prop := ∀ acc,
  fn (abs_path k) (entry k n) None (t, acc) =
    ((t, acc ++ emit k n), Ok (if prune k n && is_dir n then WalkSkipDir else WalkNext)).

Definition emitted (vs : list (list string * node)) : list U := concat (map (λ v, emit v.1 v.2) vs).

Lemma entry_of_child k x m : Forall plain k → plain x → entry_of (x, m) = entry (k ++ [x]) m.
Proof. intros Hk Hx. unfold entry_of, entry. by rewrite Base_abs_path. Qed.

Lemma join_child k x : Forall plain k → plain x → JoinPath (abs_path k) x = abs_path (k ++ [x]).
Proof. intros Hk Hx. apply (Clean_JoinPath k [x]); [done..|]. by constructor. Qed.

Lemma child_plain k x m : node_at t (k ++ [x]) = Some m → plain x.
Proof.
  unfold node_at. rewrite decide_False by (by destruct k). destruct (t !! (k ++ [x])) eqn:E; [|done].
  intros _. apply Ht in E. apply Forall_app in E as [_ E]. by apply Forall_cons in E as [? _].
Qed.

Section entries.
Context (rec : string → DirEntry → go (OsState * list U) goerr walk_ctl) (k : list string).
Hypothesis Hrec : ∀ x m acc, node_at t (k ++ [x]) = Some m →
  ∃ vs, NoDup (vs.*1) ∧ (∀ k' n', (k', n') ∈ vs ↔ node_reached t prune (k ++ [x]) m k' n') ∧
    rec (abs_path (k ++ [x])) (entry (k ++ [x]) m) (t, acc) = ((t, acc ++ emitted vs), Ok WalkNext).

Lemma walk_entries_collect es acc :
  Forall plain k → NoDup (es.*1) → (∀ x m, (x, m) ∈ es → node_at t (k ++ [x]) = Some m) →
  ∃ vs, NoDup (vs.*1) ∧
    (∀ k' n', (k', n') ∈ vs ↔ ∃ x m, (x, m) ∈ es ∧ node_reached t prune (k ++ [x]) m k' n') ∧
    walk_entries rec (abs_path k) (map entry_of es) (t, acc) = ((t, acc ++ emitted vs), Ok WalkNext).
Proof.
  intros Hk. revert acc. induction es as [|[x m] es IH]; intros acc Hnd Hes.
  { exists []. split_and!; [constructor|intros k' n'; set_solver|]. simpl. by rewrite app_nil_r. }
  apply NoDup_cons in Hnd as [Hx Hnd].
  assert (node_at t (k ++ [x]) = Some m) as Hm by (apply Hes; left).
  destruct (Hrec x m acc Hm) as (vs1 & N1 & M1 & E1).
  destruct (IH (acc ++ emitted vs1) Hnd) as (vs2 & N2 & M2 & E2); [set_solver|].
  exists (vs1 ++ vs2). split_and!.
  - rewrite fmap_app. apply NoDup_app. split_and!; [done| |done].
    intros q ([q1 n1] & -> & H1%M1)%list_elem_of_fmap ([q2 n2] & E & (y & m' & Hy & H2)%M2)%list_elem_of_fmap.
    cbn in E. subst q2. apply node_reached_prefix in H1, H2. apply Hx.
    assert (k ++ [x] = k ++ [y]) as [= <-]%app_inv_head.
    { destruct (prefix_weak_total _ _ _ H1 H2) as [P|P]; [|symmetry];
        (apply prefix_length_eq; [done|]; rewrite !length_app; simpl; lia). }
    apply list_elem_of_fmap. by exists (x, m').
  - intros k' n'. rewrite elem_of_app, M1, M2. set_solver.
  - cbn [map walk_entries]. unfold go_bind. cbn [de_name entry_of fst].
    pose proof (child_plain _ _ _ Hm) as Hpx.
    rewrite (join_child k x) by done.
    change {| de_name := x; de_isdir := is_dir (x, m).2 |} with (entry_of (x, m)).
    rewrite (entry_of_child k) by done. rewrite E1, E2. unfold emitted. by rewrite map_app, concat_app, app_assoc.
Qed.
End entries.

Lemma walkDir_collects fuel k n acc :
  Forall plain k → os_lookup t k = Ok n → (nodes_below t k < fuel)%nat →
  (∀ k' n', node_reached t prune k n k' n' → collects k' n') →
  ∃ vs, NoDup (vs.*1) ∧ (∀ k' n', (k', n') ∈ vs ↔ node_reached t prune k n k' n') ∧
    walkDir flt fst fn fuel (abs_path k) (entry k n) (t, acc) = ((t, acc ++ emitted vs), Ok WalkNext).
Proof.
  revert k n acc. induction fuel as [|fuel IH]; intros k n acc Hk Hl Hf Hfn; [lia|].
  assert (∀ k' n' : _, (k', n') ∈ [(k, n)] ↔ (k' = k ∧ n' = n)) as Hone by set_solver.
  assert (prune k n = true ∨ is_dir n = false → ∃ vs, NoDup (vs.*1) ∧
    (∀ k' n', (k', n') ∈ vs ↔ node_reached t prune k n k' n') ∧
    emitted vs = emit k n) as Hleaf.
  { intros Hst. exists [(k, n)]. split_and!; [apply NoDup_singleton| |by unfold emitted; simpl; rewrite app_nil_r].
    intros k' n'. rewrite Hone. split; [intros [-> ->]; constructor|].
    intros [?|(mt & x & m & -> & Hp & _)]%node_reached_inv; [done|].
    destruct Hst as [|[=]]. congruence. }
  cbn [walkDir]. unfold go_bind at 1. rewrite (Hfn _ _ (reached_here _ _ _ _)).
  destruct n as [mt|c mt]; cbn [is_dir entry de_isdir negb] in *.
  2:{ rewrite andb_false_r. destruct Hleaf as (vs & ? & ? & E); [by right|]. exists vs. by rewrite E. }
  rewrite andb_true_r. destruct (prune k (DirNode mt)) eqn:Hp.
  { destruct Hleaf as (vs & ? & ? & E); [by left|]. exists vs. by rewrite E. }
  unfold go_catch, go_read, os_ReadDir, os_fault. rewrite Hcalm. cbn [res_bind fst].
  rewrite path_key_abs_path, Hl by done.
  destruct (walk_entries_collect (walkDir flt fst fn fuel) k) with (es := children k t) (acc := acc ++ emit k (DirNode mt))
    as (vs & N & M & E); [|done|apply children_nodup|intros x m; apply elem_of_children|].
  - intros x m acc' Hm. apply IH.
    + apply plain_snoc; [done|by eapply child_plain].
    + apply os_lookup_linked. apply os_lookup_linked in Hl as [Hn Hl]. split; [done|].
      intros pre Hpre Hne. apply prefix_snoc in Hpre; [|done].
      destruct (decide (pre = k)) as [-> |]; [eauto|by apply Hl].
    + pose proof (nodes_below_child t k x m Hm). lia.
    + intros k' n' Hr. apply Hfn. by eapply reached_below.
  - exists ((k, DirNode mt) :: vs). split_and!.
    + apply NoDup_cons. split; [|done].
      intros ([q n'] & E' & (x & m & _ & Hr%node_reached_prefix%prefix_length)%M)%list_elem_of_fmap.
      cbn in E'. subst q. rewrite length_app in Hr. simpl in Hr. lia.
    + intros k' n'. rewrite elem_of_cons, M. split.
      * intros [[= -> ->]|(x & m & Hx%elem_of_children & Hr)]; [constructor|by eapply reached_below].
      * intros [[-> ->]|(mt' & x & m & [= <-] & _ & Hm & Hr)]%node_reached_inv; [by left|right].
        exists x, m. by rewrite elem_of_children.
    + rewrite E. by rewrite <- app_assoc.
Qed.

Lemma WalkDir_collects k n :
  Forall plain k → os_lookup t k = Ok n →
  (∀ k' n', node_reached t prune k n k' n' → collects k' n') →
  ∃ vs, NoDup (vs.*1) ∧ (∀ k' n', (k', n') ∈ vs ↔ node_reached t prune k n k' n') ∧
    WalkDir flt dir_size fst fn (abs_path k) (t, []) = ((t, emitted vs), Ok tt).
Proof.
  intros Hk Hl Hfn.
  destruct (walkDir_collects (S (size t)) k n []) as (vs & N & M & E); [done..| |done|].
  { pose proof (nodes_below_size t k). lia. }
  exists vs. split_and!; [done..|]. unfold WalkDir, go_catch, go_read, os_Lstat, os_fault.
  rewrite Hcalm. cbn [res_bind fst]. rewrite path_key_abs_path, Hl by done.
  unfold go_bind at 1. unfold entry in E.
  by destruct n; cbn [node_info fi_name fi_isdir is_dir] in *; rewrite E.
Qed.
End walk.
