(* ===== verification/Analyzer.v ===== *)
(** * The analyzer

    internal/analyze/analyzer.go and internal/server/analyze_service.go: the
    build units below a directory of the project. *)

From S2P Require Import Prelude GoStrings FsPath OsFs Conflicts Artifacts Walks.
Open Scope string_scope.
Open Scope Z_scope.
Open Scope list_scope.

Module Analyzer.

Record BuildUnit := mkUnit { u_Path : string; u_Type : string }.

Definition detectBuildUnit (entry : DirEntry) : option string :=
  let name := de_name entry in
  if bool_decide (name = "CMakeLists.txt") then Some "cmake"
  else if bool_decide (name = "Makefile") then Some "make"
  else if HasSuffix name ".sln" || HasSuffix name ".vcxproj" then Some "vsproj"
  else if HasSuffix name ".xcodeproj" then Some "xcodeproj"
  else None.

Section analyzer.
Context `{GoUnicode} `{WorkDir} (flt : Faults) (dir_size : Z).

(** The callback of the walk, on the tree and the units found so far. *)
Definition scan_visit (rootAbs fullRoot path : string) (d : DirEntry) (err : option goerr) :
    go (OsState * list BuildUnit) goerr walk_ctl :=
  match err with
  | Some err => go_fail err
  | None =>
      if negb (bool_decide (path = fullRoot)) && ShouldIgnoreInProjectScan (de_name d)
      then go_ret (if de_isdir d then WalkSkipDir else WalkNext)
      else
        match detectBuildUnit d with
        | None => go_ret WalkNext
        | Some typ =>
            let! rel := go_lift (Rel rootAbs (Dir path)) in
            let! rel := go_lift (NormalizeRelativePath rel) in
            let! _ := go_modify (λ w, (w.1, w.2 ++ [mkUnit rel typ])) in
            go_ret WalkNext
        end
  end.

(** The Go function answers the units found before an error beside it; no
    caller looks at them. *)
Definition Scan (root relRoot : string) (t : OsState) : result goerr (list BuildUnit) :=
  try rootAbs := Abs root in
  let rootAbs := Clean rootAbs in
  try fullRoot := ResolvePath rootAbs relRoot in
  match WalkDir flt dir_size fst (scan_visit rootAbs fullRoot) fullRoot (t, []) with
  | ((_, units), Ok _) => Ok units
  | (_, Err err) => Err err
  end.

Definition AnalyzeBuildUnits (root : string) (req_Root : string) (t : OsState) : result status (list BuildUnit) :=
  map_err toGrpcError (Scan root req_Root t).
End analyzer.

(** ** What a scan finds *)

Section scan.
Context `{GoUnicode} `{WorkDir} (flt : Faults) (dir_size : Z) (t : OsState).
Hypothesis Hcalm : ∀ op p, flt op p = None.
Hypothesis Ht : tree_plain t.

(** A name that the scan leaves out, unless it was asked for. *)
Definition left_out (full k : list string) (n : node) : bool :=
  negb (bool_decide (k = full)) && ShouldIgnoreInProjectScan (Base (abs_path k)).

(** The unit that a node marks: its directory, relative to the root [rs]. *)
Definition unit_of (rs full : list string) (v : list string * node) : option BuildUnit :=
  if left_out full v.1 v.2 then None
  else
    let ws := drop (length rs) (removelast v.1) in
    mkUnit (if decide (ws = []) then "." else Join Separator ws) <$> detectBuildUnit (entry v.1 v.2).

Lemma rel_normal ws : Forall plain ws →
  NormalizeRelativePath (if decide (ws = []) then "." else Join Separator ws) =
    Ok (if decide (ws = []) then "." else Join Separator ws).
Proof.
  intros Hws. apply NormalizeRelativePath_canonical. case_decide; [by left|]. right. eauto.
Qed.

Lemma visit_collects rs full ws m :
  Forall plain rs → Forall plain full → Forall plain ws →
  (ws = [] → detectBuildUnit (entry rs m) = None) →
  collects t (left_out full) (λ k m, option_list (unit_of rs full (k, m)))
    (scan_visit (abs_path rs) (abs_path full)) (rs ++ ws) m.
Proof.
  intros Hrs Hfull Hws Hroot acc. unfold scan_visit, unit_of, left_out. cbn [fst snd de_name de_isdir entry].
  assert (bool_decide (abs_path (rs ++ ws) = abs_path full) = bool_decide (rs ++ ws = full)) as ->.
  { apply bool_decide_ext. split; [|by intros ->]. apply abs_path_inj; [by apply Forall_app|done]. }
  destruct (negb _ && _) eqn:El.
  { cbn [andb option_list option_rect]. rewrite app_nil_r. by destruct (is_dir m). }
  cbn [andb]. fold (entry (rs ++ ws) m).
  destruct (detectBuildUnit (entry (rs ++ ws) m)) as [typ|] eqn:Ed; cbn [fmap option_fmap option_map option_list option_rect].
  2:{ by rewrite app_nil_r. }
  destruct (list_snoc_cases ws) as [-> | (ws' & x & ->)].
  { rewrite app_nil_r in Ed. by rewrite Hroot in Ed. }
  apply Forall_app in Hws as [Hws Hx]. apply Forall_cons in Hx as [Hx _].
  rewrite (app_assoc rs), removelast_last, drop_app_length.
  rewrite Dir_abs_path by (try done; by apply Forall_app).
  unfold go_bind, go_lift. rewrite Rel_below, rel_normal by done. done.
Qed.

Lemma emitted_units (f : list string * node → option BuildUnit) vs :
  emitted (λ k m, option_list (f (k, m))) vs = omap f vs.
Proof.
  unfold emitted. induction vs as [|[k m] vs IH]; [done|]. cbn. rewrite IH. by destruct (f (k, m)).
Qed.

(** C40: A scan finds every build unit, once.  When nothing fails, the scan of a
    directory of the project visits every node below it that no ignored
    directory hides, each once, and answers a unit for each of them whose name
    marks one, at the path of its directory relative to the project.  The one
    scan that this excludes is that of a root which itself is named like a
    unit. *)
Theorem scan_finds root rs rel p n :
  root_at root rs → NormalizeRelativePath rel = Ok p → os_lookup t (rs ++ rel_elems p) = Ok n →
  (p = "." → detectBuildUnit (entry rs n) = None) →
  let full := rs ++ rel_elems p in
  ∃ vs, NoDup (vs.*1) ∧ (∀ k m, (k, m) ∈ vs ↔ node_reached t (left_out full) full n k m) ∧
    Scan flt dir_size root rel t = Ok (omap (unit_of rs full) vs).
Proof.
  intros Hroot Hp Hl Hmark full. pose proof Hroot as [Habs Hrs].
  assert (Forall plain full) as Hfull.
  { apply Forall_app. split; [done|]. by eapply rel_elems_plain, NormalizeRelativePath_Ok. }
  destruct (WalkDir_collects flt dir_size t (left_out full) (λ k m, option_list (unit_of rs full (k, m)))
    (scan_visit (abs_path rs) (abs_path full)) Hcalm Ht full n) as (vs & N & M & E); [done|done| |].
  - intros k m Hr. pose proof (node_reached_prefix _ _ _ _ _ _ Hr) as [ws' Hk].
    assert (Forall plain k) as Hpk by (by eapply reached_plain).
    rewrite Hk. unfold full. rewrite <- app_assoc. apply visit_collects; [done..| |].
    + rewrite Hk in Hpk. unfold full in Hpk. rewrite <- app_assoc in Hpk. by apply Forall_app in Hpk as [_ ?].
    + intros [Hnil ->]%app_eq_nil. rewrite app_nil_r in Hk. subst k.
      apply node_reached_same in Hr as ->. apply Hmark. by eapply rel_elems_nil, Hnil; eapply NormalizeRelativePath_Ok.
  - exists vs. split_and!; [done..|]. unfold Scan. rewrite Habs. cbn [res_bind].
    rewrite Clean_abs_path by done. rewrite (ResolvePath_eq _ rs) by (by apply root_at_abs_path).
    rewrite Hp. cbn [res_bind]. fold full. rewrite E. by rewrite emitted_units.
Qed.
End scan.

(** ** A scan, run *)

#[local] Existing Instance ascii_only_unicode.
#[local] Instance ex_wd : WorkDir := Ok "/".

Definition ex_tree : OsState := list_to_map
  [(["p"], DirNode 0); (["p"; "Makefile"], FileNode [] 0); (["p"; ".git"], DirNode 0);
   (["p"; ".git"; "CMakeLists.txt"], FileNode [] 0); (["p"; "a"], DirNode 0);
   (["p"; "a"; "b"], DirNode 0); (["p"; "a"; "b"; "CMakeLists.txt"], FileNode [] 0);
   (["p"; "a"; "App.xcodeproj"], DirNode 0); (["p"; "a"; "App.xcodeproj"; "x.sln"], FileNode [] 0)].

Example ex_scan :
  AnalyzeBuildUnits no_faults 0 "/p" "." ex_tree =
    Ok [mkUnit "." "make"; mkUnit "a" "xcodeproj"; mkUnit "a/App.xcodeproj" "vsproj"; mkUnit "a/b" "cmake"].
Proof. vm_compute. reflexivity. Qed.

(** A project whose own directory is named like a unit cannot be scanned. *)
Example named_root_refused :
  ∃ e, AnalyzeBuildUnits no_faults 0 "/App.xcodeproj" "."
         (list_to_map [(["App.xcodeproj"], DirNode 0); (["App.xcodeproj"; "Makefile"], FileNode [] 0)]) = Err e ∧
       st_code e = InvalidArgument.
Proof. eexists. split; vm_compute; reflexivity. Qed.

Lemma scan_finds_witness :
  tree_plain ex_tree ∧
  ∃ vs, NoDup (vs.*1) ∧
    (∀ k m, (k, m) ∈ vs ↔ node_reached ex_tree (left_out ["p"; "a"]) ["p"; "a"] (DirNode 0) k m) ∧
    Scan no_faults 0 "/p" "./a/" ex_tree = Ok (omap (unit_of ["p"] ["p"; "a"]) vs).
Proof.
  assert (tree_plain ex_tree) as Ht.
  { apply (map_Forall_to_list (λ k _, Forall plain k)). apply (bool_decide_unpack _). vm_compute. exact I. }
  split; [exact Ht|].
  apply (scan_finds no_faults 0 ex_tree (λ _ _, eq_refl) Ht "/p" ["p"] "./a/" "a" (DirNode 0)).
  - split; [reflexivity|]. apply (bool_decide_unpack _). vm_compute. exact I.
  - vm_compute. reflexivity.
  - vm_compute. reflexivity.
  - discriminate.
Defined.
End Analyzer.
