(* ===== verification/Maintenance.v ===== *)
(** * Database maintenance

    internal/serverapp/database_maintenance.go: checkpoints and backups of the
    database, by hand and as the job of a [Runner].  The manager's mutex guards
    single reads and writes of its two snapshots, which are fields of the state
    [Maint] beside the file tree; the clock stands still during a call. *)

From stdpp Require Import pretty.
From S2P Require Import Prelude GoStrings FsPath OsFs PathOps World Runner GoTime Sqlite.
Open Scope string_scope.
Open Scope Z_scope.
Open Scope list_scope.

Module Maintenance.
Import Sqlite.

(** ** internal/server/admin_runtime.go *)

Record DatabaseCheckpointSnapshot := mkCheckpoint {
  LastCheckpointAtUnix : Z;
  Mode : string;
  BusyReaders : Z;
  LogFrames : Z;
  CheckpointedFrames : Z;
  ck_LastError : string;
}.

Record DatabaseBackupSnapshot := mkBackup {
  bk_Dir : string;
  IntervalSeconds : Z;
  KeepLatest : Z;
  LastBackupAtUnix : Z;
  LastBackupPath : string;
  bk_LastError : string;
}.

(** ** The manager *)

Record DatabaseMaintenanceRuntimeConfig := {
  CheckpointInterval : Z;
  CheckpointMode : string;
  BackupDir : string;
  BackupInterval : Z;
  BackupKeepLatest : Z;
}.

Record Maint := mkMaint {
  tree : OsState;
  checkpoint : DatabaseCheckpointSnapshot;
  backup : DatabaseBackupSnapshot;
}.

Definition on_tree {A} (m : go OsState goerr A) : go Maint goerr A := λ s,
  let '(t, r) := m (tree s) in (mkMaint t (checkpoint s) (backup s), r).
Definition set_checkpoint (f : DatabaseCheckpointSnapshot → DatabaseCheckpointSnapshot) (s : Maint) : Maint :=
  mkMaint (tree s) (f (checkpoint s)) (backup s).
Definition set_backup (f : DatabaseBackupSnapshot → DatabaseBackupSnapshot) (s : Maint) : Maint :=
  mkMaint (tree s) (checkpoint s) (f (backup s)).

Definition normalize_config `{GoUnicode} (cfg : DatabaseMaintenanceRuntimeConfig) : DatabaseMaintenanceRuntimeConfig :=
  let mode := ToLower (TrimSpace (CheckpointMode cfg)) in
  {| CheckpointInterval := CheckpointInterval cfg;
     CheckpointMode := if bool_decide (mode = "") then "truncate" else mode;
     BackupDir := BackupDir cfg;
     BackupInterval := BackupInterval cfg;
     BackupKeepLatest := Z.max 0 (BackupKeepLatest cfg) |}.

Section manager.
Context `{LocalZone} `{GoUnicode} `{SortSlice} `{!Engine} (flt : Faults) (dir_size : Z).
Context (database : DB) (cfg : DatabaseMaintenanceRuntimeConfig).

Definition earliestTime (current candidate : option Z) : option Z :=
  match candidate, current with
  | None, _ => current
  | _, None => candidate
  | Some c, Some u => if c <? u then candidate else current
  end.

(** When the next one is due, and whether that is now. *)
Definition next_due (interval lastUnix now : Z) : option Z * bool :=
  if lastUnix =? 0 then (Some (now + interval), false)
  else
    let due := lastUnix * second_ns + interval in
    (Some due, due <=? now).

Definition nextCheckpointDue (now : Z) (s : Maint) : option Z * bool :=
  if CheckpointInterval cfg <=? 0 then (None, false)
  else next_due (CheckpointInterval cfg) (LastCheckpointAtUnix (checkpoint s)) now.

Definition nextBackupDue (now : Z) (s : Maint) : option Z * bool :=
  if (BackupInterval cfg <=? 0) || bool_decide (TrimSpace (BackupDir cfg) = "") then (None, false)
  else next_due (BackupInterval cfg) (LastBackupAtUnix (backup s)) now.

Definition checkpointNow (now : Z) : go Maint goerr unit :=
  catch! result := on_tree (Checkpoint now database (CheckpointMode cfg)) in
  match result with
  | Err err =>
      let! _ := go_modify (set_checkpoint (λ c,
        mkCheckpoint (LastCheckpointAtUnix c) (CheckpointMode cfg) (BusyReaders c) (LogFrames c)
          (CheckpointedFrames c) (err_text err))) in
      go_fail err
  | Ok result =>
      go_modify (set_checkpoint (λ _,
        mkCheckpoint (cr_CompletedAtUnix result) (CheckpointMode cfg) (cr_BusyReaders result) (cr_LogFrames result)
          (cr_CheckpointedFrames result) ""))
  end.

Definition base_name : string :=
  TrimSuffix (Base (path database)) (Ext (path database)).

Definition nextBackupPath (now : Z) : go OsState goerr string :=
  let dir := TrimSpace (BackupDir cfg) in
  if bool_decide (dir = "") then go_fail (ErrNew "database backup_dir is not configured")
  else
    let! _ := os_MkdirAll flt now dir in
    let base := if bool_decide (base_name = "") then "roodox" else base_name in
    let path := JoinPath dir (base +:+ "-backup-" +:+ format_stamp now +:+ ".db") in
    catch! found := go_read (os_Stat flt dir_size path) in
    match found with
    | Ok _ =>
        go_ret (JoinPath dir (base +:+ "-backup-" +:+ format_stamp now +:+ "-" +:+ pad 9 (now mod second_ns) +:+ ".db"))
    | Err err => if negb (errors_Is err ErrNotExist) then go_fail err else go_ret path
    end.

(** The order of the backups: newest first.  [os.Stat] is called for every
    comparison; the tree does not change meanwhile. *)
Definition backup_before (t : OsState) (left right : string) : bool :=
  match os_Stat flt dir_size left t, os_Stat flt dir_size right t with
  | Ok leftInfo, Ok rightInfo =>
      if fi_mtime leftInfo =? fi_mtime rightInfo then String.ltb right left
      else fi_mtime rightInfo <? fi_mtime leftInfo
  | _, _ => String.ltb left right
  end.

Fixpoint remove_backups (paths : list string) : go OsState goerr unit :=
  match paths with
  | [] => go_ret tt
  | path :: paths' =>
      catch! removed := os_Remove flt path in
      match removed with
      | Err err => if negb (errors_Is err ErrNotExist) then go_fail err else remove_backups paths'
      | Ok _ => remove_backups paths'
      end
  end.

Definition backup_pattern : string := JoinPath (BackupDir cfg) (base_name +:+ "-backup-*.db").

Definition cleanupOldBackups : go OsState goerr unit :=
  if (BackupKeepLatest cfg <=? 0) || bool_decide (TrimSpace (BackupDir cfg) = "") then go_ret tt
  else
    let! matches := go_read (λ t,
      match filepath_Glob flt dir_size t backup_pattern with
      | None => Err (ErrNew "syntax error in pattern")
      | Some matches => Ok matches
      end) in
    if Z.of_nat (length matches) <=? BackupKeepLatest cfg then go_ret tt
    else
      let! sorted := go_get (λ t, sort_slice (backup_before t) matches) in
      remove_backups (drop (Z.to_nat (BackupKeepLatest cfg)) sorted).

Definition setBackupError (err : goerr) : go Maint goerr unit :=
  go_modify (set_backup (λ b,
    mkBackup (bk_Dir b) (IntervalSeconds b) (KeepLatest b) (LastBackupAtUnix b) (LastBackupPath b) (err_text err))).

(** [if err != nil { m.setBackupError(err); return err }] *)
Definition or_backup_error {A B : Type} (m : go OsState goerr A) (k : A → go Maint goerr B) : go Maint goerr B :=
  catch! r := on_tree m in
  match r with
  | Err err => let! _ := setBackupError err in go_fail err
  | Ok a => k a
  end.

Definition backupNow (now : Z) : go Maint goerr unit :=
  or_backup_error (nextBackupPath now) (λ backupPath,
  or_backup_error (BackupInto flt dir_size now database backupPath) (λ _,
  or_backup_error cleanupOldBackups (λ _,
  go_modify (set_backup (λ b,
    mkBackup (bk_Dir b) (IntervalSeconds b) (KeepLatest b) (unix_seconds now) backupPath ""))))).

Definition BackupNow (now : Z) : go Maint goerr DatabaseBackupSnapshot :=
  if bool_decide (TrimSpace (BackupDir cfg) = "") then go_fail (ErrNew "database backup_dir is not configured")
  else
    catch! _ := checkpointNow now in
    let! _ := backupNow now in
    go_get backup.

(** [if due, shouldRun := ...; !due.IsZero() { ... }] *)
Definition run_due (due : option Z * bool) (action : go Maint goerr unit) (now interval : Z) (nextDue : option Z)
    (s : Maint) : Maint * option Z :=
  match due with
  | (None, _) => (s, nextDue)
  | (Some due, true) => ((action s).1, earliestTime nextDue (Some (now + interval)))
  | (Some due, false) => (s, earliestTime nextDue (Some due))
  end.

Definition run (now : Z) (s : Maint) : Maint * option Z :=
  let '(s, nextDue) := run_due (nextCheckpointDue now s) (checkpointNow now) now (CheckpointInterval cfg) None s in
  run_due (nextBackupDue now s) (backupNow now) now (BackupInterval cfg) nextDue s.
End manager.

(** ** newDatabaseMaintenanceManager *)

Section make.
Context `{LocalZone} `{GoUnicode} `{SortSlice} `{!Engine} (flt : Faults) (dir_size : Z).
Context (database : DB) (config : DatabaseMaintenanceRuntimeConfig).

Definition new_maint (t : OsState) : Maint :=
  let cfg := normalize_config config in
  mkMaint t (mkCheckpoint 0 (CheckpointMode cfg) 0 0 0 "")
    (mkBackup (BackupDir cfg) (Z.quot (BackupInterval cfg) second_ns) (wrap_uint32 (BackupKeepLatest cfg)) 0 "" "").

(** The runner, when there is something to do from time to time. *)
Definition maintenance_runner : option (Runner Maint) :=
  let cfg := normalize_config config in
  if (0 <? CheckpointInterval cfg) ||
     ((0 <? BackupInterval cfg) && negb (bool_decide (TrimSpace (BackupDir cfg) = "")))
  then Some (mkRunner 0 (run flt dir_size database cfg)) else None.
End make.
End Maintenance.
