(* ===== verification/MaintenanceTheorems.v ===== *)
(** * Theorems on database maintenance

    When the job of internal/serverapp/database_maintenance.go acts, what a
    backup records, and which backups the clean-up keeps. *)

From stdpp Require Import pretty.
From S2P Require Import Prelude GoStrings StringLists FsPath OsFs PathOps World Frames Writes Runner Janitor GoTime Artifacts Sqlite Restore RestoreTheorems Maintenance StrConv.
Open Scope string_scope.
Open Scope Z_scope.
Open Scope list_scope.

Module MaintenanceTheorems.
Import Sqlite Maintenance.

Section theorems.
Context `{LocalZone} `{GoUnicode} `{SortSlice} `{!Engine} (flt : Faults) (dir_size : Z).
Context (database : DB).

(** ** When the job acts *)

Lemma run_untouched cfg now s :
  LastCheckpointAtUnix (checkpoint s) = 0 → LastBackupAtUnix (backup s) = 0 →
  (run flt dir_size database cfg now s).1 = s.
Proof.
  intros Hc Hb. unfold run.
  assert (nextCheckpointDue cfg now s = (None, false) ∨ ∃ d, nextCheckpointDue cfg now s = (Some d, false)) as Hcd.
  { unfold nextCheckpointDue, next_due. rewrite Hc. destruct (_ <=? 0); eauto. }
  assert (nextBackupDue cfg now s = (None, false) ∨ ∃ d, nextBackupDue cfg now s = (Some d, false)) as Hbd.
  { unfold nextBackupDue, next_due. rewrite Hb. destruct (_ || _); eauto. }
  destruct Hcd as [-> | [d ->]]; cbn [run_due]; destruct Hbd as [-> | [d' ->]]; done.
Qed.

Lemma runNow_shared {W} (r : Runner W) now s : shared (runNow r now s) = (job r now (shared s)).1.
Proof.
  unfold runNow. simpl. by destruct (job r now (shared s)) as [w [n|]].
Qed.

Lemma handle_shared {W} (r : Runner W) e now s :
  (∀ w, e ≠ EvWorld w) → (∀ now, (job r now (shared s)).1 = shared s) → shared (Runner.handle r e now s) = shared s.
Proof.
  intros He Hj. destruct e; simpl; [done| |rewrite runNow_shared; apply Hj|done|by destruct (He w)].
  unfold onTrigger. cbn [lastRun]. destruct (lastRun s) as [last|]; [|rewrite runNow_shared; apply Hj].
  destruct (_ && _); [|rewrite runNow_shared; apply Hj].
  unfold scheduleAt. by destruct (scheduledAt _); [destruct (_ <=? _)|].
Qed.


(** ** The clean-up of backups *)

Section cleanup.
Context (cfg : DatabaseMaintenanceRuntimeConfig).

Definition examined (t : OsState) (p : string) : Prop := is_ok (os_Stat flt dir_size p t) = true.
Definition modified (t : OsState) (p : string) : Z :=
  match os_Stat flt dir_size p t with Ok info => fi_mtime info | Err _ => 0 end.

Lemma backup_before_examined t p q :
  examined t p → examined t q →
  backup_before flt dir_size t p q =
    if modified t p =? modified t q then String.ltb q p else modified t q <? modified t p.
Proof.
  unfold examined, backup_before, modified.
  destruct (os_Stat flt dir_size p t), (os_Stat flt dir_size q t); done.
Qed.

Lemma backup_order t l : Forall (examined t) l → weak_order_on (backup_before flt dir_size t) l.
Proof.
  rewrite Forall_forall. intros Hl. split.
  - intros p q Hp Hq. rewrite !backup_before_examined by auto. rewrite (Z.eqb_sym (modified t q)).
    destruct (Z.eqb_spec (modified t p) (modified t q)).
    + unfold String.ltb. rewrite (String.compare_antisym p). by destruct (String.compare _ _).
    + rewrite Z.ltb_lt, Z.ltb_ge. lia.
  - intros p q x Hp Hq Hx. rewrite !backup_before_examined by auto.
    destruct (Z.eqb_spec (modified t q) (modified t p)), (Z.eqb_spec (modified t x) (modified t q)),
      (Z.eqb_spec (modified t x) (modified t p)); try lia; rewrite ?Z.ltb_ge; try lia.
    intros E1 E2. by apply (string_ltb_neg_trans x q p).
Qed.

Lemma remove_backups_frame paths t :
  frame (map path_key paths) [] t (remove_backups flt paths t).1.
Proof.
  revert t. induction paths as [|p paths IH]; intros t; simpl; [reflexivity|].
  assert (frame (path_key p :: map path_key paths) [] t (os_Remove flt p t).1) as Hf.
  { unfold os_Remove. repeat case_match; simpl; try reflexivity;
      (eapply frame_mono; [|apply frame_delete]; set_solver). }
  unfold go_catch. destruct (os_Remove flt p t) as [t1 [[]|e]]; cbn [fst] in Hf.
  - trans t1; [done|]. eapply frame_mono; [|apply IH]. set_solver.
  - destruct (negb _); [done|]. trans t1; [done|]. eapply frame_mono; [|apply IH]. set_solver.
Qed.

(** Removals make nothing, and a path that leads nowhere goes on doing so. *)
Record shrinks (t t' : OsState) : Prop := {
  sh_node q n : node_at t' q = Some n → node_at t q = Some n;
}.
#[local] Instance shrinks_preorder : PreOrder shrinks.
Proof. split; [by split|]. intros t1 t2 t3 [S1] [S2]. split. auto. Qed.

Lemma shrinks_lookup t t' q : shrinks t t' → is_ok (os_lookup t q) = false → is_ok (os_lookup t' q) = false.
Proof.
  intros [S] Hf. destruct (os_lookup t' q) as [n|] eqn:E; [|done]. exfalso.
  apply os_lookup_linked in E as [Hn Hl].
  rewrite (proj2 (os_lookup_linked t q n)) in Hf; [done|]. split; [auto|].
  intros pre Hp Hne. destruct (Hl pre Hp Hne) as [mt Hmt]. eauto.
Qed.

Lemma delete_shrinks t k : k ≠ [] → shrinks t (delete k t).
Proof.
  intros Hk. split. intros q n. destruct (decide (k = q)) as [-> | Hne].
  - by rewrite node_at_delete_eq.
  - by rewrite node_at_delete_ne.
Qed.

Lemma Remove_shrinks p t : path_key p ≠ [] → shrinks t (os_Remove flt p t).1.
Proof. intros Hk. unfold os_Remove. repeat case_match; simpl; first [reflexivity|by apply delete_shrinks]. Qed.

Lemma Remove_gone p t t' r :
  path_key p ≠ [] → flt "remove" p ≠ Some ENOENT → os_Remove flt p t = (t', r) →
  (∀ e, r = Err e → errors_Is e ErrNotExist = true) → is_ok (os_lookup t' (path_key p)) = false.
Proof.
  intros Hk Hh. unfold os_Remove.
  assert (∀ e, (e = ENOENT → is_ok (os_lookup t (path_key p)) = false) →
    (∀ e', Err (ErrPath "remove" p e) = Err (A := unit) e' → errors_Is e' ErrNotExist = true) →
    is_ok (os_lookup t (path_key p)) = false) as Herr.
  { intros e He Hn. specialize (Hn _ eq_refl). apply He. by destruct e. }
  assert (is_ok (os_lookup (delete (path_key p) t) (path_key p)) = false) as Hdel.
  { destruct (os_lookup (delete _ _) _) as [n|] eqn:E; [|done].
    apply os_lookup_linked in E as [E _]. by rewrite node_at_delete_eq in E. }
  destruct (flt "remove" p) as [e|]; [intros [= <- <-]; apply Herr; congruence|].
  destruct (os_lookup t (path_key p)) as [[mt|]|e] eqn:El.
  - destruct (has_entries _ _); intros [= <- <-]; [|done]. intros Hn. by specialize (Hn _ eq_refl).
  - by intros [= <- <-].
  - intros [= <- <-] _. by rewrite El.
Qed.

Lemma remove_backups_gone paths t t' :
  [] ∉ map path_key paths → (∀ p, flt "remove" p ≠ Some ENOENT) → remove_backups flt paths t = (t', Ok tt) →
  ∀ p, p ∈ paths ∨ is_ok (os_lookup t (path_key p)) = false → is_ok (os_lookup t' (path_key p)) = false.
Proof.
  intros Hn Hh. revert t. induction paths as [|q paths IH]; intros t; simpl.
  { intros [= <-] p [Hp|Hp]; [by apply elem_of_nil in Hp|done]. }
  simpl in Hn. apply not_elem_of_cons in Hn as [Hq Hn].
  pose proof (Remove_shrinks q t ltac:(congruence)) as Hsh.
  unfold go_catch. destruct (os_Remove flt q t) as [t1 r] eqn:Er. cbn [fst] in Hsh. intros Hx.
  assert ((∀ e, r = Err e → errors_Is e ErrNotExist = true) ∧ remove_backups flt paths t1 = (t', Ok tt)) as [Hok Hx'].
  { destruct r as [|e]; [done|]. destruct (errors_Is e ErrNotExist) eqn:Ee; [|done]. split; [|done].
    by intros e' [= <-]. }
  apply Remove_gone in Er; [|congruence|done|done].
  intros p Hp. eapply IH; [done|exact Hx'|]. destruct (decide (p = q)) as [-> | Hne]; [by right|].
  destruct Hp as [[->|Hp]%elem_of_cons|Hp]; [done|by left|right]. by eapply shrinks_lookup.
Qed.

Lemma newest_first t matches k p q :
  let sorted := sort_slice (backup_before flt dir_size t) matches in
  Forall (examined t) matches → p ∈ take k sorted → q ∈ drop k sorted → modified t q ≤ modified t p.
Proof.
  intros sorted Hex Hp Hq. pose proof (sort_slice_sorted_on _ _ (backup_order t matches Hex)) as Hs.
  pose proof (sort_slice_perm (backup_before flt dir_size t) matches) as Hperm. fold sorted in Hs, Hperm.
  rewrite <- (take_drop k sorted) in Hs, Hperm. apply StronglySorted_app in Hs as (Hs & _ & _).
  specialize (Hs p q Hp Hq). rewrite Forall_forall in Hex.
  assert (p ∈ matches ∧ q ∈ matches) as [Hpm Hqm].
  { rewrite <- Hperm. split; apply elem_of_app; auto. }
  simpl in Hs. rewrite backup_before_examined in Hs by auto.
  destruct (Z.eqb_spec (modified t q) (modified t p)); [lia|]. apply Z.ltb_ge in Hs. lia.
Qed.

(** The newest backups are kept.  The clean-up splits the files that match
    the pattern into those it keeps, [BackupKeepLatest] of them or all, and the
    others.  Whatever fails, nothing but the others is removed; when all can be
    examined, none of the others is newer than one that is kept; and when the
    clean-up succeeds, the others are gone. *)
Theorem cleanup_keeps_newest t t' r matches :
  0 < BackupKeepLatest cfg → TrimSpace (BackupDir cfg) ≠ "" →
  filepath_Glob flt dir_size t (backup_pattern database cfg) = Some matches →
  NoDup ([] :: map path_key matches) →
  cleanupOldBackups flt dir_size database cfg t = (t', r) →
  ∃ kept gone, matches ≡ₚ kept ++ gone ∧
    Z.of_nat (length kept) = Z.min (BackupKeepLatest cfg) (Z.of_nat (length matches)) ∧
    (∀ q, q ≠ [] → q ∉ map path_key gone → node_at t' q = node_at t q) ∧
    (∀ p, p ∈ kept → node_at t' (path_key p) = node_at t (path_key p)) ∧
    (Forall (examined t) matches → ∀ p q, p ∈ kept → q ∈ gone → modified t q ≤ modified t p) ∧
    (r = Ok tt → (∀ p, flt "remove" p ≠ Some ENOENT) → ∀ p, p ∈ gone → is_ok (os_lookup t' (path_key p)) = false).
Proof.
  intros Hk Hd Hg Hnd. unfold cleanupOldBackups. rewrite (proj2 (Z.leb_gt _ _)) by done.
  rewrite bool_decide_eq_false_2 by done. cbn [orb]. unfold go_bind at 1, go_read. rewrite Hg.
  destruct (Z.leb_spec (Z.of_nat (length matches)) (BackupKeepLatest cfg)) as [Hle|Hgt].
  { intros [= <- <-]. exists matches, []. rewrite app_nil_r. split_and!; [done|lia|done|done|..].
    - intros _ p q _ Hq. by apply elem_of_nil in Hq.
    - intros _ _ p Hp. by apply elem_of_nil in Hp. }
  unfold go_bind, go_get. set (sorted := sort_slice (backup_before flt dir_size t) matches).
  set (k := Z.to_nat (BackupKeepLatest cfg)). intros Hr.
  pose proof (sort_slice_perm (backup_before flt dir_size t) matches) as Hperm. fold sorted in Hperm.
  exists (take k sorted), (drop k sorted). rewrite take_drop.
  pose proof (remove_backups_frame (drop k sorted) t) as Hf. rewrite Hr in Hf. cbn [fst] in Hf.
  assert (NoDup ([] :: map path_key (take k sorted) ++ map path_key (drop k sorted))) as Hnd'.
  { by rewrite <- map_app, take_drop, Hperm. }
  apply NoDup_cons in Hnd' as [Hnil Hnd']. apply NoDup_app in Hnd' as (_ & Hdis & _).
  assert (∀ q, q ≠ [] → q ∉ map path_key (drop k sorted) → node_at t' q = node_at t q) as Hkeep.
  { intros q Hq Hnot. apply (frame_other _ _ _ _ q Hf); [done|]. by intros ->%prefix_nil_inv. }
  split_and!; [by rewrite Hperm| |exact Hkeep| | |].
  - rewrite length_take, Hperm. lia.
  - intros p Hp. assert (path_key p ∈ map path_key (take k sorted)) as Hin by by apply list_elem_of_fmap_2.
    apply Hkeep; [|by apply Hdis]. intros E. apply Hnil, elem_of_app. left. by rewrite <- E.
  - intros Hex p q. by apply newest_first.
  - intros -> Hh p Hp. eapply remove_backups_gone; [|exact Hh|exact Hr|by left].
    intros Hin. apply Hnil, elem_of_app. by right.
Qed.
End cleanup.

(** ** A backup on request *)

Lemma or_backup_error_cases {A C : Type} (m : go OsState goerr A) (k : A → go Maint goerr C) s s' r :
  or_backup_error m k s = (s', r) →
  (∃ t a, m (tree s) = (t, Ok a) ∧ k a (mkMaint t (checkpoint s) (backup s)) = (s', r)) ∨
  (∃ e, r = Err e ∧ checkpoint s' = checkpoint s ∧ bk_LastError (backup s') = err_text e ∧
    LastBackupAtUnix (backup s') = LastBackupAtUnix (backup s) ∧
    LastBackupPath (backup s') = LastBackupPath (backup s)).
Proof.
  unfold or_backup_error, go_catch, on_tree. destruct (m (tree s)) as [t [a|e]]; [eauto|].
  unfold go_bind, setBackupError, go_modify, go_fail. intros [= <- <-]. right. eexists. by split_and!.
Qed.

(** Asked for a backup, the manager writes a file that was not there, by one
    statement of SQLite, cleans up, and records when and where; a request that
    fails leaves the record of the last backup as it was, with the error. *)
Theorem backup_now_contract cfg now s s' r :
  BackupNow flt dir_size database cfg now s = (s', r) →
  match r with
  | Ok b =>
      b = backup s' ∧ LastBackupAtUnix b = unix_seconds now ∧ bk_LastError b = "" ∧
      ∃ t1 t2, is_ok (os_Stat flt dir_size (LastBackupPath b) t1) = false ∧
        sql_Exec (Sql database) ("VACUUM INTO '" +:+ sqliteQuote (LastBackupPath b) +:+ "';") t1 = (t2, Ok tt) ∧
        cleanupOldBackups flt dir_size database cfg t2 = (tree s', Ok tt)
  | Err e =>
      LastBackupAtUnix (backup s') = LastBackupAtUnix (backup s) ∧
      LastBackupPath (backup s') = LastBackupPath (backup s)
  end.
Proof.
  unfold BackupNow. case_bool_decide; [by intros [= <- <-]|]. unfold go_catch, go_bind at 1.
  assert (∀ now, backup (checkpointNow database cfg now s).1 = backup s) as Hck.
  { intros n. unfold checkpointNow, go_catch, on_tree. by destruct (Checkpoint _ _ _ _) as [t [a|e]]. }
  specialize (Hck now). destruct (checkpointNow database cfg now s) as [s1 rc]. cbn [fst] in Hck. rewrite <- Hck.
  destruct (backupNow flt dir_size database cfg now s1) as [s2 r2] eqn:Eb. unfold backupNow in Eb.
  apply or_backup_error_cases in Eb as [(t1 & p & _ & Eb)|(e & -> & _ & _ & E1 & E2)]; [|by intros [= <- <-]].
  apply or_backup_error_cases in Eb as [(t2 & [] & Ev & Eb)|(e & -> & _ & _ & E1 & E2)]; [|by intros [= <- <-]].
  apply or_backup_error_cases in Eb as [(t3 & [] & Ec & Eb)|(e & -> & _ & _ & E1 & E2)]; [|by intros [= <- <-]].
  injection Eb as <- <-. intros [= <- <-]. simpl in *. split_and!; [done..|].
  unfold BackupInto in Ev. case_bool_decide; [done|]. apply go_bind_Ok in Ev as (t4 & [] & _ & Ev).
  unfold go_catch, go_read in Ev. destruct (os_Stat flt dir_size p t4) as [|e] eqn:Es; [done|].
  destruct (negb _); [done|]. exists t4, t2. by rewrite Es.
Qed.
End theorems.
End MaintenanceTheorems.

(** * Maintenance, run

    The theorems on database maintenance at concrete inputs, with an engine
    whose databases are plain files and whose VACUUM INTO copies one. *)

Module MaintenanceExamples.
Import Sqlite Maintenance MaintenanceTheorems.

#[local] Existing Instance ascii_only_unicode.
#[local] Instance ex_zone : LocalZone := 0.

Definition copy_exec (d query : string) : go OsState goerr unit := λ t,
  if HasPrefix query "VACUUM INTO '" then
    let dest := TrimSuffix (TrimPrefix query "VACUUM INTO '") "';" in
    match content t (path_key d) with
    | Some c => (<[path_key dest := FileNode c (2000000000 * second_ns)]> t, Ok tt)
    | None => (t, Err (ErrNew "unable to open database"))
    end
  else (t, Ok tt).

#[local] Instance copy_engine : Engine := {|
  handle := string;
  handle_path d := d;
  sql_Open p := go_ret p;
  sql_Close _ := go_ret tt;
  sql_Ping _ := go_ret tt;
  sql_Exec := copy_exec;
  sql_QueryString p _ := go_ret "ok";
  sql_QueryInts p _ := go_ret [0; 3; 3];
  sql_QueryNames p _ := go_ret [];
  sql_Begin p := go_ret p;
  sql_Commit _ := go_ret tt;
  sql_Rollback _ := go_ret tt;
|}.

Definition ex_db : DB := {| Sql := "/srv/roodox.db"; path := "/srv/roodox.db" |}.
Definition ex_cfg : DatabaseMaintenanceRuntimeConfig :=
  {| CheckpointInterval := 300 * second_ns; CheckpointMode := "truncate"; BackupDir := "/srv/backups";
     BackupInterval := 86400 * second_ns; BackupKeepLatest := 2 |}.

Definition bk (name : string) : list string := ["srv"; "backups"; name].
Definition ex_tree : OsState := list_to_map
  [(["srv"], DirNode 0); (["srv"; "backups"], DirNode 0);
   (["srv"; "roodox.db"], FileNode [Byte.x41] 1);
   (bk "roodox-backup-20230101-000000.db", FileNode [Byte.x01] 1);
   (bk "roodox-backup-20230103-000000.db", FileNode [Byte.x03] 3);
   (bk "roodox-backup-20230102-000000.db", FileNode [Byte.x02] 2);
   (bk "notes.txt", FileNode [] 0)].

Definition ex_now : Z := 1700000000 * second_ns.
Definition ex_backup : Maint * result goerr DatabaseBackupSnapshot :=
  BackupNow no_faults 0 ex_db ex_cfg ex_now (new_maint ex_cfg ex_tree).

(** A backup on request, of which two are kept. *)
Example ex_backed_up :
  (match ex_backup.2 with Ok b => Some (LastBackupPath b) | Err _ => None end,
   map (content (tree ex_backup.1))
     [bk "roodox-backup-20231114-221320.db"; bk "roodox-backup-20230103-000000.db";
      bk "roodox-backup-20230102-000000.db"; bk "roodox-backup-20230101-000000.db"; bk "notes.txt"]) =
  (Some "/srv/backups/roodox-backup-20231114-221320.db",
   [Some [Byte.x41]; Some [Byte.x03]; None; None; Some []]).
Proof. vm_compute. reflexivity. Qed.

(** After it the job keeps its intervals. *)
Example ex_then_due :
  (run no_faults 0 ex_db ex_cfg (ex_now + 60 * second_ns) ex_backup.1).2 = Some (ex_now + 300 * second_ns).
Proof. vm_compute. reflexivity. Qed.

(** Two days of a server on which nobody asks for a backup. *)
Definition ex_runner : Runner Maint := mkRunner 0 (run no_faults 0 ex_db (normalize_config ex_cfg)).
Definition ex_events : list (@event Maint * Z) :=
  [(EvTimer, ex_now + 300 * second_ns); (EvTrigger, ex_now + 400 * second_ns);
   (EvTriggerRead, ex_now + 400 * second_ns); (EvTimer, ex_now + 86400 * second_ns);
   (EvTimer, ex_now + 2 * 86400 * second_ns)].
Definition ex_served : State Maint :=
  play ex_runner (NewRunner ex_runner ex_now (new_maint ex_cfg ex_tree)) ex_events.

Lemma ex_steps :
  steps_from ex_runner ex_now (NewRunner ex_runner ex_now (new_maint ex_cfg ex_tree)) ex_events ex_served.
Proof. apply play_steps. vm_compute. reflexivity. Qed.


Definition ex_cleaned : OsState * result goerr unit := cleanupOldBackups no_faults 0 ex_db ex_cfg ex_tree.
Definition ex_matches : list string :=
  ["/srv/backups/roodox-backup-20230101-000000.db"; "/srv/backups/roodox-backup-20230102-000000.db";
   "/srv/backups/roodox-backup-20230103-000000.db"].

Lemma cleanup_keeps_newest_witness :
  ex_cleaned.2 = Ok tt ∧
  ∃ kept gone, ex_matches ≡ₚ kept ++ gone ∧ length kept = 2%nat ∧
    (∀ p, p ∈ kept → node_at ex_cleaned.1 (path_key p) = node_at ex_tree (path_key p)) ∧
    (∀ p q, p ∈ kept → q ∈ gone → modified no_faults 0 ex_tree q ≤ modified no_faults 0 ex_tree p) ∧
    (∀ p, p ∈ gone → is_ok (os_lookup ex_cleaned.1 (path_key p)) = false).
Proof.
  split; [vm_compute; reflexivity|].
  pose proof (cleanup_keeps_newest no_faults 0 ex_db ex_cfg ex_tree ex_cleaned.1 ex_cleaned.2 ex_matches) as Hw.
  destruct Hw as (kept & gone & Hp & Hl & _ & Hk & Ho & Hg).
  - reflexivity.
  - vm_compute. discriminate.
  - vm_compute. reflexivity.
  - apply (bool_decide_unpack _). vm_compute. exact I.
  - apply surjective_pairing.
  - exists kept, gone. split; [exact Hp|]. split; [simpl in Hl; lia|]. split; [exact Hk|]. split.
    + apply Ho. repeat constructor.
    + apply Hg; [vm_compute; reflexivity|discriminate].
Defined.
End MaintenanceExamples.
