(* ===== verification/Runtime.v ===== *)
(** * The runtime of the server

    [Start] of internal/serverapp/runtime.go, instance_lock_other.go,
    log_trigger_writer.go and observability_reporter.go.

    [Start] acquires, one after the other, two lock files, the database, the
    background services, the writer of the log and the listening socket, and
    gives back what it holds when a step fails.  A [Host] is the process with
    what it holds.  What the services do while they run is the subject of
    their own files; here a service is alive or not.  The life of a started
    server is in RuntimeLife.v. *)

From stdpp Require Import pretty.
From S2P Require Import Prelude GoStrings FsPath OsFs World GoTime Runner Janitor Recorder Security Interceptors AppConfig Sqlite Maintenance Net ServerConfig Preflight.
Open Scope string_scope.
Open Scope Z_scope.
Open Scope list_scope.

Module Runtime.
Import Sqlite Preflight.

(** ** What the process holds *)

(** The background services, each the job of a [Runner]. *)
Inductive Service :=
  ArtifactJanitor | ConflictJanitor | LogJanitor | ObservabilityReporter | DatabaseMaintenance | BuildCleanup.
#[global] Instance Service_eq_dec : EqDecision Service.
Proof. solve_decision. Defined.

(** The output of package log. *)
Inductive Writer := NoWriter | Output | TriggerWriter (target : Writer).

Record Host `{Engine} := mkHost {
  h_proc : Proc;
  h_open : list handle;
  h_live : list Service;
  h_log : Writer;
  h_listening : list string;
}.
Arguments mkHost {_} _ _ _ _ _.

Section host.
Context `{Engine}.

Definition on_proc {A} (m : go Proc goerr A) : go Host goerr A := λ h,
  let '(p, r) := m (h_proc h) in (mkHost p (h_open h) (h_live h) (h_log h) (h_listening h), r).
Definition on_files {A} (m : go OsState goerr A) : go Host goerr A := on_proc (Preflight.on_tree m).
Definition set_open (f : list handle → list handle) : go Host goerr unit :=
  go_modify (λ h, mkHost (h_proc h) (f (h_open h)) (h_live h) (h_log h) (h_listening h)).
Definition set_live (f : list Service → list Service) : go Host goerr unit :=
  go_modify (λ h, mkHost (h_proc h) (h_open h) (f (h_live h)) (h_log h) (h_listening h)).
Definition set_log (f : Writer → Writer) : go Host goerr unit :=
  go_modify (λ h, mkHost (h_proc h) (h_open h) (h_live h) (f (h_log h)) (h_listening h)).
Definition set_listening (f : list string → list string) : go Host goerr unit :=
  go_modify (λ h, mkHost (h_proc h) (h_open h) (h_live h) (h_log h) (f (h_listening h))).

(** An error that the code drops. *)
Definition ignore {W A} (m : go W goerr A) : go W goerr unit := catch! _ := m in go_ret tt.

(** A runner starts with its service, and [Close] waits for its end. *)
Definition start_service (s : Service) : go Host goerr unit := set_live (λ l, l ++ [s]).
Definition close_service (s : Service) : go Host goerr unit := set_live (filter (λ s', s' ≠ s)).
Fixpoint close_services (l : list Service) : go Host goerr unit :=
  match l with [] => go_ret tt | s :: l' => let! _ := close_service s in close_services l' end.

(** The first handle that was opened last. *)
Definition close_database (d : handle) : go Host goerr unit :=
  let! _ := set_open (drop 1) in on_files (sql_Close d).

(** ** internal/serverapp/log_trigger_writer.go *)

(** [Write] at the end of a chain of writers, [out] being what the underlying
    output answers: the answer, and how often the trigger was called. *)
Fixpoint Write (w : Writer) (out : Z * option goerr) : (Z * option goerr) * nat :=
  match w with
  | TriggerWriter target => let '(r, k) := Write target out in (r, if 0 <? r.1 then S k else k)
  | _ => (out, 0%nat)
  end.

(** [installLogTrigger]: the answer is what the returned function sets, if it
    does anything. *)
Definition installLogTrigger : go Host goerr (option Writer) :=
  let! original := go_get h_log in
  match original with
  | NoWriter => go_ret None
  | _ => let! _ := set_log TriggerWriter in go_ret (Some original)
  end.
Definition restore_log (r : option Writer) : go Host goerr unit :=
  match r with Some original => set_log (λ _, original) | None => go_ret tt end.

(** ** internal/serverapp/instance_lock_other.go *)

Record fileInstanceLock := mkLock { lock_path : string }.

Definition acquireInstanceLock `{WorkDir} (flt : Faults) (now : Z) (resourcePath : string) : go OsState goerr fileInstanceLock :=
  let! absPath := go_lift (Abs resourcePath) in
  let lockPath := absPath +:+ ".lock" in
  let! _ := go_map_err (ErrWrap ("database instance lock already held for " +:+ absPath))
              (os_OpenCreate flt true false now lockPath) in
  go_ret (mkLock lockPath).

(** The lock forgets its path here; every lock is released once. *)
Definition Release (flt : Faults) (l : fileInstanceLock) : go OsState goerr unit :=
  if bool_decide (lock_path l = "") then go_ret tt
  else
    catch! removed := os_Remove flt (lock_path l) in
    match removed with
    | Err err => if negb (errors_Is err ErrNotExist) then go_fail err else go_ret tt
    | Ok _ => go_ret tt
    end.

(** ** internal/serverapp/observability_reporter.go *)

Definition defaultObservabilityReportInterval : Z := 5 * 60 * second_ns.

(** [newObservabilityReporter] on a recorder, and its job. *)
Definition reporter_interval (interval : Z) : Z :=
  if interval <=? 0 then defaultObservabilityReportInterval else interval.
Definition report (interval now : Z) {W : Type} (logSnapshot : W → W) (w : W) : W * option Z :=
  (logSnapshot w, Some (now + reporter_interval interval)).
End host.

(** ** Start *)

(** net.Listen and the certificates: the world outside. *)
Class Network := { net_Listen (addr : string) : result goerr string }.

Record CleanupHooks := mkHooks { OnMutation : option Service; OnConflict : option Service }.

Record ConflictCleanupPolicy := mkPolicy { FileTTL : Z; MaxCopiesPerPath : Z; CleanupInterval : Z }.

Definition seconds (n : Z) : Z := wrap_int64 (n * second_ns).

Definition conflict_policy (cfg : AppConfig.Config) : ConflictCleanupPolicy :=
  let cf := AppConfig.cl_ConflictFiles (AppConfig.Cleanup cfg) in
  if AppConfig.cf_Enabled cf
  then mkPolicy (seconds (AppConfig.cf_RetentionSeconds cf)) (AppConfig.cf_MaxCopiesPerPath cf) (seconds (AppConfig.cf_IntervalSeconds cf))
  else mkPolicy 0 0 0.

Section start.
Context `{WorkDir} `{LocalZone} `{GoUnicode} `{SortSlice} `{!Engine} `{OsExec} `{Network} `{TLS.X509}.
Context (flt : Faults) (dir_size now : Z) (tls : TLS.TLSEnv) (cfg : AppConfig.Config).

Record Runtime := mkRuntime {
  rt_lis : string;
  rt_serviceLock : fileInstanceLock;
  rt_dbLock : fileInstanceLock;
  rt_database : DB;
  rt_dbMaint : Maintenance.DatabaseMaintenanceRuntimeConfig;
  rt_janitors : list Service;
  rt_restoreLog : option Writer;
  rt_options : Interceptors.ServerOptions;
  rt_hooks : CleanupHooks;
  rt_startedAt : Z;
}.

Definition set_build_env : go Proc goerr unit :=
  let! _ := (match AppConfig.BuildToolDirs cfg with
             | [] => go_ret tt
             | dirs => Setenv envBuildToolDirs (Join (String PathListSeparator "") dirs)
             end) in
  match AppConfig.RequiredBuildTools cfg with
  | [] => go_ret tt
  | tools => Setenv envRequiredBuildTools (Join "," tools)
  end.

Definition db_path : string :=
  let dbPath := AppConfig.DBPath cfg in
  let dbPath := if bool_decide (TrimSpace dbPath = "") then "roodox.db" else dbPath in
  if negb (IsAbs dbPath) then Clean dbPath else dbPath.

Definition state_dir : string :=
  let stateDir := AppConfig.rt_StateDir (AppConfig.Runtime cfg) in
  let stateDir := if bool_decide (TrimSpace stateDir = "") then "runtime" else stateDir in
  if negb (IsAbs stateDir) then
    match Getwd with Ok cwd => JoinPath cwd stateDir | Err _ => Clean stateDir end
  else stateDir.

(** [if !filepath.IsAbs(dir) { if cwd, err := os.Getwd(); err == nil { ... } }] *)
Definition below_cwd (dir : string) : string :=
  if negb (IsAbs dir) then match Getwd with Ok cwd => JoinPath cwd dir | Err _ => dir end else dir.

Definition maintenance_config : Maintenance.DatabaseMaintenanceRuntimeConfig :=
  let d := AppConfig.Database cfg in
  let backupDir := TrimSpace (AppConfig.db_BackupDir d) in
  {| Maintenance.CheckpointInterval := seconds (AppConfig.db_CheckpointIntervalSeconds d);
     Maintenance.CheckpointMode := AppConfig.db_CheckpointMode d;
     Maintenance.BackupDir := if bool_decide (backupDir = "") then backupDir else below_cwd backupDir;
     Maintenance.BackupInterval := seconds (AppConfig.db_BackupIntervalSeconds d);
     Maintenance.BackupKeepLatest := AppConfig.db_BackupKeepLatest d |}.

Definition artifact_janitor : option artifactJanitor :=
  let ta := AppConfig.cl_TempArtifacts (AppConfig.Cleanup cfg) in
  newArtifactJanitor (AppConfig.RootDir cfg)
    (mkArtifactCfg (AppConfig.ta_Enabled ta) (seconds (AppConfig.ta_IntervalSeconds ta))
       (seconds (AppConfig.ta_RetentionSeconds ta)) (AppConfig.ta_MaxBytes ta) (AppConfig.ta_Prefixes ta)).
Definition conflict_janitor : option conflictFileJanitor :=
  let cf := AppConfig.cl_ConflictFiles (AppConfig.Cleanup cfg) in
  newConflictFileJanitor (AppConfig.RootDir cfg)
    (mkConflictCfg (AppConfig.cf_Enabled cf) (seconds (AppConfig.cf_IntervalSeconds cf))
       (seconds (AppConfig.cf_RetentionSeconds cf)) (AppConfig.cf_MaxBytes cf)).
Definition log_janitor : option logFileJanitor :=
  let lf := AppConfig.cl_LogFiles (AppConfig.Cleanup cfg) in
  newLogFileJanitor (below_cwd (AppConfig.lf_Dir lf))
    (mkLogCfg (AppConfig.lf_Enabled lf) (seconds (AppConfig.lf_IntervalSeconds lf))
       (seconds (AppConfig.lf_RetentionSeconds lf)) (AppConfig.lf_MaxBytes lf) (AppConfig.lf_Patterns lf)).

(** A service that may be nil: it is in the list if it is not. *)
Definition service_of {A} (j : option A) (s : Service) : list Service := if j is Some _ then [s] else [].

(** The list [janitors], in its order. *)
Definition janitors : list Service :=
  service_of artifact_janitor ArtifactJanitor ++ service_of conflict_janitor ConflictJanitor ++
  service_of log_janitor LogJanitor ++ [ObservabilityReporter; DatabaseMaintenance].

(** The services whose runners [Start] starts, in order: the build service
    first; the manager of the database has a runner only if it has work. *)
Definition started (database : DB) : list Service :=
  [BuildCleanup] ++ service_of artifact_janitor ArtifactJanitor ++ service_of conflict_janitor ConflictJanitor ++
  service_of log_janitor LogJanitor ++ [ObservabilityReporter] ++
  service_of (Maintenance.maintenance_runner flt dir_size database maintenance_config) DatabaseMaintenance.

Definition hooks : CleanupHooks :=
  mkHooks (if artifact_janitor is Some _ then Some ArtifactJanitor else None)
    (if conflict_janitor is Some _ then Some ConflictJanitor else None).

(** Giving back, on an error before ([release_locks]) and after the services
    have started. *)
Definition release_locks (dbLock serviceLock : fileInstanceLock) : go Host goerr unit :=
  let! _ := ignore (on_files (Release flt dbLock)) in
  ignore (on_files (Release flt serviceLock)).
Definition give_back (restoreLog : option Writer) (d : handle) (dbLock serviceLock : fileInstanceLock) : go Host goerr unit :=
  let! _ := restore_log restoreLog in
  let! _ := close_services janitors in
  let! _ := ignore (close_database d) in
  release_locks dbLock serviceLock.

(** [if err != nil { undo; return nil, fmt.Errorf("what: %w", err) }] *)
Definition or_undo {A B} (m : go Host goerr A) (undo : go Host goerr unit) (what : string) (k : A → go Host goerr B) : go Host goerr B :=
  catch! r := m in
  match r with
  | Err err => let! _ := undo in go_fail (ErrWrap what err)
  | Ok a => k a
  end.

(** With both locks held and the database open. *)
Definition start_services (serviceLock dbLock : fileInstanceLock) (database : DB) : go Host goerr Runtime :=
  let! _ := set_live (λ l, l ++ started database) in
  let! restoreLog := (if log_janitor is Some _ then installLogTrigger else go_ret None) in
  let undo := give_back restoreLog (Sql database) dbLock serviceLock in
  or_undo (on_files (Interceptors.BuildGRPCServerOptions flt dir_size tls
             {| Interceptors.AuthEnabled := AppConfig.AuthEnabled cfg; Interceptors.SharedSecret := AppConfig.SharedSecret cfg;
                Interceptors.TLSEnabled := AppConfig.TLSEnabled cfg; Interceptors.TLSCertPath := AppConfig.TLSCertPath cfg;
                Interceptors.TLSKeyPath := AppConfig.TLSKeyPath cfg |})) undo "configure grpc security failed" (λ options,
  or_undo (let! lis := go_lift (net_Listen (AppConfig.Addr cfg)) in let! _ := set_listening (λ l, lis :: l) in go_ret lis)
    undo "listen failed" (λ lis,
  go_ret (mkRuntime lis serviceLock dbLock database maintenance_config janitors restoreLog options hooks now))).

Definition Start : go Host goerr Runtime :=
  let! _ := on_proc set_build_env in
  let! _ := go_lift (ServerConfig.validateInsecureAuthBinding cfg) in
  let! _ := on_proc (RunStartupChecks flt dir_size now (AppConfig.RootDir cfg) (AppConfig.RemoteBuildEnabled cfg)) in
  let! _ := go_map_err (ErrWrap "create runtime state dir failed") (on_files (os_MkdirAll flt now state_dir)) in
  let! serviceLock := go_map_err (ErrWrap "acquire runtime instance lock failed")
                        (on_files (acquireInstanceLock flt now (JoinPath state_dir "service.instance"))) in
  or_undo (on_files (acquireInstanceLock flt now db_path)) (ignore (on_files (Release flt serviceLock)))
    "acquire db instance lock failed" (λ dbLock,
  or_undo (let! database := on_files (Open db_path) in let! _ := set_open (λ l, Sql database :: l) in go_ret database)
    (release_locks dbLock serviceLock) "open db failed" (λ database,
  start_services serviceLock dbLock database)).

(** [stopTimeout] of a runtime. *)
Definition stopTimeout : Z :=
  let timeoutSeconds := AppConfig.rt_GracefulStopTimeoutSeconds (AppConfig.Runtime cfg) in
  seconds (if timeoutSeconds <=? 0 then 3 else timeoutSeconds).
End start.
End Runtime.
