(* ===== verification/RuntimeStart.v ===== *)
(** * Starting the server: theorems

    [Start] holds both lock files, the database, the services, the log and the
    socket, or, if it fails, none of them but one service that it forgets; and
    while it holds a lock nobody else starts on the same state. *)

From S2P Require Import Prelude GoStrings FsPath OsFs World Frames Artifacts ExclFiles GoTime Runner Janitor Security Interceptors AppConfig Sqlite Restore RestoreTheorems Maintenance Net ServerConfig Preflight Runtime.
Open Scope string_scope.
Open Scope Z_scope.
Open Scope list_scope.

Module RuntimeStart.
Import Sqlite Preflight Runtime.

Section locks.
Context `{WorkDir} (flt : Faults) (now : Z).

(** The lock file of a resource. *)
Definition lock_file (resource : string) : string :=
  match Abs resource with Ok abs => abs +:+ ".lock" | Err _ => "" end.
Definition lock_key (resource : string) : list string := path_key (lock_file resource).

Lemma lock_file_not_empty r abs : Abs r = Ok abs → lock_file r ≠ "".
Proof. unfold lock_file. intros ->. by destruct abs. Qed.

Lemma acquire_Ok r t t' l :
  acquireInstanceLock flt now r t = (t', Ok l) →
  lock_path l = lock_file r ∧ lock_path l ≠ "" ∧ t !! lock_key r = None ∧ lock_key r ≠ [] ∧
  t' = <[lock_key r := FileNode [] now]> t ∧ os_lookup t' (lock_key r) = Ok (FileNode [] now).
Proof.
  unfold acquireInstanceLock, go_bind, go_lift, go_map_err, lock_key.
  destruct (Abs r) as [abs|] eqn:Ea; [|done]. pose proof (lock_file_not_empty r abs Ea) as Hne.
  unfold lock_file in *. rewrite Ea in *. destruct (os_OpenCreate _ _ _ _ _ t) as [t1 [c|e]] eqn:Eo; [|done].
  intros [= <- <-]. apply open_excl in Eo as (? & ? & ? & ?). by split_and!.
Qed.

Lemma acquire_Err r t t' e : acquireInstanceLock flt now r t = (t', Err e) → t' = t.
Proof.
  unfold acquireInstanceLock, go_bind, go_lift, go_map_err. destruct (Abs r) as [abs|]; [|by intros [= <- _]].
  destruct (os_OpenCreate _ _ _ _ _ t) as [t1 [c|e']] eqn:Eo; [done|]. intros [= <- _]. by apply open_excl_err in Eo.
Qed.

(** A lock that is held is not acquired. *)
Lemma acquire_held r t n :
  os_lookup t (lock_key r) = Ok n → ∃ e, acquireInstanceLock flt now r t = (t, Err e).
Proof.
  unfold lock_key, lock_file, acquireInstanceLock, go_bind, go_lift, go_map_err.
  destruct (Abs r) as [abs|e]; [|by eexists]. intros Hn.
  destruct (open_excl_held flt now (abs +:+ ".lock") t n Hn) as [e ->]. by eexists.
Qed.

Lemma acquire_undisturbed K r : apart [lock_key r] K → steps (undisturbed K) (acquireInstanceLock flt now r).
Proof.
  intros Ha. unfold acquireInstanceLock, go_bind, go_lift. unfold lock_key, lock_file in Ha.
  intros t. destruct (Abs r) as [abs|]; [|reflexivity]. revert t.
  apply (steps_bind _ (go_map_err _ _) (λ _, go_ret _)); [|intros; apply steps_ret; apply _].
  apply steps_map_err. by apply OpenCreate_undisturbed.
Qed.

Lemma release_held l t c mt :
  lock_path l ≠ "" → os_lookup t (path_key (lock_path l)) = Ok (FileNode c mt) → flt "remove" (lock_path l) = None →
  Release flt l t = (delete (path_key (lock_path l)) t, Ok tt).
Proof.
  intros Hne Hl Hf. unfold Release. rewrite bool_decide_eq_false_2 by done. unfold go_catch.
  by rewrite (remove_file flt _ _ _ _ Hl Hf).
Qed.
End locks.

Section host.
Context `{Engine}.

Definition tree (h : Host) : OsState := pr_tree (h_proc h).
Definition with_tree (t : OsState) (h : Host) : Host :=
  mkHost (mkProc t (pr_env (h_proc h))) (h_open h) (h_live h) (h_log h) (h_listening h).

Lemma on_files_eq {A} (m : go OsState goerr A) h :
  on_files m h = let '(t, r) := m (tree h) in (with_tree t h, r).
Proof. unfold on_files, on_proc, Preflight.on_tree, tree. by destruct (m (pr_tree (h_proc h))). Qed.

Lemma with_tree_tree t h : tree (with_tree t h) = t.
Proof. done. Qed.
Lemma with_tree_id h : with_tree (tree h) h = h.
Proof. by destruct h as [[] ? ? ? ?]. Qed.
Lemma with_tree_twice t t' h : with_tree t' (with_tree t h) = with_tree t' h.
Proof. done. Qed.

Lemma filter_all {A} (P : A → Prop) `{∀ x, Decision (P x)} (l : list A) : (∀ x, P x) → filter P l = l.
Proof. intros HP. induction l as [|x l IH]; [done|]. by rewrite filter_cons_True, IH. Qed.

(** Closing services leaves the others. *)
Lemma close_services_eq l h :
  close_services l h = (mkHost (h_proc h) (h_open h) (filter (λ s, s ∉ l) (h_live h)) (h_log h) (h_listening h), Ok tt).
Proof.
  revert h. induction l as [|s l IH]; intros [p o live log li]; cbn [close_services].
  - unfold go_ret. cbn [h_proc h_open h_live h_log h_listening].
    rewrite filter_all; [done|]. intros x. apply not_elem_of_nil.
  - unfold go_bind at 1, close_service, set_live, go_modify. rewrite IH. cbn [h_proc h_open h_live h_log h_listening].
    do 2 f_equal. rewrite list_filter_filter. apply list_filter_iff. intros x. rewrite not_elem_of_cons. naive_solver.
Qed.
End host.

(** ** What the parts of a start leave alone *)

Section parts.
Context `{WorkDir} `{LocalZone} `{GoUnicode} `{OsExec} `{TLS.X509} (flt : Faults) (dir_size now : Z) (K : list (list string)).

Definition probe (rootDir : string) (n : nat) : string :=
  (if HasSuffix rootDir Separator then rootDir else rootDir +:+ Separator) +:+ ".roodox-write-check-" +:+ temp_name n +:+ ".tmp".

Lemma create_temp_undisturbed tries n rootDir :
  (∀ n, apart [path_key (probe rootDir n)] K) →
  steps (undisturbed K) (create_temp flt now tries n rootDir ".roodox-write-check-" ".tmp").
Proof.
  intros Hp. revert n. induction tries as [|tries IH]; intros n; cbn [create_temp]; [apply steps_fail; apply _|].
  cbn zeta. apply steps_catch; [apply _| |].
  - apply (OpenCreate_undisturbed flt now K true false (probe rootDir n)). apply Hp.
  - intros [c|e]; [apply steps_ret; apply _|]. destruct (errors_Is e ErrExist); [apply IH|apply steps_fail; apply _].
Qed.

Lemma create_temp_name tries n rootDir t t' name :
  create_temp flt now tries n rootDir ".roodox-write-check-" ".tmp" t = (t', Ok name) → ∃ m, name = probe rootDir m.
Proof.
  revert n. induction tries as [|tries IH]; intros n; cbn [create_temp]; [done|]. cbn zeta. unfold go_catch.
  destruct (os_OpenCreate _ _ _ _ _ t) as [t1 [c|e]] eqn:Eo; [intros [= _ <-]; by exists n|].
  apply open_excl_err in Eo as ->. destruct (errors_Is e ErrExist); [apply IH|done].
Qed.

Lemma writable_undisturbed rootDir :
  (∀ n, apart [path_key (probe rootDir n)] K) → steps (undisturbed K) (ensureRootDirWritable flt now rootDir).
Proof.
  intros Hp. unfold ensureRootDirWritable. case_bool_decide; [apply steps_fail; apply _|].
  apply steps_bind; [apply _|apply MkdirAll_undisturbed|]. intros _.
  apply RestoreFiles.steps_bind_Ok; [apply _|by apply create_temp_undisturbed|].
  intros t t' name [m ->]%create_temp_name. apply steps_bind; [apply _|apply steps_lift; apply _|]. intros _.
  by apply Remove_undisturbed.
Qed.

(** The trees of two processes. *)
Definition proc_undisturbed (p p' : Proc) : Prop := undisturbed K (pr_tree p) (pr_tree p').
#[local] Instance proc_preorder : PreOrder proc_undisturbed.
Proof. split; [intros p; unfold proc_undisturbed; reflexivity|]. intros a b c ? ?. unfold proc_undisturbed in *. by trans (pr_tree b). Qed.

Lemma on_tree_undisturbed {A} (m : go OsState goerr A) : steps (undisturbed K) m → steps proc_undisturbed (Preflight.on_tree m).
Proof. intros Hm p. unfold Preflight.on_tree. specialize (Hm (pr_tree p)). by destruct (m (pr_tree p)). Qed.

Lemma Setenv_undisturbed name value : steps proc_undisturbed (Setenv name value).
Proof. intros p. unfold proc_undisturbed. cbn. reflexivity. Qed.

Lemma checks_undisturbed rootDir remote :
  (∀ n, apart [path_key (probe rootDir n)] K) →
  steps proc_undisturbed (RunStartupChecks flt dir_size now rootDir remote).
Proof.
  intros Hp. unfold RunStartupChecks. apply steps_bind; [apply _| |].
  { by apply on_tree_undisturbed, steps_map_err, writable_undisturbed. }
  intros _. unfold ensureBuildToolPath. steps_tac; apply Setenv_undisturbed.
Qed.

(** The certificates: four files. *)
Definition tls_files (certPath keyPath : string) : list (list string) :=
  let c := TrimSpace certPath in
  map path_key [c; TrimSpace keyPath; TLS.tlsRootCertPath c; TLS.tlsRootKeyPath c].

Lemma options_undisturbed tls cfg :
  apart (tls_files (Interceptors.TLSCertPath cfg) (Interceptors.TLSKeyPath cfg)) K →
  steps (undisturbed K) (Interceptors.BuildGRPCServerOptions flt dir_size tls cfg).
Proof.
  intros Ha. assert (∀ p d, path_key p ∈ tls_files (Interceptors.TLSCertPath cfg) (Interceptors.TLSKeyPath cfg) →
    steps (undisturbed K) (os_WriteFile flt (TLS.te_now tls) p d)) as Hw.
  { intros p d Hin. apply WriteFile_undisturbed. intros f k Hf. apply Ha. apply list_elem_of_singleton in Hf as ->. done. }
  assert (∀ p, steps (undisturbed K) (os_MkdirAll flt (TLS.te_now tls) p)) as Hm by (intros; apply MkdirAll_undisturbed).
  unfold Interceptors.BuildGRPCServerOptions, TLS.loadServerTLSCredentials, TLS.ensureServerCertificate, TLS.makeDirs,
    TLS.loadOrCreateRootCA, TLS.existing_root, TLS.NewServerTLSFromFile.
  steps_tac; first [apply Hm|apply Hw; unfold tls_files; cbn [map]; set_solver].
Qed.
End parts.

(** ** Start *)

Section start.
Context `{WorkDir} `{LocalZone} `{GoUnicode} `{SortSlice} `{EngineLaws} `{OsExec} `{Network} `{TLS.X509}.
Context (flt : Faults) (dir_size now : Z) (tls : TLS.TLSEnv) (cfg : AppConfig.Config).

Definition service_resource : string := JoinPath (state_dir cfg) "service.instance".
Abbreviation ks := (lock_key service_resource).
Abbreviation kd := (lock_key (db_path cfg)).
Definition lock_keys : list (list string) := [ks; kd].

(** The files that a start writes are no lock files and lead to none. *)
Record layout : Prop := {
  ly_db : apart (db_files (db_path cfg)) lock_keys;
  ly_tls : apart (tls_files (AppConfig.TLSCertPath cfg) (AppConfig.TLSKeyPath cfg)) lock_keys;
  ly_probe n : apart [path_key (probe (AppConfig.RootDir cfg) n)] lock_keys;
  ly_service_db : apart [ks] [kd];
  ly_db_service : apart [kd] [ks];
}.

Definition locked (t : OsState) (k : list string) : Prop := ∃ c mt, os_lookup t k = Ok (FileNode c mt).
Definition held (t : OsState) : Prop := locked t ks ∧ locked t kd.

Context (HL : layout).

Lemma held_undisturbed t t' : held t → undisturbed lock_keys t t' → held t'.
Proof.
  intros [(c1 & m1 & H1') (c2 & m2 & H2')] Hu. split.
  - apply (undisturbed_lookup lock_keys t t' ks c1 m1 Hu); [set_solver|done].
  - apply (undisturbed_lookup lock_keys t t' kd c2 m2 Hu); [set_solver|done].
Qed.

Lemma keys_differ : ks ≠ kd.
Proof. intros E. eapply (ly_service_db HL ks kd); [by left..|]. by rewrite E. Qed.

(** What is left when both locks have been made and removed. *)
Lemma made_and_gone t t1 : ks ≠ [] → kd ≠ [] →
  t !! ks = None → t !! kd = None → undisturbed lock_keys (<[kd := FileNode [] now]> (<[ks := FileNode [] now]> t)) t1 →
  undisturbed lock_keys t (delete ks (delete kd t1)).
Proof.
  intros Hks Hkd Ns Nd [Uf Ud]. pose proof keys_differ as Hne.
  assert (∀ k, k ∈ lock_keys → k ≠ [] ∧ t !! k = None) as Hnone.
  { intros k [->|[->|[]%elem_of_nil]%elem_of_cons]%elem_of_cons; done. }
  split.
  - intros k Hk. destruct (Hnone k Hk) as [Hk0 Hn]. split; intros (c & mt & Hf); exfalso; revert Hf.
    + apply elem_of_cons in Hk as [->|Hk].
      * by rewrite node_at_delete_eq.
      * apply list_elem_of_singleton in Hk as ->. rewrite node_at_delete_ne by done. by rewrite node_at_delete_eq.
    + unfold node_at. rewrite Hn. by case_decide.
  - intros k q Hk Hp Hqk Hd. assert (q ≠ ks ∧ q ≠ kd) as [Q1 Q2].
    { apply elem_of_cons in Hk as [->|Hk]; [|apply list_elem_of_singleton in Hk as ->].
      - split; [done|]. intros ->. by eapply (ly_db_service HL kd ks); [by left..|].
      - split; [|done]. intros ->. by eapply (ly_service_db HL ks kd); [by left..|]. }
    destruct (Ud k q Hk Hp Hqk) as [mt Hmt].
    { destruct Hd as [mt Hd]. exists mt. by rewrite !node_at_insert_ne. }
    exists mt. by rewrite !node_at_delete_ne.
Qed.

Lemma Open_handle p t t' d : Open p t = (t', Ok d) → handle_path (Sql d) = p.
Proof.
  unfold Open, go_bind. destruct (sql_Open p t) as [t1 [h|]] eqn:Eo; [|done].
  destruct (sql_Exec h _ t1) as [t2 [|]]; [|done]. destruct (sql_Exec h _ t2) as [t3 [|]]; [|done].
  destruct (sql_Exec h _ t3) as [t4 [|]]; [|done]. unfold go_catch. destruct (applyMigrations h t4) as [t5 [|]].
  - intros [= _ <-]. cbn [Sql]. by eapply open_path.
  - by destruct (sql_Close h t5).
Qed.

Context (Fs : flt "remove" (lock_file service_resource) = None) (Fd : flt "remove" (lock_file (db_path cfg)) = None).

Record pair_of_locks (sv db : fileInstanceLock) : Prop := {
  pl_service : lock_path sv = lock_file service_resource;
  pl_db : lock_path db = lock_file (db_path cfg);
  pl_service_path : lock_path sv ≠ "";
  pl_db_path : lock_path db ≠ "";
}.

Lemma release_locks_eq sv db h :
  pair_of_locks sv db → held (tree h) →
  release_locks flt db sv h = (with_tree (delete ks (delete kd (tree h))) h, Ok tt).
Proof.
  intros [Es Ed Ns Nd] [(c1 & m1 & L1) (c2 & m2 & L2)]. unfold release_locks, ignore, go_bind, go_catch, go_ret.
  rewrite !on_files_eq. rewrite (release_held flt db (tree h) c2 m2) by first [done|by rewrite Ed].
  rewrite on_files_eq, with_tree_tree.
  assert (locked (delete (path_key (lock_path db)) (tree h)) ks) as (c3 & m3 & L3).
  { rewrite Ed. apply (undisturbed_lookup [ks] (tree h) _ ks c1 m1); [|by left|done].
    apply (frame_undisturbed [kd] []); [exact (ly_db_service HL)|apply frame_delete]. }
  rewrite (release_held flt sv _ c3 m3) by first [done|by rewrite Es]. rewrite with_tree_twice. by rewrite Es, Ed.
Qed.

Lemma close_database_eq d h :
  ignore (close_database d) h =
    (mkHost (mkProc (sql_Close d (tree h)).1 (pr_env (h_proc h))) (drop 1 (h_open h)) (h_live h) (h_log h) (h_listening h), Ok tt).
Proof.
  unfold ignore, close_database, go_bind, go_catch, set_open, go_modify, go_ret. rewrite on_files_eq.
  unfold tree. cbn [h_proc]. by destruct (sql_Close d (pr_tree (h_proc h))) as [t [[]|e]].
Qed.

Definition restored (rl : option Writer) (w : Writer) : Writer := default w rl.

Lemma restore_log_eq rl h :
  restore_log rl h = (mkHost (h_proc h) (h_open h) (h_live h) (restored rl (h_log h)) (h_listening h), Ok tt).
Proof. destruct rl; [done|]. by destruct h. Qed.

(** Giving back takes the process to where only the services in question are
    still alive. *)
Lemma give_back_eq rl d sv db h :
  pair_of_locks sv db → held (tree h) → handle_path d = db_path cfg →
  ∃ t1, undisturbed lock_keys (tree h) t1 ∧
    give_back flt cfg rl d db sv h =
      (mkHost (mkProc (delete ks (delete kd t1)) (pr_env (h_proc h))) (drop 1 (h_open h))
         (filter (λ s, s ∉ janitors cfg) (h_live h)) (restored rl (h_log h)) (h_listening h), Ok tt).
Proof.
  intros Hpl Hh Hd. set (t1 := (sql_Close d (tree h)).1). exists t1.
  assert (undisturbed lock_keys (tree h) t1) as Hu.
  { eapply touches_undisturbed; [exact (ly_db HL)|]. rewrite <- Hd. apply close_touches. }
  split; [done|]. unfold give_back, go_bind. rewrite restore_log_eq, close_services_eq, close_database_eq.
  rewrite release_locks_eq; [|done|unfold tree; cbn [h_proc h_open h_live h_log h_listening pr_tree]; by eapply held_undisturbed].
  done.
Qed.

Lemma install_eq h :
  ∃ rl w, (if log_janitor cfg is Some _ then installLogTrigger else go_ret None) h =
      (mkHost (h_proc h) (h_open h) (h_live h) w (h_listening h), Ok rl) ∧ restored rl w = h_log h.
Proof.
  destruct (log_janitor cfg) as [j|].
  - unfold installLogTrigger, go_bind, go_get. destruct h as [p o l lg li]. cbn [h_log].
    destruct lg; [by eexists None, NoWriter|by eexists (Some _), (TriggerWriter _)..].
  - exists None, (h_log h). by destruct h.
Qed.

(** The outcomes of what comes after the locks and the database. *)
Lemma start_services_cases sv db d h :
  pair_of_locks sv db → held (tree h) → handle_path (Sql d) = db_path cfg →
  ∃ t1 w, undisturbed lock_keys (tree h) t1 ∧
    match start_services flt dir_size now tls cfg sv db d h with
    | (h', Err _) =>
        h' = mkHost (mkProc (delete ks (delete kd t1)) (pr_env (h_proc h))) (drop 1 (h_open h))
               (filter (λ s, s ∉ janitors cfg) (h_live h ++ started flt dir_size cfg d)) (h_log h) (h_listening h)
    | (h', Ok rt) =>
        h' = mkHost (mkProc t1 (pr_env (h_proc h))) (h_open h) (h_live h ++ started flt dir_size cfg d) w
               (rt_lis rt :: h_listening h) ∧
        rt_serviceLock rt = sv ∧ rt_dbLock rt = db ∧ rt_database rt = d ∧ rt_janitors rt = janitors cfg ∧
        restored (rt_restoreLog rt) w = h_log h
    end.
Proof.
  intros Hpl Hh Hd. unfold start_services, go_bind at 1, set_live, go_modify.
  set (h1 := mkHost _ _ (h_live h ++ _) _ _). unfold go_bind at 1.
  destruct (install_eq h1) as (rl & w & -> & Hw). set (h2 := mkHost _ _ _ w _).
  unfold or_undo at 1, go_catch at 1. rewrite on_files_eq.
  pose proof (options_undisturbed flt dir_size lock_keys tls {|
    Interceptors.AuthEnabled := AppConfig.AuthEnabled cfg; Interceptors.SharedSecret := AppConfig.SharedSecret cfg;
    Interceptors.TLSEnabled := AppConfig.TLSEnabled cfg; Interceptors.TLSCertPath := AppConfig.TLSCertPath cfg;
    Interceptors.TLSKeyPath := AppConfig.TLSKeyPath cfg |} (ly_tls HL) (tree h2)) as Hu.
  destruct (Interceptors.BuildGRPCServerOptions _ _ _ _ (tree h2)) as [t2 [options|e]]; cbn [fst] in Hu.
  - unfold or_undo, go_catch, go_bind at 1, go_lift. destruct (net_Listen (AppConfig.Addr cfg)) as [lis|e].
    + exists t2, w. split; [exact Hu|]. done.
    + destruct (give_back_eq rl (Sql d) sv db (with_tree t2 h2) Hpl) as (t3 & Hu3 & Hg); [|done|].
      { eapply held_undisturbed; [exact Hh|exact Hu]. }
      exists t3, w. split; [by trans t2|]. unfold go_bind, go_fail. rewrite Hg.
      cbn [with_tree h_proc pr_env h_open h_live h_log h_listening h2 h1] in *. by rewrite Hw.
  - destruct (give_back_eq rl (Sql d) sv db (with_tree t2 h2) Hpl) as (t3 & Hu3 & Hg); [|done|].
    { eapply held_undisturbed; [exact Hh|exact Hu]. }
    exists t3, w. split; [by trans t2|]. unfold go_bind, go_fail. rewrite Hg.
    cbn [with_tree h_proc pr_env h_open h_live h_log h_listening h2 h1] in *. by rewrite Hw.
Qed.

Lemma not_a_file t k : k ≠ [] → t !! k = None → ¬ is_file t k.
Proof. intros Hk Hn (c & mt & Hf). unfold node_at in Hf. rewrite Hn in Hf. by case_decide. Qed.

(** A process in which only the tree may differ. *)
Record same_but_tree (h h' : Host) : Prop := {
  sb_open : h_open h' = h_open h;
  sb_live : h_live h' = h_live h;
  sb_log : h_log h' = h_log h;
  sb_listening : h_listening h' = h_listening h;
}.

(** What a running server holds. *)
Record running_server (h h' : Host) (rt : Runtime) : Prop := {
  rn_free : ¬ is_file (tree h) ks ∧ ¬ is_file (tree h) kd;
  rn_held : held (tree h');
  rn_locks : pair_of_locks (rt_serviceLock rt) (rt_dbLock rt);
  rn_handle : handle_path (Sql (rt_database rt)) = db_path cfg;
  rn_janitors : rt_janitors rt = janitors cfg;
  rn_open : h_open h' = Sql (rt_database rt) :: h_open h;
  rn_live : h_live h' = h_live h ++ started flt dir_size cfg (rt_database rt);
  rn_listening : h_listening h' = rt_lis rt :: h_listening h;
  rn_log : restored (rt_restoreLog rt) (h_log h') = h_log h;
}.

Lemma Start_cases h :
  match Start flt dir_size now tls cfg h with
  | (h', Err _) =>
      undisturbed lock_keys (tree h) (tree h') ∧ h_open h' = h_open h ∧ h_log h' = h_log h ∧
      h_listening h' = h_listening h ∧
      (h_live h' = h_live h ∨ ∃ d, h_live h' = filter (λ s, s ∉ janitors cfg) (h_live h ++ started flt dir_size cfg d))
  | (h', Ok rt) => running_server h h' rt
  end.
Proof.
  unfold Start. unfold go_bind at 1, on_proc at 1.
  assert (∃ p0, set_build_env cfg (h_proc h) = (p0, Ok tt) ∧ pr_tree p0 = tree h) as (p0 & -> & Hp0).
  { unfold set_build_env, go_bind, Setenv, go_modify, go_ret, tree.
    destruct (AppConfig.BuildToolDirs cfg), (AppConfig.RequiredBuildTools cfg); by eexists. }
  cbn [h_proc h_open h_live h_log h_listening]. unfold go_bind at 1, go_lift at 1.
  assert (∀ t, pr_tree p0 = t → undisturbed lock_keys (tree h) t) as Hu0 by (intros t <-; rewrite Hp0; reflexivity).
  destruct (ServerConfig.validateInsecureAuthBinding cfg) as [[]|e].
  2:{ cbn [h_open h_live h_log h_listening]. split_and!; [by apply Hu0|done..|by left]. }
  unfold go_bind at 1, on_proc at 1. cbn [h_proc h_open h_live h_log h_listening].
  pose proof (checks_undisturbed flt dir_size now lock_keys (AppConfig.RootDir cfg) (AppConfig.RemoteBuildEnabled cfg)
    (ly_probe HL) p0) as Hu1. unfold proc_undisturbed in Hu1. rewrite Hp0 in Hu1.
  destruct (RunStartupChecks _ _ _ _ _ p0) as [p1 [r1|e]]; cbn [fst] in Hu1.
  2:{ cbn [h_open h_live h_log h_listening]. split_and!; [exact Hu1|done..|by left]. }
  set (h1 := mkHost p1 (h_open h) (h_live h) (h_log h) (h_listening h)).
  unfold go_bind at 1, go_map_err at 1. rewrite on_files_eq.
  pose proof (MkdirAll_undisturbed flt now lock_keys (state_dir cfg) (tree h1)) as Hu2.
  destruct (os_MkdirAll flt now (state_dir cfg) (tree h1)) as [t2 [[]|e]]; cbn [fst map_err] in *.
  2:{ split_and!; [by trans (tree h1)|done..|by left]. }
  assert (undisturbed lock_keys (tree h) t2) as Hu by (by trans (tree h1)). clear Hu1 Hu2.
  unfold go_bind at 1, go_map_err at 1. rewrite on_files_eq, with_tree_tree. fold service_resource.
  destruct (acquireInstanceLock flt now service_resource t2) as [t3 [sv|e]] eqn:Es; cbn [map_err].
  2:{ apply acquire_Err in Es as ->. split_and!; [exact Hu|done..|by left]. }
  apply acquire_Ok in Es as (Esv & Nsv & Fks & Rks & -> & Lks).
  unfold or_undo at 1, go_catch at 1. rewrite on_files_eq, with_tree_tree.
  set (t3 := <[ks := FileNode [] now]> t2) in *.
  destruct (acquireInstanceLock flt now (db_path cfg) t3) as [t4 [db|e]] eqn:Ed.
  2:{ apply acquire_Err in Ed as ->. unfold go_bind, ignore, go_catch. rewrite on_files_eq, with_tree_tree.
      rewrite (release_held flt sv t3 [] now) by first [done|by rewrite Esv].
      rewrite Esv. fold service_resource. unfold t3. rewrite made_and_removed by done. unfold go_ret, go_fail.
      split_and!; [exact Hu|done..|by left]. }
  apply acquire_Ok in Ed as (Edb & Ndb & Fkd & Rkd & -> & Lkd). set (t4 := <[kd := FileNode [] now]> t3) in *.
  assert (pair_of_locks sv db) as Hpl by done.
  assert (t2 !! kd = None) as Fkd2 by (unfold t3 in Fkd; by rewrite lookup_insert_ne in Fkd by apply keys_differ).
  assert (held t4) as Hheld.
  { split; [|by eexists _, _]. apply (undisturbed_lookup [ks] t3 t4 ks [] now); [|by left|done].
    apply (frame_undisturbed [kd] []); [exact (ly_db_service HL)|apply frame_insert]. }
  unfold or_undo at 1, go_catch at 1, go_bind at 1. rewrite on_files_eq, with_tree_tree.
  pose proof (RestoreFiles.Open_touches (db_path cfg) t4) as Ho. apply (touches_undisturbed lock_keys) in Ho; [|exact (ly_db HL)].
  destruct (Open (db_path cfg) t4) as [t5 [d|e]] eqn:Eo; cbn [fst] in Ho.
  - apply Open_handle in Eo. unfold go_bind at 1, set_open, go_modify. cbn [go_ret].
    match goal with |- context [start_services _ _ _ _ _ _ _ _ ?h] => set (h5 := h) end.
    destruct (start_services_cases sv db d h5 Hpl) as (t6 & w & Hu6 & Hc); [by eapply held_undisturbed|done|].
    unfold go_ret. fold h5.
    destruct (start_services flt dir_size now tls cfg sv db d h5) as [h6 [rt|e]].
    + destruct Hc as (-> & E1 & E2 & E3 & E4 & E5). subst sv db d.
      split; [|eapply held_undisturbed; [|exact Hu6]; by eapply held_undisturbed|exact Hpl|exact Eo|exact E4
        |reflexivity..|exact E5].
      split; intros Hf.
      * apply (not_a_file t2 ks); [done..|]. by apply (un_file _ _ _ Hu ks ltac:(by left)).
      * apply (not_a_file t2 kd); [done..|]. by apply (un_file _ _ _ Hu kd ltac:(by right; left)).
    + subst h6. cbn [h_open h_live h_log h_listening]. split_and!; [|done..|].
      * trans t2; [exact Hu|]. cbn [tree h_proc pr_tree]. apply made_and_gone; [done..|]. by trans t5.
      * right. by exists d.
  - unfold go_bind at 1. rewrite release_locks_eq; [|done|by eapply held_undisturbed].
    unfold go_fail. split_and!; [|done..|by left]. trans t2; [exact Hu|]. by apply made_and_gone.
Qed.

End start.

Section theorems.
Context `{WorkDir} `{LocalZone} `{GoUnicode} `{SortSlice} `{EngineLaws} `{OsExec} `{Network} `{TLS.X509}.

(** What closing the services of the list leaves of those that were started. *)
Lemma only_build flt dir_size cfg d : filter (λ s, s ∉ janitors cfg) (started flt dir_size cfg d) = [BuildCleanup].
Proof.
  unfold started. rewrite filter_app. cbn [app].
  assert (∀ l, l ⊆ janitors cfg → filter (λ s, s ∉ janitors cfg) l = []) as Hnone.
  { intros l. induction l as [|s l IH]; intros Hl; [done|]. rewrite filter_cons_False; [|intros Hn; apply Hn, Hl; by left].
    apply IH. intros x Hx. apply Hl. by right. }
  rewrite (Hnone (service_of _ _ ++ _)).
  - rewrite filter_cons_True; [done|]. unfold janitors, service_of.
    destruct (artifact_janitor cfg), (conflict_janitor cfg), (log_janitor cfg); by set_solver.
  - unfold janitors, service_of.
    destruct (artifact_janitor cfg), (conflict_janitor cfg), (log_janitor cfg),
      (Maintenance.maintenance_runner _ _ _ _); set_solver.
Qed.


Lemma Abs_twice p : IsAbs p = true → Abs p = Ok (Clean p) ∧ Abs (Clean p) = Ok (Clean p).
Proof.
  intros Hp. unfold Abs. rewrite Hp. split; [done|]. destruct (Clean_abs p Hp) as (ws & Hws & ->).
  by rewrite IsAbs_abs_path, Clean_abs_path.
Qed.

(** A locked database is not restored. *)
Lemma restore_refused flt dir_size now target backup options t n :
  IsAbs target = true → TrimSpace target = target → os_lookup t (lock_key target) = Ok n →
  ∃ e, Restore.RestoreFromBackup flt dir_size now target backup options t = (t, Err e).
Proof.
  intros Hp Ht Hn. destruct (Abs_twice target Hp) as [A1 A2]. unfold Restore.RestoreFromBackup. rewrite Ht.
  unfold lock_key, lock_file in Hn. rewrite A1 in Hn. unfold go_bind at 1, go_lift. rewrite A1.
  unfold go_bind at 1. destruct (Abs (TrimSpace backup)) as [b|e]; [|by eexists].
  destruct (_ || _); [by eexists|]. destruct (Restore.samePath _ b); [by eexists|].
  unfold go_bind at 1, Restore.acquireResourceLock, go_bind at 1, go_lift. rewrite A2. cbn zeta.
  unfold go_bind, go_map_err. destruct (open_excl_held flt now _ _ _ Hn) as [e ->]. by eexists.
Qed.

(** C18: One server at a time.  A server that has started found no lock file on
    its database or its state directory, and holds both, with its database
    open, its services alive and its socket listening.  As long as its lock
    files stay, every other start on the same database or the same state
    directory, with any other settings, fails, keeps nothing and leaves the
    lock files where they are; and a restore of the database is refused without
    touching a file. *)
Theorem one_server_at_a_time flt dir_size now tls cfg h h1 rt :
  layout cfg →
  flt "remove" (lock_file (service_resource cfg)) = None → flt "remove" (lock_file (db_path cfg)) = None →
  Start flt dir_size now tls cfg h = (h1, Ok rt) →
  running_server flt dir_size cfg h h1 rt ∧
  ∀ h2, undisturbed (lock_keys cfg) (tree h1) (tree h2) →
    (∀ flt2 now2 tls2 cfg2, layout cfg2 →
       flt2 "remove" (lock_file (service_resource cfg2)) = None → flt2 "remove" (lock_file (db_path cfg2)) = None →
       db_path cfg2 = db_path cfg ∨ service_resource cfg2 = service_resource cfg →
       ∃ h3 e, Start flt2 dir_size now2 tls2 cfg2 h2 = (h3, Err e) ∧
         undisturbed (lock_keys cfg2) (tree h2) (tree h3) ∧ h_listening h3 = h_listening h2) ∧
    (∀ flt2 now2 backup options, IsAbs (db_path cfg) = true → TrimSpace (db_path cfg) = db_path cfg →
       ∃ e, Restore.RestoreFromBackup flt2 dir_size now2 (db_path cfg) backup options (tree h2) = (tree h2, Err e)).
Proof.
  intros HL Fs Fd Hst. pose proof (Start_cases flt dir_size now tls cfg HL Fs Fd h) as Hr. rewrite Hst in Hr.
  split; [exact Hr|]. intros h2 Hu.
  assert (held cfg (tree h2)) as [(c1 & m1 & L1) (c2 & m2 & L2)].
  { destruct Hr as [_ Hh]. by eapply held_undisturbed. }
  split; [|intros; by eapply restore_refused].
  intros flt2 now2 tls2 cfg2 HL2 Fs2 Fd2 Hsame.
  pose proof (Start_cases flt2 dir_size now2 tls2 cfg2 HL2 Fs2 Fd2 h2) as Hc.
  destruct (Start flt2 dir_size now2 tls2 cfg2 h2) as [h3 [rt2|e]].
  - exfalso. destruct (rn_free _ _ _ _ _ _ Hc) as [N1 N2]. destruct Hsame as [Es|Es]; rewrite Es in *.
    + apply N2. exists c2, m2. by apply os_lookup_Ok_node.
    + apply N1. exists c1, m1. by apply os_lookup_Ok_node.
  - destruct Hc as (? & _ & _ & ? & _). by exists h3, e.
Qed.
End theorems.
End RuntimeStart.
