(* ===== verification/RuntimeLife.v ===== *)
(** * The life of a started server

    internal/serverapp/runtime.go ([Stop], [Wait], [EnsureHealthy], [cleanup],
    the goroutine of [Serve]) and runtime_admin.go ([RequestServerShutdown]) as
    a machine: a state has the fields of [Runtime] that change, the process
    with what it holds, and where each goroutine stands; a label is one step of
    one goroutine, or an event from outside.

    What google.golang.org/grpc documents of [Serve], [GracefulStop] and [Stop]
    is in the labels: stopping closes the listener, [GracefulStop] returns when
    the running calls have ended, [Stop] cancels them, and [Serve] returns
    without an error, or with ErrServerStopped, once the server has stopped; it
    fails by itself only while nobody stops it.  A wait of a time is a label
    that may come at any moment. *)

From S2P Require Import Prelude GoStrings FsPath OsFs World GoTime Security ExclFiles AppConfig Sqlite Preflight Runtime.
Open Scope string_scope.
Open Scope Z_scope.
Open Scope list_scope.

Module RuntimeLife.
Import Sqlite Runtime.

(** server.ServerShutdownSnapshot *)
Record ServerShutdownSnapshot := mkShutdown {
  Accepted : bool; AlreadyInProgress : bool; RequestedAtUnix : Z; Message : string;
}.

(** What [grpcServer.Serve] returns: nothing, the two errors the code looks
    for, or another with its text. *)
Inductive ServeError := ErrServerStopped | ErrClosed | ErrOther (text : string).
Definition serve_text (e : ServeError) : string :=
  match e with
  | ErrServerStopped => "grpc: the server has been stopped"
  | ErrClosed => "use of closed network connection"
  | ErrOther text => text
  end.

Definition isExpectedServerStop `{GoUnicode} (err : option ServeError) : bool :=
  match err with
  | None | Some ErrServerStopped | Some ErrClosed => true
  | Some (ErrOther text) => Contains (ToLower text) "use of closed network connection"
  end.

(** ** The goroutines *)

(** [cleanup], one call after the other. *)
Inductive CleanupAction :=
  | SetNotServing | CloseListener | CloseBuildService | RestoreLog | CloseJanitor (s : Service)
  | ReleaseServiceLock | ReleaseDbLock | CloseDatabase | SetNotRunning.
#[global] Instance CleanupAction_eq_dec : EqDecision CleanupAction.
Proof. solve_decision. Defined.

Definition cleanup_actions (janitors : list Service) : list CleanupAction :=
  [SetNotServing; CloseListener; CloseBuildService; RestoreLog] ++ map CloseJanitor janitors ++
  [ReleaseServiceLock; ReleaseDbLock; CloseDatabase; SetNotRunning].

(** A call of [Stop], after the pause of a requested shutdown if any. *)
Inductive StopPc := StSleep | StHealth | StCheck | StGraceful | StWait | StForce | StClose | StEnd.

(** The goroutine that [Start] leaves behind. *)
Inductive ServePc :=
  | SvServe
  | SvCleanup (err : option ServeError) (todo : list CleanupAction)
  | SvSetErr (err : ServeError)
  | SvSend (err : option ServeError)
  | SvClose
  | SvDone.

Section life.
Context `{WorkDir} `{GoUnicode} `{!Engine} (flt : Faults) (rt : Runtime).

Record State := mkState {
  st_host : Host;
  running : bool;
  lastErr : string;
  shutdownAt : option Z;
  shutdownMsg : string;
  serving : bool;                           (* the status of the health service *)
  quit : bool;                              (* GracefulStop or Stop has been called *)
  stopped : bool;                           (* and has returned *)
  stops : list StopPc;
  serve : ServePc;
  doneCh : option (option ServeError);      (* the value in the channel *)
  closed : bool;
  answers : list ServerShutdownSnapshot;    (* latest first *)
}.

Definition with_host (f : Host → Host) (s : State) : State :=
  mkState (f (st_host s)) (running s) (lastErr s) (shutdownAt s) (shutdownMsg s) (serving s) (quit s) (stopped s)
    (stops s) (serve s) (doneCh s) (closed s) (answers s).
Definition with_running (b : bool) (s : State) : State :=
  mkState (st_host s) b (lastErr s) (shutdownAt s) (shutdownMsg s) (serving s) (quit s) (stopped s)
    (stops s) (serve s) (doneCh s) (closed s) (answers s).
Definition with_lastErr (e : string) (s : State) : State :=
  mkState (st_host s) (running s) e (shutdownAt s) (shutdownMsg s) (serving s) (quit s) (stopped s)
    (stops s) (serve s) (doneCh s) (closed s) (answers s).
Definition with_shutdown (at_ : Z) (msg : string) (s : State) : State :=
  mkState (st_host s) (running s) (lastErr s) (Some at_) msg (serving s) (quit s) (stopped s)
    (stops s) (serve s) (doneCh s) (closed s) (answers s).
Definition with_serving (b : bool) (s : State) : State :=
  mkState (st_host s) (running s) (lastErr s) (shutdownAt s) (shutdownMsg s) b (quit s) (stopped s)
    (stops s) (serve s) (doneCh s) (closed s) (answers s).
Definition with_stops (l : list StopPc) (s : State) : State :=
  mkState (st_host s) (running s) (lastErr s) (shutdownAt s) (shutdownMsg s) (serving s) (quit s) (stopped s)
    l (serve s) (doneCh s) (closed s) (answers s).
Definition with_serve (pc : ServePc) (s : State) : State :=
  mkState (st_host s) (running s) (lastErr s) (shutdownAt s) (shutdownMsg s) (serving s) (quit s) (stopped s)
    (stops s) pc (doneCh s) (closed s) (answers s).
Definition with_done (v : option (option ServeError)) (c : bool) (s : State) : State :=
  mkState (st_host s) (running s) (lastErr s) (shutdownAt s) (shutdownMsg s) (serving s) (quit s) (stopped s)
    (stops s) (serve s) v c (answers s).
Definition answer (a : ServerShutdownSnapshot) (s : State) : State :=
  mkState (st_host s) (running s) (lastErr s) (shutdownAt s) (shutdownMsg s) (serving s) (quit s) (stopped s)
    (stops s) (serve s) (doneCh s) (closed s) (a :: answers s).

(** The listener of this server, closed by whoever comes first. *)
Definition close_listener : Host → Host := λ h, (set_listening (filter (λ a, a ≠ rt_lis rt)) h).1.

(** [GracefulStop] begins, and a server that has [stopped]. *)
Definition grpc_quit (is_stopped : bool) (s : State) : State :=
  let s := with_host close_listener s in
  mkState (st_host s) (running s) (lastErr s) (shutdownAt s) (shutdownMsg s) (serving s) true (stopped s || is_stopped)
    (stops s) (serve s) (doneCh s) (closed s) (answers s).

(** ** Requests *)

Definition RequestServerShutdown (now : Z) (reason : string) (s : State) : State :=
  let reason := TrimSpace reason in
  let reason := if bool_decide (reason = "") then "admin_console_shutdown" else reason in
  if negb (running s) then
    answer (mkShutdown false false (unix_seconds now)
              (if negb (bool_decide (lastErr s = "")) then lastErr s else "server is not running")) s
  else
    match shutdownAt s with
    | Some inFlightAt =>
        answer (mkShutdown false true (unix_seconds inFlightAt)
                  (if bool_decide (shutdownMsg s = "") then "shutdown already in progress" else shutdownMsg s)) s
    | None =>
        let s := with_shutdown now reason s in
        let s := with_stops (stops s ++ [StSleep]) s in
        answer (mkShutdown true false (unix_seconds now) reason) s
    end.

(** ** Stop *)

(** The next state of a call of [Stop]; [timeout]: the wait has lasted too long. *)
Definition stop_step (timeout : bool) (pc : StopPc) (s : State) : option (StopPc * State) :=
  match pc with
  | StSleep => Some (StHealth, s)
  | StHealth => Some (StCheck, with_serving false s)
  | StCheck => if negb (running s) then Some (StEnd, s) else Some (StGraceful, s)
  | StGraceful => Some (StWait, grpc_quit false s)
  | StWait => if timeout then Some (StForce, s) else if stopped s then Some (StClose, s) else None
  | StForce => Some (StClose, grpc_quit true s)
  | StClose => Some (StEnd, with_host close_listener s)
  | StEnd => None
  end.

(** ** The goroutine of Serve *)

Definition run_action (a : CleanupAction) (s : State) : State :=
  match a with
  | SetNotServing => with_serving false s
  | CloseListener => with_host close_listener s
  | CloseBuildService => with_host (λ h, (close_service BuildCleanup h).1) s
  | RestoreLog => with_host (λ h, (restore_log (rt_restoreLog rt) h).1) s
  | CloseJanitor j => with_host (λ h, (close_service j h).1) s
  | ReleaseServiceLock => with_host (λ h, (on_files (Release flt (rt_serviceLock rt)) h).1) s
  | ReleaseDbLock => with_host (λ h, (on_files (Release flt (rt_dbLock rt)) h).1) s
  | CloseDatabase => with_host (λ h, (close_database (Sql (rt_database rt)) h).1) s
  | SetNotRunning => with_running false s
  end.

Definition serve_step (s : State) : option State :=
  match serve s with
  | SvServe => None
  | SvCleanup err (a :: todo) => Some (with_serve (SvCleanup err todo) (run_action a s))
  | SvCleanup err [] =>
      Some (match err with
            | Some e => if negb (isExpectedServerStop err) then with_serve (SvSetErr e) s else with_serve (SvSend None) s
            | None => with_serve (SvSend None) s
            end)
  | SvSetErr e => Some (with_serve (SvSend (Some e)) (with_lastErr (serve_text e) s))
  | SvSend err => Some (with_serve SvClose (with_done (Some err) (closed s) s))
  | SvClose => Some (with_serve SvDone (with_done (doneCh s) true s))
  | SvDone => None
  end.

(** ** Labels *)

Inductive Label :=
  | LRequest (now : Z) (reason : string)     (* a request to shut down *)
  | LSignal                                  (* a signal: a call of Stop *)
  | LOthers (t : OsState)                    (* the rest of the program changes files *)
  | LStop (i : nat) (timeout : bool)         (* a step of the [i]th call of Stop *)
  | LDrained                                 (* the running calls have ended *)
  | LServeReturns (err : option ServeError)  (* Serve returns *)
  | LServe.                                  (* a step of its goroutine *)

(** Steps that the server takes by itself. *)
Definition internal (l : Label) : bool :=
  match l with LRequest _ _ | LSignal | LOthers _ => false | _ => true end.

Definition serve_may_return (err : option ServeError) (s : State) : bool :=
  match serve s with
  | SvServe =>
      if quit s then stopped s && match err with None | Some ErrServerStopped => true | _ => false end
      else match err with Some (ErrOther _) | Some ErrClosed => true | _ => false end
  | _ => false
  end.

Definition with_files (t : OsState) (h : Host) : Host :=
  mkHost (Preflight.mkProc t (Preflight.pr_env (h_proc h))) (h_open h) (h_live h) (h_log h) (h_listening h).

Definition step (s : State) (l : Label) : option State :=
  match l with
  | LRequest now reason => Some (RequestServerShutdown now reason s)
  | LSignal => Some (with_stops (stops s ++ [StHealth]) s)
  | LOthers t => Some (with_host (with_files t) s)
  | LStop i timeout =>
      pc ← stops s !! i;
      '(pc', s') ← stop_step timeout pc s;
      Some (with_stops (<[i := pc']> (stops s')) s')
  | LDrained => if quit s && negb (stopped s) then Some (grpc_quit true s) else None
  | LServeReturns err =>
      if serve_may_return err s then Some (with_serve (SvCleanup err (cleanup_actions (rt_janitors rt))) s) else None
  | LServe => serve_step s
  end.

(** The state that [Start] answers. *)
Definition started_state (h : Host) : State :=
  mkState h true "" None "" true false false [] SvServe None false [].

(** Runs; what others do to files is restricted by [allowed]. *)
Inductive run (allowed : OsState → OsState → Prop) : State → list Label → State → Prop :=
| run_nil s : run allowed s [] s
| run_cons s l s1 ls s2 :
    step s l = Some s1 →
    (∀ t, l = LOthers t → allowed (Preflight.pr_tree (h_proc (st_host s))) t) →
    run allowed s1 ls s2 → run allowed s (l :: ls) s2.

(** ** Questions *)

(** [Wait], once the channel has something to say. *)
Definition Wait (s : State) : option (option ServeError) :=
  match doneCh s with Some v => Some v | None => if closed s then Some None else None end.

Definition EnsureHealthy (s : State) : result goerr unit :=
  if negb (running s) then
    Err (ErrNew (if negb (bool_decide (lastErr s = "")) then lastErr s else "server is not running"))
  else Ok tt.
End life.
End RuntimeLife.
