(* ===== verification/RuntimeLifeTheorems.v ===== *)
(** * The life of a started server: theorems

    However requests, signals and failures of Serve interleave: one request to
    shut down is accepted, at most; once the server is told to stop, it takes a
    bounded number of steps of its own until it has given back what [Start]
    acquired, and [Wait] returns. *)

From S2P Require Import Prelude GoStrings FsPath OsFs World Frames Artifacts ExclFiles GoTime Janitor Security AppConfig Sqlite Maintenance Preflight Runtime RuntimeStart RuntimeLife.
Open Scope string_scope.
Open Scope Z_scope.
Open Scope list_scope.

Module RuntimeLifeTheorems.
Import Sqlite Preflight Runtime RuntimeStart RuntimeLife.

Section life.
Context `{GoUnicode} `{!Engine} (flt : Faults) (rt : Runtime).
Implicit Types s : State.

Ltac fields := cbn [st_host running lastErr shutdownAt shutdownMsg serving quit stopped stops serve doneCh closed answers
  with_host with_running with_lastErr with_shutdown with_serving with_stops with_serve with_done answer grpc_quit] in *.

(** The fields that an action of the cleanup leaves alone. *)
Record quiet (s s' : State) : Prop := {
  qu_lastErr : lastErr s' = lastErr s;
  qu_shutdownAt : shutdownAt s' = shutdownAt s;
  qu_shutdownMsg : shutdownMsg s' = shutdownMsg s;
  qu_quit : quit s' = quit s;
  qu_stopped : stopped s' = stopped s;
  qu_stops : stops s' = stops s;
  qu_serve : serve s' = serve s;
  qu_done : doneCh s' = doneCh s;
  qu_closed : closed s' = closed s;
  qu_answers : answers s' = answers s;
}.

Lemma run_action_quiet a s : quiet s (run_action flt rt a s).
Proof. by destruct a. Qed.

Lemma run_action_running a s : running (run_action flt rt a s) = if decide (a = SetNotRunning) then false else running s.
Proof. by destruct a. Qed.

Lemma run_action_serving a s : serving (run_action flt rt a s) = if decide (a = SetNotServing) then false else serving s.
Proof. by destruct a. Qed.

(** ** Requests *)

(** At most one request has been accepted, and everybody who asked while it was
    in progress was told so. *)
Record answers_ok (s : State) : Prop := {
  an_once : length (filter (λ a, Accepted a = true) (answers s)) = if shutdownAt s is Some _ then 1%nat else 0%nat;
  an_same : Forall (λ a, (Accepted a = true ∨ AlreadyInProgress a = true) →
              ∃ t, shutdownAt s = Some t ∧ RequestedAtUnix a = unix_seconds t) (answers s);
  an_stops : shutdownAt s ≠ None → stops s ≠ [];
  an_either : Forall (λ a, Accepted a = true → AlreadyInProgress a = false) (answers s);
}.

Lemma answers_quiet s s' :
  shutdownAt s' = shutdownAt s → answers s' = answers s → (stops s ≠ [] → stops s' ≠ []) → answers_ok s → answers_ok s'.
Proof. intros E1 E2 E3 [A1 A2 A3 A4]. split; rewrite ?E1, ?E2; auto. Qed.

Lemma request_ok now reason s : answers_ok s → answers_ok (RequestServerShutdown now reason s).
Proof.
  intros [A1 A2 A3 A4]. unfold RequestServerShutdown. cbn zeta. destruct (running s); cbn [negb].
  - destruct (shutdownAt s) as [t|] eqn:Et.
    + split; fields; [rewrite Et in *|rewrite Et in *; constructor; [|done]|by rewrite Et in *|by constructor].
      * rewrite filter_cons_False by done. done.
      * intros _. by exists t.
    + split; fields.
      * rewrite filter_cons_True by done. cbn [length]. by rewrite A1.
      * constructor; [intros _; by eexists|]. eapply Forall_impl; [exact A2|]. cbn beta. intros a Ha Hp.
        destruct (Ha Hp) as (t & ? & _). congruence.
      * intros _ E. by destruct (stops s).
      * by constructor.
  - split; fields; [|constructor; [intros []; discriminate|exact A2]|exact A3|by constructor]. by rewrite filter_cons_False by done.
Qed.

Lemma stop_step_answers timeout pc s pc' s' :
  stop_step rt timeout pc s = Some (pc', s') →
  shutdownAt s' = shutdownAt s ∧ answers s' = answers s ∧ stops s' = stops s ∧ serve s' = serve s ∧
  running s' = running s ∧ lastErr s' = lastErr s ∧ doneCh s' = doneCh s ∧ closed s' = closed s ∧
  (quit s = true → quit s' = true) ∧ (stopped s = true → stopped s' = true) ∧ (serving s = false → serving s' = false).
Proof.
  destruct pc; cbn [stop_step]; [by intros [= <- <-]..| | | | | |done].
  - destruct (negb (running s)); by intros [= <- <-].
  - intros [= <- <-]. fields. split_and!; try done. by intros ->.
  - destruct timeout; [by intros [= <- <-]|]. destruct (stopped s) eqn:E; [|done]. intros [= <- <-]. by rewrite E.
  - intros [= <- <-]. fields. split_and!; try done. by rewrite orb_true_r.
  - by intros [= <- <-].
Qed.

Lemma insert_not_nil {A} i (x : A) l : l ≠ [] → <[i := x]> l ≠ [].
Proof. destruct l; [done|]. by destruct i. Qed.

Lemma step_answers s l s' : answers_ok s → step flt rt s l = Some s' → answers_ok s'.
Proof.
  intros Hok. destruct l as [now reason| |t|i timeout| |err|]; cbn [step].
  - intros [= <-]. by apply request_ok.
  - intros [= <-]. apply (answers_quiet s); [done|done| |done]. fields. intros _ E. by destruct (stops s).
  - intros [= <-]. by apply (answers_quiet s).
  - destruct (stops s !! i) as [pc|]; [|done]. cbn [mbind option_bind].
    destruct (stop_step rt timeout pc s) as [[pc' s1]|] eqn:E; [|done]. intros [= <-].
    apply stop_step_answers in E as (E1 & E2 & E3 & _). apply (answers_quiet s); [done|done| |done].
    fields. rewrite E3. apply insert_not_nil.
  - destruct (_ && _); [|done]. intros [= <-]. by apply (answers_quiet s).
  - destruct (serve_may_return err s); [|done]. intros [= <-]. by apply (answers_quiet s).
  - unfold serve_step. destruct (serve s) as [|err [|a todo]|e|err| |]; [done| | | | | |done].
    + intros [= <-]. apply (answers_quiet s); [..|done]; destruct err as [e|]; try done; by destruct (negb _).
    + intros [= <-]. destruct (run_action_quiet a s). apply (answers_quiet s); [done|done| |done]. fields. by rewrite qu_stops0.
    + intros [= <-]. by apply (answers_quiet s).
    + intros [= <-]. by apply (answers_quiet s).
    + intros [= <-]. by apply (answers_quiet s).
Qed.

(** ** Where the goroutines stand *)

(** What is left of the cleanup. *)
Definition rest (s : State) : list CleanupAction :=
  match serve s with
  | SvServe => cleanup_actions (rt_janitors rt)
  | SvCleanup _ todo => todo
  | _ => []
  end.

Definition unexpected (e : ServeError) : Prop := isExpectedServerStop (Some e) = false.

Record threads_ok (s : State) : Prop := {
  th_serving : serve s = SvServe → running s = true;
  th_running : SetNotRunning ∉ rest s → running s = false;
  th_health : SetNotServing ∉ rest s → serving s = false;
  th_quit : stopped s = true → quit s = true;
  th_wait pc : pc ∈ stops s → pc = StWait ∨ pc = StForce → quit s = true;
  th_close : StClose ∈ stops s → stopped s = true;
  th_end : StEnd ∈ stops s → stopped s = true ∨ serve s ≠ SvServe;
  th_sent : serve s = SvClose ∨ serve s = SvDone → doneCh s ≠ None;
  th_closed : serve s = SvDone → closed s = true;
  th_seterr e : serve s = SvSetErr e → unexpected e;
  th_send e : serve s = SvSend (Some e) → unexpected e ∧ lastErr s = serve_text e;
  th_done e : doneCh s = Some (Some e) → unexpected e ∧ lastErr s = serve_text e;
  th_empty : serve s = SvServe ∨ (∃ err todo, serve s = SvCleanup err todo) ∨ (∃ e, serve s = SvSetErr e) → doneCh s = None;
}.

Lemma started_ok h : threads_ok (started_state h).
Proof.
  split; cbn [started_state running serving stopped quit stops serve doneCh closed lastErr]; try done; try (by intros [|]).
  - intros Hn. exfalso. apply Hn. unfold rest. cbn. rewrite !elem_of_cons, elem_of_app, !elem_of_cons. tauto.
  - intros Hn. exfalso. apply Hn. by left.
  - by intros pc ?%elem_of_nil.
  - by intros ?%elem_of_nil.
  - by intros ?%elem_of_nil.
Qed.

(** A change that only adds calls of Stop that have not begun. *)
Lemma threads_request s s' :
  serve s' = serve s → running s' = running s → serving s' = serving s → quit s' = quit s → stopped s' = stopped s →
  lastErr s' = lastErr s → doneCh s' = doneCh s → closed s' = closed s →
  (∀ pc, pc ∈ stops s' → pc ∈ stops s ∨ pc = StSleep ∨ pc = StHealth) → threads_ok s → threads_ok s'.
Proof.
  intros E1 E2 E3 E4 E5 E6 E7 E8 Hst [].
  split; unfold rest in *; rewrite ?E1, ?E2, ?E3, ?E4, ?E5, ?E6, ?E7, ?E8; try done.
  - intros pc [Hin|[-> | ->]]%Hst; [by eauto|by intros [|]..].
  - intros [Hin|[|]]%Hst; by eauto.
  - intros [Hin|[|]]%Hst; by eauto.
Qed.

Lemma threads_stop s i timeout pc pc' s1 :
  threads_ok s → stops s !! i = Some pc → stop_step rt timeout pc s = Some (pc', s1) →
  threads_ok (with_stops (<[i := pc']> (stops s1)) s1).
Proof.
  intros Hok Hi Hs. pose proof (stop_step_answers _ _ _ _ _ Hs) as (_ & _ & Es & Ev & Er & El & Ed & Ec & Mq & Ms & Mh).
  assert (∀ x, x ∈ <[i := pc']> (stops s1) → x ∈ stops s ∨ x = pc') as Hin.
  { intros x. rewrite Es. intros [j Hj]%list_elem_of_lookup. destruct (decide (j = i)) as [->|Hne].
    - right. rewrite list_lookup_insert_eq in Hj by (by eapply lookup_lt_Some). congruence.
    - left. rewrite list_lookup_insert_ne in Hj by done. apply list_elem_of_lookup. by exists j. }
  assert (pc ∈ stops s) as Hpc by (apply list_elem_of_lookup; by exists i).
  destruct Hok. split; fields; unfold rest in *; fields; rewrite ?Ev, ?Er, ?El, ?Ed, ?Ec; try done; try (by auto).
  - intros Hst. destruct (stopped s) eqn:E; [by auto|]. destruct pc; cbn [stop_step] in Hs;
      repeat case_match; simplify_eq; fields; congruence.
  - intros x [Hx| ->]%Hin Hw; [by eauto|].
    assert (pc = StWait → quit s = true) as Hq by (intros ->; eauto).
    clear -Hs Hw Hq. destruct pc; cbn [stop_step] in Hs; repeat case_match; simplify_eq; fields; first [done|by destruct Hw|by rewrite Hq].
  - intros [Hx|Hx]%Hin; [by auto|].
    destruct pc; cbn [stop_step] in Hs; repeat case_match; simplify_eq; fields; first [done|by rewrite orb_true_r].
  - intros [Hx|Hx]%Hin; [destruct (th_end0 Hx); [left; auto|by right]|].
    clear th_running0 th_health0.
    destruct pc; cbn [stop_step] in Hs; repeat case_match; simplify_eq; fields; [right|left; by apply th_close0].
    intros Hv. apply th_serving0 in Hv as Hr. by rewrite Hr in *.
Qed.

Ltac threads_tac :=
  split; fields; unfold rest; fields; try done; try (by auto); try (by intros [|]); try (by right);
  try (by intros ? [= <-]; auto); try (by intros ? [= ->]; auto);
  try (by intros [|[(? & ? & ?)|(? & ?)]]); try (by eauto 6).

Lemma threads_step s l s' : threads_ok s → step flt rt s l = Some s' → threads_ok s'.
Proof.
  intros Hok. destruct l as [now reason| |t|i timeout| |err|]; cbn [step].
  - intros [= <-]. unfold RequestServerShutdown. cbn zeta.
    destruct (negb (running s)); [|destruct (shutdownAt s)]; (apply (threads_request s); [..|done]); try done; fields; try (by left).
    intros pc [?|[->|[]%elem_of_nil]%elem_of_cons]%elem_of_app; auto.
  - intros [= <-]. apply (threads_request s); [..|done]; try done. fields.
    intros pc [?|[->|[]%elem_of_nil]%elem_of_cons]%elem_of_app; auto.
  - intros [= <-]. apply (threads_request s); [..|done]; try done. by left.
  - destruct (stops s !! i) as [pc|] eqn:Ei; [|done]. cbn [mbind option_bind].
    destruct (stop_step rt timeout pc s) as [[pc' s1]|] eqn:E; [|done]. intros [= <-]. by eapply threads_stop.
  - destruct (quit s && _) eqn:E; [|done]. apply andb_true_iff in E as [Eq _]. intros [= <-]. destruct Hok.
    split; fields; try done; unfold rest in *; fields; try done.
    + intros _. by rewrite orb_true_r.
    + intros _. left. by rewrite orb_true_r.
  - destruct (serve_may_return err s) eqn:E; [|done]. intros [= <-]. unfold serve_may_return in E.
    destruct (serve s) eqn:Ev; try done. destruct Hok. unfold rest in *. rewrite Ev in *.
    split; fields; unfold rest; fields; try done; try (by auto); try (by intros [|]).
  - unfold serve_step. destruct (serve s) as [|err [|a todo]|e|err| |] eqn:Ev; [done| | | | | |done].
    + intros [= <-]. destruct Hok. unfold rest in *. rewrite Ev in *.
      destruct err as [e|]; [destruct (isExpectedServerStop (Some e)) eqn:Ex; cbn [negb]|]; threads_tac.
    + intros [= <-]. destruct (run_action_quiet a s). pose proof (run_action_running a s) as Er.
      pose proof (run_action_serving a s) as Eh. destruct Hok. unfold rest in *. rewrite Ev in *.
      split; fields; unfold rest; fields;
        rewrite ?qu_stops0, ?qu_quit0, ?qu_stopped0, ?qu_lastErr0, ?qu_done0, ?qu_closed0; try done; try (by auto).
      * intros Hn. rewrite Er. destruct (decide (a = SetNotRunning)) as [|Ha]; [done|].
        apply th_running0. apply not_elem_of_cons. by split; [apply not_eq_sym|].
      * intros Hn. rewrite Eh. destruct (decide (a = SetNotServing)) as [|Ha]; [done|].
        apply th_health0. apply not_elem_of_cons. by split; [apply not_eq_sym|].
      * by intros [|].
      * intros _. apply th_empty0. right. left. by eexists _, _.
    + intros [= <-]. destruct Hok. unfold rest in *. rewrite Ev in *. threads_tac.
      intros e' Hd. rewrite th_empty0 in Hd by eauto. done.
    + intros [= <-]. destruct Hok. unfold rest in *. rewrite Ev in *. threads_tac.
    + intros [= <-]. destruct Hok. unfold rest in *. rewrite Ev in *. threads_tac.
Qed.

(** ** Progress *)

Definition stop_weight (pc : StopPc) : nat :=
  match pc with
  | StSleep => 7 | StHealth => 6 | StCheck => 5 | StGraceful => 4 | StWait => 3 | StForce => 2 | StClose => 1 | StEnd => 0
  end.
Definition serve_weight (pc : ServePc) : nat :=
  match pc with
  | SvServe => length (cleanup_actions (rt_janitors rt)) + 6
  | SvCleanup _ todo => length todo + 5
  | SvSetErr _ => 3 | SvSend _ => 2 | SvClose => 1 | SvDone => 0
  end.
(** How many steps the server may still take by itself. *)
Definition measure (s : State) : nat :=
  sum_list_with stop_weight (stops s) + serve_weight (serve s) + (if stopped s then 0 else 1).

Lemma sum_insert {A} (f : A → nat) l i x y :
  l !! i = Some x → (sum_list_with f (<[i := y]> l) + f x = sum_list_with f l + f y)%nat.
Proof.
  revert i. induction l as [|z l IH]; intros [|i]; simpl; try done.
  - intros [= ->]. lia.
  - intros Hi. specialize (IH i Hi). simpl in IH. lia.
Qed.

Lemma internal_decreases s l s' :
  internal l = true → step flt rt s l = Some s' → (measure s' < measure s)%nat.
Proof.
  unfold measure. destruct l as [now reason| |t|i timeout| |err|]; cbn [internal step]; intros Hin; try done; clear Hin.
  - destruct (stops s !! i) as [pc|] eqn:Ei; [|done]. cbn [mbind option_bind].
    destruct (stop_step rt timeout pc s) as [[pc' s1]|] eqn:E; [|done]. intros [= <-]. fields.
    pose proof (stop_step_answers _ _ _ _ _ E) as (_ & _ & Es & Ev & _ & _ & _ & _ & _ & Ms & _).
    rewrite Es, Ev. pose proof (sum_insert stop_weight _ _ _ pc' Ei) as Hs.
    assert ((stop_weight pc' < stop_weight pc)%nat) as Hw.
    { clear -E. destruct pc; cbn [stop_step] in E; repeat case_match; simplify_eq; cbn; lia. }
    destruct (stopped s); [rewrite Ms by done; lia|]. destruct (stopped s1); lia.
  - destruct (quit s && negb (stopped s)) eqn:E; [|done]. intros [= <-]. fields.
    apply andb_true_iff in E as [_ E]. destruct (stopped s); [done|]. cbn [orb]. lia.
  - destruct (serve_may_return err s) eqn:E; [|done]. intros [= <-]. fields. unfold serve_may_return in E.
    destruct (serve s); [|done..]. cbn [serve_weight]. lia.
  - unfold serve_step. destruct (serve s) as [|err [|a todo]|e|err| |] eqn:Ev; [done| | | | | |done].
    + intros [= <-]. destruct err as [e|]; [destruct (negb _)|]; fields; cbn [serve_weight length]; lia.
    + intros [= <-]. destruct (run_action_quiet a s). fields. rewrite qu_stops0, qu_stopped0. cbn [serve_weight length]. lia.
    + intros [= <-]. fields. cbn [serve_weight]. lia.
    + intros [= <-]. fields. cbn [serve_weight]. lia.
    + intros [= <-]. fields. cbn [serve_weight]. lia.
Qed.

(** Told to stop, and done. *)
Definition stopping (s : State) : Prop := stops s ≠ [] ∨ serve s ≠ SvServe.

(** Told to stop, the server has a step to take until it is done: a call of
    Stop that waits for the running calls gives up waiting. *)
Lemma progress s :
  threads_ok s → stopping s → serve s = SvDone ∨ ∃ l s', internal l = true ∧ step flt rt s l = Some s'.
Proof.
  intros Hok Hst. destruct (serve s) as [|err todo|e|err| |] eqn:Hv; [|right; exists LServe; cbn [step internal]; unfold serve_step;
    rewrite Hv; eauto..|by left].
  2:{ destruct todo; eauto. }
  right. destruct (stopped s) eqn:Hs.
  { exists (LServeReturns None). cbn [step internal]. unfold serve_may_return. rewrite Hv, (th_quit s Hok Hs), Hs. eauto. }
  destruct Hst as [Hne|]; [|done]. exists (LStop 0 true). cbn [step internal].
  destruct (stops s) as [|pc l] eqn:Es; [done|]. cbn [lookup list_lookup mbind option_bind].
  destruct pc; cbn [stop_step mbind option_bind]; eauto.
  - destruct (negb (running s)); eauto.
  - destruct (th_end s Hok) as [Hs'|Hs']; [rewrite Es; by left|congruence|by rewrite Hv in Hs'].
Qed.

Lemma stopping_step s l s' : stopping s → step flt rt s l = Some s' → stopping s'.
Proof.
  unfold stopping. intros Hst. destruct l as [now reason| |t|i timeout| |err|]; cbn [step].
  - intros [= <-]. unfold RequestServerShutdown. cbn zeta.
    destruct (negb (running s)); [done|destruct (shutdownAt s); [done|]]. fields. left. by destruct (stops s).
  - intros [= <-]. fields. left. by destruct (stops s).
  - by intros [= <-].
  - destruct (stops s !! i) as [pc|] eqn:Ei; [|done]. cbn [mbind option_bind].
    destruct (stop_step rt timeout pc s) as [[pc' s1]|] eqn:E; [|done]. intros [= <-].
    apply stop_step_answers in E as (_ & _ & Es & _). fields. left. rewrite Es. apply insert_not_nil. intros E. by rewrite E in Ei.
  - destruct (_ && _); [|done]. by intros [= <-].
  - destruct (serve_may_return err s); [|done]. intros [= <-]. by right.
  - unfold serve_step. destruct (serve s) as [|err [|a todo]|e|err| |]; [done| | | | | |done]; intros [= <-]; right; fields; try done.
    destruct err as [e|]; [|done]. by destruct (negb _).
Qed.

Lemma run_app (al : OsState → OsState → Prop) s ls s1 ls1 s2 : run flt rt al s ls s1 → run flt rt al s1 ls1 s2 → run flt rt al s (ls ++ ls1) s2.
Proof. induction 1; [done|]. intros Hr. cbn [app]. econstructor; eauto. Qed.

Lemma internal_run_bound (al : OsState → OsState → Prop) s ls s' :
  run flt rt al s ls s' → Forall (λ l, internal l = true) ls → (length ls + measure s' ≤ measure s)%nat.
Proof.
  induction 1 as [s|s l s1 ls s2 Hs _ _ IH]; intros Hin; [cbn; lia|]. apply Forall_cons in Hin as [Hl Hls].
  apply (internal_decreases _ _ _ Hl) in Hs. specialize (IH Hls). cbn [length]. lia.
Qed.

Lemma run_threads (al : OsState → OsState → Prop) s ls s' : run flt rt al s ls s' → threads_ok s → threads_ok s'.
Proof. induction 1 as [|s l s1 ls s2 Hs _ _ IH]; [done|]. intros Hok. by apply IH, (threads_step s l s1). Qed.
Lemma run_stopping (al : OsState → OsState → Prop) s ls s' : run flt rt al s ls s' → stopping s → stopping s'.
Proof. induction 1 as [|s l s1 ls s2 Hs _ _ IH]; [done|]. intros Hst. by apply IH, (stopping_step s l s1). Qed.

(** The server comes to its end by its own steps. *)
Lemma run_to_done (al : OsState → OsState → Prop) s :
  threads_ok s → stopping s → ∃ ls s', Forall (λ l, internal l = true) ls ∧ run flt rt al s ls s' ∧ serve s' = SvDone.
Proof.
  remember (measure s) as n eqn:En. revert s En. induction (lt_wf n) as [n _ IH]. intros s -> Hok Hst.
  destruct (progress s Hok Hst) as [Hd|(l & s1 & Hl & Hs)].
  { exists [], s. split_and!; [constructor|constructor|done]. }
  destruct (IH (measure s1) (internal_decreases _ _ _ Hl Hs) s1 eq_refl) as (ls & s2 & Hls & Hr & Hd);
    [by eapply threads_step|by eapply stopping_step|].
  exists (l :: ls), s2. split_and!; [by constructor| |done]. econstructor; [done| |done]. intros t ->. done.
Qed.

Lemma measure_bound s : (length (rest s) ≤ 13)%nat → (measure s ≤ 7 * length (stops s) + 20)%nat.
Proof.
  intros Hj. unfold measure.
  assert ((sum_list_with stop_weight (stops s) ≤ 7 * length (stops s))%nat) as Hs.
  { induction (stops s) as [|pc l IH]; [done|]. change (stop_weight pc + sum_list_with stop_weight l ≤ 7 * S (length l))%nat.
    assert (stop_weight pc ≤ 7)%nat by (destruct pc; cbn; lia). lia. }
  assert (serve_weight (serve s) ≤ length (rest s) + 6)%nat as Hv
    by (unfold rest; destruct (serve s); cbn [serve_weight length]; lia).
  destruct (stopped s); lia.
Qed.

(** C19: One shutdown, however many ask for it.  In every run of a started
    server, whatever the requests, the signals and the errors of Serve, at most
    one request to shut down has been accepted, it has started a call of Stop,
    and everybody who asked while it was in progress was answered with the time
    of the request that was accepted. *)
Theorem one_shutdown_accepted (al : OsState → OsState → Prop) h ls s :
  run flt rt al (started_state h) ls s →
  (length (filter (λ a, Accepted a = true) (answers s)) ≤ 1)%nat ∧
  (∀ a, a ∈ answers s → Accepted a = true ∨ AlreadyInProgress a = true →
     stops s ≠ [] ∧ ∃ b, b ∈ answers s ∧ Accepted b = true ∧ RequestedAtUnix a = RequestedAtUnix b) ∧
  (∀ a, a ∈ answers s → Accepted a = true → AlreadyInProgress a = false).
Proof.
  intros Hr. assert (answers_ok s) as [A1 A2 A3 A4].
  { assert (answers_ok (started_state h)) as Hstart by (split; [done|constructor|done|constructor]).
    revert Hstart. induction Hr as [|s l s1 ls s2 Hs _ _ IH]; [done|]. intros Hok. by apply IH, (step_answers s l s1). }
  split_and!.
  - rewrite A1. destruct (shutdownAt s); lia.
  - intros a Ha Hp. rewrite Forall_forall in A2. destruct (A2 a Ha Hp) as (t & Ht & Ea). rewrite Ht in A1.
    split; [apply A3; by rewrite Ht|].
    destruct (filter _ (answers s)) as [|b l] eqn:Ef; [done|].
    assert (b ∈ filter (λ a, Accepted a = true) (answers s)) as Hb by (rewrite Ef; by left).
    apply list_elem_of_filter in Hb as [Hb1 Hb2]. exists b. split_and!; [done..|].
    destruct (A2 b Hb2 (or_introl Hb1)) as (t' & Ht' & Eb). rewrite Ea, Eb. congruence.
  - rewrite Forall_forall in A4. exact A4.
Qed.
End life.

End RuntimeLifeTheorems.
