(* ===== verification/RuntimeShutdown.v ===== *)
(** * The end of a started server: theorems

    What the cleanup has given back after each of its actions, whatever the
    other goroutines do in between, and what is left of a server that was told
    to stop. *)

From S2P Require Import Prelude GoStrings FsPath OsFs World Frames Artifacts ExclFiles GoTime Janitor Security AppConfig Sqlite Maintenance Preflight Runtime RuntimeStart RuntimeLife RuntimeLifeTheorems.
Open Scope string_scope.
Open Scope Z_scope.
Open Scope list_scope.

Module RuntimeShutdown.
Import Sqlite Preflight Runtime RuntimeStart RuntimeLife RuntimeLifeTheorems.

Ltac fields := cbn [st_host running lastErr shutdownAt shutdownMsg serving quit stopped stops serve doneCh closed answers
  with_host with_running with_lastErr with_shutdown with_serving with_stops with_serve with_done answer grpc_quit] in *.

(** ** What the cleanup gives back *)

Section given_back.
Context `{WorkDir} `{LocalZone} `{GoUnicode} `{SortSlice} `{EngineLaws} `{OsExec} `{Network} `{TLS.X509}.
Context (flt : Faults) (dir_size : Z) (cfg : AppConfig.Config) (HL : layout cfg).
Context (Fs : flt "remove" (lock_file (service_resource cfg)) = None) (Fd : flt "remove" (lock_file (db_path cfg)) = None).
Context (h0 h1 : Host) (rt : Runtime) (Hrun : running_server flt dir_size cfg h0 h1 rt).
Implicit Types s : State.

Abbreviation actions := (cleanup_actions (rt_janitors rt)).

Lemma actions_once : NoDup actions.
Proof.
  rewrite (rn_janitors _ _ _ _ _ _ Hrun). unfold janitors, service_of.
  destruct (artifact_janitor cfg), (conflict_janitor cfg), (log_janitor cfg); by apply (bool_decide_unpack _).
Qed.

Definition closes (a : CleanupAction) : option Service :=
  match a with CloseBuildService => Some BuildCleanup | CloseJanitor j => Some j | _ => None end.

(** A lock file that is held until its release, and gone then. *)
Definition lock_after (pre : list CleanupAction) (a : CleanupAction) (k : list string) (t : OsState) : Prop :=
  if decide (a ∈ pre) then ¬ is_file t k else locked t k.

Abbreviation unlistened l := (filter (λ a, a ≠ rt_lis rt) l).

(** The process after the actions [pre] of the cleanup. *)
Record given_back (pre : list CleanupAction) (h : Host) : Prop := {
  gb_live : h_live h = filter (λ x, x ∉ omap closes pre) (h_live h1);
  gb_open : h_open h = if decide (CloseDatabase ∈ pre) then drop 1 (h_open h1) else h_open h1;
  gb_log : h_log h = if decide (RestoreLog ∈ pre) then restored (rt_restoreLog rt) (h_log h1) else h_log h1;
  gb_listening : h_listening h = h_listening h1 ∨ h_listening h = unlistened (h_listening h1);
  gb_closed : CloseListener ∈ pre → h_listening h = unlistened (h_listening h1);
  gb_service : lock_after pre ReleaseServiceLock (lock_key (service_resource cfg)) (tree h);
  gb_db : lock_after pre ReleaseDbLock (lock_key (db_path cfg)) (tree h);
}.

Lemma given_back_start : given_back [] h1.
Proof.
  destruct (rn_held _ _ _ _ _ _ Hrun) as [L1 L2].
  split; [|done|done|by left|by intros ?%elem_of_nil|exact L1|exact L2].
  symmetry. apply filter_all. intros x. apply not_elem_of_nil.
Qed.

Lemma unlistened_twice (l : list string) : unlistened (unlistened l) = unlistened l.
Proof. rewrite list_filter_filter. apply list_filter_iff. naive_solver. Qed.

Lemma given_back_listener pre h : given_back pre h → given_back pre (close_listener rt h).
Proof.
  intros [G1 G2 G3 G4 G5 G6 G7].
  assert (h_listening (close_listener rt h) = unlistened (h_listening h1)) as E.
  { cbn. destruct G4 as [-> | ->]; [done|apply unlistened_twice]. }
  split; [done..|by right|done|done|done].
Qed.

Lemma lock_after_undisturbed pre a k K t t' :
  undisturbed K t t' → k ∈ K → lock_after pre a k t → lock_after pre a k t'.
Proof.
  intros Hu Hk. unfold lock_after. case_decide; [by rewrite (un_file _ _ _ Hu k Hk)|].
  intros (c & mt & Hl). by eapply undisturbed_lookup.
Qed.

Lemma given_back_files pre h t :
  undisturbed (lock_keys cfg) (tree h) t → given_back pre h → given_back pre (with_files t h).
Proof.
  intros Hu [G1 G2 G3 G4 G5 G6 G7]. split; try done.
  - eapply lock_after_undisturbed; [exact Hu|by left|done].
  - eapply lock_after_undisturbed; [exact Hu|by right; left|done].
Qed.

Lemma in_snoc (a b : CleanupAction) pre : a ∈ pre ++ [b] ↔ a ∈ pre ∨ a = b.
Proof. by rewrite elem_of_app, list_elem_of_singleton. Qed.

(** A lock that somebody else releases. *)
Lemma lock_after_snoc pre a b k t : b ≠ a → lock_after (pre ++ [b]) a k t ↔ lock_after pre a k t.
Proof. intros Hne. unfold lock_after. do 2 case_decide; rewrite in_snoc in *; naive_solver. Qed.

Lemma decide_snoc {X} (a b : CleanupAction) pre (x y : X) : b ≠ a →
  (if decide (a ∈ pre ++ [b]) then x else y) = (if decide (a ∈ pre) then x else y).
Proof. intros Hne. do 2 case_decide; rewrite in_snoc in *; naive_solver. Qed.

(** An action that only closes a service, or none. *)
Lemma given_back_live pre h f a :
  closes a = f → (f = None → True) → a ≠ CloseDatabase → a ≠ RestoreLog → a ≠ CloseListener →
  a ≠ ReleaseServiceLock → a ≠ ReleaseDbLock → given_back pre h →
  given_back (pre ++ [a])
    (mkHost (h_proc h) (h_open h) (match f with Some sv => filter (λ x : Service, x ≠ sv) (h_live h) | None => h_live h end)
       (h_log h) (h_listening h)).
Proof.
  intros Hf _ N1 N2 N3 N4 N5 [G1 G2 G3 G4 G5 G6 G7]. split; cbn [h_live h_open h_log h_listening].
  - rewrite omap_app. cbn [omap list_omap]. rewrite Hf. destruct f as [sv|]; [|by rewrite app_nil_r].
    rewrite G1, list_filter_filter. apply list_filter_iff. intros x. rewrite elem_of_app, list_elem_of_singleton. naive_solver.
  - by rewrite decide_snoc.
  - by rewrite decide_snoc.
  - done.
  - rewrite in_snoc. naive_solver.
  - by apply lock_after_snoc.
  - by apply lock_after_snoc.
Qed.

(** An action that gives nothing back. *)
Lemma given_back_none pre h a :
  a = SetNotServing ∨ a = SetNotRunning → given_back pre h → given_back (pre ++ [a]) h.
Proof.
  intros Ha Hg.
  assert (given_back (pre ++ [a]) (mkHost (h_proc h) (h_open h) (h_live h) (h_log h) (h_listening h))) as Hg'
    by (by destruct Ha as [-> | ->]; apply (given_back_live pre h None)).
  by destruct h.
Qed.

(** The release of one lock, with the lock of the other resource apart. *)
Lemma release_step l k other h :
  lock_path l ≠ "" → path_key (lock_path l) = k → flt "remove" (lock_path l) = None → k ≠ [] → apart [k] [other] →
  locked (tree h) k →
  ∃ t, (on_files (Release flt l) h).1 = with_tree t h ∧ ¬ is_file t k ∧ undisturbed [other] (tree h) t.
Proof.
  intros Hne <- Hf Hk Ha (c & mt & Hl). rewrite on_files_eq, (release_held flt l (tree h) c mt) by done.
  eexists. split; [reflexivity|]. split.
  - intros (c' & mt' & Hn). by rewrite node_at_delete_eq in Hn.
  - apply (frame_undisturbed [path_key (lock_path l)] []); [done|apply frame_delete].
Qed.

(** One action of the cleanup. *)
Lemma given_back_action pre a todo s :
  actions = pre ++ a :: todo → given_back pre (st_host s) → given_back (pre ++ [a]) (st_host (run_action flt rt a s)).
Proof.
  intros Hact Hg. assert (a ∉ pre) as Hnew.
  { pose proof actions_once as Hnd. rewrite Hact in Hnd. apply NoDup_app in Hnd as (_ & Hd & _).
    intros Hin. apply (Hd a Hin). by left. }
  set (h := st_host s) in *. pose proof Hg as [G1 G2 G3 G4 G5 G6 G7].
  pose proof (rn_locks _ _ _ _ _ _ Hrun) as [P1 P2 P3 P4].
  assert (lock_key (service_resource cfg) ≠ [] ∧ lock_key (db_path cfg) ≠ []) as [K1 K2].
  { split; intros E.
    - apply (ly_service_db _ HL [] (lock_key (db_path cfg))); [rewrite E; by left|by left|apply prefix_nil].
    - apply (ly_db_service _ HL [] (lock_key (service_resource cfg))); [rewrite E; by left|by left|apply prefix_nil]. }
  destruct a as [| | | |j| | | |]; cbn [run_action with_host with_serving with_running st_host]; fold h.
  - apply given_back_none; [by left|done].
  - assert (h_listening (close_listener rt h) = unlistened (h_listening h1)) as E.
    { cbn. destruct G4 as [-> | ->]; [done|apply unlistened_twice]. }
    split; cbn [close_listener set_listening go_modify fst h_live h_open h_log].
    + rewrite omap_app, app_nil_r. exact G1.
    + by rewrite decide_snoc.
    + by rewrite decide_snoc.
    + by right.
    + done.
    + by apply lock_after_snoc.
    + by apply lock_after_snoc.
  - by apply (given_back_live pre h (Some BuildCleanup)).
  - rewrite restore_log_eq. cbn [fst]. split; cbn [h_live h_open h_log h_listening].
    + rewrite omap_app, app_nil_r. exact G1.
    + by rewrite decide_snoc.
    + rewrite (decide_True _ _ (proj2 (in_snoc RestoreLog RestoreLog pre) (or_intror eq_refl))).
      by rewrite G3, decide_False.
    + done.
    + rewrite in_snoc. naive_solver.
    + by apply lock_after_snoc.
    + by apply lock_after_snoc.
  - by apply (given_back_live pre h (Some j)).
  - unfold lock_after in G6. rewrite decide_False in G6 by done.
    destruct (release_step (rt_serviceLock rt) (lock_key (service_resource cfg)) (lock_key (db_path cfg)) h)
      as (t & -> & Hgone & Hu); [done|by rewrite P1|by rewrite P1|done|exact (ly_service_db _ HL)|done|].
    split; cbn [with_tree h_live h_open h_log h_listening].
    + rewrite omap_app, app_nil_r. exact G1.
    + by rewrite decide_snoc.
    + by rewrite decide_snoc.
    + done.
    + rewrite in_snoc. naive_solver.
    + unfold lock_after. rewrite decide_True by (apply in_snoc; by right). exact Hgone.
    + apply lock_after_snoc; [done|]. eapply lock_after_undisturbed; [exact Hu|by left|done].
  - unfold lock_after in G7. rewrite decide_False in G7 by done.
    destruct (release_step (rt_dbLock rt) (lock_key (db_path cfg)) (lock_key (service_resource cfg)) h)
      as (t & -> & Hgone & Hu); [done|by rewrite P2|by rewrite P2|done|exact (ly_db_service _ HL)|done|].
    split; cbn [with_tree h_live h_open h_log h_listening].
    + rewrite omap_app, app_nil_r. exact G1.
    + by rewrite decide_snoc.
    + by rewrite decide_snoc.
    + done.
    + rewrite in_snoc. naive_solver.
    + apply lock_after_snoc; [done|]. eapply lock_after_undisturbed; [exact Hu|by left|done].
    + unfold lock_after. rewrite decide_True by (apply in_snoc; by right). exact Hgone.
  - set (t := (sql_Close (Sql (rt_database rt)) (tree h)).1).
    assert (undisturbed (lock_keys cfg) (tree h) t) as Hu.
    { eapply touches_undisturbed; [exact (ly_db _ HL)|]. rewrite <- (rn_handle _ _ _ _ _ _ Hrun). apply close_touches. }
    assert ((close_database (Sql (rt_database rt)) h).1 =
      mkHost (mkProc t (pr_env (h_proc h))) (drop 1 (h_open h)) (h_live h) (h_log h) (h_listening h)) as ->.
    { unfold close_database, go_bind, set_open, go_modify. rewrite on_files_eq. unfold t, tree. cbn [h_proc].
      by destruct (sql_Close _ _) as [t' [[]|e]]. }
    split; cbn [h_live h_open h_log h_listening].
    + rewrite omap_app, app_nil_r. exact G1.
    + rewrite decide_True by (apply in_snoc; by right). by rewrite G2, decide_False.
    + by rewrite decide_snoc.
    + done.
    + rewrite in_snoc. naive_solver.
    + apply lock_after_snoc; [done|]. eapply lock_after_undisturbed; [exact Hu|by left|done].
    + apply lock_after_snoc; [done|]. eapply lock_after_undisturbed; [exact Hu|by right; left|done].
  - apply given_back_none; [by right|done].
Qed.

(** The invariant of a run. *)
Definition host_ok s : Prop := ∃ pre, actions = pre ++ rest rt s ∧ given_back pre (st_host s).

Lemma host_same s s' : rest rt s' = rest rt s → st_host s' = st_host s → host_ok s → host_ok s'.
Proof. intros E1 E2 (pre & Ha & Hg). exists pre. by rewrite E1, E2. Qed.

Lemma host_closed s s' : rest rt s' = rest rt s → st_host s' = close_listener rt (st_host s) → host_ok s → host_ok s'.
Proof. intros E1 E2 (pre & Ha & Hg). exists pre. rewrite E1, E2. split; [done|]. by apply given_back_listener. Qed.

Lemma host_step s l s' :
  (∀ t, l = LOthers t → undisturbed (lock_keys cfg) (pr_tree (h_proc (st_host s))) t) →
  step flt rt s l = Some s' → host_ok s → host_ok s'.
Proof.
  intros Hall Hs Hok. destruct l as [now reason| |t|i timeout| |err|]; cbn [step] in Hs.
  - injection Hs as <-. revert Hok. unfold RequestServerShutdown. cbn zeta.
    destruct (negb (running s)); [|destruct (shutdownAt s)]; by apply host_same.
  - injection Hs as <-. revert Hok. by apply host_same.
  - injection Hs as <-. destruct Hok as (pre & Ha & Hg). exists pre. split; [done|]. apply given_back_files; [by apply Hall|done].
  - destruct (stops s !! i) as [pc|]; [|done]. cbn [mbind option_bind] in Hs.
    destruct (stop_step rt timeout pc s) as [[pc' s1]|] eqn:E; [|done]. injection Hs as <-.
    assert (host_ok s1) as Hok1; [|by apply (host_same s1)].
    destruct pc; cbn [stop_step] in E; repeat case_match; simplify_eq; try done; revert Hok;
      first [by apply host_same|by apply host_closed].
  - destruct (quit s && negb (stopped s)); [|done]. injection Hs as <-. revert Hok. by apply host_closed.
  - destruct (serve_may_return err s) eqn:E; [|done]. injection Hs as <-. revert Hok. apply host_same; [|done].
    unfold serve_may_return in E. unfold rest. fields. by destruct (serve s).
  - unfold serve_step in Hs. destruct (serve s) as [|err [|a todo]|e|err| |] eqn:Ev; [done| | | | | |done].
    + injection Hs as <-. revert Hok.
      assert (rest rt s = []) as Er by (unfold rest; by rewrite Ev).
      apply host_same; destruct err as [e|]; try destruct (negb _); unfold rest; fields; try done; by rewrite Ev.
    + injection Hs as <-. destruct Hok as (pre & Ha & Hg). unfold rest in Ha. rewrite Ev in Ha.
      exists (pre ++ [a]). split; [unfold rest; fields; by rewrite <- app_assoc|]. by apply (given_back_action pre a todo).
    + injection Hs as <-. revert Hok. apply host_same; [|done]. unfold rest. fields. by rewrite Ev.
    + injection Hs as <-. revert Hok. apply host_same; [|done]. unfold rest. fields. by rewrite Ev.
    + injection Hs as <-. revert Hok. apply host_same; [|done]. unfold rest. fields. by rewrite Ev.
Qed.

Lemma host_run s ls s' : run flt rt (undisturbed (lock_keys cfg)) s ls s' → host_ok s → host_ok s'.
Proof. induction 1 as [|s l s1 ls s2 Hs Hal _ IH]; [done|]. intros Hok. by apply IH, (host_step s l s1). Qed.

Lemma host_start : host_ok (started_state h1).
Proof. exists []. split; [done|exact given_back_start]. Qed.

(** What is left of the server. *)
Record shut_down (s : State) : Prop := {
  sd_wait : ∃ err, Wait s = Some err ∧
    match err with
    | None => True
    | Some e => isExpectedServerStop (Some e) = false ∧ (serve_text e ≠ "" → EnsureHealthy s = Err (ErrNew (serve_text e)))
    end;
  sd_closed : closed s = true;
  sd_unhealthy : running s = false ∧ serving s = false;
  sd_live : h_live (st_host s) = [];
  sd_open : h_open (st_host s) = h_open h0;
  sd_log : h_log (st_host s) = h_log h0;
  sd_listening : h_listening (st_host s) = unlistened (h_listening h0);
  sd_locks : ¬ is_file (tree (st_host s)) (lock_key (service_resource cfg)) ∧
             ¬ is_file (tree (st_host s)) (lock_key (db_path cfg));
}.

Lemma all_closed : h_live h0 = [] → filter (λ x, x ∉ omap closes actions) (h_live h1) = [].
Proof.
  intros Hl. rewrite (rn_live _ _ _ _ _ _ Hrun), Hl, (rn_janitors _ _ _ _ _ _ Hrun). unfold started, janitors, service_of.
  destruct (artifact_janitor cfg), (conflict_janitor cfg), (log_janitor cfg),
    (Maintenance.maintenance_runner _ _ _ _); by vm_compute.
Qed.

Lemma done_shut_down s : h_live h0 = [] → threads_ok rt s → host_ok s → serve s = SvDone → shut_down s.
Proof.
  intros Hl Hok (pre & Ha & [G1 G2 G3 G4 G5 G6 G7]) Hd. unfold rest in Ha. rewrite Hd, app_nil_r in Ha. subst pre.
  assert (∀ a, a ∈ [CloseListener; RestoreLog; ReleaseServiceLock; ReleaseDbLock; CloseDatabase] → a ∈ actions) as Hin.
  { intros a. unfold cleanup_actions. rewrite !elem_of_app, !elem_of_cons. tauto. }
  split.
  - destruct (doneCh s) as [err|] eqn:Ed; [|by destruct (th_sent rt s Hok (or_intror Hd))].
    exists err. split; [unfold Wait; by rewrite Ed|]. destruct err as [e|]; [|done].
    destruct (th_done rt s Hok e Ed) as [Hu Hle]. split; [done|]. intros Hne. unfold EnsureHealthy.
    rewrite (th_running rt s Hok), Hle; [|unfold rest; rewrite Hd; apply not_elem_of_nil]. cbn [negb]. by rewrite bool_decide_eq_false_2.
  - exact (th_closed rt s Hok Hd).
  - split; [apply (th_running rt s Hok)|apply (th_health rt s Hok)]; unfold rest; rewrite Hd; apply not_elem_of_nil.
  - rewrite G1. by apply all_closed.
  - rewrite G2, decide_True by (apply Hin; set_solver). by rewrite (rn_open _ _ _ _ _ _ Hrun).
  - rewrite G3, decide_True by (apply Hin; set_solver). exact (rn_log _ _ _ _ _ _ Hrun).
  - rewrite G5 by (apply Hin; set_solver). rewrite (rn_listening _ _ _ _ _ _ Hrun). rewrite filter_cons_False; [done|by intros []].
  - unfold lock_after in *. rewrite decide_True in G6 by (apply Hin; set_solver).
    rewrite decide_True in G7 by (apply Hin; set_solver). done.
Qed.
End given_back.

Section theorems.
Context `{WorkDir} `{LocalZone} `{GoUnicode} `{SortSlice} `{EngineLaws} `{OsExec} `{Network} `{TLS.X509}.

(** C16: A server that is told to stop ends, and gives back everything.  In any
    run of a server that [Start] has started, let it be told to stop: a request,
    a signal, or Serve has returned.  Then the steps it can still take by itself
    are bounded, by seven for each call of Stop and twenty more; it has a step
    to take until its goroutine is done, even if the running calls never end;
    and when it is done, whatever others have done meanwhile, [Wait] answers -
    an error only if Serve failed unexpectedly, and then the health check says
    the same -, no service is alive, the database is closed, package log writes
    where it wrote, the socket is closed and both lock files are gone. *)
Theorem shutdown_completes flt dir_size now tls cfg h0 h1 rt ls s :
  layout cfg →
  flt "remove" (lock_file (service_resource cfg)) = None → flt "remove" (lock_file (db_path cfg)) = None →
  h_live h0 = [] → Start flt dir_size now tls cfg h0 = (h1, Ok rt) →
  run flt rt (undisturbed (lock_keys cfg)) (started_state h1) ls s → stopping s →
  (∀ ls' s', Forall (λ l, internal l = true) ls' → run flt rt (undisturbed (lock_keys cfg)) s ls' s' →
     (length ls' ≤ 7 * length (stops s) + 20)%nat ∧
     (serve s' = SvDone ∨ ∃ l s'', internal l = true ∧ step flt rt s' l = Some s'')) ∧
  (∃ ls' s', Forall (λ l, internal l = true) ls' ∧ run flt rt (undisturbed (lock_keys cfg)) s ls' s' ∧ serve s' = SvDone) ∧
  (∀ ls' s', run flt rt (undisturbed (lock_keys cfg)) s ls' s' → serve s' = SvDone → shut_down cfg h0 rt s').
Proof.
  intros HL Fs Fd Hl Hst Hr Hstop. pose proof (Start_cases flt dir_size now tls cfg HL Fs Fd h0) as Hrun. rewrite Hst in Hrun.
  assert (threads_ok rt s) as Hok by (eapply run_threads; [exact Hr|apply started_ok]).
  assert (host_ok cfg h1 rt s) as Hh by (eapply host_run; [..|exact Hr|eapply host_start]; eassumption).
  split_and!.
  - intros ls' s' Hin Hr'. split.
    + pose proof (internal_run_bound flt rt _ s ls' s' Hr' Hin). 
      assert (measure rt s ≤ 7 * length (stops s) + 20)%nat; [|lia]. apply measure_bound.
      destruct Hh as (pre & Ha & _). apply (f_equal length) in Ha. rewrite length_app in Ha.
      assert (length (cleanup_actions (rt_janitors rt)) ≤ 13)%nat; [|lia].
      rewrite (rn_janitors _ _ _ _ _ _ Hrun). unfold janitors, service_of.
      destruct (artifact_janitor cfg), (conflict_janitor cfg), (log_janitor cfg); cbn; lia.
    + apply (progress flt); [by eapply run_threads|by eapply run_stopping].
  - by apply run_to_done.
  - intros ls' s' Hr' Hd. eapply done_shut_down; [eassumption..| | |done]; [by eapply run_threads|].
    eapply host_run; eassumption.
Qed.
End theorems.
End RuntimeShutdown.
