(* ===== verification/AdminRuntime.v ===== *)
(** * The server, seen from the admin console

    internal/serverapp/runtime_admin.go, the requests about the server of
    internal/server/admin_console_service.go, and the commands of
    cmd/roodox_server/main.go that print what they answer.  The messages have
    the fields of proto/roodox.proto; a getter of a message that is missing
    answers the zero value, so the commands' checks for nil never matter here. *)

From stdpp Require Import pretty.
From S2P Require Import Prelude GoStrings JsonStrings FsPath OsFs World GoTime Recorder Json Security AppConfig Sqlite Maintenance ControlPlane Net ServerConfig Preflight Runtime RuntimeLife MaintenanceTheorems RuntimeLifeTheorems.
Open Scope string_scope.
Open Scope Z_scope.
Open Scope list_scope.

Module AdminRuntime.
Import Sqlite Runtime RuntimeLife Json.

(** ** internal/server/admin_runtime.go *)

Record FileStatSnapshot := mkFileStat { ft_Path : string; ft_Exists : bool; ft_SizeBytes : Z; ft_ModifiedAtUnix : Z }.

Record ServerRuntimeSnapshot := mkRuntimeSnapshot {
  rs_ServerID : string;
  rs_ListenAddr : string;
  rs_RootDir : string;
  rs_DBPath : string;
  rs_TLSEnabled : bool;
  rs_AuthEnabled : bool;
  rs_StartedAtUnix : Z;
  rs_HealthState : string;
  rs_HealthMessage : string;
  rs_DBFile : FileStatSnapshot;
  rs_WALFile : FileStatSnapshot;
  rs_SHMFile : FileStatSnapshot;
  rs_Checkpoint : Maintenance.DatabaseCheckpointSnapshot;
  rs_Backup : Maintenance.DatabaseBackupSnapshot;
}.

Record ServerObservabilitySnapshot := mkObservability {
  so_FileRangeWriteCalls : Z;
  so_FileRangeWriteBytes : Z;
  so_FileRangeWriteConflicts : Z;
  so_SmallWriteBursts : Z;
  so_SmallWriteHotPaths : list PathCount;
  so_BuildSuccessCount : Z;
  so_BuildFailureCount : Z;
  so_BuildLogBytes : Z;
  so_BuildQueueWait : DurationStats;
  so_BuildDuration : DurationStats;
  so_RPCMetrics : list RPCLatency;
}.

(** ** The runtime as a provider *)

Section provider.
Context `{WorkDir} `{LocalZone} `{GoUnicode} `{GoLetters} `{SortSlice} `{!Engine}.
Context (flt : Faults) (dir_size : Z) (getenv : string → string) (hostname : result goerr string).
Context (cfg : AppConfig.Config) (rt : Runtime).

(** The server, with the snapshots of its maintenance manager and its metrics. *)
Record Server := mkServer {
  sv_life : State;
  sv_checkpoint : Maintenance.DatabaseCheckpointSnapshot;
  sv_backup : Maintenance.DatabaseBackupSnapshot;
  sv_metrics : option Recorder;
}.

Definition sv_tree (s : Server) : OsState := Preflight.pr_tree (h_proc (st_host (sv_life s))).
Definition on_life (f : State → State) (s : Server) : Server :=
  mkServer (f (sv_life s)) (sv_checkpoint s) (sv_backup s) (sv_metrics s).

(** A call of the maintenance manager. *)
Definition on_maint {A} (m : go Maintenance.Maint goerr A) : go Server goerr A := λ s,
  let '(w, r) := m (Maintenance.mkMaint (sv_tree s) (sv_checkpoint s) (sv_backup s)) in
  (mkServer (with_host (with_files (Maintenance.tree w)) (sv_life s)) (Maintenance.checkpoint w) (Maintenance.backup w)
     (sv_metrics s), r).
Definition on_disk {A} (m : go OsState goerr A) : go Server goerr A := on_maint (Maintenance.on_tree m).

Definition fileStatToSnapshot (item : FileStat) : FileStatSnapshot :=
  mkFileStat (fs_Path item) (fs_Exists item) (fs_SizeBytes item) (fs_ModifiedAtUnix item).

(** The health of a runtime that is [running] or not, with an error or not. *)
Definition health (running : bool) (lastErr : string) : string * string :=
  if negb running then ("stopped", "runtime is not running")
  else if negb (bool_decide (lastErr = "")) then ("degraded", lastErr)
  else ("serving", "ok").

Definition GetServerRuntimeSnapshot : go Server goerr ServerRuntimeSnapshot :=
  let! life := go_get sv_life in
  let! stats := go_get (λ s, DB_Stats flt dir_size (rt_database rt) (sv_tree s)) in
  catch! pinged := on_disk (Ping (rt_database rt)) in
  let lastErr :=
    match pinged with
    | Err err => if bool_decide (lastErr life = "") then err_text err else lastErr life
    | Ok _ => lastErr life
    end in
  let! checkpoint := go_get sv_checkpoint in
  let! backup := go_get sv_backup in
  let '(healthState, healthMessage) := health (running life) lastErr in
  let controlPlaneConfig := ServerConfig.BuildControlPlaneConfig getenv hostname cfg in
  go_ret {|
    rs_ServerID := Control.cc_ServerID controlPlaneConfig;
    rs_ListenAddr := rt_lis rt;
    rs_RootDir := AppConfig.RootDir cfg;
    rs_DBPath := path (rt_database rt);
    rs_TLSEnabled := AppConfig.TLSEnabled cfg;
    rs_AuthEnabled := AppConfig.AuthEnabled cfg;
    rs_StartedAtUnix := unix_seconds (rt_startedAt rt);
    rs_HealthState := healthState;
    rs_HealthMessage := healthMessage;
    rs_DBFile := fileStatToSnapshot (DBFile stats);
    rs_WALFile := fileStatToSnapshot (WALFile stats);
    rs_SHMFile := fileStatToSnapshot (SHMFile stats);
    rs_Checkpoint := checkpoint;
    rs_Backup := backup;
  |}.

Definition GetServerObservabilitySnapshot : go Server goerr ServerObservabilitySnapshot :=
  let! metrics := go_get sv_metrics in
  match metrics with
  | None => go_fail (ErrNew "observability recorder is not initialized")
  | Some _ =>
      let snap := snapshot metrics in
      go_ret {|
        so_FileRangeWriteCalls := RangeWriteCalls snap;
        so_FileRangeWriteBytes := RangeWriteBytes snap;
        so_FileRangeWriteConflicts := RangeWriteConflictCalls snap;
        so_SmallWriteBursts := SmallWriteBursts snap;
        so_SmallWriteHotPaths := SmallWriteHotPaths snap;
        so_BuildSuccessCount := BuildSuccessCount snap;
        so_BuildFailureCount := BuildFailureCount snap;
        so_BuildLogBytes := BuildLogBytes snap;
        so_BuildQueueWait := BuildQueueWait snap;
        so_BuildDuration := BuildDuration snap;
        so_RPCMetrics := RPCLatencies snap;
      |}
  end.

(** The manager keeps its configuration normalised. *)
Definition TriggerServerBackup (now : Z) : go Server goerr Maintenance.DatabaseBackupSnapshot :=
  on_maint (Maintenance.BackupNow flt dir_size (rt_database rt) (Maintenance.normalize_config (rt_dbMaint rt)) now).

Definition RequestShutdown (now : Z) (reason : string) : go Server goerr ServerShutdownSnapshot :=
  let! _ := go_modify (on_life (RequestServerShutdown now reason)) in
  go_get (λ s, default (mkShutdown false false 0 "") (head (answers (sv_life s)))).

(** ** The messages *)

Record DatabaseCheckpointStatus := {
  cs_last_checkpoint_at_unix : Z; cs_mode : string; cs_busy_readers : Z; cs_log_frames : Z;
  cs_checkpointed_frames : Z; cs_last_error : string;
}.
Record DatabaseBackupStatus := {
  bs_dir : string; bs_interval_seconds : Z; bs_keep_latest : Z; bs_last_backup_at_unix : Z;
  bs_last_backup_path : string; bs_last_error : string;
}.
Record GetServerRuntimeResponse := {
  gr_server_id : string; gr_listen_addr : string; gr_root_dir : string; gr_db_path : string;
  gr_tls_enabled : bool; gr_auth_enabled : bool; gr_started_at_unix : Z;
  gr_health_state : string; gr_health_message : string;
  gr_db_file : FileStatSnapshot; gr_wal_file : FileStatSnapshot; gr_shm_file : FileStatSnapshot;
  gr_checkpoint : DatabaseCheckpointStatus; gr_backup : DatabaseBackupStatus;
}.
Record BuildObservability := {
  bo_success_count : Z; bo_failure_count : Z; bo_log_bytes : Z;
  bo_queue_wait_count : Z; bo_queue_wait_p50_ms : Z; bo_queue_wait_p95_ms : Z; bo_queue_wait_p99_ms : Z;
  bo_duration_count : Z; bo_duration_p50_ms : Z; bo_duration_p95_ms : Z; bo_duration_p99_ms : Z;
}.
Record GetServerObservabilityResponse := {
  go_write_file_range_calls : Z; go_write_file_range_bytes : Z; go_write_file_range_conflicts : Z;
  go_small_write_bursts : Z; go_small_write_hot_paths : list (string * Z);
  go_build : BuildObservability; go_rpc_metrics : list RPCLatency;
}.
Record TriggerServerBackupResponse := { tb_created_at_unix : Z; tb_path : string }.
Record ShutdownServerResponse := {
  sh_accepted : bool; sh_already_in_progress : bool; sh_requested_at_unix : Z; sh_message : string;
}.

(** ** The requests *)

(** [s.runtime] is set when the server starts; [configured] says whether it is. *)
Definition with_runtime {A B} (configured : bool) (m : go Server goerr A) (k : A → B) : go Server status B :=
  if negb configured then go_fail (failedPrecondition "server runtime provider is not configured")
  else let! snapshot := go_map_err toGrpcError m in go_ret (k snapshot).

Definition fileStatSnapshotToProto (item : FileStatSnapshot) : FileStatSnapshot :=
  mkFileStat (ft_Path item) (ft_Exists item) (ft_SizeBytes item) (ft_ModifiedAtUnix item).

Definition GetServerRuntime (configured : bool) : go Server status GetServerRuntimeResponse :=
  with_runtime configured GetServerRuntimeSnapshot (λ snapshot, {|
    gr_server_id := rs_ServerID snapshot;
    gr_listen_addr := rs_ListenAddr snapshot;
    gr_root_dir := rs_RootDir snapshot;
    gr_db_path := rs_DBPath snapshot;
    gr_tls_enabled := rs_TLSEnabled snapshot;
    gr_auth_enabled := rs_AuthEnabled snapshot;
    gr_started_at_unix := rs_StartedAtUnix snapshot;
    gr_health_state := rs_HealthState snapshot;
    gr_health_message := rs_HealthMessage snapshot;
    gr_db_file := fileStatSnapshotToProto (rs_DBFile snapshot);
    gr_wal_file := fileStatSnapshotToProto (rs_WALFile snapshot);
    gr_shm_file := fileStatSnapshotToProto (rs_SHMFile snapshot);
    gr_checkpoint :=
      let c := rs_Checkpoint snapshot in {|
        cs_last_checkpoint_at_unix := Maintenance.LastCheckpointAtUnix c;
        cs_mode := Maintenance.Mode c;
        cs_busy_readers := Maintenance.BusyReaders c;
        cs_log_frames := Maintenance.LogFrames c;
        cs_checkpointed_frames := Maintenance.CheckpointedFrames c;
        cs_last_error := Maintenance.ck_LastError c |};
    gr_backup :=
      let b := rs_Backup snapshot in {|
        bs_dir := Maintenance.bk_Dir b;
        bs_interval_seconds := Maintenance.IntervalSeconds b;
        bs_keep_latest := Maintenance.KeepLatest b;
        bs_last_backup_at_unix := Maintenance.LastBackupAtUnix b;
        bs_last_backup_path := Maintenance.LastBackupPath b;
        bs_last_error := Maintenance.bk_LastError b |};
  |}).

Definition GetServerObservability (configured : bool) : go Server status GetServerObservabilityResponse :=
  with_runtime configured GetServerObservabilitySnapshot (λ snapshot, {|
    go_write_file_range_calls := so_FileRangeWriteCalls snapshot;
    go_write_file_range_bytes := so_FileRangeWriteBytes snapshot;
    go_write_file_range_conflicts := so_FileRangeWriteConflicts snapshot;
    go_small_write_bursts := so_SmallWriteBursts snapshot;
    go_small_write_hot_paths := map (λ item, (pc_Path item, pc_Count item)) (so_SmallWriteHotPaths snapshot);
    go_build := {|
      bo_success_count := so_BuildSuccessCount snapshot;
      bo_failure_count := so_BuildFailureCount snapshot;
      bo_log_bytes := so_BuildLogBytes snapshot;
      bo_queue_wait_count := Count (so_BuildQueueWait snapshot);
      bo_queue_wait_p50_ms := P50Ms (so_BuildQueueWait snapshot);
      bo_queue_wait_p95_ms := P95Ms (so_BuildQueueWait snapshot);
      bo_queue_wait_p99_ms := P99Ms (so_BuildQueueWait snapshot);
      bo_duration_count := Count (so_BuildDuration snapshot);
      bo_duration_p50_ms := P50Ms (so_BuildDuration snapshot);
      bo_duration_p95_ms := P95Ms (so_BuildDuration snapshot);
      bo_duration_p99_ms := P99Ms (so_BuildDuration snapshot) |};
    go_rpc_metrics := so_RPCMetrics snapshot;
  |}).

Definition ConsoleTriggerBackup (configured : bool) (now : Z) : go Server status TriggerServerBackupResponse :=
  with_runtime configured (TriggerServerBackup now) (λ backup, {|
    tb_created_at_unix := Maintenance.LastBackupAtUnix backup;
    tb_path := Maintenance.LastBackupPath backup |}).

Definition ShutdownServer (configured : bool) (now : Z) (reason : string) : go Server status ShutdownServerResponse :=
  with_runtime configured (RequestShutdown now reason) (λ shutdown, {|
    sh_accepted := Accepted shutdown;
    sh_already_in_progress := AlreadyInProgress shutdown;
    sh_requested_at_unix := RequestedAtUnix shutdown;
    sh_message := Message shutdown |}).

(** ** The commands *)

(** What [requestServerShutdown] makes of the answer. *)
Definition shutdown_outcome (resp : ShutdownServerResponse) : result goerr unit :=
  if negb (sh_accepted resp) && negb (sh_already_in_progress resp) then
    let msg := TrimSpace (sh_message resp) in
    if negb (bool_decide (msg = "")) then Err (ErrNew msg) else Err (ErrNew "shutdown request was rejected")
  else Ok tt.

Definition JInt (n : Z) : json := JLit (pretty n).
(** The members of an object, by their names. *)
Definition obj (fields : list (string * json)) : json := JObj (map (λ f, (json_string f.1, f.2)) fields).

Definition workbenchFileStatFromProto (item : FileStatSnapshot) : json := obj [
  ("path", JString (ft_Path item)); ("exists", JBool (ft_Exists item)); ("size_bytes", JInt (ft_SizeBytes item));
  ("modified_at_unix", JInt (ft_ModifiedAtUnix item))].
Definition workbenchCheckpointFromProto (item : DatabaseCheckpointStatus) : json := obj [
  ("last_checkpoint_at_unix", JInt (cs_last_checkpoint_at_unix item)); ("mode", JString (cs_mode item));
  ("busy_readers", JInt (cs_busy_readers item)); ("log_frames", JInt (cs_log_frames item));
  ("checkpointed_frames", JInt (cs_checkpointed_frames item)); ("last_error", JString (cs_last_error item))].
Definition workbenchBackupFromProto (item : DatabaseBackupStatus) : json := obj [
  ("dir", JString (bs_dir item)); ("interval_seconds", JInt (bs_interval_seconds item));
  ("keep_latest", JInt (bs_keep_latest item)); ("last_backup_at_unix", JInt (bs_last_backup_at_unix item));
  ("last_backup_path", JString (bs_last_backup_path item)); ("last_error", JString (bs_last_error item))].

Definition workbench_runtime (r : GetServerRuntimeResponse) : json := obj [
  ("server_id", JString (gr_server_id r)); ("listen_addr", JString (gr_listen_addr r));
  ("root_dir", JString (gr_root_dir r)); ("db_path", JString (gr_db_path r));
  ("tls_enabled", JBool (gr_tls_enabled r)); ("auth_enabled", JBool (gr_auth_enabled r));
  ("started_at_unix", JInt (gr_started_at_unix r));
  ("health_state", JString (gr_health_state r)); ("health_message", JString (gr_health_message r));
  ("db_file", workbenchFileStatFromProto (gr_db_file r));
  ("wal_file", workbenchFileStatFromProto (gr_wal_file r));
  ("shm_file", workbenchFileStatFromProto (gr_shm_file r));
  ("checkpoint", workbenchCheckpointFromProto (gr_checkpoint r));
  ("backup", workbenchBackupFromProto (gr_backup r))].
Definition workbench_device (item : Control.DeviceSummary) : json := obj [
  ("device_id", JString (Control.sm_device_id item)); ("display_name", JString (Control.sm_display_name item));
  ("role", JString (Control.sm_role item)); ("overlay_provider", JString (Control.sm_overlay_provider item));
  ("overlay_address", JString (Control.sm_overlay_address item)); ("online_state", JString (Control.sm_online_state item));
  ("last_seen_at", JInt (Control.sm_last_seen_at item)); ("sync_state", JString (Control.sm_sync_state item));
  ("mount_state", JString (Control.sm_mount_state item)); ("client_version", JString (Control.sm_client_version item));
  ("policy_revision", JInt (Control.sm_policy_revision item))].

(** [printWorkbenchSnapshot], with what the server answered. *)
Definition printWorkbenchSnapshot (now : Z) (runtimeResp : result status GetServerRuntimeResponse)
    (devices : result status (list Control.DeviceSummary)) : result status json :=
  match runtimeResp, devices with
  | Err err, _ => Err err
  | _, Err err => Err err
  | Ok runtimeResp, Ok devices => Ok (obj [
      ("runtime", workbench_runtime runtimeResp); ("devices", JArr (map workbench_device devices));
      ("collected_at_unix", JInt (unix_seconds now))])
  end.

Definition workbenchBuildFromProto (item : BuildObservability) : json := obj [
  ("success_count", JInt (bo_success_count item)); ("failure_count", JInt (bo_failure_count item));
  ("log_bytes", JInt (bo_log_bytes item));
  ("queue_wait_count", JInt (bo_queue_wait_count item)); ("queue_wait_p50_ms", JInt (bo_queue_wait_p50_ms item));
  ("queue_wait_p95_ms", JInt (bo_queue_wait_p95_ms item)); ("queue_wait_p99_ms", JInt (bo_queue_wait_p99_ms item));
  ("duration_count", JInt (bo_duration_count item)); ("duration_p50_ms", JInt (bo_duration_p50_ms item));
  ("duration_p95_ms", JInt (bo_duration_p95_ms item)); ("duration_p99_ms", JInt (bo_duration_p99_ms item))].

(** [printWorkbenchObservability] *)
Definition printWorkbenchObservability (now : Z) (resp : result status GetServerObservabilityResponse) : result status json :=
  try r := resp in
  Ok (obj [
    ("write_file_range_calls", JInt (go_write_file_range_calls r));
    ("write_file_range_bytes", JInt (go_write_file_range_bytes r));
    ("write_file_range_conflicts", JInt (go_write_file_range_conflicts r));
    ("small_write_bursts", JInt (go_small_write_bursts r));
    ("small_write_hot_paths", JArr (map (λ item, obj [("path", JString item.1); ("count", JInt item.2)]) (go_small_write_hot_paths r)));
    ("build", workbenchBuildFromProto (go_build r));
    ("rpc_metrics", JArr (map (λ item, obj [
      ("method", JString (Recorder.Method item)); ("count", JInt (rl_Count item)); ("error_count", JInt (ErrorCount item));
      ("p50_ms", JInt (rl_P50Ms item)); ("p95_ms", JInt (rl_P95Ms item)); ("p99_ms", JInt (rl_P99Ms item))]) (go_rpc_metrics r)));
    ("collected_at_unix", JInt (unix_seconds now))]).

(** [triggerServerBackup] *)
Definition print_backup (resp : result status TriggerServerBackupResponse) : result status json :=
  try r := resp in
  Ok (obj [("created_at_unix", JInt (tb_created_at_unix r)); ("path", JString (tb_path r))]).
End provider.
End AdminRuntime.

(** * The server, seen from the admin console: theorems

    The health that the console reports is that of the runtime, in every state
    that a started server can reach; and what a request for a backup answers is
    what the console reports afterwards. *)

Module AdminRuntimeTheorems.
Import Sqlite Runtime RuntimeLife RuntimeLifeTheorems AdminRuntime.

Section theorems.
Context `{WorkDir} `{LocalZone} `{GoUnicode} `{GoLetters} `{SortSlice} `{!Engine}.
Context (flt : Faults) (dir_size : Z) (getenv : string → string) (hostname : result goerr string).
Context (cfg : AppConfig.Config) (rt : Runtime).

(** An error is set only when the server has stopped. *)
Lemma no_error_while_running (al : OsState → OsState → Prop) s ls s' :
  run flt rt al s ls s' → threads_ok rt s → lastErr s = "" ∨ running s = false → lastErr s' = "" ∨ running s' = false.
Proof.
  induction 1 as [|s l s1 ls s2 Hs _ _ IH]; [done|]. intros Hok Hle. apply IH; [by eapply threads_step|].
  destruct l as [now reason| |t|i timeout| |err|]; cbn [step] in Hs.
  - injection Hs as <-. unfold RequestServerShutdown. cbn zeta. destruct (negb (running s)); [done|]. by destruct (shutdownAt s).
  - by injection Hs as <-.
  - by injection Hs as <-.
  - destruct (stops s !! i) as [pc|]; [|done]. cbn [mbind option_bind] in Hs.
    destruct (stop_step rt timeout pc s) as [[pc' s3]|] eqn:E; [|done]. injection Hs as <-.
    apply stop_step_answers in E as (_ & _ & _ & _ & Er & El & _). cbn [with_stops running lastErr]. by rewrite Er, El.
  - destruct (_ && _); [|done]. by injection Hs as <-.
  - destruct (serve_may_return err s); [|done]. by injection Hs as <-.
  - unfold serve_step in Hs. destruct (serve s) as [|err [|a todo]|e|err| |] eqn:Ev; [done| | | | | |done]; injection Hs as <-; try done.
    + destruct err as [e|]; [|done]. by destruct (negb _).
    + cbn [with_serve running lastErr]. destruct (run_action_quiet flt rt a s) as [-> _ _ _ _ _ _ _ _ _].
      rewrite run_action_running. case_decide; [by right|done].
    + right. apply (th_running rt s Hok). unfold rest. rewrite Ev. apply not_elem_of_nil.
Qed.

Lemma runtime_answers (s : Server) :
  let life := sv_life s in
  let '(s', pinged) := on_disk (Ping (rt_database rt)) s in
  let lastErr := match pinged with
                 | Err err => if bool_decide (lastErr life = "") then err_text err else lastErr life
                 | Ok _ => lastErr life end in
  ∃ r, GetServerRuntime flt dir_size getenv hostname cfg rt true s = (s', Ok r) ∧
    (gr_health_state r, gr_health_message r) = health (running life) lastErr ∧
    gr_backup r = {|
      bs_dir := Maintenance.bk_Dir (sv_backup s); bs_interval_seconds := Maintenance.IntervalSeconds (sv_backup s);
      bs_keep_latest := Maintenance.KeepLatest (sv_backup s);
      bs_last_backup_at_unix := Maintenance.LastBackupAtUnix (sv_backup s);
      bs_last_backup_path := Maintenance.LastBackupPath (sv_backup s);
      bs_last_error := Maintenance.bk_LastError (sv_backup s) |}.
Proof.
  cbn zeta. destruct (on_disk (Ping (rt_database rt)) s) as [s' pinged] eqn:Ep.
  assert (sv_backup s' = sv_backup s) as Hb.
  { unfold on_disk, on_maint, Maintenance.on_tree in Ep. cbn [Maintenance.tree Maintenance.checkpoint Maintenance.backup] in Ep.
    destruct (Ping _ _) as [t r]. by injection Ep as <- <-. }
  unfold GetServerRuntime, with_runtime, GetServerRuntimeSnapshot, go_bind, go_map_err, go_get, go_catch. cbn [negb]. rewrite Ep.
  destruct (health (running (sv_life s)) _) as [state msg]. cbn [map_err]. unfold go_ret.
  eexists. split; [reflexivity|]. cbn [gr_health_state gr_health_message gr_backup rs_HealthState rs_HealthMessage rs_Backup].
  by rewrite Hb.
Qed.

(** C30: The console reports the health of the server.  In every state that a
    started server can reach, whatever has been requested and has failed, the
    request is answered; it says "stopped" exactly when the runtime says that it
    is not healthy, and then always once its goroutine is done; while the server
    runs, it says "serving" when the database answers, and "degraded" with the
    error of the database when it does not. *)
Theorem health_reported (al : OsState → OsState → Prop) h1 ls (s : Server) :
  run flt rt al (started_state h1) ls (sv_life s) →
  ∃ s' r, GetServerRuntime flt dir_size getenv hostname cfg rt true s = (s', Ok r) ∧
    (gr_health_state r = "stopped" ↔ is_ok (EnsureHealthy (sv_life s)) = false) ∧
    (serve (sv_life s) = SvDone → gr_health_state r = "stopped") ∧
    (running (sv_life s) = true →
       match (Ping (rt_database rt) (sv_tree s)).2 with
       | Ok _ => gr_health_state r = "serving"
       | Err e => err_text e ≠ "" → gr_health_state r = "degraded" ∧ gr_health_message r = err_text e
       end).
Proof.
  intros Hr. pose proof (run_threads _ _ _ _ _ _ Hr (started_ok rt h1)) as Hok.
  pose proof (no_error_while_running _ _ _ _ Hr (started_ok rt h1) (or_introl eq_refl)) as Hle.
  pose proof (runtime_answers s) as Ha. cbn zeta in Ha. unfold on_disk, on_maint, Maintenance.on_tree in Ha.
  cbn [Maintenance.tree Maintenance.checkpoint Maintenance.backup] in Ha.
  destruct (Ping (rt_database rt) (sv_tree s)) as [t pinged]. cbn [snd].
  destruct Ha as (r & Hg & Hh & _). eexists _, r. split; [exact Hg|].
  assert (bool_decide ("" = "" :> string) = true) as blank by reflexivity.
  unfold health, EnsureHealthy in *. destruct (running (sv_life s)) eqn:Er; cbn [negb is_ok] in *.
  - destruct Hle as [Hle|]; [|done]. rewrite Hle in *. cbn [negb] in *. split_and!.
    + split; [|done]. intros Hst. exfalso. rewrite Hst in Hh. destruct pinged as [u|e]; [done|].
      rewrite blank in Hh. by destruct (bool_decide (err_text e = "")).
    + intros Hd. pose proof (th_running rt _ Hok) as Hn. unfold rest in Hn. rewrite Hd in Hn.
      rewrite Hn in Er; [done|apply not_elem_of_nil].
    + intros _. destruct pinged as [u|e]; [by injection Hh|].
      rewrite blank in Hh. intros Hne.
      rewrite bool_decide_eq_false_2 in Hh by done. by injection Hh.
  - injection Hh as -> ->. by split_and!.
Qed.

Lemma backup_now_reported database mcfg now s s' r :
  Maintenance.BackupNow flt dir_size database mcfg now s = (s', r) →
  let b := Maintenance.backup s' in
  match r with
  | Ok b' => b' = b ∧ Maintenance.LastBackupAtUnix b = unix_seconds now ∧ Maintenance.bk_LastError b = ""
  | Err e =>
      Maintenance.LastBackupAtUnix b = Maintenance.LastBackupAtUnix (Maintenance.backup s) ∧
      Maintenance.LastBackupPath b = Maintenance.LastBackupPath (Maintenance.backup s) ∧
      (TrimSpace (Maintenance.BackupDir mcfg) ≠ "" → Maintenance.bk_LastError b = err_text e)
  end.
Proof.
  cbn zeta. unfold Maintenance.BackupNow. case_bool_decide as Hd; [by intros [= <- <-]|]. unfold go_catch, go_bind at 1.
  assert (Maintenance.backup (Maintenance.checkpointNow database mcfg now s).1 = Maintenance.backup s) as Hck.
  { unfold Maintenance.checkpointNow, go_catch, Maintenance.on_tree. by destruct (Checkpoint _ _ _ _) as [t [a|e]]. }
  destruct (Maintenance.checkpointNow database mcfg now s) as [s1 rc]. cbn [fst] in Hck. rewrite <- Hck.
  destruct (Maintenance.backupNow flt dir_size database mcfg now s1) as [s2 r2] eqn:Eb. unfold Maintenance.backupNow in Eb.
  repeat (apply MaintenanceTheorems.or_backup_error_cases in Eb as [(? & ? & _ & Eb)|(e & -> & _ & Ee & E1 & E2)];
    [|by intros [= <- <-]]).
  injection Eb as <- <-. by intros [= <- <-].
Qed.

(** What a request for a backup answers is what the console reports.  A
    request that succeeds answers the time of the request and a path, and the
    status that is asked for next has them as its last backup, without an error;
    a request that fails is answered with the error of the manager, and the
    status keeps the last backup and, if a directory is configured, has the text
    of that error.  Either way the server goes on as it was, but for its files. *)
Theorem backup_request_reported now (s s1 : Server) r :
  ConsoleTriggerBackup flt dir_size rt true now s = (s1, r) →
  (∃ t, sv_life s1 = with_host (with_files t) (sv_life s)) ∧
  ∃ s2 status, GetServerRuntime flt dir_size getenv hostname cfg rt true s1 = (s2, Ok status) ∧
    let b := gr_backup status in
    match r with
    | Ok resp =>
        tb_created_at_unix resp = unix_seconds now ∧ bs_last_backup_at_unix b = tb_created_at_unix resp ∧
        bs_last_backup_path b = tb_path resp ∧ bs_last_error b = ""
    | Err st =>
        bs_last_backup_at_unix b = Maintenance.LastBackupAtUnix (sv_backup s) ∧
        bs_last_backup_path b = Maintenance.LastBackupPath (sv_backup s) ∧
        ∃ e, st = toGrpcError e ∧ (TrimSpace (Maintenance.BackupDir (rt_dbMaint rt)) ≠ "" → bs_last_error b = err_text e)
    end.
Proof.
  unfold ConsoleTriggerBackup, with_runtime, TriggerServerBackup, go_bind, go_map_err, on_maint. cbn [negb].
  destruct (Maintenance.BackupNow _ _ _ _ _ _) as [w rb] eqn:Eb. apply backup_now_reported in Eb. cbn zeta in Eb.
  cbn [Maintenance.backup Maintenance.normalize_config Maintenance.BackupDir] in Eb. intros Hs.
  assert (s1 = mkServer (with_host (with_files (Maintenance.tree w)) (sv_life s)) (Maintenance.checkpoint w)
            (Maintenance.backup w) (sv_metrics s)) as -> by (destruct rb; by injection Hs).
  split; [by eexists|]. set (s1 := mkServer _ _ _ _). pose proof (runtime_answers s1) as Ha. cbn zeta in Ha.
  destruct (on_disk _ s1) as [s2 pinged]. destruct Ha as (status & Hg & _ & Hb). exists s2, status.
  split; [exact Hg|]. cbn zeta. rewrite Hb. cbn [sv_backup s1 bs_last_backup_at_unix bs_last_backup_path bs_last_error].
  destruct rb as [b|e]; injection Hs as <-; cbn [map_err tb_created_at_unix tb_path].
  - destruct Eb as (-> & E1 & E2). by rewrite E1, E2.
  - destruct Eb as (E1 & E2 & E3). split_and!; [done..|]. exists e. by split.
Qed.
End theorems.
End AdminRuntimeTheorems.
