(* ===== verification/RuntimeExamples.v ===== *)
(** * The runtime, run

    The theorems on the start, the life and the end of a server at concrete
    inputs: a server with the default configuration on 127.0.0.1:50051, with
    the small engine of RestoreExamples.v. *)

From S2P Require Import Prelude GoStrings FsPath OsFs World Janitor Recorder ControlPlane GoTime Security Interceptors TlsExamples AppConfig Sqlite Restore RestoreTheorems Net ServerConfig ExclFiles Preflight Maintenance Runtime RuntimeStart RuntimeLife RuntimeLifeTheorems RuntimeShutdown AdminRuntime.
Open Scope string_scope.
Open Scope Z_scope.
Open Scope list_scope.

Module RuntimeExamples.
Import Sqlite Preflight Runtime RuntimeStart RuntimeLife RuntimeLifeTheorems RuntimeShutdown AdminRuntime AdminRuntimeTheorems.

#[local] Existing Instance ascii_only_unicode.
#[local] Existing Instance RestoreExamples.small_engine.
#[local] Existing Instance RestoreExamples.small_laws.
#[local] Existing Instance TlsExamples.plain_x509.
#[local] Instance ex_cwd : WorkDir := Ok "/".
#[local] Instance ex_zone : LocalZone := 0.
#[local] Instance ex_exec : OsExec := {|
  GOOS := "linux"; user_Current := Ok "roodox"; executable _ := true;
  CombinedOutput _ _ := Err (ErrNew "exit status 1"); temp_name _ := "123"
|}.
(** Every port but the first of the system can be had. *)
#[local] Instance ex_network : Network := {|
  net_Listen addr := if HasSuffix addr ":1" then Err (ErrNew "listen tcp: permission denied") else Ok addr
|}.

Definition ex_config (addr root db state : string) : AppConfig.Config := {|
  AppConfig.Addr := addr; AppConfig.DataRoot := ""; AppConfig.RootDir := root; AppConfig.DBPath := db;
  AppConfig.Runtime := {|
    AppConfig.rt_BinaryPath := ""; AppConfig.rt_StateDir := state; AppConfig.rt_PIDFile := ""; AppConfig.rt_LogDir := "";
    AppConfig.rt_StdoutLogName := ""; AppConfig.rt_StderrLogName := ""; AppConfig.rt_GracefulStopTimeoutSeconds := 10;
    AppConfig.rt_WindowsService := AppConfig.default_WindowsServiceConfig |};
  AppConfig.RemoteBuildEnabled := false; AppConfig.BuildToolDirs := ["/opt/tools"]; AppConfig.RequiredBuildTools := [];
  AppConfig.AuthEnabled := false; AppConfig.SharedSecret := ""; AppConfig.TLSEnabled := false;
  AppConfig.TLSCertPath := "/etc/server.pem"; AppConfig.TLSKeyPath := "/etc/server-key.pem";
  AppConfig.Database := AppConfig.default_DatabaseConfig; AppConfig.ControlPlane := AppConfig.default_ControlPlaneConfig;
  AppConfig.Cleanup := AppConfig.default_CleanupConfig;
|}.
Definition ex_cfg : AppConfig.Config := ex_config "127.0.0.1:50051" "/srv/share" "/srv/roodox.db" "/srv/state".
(** The same database, and the same settings with a port that is refused. *)
Definition ex_other : AppConfig.Config := ex_config "127.0.0.1:50052" "/srv/other" "/srv/roodox.db" "/srv/state2".
Definition ex_refused : AppConfig.Config := ex_config "127.0.0.1:1" "/srv/share" "/srv/roodox.db" "/srv/state".

Definition ex_host : Host := mkHost (mkProc RestoreExamples.ex_tree ∅) [] [] Output [].
Definition ex_tls : TLS.TLSEnv := TlsExamples.host 0.

Definition ex_start (cfg : AppConfig.Config) (h : Host) : Host * result goerr Runtime := Start no_faults 0 7 ex_tls cfg h.
Definition ex_running : Host := (ex_start ex_cfg ex_host).1.
Definition ok_or {A} (d : A) (r : result goerr A) : A := match r with Ok a => a | Err _ => d end.
Definition err_or {A} (d : goerr) (r : result goerr A) : goerr := match r with Ok _ => d | Err e => e end.
Lemma ok_eq {W A} (d : A) (x : W * result goerr A) : is_ok x.2 = true → x = (x.1, Ok (ok_or d x.2)).
Proof. by destruct x as [w [a|e]]. Qed.
Lemma err_eq {W A} (d : goerr) (x : W * result goerr A) : is_ok x.2 = false → x = (x.1, Err (err_or d x.2)).
Proof. by destruct x as [w [a|e]]. Qed.

Definition no_runtime : Runtime :=
  mkRuntime "" (mkLock "") (mkLock "") {| Sql := "/srv/roodox.db" : handle; path := "/srv/roodox.db" |} (maintenance_config ex_cfg) [] None
               {| Interceptors.so_unary := []; Interceptors.so_stream := []; Interceptors.so_creds := None |} (mkHooks None None) 0.
Definition ex_rt : Runtime := ok_or no_runtime (ex_start ex_cfg ex_host).2.

(** What a start of the server acquires. *)
Example ex_acquired :
  (h_live ex_running, h_log ex_running, h_listening ex_running, h_open ex_running,
   map (λ k, is_ok (os_lookup (tree ex_running) k)) (lock_keys ex_cfg), Getenv envBuildToolDirs (h_proc ex_running)) =
  ([BuildCleanup; ArtifactJanitor; ConflictJanitor; LogJanitor; ObservabilityReporter; DatabaseMaintenance],
   TriggerWriter Output, ["127.0.0.1:50051"], ["/srv/roodox.db"], [true; true], "/opt/tools").
Proof. vm_compute. reflexivity. Qed.

Lemma apart_decided (ks K : list (list string)) :
  bool_decide (Forall (λ f, Forall (λ k, ¬ f `prefix_of` k) K) ks) = true → apart ks K.
Proof.
  intros Hb%bool_decide_eq_true_1. rewrite Forall_forall in Hb. intros f k Hf Hk.
  specialize (Hb f Hf). rewrite Forall_forall in Hb. by apply Hb.
Qed.

Ltac decided := apply apart_decided; vm_compute; reflexivity.

Lemma ex_layout : layout ex_cfg.
Proof. split; [decided|decided|intros n; decided|decided|decided]. Qed.
Lemma ex_other_layout : layout ex_other.
Proof. split; [decided|decided|intros n; decided|decided|decided]. Qed.
Lemma ex_refused_layout : layout ex_refused.
Proof. split; [decided|decided|intros n; decided|decided|decided]. Qed.

Lemma ex_started_ok : is_ok (ex_start ex_cfg ex_host).2 = true.
Proof. vm_compute. reflexivity. Qed.
Lemma ex_running_eq : Start no_faults 0 7 ex_tls ex_cfg ex_host = (ex_running, Ok ex_rt).
Proof. exact (ok_eq no_runtime (ex_start ex_cfg ex_host) ex_started_ok). Qed.

(** ** The start *)

Definition ex_error : goerr := err_or (ErrNew "") (ex_start ex_refused ex_host).2.
Lemma ex_refused_err : is_ok (ex_start ex_refused ex_host).2 = false.
Proof. vm_compute. reflexivity. Qed.
Lemma ex_refused_eq : Start no_faults 0 7 ex_tls ex_refused ex_host = ((ex_start ex_refused ex_host).1, Err ex_error).
Proof. exact (err_eq (ErrNew "") (ex_start ex_refused ex_host) ex_refused_err). Qed.

(** The start that fails has closed every service but the first: the runner of
    the build service is never closed. *)
Example failed_start_leaks :
  (err_text ex_error, h_live (ex_start ex_refused ex_host).1, h_open (ex_start ex_refused ex_host).1,
   h_log (ex_start ex_refused ex_host).1) =
  ("listen failed: listen tcp: permission denied", [BuildCleanup], [], Output).
Proof. vm_compute. reflexivity. Qed.


Lemma one_server_at_a_time_witness :
  running_server no_faults 0 ex_cfg ex_host ex_running ex_rt ∧
  (∃ h3 e, Start no_faults 0 9 ex_tls ex_other ex_running = (h3, Err e) ∧
     undisturbed (lock_keys ex_other) (tree ex_running) (tree h3) ∧ h_listening h3 = h_listening ex_running) ∧
  (∃ e, Restore.RestoreFromBackup no_faults 0 9 "/srv/roodox.db" "/srv/good.db" RestoreExamples.with_safety (tree ex_running) =
     (tree ex_running, Err e)).
Proof.
  destruct (one_server_at_a_time no_faults 0 7 ex_tls ex_cfg ex_host ex_running ex_rt ex_layout eq_refl eq_refl ex_running_eq)
    as [Hr Hother].
  destruct (Hother ex_running (PreOrder_Reflexive _)) as [Hs Hb]. split; [exact Hr|]. split.
  - apply Hs; [exact ex_other_layout|reflexivity|reflexivity|left; reflexivity].
  - apply Hb; reflexivity.
Defined.

(** ** The life *)

Fixpoint plays (s : State) (ls : list Label) : option State :=
  match ls with
  | [] => Some s
  | l :: ls' => s' ← step no_faults ex_rt s l; plays s' ls'
  end.

Lemma plays_run al s ls s' :
  Forall (λ l, match l with LOthers _ => False | _ => True end) ls → plays s ls = Some s' → run no_faults ex_rt al s ls s'.
Proof.
  intros Hls. revert s. induction Hls as [|l ls Hl _ IH]; intros s; cbn [plays]; [intros [= ->]; constructor|].
  destruct (step no_faults ex_rt s l) as [s1|] eqn:Es; [|done]. cbn [mbind option_bind]. intros Hp.
  econstructor; [exact Es| |by apply IH]. by intros t ->.
Qed.

Definition played (s : State) (ls : list Label) : State := default (started_state ex_host) (plays s ls).
Lemma played_eq s ls : is_Some (plays s ls) → plays s ls = Some (played s ls).
Proof. unfold played. by intros [s' ->]. Qed.
Lemma played_run al s ls :
  Forall (λ l, match l with LOthers _ => False | _ => True end) ls → bool_decide (is_Some (plays s ls)) = true →
  run no_faults ex_rt al s ls (played s ls).
Proof. intros Hls Hp%bool_decide_eq_true_1. by apply plays_run, played_eq. Qed.

(** Two requests and a signal. *)
Definition ex_asked : list Label := [LRequest (20 * second_ns) " going down "; LRequest (21 * second_ns) ""; LSignal].
Definition ex_told : State := played (started_state ex_running) ex_asked.
(** The pause, the health status, the check, the graceful stop; the calls end,
    Serve returns and its goroutine cleans up, with the call of Stop closing the
    listener again in between. *)
Definition ex_rest : list Label :=
  repeat (LStop 0 false) 4 ++ [LDrained; LServeReturns (Some ErrServerStopped); LServe; LServe; LStop 0 false; LStop 0 false] ++
  repeat LServe 14.
Definition ex_ended : State := played ex_told ex_rest.

Lemma ex_told_run al : run no_faults ex_rt al (started_state ex_running) ex_asked ex_told.
Proof. apply played_run; [repeat constructor|vm_compute; reflexivity]. Qed.
Lemma ex_ended_run al : run no_faults ex_rt al ex_told ex_rest ex_ended.
Proof. apply played_run; [repeat constructor|vm_compute; reflexivity]. Qed.

Example ex_answers :
  (map (λ a, (Accepted a, AlreadyInProgress a, RequestedAtUnix a, Message a)) (answers ex_told), stops ex_told, stops ex_ended) =
  ([(false, true, 20, "going down"); (true, false, 20, "going down")], [StSleep; StHealth], [StEnd; StHealth]).
Proof. vm_compute. reflexivity. Qed.

Example ex_left :
  (closed ex_ended, Wait ex_ended, h_live (st_host ex_ended), h_open (st_host ex_ended),
   h_log (st_host ex_ended), h_listening (st_host ex_ended),
   map (λ k, is_ok (os_lookup (tree (st_host ex_ended)) k)) (lock_keys ex_cfg)) =
  (true, Some None, [], [], Output, [], [false; false]).
Proof. vm_compute. reflexivity. Qed.

(** The cleanup releases the lock of the database before it closes the
    database: in between another server can take the lock, while this one still
    has the file open. *)
Definition ex_between : State :=
  played ex_told (repeat (LStop 0 false) 4 ++ [LDrained; LServeReturns None] ++ repeat LServe 11).
Example lock_released_while_open :
  (is_ok (os_lookup (tree (st_host ex_between)) (lock_key (db_path ex_cfg))), h_open (st_host ex_between),
   is_ok (Start no_faults 0 9 ex_tls ex_other (st_host ex_between)).2) =
  (false, ["/srv/roodox.db"], true).
Proof. vm_compute. reflexivity. Qed.

Lemma ex_told_stopping : stopping ex_told.
Proof. left. vm_compute. discriminate. Qed.
Lemma ex_ended_done : serve ex_ended = SvDone.
Proof. vm_compute. reflexivity. Qed.

Lemma one_shutdown_accepted_witness :
  (length (filter (λ a, Accepted a = true) (answers ex_told)) ≤ 1)%nat ∧
  (∀ a, a ∈ answers ex_told → Accepted a = true ∨ AlreadyInProgress a = true →
     stops ex_told ≠ [] ∧ ∃ b, b ∈ answers ex_told ∧ Accepted b = true ∧ RequestedAtUnix a = RequestedAtUnix b) ∧
  (∀ a, a ∈ answers ex_told → Accepted a = true → AlreadyInProgress a = false).
Proof.
  apply (one_shutdown_accepted no_faults ex_rt (λ _ _, True) ex_running ex_asked ex_told). apply ex_told_run.
Defined.

Lemma shutdown_completes_witness :
  (∃ ls' s', Forall (λ l, internal l = true) ls' ∧
     run no_faults ex_rt (undisturbed (lock_keys ex_cfg)) ex_told ls' s' ∧ serve s' = SvDone) ∧
  shut_down ex_cfg ex_host ex_rt ex_ended.
Proof.
  destruct (shutdown_completes no_faults 0 7 ex_tls ex_cfg ex_host ex_running ex_rt ex_asked ex_told ex_layout eq_refl eq_refl
    eq_refl ex_running_eq (ex_told_run _) ex_told_stopping) as (_ & Hex & Hend).
  split; [exact Hex|]. exact (Hend ex_rest ex_ended (ex_ended_run _) ex_ended_done).
Defined.

(** ** The console *)

#[local] Instance no_letters : GoLetters := {| unicode_letter_digit _ := false |}.
Definition no_env : string → string := λ _, "".
Definition ex_maint : Maintenance.Maint := Maintenance.new_maint (rt_dbMaint ex_rt) (tree ex_running).
Definition ex_server (s : State) : Server :=
  mkServer s (Maintenance.checkpoint ex_maint) (Maintenance.backup ex_maint) (Some (NewRecorder DefaultConfig)).
Definition ex_status (s : Server) : Server * result status GetServerRuntimeResponse :=
  GetServerRuntime no_faults 0 no_env (Ok "Build Host.1") ex_cfg ex_rt true s.

Definition ex_seen (s : State) : option (string * string * string * bool) :=
  match (ex_status (ex_server s)).2 with
  | Ok r => Some (gr_server_id r, gr_health_state r, gr_health_message r, ft_Exists (gr_db_file r))
  | Err _ => None
  end.
(** Serve fails, and the goroutine has cleaned up. *)
Definition ex_failed : State :=
  played (started_state ex_running) (LServeReturns (Some (ErrOther "accept: too many open files")) :: repeat LServe 17).
Example ex_seen_states :
  (ex_seen ex_told, ex_seen ex_ended, lastErr ex_failed, ex_seen ex_failed) =
  (Some ("build-host-1", "serving", "ok", true), Some ("build-host-1", "stopped", "runtime is not running", true),
   "accept: too many open files", Some ("build-host-1", "stopped", "runtime is not running", true)).
Proof. vm_compute. reflexivity. Qed.

Lemma health_reported_witness :
  ∃ s' r, ex_status (ex_server ex_ended) = (s', Ok r) ∧ gr_health_state r = "stopped".
Proof.
  destruct (health_reported no_faults 0 no_env (Ok "Build Host.1") ex_cfg ex_rt (λ _ _, True) ex_running (ex_asked ++ ex_rest)
    (ex_server ex_ended) (run_app _ _ _ _ _ _ _ _ (ex_told_run _) (ex_ended_run _))) as (s' & r & Hg & _ & Hd & _).
  exists s', r. split; [exact Hg|]. exact (Hd ex_ended_done).
Defined.

Definition ex_backed : Server * result status TriggerServerBackupResponse :=
  ConsoleTriggerBackup no_faults 0 ex_rt true (1700000000 * second_ns) (ex_server ex_told).
Definition ex_response : TriggerServerBackupResponse :=
  match ex_backed.2 with Ok r => r | Err _ => {| tb_created_at_unix := 0; tb_path := "" |} end.
Example ex_backup_path : (tb_created_at_unix ex_response, tb_path ex_response) =
  (1700000000, "/backups/roodox-backup-20231114-221320.db").
Proof. vm_compute. reflexivity. Qed.

Lemma ex_backed_ok : is_ok ex_backed.2 = true.
Proof. vm_compute. reflexivity. Qed.
Lemma ex_backed_eq : ConsoleTriggerBackup no_faults 0 ex_rt true (1700000000 * second_ns) (ex_server ex_told) = (ex_backed.1, Ok ex_response).
Proof.
  unfold ex_response. pose proof ex_backed_ok as Hok. change (ex_backed = (ex_backed.1, Ok (match ex_backed.2 with
    Ok r => r | Err _ => {| tb_created_at_unix := 0; tb_path := "" |} end))).
  destruct ex_backed as [s [r|e]]; [reflexivity|discriminate].
Qed.

Lemma backup_request_reported_witness :
  ∃ s2 status, ex_status ex_backed.1 = (s2, Ok status) ∧
    bs_last_backup_at_unix (gr_backup status) = tb_created_at_unix ex_response ∧
    bs_last_backup_path (gr_backup status) = tb_path ex_response ∧ bs_last_error (gr_backup status) = "".
Proof.
  destruct (backup_request_reported no_faults 0 no_env (Ok "Build Host.1") ex_cfg ex_rt (1700000000 * second_ns)
    (ex_server ex_told) ex_backed.1 (Ok ex_response) ex_backed_eq) as (_ & s2 & status & Hg & _ & E1 & E2 & E3).
  exists s2, status. split; [exact Hg|]. split; [exact E1|]. split; [exact E2|exact E3].
Defined.
End RuntimeExamples.
