(* ===== verification/ClientImport.v ===== *)
(** * The import program of a client

    cmd/roodox_client_import/main.go: a connection code, or a roodox:// URI with
    one, is decoded to a join bundle and the certificate of the root, which are
    written beside each other.  The workbench makes the codes; [b64_encode] is
    the encoding it uses.

    Of net/url the query is written out; which texts [url.Parse] refuses is the
    interface [GoUrl]. *)

From stdpp Require Import pretty.
From S2P Require Import Prelude GoStrings JsonStrings StringLists StrConv FsPath OsFs World Hash Json Net ControlPlane Bundle AppConfig Security ServerConfig.
From Stdlib Require Import Ascii.
Open Scope string_scope.
Open Scope Z_scope.
Open Scope list_scope.

Class GoUrl := { url_error : string → option goerr }.

Module ClientImport.
Import Json Net AccessBundle.

(** ** Package strings *)

(** [strings.Join(strings.Fields(s), "")]: without the white space. *)
Fixpoint squeeze (s : string) : string :=
  match s with
  | EmptyString => ""
  | String a s1 =>
      if space1 a then squeeze s1 else
      match s1 with
      | EmptyString => s
      | String b s2 =>
          if space2 a b then squeeze s2 else
          match s2 with
          | EmptyString => String a (squeeze s1)
          | String c s3 => if space3 a b c then squeeze s3 else String a (squeeze s1)
          end
      end
  end.

(** [strings.Cut] at a byte, without the third answer. *)
Fixpoint cut_at (c : ascii) (s : string) : string * string :=
  match s with
  | EmptyString => ("", "")
  | String a s' => if Ascii.eqb a c then ("", s') else let '(x, y) := cut_at c s' in (String a x, y)
  end.

(** ** base64.RawURLEncoding *)

Definition b64_char (i : N) : ascii :=
  (if i <? 26 then ch (65 + i) else if i <? 52 then ch (71 + i) else if i <? 62 then ch (i - 4)
   else if i =? 62 then "-"%char else "_"%char)%N.
Definition b64_value (a : ascii) : option N :=
  let v := byte_val a in
  (if byte_in 65 90 a then Some (v - 65) else if byte_in 97 122 a then Some (v - 71)
   else if byte_in 48 57 a then Some (v + 4) else if Ascii.eqb a "-" then Some 62
   else if Ascii.eqb a "_" then Some 63 else None)%N.

(** [DecodeString]: line ends are skipped, and the bits that are left over at
    the end are not looked at. *)
Fixpoint without_line_ends (s : string) : string :=
  match s with
  | EmptyString => ""
  | String a s' => if (byte_val a =? 10)%N || (byte_val a =? 13)%N then without_line_ends s' else String a (without_line_ends s')
  end.
Fixpoint b64_quads (s : string) : option string :=
  match s with
  | EmptyString => Some ""
  | String _ EmptyString => None
  | String a (String b EmptyString) =>
      x ← b64_value a; y ← b64_value b;
      Some (String (ch ((x * 64 + y) / 16)) "")
  | String a (String b (String c EmptyString)) =>
      x ← b64_value a; y ← b64_value b; z ← b64_value c;
      let n := ((x * 64 + y) * 64 + z)%N in
      Some (String (ch (n / 1024)) (String (ch ((n / 4) mod 256)) ""))
  | String a (String b (String c (String d s'))) =>
      x ← b64_value a; y ← b64_value b; z ← b64_value c; w ← b64_value d;
      let n := (((x * 64 + y) * 64 + z) * 64 + w)%N in
      r ← b64_quads s';
      Some (String (ch (n / 65536)) (String (ch ((n / 256) mod 256)) (String (ch (n mod 256)) r)))
  end.
Definition b64_decode (s : string) : option string := b64_quads (without_line_ends s).

(** [EncodeToString], and URL_SAFE_NO_PAD of the workbench. *)
Fixpoint b64_encode (s : string) : string :=
  match s with
  | EmptyString => ""
  | String a EmptyString =>
      let n := (byte_val a * 16)%N in
      String (b64_char (n / 64)) (String (b64_char (n mod 64)) "")
  | String a (String b EmptyString) =>
      let n := ((byte_val a * 256 + byte_val b) * 4)%N in
      String (b64_char (n / 4096)) (String (b64_char ((n / 64) mod 64)) (String (b64_char (n mod 64)) ""))
  | String a (String b (String c s')) =>
      let n := ((byte_val a * 256 + byte_val b) * 256 + byte_val c)%N in
      String (b64_char (n / 262144)) (String (b64_char ((n / 4096) mod 64))
        (String (b64_char ((n / 64) mod 64)) (String (b64_char (n mod 64)) (b64_encode s'))))
  end.

(** ** net/url *)

(** [QueryUnescape] *)
Fixpoint query_unescape (s : string) : option string :=
  match s with
  | EmptyString => Some ""
  | String a s' =>
      if Ascii.eqb a "%" then
        match s' with
        | String h (String l r) =>
            x ← hex_value h; y ← hex_value l; t ← query_unescape r; Some (String (ch (x * 16 + y)) t)
        | _ => None
        end
      else t ← query_unescape s'; Some (String (if Ascii.eqb a "+" then " "%char else a) t)
  end.

(** One piece of a query: pieces with a semicolon, empty ones and those that
    cannot be unescaped are left out. *)
Definition query_pair (piece : string) : option (string * string) :=
  if negb (no_char ";" piece) || bool_decide (piece = "") then None
  else
    let '(key, value) := cut_at "=" piece in
    key ← query_unescape key; value ← query_unescape value; Some (key, value).

(** [parsed.Query().Get(key)] of a URL, whose query is between the first "?" and
    the first "#". *)
Definition raw_query (code : string) : string := (cut_at "?" (cut_at "#" code).1).2.
Definition query_get (key code : string) : string :=
  match filter (λ kv, kv.1 = key) (omap query_pair (Split "&" (raw_query code))) with
  | (_, value) :: _ => value
  | [] => ""
  end.

(** ** The program *)

Definition connectionCodePrefix : string := "roodox:1:".
Definition connectionCodeName : string := "roodox-connection-code.txt".
Definition bundleFileName : string := "roodox-client-access.json".
Definition caFileName : string := "roodox-ca-cert.pem".

Record connectionCodeEnvelope := mkEnvelope { ev_Version : Z; ev_Bundle : string; ev_CAPEM : string }.
Definition envelope_fields `{GoUnicode} (ms : list (string * string)) (old : connectionCodeEnvelope) : option connectionCodeEnvelope :=
  version ← field dec_uint32 "version" ms (ev_Version old);
  bundle ← field dec_raw "bundle" ms (ev_Bundle old);
  ca ← field dec_string "ca_pem" ms (ev_CAPEM old);
  Some (mkEnvelope version bundle ca).

Record decodedConnectionCode := mkDecoded { dc_bundle : Bundle; dc_bundleJSON : string; dc_caPEM : string }.

Record importResult := mkImport {
  im_Format : string; im_OutputDir : string; im_ConnectionCode : string; im_BundlePath : string; im_CAPath : string;
  im_ServiceAddr : string; im_TLSEnabled : bool; im_ProbeAttempted : bool; im_ProbeOK : bool; im_ProbeError : string;
}.

Section program.
Context `{WorkDir} `{GoUnicode} `{GoUrl}.

Definition extractEncodedPayload (raw : string) : result goerr string :=
  let code := squeeze (TrimSpace raw) in
  if HasPrefix code connectionCodePrefix then
    let payload := TrimPrefix code connectionCodePrefix in
    if bool_decide (payload = "") then Err (ErrNew "connection code payload is empty") else Ok payload
  else if HasPrefix (ToLower code) "roodox://connect" then
    match url_error code with
    | Some err => Err (ErrWrap "parse connection uri failed" err)
    | None =>
        let payload := TrimSpace (query_get "payload" code) in
        if bool_decide (payload = "") then Err (ErrNew "connection uri is missing payload") else Ok payload
    end
  else Err (ErrNew "unsupported connection code format").

Definition normalizePEM (raw : string) : string :=
  let trimmed := TrimSpace raw in
  if bool_decide (trimmed = "") then "" else trimmed +:+ String (ch 10) "".

(** Without the offset that its text has. *)
Definition err_base64 : goerr := ErrNew "illegal base64 data".

Definition decodeConnectionCode (raw : string) : result goerr decodedConnectionCode :=
  try encoded := extractEncodedPayload raw in
  match b64_decode encoded with
  | None => Err (ErrWrap "decode connection code failed" err_base64)
  | Some payloadBytes =>
      match Unmarshal envelope_fields payloadBytes (mkEnvelope 0 "" "") with
      | None => Err (ErrWrap "parse connection code payload failed" err_json)
      | Some envelope =>
          if negb (ev_Version envelope =? 1)
          then Err (ErrNew ("unsupported connection code version: " +:+ pretty (ev_Version envelope)))
          else
            try p := parseBundleJSON (ev_Bundle envelope) in
            let caPEM := normalizePEM (ev_CAPEM envelope) in
            if UseTLS (b_ServiceDiscovery p.1) && bool_decide (caPEM = "")
            then Err (ErrNew "connection code is missing the TLS root certificate")
            else Ok (mkDecoded p.1 p.2 caPEM)
      end
  end.

Section files.
Context (flt : Faults) (now : Z).

Definition loadConnectionCode (inlineCode filePath : string) : go OsState goerr string :=
  let inlineCode := TrimSpace inlineCode in
  let filePath := TrimSpace filePath in
  if negb (bool_decide (inlineCode = "")) && negb (bool_decide (filePath = ""))
  then go_fail (ErrNew "specify either -connection-code or -connection-code-file, not both")
  else if negb (bool_decide (inlineCode = "")) then go_ret inlineCode
  else if negb (bool_decide (filePath = "")) then
    let! data := go_map_err (ErrWrap "read connection code file failed") (go_read (os_ReadFile flt filePath)) in
    go_ret (String.string_of_list_byte data)
  else go_fail (ErrNew "connection code is required").

Definition writeImportArtifacts (outputDir rawCode : string) (decoded : decodedConnectionCode) : go OsState goerr importResult :=
  let! resolvedOutputDir := go_map_err (ErrWrap "resolve output dir failed") (go_lift (Abs (TrimSpace outputDir))) in
  let! _ := go_map_err (ErrWrap "create output dir failed") (os_MkdirAll flt now resolvedOutputDir) in
  let connectionCodePath := JoinPath resolvedOutputDir connectionCodeName in
  let! _ := go_map_err (ErrWrap "write connection code file failed")
              (os_WriteFile flt now connectionCodePath (bytes_of_string (TrimSpace rawCode +:+ String (ch 10) ""))) in
  let bundlePath := JoinPath resolvedOutputDir bundleFileName in
  let! _ := go_map_err (ErrWrap "write join bundle failed")
              (os_WriteFile flt now bundlePath (bytes_of_string (dc_bundleJSON decoded))) in
  let! caPath :=
    (if bool_decide (dc_caPEM decoded = "") then go_ret ""
     else
       let caPath := JoinPath resolvedOutputDir caFileName in
       let! _ := go_map_err (ErrWrap "write tls root certificate failed")
                   (os_WriteFile flt now caPath (bytes_of_string (dc_caPEM decoded))) in
       go_ret caPath) in
  go_ret (mkImport "roodox:1" resolvedOutputDir connectionCodePath bundlePath caPath
            (bundleServiceAddr (dc_bundle decoded)) (UseTLS (b_ServiceDiscovery (dc_bundle decoded))) false false "").

(** What [probeServer] dials the server with. *)
Definition probe_options (bundle : Bundle) (caPath : string) : result goerr (string * ServerConfig.ConnectionOptions) :=
  let tls := UseTLS (b_ServiceDiscovery bundle) in
  if tls && bool_decide (TrimSpace caPath = "") then Err (ErrNew "probe requires a TLS root certificate path")
  else Ok (bundleServiceAddr bundle, {|
    ServerConfig.co_SharedSecret := TrimSpace (SharedSecret (b_Roodox bundle));
    ServerConfig.co_TLSEnabled := tls;
    ServerConfig.co_TLSRootCertPath := if tls then caPath else "";
    ServerConfig.co_TLSServerName := if tls then TrimSpace (TLSServerName (b_ServiceDiscovery bundle)) else "";
  |}).

(** [main] from the flags on: what is printed, and whether the program exits
    with 0.  [probe] says whether the flag is set, and [probed] what the probe
    of a server answers. *)
Definition main_program (connectionCode connectionCodeFile outputDir : string) (probe : bool)
    (probed : string * ServerConfig.ConnectionOptions → option goerr) : go OsState goerr (importResult * bool) :=
  let! rawCode := loadConnectionCode connectionCode connectionCodeFile in
  let! decoded := go_lift (decodeConnectionCode rawCode) in
  let! r := writeImportArtifacts outputDir rawCode decoded in
  if negb probe then go_ret (r, true)
  else
    let err :=
      match probe_options (dc_bundle decoded) (im_CAPath r) with
      | Err e => Some e
      | Ok o => probed o
      end in
    go_ret (mkImport (im_Format r) (im_OutputDir r) (im_ConnectionCode r) (im_BundlePath r) (im_CAPath r)
              (im_ServiceAddr r) (im_TLSEnabled r) true (bool_decide (err = None))
              (match err with Some e => err_text e | None => "" end), bool_decide (err = None)).
End files.
End program.
End ClientImport.
