(* ===== verification/ClientImportTheorems.v ===== *)
(** * The import program of a client: theorems

    What base64 encodes it decodes; the order of the members of an object does
    not matter; and a connection code, made from what the server issued, is
    imported as what the server issued. *)

From stdpp Require Import pretty.
From S2P Require Import Prelude GoStrings JsonStrings StringLists StrConv FsPath OsFs World Conflicts Artifacts Hash Json JsonTheorems Net ControlPlane Bundle BundleTheorems AppConfig Security ServerConfig ClientImport.
From Stdlib Require Import Ascii Zify.
From Stdlib Require Import Ascii.
Open Scope string_scope.
Open Scope Z_scope.
Open Scope list_scope.

Module ClientImportTheorems.
Import Json JsonTheorems Net AccessBundle BundleTheorems ClientImport.

(** ** Base64 *)

Lemma b64_char_value i : (i < 64)%N → b64_value (b64_char i) = Some i.
Proof.
  intros Hi. assert (forallb (λ n, bool_decide (b64_value (b64_char (N.of_nat n)) = Some (N.of_nat n))) (seq 0 64) = true) as Hall
    by (by vm_compute).
  rewrite forallb_forall in Hall. specialize (Hall (N.to_nat i)). rewrite N2Nat.id in Hall.
  eapply bool_decide_eq_true_1, Hall, in_seq. lia.
Qed.

Lemma ch_byte a : ch (byte_val a) = a.
Proof. apply ascii_N_embedding. Qed.

#[local] Ltac Zify.zify_post_hook ::= Z.to_euclidean_division_equations.

Lemma b64_roundtrip s : b64_quads (b64_encode s) = Some s.
Proof.
  remember (String.length s) as n eqn:En. revert s En. induction (lt_wf n) as [n _ IH]. intros s ->.
  destruct s as [|a [|b [|c s]]]; [done|..]; cbn [b64_encode];
    pose proof (N_ascii_bounded a) as Ba; fold (byte_val a) in Ba;
    try (pose proof (N_ascii_bounded b) as Bb; fold (byte_val b) in Bb);
    try (pose proof (N_ascii_bounded c) as Bc; fold (byte_val c) in Bc); cbn zeta; cbn [b64_quads].
  - rewrite !b64_char_value by lia. cbn [mbind option_bind].
    match goal with |- Some (String (ch ?x) _) = _ => assert (x = byte_val a) as -> by lia end. by rewrite ch_byte.
  - rewrite !b64_char_value by lia. cbn [mbind option_bind].
    match goal with |- Some (String (ch ?x) (String (ch ?y) _)) = _ =>
      assert (x = byte_val a) as -> by lia; assert (y = byte_val b) as -> by lia end. by rewrite !ch_byte.
  - rewrite !b64_char_value by lia. cbn [mbind option_bind].
    rewrite (IH (String.length s)) by (try reflexivity; cbn; lia). cbn [mbind option_bind].
    match goal with |- Some (String (ch ?x) (String (ch ?y) (String (ch ?z) _))) = _ =>
      assert (x = byte_val a) as -> by lia; assert (y = byte_val b) as -> by lia; assert (z = byte_val c) as -> by lia end.
    by rewrite !ch_byte.
Qed.

#[local] Ltac Zify.zify_post_hook ::= idtac.

Definition alphabet (a : ascii) : bool := bool_decide (is_Some (b64_value a)).
Fixpoint b64_text (s : string) : bool := match s with EmptyString => true | String a s' => alphabet a && b64_text s' end.

Lemma b64_char_alphabet i : (i < 64)%N → alphabet (b64_char i) = true.
Proof. intros Hi. apply bool_decide_eq_true_2. rewrite b64_char_value by done. by eexists. Qed.

Lemma b64_encode_text s : b64_text (b64_encode s) = true.
Proof.
  remember (String.length s) as n eqn:En. revert s En. induction (lt_wf n) as [n _ IH]. intros s ->.
  destruct s as [|a [|b [|c s]]]; [done|..]; cbn [b64_encode];
    pose proof (N_ascii_bounded a) as Ba; fold (byte_val a) in Ba;
    try (pose proof (N_ascii_bounded b) as Bb; fold (byte_val b) in Bb);
    try (pose proof (N_ascii_bounded c) as Bc; fold (byte_val c) in Bc); cbn zeta; cbn [b64_text].
  1,2: rewrite !b64_char_alphabet; [done|..]; first [by apply N.mod_lt|apply N.Div0.div_lt_upper_bound; lia].
  rewrite !b64_char_alphabet, (IH (String.length s)); [done|cbn; lia|done|..];
    first [by apply N.mod_lt|apply N.Div0.div_lt_upper_bound; lia].
Qed.

(** The letters of the alphabet are none of those that anybody on the way looks
    for. *)
Lemma alphabet_spec a :
  alphabet a = true →
  byte_in 33 126 a = true ∧ ascii7 a = true ∧ (byte_val a =? 10)%N = false ∧ (byte_val a =? 13)%N = false ∧
  Forall (λ c, Ascii.eqb a c = false) ["%"; "+"; ";"; "&"; "="; "#"; "?"]%char.
Proof.
  destruct a as [[] [] [] [] [] [] [] []]; intros Ha; try discriminate Ha;
    (split_and!; [reflexivity..|repeat constructor]).
Qed.

Lemma b64_line_ends s : b64_text s = true → without_line_ends s = s.
Proof.
  induction s as [|a s IH]; [done|]. cbn [b64_text without_line_ends].
  intros [(_ & _ & -> & -> & _)%alphabet_spec Hs]%andb_true_iff. cbn [orb]. by rewrite IH.
Qed.

Lemma b64_plain s : b64_text s = true → StringLists.plain s = true ∧ is_ascii s = true.
Proof.
  induction s as [|a s IH]; [done|]. cbn [b64_text StringLists.plain is_ascii].
  intros [(-> & Ha & _)%alphabet_spec [-> ->]%IH]%andb_true_iff. unfold ascii7 in Ha. by rewrite Ha.
Qed.

Lemma b64_no_char c s : c ∈ ["%"; "+"; ";"; "&"; "="; "#"; "?"]%char → b64_text s = true → no_char c s = true.
Proof.
  intros Hc. induction s as [|a s IH]; [done|]. cbn [b64_text no_char].
  intros [(_ & _ & _ & _ & Hf)%alphabet_spec Hs]%andb_true_iff. rewrite Forall_forall in Hf. by rewrite Hf, IH.
Qed.

Lemma b64_unescape s : b64_text s = true → query_unescape s = Some s.
Proof.
  induction s as [|a s IH]; [done|]. cbn [b64_text query_unescape].
  intros [(_ & _ & _ & _ & Hf)%alphabet_spec Hs]%andb_true_iff. rewrite Forall_forall in Hf.
  rewrite !Hf by set_solver. rewrite IH by done. done.
Qed.

Lemma b64_decode_encode s : b64_decode (b64_encode s) = Some s.
Proof. unfold b64_decode. by rewrite b64_line_ends, b64_roundtrip by apply b64_encode_text. Qed.

(** ** The two forms of a code *)

Lemma cut_at_none c s : no_char c s = true → cut_at c s = (s, "").
Proof.
  induction s as [|a s IH]; [done|]. cbn [no_char cut_at]. intros [Ha Hs]%andb_true_iff.
  apply negb_true_iff in Ha. by rewrite Ha, IH.
Qed.

Definition connectionURI (payload : string) : string := "roodox://connect?v=1&payload=" +:+ payload.

Lemma query_get_payload enc : b64_text enc = true → query_get "payload" (connectionURI enc) = enc.
Proof.
  intros He. assert (raw_query (connectionURI enc) = "v=1&payload=" +:+ enc) as Hq.
  { unfold raw_query. rewrite (cut_at_none "#"); [done|]. change (no_char "#" enc = true). apply b64_no_char; [set_solver|done]. }
  unfold query_get. rewrite Hq.
  assert (Split "&" ("v=1&payload=" +:+ enc) = ["v=1"; "payload=" +:+ enc]) as ->.
  { change (Split "&" ("v=1&payload=" +:+ enc)) with ("v=1" :: Split "&" ("payload=" +:+ enc)).
    rewrite (Split_no_sep "&"); [done|]. change (no_char "&" enc = true). apply b64_no_char; [set_solver|done]. }
  assert (query_pair ("payload=" +:+ enc) = Some ("payload", enc)) as Hp.
  { unfold query_pair. change (no_char ";" ("payload=" +:+ enc)) with (no_char ";" enc).
    rewrite b64_no_char by (set_solver || done). cbn [negb orb]. rewrite bool_decide_eq_false_2 by done.
    change (cut_at "=" ("payload=" +:+ enc)) with ("payload", enc).
    change (query_unescape "payload") with (Some "payload"). cbn [mbind option_bind]. by rewrite b64_unescape. }
  cbn [omap list_omap]. rewrite Hp. done.
Qed.

(** *** White space in a text of ASCII *)

Fixpoint strip (s : string) : string :=
  match s with
  | EmptyString => ""
  | String a s' => if space1 a then strip s' else String a (strip s')
  end.

Lemma strip_app s t : strip (s +:+ t) = strip s +:+ strip t.
Proof. induction s as [|a s IH]; [done|]. cbn [String.append strip]. rewrite IH. by destruct (space1 a). Qed.

Lemma strip_srev s : strip (srev s) = srev (strip s).
Proof.
  induction s as [|a s IH]; [done|]. change (String a s) with (String a "" +:+ s). rewrite srev_app, !strip_app, srev_app, IH.
  f_equal. cbn. by destruct (space1 a).
Qed.

Lemma is_ascii_app s t : is_ascii (s +:+ t) = is_ascii s && is_ascii t.
Proof. induction s as [|a s IH]; [done|]. cbn. by rewrite IH, andb_assoc. Qed.

Lemma is_ascii_srev s : is_ascii (srev s) = is_ascii s.
Proof.
  induction s as [|a s IH]; [done|]. change (String a s) with (String a "" +:+ s). rewrite srev_app, !is_ascii_app, IH.
  apply andb_comm.
Qed.

Lemma ascii_no_space a : ascii7 a = true →
  (∀ b, space2 a b = false) ∧ (∀ b c, space3 a b c = false) ∧ (∀ b, space2 b a = false) ∧ (∀ b c, space3 b c a = false).
Proof.
  intros Ha. unfold ascii7 in Ha. apply N.ltb_lt in Ha.
  assert (∀ n, (128 <= n < 256)%N → Ascii.eqb a (ch n) = false) as He.
  { intros n Hn. apply Ascii.eqb_neq. intros ->. unfold byte_val, ch in Ha. rewrite N_ascii_embedding in Ha by lia. lia. }
  assert (∀ lo hi, (128 <= lo)%N → byte_in lo hi a = false) as Hb.
  { intros lo hi Hlo. apply andb_false_iff. left. apply N.leb_gt. lia. }
  split_and!; intros; unfold space2, space3; rewrite ?He, ?Hb by lia; cbn [andb orb]; by rewrite ?andb_false_r.
Qed.

Lemma trim_with_ascii p2 p3 s :
  is_ascii s = true → (∀ a b, ascii7 a = true → p2 a b = false) → (∀ a b c, ascii7 a = true → p3 a b c = false) →
  is_ascii (trim_with p2 p3 s) = true ∧ strip (trim_with p2 p3 s) = strip s.
Proof.
  intros Hs H2 H3. induction s as [|a s IH]; [done|]. cbn [is_ascii] in Hs. apply andb_true_iff in Hs as [Ha Hs].
  cbn [trim_with strip]. destruct (space1 a) eqn:Ea; [by auto|].
  assert (trim_with p2 p3 (String a s) = String a s) as E.
  { cbn [trim_with]. rewrite Ea. destruct s as [|b [|c s]]; rewrite ?H2, ?H3 by done; done. }
  cbn [trim_with] in E. rewrite Ea in E. rewrite E. cbn [is_ascii strip]. by rewrite Ha, Hs, Ea.
Qed.

Lemma TrimSpace_strip s : is_ascii s = true → is_ascii (TrimSpace s) = true ∧ strip (TrimSpace s) = strip s.
Proof.
  intros Hs. unfold TrimSpace, TrimLeftSpace, TrimRightSpace.
  destruct (trim_with_ascii space2 space3 s Hs) as [Hl El]; [by intros a b [? _]%ascii_no_space|by intros a b c (_ & ? & _)%ascii_no_space|].
  set (l := trim_with space2 space3 s) in *. rewrite <- is_ascii_srev in Hl.
  destruct (trim_with_ascii (λ a b, space2 b a) (λ a b c, space3 c b a) _ Hl) as [Hr Er];
    [by intros a b (_ & _ & ? & _)%ascii_no_space|by intros a b c (_ & _ & _ & ?)%ascii_no_space|].
  split; [by rewrite is_ascii_srev|]. by rewrite strip_srev, Er, strip_srev, srev_involutive.
Qed.

Lemma squeeze_ascii s : is_ascii s = true → squeeze s = strip s.
Proof.
  induction s as [|a s IH]; [done|]. cbn [is_ascii]. intros [Ha Hs]%andb_true_iff.
  destruct (ascii_no_space a Ha) as (H2 & H3 & _). cbn [squeeze strip]. rewrite <- IH by done.
  destruct s as [|b [|c s]]; rewrite ?H2, ?H3; by destruct (space1 a).
Qed.

Section forms.
Context `{GoUnicode} `{GoUrl}.

Lemma TrimPrefix_append p t : TrimPrefix (p +:+ t) p = t.
Proof. unfold TrimPrefix. rewrite HasPrefix_app. induction p as [|a p IH]; [by destruct t|exact IH]. Qed.

(** A text with white space put into it anywhere. *)
Inductive spaced_out : string → string → Prop :=
| so_nil : spaced_out "" ""
| so_space a code raw : space1 a = true → spaced_out code raw → spaced_out code (String a raw)
| so_char a code raw : spaced_out code raw → spaced_out (String a code) (String a raw).

(** A text that is the code or the URI of a payload, white space aside. *)
Definition carries_code (raw payload : string) : Prop :=
  spaced_out (connectionCodePrefix +:+ payload) raw ∨
  (spaced_out (connectionURI payload) raw ∧ url_error (connectionURI payload) = None).

Lemma spaced_strip code raw :
  spaced_out code raw → StringLists.plain code = true → is_ascii raw = true ∧ strip raw = code.
Proof.
  induction 1 as [|a code raw Ha _ IH|a code raw _ IH]; intros Hp; [done|..]; cbn [is_ascii strip StringLists.plain] in *.
  - destruct (IH Hp) as [-> ->]. rewrite Ha, andb_true_r. split; [|done].
    revert Ha. by destruct a as [[] [] [] [] [] [] [] []].
  - apply andb_true_iff in Hp as [Ha Hp]. destruct (IH Hp) as [-> ->]. rewrite andb_true_r.
    revert Ha. destruct a as [[] [] [] [] [] [] [] []]; intros Ha; first [discriminate Ha|by split].
Qed.

Lemma squeeze_spaced code raw : spaced_out code raw → StringLists.plain code = true → squeeze (TrimSpace raw) = code.
Proof.
  intros Hs Hp. destruct (spaced_strip _ _ Hs Hp) as [Ha <-]. destruct (TrimSpace_strip raw Ha) as [Ht <-].
  by apply squeeze_ascii.
Qed.

Lemma extract_payload raw enc :
  b64_text enc = true → enc ≠ "" → carries_code raw enc → extractEncodedPayload raw = Ok enc.
Proof.
  intros He Hne Hc. destruct (b64_plain enc He) as [Hp Ha]. unfold extractEncodedPayload. cbn zeta.
  destruct Hc as [Hc|[Hc Hu]]; rewrite (squeeze_spaced _ _ Hc) by exact Hp.
  - rewrite HasPrefix_app, TrimPrefix_append. by rewrite bool_decide_eq_false_2.
  - change (HasPrefix (connectionURI enc) connectionCodePrefix) with false. cbn iota.
    assert (HasPrefix (ToLower (connectionURI enc)) "roodox://connect" = true) as ->.
    { unfold ToLower. change (is_ascii (connectionURI enc)) with (is_ascii enc). by rewrite Ha. }
    rewrite Hu, query_get_payload, TrimSpace_plain by done. by rewrite bool_decide_eq_false_2.
Qed.
End forms.

(** ** The order of members *)

(** The same value, its objects with their members in some order. *)
Inductive reordered : json → json → Prop :=
| re_lit t : reordered (JLit t) (JLit t)
| re_arr l l' : Forall2 reordered l l' → reordered (JArr l) (JArr l')
| re_obj l l1 l2 : Forall2 (λ m m', m.1 = m'.1 ∧ reordered m.2 m'.2) l l1 → l1 ≡ₚ l2 → reordered (JObj l) (JObj l2).

Lemma reordered_refl v : reordered v v.
Proof.
  induction v as [t|l IH|l IH] using json_rec'; [constructor|..].
  - constructor. by induction IH; constructor.
  - econstructor; [|reflexivity]. by induction IH; constructor.
Qed.

Lemma max_height_perm (l l' : list (string * json)) :
  l ≡ₚ l' → foldr (λ m h, Z.max (height m.2) h) 0 l = foldr (λ m h, Z.max (height m.2) h) 0 l'.
Proof. induction 1; cbn; lia. Qed.

Lemma reordered_height v v' : reordered v v' → height v' = height v.
Proof.
  revert v'. induction v as [t|l IH|l IH] using json_rec'; intros v' Hr; inversion Hr as [|? l' Hf|? l1 l2 Hf Hp]; subst; [done|..];
    cbn [height]; f_equal.
  - clear Hr. induction Hf as [|x y l l' Hx Hf IHl]; [done|]. apply Forall_cons in IH as [IHx IH]. cbn. rewrite IHx, IHl; done.
  - rewrite <- (max_height_perm _ _ Hp). clear Hr Hp. induction Hf as [|x y l l' [_ Hx] Hf IHl]; [done|].
    apply Forall_cons in IH as [IHx IH]. cbn. rewrite IHx, IHl; done.
Qed.

Lemma reordered_wf v v' : reordered v v' → wf v → wf v'.
Proof.
  revert v'. induction v as [t|l IH|l IH] using json_rec'; intros v' Hr Hwf;
    inversion Hr as [|? l' Hf|? l1 l2 Hf Hp]; subst; [done|..]; inversion Hwf as [|? Hl|? Hl]; subst; constructor; clear Hr Hwf.
  - induction Hf as [|x y l l' Hx Hf IHl]; [constructor|].
    apply Forall_cons in IH as [IHx IH]. apply Forall_cons in Hl as [Hx' Hl]. constructor; auto.
  - rewrite <- Hp. clear Hp. induction Hf as [|x y l l' [E Hx] Hf IHl]; [constructor|].
    apply Forall_cons in IH as [IHx IH]. apply Forall_cons in Hl as [[Hk Hx'] Hl]. constructor; [|auto].
    rewrite <- E. auto.
Qed.

(** Literals stay. *)
Lemma reordered_literals (l l1 : list (string * json)) :
  Forall (λ m, ∃ t, m.2 = JLit t) l → Forall2 (λ m m', m.1 = m'.1 ∧ reordered m.2 m'.2) l l1 → l1 = l.
Proof.
  intros Hl Hf. induction Hf as [|[k v] [k' v'] l l1 [E Hr] Hf IH]; [done|]. apply Forall_cons in Hl as [[t Ht] Hl].
  cbn in *. subst. inversion Hr; subst. by rewrite IH.
Qed.

Lemma reordered_flat l V :
  Forall (λ m : string * json, ∃ t, m.2 = JLit t) l → reordered (JObj l) V → ∃ l', V = JObj l' ∧ l ≡ₚ l'.
Proof. intros Hl Hr. inversion Hr as [| |? l1 l2 Hf Hp]; subst. apply reordered_literals in Hf as ->; [|done]. eauto. Qed.

Section fields.
Context `{GoUnicode}.

(** A field that at most one member is for. *)
Definition at_most_once (name : string) (ms : list (string * string)) : Prop :=
  (length (filter (λ m, key_matches m.1 name = true) ms) ≤ 1)%nat.

Lemma at_most_once_perm name ms ms' : ms ≡ₚ ms' → at_most_once name ms → at_most_once name ms'.
Proof. unfold at_most_once. intros Hp. by rewrite Hp. Qed.

Lemma field_perm {A} (dec : string → A → option A) name ms ms' zero :
  ms ≡ₚ ms' → at_most_once name ms → field dec name ms zero = field dec name ms' zero.
Proof.
  intros Hp. revert zero. induction Hp as [|m ms ms' _ IH|m m' ms|ms1 ms2 ms3 Hp1 IH1 _ IH2]; intros zero Hu; [done|..].
  - rewrite !field_cons. destruct (if key_matches m.1 name then dec m.2 zero else Some zero) as [a|]; [|done].
    cbn [mbind option_bind]. apply IH. unfold at_most_once in *. etrans; [|exact Hu]. rewrite filter_cons. case_decide; cbn [length]; lia.
  - rewrite !field_cons. unfold at_most_once in Hu.
    destruct (key_matches m.1 name) eqn:E1, (key_matches m'.1 name) eqn:E2; cbn [mbind option_bind]; rewrite ?field_cons, ?E1, ?E2; try done.
    + rewrite !filter_cons_True in Hu by done. cbn [length] in Hu. lia.
    + destruct (dec m.2 zero) as [a|]; [|done]. cbn [mbind option_bind]. by rewrite field_cons, E2.
    + destruct (dec m'.2 zero) as [a|]; [|done]. cbn [mbind option_bind]. by rewrite field_cons, E1.
  - rewrite IH1 by done. apply IH2. by eapply at_most_once_perm.
Qed.

Lemma rendered_perm ind l l' d : l ≡ₚ l' → rendered ind l d ≡ₚ rendered ind l' d.
Proof. apply Permutation_map. Qed.

(** The keys decide: a part of keys of which one matches. *)
Lemma at_most_once_rendered name (keys : list string) ind l d :
  map fst l `sublist_of` keys →
  bool_decide (length (filter (λ k, key_matches k name = true) keys) ≤ 1)%nat = true → at_most_once name (rendered ind l d).
Proof.
  intros Hs Hl%bool_decide_eq_true_1. unfold at_most_once. etrans; [|exact Hl]. clear Hl.
  assert (length (filter (λ m, key_matches m.1 name = true) (rendered ind l d)) =
    length (filter (λ k, key_matches k name = true) (map fst l))) as ->.
  { clear Hs. unfold rendered. induction l as [|[k v] l IH]; [done|]. cbn [map fst snd]. rewrite !filter_cons. cbn [fst].
    destruct (decide _); cbn [length]; lia. }
  apply sublist_length. clear ind d. remember (map fst l) as ks. clear Heqks.
  induction Hs as [|k ks keys _ IH|k ks keys _ IH]; [done|..]; rewrite !filter_cons; case_decide; by repeat constructor.
Qed.

Definition discovery_keys := map json_string ["mode"; "host"; "port"; "useTLS"; "tlsServerName"].
Definition roodox_keys := map json_string ["serverID"; "deviceGroup"; "sharedSecret"; "deviceID"; "deviceName"; "deviceRole"].
Definition bundle_keys := map json_string ["version"; "overlayProvider"; "overlayJoinConfig"; "serviceDiscovery"; "roodox"].

Lemma omitempty_keys n v : map fst (omitempty n v) `sublist_of` [json_string n].
Proof. unfold omitempty. case_bool_decide; [apply sublist_nil_l|reflexivity]. Qed.

Lemma roodox_members_keys rx : map fst (roodox_members rx) `sublist_of` roodox_keys.
Proof.
  unfold roodox_members. rewrite !map_app.
  change roodox_keys with (map json_string ["serverID"; "deviceGroup"; "sharedSecret"] ++
    [json_string "deviceID"] ++ [json_string "deviceName"] ++ [json_string "deviceRole"]).
  apply sublist_app; [reflexivity|]. repeat apply sublist_app; apply omitempty_keys.
Qed.

Lemma discovery_members_keys sd : map fst (discovery_members sd) `sublist_of` discovery_keys.
Proof. reflexivity. Qed.

Ltac single Hs := apply (at_most_once_rendered _ _ _ _ _ Hs); vm_compute; reflexivity.

(** Field after field, the same from members in another order. *)
Ltac permute Hl Hs := by rewrite !(field_perm _ _ _ _ _ Hl) by single Hs.

Lemma discovery_perm ind sd l d old :
  discovery_members sd ≡ₚ l → discovery_fields (rendered ind (discovery_members sd) d) old = discovery_fields (rendered ind l d) old.
Proof. intros Hl%(rendered_perm ind _ _ d). unfold discovery_fields. permute Hl (discovery_members_keys sd). Qed.

Lemma roodox_perm ind rx l d old :
  roodox_members rx ≡ₚ l → roodox_fields (rendered ind (roodox_members rx) d) old = roodox_fields (rendered ind l d) old.
Proof.
  intros Hl%(rendered_perm ind _ _ d). unfold roodox_fields. permute Hl (roodox_members_keys rx).
Qed.

(** ** The envelope *)

Definition bundle_members (b : Bundle) (join discovery roodox : json) : list (string * json) := [
  (json_string "version", JUint (Version b));
  (json_string "overlayProvider", JString (ov_Provider (b_Overlay b)));
  (json_string "overlayJoinConfig", join);
  (json_string "serviceDiscovery", discovery);
  (json_string "roodox", roodox)].

Lemma bundle_members_keys b join sd rx : map fst (bundle_members b join sd rx) `sublist_of` bundle_keys.
Proof. reflexivity. Qed.

Lemma bundle_perm ind b join sd rx l d old :
  bundle_members b join sd rx ≡ₚ l →
  bundle_fields (rendered ind (bundle_members b join sd rx) d) old = bundle_fields (rendered ind l d) old.
Proof. intros Hl%(rendered_perm ind _ _ d). unfold bundle_fields. permute Hl (bundle_members_keys b join sd rx). Qed.
Lemma discovery_literals sd : Forall (λ m : string * json, ∃ t, m.2 = JLit t) (discovery_members sd).
Proof. repeat (apply Forall_cons; split; [by eexists|]). constructor. Qed.

Lemma roodox_literals rx : Forall (λ m : string * json, ∃ t, m.2 = JLit t) (roodox_members rx).
Proof.
  unfold roodox_members. rewrite !Forall_app. split_and!.
  1: repeat (apply Forall_cons; split; [by eexists|]); constructor.
  all: unfold omitempty; case_bool_decide; [constructor|apply Forall_singleton; by eexists].
Qed.

(** Another writing of a bundle's value. *)
Lemma reordered_file b w V :
  reordered (file_json b w) V →
  ∃ J dl rl l, reordered w J ∧ discovery_members (b_ServiceDiscovery b) ≡ₚ dl ∧ roodox_members (b_Roodox b) ≡ₚ rl ∧
    bundle_members b J (JObj dl) (JObj rl) ≡ₚ l ∧ V = JObj l.
Proof.
  intros Hr. inversion Hr as [| |? l1 l2 Hf Hp]; subst. fold (discovery_members (b_ServiceDiscovery b)) in Hf.
  fold (roodox_members (b_Roodox b)) in Hf. set (rm := roodox_members (b_Roodox b)) in *.
  set (dm := discovery_members (b_ServiceDiscovery b)) in *.
  apply Forall2_cons_inv_l in Hf as ([k1 v1] & l3 & [E1 R1] & Hf & ->).
  apply Forall2_cons_inv_l in Hf as ([k2 v2] & l4 & [E2 R2] & Hf & ->).
  apply Forall2_cons_inv_l in Hf as ([k3 v3] & l5 & [E3 R3] & Hf & ->).
  apply Forall2_cons_inv_l in Hf as ([k4 v4] & l6 & [E4 R4] & Hf & ->).
  apply Forall2_cons_inv_l in Hf as ([k5 v5] & l7 & [E5 R5] & Hf & ->).
  apply Forall2_nil_inv_l in Hf as ->. cbn [fst snd] in *. subst k1 k2 k3 k4 k5.
  inversion R1; subst. inversion R2; subst.
  apply (reordered_flat (discovery_members _)) in R4 as (dl & -> & Hd); [|apply discovery_literals].
  apply (reordered_flat (roodox_members _)) in R5 as (rl & -> & Hx); [|apply roodox_literals].
  exists v3, dl, rl, l2. by split_and!.
Qed.

Lemma wf_perm l l' : l ≡ₚ l' → wf (JObj l) → wf (JObj l').
Proof. intros Hp Hwf. inversion Hwf; subst. constructor. by rewrite <- Hp. Qed.

Lemma height_perm l l' : l ≡ₚ l' → height (JObj l') = height (JObj l).
Proof. intros Hp. cbn [height]. by rewrite (max_height_perm _ _ Hp). Qed.

Lemma dec_discovery ind d sd dl old :
  0 ≤ Port sd < two32 → utf8_discovery sd → discovery_members sd ≡ₚ dl →
  dec_struct discovery_fields (render ind d (JObj dl)) old = Some sd.
Proof.
  intros Hp Hu Hd. pose proof (discovery_wf sd ltac:(lia)) as Hwf.
  rewrite dec_struct_object; [|by eapply wf_perm|by rewrite (height_perm _ _ Hd)].
  by rewrite <- (discovery_perm ind _ _ _ _ Hd), discovery_decode.
Qed.

Lemma roodox_height rx : height (JObj (roodox_members rx)) ≤ max_depth.
Proof. unfold roodox_members, omitempty. by do 3 case_bool_decide. Qed.

Lemma dec_roodox ind d rx rl :
  utf8_roodox rx → roodox_members rx ≡ₚ rl →
  dec_struct roodox_fields (render ind d (JObj rl)) (b_Roodox zero_bundle) = Some rx.
Proof.
  intros Hu Hd. pose proof (roodox_wf rx) as Hwf. pose proof (roodox_height rx) as Hh.
  rewrite dec_struct_object; [|by eapply wf_perm|by rewrite (height_perm _ _ Hd)].
  rewrite <- (roodox_perm ind _ _ _ _ Hd). by apply roodox_decode.
Qed.

Lemma Unmarshal_reordered ind d b w V :
  numbers_ok b → utf8_bundle b → wf w → height (file_json b w) ≤ max_depth → reordered (file_json b w) V →
  ∃ J, reordered w J ∧ Unmarshal bundle_fields (render ind d V) zero_bundle = Some (with_join b (render ind (S d) J)).
Proof.
  intros Hn (U1 & U2 & U3) Hwf Hh Hr. pose proof (reordered_wf _ _ Hr (file_json_wf b w Hn Hwf)) as HwV.
  pose proof (reordered_height _ _ Hr) as HhV. destruct (reordered_file _ _ _ Hr) as (J & dl & rl & l & RJ & Hd & Hx & Hp & ->).
  exists J. split; [done|]. unfold Unmarshal. rewrite top_render by (done || lia). cbn [mbind option_bind].
  rewrite dec_struct_object by (done || lia). rewrite <- (bundle_perm ind b J (JObj dl) (JObj rl) l _ _ Hp).
  destruct Hn as [Hv Hport]. unfold bundle_fields, bundle_members. set (dj := JObj dl). set (rj := JObj rl).
  cbn [rendered map fst snd].
  change (render ind (S d) (JUint (Version b))) with (pretty (Version b)).
  change (render ind (S d) (JString (ov_Provider (b_Overlay b)))) with (json_string (ov_Provider (b_Overlay b))).
  repeat (rewrite field_cons; cbn [fst snd]; decide_keys;
    rewrite ?dec_string_json, ?dec_uint32_pretty, ?(dec_discovery _ _ _ _ _ Hport U2 Hd), ?(dec_roodox _ _ _ _ U3 Hx) by done;
    cbn [mbind option_bind dec_raw]).
  rewrite !field_nil. cbn [mbind option_bind]. by rewrite U1.
Qed.

(** *** The envelope of a code *)

Definition envelope_members (bundle : json) (pem : string) : list (string * json) :=
  [(json_string "version", JUint 1); (json_string "bundle", bundle)] ++ omitempty "ca_pem" pem.
Definition envelope_json (bundle : json) (pem : string) : json := JObj (envelope_members bundle pem).
Definition envelope_keys := map json_string ["version"; "bundle"; "ca_pem"].

Lemma envelope_members_keys v pem : map fst (envelope_members v pem) `sublist_of` envelope_keys.
Proof.
  unfold envelope_members. rewrite map_app.
  change envelope_keys with (map json_string ["version"; "bundle"] ++ [json_string "ca_pem"]).
  apply sublist_app; [reflexivity|apply omitempty_keys].
Qed.

Lemma envelope_perm ind v pem l d old :
  envelope_members v pem ≡ₚ l →
  envelope_fields (rendered ind (envelope_members v pem) d) old = envelope_fields (rendered ind l d) old.
Proof. intros Hl%(rendered_perm ind _ _ d). unfold envelope_fields. permute Hl (envelope_members_keys v pem). Qed.

Lemma reordered_envelope v pem e :
  reordered (envelope_json v pem) e → ∃ V l, reordered v V ∧ envelope_members V pem ≡ₚ l ∧ e = JObj l.
Proof.
  intros Hr. inversion Hr as [| |? l1 l2 Hf Hp]; subst.
  apply Forall2_app_inv_l in Hf as (lh & lt & Hf & Ht & ->).
  apply Forall2_cons_inv_l in Hf as ([k1 v1] & l3 & [E1 R1] & Hf & ->).
  apply Forall2_cons_inv_l in Hf as ([k2 v2] & l4 & [E2 R2] & Hf & ->).
  apply Forall2_nil_inv_l in Hf as ->. cbn [fst snd] in *. subst k1 k2. inversion R1; subst.
  apply reordered_literals in Ht as ->.
  - by exists v2, l2.
  - unfold omitempty. case_bool_decide; [constructor|apply Forall_singleton; by eexists].
Qed.

Lemma envelope_wf v pem : wf v → wf (envelope_json v pem).
Proof.
  intros Hv. constructor. unfold envelope_members. apply Forall_app. split.
  - repeat (apply Forall_cons; split; [split; [apply json_string_key|]|]); [by apply JUint_wf|done|constructor].
  - unfold omitempty. case_bool_decide; [constructor|]. apply Forall_singleton, string_member_wf.
Qed.

Lemma field_other {A} (dec : string → A → option A) ind name n v d ms zero :
  key_matches (json_string n) name = false →
  field dec name (rendered ind (omitempty n v) d ++ ms) zero = field dec name ms zero.
Proof.
  intros Hk. unfold omitempty. case_bool_decide; [done|]. cbn [rendered map app]. rewrite field_cons. cbn [fst].
  by rewrite Hk.
Qed.

Lemma Unmarshal_envelope ind v pem e :
  wf v → utf8 pem → reordered (envelope_json v pem) e → height e ≤ max_depth →
  ∃ V, reordered v V ∧ Unmarshal envelope_fields (render ind 0 e) (mkEnvelope 0 "" "") = Some (mkEnvelope 1 (render ind 1 V) pem).
Proof.
  intros Hwf Hu Hr Hh. pose proof (reordered_wf _ _ Hr (envelope_wf v pem Hwf)) as Hwe.
  destruct (reordered_envelope _ _ _ Hr) as (V & l & RV & Hp & ->). exists V. split; [done|].
  unfold Unmarshal. rewrite top_render by done. cbn [mbind option_bind]. rewrite dec_struct_object by done.
  rewrite <- (envelope_perm ind V pem l _ _ Hp). unfold envelope_fields, envelope_members.
  rewrite <- (app_nil_r (omitempty "ca_pem" pem)).
  assert (∀ n v rest, rendered ind (n :: v :: rest) 1 = rendered ind [n; v] 1 ++ rendered ind rest 1) as Hsplit by done.
  cbn [app]. rewrite Hsplit. unfold rendered at 2 4 6. rewrite !map_app. fold (rendered ind (omitempty "ca_pem" pem) 1).
  cbn [rendered map app fst snd]. change (render ind 1 (JUint 1)) with (pretty 1).
  repeat ((rewrite field_cons; cbn [fst snd]; decide_keys; rewrite ?dec_uint32_pretty by done; cbn [mbind option_bind dec_raw])
    || (rewrite field_omitempty; decide_keys)).
  rewrite !field_other by reflexivity. rewrite !field_nil. cbn [mbind option_bind]. rewrite Hu. case_bool_decide; by subst.
Qed.

(** *** Escaped values *)

Lemma map_fixes {A} (f : A → A) l : map f l = l ↔ Forall (λ x, f x = x) l.
Proof.
  induction l as [|x l IH]; [done|]. cbn [map]. rewrite Forall_cons, <- IH. split; [by intros [= -> ->]|by intros [-> ->]].
Qed.

Lemma reordered_escape w J : reordered w J → escape_html w = w → escape_html J = J.
Proof.
  revert J. induction w as [t|l IH|l IH] using json_rec'; intros J Hr E;
    inversion Hr as [|? l' Hf|? l1 l2 Hf Hp]; subst; [done|..]; injection E as E; cbn [escape_html]; f_equal; clear Hr;
    rewrite map_fixes in E |- *.
  - induction Hf as [|x y l l' Hx Hf IHl]; [constructor|].
    apply Forall_cons in IH as [IHx IH]. apply Forall_cons in E as [Ex E]. constructor; auto.
  - rewrite <- Hp. clear Hp. induction Hf as [|[k x] [k' y] l l' [Ek Hx] Hf IHl]; [constructor|]. cbn in Ek, Hx. subst k'.
    apply Forall_cons in IH as [IHx IH]. apply Forall_cons in E as [[= Ek Ex] E]. constructor; [|auto].
    cbn [fst snd]. rewrite Ek. f_equal. by apply IHx.
Qed.

Lemma reordered_join b w J : reordered w J → reordered (file_json b w) (file_json b J).
Proof. intros Hr. econstructor; [|reflexivity]. repeat constructor; try done; apply reordered_refl. Qed.
End fields.

(** ** Importing what was issued *)

Section imported.
Context `{WorkDir} `{GoUnicode} `{GoUrl}.

Lemma render_nonempty ind d v : wf v → render ind d v ≠ "".
Proof. intros Hwf E. pose proof (render_starts ind d v Hwf) as Hst. by rewrite E in Hst. Qed.

Lemma b64_encode_nonempty s : s ≠ "" → b64_encode s ≠ "".
Proof. by destruct s as [|? [|? [|]]]. Qed.

Lemma decode_payload raw e x :
  carries_code raw (b64_encode (render false 0 e)) → wf e →
  Unmarshal envelope_fields (render false 0 e) (mkEnvelope 0 "" "") = Some x →
  decodeConnectionCode raw =
    if negb (ev_Version x =? 1)
    then Err (ErrNew ("unsupported connection code version: " +:+ pretty (ev_Version x)))
    else
      try p := parseBundleJSON (ev_Bundle x) in
      let caPEM := normalizePEM (ev_CAPEM x) in
      if UseTLS (b_ServiceDiscovery p.1) && bool_decide (caPEM = "")
      then Err (ErrNew "connection code is missing the TLS root certificate")
      else Ok (mkDecoded p.1 p.2 caPEM).
Proof.
  intros Hc Hwf Hx. unfold decodeConnectionCode.
  rewrite (extract_payload raw _ (b64_encode_text _) (b64_encode_nonempty _ (render_nonempty _ _ _ Hwf)) Hc).
  cbn [res_bind]. by rewrite b64_decode_encode, Hx.
Qed.

Lemma normalizePEM_blank pem : normalizePEM pem = "" ↔ TrimSpace pem = "".
Proof.
  unfold normalizePEM. cbn zeta. case_bool_decide as E; [done|]. split; [|done]. by destruct (TrimSpace pem).
Qed.

(** What the import program makes of a code. *)
Lemma code_decodes config req text m pem v e raw :
  IssueJoinBundle (Control.normalizeControlPlaneConfig config) req = Ok (text, m) →
  Forall utf8 (texts_of m) → 0 ≤ pb_ServicePort m < two32 → utf8 pem →
  parse text = Some v → reordered (envelope_json v pem) e → height e ≤ max_depth →
  carries_code raw (b64_encode (render false 0 e)) →
  ∃ b j J, issued_as b j text m ∧ reordered (escape_html j) J ∧ parse (render false 2 J) = Some J ∧
    v = file_json b (escape_html j) ∧ parse (render true 0 (file_json b J)) = Some (file_json b J) ∧
    decodeConnectionCode raw =
      if pb_UseTls m && bool_decide (TrimSpace pem = "")
      then Err (ErrNew "connection code is missing the TLS root certificate")
      else Ok (mkDecoded (with_join b (render false 2 J)) (render true 0 (file_json b J)) (normalizePEM pem)).
Proof.
  intros Hi Hu Hp Hpem Hv He Hh Hc.
  destruct (issued_bundle _ _ _ _ Hi Hu Hp) as (b & j & Hia). pose proof Hia as [Hb <- Hn Hutf Hval Hj Hwf Ht Hht].
  assert (v = file_json b (escape_html j)) as ->.
  { rewrite Ht, parse_render in Hv by auto using file_json_wf. congruence. }
  pose proof (file_json_wf b _ Hn Hwf) as Hwv.
  destruct (Unmarshal_envelope false _ pem e Hwv Hpem He Hh) as (V & RV & HV).
  destruct (Unmarshal_reordered false 1 b _ V Hn Hutf Hwf Hht RV) as (J & RJ & HJ).
  pose proof (reordered_wf _ _ RJ Hwf) as HwJ. pose proof (reordered_escape _ _ RJ (escape_html_idemp j)) as EJ.
  pose proof (reordered_join b _ _ RJ) as RF. pose proof (reordered_height _ _ RF) as HF.
  assert (height J ≤ max_depth) as HhJ.
  { pose proof (height_members _ (json_string "overlayJoinConfig", J) _ ltac:(right; right; left) (eq_ind_r (λ h, h ≤ max_depth) Hht HF)) as Hm.
    clear -Hm. cbn in Hm. lia. }
  assert (parse (render false 2 J) = Some J) as HpJ by (by apply parse_render).
  exists b, j, J. split_and!; [done|done|done|done|by apply parse_render; [apply file_json_wf|rewrite HF]|].
  rewrite (decode_payload raw e _ Hc (reordered_wf _ _ He (envelope_wf _ _ Hwv)) HV). cbn [ev_Version ev_Bundle ev_CAPEM].
  change (negb (1 =? 1)) with false. cbn iota.
  rewrite (import_bundle b J (render false 2 J) (render false 1 V) Hn Hb Hval HwJ); [| |done|by apply render_nonempty| |done].
  2: by rewrite EJ, HF.
  2: by apply render_nonempty, (reordered_wf _ _ RV).
  cbn [res_bind fst snd]. cbn zeta. rewrite EJ.
  change (UseTLS (b_ServiceDiscovery (with_join b (render false 2 J)))) with (pb_UseTls (message_of b)).
  by assert (bool_decide (normalizePEM pem = "") = bool_decide (TrimSpace pem = "")) as ->
    by (apply bool_decide_ext, normalizePEM_blank).
Qed.

(** C26: A connection code carries what the server issued.  Take the JSON that
    IssueJoinBundle answers and a PEM text, put them into an envelope whose
    objects have their members in any order, encode it with base64, and make a
    connection code or a roodox:// URI of it, broken over lines or not: the
    import program decodes the same message as the server reported, with its
    configuration of the overlay, the JSON that it writes to the bundle file is
    the issued value up to the order of members, and the certificate is the
    trimmed PEM text.  Only a bundle for TLS without a certificate is
    refused. *)
Theorem connection_code_imported config req text m pem v e raw :
  IssueJoinBundle (Control.normalizeControlPlaneConfig config) req = Ok (text, m) →
  Forall utf8 (texts_of m) → 0 ≤ pb_ServicePort m < two32 → utf8 pem →
  parse text = Some v → reordered (envelope_json v pem) e → height e ≤ max_depth →
  carries_code raw (b64_encode (render false 0 e)) →
  if pb_UseTls m && bool_decide (TrimSpace pem = "")
  then decodeConnectionCode raw = Err (ErrNew "connection code is missing the TLS root certificate")
  else ∃ d j J V, decodeConnectionCode raw = Ok d ∧
    message_of (with_join (dc_bundle d) (pb_OverlayJoinConfigJson m)) = m ∧
    parse (pb_OverlayJoinConfigJson m) = Some j ∧ parse (ov_JoinConfig (b_Overlay (dc_bundle d))) = Some J ∧
    reordered (escape_html j) J ∧
    parse (dc_bundleJSON d) = Some V ∧ reordered v V ∧ dc_caPEM d = normalizePEM pem.
Proof.
  intros Hi Hu Hp Hpem Hv He Hh Hc.
  destruct (code_decodes _ _ _ _ _ _ _ _ Hi Hu Hp Hpem Hv He Hh Hc) as (b & j & J & Hia & RJ & HpJ & -> & HpF & ->).
  pose proof (ia_message _ _ _ _ Hia) as <-. destruct (_ && _); [done|].
  eexists _, j, J, (file_json b J). cbn [dc_bundle dc_bundleJSON dc_caPEM].
  split_and!; [done|by destruct b as [? [] [] []]|by apply (ia_join _ _ _ _ Hia)|done|done|done|by apply reordered_join|done].
Qed.
End imported.

(** ** The files of an import *)

Lemma newline_keeps_start s : s ≠ "" → starts_space space2 space3 s = false →
  starts_space space2 space3 (s +:+ String (ch 10) "") = false.
Proof.
  assert (∀ a, space2 a (ch 10) = false) as H2 by (by intros [[] [] [] [] [] [] [] []]).
  assert (∀ a b, space3 a b (ch 10) = false) as H3.
  { intros a b. unfold space3. change (byte_in 128 138 (ch 10)) with false. change (byte_in 168 169 (ch 10)) with false.
    repeat match goal with |- context [Ascii.eqb (ch 10) ?c] => change (Ascii.eqb (ch 10) c) with false end.
    by rewrite !andb_false_r. }
  destruct s as [|a [|b [|c s]]]; [done|..]; cbn [String.append starts_space]; rewrite ?H2, ?H3, ?orb_false_r; auto.
Qed.

Lemma TrimSpace_newline s : TrimSpace (TrimSpace s +:+ String (ch 10) "") = TrimSpace s.
Proof.
  pose proof (TrimSpace_idem s) as E. set (t := TrimSpace s) in *. destruct (decide (t = "")) as [-> | Hne]; [done|].
  unfold TrimSpace, TrimLeftSpace in E |- *.
  destruct (trim_with_spec space2 space3 t) as [Hs [p Hp]].
  assert (starts_space space2 space3 t = false) as Ht.
  { destruct (TrimRightSpace_spec (trim_with space2 space3 t)) as [[q Hq] _]. rewrite E in Hq. rewrite Hq in Hs.
    by apply starts_space_prefix in Hs. }
  rewrite (trim_with_id _ _ t Ht) in E. rewrite trim_with_id by (by apply newline_keeps_start).
  unfold TrimRightSpace in E |- *. rewrite srev_snoc. cbn [trim_with]. change (space1 (ch 10)) with true. exact E.
Qed.

Lemma starts_space_first p2 p3 a s :
  space1 a = false → (∀ b, p2 a b = false) → (∀ b c, p3 a b c = false) → starts_space p2 p3 (String a s) = false.
Proof. intros H1 H2 H3. destruct s as [|b [|c s]]; cbn; by rewrite ?H1, ?H2, ?H3. Qed.

(** The path of a text file. *)
Lemma TrimSpace_path s : TrimSpace (String slash (s +:+ "t")) = String slash (s +:+ "t").
Proof.
  unfold TrimSpace, TrimLeftSpace, TrimRightSpace.
  rewrite (trim_with_id _ _ (String slash _)) by (by apply starts_space_first).
  change (String slash (s +:+ "t")) with (String slash s +:+ "t"). rewrite srev_snoc, trim_with_id.
  - rewrite <- srev_snoc. apply srev_involutive.
  - apply starts_space_first; [done|by intros [[] [] [] [] [] [] [] []]|].
    intros x y. unfold space3. cbn. by rewrite ?andb_false_r.
Qed.

Lemma code_path_trimmed dir :
  TrimSpace (abs_path (dir ++ [connectionCodeName])) = abs_path (dir ++ [connectionCodeName]).
Proof.
  assert (∃ p, abs_path (dir ++ [connectionCodeName]) = String slash (p +:+ "t")) as [p ->]; [|apply TrimSpace_path].
  destruct dir as [|d dir]; [by exists "roodox-connection-code.tx"|].
  exists (Join Separator (d :: dir) +:+ Separator +:+ "roodox-connection-code.tx").
  unfold abs_path. rewrite Join_app by done. unfold Separator. cbn [String.append]. f_equal. by rewrite <- !append_assoc.
Qed.

Section files.
Context `{WorkDir} `{GoUnicode} `{GoUrl} (flt : Faults) (now : Z).

Definition stored (t : OsState) (p : string) (s : string) : Prop := os_ReadFile no_faults p t = Ok (bytes_of_string s).

Lemma stored_file t k s mt :
  Forall plain k → node_at t k = Some (FileNode (bytes_of_string s) mt) → linked t k → stored t (abs_path k) s.
Proof.
  intros Hpl Hn Hl. unfold stored, os_ReadFile. cbn [no_faults os_fault res_bind]. rewrite path_key_abs_path by done.
  by assert (os_lookup t k = Ok (FileNode (bytes_of_string s) mt)) as -> by (by apply os_lookup_linked).
Qed.

Lemma stored_kept ks dir t t' k s :
  Forall plain k → frame ks dir t t' → (∀ x, x ∈ ks → ¬ x `prefix_of` k) → stored t (abs_path k) s → stored t' (abs_path k) s.
Proof.
  intros Hpl Hf Hks. unfold stored, os_ReadFile. cbn [no_faults os_fault res_bind]. rewrite path_key_abs_path by done.
  destruct (os_lookup t k) as [[|c mt]|] eqn:E; [done| |done]. intros [= ->].
  apply os_lookup_linked in E as [En El].
  assert (os_lookup t' k = Ok (FileNode (bytes_of_string s) mt)) as ->; [|done].
  apply os_lookup_linked. split.
  - rewrite <- En. apply Hf; [|by eexists]. intros Hin. by apply (Hks _ Hin).
  - eapply frame_linked; [done| |done]. intros x Hin Hp. by destruct (Hks _ Hin).
Qed.

(** One file of the import. *)
Lemma written dir name text t t' :
  Forall plain dir → plain name →
  os_WriteFile flt now (JoinPath (abs_path dir) name) (bytes_of_string text) t = (t', Ok tt) →
  stored t' (JoinPath (abs_path dir) name) text ∧ frame [dir ++ [name]] dir t t' ∧
  (∀ other s, plain other → other ≠ name → stored t (JoinPath (abs_path dir) other) s → stored t' (JoinPath (abs_path dir) other) s).
Proof.
  intros Hd Hn Hw.
  assert (∀ x, plain x → Forall plain (dir ++ [x])) as Hpl by (intros x Hx; apply Forall_app; by rewrite Forall_singleton).
  rewrite join_abs in Hw |- * by done. pose proof (WriteFile_frame flt now _ (Hpl _ Hn) (bytes_of_string text) dir t) as Hf.
  rewrite Hw in Hf. apply WriteFile_Ok in Hw as [Hnode Hl]; [|by auto|by destruct dir]. split_and!; [by eapply stored_file; auto|done|].
  intros other s Ho Hne Hs. rewrite join_abs in Hs |- * by done. eapply stored_kept; [by auto|done| |done].
  intros x ->%list_elem_of_singleton Hp. apply prefix_length_eq in Hp; [|by rewrite !length_app].
  apply app_inv_head in Hp. congruence.
Qed.

Lemma MkdirAll_frame dir t : Forall plain dir → frame [] dir t (os_MkdirAll flt now (abs_path dir) t).1.
Proof. intros Hd. unfold os_MkdirAll. rewrite path_key_abs_path by done. apply (mkdirs_frame flt now []). Qed.

(** What an import leaves in the directory [dir]. *)
Record imported (dir : list string) (rawCode : string) (decoded : decodedConnectionCode) (t t' : OsState) (r : importResult) : Prop := {
  ir_code_path : im_ConnectionCode r = abs_path (dir ++ [connectionCodeName]);
  ir_code : stored t' (im_ConnectionCode r) (TrimSpace rawCode +:+ String (ch 10) "");
  ir_bundle : stored t' (im_BundlePath r) (dc_bundleJSON decoded);
  ir_ca : if bool_decide (dc_caPEM decoded = "") then im_CAPath r = ""
    else im_CAPath r = abs_path (dir ++ [caFileName]) ∧ stored t' (im_CAPath r) (dc_caPEM decoded);
  ir_addr : im_ServiceAddr r = bundleServiceAddr (dc_bundle decoded);
  ir_frame : frame (map (λ name, dir ++ [name]) [connectionCodeName; bundleFileName; caFileName]) dir t t';
}.

Lemma import_files outputDir rawCode decoded t t' r dir :
  root_at (TrimSpace outputDir) dir →
  writeImportArtifacts flt now outputDir rawCode decoded t = (t', Ok r) → imported dir rawCode decoded t t' r.
Proof.
  intros [Ha Hd] Hw. unfold writeImportArtifacts in Hw. rewrite Ha in Hw.
  apply go_bind_Ok in Hw as (t0 & ? & [= <- <-] & Hw). cbn beta zeta in Hw.
  apply go_bind_Ok in Hw as (t1 & [] & Hm%go_map_err_Ok & Hw). pose proof (MkdirAll_frame dir t Hd) as F1. rewrite Hm in F1.
  apply go_bind_Ok in Hw as (t2 & [] & W2%go_map_err_Ok & Hw). apply written in W2 as (W2 & F2 & _); [|done..].
  apply go_bind_Ok in Hw as (t3 & [] & W3%go_map_err_Ok & Hw). apply written in W3 as (W3 & F3 & K3); [|done..].
  apply go_bind_Ok in Hw as (t4 & ca & Hca & [= <- <-]).
  assert (∀ name, name ∈ [connectionCodeName; bundleFileName; caFileName] →
    [dir ++ [name]] ⊆ map (λ name, dir ++ [name]) [connectionCodeName; bundleFileName; caFileName]) as Hin.
  { intros name Hn x Hx. apply list_elem_of_singleton in Hx as ->. by apply (list_elem_of_fmap_2 (λ name, dir ++ [name])). }
  assert (frame (map (λ name, dir ++ [name]) [connectionCodeName; bundleFileName; caFileName]) dir t t3) as F13.
  { etrans; [eapply frame_mono, F1; set_solver|]. etrans; [eapply frame_mono, F2; apply Hin; set_solver|].
    eapply frame_mono, F3; apply Hin; set_solver. }
  assert (stored t3 (JoinPath (abs_path dir) connectionCodeName) (TrimSpace rawCode +:+ String (ch 10) "")) as W23
    by (apply K3; done).
  destruct (bool_decide (dc_caPEM decoded = "")) eqn:Eca.
  - injection Hca as <- <-. split; cbn [im_ConnectionCode im_BundlePath im_CAPath im_ServiceAddr]; try done;
      [by apply join_abs|by rewrite Eca].
  - apply go_bind_Ok in Hca as (t5 & [] & W5%go_map_err_Ok & [= <- <-]). apply written in W5 as (W5 & F5 & K5); [|done..].
    split; cbn [im_ConnectionCode im_BundlePath im_CAPath im_ServiceAddr]; try done; [by apply join_abs|by apply K5|by apply K5|rewrite Eca; split; [by apply join_abs|done]|].
    etrans; [exact F13|]. eapply frame_mono, F5; apply Hin; set_solver.
Qed.

Lemma bytes_text s : String.string_of_list_byte (bytes_of_string s) = s.
Proof. apply String.string_of_list_byte_of_string. Qed.

Lemma decode_trimmed raw raw' : TrimSpace raw = TrimSpace raw' → decodeConnectionCode raw = decodeConnectionCode raw'.
Proof. intros E. unfold decodeConnectionCode, extractEncodedPayload. by rewrite E. Qed.

(** An import can be done again from what it left.  A run of the program
    that does not fail, whatever calls of the system may fail, has decoded the
    code it was given; the code, the bundle and the certificate are in their
    files in the output directory and nothing else in the file system has
    changed but directories made on the way there; and a later run on the
    written code file decodes the same bundle and the same certificate. *)
Theorem import_repeatable connectionCode codeFile outputDir probed t t' r ok dir :
  root_at (TrimSpace outputDir) dir →
  main_program flt now connectionCode codeFile outputDir false probed t = (t', Ok (r, ok)) →
  ok = true ∧ ∃ raw decoded, decodeConnectionCode raw = Ok decoded ∧ imported dir raw decoded t t' r ∧
    ∃ again, loadConnectionCode no_faults "" (im_ConnectionCode r) t' = (t', Ok again) ∧ decodeConnectionCode again = Ok decoded.
Proof.
  intros Hd Hm. unfold main_program in Hm.
  apply go_bind_Ok in Hm as (t1 & raw & Hl & Hm). apply go_bind_Ok in Hm as (t2 & decoded & Hdec & Hm).
  apply go_bind_Ok in Hm as (t3 & r' & Hw & [= <- <- <-]). split; [done|].
  assert (t1 = t) as ->.
  { unfold loadConnectionCode in Hl. cbn zeta in Hl. destruct (_ && _); [done|]. destruct (negb _); [by injection Hl|].
    destruct (negb _); [|done]. apply go_bind_Ok in Hl as (t4 & data & Hr%go_map_err_Ok & [= <- _]). by injection Hr. }
  unfold go_lift in Hdec. injection Hdec as <- Hdec. pose proof (import_files _ _ _ _ _ _ _ Hd Hw) as Hi.
  exists raw, decoded. split_and!; [done|done|]. exists (TrimSpace raw +:+ String (ch 10) "").
  split; [|rewrite <- Hdec; apply decode_trimmed, TrimSpace_newline].
  pose proof (ir_code _ _ _ _ _ _ Hi) as Hc. unfold stored in Hc. rewrite (ir_code_path _ _ _ _ _ _ Hi) in Hc |- *.
  unfold loadConnectionCode. cbn zeta. rewrite code_path_trimmed. rewrite (bool_decide_eq_true_2 (TrimSpace "" = "")) by done.
  rewrite bool_decide_eq_false_2 by done. cbn [negb andb].
  apply go_bind_Ok. eexists _, _. split; [apply go_map_err_Ok; unfold go_read; by rewrite Hc|].
  unfold go_ret. by rewrite bytes_text.
Qed.
End files.
End ClientImportTheorems.

(** * The import program of a client: examples

    A code made from an issued bundle, with the members of its objects in
    another order and broken over lines, and what an import of it leaves. *)

Module ClientImportExamples.
Import Json JsonTheorems Net AccessBundle BundleTheorems ClientImport ClientImportTheorems.

#[local] Existing Instance ascii_only_unicode.
#[local] Instance at_root : WorkDir := { Getwd := Ok "/" }.
#[local] Instance lenient_url : GoUrl := { url_error := λ _, None }.

Definition ex_pem : string := " -----BEGIN CERTIFICATE----- ".

(** The value of the issued JSON, and an envelope with reversed objects. *)
Definition ex_members : list (string * json) := match parse ex_text with Some (JObj l) => l | _ => [] end.
Definition ex_envelope : json := JObj (rev (envelope_members (JObj (rev ex_members)) ex_pem)).
Definition ex_payload : string := b64_encode (render false 0 ex_envelope).
Definition ex_code : string := "roodox:1:" +:+ ex_payload.

(** A line end and a space after every byte. *)
Fixpoint broken_lines (s : string) : string :=
  match s with EmptyString => "" | String a s' => String a (String (ch 10) (String " " (broken_lines s'))) end.

Lemma broken_spaced s : spaced_out s (broken_lines s).
Proof. induction s as [|a s IH]; [constructor|]. by repeat constructor. Qed.

Lemma ex_parsed : parse ex_text = Some (JObj ex_members).
Proof. vm_compute. reflexivity. Qed.

Lemma reversed l : reordered (JObj l) (JObj (rev l)).
Proof. econstructor; [|apply Permutation_rev]. by induction l; constructor; [split; [|apply reordered_refl]|]. Qed.

Lemma ex_reordered : reordered (envelope_json (JObj ex_members) ex_pem) ex_envelope.
Proof.
  econstructor; [|apply Permutation_rev]. apply Forall2_app.
  - constructor; [split; [done|apply reordered_refl]|]. constructor; [split; [done|apply reversed]|constructor].
  - induction (omitempty "ca_pem" ex_pem); constructor; [split; [done|apply reordered_refl]|done].
Qed.

Lemma ex_pem_utf8 : utf8 ex_pem.
Proof. vm_compute. reflexivity. Qed.

Lemma ex_height : height ex_envelope ≤ max_depth.
Proof. apply (bool_decide_unpack _). by vm_compute. Qed.

Lemma ex_carries : carries_code (broken_lines ex_code) (b64_encode (render false 0 ex_envelope)).
Proof. left. apply broken_spaced. Qed.

Lemma ex_tls : pb_UseTls ex_message && bool_decide (TrimSpace ex_pem = "") = false.
Proof. vm_compute. reflexivity. Qed.

Lemma connection_code_imported_witness :
  ∃ d j J V, decodeConnectionCode (broken_lines ex_code) = Ok d ∧
    message_of (with_join (dc_bundle d) (pb_OverlayJoinConfigJson ex_message)) = ex_message ∧
    parse (pb_OverlayJoinConfigJson ex_message) = Some j ∧ parse (ov_JoinConfig (b_Overlay (dc_bundle d))) = Some J ∧
    reordered (escape_html j) J ∧
    parse (dc_bundleJSON d) = Some V ∧ reordered (JObj ex_members) V ∧ dc_caPEM d = normalizePEM ex_pem.
Proof.
  pose proof (connection_code_imported _ _ _ _ ex_pem _ _ (broken_lines ex_code) ex_issued_eq ex_utf8 ex_port ex_pem_utf8
    ex_parsed ex_reordered ex_height ex_carries) as Hd.
  rewrite ex_tls in Hd. exact Hd.
Defined.

(** The same as a URI, and texts that are refused. *)
Example ex_uri :
  match decodeConnectionCode (connectionURI ex_payload) with
  | Ok d => bool_decide (bundleServiceAddr (dc_bundle d) = "roodox.local:50051")
  | Err _ => false
  end = true.
Proof. vm_compute. reflexivity. Qed.

Example ex_refused_codes :
  map (λ raw, match decodeConnectionCode raw with Ok _ => "" | Err e => err_text e end)
    [""; "roodox:1: "; "roodox:1:e"; "roodox:1:" +:+ b64_encode "{}"; "ROODOX://connect?v=1"] =
  ["unsupported connection code format"; "connection code payload is empty";
   "decode connection code failed: illegal base64 data"; "unsupported connection code version: 0";
   "connection uri is missing payload"].
Proof. vm_compute. reflexivity. Qed.

(** ** An import *)

Definition run_result (x : OsState * result goerr (importResult * bool)) : importResult :=
  match x.2 with Ok (r, _) => r | Err _ => mkImport "" "" "" "" "" "" false false false "" end.
Definition run_ok (x : OsState * result goerr (importResult * bool)) : bool :=
  match x.2 with Ok (_, ok) => ok | Err _ => false end.

Lemma run_shape x : run_ok x = true → x = (x.1, Ok (run_result x, true)).
Proof. unfold run_ok, run_result. destruct x as [t [[r ok]|e]]; [|done]. cbn. by intros ->. Qed.

Lemma ex_run_ok : run_ok (main_program no_faults 7 (broken_lines ex_code) "" " /home/me/client " false (λ _, None) ∅) = true.
Proof. vm_compute. reflexivity. Qed.

Lemma ex_dir : root_at (TrimSpace " /home/me/client ") ["home"; "me"; "client"].
Proof. split; [vm_compute; reflexivity|]. by repeat constructor. Qed.

Lemma import_repeatable_witness : ∃ t' r, true = true ∧ ∃ raw decoded,
  decodeConnectionCode raw = Ok decoded ∧ imported ["home"; "me"; "client"] raw decoded ∅ t' r ∧
  ∃ again, loadConnectionCode no_faults "" (im_ConnectionCode r) t' = (t', Ok again) ∧ decodeConnectionCode again = Ok decoded.
Proof. eexists _, _. exact (import_repeatable no_faults 7 _ _ _ _ _ _ _ _ _ ex_dir (run_shape _ ex_run_ok)). Defined.
End ClientImportExamples.
