(* ===== verification/Client.v ===== *)
(** * The client library

    client/roodox_client.go: the options that a client dials with, and its
    calls.  What google.golang.org/grpc makes of the options is [rpc_metadata];
    the pool of certificates of crypto/x509 is the interface [CertPools].  A
    call goes through the generated stubs to a server: [Stubs], a record of one
    operation per RPC on the state of whatever answers. *)

From Stdlib Require Import Floats.SpecFloat.
From stdpp Require Import pretty.
From S2P Require Import Prelude GoStrings FsPath OsFs Database Hash World Mutations Leases BuildService Security Interceptors DeviceRegistry ControlPlane AdminRuntime AppConfig ServerConfig.
Open Scope string_scope.
Open Scope Z_scope.
Open Scope list_scope.

(** The certificates that [AppendCertsFromPEM] finds in a text, and the pool
    of the system, if it has one. *)
Class CertPools `{TLS.X509} := {
  pem_certificates (data : bytes) : list TLS.Certificate;
  SystemCertPool : option (list TLS.Certificate);
}.

Module Client.
Import ServerConfig.

Definition sharedSecretHeader : string := "x-roodox-secret".

(** ** Dialling *)

(** [insecure.NewCredentials()], or [credentials.NewTLS] with the roots and the
    name; without a name, that is the host of the address. *)
Inductive TransportCredentials :=
| Insecure
| NewTLS (RootCAs : list TLS.Certificate) (ServerName : option string).

Inductive DialOption :=
| WithTransportCredentials (creds : TransportCredentials)
| WithPerRPCCredentials (secret : string).

Section dial.
Context `{CertPools} (flt : Faults).

Definition loadClientTLSCredentials (rootCertPath serverName : string) (t : OsState) : result goerr TransportCredentials :=
  try pemData := map_err (ErrWrap "read tls root certificate failed") (os_ReadFile flt rootCertPath t) in
  let pool := default [] SystemCertPool in
  if bool_decide (pem_certificates pemData = []) then Err (ErrNew "append tls root certificate failed")
  else Ok (NewTLS (pool ++ pem_certificates pemData) (if bool_decide (serverName = "") then None else Some serverName)).

Definition buildDialOptions (opts : ConnectionOptions) (t : OsState) : result goerr (list DialOption) :=
  try transport :=
    (if co_TLSEnabled opts then
       if bool_decide (co_TLSRootCertPath opts = "") then Err (ErrNew "tls is enabled but tls_root_cert_path is empty")
       else
         try creds := loadClientTLSCredentials (co_TLSRootCertPath opts) (co_TLSServerName opts) t in
         Ok [WithTransportCredentials creds]
     else Ok [WithTransportCredentials Insecure]) in
  Ok (transport ++
      if bool_decide (co_SharedSecret opts = "") then [] else [WithPerRPCCredentials (co_SharedSecret opts)]).

(** [NewRoodoxClientWithOptions]: grpc.Dial only keeps the address and the
    options, a connection is made by the first call. *)
Record ClientConn := mkConn { cc_target : string; cc_options : list DialOption }.
Definition NewRoodoxClientWithOptions (addr : string) (opts : ConnectionOptions) (t : OsState) : result goerr ClientConn :=
  try dialOptions := buildDialOptions opts t in
  Ok (mkConn addr dialOptions).

Definition NewRoodoxClient (addr : string) (t : OsState) : result goerr ClientConn :=
  NewRoodoxClientWithOptions addr (mkConnection "" false "" "") t.
End dial.

(** ** The metadata of a call *)

(** [GetRequestMetadata] of the credentials of a secret. *)
Definition GetRequestMetadata (secret : string) : list (string * string) := [(sharedSecretHeader, secret)].

(** The metadata that the server gets of a call: that of the credentials, for
    each option, and then what the context has. *)
Definition add_header (kv : string * string) (md : Interceptors.MD) : Interceptors.MD :=
  <[kv.1 := Interceptors.md_Get kv.1 md ++ [kv.2]]> md.
Definition rpc_metadata (options : list DialOption) (outgoing : list (string * string)) : Interceptors.MD :=
  foldl (λ md kv, add_header kv md) ∅
    (concat (map (λ o, match o with WithPerRPCCredentials s => GetRequestMetadata s | _ => [] end) options) ++ outgoing).

(** [AppendSharedSecret] on the outgoing metadata of a context. *)
Definition AppendSharedSecret (outgoing : list (string * string)) (secret : string) : list (string * string) :=
  if bool_decide (secret = "") then outgoing else outgoing ++ [(sharedSecretHeader, secret)].

(** ** The calls *)

(** A call fails with a status of the server, or with one that grpc makes
    itself, of another code and a text. *)
Inductive ClientError :=
| FromServer (st : status)
| FromTransport (code text : string)
| Local (e : goerr).

Inductive ServingStatus := HealthUnknown | SERVING | NOT_SERVING | SERVICE_UNKNOWN.

Record Stubs (S : Type) := {
  core_ListDir (Path : string) : go S ClientError (list Core.FileInfoPb);
  core_Stat (Path : string) : go S ClientError Core.FileInfoPb;
  core_ReadFile (Path : string) : go S ClientError bytes;
  core_ReadFileRange (Path : string) (Offset Length : Z) : go S ClientError (bytes * Z);
  core_WriteFileRange (Path : string) (Offset : Z) (Data : bytes) (BaseVersion : Z) : go S ClientError Core.WriteFileRangeResponse;
  core_SetFileSize (Path : string) (Size BaseVersion : Z) : go S ClientError Core.SetFileSizeResponse;
  sync_WriteFile (Path : string) (Data : bytes) (BaseVersion : Z) : go S ClientError Sync.WriteFileResponse;
  lock_AcquireLock (Path ClientId : string) (TtlSeconds : Z) : go S ClientError LockService.AcquireLockResponse;
  lock_RenewLock (Path ClientId : string) (TtlSeconds : Z) : go S ClientError LockService.RenewLockResponse;
  lock_ReleaseLock (Path ClientId : string) : go S ClientError bool;
  build_StartBuild (UnitPath Target : string) : go S ClientError string;
  build_GetBuildStatus (BuildId : string) : go S ClientError Build.StatusResponse;
  build_FetchBuildLog (BuildId : string) : go S ClientError bytes;
  build_GetBuildProduct (BuildId : string) : go S ClientError (string * bytes);
  version_GetHistory (Path : string) : go S ClientError (list VersionRecord);
  version_GetVersion (Path : string) (Version : Z) : go S ClientError bytes;
  control_RegisterDevice (req : Control.RegisterDeviceRequest) : go S ClientError Control.RegisterDeviceResponse;
  control_Heartbeat (req : Registry.DeviceHeartbeat) : go S ClientError Control.HeartbeatResponse;
  control_GetAssignedConfig (DeviceId : string) : go S ClientError Control.GetAssignedConfigResponse;
  control_ReportSyncState (req : Registry.DeviceSyncStateReport) : go S ClientError unit;
  admin_ListDevices : go S ClientError (list Control.DeviceSummary);
  admin_GetServerRuntime : go S ClientError AdminRuntime.GetServerRuntimeResponse;
  admin_GetServerObservability : go S ClientError AdminRuntime.GetServerObservabilityResponse;
  admin_TriggerServerBackup : go S ClientError AdminRuntime.TriggerServerBackupResponse;
  admin_ShutdownServer (Reason : string) : go S ClientError AdminRuntime.ShutdownServerResponse;
  health_Check : go S ClientError ServingStatus;
}.
Arguments core_ListDir {S}. Arguments core_Stat {S}. Arguments core_ReadFile {S}. Arguments core_ReadFileRange {S}.
Arguments core_WriteFileRange {S}. Arguments core_SetFileSize {S}. Arguments sync_WriteFile {S}.
Arguments lock_AcquireLock {S}. Arguments lock_RenewLock {S}. Arguments lock_ReleaseLock {S}.
Arguments build_StartBuild {S}. Arguments build_GetBuildStatus {S}. Arguments build_FetchBuildLog {S}. Arguments build_GetBuildProduct {S}.
Arguments version_GetHistory {S}. Arguments version_GetVersion {S}.
Arguments control_RegisterDevice {S}. Arguments control_Heartbeat {S}. Arguments control_GetAssignedConfig {S}. Arguments control_ReportSyncState {S}.
Arguments admin_ListDevices {S}. Arguments admin_GetServerRuntime {S}. Arguments admin_GetServerObservability {S}.
Arguments admin_TriggerServerBackup {S}. Arguments admin_ShutdownServer {S}. Arguments health_Check {S}.

(** *** Seconds of a lease *)

(** [Duration.Seconds] in binary64, and the conversion to uint32, which cuts
    off the fraction. *)
Definition to_float (z : Z) : spec_float := binary_normalize 53 1024 z 0 false.
Definition Seconds (d : Z) : spec_float :=
  SFadd 53 1024 (to_float (Z.quot d 1000000000)) (SFdiv 53 1024 (to_float (Z.rem d 1000000000)) (to_float 1000000000)).
Definition uint32_of_float (f : spec_float) : Z :=
  match f with
  | S754_finite negative m e =>
      let v := if 0 <=? e then Z.pos m * 2 ^ e else Z.pos m / 2 ^ (- e) in
      wrap_uint32 (if negative then - v else v)
  | _ => 0
  end.
Definition lease_seconds (ttl : Z) : Z :=
  let sec := uint32_of_float (Seconds ttl) in if sec =? 0 then 30 else sec.

Section calls.
Context {S : Type} (c : Stubs S).

Definition ListDir (path : string) : go S ClientError (list Core.FileInfoPb) := core_ListDir c path.
Definition Stat (path : string) : go S ClientError Core.FileInfoPb := core_Stat c path.
Definition ReadFile (path : string) : go S ClientError bytes := core_ReadFile c path.
Definition ReadFileRange (path : string) (offset length : Z) : go S ClientError (bytes * Z) := core_ReadFileRange c path offset length.
Definition WriteFileRangeWithVersion (path : string) (offset : Z) (data : bytes) (baseVersion : Z) :
    go S ClientError Core.WriteFileRangeResponse := core_WriteFileRange c path offset data baseVersion.
Definition WriteFileRange (path : string) (offset : Z) (data : bytes) : go S ClientError Core.WriteFileRangeResponse :=
  WriteFileRangeWithVersion path offset data 0.
Definition SetFileSize (path : string) (size baseVersion : Z) : go S ClientError Core.SetFileSizeResponse :=
  core_SetFileSize c path size baseVersion.
Definition WriteFile (path : string) (data : bytes) (baseVersion : Z) : go S ClientError Sync.WriteFileResponse :=
  sync_WriteFile c path data baseVersion.
Definition AcquireLock (path clientID : string) (ttl : Z) : go S ClientError LockService.AcquireLockResponse :=
  lock_AcquireLock c path clientID (lease_seconds ttl).
Definition RenewLock (path clientID : string) (ttl : Z) : go S ClientError LockService.RenewLockResponse :=
  lock_RenewLock c path clientID (lease_seconds ttl).
Definition ReleaseLock (path clientID : string) : go S ClientError bool := lock_ReleaseLock c path clientID.
Definition StartBuild (unitPath target : string) : go S ClientError string := build_StartBuild c unitPath target.
Definition GetBuildStatus (buildID : string) : go S ClientError Build.StatusResponse := build_GetBuildStatus c buildID.
Definition FetchBuildLog (buildID : string) : go S ClientError bytes := build_FetchBuildLog c buildID.
Definition GetBuildProduct (buildID : string) : go S ClientError (string * bytes) := build_GetBuildProduct c buildID.
Definition GetHistory (path : string) : go S ClientError (list VersionRecord) := version_GetHistory c path.
Definition GetVersion (path : string) (version : Z) : go S ClientError bytes := version_GetVersion c path version.
Definition RegisterDevice (req : Control.RegisterDeviceRequest) : go S ClientError Control.RegisterDeviceResponse :=
  control_RegisterDevice c req.
Definition Heartbeat (req : Registry.DeviceHeartbeat) : go S ClientError Control.HeartbeatResponse := control_Heartbeat c req.
Definition GetAssignedConfig (deviceID : string) : go S ClientError Control.GetAssignedConfigResponse :=
  control_GetAssignedConfig c deviceID.
Definition ReportSyncState (req : Registry.DeviceSyncStateReport) : go S ClientError unit := control_ReportSyncState c req.
Definition ListDevices : go S ClientError (list Control.DeviceSummary) := admin_ListDevices c.
Definition GetServerRuntime : go S ClientError AdminRuntime.GetServerRuntimeResponse := admin_GetServerRuntime c.
Definition GetServerObservability : go S ClientError AdminRuntime.GetServerObservabilityResponse := admin_GetServerObservability c.
Definition TriggerServerBackup : go S ClientError AdminRuntime.TriggerServerBackupResponse := admin_TriggerServerBackup c.
Definition ShutdownServer (reason : string) : go S ClientError AdminRuntime.ShutdownServerResponse := admin_ShutdownServer c reason.
Definition HealthCheck : go S ClientError ServingStatus := health_Check c.
End calls.

Example seconds_of_leases : map lease_seconds [0; 500000000; 10000000000; 15000000000; 1999999999; 4294967296000000000] = [30; 30; 10; 15; 1; 30].
Proof. vm_compute. reflexivity. Qed.
End Client.
