(* ===== verification/ClientTheorems.v ===== *)
(** * The client library: theorems

    What a client presents to the server, and the way of a connection code from
    the server that issued it to a call that the server admits. *)

From stdpp Require Import pretty.
From S2P Require Import Prelude GoStrings StringLists FsPath OsFs Artifacts Hash GoTime Recorder Security Interceptors Json JsonTheorems Net ControlPlane Bundle BundleTheorems AppConfig ServerConfig ServerConfigTheorems ClientImport ClientImportTheorems Client TlsExamples.
Open Scope string_scope.
Open Scope Z_scope.
Open Scope list_scope.

Module ClientTheorems.
Import Interceptors Json JsonTheorems BundleTheorems ServerConfig ServerConfigTheorems ClientImport ClientImportTheorems Client.

Section theorems.
Context `{CertPools} (flt : Faults).

(** What a client's calls present. *)
Lemma presented_secret opts t dial ctx :
  buildDialOptions flt opts t = Ok dial → ctx_md ctx = Some (rpc_metadata dial []) →
  presented ctx = if bool_decide (co_SharedSecret opts = "") then None else Some (co_SharedSecret opts).
Proof.
  intros Hd Hc. unfold presented. rewrite Hc. unfold buildDialOptions in Hd.
  apply res_bind_Ok in Hd as (transport & Ht & [= <-]).
  assert (∃ creds, transport = [WithTransportCredentials creds]) as [creds ->].
  { destruct (co_TLSEnabled opts); [|injection Ht as <-; by eexists]. destruct (bool_decide _); [done|].
    apply res_bind_Ok in Ht as (creds & _ & [= <-]). by eexists. }
  clear Ht. unfold rpc_metadata, md_Get. case_bool_decide; [reflexivity|]. cbn. unfold add_header, md_Get. by rewrite lookup_insert_eq.
Qed.

(** Appending the secret to the context of a call presents it as well. *)
Lemma presented_appended opts secret ctx :
  secret ≠ "" → presented {| ctx_md := Some (rpc_metadata [WithTransportCredentials opts] (AppendSharedSecret [] secret));
                             ctx_request_id := ctx_request_id ctx; ctx_method := ctx_method ctx |} = Some secret.
Proof.
  intros Hs. unfold AppendSharedSecret. rewrite bool_decide_eq_false_2 by done.
  unfold presented, rpc_metadata, md_Get. cbn. unfold add_header, md_Get. by rewrite lookup_insert_eq.
Qed.

(** The root that was stored is trusted. *)
Lemma stored_root_trusted path name pem t :
  stored t path pem → pem_certificates (bytes_of_string pem) ≠ [] →
  ∃ roots, loadClientTLSCredentials no_faults path name t =
    Ok (NewTLS roots (if bool_decide (name = "") then None else Some name)) ∧ pem_certificates (bytes_of_string pem) ⊆ roots.
Proof.
  intros Hs Hne. unfold loadClientTLSCredentials. rewrite Hs. cbn [map_err res_bind]. cbn zeta.
  rewrite bool_decide_eq_false_2 by done. eexists. split; [done|]. set_solver.
Qed.
End theorems.

(** ** From the server to a call that it admits *)

Section admitted.
Context `{WD : WorkDir} `{GU : GoUnicode} `{UR : GoUrl} `{GL : GoLetters} `{PK : TLS.X509} `{CP : !CertPools} `{LZ : LocalZone}.

Lemma main_decodes flt now raw outputDir probed t t' r ok :
  main_program flt now raw "" outputDir false probed t = (t', Ok (r, ok)) →
  ∃ decoded, decodeConnectionCode raw = Ok decoded ∧ writeImportArtifacts flt now outputDir (TrimSpace raw) decoded t = (t', Ok r).
Proof.
  intros Hm. unfold main_program in Hm.
  apply go_bind_Ok in Hm as (t1 & raw' & Hl & Hm). apply go_bind_Ok in Hm as (t2 & decoded & Hdec & Hm).
  apply go_bind_Ok in Hm as (t3 & r' & Hw & [= <- <- <-]).
  assert (t1 = t ∧ raw' = TrimSpace raw) as [-> ->].
  { unfold loadConnectionCode in Hl. cbn zeta in Hl. change (TrimSpace "") with "" in Hl.
    rewrite (bool_decide_eq_true_2 ("" = "")) in Hl by done. cbn [negb] in Hl. rewrite andb_false_r in Hl.
    destruct (negb _); [by injection Hl as <- <-|done]. }
  unfold go_lift in Hdec. injection Hdec as <- Hdec. exists decoded. split; [|done].
  by rewrite <- Hdec, (decode_trimmed raw (TrimSpace raw)) by (by rewrite TrimSpace_idem).
Qed.

(** The certificates that an import for TLS has to have. *)
Definition usable_root (m : AccessBundle.JoinBundle) (pem : string) : Prop :=
  AccessBundle.pb_UseTls m = true → pem_certificates (bytes_of_string (normalizePEM pem)) ≠ [].

Lemma normal_name b : AccessBundle.Normalize b = b →
  TrimSpace (AccessBundle.TLSServerName (AccessBundle.b_ServiceDiscovery b)) = AccessBundle.TLSServerName (AccessBundle.b_ServiceDiscovery b).
Proof.
  intros Hb. rewrite <- Hb at 1. cbn [AccessBundle.Normalize AccessBundle.b_ServiceDiscovery AccessBundle.TLSServerName].
  rewrite TrimSpace_idem. by rewrite <- Hb at 2.
Qed.

(** The client of an imported bundle. *)
Lemma bundle_client cfg host port b join pem caPath ti :
  listens (AppConfig.Addr cfg) host port → leads cfg host port (message_of b) → AppConfig.AuthEnabled cfg = true →
  AccessBundle.Normalize b = b → usable_root (message_of b) pem →
  (AccessBundle.pb_UseTls (message_of b) = true →
   (∃ k, caPath = abs_path k) ∧ stored ti caPath (normalizePEM pem)) →
  ∃ copts conn, probe_options (with_join b join) caPath = Ok (TrimSpace (AppConfig.Addr cfg), copts) ∧
    co_SharedSecret copts = TrimSpace (AppConfig.SharedSecret cfg) ∧
    NewRoodoxClientWithOptions no_faults (TrimSpace (AppConfig.Addr cfg)) copts ti = Ok conn ∧
    (AppConfig.TLSEnabled cfg = true → ∃ roots name, WithTransportCredentials (NewTLS roots (Some name)) ∈ cc_options conn ∧
      pem_certificates (bytes_of_string (normalizePEM pem)) ⊆ roots).
Proof.
  intros Hl Hlead Hauth Hb Hroot Hca. pose proof (normal_name b Hb) as Ht. pose proof (leads_addr _ _ _ _ Hl Hlead) as Haddr.
  pose proof (ld_secret _ _ _ _ Hlead Hauth) as Hsec. pose proof (ld_tls _ _ _ _ Hlead) as Htls. pose proof (ld_name _ _ _ _ Hlead) as Hname.
  unfold usable_root in Hroot. cbn [message_of AccessBundle.pb_UseTls AccessBundle.pb_SharedSecret AccessBundle.pb_TlsServerName] in *.
  unfold probe_options, NewRoodoxClientWithOptions, buildDialOptions. cbn [with_join AccessBundle.b_ServiceDiscovery AccessBundle.b_Roodox].
  change (AccessBundle.bundleServiceAddr (with_join b join)) with (AccessBundle.bundleServiceAddr b). rewrite Haddr, Hsec, TrimSpace_idem.
  destruct (AccessBundle.UseTLS (AccessBundle.b_ServiceDiscovery b)) eqn:Eu; cbn [andb].
  - destruct (Hca eq_refl) as [[k ->] Hst]. rewrite bool_decide_eq_false_2 by apply abs_path_not_blank.
    eexists _. destruct (stored_root_trusted no_faults (abs_path k) (TrimSpace (AccessBundle.TLSServerName (AccessBundle.b_ServiceDiscovery b)))
      _ _ Hst (Hroot eq_refl)) as (roots & Hload & Hin).
    eexists. split; [done|]. cbn [co_SharedSecret co_TLSEnabled co_TLSRootCertPath co_TLSServerName]. split; [done|].
    rewrite bool_decide_eq_false_2 by done. rewrite Hload. cbn [res_bind]. split; [done|]. intros _.
    rewrite bool_decide_eq_false_2 by (rewrite Ht; by apply Hname). eexists _, _. split; [cbn [cc_options app]; left|exact Hin].
  - eexists _, _. split; [done|]. cbn. split; [done|]. split; [done|]. intros E. discriminate (Htls E).
Qed.

(** C25: An imported connection code makes a client that its server admits.
    Let the server's command issue a bundle from a configuration with
    authentication; let a connection code or URI be made of the bundle's JSON
    and the certificate of the root; and let the import program, run on the
    code on any machine, not fail.  Then the library makes a client from the
    options of the imported bundle and the written certificate; it dials the
    address that the server listens on, over TLS with that root and a name to
    check if the server has TLS; and a server started from the same
    configuration does and answers for every call with this client's metadata
    what its handler does: authentication never stands in the way. *)
Theorem imported_client_admitted getenv hostname cflt cfg opts t host port text m pem v e raw
    flt now outputDir dir probed t0 ti r ok sflt dir_size tls ts ts' sopts :
  listens (AppConfig.Addr cfg) host port →
  let discovery := AppConfig.jb_ServiceDiscovery (AppConfig.cp_JoinBundle (AppConfig.ControlPlane cfg)) in
  TrimSpace (AppConfig.sd_Host discovery) = "" → AppConfig.sd_Port discovery = 0 → AppConfig.AuthEnabled cfg = true →
  issueJoinBundle getenv hostname cflt cfg opts t = Ok (text, m) → Forall utf8 (texts_of m) → utf8 pem → usable_root m pem →
  parse text = Some v → reordered (envelope_json v pem) e → height e ≤ max_depth →
  carries_code raw (b64_encode (render false 0 e)) →
  root_at (TrimSpace outputDir) dir → main_program flt now raw "" outputDir false probed t0 = (ti, Ok (r, ok)) →
  BuildGRPCServerOptions sflt dir_size tls
    {| AuthEnabled := AppConfig.AuthEnabled cfg; SharedSecret := AppConfig.SharedSecret cfg; TLSEnabled := AppConfig.TLSEnabled cfg;
       TLSCertPath := AppConfig.TLSCertPath cfg; TLSKeyPath := AppConfig.TLSKeyPath cfg |} ts = (ts', Ok sopts) →
  ∃ d copts conn, decodeConnectionCode raw = Ok d ∧
    probe_options (dc_bundle d) (im_CAPath r) = Ok (TrimSpace (AppConfig.Addr cfg), copts) ∧
    NewRoodoxClientWithOptions no_faults (TrimSpace (AppConfig.Addr cfg)) copts ti = Ok conn ∧
    (AppConfig.TLSEnabled cfg = true → ∃ roots name, WithTransportCredentials (NewTLS roots (Some name)) ∈ cc_options conn ∧
      pem_certificates (bytes_of_string (normalizePEM pem)) ⊆ roots) ∧
    ∀ (App Req Resp : Type) (req_msg : Req → Message) (resp_msg : Resp → Message) env method ctx req handler (s : Server (App := App)),
      ctx_md ctx = Some (rpc_metadata (cc_options conn) []) →
      ∃ l, let '(s1, answer) := handler (injectRequestContext env ctx method) req (logged l s) in
        let '(s', answer') := chain_unary req_msg resp_msg env method (so_unary sopts) handler ctx req s in
        answer' = answer ∧ sv_app s' = sv_app s1.
Proof.
  intros Hl discovery Hh0 Hp0 Hauth Hi Hu Hpem Hroot Hv He Hh Hc Hdir Hm Hs.
  pose proof (issued_leads _ _ _ _ _ _ _ _ _ _ Hl Hh0 Hp0 Hi) as Hlead.
  unfold issueJoinBundle in Hi. cbn zeta in Hi.
  destruct (code_decodes _ _ _ _ _ _ _ _ Hi Hu ltac:(rewrite (ld_port _ _ _ _ Hlead); destruct Hl; lia) Hpem Hv He Hh Hc)
    as (b & j & J & Hia & RJ & HpJ & _ & _ & Hdec).
  destruct (main_decodes _ _ _ _ _ _ _ _ _ Hm) as (d & Hd & Hw). rewrite Hdec in Hd.
  pose proof (ia_message _ _ _ _ Hia) as Em. subst m.
  destruct (AccessBundle.pb_UseTls (message_of b) && bool_decide (TrimSpace pem = "")) eqn:Eb; [discriminate Hd|].
  injection Hd as <-. pose proof (import_files _ _ _ _ _ _ _ _ _ Hdir Hw) as Him. pose proof (ir_ca _ _ _ _ _ _ Him) as Hca.
  cbn [dc_caPEM] in Hca.
  pose proof (leads_addr _ _ _ _ Hl Hlead) as Haddr.
  destruct (bundle_client cfg host port b (render false 2 J) pem (im_CAPath r) ti Hl Hlead Hauth (ia_normal _ _ _ _ Hia) Hroot) as
    (copts & conn & Hpo & Hsec & Hconn & Htrust).
  { intros Htls. rewrite Htls in Eb. cbn [andb] in Eb. apply bool_decide_eq_false in Eb.
    rewrite bool_decide_eq_false_2 in Hca by (by rewrite normalizePEM_blank). by destruct Hca as [-> ?]; eauto. }
  eexists _, copts, conn. split; [exact Hdec|]. cbn [dc_bundle]. split; [exact Hpo|]. split; [exact Hconn|]. split; [exact Htrust|].
  intros App Req Resp req_msg resp_msg env method ctx req handler s Hctx.
  unfold BuildGRPCServerOptions in Hs. cbn [AuthEnabled SharedSecret] in Hs. rewrite Hauth in Hs. cbn zeta in Hs.
  destruct (bool_decide_reflect (TrimSpace (AppConfig.SharedSecret cfg) = "")) as [E|E]; [discriminate Hs|].
  apply go_bind_Ok in Hs as (t1 & auth & [= <- <-] & Hs). apply go_bind_Ok in Hs as (t2 & creds & _ & [= _ <-]). cbn [so_unary].
  unfold NewRoodoxClientWithOptions in Hconn. apply res_bind_Ok in Hconn as (dial & Hdial & [= <-]). cbn [cc_options] in *.
  pose proof (presented_secret _ _ _ _ _ Hdial Hctx) as Hpres. rewrite Hsec, bool_decide_eq_false_2 in Hpres by done.
  pose proof (unary_guarded req_msg resp_msg (TrimSpace (AppConfig.SharedSecret cfg)) env method ctx req handler s) as Hg.
  unfold guarded in Hg. destruct (chain_unary _ _ _ _ _ _ _ _ _) as [s' answer']. rewrite decide_True in Hg by done.
  destruct Hg as [l Hg]. exists l.
  by destruct (handler _ _ _) as [s1 answer]; destruct Hg as (-> & -> & _).
Qed.
End admitted.
End ClientTheorems.

(** * The client library: an example

    The bundle of an example configuration, carried to another machine in a
    connection code, and the client that is made of it. *)

Module ClientExamples.
Import Interceptors Json JsonTheorems BundleTheorems ServerConfig ServerConfigTheorems ClientImport ClientImportTheorems Client ClientTheorems.

#[local] Existing Instance ascii_only_unicode.
#[local] Existing Instance TlsExamples.plain_x509.
#[local] Existing Instance ServerConfigTheorems.ascii_letters.
#[local] Existing Instance ClientImportExamples.at_root.
#[local] Existing Instance ClientImportExamples.lenient_url.
#[local] Existing Instance TlsExamples.utc.

(** Every text that is not empty has a certificate. *)
#[local] Instance one_certificate : CertPools := {
  pem_certificates data := match data with [] => [] | _ => [TlsExamples.cert_of (0, 0, true, [], (0, 0), (0, 0)) []] end;
  SystemCertPool := None;
}.

Definition ex_pem : string := "-----BEGIN CERTIFICATE-----".
Definition ex_value : json := match parse ServerConfigTheorems.ex_text with Some v => v | None => JLit "" end.
Definition ex_envelope : json := envelope_json ex_value ex_pem.
Definition ex_code : string := connectionURI (b64_encode (render false 0 ex_envelope)).

Lemma joined_parsed : parse ServerConfigTheorems.ex_text = Some ex_value.
Proof. vm_compute. reflexivity. Qed.

Lemma joined_height : height ex_envelope ≤ max_depth.
Proof. apply (bool_decide_unpack _). by vm_compute. Qed.

Lemma unspaced s : spaced_out s s.
Proof. induction s; by constructor. Qed.

Lemma joined_carries : carries_code ex_code (b64_encode (render false 0 ex_envelope)).
Proof. right. split; [apply unspaced|done]. Qed.

Lemma joined_pem_utf8 : utf8 ex_pem.
Proof. vm_compute. reflexivity. Qed.

Lemma ex_usable : usable_root ServerConfigTheorems.ex_message ex_pem.
Proof. intros _. by vm_compute. Qed.

Lemma joined_dir : root_at (TrimSpace "/home/me") ["home"; "me"].
Proof. split; [vm_compute; reflexivity|]. by repeat constructor. Qed.

Lemma joined_run_ok : ClientImportExamples.run_ok (main_program no_faults 7 ex_code "" "/home/me" false (λ _, None) ∅) = true.
Proof. vm_compute. reflexivity. Qed.

Definition options_of (x : OsState * result goerr ServerOptions) : ServerOptions :=
  match x.2 with Ok o => o | Err _ => Build_ServerOptions [] [] None end.
Lemma options_shape x : is_ok x.2 = true → x = (x.1, Ok (options_of x)).
Proof. unfold options_of. by destruct x as [t []]. Qed.

Lemma ex_options_ok :
  is_ok (BuildGRPCServerOptions no_faults 4096 (TlsExamples.host (TlsExamples.day 1))
    {| AuthEnabled := AppConfig.AuthEnabled ServerConfigTheorems.ex_cfg; SharedSecret := AppConfig.SharedSecret ServerConfigTheorems.ex_cfg;
       TLSEnabled := AppConfig.TLSEnabled ServerConfigTheorems.ex_cfg; TLSCertPath := AppConfig.TLSCertPath ServerConfigTheorems.ex_cfg;
       TLSKeyPath := AppConfig.TLSKeyPath ServerConfigTheorems.ex_cfg |} ∅).2 = true.
Proof. vm_compute. reflexivity. Qed.

Lemma imported_client_admitted_witness : ∃ ti r sopts d copts conn,
  decodeConnectionCode ex_code = Ok d ∧
  probe_options (dc_bundle d) (im_CAPath r) = Ok (TrimSpace (AppConfig.Addr ServerConfigTheorems.ex_cfg), copts) ∧
  NewRoodoxClientWithOptions no_faults (TrimSpace (AppConfig.Addr ServerConfigTheorems.ex_cfg)) copts ti = Ok conn ∧
  (AppConfig.TLSEnabled ServerConfigTheorems.ex_cfg = true → ∃ roots name,
    WithTransportCredentials (NewTLS roots (Some name)) ∈ cc_options conn ∧
    pem_certificates (bytes_of_string (normalizePEM ex_pem)) ⊆ roots) ∧
  ∀ (App Req Resp : Type) (req_msg : Req → Message) (resp_msg : Resp → Message) env method ctx req handler (s : Server (App := App)),
    ctx_md ctx = Some (rpc_metadata (cc_options conn) []) →
    ∃ l, let '(s1, answer) := handler (injectRequestContext env ctx method) req (logged l s) in
      let '(s', answer') := chain_unary req_msg resp_msg env method (so_unary sopts) handler ctx req s in
      answer' = answer ∧ sv_app s' = sv_app s1.
Proof.
  eexists _, _, _.
  exact (imported_client_admitted ServerConfigTheorems.ex_getenv ServerConfigTheorems.ex_host no_faults ServerConfigTheorems.ex_cfg
    ServerConfigTheorems.ex_opts ∅ "fd00::7" 50051 _ _ ex_pem ex_value ex_envelope ex_code no_faults 7 "/home/me" ["home"; "me"] (λ _, None)
    _ _ _ _ no_faults 4096 (TlsExamples.host (TlsExamples.day 1)) _ _ _
    ServerConfigTheorems.ex_listens eq_refl eq_refl eq_refl ServerConfigTheorems.ex_out_eq ServerConfigTheorems.ex_out_utf8
    joined_pem_utf8 ex_usable joined_parsed (reordered_refl _) joined_height joined_carries joined_dir
    (ClientImportExamples.run_shape _ joined_run_ok) (options_shape _ ex_options_ok)).
Defined.
End ClientExamples.
