(* ===== verification/Commands.v ===== *)
(** * The commands of the server program

    cmd/roodox_server/main.go on a system without Windows services: which
    command the flags ask for, the order in which they are asked, and what each
    does to the file system and to the running server that it dials.  A relative
    path is resolved in the directory of the configuration file, where the
    program changes to first: the [WorkDir] of this file is that directory. *)

From stdpp Require Import pretty.
From S2P Require Import Prelude GoStrings StringLists StrConv FsPath OsFs GoTime Hash World Recorder Security Interceptors Sqlite Restore Json Net ControlPlane Bundle AppConfig ServerConfig Walks Maintenance Preflight Runtime RuntimeLife AdminRuntime Client.
Open Scope string_scope.
Open Scope Z_scope.
Open Scope list_scope.

Module Commands.
Import Json Sqlite ServerConfig Runtime RuntimeLife Client.

(** ** Flags *)

Record Flags := {
  fl_requestShutdown : bool; fl_shutdownReason : string;
  fl_restoreDBFrom : string; fl_restoreDBNoSafetyBackup : bool;
  fl_tlsStatus : bool; fl_rotateTLS : bool; fl_rotateTLSRootCA : bool; fl_tlsBackupDir : string;
  fl_exportClientCA : string;
  fl_issueJoinBundleJSON : bool; fl_join : issueJoinBundleOptions;
  fl_workbenchSnapshotJSON : bool; fl_workbenchObservabilityJSON : bool; fl_triggerServerBackupJSON : bool;
  fl_serviceName : string;
}.

Inductive Command :=
| RequestShutdown (reason : string)
| RestoreDatabase (from : string) (createSafetyBackup : bool)
| PrintTLSStatus
| RotateTLS (rotateRootCA : bool) (backupDir : string)
| ExportClientCA (destPath : string)
| IssueJoinBundle (opts : issueJoinBundleOptions)
| PrintWorkbenchSnapshot
| PrintWorkbenchObservability
| TriggerServerBackup
| RunServer (serviceName : string).

(** The first command that a flag asks for, or else the server. *)
Definition select `{GoUnicode} (cfg : AppConfig.Config) (f : Flags) : Command :=
  if fl_requestShutdown f then RequestShutdown (fl_shutdownReason f)
  else if negb (bool_decide (TrimSpace (fl_restoreDBFrom f) = ""))
  then RestoreDatabase (fl_restoreDBFrom f) (negb (fl_restoreDBNoSafetyBackup f))
  else if fl_tlsStatus f then PrintTLSStatus
  else if fl_rotateTLS f then RotateTLS (fl_rotateTLSRootCA f) (fl_tlsBackupDir f)
  else if negb (bool_decide (TrimSpace (fl_exportClientCA f) = "")) then ExportClientCA (fl_exportClientCA f)
  else if fl_issueJoinBundleJSON f then IssueJoinBundle (fl_join f)
  else if fl_workbenchSnapshotJSON f then PrintWorkbenchSnapshot
  else if fl_workbenchObservabilityJSON f then PrintWorkbenchObservability
  else if fl_triggerServerBackupJSON f then TriggerServerBackup
  else
    let serviceName := TrimSpace (fl_serviceName f) in
    RunServer (if bool_decide (serviceName = "")
               then AppConfig.ws_Name (AppConfig.rt_WindowsService (AppConfig.Runtime cfg)) else serviceName).

(** ** The start of the program *)

(** os.Chdir, up to the directory that it changes to. *)
Definition os_Chdir (flt : Faults) (dir : string) (t : OsState) : result goerr unit :=
  try _ := os_fault flt "chdir" dir in
  match os_lookup t (path_key dir) with
  | Ok (DirNode _) => Ok tt
  | Ok (FileNode _ _) => Err (ErrPath "chdir" dir ENOTDIR)
  | Err e => Err (ErrPath "chdir" dir e)
  end.

(** [main] up to the choice of the command, run in [WorkDir]: the directory of
    the configuration, the configuration and the command. *)
Definition start_program `{WorkDir} `{GoUnicode} `{AppConfig.ConfigJson} (flt : Faults) (getenv : string → string)
    (configPath : string) (f : Flags) (t : OsState) : result goerr (string * AppConfig.Config * Command) :=
  try resolvedConfigPath := map_err (ErrWrap "resolve config path failed") (Abs configPath) in
  try _ := map_err (ErrWrap "switch to config dir failed") (os_Chdir flt (Dir resolvedConfigPath) t) in
  try cfg := map_err (ErrWrap "load config failed") (AppConfig.Load flt getenv resolvedConfigPath t) in
  Ok (Dir resolvedConfigPath, cfg, select cfg f).

(** ** What a command does *)

(** A value that [writeJSON] prints. *)
Inductive Output :=
| OutStatus (st : TLS.TLSArtifactsStatus)
| OutRotated (r : TLS.TLSRotateResult)
| OutExported (root_cert_path exported_path : string)
| OutBundle (bundle_json : string) (bundle : AccessBundle.JoinBundle)
| OutJson (v : json).

(** The file system, the server at the other end, and what was printed. *)
Record CmdWorld (R : Type) := mkCmd { cw_os : OsState; cw_remote : R; cw_out : list Output }.
Arguments mkCmd {R}. Arguments cw_os {R}. Arguments cw_remote {R}. Arguments cw_out {R}.

(** What the commands see of an error of a call. *)
Definition client_error_text (e : ClientError) : string :=
  match e with FromServer st => st_msg st | FromTransport _ text => text | Local e => err_text e end.

Section commands.
Context `{WorkDir} `{LocalZone} `{GoUnicode} `{GoLetters} `{!Engine} `{TLS.X509} `{!CertPools}.
Context (flt : Faults) (dir_size now : Z) (tls : TLS.TLSEnv) (getenv : string → string) (hostname : result goerr string).
Context {R : Type} (dial : ClientConn → Stubs R) (cfg : AppConfig.Config).

Definition on_os {A} (m : go OsState goerr A) : go (CmdWorld R) goerr A := λ w,
  let '(t, r) := m (cw_os w) in (mkCmd t (cw_remote w) (cw_out w), r).
Definition on_remote {A} (m : go R ClientError A) : go (CmdWorld R) goerr A := λ w,
  let '(s, r) := m (cw_remote w) in
  (mkCmd (cw_os w) s (cw_out w), map_err (λ e, ErrNew (client_error_text e)) r).
Definition writeJSON (v : Output) : go (CmdWorld R) goerr unit :=
  go_modify (λ w, mkCmd (cw_os w) (cw_remote w) (cw_out w ++ [v])).

(** The client of the administration commands. *)
Definition local_admin : go (CmdWorld R) goerr (Stubs R) :=
  let! target := on_os (go_read (newLocalAdminClient flt cfg)) in
  let! conn := on_os (go_read (NewRoodoxClientWithOptions flt target.1 target.2)) in
  go_ret (dial conn).

Definition requestServerShutdown (reason : string) : go (CmdWorld R) goerr unit :=
  let! c := local_admin in
  let! resp := on_remote (ShutdownServer c reason) in
  go_lift (AdminRuntime.shutdown_outcome resp).

Definition restoreDatabase (backupPath : string) (createSafetyBackup : bool) : go (CmdWorld R) goerr unit :=
  let dbPath := TrimSpace (AppConfig.DBPath cfg) in
  if bool_decide (dbPath = "") then go_fail (ErrNew "database path is empty")
  else
    let! targetPath := go_lift (Abs dbPath) in
    let! resolvedBackupPath := go_lift (Abs (TrimSpace backupPath)) in
    let! _ := on_os (Restore.RestoreFromBackup flt dir_size now targetPath resolvedBackupPath
                       {| Restore.CreateSafetyBackup := createSafetyBackup |}) in
    go_ret tt.

Definition printTLSStatus : go (CmdWorld R) goerr unit :=
  let! answer := on_os (go_read (λ t, Ok (TLS.InspectTLSArtifacts flt dir_size now (AppConfig.TLSCertPath cfg) (AppConfig.TLSKeyPath cfg) t))) in
  match answer with
  | (status, Some err) =>
      if bool_decide (TLS.st_CertPath status = "") then go_fail err else writeJSON (OutStatus status)
  | (status, None) => writeJSON (OutStatus status)
  end.

Definition rotateTLSArtifacts (rotateRootCA : bool) (backupDir : string) : go (CmdWorld R) goerr unit :=
  let! result := on_os (TLS.RotateTLSArtifacts flt dir_size tls (AppConfig.TLSCertPath cfg) (AppConfig.TLSKeyPath cfg)
    {| TLS.RotateRootCA := rotateRootCA; TLS.opt_BackupDir := TrimSpace backupDir |}) in
  writeJSON (OutRotated result).

Definition exportTLSRootCA (destPath : string) : go (CmdWorld R) goerr unit :=
  let! _ := on_os (TLS.ExportTLSRootCertificate flt tls (AppConfig.TLSCertPath cfg) destPath) in
  writeJSON (OutExported (defaultLocalTLSRootCertPath (AppConfig.TLSCertPath cfg)) (TrimSpace destPath)).

Definition issueJoinBundle_command (opts : issueJoinBundleOptions) : go (CmdWorld R) goerr unit :=
  let! resp := on_os (go_read (λ t, map_err (λ st, ErrNew (st_msg st)) (issueJoinBundle getenv hostname flt cfg opts t))) in
  writeJSON (OutBundle resp.1 resp.2).

Definition printWorkbenchSnapshot : go (CmdWorld R) goerr unit :=
  let! c := local_admin in
  let! runtimeResp := on_remote (GetServerRuntime c) in
  let! devices := on_remote (ListDevices c) in
  let! v := go_lift (map_err (λ st, ErrNew (st_msg st)) (AdminRuntime.printWorkbenchSnapshot now (Ok runtimeResp) (Ok devices))) in
  writeJSON (OutJson v).

Definition printWorkbenchObservability : go (CmdWorld R) goerr unit :=
  let! c := local_admin in
  let! resp := on_remote (GetServerObservability c) in
  let! v := go_lift (map_err (λ st, ErrNew (st_msg st)) (AdminRuntime.printWorkbenchObservability now (Ok resp))) in
  writeJSON (OutJson v).

Definition triggerServerBackup : go (CmdWorld R) goerr unit :=
  let! c := local_admin in
  let! resp := on_remote (Client.TriggerServerBackup c) in
  let! v := go_lift (map_err (λ st, ErrNew (st_msg st)) (AdminRuntime.print_backup (Ok resp))) in
  writeJSON (OutJson v).

(** All commands but the server; [log.Fatalf] prefixes the error. *)
Definition run_command (c : Command) : go (CmdWorld R) goerr unit :=
  match c with
  | RequestShutdown reason => go_map_err (ErrWrap "request shutdown failed") (requestServerShutdown reason)
  | RestoreDatabase from safety => go_map_err (ErrWrap "restore database failed") (restoreDatabase from safety)
  | PrintTLSStatus => go_map_err (ErrWrap "print tls status failed") printTLSStatus
  | RotateTLS root dir => go_map_err (ErrWrap "rotate tls artifacts failed") (rotateTLSArtifacts root dir)
  | ExportClientCA dest => go_map_err (ErrWrap "export client ca failed") (exportTLSRootCA dest)
  | IssueJoinBundle opts => go_map_err (ErrWrap "issue join bundle failed") (issueJoinBundle_command opts)
  | PrintWorkbenchSnapshot => go_map_err (ErrWrap "print workbench snapshot failed") printWorkbenchSnapshot
  | PrintWorkbenchObservability => go_map_err (ErrWrap "print workbench observability failed") printWorkbenchObservability
  | TriggerServerBackup => go_map_err (ErrWrap "trigger server backup failed") triggerServerBackup
  | RunServer _ => go_ret tt
  end.

(** ** The server in the foreground *)

Context `{SortSlice} `{Preflight.OsExec} `{Network} (allowed : OsState → OsState → Prop).

(** [runForegroundServer]: what it answers for a host, [err] being what [Wait]
    answers.  A signal is a call of [Stop] in the run. *)
Inductive runForegroundServer (h : Host) : result goerr (option ServeError) → Prop :=
| fg_refused h' err : Start flt dir_size now tls cfg h = (h', Err err) → runForegroundServer h (Err err)
| fg_served h' rt ls s answer :
    Start flt dir_size now tls cfg h = (h', Ok rt) →
    RuntimeLife.run flt rt allowed (started_state h') ls s → Wait s = Some answer →
    runForegroundServer h (Ok answer).

(** ** What a command can change *)

(** [files] and [server]: whether they may change; [n]: how many values are
    printed if there is no error. *)
Definition effect (files server : bool) (n : nat) {A} (m : go (CmdWorld R) goerr A) : Prop := ∀ w,
  let '(w', r) := m w in
  (files = false → cw_os w' = cw_os w) ∧ (server = false → cw_remote w' = cw_remote w) ∧
  match r with Ok _ => ∃ out, cw_out w' = cw_out w ++ out ∧ length out = n | Err _ => cw_out w' = cw_out w end.

Lemma effect_bind f s n {A B} (m : go (CmdWorld R) goerr A) (k : A → go (CmdWorld R) goerr B) :
  effect f s 0 m → (∀ a, effect f s n (k a)) → effect f s n (go_bind m k).
Proof.
  intros Hm Hk w. specialize (Hm w). unfold go_bind. destruct (m w) as [w1 [a|e]]; [|exact Hm].
  specialize (Hk a w1). destruct (k a w1) as [w2 r]. destruct Hm as (F1 & S1 & out & O1 & Hl), Hk as (F2 & S2 & O2).
  apply nil_length_inv in Hl as ->. rewrite app_nil_r in O1. rewrite <- O1.
  split_and!; [|intros E; by rewrite S2, S1|exact O2]. intros E. by rewrite F2, F1.
Qed.

Lemma effect_map_err f s n {A} (g : goerr → goerr) (m : go (CmdWorld R) goerr A) : effect f s n m → effect f s n (go_map_err g m).
Proof. intros Hm w. specialize (Hm w). unfold go_map_err. by destruct (m w) as [w1 [a|e]]. Qed.

Lemma effect_lift (f s : bool) {A} (r : result goerr A) : effect f s 0 (go_lift r).
Proof. intros w. split_and!; [done..|]. destruct r; [exists []; by rewrite app_nil_r|done]. Qed.

Lemma effect_ret (f s : bool) {A} (a : A) : effect f s 0 (go_ret a).
Proof. apply (effect_lift f s (Ok a)). Qed.

Lemma effect_fail (f s : bool) n {A} e : effect f s n (go_fail (A := A) e).
Proof. intros w. by split_and!. Qed.

Lemma effect_os (s : bool) {A} (m : go OsState goerr A) : effect true s 0 (on_os m).
Proof.
  intros w. unfold on_os. destruct (m (cw_os w)) as [t r]. split_and!; [done..|].
  destruct r; [exists []; by rewrite app_nil_r|done].
Qed.

Lemma effect_read (f s : bool) {A} (m : OsState → result goerr A) : effect f s 0 (on_os (go_read m)).
Proof.
  intros w. unfold on_os, go_read. split_and!; [done..|]. destruct (m (cw_os w)); [exists []; by rewrite app_nil_r|done].
Qed.

Lemma effect_remote (f : bool) {A} (m : go R ClientError A) : effect f true 0 (on_remote m).
Proof.
  intros w. unfold on_remote. destruct (m (cw_remote w)) as [t r]. split_and!; [done..|].
  destruct r; [exists []; by rewrite app_nil_r|done].
Qed.

Lemma effect_print f s v : effect f s 1 (writeJSON v).
Proof. intros w. split_and!; [done..|]. by exists [v]. Qed.

Lemma effect_admin f s : effect f s 0 local_admin.
Proof. unfold local_admin. do 2 (apply effect_bind; [apply effect_read|intros ?]). apply effect_ret. Qed.

Ltac effects :=
  repeat first [apply effect_map_err | apply effect_bind; [first [apply effect_admin|apply effect_read|apply effect_os|
    apply effect_remote|apply effect_lift]|intros ?] | apply effect_print | apply effect_lift | apply effect_ret | apply effect_fail].

Definition changes_files (c : Command) : bool :=
  match c with RestoreDatabase _ _ | RotateTLS _ _ | ExportClientCA _ => true | _ => false end.
Definition calls_server (c : Command) : bool :=
  match c with RequestShutdown _ | PrintWorkbenchSnapshot | PrintWorkbenchObservability | TriggerServerBackup => true | _ => false end.
Definition printed (c : Command) : nat :=
  match c with RequestShutdown _ | RestoreDatabase _ _ | RunServer _ => 0 | _ => 1 end.

(** Every command keeps to its own part of the system.  Only a restore, a
    rotation of the certificates and the export of the root change files, and
    they call no server; the requests to a running server, and what prints the
    state of the certificates or a new bundle, change no file; and whatever
    fails, a command that reports an error has printed nothing, while one that
    succeeds has printed exactly one value - none for a shutdown and a
    restore. *)
Theorem command_effects c w :
  let '(w', r) := run_command c w in
  (changes_files c = false → cw_os w' = cw_os w) ∧ (calls_server c = false → cw_remote w' = cw_remote w) ∧
  match r with Ok _ => ∃ out, cw_out w' = cw_out w ++ out ∧ length out = printed c | Err _ => cw_out w' = cw_out w end.
Proof.
  enough (effect (changes_files c) (calls_server c) (printed c) (run_command c)) as He by apply He.
  destruct c; cbn [changes_files calls_server printed run_command];
    unfold requestServerShutdown, restoreDatabase, rotateTLSArtifacts, exportTLSRootCA, issueJoinBundle_command,
      printWorkbenchSnapshot, printWorkbenchObservability, triggerServerBackup; effects.
  - cbn zeta. case_bool_decide; effects.
  - match goal with |- context [let '(_, _) := ?a in _] => destruct a as [st [err|]] end; [case_bool_decide|]; effects.
Qed.
End commands.
End Commands.
