(* ===== verification/Windows.v ===== *)
(** * The parts for Windows

    internal/serverapp/instance_lock_windows.go, internal/db/
    resource_lock_windows.go, internal/serverapp/service_windows.go and
    cmd/roodox_server/service_mode_windows.go.  The calls of
    golang.org/x/sys/windows, and of package os on files that others hold open,
    are the interface [WinFiles] with the laws that its documentation gives; of
    the service manager, what it sends and receives.  Paths are those of the
    other files: what is particular to them on Windows is in the interface. *)

From stdpp Require Import pretty.
From S2P Require Import Prelude GoStrings StringLists StrConv FsPath OsFs GoTime World Recorder Security Interceptors Sqlite Restore Net ControlPlane AppConfig ServerConfig Walks Maintenance Preflight Runtime RuntimeLife Client Commands.
Open Scope string_scope.
Open Scope Z_scope.
Open Scope list_scope.

(** [CreateFile] opens for reading and writing with OPEN_ALWAYS and shares
    nothing; [holder] is the handle by which a file is open; [canon] takes
    paths of one file to one name. *)
Class WinFiles (W : Type) := {
  win_Abs : string → result goerr string;
  UTF16PtrFromString : string → result goerr string;
  CreateFile : string → go W goerr Z;
  CloseHandle : Z → go W goerr unit;
  RemoveFile : string → go W goerr unit;
  canon : string → string;
  holder : W → string → option Z;
  creatable : W → string → Prop;
}.

Class WinLaws (W : Type) `{WinFiles W} := {
  utf16_same p ptr : UTF16PtrFromString p = Ok ptr → canon ptr = canon p;
  create_opens p w w' h : CreateFile p w = (w', Ok h) →
    h ≠ 0 ∧ holder w (canon p) = None ∧ (∀ q, holder w q ≠ Some h) ∧
    ∀ q, holder w' q = if decide (q = canon p) then Some h else holder w q;
  create_fails p w w' e : CreateFile p w = (w', Err e) → ∀ q, holder w' q = holder w q;
  create_free p w : holder w (canon p) = None → creatable w p → is_ok (CreateFile p w).2 = true;
  close_closes h w w' : CloseHandle h w = (w', Ok tt) →
    ∀ q, holder w' q = if decide (holder w q = Some h) then None else holder w q;
  close_fails h w w' e : CloseHandle h w = (w', Err e) → ∀ q, holder w' q = holder w q;
  remove_holds p w q : holder (RemoveFile p w).1 q = holder w q;
}.

Module Windows.
Import Sqlite Runtime RuntimeLife Client Commands.

(** ** The lock on a resource *)

Record windowsInstanceLock := mkWinLock { wl_handle : Z; wl_path : string }.

Section locks.
Context {W : Type} `{!WinFiles W}.

(** [held] is the text of the error: the lock of an instance and the lock of a
    database differ in it only. *)
Definition acquireLock (held : string) (resourcePath : string) : go W goerr windowsInstanceLock :=
  let! absPath := go_lift (win_Abs resourcePath) in
  let lockPath := absPath +:+ ".lock" in
  let! ptr := go_lift (UTF16PtrFromString lockPath) in
  let! handle := go_map_err (ErrWrap (held +:+ " already held for " +:+ absPath)) (CreateFile ptr) in
  go_ret (mkWinLock handle lockPath).
Definition acquireInstanceLock : string → go W goerr windowsInstanceLock := acquireLock "database instance lock".
Definition acquireResourceLock : string → go W goerr windowsInstanceLock := acquireLock "resource lock".

(** The two halves of [Release]; another process can act between them. *)
Definition release_close (l : windowsInstanceLock) : go W goerr unit :=
  if wl_handle l =? 0 then go_ret tt else CloseHandle (wl_handle l).
Definition release_remove (path : string) : go W goerr unit :=
  catch! removed := RemoveFile path in
  match removed with
  | Err err => if negb (errors_Is err ErrNotExist) then go_fail err else go_ret tt
  | Ok _ => go_ret tt
  end.
Definition Release (l : windowsInstanceLock) : go W goerr unit :=
  if wl_handle l =? 0 then go_ret tt
  else release_close l ;;! release_remove (wl_path l).

(** *** Processes that use it *)

Inductive Proc := Outside | Holding (l : windowsInstanceLock) | Removing (path : string).

(** What a process does next: [LockDie] is its end, at which the system closes
    what it has open. *)
Inductive LockStep : W * list Proc → W * list Proc → Prop :=
| LockAcquire w ps i p w' l :
    ps !! i = Some Outside → acquireInstanceLock p w = (w', Ok l) → LockStep (w, ps) (w', <[i := Holding l]> ps)
| LockRefused w ps i p w' e :
    ps !! i = Some Outside → acquireInstanceLock p w = (w', Err e) → LockStep (w, ps) (w', ps)
| LockClose w ps i l w' :
    ps !! i = Some (Holding l) → release_close l w = (w', Ok tt) → LockStep (w, ps) (w', <[i := Removing (wl_path l)]> ps)
| LockCloseFails w ps i l w' e :
    ps !! i = Some (Holding l) → release_close l w = (w', Err e) → LockStep (w, ps) (w', <[i := Outside]> ps)
| LockRemove w ps i p :
    ps !! i = Some (Removing p) → LockStep (w, ps) ((release_remove p w).1, <[i := Outside]> ps)
| LockDie w ps i l w' :
    ps !! i = Some (Holding l) → CloseHandle (wl_handle l) w = (w', Ok tt) → LockStep (w, ps) (w', <[i := Outside]> ps).
End locks.

(** ** The service *)

Inductive SvcState := StartPending | Running | StopPending | Stopped.
Record SvcStatus := mkSvcStatus { ss_State : SvcState; ss_Accepts : list string; ss_WaitHint : Z }.
Definition svc_state (s : SvcState) : SvcStatus := mkSvcStatus s [] 0.

Inductive SvcCmd := Interrogate | CmdStop | CmdShutdown | CmdOther (n : Z).
(** What [Execute] selects from, in the order in which it comes. *)
Inductive SvcEvent := Change (cmd : SvcCmd) (current : SvcStatus) | Exited (err : option ServeError).
Inductive SvcAction := Report (s : SvcStatus) | StopRuntime.

Definition exit_code (err : option ServeError) : Z := match err with Some _ => 1 | None => 0 end.
(** [<-waitCh] *)
Fixpoint wait_exit (events : list SvcEvent) : option Z :=
  match events with
  | [] => None
  | Exited err :: _ => Some (exit_code err)
  | Change _ _ :: events => wait_exit events
  end.

(** uint32(time.Duration(waitHint) * time.Second / time.Millisecond) *)
Definition wait_hint (cfg : AppConfig.Config) : Z :=
  let waitHint := AppConfig.rt_GracefulStopTimeoutSeconds (AppConfig.Runtime cfg) in
  let waitHint := if waitHint <=? 0 then 10 else waitHint in
  wrap_uint32 (Z.quot (wrap_int64 (waitHint * 1000000000)) 1000000).

(** The loop of [Execute]: what it does, and the exit code if it returns. *)
Fixpoint execute_loop (hint : Z) (events : list SvcEvent) : list SvcAction * option Z :=
  match events with
  | [] => ([], None)
  | Exited err :: _ => ([], Some (exit_code err))
  | Change Interrogate current :: events =>
      let '(acts, code) := execute_loop hint events in (Report current :: acts, code)
  | Change (CmdStop | CmdShutdown) _ :: events =>
      ([Report (mkSvcStatus StopPending [] hint); StopRuntime], wait_exit events)
  | Change (CmdOther _) _ :: events => execute_loop hint events
  end.

(** [Execute], whose first answer is always false, given what [Start] does. *)
Definition Execute (cfg : AppConfig.Config) (started : result goerr unit) (events : list SvcEvent) : list SvcAction * option Z :=
  match started with
  | Err _ => ([Report (svc_state StartPending); Report (svc_state Stopped)], Some 1)
  | Ok _ =>
      let '(acts, code) := execute_loop (wait_hint cfg) events in
      (Report (svc_state StartPending) :: Report (mkSvcStatus Running ["stop"; "shutdown"] (wait_hint cfg)) :: acts, code)
  end.

Definition RunWindowsService_name `{GoUnicode} (serviceName : string) (cfg : AppConfig.Config) : string :=
  let serviceName := TrimSpace serviceName in
  let serviceName :=
    if bool_decide (serviceName = "") then AppConfig.ws_Name (AppConfig.rt_WindowsService (AppConfig.Runtime cfg)) else serviceName in
  if bool_decide (serviceName = "") then "RoodoxServer" else serviceName.

(** ** The choice between service and foreground *)

(** The file that the log goes to, opened to append. *)
Definition installWindowsServiceLog `{WorkDir} `{GoUnicode} (flt : Faults) (now : Z) (cfg : AppConfig.Config) : go OsState goerr string :=
  let logDir := TrimSpace (AppConfig.rt_LogDir (AppConfig.Runtime cfg)) in
  let logDir := if bool_decide (logDir = "") then "runtime/logs" else logDir in
  let logDir := if IsAbs logDir then logDir else match Getwd with Ok cwd => JoinPath cwd logDir | Err _ => logDir end in
  let! _ := os_MkdirAll flt now logDir in
  let logName := TrimSpace (AppConfig.rt_StderrLogName (AppConfig.Runtime cfg)) in
  let logName := if bool_decide (logName = "") then "server.stderr.log" else logName in
  let logPath := JoinPath logDir logName in
  let! _ := os_OpenCreate flt false false now logPath in
  go_ret logPath.

Inductive ServerMode := Foreground | Service (name logPath : string).
(** [runServer] up to the server that it runs; [isService] is what
    [svc.IsWindowsService] answers. *)
Definition runServer `{WorkDir} `{GoUnicode} (flt : Faults) (now : Z) (isService : result goerr bool) (cfg : AppConfig.Config)
    (serviceName : string) : go OsState goerr ServerMode :=
  let! service := go_lift (map_err (ErrWrap "detect windows service mode failed") isService) in
  if negb service then go_ret Foreground
  else
    let! logPath := go_map_err (ErrWrap "install windows service log failed") (installWindowsServiceLog flt now cfg) in
    go_ret (Service (RunWindowsService_name serviceName cfg) logPath).

(** ** Exclusion *)

Section exclusion.
Context {W : Type} `{!WinFiles W} `{!WinLaws W}.

(** The handle of every holder is its own, and the lock file is open by it. *)
Record locks_ok (w : W) (ps : list Proc) : Prop := {
  lk_open i l : ps !! i = Some (Holding l) → wl_handle l ≠ 0 ∧ holder w (canon (wl_path l)) = Some (wl_handle l);
  lk_own i j l l' : ps !! i = Some (Holding l) → ps !! j = Some (Holding l') → wl_handle l = wl_handle l' → i = j;
}.

Lemma acquire_opens p (w w' : W) l : acquireInstanceLock p w = (w', Ok l) →
  wl_handle l ≠ 0 ∧ holder w (canon (wl_path l)) = None ∧ (∀ q, holder w q ≠ Some (wl_handle l)) ∧
  ∀ q, holder w' q = if decide (q = canon (wl_path l)) then Some (wl_handle l) else holder w q.
Proof.
  unfold acquireInstanceLock, acquireLock. intros Ha.
  apply go_bind_Ok in Ha as (w1 & a & [= <- Habs] & Ha). apply go_bind_Ok in Ha as (w2 & ptr & [= <- Hptr] & Ha).
  apply go_bind_Ok in Ha as (w3 & h & Hc & [= <- <-]). apply go_map_err_Ok in Hc. cbn.
  rewrite <- (utf16_same _ _ Hptr). by apply create_opens.
Qed.
Lemma refused_keeps p (w w' : W) e q : acquireInstanceLock p w = (w', Err e) → holder w' q = holder w q.
Proof.
  unfold acquireInstanceLock, acquireLock, go_bind, go_lift, go_map_err. destruct (win_Abs p) as [a|]; [|by intros [= <- _]].
  destruct (UTF16PtrFromString _) as [ptr|]; [|by intros [= <- _]].
  destruct (CreateFile ptr w) as [w1 [h|e1]] eqn:E; [done|]. intros [= <- _]. by eapply create_fails.
Qed.

(** A change that leaves the other processes their files. *)
Lemma locks_step w w' ps i g : locks_ok w ps → (∀ l, g ≠ Holding l) →
  (∀ j l, j ≠ i → ps !! j = Some (Holding l) → holder w' (canon (wl_path l)) = holder w (canon (wl_path l))) →
  locks_ok w' (<[i := g]> ps).
Proof.
  intros [Ho Hw] Hg Hk. split.
  - intros j l Hj. apply list_lookup_insert_Some in Hj as [(_ & -> & _)|[Hne Hj]]; [by destruct (Hg l)|].
    destruct (Ho j l Hj) as [Hz Hh]. split; [done|]. by rewrite (Hk j l (not_eq_sym Hne) Hj).
  - intros j1 j2 l1 l2 H1 H2. apply list_lookup_insert_Some in H1 as [(_ & -> & _)|[_ H1]]; [by destruct (Hg l1)|].
    apply list_lookup_insert_Some in H2 as [(_ & -> & _)|[_ H2]]; [by destruct (Hg l2)|]. by apply (Hw _ _ l1 l2).
Qed.

Lemma close_keeps (w w' : W) ps i l : locks_ok w ps → ps !! i = Some (Holding l) → CloseHandle (wl_handle l) w = (w', Ok tt) →
  ∀ j l', j ≠ i → ps !! j = Some (Holding l') → holder w' (canon (wl_path l')) = holder w (canon (wl_path l')).
Proof.
  intros [Ho Hw] Hi Hc j l' Hne Hj. rewrite (close_closes _ _ _ Hc). destruct (Ho j l' Hj) as [_ Hh].
  rewrite decide_False; [done|]. rewrite Hh. intros [= E]. apply Hne. by apply (Hw _ _ l' l).
Qed.

Lemma locks_kept x y : LockStep x y → locks_ok x.1 x.2 → locks_ok y.1 y.2.
Proof.
  intros Hs Hok. pose proof Hok as [Ho Hw].
  destruct Hs as [w ps i p w' l Hi Ha|w ps i p w' e Hi Ha|w ps i l w' Hi Hc|w ps i l w' e Hi Hc|w ps i p Hi|w ps i l w' Hi Hc]; cbn in *.
  - destruct (acquire_opens _ _ _ _ Ha) as (Hz & Hfree & Hnew & Hset).
    assert (∀ j l', ps !! j = Some (Holding l') → canon (wl_path l') ≠ canon (wl_path l) ∧ wl_handle l' ≠ wl_handle l) as Hother.
    { intros j l' Hj. destruct (Ho j l' Hj) as [_ Hh]. split; intros E; [congruence|]. apply (Hnew (canon (wl_path l'))). by rewrite Hh, E. }
    split.
    + intros j l' Hj. apply list_lookup_insert_Some in Hj as [(_ & [= <-] & _)|[Hne Hj]].
      * split; [done|]. by rewrite Hset, decide_True.
      * rewrite Hset, decide_False by (by apply (Hother j)). by apply (Ho j).
    + intros j1 j2 l1 l2 H1 H2. apply list_lookup_insert_Some in H1 as [(<- & [= <-] & _)|[_ H1]];
        apply list_lookup_insert_Some in H2 as [(<- & [= <-] & _)|[_ H2]]; [done|..].
      * intros E. by destruct (Hother j2 l2 H2) as [_ ?].
      * intros E. by destruct (Hother j1 l1 H1) as [_ ?].
      * by apply (Hw _ _ l1 l2).
  - split; [|exact Hw]. intros j l Hj. destruct (Ho j l Hj) as [Hz Hh]. split; [done|]. by rewrite (refused_keeps _ _ _ _ _ Ha).
  - unfold release_close in Hc. destruct (Ho i l Hi) as [Hz _]. rewrite (proj2 (Z.eqb_neq _ _) Hz) in Hc.
    apply (locks_step w); [done|done|]. by eapply close_keeps.
  - unfold release_close in Hc. destruct (Ho i l Hi) as [Hz _]. rewrite (proj2 (Z.eqb_neq _ _) Hz) in Hc.
    apply (locks_step w); [done|done|]. intros j l' _ _. by apply (close_fails _ _ _ _ Hc).
  - apply (locks_step w); [done|done|]. intros j l' _ _. unfold release_remove, go_catch.
    pose proof (remove_holds p w (canon (wl_path l'))) as Hr. destruct (RemoveFile p w) as [w1 [u|e]]; cbn in *; [done|].
    by destruct (errors_Is e ErrNotExist).
  - apply (locks_step w); [done|done|]. by eapply close_keeps.
Qed.

End exclusion.

(** ** The service reports what it does *)

Fixpoint before_exit (events : list SvcEvent) : list (SvcCmd * SvcStatus) :=
  match events with Change cmd current :: events => (cmd, current) :: before_exit events | _ => [] end.
Definition first_exit (events : list SvcEvent) : option (option ServeError) :=
  head (omap (λ e, match e with Exited err => Some err | Change _ _ => None end) events).
Definition stops (c : SvcCmd * SvcStatus) : bool := match c.1 with CmdStop | CmdShutdown => true | _ => false end.
Fixpoint before_stop (cs : list (SvcCmd * SvcStatus)) : list (SvcCmd * SvcStatus) :=
  match cs with c :: cs => if stops c then [] else c :: before_stop cs | [] => [] end.
Definition interrogations (cs : list (SvcCmd * SvcStatus)) : list SvcStatus :=
  omap (λ c, match c.1 with Interrogate => Some c.2 | _ => None end) cs.

Lemma wait_exit_first events : wait_exit events = exit_code <$> first_exit events.
Proof. induction events as [|[cmd cur|err] events IH]; [done|exact IH|done]. Qed.

Lemma execute_loop_spec hint events : execute_loop hint events =
  (map Report (interrogations (before_stop (before_exit events))) ++
   (if existsb stops (before_exit events) then [Report (mkSvcStatus StopPending [] hint); StopRuntime] else []),
   exit_code <$> first_exit events).
Proof.
  induction events as [|[cmd cur|err] events IH]; [done| |done]. cbn [execute_loop before_exit].
  destruct cmd; cbn; rewrite ?IH, ?wait_exit_first; done.
Qed.

(** The service tells its manager what happens, for every sequence of requests
    and ends: a start that fails is reported as stopped with code 1; otherwise
    it reports that it runs, answers each interrogation until it is told to
    stop, then reports that it is stopping and stops the runtime once; it returns
    when the runtime ends, with code 0 exactly if that was without an error. *)
Theorem service_reports cfg started events :
  Execute cfg started events =
  match started with
  | Err _ => ([Report (svc_state StartPending); Report (svc_state Stopped)], Some 1)
  | Ok _ =>
      ([Report (svc_state StartPending); Report (mkSvcStatus Running ["stop"; "shutdown"] (wait_hint cfg))] ++
       map Report (interrogations (before_stop (before_exit events))) ++
       (if existsb stops (before_exit events) then [Report (mkSvcStatus StopPending [] (wait_hint cfg)); StopRuntime] else []),
       exit_code <$> first_exit events)
  end.
Proof. unfold Execute. destruct started; [|done]. by rewrite execute_loop_spec. Qed.
End Windows.

(** * The parts for Windows: an example

    A kernel that takes paths without regard to case, and two processes. *)

Module WindowsExamples.
Import RuntimeLife Windows.

#[local] Existing Instance ascii_only_unicode.

(** The handles of the files that are open. *)
Definition Kernel := gmap string Z.
Definition fresh_handle (w : Kernel) : Z := 1 + foldr Z.max 0 (map snd (map_to_list w)).
Definition in_use : goerr := ErrNew "The process cannot access the file because it is being used by another process.".
#[local] Instance kernel : WinFiles Kernel := {
  win_Abs p := Ok p;
  UTF16PtrFromString p := Ok p;
  CreateFile p := λ w : Kernel,
    match w !! ToLower p with
    | Some _ => (w, Err in_use)
    | None => (<[ToLower p := fresh_handle w]> w, Ok (fresh_handle w))
    end;
  CloseHandle h := λ w : Kernel, (filter (λ e, e.2 ≠ h) w, Ok tt);
  RemoveFile p := λ w : Kernel, match w !! ToLower p with Some _ => (w, Err in_use) | None => (w, Ok tt) end;
  canon := ToLower;
  holder (w : Kernel) q := w !! q;
  creatable w p := True;
}.

Lemma handle_max_ge (l : list Z) h : h ∈ l → h ≤ foldr Z.max 0 l.
Proof. induction l as [|x l IH]; [by intros ?%elem_of_nil|]. intros [->|Hh]%elem_of_cons; cbn; [lia|]. specialize (IH Hh). lia. Qed.
Lemma fresh_handle_new (w : Kernel) q h : w !! q = Some h → h < fresh_handle w.
Proof.
  intros Hq. unfold fresh_handle. enough (h ≤ foldr Z.max 0 (map snd (map_to_list w))) by lia. apply handle_max_ge.
  apply list_elem_of_fmap. exists (q, h). split; [done|]. by apply elem_of_map_to_list.
Qed.
Lemma fresh_handle_pos (w : Kernel) : 0 < fresh_handle w.
Proof. unfold fresh_handle. induction (map snd (map_to_list w)) as [|v l IH]; cbn; lia. Qed.

#[local] Instance kernel_laws : WinLaws Kernel.
Proof.
  split.
  - by intros p ptr [= <-].
  - intros p w w' h. cbn. destruct (w !! ToLower p) as [x|] eqn:E; [done|]. intros [= <- <-].
    pose proof (fresh_handle_pos w). split; [lia|]. split; [done|]. split.
    + intros q Hq. pose proof (fresh_handle_new w q _ Hq). lia.
    + intros q. case_decide as Hd; [subst; apply lookup_insert_eq|by apply lookup_insert_ne].
  - intros p w w' e. cbn. by destruct (w !! ToLower p); intros [= <- _].
  - intros p w Hf _. cbn in *. by rewrite Hf.
  - intros h w w' [= <-] q. cbn. destruct (w !! q) as [x|] eqn:E.
    + destruct (decide (Some x = Some h)) as [[= ->]|Hne].
      * apply map_lookup_filter_None. right. intros y Hy Hp. assert (Some y = Some h) as [= ->] by (etrans; [symmetry; exact Hy|exact E]). by apply Hp.
      * apply map_lookup_filter_Some. split; [done|]. cbn. intros ->. by apply Hne.
    + rewrite decide_False by done. apply map_lookup_filter_None. by left.
  - done.
  - intros p w q. cbn. by destruct (w !! ToLower p).
Qed.

(** One process has the lock, and the other one is refused however it spells
    the path. *)
Definition first_lock : windowsInstanceLock := mkWinLock 1 "C:\Srv\roodox.db.lock".
Example other_spelling_refused :
  is_ok (acquireInstanceLock "c:\SRV\roodox.DB" (acquireInstanceLock (W := Kernel) "C:\Srv\roodox.db" ∅).1).2 = false.
Proof. vm_compute. reflexivity. Qed.


(** The service is interrogated, told to stop, and ends with an error. *)
Example service_stopped : ∀ cfg,
  Execute cfg (Ok tt) [Change Interrogate (svc_state Running); Change CmdStop (svc_state Running); Exited (Some ErrClosed)] =
  ([Report (svc_state StartPending); Report (mkSvcStatus Running ["stop"; "shutdown"] (wait_hint cfg)); Report (svc_state Running);
    Report (mkSvcStatus StopPending [] (wait_hint cfg)); StopRuntime], Some 1).
Proof. reflexivity. Qed.
End WindowsExamples.
