(* ===== verification/QaSuite.v ===== *)
(** * The QA suite: what its runs share

    internal/qasuite/common.go and fs.go.  A run works on a machine [M]: the
    file system that the server serves, a clock, and whatever answers the calls
    of the client ([Client.Stubs]).  An error keeps the call that it wraps. *)

From stdpp Require Import pretty.
From S2P Require Import Prelude GoStrings FsPath OsFs PathOps Leases Hash World Mutations BuildService StringLists DeviceRegistry ControlPlane GoTime Security StrConv AppConfig Net ServerConfig AdminRuntime Client.
Open Scope string_scope.
Open Scope Z_scope.
Open Scope list_scope.

(** A machine with files and a clock, in nanoseconds. *)
Class Machine (M : Type) := {
  files : M → OsState;
  with_files : OsState → M → M;
  time_Now : M → Z;
  time_Sleep : Z → M → M;
}.

Module QaSuite.
Import Net Client.

(** ** Errors *)

Inductive QaError :=
| Call (e : ClientError)
| Failed (text : string)
| Wrapped (pre : string) (e : QaError).

Definition code_text (c : Code) : string :=
  match c with
  | OK => "OK" | InvalidArgument => "InvalidArgument" | NotFound => "NotFound" | AlreadyExists => "AlreadyExists"
  | PermissionDenied => "PermissionDenied" | FailedPrecondition => "FailedPrecondition" | Internal => "Internal"
  | Unauthenticated => "Unauthenticated"
  end.

(** status.Code of an error, as a text; an error of no call is Unknown. *)
Fixpoint status_code (e : QaError) : string :=
  match e with
  | Call (FromServer st) => code_text (st_code st)
  | Call (FromTransport code _) => code
  | Call (Local _) | Failed _ => "Unknown"
  | Wrapped _ e => status_code e
  end.

(** [err.Error()] *)
Fixpoint qa_text (e : QaError) : string :=
  match e with
  | Call (FromServer st) => "rpc error: code = " +:+ code_text (st_code st) +:+ " desc = " +:+ st_msg st
  | Call (FromTransport code text) => "rpc error: code = " +:+ code +:+ " desc = " +:+ text
  | Call (Local e) => err_text e
  | Failed text => text
  | Wrapped pre e => pre +:+ ": " +:+ qa_text e
  end.

(** [if err := f(); err != nil { return err }] on a value that is an error. *)
Definition must {M} (r : option QaError) : go M QaError unit :=
  match r with Some e => go_fail e | None => go_ret tt end.

(** ** Paths and settings *)

Definition defaultRootCAFileName : string := "roodox-ca-cert.pem".

Record Override := {
  or_ConfigPath : string; or_Addr : string; or_RootDir : string; or_SharedSecret : string;
  or_TLSRootCertPath : string; or_TLSServerName : string; or_ServerID : string;
}.
Record Runtime := mkQaRuntime {
  q_ConfigPath : string; q_ConfigDir : string; q_DialAddr : string; q_RootDir : string; q_SharedSecret : string;
  q_TLSEnabled : bool; q_TLSRootCertPath : string; q_TLSServerName : string; q_ServerID : string; q_RemoteBuildEnabled : bool;
}.

Definition defaultTLSRootCertPath (certPath : string) : string := JoinPath (Dir certPath) defaultRootCAFileName.

Definition normalizeDialAddr `{GoUnicode} (addr : string) : string :=
  let addr := TrimSpace addr in
  if bool_decide (addr = "") then "127.0.0.1:50051"
  else match SplitHostPort addr with
       | None => if HasPrefix addr ":" then "127.0.0.1" +:+ addr else addr
       | Some (host, port) =>
           let host := Trim host "[]" in
           if bool_decide (host ∈ [""; "0.0.0.0"; "::"]) then JoinHostPort "127.0.0.1" port
           else JoinHostPort host port
       end.

Definition defaultTLSServerName (cfg : AppConfig.Config) (dialAddr : string) : string :=
  let v := TrimSpace (AppConfig.sd_TLSServerName (AppConfig.jb_ServiceDiscovery (AppConfig.cp_JoinBundle (AppConfig.ControlPlane cfg)))) in
  if negb (bool_decide (v = "")) then v
  else match SplitHostPort dialAddr with
       | None => "localhost"
       | Some (host, _) =>
           let host := Trim host "[]" in
           if bool_decide (host = "") then "localhost"
           else if bool_decide (ParseIP host = None) then host
           else "localhost"
       end.

Definition resolveMaybeRelative (baseDir value : string) : string :=
  let value := TrimSpace value in
  if bool_decide (value = "") then ""
  else if IsAbs value then Clean value
  else Clean (JoinPath baseDir value).

Definition or_else (override value : string) : string :=
  let v := TrimSpace override in if negb (bool_decide (v = "")) then v else value.

Definition LoadRuntime `{WorkDir} `{GoUnicode} `{AppConfig.ConfigJson} (flt : Faults) (getenv : string → string)
    (override : Override) (t : OsState) : result goerr Runtime :=
  let configPath := TrimSpace (or_ConfigPath override) in
  let configPath := if bool_decide (configPath = "") then "roodox.config.json" else configPath in
  try absConfigPath := Abs configPath in
  let configDir := Dir absConfigPath in
  try cfg := AppConfig.Load flt getenv absConfigPath t in
  let rootDir := resolveMaybeRelative configDir (AppConfig.RootDir cfg) in
  let rootDir :=
    let v := TrimSpace (or_RootDir override) in
    if negb (bool_decide (v = "")) then resolveMaybeRelative configDir v else rootDir in
  let dialAddr := normalizeDialAddr (AppConfig.Addr cfg) in
  let dialAddr :=
    let v := TrimSpace (or_Addr override) in if negb (bool_decide (v = "")) then normalizeDialAddr v else dialAddr in
  let tlsRootCertPath :=
    if AppConfig.TLSEnabled cfg then defaultTLSRootCertPath (resolveMaybeRelative configDir (AppConfig.TLSCertPath cfg)) else "" in
  let tlsRootCertPath :=
    let v := TrimSpace (or_TLSRootCertPath override) in
    if negb (bool_decide (v = "")) then resolveMaybeRelative configDir v else tlsRootCertPath in
  Ok {|
    q_ConfigPath := absConfigPath;
    q_ConfigDir := configDir;
    q_DialAddr := dialAddr;
    q_RootDir := rootDir;
    q_SharedSecret := or_else (or_SharedSecret override) (TrimSpace (AppConfig.SharedSecret cfg));
    q_TLSEnabled := AppConfig.TLSEnabled cfg;
    q_TLSRootCertPath := tlsRootCertPath;
    q_TLSServerName := or_else (or_TLSServerName override) (defaultTLSServerName cfg dialAddr);
    q_ServerID := or_else (or_ServerID override) (TrimSpace (AppConfig.cp_ServerID (AppConfig.ControlPlane cfg)));
    q_RemoteBuildEnabled := AppConfig.RemoteBuildEnabled cfg;
  |}.

Definition ResolveRunRoot `{GoUnicode} (rootDir rel : string) : result goerr string :=
  let rootDir := Clean rootDir in
  let full := Clean (JoinPath rootDir (FromSlash rel)) in
  try relative := Rel rootDir full in
  if bool_decide (relative = ".") || bool_decide (relative = "") || HasPrefix relative ".."
  then Err (ErrNew ("refusing to resolve path outside root: rel=" +:+ Quote rel +:+ " root=" +:+ Quote rootDir))
  else Ok full.

(** [path.Join], which leaves out empty elements. *)
Definition path_Join (parts : list string) : string :=
  match filter (λ p, p ≠ "") parts with [] => "" | l => Clean (Join Separator l) end.
Definition JoinRunPath (parts : list string) : string := path_Join (map TrimSpace parts).

Definition BuildRunID (prefix : string) (now : Z) : string := prefix +:+ "-" +:+ format_stamp (H := 0) now.
Definition BuildRunRelRoot (kind : string) (now : Z) : string := path_Join ["qa"; BuildRunID kind now].

(** ** Checks *)

Section checks.
Context `{GoUnicode}.

Definition ExpectStatusCode (err : option QaError) (code : Code) : option QaError :=
  match err with
  | None => Some (Failed ("expected gRPC status " +:+ code_text code +:+ ", got nil"))
  | Some err =>
      if bool_decide (status_code err = code_text code) then None
      else Some (Wrapped ("expected gRPC status " +:+ code_text code +:+ ", got " +:+ status_code err) err)
  end.

Definition ExpectConflict (conflicted : bool) (conflictPath label : string) : option QaError :=
  if negb conflicted then Some (Failed (label +:+ " should report conflicted=true"))
  else if bool_decide (TrimSpace conflictPath = "") then Some (Failed (label +:+ " should return conflict_path"))
  else None.

Definition ExpectStringContains (value needle label : string) : option QaError :=
  if negb (Contains value needle)
  then Some (Failed (label +:+ " should contain " +:+ Quote needle +:+ ", got " +:+ Quote value)) else None.

Definition EnsureNonEmpty (value label : string) : option QaError :=
  if bool_decide (TrimSpace value = "") then Some (Failed (label +:+ " must not be empty")) else None.

Definition IsAuthDisabled (rt : Runtime) : bool := bool_decide (TrimSpace (q_SharedSecret rt) = "").
Definition BuildCapabilitySet (rt : Runtime) : list string :=
  ["sync"; "admin"] ++ if q_RemoteBuildEnabled rt then ["build"] else [].
End checks.

(** The options that [Runtime.Dial] connects with. *)
Definition dial_options (rt : Runtime) : ServerConfig.ConnectionOptions := {|
  ServerConfig.co_SharedSecret := q_SharedSecret rt;
  ServerConfig.co_TLSEnabled := q_TLSEnabled rt;
  ServerConfig.co_TLSRootCertPath := q_TLSRootCertPath rt;
  ServerConfig.co_TLSServerName := q_TLSServerName rt;
|}.

(** ** Files of a run *)

Section files.
Context `{GoUnicode} (flt : Faults) (now : Z).

Definition EnsureDir (rootDir rel : string) : go OsState goerr string :=
  let! full := go_lift (ResolveRunRoot rootDir rel) in
  let! _ := os_MkdirAll flt now full in
  go_ret full.

Definition WriteFixtureFile (rootDir rel content : string) : go OsState goerr unit :=
  let! full := go_lift (ResolveRunRoot rootDir rel) in
  let! _ := os_MkdirAll flt now (Dir full) in
  os_WriteFile flt now full (bytes_of_string content).

Definition RemoveRunRoot (rootDir rel : string) : go OsState goerr unit :=
  let! full := go_lift (ResolveRunRoot rootDir rel) in
  go_map_err (ErrWrap ("remove " +:+ Quote full +:+ " failed")) (os_RemoveAll flt full).

Definition EnsureCMakeBuildUnit (rootDir rel body : string) : go OsState goerr unit :=
  let! unitDir := EnsureDir rootDir rel in
  os_WriteFile flt now (JoinPath unitDir "CMakeLists.txt") (bytes_of_string body).
End files.

(** ** Durations as texts *)

(** [fmtFrac]: the fraction of [v] in [10^prec] parts, without trailing zeros. *)
Definition fmtFrac (v : Z) (prec : nat) : string :=
  let scale := 10 ^ Z.of_nat prec in
  let digits := trim_right (Ascii.eqb (ch 48)) (GoTime.pad prec (v mod scale)) in
  pretty (v / scale) +:+ if bool_decide (digits = "") then "" else "." +:+ digits.

(** [d.String()] *)
Definition Duration_String (d : Z) : string :=
  let u := Z.abs d in
  let text :=
    if u =? 0 then "0s"
    else if u <? 1000 then pretty u +:+ "ns"
    else if u <? 1000000 then fmtFrac u 3 +:+ String (ch 194) (String (ch 181) "s")
    else if u <? 1000000000 then fmtFrac u 6 +:+ "ms"
    else
      let minutes := u / 60000000000 in
      let seconds := fmtFrac (u mod 60000000000) 9 +:+ "s" in
      if minutes =? 0 then seconds
      else if minutes <? 60 then pretty minutes +:+ "m" +:+ seconds
      else pretty (minutes / 60) +:+ "h" +:+ pretty (minutes mod 60) +:+ "m" +:+ seconds in
  if d <? 0 then "-" +:+ text else text.

Example durations_as_texts :
  map Duration_String [30000000000; 1500000000; 90000000000; 5400000000000; 2500000; -1; 0] =
  ["30s"; "1.5s"; "1m30s"; "1h30m0s"; "2.5ms"; "-1ns"; "0s"].
Proof. vm_compute. reflexivity. Qed.

(** ** Running on a machine *)

Section machine.
Context {M : Type} `{!Machine M} `{GoUnicode}.

Definition call {A} (m : go M ClientError A) : go M QaError A := go_map_err Call m.
Definition call_or {A} (pre : string) (m : go M ClientError A) : go M QaError A := go_map_err (λ e, Wrapped pre (Call e)) m.
Definition on_machine {A} (m : go OsState goerr A) : go M QaError A := λ s,
  let '(t, r) := m (files s) in (with_files t s, map_err (λ e, Call (Local e)) r).
Definition clock : go M QaError Z := go_get time_Now.
Definition sleep (d : Z) : go M QaError unit := go_modify (time_Sleep d).

Context (c : Stubs M).

Definition terminal (status : string) : bool := bool_decide (status ∈ ["success"; "failed"]).

(** One round of the loop of [WaitBuildTerminal]; [None]: another one follows. *)
Definition wait_poll (buildID : string) (timeout deadline : Z) (s : M) :
    M * option (result QaError (Build.StatusResponse * bytes)) :=
  if time_Now s <? deadline then
    let '(s1, r) := call (GetBuildStatus c buildID) s in
    match r with
    | Err err => (s1, Some (Err err))
    | Ok statusResp =>
        if terminal (Build.r_Status statusResp) then
          let '(s2, log) := call (FetchBuildLog c buildID) s1 in
          (s2, Some (try logResp := log in Ok (statusResp, logResp)))
        else (time_Sleep 500000000 s1, None)
    end
  else (s, Some (Err (Failed ("build " +:+ Quote buildID +:+ " did not reach terminal state within " +:+
                              Duration_String timeout)))).

(** The loop; [None]: the fuel was not enough. *)
Fixpoint wait_loop (fuel : nat) (buildID : string) (timeout deadline : Z) (s : M) :
    M * option (result QaError (Build.StatusResponse * bytes)) :=
  match fuel with
  | O => (s, None)
  | S fuel =>
      match wait_poll buildID timeout deadline s with
      | (s', Some r) => (s', Some r)
      | (s', None) => wait_loop fuel buildID timeout deadline s'
      end
  end.
Definition wait_fuel (timeout : Z) : nat := S (Z.to_nat (timeout / 500000000 + 1)).
Definition WaitBuildTerminal (buildID : string) (timeout : Z) : go M QaError (Build.StatusResponse * bytes) := λ s,
  let '(s', r) := wait_loop (wait_fuel timeout) buildID timeout (time_Now s + timeout) s in
  (s', default (Err (Failed "")) r).
End machine.
End QaSuite.
