(* ===== verification/QaRuns.v ===== *)
(** * The QA suite: its runs

    internal/qasuite/faults.go, live.go, probe.go and soak.go, on a machine and
    the stubs of a server; [dial] is what grpc makes of an address and options.
    The lines that a run prints are left out.  At the end the programs that
    start the runs. *)

From stdpp Require Import pretty.
From S2P Require Import Prelude GoStrings FsPath OsFs PathOps Database Leases Hash World Mutations BuildService StringLists DeviceRegistry ControlPlane GoTime Security StrConv AppConfig ServerConfig AdminRuntime Client QaSuite.
Open Scope string_scope.
Open Scope Z_scope.
Open Scope list_scope.

Module QaRuns.
Import Client QaSuite.

Definition newline : string := String (ch 10) "".

Section runs.
Context {M : Type} `{!Machine M} `{GoUnicode} `{TLS.X509} `{!CertPools} (flt : Faults).
Context (dial : ClientConn → Stubs M) (rt : Runtime).

Definition connect (addr : string) (opts : ServerConfig.ConnectionOptions) : go M QaError (Stubs M) := λ s,
  (s, map_err (λ e, Call (Local e)) (try conn := NewRoodoxClientWithOptions flt addr opts (files s) in Ok (dial conn))).
Definition Dial : go M QaError (Stubs M) := connect (q_DialAddr rt) (dial_options rt).

(** [defer func() { _ = RemoveRunRoot(...) }()], unless artifacts are kept. *)
Definition with_cleanup {A} (keepArtifacts : bool) (runRoot : string) (m : go M QaError A) : go M QaError A :=
  catch! r := m in
  (if keepArtifacts then go_ret tt else go_ignore (E := QaError) (on_machine (RemoveRunRoot flt (q_RootDir rt) runRoot))) ;;!
  go_lift r.

(** ** faults.go *)

Definition expectHealthError (addr : string) (opts : ServerConfig.ConnectionOptions)
    (validate : option QaError → option QaError) : go M QaError unit :=
  catch! c := connect addr opts in
  match c with
  | Err err => must (validate (Some err))
  | Ok c =>
      catch! health := call (HealthCheck c) in
      must (validate (match health with Ok _ => None | Err err => Some err end))
  end.

Definition expectHealthFailure (opts : ServerConfig.ConnectionOptions) (addr : string) (code : Code) (contains : string) :
    go M QaError unit :=
  expectHealthError addr opts (λ err,
    match ExpectStatusCode err code, err with
    | Some e, _ => Some e
    | None, Some err =>
        if negb (bool_decide (contains = "")) && negb (Contains (qa_text err) contains)
        then Some (Failed ("health error should contain " +:+ Quote contains +:+ ", got " +:+ Quote (qa_text err))) else None
    | None, None => None
    end).

Definition expectHealthErrorContains (opts : ServerConfig.ConnectionOptions) (addr contains : string) : go M QaError unit :=
  expectHealthError addr opts (λ err,
    match err with
    | None => Some (Failed "expected health check to fail")
    | Some err =>
        if negb (Contains (qa_text err) contains)
        then Some (Failed ("health error should contain " +:+ Quote contains +:+ ", got " +:+ Quote (qa_text err))) else None
    end).

Definition expectClientCreateError (opts : ServerConfig.ConnectionOptions) (addr contains : string) : go M QaError unit :=
  catch! c := connect addr opts in
  match c with
  | Ok _ => go_fail (Failed "expected client creation to fail")
  | Err err =>
      if negb (Contains (qa_text err) contains)
      then go_fail (Failed ("client creation error should contain " +:+ Quote contains +:+ ", got " +:+ Quote (qa_text err)))
      else go_ret tt
  end.

Definition with_secret (secret : string) (o : ServerConfig.ConnectionOptions) : ServerConfig.ConnectionOptions :=
  ServerConfig.mkConnection secret (ServerConfig.co_TLSEnabled o) (ServerConfig.co_TLSRootCertPath o) (ServerConfig.co_TLSServerName o).

Definition StatusSummary (err : option QaError) : string :=
  match err with None => "OK" | Some err => status_code err +:+ ": " +:+ qa_text err end.

(** The versions that the two writes get, and the conflict copies. *)
Record FaultReport := mkReport { fr_first : Z; fr_second : Z; fr_write : string; fr_range : string; fr_resize : string }.

(** The stale writes of a run: each is answered with a conflict. *)
Definition conflict_checks (c : Stubs M) (filePath : string) : go M QaError FaultReport :=
  let! firstWrite := call_or "initial WriteFile failed" (WriteFile c filePath (bytes_of_string "v1") 0) in
  let! secondWrite := call_or "second WriteFile failed" (WriteFile c filePath (bytes_of_string "v2") (Sync.wf_NewVersion firstWrite)) in
  let! staleWrite := call_or "stale WriteFile RPC failed" (WriteFile c filePath (bytes_of_string "stale") (Sync.wf_NewVersion firstWrite)) in
  must (ExpectConflict (Sync.wf_Conflicted staleWrite) (Sync.wf_ConflictPath staleWrite) "stale WriteFile") ;;!
  let! staleRange := call_or "stale WriteFileRange RPC failed"
                       (WriteFileRangeWithVersion c filePath 0 (bytes_of_string "xx") (Sync.wf_NewVersion firstWrite)) in
  must (ExpectConflict (Core.wr_Conflicted staleRange) (Core.wr_ConflictPath staleRange) "stale WriteFileRange") ;;!
  let! staleResize := call_or "stale SetFileSize RPC failed" (SetFileSize c filePath 1 (Sync.wf_NewVersion firstWrite)) in
  must (ExpectConflict (Core.ss_Conflicted staleResize) (Core.ss_ConflictPath staleResize) "stale SetFileSize") ;;!
  go_ret (mkReport (Sync.wf_NewVersion firstWrite) (Sync.wf_NewVersion secondWrite) (Sync.wf_ConflictPath staleWrite)
            (Core.wr_ConflictPath staleRange) (Core.ss_ConflictPath staleResize)).

Definition build_check (c : Stubs M) (missingBuildUnit : string) : go M QaError unit :=
  if q_RemoteBuildEnabled rt then
    catch! buildResp := call (StartBuild c missingBuildUnit "smoke") in
    match buildResp with
    | Err err => must (ExpectStringContains (qa_text err) "unsupported build unit" "StartBuild immediate error")
    | Ok buildID =>
        let! r := go_map_err (Wrapped "missing-build-unit terminal wait failed") (WaitBuildTerminal c buildID 15000000000) in
        let statusResp := r.1 in
        if negb (bool_decide (Build.r_Status statusResp = "failed"))
        then go_fail (Failed ("missing-build-unit status=" +:+ Quote (Build.r_Status statusResp) +:+ ", want failed"))
        else must (ExpectStringContains (Build.r_Error statusResp) "unsupported build unit" "missing-build-unit error")
    end
  else go_ret tt.

Definition unknown_device_checks (c : Stubs M) : go M QaError unit :=
  let! now := clock in
  catch! heartbeat := call (Heartbeat c {|
    Registry.hb_DeviceID := "unknown-device"; Registry.hb_SessionID := "unknown-session";
    Registry.hb_TimestampUnix := unix_seconds now; Registry.hb_OverlayConnected := false; Registry.hb_GRPCConnected := false;
    Registry.hb_LastSyncTimeUnix := 0; Registry.hb_LastError := ""; Registry.hb_MountState := ""; Registry.hb_SyncStateSummary := "" |}) in
  must (Wrapped "Heartbeat(unknown-device) validation failed" <$>
    ExpectStatusCode (match heartbeat with Err err => Some err | Ok _ => None end) NotFound) ;;!
  catch! assigned := call (GetAssignedConfig c "unknown-device") in
  must (Wrapped "GetAssignedConfig(unknown-device) validation failed" <$>
    ExpectStatusCode (match assigned with Err err => Some err | Ok _ => None end) NotFound).

Definition RunFaults (keepArtifacts : bool) : go M QaError FaultReport :=
  let! now := clock in
  let runRoot := BuildRunRelRoot "faults" now in
  let filePath := path_Join [runRoot; "conflict.txt"] in
  let missingBuildUnit := path_Join [runRoot; "missing-build-unit"] in
  with_cleanup keepArtifacts runRoot (
    (if negb (IsAuthDisabled rt)
     then expectHealthFailure (with_secret "wrong-secret" (dial_options rt)) (q_DialAddr rt) Unauthenticated "invalid shared secret"
     else go_ret tt) ;;!
    (if q_TLSEnabled rt then
       expectHealthErrorContains
         (ServerConfig.mkConnection (q_SharedSecret rt) true (q_TLSRootCertPath rt) "definitely-wrong-name")
         (q_DialAddr rt) "failed to verify certificate" ;;!
       expectClientCreateError
         (ServerConfig.mkConnection (q_SharedSecret rt) true
            (resolveMaybeRelative (q_ConfigDir rt) "certs/roodox-server-key.pem") (q_TLSServerName rt))
         (q_DialAddr rt) "append tls root certificate failed"
     else go_ret tt) ;;!
    let! c := Dial in
    let! report := conflict_checks c filePath in
    build_check c missingBuildUnit ;;!
    unknown_device_checks c ;;!
    go_ret report).

(** ** live.go *)

Definition liveBuildUnitContents : string :=
  "cmake_minimum_required(VERSION 3.20)" +:+ newline +:+ "project(RoodoxLiveQA NONE)" +:+ newline +:+
  "add_custom_target(smoke" +:+ newline +:+ "  COMMAND ${CMAKE_COMMAND} -E echo live-qa > artifact.txt" +:+ newline +:+
  "  BYPRODUCTS artifact.txt" +:+ newline +:+ "  VERBATIM" +:+ newline +:+ ")" +:+ newline.

Definition serving_text (s : ServingStatus) : string :=
  match s with
  | HealthUnknown => "UNKNOWN" | SERVING => "SERVING" | NOT_SERVING => "NOT_SERVING" | SERVICE_UNKNOWN => "SERVICE_UNKNOWN"
  end.

Definition live_health (c : Stubs M) : go M QaError AdminRuntime.GetServerObservabilityResponse :=
  let! health := call_or "health check failed" (HealthCheck c) in
  (match health with
   | SERVING => go_ret tt
   | s => go_fail (Failed ("health status = " +:+ serving_text s +:+ ", want SERVING"))
   end) ;;!
  let! runtimeResp := call_or "GetServerRuntime failed" (GetServerRuntime c) in
  must (EnsureNonEmpty (AdminRuntime.gr_listen_addr runtimeResp) "listen_addr") ;;!
  call_or "GetServerObservability failed" (GetServerObservability c).

Definition register_request (deviceID name version : string) : Control.RegisterDeviceRequest := {|
  Control.rq_device_id := deviceID; Control.rq_device_name := name; Control.rq_device_role := "tester";
  Control.rq_client_version := version; Control.rq_platform := "windows"; Control.rq_overlay_provider := "local";
  Control.rq_overlay_address := "127.0.0.1"; Control.rq_capabilities := BuildCapabilitySet rt;
  Control.rq_server_id := q_ServerID rt; Control.rq_device_group := "default" |}.
Definition sync_report (deviceID summary : string) (tasks now : Z) : Registry.DeviceSyncStateReport := {|
  Registry.sr_DeviceID := deviceID; Registry.sr_CurrentTaskCount := tasks; Registry.sr_LastSuccessTime := unix_seconds now;
  Registry.sr_LastError := ""; Registry.sr_ConflictCount := 0; Registry.sr_QueueDepth := 0; Registry.sr_Summary := summary |}.
Definition heartbeat_of (deviceID session summary : string) (now : Z) : Registry.DeviceHeartbeat := {|
  Registry.hb_DeviceID := deviceID; Registry.hb_SessionID := session; Registry.hb_TimestampUnix := unix_seconds now;
  Registry.hb_OverlayConnected := true; Registry.hb_GRPCConnected := true; Registry.hb_LastSyncTimeUnix := unix_seconds now;
  Registry.hb_LastError := ""; Registry.hb_MountState := "unmounted"; Registry.hb_SyncStateSummary := summary |}.

Definition live_device (c : Stubs M) (deviceID : string) : go M QaError unit :=
  let! registerResp := call_or "RegisterDevice failed" (RegisterDevice c (register_request deviceID "qa-live-client" "qa-live")) in
  (if negb (Control.rs_accepted registerResp) then go_fail (Failed "RegisterDevice was rejected") else go_ret tt) ;;!
  let! cfgResp := call_or "GetAssignedConfig failed" (GetAssignedConfig c deviceID) in
  (if bool_decide (Control.ac_SyncRoots (Control.as_config cfgResp) = [])
   then go_fail (Failed "GetAssignedConfig returned empty sync_roots") else go_ret tt) ;;!
  let! now := clock in
  call_or "ReportSyncState failed" (ReportSyncState c (sync_report deviceID "qa-live" 1 now)) ;;!
  let! now := clock in
  let! heartbeatResp := call_or "Heartbeat failed" (Heartbeat c (heartbeat_of deviceID ("qa-live-" +:+ pretty now) "qa-live" now)) in
  if Control.hs_next_heartbeat_seconds heartbeatResp =? 0
  then go_fail (Failed "Heartbeat returned next_heartbeat_seconds=0") else go_ret tt.

Definition live_files (c : Stubs M) (runRoot filePath deviceID : string) : go M QaError unit :=
  let! firstWrite := call_or "WriteFile failed" (WriteFile c filePath (bytes_of_string "hello-live") 0) in
  (if Sync.wf_Conflicted firstWrite then go_fail (Failed "initial WriteFile unexpectedly conflicted") else go_ret tt) ;;!
  let! rangeWrite := call_or "WriteFileRange failed" (WriteFileRange c filePath 10 (bytes_of_string "|tail|")) in
  (if Core.wr_Conflicted rangeWrite then go_fail (Failed "WriteFileRange unexpectedly conflicted") else go_ret tt) ;;!
  let! data := call_or "ReadFile failed" (ReadFile c filePath) in
  let text := String.string_of_list_byte data in
  (if negb (Contains text "hello-live") || negb (Contains text "|tail|")
   then go_fail (Failed ("ReadFile returned unexpected payload: " +:+ Quote text)) else go_ret tt) ;;!
  let! lockResp := call_or "AcquireLock failed" (AcquireLock c filePath deviceID 15000000000) in
  (if negb (LockService.acq_Ok lockResp)
   then go_fail (Failed ("AcquireLock rejected: owner=" +:+ Quote (LockService.acq_Owner lockResp))) else go_ret tt) ;;!
  call_or "ReleaseLock failed" (ReleaseLock c filePath deviceID) ;;!
  let! history := call_or "GetHistory failed" (GetHistory c filePath) in
  (if (length history <? 2)%nat
   then go_fail (Failed ("GetHistory returned " +:+ pretty (Z.of_nat (length history)) +:+ " records, want at least 2"))
   else go_ret tt) ;;!
  let version := match last history with Some r => v_Version r | None => 0 end in
  let! versionData := call_or "GetVersion failed" (GetVersion c filePath version) in
  (if bool_decide (versionData = []) then go_fail (Failed "GetVersion returned empty data") else go_ret tt) ;;!
  let! entries := call_or "ListDir failed" (ListDir c runRoot) in
  if bool_decide (length entries = 0%nat) then go_fail (Failed ("ListDir returned no entries for " +:+ Quote runRoot)) else go_ret tt.

Definition live_build (c : Stubs M) (buildUnit : string) : go M QaError string :=
  if q_RemoteBuildEnabled rt then
    let! buildID := call_or "StartBuild failed" (StartBuild c buildUnit "smoke") in
    let! r := go_map_err (Wrapped "WaitBuildTerminal failed") (WaitBuildTerminal c buildID 30000000000) in
    (if negb (bool_decide (Build.r_Status r.1 = "success"))
     then go_fail (Failed ("build " +:+ Quote buildID +:+ " ended with status=" +:+ Quote (Build.r_Status r.1) +:+
                           " error=" +:+ Quote (Build.r_Error r.1))) else go_ret tt) ;;!
    (if bool_decide (TrimSpace (String.string_of_list_byte r.2) = "")
     then go_fail (Failed "FetchBuildLog returned empty log") else go_ret tt) ;;!
    go_ret buildID
  else go_ret "skipped".

(** The path of the backup and the build of a run that passes. *)
Definition RunLive (keepArtifacts : bool) : go M QaError (string * string) :=
  let! now := clock in
  let runRoot := BuildRunRelRoot "live" now in
  let buildUnit := JoinRunPath [runRoot; "build-unit"] in
  let filePath := JoinRunPath [runRoot; "data.txt"] in
  let! now' := clock in
  let deviceID := "qa-" +:+ BuildRunID "live-device" now' in
  with_cleanup keepArtifacts runRoot (
    on_machine (EnsureCMakeBuildUnit flt now (q_RootDir rt) buildUnit liveBuildUnitContents) ;;!
    let! c := Dial in
    let! _ := live_health c in
    live_device c deviceID ;;!
    live_files c runRoot filePath deviceID ;;!
    let! buildID := live_build c buildUnit in
    let! devices := call_or "ListDevices failed" (ListDevices c) in
    (if negb (existsb (λ device, bool_decide (Control.sm_device_id device = deviceID)) devices)
     then go_fail (Failed ("ListDevices did not include registered device " +:+ Quote deviceID)) else go_ret tt) ;;!
    let! backupResp := call_or "TriggerServerBackup failed" (TriggerServerBackup c) in
    must (EnsureNonEmpty (AdminRuntime.tb_path backupResp) "backup path") ;;!
    go_ret (AdminRuntime.tb_path backupResp, buildID)).

(** ** probe.go *)

Record ProbeOptions := mkProbe { po_Pre : Z; po_Down : Z; po_Post : Z; po_Interval : Z }.
Definition probe_defaults (o : ProbeOptions) : ProbeOptions :=
  let or d v := if v <=? 0 then d else v in
  mkProbe (or 5000000000 (po_Pre o)) (or 7000000000 (po_Down o)) (or 14000000000 (po_Post o)) (or 1000000000 (po_Interval o)).

Definition probeOnce : go M QaError unit :=
  let! c := Dial in
  let! _ := call (HealthCheck c) in
  let! _ := call (ListDevices c) in
  go_ret tt.

Inductive Phase := PhasePre | PhaseDown | PhasePost.
#[global] Instance Phase_eq_dec : EqDecision Phase.
Proof. solve_decision. Defined.
Definition phase_at (o : ProbeOptions) (elapsed : Z) : Phase :=
  if elapsed <? po_Pre o then PhasePre else if elapsed <? po_Pre o + po_Down o then PhaseDown else PhasePost.

(** The probes of a run with their phases and whether they succeeded; [None]:
    the fuel was not enough. *)
Fixpoint probe_loop (fuel : nat) (o : ProbeOptions) (startedAt : Z) (s : M) : M * option (list (Phase * bool)) :=
  match fuel with
  | O => (s, None)
  | S fuel =>
      let elapsed := time_Now s - startedAt in
      if elapsed <? po_Pre o + po_Down o + po_Post o then
        let '(s1, r) := probeOnce s in
        let '(s2, rest) := probe_loop fuel o startedAt (time_Sleep (po_Interval o) s1) in
        (s2, (λ l, (phase_at o elapsed, is_ok r) :: l) <$> rest)
      else (s, Some [])
  end.
Definition probe_fuel (o : ProbeOptions) : nat := S (Z.to_nat ((po_Pre o + po_Down o + po_Post o) / po_Interval o + 1)).

Definition count_probes (phase : Phase) (ok : bool) (l : list (Phase * bool)) : nat :=
  length (filter (λ p, p = (phase, ok)) l).
Definition probe_verdict (l : list (Phase * bool)) : result QaError unit :=
  if (count_probes PhasePre true l =? 0)%nat then Err (Failed "restart probe failed: no success before restart window")
  else if (count_probes PhaseDown false l =? 0)%nat then Err (Failed "restart probe failed: no failure during restart window")
  else if (count_probes PhasePost true l =? 0)%nat then Err (Failed "restart probe failed: no success after restart window")
  else Ok tt.
Definition RunRestartProbe (o : ProbeOptions) : go M QaError unit := λ s,
  let o := probe_defaults o in
  let '(s', l) := probe_loop (probe_fuel o) o (time_Now s) s in
  (s', match l with Some l => probe_verdict l | None => Err (Failed "") end).
End runs.
End QaRuns.

(** * The QA suite: the soak run

    internal/qasuite/soak.go: workers, two tickers and a builder that call one
    server at the same time until a deadline or the first failure.  A goroutine
    is a small machine; it is cut where it looks at the context of the run and
    where it calls the server, and time passes between its steps as it likes.
    The deadlines of single calls are left out, so a call under way is only
    cancelled by the context of the run. *)

Module QaSoak.
Import Client QaSuite QaRuns.

(** ** What the goroutines share *)

Record SoakOptions := mkSoak { sk_Duration : Z; sk_Workers : Z; sk_BuildInterval : Z; sk_BackupOnce : bool }.
Definition soak_defaults (rt : Runtime) (o : SoakOptions) : SoakOptions :=
  let interval := if sk_BuildInterval o <? 0 then 0 else sk_BuildInterval o in
  mkSoak (if sk_Duration o <=? 0 then 120000000000 else sk_Duration o) (if sk_Workers o <=? 0 then 4 else sk_Workers o)
    (if negb (q_RemoteBuildEnabled rt) && (0 <? interval) then 0 else interval) (sk_BackupOnce o).

Inductive Tally := writeOps | readOps | historyOps | lockOps | heartbeatOps | syncOps | adminOps | buildOps | buildOK.
#[global] Instance Tally_eq_dec : EqDecision Tally.
Proof. solve_decision. Defined.

(** [firstErr] is set once, and then [runCtx] is cancelled. *)
Record Shared (M : Type) := mkShared { sh_machine : M; sh_err : option QaError; sh_stopped : bool; sh_tally : Tally → nat }.
Arguments mkShared {M}. Arguments sh_machine {M}. Arguments sh_err {M}. Arguments sh_stopped {M}. Arguments sh_tally {M}.

Definition on_sh {M} (m : M) (s : Shared M) : Shared M := mkShared m (sh_err s) (sh_stopped s) (sh_tally s).
Definition add_tally {M} (t : Tally) (s : Shared M) : Shared M :=
  mkShared (sh_machine s) (sh_err s) (sh_stopped s) (λ u, if decide (u = t) then S (sh_tally s u) else sh_tally s u).
Definition fail {M} (err : QaError) (s : Shared M) : Shared M :=
  match sh_err s with
  | None => mkShared (sh_machine s) (Some err) true (sh_tally s)
  | Some _ => s
  end.

(** ** Goroutines *)

(** The closures that are given to [op]. *)
Inductive OpKind :=
| OpWrite (filePath payload : string) | OpTail (filePath payload : string) (seq : Z) | OpRead (filePath : string) (worker : Z)
| OpHistory (filePath : string) | OpAcquire (lockPath : string) | OpRelease (lockPath : string)
| OpSync | OpHeartbeat | OpRuntime | OpObservability | OpDevices | OpBackup | OpStartBuild.

Inductive Task := Worker (worker seq : Z) | SyncTicker | AdminTicker (backupIssued : bool) | Builder.

(** At the head of its loop; before the calls that are left of a round; in a
    call; waiting for a build; returned. *)
Inductive Goroutine :=
| Loop (t : Task)
| Doing (t : Task) (ops : list OpKind)
| Calling (t : Task) (o : OpKind) (ops : list OpKind)
| Polling (buildID : string) (deadline : Z)
| Finished.

Section soak.
Context {M : Type} `{!Machine M} `{GoUnicode} (rt : Runtime) (c : Stubs M) (opts : SoakOptions).
Context (runRoot buildUnit deviceID : string) (deadline : Z).

(** What an [op] calls, with the build that it started. *)
Definition op_body (o : OpKind) : go M QaError string :=
  match o with
  | OpWrite filePath payload =>
      let! resp := call_or ("WriteFile(" +:+ filePath +:+ ") failed") (WriteFile c filePath (bytes_of_string payload) 0) in
      if Sync.wf_Conflicted resp then go_fail (Failed ("WriteFile(" +:+ filePath +:+ ") unexpectedly conflicted")) else go_ret ""
  | OpTail filePath payload seq =>
      let! resp := call_or ("WriteFileRange(" +:+ filePath +:+ ") failed")
        (WriteFileRange c filePath (Z.of_nat (String.length payload)) (bytes_of_string ("|tail=" +:+ GoTime.pad 2 (seq mod 100) +:+ "|"))) in
      if Core.wr_Conflicted resp then go_fail (Failed ("WriteFileRange(" +:+ filePath +:+ ") unexpectedly conflicted")) else go_ret ""
  | OpRead filePath worker =>
      let! data := call_or ("ReadFile(" +:+ filePath +:+ ") failed") (ReadFile c filePath) in
      let text := String.string_of_list_byte data in
      if negb (Contains text ("worker=" +:+ pretty worker)) || negb (Contains text "|tail=")
      then go_fail (Failed ("ReadFile(" +:+ filePath +:+ ") returned unexpected payload: " +:+ Quote text)) else go_ret ""
  | OpHistory filePath =>
      let! history := call_or ("GetHistory(" +:+ filePath +:+ ") failed") (GetHistory c filePath) in
      if bool_decide (length history = 0%nat)
      then go_fail (Failed ("GetHistory(" +:+ filePath +:+ ") returned empty history")) else go_ret ""
  | OpAcquire lockPath =>
      let! lockResp := call_or ("AcquireLock(" +:+ lockPath +:+ ") failed") (AcquireLock c lockPath deviceID 10000000000) in
      if negb (LockService.acq_Ok lockResp)
      then go_fail (Failed ("AcquireLock(" +:+ lockPath +:+ ") rejected owner=" +:+ Quote (LockService.acq_Owner lockResp)))
      else go_ret ""
  | OpRelease lockPath =>
      let! _ := call_or ("ReleaseLock(" +:+ lockPath +:+ ") failed") (ReleaseLock c lockPath deviceID) in go_ret ""
  | OpSync =>
      let! now := clock in
      let! _ := call_or "ReportSyncState failed" (ReportSyncState c (sync_report deviceID "qa-soak" (wrap_uint32 (sk_Workers opts)) now)) in
      go_ret ""
  | OpHeartbeat =>
      let! now := clock in
      let! _ := call_or "Heartbeat failed" (Heartbeat c (heartbeat_of deviceID ("qa-soak-" +:+ pretty now) "qa-soak" now)) in go_ret ""
  | OpRuntime => let! _ := call_or "GetServerRuntime failed" (GetServerRuntime c) in go_ret ""
  | OpObservability => let! _ := call_or "GetServerObservability failed" (GetServerObservability c) in go_ret ""
  | OpDevices => let! _ := call_or "ListDevices failed" (ListDevices c) in go_ret ""
  | OpBackup => let! _ := call_or "TriggerServerBackup failed" (TriggerServerBackup c) in go_ret ""
  | OpStartBuild => call_or "StartBuild failed" (StartBuild c buildUnit "smoke")
  end.
Definition op_tally (o : OpKind) : Tally :=
  match o with
  | OpWrite _ _ | OpTail _ _ _ => writeOps
  | OpRead _ _ => readOps
  | OpHistory _ => historyOps
  | OpAcquire _ | OpRelease _ => lockOps
  | OpSync => syncOps
  | OpHeartbeat => heartbeatOps
  | OpRuntime | OpObservability | OpDevices | OpBackup => adminOps
  | OpStartBuild => buildOps
  end.

Definition worker_round (worker seq now : Z) : list OpKind :=
  let filePath := path_Join [runRoot; "worker-" +:+ pretty worker +:+ ".txt"] in
  let lockPath := path_Join [runRoot; "lock-" +:+ pretty worker +:+ ".txt"] in
  let payload := "worker=" +:+ pretty worker +:+ " seq=" +:+ pretty seq +:+ " at=" +:+ pretty now in
  [OpWrite filePath payload; OpTail filePath payload seq; OpRead filePath worker] ++
  (if seq mod 5 =? 0 then [OpHistory filePath] else []) ++
  (if seq mod 7 =? 0 then [OpAcquire lockPath; OpRelease lockPath] else []).
Definition round (t : Task) (now : Z) : list OpKind :=
  match t with
  | Worker worker seq => worker_round worker seq now
  | SyncTicker => [OpSync; OpHeartbeat]
  | AdminTicker backupIssued => [OpRuntime; OpObservability; OpDevices] ++ if backupIssued then [] else [OpBackup]
  | Builder => [OpStartBuild]
  end.
Definition next_round (t : Task) : Task := match t with Worker worker seq => Worker worker (seq + 1) | t => t end.

(** What follows a call: of a backup that was made and of a build that was
    started ([r], if the call succeeded) the task takes notice. *)
Definition after_call (t : Task) (o : OpKind) (ops : list OpKind) (r : option string) (s : Shared M) : Goroutine :=
  match o, r with
  | OpBackup, Some _ => Doing (match t with AdminTicker _ => AdminTicker true | t => t end) ops
  | OpStartBuild, Some buildID =>
      if bool_decide (buildID = "") || sh_stopped s then Loop t else Polling buildID (time_Now (sh_machine s) + 30000000000)
  | _, _ => Doing t ops
  end.

Definition err_canceled : QaError := Call (FromTransport "Canceled" "context canceled").

(** The condition of the loops, and what [op] returns on. *)
Definition loop_goes (s : Shared M) : bool := negb (sh_stopped s) && (time_Now (sh_machine s) <? deadline).
Definition op_blocked (s : Shared M) : bool := sh_stopped s || (deadline <? time_Now (sh_machine s)).

(** A step of a goroutine, and the failure that it reports.  Once the run is
    stopped, a call under way may be [cancelled]. *)
Definition advance (cancelled : bool) (g : Goroutine) (s : Shared M) : option (Goroutine * Shared M * option QaError) :=
  match g with
  | Loop t => Some (if loop_goes s then Doing t (round t (time_Now (sh_machine s))) else Finished, s, None)
  | Doing t [] => Some (Loop (next_round t), s, None)
  | Doing t (o :: ops) => Some (if op_blocked s then Doing t ops else Calling t o ops, s, None)
  | Calling t o ops =>
      if cancelled then
        if sh_stopped s then Some (after_call t o ops None s, fail err_canceled s, Some err_canceled) else None
      else
        let '(m, r) := op_body o (sh_machine s) in
        let s := on_sh m s in
        match r with
        | Ok buildID => let s := add_tally (op_tally o) s in Some (after_call t o ops (Some buildID) s, s, None)
        | Err err => Some (after_call t o ops None s, fail err s, Some err)
        end
  | Polling buildID until =>
      let failed err s := Some (Loop Builder, fail err s, Some err) in
      let wrap err := Wrapped ("WaitBuildTerminal(" +:+ buildID +:+ ") failed") err in
      if sh_stopped s then failed (wrap err_canceled) s
      else
        let '(m, r) := wait_poll c buildID 30000000000 until (sh_machine s) in
        let s := on_sh m s in
        match r with
        | None => Some (Polling buildID until, s, None)
        | Some (Err err) => failed (wrap err) s
        | Some (Ok (statusResp, log)) =>
            if negb (bool_decide (Build.r_Status statusResp = "success"))
            then failed (Failed ("build " +:+ Quote buildID +:+ " ended with status=" +:+ Quote (Build.r_Status statusResp) +:+
                                 " error=" +:+ Quote (Build.r_Error statusResp) +:+ " log=" +:+ Quote (String.string_of_list_byte log))) s
            else Some (Loop Builder, add_tally buildOK s, None)
        end
  | Finished => None
  end.

(** ** The run *)

Definition goroutines : list Goroutine :=
  map (λ w, Loop (Worker (Z.of_nat w) 0)) (seq 0 (Z.to_nat (sk_Workers opts))) ++
  [Loop SyncTicker; Loop (AdminTicker (negb (sk_BackupOnce opts)))] ++
  (if 0 <? sk_BuildInterval opts then [Loop Builder] else []).

(** A run of the goroutines, with what each of its steps reported. *)
Inductive soak_run : Shared M * list Goroutine → list (option QaError) → Shared M * list Goroutine → Prop :=
| soak_here st : soak_run st [] st
| soak_time s gs d l st :
    0 ≤ d → soak_run (on_sh (time_Sleep d (sh_machine s)) s, gs) l st → soak_run (s, gs) l st
| soak_step s gs i g cancelled g' s' e l st :
    gs !! i = Some g → advance cancelled g s = Some (g', s', e) →
    soak_run (s', <[i := g']> gs) l st → soak_run (s, gs) (e :: l) st.

Definition soak_verdict (s : Shared M) : result QaError unit :=
  match sh_err s with
  | Some err => Err err
  | None =>
      if (0 <? sk_BuildInterval opts) && bool_decide (sh_tally s buildOK = 0%nat)
      then Err (Failed "soak completed without a successful build") else Ok tt
  end.
End soak.

Definition soakBuildUnitContents : string :=
  "cmake_minimum_required(VERSION 3.20)" +:+ newline +:+ "project(RoodoxSoakQA NONE)" +:+ newline +:+
  "add_custom_target(smoke" +:+ newline +:+ "  COMMAND ${CMAKE_COMMAND} -E echo soak-qa > artifact.txt" +:+ newline +:+
  "  BYPRODUCTS artifact.txt" +:+ newline +:+ "  VERBATIM" +:+ newline +:+ ")" +:+ newline.

Section run.
Context {M : Type} `{!Machine M} `{GoUnicode} `{TLS.X509} `{!CertPools} (flt : Faults).
Context (dial : ClientConn → Stubs M) (rt : Runtime).

Definition new_shared (m : M) : Shared M := mkShared m None false (λ _, 0%nat).

(** What comes before the goroutines: the unit to build, the connection and the
    device. *)
Definition soak_setup (now : Z) (buildUnit deviceID : string) : go M QaError (Stubs M) :=
  on_machine (EnsureCMakeBuildUnit flt now (q_RootDir rt) buildUnit soakBuildUnitContents) ;;!
  let! c := Dial flt dial rt in
  call_or "RegisterDevice failed" (RegisterDevice c (register_request rt deviceID "qa-soak-client" "qa-soak")) ;;!
  go_ret c.

(** What [RunSoak] does and answers: the directory is removed at its end, as in
    the other runs. *)
Inductive RunSoak (keepArtifacts : bool) (o : SoakOptions) (s : M) : M → result QaError unit → Prop :=
| soak_refused s1 e :
    let t := time_Now s in let runRoot := BuildRunRelRoot "soak" t in
    soak_setup t (JoinRunPath [runRoot; "build-unit"]) ("qa-" +:+ BuildRunID "soak-device" t) s = (s1, Err e) →
    RunSoak keepArtifacts o s (with_cleanup flt rt keepArtifacts runRoot (go_fail (A := unit) e) s1).1 (Err e)
| soak_ran s1 c l sh gs :
    let t := time_Now s in let runRoot := BuildRunRelRoot "soak" t in
    let buildUnit := JoinRunPath [runRoot; "build-unit"] in
    let deviceID := "qa-" +:+ BuildRunID "soak-device" t in
    let o' := soak_defaults rt o in
    soak_setup t buildUnit deviceID s = (s1, Ok c) →
    soak_run c o' runRoot buildUnit deviceID (time_Now s1 + sk_Duration o') (new_shared s1, goroutines o') l (sh, gs) →
    Forall (λ g, g = Finished) gs →
    RunSoak keepArtifacts o s (with_cleanup flt rt keepArtifacts runRoot (go_lift (soak_verdict o' sh)) (sh_machine sh)).1
      (soak_verdict o' sh).
End run.
End QaSoak.

(** * The QA programs

    cmd/roodox_qa/main.go and cmd/testclient/main.go, from the values of their
    flags and variables.  [log.Fatal] is the error that they end with; a run is
    given a deadline, which is left out. *)

Module QaMain.
Import Client QaSuite QaRuns QaSoak.

(** The values of the flags that are not given. *)
Definition bindOverrideFlags : Override := {|
  or_ConfigPath := "roodox.config.json"; or_Addr := ""; or_RootDir := ""; or_SharedSecret := "";
  or_TLSRootCertPath := ""; or_TLSServerName := ""; or_ServerID := "" |}.
Definition soak_flags : SoakOptions := mkSoak 120000000000 4 20000000000 true.
Definition probe_flags : ProbeOptions := mkProbe 5000000000 7000000000 14000000000 1000000000.

Inductive QaCommand :=
| QaLive (o : Override) (keepArtifacts : bool)
| QaSoakRun (o : Override) (opts : SoakOptions) (keepArtifacts : bool)
| QaFaults (o : Override) (keepArtifacts : bool)
| QaProbe (o : Override) (opts : ProbeOptions).
Definition override_of (c : QaCommand) : Override :=
  match c with QaLive o _ | QaSoakRun o _ _ | QaFaults o _ | QaProbe o _ => o end.

Section main.
Context {M : Type} `{!Machine M} `{WorkDir} `{GoUnicode} `{AppConfig.ConfigJson} `{TLS.X509} `{!CertPools} (flt : Faults).
Context (getenv : string → string) (dial : ClientConn → Stubs M).

Definition mustLoadRuntime (override : Override) (s : M) : result QaError Runtime :=
  map_err (λ e, Call (Local e)) (LoadRuntime flt getenv override (files s)).

(** A run without what it prints. *)
Definition outcome {A} (x : M * result QaError A) : M * result QaError unit := (x.1, try _ := x.2 in Ok tt).

(** What a command makes of the machine [s], and what it ends with. *)
Definition qa_main (cmd : QaCommand) (s s' : M) (r : result QaError unit) : Prop :=
  match mustLoadRuntime (override_of cmd) s with
  | Err e => s' = s ∧ r = Err e
  | Ok rt =>
      match cmd with
      | QaLive _ keep => (s', r) = outcome (RunLive flt dial rt keep s)
      | QaSoakRun _ opts keep => RunSoak flt dial rt keep opts s s' r
      | QaFaults _ keep => (s', r) = outcome (RunFaults flt dial rt keep s)
      | QaProbe _ opts => (s', r) = RunRestartProbe flt dial rt opts s
      end
  end.

(** ** The test client *)

Definition readBoolEnv (name : string) : bool :=
  let v := getenv name in
  if bool_decide (v = "") then false else default false (ParseBool v).
Definition fatal (pre : string) (e : QaError) : QaError := Failed (pre +:+ qa_text e).

Definition testclient : go M QaError (list VersionRecord) :=
  let! c := connect flt dial "127.0.0.1:50051"
    (ServerConfig.mkConnection (getenv "ROODOX_SHARED_SECRET") (readBoolEnv "ROODOX_TLS_ENABLED")
       (getenv "ROODOX_TLS_ROOT_CERT_PATH") (getenv "ROODOX_TLS_SERVER_NAME")) in
  let! _ := go_map_err (fatal "WriteFile:") (call (WriteFile c "test.txt" (bytes_of_string "hello roodox") 0)) in
  go_map_err (fatal "GetHistory:") (call (GetHistory c "test.txt")).
End main.
End QaMain.
