(* ===== verification/QaTheorems.v ===== *)
(** * The QA suite: theorems

    Where the files of a run are and that none of them is left, that the loops
    of the suite end, and what a restart probe that passes has seen. *)

From stdpp Require Import pretty.
From S2P Require Import Prelude GoStrings StringLists FsPath OsFs GoTime PathOps Frames Containment Artifacts BuildTheorems Hash World Mutations BuildService Security AppConfig ServerConfig AdminRuntime Client QaSuite QaRuns Database Leases DeviceRegistry ControlPlane TlsExamples.
Open Scope string_scope.
Open Scope Z_scope.
Open Scope list_scope.

(** What is relied on of a machine. *)
Class MachineLaws (M : Type) `{Machine M} : Prop := {
  files_with_files t s : files (with_files t s) = t;
  now_with_files t s : time_Now (with_files t s) = time_Now s;
  files_sleep d s : files (time_Sleep d s) = files s;
  sleep_passes d s : time_Now s + Z.max 0 d ≤ time_Now (time_Sleep d s);
}.

Module QaTheorems.
Import Client QaSuite QaRuns QaSoak.

(** ** What every call of a server respects *)

Record calls_keep {M} (R : M → M → Prop) (c : Stubs M) : Prop := {
  keep_ListDir p : steps R (core_ListDir c p);
  keep_Stat p : steps R (core_Stat c p);
  keep_ReadFile p : steps R (core_ReadFile c p);
  keep_ReadFileRange p o l : steps R (core_ReadFileRange c p o l);
  keep_WriteFileRange p o d v : steps R (core_WriteFileRange c p o d v);
  keep_SetFileSize p n v : steps R (core_SetFileSize c p n v);
  keep_WriteFile p d v : steps R (sync_WriteFile c p d v);
  keep_AcquireLock p i n : steps R (lock_AcquireLock c p i n);
  keep_RenewLock p i n : steps R (lock_RenewLock c p i n);
  keep_ReleaseLock p i : steps R (lock_ReleaseLock c p i);
  keep_StartBuild u t : steps R (build_StartBuild c u t);
  keep_GetBuildStatus i : steps R (build_GetBuildStatus c i);
  keep_FetchBuildLog i : steps R (build_FetchBuildLog c i);
  keep_GetBuildProduct i : steps R (build_GetBuildProduct c i);
  keep_GetHistory p : steps R (version_GetHistory c p);
  keep_GetVersion p v : steps R (version_GetVersion c p v);
  keep_RegisterDevice q : steps R (control_RegisterDevice c q);
  keep_Heartbeat q : steps R (control_Heartbeat c q);
  keep_GetAssignedConfig i : steps R (control_GetAssignedConfig c i);
  keep_ReportSyncState q : steps R (control_ReportSyncState c q);
  keep_ListDevices : steps R (admin_ListDevices c);
  keep_GetServerRuntime : steps R (admin_GetServerRuntime c);
  keep_GetServerObservability : steps R (admin_GetServerObservability c);
  keep_TriggerServerBackup : steps R (admin_TriggerServerBackup c);
  keep_ShutdownServer r : steps R (admin_ShutdownServer c r);
  keep_HealthCheck : steps R (health_Check c);
}.

Section kept.
Context {M : Type} `{!Machine M} `{GoUnicode} `{TLS.X509} `{!CertPools} (flt : Faults).
Context (dial : ClientConn → Stubs M) (rt : Runtime) (R : M → M → Prop) `{!PreOrder R}.
Context (Hdial : ∀ conn, calls_keep R (dial conn)) (Hsleep : ∀ d s, R s (time_Sleep d s)).

Lemma wait_poll_steps c buildID timeout deadline s : calls_keep R c → R s (wait_poll c buildID timeout deadline s).1.
Proof.
  intros Hc. unfold wait_poll. destruct (time_Now s <? deadline); [|done].
  pose proof (keep_GetBuildStatus R c Hc buildID s) as Hs. unfold call, go_map_err, GetBuildStatus.
  destruct (build_GetBuildStatus c buildID s) as [s1 [st|e]]; cbn in *; [|done].
  destruct (terminal _); [|cbn; by trans s1].
  pose proof (keep_FetchBuildLog R c Hc buildID s1) as Hl. unfold FetchBuildLog.
  destruct (build_FetchBuildLog c buildID s1) as [s2 log]. cbn in *. by trans s1.
Qed.
Lemma wait_loop_steps c fuel buildID timeout deadline s : calls_keep R c → R s (wait_loop c fuel buildID timeout deadline s).1.
Proof.
  intros Hc. revert s. induction fuel as [|fuel IH]; intros s; [done|]. cbn.
  pose proof (wait_poll_steps c buildID timeout deadline s Hc) as Hp.
  destruct (wait_poll c buildID timeout deadline s) as [s1 [r|]]; [done|]. by trans s1.
Qed.
Lemma WaitBuildTerminal_steps c buildID timeout : calls_keep R c → steps R (WaitBuildTerminal c buildID timeout).
Proof.
  intros Hc s. unfold WaitBuildTerminal. pose proof (wait_loop_steps c (wait_fuel timeout) buildID timeout (time_Now s + timeout) s Hc).
  by destruct (wait_loop _ _ _ _ _ _).
Qed.

Lemma must_steps r : steps R (must r).
Proof. destruct r; intros s; simpl; reflexivity. Qed.

(** A connection that is made answers as [dial] says. *)
Lemma connect_catch_steps {B} addr opts (k : result QaError (Stubs M) → go M QaError B) :
  (∀ e, steps R (k (Err e))) → (∀ conn, steps R (k (Ok (dial conn)))) → steps R (go_catch (connect flt dial addr opts) k).
Proof.
  intros He Hk s. unfold go_catch, connect. destruct (NewRoodoxClientWithOptions flt addr opts (files s)); cbn; [apply Hk|apply He].
Qed.
Lemma connect_bind_steps {B} addr opts (k : Stubs M → go M QaError B) :
  (∀ conn, steps R (k (dial conn))) → steps R (go_bind (connect flt dial addr opts) k).
Proof.
  intros Hk s. unfold go_bind, connect. destruct (NewRoodoxClientWithOptions flt addr opts (files s)); cbn; [apply Hk|reflexivity].
Qed.

#[local] Hint Resolve must_steps WaitBuildTerminal_steps keep_ListDir keep_ReadFile keep_WriteFileRange keep_SetFileSize keep_WriteFile
  keep_AcquireLock keep_ReleaseLock keep_StartBuild keep_GetHistory keep_GetVersion keep_RegisterDevice keep_Heartbeat
  keep_GetAssignedConfig keep_ReportSyncState keep_ListDevices keep_GetServerRuntime keep_GetServerObservability
  keep_TriggerServerBackup keep_HealthCheck : steps.
Ltac qa_steps :=
  repeat first
    [ progress unfold call_or, call, clock
    | match goal with
      | |- steps _ (Client.ListDir _ _) => unfold Client.ListDir
      | |- steps _ (Client.ReadFile _ _) => unfold Client.ReadFile
      | |- steps _ (Client.WriteFile _ _ _ _) => unfold Client.WriteFile
      | |- steps _ (Client.WriteFileRange _ _ _ _) => unfold Client.WriteFileRange, WriteFileRangeWithVersion
      | |- steps _ (Client.WriteFileRangeWithVersion _ _ _ _ _) => unfold WriteFileRangeWithVersion
      | |- steps _ (Client.SetFileSize _ _ _ _) => unfold Client.SetFileSize
      | |- steps _ (Client.AcquireLock _ _ _ _) => unfold Client.AcquireLock
      | |- steps _ (Client.ReleaseLock _ _ _) => unfold Client.ReleaseLock
      | |- steps _ (Client.StartBuild _ _ _) => unfold Client.StartBuild
      | |- steps _ (Client.GetHistory _ _) => unfold Client.GetHistory
      | |- steps _ (Client.GetVersion _ _ _) => unfold Client.GetVersion
      | |- steps _ (Client.RegisterDevice _ _) => unfold Client.RegisterDevice
      | |- steps _ (Client.Heartbeat _ _) => unfold Client.Heartbeat
      | |- steps _ (Client.GetAssignedConfig _ _) => unfold Client.GetAssignedConfig
      | |- steps _ (Client.ReportSyncState _ _) => unfold Client.ReportSyncState
      | |- steps _ (Client.ListDevices _) => unfold Client.ListDevices
      | |- steps _ (Client.GetServerRuntime _) => unfold Client.GetServerRuntime
      | |- steps _ (Client.GetServerObservability _) => unfold Client.GetServerObservability
      | |- steps _ (Client.TriggerServerBackup _) => unfold Client.TriggerServerBackup
      | |- steps _ (Client.HealthCheck _) => unfold Client.HealthCheck
      end
    | solve [eauto with steps]
    | lazymatch goal with
      | |- steps _ (go_catch (connect _ _ _ _) _) => apply connect_catch_steps; intro
      | |- steps _ (go_bind (connect _ _ _ _) _) => apply connect_bind_steps; intro
      end
    | steps_step ].

Lemma conflict_checks_steps c p : calls_keep R c → steps R (conflict_checks c p).
Proof. intros Hc. unfold conflict_checks. qa_steps. Qed.
Lemma build_check_steps c p : calls_keep R c → steps R (build_check rt c p).
Proof. intros Hc. unfold build_check. qa_steps. Qed.
Lemma unknown_device_steps c : calls_keep R c → steps R (unknown_device_checks c).
Proof. intros Hc. unfold unknown_device_checks. qa_steps. Qed.
Lemma op_body_steps c opts buildUnit deviceID o : calls_keep R c → steps R (op_body c opts buildUnit deviceID o).
Proof. intros Hc. destruct o; cbn [op_body]; qa_steps. Qed.
Lemma expectHealthError_steps addr opts v : steps R (expectHealthError flt dial addr opts v).
Proof using All. unfold expectHealthError. qa_steps. Qed.
Lemma expectClientCreateError_steps opts addr t : steps R (expectClientCreateError flt dial opts addr t).
Proof. unfold expectClientCreateError. qa_steps. Qed.
#[local] Hint Resolve conflict_checks_steps build_check_steps unknown_device_steps expectHealthError_steps
  expectClientCreateError_steps : steps.

Lemma live_health_steps c : calls_keep R c → steps R (live_health c).
Proof. intros Hc. unfold live_health. qa_steps. Qed.
Lemma live_device_steps c i : calls_keep R c → steps R (live_device rt c i).
Proof. intros Hc. unfold live_device. qa_steps. Qed.
Lemma live_files_steps c d p i : calls_keep R c → steps R (live_files c d p i).
Proof. intros Hc. unfold live_files. qa_steps. Qed.
Lemma live_build_steps c u : calls_keep R c → steps R (live_build rt c u).
Proof. intros Hc. unfold live_build. qa_steps. Qed.
#[local] Hint Resolve live_health_steps live_device_steps live_files_steps live_build_steps : steps.

Context (Hclean : ∀ rel, steps R (on_machine (RemoveRunRoot flt (q_RootDir rt) rel))).
Context (Hunit : ∀ now rel body, steps R (on_machine (EnsureCMakeBuildUnit flt now (q_RootDir rt) rel body))).
#[local] Hint Resolve Hclean Hunit : steps.

Lemma with_cleanup_steps {A} keep p (m : go M QaError A) : steps R m → steps R (with_cleanup flt rt keep p m).
Proof. intros Hm. unfold with_cleanup. qa_steps. Qed.

Lemma RunFaults_steps keep : steps R (RunFaults flt dial rt keep).
Proof using All.
  unfold RunFaults, Dial, expectHealthFailure, expectHealthErrorContains. qa_steps. apply with_cleanup_steps. qa_steps.
Qed.
Lemma RunLive_steps keep : steps R (RunLive flt dial rt keep).
Proof using All.
  unfold RunLive, Dial. qa_steps. apply with_cleanup_steps. qa_steps.
Qed.
Lemma advance_steps c opts d u i dl b g s g' s' e : calls_keep R c →
  advance c opts d u i dl b g s = Some (g', s', e) → R (sh_machine s) (sh_machine s').
Proof using PreOrder0 Hsleep.
  intros Hc Ha. assert (∀ x (s0 : Shared M), sh_machine (fail x s0) = sh_machine s0) as Hf
    by (intros x s0; unfold fail; by destruct (sh_err s0)).
  unfold advance in Ha. destruct g as [t|t [|o ops]|t o ops|id until|]; cbn zeta in Ha; try (by injection Ha as <- <- <-); [| |done].
  - destruct b; [destruct (sh_stopped s); [|done]; injection Ha as <- <- <-; by rewrite Hf|].
    pose proof (op_body_steps c opts u i o Hc (sh_machine s)) as Hs.
    destruct (op_body _ _ _ _ _ _) as [m [x|err]]; injection Ha as <- <- <-; [exact Hs|by rewrite Hf].
  - destruct (sh_stopped s); [injection Ha as <- <- <-; by rewrite Hf|].
    pose proof (wait_poll_steps c id 30000000000 until (sh_machine s) Hc) as Hs.
    destruct (wait_poll _ _ _ _ _) as [m [[[st log]|err]|]]; [|injection Ha as <- <- <-; by rewrite Hf|by injection Ha as <- <- <-].
    destruct (negb _); injection Ha as <- <- <-; [by rewrite Hf|exact Hs].
Qed.
Lemma soak_run_steps c opts d u i dl st l st' : calls_keep R c →
  soak_run c opts d u i dl st l st' → R (sh_machine st.1) (sh_machine st'.1).
Proof using PreOrder0 Hsleep.
  intros Hc. induction 1 as [[s gs]|s gs n l st Hn _ IH|s gs j g b g' s' e l st Hj Ha _ IH]; cbn in *; [done|..].
  - trans (time_Sleep n (sh_machine s)); [apply Hsleep|exact IH].
  - trans (sh_machine s'); [by eapply advance_steps|exact IH].
Qed.
Lemma setup_keeps now u i s s1 c : soak_setup flt dial rt now u i s = (s1, Ok c) → R s s1 ∧ calls_keep R c.
Proof using PreOrder0 Hdial Hunit.
  intros Hs. split.
  - assert (steps R (soak_setup flt dial rt now u i)) as Hst by (unfold soak_setup, Dial; qa_steps).
    specialize (Hst s). by rewrite Hs in Hst.
  - unfold soak_setup in Hs. apply go_bind_Ok in Hs as (s2 & [] & _ & Hs). apply go_bind_Ok in Hs as (s3 & c' & Hd & Hs).
    apply go_bind_Ok in Hs as (s4 & x & _ & [= _ <-]). unfold Dial, connect in Hd.
    destruct (NewRoodoxClientWithOptions _ _ _ _); [|done]. by injection Hd as _ <-.
Qed.
Lemma RunSoak_steps keep o s s' r : RunSoak flt dial rt keep o s s' r → R s s'.
Proof using All.
  destruct 1 as [s1 e t d Hs|s1 c l sh gs t d u i o' Hs Hr Hall].
  - assert (steps R (soak_setup flt dial rt t (JoinRunPath [d; "build-unit"]) ("qa-" +:+ BuildRunID "soak-device" t))) as Hst
      by (unfold soak_setup, Dial; qa_steps).
    specialize (Hst s). rewrite Hs in Hst. trans s1; [done|]. apply with_cleanup_steps. apply steps_fail, _.
  - destruct (setup_keeps _ _ _ _ _ _ Hs) as [Hs1 Hc]. pose proof (soak_run_steps _ _ _ _ _ _ _ _ _ Hc Hr) as Hs2.
    trans s1; [done|]. trans (sh_machine sh); [done|]. apply with_cleanup_steps. apply steps_lift, _.
Qed.
Lemma probeOnce_steps : steps R (probeOnce flt dial rt).
Proof using PreOrder0 Hdial. unfold probeOnce, Dial. qa_steps. Qed.
End kept.

(** ** The files of a run *)

(** os.RemoveAll only removes, and without faults it leaves nothing. *)
Lemma RemoveAll_sub flt p t k n : (os_RemoveAll flt p t).1 !! k = Some n → is_Some (t !! k).
Proof.
  assert ((os_Remove flt p t).1 ⊆ t) as Hr.
  { unfold os_Remove. repeat case_match; simpl; try done; apply delete_subseteq. }
  unfold os_RemoveAll. destruct (os_Remove flt p t) as [t' [|e]]; simpl in *; [intros Hk; eexists; by eapply lookup_weaken|].
  destruct (errors_Is e ErrNotExist); simpl; [intros Hk; eexists; by eapply lookup_weaken|].
  intros [? _]%map_lookup_filter_Some. by eexists.
Qed.

Lemma unlink_all t k : unlink_stays no_faults t k = false.
Proof.
  unfold unlink_stays. apply not_true_iff_false. intros (x & _ & Hx)%existsb_exists. by rewrite andb_false_r in Hx.
Qed.

Lemma RemoveAll_gone p t : path_key p ≠ [] → is_ok (os_lookup (os_RemoveAll no_faults p t).1 (path_key p)) = false.
Proof.
  intros Hne. set (k := path_key p) in *.
  assert (∀ t', t' !! k = None → is_ok (os_lookup t' k) = false) as Habs.
  { intros t' Hk. destruct (os_lookup t' k) eqn:E; [|done]. apply os_lookup_Ok_node in E.
    unfold node_at in E. by rewrite Hk, decide_False in E. }
  assert (is_ok (os_lookup (filter (λ e, bool_decide (k `prefix_of` e.1) && negb (unlink_stays no_faults t e.1) = false) t) k) = false)
    as Hfilter.
  { apply Habs, map_lookup_filter_None. right. intros n _. cbn. by rewrite bool_decide_eq_true_2, unlink_all. }
  unfold os_RemoveAll, os_Remove. fold k. cbn [no_faults].
  destruct (os_lookup t k) as [[mt|c mt]|e] eqn:E; [destruct (has_entries k t)|..].
  - apply Hfilter.
  - cbn. apply Habs, lookup_delete_eq.
  - cbn. apply Habs, lookup_delete_eq.
  - destruct (errors_Is _ _); [cbn; by rewrite E|apply Hfilter].
Qed.

Section paths.
Context `{GoUnicode} (rootDir : string) (rs : list string).
Context (Hrs : Forall plain rs) (Hroot : Clean rootDir = abs_path rs).

Lemma strip_common_app b t : ∃ c, b = c ++ (strip_common b t).1 ∧ t = c ++ (strip_common b t).2.
Proof.
  revert t. induction b as [|x b IH]; intros t; [by exists []|]. destruct t as [|y t]; [by exists []|].
  cbn. destruct (decide (x = y)) as [->|]; [|by exists []].
  destruct (IH t) as (c & Hb & Ht). exists (y :: c). cbn. by rewrite <- Hb, <- Ht.
Qed.

Lemma JoinPath_abs rel : ∃ fs, Forall plain fs ∧ Clean (JoinPath (abs_path rs) rel) = abs_path fs.
Proof.
  unfold JoinPath. rewrite decide_False by done.
  destruct (Clean_abs (abs_path rs +:+ Separator +:+ rel)) as (ws & Hws & ->).
  { unfold abs_path. by rewrite <- append_assoc, IsAbs_sep. }
  exists ws. by rewrite Clean_abs_path.
Qed.

(** What is resolved is strictly below the root. *)
Lemma ResolveRunRoot_below rel full :
  ResolveRunRoot rootDir rel = Ok full → ∃ ws, ws ≠ [] ∧ Forall plain (rs ++ ws) ∧ full = abs_path (rs ++ ws).
Proof.
  unfold ResolveRunRoot, FromSlash. rewrite Hroot. destruct (JoinPath_abs rel) as (fs & Hfs & ->).
  intros (relative & Hrel & Hf)%res_bind_Ok. revert Hf.
  destruct (_ || _) eqn:Hguard; [done|]. intros [= <-].
  rewrite !orb_false_iff, !bool_decide_eq_false in Hguard. destruct Hguard as [[Hdot _] Hup].
  revert Hrel. unfold Rel. rewrite !Clean_abs_path by done.
  destruct (decide (abs_path fs = abs_path rs)) as [|Hne]; [intros [= <-]; done|].
  rewrite (decide_False (P := abs_path rs = ".")) by done. rewrite !IsAbs_abs_path. cbn [negb Bool.eqb].
  rewrite !path_words_abs_path by done. destruct (strip_common_app rs fs) as (c & Hb & Ht).
  destruct (strip_common rs fs) as [[|x b] t]; cbn [fst snd] in *.
  - intros [= <-]. rewrite app_nil_r in Hb. subst c. exists t. rewrite <- Ht. split; [|done].
    intros ->. apply Hne. by rewrite Ht, app_nil_r.
  - destruct (decide (x = "..")); [done|]. intros [= <-]. exfalso. revert Hup. cbn [map app].
    by destruct (map _ b ++ t).
Qed.

Lemma resolve_run_then {A} (rel : string) (k : string → go OsState goerr A) :
  (∀ full, resolved rs full → steps (contained rs) (k full)) →
  steps (contained rs) (let! full := go_lift (ResolveRunRoot rootDir rel) in k full).
Proof.
  intros Hk t. unfold go_bind, go_lift. destruct (ResolveRunRoot rootDir rel) as [full|e] eqn:E; [|simpl; reflexivity].
  apply Hk. destruct (ResolveRunRoot_below _ _ E) as (ws & _ & Hpl & ->). by exists ws.
Qed.

Lemma RemoveAll_contained flt full : resolved rs full → steps (contained rs) (os_RemoveAll flt full).
Proof using Type.
  intros [Hk Hpl]%resolved_key t Ha. split.
  - split.
    + intros pre Hpre Hne. destruct (anc_dirs _ _ Ha pre Hpre Hne) as [mt Hmt]. exists mt. unfold node_at in *.
      rewrite RemoveAll_frame; [done|]. intros Hp. apply Hne. apply (anti_symm prefix); [done|by trans (path_key full)].
    + intros k n Hkn. destruct (RemoveAll_sub flt full t k n Hkn) as [n' Hn]. by apply (anc_plain _ _ Ha k n').
  - intros k Hn. apply RemoveAll_frame. intros Hp. apply Hn. by trans (path_key full).
Qed.

#[local] Hint Resolve MkdirAll_contained MkdirAll_Dir_contained OpenCreate_contained write_contained
  RemoveAll_contained : steps.
Context (flt : Faults) (now : Z).

Lemma EnsureDir_contained (rel : string) : steps (contained rs) (EnsureDir flt now rootDir rel).
Proof. apply resolve_run_then. steps_tac. Qed.
Lemma WriteFixtureFile_contained (rel content : string) :
  steps (contained rs) (WriteFixtureFile flt now rootDir rel content).
Proof. apply resolve_run_then. unfold os_WriteFile. steps_tac. Qed.
Lemma RemoveRunRoot_contained (rel : string) : steps (contained rs) (RemoveRunRoot flt rootDir rel).
Proof. apply resolve_run_then. steps_tac. Qed.

Lemma child_resolved full w : plain w → resolved rs full → resolved rs (JoinPath full w).
Proof.
  intros Hw (es & Hpl & ->). exists (es ++ [w]). rewrite app_assoc, <- (Clean_JoinPath _ [w]) by auto.
  split; [|done]. apply Forall_app. auto.
Qed.
Lemma EnsureCMakeBuildUnit_contained (rel body : string) :
  steps (contained rs) (EnsureCMakeBuildUnit flt now rootDir rel body).
Proof.
  intros t. unfold EnsureCMakeBuildUnit, go_bind at 1. pose proof (EnsureDir_contained rel t) as Hc.
  unfold EnsureDir, go_bind, go_lift in *. destruct (ResolveRunRoot rootDir rel) as [full|e] eqn:E; [|done].
  destruct (ResolveRunRoot_below _ _ E) as (ws & _ & Hpl & ->).
  destruct (os_MkdirAll flt now (abs_path (rs ++ ws)) t) as [t1 [u|e]]; [|done]. cbn in *. trans t1; [done|].
  assert (resolved rs (JoinPath (abs_path (rs ++ ws)) "CMakeLists.txt")) as Hres.
  { apply child_resolved; [by repeat split|by exists ws]. }
  revert t1 Hc. assert (∀ t1, contained rs t1 (os_WriteFile flt now (JoinPath (abs_path (rs ++ ws)) "CMakeLists.txt")
    (bytes_of_string body) t1).1) as Hw; [|auto].
  change (steps (contained rs) (os_WriteFile flt now (JoinPath (abs_path (rs ++ ws)) "CMakeLists.txt") (bytes_of_string body))).
  unfold os_WriteFile. steps_tac.
Qed.

(** *** The directory of a run *)

Lemma pad_no_slash width n : no_char slash (GoTime.pad width n) = true.
Proof.
  unfold GoTime.pad. rewrite no_char_append, pretty_no_slash, andb_true_r.
  induction (width - _)%nat as [|m IH]; [done|]. cbn. by destruct m.
Qed.
Lemma format_stamp_no_slash t : no_char slash (format_stamp (H := 0) t) = true.
Proof.
  unfold format_stamp. destruct (civil _) as [[y m] d]. rewrite !no_char_append, !pad_no_slash. done.
Qed.

Definition run_words (kind : string) (t : Z) : list string := ["qa"; BuildRunID kind t].
Definition run_kinds : list string := ["live"; "soak"; "faults"].

Lemma run_words_plain kind t : kind ∈ run_kinds → Forall plain (run_words kind t).
Proof.
  intros Hk. constructor; [by repeat split|]. constructor; [|done]. unfold BuildRunID.
  repeat split; [..|rewrite !no_char_append, format_stamp_no_slash];
    unfold run_kinds in Hk; set_unfold in Hk; by destruct_or! Hk; subst kind.
Qed.

Lemma run_root_resolved kind t : kind ∈ run_kinds →
  ResolveRunRoot rootDir (BuildRunRelRoot kind t) = Ok (abs_path (rs ++ run_words kind t)).
Proof.
  intros Hk. pose proof (run_words_plain kind t Hk) as Hpl.
  assert (BuildRunRelRoot kind t = Join Separator (run_words kind t)) as ->.
  { rewrite <- Clean_rel_plain by done. unfold BuildRunRelRoot, path_Join. rewrite !filter_cons_True; [done|..|done].
    by apply Forall_cons in Hpl as [_ [[? _] _]%Forall_cons]. }
  assert (Forall plain (rs ++ run_words kind t)) as Happ by (by apply Forall_app).
  unfold ResolveRunRoot, FromSlash. rewrite Hroot, Clean_JoinPath, Clean_abs_path, Rel_below by done.
  cbn [res_bind]. rewrite decide_False by done. by rewrite !bool_decide_eq_false_2.
Qed.
End paths.

(** ** Runs *)

(** A change at or below the directory [rs] only; and nothing is at [k]. *)
Definition stays {M} `{!Machine M} (rs : list string) (s s' : M) : Prop := contained rs (files s) (files s').
Definition gone {M} `{!Machine M} (k : list string) (s : M) : Prop := ∀ ws, is_ok (os_lookup (files s) (k ++ ws)) = false.
(** Time does not run back. *)
Definition later {M} `{!Machine M} (s s' : M) : Prop := time_Now s ≤ time_Now s'.

Section runs.
Context {M : Type} `{!Machine M} `{!MachineLaws M} `{GoUnicode} `{TLS.X509} `{!CertPools}.
Context (dial : ClientConn → Stubs M) (rt : Runtime) (rs : list string).
Context (Hrs : Forall plain rs) (Hroot : Clean (q_RootDir rt) = abs_path rs).

#[export] Instance stays_preorder : PreOrder (stays (M := M) rs).
Proof. split; intros a; unfold stays; [reflexivity|]. intros b c. intros ??. by trans (files b). Qed.

Lemma on_machine_stays {A} (m : go OsState goerr A) : steps (contained rs) m → steps (stays rs) (on_machine m).
Proof.
  intros Hm s. unfold on_machine, stays. specialize (Hm (files s)). destruct (m (files s)) as [t r]. cbn in *.
  by rewrite files_with_files.
Qed.
Lemma sleep_stays d (s : M) : stays rs s (time_Sleep d s).
Proof. unfold stays. rewrite files_sleep. reflexivity. Qed.

Lemma nothing_below t k ws : is_ok (os_lookup t k) = false → is_ok (os_lookup t (k ++ ws)) = false.
Proof.
  intros Hk. destruct (decide (ws = [])) as [->|Hne]; [by rewrite app_nil_r|].
  unfold os_lookup in *. rewrite walk_app by done. by destruct (walk t [] k).
Qed.

Lemma with_cleanup_gone {A} kind t (m : go M QaError A) s : kind ∈ run_kinds →
  gone (rs ++ run_words kind t) (with_cleanup no_faults rt false (BuildRunRelRoot kind t) m s).1.
Proof using All.
  intros Hk ws. unfold with_cleanup, go_catch. destruct (m s) as [s1 r]. unfold go_bind, go_ignore, on_machine.
  unfold RemoveRunRoot, go_bind, go_lift. rewrite (run_root_resolved _ rs) by done. unfold go_map_err.
  assert (Forall plain (rs ++ run_words kind t)) as Hpl by (apply Forall_app; split; [done|by apply run_words_plain]).
  destruct (os_RemoveAll no_faults _ (files s1)) as [t' r'] eqn:E. cbn. rewrite files_with_files.
  apply nothing_below. pose proof (RemoveAll_gone (abs_path (rs ++ run_words kind t)) (files s1)) as Hg.
  rewrite E, path_key_abs_path in Hg by done. apply Hg. by destruct rs.
Qed.

End runs.

(** ** Waiting for a build *)

(** Enough fuel for a loop that advances the clock by [step] in each round. *)
Lemma rounds_enough step total : 0 < step → total ≤ step * (Z.of_nat (S (Z.to_nat (total / step + 1))) - 1).
Proof. intros Hs. pose proof (Z.div_mod total step). pose proof (Z.mod_pos_bound total step Hs). nia. Qed.

Section waiting.
Context {M : Type} `{!Machine M} `{!MachineLaws M} `{GoUnicode} (c : Stubs M) (buildID : string) (timeout : Z).
Context (Hst : steps later (GetBuildStatus c buildID)) (Hlog : steps later (FetchBuildLog c buildID)).

(** A round ends the loop, or brings it half a second closer to the deadline. *)
Lemma wait_poll_result deadline s :
  let '(s', r) := wait_poll c buildID timeout deadline s in
  time_Now s ≤ time_Now s' ∧
  match r with
  | None => time_Now s < deadline ∧ time_Now s + 500000000 ≤ time_Now s'
  | Some (Ok (st, _)) => terminal (Build.r_Status st) = true
  | Some (Err (Failed _)) => deadline ≤ time_Now s'
  | Some (Err _) => True
  end.
Proof using All.
  unfold wait_poll. destruct (Z.ltb_spec (time_Now s) deadline) as [Hlt|Hge]; [|by split; [lia|]].
  unfold call, go_map_err. pose proof (Hst s) as Hs. unfold later in Hs.
  destruct (GetBuildStatus c buildID s) as [s1 [st|e]]; cbn in Hs |- *; [|done].
  destruct (terminal (Build.r_Status st)) eqn:Ht.
  - pose proof (Hlog s1) as Hl. unfold later in Hl.
    destruct (FetchBuildLog c buildID s1) as [s2 [log|e]]; cbn in *; (split; [lia|done]).
  - pose proof (sleep_passes 500000000 s1) as Hp. lia.
Qed.

Lemma wait_loop_ends deadline fuel s : deadline - time_Now s ≤ 500000000 * (Z.of_nat (S fuel) - 1) →
  ∃ s' r, wait_loop c (S fuel) buildID timeout deadline s = (s', Some r) ∧ time_Now s ≤ time_Now s' ∧
    match r with
    | Ok (st, _) => terminal (Build.r_Status st) = true
    | Err (Failed _) => deadline ≤ time_Now s'
    | Err _ => True
    end.
Proof using All.
  revert s. induction fuel as [|fuel IH]; intros s Hf; cbn [wait_loop];
    pose proof (wait_poll_result deadline s) as Hp; destruct (wait_poll c buildID timeout deadline s) as [s1 [r|]];
    [by exists s1, r| |by exists s1, r|]; [lia|].
  destruct (IH s1) as (s' & r & Hw & Hn & Hr); [lia|]. exists s', r. split; [exact Hw|]. split; [lia|done].
Qed.

(** Waiting for a build ends: when calls do not turn the clock back and a
    sleep lasts as long as asked, the polling loop needs no more rounds than
    half seconds fit into the timeout; an answer is of a build that succeeded or
    failed, and the complaint about a build that did not finish comes only
    after the deadline. *)
Theorem build_wait_terminates (s : M) :
  ∃ s' r, wait_loop c (wait_fuel timeout) buildID timeout (time_Now s + timeout) s = (s', Some r) ∧
    WaitBuildTerminal c buildID timeout s = (s', r) ∧ time_Now s ≤ time_Now s' ∧
    match r with
    | Ok (st, _) => terminal (Build.r_Status st) = true
    | Err (Failed _) => time_Now s + timeout ≤ time_Now s'
    | Err _ => True
    end.
Proof using All.
  unfold WaitBuildTerminal, wait_fuel. destruct (wait_loop_ends (time_Now s + timeout) (Z.to_nat (timeout / 500000000 + 1)) s)
    as (s' & r & Hw & Hrest); [pose proof (rounds_enough 500000000 timeout); lia|].
  exists s', r. by rewrite Hw.
Qed.
End waiting.

(** ** The restart probe *)

Definition phase_rank (p : Phase) : nat := match p with PhasePre => 0 | PhaseDown => 1 | PhasePost => 2 end.
Definition in_order (a b : Phase * bool) : Prop := (phase_rank a.1 ≤ phase_rank b.1)%nat.

(** Around an element of an ordered list: what may not come before it comes after. *)
Lemma ordered_split {A} (Q : A → A → Prop) l x : StronglySorted Q l → x ∈ l →
  ∃ l1 l2, l = l1 ++ x :: l2 ∧ ∀ y, y ∈ l → x ≠ y → ¬ Q y x → y ∈ l2.
Proof.
  intros Hs Hx. apply list_elem_of_split in Hx as (l1 & l2 & ->). exists l1, l2. split; [done|]. intros y Hy Hne Hq.
  apply elem_of_app in Hy as [Hy|Hy]; [|by set_solver]. exfalso. apply Hq.
  apply list_elem_of_split in Hy as (a & b & ->). rewrite <- app_assoc in Hs. clear -Hs.
  induction a as [|z a IH]; cbn in Hs; apply StronglySorted_inv in Hs as [Hs Hall]; [|auto].
  rewrite Forall_forall in Hall. apply Hall. set_solver.
Qed.
Lemma ordered_tail {A} (Q : A → A → Prop) l1 l2 : StronglySorted Q (l1 ++ l2) → StronglySorted Q l2.
Proof. induction l1 as [|x l1 IH]; [done|]. cbn. intros [? _]%StronglySorted_inv. auto. Qed.

Section probing.
Context {M : Type} `{!Machine M} `{!MachineLaws M} `{GoUnicode} `{TLS.X509} `{!CertPools} (flt : Faults).
Context (dial : ClientConn → Stubs M) (rt : Runtime) (o : ProbeOptions) (startedAt : Z).
Context (Hdial : ∀ conn, calls_keep later (dial conn)) (Hint : 0 < po_Interval o) (Hdown : 0 ≤ po_Down o).

#[export] Instance later_preorder : PreOrder (later (M := M)).
Proof. split; intros a; unfold later; [lia|]. intros b c. lia. Qed.

Lemma phase_later e e' : e ≤ e' → (phase_rank (phase_at o e) ≤ phase_rank (phase_at o e'))%nat.
Proof using Hdown. intros He. unfold phase_at. repeat case_match; cbn; lia. Qed.

Lemma sleep_later d (s : M) : later s (time_Sleep d s).
Proof using All. unfold later. pose proof (sleep_passes d s). lia. Qed.

(** The probes of the loop are in order, from the phase it starts in. *)
Lemma probe_loop_ends fuel s :
  startedAt + (po_Pre o + po_Down o + po_Post o) - time_Now s ≤ po_Interval o * (Z.of_nat (S fuel) - 1) →
  ∃ s' l, probe_loop flt dial rt (S fuel) o startedAt s = (s', Some l) ∧ StronglySorted in_order l ∧
    Forall (λ p, (phase_rank (phase_at o (time_Now s - startedAt)) ≤ phase_rank p.1)%nat) l.
Proof using All.
  revert s. induction fuel as [|fuel IH]; intros s Hf; cbn [probe_loop];
    (destruct (Z.ltb_spec (time_Now s - startedAt) (po_Pre o + po_Down o + po_Post o)) as [Hlt|Hge];
       [|exists s, []; split; [done|]; split; constructor]); [lia|].
  pose proof (probeOnce_steps flt dial rt later Hdial s) as Hp. unfold later in Hp.
  destruct (probeOnce flt dial rt s) as [s1 r]. cbn in Hp. pose proof (sleep_passes (po_Interval o) s1) as Hsl.
  destruct (IH (time_Sleep (po_Interval o) s1)) as (s' & l & Hl & Hs & Hall); [lia|].
  change (probe_loop flt dial rt (S fuel) o startedAt (time_Sleep (po_Interval o) s1) = (s', Some l)) in Hl.
  cbn [probe_loop] in Hl |- *. rewrite Hl. exists s'. eexists. split; [done|].
  assert (Forall (λ p, (phase_rank (phase_at o (time_Now s - startedAt)) ≤ phase_rank p.1)%nat) l) as Hl'.
  { eapply Forall_impl; [exact Hall|]. intros p Hpp. etrans; [|exact Hpp]. apply phase_later. lia. }
  split; constructor; auto.
Qed.
End probing.

Lemma count_probes_zero p ok l : (count_probes p ok l =? 0)%nat = negb (bool_decide ((p, ok) ∈ l)).
Proof.
  unfold count_probes. destruct (Nat.eqb_spec (length (filter (λ q, q = (p, ok)) l)) 0) as [H0|H0].
  - rewrite bool_decide_eq_false_2; [done|]. intros Hin. apply length_zero_iff_nil in H0.
    assert ((p, ok) ∈ filter (λ q, q = (p, ok)) l) as Hf by (by apply list_elem_of_filter). rewrite H0 in Hf. set_solver.
  - rewrite bool_decide_eq_true_2; [done|]. destruct (filter _ l) as [|q f] eqn:E; [done|].
    assert (q ∈ filter (λ q, q = (p, ok)) l) as Hf by (rewrite E; set_solver). by apply list_elem_of_filter in Hf as [-> ?].
Qed.

(** The verdict on probes that are in order. *)
Lemma verdict_in_order l : StronglySorted in_order l →
  probe_verdict l = Ok tt ↔
  ∃ l1 l2 l3 l4, l = l1 ++ (PhasePre, true) :: l2 ++ (PhaseDown, false) :: l3 ++ (PhasePost, true) :: l4.
Proof.
  intros Hs. unfold probe_verdict. rewrite !count_probes_zero. split.
  - do 3 (case_bool_decide; [|done]). intros _.
    destruct (ordered_split in_order l (PhasePre, true)) as (l1 & r & -> & Hr); [done..|].
    apply ordered_tail, StronglySorted_inv in Hs as [Hs _].
    destruct (ordered_split in_order r (PhaseDown, false)) as (l2 & r' & -> & Hr'); [done| |].
    { apply Hr; [done..|unfold in_order; cbn; lia]. }
    assert ((PhasePost, true) ∈ r') as Hp.
    { apply Hr'; [|done|unfold in_order; cbn; lia]. apply Hr; [done..|unfold in_order; cbn; lia]. }
    apply list_elem_of_split in Hp as (l3 & l4 & ->). by exists l1, l2, l3, l4.
  - intros (l1 & l2 & l3 & l4 & ->). rewrite !bool_decide_eq_true_2 by set_solver. done.
Qed.

Section verdicts.
Context {M : Type} `{!Machine M} `{!MachineLaws M} `{GoUnicode} `{TLS.X509} `{!CertPools} (flt : Faults).
Context (dial : ClientConn → Stubs M) (rt : Runtime).

(** C39: the restart probe ends, and says what it saw: when calls do not turn
    the clock back, the fuel is enough for the rounds of its windows, whatever
    the options are; it passes exactly when a probe succeeded before the
    restart, a later one failed during it, and a still later one succeeded
    after it. *)
Theorem restart_probe_verdict (opts : ProbeOptions) (s : M) :
  (∀ conn, calls_keep later (dial conn)) →
  ∃ s' l, probe_loop flt dial rt (probe_fuel (probe_defaults opts)) (probe_defaults opts) (time_Now s) s = (s', Some l) ∧
    RunRestartProbe flt dial rt opts s = (s', probe_verdict l) ∧
    (probe_verdict l = Ok tt ↔
     ∃ l1 l2 l3 l4, l = l1 ++ (PhasePre, true) :: l2 ++ (PhaseDown, false) :: l3 ++ (PhasePost, true) :: l4).
Proof using All.
  intros Hd. set (o := probe_defaults opts).
  assert (0 < po_Interval o ∧ 0 ≤ po_Down o) as [Hi Hdn].
  { unfold o, probe_defaults. cbn. split; destruct (Z.leb_spec (po_Interval opts) 0), (Z.leb_spec (po_Down opts) 0); lia. }
  destruct (probe_loop_ends flt dial rt o (time_Now s) Hd Hi Hdn
    (Z.to_nat ((po_Pre o + po_Down o + po_Post o) / po_Interval o + 1)) s) as (s' & l & Hl & Hs & _).
  { pose proof (rounds_enough (po_Interval o) (po_Pre o + po_Down o + po_Post o) Hi). lia. }
  exists s', l. unfold RunRestartProbe. fold o. unfold probe_fuel. rewrite Hl. split; [done|]. split; [done|].
  by apply verdict_in_order.
Qed.
End verdicts.
(** ** The soak run *)

Section soaking.
Context {M : Type} `{!Machine M} `{!MachineLaws M} `{GoUnicode} (c : Stubs M) (opts : SoakOptions).
Context (runRoot buildUnit deviceID : string) (deadline : Z) (Hc : calls_keep later c).
Abbreviation adv := (advance c opts runRoot buildUnit deviceID deadline).
Abbreviation runs := (soak_run c opts runRoot buildUnit deviceID deadline).

(** The context of the run is cancelled when a failure was kept. *)
Definition consistent (s : Shared M) : Prop := sh_stopped s = bool_decide (is_Some (sh_err s)).

Lemma fail_consistent e (s : Shared M) : consistent s →
  consistent (fail e s) ∧ sh_err (fail e s) = Some (default e (sh_err s)) ∧ sh_machine (fail e s) = sh_machine s.
Proof. intros Hs. unfold fail. destruct (sh_err s) eqn:E; [|done]. by rewrite E. Qed.

Lemma advance_keeps b g s g' s' e : adv b g s = Some (g', s', e) → consistent s →
  consistent s' ∧ sh_err s' = match sh_err s with Some x => Some x | None => e end.
Proof.
  intros Ha Hs. assert (∀ x (s0 : Shared M), consistent s0 → sh_err s0 = sh_err s →
    consistent (fail x s0) ∧ sh_err (fail x s0) = match sh_err s with Some y => Some y | None => Some x end) as Hf.
  { intros x s0 Hs0 E. destruct (fail_consistent x s0 Hs0) as (Hk & He & _). split; [done|]. rewrite He, E. by destruct (sh_err s). }
  assert (consistent s ∧ sh_err s = match sh_err s with Some y => Some y | None => None end) as Hid by (by destruct (sh_err s)).
  unfold advance in Ha. destruct g as [t|t [|o ops]|t o ops|id until|]; cbn zeta in Ha; try (injection Ha as <- <- <-; exact Hid); [| |done].
  - destruct b.
    + destruct (sh_stopped s); [|done]. injection Ha as <- <- <-. by apply Hf.
    + destruct (op_body _ _ _ _ _ _) as [m [id|err]]; injection Ha as <- <- <-; [exact Hid|]. by apply Hf.
  - destruct (sh_stopped s); [injection Ha as <- <- <-; by apply Hf|].
    destruct (wait_poll _ _ _ _ _) as [m [[[st log]|err]|]]; [|injection Ha as <- <- <-; by apply Hf|by injection Ha as <- <- <-].
    destruct (negb _); injection Ha as <- <- <-; [by apply Hf|exact Hid].
Qed.

Lemma runs_keep st l st' : runs st l st' → consistent st.1 →
  consistent st'.1 ∧ sh_err st'.1 = match sh_err st.1 with Some x => Some x | None => head (omap id l) end.
Proof.
  induction 1 as [[s gs]|s gs d l st Hd _ IH|s gs i g b g' s' e l st Hi Ha _ IH]; cbn in *; intros Hs.
  - split; [done|]. by destruct (sh_err s).
  - by apply IH.
  - destruct (advance_keeps _ _ _ _ _ _ Ha Hs) as [Hs' He]. destruct (IH Hs') as [Hk Hr]. split; [done|].
    rewrite Hr, He. destruct (sh_err s); [done|]. by destruct e.
Qed.

(** The soak run reports the first failure: it passes exactly when no step
    reported one and, if builds were asked for, one succeeded; and once a
    failure was kept no goroutine begins another call. *)
Theorem soak_first_failure m gs l s gs' : runs (new_shared m, gs) l (s, gs') →
  soak_verdict opts s = match omap id l with
                        | e :: _ => Err e
                        | [] => if (0 <? sk_BuildInterval opts) && bool_decide (sh_tally s buildOK = 0%nat)
                                then Err (Failed "soak completed without a successful build") else Ok tt
                        end ∧
  (omap id l ≠ [] → ∀ b t ops g' s' e, adv b (Doing t ops) s = Some (g', s', e) → s' = s ∧ ∀ o ops', g' ≠ Calling t o ops').
Proof.
  intros Hr. destruct (runs_keep _ _ _ Hr) as [Hs He]; [done|]. cbn in Hs, He. split.
  - unfold soak_verdict. rewrite He. by destruct (omap id l).
  - intros Hl b t ops g' s' e Ha. unfold consistent in Hs. rewrite He, bool_decide_eq_true_2 in Hs by (by destruct (omap id l)).
    unfold advance, op_blocked in Ha. destruct ops as [|o ops]; cbn in Ha; [by injection Ha as <- <- <-|]. rewrite Hs in Ha. by injection Ha as <- <- <-.
Qed.

(** *** It winds down *)

(** No round begins any more. *)
Definition over (s : Shared M) : Prop := sh_stopped s = true ∨ deadline ≤ time_Now (sh_machine s).

Definition call_work (o : OpKind) : nat := match o with OpStartBuild => 70 | _ => 1 end.
Definition ops_work (ops : list OpKind) : nat := sum_list_with (λ o, S (call_work o)) ops.
Lemma ops_work_cons o ops : ops_work (o :: ops) = (S (call_work o) + ops_work ops)%nat.
Proof using Type. done. Qed.
(** The steps that a goroutine has left when no round begins. *)
Definition work (s : Shared M) (g : Goroutine) : nat :=
  match g with
  | Finished => 0
  | Loop _ => 1
  | Doing _ ops => 2 + ops_work ops
  | Calling _ o ops => 2 + call_work o + ops_work ops
  | Polling _ until => 2 + Z.to_nat ((until - time_Now (sh_machine s)) / 500000000 + 1)
  end.

Definition passes (s s' : Shared M) : Prop :=
  time_Now (sh_machine s) ≤ time_Now (sh_machine s') ∧ (sh_stopped s = true → sh_stopped s' = true).
Lemma passes_over s s' : passes s s' → over s → over s'.
Proof using Type. intros [Hn Hs] [Ho|Ho]; [left; auto|right; lia]. Qed.
Lemma passes_work s s' g : passes s s' → (work s' g ≤ work s g)%nat.
Proof using Type. intros [Hn _]. destruct g; cbn; try lia. zify. Z.to_euclidean_division_equations. lia. Qed.

Lemma fail_passes e s m : time_Now (sh_machine s) ≤ time_Now m → passes s (fail e (on_sh m s)).
Proof using Type. intros Hm. unfold fail, passes. destruct (sh_err _); by cbn. Qed.
Lemma fail_same e s : passes s (fail e s).
Proof using Type. unfold fail, passes. destruct (sh_err _); by cbn. Qed.

Lemma poll_work now now' until : now < until → now + 500000000 ≤ now' →
  (S (S (S (Z.to_nat ((until - now') / 500000000 + 1)))) ≤ S (S (Z.to_nat ((until - now) / 500000000 + 1))))%nat.
Proof using Type.
  intros Hlt Hle. assert ((until - now') / 500000000 ≤ (until - now + -1 * 500000000) / 500000000) as Hd by (apply Z.div_le_mono; lia).
  rewrite Z.div_add in Hd by lia. pose proof (Z.div_pos (until - now) 500000000). lia.
Qed.

Lemma after_call_work t o ops r s s' s'' : time_Now (sh_machine s'') = time_Now (sh_machine s') →
  (S (work s'' (after_call t o ops r s')) ≤ work s (Calling t o ops))%nat.
Proof using Type.
  intros E. unfold after_call. destruct o, r; cbn; try lia. destruct (_ || _); cbn; [lia|].
  rewrite E. replace (time_Now (sh_machine s') + 30000000000 - time_Now (sh_machine s')) with 30000000000 by lia.
  change (Z.to_nat (30000000000 / 500000000 + 1)) with 61%nat. lia.
Qed.
Lemma fail_machine e (s : Shared M) : sh_machine (fail e s) = sh_machine s.
Proof. unfold fail. by destruct (sh_err s). Qed.

Lemma advance_works b g s g' s' e : adv b g s = Some (g', s', e) →
  passes s s' ∧ (over s → (S (work s' g') ≤ work s g)%nat).
Proof using All.
  assert (passes s s) as Hid by (by split).
  intros Ha. unfold advance, loop_goes, op_blocked in Ha. destruct g as [t|t [|o ops]|t o ops|id until|]; cbn zeta in Ha; [..|done].
  - injection Ha as <- <- <-. split; [done|]. intros [Ho|Ho].
    + rewrite Ho. cbn. lia.
    + destruct (Z.ltb_spec (time_Now (sh_machine s)) deadline); [lia|]. rewrite andb_false_r. cbn. lia.
  - injection Ha as <- <- <-. split; [done|]. intros _. cbn. lia.
  - injection Ha as <- <- <-. split; [done|]. intros _.
    destruct (_ || _); unfold work; rewrite ops_work_cons; lia.
  - destruct b.
    + destruct (sh_stopped s); [|done]. injection Ha as <- <- <-. split; [apply fail_same|]. intros _.
      apply after_call_work. by rewrite fail_machine.
    + pose proof (op_body_steps later c opts buildUnit deviceID o Hc (sh_machine s)) as Hl. unfold later in Hl.
      destruct (op_body _ _ _ _ _ _) as [m [id|err]]; injection Ha as <- <- <-.
      * split; [done|]. intros _. by apply after_call_work.
      * split; [by apply fail_passes|]. intros _. apply after_call_work. by rewrite fail_machine.
  - destruct (sh_stopped s) eqn:Es; [injection Ha as <- <- <-; split; [apply fail_same|]; intros _; cbn; lia|].
    pose proof (wait_poll_result c id 30000000000 (keep_GetBuildStatus _ _ Hc id) (keep_FetchBuildLog _ _ Hc id) until (sh_machine s)) as Hp.
    destruct (wait_poll _ _ _ _ _) as [m [[[st log]|err]|]]; destruct Hp as [Hn Hp].
    + destruct (negb _); injection Ha as <- <- <-; (split; [by first [apply fail_passes|done]|]); intros _; cbn; lia.
    + injection Ha as <- <- <-. split; [by apply fail_passes|]. intros _. cbn. lia.
    + injection Ha as <- <- <-. split; [done|]. intros _. destruct Hp. cbn. by apply poll_work.
Qed.

Definition total_work (s : Shared M) (gs : list Goroutine) : nat := sum_list_with (work s) gs.

Lemma sum_le {A} (f g : A → nat) l : (∀ x, (f x ≤ g x)%nat) → (sum_list_with f l ≤ sum_list_with g l)%nat.
Proof. intros H1. induction l as [|x l IH]; cbn; [done|]. specialize (H1 x). lia. Qed.

Lemma step_works i b g s gs g' s' e : gs !! i = Some g → adv b g s = Some (g', s', e) → over s →
  (S (total_work s' (<[i := g']> gs)) ≤ total_work s gs)%nat ∧ over s'.
Proof using All.
  intros Hi Ha Ho. destruct (advance_works _ _ _ _ _ _ Ha) as [Hp Hw]. specialize (Hw Ho).
  split; [|by apply (passes_over s)]. unfold total_work. rewrite <- (take_drop_middle gs i g Hi) at 2.
  rewrite insert_take_drop by (by eapply lookup_lt_Some). rewrite !sum_list_with_app.
  generalize (take i gs) (drop (S i) gs). intros l1 l2. cbn.
  pose proof (sum_le (work s') (work s) l1 (λ x, passes_work s s' x Hp)).
  pose proof (sum_le (work s') (work s) l2 (λ x, passes_work s s' x Hp)). lia.
Qed.

Lemma sleep_passes_on d s : passes s (on_sh (time_Sleep d (sh_machine s)) s).
Proof using All. split; [cbn; pose proof (sleep_passes d (sh_machine s)); lia|done]. Qed.

Lemma run_bounded st l st' : runs st l st' → over st.1 → (length l ≤ total_work st.1 st.2)%nat.
Proof using All.
  induction 1 as [[s gs]|s gs d l st Hd _ IH|s gs i g b g' s' e l st Hi Ha _ IH]; cbn [fst snd length] in *; intros Ho; [lia|..].
  - pose proof (sleep_passes_on d s) as Hp. specialize (IH (passes_over _ _ Hp Ho)).
    etrans; [exact IH|]. apply sum_le. intros g. by apply passes_work.
  - destruct (step_works _ _ _ _ _ _ _ _ Hi Ha Ho) as [Hw Ho']. specialize (IH Ho'). lia.
Qed.

Lemma advance_ready g s : g ≠ Finished → is_Some (adv false g s).
Proof using Type.
  intros Hg. unfold advance.
  assert (∀ A (x : A), is_Some (Some x)) as Hx by (intros A x; by exists x).
  destruct g as [t|t [|o ops]|t o ops|id until|]; cbn zeta; [apply Hx|apply Hx|apply Hx| | |done].
  - destruct (op_body _ _ _ _ _ _) as [m [id|err]]; apply Hx.
  - destruct (sh_stopped s); [apply Hx|].
    destruct (wait_poll _ _ _ _ _) as [m [[[st log]|err]|]]; [destruct (negb _)|..]; apply Hx.
Qed.

Lemma finishes s gs : over s → ∃ l s' gs', runs (s, gs) l (s', gs') ∧ Forall (λ g, g = Finished) gs'.
Proof using All.
  remember (total_work s gs) as n eqn:E. revert s gs E. induction (lt_wf n) as [n _ IH]. intros s gs -> Ho.
  destruct (decide (Forall (λ g, work s g = 0%nat) gs)) as [Hall|Hex].
  - exists [], s, gs. split; [constructor|]. eapply Forall_impl; [exact Hall|]. by intros [].
  - apply not_Forall_Exists in Hex; [|apply _]. apply Exists_exists in Hex as (g & Hin & Hg).
    apply list_elem_of_lookup in Hin as [i Hi]. destruct (advance_ready g s) as [[[g' s'] e] Ha]; [by intros E; subst g; apply Hg|].
    destruct (step_works _ _ _ _ _ _ _ _ Hi Ha Ho) as [Hw Ho'].
    destruct (IH (total_work s' (<[i := g']> gs))) with (s := s') (gs := <[i := g']> gs) as (l & s2 & gs2 & Hr & Hf);
      [lia|done|done|]. exists (e :: l), s2, gs2. split; [by eapply soak_step|done].
Qed.

(** The soak run ends: whatever the server answers, once the deadline has come
    or a failure was kept, the goroutines together take no more steps than the
    work they have left, and from every state they can all return. *)
Theorem soak_winds_down s gs :
  (over s → ∀ l st, runs (s, gs) l st → (length l ≤ total_work s gs)%nat) ∧
  ∃ l s' gs', runs (s, gs) l (s', gs') ∧ Forall (λ g, g = Finished) gs'.
Proof using All.
  split; [intros Ho l st Hr; by apply (run_bounded _ _ _ Hr)|].
  set (d := Z.max 0 (deadline - time_Now (sh_machine s))).
  destruct (finishes (on_sh (time_Sleep d (sh_machine s)) s) gs) as (l & s' & gs' & Hr & Hf).
  { right. cbn. pose proof (sleep_passes d (sh_machine s)). lia. }
  exists l, s', gs'. split; [|done]. eapply soak_time; [|exact Hr]. lia.
Qed.
End soaking.
End QaTheorems.

(** * The QA suite: examples

    A machine with a server that answers from a counter of versions and is down
    for a while, on which the runs of the suite pass. *)

Module QaExamples.
Import Client QaSuite QaRuns QaSoak QaTheorems.

#[local] Existing Instance ascii_only_unicode.
#[local] Existing Instance TlsExamples.plain_x509.
#[local] Instance no_certificates : CertPools := { pem_certificates _ := []; SystemCertPool := None }.

(** Files, the time, the version of the one file, and the device that registered. *)
Record Toy := mkToy { t_files : OsState; t_now : Z; t_version : Z; t_device : string }.

#[local] Instance toy_machine : Machine Toy := {
  files := t_files;
  with_files t s := mkToy t (t_now s) (t_version s) (t_device s);
  time_Now := t_now;
  time_Sleep d s := mkToy (t_files s) (t_now s + Z.max 0 d) (t_version s) (t_device s);
}.
#[local] Instance toy_laws : MachineLaws Toy.
Proof. by split. Qed.

(** Down from the sixth to the twelfth second; the wrong secret is refused. *)
Definition wrong_secret (o : DialOption) : bool :=
  match o with WithPerRPCCredentials secret => bool_decide (secret = "wrong-secret") | _ => false end.
Definition served {A} (conn : ClientConn) (m : go Toy ClientError A) : go Toy ClientError A := λ s,
  if (6000000000 <=? t_now s) && (t_now s <? 12000000000) then (s, Err (FromTransport "Unavailable" "connection refused"))
  else if existsb wrong_secret (cc_options conn) then (s, Err (FromServer (Status Unauthenticated "invalid shared secret")))
  else m s.
Definition unknown {A} : go Toy ClientError A := go_fail (FromServer (Status NotFound "not found")).
(** A write on the current version, or on none, makes the next one. *)
Definition written (base : Z) : go Toy ClientError (bool * string * Z) := λ s,
  if (base =? 0) || (base =? t_version s)
  then (mkToy (t_files s) (t_now s) (t_version s + 1) (t_device s), Ok (false, "", t_version s + 1))
  else (s, Ok (true, "conflict.roodox-conflict", t_version s)).
Definition record_of (v : Z) : VersionRecord := mkVersionRecord v 0 "" 0 "" "write".
Definition no_file : AdminRuntime.FileStatSnapshot := AdminRuntime.mkFileStat "" false 0 0.
Definition runtime_response : AdminRuntime.GetServerRuntimeResponse := {|
  AdminRuntime.gr_server_id := "srv"; AdminRuntime.gr_listen_addr := ":50051"; AdminRuntime.gr_root_dir := "/srv";
  AdminRuntime.gr_db_path := ""; AdminRuntime.gr_tls_enabled := false; AdminRuntime.gr_auth_enabled := true;
  AdminRuntime.gr_started_at_unix := 0; AdminRuntime.gr_health_state := "ok"; AdminRuntime.gr_health_message := "";
  AdminRuntime.gr_db_file := no_file; AdminRuntime.gr_wal_file := no_file; AdminRuntime.gr_shm_file := no_file;
  AdminRuntime.gr_checkpoint := AdminRuntime.Build_DatabaseCheckpointStatus 0 "" 0 0 0 "";
  AdminRuntime.gr_backup := AdminRuntime.Build_DatabaseBackupStatus "" 0 0 0 "" "" |}.
Definition observability_response : AdminRuntime.GetServerObservabilityResponse := {|
  AdminRuntime.go_write_file_range_calls := 0; AdminRuntime.go_write_file_range_bytes := 0;
  AdminRuntime.go_write_file_range_conflicts := 0; AdminRuntime.go_small_write_bursts := 0;
  AdminRuntime.go_small_write_hot_paths := [];
  AdminRuntime.go_build := AdminRuntime.Build_BuildObservability 0 0 0 0 0 0 0 0 0 0 0;
  AdminRuntime.go_rpc_metrics := [] |}.
Definition info (path : string) : Core.FileInfoPb :=
  {| Core.pi_Path := path; Core.pi_Name := path; Core.pi_IsDir := false; Core.pi_Size := 16; Core.pi_MtimeUnix := 0;
     Core.pi_Version := 1; Core.pi_Hash := "" |}.

(** A build of [missing-build-unit] fails, any other is done after a second. *)
Definition toy_dial (conn : ClientConn) : Stubs Toy := {|
  core_ListDir p := served conn (go_ret [info p]);
  core_Stat p := served conn (go_ret (info p));
  core_ReadFile p := served conn (go_ret (bytes_of_string "hello-live|tail|worker=0|tail=00|"));
  core_ReadFileRange p o l := served conn (go_ret ([], 0));
  core_WriteFileRange p o d v := served conn (let! r := written v in
    go_ret {| Core.wr_BytesWritten := 0; Core.wr_FileSize := 0; Core.wr_NewVersion := r.2; Core.wr_Conflicted := r.1.1; Core.wr_ConflictPath := r.1.2 |});
  core_SetFileSize p n v := served conn (let! r := written v in
    go_ret {| Core.ss_FileSize := 0; Core.ss_NewVersion := r.2; Core.ss_Conflicted := r.1.1; Core.ss_ConflictPath := r.1.2 |});
  sync_WriteFile p d v := served conn (let! r := written v in
    go_ret {| Sync.wf_Conflicted := r.1.1; Sync.wf_ConflictPath := r.1.2; Sync.wf_NewVersion := r.2 |});
  lock_AcquireLock p i n := served conn (go_ret {| LockService.acq_Ok := true; LockService.acq_Owner := i; LockService.acq_ExpireAt := n |});
  lock_RenewLock p i n := served conn (go_ret {| LockService.ren_Ok := true; LockService.ren_ExpireAt := n |});
  lock_ReleaseLock p i := served conn (go_ret true);
  build_StartBuild u t := served conn (go_ret u);
  build_GetBuildStatus i := served conn (let! now := go_get t_now in
    go_ret (if Contains i "missing" then Build.mkStatus "failed" "unsupported build unit" 0 0 ""
            else Build.mkStatus (if now <? 2000000000 then "running" else "success") "" 0 0 "artifact.txt"));
  build_FetchBuildLog i := served conn (go_ret (bytes_of_string "live-qa"));
  build_GetBuildProduct i := served conn (go_ret ("artifact.txt", []));
  version_GetHistory p := served conn (go_ret [record_of 2; record_of 1]);
  version_GetVersion p v := served conn (go_ret (bytes_of_string "hello-live"));
  control_RegisterDevice q := served conn (λ s,
    (mkToy (t_files s) (t_now s) (t_version s) (Control.rq_device_id q), Ok (Control.mkRegisterResponse true "" 30 1 false)));
  control_Heartbeat q := served conn (if bool_decide (Registry.hb_DeviceID q = "unknown-device") then unknown
                                      else go_ret (Control.mkHeartbeatResponse 30 1 [] []));
  control_GetAssignedConfig i := served conn (if bool_decide (i = "unknown-device") then unknown
                                      else go_ret (Control.mkAssignedResponse (Control.mkAssigned "" ["/"] "" false false 0 "" 0) 1));
  control_ReportSyncState q := served conn (go_ret tt);
  admin_ListDevices := served conn (let! i := go_get t_device in go_ret [Control.mkDeviceSummary i "" "" "" "" "" 0 "" "" "" 0]);
  admin_GetServerRuntime := served conn (go_ret runtime_response);
  admin_GetServerObservability := served conn (go_ret observability_response);
  admin_TriggerServerBackup := served conn (go_ret {| AdminRuntime.tb_created_at_unix := 0; AdminRuntime.tb_path := "/backups/1.db" |});
  admin_ShutdownServer r := served conn (go_ret {| AdminRuntime.sh_accepted := true; AdminRuntime.sh_already_in_progress := false;
                                                   AdminRuntime.sh_requested_at_unix := 0; AdminRuntime.sh_message := r |});
  health_Check := served conn (go_ret SERVING);
|}.

(** The calls of the toy leave the files and the clock alone. *)
Definition aside (s s' : Toy) : Prop := t_files s' = t_files s ∧ t_now s' = t_now s.
#[local] Instance aside_preorder : PreOrder aside.
Proof. split; [done|]. intros a b c [F1 T1] [F2 T2]. split; congruence. Qed.

Lemma served_aside {A} conn (m : go Toy ClientError A) : steps aside m → steps aside (served conn m).
Proof. intros Hm s. unfold served. destruct (_ && _); [done|]. destruct (existsb _ _); [done|apply Hm]. Qed.
Lemma written_aside v : steps aside (written v).
Proof. intros s. unfold written. by destruct (_ || _). Qed.
#[local] Hint Resolve written_aside : steps.

Lemma toy_calls conn : calls_keep aside (toy_dial conn).
Proof. split; intros; cbn; apply served_aside; unfold unknown; steps_tac. by intros s. Qed.

Lemma steps_weaken {W E A} (R R' : W → W → Prop) (m : go W E A) : (∀ s s', R s s' → R' s s') → steps R m → steps R' m.
Proof. intros Hr Hm s. apply Hr, Hm. Qed.
Lemma calls_keep_weaken {N} (R R' : N → N → Prop) c : (∀ s s', R s s' → R' s s') → calls_keep R c → calls_keep R' c.
Proof. intros Hr []. split; intros; apply (steps_weaken R); auto. Qed.
Lemma aside_stays rs s s' : aside s s' → stays rs s s'.
Proof. intros [Hf _]. unfold stays. cbn. rewrite Hf. reflexivity. Qed.
Lemma aside_later s s' : aside s s' → later s s'.
Proof. intros [_ Hn]. unfold later. cbn. lia. Qed.

Definition toy_runtime : Runtime :=
  mkQaRuntime "/srv/roodox.config.json" "/srv" "127.0.0.1:50051" "/srv/share/" "secret" false "" "" "srv" true.
Definition toy : Toy := mkToy (<[["srv"] := DirNode 0]> ∅) 0 0 "".

(** The runs pass. *)
Example live_passes : (RunLive no_faults toy_dial toy_runtime false toy).2 = Ok ("/backups/1.db", "qa/live-19700101-000000/build-unit").
Proof. vm_compute. reflexivity. Qed.
Example faults_pass : (RunFaults no_faults toy_dial toy_runtime false toy).2 =
  Ok (mkReport 1 2 "conflict.roodox-conflict" "conflict.roodox-conflict" "conflict.roodox-conflict").
Proof. vm_compute. reflexivity. Qed.
Example probe_passes : (RunRestartProbe no_faults toy_dial toy_runtime (mkProbe 0 0 0 0) toy).2 = Ok tt.
Proof. vm_compute. reflexivity. Qed.
(** A probe in which the server never goes down fails. *)
Example probe_without_restart :
  (RunRestartProbe no_faults toy_dial toy_runtime (mkProbe 1000000000 1000000000 1000000000 500000000) toy).2 =
  Err (Failed "restart probe failed: no failure during restart window").
Proof. vm_compute. reflexivity. Qed.

(** A server that has a secret but does not ask for it fails the fault run,
    which looks at the secret only to see whether calls are guarded. *)
Example faults_without_auth :
  (RunFaults no_faults (λ conn, toy_dial (mkConn (cc_target conn) [])) toy_runtime false toy).2 =
  Err (Failed "expected gRPC status Unauthenticated, got nil").
Proof. vm_compute. reflexivity. Qed.
(** The check of a root that is no certificate reads a fixed key file: where
    the key is elsewhere, its error is another one. *)
Example faults_with_other_key :
  is_ok (expectClientCreateError no_faults toy_dial (ServerConfig.mkConnection "secret" true
    (resolveMaybeRelative "/srv" "certs/roodox-server-key.pem") "") "127.0.0.1:50051" "append tls root certificate failed" toy).2 = false.
Proof. vm_compute. reflexivity. Qed.

(** Every goroutine in turn, with a tenth of a second between the turns. *)
Fixpoint drive (rounds : nat) (o : SoakOptions) (deadline : Z) (x : Shared Toy * list Goroutine) : Shared Toy * list Goroutine :=
  match rounds with
  | O => x
  | S rounds =>
      drive rounds o deadline (foldl (λ x i,
        match x.2 !! i with
        | Some g =>
            match advance (toy_dial (mkConn "" [])) o "qa/soak" "qa/soak/build-unit" "qa-1" deadline false g x.1 with
            | Some (g', s', _) => (s', <[i := g']> x.2)
            | None => x
            end
        | None => x
        end) (on_sh (time_Sleep 100000000 (sh_machine x.1)) x.1, x.2) (seq 0 (length x.2)))
  end.
Definition soaked (o : SoakOptions) : Shared Toy * list Goroutine := drive 80 o 3000000000 (new_shared toy, goroutines o).

(** A run of one worker passes; with builds, it does as soon as one is done. *)
Example soak_passes :
  soak_verdict (mkSoak 3000000000 1 1 true) (soaked (mkSoak 3000000000 1 1 true)).1 = Ok tt ∧
  map (sh_tally (soaked (mkSoak 3000000000 1 1 true)).1) [writeOps; readOps; historyOps; lockOps; heartbeatOps; syncOps; adminOps; buildOps; buildOK] =
    [2; 1; 1; 2; 2; 3; 6; 3; 3]%nat ∧
  Forall (λ g, g = Finished) (soaked (mkSoak 3000000000 1 1 true)).2.
Proof. vm_compute. split; [reflexivity|]. split; [reflexivity|by repeat constructor]. Qed.
(** A second worker reads the file of the first, and that is the failure that
    is reported. *)
Example soak_fails :
  soak_verdict (mkSoak 3000000000 2 0 true) (soaked (mkSoak 3000000000 2 0 true)).1 =
  Err (Failed ("ReadFile(qa/soak/worker-1.txt) returned unexpected payload: " +:+ Quote "hello-live|tail|worker=0|tail=00|")).
Proof. vm_compute. reflexivity. Qed.

(** *** Witnesses *)


Lemma build_wait_terminates_witness : ∃ s' r,
  wait_loop (toy_dial (mkConn "" [])) (wait_fuel 15000000000) "unit" 15000000000 (time_Now toy + 15000000000) toy = (s', Some r) ∧
  WaitBuildTerminal (toy_dial (mkConn "" [])) "unit" 15000000000 toy = (s', r) ∧ time_Now toy ≤ time_Now s' ∧
  match r with
  | Ok (st, _) => terminal (Build.r_Status st) = true
  | Err (Failed _) => time_Now toy + 15000000000 ≤ time_Now s'
  | Err _ => True
  end.
Proof.
  apply (build_wait_terminates (toy_dial (mkConn "" [])) "unit" 15000000000).
  - intros s. apply aside_later. apply (keep_GetBuildStatus aside), toy_calls.
  - intros s. apply aside_later. apply (keep_FetchBuildLog aside), toy_calls.
Defined.

Lemma restart_probe_verdict_witness : ∃ s' l,
  probe_loop no_faults toy_dial toy_runtime (probe_fuel (probe_defaults (mkProbe 0 0 0 0))) (probe_defaults (mkProbe 0 0 0 0)) (time_Now toy) toy
    = (s', Some l) ∧
  RunRestartProbe no_faults toy_dial toy_runtime (mkProbe 0 0 0 0) toy = (s', probe_verdict l) ∧
  (probe_verdict l = Ok tt ↔
   ∃ l1 l2 l3 l4, l = l1 ++ (PhasePre, true) :: l2 ++ (PhaseDown, false) :: l3 ++ (PhasePost, true) :: l4).
Proof.
  apply (restart_probe_verdict no_faults toy_dial toy_runtime (mkProbe 0 0 0 0) toy).
  intros conn. eapply calls_keep_weaken; [apply aside_later|apply toy_calls].
Defined.
End QaExamples.
